(* ===== verification/_CoqProject ===== *)
-Q . S2P
Prelude.v
GoStrings.v
GoFloat.v
GoTime.v
Kube.v
OpenSearchAPI.v
WazuhAPI.v
DrainState.v
DrainDetect.v
DrainRetry.v
IndexerDrain.v
ManagerDrain.v
Cluster.v
ClientFactory.v
Rollback.v
DrainGate.v
ScaleDown.v
Rolling.v
NodePoolDrain.v
DrainController.v
Rollouts.v
Workload.v
NodePools.v
Maintenance.v
Versions.v
Certificates.v
HotReload.v
CertReconcile.v
ClusterStatus.v
Credentials.v
Storage.v
Reconcile.v
RestAPI.v
OSResources.v
SecuritySync.v
SnapshotAPI.v
Snapshots.v
Repositories.v
BackupJobs.v
Backups.v
Pods.v
OssecConf.v
ManagerPods.v
PodChecks.v
IndexerPods.v
DashboardPods.v
SpecChanges.v
ContentChecks.v
Contents.v
