(* ===== verification/Prelude.v ===== *)
(** * Wazuh operator: verification library

    The operator ([src/]) reconciles a [WazuhCluster] custom resource into an
    OpenSearch indexer, Wazuh manager master and workers, and a dashboard, and
    keeps them running.  Its dangerous moments are the ones in which it takes
    pods away from services that hold data: scaling a StatefulSet down, which
    must first move the shards off an indexer node or let a worker's event
    queue run empty, and restarting pods after a change.  This library models
    those parts as they are written and proves what they guarantee, and, where
    they guarantee less than they set out to, exactly when.  Around them it
    models what makes pods restart in the first place: the workloads the
    operator applies, the rollouts it waits for, and the certificates it
    issues, renews and reloads.

    ** How the parts interact

    [controllers/wazuhcluster_controller.go], [Reconcile], runs the stages of
    [DrainController] in order on one [WazuhCluster]: it initialises the drain
    status, checks the end of a rollback, handles due retries, evaluates the
    dry run, then asks the scale-down gate of the indexer ([ScaleDown],
    [NodePoolDrain]) and of the workers ([ScaleDown]) whether the StatefulSet
    may be updated; what they decided is written back to the resource
    ([RetryOnConflict]).  A gate detects a scale-down ([DrainDetect]), starts a
    drainer ([IndexerDrain], [ManagerDrain]), and moves the component's status
    through the state machine of [DrainState], one step per reconcile.  The
    drainers talk to the servers through API clients ([OpenSearchAPI],
    [WazuhAPI]) that the reconcilers build from secrets and keep
    ([ClientFactory], [ScaleDown]).  A retry waits according to [DrainRetry];
    a rollback puts replicas back ([Rollback]).  Rolling restarts ([Rolling])
    delete one outdated pod per reconcile behind a health check.

    The same [Reconcile] runs the certificate reconciler ([CertReconcile])
    first.  It keeps the authority and the leaf secrets of [Certificates],
    postpones renewals to the windows of [Maintenance], lets the running pods
    load renewed files ([HotReload]) where their version can ([Versions]), and
    returns the hashes of the certificates.  The component reconcilers write
    these hashes, with the ones of the configuration, as annotations of the
    StatefulSets and the Deployment ([Workload]): a changed annotation is an
    update, the update starts a rollout, and the rollout stays in the status
    of the resource until it is complete ([Rollouts]).  Node pools pass the
    checks of [NodePools] before their StatefulSets and drains exist.

    ** Files

    - [Prelude]: Go integers, results, the state-and-error monad [IO], the
      automation and the hint database [wazuh].
    - [GoStrings], [GoFloat]: what the code uses of [strings], [strconv],
      [fmt], [float64] and [time.Duration].
    - [Kube]: the objects' fields and the class [KubeClient] (the API server),
      with [RetryOnConflict] of [internal/utils/retry.go].
    - [OpenSearchAPI] ([internal/opensearch/api/cluster_api.go]) and [WazuhAPI]
      ([internal/adapters/wazuh_api_adapter.go]): the clients over the classes
      [OpenSearchService] and [WazuhService] (the servers).
    - [DrainState] ([internal/shared/drain/state.go]): status record, table of
      transitions, every operation; [drain_op]/[apply_op] are their sequences.
    - [DrainDetect] ([internal/shared/drain/detection.go]): which pods go.
    - [DrainRetry] ([internal/wazuh/drain/retry.go]): backoff.
    - [IndexerDrain] ([internal/opensearch/drain/indexer_drain.go]): shard
      drain, node pools included.
    - [ManagerDrain] ([internal/wazuh/drain/manager_drain.go]): queue drain.
    - [Cluster] ([api/v1]): the fields and methods of the custom resource.
    - [ClientFactory] ([internal/opensearch/security/client_factory.go]):
      credentials and the cache of clients.
    - [Rollback] ([internal/wazuh/drain/rollback.go]).
    - [DrainGate]: [CheckScaleDownDrain] and its helpers, written once against
      the interface [DrainTarget] because the indexer's and the worker's
      reconcilers have the same code over different drainers.
    - [ScaleDown]: its two instances ([indexer_reconciler.go],
      [worker_reconciler.go]) with the clients the reconcilers cache.
    - [Rolling] ([internal/shared/rolling], [cluster_rolling_restart.go],
      [indexer_rolling_restart.go] and both health checks).
    - [NodePoolDrain] ([checkNodePoolScaleDownDrain]).
    - [DrainController]: the drain stages of [Reconcile].
    - [Rollouts] ([internal/utils/rollout.go], the tracking of rollouts in
      [wazuhcluster_controller.go]): readiness of workloads, waits, pending
      rollouts.
    - [Workload]: the create, update and skip decisions of the indexer's,
      master's, workers' and dashboard's StatefulSets and Deployment, and the
      hashes they compare; one body, [apply_workload], with the handlers as
      its instances.
    - [NodePools] ([internal/opensearch/validation]): admission of node pools.
    - [Maintenance] ([internal/utils/maintenance.go], the schedule part of
      [internal/certificates]): windows, cron schedules, renewal times.
    - [Versions] ([pkg/versions], [internal/utils/version.go]).
    - [Certificates]: options, names, authority, leaves and their secrets.
    - [HotReload] ([internal/certificates/hotreload.go] and the propagation
      waits): exec and HTTP reloads on the pods.
    - [CertReconcile]: [ReconcileWithHashes] and what its hashes lead to.
    - [ClusterStatus]: phases, conditions and the status that [Reconcile]
      writes at its end.

    ** Conventions

    - A pointer or value the code compares with [nil] is an [option]; a Go
      error is its message ([error]), a call that may fail is a [result], and
      a call that can also panic is an [outcome].
    - Code with effects is [IO S A], from a state to a result and a state.  The
      state pairs what the receiver's struct remembers with a world [W] that
      only the interfaces change: any API server and any OpenSearch or Wazuh
      server is an instance, the world may change by itself between calls, and
      a theorem over [W] holds for all of them.  What a theorem needs of a
      server (that it stores what it is told, that it moves shards) is a class
      of laws or a hypothesis, and its witness runs a concrete server (the
      modules [Sim...]; they are not models of code).
    - [time.Now()] is the argument [now], one instant per handler, in
      nanoseconds; the readings within one handler are taken to be equal.
    - [int32] and [int64] arithmetic wraps ([wrap32], [wrap64]); [float64] is
      IEEE binary64.  A Go string is its bytes.
    - SHA-256, the PEM parser and the cluster's DNS domain are parameters; so
      are, for the certificates, the issuing and parsing of X.509 and PKCS#8,
      the cron parser with its [Next], the time zones and the JSON of the
      dashboard's status.
    - Logs, metrics, events and traces have no effect on the modelled state
      and are left out; contexts end where the code waits on them
      ([wait_event]).

    ** Fuel and bounds

    [wait_loop] consumes the list of events that the ticker and the context
    deliver: [wait_for_drain] shows that the loop has returned by the first
    event past the timeout.  [RetryOnConflict] runs at most four times, which
    is its own bound.  The waits of [HotReload] poll with a pause of at least a
    second for at most sixty: their fuel of 62 turns is more than they can
    take, and the propagation wait returns when its timeout is below the fuel
    times its pause of five seconds (a hypothesis its witness meets).
    [check_windows] walks the windows of a list.  [backoff_loop] counts the attempts down, as the code's
    loop counts up.  The target pods of a scale-down are listed by counting
    the ordinals down from the replicas.

    ** What the theorems show

    - State machine: [Complete] is only reached through [Pending], [Draining]
      and [Verifying]; the status record stays well formed over any history.
    - Gate: every run is a step of the abstract specification [gate_effect];
      over any history of runs and restarts of the operator, a scale-down that
      proceeds as drained was verified on its own target; with cooperating
      servers a drain gets to the end; the ways around a drain, completely.
    - Drainers: the verdict of a verification is exactly what the servers
      answered; the wait returns by its timeout; exclusions are read back and
      cleared; the grace period of a queue is real quiet time; node pools keep
      a quorum.
    - End to end: [indexer_scale_down_safe] composes detection, client,
      drainer, state machine and gate on one server.
    - Clients: the client is the one of the cluster's current secrets in the
      factory, and not in the reconcilers that cache one.
    - Rolling restarts: a refinement of a one-pod-at-a-time step relation, the
      health conditions of a deletion, convergence to the new revision.
    - Control: dry run, retries, rollback and the write-back of the status.
    - Workloads: the four handlers refine one abstract decision; after one
      reconcile the next one changes nothing; a rollout ends exactly when the
      workload is ready, over any history of statuses.
    - Certificates: a leaf is kept, renewed or issued by stated conditions;
      every certificate passes the check of its own names; the reconciler
      reaches a fixed point; a renewed authority leaves the leaves it signed;
      a renewal is postponed to the next window and not past it; the verdict
      of a hot reload names the pods that failed.
    - Admission: the node pools that pass are exactly the well formed ones,
      and the drain's own checks agree with the admission.

    ** What is not modelled

    The builders of Kubernetes objects and configuration files (their results
    are what [Workload] compares and stores, as parameters), networking,
    monitoring, backups and the OpenSearch security resources: see the plan.
    [internal/wazuh/drain/dryrun.go] ([DryRunEvaluator]) and
    [internal/opensearch/drain/shard_relocator.go] ([ShardRelocator]) are not
    called by the operator, nor are [VerifyPodCertSync] and the reload with a
    fallback.  The standalone [WazuhCertificate] resource and the metrics of
    expiry are left out.  Waiting times of retries (jitter), HTTP, TLS and
    JSON decoding belong to the interfaces.

    ** Plan

    Next, in this order: rotation of the API and authd credentials
    ([wazuhcluster_controller.go]); change detection and patches
    ([internal/shared/patch], [internal/shared/config]); storage expansion
    ([internal/shared/storage]); the security synchroniser
    ([internal/opensearch/security]); backup and restore; the admission of the
    remaining resources. *)
From stdpp Require Export base option list gmap strings pretty numbers sorting.
From Stdlib Require Export ZArith Lia.
#[global] Open Scope Z_scope.
#[global] Open Scope string_scope.
#[global] Open Scope list_scope.

(** ** Go integers *)

(** [int32] and [int64] arithmetic wraps around silently. *)
Definition wrap32 (z : Z) : Z := (z + 2 ^ 31) mod 2 ^ 32 - 2 ^ 31.
Definition wrap64 (z : Z) : Z := (z + 2 ^ 63) mod 2 ^ 64 - 2 ^ 63.

Definition int32 (z : Z) : Prop := - 2 ^ 31 <= z < 2 ^ 31.
Definition int64 (z : Z) : Prop := - 2 ^ 63 <= z < 2 ^ 63.

#[export] Instance int32_dec z : Decision (int32 z).
Proof. unfold int32. apply _. Defined.
#[export] Instance int64_dec z : Decision (int64 z).
Proof. unfold int64. apply _. Defined.

Lemma wrap32_id z : int32 z -> wrap32 z = z.
Proof. unfold int32, wrap32. intros H. rewrite Z.mod_small; lia. Qed.

Lemma wrap64_id z : int64 z -> wrap64 z = z.
Proof. unfold int64, wrap64. intros H. rewrite Z.mod_small; lia. Qed.

Lemma wrap32_range z : int32 (wrap32 z).
Proof.
  unfold int32, wrap32. pose proof (Z.mod_pos_bound (z + 2 ^ 31) (2 ^ 32)). lia.
Qed.

Lemma wrap64_range z : int64 (wrap64 z).
Proof.
  unfold int64, wrap64. pose proof (Z.mod_pos_bound (z + 2 ^ 63) (2 ^ 64)). lia.
Qed.

(** ** Errors

    A Go [error] is its message; a function returning [(T, error)] returns a
    [result T].  [fmt.Errorf "ctx: %w"] is [wrapf "ctx"]. *)
Abbreviation error := string.

Inductive result (A : Type) : Type :=
| Ok (a : A)
| Err (e : error).
Arguments Ok {A} a.
Arguments Err {A} e.

Definition is_some {A} (o : option A) : bool := match o with Some _ => true | None => false end.

Definition is_ok {A} (r : result A) : bool :=
  match r with Ok _ => true | Err _ => false end.

Definition errorf (ctx : string) (e : error) : error := ctx +:+ ": " +:+ e.

Definition wrapf {A} (ctx : string) (r : result A) : result A :=
  match r with Ok a => Ok a | Err e => Err (errorf ctx e) end.

#[export] Instance result_eq_dec {A} `{EqDecision A} : EqDecision (result A).
Proof. solve_decision. Defined.

(** Effectful code: a state [S] (struct fields, the world outside) is threaded
    through every call, an error stops the sequence and keeps the state
    reached so far. *)
Definition IO (S A : Type) : Type := S -> result A * S.

Definition io_ret {S A} (a : A) : IO S A := fun s => (Ok a, s).
Definition io_err {S A} (e : error) : IO S A := fun s => (Err e, s).
Definition io_bind {S A B} (m : IO S A) (k : A -> IO S B) : IO S B :=
  fun s => match m s with
           | (Ok a, s') => k a s'
           | (Err e, s') => (Err e, s')
           end.
(** Runs [m] and hands its outcome, error or not, to [k]: the Go idiom where
    the error is inspected rather than returned. *)
Definition io_try {S A B} (m : IO S A) (k : result A -> IO S B) : IO S B :=
  fun s => let '(r, s') := m s in k r s'.
Definition io_wrap {S A} (ctx : string) (m : IO S A) : IO S A :=
  fun s => let '(r, s') := m s in (wrapf ctx r, s').
Definition io_get {S} : IO S S := fun s => (Ok s, s).
Definition io_modify {S} (f : S -> S) : IO S unit := fun s => (Ok tt, f s).
(** Lifts an operation on the world to a state that pairs it with a struct. *)
Definition io_world {D W A} (m : IO W A) : IO (D * W) A :=
  fun '(d, w) => let '(r, w') := m w in (r, (d, w')).

Declare Scope go_scope.
Delimit Scope go_scope with go.
Notation "x <- m ;; k" := (io_bind m (fun x => k))
  (at level 100, m at next level, right associativity) : go_scope.
Notation "'try' x <- m ;; k" := (io_try m (fun x => k))
  (at level 100, x name, m at next level, right associativity) : go_scope.
Notation "m ;;; k" := (io_bind m (fun _ => k))
  (at level 100, right associativity) : go_scope.

(** *** Successful runs *)

Lemma wrapf_ok {A} c (r : result A) a : wrapf c r = Ok a <-> r = Ok a.
Proof. destruct r; cbn; split; intros; by simplify_eq. Qed.

Lemma io_bind_ok {S A B} (m : IO S A) (k : A -> IO S B) s b s' :
  io_bind m k s = (Ok b, s') <-> exists a s1, m s = (Ok a, s1) /\ k a s1 = (Ok b, s').
Proof.
  unfold io_bind. destruct (m s) as [[a|e] s1]; split; intros H.
  - eauto.
  - by destruct H as (? & ? & ? & ?); simplify_eq.
  - done.
  - by destruct H as (? & ? & ? & ?).
Qed.

(** Two sequences agree where their parts agree. *)
Lemma io_bind_ext {S A B} (m m' : IO S A) (k k' : A -> IO S B) s :
  m s = m' s -> (forall a s', m' s = (Ok a, s') -> k a s' = k' a s') ->
  io_bind m k s = io_bind m' k' s.
Proof. unfold io_bind. intros ->. destruct (m' s) as [[a|e] s']; auto. Qed.

Lemma io_try_ext {S A B} (m m' : IO S A) (k : result A -> IO S B) s :
  m s = m' s -> io_try m k s = io_try m' k s.
Proof. unfold io_try. by intros ->. Qed.

(** Running the first part. *)
Lemma io_bind_run {S A B} (m : IO S A) (k : A -> IO S B) s a s' :
  m s = (Ok a, s') -> io_bind m k s = k a s'.
Proof. unfold io_bind. by intros ->. Qed.
Lemma io_bind_fail {S A B} (m : IO S A) (k : A -> IO S B) s e s' :
  m s = (Err e, s') -> io_bind m k s = (Err e, s').
Proof. unfold io_bind. by intros ->. Qed.
Lemma io_try_run {S A B} (m : IO S A) (k : result A -> IO S B) s r s' :
  m s = (r, s') -> io_try m k s = k r s'.
Proof. unfold io_try. by intros ->. Qed.

Lemma io_wrap_ok {S A} c (m : IO S A) s a s' :
  io_wrap c m s = (Ok a, s') <-> m s = (Ok a, s').
Proof.
  unfold io_wrap. destruct (m s) as [r s1]. split; intros; simplify_eq; [|done].
  by destruct r; simplify_eq/=.
Qed.

Lemma io_wrap_snd {S A} c (m : IO S A) s : (io_wrap c m s).2 = (m s).2.
Proof. unfold io_wrap. by destruct (m s). Qed.

Lemma io_world_ok {D W A} (m : IO W A) (d : D) w r s' :
  io_world m (d, w) = (r, s') <-> exists w', s' = (d, w') /\ m w = (r, w').
Proof.
  unfold io_world. destruct (m w) as [r1 w1]. split.
  - intros; simplify_eq. eauto.
  - by intros (? & -> & ?); simplify_eq.
Qed.

Lemma read_ok {D W A} c (m : IO W A) (d : D) w a s' :
  io_wrap c (io_world m) (d, w) = (Ok a, s') <-> exists w', s' = (d, w') /\ m w = (Ok a, w').
Proof. rewrite io_wrap_ok. apply io_world_ok. Qed.

(** *** Operations that only read the struct *)

Definition frames {D W A} (m : IO (D * W) A) : Prop :=
  forall d w, exists w', (m (d, w)).2 = (d, w').

Lemma frames_world {D W A} (m : IO W A) : frames (io_world (D := D) m).
Proof. intros d w. unfold io_world. destruct (m w) as [r w']. by exists w'. Qed.

Lemma frames_ret {D W A} (a : A) : frames (D := D) (W := W) (io_ret a).
Proof. intros d w. by exists w. Qed.

Lemma frames_err {D W A} e : frames (D := D) (W := W) (A := A) (io_err e).
Proof. intros d w. by exists w. Qed.

Lemma frames_wrap {D W A} c (m : IO (D * W) A) : frames m -> frames (io_wrap c m).
Proof. intros Hm d w. rewrite io_wrap_snd. apply Hm. Qed.

Lemma frames_bind {D W A B} (m : IO (D * W) A) (k : A -> IO (D * W) B) :
  frames m -> (forall a, frames (k a)) -> frames (io_bind m k).
Proof.
  intros Hm Hk d w. unfold io_bind. destruct (Hm d w) as [w' Hw].
  destruct (m (d, w)) as [[a|e] s]; cbn in Hw; subst s; [apply Hk|by exists w'].
Qed.

(** *** What a computation does to a part of the state

    [keeps R m]: the state after [m], whatever its answer, is related to the one
    before.  [post Q m]: every answer of [m] satisfies [Q]. *)

Definition keeps {S A} (R : S -> S -> Prop) (m : IO S A) : Prop := forall s, R s (m s).2.

Section Keeps.
Context {S : Type} (R : S -> S -> Prop) `{!PreOrder R}.

Lemma keeps_ret {A} (a : A) : keeps R (io_ret a).
Proof. intros s. reflexivity. Qed.
Lemma keeps_err {A} e : keeps R (io_err (A := A) e).
Proof. intros s. reflexivity. Qed.
Lemma keeps_get : keeps R io_get.
Proof. intros s. reflexivity. Qed.
Lemma keeps_modify f : (forall s, R s (f s)) -> keeps R (io_modify f).
Proof. intros H s. apply H. Qed.
Lemma keeps_wrap {A} c (m : IO S A) : keeps R m -> keeps R (io_wrap c m).
Proof. intros H s. rewrite io_wrap_snd. apply H. Qed.
Lemma keeps_try {A B} (m : IO S A) (k : result A -> IO S B) :
  keeps R m -> (forall r, keeps R (k r)) -> keeps R (io_try m k).
Proof.
  intros Hm Hk s. specialize (Hm s). unfold io_try. destruct (m s) as [r s']. etrans; [exact Hm|apply Hk].
Qed.
Lemma keeps_bind {A B} (m : IO S A) (k : A -> IO S B) :
  keeps R m -> (forall a, keeps R (k a)) -> keeps R (io_bind m k).
Proof.
  intros Hm Hk s. specialize (Hm s). unfold io_bind. destruct (m s) as [[a|e] s'];
    [etrans; [exact Hm|apply Hk]|exact Hm].
Qed.
End Keeps.

Definition post {S A} (Q : A -> Prop) (m : IO S A) : Prop :=
  forall s, match (m s).1 with Ok a => Q a | Err _ => True end.

Lemma post_ret {S A} (Q : A -> Prop) a : Q a -> post (S := S) Q (io_ret a).
Proof. by intros H s. Qed.
Lemma post_err {S A} (Q : A -> Prop) e : post (S := S) Q (io_err e).
Proof. by intros s. Qed.
Lemma post_any {S A} (m : IO S A) : post (fun _ => True) m.
Proof. intros s. by destruct (m s).1. Qed.
Lemma post_try {S A B} (Q : B -> Prop) (m : IO S A) (k : result A -> IO S B) :
  (forall r, post Q (k r)) -> post Q (io_try m k).
Proof. intros Hk s. unfold io_try. destruct (m s) as [r s']. apply Hk. Qed.
Lemma post_bind {S A B} (Q : A -> Prop) (Q' : B -> Prop) (m : IO S A) (k : A -> IO S B) :
  post Q m -> (forall a, Q a -> post Q' (k a)) -> post Q' (io_bind m k).
Proof.
  intros Hm Hk s. specialize (Hm s). unfold io_bind. destruct (m s) as [[a|e] s']; [by apply Hk|done].
Qed.
(** Where the first answer does not matter. *)
Lemma post_after {S A B} (Q : B -> Prop) (m : IO S A) (k : A -> IO S B) :
  (forall a, post Q (k a)) -> post Q (io_bind m k).
Proof. intros Hk. apply (post_bind (fun _ => True)); [apply post_any|auto]. Qed.

(** ** Lists *)

Lemma checked_some {A} (f : A -> bool) (o : option A) :
  match o with Some a => f a | None => false end = true -> exists a, o = Some a /\ f a = true.
Proof. destruct o as [a|]; [|done]. by exists a. Qed.

Lemma last_default {A} (x : A) l a b : List.last (x :: l) a = List.last (x :: l) b.
Proof. revert x. induction l as [|y l IH]; intros x; [done|]. apply (IH y). Qed.

(** ** Automation *)

Create HintDb wazuh.
#[export] Hint Resolve wrap32_range wrap64_range : wazuh.
#[export] Hint Resolve frames_world frames_ret frames_err frames_wrap frames_bind : wazuh.
Create HintDb keeps.

(** Case analysis on every [match]/[if] of the goal or of hypothesis [H]. *)
Ltac break_in H :=
  repeat (match type of H with
          | context [match ?x with _ => _ end] => destruct x eqn:?
          end; simplify_eq/=).
Ltac break_goal :=
  repeat (match goal with
          | |- context [match ?x with _ => _ end] => destruct x eqn:?
          end; simplify_eq/=).

(** [keeps] and [post] by the structure of the code; what is left are its
    calls. *)
Ltac keeps_auto :=
  repeat (cbn zeta; match goal with
  | |- keeps _ (match ?x with _ => _ end) => destruct x
  | |- PreOrder _ => exact _
  | |- forall _, _ => intros ?
  | |- keeps _ (io_bind _ _) => apply keeps_bind
  | |- keeps _ (io_try _ _) => apply keeps_try
  | |- keeps _ (io_wrap _ _) => apply keeps_wrap
  | |- keeps _ (io_ret _) => apply keeps_ret
  | |- keeps _ (io_err _) => apply keeps_err
  | |- keeps _ io_get => apply keeps_get
  | |- keeps _ _ => solve [auto with keeps]
  end).
Ltac post_auto :=
  repeat (cbn zeta; match goal with
  | |- post _ (match ?x with _ => _ end) => destruct x eqn:?
  | |- post _ (io_ret _) => apply post_ret
  | |- post _ (io_err _) => apply post_err
  | |- post _ (io_try _ _) => apply post_try; intros ?
  | |- post _ (io_bind _ _) => apply post_after; intros ?
  end).

(** [done]-style finisher for goals that are conjunctions of arithmetic and
    propositional facts. *)
Ltac solve_side := repeat split; intros; simplify_eq/=; eauto with wazuh; try lia; try done.
