(* ===== verification/GoStrings.v ===== *)
(** * Strings of the Go standard library

    The parts of [strings], [strconv] and [fmt] that the operator uses:
    prefixes and suffixes, splitting, decimal numbers both ways and the [%d]
    verb of [fmt.Sscanf].  A Go string is its bytes; [fmt.Sprintf "%d"] and
    [strconv.Itoa] are stdpp's [pretty]. *)
From S2P Require Import Prelude.
From Stdlib Require Import Ascii.
Local Open Scope string_scope.
Local Open Scope list_scope.

(** ** package strings *)

Fixpoint HasPrefix (s p : string) : bool :=
  match p, s with
  | "", _ => true
  | String a p', String b s' => bool_decide (a = b) && HasPrefix s' p'
  | _, "" => false
  end.

(** What is left of [s] after the prefix [p]. *)
Fixpoint strip_prefix (p s : string) : option string :=
  match p, s with
  | "", _ => Some s
  | String a p', String b s' => if decide (a = b) then strip_prefix p' s' else None
  | _, "" => None
  end.

Definition TrimPrefix (s p : string) : string := default s (strip_prefix p s).

(** Shell text; a backquote stands for a double quote. *)
Fixpoint shell (s : string) : string :=
  match s with
  | "" => ""
  | String a s' => String (if bool_decide (a = "`"%char) then Ascii.ascii_of_nat 34 else a) (shell s')
  end.

(** [%q], of a string without characters to escape *)
Definition quoted (s : string) : string :=
  let q := String (ascii_of_nat 34) "" in q +:+ s +:+ q.

Definition HasSuffix (s p : string) : bool := HasPrefix (String.rev s) (String.rev p).

(** [strings.TrimSuffix] *)
Definition TrimSuffix (s suffix : string) : string :=
  if HasSuffix s suffix then String.substring 0 (String.length s - String.length suffix) s else s.

(** [strings.Contains] *)
Fixpoint Contains (s sub : string) : bool :=
  HasPrefix s sub ||
  match s with
  | "" => false
  | String _ s' => Contains s' sub
  end.

(** [strings.Split] on a separator of one byte: never empty. *)
Fixpoint Split (sep : ascii) (s : string) : list string :=
  match s with
  | "" => [""]
  | String a s' =>
      if decide (a = sep) then "" :: Split sep s'
      else match Split sep s' with
           | w :: ws => String a w :: ws
           | [] => [String a ""]
           end
  end.

Fixpoint Join (sep : string) (l : list string) : string :=
  match l with
  | [] => ""
  | [s] => s
  | s :: rest => s +:+ sep +:+ Join sep rest
  end.

(** Everything before and after the last occurrence of a byte
    ([strings.LastIndex] and the two slices taken around it). *)
Fixpoint cut_last (sep : ascii) (s : string) : option (string * string) :=
  match s with
  | "" => None
  | String a s' =>
      match cut_last sep s' with
      | Some (l, r) => Some (String a l, r)
      | None => if decide (a = sep) then Some ("", s') else None
      end
  end.

(** No byte of [s] is [c]. *)
Fixpoint free_of (c : ascii) (s : string) : bool :=
  match s with
  | "" => true
  | String a s' => negb (bool_decide (a = c)) && free_of c s'
  end.

Definition lower_ascii (a : ascii) : ascii :=
  let n := N_of_ascii a in
  if ((65 <=? n) && (n <=? 90))%N then ascii_of_N (n + 32) else a.

Fixpoint ToLower (s : string) : string :=
  match s with "" => "" | String a s' => String (lower_ascii a) (ToLower s') end.

(** ** Decimal digits *)

Definition digit_value (a : ascii) : option Z :=
  let n := N_of_ascii a in
  if ((48 <=? n) && (n <=? 57))%N then Some (Z.of_N n - 48) else None.

(** The number read from [acc] on, if every byte is a digit. *)
Fixpoint digits_from (acc : Z) (s : string) : option Z :=
  match s with
  | "" => Some acc
  | String a s' =>
      match digit_value a with
      | Some d => digits_from (10 * acc + d) s'
      | None => None
      end
  end.

(** The longest run of digits at the front, and the rest. *)
Fixpoint span_digits (s : string) : string * string :=
  match s with
  | "" => ("", "")
  | String a s' =>
      match digit_value a with
      | Some _ => let '(ds, r) := span_digits s' in (String a ds, r)
      | None => ("", s)
      end
  end.

(** [strconv.ParseUint(s, 10, ·)] without the range check. *)
Definition parse_digits (s : string) : option Z :=
  match s with "" => None | _ => digits_from 0 s end.

(** An optional sign and the unsigned rest. *)
Definition split_sign (s : string) : bool * string :=
  match s with
  | String "-" r => (true, r)
  | String "+" r => (false, r)
  | _ => (false, s)
  end.

Definition parse_signed (s : string) : option Z :=
  let '(neg, r) := split_sign s in
  match parse_digits r with
  | Some n => Some (if neg : bool then - n else n)
  | None => None
  end.

(** [strconv.Atoi] *)
Definition Atoi (s : string) : result Z :=
  match parse_signed s with
  | None => Err ("strconv.Atoi: parsing " +:+ s +:+ ": invalid syntax")
  | Some n => if decide (int64 n) then Ok n
              else Err ("strconv.Atoi: parsing " +:+ s +:+ ": value out of range")
  end.

(** ** [fmt.Sscanf] with the format [prefix ++ "%d"], prefix free of ['%'] and
    of white space, into an [int32].  Text after the number is ignored. *)
Fixpoint skip_space (s : string) : result string :=
  match s with
  | "" => Err "unexpected EOF"
  | String a s' =>
      if decide (a = "010"%char) then Err "unexpected newline"
      else if strings.Ascii.is_space a then skip_space s' else Ok s
  end.

Definition Sscanf_int32 (prefix input : string) : result Z :=
  match strip_prefix prefix input with
  | None => Err "input does not match format"
  | Some rest =>
      match skip_space rest with
      | Err e => Err e
      | Ok rest =>
          let '(neg, r) := split_sign rest in
          match span_digits r with
          | ("", "") => Err "unexpected EOF"
          | ("", _) => Err "expected integer"
          | (ds, _) =>
              let n := default 0 (digits_from 0 ds) in
              let v := if neg : bool then - n else n in
              if decide (int32 v) then Ok v
              else Err ("integer overflow on token " +:+ ds)
          end
      end
  end.

(** [<] on Go strings: by bytes. *)
Definition string_le (a b : string) : Prop := String.leb a b = true.
#[export] Instance string_le_dec : RelDecision string_le.
Proof. intros a b. unfold string_le. apply _. Defined.

(** ** Lemmas *)

Lemma append_cons a (s t : string) : String a s +:+ t = String a (s +:+ t).
Proof. done. Qed.

Lemma append_nil_r (s : string) : s +:+ "" = s.
Proof. induction s as [|a s IH]; [done|]. by rewrite append_cons, IH. Qed.

Lemma append_assoc (s t u : string) : (s +:+ t) +:+ u = s +:+ t +:+ u.
Proof. induction s as [|a s IH]; [done|]. by rewrite !append_cons, IH. Qed.

Lemma append_length (s t : string) :
  String.length (s +:+ t) = (String.length s + String.length t)%nat.
Proof. induction s as [|a s IH]; [done|]. rewrite append_cons. cbn. by rewrite IH. Qed.

Lemma strip_prefix_app p s : strip_prefix p (p +:+ s) = Some s.
Proof.
  induction p as [|a p IH]; [done|]. rewrite append_cons. cbn [strip_prefix].
  by rewrite decide_True.
Qed.

Lemma strip_prefix_Some p s r : strip_prefix p s = Some r -> s = p +:+ r.
Proof.
  revert s. induction p as [|a p IH]; intros [|b s]; cbn; intros H; simplify_eq; try done.
  case_decide; simplify_eq. by rewrite append_cons, (IH _ H).
Qed.

Lemma HasPrefix_strip s p : HasPrefix s p = bool_decide (is_Some (strip_prefix p s)).
Proof.
  revert s. induction p as [|a p IH]; intros [|b s]; cbn; try done.
  case_bool_decide; simplify_eq; cbn.
  - rewrite decide_True by done. apply IH.
  - by rewrite decide_False.
Qed.

Lemma HasPrefix_app p s : HasPrefix (p +:+ s) p = true.
Proof. rewrite HasPrefix_strip, strip_prefix_app. by apply bool_decide_true. Qed.

Lemma TrimPrefix_app p s : TrimPrefix (p +:+ s) p = s.
Proof. unfold TrimPrefix. by rewrite strip_prefix_app. Qed.

Lemma free_of_app c s t : free_of c (s +:+ t) = free_of c s && free_of c t.
Proof.
  induction s as [|a s IH]; [done|]. rewrite append_cons. cbn [free_of].
  by rewrite IH, andb_assoc.
Qed.

(** The first separator splits a string in one way only. *)
Lemma append_sep_inj c s1 t1 s2 t2 :
  free_of c s1 = true -> free_of c s2 = true ->
  s1 +:+ String c t1 = s2 +:+ String c t2 -> s1 = s2 /\ t1 = t2.
Proof.
  revert s2. induction s1 as [|a s1 IH]; intros [|b s2] H1 H2 E; cbn in *; simplify_eq; [done|..].
  - by rewrite bool_decide_true in H2.
  - by rewrite bool_decide_true in H1.
  - apply andb_prop in H1 as [_ H1]. apply andb_prop in H2 as [_ H2].
    destruct (IH s2 H1 H2) as [-> ->]; [|done]. done.
Qed.

Lemma Split_free sep s : free_of sep s = true -> Split sep s = [s].
Proof.
  induction s as [|a s IH]; [done|]. cbn. intros [Ha Hs]%andb_prop.
  rewrite decide_False by (intros ->; by rewrite bool_decide_true in Ha).
  by rewrite (IH Hs).
Qed.

Lemma Split_app sep s t :
  free_of sep s = true -> Split sep (s +:+ String sep t) = s :: Split sep t.
Proof.
  induction s as [|a s IH]; [intros _; change ("" +:+ String sep t) with (String sep t); cbn; by rewrite decide_True|].
  rewrite append_cons. cbn [free_of Split]. intros [Ha Hs]%andb_prop.
  rewrite decide_False by (intros ->; by rewrite bool_decide_true in Ha).
  by rewrite (IH Hs).
Qed.

(** Splitting a join gives the parts back. *)
Lemma Split_Join sep l :
  l <> [] -> Forall (fun s => free_of sep s = true) l -> Split sep (Join (String sep "") l) = l.
Proof.
  intros Hne Hl. induction Hl as [|s l Hs Hl IH]; [done|].
  destruct l as [|t l]; [by apply Split_free|].
  change (Join (String sep "") (s :: t :: l))
    with (s +:+ String sep (Join (String sep "") (t :: l))).
  rewrite Split_app by done. by rewrite IH.
Qed.

Lemma Join_Split sep s : Join (String sep "") (Split sep s) = s.
Proof.
  induction s as [|a s IH]; [done|]. cbn [Split]. case_decide as Ha; subst.
  - destruct (Split sep s) eqn:E; [by destruct s; cbn in E; repeat case_match|].
    cbn in *. by rewrite IH.
  - destruct (Split sep s) as [|w ws] eqn:E; [by destruct s; cbn in E; repeat case_match|].
    rewrite <-IH. by destruct ws.
Qed.

Lemma rev_app_append s t u : String.rev_app (s +:+ t) u = String.rev_app t (String.rev_app s u).
Proof. revert u. induction s as [|a s IH]; intros u; [done|]. cbn. apply IH. Qed.
Lemma rev_app_out s u : String.rev_app s u = String.rev s +:+ u.
Proof.
  unfold String.rev. revert u. induction s as [|a s IH]; intros u; [done|]. cbn. rewrite IH, (IH (String a "")).
  by rewrite append_assoc.
Qed.
Lemma substring_prefix s t : String.substring 0 (String.length s) (s +:+ t) = s.
Proof.
  induction s as [|a s IH]; [by destruct t|]. rewrite append_cons. cbn [String.length String.substring]. by rewrite IH.
Qed.
Lemma TrimSuffix_app s t : TrimSuffix (s +:+ t) t = s.
Proof.
  unfold TrimSuffix, HasSuffix. unfold String.rev at 1. rewrite rev_app_append, rev_app_out, HasPrefix_app.
  rewrite append_length, Nat.add_sub. apply substring_prefix.
Qed.

(** The last part has no separator, and before it comes one. *)
Lemma Split_last sep s :
  exists front part : string, last (Split sep s) = Some part /\ free_of sep part = true /\
    ((s = part /\ front = "") \/ s = front +:+ String sep part).
Proof.
  induction s as [|a s (front & part & Hl & Hf & Hs)]; [by exists "", ""; auto|]. cbn [Split].
  destruct (Split sep s) as [|w ws] eqn:E; [done|]. case_decide as Ha; subst.
  - destruct Hs as [[-> ->]|Hs].
    + exists "", part. split_and!; [done|done|by right].
    + exists (String sep front), part. split_and!; [done|done|right; by rewrite Hs].
  - destruct Hs as [[-> ->]|Hs].
    + rewrite Split_free in E by done. simplify_eq. exists "", (String a w). split_and!; [done| |by left].
      cbn [free_of]. by rewrite bool_decide_false, Hf by done.
    + destruct ws as [|w' ws].
      { exfalso. rewrite Hs in E. pose proof (Join_Split sep (front +:+ String sep part)) as HJ. rewrite E in HJ.
        cbn in Hl. simplify_eq. cbn in HJ. apply (f_equal String.length) in HJ. rewrite append_length in HJ. cbn in HJ. lia. }
      exists (String a front), part. split_and!; [done|done|right; by rewrite Hs].
Qed.

Lemma Split_length_pos sep s : (0 < length (Split sep s))%nat.
Proof. destruct s; cbn; repeat case_match; cbn; lia. Qed.

(** *** Decimal numbers *)

Lemma digit_value_pretty x : (x < 10)%N -> digit_value (pretty_N_char x) = Some (Z.of_N x).
Proof.
  intros H. assert (x ∈ map N.of_nat (seq 0 10)) as Hin.
  { apply list_elem_of_fmap. exists (N.to_nat x). rewrite elem_of_seq. lia. }
  clear H. cbn in Hin. repeat (apply elem_of_cons in Hin as [->|Hin]; [done|]).
  by apply elem_of_nil in Hin.
Qed.

Lemma digits_from_pretty_go x s : digits_from 0 (pretty_N_go x s) = digits_from (Z.of_N x) s.
Proof.
  revert s. induction (N.lt_wf_0 x) as [x _ IH]; intros s.
  destruct (decide (x = 0)%N) as [->|Hx]; [by rewrite pretty_N_go_0|].
  rewrite pretty_N_go_step by lia. rewrite IH by (apply N.div_lt; lia).
  cbn [digits_from]. rewrite digit_value_pretty by (apply N.mod_lt; done).
  f_equal. rewrite (N.div_mod x 10) at 3 by done. lia.
Qed.

Lemma pretty_go_length x s :
  (String.length s <= String.length (pretty_N_go x s))%nat.
Proof.
  revert s. induction (N.lt_wf_0 x) as [x _ IH]; intros s.
  destruct (decide (x = 0)%N) as [->|Hx]; [by rewrite pretty_N_go_0|].
  rewrite pretty_N_go_step by lia.
  etrans; [|apply IH; apply N.div_lt; lia]. cbn. lia.
Qed.

Lemma pretty_N_nonempty (x : N) : pretty x <> "".
Proof.
  unfold pretty, pretty_N. case_decide as Hx; [done|].
  rewrite pretty_N_go_step by lia. intros E.
  pose proof (pretty_go_length (x `div` 10) (String (pretty_N_char (x `mod` 10)) "")) as H.
  rewrite E in H. cbn in H. lia.
Qed.

Lemma parse_digits_pretty (x : N) : parse_digits (pretty x) = Some (Z.of_N x).
Proof.
  assert (H : digits_from 0 (pretty x) = Some (Z.of_N x)).
  { unfold pretty, pretty_N. case_decide as Hx; [by subst|]. by rewrite digits_from_pretty_go. }
  unfold parse_digits. pose proof (pretty_N_nonempty x). by destruct (pretty x).
Qed.

(** Every byte is a digit. *)
Fixpoint all_digits (s : string) : bool :=
  match s with
  | "" => true
  | String a s' => bool_decide (is_Some (digit_value a)) && all_digits s'
  end.

Lemma digits_from_all acc s n : digits_from acc s = Some n -> all_digits s = true.
Proof.
  revert acc. induction s as [|a s IH]; intros acc; cbn; [done|].
  destruct (digit_value a); [|done]. intros H. by rewrite (IH _ H).
Qed.

Lemma pretty_N_digits (x : N) : all_digits (pretty x) = true.
Proof.
  pose proof (parse_digits_pretty x) as H. unfold parse_digits in H.
  destruct (pretty x) as [|a s] eqn:E; [done|]. by eapply digits_from_all.
Qed.

Lemma span_digits_all s : all_digits s = true -> span_digits s = (s, "").
Proof.
  induction s as [|a s IH]; [done|]. cbn. intros [Ha Hs]%andb_prop.
  apply bool_decide_eq_true in Ha as [d ->]. by rewrite (IH Hs).
Qed.

Lemma digit_not_special a d :
  digit_value a = Some d ->
  a <> "-"%char /\ a <> "+"%char /\ strings.Ascii.is_space a = false /\ a <> "010"%char /\ a <> "."%char.
Proof.
  intros H. repeat split; try (intros ->; done).
  destruct (strings.Ascii.is_space a) eqn:E; [|done].
  unfold strings.Ascii.is_space in E. repeat case_match; simplify_eq; done.
Qed.

Lemma split_sign_digits s : all_digits s = true -> split_sign s = (false, s).
Proof.
  destruct s as [|a s]; [done|]. cbn. intros [[d Hd]%bool_decide_eq_true _]%andb_prop.
  apply digit_not_special in Hd as (H1 & H2 & _).
  destruct a as [[] [] [] [] [] [] [] []]; done.
Qed.

Lemma pretty_Z_nonneg n : 0 <= n -> pretty n = pretty (Z.to_N n).
Proof. by destruct n. Qed.

Lemma parse_signed_pretty (n : Z) : parse_signed (pretty n) = Some n.
Proof.
  unfold parse_signed. destruct n as [|p|p]; [done|..].
  - change (pretty (Z.pos p)) with (pretty (N.pos p)).
    rewrite split_sign_digits by apply pretty_N_digits. cbn iota beta.
    by rewrite parse_digits_pretty.
  - change (split_sign (pretty (Z.neg p))) with (true, pretty (N.pos p)).
    cbn iota beta. by rewrite parse_digits_pretty.
Qed.

Lemma Atoi_pretty n : int64 n -> Atoi (pretty n) = Ok n.
Proof. intros H. unfold Atoi. rewrite parse_signed_pretty. by rewrite decide_True. Qed.

Lemma all_digits_free c s : digit_value c = None -> all_digits s = true -> free_of c s = true.
Proof.
  intros Hc. induction s as [|a s IH]; [done|]. cbn.
  intros [[d Hd]%bool_decide_eq_true Hs]%andb_prop. rewrite (IH Hs), andb_true_r.
  rewrite bool_decide_false; [done|]. intros ->. by rewrite Hc in Hd.
Qed.

Lemma pretty_N_free c (n : N) : digit_value c = None -> free_of c (pretty n) = true.
Proof. intros. apply all_digits_free; [done|apply pretty_N_digits]. Qed.

Lemma Sscanf_int32_pretty prefix n :
  0 <= n < 2 ^ 31 -> Sscanf_int32 prefix (prefix +:+ pretty n) = Ok n.
Proof.
  intros Hn. unfold Sscanf_int32. rewrite strip_prefix_app, pretty_Z_nonneg by lia.
  pose proof (pretty_N_digits (Z.to_N n)) as Hd.
  pose proof (parse_digits_pretty (Z.to_N n)) as Hp.
  assert (skip_space (pretty (Z.to_N n)) = Ok (pretty (Z.to_N n))) as ->.
  { destruct (pretty (Z.to_N n)) as [|a s]; [done|]. cbn in *.
    apply andb_prop in Hd as [[d Hd]%bool_decide_eq_true _].
    apply digit_not_special in Hd as (_ & _ & H3 & H4 & _).
    rewrite decide_False by done. by rewrite H3. }
  rewrite split_sign_digits, span_digits_all by done.
  unfold parse_digits in Hp. destruct (pretty (Z.to_N n)); [done|].
  rewrite Hp. cbn beta iota zeta delta [default from_option id]. rewrite Z2N.id by lia.
  by rewrite decide_True by (unfold int32; lia).
Qed.

Create Rewrite HintDb go_strings.
#[export] Hint Rewrite append_nil_r append_assoc strip_prefix_app TrimPrefix_app : go_strings.

(** ** The order of strings *)

Lemma string_compare_le_trans (a b c : string) :
  String.compare a b <> Gt -> String.compare b c <> Gt ->
  String.compare a c <> Gt /\ (String.compare a c = Eq -> String.compare a b = Eq).
Proof.
  revert b c. induction a as [|x a IH]; intros [|y b] [|z c]; cbn; try done.
  unfold Ascii.compare. intros H1 H2.
  destruct (N.compare_spec (N_of_ascii x) (N_of_ascii y)) as [Exy|Lxy|]; [| |done];
    destruct (N.compare_spec (N_of_ascii y) (N_of_ascii z)) as [Eyz|Lyz|]; try done.
  - rewrite Exy, Eyz, N.compare_refl. by eapply IH.
  - rewrite Exy. apply N.compare_lt_iff in Lyz. by rewrite Lyz.
  - rewrite <-Eyz. apply N.compare_lt_iff in Lxy. by rewrite Lxy.
  - assert (Hlt : (N_of_ascii x < N_of_ascii z)%N) by lia.
    apply N.compare_lt_iff in Hlt. by rewrite Hlt.
Qed.

Lemma string_le_compare a b : string_le a b <-> String.compare a b <> Gt.
Proof. unfold string_le, String.leb. by destruct (String.compare a b). Qed.

#[export] Instance string_le_trans : Transitive string_le.
Proof.
  intros a b c. rewrite !string_le_compare. intros H1 H2.
  by apply (string_compare_le_trans a b c).
Qed.
#[export] Instance string_le_total : Total string_le.
Proof. exact String.leb_total. Qed.
#[export] Instance string_le_antisymm : AntiSymm (=) string_le.
Proof. exact String.leb_antisym. Qed.

(** Sorting forgets the order of the list. *)
Lemma merge_sort_perm l k : l ≡ₚ k -> merge_sort string_le l = merge_sort string_le k.
Proof.
  intros H. apply (StronglySorted_unique string_le).
  - apply (StronglySorted_merge_sort string_le _).
  - apply (StronglySorted_merge_sort string_le _).
  - by rewrite !merge_sort_Permutation.
Qed.
