(* ===== verification/GoFloat.v ===== *)
(** * Go [float64] and [time.Duration]

    [float64] is IEEE binary64 ([SpecFloat] at precision 53, exponent bound
    1024), with the conversions from and to [int64] and
    [strconv.ParseFloat(s, 64)] computed exactly.  A [time.Duration] is its
    [int64] number of nanoseconds. *)
From S2P Require Import Prelude GoStrings.
From Stdlib Require Import Ascii.
From Stdlib Require Export SpecFloat.
Local Open Scope string_scope.
Local Open Scope list_scope.

Definition prec64 : Z := 53.
Definition emax64 : Z := 1024.

Definition float64_of_Z (z : Z) : spec_float := binary_normalize prec64 emax64 z 0 false.

Definition fmul (x y : spec_float) : spec_float := SFmul prec64 emax64 x y.

(** The integer part of a finite float, [None] for an infinity or a NaN. *)
Definition truncZ (f : spec_float) : option Z :=
  match f with
  | S754_zero _ => Some 0
  | S754_finite s m e =>
      let q := if bool_decide (0 <= e) then Z.pos m * 2 ^ e else Z.pos m / 2 ^ (- e) in
      Some (if s then - q else q)
  | _ => None
  end.

(** [int64(f)] truncates; when the value does not fit, Go leaves the result to
    the architecture: [oor] is that architecture's answer. *)
Definition int64_of_float (oor : spec_float -> Z) (f : spec_float) : Z :=
  match truncZ f with
  | Some z => if decide (int64 z) then z else oor f
  | None => oor f
  end.

(** The binary64 number nearest to [n * 10^e]; [None] when it overflows. *)
Definition float_of_decimal (neg : bool) (n e : Z) : option spec_float :=
  let f :=
    match n with
    | Zpos m =>
        if bool_decide (0 <= e) then binary_normalize prec64 emax64 (n * 10 ^ e) 0 false
        else
          let '(q, e', l) := SFdiv_core_binary prec64 emax64 n 0 (10 ^ (- e)) 0 in
          binary_round_aux prec64 emax64 false q e' l
    | _ => S754_zero false
    end in
  match f with
  | S754_infinity _ | S754_nan => None
  | f => Some (if neg then SFopp f else f)
  end.

(** The same for [n * 2^e]. *)
Definition float_of_binary (neg : bool) (n e : Z) : option spec_float :=
  match binary_normalize prec64 emax64 n e false with
  | S754_infinity _ | S754_nan => None
  | f => Some (if neg then SFopp f else f)
  end.

(** *** [strconv.ParseFloat] *)

Definition hex_value (a : ascii) : option Z :=
  match digit_value a with
  | Some d => Some d
  | None =>
      let n := N_of_ascii (lower_ascii a) in
      if ((97 <=? n) && (n <=? 102))%N then Some (Z.of_N n - 87) else None
  end.

Definition base_digit (hex : bool) (a : ascii) : option Z :=
  if hex then hex_value a else digit_value a.

Record mantissa := { mt_n : Z; mt_frac : Z; mt_dot : bool; mt_digits : bool }.

(** The digits, with at most one dot and any underscores: the number they
    write, how many stand after the dot, and the text that follows. *)
Fixpoint read_mantissa (hex : bool) (m : mantissa) (s : string) : mantissa * string :=
  match s with
  | "" => (m, "")
  | String "_" r => read_mantissa hex m r
  | String "." r =>
      if mt_dot m then (m, s)
      else read_mantissa hex {| mt_n := mt_n m; mt_frac := mt_frac m; mt_dot := true;
                                mt_digits := mt_digits m |} r
  | String a r =>
      match base_digit hex a with
      | Some d =>
          read_mantissa hex {| mt_n := (if hex then 16 else 10) * mt_n m + d;
                               mt_frac := if mt_dot m then mt_frac m + 1 else mt_frac m;
                               mt_dot := mt_dot m; mt_digits := true |} r
      | None => (m, s)
      end
  end.

(** Exponent digits; the reader stops growing the number at five digits. *)
Fixpoint read_exponent (acc : Z) (s : string) : option Z :=
  match s with
  | "" => Some acc
  | String "_" r => read_exponent acc r
  | String a r =>
      match digit_value a with
      | Some d => read_exponent (if bool_decide (acc < 10000) then acc * 10 + d else acc) r
      | None => None
      end
  end.

(** Underscores are accepted only between digits (or after a base prefix). *)
Inductive saw := SawStart | SawDigit | SawUnderscore | SawOther.
Fixpoint underscores_ok (hex : bool) (st : saw) (s : string) : bool :=
  match s with
  | "" => match st with SawUnderscore => false | _ => true end
  | String a r =>
      match base_digit hex a with
      | Some _ => underscores_ok hex SawDigit r
      | None =>
          if bool_decide (a = "_"%char) then
            match st with SawDigit => underscores_ok hex SawUnderscore r | _ => false end
          else match st with SawUnderscore => false | _ => underscores_ok hex SawOther r end
      end
  end.

Definition special_float (s : string) : option spec_float :=
  let '(neg, r) := split_sign s in
  if bool_decide (ToLower s = "nan") then Some S754_nan
  else if bool_decide (ToLower r = "inf") || bool_decide (ToLower r = "infinity")
  then Some (S754_infinity neg)
  else None.

Definition ParseFloat (s : string) : option spec_float :=
  match special_float s with
  | Some f => Some f
  | None =>
      let '(neg, r) := split_sign s in
      let '(hex, r) :=
        match r with
        | String "0" (String x (String c t)) =>
            if bool_decide (lower_ascii x = "x"%char) then (true, String c t) else (false, r)
        | _ => (false, r)
        end in
      let st := if hex then SawDigit else SawStart in
      let '(m, rest) :=
        read_mantissa hex {| mt_n := 0; mt_frac := 0; mt_dot := false; mt_digits := false |} r in
      if negb (mt_digits m) then None
      else if negb (underscores_ok hex st r) then None
      else
        let finish (e : Z) :=
          if hex then float_of_binary neg (mt_n m) (e - 4 * mt_frac m)
          else float_of_decimal neg (mt_n m) (e - mt_frac m) in
        match rest with
        | "" => if hex then None else finish 0
        | String a t =>
            if bool_decide (lower_ascii a = if hex then "p"%char else "e"%char) then
              let '(eneg, t) := split_sign t in
              match t with
              | String d _ =>
                  match digit_value d, read_exponent 0 t with
                  | Some _, Some e => finish (if eneg : bool then - e else e)
                  | _, _ => None
                  end
              | "" => None
              end
            else None
        end
  end.

(** ** package time *)

Abbreviation duration := Z.

Definition Nanosecond : duration := 1.
Definition Millisecond : duration := 1000 * 1000.
Definition Second : duration := 1000 * Millisecond.
Definition Minute : duration := 60 * Second.
Definition Hour : duration := 60 * Minute.

(** [fmtFrac]: the decimals of [v / 10^prec] without trailing zeros, and what
    is left of [v]. *)
Fixpoint fmt_frac (prec : nat) (v : Z) (acc : string) (print : bool) : string * Z :=
  match prec with
  | O => (if print then "." +:+ acc else acc, v)
  | S prec =>
      let digit := v mod 10 in
      let print := print || bool_decide (digit <> 0) in
      fmt_frac prec (v / 10) (if print then pretty digit +:+ acc else acc) print
  end.

(** [time.Duration.String] *)
Definition Duration_String (d : duration) : string :=
  let u := Z.abs d in
  let scaled (prec : nat) (unit : string) :=
    let '(frac, v) := fmt_frac prec u "" false in pretty v +:+ frac +:+ unit in
  let text :=
    if bool_decide (u < Second) then
      if bool_decide (u = 0) then "0s"
      else if bool_decide (u < 1000) then scaled 0%nat "ns"
      else if bool_decide (u < 1000 * 1000)
      then scaled 3%nat (String (ascii_of_nat 194) (String (ascii_of_nat 181) "s"))
      else scaled 6%nat "ms"
    else
      let '(frac, secs) := fmt_frac 9 u "" false in
      let s := pretty (secs mod 60) +:+ frac +:+ "s" in
      let mins := secs / 60 in
      if bool_decide (0 < mins) then
        let s := pretty (mins mod 60) +:+ "m" +:+ s in
        if bool_decide (0 < mins / 60) then pretty (mins / 60) +:+ "h" +:+ s else s
      else s in
  if bool_decide (d < 0) then "-" +:+ text else text.

(** [time.Duration.Seconds]: the whole seconds plus the rest divided by 1e9. *)
Definition Duration_Seconds (d : duration) : spec_float :=
  SFadd prec64 emax64 (float64_of_Z (Z.quot d Second))
    (SFdiv prec64 emax64 (float64_of_Z (Z.rem d Second)) (float64_of_Z Second)).

(** [time.Duration.Round(m)] for a positive [m]: halfway values away from zero,
    saturating at the ends of the type. *)
Definition Duration_Round (d m : duration) : duration :=
  let r := Z.rem (Z.abs d) m in
  let q := if bool_decide (2 * r < m) then Z.abs d - r else Z.abs d + m - r in
  if bool_decide (d < 0) then Z.max (- q) (- 2 ^ 63) else Z.min q (2 ^ 63 - 1).

(** [time.Duration.Minutes] and [Hours], likewise. *)
Definition Duration_Minutes (d : duration) : spec_float :=
  SFadd prec64 emax64 (float64_of_Z (Z.quot d Minute))
    (SFdiv prec64 emax64 (float64_of_Z (Z.rem d Minute)) (float64_of_Z Minute)).
Definition Duration_Hours (d : duration) : spec_float :=
  SFadd prec64 emax64 (float64_of_Z (Z.quot d Hour))
    (SFdiv prec64 emax64 (float64_of_Z (Z.rem d Hour)) (float64_of_Z Hour)).

(** ** Printing with a fixed number of decimals ([%.nf]) *)

(** [n / d] to the nearest integer, ties to even; [d] is positive. *)
Definition round_even (n d : Z) : Z :=
  let q := n / d in
  let r := n mod d in
  if bool_decide (2 * r < d) then q
  else if bool_decide (d < 2 * r) then q + 1
  else if Z.even q then q else q + 1.

Fixpoint zeros (n : nat) : string := match n with O => "" | S n => "0" +:+ zeros n end.

(** Decimal digits, padded with zeros on the left. *)
Definition pad_zeros (width : nat) (z : Z) : string :=
  let s := pretty z in zeros (width - String.length s) +:+ s.

Definition FormatFixed (prec : nat) (f : spec_float) : string :=
  let scale := 10 ^ Z.of_nat prec in
  let digits q :=
    pretty (q / scale) +:+ (if bool_decide (prec = O) then "" else "." +:+ pad_zeros prec (q mod scale)) in
  let signed (s : bool) t := if s then "-" +:+ t else t in
  match f with
  | S754_zero s => signed s (digits 0)
  | S754_finite s m e =>
      signed s (digits (if bool_decide (0 <= e) then Z.pos m * 2 ^ e * scale
                        else round_even (Z.pos m * scale) (2 ^ (- e))))
  | S754_infinity s => (if s then "-" else "+") +:+ "Inf"
  | S754_nan => "NaN"
  end.

(** ** Checked examples *)

Example parse_two : ParseFloat "2.0" = Some (float64_of_Z 2).
Proof. by vm_compute. Qed.
Example parse_one_and_a_half : ParseFloat "+1_5e-1" = ParseFloat "0x1.8p0".
Proof. by vm_compute. Qed.
Example parse_tenth : ParseFloat ".1" = Some (S754_finite false 7205759403792794 (-56)).
Proof. by vm_compute. Qed.
Example parse_garbage :
  map ParseFloat ["2x"; ""; "."; "1__0"; "0x1"; "1e"; "1e400"; "_1"] = replicate 8 None.
Proof. by vm_compute. Qed.
Example truncation : option_map (int64_of_float (fun _ => 0)) (ParseFloat "-2.75") = Some (-2).
Proof. by vm_compute. Qed.
Example duration_texts :
  map Duration_String [0; 1; 1500 * 1000; 30 * Minute; 90 * Second + 5 * Millisecond; - (25 * Hour)]
  = ["0s"; "1ns"; "1.5ms"; "30m0s"; "1m30.005s"; "-25h0m0s"].
Proof. by vm_compute. Qed.
Example fixed_texts :
  (FormatFixed 0 <$> [Duration_Minutes (90 * Second); Duration_Minutes (150 * Second); Duration_Hours (100 * Minute)],
   FormatFixed 1 <$> [SFdiv prec64 emax64 (float64_of_Z 1536) (float64_of_Z 1024); float64_of_Z 7; S754_zero true])
  = (["2"; "2"; "2"], ["1.5"; "7.0"; "-0.0"]).
Proof. by vm_compute. Qed.
