(* ===== verification/GoTime.v ===== *)
(** * Go [time]: calendar dates

    [time.Time.UTC] and [Format] for the one layout the operator uses in names:
    [20060102-150405].  An instant is its number of nanoseconds since 1970; the
    calendar is the proleptic Gregorian one, computed in eras of 400 years. *)
From S2P Require Import Prelude GoStrings GoFloat.
Local Open Scope string_scope.

Definition days_per_era : Z := 146097.

(** The year of the era, the day of the (March-based) year, month and day of a
    day of the era. *)
Definition civil_of_era_day (doe : Z) : Z * Z * Z :=
  let yoe := (doe - doe / 1460 + doe / 36524 - doe / 146096) / 365 in
  let doy := doe - (365 * yoe + yoe / 4 - yoe / 100) in
  let mp := (5 * doy + 2) / 153 in
  let d := doy - (153 * mp + 2) / 5 + 1 in
  let m := if bool_decide (mp < 10) then mp + 3 else mp - 9 in
  ((if bool_decide (m <= 2) then yoe + 1 else yoe), m, d).

(** Year, month and day of the [z]-th day after 1 January 1970. *)
Definition civil_of_days (z : Z) : Z * Z * Z :=
  let z := z + 719468 in
  let '(y, m, d) := civil_of_era_day (z mod days_per_era) in
  (y + 400 * (z / days_per_era), m, d).

Definition seconds_per_day : Z := 86400.

(** [t.UTC().Format("20060102-150405")] *)
Definition Format_compact (t : Z) : string :=
  let sec := t / Second in
  let '(y, m, d) := civil_of_days (sec / seconds_per_day) in
  let s := sec mod seconds_per_day in
  pad_zeros 4 y +:+ pad_zeros 2 m +:+ pad_zeros 2 d +:+ "-" +:+
  pad_zeros 2 (s / 3600) +:+ pad_zeros 2 (s / 60 mod 60) +:+ pad_zeros 2 (s mod 60).

Example epoch : Format_compact 0 = "19700101-000000".
Proof. by vm_compute. Qed.
Example leap_day : Format_compact (951782399 * Second) = "20000228-235959" /\
  Format_compact (951782400 * Second) = "20000229-000000" /\ Format_compact (951868800 * Second) = "20000301-000000".
Proof. by vm_compute. Qed.

(** ** Dates name days *)

Definition era_day_of_civil (y m d : Z) : Z :=
  let yoe := if bool_decide (m <= 2) then y - 1 else y in
  let mp := if bool_decide (2 < m) then m - 3 else m + 9 in
  365 * yoe + yoe / 4 - yoe / 100 + (153 * mp + 2) / 5 + d - 1.

Lemma year_of_era doe :
  0 <= doe < days_per_era ->
  let yoe := (doe - doe / 1460 + doe / 36524 - doe / 146096) / 365 in
  0 <= yoe < 400 /\ 0 <= doe - (365 * yoe + yoe / 4 - yoe / 100) <= 365.
Proof. unfold days_per_era. intros H. cbv zeta. Z.to_euclidean_division_equations. lia. Qed.

Lemma month_of_year doy :
  0 <= doy <= 365 ->
  let mp := (5 * doy + 2) / 153 in
  0 <= mp <= 11 /\ 1 <= doy - (153 * mp + 2) / 5 + 1 <= 31.
Proof. intros H. cbv zeta. Z.to_euclidean_division_equations. lia. Qed.

Lemma era_day doe y m d :
  0 <= doe < days_per_era -> civil_of_era_day doe = (y, m, d) ->
  era_day_of_civil y m d = doe /\ 0 <= (if bool_decide (m <= 2) then y - 1 else y) < 400 /\ 1 <= m <= 12 /\ 1 <= d <= 31.
Proof.
  intros H. pose proof (year_of_era doe H) as [Hy Hd]. unfold civil_of_era_day.
  set (yoe := (doe - _ + _ - _) / 365) in *.
  set (doy := doe - (365 * yoe + yoe / 4 - yoe / 100)) in *.
  pose proof (month_of_year doy Hd) as [Hm Hday]. set (mp := (5 * doy + 2) / 153) in *.
  intros E. injection E as <- <- <-. unfold era_day_of_civil.
  repeat case_bool_decide; try lia; split_and!; try lia.
  all: replace (yoe + 1 - 1) with yoe by ring; replace (mp - 9 + 9) with mp by ring; replace (mp + 3 - 3) with mp by ring.
  all: unfold doy; lia.
Qed.

(** The day is found from its date; months and days have their ranges. *)
Definition days_of_civil (y m d : Z) : Z :=
  let era := (if bool_decide (m <= 2) then y - 1 else y) / 400 in
  era * days_per_era + era_day_of_civil (y - 400 * era) m d - 719468.

Lemma civil_roundtrip z y m d :
  civil_of_days z = (y, m, d) -> days_of_civil y m d = z /\ 1 <= m <= 12 /\ 1 <= d <= 31.
Proof.
  unfold civil_of_days. set (z' := z + 719468). pose proof (Z.div_mod z' days_per_era ltac:(done)) as Hdm.
  assert (Hr : 0 <= z' mod days_per_era < days_per_era) by (apply Z.mod_pos_bound; done).
  destruct (civil_of_era_day (z' mod days_per_era)) as [[y0 m0] d0] eqn:E.
  apply era_day in E as (He & Hy & Hmd); [|done]. set (era := z' / days_per_era) in *. clearbody era.
  intros H. injection H as <- <- <-. split; [|done]. unfold days_of_civil.
  replace ((if bool_decide (m0 <= 2) then y0 + 400 * era - 1 else y0 + 400 * era) / 400) with era.
  - replace (y0 + 400 * era - 400 * era) with y0 by ring. rewrite He. lia.
  - case_bool_decide; Z.to_euclidean_division_equations; lia.
Qed.

(** A decision about every integer from [z] on, [n] of them. *)
Fixpoint all_from (f : Z -> bool) (n : nat) (z : Z) : bool :=
  match n with O => true | S n => f z && all_from f n (z + 1) end.

Lemma all_from_spec f n z : all_from f n z = true -> forall x, z <= x < z + Z.of_nat n -> f x = true.
Proof.
  revert z. induction n as [|n IH]; intros z; cbn [all_from]; [lia|].
  intros [Hz Hn]%andb_true_iff x Hx. destruct (decide (x = z)) as [->|]; [done|]. apply (IH (z + 1)); [done|lia].
Qed.

(** ** Texts name instants, to the second *)

Lemma append_inj_length (s1 s2 t1 t2 : string) :
  String.length s1 = String.length s2 -> s1 +:+ t1 = s2 +:+ t2 -> s1 = s2 /\ t1 = t2.
Proof.
  revert s2. induction s1 as [|a s1 IH]; intros [|b s2] Hl H; try done.
  rewrite !append_cons in H. injection H as -> H. injection Hl as Hl. by destruct (IH _ Hl H) as [-> ->].
Qed.

Definition pad_ok (width : nat) (z : Z) : bool :=
  bool_decide (String.length (pad_zeros width z) = width) && bool_decide (parse_digits (pad_zeros width z) = Some z).

Lemma pad_computed width bound :
  all_from (pad_ok width) (Z.to_nat bound) 0 = true -> forall z, 0 <= z < bound ->
  String.length (pad_zeros width z) = width /\ parse_digits (pad_zeros width z) = Some z.
Proof.
  intros Hall z Hz. assert (H : pad_ok width z = true) by (apply (all_from_spec _ _ _ Hall); lia).
  unfold pad_ok in H. by rewrite andb_true_iff, !bool_decide_eq_true in H.
Qed.
Lemma pad_two z : 0 <= z < 100 -> String.length (pad_zeros 2 z) = 2%nat /\ parse_digits (pad_zeros 2 z) = Some z.
Proof. apply pad_computed. by vm_compute. Qed.
Lemma pad_four z : 0 <= z < 10000 -> String.length (pad_zeros 4 z) = 4%nat /\ parse_digits (pad_zeros 4 z) = Some z.
Proof. apply pad_computed. by vm_compute. Qed.

Lemma pad_two_app z z' t t' :
  0 <= z < 100 -> 0 <= z' < 100 -> pad_zeros 2 z +:+ t = pad_zeros 2 z' +:+ t' -> z = z' /\ t = t'.
Proof.
  intros [Hl Hp]%pad_two [Hl' Hp']%pad_two [E ->]%append_inj_length; [|by rewrite Hl, Hl'].
  rewrite E in Hp. split; [congruence|done].
Qed.
Lemma pad_four_app z z' t t' :
  0 <= z < 10000 -> 0 <= z' < 10000 -> pad_zeros 4 z +:+ t = pad_zeros 4 z' +:+ t' -> z = z' /\ t = t'.
Proof.
  intros [Hl Hp]%pad_four [Hl' Hp']%pad_four [E ->]%append_inj_length; [|by rewrite Hl, Hl'].
  rewrite E in Hp. split; [congruence|done].
Qed.

(** The instants whose year has four digits. *)
Definition four_digit_year (t : Z) : Prop :=
  0 <= (civil_of_days (t / Second / seconds_per_day)).1.1 < 10000.

Lemma Format_compact_inj t t' :
  four_digit_year t -> four_digit_year t' -> Format_compact t = Format_compact t' -> t / Second = t' / Second.
Proof.
  unfold four_digit_year, Format_compact. set (s := t / Second). set (s' := t' / Second).
  destruct (civil_of_days (s / seconds_per_day)) as [[y m] d] eqn:E.
  destruct (civil_of_days (s' / seconds_per_day)) as [[y' m'] d'] eqn:E'. cbn [fst]. intros Hy Hy'.
  apply civil_roundtrip in E as (Hz & Hm & Hd). apply civil_roundtrip in E' as (Hz' & Hm' & Hd').
  assert (Hs : 0 <= s mod seconds_per_day < 86400) by (apply Z.mod_pos_bound; done).
  assert (Hs' : 0 <= s' mod seconds_per_day < 86400) by (apply Z.mod_pos_bound; done).
  set (r := s mod seconds_per_day) in *. set (r' := s' mod seconds_per_day) in *.
  intros [-> H]%pad_four_app; [|done..]. apply pad_two_app in H as [-> H]; [|lia..].
  apply pad_two_app in H as [-> H]; [|lia..]. rewrite !append_cons in H. injection H as H.
  apply pad_two_app in H as [Hh H]; [|Z.to_euclidean_division_equations; lia..].
  apply pad_two_app in H as [Hmin H]; [|Z.to_euclidean_division_equations; lia..].
  rewrite <-(append_nil_r (pad_zeros 2 (r mod 60))), <-(append_nil_r (pad_zeros 2 (r' mod 60))) in H.
  apply pad_two_app in H as [Hsec _]; [|Z.to_euclidean_division_equations; lia..].
  assert (Hr : r = r') by (Z.to_euclidean_division_equations; lia).
  pose proof (Z.div_mod s seconds_per_day ltac:(done)) as Hs1.
  pose proof (Z.div_mod s' seconds_per_day ltac:(done)) as Hs2.
  fold r in Hs1. fold r' in Hs2. lia.
Qed.

Lemma Format_compact_length t : four_digit_year t -> String.length (Format_compact t) = 15%nat.
Proof.
  unfold four_digit_year, Format_compact. set (s := t / Second).
  destruct (civil_of_days (s / seconds_per_day)) as [[y m] d] eqn:E. cbn [fst]. intros Hy.
  apply civil_roundtrip in E as (_ & Hm & Hd).
  assert (Hs : 0 <= s mod seconds_per_day < 86400) by (apply Z.mod_pos_bound; done).
  set (r := s mod seconds_per_day) in *. rewrite !append_length.
  destruct (pad_four y) as [-> _]; [done|]. destruct (pad_two m) as [-> _]; [lia|]. destruct (pad_two d) as [-> _]; [lia|].
  destruct (pad_two (r / 3600)) as [-> _]; [Z.to_euclidean_division_equations; lia|].
  destruct (pad_two (r / 60 mod 60)) as [-> _]; [Z.to_euclidean_division_equations; lia|].
  destruct (pad_two (r mod 60)) as [-> _]; [Z.to_euclidean_division_equations; lia|]. done.
Qed.
