(* ===== verification/Kube.v ===== *)
(** * The Kubernetes API as the operator uses it

    The objects' fields the modelled code reads and writes, the client's
    calls ([client.Client]) as an interface over the world, and the retry on
    conflict of [internal/utils/retry.go].  The API server is not part of the
    operator: an instance of [KubeClient] is any server. *)
From S2P Require Import Prelude GoStrings GoFloat.
Local Open Scope go_scope.
Local Open Scope list_scope.

Record StatefulSet := {
  sts_Name : string;
  sts_Namespace : string;
  sts_UID : string;
  sts_SpecReplicas : option Z;
  sts_MatchLabels : gmap string string;
  sts_Replicas : Z;
  sts_ReadyReplicas : Z;
  sts_UpdatedReplicas : Z;
  sts_CurrentRevision : string;
  sts_UpdateRevision : string;
  sts_Generation : Z;
  sts_ObservedGeneration : Z
}.

Definition set_spec_replicas (n : Z) (s : StatefulSet) : StatefulSet :=
  {| sts_Name := sts_Name s; sts_Namespace := sts_Namespace s; sts_UID := sts_UID s;
     sts_SpecReplicas := Some n; sts_MatchLabels := sts_MatchLabels s;
     sts_Replicas := sts_Replicas s; sts_ReadyReplicas := sts_ReadyReplicas s;
     sts_UpdatedReplicas := sts_UpdatedReplicas s;
     sts_CurrentRevision := sts_CurrentRevision s; sts_UpdateRevision := sts_UpdateRevision s;
     sts_Generation := sts_Generation s; sts_ObservedGeneration := sts_ObservedGeneration s |}.

Record Deployment := {
  dep_SpecReplicas : option Z;
  dep_Replicas : Z;
  dep_ReadyReplicas : Z;
  dep_UpdatedReplicas : Z;
  dep_AvailableReplicas : Z;
  dep_Generation : Z;
  dep_ObservedGeneration : Z
}.

(** A pod's conditions are (type, status) pairs, in the order of the list; the
    restart counts are those of its containers' statuses. *)
Record Pod := {
  pod_Name : string;
  pod_Namespace : string;
  pod_Labels : gmap string string;
  pod_OwnerUIDs : list string;
  pod_Conditions : list (string * string);
  pod_RestartCounts : list Z
}.

Definition Secret : Type := gmap string string.

(** The classes of API errors the code tells apart. *)
Inductive api_error : Type :=
| NotFound (msg : string)
| Conflict (msg : string)
| AlreadyExists (msg : string)
| ServerTimeout (msg : string)
| TooManyRequests (msg : string)
| ServiceUnavailable (msg : string)
| InternalError (msg : string)
| Invalid (msg : string)
| Forbidden (msg : string)
| OtherError (msg : string).

Definition api_message (e : api_error) : error :=
  match e with
  | NotFound m | Conflict m | AlreadyExists m | ServerTimeout m | TooManyRequests m
  | ServiceUnavailable m | InternalError m | Invalid m | Forbidden m | OtherError m => m
  end.

(** [fmt.Errorf("...: %w", err)]: the class of a wrapped error is still found. *)
Definition api_errorf (ctx : string) (e : api_error) : api_error :=
  match e with
  | NotFound m => NotFound (errorf ctx m)
  | Conflict m => Conflict (errorf ctx m)
  | AlreadyExists m => AlreadyExists (errorf ctx m)
  | ServerTimeout m => ServerTimeout (errorf ctx m)
  | TooManyRequests m => TooManyRequests (errorf ctx m)
  | ServiceUnavailable m => ServiceUnavailable (errorf ctx m)
  | InternalError m => InternalError (errorf ctx m)
  | Invalid m => Invalid (errorf ctx m)
  | Forbidden m => Forbidden (errorf ctx m)
  | OtherError m => OtherError (errorf ctx m)
  end.

Definition IsNotFound (e : api_error) : bool := match e with NotFound _ => true | _ => false end.

Inductive api_result (A : Type) : Type :=
| Found (a : A)
| Failed (e : api_error).
Arguments Found {A} a.
Arguments Failed {A} e.

Definition API (W A : Type) : Type := W -> api_result A * W.

(** [if err != nil { return err }] *)
Definition io_api {W A} (m : API W A) : IO W A :=
  fun w => let '(r, w') := m w in
           (match r with Found a => Ok a | Failed e => Err (api_message e) end, w').

(** The call's outcome, error included, as a value. *)
Definition io_outcome {W A} (m : API W A) : IO W (api_result A) :=
  fun w => let '(r, w') := m w in (Ok r, w').

Class KubeClient (W : Type) := {
  get_statefulset : string -> string -> API W StatefulSet;
  update_statefulset : StatefulSet -> API W unit;
  list_pods : string -> gmap string string -> API W (list Pod);
  delete_pod : Pod -> API W unit;
  get_secret : string -> string -> API W Secret
}.

Class DeploymentClient (W : Type) := {
  get_deployment : string -> string -> API W Deployment
}.

(** A client that also runs where the world is paired with some other state. *)
Definition lift_snd {X W A} (m : API W A) : API (X * W) A := fun '(x, w) =>
  let '(r, w') := m w in (r, (x, w')).

Definition kube_snd {X W} (K : KubeClient W) : KubeClient (X * W) := {|
  get_statefulset ns n := lift_snd (get_statefulset ns n);
  update_statefulset s := lift_snd (update_statefulset s);
  list_pods ns l := lift_snd (list_pods ns l);
  delete_pod p := lift_snd (delete_pod p);
  get_secret ns n := lift_snd (get_secret ns n)
|}.

(** ** [internal/utils/retry.go]: retrying on conflict *)

Definition IsRetryableKubernetesError (e : api_error) : bool :=
  match e with
  | Conflict _ | AlreadyExists _ | ServerTimeout _ | TooManyRequests _
  | ServiceUnavailable _ | InternalError _ => true
  | NotFound _ | Invalid _ | Forbidden _ | OtherError _ => false
  end.

Definition ConflictMaxRetries : nat := 3.

(** [RetryOnConflict]: [fn] is run at most [1 + retries] times; before each
    repetition the code waits, and [cancelled] says whether the context ended
    during the wait after attempt [k]. *)
Fixpoint retry_loop {W A} (cancelled : nat -> option error) (fn : API W A) (k retries : nat)
    : API W A :=
  fun w =>
    match fn w with
    | (Found a, w') => (Found a, w')
    | (Failed e, w') =>
        if negb (IsRetryableKubernetesError e) then (Failed e, w')
        else match retries with
             | O => (Failed (api_errorf ("max retries (" +:+ pretty k +:+ ") exceeded") e), w')
             | S retries =>
                 match cancelled k with
                 | Some err => (Failed (OtherError err), w')
                 | None => retry_loop cancelled fn (S k) retries w'
                 end
             end
    end.

Definition RetryOnConflict {W A} (cancelled : nat -> option error) (fn : API W A) : API W A :=
  retry_loop cancelled fn 0 ConflictMaxRetries.

(** ** Lemmas *)

Lemma io_api_ok {W A} (m : API W A) w a w' :
  io_api m w = (Ok a, w') <-> m w = (Found a, w').
Proof. unfold io_api. destruct (m w) as [[b|e] w1]; split; intros; by simplify_eq. Qed.

(** [fn] failed [n] times with retryable errors, and then the state is [wn]. *)
Fixpoint attempts {W A} (fn : API W A) (w : W) (n : nat) (wn : W) : Prop :=
  match n with
  | O => wn = w
  | S n => exists e w', fn w = (Failed e, w') /\ IsRetryableKubernetesError e = true /\
                        attempts fn w' n wn
  end.

Lemma retry_loop_ok {W A} cancelled (fn : API W A) k retries w a w' :
  retry_loop cancelled fn k retries w = (Found a, w') ->
  exists n wn, (n <= retries)%nat /\ attempts fn w n wn /\ fn wn = (Found a, w').
Proof.
  revert k w. induction retries as [|r IH]; intros k w; cbn [retry_loop];
    destruct (fn w) as [[b|e] w1] eqn:E; intros H.
  - simplify_eq. exists 0%nat, w. split; [lia|done].
  - by destruct (IsRetryableKubernetesError e).
  - simplify_eq. exists 0%nat, w. split; [lia|done].
  - destruct (IsRetryableKubernetesError e) eqn:Er; [|done]. cbn [negb] in H.
    destruct (cancelled k); [done|]. apply IH in H as (n & wn & Hn & Ha & Hf).
    exists (S n), wn. split; [lia|]. split; [|done]. cbn. eauto.
Qed.

(** What every run of [fn] keeps while it fails and establishes when it
    succeeds, the retries keep and establish; an object that is not there is
    reported by a run. *)
Lemma RetryOnConflict_rule {W A} cancelled (fn : API W A) (I : W -> Prop) (Q : A -> W -> Prop)
    (missing : W -> Prop) w :
  I w ->
  (forall w, I w -> match fn w with
                    | (Found a, w') => Q a w'
                    | (Failed e, w') => I w' /\ (IsNotFound e = true -> missing w')
                    end) ->
  match RetryOnConflict cancelled fn w with
  | (Found a, w') => Q a w'
  | (Failed e, w') => I w' /\ (IsNotFound e = true -> missing w')
  end.
Proof.
  intros Hw Hfn. unfold RetryOnConflict. generalize 0%nat as k. generalize ConflictMaxRetries as n.
  intros n. revert w Hw. induction n as [|n IH]; intros w Hw k; cbn [retry_loop]; specialize (Hfn w Hw) as H;
    destruct (fn w) as [[a|e] w1]; [done| |done|]; destruct H as [Hi Hm];
    destruct (IsRetryableKubernetesError e) eqn:Er; cbn [negb]; [|done| |done].
  - split; [done|]. destruct e; done.
  - destruct (cancelled k); [done|]. by apply IH.
Qed.

(** [RetryOnConflict] is the call itself, repeated: it returns success
    only when the last of at most four runs succeeded after runs that all
    failed with retryable errors, and an error that is not retryable ends it
    at once with that very error. *)
Theorem RetryOnConflict_spec {W A} cancelled (fn : API W A) w :
  (forall a w', RetryOnConflict cancelled fn w = (Found a, w') ->
     exists n wn, (n <= 3)%nat /\ attempts fn w n wn /\ fn wn = (Found a, w')) /\
  (forall e w', fn w = (Failed e, w') -> IsRetryableKubernetesError e = false ->
     RetryOnConflict cancelled fn w = (Failed e, w')) /\
  (forall a w', fn w = (Found a, w') -> RetryOnConflict cancelled fn w = (Found a, w')).
Proof.
  split_and!.
  - intros a w'. apply retry_loop_ok.
  - intros e w' E He. unfold RetryOnConflict, ConflictMaxRetries. cbn [retry_loop].
    by rewrite E, He.
  - intros a w' E. unfold RetryOnConflict, ConflictMaxRetries. cbn [retry_loop]. by rewrite E.
Qed.

(** ** An API server to try the theorems on *)
Module SimKube.
Record kube := {
  k_statefulsets : list StatefulSet;
  k_pods : list Pod;
  k_secrets : list (string * Secret)
}.

Definition read {A} (what : string) (f : kube -> option A) : API kube A := fun k =>
  (match f k with Some a => Found a | None => Failed (NotFound (what +:+ " not found")) end, k).

Definition named (ns n : string) (s : StatefulSet) : bool :=
  bool_decide (sts_Namespace s = ns) && bool_decide (sts_Name s = n).

(** Every label of the selector is on the pod. *)
Definition selects (l : gmap string string) (p : Pod) : bool :=
  forallb (fun '(k, v) => bool_decide (pod_Labels p !! k = Some v)) (map_to_list l).

#[global] Instance client : KubeClient kube := {
  get_statefulset ns n := read n (fun k => List.find (named ns n) (k_statefulsets k));
  update_statefulset s := fun k =>
    (Found tt,
     {| k_statefulsets := map (fun s' => if named (sts_Namespace s) (sts_Name s) s' then s else s')
                            (k_statefulsets k);
        k_pods := k_pods k; k_secrets := k_secrets k |});
  list_pods ns l := read "" (fun k =>
    Some (List.filter (fun p => bool_decide (pod_Namespace p = ns) && selects l p) (k_pods k)));
  delete_pod p := fun k =>
    (Found tt,
     {| k_statefulsets := k_statefulsets k;
        k_pods := List.filter (fun q => negb (bool_decide (pod_Name q = pod_Name p))) (k_pods k);
        k_secrets := k_secrets k |});
  get_secret ns n := read n (fun k => snd <$> List.find (fun s => bool_decide (s.1 = n)) (k_secrets k))
}.

(** A StatefulSet of [spec] replicas, all of them running. *)
Definition steady (ns name : string) (spec : Z) : StatefulSet :=
  {| sts_Name := name; sts_Namespace := ns; sts_UID := "uid-" +:+ name;
     sts_SpecReplicas := Some spec; sts_MatchLabels := {[ "app" := name ]};
     sts_Replicas := spec; sts_ReadyReplicas := spec; sts_UpdatedReplicas := spec;
     sts_CurrentRevision := "r1"; sts_UpdateRevision := "r1";
     sts_Generation := 1; sts_ObservedGeneration := 1 |}.
End SimKube.
