(* ===== verification/OpenSearchAPI.v ===== *)
(** * OpenSearch cluster client ([internal/opensearch/api/cluster_api.go])

    The client's calls and how they read the replies.  The OpenSearch server
    itself is not part of the operator: it is the interface
    [OpenSearchService], whose operations answer with a transport error or
    with a status, the raw body and the outcome of decoding it, and may change
    the world [W] (two reads of the same thing may differ). *)
From S2P Require Import Prelude GoStrings.
Local Open Scope go_scope.
Local Open Scope list_scope.

Record ClusterHealth := {
  ch_Status : string;
  ch_TimedOut : bool;
  ch_NumberOfNodes : Z;
  ch_NumberOfDataNodes : Z;
  ch_RelocatingShards : Z;
  ch_InitializingShards : Z;
  ch_UnassignedShards : Z
}.

Record ShardInfo := {
  si_Index : string;
  si_Shard : string;
  si_PriRep : string;
  si_State : string;
  si_Node : string
}.

(** A decoded JSON value of type [any], as far as the client looks into it. *)
Inductive any : Type :=
| ANil
| AString (s : string)
| AMap (m : list (string * any))
| AOther.

(** [None] is a nil map. *)
Record ClusterSettings := {
  cs_Persistent : option (list (string * any));
  cs_Transient : option (list (string * any))
}.

(** A setting mapped to [None] is sent as JSON [null], which resets it; an
    empty map is left out of the request ([omitempty]). *)
Record ClusterSettingsUpdate := {
  csu_Persistent : gmap string (option string);
  csu_Transient : gmap string (option string)
}.

(** [http.Response] with its body read both ways the client reads it. *)
Record response (A : Type) := {
  StatusCode : Z;
  body : string;
  decoded : result A
}.
Arguments StatusCode {A} r : rename.
Arguments body {A} r : rename.
Arguments decoded {A} r : rename.

Definition StatusOK : Z := 200.

Class OpenSearchService (W : Type) := {
  get_cluster_health : IO W (response ClusterHealth);
  get_cat_shards : IO W (response (list ShardInfo));
  get_cluster_settings : bool -> IO W (response ClusterSettings);
  put_cluster_settings : ClusterSettingsUpdate -> IO W (response ClusterSettings)
}.

(** [pkg/constants] *)
Definition OpenSearchHealthGreen : string := "green".
Definition OpenSearchHealthYellow : string := "yellow".
Definition OpenSearchAllocationExcludeNameKey : string := "cluster.routing.allocation.exclude._name".

Section Client.
Context {W : Type} `{!OpenSearchService W}.

(** [if resp.StatusCode != http.StatusOK { return fmt.Errorf("... %d: %s") }] *)
Definition require_ok {A} (failed : string) (r : response A) : IO W unit :=
  if bool_decide (StatusCode r <> StatusOK)
  then io_err (failed +:+ " failed with status " +:+ pretty (StatusCode r) +:+ ": " +:+ body r)
  else io_ret tt.

Definition decode {A} (ctx : string) (r : response A) : IO W A :=
  fun w => (wrapf ctx (decoded r), w).

Definition GetClusterHealth : IO W ClusterHealth :=
  resp <- io_wrap "failed to get cluster health" get_cluster_health ;;
  require_ok "cluster health request" resp ;;;
  decode "failed to decode cluster health response" resp.

Definition IsClusterGreen : IO W bool :=
  health <- GetClusterHealth ;;
  io_ret (bool_decide (ch_Status health = OpenSearchHealthGreen)).

Definition SetAllocationExclusion (nodeName : string) : IO W unit :=
  resp <- io_wrap "failed to set allocation exclusion"
            (put_cluster_settings
               {| csu_Persistent := ∅;
                  csu_Transient := {[ OpenSearchAllocationExcludeNameKey := Some nodeName ]} |}) ;;
  require_ok "set allocation exclusion" resp.

Definition ClearAllocationExclusion : IO W unit :=
  resp <- io_wrap "failed to clear allocation exclusion"
            (put_cluster_settings
               {| csu_Persistent := ∅;
                  csu_Transient := {[ OpenSearchAllocationExcludeNameKey := None ]} |}) ;;
  require_ok "clear allocation exclusion" resp.

Definition GetShardsOnNode (nodeName : string) : IO W (list ShardInfo) :=
  resp <- io_wrap "failed to get shards" get_cat_shards ;;
  require_ok "get shards" resp ;;;
  allShards <- decode "failed to decode shards response" resp ;;
  io_ret (filter (fun shard => si_Node shard = nodeName) allShards).

Definition GetShardCount (nodeName : string) : IO W Z :=
  shards <- GetShardsOnNode nodeName ;;
  io_ret (Z.of_nat (length shards)).

Definition GetClusterSettings (includeDefaults : bool) : IO W ClusterSettings :=
  resp <- io_wrap "failed to get cluster settings" (get_cluster_settings includeDefaults) ;;
  require_ok "get cluster settings" resp ;;;
  decode "failed to decode cluster settings response" resp.

Definition PutClusterSettings (settings : option ClusterSettingsUpdate) : IO W ClusterSettings :=
  match settings with
  | None => io_err "settings cannot be nil"
  | Some settings =>
      resp <- io_wrap "failed to put cluster settings" (put_cluster_settings settings) ;;
      require_ok "put cluster settings" resp ;;;
      decode "failed to decode cluster settings response" resp
  end.

(** The empty string stands for "reset to the default". *)
Definition setting_values (m : gmap string string) : gmap string (option string) :=
  (fun v => if bool_decide (v = "") then None else Some v) <$> m.

Definition PutClusterSettingsFromMap (persistent transient : gmap string string)
    : IO W ClusterSettings :=
  PutClusterSettings (Some {| csu_Persistent := setting_values persistent;
                              csu_Transient := setting_values transient |}).

(** [m[k].(map[string]any)] and [m[k].(string)] with their [ok]. *)
Fixpoint assoc (k : string) (m : list (string * any)) : option any :=
  match m with
  | [] => None
  | (k', v) :: m => if decide (k = k') then Some v else assoc k m
  end.
Definition sub_map (k : string) (m : list (string * any)) : option (list (string * any)) :=
  match assoc k m with Some (AMap m') => Some m' | _ => None end.
Definition sub_string (k : string) (m : list (string * any)) : option string :=
  match assoc k m with Some (AString s) => Some s | _ => None end.

(** The nested lookups made in each of the two groups. *)
Definition exclusion_of (group : option (list (string * any))) : option string :=
  m ← group; cluster ← sub_map "cluster" m; routing ← sub_map "routing" cluster;
  allocation ← sub_map "allocation" routing; exclude ← sub_map "exclude" allocation;
  sub_string "_name" exclude.

Definition GetAllocationExclusion : IO W string :=
  settings <- GetClusterSettings false ;;
  io_ret (match exclusion_of (cs_Transient settings) with
          | Some name => name
          | None => default "" (exclusion_of (cs_Persistent settings))
          end).

Definition HasRelocatingShards : IO W (bool * Z) :=
  health <- GetClusterHealth ;;
  io_ret (bool_decide (0 < ch_RelocatingShards health), ch_RelocatingShards health).

(** ** Lemmas: what a successful call has read *)

(** The reply [r] was received in state [w], which became [w']. *)
Definition replied {A} (m : IO W (response A)) (w : W) (a : A) (w' : W) : Prop :=
  exists r, m w = (Ok r, w') /\ StatusCode r = StatusOK /\ decoded r = Ok a.

Lemma checked_reply {A} c1 c2 c3 (m : IO W (response A)) w a w' :
  (resp <- io_wrap c1 m ;; require_ok c2 resp ;;; decode c3 resp) w = (Ok a, w') <->
  replied m w a w'.
Proof.
  unfold replied, io_bind, io_wrap, require_ok, decode, wrapf.
  destruct (m w) as [[r|e] w1]; [|split; [done|by intros (? & ? & _)]].
  case_bool_decide as Hs; cbn.
  - split; [done|]. intros (r' & ? & ? & ?); by simplify_eq.
  - split.
    + destruct (decoded r) eqn:E; intros; simplify_eq. eauto.
    + intros (r' & ? & ? & ?); simplify_eq. by rewrite H1.
Qed.

Lemma GetClusterHealth_ok w h w' :
  GetClusterHealth w = (Ok h, w') <-> replied get_cluster_health w h w'.
Proof. apply checked_reply. Qed.

Lemma GetClusterSettings_ok d w s w' :
  GetClusterSettings d w = (Ok s, w') <-> replied (get_cluster_settings d) w s w'.
Proof. apply checked_reply. Qed.

Lemma GetShardCount_ok n w c w' :
  GetShardCount n w = (Ok c, w') <->
  exists all, replied get_cat_shards w all w' /\
    c = Z.of_nat (length (filter (fun s => si_Node s = n) all)).
Proof.
  unfold GetShardCount, GetShardsOnNode. rewrite io_bind_ok. split.
  - intros (l & w1 & Hl & Hc). unfold io_ret in Hc; simplify_eq.
    apply io_bind_ok in Hl as (r & w2 & Hr & Hl).
    apply io_bind_ok in Hl as ([] & w3 & Hok & Hl).
    apply io_bind_ok in Hl as (all & w4 & Hd & Hl). unfold io_ret in Hl; simplify_eq.
    exists all. split; [|done].
    apply (checked_reply "failed to get shards" "get shards" "failed to decode shards response").
    apply io_bind_ok. exists r, w2. split; [done|].
    apply io_bind_ok. by exists tt, w3.
  - intros (all & Hall & ->).
    apply (checked_reply "failed to get shards" "get shards" "failed to decode shards response") in Hall.
    apply io_bind_ok in Hall as (r & w2 & Hr & Hall).
    apply io_bind_ok in Hall as ([] & w3 & Hok & Hd).
    eexists _, w'. split; [|done].
    apply io_bind_ok. exists r, w2. split; [done|].
    apply io_bind_ok. exists tt, w3. split; [done|].
    apply io_bind_ok. by exists all, w'.
Qed.

Lemma HasRelocatingShards_ok w b n w' :
  HasRelocatingShards w = (Ok (b, n), w') <->
  exists h, replied get_cluster_health w h w' /\ n = ch_RelocatingShards h /\ b = bool_decide (0 < n).
Proof.
  unfold HasRelocatingShards. rewrite io_bind_ok. unfold io_ret. split.
  - intros (h & w1 & Hh & ?); simplify_eq. exists h. by rewrite <-GetClusterHealth_ok.
  - intros (h & Hh%GetClusterHealth_ok & -> & ->). eauto.
Qed.
End Client.
