(* ===== verification/WazuhAPI.v ===== *)
(** * Wazuh manager API client ([internal/adapters/wazuh_api_adapter.go])

    The authenticated calls the manager drain makes.  The Wazuh server is the
    interface [WazuhService]; the adapter keeps a bearer token and the instant
    until which it uses it. *)
From S2P Require Import Prelude GoStrings GoFloat OpenSearchAPI.
Local Open Scope go_scope.
Local Open Scope list_scope.

Record ClusterStatus := { ws_Enabled : bool; ws_Running : bool }.

Record ClusterNodeStatus := {
  wn_Name : string;
  wn_Type : string;
  wn_Status : string
}.

(** The server behind one adapter's base URL.  The first call is the
    authentication, with the adapter's user name and password; the others
    carry the token. *)
Class WazuhService (W : Type) := {
  post_authenticate : IO W (response string);
  get_manager_info : string -> IO W (response unit);
  get_cluster_status : string -> IO W (response ClusterStatus);
  (** [queue_size_total] of the affected items; an empty node name asks the
      manager itself *)
  get_stats : string -> string -> IO W (response (list Z));
  get_nodes : string -> option string -> IO W (response (list ClusterNodeStatus))
}.

Record WazuhAPIConfig := { ac_BaseURL : string; ac_Username : string; ac_Password : string }.

(** The configuration never changes; the token does. *)
Record WazuhAPIAdapter := {
  wa_config : WazuhAPIConfig;
  wa_token : string;
  wa_tokenExp : Z
}.

Definition TokenValidityDuration : duration := 15 * Minute.

Definition NewWazuhAPIAdapter (config : WazuhAPIConfig) : WazuhAPIAdapter :=
  {| wa_config := config; wa_token := ""; wa_tokenExp := 0 |}.

Section Adapter.
Context {W : Type} `{!WazuhService W}.
(** The instant the handler runs at. *)
Context (now : Z).

Definition AIO (A : Type) := IO (WazuhAPIAdapter * W) A.

Definition Authenticate : AIO unit :=
  a <- io_get ;;
  if bool_decide (wa_token a.1 <> "") && bool_decide (now < wa_tokenExp a.1) then io_ret tt
  else
    resp <- io_wrap "failed to authenticate" (io_world post_authenticate) ;;
    if bool_decide (StatusCode resp <> StatusOK)
    then io_err ("authentication failed: " +:+ body resp)
    else
      token <- (fun s => (wrapf "failed to decode auth response" (decoded resp), s)) ;;
      io_modify (fun s => ({| wa_config := wa_config s.1; wa_token := token;
                              wa_tokenExp := now + TokenValidityDuration |}, s.2)).

Definition doRequest {A} (request : string -> IO W (response A)) : AIO (response A) :=
  Authenticate ;;;
  a <- io_get ;;
  io_world (request (wa_token a.1)).

(** The shape all the calls share. *)
Definition call {A} (failed undecoded : string) (request : string -> IO W (response A)) : AIO A :=
  resp <- doRequest request ;;
  if bool_decide (StatusCode resp <> StatusOK) then io_err (failed +:+ ": " +:+ body resp)
  else fun s => (wrapf undecoded (decoded resp), s).

Definition GetManagerInfo : AIO unit :=
  call "failed to get manager info" "failed to decode manager info" get_manager_info.

Definition IsHealthy : AIO bool :=
  try info <- GetManagerInfo ;; io_ret (is_ok info).

Definition GetClusterStatus : AIO ClusterStatus :=
  call "failed to get cluster status" "failed to decode cluster status" get_cluster_status.

(** [TotalEvents]: the sizes of the affected items added up. *)
Definition GetQueueStatus (nodeName : string) : AIO Z :=
  items <- call "failed to get queue status" "failed to decode queue status"
             (fun token => get_stats token nodeName) ;;
  io_ret (fold_left (fun total size => wrap64 (total + size)) items 0).

Definition GetClusterNodeStatus (nodeName : string) : AIO ClusterNodeStatus :=
  items <- call "failed to get node status" "failed to decode node status"
             (fun token => get_nodes token (Some nodeName)) ;;
  match items with
  | [] => io_err ("node " +:+ nodeName +:+ " not found")
  | item :: _ => io_ret item
  end.

Definition GetAllNodesStatus : AIO (list ClusterNodeStatus) :=
  call "failed to get all nodes status" "failed to decode nodes status"
    (fun token => get_nodes token None).

(** A token is only used while it is valid: after a successful
    authentication either the stored token has not expired, or the server
    has just issued it and it is good for [TokenValidityDuration]. *)
Lemma Authenticate_fresh a w a' w' :
  Authenticate (a, w) = (Ok tt, (a', w')) ->
  now < wa_tokenExp a' /\
  ((a' = a /\ w' = w /\ wa_token a <> "") \/
   (wa_tokenExp a' = now + TokenValidityDuration /\
    exists r, post_authenticate w = (Ok r, w') /\ StatusCode r = StatusOK /\
      decoded r = Ok (wa_token a'))).
Proof.
  unfold Authenticate, io_bind at 1, io_get. cbn [fst].
  destruct (bool_decide _ && _) eqn:E.
  - apply andb_prop in E as [H1%bool_decide_eq_true H2%bool_decide_eq_true].
    unfold io_ret. intros; simplify_eq. auto.
  - unfold io_bind, io_wrap, io_world. destruct (post_authenticate w) as [[r|e] w1]; [|done].
    clear E. cbn [wrapf]. case_bool_decide as Hs; [done|].
    destruct (decoded r) as [t|] eqn:Ed; [|done]. cbn. unfold io_modify. intros; simplify_eq. cbn.
    split; [cbn; unfold TokenValidityDuration, Minute, Second, Millisecond; lia|]. right. eauto.
Qed.
End Adapter.
