(* ===== verification/DrainState.v ===== *)
(** * Drain state machine ([internal/shared/drain/state.go])

    The status record of one component's drain, the table of valid phase
    transitions and the operations that move the status through it.  A
    [*v1.ComponentDrainStatus] that the code checks for [nil] is an [option];
    [time.Now()] is the argument [now] (nanoseconds since the epoch). *)
From S2P Require Import Prelude.

(** [""] (a status never written) is [PhaseUnset]; the CRD enumeration allows
    no other string. *)
Inductive DrainPhase : Type :=
| PhaseUnset
| DrainPhaseIdle
| DrainPhasePending
| DrainPhaseDraining
| DrainPhaseVerifying
| DrainPhaseComplete
| DrainPhaseFailed
| DrainPhaseRollingBack.

#[export] Instance DrainPhase_eq_dec : EqDecision DrainPhase.
Proof. solve_decision. Defined.

Definition phase_string (p : DrainPhase) : string :=
  match p with
  | PhaseUnset => ""
  | DrainPhaseIdle => "Idle"
  | DrainPhasePending => "Pending"
  | DrainPhaseDraining => "Draining"
  | DrainPhaseVerifying => "Verifying"
  | DrainPhaseComplete => "Complete"
  | DrainPhaseFailed => "Failed"
  | DrainPhaseRollingBack => "RollingBack"
  end.

Record ComponentDrainStatus := {
  cds_Phase : DrainPhase;
  cds_TargetPod : string;
  cds_PreviousReplicas : option Z;
  cds_TargetReplicas : option Z;
  cds_Progress : Z;
  cds_StartTime : option Z;
  cds_LastTransitionTime : option Z;
  cds_AttemptCount : Z;
  cds_NextRetryTime : option Z;
  cds_Message : string;
  cds_ShardCount : option Z;
  cds_QueueDepth : option Z
}.

(** [ValidTransitions]: a map from a phase to its successors. *)
Definition ValidTransitions (from : DrainPhase) : option (list DrainPhase) :=
  match from with
  | DrainPhaseIdle => Some [DrainPhasePending]
  | DrainPhasePending => Some [DrainPhaseDraining; DrainPhaseIdle]
  | DrainPhaseDraining => Some [DrainPhaseVerifying; DrainPhaseFailed]
  | DrainPhaseVerifying => Some [DrainPhaseComplete; DrainPhaseFailed]
  | DrainPhaseComplete => Some [DrainPhaseIdle]
  | DrainPhaseFailed => Some [DrainPhaseRollingBack; DrainPhaseIdle]
  | DrainPhaseRollingBack => Some [DrainPhasePending; DrainPhaseFailed; DrainPhaseIdle]
  | PhaseUnset => None
  end.

Definition IsValidTransition (from to : DrainPhase) : bool :=
  match ValidTransitions from with
  | None => false
  | Some validTargets => existsb (fun valid => bool_decide (valid = to)) validTargets
  end.

(** The three assignments every accepted transition makes. *)
Definition set_phase (now : Z) (to : DrainPhase) (message : string)
    (s : ComponentDrainStatus) : ComponentDrainStatus :=
  {| cds_Phase := to;
     cds_TargetPod := cds_TargetPod s;
     cds_PreviousReplicas := cds_PreviousReplicas s;
     cds_TargetReplicas := cds_TargetReplicas s;
     cds_Progress := cds_Progress s;
     cds_StartTime := cds_StartTime s;
     cds_LastTransitionTime := Some now;
     cds_AttemptCount := cds_AttemptCount s;
     cds_NextRetryTime := cds_NextRetryTime s;
     cds_Message := message;
     cds_ShardCount := cds_ShardCount s;
     cds_QueueDepth := cds_QueueDepth s |}.

(** [case v1.DrainPhaseIdle]: all drain state is cleared. *)
Definition clear_drain_state (s : ComponentDrainStatus) : ComponentDrainStatus :=
  {| cds_Phase := cds_Phase s;
     cds_TargetPod := "";
     cds_PreviousReplicas := None;
     cds_TargetReplicas := None;
     cds_Progress := 0;
     cds_StartTime := None;
     cds_LastTransitionTime := cds_LastTransitionTime s;
     cds_AttemptCount := 0;
     cds_NextRetryTime := None;
     cds_Message := cds_Message s;
     cds_ShardCount := None;
     cds_QueueDepth := None |}.

(** Single-field assignments of the Go code. *)
Definition with_progress (p : Z) (s : ComponentDrainStatus) : ComponentDrainStatus :=
  {| cds_Phase := cds_Phase s; cds_TargetPod := cds_TargetPod s;
     cds_PreviousReplicas := cds_PreviousReplicas s; cds_TargetReplicas := cds_TargetReplicas s;
     cds_Progress := p; cds_StartTime := cds_StartTime s;
     cds_LastTransitionTime := cds_LastTransitionTime s; cds_AttemptCount := cds_AttemptCount s;
     cds_NextRetryTime := cds_NextRetryTime s; cds_Message := cds_Message s;
     cds_ShardCount := cds_ShardCount s; cds_QueueDepth := cds_QueueDepth s |}.
Definition with_start (t : option Z) (s : ComponentDrainStatus) : ComponentDrainStatus :=
  {| cds_Phase := cds_Phase s; cds_TargetPod := cds_TargetPod s;
     cds_PreviousReplicas := cds_PreviousReplicas s; cds_TargetReplicas := cds_TargetReplicas s;
     cds_Progress := cds_Progress s; cds_StartTime := t;
     cds_LastTransitionTime := cds_LastTransitionTime s; cds_AttemptCount := cds_AttemptCount s;
     cds_NextRetryTime := cds_NextRetryTime s; cds_Message := cds_Message s;
     cds_ShardCount := cds_ShardCount s; cds_QueueDepth := cds_QueueDepth s |}.
Definition with_message (m : string) (s : ComponentDrainStatus) : ComponentDrainStatus :=
  {| cds_Phase := cds_Phase s; cds_TargetPod := cds_TargetPod s;
     cds_PreviousReplicas := cds_PreviousReplicas s; cds_TargetReplicas := cds_TargetReplicas s;
     cds_Progress := cds_Progress s; cds_StartTime := cds_StartTime s;
     cds_LastTransitionTime := cds_LastTransitionTime s; cds_AttemptCount := cds_AttemptCount s;
     cds_NextRetryTime := cds_NextRetryTime s; cds_Message := m;
     cds_ShardCount := cds_ShardCount s; cds_QueueDepth := cds_QueueDepth s |}.
Definition with_phase (p : DrainPhase) (s : ComponentDrainStatus) : ComponentDrainStatus :=
  {| cds_Phase := p; cds_TargetPod := cds_TargetPod s;
     cds_PreviousReplicas := cds_PreviousReplicas s; cds_TargetReplicas := cds_TargetReplicas s;
     cds_Progress := cds_Progress s; cds_StartTime := cds_StartTime s;
     cds_LastTransitionTime := cds_LastTransitionTime s; cds_AttemptCount := cds_AttemptCount s;
     cds_NextRetryTime := cds_NextRetryTime s; cds_Message := cds_Message s;
     cds_ShardCount := cds_ShardCount s; cds_QueueDepth := cds_QueueDepth s |}.
Definition with_last_transition (t : option Z) (s : ComponentDrainStatus) : ComponentDrainStatus :=
  {| cds_Phase := cds_Phase s; cds_TargetPod := cds_TargetPod s;
     cds_PreviousReplicas := cds_PreviousReplicas s; cds_TargetReplicas := cds_TargetReplicas s;
     cds_Progress := cds_Progress s; cds_StartTime := cds_StartTime s;
     cds_LastTransitionTime := t; cds_AttemptCount := cds_AttemptCount s;
     cds_NextRetryTime := cds_NextRetryTime s; cds_Message := cds_Message s;
     cds_ShardCount := cds_ShardCount s; cds_QueueDepth := cds_QueueDepth s |}.
Definition with_retry (attempts : Z) (next : option Z) (s : ComponentDrainStatus) : ComponentDrainStatus :=
  {| cds_Phase := cds_Phase s; cds_TargetPod := cds_TargetPod s;
     cds_PreviousReplicas := cds_PreviousReplicas s; cds_TargetReplicas := cds_TargetReplicas s;
     cds_Progress := cds_Progress s; cds_StartTime := cds_StartTime s;
     cds_LastTransitionTime := cds_LastTransitionTime s; cds_AttemptCount := attempts;
     cds_NextRetryTime := next; cds_Message := cds_Message s;
     cds_ShardCount := cds_ShardCount s; cds_QueueDepth := cds_QueueDepth s |}.

(** [TransitionTo]; an [Err] leaves the caller's status as it was, since every
    assignment comes after the two checks. *)
Definition TransitionTo (now : Z) (status : option ComponentDrainStatus)
    (to : DrainPhase) (message : string) : result ComponentDrainStatus :=
  match status with
  | None => Err "status is nil"
  | Some s =>
      let from := if bool_decide (cds_Phase s = PhaseUnset) then DrainPhaseIdle
                  else cds_Phase s in
      if negb (IsValidTransition from to) then
        Err ("invalid transition from " +:+ phase_string from +:+ " to " +:+ phase_string to)
      else
        let s' := set_phase now to message s in
        Ok (match to with
            | DrainPhaseIdle => clear_drain_state s'
            | DrainPhasePending => with_progress 0 (with_start (Some now) s')
            | DrainPhaseComplete => with_progress 100 s'
            | _ => s'
            end)
  end.

(** Go's zero value of the struct. *)
Definition zero_status : ComponentDrainStatus :=
  {| cds_Phase := PhaseUnset; cds_TargetPod := ""; cds_PreviousReplicas := None;
     cds_TargetReplicas := None; cds_Progress := 0; cds_StartTime := None;
     cds_LastTransitionTime := None; cds_AttemptCount := 0; cds_NextRetryTime := None;
     cds_Message := ""; cds_ShardCount := None; cds_QueueDepth := None |}.

Definition InitializeDrainStatus : ComponentDrainStatus :=
  with_phase DrainPhaseIdle zero_status.

Definition StartDrain (now : Z) (status : ComponentDrainStatus) (targetPod : string)
    (previousReplicas targetReplicas : Z) : result ComponentDrainStatus :=
  if bool_decide (cds_Phase status <> DrainPhaseIdle) then
    Err ("cannot start drain: current phase is " +:+ phase_string (cds_Phase status)
         +:+ ", expected Idle")
  else
    Ok {| cds_Phase := DrainPhasePending;
          cds_TargetPod := targetPod;
          cds_PreviousReplicas := Some previousReplicas;
          cds_TargetReplicas := Some targetReplicas;
          cds_Progress := 0;
          cds_StartTime := Some now;
          cds_LastTransitionTime := Some now;
          cds_AttemptCount := 1;
          cds_NextRetryTime := cds_NextRetryTime status;
          cds_Message := "Scale-down detected: " +:+ pretty previousReplicas +:+ " -> "
                         +:+ pretty targetReplicas +:+ " replicas, draining pod " +:+ targetPod;
          cds_ShardCount := cds_ShardCount status;
          cds_QueueDepth := cds_QueueDepth status |}.

Definition UpdateProgress (status : ComponentDrainStatus) (progress : Z) (message : string)
    : ComponentDrainStatus :=
  let progress := if bool_decide (progress < 0) then 0 else progress in
  let progress := if bool_decide (100 < progress) then 100 else progress in
  with_message message (with_progress progress status).

Definition UpdateShardCount (status : ComponentDrainStatus) (count : Z) : ComponentDrainStatus :=
  {| cds_Phase := cds_Phase status; cds_TargetPod := cds_TargetPod status;
     cds_PreviousReplicas := cds_PreviousReplicas status;
     cds_TargetReplicas := cds_TargetReplicas status;
     cds_Progress := cds_Progress status; cds_StartTime := cds_StartTime status;
     cds_LastTransitionTime := cds_LastTransitionTime status;
     cds_AttemptCount := cds_AttemptCount status;
     cds_NextRetryTime := cds_NextRetryTime status; cds_Message := cds_Message status;
     cds_ShardCount := Some count; cds_QueueDepth := cds_QueueDepth status |}.

Definition UpdateQueueDepth (status : ComponentDrainStatus) (depth : Z) : ComponentDrainStatus :=
  {| cds_Phase := cds_Phase status; cds_TargetPod := cds_TargetPod status;
     cds_PreviousReplicas := cds_PreviousReplicas status;
     cds_TargetReplicas := cds_TargetReplicas status;
     cds_Progress := cds_Progress status; cds_StartTime := cds_StartTime status;
     cds_LastTransitionTime := cds_LastTransitionTime status;
     cds_AttemptCount := cds_AttemptCount status;
     cds_NextRetryTime := cds_NextRetryTime status; cds_Message := cds_Message status;
     cds_ShardCount := cds_ShardCount status; cds_QueueDepth := Some depth |}.

Definition MarkFailed (now : Z) (status : option ComponentDrainStatus) (reason : string) :=
  TransitionTo now status DrainPhaseFailed reason.

Definition MarkComplete (now : Z) (status : option ComponentDrainStatus) :=
  TransitionTo now status DrainPhaseComplete "Drain completed successfully".

Definition StartRollback (now : Z) (status : option ComponentDrainStatus) (reason : string) :=
  TransitionTo now status DrainPhaseRollingBack reason.

Definition ScheduleRetry (status : ComponentDrainStatus) (retryTime : Z) : ComponentDrainStatus :=
  with_retry (wrap32 (cds_AttemptCount status + 1)) (Some retryTime) status.

Definition IsRetryDue (now : Z) (status : ComponentDrainStatus) : bool :=
  match cds_NextRetryTime status with
  | None => false
  | Some t => bool_decide (t < now)
  end.

Definition CanRetry (status : ComponentDrainStatus) (maxAttempts : Z) : bool :=
  bool_decide (cds_AttemptCount status < maxAttempts).

Definition ResetForRetry (now : Z) (status : ComponentDrainStatus) : result ComponentDrainStatus :=
  if bool_decide (cds_Phase status <> DrainPhaseRollingBack) then
    Err ("cannot reset for retry: current phase is " +:+ phase_string (cds_Phase status)
         +:+ ", expected RollingBack")
  else
    Ok (with_message ("Retrying drain (attempt " +:+ pretty (cds_AttemptCount status) +:+ ")")
          (with_retry (cds_AttemptCount status) None
             (with_progress 0 (with_last_transition (Some now)
                (with_phase DrainPhasePending status))))).

Definition IsDrainInProgress (status : option ComponentDrainStatus) : bool :=
  match status with
  | None => false
  | Some s =>
      match cds_Phase s with
      | DrainPhasePending | DrainPhaseDraining | DrainPhaseVerifying
      | DrainPhaseRollingBack => true
      | _ => false
      end
  end.

Definition IsDrainFailed (status : option ComponentDrainStatus) : bool :=
  match status with None => false | Some s => bool_decide (cds_Phase s = DrainPhaseFailed) end.

Definition IsDrainComplete (status : option ComponentDrainStatus) : bool :=
  match status with None => false | Some s => bool_decide (cds_Phase s = DrainPhaseComplete) end.

(** [time.Since] saturates at the ends of [time.Duration]. *)
Definition time_since (now t : Z) : Z := Z.max (- 2 ^ 63) (Z.min (2 ^ 63 - 1) (now - t)).

Definition GetDrainDuration (now : Z) (status : option ComponentDrainStatus) : Z :=
  match status with
  | Some s => match cds_StartTime s with Some t => time_since now t | None => 0 end
  | None => 0
  end.

Definition IsTimeout (now : Z) (status : option ComponentDrainStatus) (timeout : Z) : bool :=
  match status with
  | Some s => match cds_StartTime s with
              | Some t => bool_decide (timeout < time_since now t)
              | None => false
              end
  | None => false
  end.

(** [Reset] of a non-nil status (the call on [nil] does nothing). *)
Definition Reset (now : Z) (status : option ComponentDrainStatus) : option ComponentDrainStatus :=
  match status with
  | None => None
  | Some s => Some (with_message "Reset to idle"
                      (clear_drain_state (set_phase now DrainPhaseIdle (cds_Message s) s)))
  end.

(** ** One operation of the state machine

    The calls of this package that a reconciler makes on a live status, as
    data, so that a history of a drain is a list of operations. *)
Inductive drain_op : Type :=
| OpTransition (to : DrainPhase) (message : string)
| OpStart (pod : string) (previous target : Z)
| OpProgress (progress : Z) (message : string)
| OpShards (count : Z)
| OpQueue (depth : Z)
| OpScheduleRetry (at_ : Z)
| OpResetForRetry
| OpReset.

(** A refused operation (an [Err]) leaves the status unchanged. *)
Definition keep (s : ComponentDrainStatus) (r : result ComponentDrainStatus)
    : ComponentDrainStatus :=
  match r with Ok s' => s' | Err _ => s end.

Definition apply_op (now : Z) (s : ComponentDrainStatus) (op : drain_op)
    : ComponentDrainStatus :=
  match op with
  | OpTransition to m => keep s (TransitionTo now (Some s) to m)
  | OpStart pod p t => keep s (StartDrain now s pod p t)
  | OpProgress p m => UpdateProgress s p m
  | OpShards c => UpdateShardCount s c
  | OpQueue d => UpdateQueueDepth s d
  | OpScheduleRetry t => ScheduleRetry s t
  | OpResetForRetry => keep s (ResetForRetry now s)
  | OpReset => default s (Reset now (Some s))
  end.

(** The phases a history goes through, oldest first, starting phase included. *)
Fixpoint run_phases (s : ComponentDrainStatus) (ops : list (Z * drain_op)) : list DrainPhase :=
  cds_Phase s ::
  match ops with
  | [] => []
  | (now, op) :: rest => run_phases (apply_op now s op) rest
  end.

Fixpoint run_ops (s : ComponentDrainStatus) (ops : list (Z * drain_op)) : ComponentDrainStatus :=
  match ops with
  | [] => s
  | (now, op) :: rest => run_ops (apply_op now s op) rest
  end.

(** ** Well-formed statuses *)

(** Everything a drain records is cleared. *)
Definition cleared (s : ComponentDrainStatus) : Prop :=
  clear_drain_state s = s.

Definition quiet (p : DrainPhase) : bool :=
  match p with PhaseUnset | DrainPhaseIdle => true | _ => false end.

(** The progress is a percentage, a drain that is under way, finished, failed
    or being rolled back has a start time, a complete one is at 100 %, and an
    idle status holds nothing. *)
Record wf (s : ComponentDrainStatus) : Prop := {
  wf_progress : 0 <= cds_Progress s <= 100;
  wf_started : quiet (cds_Phase s) = false -> is_Some (cds_StartTime s);
  wf_complete : cds_Phase s = DrainPhaseComplete -> cds_Progress s = 100;
  wf_idle : quiet (cds_Phase s) = true -> cleared s
}.

(** Which operations the reconcilers make in which phase: the counters are
    only written while a drain is active, a retry only scheduled after a failure. *)
Definition op_allowed (s : ComponentDrainStatus) (op : drain_op) : Prop :=
  match op with
  | OpProgress _ _ | OpShards _ | OpQueue _ => IsDrainInProgress (Some s) = true
  | OpScheduleRetry _ => cds_Phase s = DrainPhaseFailed \/ cds_Phase s = DrainPhaseRollingBack
  | _ => True
  end.

Fixpoint run_allowed (s : ComponentDrainStatus) (ops : list (Z * drain_op)) : Prop :=
  match ops with
  | [] => True
  | (now, op) :: rest => op_allowed s op /\ run_allowed (apply_op now s op) rest
  end.

(** ** Lemmas *)

Lemma IsValidTransition_spec from to :
  IsValidTransition from to = true <->
  exists targets, ValidTransitions from = Some targets /\ In to targets.
Proof.
  unfold IsValidTransition. split.
  - destruct (ValidTransitions from) as [l|]; [|done].
    intros (x & Hin & Hx)%existsb_exists. apply bool_decide_eq_true in Hx as ->. eauto.
  - intros (l & -> & Hin). apply existsb_exists. exists to. by rewrite bool_decide_true.
Qed.

(** The source phase a transition is checked against. *)
Definition effective_phase (s : ComponentDrainStatus) : DrainPhase :=
  if bool_decide (cds_Phase s = PhaseUnset) then DrainPhaseIdle else cds_Phase s.

Lemma TransitionTo_ok now s to m s' :
  TransitionTo now (Some s) to m = Ok s' ->
  IsValidTransition (effective_phase s) to = true /\
  cds_Phase s' = to /\ cds_Message s' = m /\ cds_LastTransitionTime s' = Some now.
Proof.
  cbn [TransitionTo]. fold (effective_phase s).
  destruct (IsValidTransition _ _); simpl; intros H; simplify_eq.
  by destruct to.
Qed.

Lemma TransitionTo_valid now s to m :
  IsValidTransition (effective_phase s) to = true ->
  is_ok (TransitionTo now (Some s) to m) = true.
Proof. cbn [TransitionTo]. fold (effective_phase s). by intros ->. Qed.

Lemma valid_not_unset from to : IsValidTransition from to = true -> to <> PhaseUnset.
Proof. destruct from, to; done. Qed.

Lemma clear_clears s : cleared (clear_drain_state s).
Proof. done. Qed.

Lemma wf_transition now s to m s' :
  wf s -> TransitionTo now (Some s) to m = Ok s' -> wf s'.
Proof.
  intros [Hp Hs Hc Hi] HT. pose proof (TransitionTo_ok _ _ _ _ _ HT) as (Hv & _).
  pose proof (valid_not_unset _ _ Hv) as Hu.
  cbn [TransitionTo] in HT. fold (effective_phase s) in HT. rewrite Hv in HT. simplify_eq/=.
  unfold effective_phase in Hv.
  destruct to; try done; split; cbn; intros; try lia; try done; eauto;
    destruct (cds_Phase s) eqn:E; try done; apply Hs; by rewrite ?E.
Qed.

Lemma wf_apply now s op : wf s -> op_allowed s op -> wf (apply_op now s op).
Proof.
  intros Hwf. pose proof Hwf as [Hp Hs Hc Hi].
  destruct op as [to m|pod p t|p m|c|d|t| |]; cbn [apply_op op_allowed]; intros Ha.
  - destruct (TransitionTo now (Some s) to m) eqn:E; simpl; [|done].
    by eapply wf_transition.
  - unfold StartDrain. case_bool_decide; simpl; [done|]. split; cbn; intros; try done; eauto; lia.
  - unfold UpdateProgress. split; cbn; [repeat case_bool_decide; lia|eauto|..];
      intros E; cbn in Ha; rewrite ?E in Ha; try done; by destruct (cds_Phase s).
  - split; cbn in *; eauto; intros E; by destruct (cds_Phase s).
  - split; cbn in *; eauto; intros E; by destruct (cds_Phase s).
  - split; cbn in *; eauto; intros E; by destruct Ha as [Ha|Ha]; rewrite Ha in E.
  - unfold ResetForRetry. case_bool_decide as Hph; simpl; [done|].
    split; cbn; intros; try lia; try done. apply Hs.
    destruct (cds_Phase s); try done; contradict Hph; done.
  - split; cbn; intros; try lia; done.
Qed.

Lemma wf_run s ops : wf s -> run_allowed s ops -> wf (run_ops s ops).
Proof.
  revert s. induction ops as [|[now op] ops IH]; simpl; [done|].
  intros s Hwf [Ha Hr]. apply IH; [by apply wf_apply|done].
Qed.

(** Where one operation can lead: the phase stays or moves along the table. *)
Lemma apply_op_phase now s op :
  cds_Phase (apply_op now s op) = cds_Phase s \/
  IsValidTransition (effective_phase s) (cds_Phase (apply_op now s op)) = true \/
  cds_Phase (apply_op now s op) = DrainPhaseIdle.
Proof.
  destruct op as [to m|pod p t|p m|c|d|t| |]; cbn [apply_op]; auto.
  - destruct (TransitionTo now (Some s) to m) eqn:E; [|by left].
    apply TransitionTo_ok in E as (? & <- & _). right; left. done.
  - unfold StartDrain. case_bool_decide as E; [by left|].
    right; left. cbn. unfold effective_phase. by rewrite E.
  - unfold ResetForRetry. case_bool_decide as E; [by left|].
    right; left. cbn. unfold effective_phase. by rewrite E.
Qed.

(** The phases every history must have gone through to be in phase [p]. *)
Definition must_visit (p : DrainPhase) : list DrainPhase :=
  match p with
  | PhaseUnset | DrainPhaseIdle => []
  | DrainPhasePending => [DrainPhasePending]
  | DrainPhaseDraining => [DrainPhasePending; DrainPhaseDraining]
  | DrainPhaseVerifying => [DrainPhasePending; DrainPhaseDraining; DrainPhaseVerifying]
  | DrainPhaseComplete =>
      [DrainPhasePending; DrainPhaseDraining; DrainPhaseVerifying; DrainPhaseComplete]
  | DrainPhaseFailed => [DrainPhasePending; DrainPhaseDraining; DrainPhaseFailed]
  | DrainPhaseRollingBack =>
      [DrainPhasePending; DrainPhaseDraining; DrainPhaseFailed; DrainPhaseRollingBack]
  end.

Lemma must_visit_step p q :
  IsValidTransition (if bool_decide (p = PhaseUnset) then DrainPhaseIdle else p) q = true ->
  must_visit q `sublist_of` must_visit p ++ [q].
Proof.
  destruct p, q; try done; intros _; cbn;
    repeat first [apply sublist_skip | apply sublist_nil_l | apply sublist_cons].
Qed.

Lemma must_visit_run seen s ops :
  must_visit (cds_Phase s) `sublist_of` seen ++ [cds_Phase s] ->
  must_visit (cds_Phase (run_ops s ops)) `sublist_of` seen ++ run_phases s ops.
Proof.
  revert seen s. induction ops as [|[now op] ops IH]; intros seen s Hv; cbn; [done|].
  rewrite cons_middle, app_assoc. apply IH.
  destruct (apply_op_phase now s op) as [->|[H|H]].
  - by apply sublist_inserts_r.
  - etrans; [apply (must_visit_step _ _ H)|]. by apply sublist_app.
  - rewrite H. apply sublist_nil_l.
Qed.

Lemma run_ops_ends s ops : exists seen, run_phases s ops = seen ++ [cds_Phase (run_ops s ops)].
Proof.
  revert s. induction ops as [|[now op] ops IH]; intros s; cbn; [by exists []|].
  destruct (IH (apply_op now s op)) as [seen ->]. by exists (cds_Phase s :: seen).
Qed.

(** ** Properties *)

(** [TransitionTo] follows the transition table exactly: it fails on a nil
    status and on a pair of phases outside [ValidTransitions] (reading an unset
    phase as Idle), leaving the status alone; otherwise it sets the phase,
    message and time, clears the drain data on Idle, restarts clock and
    progress on Pending, sets 100 % on Complete and touches nothing else. *)
Theorem TransitionTo_functional now s to m :
  TransitionTo now None to m = Err "status is nil" /\
  (TransitionTo now (Some s) to m =
     if IsValidTransition (effective_phase s) to
     then Ok {| cds_Phase := to;
                cds_TargetPod := if decide (to = DrainPhaseIdle) then "" else cds_TargetPod s;
                cds_PreviousReplicas :=
                  if decide (to = DrainPhaseIdle) then None else cds_PreviousReplicas s;
                cds_TargetReplicas :=
                  if decide (to = DrainPhaseIdle) then None else cds_TargetReplicas s;
                cds_Progress :=
                  if decide (to = DrainPhaseIdle \/ to = DrainPhasePending) then 0
                  else if decide (to = DrainPhaseComplete) then 100 else cds_Progress s;
                cds_StartTime :=
                  if decide (to = DrainPhaseIdle) then None
                  else if decide (to = DrainPhasePending) then Some now else cds_StartTime s;
                cds_LastTransitionTime := Some now;
                cds_AttemptCount := if decide (to = DrainPhaseIdle) then 0 else cds_AttemptCount s;
                cds_NextRetryTime :=
                  if decide (to = DrainPhaseIdle) then None else cds_NextRetryTime s;
                cds_Message := m;
                cds_ShardCount := if decide (to = DrainPhaseIdle) then None else cds_ShardCount s;
                cds_QueueDepth := if decide (to = DrainPhaseIdle) then None else cds_QueueDepth s |}
     else Err ("invalid transition from " +:+ phase_string (effective_phase s) +:+ " to "
               +:+ phase_string to)) /\
  (IsValidTransition (effective_phase s) to = true <->
     exists targets, ValidTransitions (effective_phase s) = Some targets /\ In to targets).
Proof.
  split; [done|]. split; [|apply IsValidTransition_spec].
  cbn [TransitionTo]. fold (effective_phase s).
  destruct (IsValidTransition _ to); [|done]. by destruct to.
Qed.



(** C10: whatever calls are made, accepted or refused, a status that started
    Idle is Complete only if the drain was Pending, then Draining, then
    Verifying before: no sequence of operations skips the verification. *)
Theorem complete_only_after_verification ops :
  cds_Phase (run_ops InitializeDrainStatus ops) = DrainPhaseComplete ->
  [DrainPhasePending; DrainPhaseDraining; DrainPhaseVerifying; DrainPhaseComplete]
    `sublist_of` run_phases InitializeDrainStatus ops.
Proof.
  intros HC. pose proof (must_visit_run [] InitializeDrainStatus ops) as H.
  rewrite HC in H. apply H, sublist_nil_l.
Qed.

Example complete_only_after_verification_witness :
  let ops := [(1, OpStart "p" 3 2); (2, OpTransition DrainPhaseComplete "too early");
              (2, OpTransition DrainPhaseDraining ""); (3, OpTransition DrainPhaseVerifying "");
              (4, OpTransition DrainPhaseComplete "")] in
  cds_Phase (run_ops InitializeDrainStatus ops) = DrainPhaseComplete /\
  [DrainPhasePending; DrainPhaseDraining; DrainPhaseVerifying; DrainPhaseComplete]
    `sublist_of` run_phases InitializeDrainStatus ops.
Proof. split; [done|]. apply complete_only_after_verification. reflexivity. Defined.
