(* ===== verification/DrainDetect.v ===== *)
(** * Scale-down detection ([internal/shared/drain/detection.go])

    Which pods a StatefulSet loses when its replica count is lowered. *)
From S2P Require Import Prelude GoStrings Kube.
Local Open Scope list_scope.

Record ScaleDownInfo := {
  sd_Detected : bool;
  sd_CurrentReplicas : Z;
  sd_TargetReplicas : Z;
  sd_ScaleAmount : Z;
  sd_TargetPodName : string;
  sd_TargetPodIndex : Z
}.

Definition no_scale_down (current target : Z) : ScaleDownInfo :=
  {| sd_Detected := false; sd_CurrentReplicas := current; sd_TargetReplicas := target;
     sd_ScaleAmount := 0; sd_TargetPodName := ""; sd_TargetPodIndex := 0 |}.

(** [fmt.Sprintf("%s-%d", sts, i)] *)
Definition pod_name (stsName : string) (i : Z) : string := stsName +:+ "-" +:+ pretty i.

Definition DetectStatefulSetScaleDown (sts : option StatefulSet) (desiredReplicas : Z)
    : ScaleDownInfo :=
  match sts with
  | None => no_scale_down 0 desiredReplicas
  | Some sts =>
      let currentReplicas := default (sts_Replicas sts) (sts_SpecReplicas sts) in
      if bool_decide (desiredReplicas < currentReplicas) then
        let targetIndex := wrap32 (currentReplicas - 1) in
        {| sd_Detected := true;
           sd_CurrentReplicas := currentReplicas;
           sd_TargetReplicas := desiredReplicas;
           sd_ScaleAmount := wrap32 (currentReplicas - desiredReplicas);
           sd_TargetPodName := pod_name (sts_Name sts) targetIndex;
           sd_TargetPodIndex := targetIndex |}
      else no_scale_down currentReplicas desiredReplicas
  end.

(** [None] is the Go triple ["", 0, false]. *)
Definition GetNextTargetPod (stsName : string) (currentReplicas targetReplicas alreadyDrained : Z)
    : option (string * Z) :=
  if bool_decide (currentReplicas <= targetReplicas) then None
  else
    let nextIndex := wrap32 (wrap32 (currentReplicas - 1) - alreadyDrained) in
    if bool_decide (nextIndex < targetReplicas) then None
    else Some (pod_name stsName nextIndex, nextIndex).

(** [for i := current - 1; i >= target; i--]; the loop body runs at most [fuel]
    times. *)
Fixpoint target_pods_from (fuel : nat) (stsName : string) (i targetReplicas : Z) : list string :=
  match fuel with
  | O => []
  | S fuel =>
      if bool_decide (targetReplicas <= i)
      then pod_name stsName i :: target_pods_from fuel stsName (wrap32 (i - 1)) targetReplicas
      else []
  end.

Definition GetAllTargetPods (stsName : string) (currentReplicas targetReplicas : Z)
    : list string :=
  if bool_decide (currentReplicas <= targetReplicas) then []
  else target_pods_from (Z.to_nat (currentReplicas - targetReplicas)) stsName
         (wrap32 (currentReplicas - 1)) targetReplicas.

Definition GetPodOrdinalFromName (podName stsName : string) : result Z :=
  let expectedPrefix := stsName +:+ "-" in
  if bool_decide (String.length podName <= String.length expectedPrefix)%nat then
    Err ("pod name " +:+ podName +:+ " does not match StatefulSet " +:+ stsName +:+ " pattern")
  else
    match Sscanf_int32 expectedPrefix podName with
    | Err e => Err (errorf ("failed to parse ordinal from pod name " +:+ podName) e)
    | Ok ordinal => Ok ordinal
    end.

Definition NeedsScaleDown (currentReplicas desiredReplicas : Z) : bool :=
  bool_decide (desiredReplicas < currentReplicas) && bool_decide (0 <= desiredReplicas).

Definition NeedsScaleUp (currentReplicas desiredReplicas : Z) : bool :=
  bool_decide (currentReplicas < desiredReplicas).

Definition CalculateScaleDownAmount (currentReplicas desiredReplicas : Z) : Z :=
  if bool_decide (currentReplicas <= desiredReplicas) then 0
  else wrap32 (currentReplicas - desiredReplicas).

(** ** Lemmas *)

#[export] Instance pod_name_inj sts : Inj (=) (=) (pod_name sts).
Proof.
  intros i j H. unfold pod_name in H. apply (inj (String.app sts)) in H.
  apply (inj (String.app "-")) in H. by apply (inj pretty) in H.
Qed.

(** The pods a client of [GetNextTargetPod] drains one after the other. *)
Fixpoint drain_sequence (fuel : nat) (stsName : string) (current target drained : Z)
    : list string :=
  match fuel with
  | O => []
  | S fuel =>
      match GetNextTargetPod stsName current target drained with
      | None => []
      | Some (p, _) => p :: drain_sequence fuel stsName current target (drained + 1)
      end
  end.

Lemma target_pods_from_spec fuel sts i target :
  0 <= target -> i < 2 ^ 31 -> (Z.to_nat (i + 1 - target) <= fuel)%nat -> target <= i + 1 ->
  target_pods_from fuel sts i target =
  map (fun k => pod_name sts (i - Z.of_nat k)) (seq 0 (Z.to_nat (i + 1 - target))).
Proof.
  revert i. induction fuel as [|fuel IH]; intros i Ht Hi Hf Hle; cbn [target_pods_from].
  - by replace (Z.to_nat (i + 1 - target)) with O by lia.
  - case_bool_decide as Hc.
    + rewrite wrap32_id by (unfold int32; lia). rewrite IH by lia.
      replace (Z.to_nat (i + 1 - target)) with (S (Z.to_nat (i - 1 + 1 - target))) by lia.
      cbn [seq map]. f_equal; [f_equal; lia|].
      rewrite <-seq_shift, map_map. apply map_ext. intros k. f_equal. lia.
    + by replace (Z.to_nat (i + 1 - target)) with O by lia.
Qed.

Lemma GetAllTargetPods_spec sts current target :
  0 <= target -> current < 2 ^ 31 ->
  GetAllTargetPods sts current target =
  map (fun k => pod_name sts (current - 1 - Z.of_nat k)) (seq 0 (Z.to_nat (current - target))).
Proof.
  intros Ht Hc. unfold GetAllTargetPods. case_bool_decide.
  - by replace (Z.to_nat (current - target)) with O by lia.
  - rewrite wrap32_id by (unfold int32; lia).
    rewrite target_pods_from_spec by lia. do 2 f_equal. lia.
Qed.

Lemma GetNextTargetPod_spec sts current target drained :
  0 <= target -> current < 2 ^ 31 -> 0 <= drained < 2 ^ 31 ->
  GetNextTargetPod sts current target drained =
  if bool_decide (target + drained < current)
  then Some (pod_name sts (current - 1 - drained), current - 1 - drained) else None.
Proof.
  intros Ht Hc Hd. unfold GetNextTargetPod. case_bool_decide.
  - by rewrite bool_decide_false by lia.
  - rewrite (wrap32_id (current - 1)) by (unfold int32; lia).
    rewrite wrap32_id by (unfold int32; lia).
    repeat case_bool_decide; try lia; done.
Qed.

Lemma drain_sequence_spec fuel sts current target drained :
  0 <= target -> current < 2 ^ 31 -> 0 <= drained ->
  (Z.to_nat (current - target - drained) < fuel)%nat -> drained + Z.of_nat fuel <= 2 ^ 31 ->
  drain_sequence fuel sts current target drained =
  map (fun k => pod_name sts (current - 1 - drained - Z.of_nat k))
    (seq 0 (Z.to_nat (current - target - drained))).
Proof.
  revert drained. induction fuel as [|fuel IH]; intros d Ht Hc Hd Hf Hm; [lia|].
  cbn [drain_sequence]. rewrite GetNextTargetPod_spec by lia. case_bool_decide.
  - rewrite IH by lia.
    replace (Z.to_nat (current - target - d)) with (S (Z.to_nat (current - target - (d + 1)))) by lia.
    cbn [seq map]. f_equal; [f_equal; lia|].
    rewrite <-seq_shift, map_map. apply map_ext. intros k. f_equal. lia.
  - by replace (Z.to_nat (current - target - d)) with O by lia.
Qed.

Lemma GetPodOrdinalFromName_pod_name sts i :
  0 <= i < 2 ^ 31 -> GetPodOrdinalFromName (pod_name sts i) sts = Ok i.
Proof.
  intros Hi. unfold GetPodOrdinalFromName, pod_name. rewrite <-append_assoc.
  rewrite bool_decide_false.
  - by rewrite Sscanf_int32_pretty.
  - rewrite (append_length (sts +:+ "-")). rewrite pretty_Z_nonneg by lia.
    pose proof (pretty_N_nonempty (Z.to_N i)). destruct (pretty (Z.to_N i)); [done|]. cbn. lia.
Qed.

Lemma GetAllTargetPods_NoDup sts current target :
  0 <= target -> current < 2 ^ 31 -> NoDup (GetAllTargetPods sts current target).
Proof.
  intros Ht Hc. rewrite GetAllTargetPods_spec by done.
  apply (NoDup_fmap_2_strong (fun k => pod_name sts (current - 1 - Z.of_nat k))).
  - intros i j _ _ H. apply (inj (pod_name sts)) in H. lia.
  - apply NoDup_seq.
Qed.

(** ** Properties *)

(** a scale-down from [current] to [target] replicas drains exactly the
    pods the StatefulSet controller removes: draining [GetNextTargetPod] after
    [GetNextTargetPod] stops after [CalculateScaleDownAmount] pods and has
    visited [GetAllTargetPods], which are the pods with the ordinals
    [current-1 .. target] from the top, each once, each of which
    [GetPodOrdinalFromName] reads back, and the first of which is the pod
    [DetectStatefulSetScaleDown] names. *)
Theorem scale_down_pods s current target fuel :
  sts_SpecReplicas s = Some current ->
  0 <= target -> target < current -> current < 2 ^ 31 ->
  current - target < Z.of_nat fuel < 2 ^ 31 ->
  let sts := sts_Name s in
  let pods := GetAllTargetPods sts current target in
  let info := DetectStatefulSetScaleDown (Some s) target in
  drain_sequence fuel sts current target 0 = pods /\
  Z.of_nat (length pods) = CalculateScaleDownAmount current target /\
  NoDup pods /\
  (forall p, p ∈ pods <-> exists i, target <= i < current /\
     GetPodOrdinalFromName p sts = Ok i /\ p = pod_name sts i) /\
  sd_Detected info = true /\ sd_ScaleAmount info = Z.of_nat (length pods) /\
  head pods = Some (sd_TargetPodName info).
Proof.
  intros Hrep Ht Hlt Hc Hf sts pods info. subst pods info.
  assert (Hspec := GetAllTargetPods_spec sts current target Ht Hc).
  assert (Hlen : length (GetAllTargetPods sts current target) = Z.to_nat (current - target)).
  { by rewrite Hspec, length_map, length_seq. }
  unfold CalculateScaleDownAmount, DetectStatefulSetScaleDown. rewrite Hrep.
  rewrite (bool_decide_false (current <= target)) by lia.
  cbn [from_option id]. rewrite (bool_decide_true (target < current)) by lia.
  cbn [sd_Detected sd_ScaleAmount sd_TargetPodName]. fold sts.
  rewrite !wrap32_id by (unfold int32; lia). rewrite Hlen.
  repeat apply conj; try done; try lia.
  - rewrite drain_sequence_spec by lia. rewrite Hspec.
    replace (current - target - 0) with (current - target) by lia.
    apply map_ext. intros k. f_equal. lia.
  - by apply GetAllTargetPods_NoDup.
  - intros p. rewrite Hspec, list_elem_of_fmap. split.
    + intros (k & -> & Hk%elem_of_seq). exists (current - 1 - Z.of_nat k).
      rewrite GetPodOrdinalFromName_pod_name by lia. repeat split; lia.
    + intros (i & Hi & _ & ->). exists (Z.to_nat (current - 1 - i)).
      rewrite elem_of_seq. split; [f_equal; lia|lia].
  - rewrite Hspec. replace (Z.to_nat (current - target)) with (S (Z.to_nat (current - target - 1))) by lia.
    cbn. do 2 f_equal. lia.
Qed.

Definition five_indexers : StatefulSet :=
  {| sts_Name := "w-indexer"; sts_Namespace := "ns"; sts_UID := "u"; sts_SpecReplicas := Some 5;
     sts_MatchLabels := ∅; sts_Replicas := 5; sts_ReadyReplicas := 5; sts_UpdatedReplicas := 5;
     sts_CurrentRevision := "a"; sts_UpdateRevision := "a";
     sts_Generation := 1; sts_ObservedGeneration := 1 |}.

Example scale_down_pods_witness :
  0 <= 2 /\
  let pods := GetAllTargetPods "w-indexer" 5 2 in
  pods = ["w-indexer-4"; "w-indexer-3"; "w-indexer-2"] /\
  drain_sequence 10 "w-indexer" 5 2 0 = pods.
Proof.
  split; [lia|]. split; [by vm_compute|].
  apply (scale_down_pods five_indexers 5 2 10); [done|lia..].
Defined.
