(* ===== verification/DrainRetry.v ===== *)
(** * Drain retries ([internal/wazuh/drain/retry.go])

    When a failed drain is attempted again: exponential backoff with a cap,
    in the arithmetic of the code ([float64] products truncated to
    nanoseconds). *)
From S2P Require Import Prelude GoStrings GoFloat DrainState.
Local Open Scope list_scope.

Record DrainRetryConfig := {
  rc_MaxAttempts : Z;
  rc_InitialDelay : option duration;
  rc_BackoffMultiplier : string;
  rc_MaxDelay : option duration
}.

(** [pkg/constants/drain.go] *)
Definition DefaultDrainRetryMaxAttempts : Z := 3.
Definition DefaultDrainRetryInitialDelay : duration := 5 * Minute.
Definition DefaultDrainRetryBackoffMultiplier : spec_float := float64_of_Z 2.
Definition DefaultDrainRetryMaxDelay : duration := 30 * Minute.

(** The prologue shared by [ShouldRetry], [GetRetryStatus], [EvaluateRetry]. *)
Definition max_attempts (config : option DrainRetryConfig) : Z :=
  match config with
  | Some c => if bool_decide (0 < rc_MaxAttempts c) then rc_MaxAttempts c
              else DefaultDrainRetryMaxAttempts
  | None => DefaultDrainRetryMaxAttempts
  end.

Definition initial_delay (config : option DrainRetryConfig) : duration :=
  default DefaultDrainRetryInitialDelay (c ← config; rc_InitialDelay c).

Definition max_delay (config : option DrainRetryConfig) : duration :=
  default DefaultDrainRetryMaxDelay (c ← config; rc_MaxDelay c).

Definition backoff_multiplier (config : option DrainRetryConfig) : spec_float :=
  match config with
  | Some c =>
      if bool_decide (rc_BackoffMultiplier c = "") then DefaultDrainRetryBackoffMultiplier
      else default DefaultDrainRetryBackoffMultiplier (ParseFloat (rc_BackoffMultiplier c))
  | None => DefaultDrainRetryBackoffMultiplier
  end.

Definition ShouldRetry (status : ComponentDrainStatus) (config : option DrainRetryConfig) : bool :=
  if bool_decide (max_attempts config <= cds_AttemptCount status) then false
  else if bool_decide (cds_Phase status <> DrainPhaseFailed) then false
  else true.

Section Backoff.
(** The architecture's answer for a product outside [int64]. *)
Context (oor : spec_float -> Z).

(** One turn of the loop: [time.Duration(float64(delay) * multiplier)]. *)
Definition scale_delay (delay : duration) (mult : spec_float) : duration :=
  int64_of_float oor (fmul (float64_of_Z delay) mult).

(** [for i := 1; i < attempt; i++], left early at the cap; [turns] is the
    number of values of [i] left. *)
Fixpoint backoff_loop (turns : nat) (delay : duration) (mult : spec_float)
    (maxDelay : duration) : duration :=
  match turns with
  | O => delay
  | S turns =>
      let delay := scale_delay delay mult in
      if bool_decide (maxDelay < delay) then maxDelay
      else backoff_loop turns delay mult maxDelay
  end.

Definition backoff_delay (attemptCount : Z) (config : option DrainRetryConfig) : duration :=
  let attempt := if bool_decide (attemptCount = 0) then 1 else attemptCount in
  backoff_loop (Z.to_nat (attempt - 1)) (initial_delay config) (backoff_multiplier config)
    (max_delay config).

(** [time.Now().Add(delay)]; instants are not bounded to [int64] here, the
    Go type covers about 292 billion years. *)
Definition CalculateNextRetryTime (now : Z) (status : ComponentDrainStatus)
    (config : option DrainRetryConfig) : Z :=
  now + backoff_delay (cds_AttemptCount status) config.

Definition IncrementAttempt (now : Z) (status : ComponentDrainStatus)
    (config : option DrainRetryConfig) : ComponentDrainStatus :=
  let status := with_retry (wrap32 (cds_AttemptCount status + 1)) (cds_NextRetryTime status)
                  status in
  with_retry (cds_AttemptCount status) (Some (CalculateNextRetryTime now status config)) status.

Definition rm_IsRetryDue (now : Z) (status : ComponentDrainStatus) : bool :=
  match cds_NextRetryTime status with
  | None => false
  | Some t => bool_decide (t < now)
  end.

Definition ResetRetryState (status : ComponentDrainStatus) : ComponentDrainStatus :=
  with_retry 0 None status.

Record RetryDecision := {
  rd_ShouldRetry : bool;
  rd_IsDue : bool;
  rd_AttemptNumber : Z;
  rd_RemainingAttempts : Z;
  rd_NextRetryTime : option Z;
  rd_Reason : string
}.

Definition EvaluateRetry (now : Z) (status : ComponentDrainStatus)
    (config : option DrainRetryConfig) : RetryDecision :=
  let maxAttempts := max_attempts config in
  let decide_with should due next reason :=
    {| rd_ShouldRetry := should; rd_IsDue := due;
       rd_AttemptNumber := wrap32 (cds_AttemptCount status + 1);
       rd_RemainingAttempts := wrap32 (maxAttempts - cds_AttemptCount status);
       rd_NextRetryTime := next; rd_Reason := reason |} in
  if bool_decide (maxAttempts <= cds_AttemptCount status) then
    decide_with false false None "max attempts reached"
  else if bool_decide (cds_Phase status <> DrainPhaseFailed) then
    decide_with false false None "not in failed state"
  else
    match cds_NextRetryTime status with
    | Some nextRetry =>
        let due := bool_decide (nextRetry < now) in
        decide_with true due (Some nextRetry)
          (if due then "retry time has passed" else "waiting for retry time")
    | None =>
        decide_with true false (Some (CalculateNextRetryTime now status config))
          "retry scheduled"
    end.

(** ** Lemmas *)

Lemma backoff_loop_cap turns delay mult maxDelay :
  (0 < turns)%nat -> backoff_loop turns delay mult maxDelay <= maxDelay.
Proof.
  revert delay. induction turns as [|n IH]; intros delay Hn; [lia|]. cbn.
  case_bool_decide; [lia|]. destruct n as [|n]; [cbn; lia|]. apply IH. lia.
Qed.

(** Once a turn reaches the cap, further attempts wait the same time. *)
Lemma backoff_loop_stable n k delay mult maxDelay :
  backoff_loop n delay mult maxDelay = maxDelay ->
  maxDelay < scale_delay maxDelay mult ->
  backoff_loop (n + k) delay mult maxDelay = maxDelay.
Proof.
  revert delay. induction n as [|n IH]; intros delay; cbn [backoff_loop Nat.add].
  - intros -> Hs. destruct k; [done|]. cbn. by rewrite bool_decide_true.
  - case_bool_decide; [done|]. apply IH.
Qed.

(** ** Properties *)

(** from the second attempt on the wait never exceeds [maxDelay],
    whatever the configured multiplier parses to (a huge, negative, infinite
    or NaN one included) and whatever the platform does with a product that
    does not fit in a [Duration]; so the scheduled retry is at most
    [maxDelay] away. *)
Theorem retry_delay_capped now status config :
  2 <= cds_AttemptCount status ->
  CalculateNextRetryTime now status config <= now + max_delay config.
Proof.
  intros Ha. unfold CalculateNextRetryTime, backoff_delay.
  rewrite bool_decide_false by lia.
  pose proof (backoff_loop_cap (Z.to_nat (cds_AttemptCount status - 1))
                (initial_delay config) (backoff_multiplier config) (max_delay config)).
  lia.
Qed.

(** with the default settings (no retry configuration, or one that sets
    none of the delays) the float loop computes exactly the documented
    schedule: five minutes doubled with every attempt, capped at thirty. *)
Theorem default_backoff_schedule n config :
  match config with
  | None => True
  | Some c => rc_InitialDelay c = None /\ rc_MaxDelay c = None /\
              (rc_BackoffMultiplier c = "" \/ rc_BackoffMultiplier c = "2.0")
  end ->
  0 <= n ->
  backoff_delay n config = Z.min (30 * Minute) (5 * Minute * 2 ^ (Z.max 1 n - 1)).
Proof.
  intros Hc Hn.
  assert (initial_delay config = 5 * Minute /\ max_delay config = 30 * Minute /\
          backoff_multiplier config = float64_of_Z 2) as (Hi & Hm & Hb).
  { destruct config as [[a i b m]|]; [|done]. simpl in Hc. destruct Hc as (-> & -> & [-> | ->]);
      repeat split; by vm_compute. }
  unfold backoff_delay. rewrite Hi, Hm, Hb. clear Hi Hm Hb Hc.
  assert (Hn' : n ∈ [0; 1; 2; 3; 4] \/ 4 <= n).
  { destruct (decide (4 <= n)); [by right|left]. rewrite !elem_of_cons. lia. }
  destruct Hn' as [Hs|Hb].
  - repeat (apply elem_of_cons in Hs as [->|Hs]; [by vm_compute|]). by apply elem_of_nil in Hs.
  - rewrite bool_decide_false by lia.
    replace (Z.to_nat (n - 1)) with (3 + Z.to_nat (n - 4))%nat by lia.
    rewrite backoff_loop_stable; [|by vm_compute..].
    replace (Z.max 1 n - 1) with (3 + (n - 4)) by lia. rewrite Z.pow_add_r by lia.
    pose proof (Z.pow_pos_nonneg 2 (n - 4)).
    unfold Minute, Second, Millisecond. lia.
Qed.

(** [EvaluateRetry] and [ShouldRetry] give the same answer; a retry is
    granted exactly to a failed drain with attempts left, the reported
    number of remaining attempts is then positive and, added to the attempts
    made, is the maximum; a retry that is due was scheduled in the past. *)
Theorem EvaluateRetry_agrees now status config :
  int32 (max_attempts config) -> 0 <= cds_AttemptCount status < 2 ^ 31 ->
  let d := EvaluateRetry now status config in
  rd_ShouldRetry d = ShouldRetry status config /\
  (rd_ShouldRetry d = true <->
     cds_Phase status = DrainPhaseFailed /\ 0 < rd_RemainingAttempts d) /\
  rd_RemainingAttempts d + cds_AttemptCount status = max_attempts config /\
  (rd_IsDue d = true -> rd_ShouldRetry d = true /\ rm_IsRetryDue now status = true) /\
  (rd_ShouldRetry d = true -> rm_IsRetryDue now status = true -> rd_IsDue d = true).
Proof.
  intros Hm Ha d. subst d. unfold EvaluateRetry, ShouldRetry, rm_IsRetryDue.
  assert (Hmax : 0 < max_attempts config).
  { unfold max_attempts, DefaultDrainRetryMaxAttempts.
    destruct config as [c|]; [case_bool_decide|]; lia. }
  assert (Hw : wrap32 (max_attempts config - cds_AttemptCount status) =
               max_attempts config - cds_AttemptCount status).
  { apply wrap32_id. unfold int32 in *. lia. }
  repeat case_bool_decide; try (destruct (cds_NextRetryTime status) eqn:E);
    cbn; rewrite ?Hw; split_and!; try done; try lia; intros; simplify_eq; try lia;
    try (split; [done|]); naive_solver lia.
Qed.
End Backoff.

(** A failed drain at its third attempt. *)
Definition failed_thrice : ComponentDrainStatus :=
  with_retry 3 None (with_phase DrainPhaseFailed zero_status).

Definition steep : DrainRetryConfig :=
  {| rc_MaxAttempts := 5; rc_InitialDelay := None; rc_BackoffMultiplier := "1e300";
     rc_MaxDelay := Some Hour |}.

Example retry_delay_capped_witness :
  2 <= cds_AttemptCount failed_thrice /\
  CalculateNextRetryTime (fun _ => - 2 ^ 63) 7 failed_thrice (Some steep)
    <= 7 + max_delay (Some steep).
Proof.
  split; [by vm_compute|]. apply (retry_delay_capped (fun _ => - 2 ^ 63)). by vm_compute.
Defined.

Example default_backoff_schedule_witness :
  backoff_delay (fun _ => 0) 3 None = 20 * Minute /\
  backoff_delay (fun _ => 0) 3 None = Z.min (30 * Minute) (5 * Minute * 2 ^ (Z.max 1 3 - 1)).
Proof. split; [by vm_compute|]. apply (default_backoff_schedule (fun _ => 0) 3 None); [done|lia]. Defined.

Example EvaluateRetry_agrees_witness :
  let d := EvaluateRetry (fun _ => 0) 100 failed_thrice (Some steep) in
  rd_RemainingAttempts d = 2 /\ rd_ShouldRetry d = ShouldRetry failed_thrice (Some steep).
Proof.
  split; [by vm_compute|].
  refine (proj1 (EvaluateRetry_agrees (fun _ => 0) 100 failed_thrice (Some steep) _ _)); split; by vm_compute.
Defined.
