(* ===== verification/IndexerDrain.v ===== *)
(** * Indexer drainer ([internal/opensearch/drain/indexer_drain.go])

    Moving the shards off the OpenSearch nodes that a scale-down removes.  The
    state is the drainer's struct paired with the world the OpenSearch client
    talks to. *)
From S2P Require Import Prelude GoStrings GoFloat OpenSearchAPI DrainState.
Local Open Scope go_scope.
Local Open Scope list_scope.

(** A Go call that can also panic. *)
Inductive outcome (A : Type) : Type :=
| Returns (a : A)
| Panics.
Arguments Returns {A} a.
Arguments Panics {A}.

Record DrainProgress := {
  dp_Percent : Z;
  dp_ShardsRemaining : Z;
  dp_ShardsRelocating : Z;
  dp_Message : string;
  dp_IsComplete : bool
}.

Record IndexerDrainConfig := {
  idc_Enabled : option bool;
  idc_Timeout : option duration;
  idc_HealthCheckInterval : option duration
}.

Record IndexerDrainer := {
  id_timeout : duration;
  id_healthCheckInterval : duration;
  id_initialShardCount : Z
}.

Record DryRunResult := {
  dr_Feasible : bool;
  dr_EvaluatedAt : Z;
  dr_Component : string;
  dr_Blockers : list string;
  dr_Warnings : list string;
  dr_EstimatedDuration : option duration
}.

(** [pkg/constants] *)
Definition DefaultIndexerDrainTimeout : duration := 30 * Minute.
Definition DefaultIndexerHealthCheckInterval : duration := 10 * Second.
Definition DrainComponentIndexer : string := "indexer".
Definition DrainComponentManager : string := "manager".
Definition MinClusterManagerNodes : Z := 3.
Definition OpenSearchRoleData : string := "data".
Definition OpenSearchRoleClusterManager : string := "cluster_manager".
Definition OpenSearchRoleCoordinatingOnly : string := "coordinating_only".

Definition NewIndexerDrainer (config : option IndexerDrainConfig) : IndexerDrainer :=
  {| id_timeout := default DefaultIndexerDrainTimeout (c ← config; idc_Timeout c);
     id_healthCheckInterval :=
       default DefaultIndexerHealthCheckInterval (c ← config; idc_HealthCheckInterval c);
     id_initialShardCount := 0 |}.

Definition set_initial (n : Z) (d : IndexerDrainer) : IndexerDrainer :=
  {| id_timeout := id_timeout d; id_healthCheckInterval := id_healthCheckInterval d;
     id_initialShardCount := n |}.

(** [(moved * 100) / initial] on [int32]; 100 when there was nothing to move. *)
Definition drain_percent (initial remaining : Z) : Z :=
  if bool_decide (0 < initial)
  then Z.quot (wrap32 (wrap32 (initial - remaining) * 100)) initial
  else 100.

Definition int_text (z : Z) : string := pretty z.

Section Drainer.
Context {W : Type} `{!OpenSearchService W}.

Definition DIO (A : Type) := IO (IndexerDrainer * W) A.

Definition StartDrain (nodeName : string) : DIO unit :=
  shardCount <- io_wrap "failed to get initial shard count" (io_world (GetShardCount nodeName)) ;;
  io_modify (prod_map (set_initial (wrap32 shardCount)) id) ;;;
  io_wrap "failed to set allocation exclusion" (io_world (SetAllocationExclusion nodeName)).

Definition MonitorProgress (nodeName : string) : DIO DrainProgress :=
  shardCount <- io_wrap "failed to get shard count" (io_world (GetShardCount nodeName)) ;;
  rel <- io_wrap "failed to check relocating shards" (io_world HasRelocatingShards) ;;
  d <- io_get ;;
  let '(hasRelocating, relocatingCount) := rel in
  let complete := bool_decide (shardCount = 0) && negb hasRelocating in
  io_ret
    {| dp_Percent := if complete then 100
                     else drain_percent (id_initialShardCount d.1) (wrap32 shardCount);
       dp_ShardsRemaining := wrap32 shardCount;
       dp_ShardsRelocating := wrap32 relocatingCount;
       dp_IsComplete := complete;
       dp_Message :=
         if complete then "All shards relocated successfully"
         else if hasRelocating : bool then
           "Relocating shards: " +:+ int_text shardCount +:+ " remaining on node, "
           +:+ int_text relocatingCount +:+ " currently relocating"
         else "Waiting for shard relocation: " +:+ int_text shardCount
              +:+ " shards remaining on node" |}.

Definition VerifyComplete (nodeName : string) : DIO bool :=
  shardCount <- io_wrap "failed to verify drain completion" (io_world (GetShardCount nodeName)) ;;
  if bool_decide (0 < shardCount) then io_ret false
  else
    rel <- io_wrap "failed to check relocating shards" (io_world HasRelocatingShards) ;;
    io_ret (negb rel.1).

Definition CancelDrain : DIO unit :=
  io_wrap "failed to clear allocation exclusion" (io_world ClearAllocationExclusion).

(** Warnings and blockers gathered so far; a blocker makes the drain
    infeasible. *)
Definition blockers_of (cs : list (bool * string)) : list string :=
  map snd (filter (fun c => c.1 = true) cs).

Definition EvaluateFeasibility (now : Z) (nodeName : string) : DIO DryRunResult :=
  let result feasible blockers warnings estimate :=
    {| dr_Feasible := feasible; dr_EvaluatedAt := now; dr_Component := DrainComponentIndexer;
       dr_Blockers := blockers; dr_Warnings := warnings; dr_EstimatedDuration := estimate |} in
  try health <- io_world GetClusterHealth ;;
  match health with
  | Err err => io_ret (result false ["Cannot check cluster health: " +:+ err] [] None)
  | Ok health =>
      let blockers :=
        blockers_of
          [ (bool_decide (ch_Status health <> OpenSearchHealthGreen),
             "Cluster health is " +:+ ch_Status health +:+ ", must be "
             +:+ OpenSearchHealthGreen +:+ " before drain");
            (bool_decide (ch_NumberOfDataNodes health < 2),
             "Cannot drain: only one data node in cluster") ] in
      try count <- io_world (GetShardCount nodeName) ;;
      let '(shardCount, warnings) :=
        match count with
        | Err err => (0, ["Cannot determine shard count on " +:+ nodeName +:+ ": " +:+ err])
        | Ok n => (n, if bool_decide (n = 0)
                      then ["Node " +:+ nodeName +:+ " has no shards to relocate"] else [])
        end in
      try existing <- io_world GetAllocationExclusion ;;
      let '(blockers, warnings) :=
        match existing with
        | Err err => (blockers, warnings ++ ["Cannot check existing allocation exclusion: " +:+ err])
        | Ok name =>
            if bool_decide (name <> "") && bool_decide (name <> nodeName)
            then (blockers ++ ["Another node (" +:+ name +:+ ") is already excluded from allocation"],
                  warnings)
            else (blockers, warnings)
        end in
      let estimate :=
        if bool_decide (0 < shardCount)
        then wrap64 (Z.max 60 (wrap64 (shardCount * 30)) * Second)
        else 30 * Second in
      io_ret (result (bool_decide (blockers = [])) blockers warnings (Some estimate))
  end.

(** *** [WaitForDrainComplete]

    The [select] receives one event at a time: the context's end, or a tick
    of the ticker at some instant.  [None] is "still waiting after these
    events". *)
Inductive wait_event := CtxDone (err : error) | Tick (at_ : Z).

Fixpoint wait_loop (startTime : Z) (nodeName : string) (events : list wait_event)
    (status : option ComponentDrainStatus) (s : IndexerDrainer * W)
    : option (result unit) * option ComponentDrainStatus * (IndexerDrainer * W) :=
  match events with
  | [] => (None, status, s)
  | CtxDone err :: _ => (Some (Err err), status, s)
  | Tick now :: events =>
      if bool_decide (id_timeout s.1 < time_since now startTime)
      then (Some (Err ("drain timeout after " +:+ Duration_String (id_timeout s.1))), status, s)
      else
        match MonitorProgress nodeName s with
        | (Err _, s) => wait_loop startTime nodeName events status s
        | (Ok progress, s) =>
            let status := (fun st =>
              UpdateShardCount (UpdateProgress st (dp_Percent progress) (dp_Message progress))
                (dp_ShardsRemaining progress)) <$> status in
            if dp_IsComplete progress then (Some (Ok tt), status, s)
            else wait_loop startTime nodeName events status s
        end
  end.

(** ** Node pools *)

Record NodePoolScaleDownInfo := {
  np_PoolName : string;
  np_Roles : list string;
  np_CurrentReplicas : Z;
  np_DesiredReplicas : Z;
  np_TargetPodNames : list string
}.

Definition IsScaleDown (info : NodePoolScaleDownInfo) : bool :=
  bool_decide (np_DesiredReplicas info < np_CurrentReplicas info).

Definition GetReplicasDelta (info : NodePoolScaleDownInfo) : Z :=
  if negb (IsScaleDown info) then 0
  else wrap32 (np_CurrentReplicas info - np_DesiredReplicas info).

Definition HasRole (info : NodePoolScaleDownInfo) (role : string) : bool :=
  existsb (fun r => bool_decide (r = role)) (np_Roles info).

Definition HasDataRole (info : NodePoolScaleDownInfo) : bool := HasRole info OpenSearchRoleData.

Definition HasClusterManagerRole (info : NodePoolScaleDownInfo) : bool :=
  HasRole info OpenSearchRoleClusterManager.

Definition IsCoordinatingOnly (info : NodePoolScaleDownInfo) : bool :=
  forallb (fun r => bool_decide (r = OpenSearchRoleCoordinatingOnly)) (np_Roles info).

Record NodePoolDrainResult := {
  nr_NeedsDrain : bool;
  nr_SkipReason : string;
  nr_Feasible : bool;
  nr_Blockers : list string;
  nr_Warnings : list string;
  nr_TargetNodes : list string
}.

(** [hasClient] is [d.client != nil].  After a failed health request the code
    reads [health.NumberOfDataNodes] through a nil pointer. *)
Definition EvaluateNodePoolScaleDown (hasClient : bool) (info : NodePoolScaleDownInfo)
    (totalClusterManagers : Z) : DIO (outcome NodePoolDrainResult) :=
  let skip reason feasible blockers :=
    {| nr_NeedsDrain := false; nr_SkipReason := reason; nr_Feasible := feasible;
       nr_Blockers := blockers; nr_Warnings := []; nr_TargetNodes := [] |} in
  if negb (IsScaleDown info) then io_ret (Returns (skip "Not a scale-down operation" true []))
  else if IsCoordinatingOnly info then
    io_ret (Returns (skip "Coordinating-only nodes do not hold shards" true []))
  else
    let newTotal := wrap32 (totalClusterManagers - GetReplicasDelta info) in
    let blockers :=
      if HasClusterManagerRole info && bool_decide (newTotal < MinClusterManagerNodes)
      then ["Scale-down would reduce cluster_manager nodes from "
            +:+ int_text totalClusterManagers +:+ " to " +:+ int_text newTotal
            +:+ ", below minimum quorum of " +:+ int_text MinClusterManagerNodes]
      else [] in
    if negb (HasDataRole info) then
      io_ret (Returns (skip "NodePool does not have data role"
                         (bool_decide (blockers = [])) blockers))
    else
      let needed blockers :=
        {| nr_NeedsDrain := true; nr_SkipReason := ""; nr_Feasible := bool_decide (blockers = []);
           nr_Blockers := blockers; nr_Warnings := []; nr_TargetNodes := np_TargetPodNames info |} in
      if negb hasClient then io_ret (Returns (needed blockers))
      else
        try health <- io_world GetClusterHealth ;;
        match health with
        | Err _ => io_ret Panics
        | Ok health =>
            io_ret (Returns (needed (blockers ++ blockers_of
              [ (bool_decide (ch_Status health <> OpenSearchHealthGreen),
                 "Cluster health is " +:+ ch_Status health +:+ ", must be "
                 +:+ OpenSearchHealthGreen +:+ " before drain");
                (bool_decide (ch_NumberOfDataNodes health < 2),
                 "Cannot drain: only one data node in cluster") ])))
        end.

(** [constants.IndexerNodePoolPodName] *)
Definition IndexerNodePoolPodName (clusterName poolName : string) (ordinal : Z) : string :=
  clusterName +:+ "-indexer-" +:+ poolName +:+ "-" +:+ pretty ordinal.

Definition GetNodePoolScaleDownTargets (clusterName poolName : string)
    (currentReplicas desiredReplicas : Z) : list string :=
  if bool_decide (currentReplicas <= desiredReplicas) then []
  else map (fun k => IndexerNodePoolPodName clusterName poolName (desiredReplicas + Z.of_nat k))
         (seq 0 (Z.to_nat (currentReplicas - desiredReplicas))).

(** The sum over the nodes, skipping the nodes whose count cannot be read. *)
Fixpoint total_shards (acc : Z) (nodeNames : list string) : DIO Z :=
  match nodeNames with
  | [] => io_ret acc
  | nodeName :: rest =>
      try count <- io_world (GetShardCount nodeName) ;;
      total_shards (match count with
                    | Ok shardCount => wrap32 (acc + wrap32 shardCount)
                    | Err _ => acc
                    end) rest
  end.

Fixpoint exclude_each (nodeNames : list string) : DIO unit :=
  match nodeNames with
  | [] => io_ret tt
  | nodeName :: rest =>
      io_wrap ("failed to set allocation exclusion for " +:+ nodeName)
        (io_world (SetAllocationExclusion nodeName)) ;;;
      exclude_each rest
  end.

Definition StartNodePoolDrain (nodeNames : list string) : DIO unit :=
  match nodeNames with
  | [] => io_ret tt
  | _ =>
      totalShards <- total_shards 0 nodeNames ;;
      io_modify (prod_map (set_initial totalShards) id) ;;;
      exclude_each nodeNames
  end.

Definition MonitorNodePoolDrainProgress (nodeNames : list string) : DIO DrainProgress :=
  match nodeNames with
  | [] => io_ret {| dp_Percent := 100; dp_ShardsRemaining := 0; dp_ShardsRelocating := 0;
                    dp_Message := "No nodes to drain"; dp_IsComplete := true |}
  | _ =>
      totalRemaining <- total_shards 0 nodeNames ;;
      rel <- io_wrap "failed to check relocating shards" (io_world HasRelocatingShards) ;;
      d <- io_get ;;
      let '(hasRelocating, relocatingCount) := rel in
      let complete := bool_decide (totalRemaining = 0) && negb hasRelocating in
      let n := int_text (Z.of_nat (length nodeNames)) in
      io_ret
        {| dp_Percent := if complete then 100
                         else drain_percent (id_initialShardCount d.1) totalRemaining;
           dp_ShardsRemaining := totalRemaining;
           dp_ShardsRelocating := wrap32 relocatingCount;
           dp_IsComplete := complete;
           dp_Message :=
             if complete then "All shards relocated from " +:+ n +:+ " nodes"
             else if hasRelocating : bool then
               "Relocating shards: " +:+ int_text totalRemaining +:+ " remaining on nodes, "
               +:+ int_text relocatingCount +:+ " currently relocating"
             else "Waiting for shard relocation: " +:+ int_text totalRemaining
                  +:+ " shards remaining across " +:+ n +:+ " nodes" |}
  end.

Fixpoint VerifyNodePoolDrainComplete (nodeNames : list string) : DIO bool :=
  match nodeNames with
  | [] =>
      rel <- io_wrap "failed to check relocating shards" (io_world HasRelocatingShards) ;;
      io_ret (negb rel.1)
  | nodeName :: rest =>
      complete <- VerifyComplete nodeName ;;
      if complete : bool then VerifyNodePoolDrainComplete rest else io_ret false
  end.
End Drainer.

(** ** What the operator relies on the server for

    [exclusion w] is the node name excluded from allocation in state [w] ("" when
    there is none): an accepted settings update sets it to the transient value
    sent, reading the settings reports it, and the reading calls leave it. *)
Class ExclusionLaws (W : Type) `{!OpenSearchService W} := {
  exclusion : W -> string;
  put_exclusion u v w r w' :
    put_cluster_settings u w = (Ok r, w') -> StatusCode r = StatusOK ->
    csu_Transient u !! OpenSearchAllocationExcludeNameKey = Some v ->
    exclusion w' = default "" v;
  get_exclusion w s w' :
    replied (get_cluster_settings false) w s w' ->
    match exclusion_of (cs_Transient s) with
    | Some name => name
    | None => default "" (exclusion_of (cs_Persistent s))
    end = exclusion w /\ exclusion w' = exclusion w;
  health_exclusion w r w' : get_cluster_health w = (r, w') -> exclusion w' = exclusion w;
  shards_exclusion w r w' : get_cat_shards w = (r, w') -> exclusion w' = exclusion w
}.

(** ** Lemmas *)
Section Lemmas.
Context {W : Type} `{!OpenSearchService W}.
Implicit Types (d : IndexerDrainer) (w : W).

Lemma drain_percent_bounds initial remaining :
  0 <= initial < 2 ^ 24 -> 0 <= remaining < 2 ^ 24 ->
  drain_percent initial remaining <= 100 /\
  (remaining <= initial -> 0 <= drain_percent initial remaining).
Proof.
  intros Hi Hr. unfold drain_percent. case_bool_decide; [|lia].
  rewrite (wrap32_id (initial - remaining)) by (unfold int32; lia).
  rewrite wrap32_id by (unfold int32; lia).
  assert (Z.quot ((initial - remaining) * 100) initial <= Z.quot (100 * initial) initial)
    as Hle by (apply Z.quot_le_mono; lia).
  rewrite Z.quot_mul in Hle by lia. split; [done|]. intros. apply Z.quot_pos; lia.
Qed.

Lemma no_shard_on n (all : list ShardInfo) :
  length (filter (fun s => si_Node s = n) all) = 0%nat <-> Forall (fun s => si_Node s <> n) all.
Proof.
  induction all as [|s all IH]; [by split|]. rewrite filter_cons, Forall_cons.
  case_decide; cbn; [split; [done|tauto]|]. rewrite IH. tauto.
Qed.

Lemma VerifyComplete_ok n d w b s' :
  VerifyComplete n (d, w) = (Ok b, s') <->
  exists all w1, replied get_cat_shards w all w1 /\
    let c := Z.of_nat (length (filter (fun s => si_Node s = n) all)) in
    if bool_decide (0 < c) then b = false /\ s' = (d, w1)
    else exists h w2, replied get_cluster_health w1 h w2 /\
           b = negb (bool_decide (0 < ch_RelocatingShards h)) /\ s' = (d, w2).
Proof.
  unfold VerifyComplete. rewrite io_bind_ok. split.
  - intros (c & s1 & (w1 & -> & (all & Hall & ->)%GetShardCount_ok)%read_ok & H).
    exists all, w1. split; [done|]. cbn zeta. case_bool_decide.
    + unfold io_ret in H. by simplify_eq.
    + apply io_bind_ok in H as ([b' n'] & s2 & (w2 & -> & Hr)%read_ok & H).
      apply HasRelocatingShards_ok in Hr as (h & Hh & -> & ->).
      unfold io_ret in H. simplify_eq. eauto.
  - intros (all & w1 & Hall & H). eexists _, (d, w1). split.
    + apply read_ok. eexists. split; [done|]. apply GetShardCount_ok. eauto.
    + cbn zeta in H. case_bool_decide.
      * by destruct H as [-> ->].
      * destruct H as (h & w2 & Hh & -> & ->). apply io_bind_ok.
        eexists (_, _), (d, w2). split; [|done].
        apply read_ok. eexists. split; [done|]. apply HasRelocatingShards_ok. eauto.
Qed.

(** [VerifyComplete] answers yes. *)
Lemma VerifyComplete_true n d w s' :
  VerifyComplete n (d, w) = (Ok true, s') <->
  exists all w1 h w2, replied get_cat_shards w all w1 /\
    Forall (fun s => si_Node s <> n) all /\
    replied get_cluster_health w1 h w2 /\ ch_RelocatingShards h <= 0 /\ s' = (d, w2).
Proof.
  rewrite VerifyComplete_ok. split.
  - intros (all & w1 & Hall & H). cbn zeta in H. case_bool_decide as Hc.
    + by destruct H.
    + destruct H as (h & w2 & Hh & Hb & ->). exists all, w1, h, w2. split; [done|].
      split; [apply no_shard_on; lia|]. split; [done|]. split; [|done].
      case_bool_decide; [done|lia].
  - intros (all & w1 & h & w2 & Hall & Hn%no_shard_on & Hh & Hr & ->).
    exists all, w1. split; [done|]. cbn zeta. rewrite Hn. cbn.
    exists h, w2. split; [done|]. split; [|done]. rewrite bool_decide_false; [done|lia].
Qed.

Lemma MonitorProgress_ok n d w p s' :
  MonitorProgress n (d, w) = (Ok p, s') ->
  exists all w1 h w2, replied get_cat_shards w all w1 /\ replied get_cluster_health w1 h w2 /\
    s' = (d, w2) /\
    let count := Z.of_nat (length (filter (fun s => si_Node s = n) all)) in
    dp_ShardsRemaining p = wrap32 count /\
    dp_ShardsRelocating p = wrap32 (ch_RelocatingShards h) /\
    dp_IsComplete p = bool_decide (count = 0) && negb (bool_decide (0 < ch_RelocatingShards h)) /\
    dp_Percent p = if dp_IsComplete p then 100
                   else drain_percent (id_initialShardCount d) (wrap32 count).
Proof.
  unfold MonitorProgress.
  intros (c & s1 & (w1 & -> & (all & Hall & ->)%GetShardCount_ok)%read_ok & H)%io_bind_ok.
  apply io_bind_ok in H as ([b' n'] & s2 & (w2 & -> & Hr)%read_ok & H).
  apply HasRelocatingShards_ok in Hr as (h & Hh & -> & ->).
  cbn in H. unfold io_bind, io_get, io_ret in H. simplify_eq/=.
  exists all, w1, h, w2. cbn. repeat split; done.
Qed.

Lemma no_blockers cs :
  bool_decide (blockers_of cs = []) = forallb (fun c => negb c.1) cs.
Proof.
  unfold blockers_of. induction cs as [|[b m] cs IH]; [done|]. rewrite filter_cons.
  destruct b; cbn; [by apply bool_decide_false|done].
Qed.

Lemma one_more_blocker l x : bool_decide (l ++ [x : string] = []) = false.
Proof. apply bool_decide_false. by destruct l. Qed.

(** What [EvaluateFeasibility] reads, and its verdict. *)
Lemma EvaluateFeasibility_verdict now n d w :
  exists res w', EvaluateFeasibility now n (d, w) = (Ok res, (d, w')) /\
    (dr_Feasible res = bool_decide (dr_Blockers res = [])) /\
    dr_Feasible res =
      match GetClusterHealth w with
      | (Err _, _) => false
      | (Ok h, w1) =>
          bool_decide (ch_Status h = OpenSearchHealthGreen) &&
          bool_decide (2 <= ch_NumberOfDataNodes h) &&
          match (GetAllocationExclusion (GetShardCount n w1).2).1 with
          | Err _ => true
          | Ok x => bool_decide (x = "") || bool_decide (x = n)
          end
      end.
Proof.
  unfold EvaluateFeasibility, io_try, io_world, io_ret.
  destruct (GetClusterHealth w) as [[h|e] w1]; [|eexists _, _; by repeat split].
  set (bs := blockers_of _).
  assert (Hbs : bool_decide (bs = []) = bool_decide (ch_Status h = OpenSearchHealthGreen) &&
                                        bool_decide (2 <= ch_NumberOfDataNodes h)).
  { unfold bs. rewrite no_blockers. cbn. repeat case_bool_decide; try done; lia. }
  clearbody bs. rewrite <-Hbs. clear Hbs.
  destruct (GetShardCount n w1) as [rc w2]. cbn [snd].
  destruct rc as [c|e]; destruct (GetAllocationExclusion w2) as [[x|e'] w3]; cbn [fst];
    try (rewrite andb_true_r; by eexists _, _).
  all: rewrite <-(negb_involutive (bool_decide (x = "") || _)), negb_orb, <-!bool_decide_not;
    destruct (bool_decide (x <> "") && bool_decide (x <> n));
    cbn [negb]; rewrite ?andb_true_r, ?andb_false_r;
    eexists _, _; (split; [done|]); cbn [dr_Feasible dr_Blockers];
    by rewrite ?one_more_blocker.
Qed.
End Lemmas.

Section Exclusion.
Context {W : Type} `{ExclusionLaws W}.
Implicit Types (d : IndexerDrainer) (w : W).

Lemma checked_snd {A B} c1 c2 (m : IO W (response A)) (k : response A -> IO W B) w :
  (forall r w1, (k r w1).2 = w1) ->
  ((resp <- io_wrap c1 m ;; require_ok c2 resp ;;; k resp) w).2 = (m w).2.
Proof.
  intros Hk. unfold io_bind, io_wrap, require_ok, wrapf. destruct (m w) as [[r|e] w1]; [|done].
  case_bool_decide; cbn; [done|]. apply Hk.
Qed.

Lemma put_excl_ok c1 c2 u v w w' :
  csu_Transient u !! OpenSearchAllocationExcludeNameKey = Some v ->
  (resp <- io_wrap c1 (put_cluster_settings u) ;; require_ok c2 resp) w = (Ok tt, w') ->
  exclusion w' = default "" v.
Proof.
  intros Hu (r & w1 & Hr%io_wrap_ok & Hok)%io_bind_ok.
  unfold require_ok in Hok. case_bool_decide as Hs; unfold io_err, io_ret in Hok; simplify_eq.
  eapply put_exclusion; eauto.
Qed.

Lemma SetAllocationExclusion_ok n w w' :
  SetAllocationExclusion n w = (Ok tt, w') -> exclusion w' = n.
Proof. intros Hset. by eapply (put_excl_ok _ _ _ (Some n)); [|exact Hset]. Qed.

Lemma ClearAllocationExclusion_ok w w' :
  ClearAllocationExclusion w = (Ok tt, w') -> exclusion w' = "".
Proof. intros Hset. by eapply (put_excl_ok _ _ _ None); [|exact Hset]. Qed.

Lemma GetAllocationExclusion_ok w x w' :
  GetAllocationExclusion w = (Ok x, w') -> x = exclusion w /\ exclusion w' = exclusion w.
Proof.
  intros (s & w1 & Hs%GetClusterSettings_ok & Hx)%io_bind_ok. unfold io_ret in Hx; simplify_eq.
  by apply get_exclusion in Hs.
Qed.

Lemma GetClusterHealth_exclusion w : exclusion (GetClusterHealth w).2 = exclusion w.
Proof.
  unfold GetClusterHealth. rewrite checked_snd; [|done].
  destruct (get_cluster_health w) eqn:E. by eapply health_exclusion.
Qed.

Lemma GetShardCount_exclusion n w : exclusion (GetShardCount n w).2 = exclusion w.
Proof.
  assert ((GetShardsOnNode n w).2 = (get_cat_shards w).2) as E.
  { apply checked_snd. intros r w1. unfold io_bind, decode, wrapf. by destruct (decoded r). }
  destruct (get_cat_shards w) as [r w'] eqn:Eg. cbn [snd] in E.
  apply shards_exclusion in Eg. unfold GetShardCount, io_bind.
  destruct (GetShardsOnNode n w) as [[l|e] w1]; cbn in *; congruence.
Qed.

Lemma exclude_each_ok nodes d w s' :
  exclude_each nodes (d, w) = (Ok tt, s') ->
  exclusion s'.2 = List.last nodes (exclusion w).
Proof.
  revert w. induction nodes as [|n nodes IH]; intros w; cbn [exclude_each].
  - unfold io_ret. by intros; simplify_eq.
  - intros ([] & s1 & (w1 & -> & Hset)%read_ok & Hrest)%io_bind_ok.
    apply IH in Hrest. rewrite Hrest, (SetAllocationExclusion_ok _ _ _ Hset).
    destruct nodes as [|m nodes]; [done|]. exact (last_default m nodes _ _).
Qed.

(** ** Properties of the exclusion *)

(** the allocation exclusion is a faithful register.  After a successful
    [StartDrain] of a node, reading the exclusion gives that node back and a
    feasibility check of any other node that can read it refuses, so at most
    one indexer node is drained at a time; after [CancelDrain] no node is
    excluded. *)
Theorem exclusion_roundtrip n d w d1 w1 :
  n <> "" ->
  StartDrain n (d, w) = (Ok tt, (d1, w1)) ->
  (forall x w2, GetAllocationExclusion w1 = (Ok x, w2) -> x = n) /\
  (forall m now, m <> n ->
     is_ok (GetAllocationExclusion (GetShardCount m (GetClusterHealth w1).2).2).1 = true ->
     exists res s', EvaluateFeasibility now m (d1, w1) = (Ok res, s') /\ dr_Feasible res = false) /\
  (forall w2 d3 w3, CancelDrain (d1, w2) = (Ok tt, (d3, w3)) ->
     forall x w4, GetAllocationExclusion w3 = (Ok x, w4) -> x = "").
Proof.
  intros Hn (c & s1 & (w0 & -> & Hc)%read_ok & Hs)%io_bind_ok.
  apply io_bind_ok in Hs as ([] & s2 & Hm & Hset). unfold io_modify in Hm; simplify_eq/=.
  apply read_ok in Hset as (w1' & Heq & Hset). injection Heq as _ <-.
  apply SetAllocationExclusion_ok in Hset as He.
  split; [|split].
  - intros x w2 Hx%GetAllocationExclusion_ok. destruct Hx. congruence.
  - intros m now Hm Hread.
    edestruct (EvaluateFeasibility_verdict now m) as (res & w' & Hev & _ & Hf).
    eexists res, _. split; [exact Hev|]. rewrite Hf.
    pose proof (GetClusterHealth_exclusion w1) as E1.
    destruct (GetClusterHealth w1) as [[h|e] wh]; [|done]. cbn [snd] in *.
    pose proof (GetShardCount_exclusion m wh) as E2.
    destruct (GetAllocationExclusion _) as [[x|e] wx] eqn:Ex; [|done]. cbn [fst].
    apply GetAllocationExclusion_ok in Ex as [-> _].
    rewrite E2, E1, He, !(bool_decide_false (n = _)) by done. cbn.
    by rewrite andb_false_r.
  - intros w2 d3 w3 (w3' & ? & Hcl)%read_ok; simplify_eq.
    intros x w4 [-> _]%GetAllocationExclusion_ok. by eapply ClearAllocationExclusion_ok.
Qed.

(** a node-pool drain sets the exclusion once per node, each time
    replacing the one before: when it succeeds, only the last node of the
    list is excluded from allocation, the shards of the others may come back. *)
Theorem node_pool_excludes_last nodes d w s' :
  nodes <> [] ->
  StartNodePoolDrain nodes (d, w) = (Ok tt, s') ->
  exclusion s'.2 = List.last nodes "".
Proof.
  intros Hne. unfold StartNodePoolDrain. destruct nodes as [|n nodes]; [done|].
  intros (total & [d1 w1] & _ & Hs)%io_bind_ok.
  apply io_bind_ok in Hs as ([] & s2 & Hm & Hex). unfold io_modify in Hm; simplify_eq/=.
  apply (exclude_each_ok (n :: nodes)) in Hex. rewrite Hex. apply last_default.
Qed.
End Exclusion.

Section Properties.
Context {W : Type} `{!OpenSearchService W}.
Implicit Types (d : IndexerDrainer) (w : W).

(** C11: a drain is verified exactly when the cluster, asked twice, first
    lists no shard on the node and then reports no relocating shard: nothing
    else, in particular no error and no leftover shard, counts as complete,
    and checking does not change the drainer. *)
Theorem verify_complete_iff n d w s' :
  VerifyComplete n (d, w) = (Ok true, s') <->
  exists all w1 h w2, replied get_cat_shards w all w1 /\
    Forall (fun s => si_Node s <> n) all /\
    replied get_cluster_health w1 h w2 /\ ch_RelocatingShards h <= 0 /\ s' = (d, w2).
Proof. apply VerifyComplete_true. Qed.

(** The node was seen empty, with nothing relocating, at some point. *)
Definition seen_empty (n : string) : Prop :=
  exists w all w1 h w2, replied get_cat_shards w all w1 /\
    Forall (fun s => si_Node s <> n) all /\
    replied get_cluster_health w1 h w2 /\ ch_RelocatingShards h <= 0.

Lemma VerifyNodePool_seen nodes d w s' :
  VerifyNodePoolDrainComplete nodes (d, w) = (Ok true, s') -> Forall seen_empty nodes.
Proof.
  revert w. induction nodes as [|n nodes IH]; intros w; cbn [VerifyNodePoolDrainComplete]; [done|].
  intros ([] & [d1 w1] & Hn & Hrest)%io_bind_ok; [|done].
  apply VerifyComplete_true in Hn as (all & wa & h & wb & Hall & Hno & Hh & Hr & Heq).
  injection Heq as -> ->. constructor; [|by eapply IH].
  red. eauto 10.
Qed.

(** A node pool is reported drained only when every one of its nodes was
    seen empty, whatever happened to the cluster in between. *)
Theorem verify_node_pool_sound nodes d w s' n :
  VerifyNodePoolDrainComplete nodes (d, w) = (Ok true, s') -> n ∈ nodes -> seen_empty n.
Proof. intros H Hn. apply VerifyNodePool_seen in H. by eapply Forall_forall in H. Qed.

(** the dry run never fails, is feasible exactly when it lists no
    blocker, and that is when the health can be read, the cluster is green
    with at least two data nodes and no other node is known to be excluded
    (an exclusion that cannot be read is only a warning). *)
Theorem feasibility_verdict now n d w :
  exists res w', EvaluateFeasibility now n (d, w) = (Ok res, (d, w')) /\
    (dr_Feasible res = true <-> dr_Blockers res = []) /\
    (dr_Feasible res = true <->
      exists h w1, replied get_cluster_health w h w1 /\
        ch_Status h = OpenSearchHealthGreen /\ 2 <= ch_NumberOfDataNodes h /\
        forall x w2, GetAllocationExclusion (GetShardCount n w1).2 = (Ok x, w2) ->
          x = "" \/ x = n).
Proof.
  destruct (EvaluateFeasibility_verdict now n d w) as (res & w' & Hev & Hb & Hf).
  exists res, w'. split; [done|]. split; [rewrite Hb; apply bool_decide_eq_true|].
  rewrite Hf. destruct (GetClusterHealth w) as [[h|e] w1] eqn:E.
  - apply GetClusterHealth_ok in E as E'. rewrite !andb_true_iff, !bool_decide_eq_true. split.
    + intros [[Hs Hn] Hx]. exists h, w1. split_and!; try done. intros x w2 Hg. rewrite Hg in Hx.
      cbn in Hx. by rewrite orb_true_iff, !bool_decide_eq_true in Hx.
    + intros (h' & w1' & Hh%GetClusterHealth_ok & Hs & Hn & Hx).
      rewrite E in Hh. simplify_eq. split; [done|].
      destruct (GetAllocationExclusion _) as [[x|] w2]; [|done]. cbn.
      rewrite orb_true_iff, !bool_decide_eq_true. by eapply Hx.
  - split; [done|]. intros (h' & w1' & Hh%GetClusterHealth_ok & _). by rewrite E in Hh.
Qed.

(** The reported progress: complete exactly when no shard is left on the
    node and none is relocating, then at 100 %; otherwise the share of the
    initial shards that moved, never above 100 and never negative unless the
    node holds more shards than at the start. *)
Theorem monitor_progress_bounds n d w p s' :
  0 <= id_initialShardCount d < 2 ^ 24 ->
  MonitorProgress n (d, w) = (Ok p, s') ->
  0 <= dp_ShardsRemaining p < 2 ^ 24 ->
  (dp_IsComplete p = true -> dp_ShardsRemaining p = 0 /\ dp_Percent p = 100) /\
  dp_Percent p <= 100 /\
  (dp_ShardsRemaining p <= id_initialShardCount d -> 0 <= dp_Percent p).
Proof.
  intros Hi (all & w1 & h & w2 & _ & _ & _ & Hrem & _ & Hc & Hp)%MonitorProgress_ok Hr.
  rewrite Hp, Hc. rewrite <-Hrem.
  pose proof (drain_percent_bounds (id_initialShardCount d) (dp_ShardsRemaining p) Hi Hr).
  split.
  - intros Hcp. rewrite Hcp. split; [|done].
    apply andb_prop in Hcp as [Hz%bool_decide_eq_true _]. by rewrite Hrem, Hz.
  - destruct (bool_decide _ && _); lia.
Qed.

Lemma wait_loop_ok start n events st s st' s' :
  wait_loop start n events st s = (Some (Ok tt), st', s') ->
  exists s0 p, MonitorProgress n s0 = (Ok p, s') /\ dp_IsComplete p = true /\
    (forall x, st' = Some x -> cds_ShardCount x = Some (dp_ShardsRemaining p)).
Proof.
  revert st s. induction events as [|[e|now] events IH]; intros st s; cbn [wait_loop]; [done..|].
  case_bool_decide; [done|].
  destruct (MonitorProgress n s) as [[p|e] s1] eqn:E; [|by apply IH].
  destruct (dp_IsComplete p) eqn:Ep; [|by apply IH].
  intros; simplify_eq. exists s, p. split_and!; [done..|].
  intros x Hx. destruct st; simplify_eq/=. done.
Qed.

Lemma wait_loop_timeout start n events st d w now :
  Tick now ∈ events -> id_timeout d < time_since now start ->
  exists r st' s', wait_loop start n events st (d, w) = (Some r, st', s').
Proof.
  intros Hin Ht. revert st w. induction events as [|[e|t] events IH]; intros st w.
  - by apply elem_of_nil in Hin.
  - by repeat eexists.
  - cbn [wait_loop fst]. case_bool_decide as Hd; [by repeat eexists|].
    assert (Tick now ∈ events) as Hin'.
    { apply elem_of_cons in Hin as [|]; [simplify_eq; lia|done]. }
    destruct (MonitorProgress n (d, w)) as [[p|e] [d1 w1]] eqn:E.
    + apply MonitorProgress_ok in E as (? & ? & ? & ? & _ & _ & Heq & _). simplify_eq.
      destruct (dp_IsComplete p); [by repeat eexists|by apply IH].
    + assert (d1 = d) as ->; [|by apply IH].
      unfold MonitorProgress, io_bind, io_wrap, io_world, io_get, io_ret in E.
      destruct (GetShardCount n w) as [[c|] w2]; simplify_eq/=; [|done].
      destruct (HasRelocatingShards w2) as [[[b k]|] w3]; simplify_eq/=; done.
Qed.


(** a node pool is scaled down only when it is safe: whenever the
    evaluation calls a scale-down feasible, the cluster keeps its quorum of
    three cluster managers if the pool holds any, and a pool with the data
    role is drained, on a cluster that was just seen green with at least two
    data nodes. *)
Theorem node_pool_scale_down_safe info total d w res s' :
  IsScaleDown info = true -> IsCoordinatingOnly info = false ->
  0 <= np_DesiredReplicas info -> np_CurrentReplicas info < 2 ^ 31 -> 0 <= total < 2 ^ 31 ->
  EvaluateNodePoolScaleDown true info total (d, w) = (Ok (Returns res), s') ->
  nr_Feasible res = true ->
  (HasClusterManagerRole info = true ->
     MinClusterManagerNodes <= total - (np_CurrentReplicas info - np_DesiredReplicas info)) /\
  nr_NeedsDrain res = HasDataRole info /\
  (HasDataRole info = true -> nr_TargetNodes res = np_TargetPodNames info /\
     exists h w', replied get_cluster_health w h w' /\
       ch_Status h = OpenSearchHealthGreen /\ 2 <= ch_NumberOfDataNodes h).
Proof.
  intros Hs Hco Hdes Hcur Htot. pose proof Hs as Hlt%bool_decide_eq_true.
  assert (Hdelta : GetReplicasDelta info = np_CurrentReplicas info - np_DesiredReplicas info).
  { unfold GetReplicasDelta. rewrite Hs. apply wrap32_id. unfold int32. lia. }
  unfold EvaluateNodePoolScaleDown. rewrite Hs, Hco, Hdelta. cbn [negb].
  rewrite wrap32_id by (unfold int32; lia).
  set (bs := if _ && _ then _ else _).
  assert (Hq : bs = [] -> HasClusterManagerRole info = true ->
    MinClusterManagerNodes <= total - (np_CurrentReplicas info - np_DesiredReplicas info)).
  { intros Hbs Hr. subst bs. rewrite Hr in Hbs. cbn [andb] in Hbs.
    case_bool_decide; [done|lia]. }
  clearbody bs. destruct (HasDataRole info); cbn [negb].
  - unfold io_try, io_world, io_ret.
    destruct (GetClusterHealth w) as [[h|e] w'] eqn:E; intros; simplify_eq/=.
    rewrite bool_decide_eq_true in *.
    match goal with Hb : _ ++ _ = [] |- _ => apply app_eq_nil in Hb as [Hb1 Hb2] end.
    assert (Hno := no_blockers [(bool_decide (ch_Status h <> OpenSearchHealthGreen), "");
                                (bool_decide (ch_NumberOfDataNodes h < 2), "")]).
    split; [by apply Hq|]. split; [done|]. intros _. split; [done|].
    exists h, w'. apply GetClusterHealth_ok in E. split; [done|].
    unfold blockers_of in Hb2.
    destruct (decide (ch_Status h = OpenSearchHealthGreen)) as [Hg|Hg];
      destruct (decide (ch_NumberOfDataNodes h < 2)) as [Hd|Hd];
      [| |rewrite (bool_decide_true (ch_Status h <> _)) in Hb2 by done..];
      try (rewrite (bool_decide_true (ch_NumberOfDataNodes h < 2)) in Hb2 by done);
      try (split; [done|lia]); rewrite ?filter_cons in Hb2; cbn in Hb2; try done.
    by rewrite bool_decide_false in Hb2 by (intros ?; done).
  - unfold io_ret. intros; simplify_eq/=. rewrite bool_decide_eq_true in *.
    split; [by apply Hq|]. done.
Qed.
End Properties.

(** scaling down a node pool that holds data panics whenever the cluster
    health cannot be read: the error is turned into a warning, and the health
    that was not received is then dereferenced. *)
Theorem node_pool_health_error_panics {W} `{!OpenSearchService W} info total
    (d : IndexerDrainer) (w : W) e w' :
  IsScaleDown info = true -> HasDataRole info = true ->
  GetClusterHealth w = (Err e, w') ->
  EvaluateNodePoolScaleDown true info total (d, w) = (Ok Panics, (d, w')).
Proof.
  intros Hs Hd He. unfold EvaluateNodePoolScaleDown. rewrite Hs, Hd. cbn [negb].
  assert (IsCoordinatingOnly info = false) as ->.
  { destruct (IsCoordinatingOnly info) eqn:E; [|done]. unfold IsCoordinatingOnly in E.
    unfold HasDataRole, HasRole in Hd. apply existsb_exists in Hd as (r & Hin & Hr).
    rewrite forallb_forall in E. apply E in Hin. apply bool_decide_eq_true in Hr, Hin. by subst. }
  unfold io_try, io_world. by rewrite He.
Qed.

(** ** A server to try the theorems on *)
Module Sim.
Record cluster := {
  health : ClusterHealth;
  shards : list ShardInfo;
  excluded : string;
  reachable : bool
}.

Definition answer {A} (f : cluster -> A) : IO cluster (response A) := fun c =>
  if reachable c then (Ok {| StatusCode := 200; body := ""; decoded := Ok (f c) |}, c)
  else (Err "connection refused", c).

Definition settings_of (c : cluster) : ClusterSettings :=
  {| cs_Persistent := None;
     cs_Transient :=
       if bool_decide (excluded c = "") then None else
       Some [("cluster", AMap [("routing", AMap [("allocation",
               AMap [("exclude", AMap [("_name", AString (excluded c))])])])])] |}.

Definition apply_update (u : ClusterSettingsUpdate) (c : cluster) : cluster :=
  match csu_Transient u !! OpenSearchAllocationExcludeNameKey with
  | Some v => {| health := health c; shards := shards c; excluded := default "" v;
                 reachable := reachable c |}
  | None => c
  end.

#[global] Instance service : OpenSearchService cluster := {
  get_cluster_health := answer health;
  get_cat_shards := answer shards;
  get_cluster_settings _ := answer settings_of;
  put_cluster_settings u := fun c =>
    if reachable c then answer settings_of (apply_update u c) else answer settings_of c
}.

#[global] Program Instance laws : ExclusionLaws cluster := {| exclusion := excluded |}.
Next Obligation.
  intros u v c r c'. cbn. unfold apply_update, answer. intros H _ Hu. rewrite Hu in H.
  destruct (reachable c) eqn:E; cbn in H; rewrite ?E in H; by simplify_eq.
Qed.
Next Obligation.
  intros c s c' (r & Hr & _ & Hd). cbn in Hr. unfold answer in Hr.
  destruct (reachable c); simplify_eq/=. split; [|done]. unfold settings_of.
  by case_bool_decide; cbn.
Qed.
Next Obligation. cbn. unfold answer. intros c r c' H. by destruct (reachable c); simplify_eq. Qed.
Next Obligation. cbn. unfold answer. intros c r c' H. by destruct (reachable c); simplify_eq. Qed.

Definition green (n : Z) : ClusterHealth :=
  {| ch_Status := "green"; ch_TimedOut := false; ch_NumberOfNodes := n; ch_NumberOfDataNodes := n;
     ch_RelocatingShards := 0; ch_InitializingShards := 0; ch_UnassignedShards := 0 |}.

Definition shard_on (n : string) : ShardInfo :=
  {| si_Index := "wazuh-alerts"; si_Shard := "0"; si_PriRep := "p"; si_State := "STARTED";
     si_Node := n |}.

Definition three_nodes : cluster :=
  {| health := green 3; shards := [shard_on "a-0"; shard_on "a-0"; shard_on "a-1"];
     excluded := ""; reachable := true |}.

Definition down : cluster :=
  {| health := green 3; shards := []; excluded := ""; reachable := false |}.
End Sim.

Definition default_drainer : IndexerDrainer := NewIndexerDrainer None.

Example exclusion_roundtrip_witness :
  let s := StartDrain "a-2" (default_drainer, Sim.three_nodes) in
  s.1 = Ok tt /\
  forall x w2, GetAllocationExclusion s.2.2 = (Ok x, w2) -> x = "a-2".
Proof.
  split; [by vm_compute|].
  refine (proj1 (exclusion_roundtrip "a-2" default_drainer Sim.three_nodes
                   (StartDrain "a-2" (default_drainer, Sim.three_nodes)).2.1 _ _ _)); [done|].
  by vm_compute.
Defined.

Example node_pool_excludes_last_witness :
  let s := StartNodePoolDrain ["a-0"; "a-1"; "a-2"] (default_drainer, Sim.three_nodes) in
  s.1 = Ok tt /\ exclusion s.2.2 = "a-2".
Proof.
  split; [by vm_compute|].
  apply (node_pool_excludes_last ["a-0"; "a-1"; "a-2"] default_drainer Sim.three_nodes); [done|].
  by vm_compute.
Defined.

Example verify_node_pool_sound_witness :
  (VerifyNodePoolDrainComplete ["a-2"; "a-3"] (default_drainer, Sim.three_nodes)).1 = Ok true /\
  seen_empty (W := Sim.cluster) "a-3".
Proof.
  split; [by vm_compute|].
  apply (verify_node_pool_sound ["a-2"; "a-3"] default_drainer Sim.three_nodes
           (default_drainer, Sim.three_nodes)); [by vm_compute|].
  apply list_elem_of_In. cbn. tauto.
Defined.

Definition two_to_move : IndexerDrainer := set_initial 4 default_drainer.

Example monitor_progress_bounds_witness :
  exists p s', MonitorProgress "a-0" (two_to_move, Sim.three_nodes) = (Ok p, s') /\
    dp_Percent p = 50 /\ dp_Percent p <= 100.
Proof.
  eexists _, _. split; [by vm_compute|]. split; [done|].
  refine (proj1 (proj2 (monitor_progress_bounds "a-0" two_to_move Sim.three_nodes _ _ _ _ _)));
    [by vm_compute|by vm_compute|by vm_compute].
Defined.


Definition data_pool : NodePoolScaleDownInfo :=
  {| np_PoolName := "hot"; np_Roles := ["data"; "cluster_manager"]; np_CurrentReplicas := 3;
     np_DesiredReplicas := 1; np_TargetPodNames := GetNodePoolScaleDownTargets "w" "hot" 3 1 |}.

Example node_pool_scale_down_safe_witness :
  exists res s', EvaluateNodePoolScaleDown true data_pool 5 (default_drainer, Sim.three_nodes)
                 = (Ok (Returns res), s') /\
    nr_TargetNodes res = ["w-indexer-hot-1"; "w-indexer-hot-2"] /\
    nr_NeedsDrain res = HasDataRole data_pool.
Proof.
  eexists _, _. split; [by vm_compute|]. split; [by vm_compute|].
  refine (proj1 (proj2 (node_pool_scale_down_safe data_pool 5 default_drainer Sim.three_nodes
                          _ _ _ _ _ _ _ _ _))); by vm_compute.
Defined.

Example node_pool_health_error_panics_witness :
  EvaluateNodePoolScaleDown true data_pool 5 (default_drainer, Sim.down)
  = (Ok Panics, (default_drainer, Sim.down)).
Proof. eapply (node_pool_health_error_panics data_pool 5); by vm_compute. Defined.
