(* ===== verification/ManagerDrain.v ===== *)
(** * Manager drainer ([internal/wazuh/drain/manager_drain.go])

    Waiting for a worker's event queue to empty and to stay empty for a grace
    period.  Wazuh has no drain mode, so everything here is observation. *)
From S2P Require Import Prelude GoStrings GoFloat OpenSearchAPI WazuhAPI DrainState IndexerDrain.
Local Open Scope go_scope.
Local Open Scope list_scope.

Record ManagerDrainProgress := {
  mp_Percent : Z;
  mp_QueueDepth : Z;
  mp_InitialQueueDepth : Z;
  mp_Message : string;
  mp_IsComplete : bool
}.

Record ManagerDrainConfig := {
  mdc_Enabled : option bool;
  mdc_Timeout : option duration;
  mdc_QueueCheckInterval : option duration;
  mdc_GracePeriod : option duration
}.

Record ManagerDrainer := {
  md_timeout : duration;
  md_queueCheckInterval : duration;
  md_gracePeriod : duration;
  md_initialQueueDepth : Z;
  md_emptyQueueSeenTime : option Z
}.

Definition DefaultManagerDrainTimeout : duration := 15 * Minute.
Definition DefaultManagerQueueCheckInterval : duration := 5 * Second.

Definition NewManagerDrainer (config : option ManagerDrainConfig) : ManagerDrainer :=
  {| md_timeout := default DefaultManagerDrainTimeout (c ← config; mdc_Timeout c);
     md_queueCheckInterval :=
       default DefaultManagerQueueCheckInterval (c ← config; mdc_QueueCheckInterval c);
     md_gracePeriod := default (10 * Second) (c ← config; mdc_GracePeriod c);
     md_initialQueueDepth := 0;
     md_emptyQueueSeenTime := None |}.

(** The two fields the drain keeps up to date. *)
Definition observe (initial : Z) (seen : option Z) (d : ManagerDrainer) : ManagerDrainer :=
  {| md_timeout := md_timeout d; md_queueCheckInterval := md_queueCheckInterval d;
     md_gracePeriod := md_gracePeriod d; md_initialQueueDepth := initial;
     md_emptyQueueSeenTime := seen |}.

(** The percentage and the (possibly reset) initial depth for a depth just
    read; [int64] arithmetic, then a conversion to [int32]. *)
Definition queue_percent (initial depth : Z) : Z * Z :=
  if bool_decide (0 < initial) then
    let processedEvents := wrap64 (initial - depth) in
    if bool_decide (processedEvents < 0) then (wrap32 (Z.quot (wrap64 (0 * 100)) depth), depth)
    else (wrap32 (Z.quot (wrap64 (processedEvents * 100)) initial), initial)
  else (100, initial).

(** The part of [MonitorQueueDepth] after the depth has been read. *)
Definition record_depth (now : Z) (d : ManagerDrainer) (depth : Z)
    : ManagerDrainProgress * ManagerDrainer :=
  let '(percent, initial) := queue_percent (md_initialQueueDepth d) depth in
  let progress percent message complete :=
    {| mp_Percent := percent; mp_QueueDepth := depth;
       mp_InitialQueueDepth := md_initialQueueDepth d; mp_Message := message;
       mp_IsComplete := complete |} in
  if bool_decide (depth = 0) then
    let seen := default now (md_emptyQueueSeenTime d) in
    let d' := observe initial (Some seen) d in
    if bool_decide (md_gracePeriod d <= time_since now seen)
    then (progress 100 "Queue drained successfully (grace period elapsed)" true, d')
    else
      let remaining := wrap64 (md_gracePeriod d - time_since now seen) in
      (progress percent ("Queue empty, waiting for grace period ("
         +:+ Duration_String (Duration_Round remaining Second) +:+ " remaining)") false, d')
  else
    (progress percent ("Processing queue: " +:+ pretty depth +:+ " events remaining") false,
     observe initial None d).

Section Drainer.
Context {W : Type} `{!WazuhService W}.

Definition MIO (A : Type) := IO (ManagerDrainer * (WazuhAPIAdapter * W)) A.

Definition StartDrain (now : Z) (nodeName : string) : MIO unit :=
  depth <- io_wrap "failed to get initial queue status" (io_world (GetQueueStatus now nodeName)) ;;
  io_modify (prod_map (observe depth None) id).

Definition MonitorQueueDepth (now : Z) (nodeName : string) : MIO ManagerDrainProgress :=
  depth <- io_wrap "failed to get queue status" (io_world (GetQueueStatus now nodeName)) ;;
  fun s => let '(p, d') := record_depth now s.1 depth in (Ok p, (d', s.2)).

Definition VerifyQueueEmpty (now : Z) (nodeName : string) : MIO bool :=
  depth <- io_wrap "failed to verify queue empty" (io_world (GetQueueStatus now nodeName)) ;;
  if bool_decide (0 < depth) then io_ret false
  else
    d <- io_get ;;
    match md_emptyQueueSeenTime d.1 with
    | None =>
        io_modify (prod_map (fun d => observe (md_initialQueueDepth d) (Some now) d) id) ;;;
        io_ret false
    | Some seen =>
        if bool_decide (time_since now seen < md_gracePeriod d.1) then io_ret false
        else io_ret true
    end.

Definition CancelDrain : MIO unit := io_modify (prod_map (observe 0 None) id).

(** The duration estimate of the dry run. *)
Definition estimate_duration (grace : duration) (depth : Z) : duration :=
  if bool_decide (0 < depth) then
    let estimatedSeconds := Z.max 60 (Z.quot depth 1000) in
    let estimatedSeconds :=
      wrap64 (estimatedSeconds + int64_of_float (fun _ => 0) (Duration_Seconds grace)) in
    wrap64 (estimatedSeconds * Second)
  else wrap64 (grace + 30 * Second).

Definition EvaluateFeasibility (now : Z) (nodeName : string) : MIO DryRunResult :=
  let result blockers warnings estimate :=
    {| dr_Feasible := bool_decide (blockers = []); dr_EvaluatedAt := now;
       dr_Component := DrainComponentManager; dr_Blockers := blockers;
       dr_Warnings := warnings; dr_EstimatedDuration := estimate |} in
  healthy <- io_world (IsHealthy now) ;;
  if negb healthy then io_ret (result ["Cannot connect to Wazuh API"] [] None)
  else
    try clusterStatus <- io_world (GetClusterStatus now) ;;
    try nodeStatus <- io_world (GetClusterNodeStatus now nodeName) ;;
    try queueStatus <- io_world (GetQueueStatus now nodeName) ;;
    try allNodes <- io_world (GetAllNodesStatus now) ;;
    d <- io_get ;;
    let blockers :=
      blockers_of
        [ (match clusterStatus with Ok st => negb (ws_Running st) | Err _ => false end,
           "Wazuh cluster is not running");
          (match allNodes with
           | Ok nodes => bool_decide
               (length (filter (fun node => wn_Type node = "worker") nodes) <= 1)%nat
           | Err _ => false
           end, "Cannot drain: only one worker node in cluster") ] in
    let warnings :=
      match clusterStatus with
      | Err err => ["Cannot check cluster status: " +:+ err] | Ok _ => []
      end ++
      match nodeStatus with
      | Err err => ["Cannot check node " +:+ nodeName +:+ " status: " +:+ err]
      | Ok st => if bool_decide (wn_Status st = "disconnected")
                 then ["Node " +:+ nodeName +:+ " is disconnected from cluster"] else []
      end ++
      match queueStatus with
      | Err err => ["Cannot check queue status: " +:+ err] | Ok _ => []
      end ++
      match allNodes with
      | Err err => ["Cannot check all nodes: " +:+ err] | Ok _ => []
      end in
    io_ret (result blockers warnings
              (match queueStatus with
               | Ok depth => Some (estimate_duration (md_gracePeriod d.1) depth)
               | Err _ => None
               end)).

(** [WaitForDrainComplete], as for the indexer: one event of the [select] at
    a time. *)
Fixpoint wait_loop (startTime : Z) (nodeName : string) (events : list wait_event)
    (status : option ComponentDrainStatus) (s : ManagerDrainer * (WazuhAPIAdapter * W))
    : option (result unit) * option ComponentDrainStatus *
      (ManagerDrainer * (WazuhAPIAdapter * W)) :=
  match events with
  | [] => (None, status, s)
  | CtxDone err :: _ => (Some (Err err), status, s)
  | Tick now :: events =>
      if bool_decide (md_timeout s.1 < time_since now startTime)
      then (Some (Err ("drain timeout after " +:+ Duration_String (md_timeout s.1))), status, s)
      else
        match MonitorQueueDepth now nodeName s with
        | (Err _, s) => wait_loop startTime nodeName events status s
        | (Ok progress, s) =>
            let status := (fun st =>
              UpdateQueueDepth (UpdateProgress st (mp_Percent progress) (mp_Message progress))
                (mp_QueueDepth progress)) <$> status in
            if mp_IsComplete progress then (Some (Ok tt), status, s)
            else wait_loop startTime nodeName events status s
        end
  end.
End Drainer.

(** ** A drain over time *)

(** What the drainer learns at an instant: the depth, or nothing when the call
    failed. *)
Definition reading : Type := Z * option Z.

(** The calls of [MonitorQueueDepth] at given instants, each in whatever state
    the world is in by then. *)
Fixpoint monitor_all {W} `{!WazuhService W} (nodeName : string) (d : ManagerDrainer)
    (calls : list (Z * (WazuhAPIAdapter * W)))
    : list (Z * result ManagerDrainProgress) * ManagerDrainer :=
  match calls with
  | [] => ([], d)
  | (now, w) :: calls =>
      let '(r, s) := MonitorQueueDepth now nodeName (d, w) in
      let '(rs, d') := monitor_all nodeName s.1 calls in ((now, r) :: rs, d')
  end.

(** What the calls read. *)
Definition read_depth {W} `{!WazuhService W} (nodeName : string)
    (c : Z * (WazuhAPIAdapter * W)) : reading :=
  (c.1, match (GetQueueStatus c.1 nodeName c.2).1 with Ok depth => Some depth | Err _ => None end).

(** No event was seen: the call failed or the queue was empty. *)
Definition quiet_reading (r : reading) : Prop := r.2 = None \/ r.2 = Some 0.

(** ** Lemmas *)
Section Lemmas.
Context {W : Type} `{!WazuhService W}.
Implicit Types (d : ManagerDrainer) (w : WazuhAPIAdapter * W).

Lemma MonitorQueueDepth_eq now n d w :
  MonitorQueueDepth now n (d, w) =
  match GetQueueStatus now n w with
  | (Ok depth, w') => let '(p, d') := record_depth now d depth in (Ok p, (d', w'))
  | (Err e, w') => (Err (errorf "failed to get queue status" e), (d, w'))
  end.
Proof.
  unfold MonitorQueueDepth, io_bind, io_wrap, io_world.
  by destruct (GetQueueStatus now n w) as [[depth|e] w'].
Qed.

Lemma VerifyQueueEmpty_eq now n d w :
  VerifyQueueEmpty now n (d, w) =
  match GetQueueStatus now n w with
  | (Err e, w') => (Err (errorf "failed to verify queue empty" e), (d, w'))
  | (Ok depth, w') =>
      if bool_decide (0 < depth) then (Ok false, (d, w'))
      else match md_emptyQueueSeenTime d with
           | None => (Ok false, (observe (md_initialQueueDepth d) (Some now) d, w'))
           | Some seen =>
               (Ok (negb (bool_decide (time_since now seen < md_gracePeriod d))), (d, w'))
           end
  end.
Proof.
  unfold VerifyQueueEmpty, io_bind, io_wrap, io_world, io_get, io_modify, io_ret.
  destruct (GetQueueStatus now n w) as [[depth|e] w']; [|done]. cbn [wrapf fst].
  destruct (bool_decide (0 < depth)); [done|]. change ((d, w').1) with d.
  destruct (md_emptyQueueSeenTime d); [|done]. by destruct (bool_decide _).
Qed.

(** What one reading does to the grace period. *)
Lemma record_depth_spec now d depth p d' :
  record_depth now d depth = (p, d') ->
  md_gracePeriod d' = md_gracePeriod d /\
  md_emptyQueueSeenTime d' =
    (if decide (depth = 0) then Some (default now (md_emptyQueueSeenTime d)) else None) /\
  (mp_IsComplete p = true -> mp_Percent p = 100 /\ depth = 0 /\
     exists seen, md_emptyQueueSeenTime d' = Some seen /\
       md_gracePeriod d <= time_since now seen).
Proof.
  unfold record_depth. destruct (queue_percent _ _) as [pc i].
  case_bool_decide; [case_bool_decide|]; intros; simplify_eq/=.
  - split_and!; eauto.
  - done.
  - by rewrite decide_False.
Qed.

(** The empty period being timed starts at an empty reading and has seen no
    event since. *)
Definition timed (rs : list reading) d : Prop :=
  match md_emptyQueueSeenTime d with
  | None => True
  | Some t0 => exists pre post, rs = pre ++ (t0, Some 0) :: post /\ Forall quiet_reading post
  end.

Lemma timed_quiet rs r d : quiet_reading r -> timed rs d -> timed (rs ++ [r]) d.
Proof.
  unfold timed. destruct (md_emptyQueueSeenTime d) as [t0|]; [|done].
  intros Hq (pre & post & -> & Hpost). exists pre, (post ++ [r]).
  split; [by rewrite <-app_assoc|]. apply Forall_app. auto.
Qed.

Lemma timed_record rs now d depth p d' :
  timed rs d -> record_depth now d depth = (p, d') -> timed (rs ++ [(now, Some depth)]) d'.
Proof.
  intros Ht (Hg & Hs & _)%record_depth_spec. unfold timed. rewrite Hs.
  case_decide as Hd; [subst depth|done]. unfold timed in Ht.
  destruct (md_emptyQueueSeenTime d) as [t0|]; cbn.
  - destruct Ht as (pre & post & -> & Hpost). exists pre, (post ++ [(now, Some 0)]).
    split; [by rewrite <-app_assoc|]. apply Forall_app. split; [done|].
    constructor; [by right|done].
  - by exists rs, [].
Qed.

Lemma monitor_all_timed n d calls rs :
  timed rs d ->
  timed (rs ++ map (read_depth n) calls) (monitor_all n d calls).2 /\
  md_gracePeriod (monitor_all n d calls).2 = md_gracePeriod d.
Proof.
  revert d rs. induction calls as [|[now w] calls IH]; intros d rs Ht; cbn [monitor_all map].
  - by rewrite app_nil_r.
  - rewrite MonitorQueueDepth_eq. unfold read_depth at 1. cbn [fst snd].
    destruct (GetQueueStatus now n w) as [[depth|e] w'] eqn:E; cbn [fst snd].
    + destruct (record_depth now d depth) as [p d1] eqn:Er. cbn [fst snd].
      pose proof (timed_record _ _ _ _ _ _ Ht Er) as Ht'.
      apply record_depth_spec in Er as (Hg & _).
      destruct (IH _ _ Ht') as [IH1 IH2]. destruct (monitor_all n d1 calls). cbn [snd] in *.
      rewrite <-app_assoc in IH1. split; [done|]. by rewrite IH2.
    + assert (Ht' : timed (rs ++ [(now, None)]) d) by (by apply timed_quiet; [left|]).
      destruct (IH _ _ Ht') as [IH1 IH2]. destruct (monitor_all n d calls). cbn [snd] in *.
      by rewrite <-app_assoc in IH1.
Qed.

Lemma queue_percent_bounds initial depth :
  0 <= initial < 2 ^ 56 -> 0 <= depth < 2 ^ 63 ->
  let '(percent, initial') := queue_percent initial depth in
  0 <= percent <= 100 /\ (initial' = initial \/ initial' = depth).
Proof.
  intros Hi Hd. unfold queue_percent. case_bool_decide; [|lia].
  rewrite wrap64_id by (unfold int64; lia).
  case_bool_decide; [split; [|by right]; rewrite Z.mul_0_l, Z.quot_0_l by lia; by vm_compute|].
  rewrite wrap64_id by (unfold int64; lia).
  assert (0 <= Z.quot ((initial - depth) * 100) initial <= 100) as Hq.
  { split; [apply Z.quot_pos; lia|].
    rewrite <-(Z.quot_mul 100 initial) at 2 by lia. apply Z.quot_le_mono; lia. }
  rewrite wrap32_id by (unfold int32; lia). auto.
Qed.
End Lemmas.

Section Properties.
Context {W : Type} `{!WazuhService W}.
Implicit Types (d : ManagerDrainer) (w : WazuhAPIAdapter * W).

(** C14: a worker counts as drained only after a full grace period of silence.
    Take any sequence of [MonitorQueueDepth] calls after [StartDrain], at any
    instants and with the queue changing freely between them, some calls
    failing.  If the last one says complete, then one of the calls found the
    queue empty at least [gracePeriod] earlier, and no call since then has
    seen an event. *)
Theorem complete_after_quiet_grace_period n t0 d0 w0 d w calls now wl p s' :
  StartDrain t0 n (d0, w0) = (Ok tt, (d, w)) ->
  MonitorQueueDepth now n ((monitor_all n d calls).2, wl) = (Ok p, s') ->
  mp_IsComplete p = true ->
  exists pre seen post,
    map (read_depth n) (calls ++ [(now, wl)]) = pre ++ (seen, Some 0) :: post /\
    Forall quiet_reading post /\ md_gracePeriod d0 <= time_since now seen.
Proof.
  intros Hst Hm Hc.
  assert (md_emptyQueueSeenTime d = None /\ md_gracePeriod d = md_gracePeriod d0) as [Hn Hg].
  { unfold StartDrain in Hst. apply io_bind_ok in Hst as (k & [d1 w1] & Hw & Hst).
    apply read_ok in Hw as (w' & Heq & _). injection Heq as -> ->.
    unfold io_modify in Hst. by simplify_eq/=. }
  destruct (monitor_all_timed n d calls []) as [Ht Hgr]; [unfold timed; by rewrite Hn|].
  rewrite MonitorQueueDepth_eq in Hm.
  destruct (GetQueueStatus now n wl) as [[depth|e] w'] eqn:E; [|done].
  destruct (record_depth _ _ _) as [p' d'] eqn:Er. simplify_eq.
  pose proof (timed_record _ _ _ _ _ _ Ht Er) as Ht'.
  apply record_depth_spec in Er as (_ & _ & Hcomp). apply Hcomp in Hc as (_ & -> & seen & Hs & Hle).
  unfold timed in Ht'. rewrite Hs in Ht'. destruct Ht' as (pre & post & Heq & Hq).
  exists pre, seen, post. split_and!; [|done|by rewrite <-Hg, <-Hgr].
  rewrite map_app, <-Heq. cbn [app]. f_equal. cbn. unfold read_depth. cbn. by rewrite E.
Qed.

(** the reported progress is a percentage: for any depth and any initial
    depth the server can report (up to 2^56 events, where the product still
    fits), it stays between 0 and 100, also when events arrive faster than
    they are processed, in which case the initial depth restarts at the
    depth read. *)
Theorem queue_progress_bounds now n d w p d' w' :
  0 <= md_initialQueueDepth d < 2 ^ 56 ->
  MonitorQueueDepth now n (d, w) = (Ok p, (d', w')) ->
  0 <= mp_QueueDepth p < 2 ^ 63 ->
  0 <= mp_Percent p <= 100 /\ (mp_IsComplete p = true -> mp_QueueDepth p = 0) /\
  (md_initialQueueDepth d' = md_initialQueueDepth d \/
   md_initialQueueDepth d' = mp_QueueDepth p).
Proof.
  intros Hi Hm Hd. rewrite MonitorQueueDepth_eq in Hm.
  destruct (GetQueueStatus now n w) as [[depth|e] w1]; [|done].
  unfold record_depth in Hm. pose proof (queue_percent_bounds (md_initialQueueDepth d) depth Hi) as Hb.
  destruct (queue_percent _ depth) as [pc i].
  repeat case_bool_decide; simplify_eq/=; destruct (Hb Hd); split_and!; try done; lia.
Qed.

(** the verification, unlike the monitoring, does not restart the grace
    period when it finds events in the queue: a worker that had events at a
    verification is verified as drained by the next one that finds it
    empty, however short the time between the two. *)
Theorem verify_keeps_grace_period n d t0 t1 t2 w1 w2 k :
  md_emptyQueueSeenTime d = Some t0 ->
  (GetQueueStatus t1 n w1).1 = Ok k -> 0 < k ->
  (GetQueueStatus t2 n w2).1 = Ok 0 -> md_gracePeriod d <= time_since t2 t0 ->
  exists s1 s2, VerifyQueueEmpty t1 n (d, w1) = (Ok false, (d, s1)) /\
                VerifyQueueEmpty t2 n (d, w2) = (Ok true, (d, s2)).
Proof.
  intros Hs H1 Hk H2 Hg. rewrite !VerifyQueueEmpty_eq, !Hs.
  destruct (GetQueueStatus t1 n w1) as [r1 s1], (GetQueueStatus t2 n w2) as [r2 s2].
  simplify_eq/=. exists s1, s2. rewrite bool_decide_true by lia. split; [done|].
  by rewrite bool_decide_false by lia.
Qed.

(** The dry run of a worker drain never fails; it is feasible exactly
    when it lists no blocker, and that is when the API answers, the cluster,
    if its status can be read, is running and, if the nodes can be listed,
    at least two of them are workers. *)
Theorem manager_feasibility_verdict now n d w h w1 :
  IsHealthy now w = (Ok h, w1) ->
  exists res s', EvaluateFeasibility now n (d, w) = (Ok res, s') /\
    (dr_Feasible res = true <-> dr_Blockers res = []) /\
    let c := GetClusterStatus now w1 in
    let ns := GetClusterNodeStatus now n c.2 in
    let q := GetQueueStatus now n ns.2 in
    let all := GetAllNodesStatus now q.2 in
    (dr_Feasible res = true <->
       h = true /\ (forall st, c.1 = Ok st -> ws_Running st = true) /\
       (forall nodes, all.1 = Ok nodes ->
          (2 <= length (filter (fun node => wn_Type node = "worker") nodes))%nat)).
Proof.
  intros Hh. unfold EvaluateFeasibility, io_bind at 1, io_world at 1. rewrite Hh. cbn zeta.
  destruct h; cbn [negb].
  - unfold io_try, io_world, io_bind, io_get, io_ret.
    destruct (GetClusterStatus now w1) as [c w2]. cbn [snd fst].
    destruct (GetClusterNodeStatus now n w2) as [ns w3]. cbn [snd fst].
    destruct (GetQueueStatus now n w3) as [q w4]. cbn [snd fst].
    destruct (GetAllNodesStatus now w4) as [al w5]. cbn [snd fst].
    eexists _, _. split; [done|]. cbn [dr_Feasible dr_Blockers].
    split; [apply bool_decide_eq_true|]. rewrite no_blockers. cbn [forallb fst].
    rewrite andb_true_r, andb_true_iff, !negb_true_iff.
    assert (match c with Ok st => negb (ws_Running st) | Err _ => false end = false <->
            forall st, c = Ok st -> ws_Running st = true) as ->.
    { destruct c as [st|]; [|by split]. rewrite negb_false_iff.
      split; [by intros ? ? [= <-]|auto]. }
    assert (match al with
            | Ok nodes => bool_decide
                (length (filter (fun node => wn_Type node = "worker") nodes) <= 1)%nat
            | Err _ => false
            end = false <->
            forall nodes, al = Ok nodes ->
              (2 <= length (filter (fun node => wn_Type node = "worker") nodes))%nat) as ->.
    { destruct al as [nodes|]; [|by split]. rewrite bool_decide_eq_false.
      split; [intros ? ? [= <-]; lia|intros H; specialize (H _ eq_refl); lia]. }
    tauto.
  - eexists _, _. split; [done|]. split; [by split|]. split; [done|]. by intros [? _].
Qed.
End Properties.

(** ** A server to try the theorems on *)
Module SimWazuh.
Record manager := { queue : list Z; nodes : list ClusterNodeStatus; running : bool; up : bool }.

Definition answer {A} (f : manager -> A) : IO manager (response A) := fun m =>
  if up m then (Ok {| StatusCode := 200; body := ""; decoded := Ok (f m) |}, m)
  else (Err "connection refused", m).

#[global] Instance service : WazuhService manager := {
  post_authenticate := answer (fun _ => "token");
  get_manager_info _ := answer (fun _ => tt);
  get_cluster_status _ := answer (fun m => {| ws_Enabled := true; ws_Running := running m |});
  get_stats _ _ := answer queue;
  get_nodes _ name := answer (fun m =>
    match name with
    | Some n => filter (fun x => wn_Name x = n) (nodes m)
    | None => nodes m
    end)
}.

Definition node (n t : string) : ClusterNodeStatus :=
  {| wn_Name := n; wn_Type := t; wn_Status := "connected" |}.

Definition two_workers (depth : Z) : WazuhAPIAdapter * manager :=
  (NewWazuhAPIAdapter {| ac_BaseURL := "https://w-manager-master:55000"; ac_Username := "wazuh"; ac_Password := "wazuh" |},
   {| queue := [depth]; nodes := [node "m" "master"; node "w-0" "worker"; node "w-1" "worker"];
      running := true; up := true |}).
End SimWazuh.

Definition default_manager_drainer : ManagerDrainer := NewManagerDrainer None.

Definition started_drainer : ManagerDrainer * (WazuhAPIAdapter * SimWazuh.manager) :=
  (StartDrain 0 "w-1" (default_manager_drainer, SimWazuh.two_workers 7)).2.

Example complete_after_quiet_grace_period_witness :
  let calls := [(5 * Second, SimWazuh.two_workers 3); (10 * Second, SimWazuh.two_workers 0)] in
  exists p s' pre seen post,
    MonitorQueueDepth (20 * Second) "w-1"
      ((monitor_all "w-1" started_drainer.1 calls).2, SimWazuh.two_workers 0) = (Ok p, s') /\
    mp_IsComplete p = true /\
    map (read_depth "w-1") (calls ++ [(20 * Second, SimWazuh.two_workers 0)])
      = pre ++ (seen, Some 0) :: post.
Proof.
  destruct (MonitorQueueDepth (20 * Second) "w-1"
      ((monitor_all "w-1" started_drainer.1
          [(5 * Second, SimWazuh.two_workers 3); (10 * Second, SimWazuh.two_workers 0)]).2,
       SimWazuh.two_workers 0)) as [[p|e] s'] eqn:E; [|by vm_compute in E].
  assert (mp_IsComplete p = true) as Hc by (vm_compute in E; by simplify_eq).
  assert (StartDrain 0 "w-1" (default_manager_drainer, SimWazuh.two_workers 7)
          = (Ok tt, (started_drainer.1, started_drainer.2))) as Hs by (by vm_compute).
  destruct (complete_after_quiet_grace_period "w-1" 0 default_manager_drainer
              (SimWazuh.two_workers 7) started_drainer.1 started_drainer.2 _ _ _ _ _ Hs E Hc) as (pre & seen & post & H & _).
  exists p, s', pre, seen, post. split_and!; [done..|exact H].
Defined.

Example queue_progress_bounds_witness :
  exists p d' w', MonitorQueueDepth 5 "w-1" (started_drainer.1, SimWazuh.two_workers 3)
    = (Ok p, (d', w')) /\ mp_Percent p = 57 /\ 0 <= mp_Percent p <= 100.
Proof.
  eexists _, _, _. split; [by vm_compute|]. split; [by vm_compute|].
  refine (proj1 (queue_progress_bounds 5 "w-1" started_drainer.1 (SimWazuh.two_workers 3)
                   _ _ _ _ _ _)); [by vm_compute|by vm_compute|by vm_compute].
Defined.

Example verify_keeps_grace_period_witness :
  let d := observe 7 (Some 0) default_manager_drainer in
  exists s1 s2,
    VerifyQueueEmpty (11 * Second) "w-1" (d, SimWazuh.two_workers 40) = (Ok false, (d, s1)) /\
    VerifyQueueEmpty (12 * Second) "w-1" (d, SimWazuh.two_workers 0) = (Ok true, (d, s2)).
Proof.
  refine (verify_keeps_grace_period "w-1" _ 0 (11 * Second) (12 * Second)
            (SimWazuh.two_workers 40) (SimWazuh.two_workers 0) 40 _ _ _ _ _); by vm_compute.
Defined.

Example manager_feasibility_verdict_witness :
  (IsHealthy 0 (SimWazuh.two_workers 2)).1 = Ok true /\
  exists res s', EvaluateFeasibility 0 "w-1" (default_manager_drainer, SimWazuh.two_workers 2)
    = (Ok res, s') /\ (dr_Feasible res = true <-> dr_Blockers res = []).
Proof.
  split; [by vm_compute|].
  assert (IsHealthy 0 (SimWazuh.two_workers 2)
          = (Ok true, (IsHealthy 0 (SimWazuh.two_workers 2)).2)) as Hh by (by vm_compute).
  destruct (manager_feasibility_verdict 0 "w-1" default_manager_drainer
              (SimWazuh.two_workers 2) true _ Hh) as (res & s' & H & Hb & _).
  by exists res, s'.
Defined.
