(* ===== verification/Cluster.v ===== *)
(** * The WazuhCluster resource ([api/v1])

    The fields of the custom resource's spec and status that the modelled
    controllers use, and its helper methods. *)
From S2P Require Import Prelude GoStrings GoFloat Kube DrainState IndexerDrain ManagerDrain DrainRetry.
Local Open Scope list_scope.

Record DrainConfig := {
  dc_DryRun : bool;
  dc_Indexer : option IndexerDrainConfig;
  dc_Manager : option ManagerDrainConfig;
  dc_Retry : option DrainRetryConfig
}.

Record IndexerNodePoolSpec := {
  pool_Name : string;
  pool_Replicas : Z;
  pool_Roles : list string;
  pool_StorageSize : string
}.

(** The network sections of a component: [Enabled], when the section exists. *)
Record Networking := {
  nw_GatewayAPI : option bool;
  nw_Ingress : option bool;
  nw_NetworkPolicy : option bool
}.

(** The manager has them on the master, the workers and the whole. *)
Record ManagerNetworking := {
  mn_MasterGatewayAPI : option bool;
  mn_MasterIngress : option bool;
  mn_WorkersIngress : option bool;
  mn_NetworkPolicy : option bool
}.

Record WazuhIndexerClusterSpec := {
  ix_Replicas : Z;
  ix_NodePools : list IndexerNodePoolSpec;
  ix_StorageSize : string;
  ix_Networking : Networking
}.

Record CredentialsSecretRef := {
  cr_SecretName : string;
  cr_ExternalSecretRef : option string;
  cr_UsernameKey : string;
  cr_PasswordKey : string
}.

(** [SecretKeyRef] *)
Record SecretKeySelector := { sel_Name : string; sel_Key : string }.

(** The enrolment service's part of the manager's configuration. *)
Record AuthConfig := {
  au_Disabled : option bool;
  au_UsePassword : option bool;
  au_EnabledOnMasterOnly : option bool;
  au_PasswordSecretRef : option SecretKeySelector
}.

Record WazuhManagerClusterSpec := {
  mg_WorkersReplicas : option Z;
  mg_APICredentials : option CredentialsSecretRef;
  (** [Config.Auth], when there is a [Config] *)
  mg_Auth : option AuthConfig;
  mg_AuthdPasswordSecretRef : option SecretKeySelector;
  mg_MasterStorageSize : string;
  mg_WorkersStorageSize : string;
  mg_Networking : ManagerNetworking
}.

Record WazuhDashboardClusterSpec := { da_Replicas : Z; da_Networking : Networking }.

(** A component in a resource of its own, which the cluster refers to. *)
Record ComponentRef := { rf_Name : string; rf_Namespace : string }.

(** The rest of the object's metadata and of its specification. *)
Record ObjectMeta := {
  om_Generation : Z;
  om_Deleting : bool;
  om_Finalizers : list string
}.

Record SpecRest := {
  sp_Version : string;
  sp_ManagerRef : option ComponentRef;
  sp_IndexerRef : option ComponentRef;
  sp_DashboardRef : option ComponentRef
}.

(** ** Status *)

(** The status of a condition is a string of the API. *)
Record Condition := {
  cn_Type : string;
  cn_Status : string;
  cn_Reason : string;
  cn_Message : string;
  cn_LastTransitionTime : Z;
  cn_ObservedGeneration : Z
}.

Record ComponentStatus := {
  cst_Phase : string;
  cst_ReadyReplicas : Z;
  cst_Replicas : Z;
  cst_DesiredReplicas : Z;
  cst_TopologyMode : string
}.

Record SecurityStatus := {
  se_Initialized : bool;
  se_InitializationTime : option Z;
  se_LastSyncTime : option Z;
  se_DefaultAdminUser : string;
  se_DefaultAdminSource : string;
  se_SyncedUsers : Z;
  se_SyncedRoles : Z;
  se_SyncedRoleMappings : Z;
  se_SyncedTenants : Z;
  se_SyncedActionGroups : Z;
  se_IndexerRestartCount : Z;
  se_CredentialsHash : string;
  se_APICredentialsHash : string;
  se_AuthdCredentialsHash : string
}.

Inductive ExpansionPhase : Type :=
| ExpansionPhasePending
| ExpansionPhaseInProgress
| ExpansionPhaseCompleted
| ExpansionPhaseFailed.

#[global] Instance ExpansionPhase_eq_dec : EqDecision ExpansionPhase.
Proof. solve_decision. Defined.

Record ComponentExpansionStatus := {
  ces_Phase : ExpansionPhase;
  ces_RequestedSize : string;
  ces_CurrentSize : string;
  ces_Message : string;
  ces_LastTransitionTime : Z;
  ces_PVCsExpanded : list string;
  ces_PVCsPending : list string
}.

Record VolumeExpansionStatus := {
  ves_Indexer : option ComponentExpansionStatus;
  ves_ManagerMaster : option ComponentExpansionStatus;
  ves_ManagerWorkers : option ComponentExpansionStatus
}.

Record PendingCertRollout := {
  pr_Component : string;
  pr_WorkloadName : string;
  pr_WorkloadType : string;
  pr_StartTime : option Z;
  pr_Reason : string;
  pr_Ready : bool
}.

Record CertificateRolloutStatus := {
  cr_PendingRollouts : list PendingCertRollout;
  cr_LastRolloutTime : option Z;
  cr_RolloutsInProgress : bool
}.

Inductive RestartPhase : Type :=
| RestartPhaseIdle
| RestartPhaseInProgress
| RestartPhaseComplete.

Record ComponentRollingRestart := {
  crr_Phase : RestartPhase;
  crr_TotalPods : Z;
  crr_UpdatedPods : Z;
  crr_CurrentPod : string;
  crr_Message : string;
  crr_StartTime : Z;
  crr_LastTransitionTime : Z
}.

Record RollingRestartStatus := {
  rrs_InProgress : bool;
  rrs_Indexer : option ComponentRollingRestart;
  rrs_ManagerMaster : option ComponentRollingRestart;
  rrs_ManagerWorker : option ComponentRollingRestart
}.

Record StatusRest := {
  sr_Phase : string;
  sr_Version : string;
  sr_ObservedGeneration : Z;
  sr_Conditions : list Condition;
  sr_Manager : option ComponentStatus;
  sr_Indexer : option ComponentStatus;
  sr_Dashboard : option ComponentStatus;
  sr_Security : option SecurityStatus;
  sr_CertificateRollouts : option CertificateRolloutStatus;
  sr_VolumeExpansion : option VolumeExpansionStatus;
  sr_RollingRestart : option RollingRestartStatus
}.

Record DrainStatus := {
  ds_Indexer : option ComponentDrainStatus;
  ds_Manager : option ComponentDrainStatus;
  ds_LastDryRun : option DryRunResult
}.

Record WazuhCluster := {
  wc_Name : string;
  wc_Namespace : string;
  wc_SpecDrain : option DrainConfig;
  wc_SpecIndexer : option WazuhIndexerClusterSpec;
  wc_SpecManager : option WazuhManagerClusterSpec;
  wc_SpecDashboard : option WazuhDashboardClusterSpec;
  wc_StatusDrain : option DrainStatus;
  (** [Status.LastUpdateTime] *)
  wc_StatusLastUpdate : option Z;
  wc_Meta : ObjectMeta;
  wc_Spec : SpecRest;
  wc_Status : StatusRest
}.

(** [Status.Indexer.Replicas], when there is a status *)
Definition wc_StatusIndexerReplicas (c : WazuhCluster) : option Z :=
  cst_Replicas <$> sr_Indexer (wc_Status c).

Definition empty_drain_status : DrainStatus :=
  {| ds_Indexer := None; ds_Manager := None; ds_LastDryRun := None |}.

Definition set_drain_status (d : option DrainStatus) (c : WazuhCluster) : WazuhCluster :=
  {| wc_Name := wc_Name c; wc_Namespace := wc_Namespace c; wc_SpecDrain := wc_SpecDrain c;
     wc_SpecIndexer := wc_SpecIndexer c; wc_SpecManager := wc_SpecManager c;
     wc_SpecDashboard := wc_SpecDashboard c; wc_StatusDrain := d;
     wc_StatusLastUpdate := wc_StatusLastUpdate c;
     wc_Meta := wc_Meta c; wc_Spec := wc_Spec c; wc_Status := wc_Status c |}.

Definition set_last_update (now : Z) (c : WazuhCluster) : WazuhCluster :=
  {| wc_Name := wc_Name c; wc_Namespace := wc_Namespace c; wc_SpecDrain := wc_SpecDrain c;
     wc_SpecIndexer := wc_SpecIndexer c; wc_SpecManager := wc_SpecManager c;
     wc_SpecDashboard := wc_SpecDashboard c; wc_StatusDrain := wc_StatusDrain c;
     wc_StatusLastUpdate := Some now;
     wc_Meta := wc_Meta c; wc_Spec := wc_Spec c; wc_Status := wc_Status c |}.

Definition set_status (s : StatusRest) (c : WazuhCluster) : WazuhCluster :=
  {| wc_Name := wc_Name c; wc_Namespace := wc_Namespace c; wc_SpecDrain := wc_SpecDrain c;
     wc_SpecIndexer := wc_SpecIndexer c; wc_SpecManager := wc_SpecManager c;
     wc_SpecDashboard := wc_SpecDashboard c; wc_StatusDrain := wc_StatusDrain c;
     wc_StatusLastUpdate := wc_StatusLastUpdate c;
     wc_Meta := wc_Meta c; wc_Spec := wc_Spec c; wc_Status := s |}.

Definition set_indexer_drain (s : option ComponentDrainStatus) (d : DrainStatus) : DrainStatus :=
  {| ds_Indexer := s; ds_Manager := ds_Manager d; ds_LastDryRun := ds_LastDryRun d |}.

Definition set_manager_drain (s : option ComponentDrainStatus) (d : DrainStatus) : DrainStatus :=
  {| ds_Indexer := ds_Indexer d; ds_Manager := s; ds_LastDryRun := ds_LastDryRun d |}.

Definition set_last_dry_run (r : option DryRunResult) (d : DrainStatus) : DrainStatus :=
  {| ds_Indexer := ds_Indexer d; ds_Manager := ds_Manager d; ds_LastDryRun := r |}.

(** [cluster.Status.Drain.Indexer] and [.Manager], when they exist. *)
Definition indexer_drain (c : WazuhCluster) : option ComponentDrainStatus :=
  d ← wc_StatusDrain c; ds_Indexer d.
Definition manager_drain (c : WazuhCluster) : option ComponentDrainStatus :=
  d ← wc_StatusDrain c; ds_Manager d.

(** ** Methods of the API types *)

Definition Workers_GetReplicas (m : WazuhManagerClusterSpec) : Z :=
  default 2 (mg_WorkersReplicas m).

Definition GetSecretName (c : option CredentialsSecretRef) : string :=
  match c with
  | None => ""
  | Some c => match cr_ExternalSecretRef c with Some name => name | None => cr_SecretName c end
  end.

Definition IsAdvancedMode (s : WazuhIndexerClusterSpec) : bool :=
  bool_decide (0 < length (ix_NodePools s))%nat.

Definition IsSimpleMode (s : WazuhIndexerClusterSpec) : bool :=
  bool_decide (0 < ix_Replicas s) && bool_decide (length (ix_NodePools s) = 0%nat).

Definition GetTotalReplicas (s : WazuhIndexerClusterSpec) : Z :=
  if IsAdvancedMode s
  then fold_left (fun total pool => wrap32 (total + pool_Replicas pool)) (ix_NodePools s) 0
  else ix_Replicas s.

Definition pool_HasRole (p : IndexerNodePoolSpec) (role : string) : bool :=
  existsb (fun r => bool_decide (r = role)) (pool_Roles p).

Definition pool_HasClusterManagerRole (p : IndexerNodePoolSpec) : bool :=
  pool_HasRole p OpenSearchRoleClusterManager.

Definition pool_HasDataRole (p : IndexerNodePoolSpec) : bool :=
  pool_HasRole p OpenSearchRoleData.

Definition DefaultIndexerReplicas : Z := 3.

(** The replicas that the controller's scale-down check is given. *)
Definition gate_replicas (s : WazuhIndexerClusterSpec) : Z :=
  if bool_decide (ix_Replicas s = 0) then 3 else ix_Replicas s.

(** The replicas of the StatefulSet that the indexer's reconciler applies. *)
Definition applied_replicas (s : option WazuhIndexerClusterSpec) : Z :=
  match s with
  | Some s => if bool_decide (0 < ix_Replicas s) then ix_Replicas s else DefaultIndexerReplicas
  | None => DefaultIndexerReplicas
  end.

(** ** Names ([pkg/constants/names.go], [labels.go]) *)

Definition IndexerName (clusterName : string) : string := clusterName +:+ "-indexer".
Definition ManagerWorkerName (clusterName : string) : string := clusterName +:+ "-manager-worker".
Definition ManagerMasterName (clusterName : string) : string := clusterName +:+ "-manager-master".
Definition IndexerNodePoolName (clusterName poolName : string) : string :=
  clusterName +:+ "-indexer-" +:+ poolName.
Definition APICredentialsName (clusterName : string) : string :=
  clusterName +:+ "-api-credentials".

Definition SelectorLabels (clusterName component : string) : gmap string string :=
  <["app.kubernetes.io/name" := "wazuh-" +:+ component]>
    (<["app.kubernetes.io/instance" := clusterName]>
      {["wazuh.com/cluster" := clusterName]}).

Definition LabelManagerNodeType : string := "wazuh.com/manager-node-type".

(** The WazuhClusters in the API server. *)
Class ClusterClient (W : Type) := {
  get_cluster : string -> string -> API W WazuhCluster;
  update_cluster_status : WazuhCluster -> API W unit
}.

(** ** Values for examples *)
Definition no_networking : Networking :=
  {| nw_GatewayAPI := None; nw_Ingress := None; nw_NetworkPolicy := None |}.
Definition no_manager_networking : ManagerNetworking :=
  {| mn_MasterGatewayAPI := None; mn_MasterIngress := None; mn_WorkersIngress := None;
     mn_NetworkPolicy := None |}.
Definition no_meta : ObjectMeta := {| om_Generation := 1; om_Deleting := false; om_Finalizers := [] |}.
Definition no_refs : SpecRest :=
  {| sp_Version := "4.14.0"; sp_ManagerRef := None; sp_IndexerRef := None; sp_DashboardRef := None |}.
Definition no_status : StatusRest :=
  {| sr_Phase := ""; sr_Version := ""; sr_ObservedGeneration := 0; sr_Conditions := [];
     sr_Manager := None; sr_Indexer := None; sr_Dashboard := None; sr_Security := None;
     sr_CertificateRollouts := None; sr_VolumeExpansion := None; sr_RollingRestart := None |}.
Definition three_workers : WazuhManagerClusterSpec :=
  {| mg_WorkersReplicas := Some 3; mg_APICredentials := None; mg_Auth := None;
     mg_AuthdPasswordSecretRef := None; mg_MasterStorageSize := ""; mg_WorkersStorageSize := "";
     mg_Networking := no_manager_networking |}.
