(* ===== verification/ClientFactory.v ===== *)
(** * OpenSearch client factory ([internal/opensearch/security/client_factory.go])

    The credentials of a cluster's indexer, the client built from them and the
    cache of clients, one per cluster, replaced when the secrets change.  A
    client is the part of its configuration that the requests depend on: the
    address, the basic-auth credentials and the CA it trusts.

    SHA-256 (in hexadecimal) and the PEM parser of Go's [crypto/x509] are
    parameters. *)
From Stdlib Require Import Ascii.
From S2P Require Import Prelude GoStrings Kube DrainState Cluster.
Local Open Scope go_scope.
Local Open Scope list_scope.

Record ClientConfig := {
  cc_BaseURL : string;
  cc_Username : string;
  cc_Password : string;
  cc_CACert : string;
  cc_Insecure : bool
}.

#[export] Instance ClientConfig_eq_dec : EqDecision ClientConfig.
Proof. solve_decision. Defined.

(** [pkg/constants], [pkg/dns] *)
Definition IndexerCredentialsName (clusterName : string) : string :=
  clusterName +:+ "-indexer-credentials".
Definition IndexerCertsName (clusterName : string) : string := clusterName +:+ "-indexer-certs".
Definition SecretKeyAdminUsername : string := "admin-username".
Definition SecretKeyAdminPassword : string := "admin-password".
Definition SecretKeyCACert : string := "ca.crt".
Definition PortIndexerREST : Z := 9200.

Definition ServiceFQDN (clusterDomain serviceName namespace : string) : string :=
  serviceName +:+ "." +:+ namespace +:+ ".svc." +:+ clusterDomain.

Definition IndexerServiceFQDN (clusterDomain clusterName namespace : string) : string :=
  ServiceFQDN clusterDomain (clusterName +:+ "-indexer") namespace.

(** The byte 0. *)
Definition NUL : string := String Ascii.zero EmptyString.

(** [cachedClient]: the client and the hash of what it was made from. *)
Record cachedClient := { cached_client : ClientConfig; cached_credsHash : string }.

Abbreviation factory := (gmap string cachedClient).

Section Factory.
Context {W : Type} `{!KubeClient W}.
Context (sha256_hex : string -> string) (pem_ok : string -> bool) (clusterDomain : string).

Definition FIO (A : Type) := IO (factory * W) A.

(** The sequence of writes to the hash. *)
Definition creds_material (username password caCert : string) : string :=
  username +:+ NUL +:+ password +:+ NUL +:+ caCert.

Definition computeCredsHash (username password caCert : string) : string :=
  String.substring 0 16 (sha256_hex (creds_material username password caCert)).

(** [NewClient], for a configuration without client certificates. *)
Definition NewClient (config : ClientConfig) : result ClientConfig :=
  if bool_decide (0 < String.length (cc_CACert config))%nat && negb (pem_ok (cc_CACert config))
  then Err "failed to parse CA certificate"
  else Ok config.

Definition getCredentials (cluster : WazuhCluster) : FIO (string * string) :=
  let secretName := IndexerCredentialsName (wc_Name cluster) in
  secret <- io_wrap ("failed to get credentials secret " +:+ secretName)
              (io_world (io_api (get_secret (wc_Namespace cluster) secretName))) ;;
  match secret !! SecretKeyAdminUsername, secret !! SecretKeyAdminPassword with
  | None, _ => io_err (SecretKeyAdminUsername +:+ " not found in secret " +:+ secretName)
  | Some _, None => io_err (SecretKeyAdminPassword +:+ " not found in secret " +:+ secretName)
  | Some username, Some password => io_ret (username, password)
  end.

Definition getCACertificate (cluster : WazuhCluster) : FIO string :=
  let secretName := IndexerCertsName (wc_Name cluster) in
  secret <- io_wrap ("failed to get certs secret " +:+ secretName)
              (io_world (io_api (get_secret (wc_Namespace cluster) secretName))) ;;
  match secret !! SecretKeyCACert with
  | None => io_err ("ca.crt not found in secret " +:+ secretName)
  | Some caCert => io_ret caCert
  end.

Definition buildServiceURL (cluster : WazuhCluster) : string :=
  "https://" +:+ IndexerServiceFQDN clusterDomain (wc_Name cluster) (wc_Namespace cluster)
  +:+ ":" +:+ pretty PortIndexerREST.

Definition cacheKey (cluster : WazuhCluster) : string :=
  wc_Namespace cluster +:+ "/" +:+ wc_Name cluster.

(** The configuration [GetClientForCluster] gives a new client. *)
Definition client_config (cluster : WazuhCluster) (username password caCert : string)
    : ClientConfig :=
  {| cc_BaseURL := buildServiceURL cluster; cc_Username := username; cc_Password := password;
     cc_CACert := caCert; cc_Insecure := false |}.

Definition GetClientForCluster (cluster : WazuhCluster) : FIO ClientConfig :=
  creds <- io_wrap "failed to get credentials" (getCredentials cluster) ;;
  caCert <- io_wrap "failed to get CA certificate" (getCACertificate cluster) ;;
  let '(username, password) := creds in
  let hash := computeCredsHash username password caCert in
  f <- io_get ;;
  let create :=
    match NewClient (client_config cluster username password caCert) with
    | Err e => io_err e
    | Ok newClient =>
        io_modify (prod_map (fun cache =>
          <[cacheKey cluster := {| cached_client := newClient; cached_credsHash := hash |}]> cache)
          id) ;;;
        io_ret newClient
    end in
  match f.1 !! cacheKey cluster with
  | Some cached => if bool_decide (cached_credsHash cached = hash) then io_ret (cached_client cached)
                   else create
  | None => create
  end.
End Factory.

(** ** Lemmas *)
Section Lemmas.
Context {W : Type} `{!KubeClient W}.
Context (sha256_hex : string -> string) (pem_ok : string -> bool) (clusterDomain : string).

Definition material_of (c : ClientConfig) : string :=
  creds_material (cc_Username c) (cc_Password c) (cc_CACert c).

Definition hash_of (c : ClientConfig) : string :=
  computeCredsHash sha256_hex (cc_Username c) (cc_Password c) (cc_CACert c).

(** A namespace is a DNS label: it has no slash. *)
Definition valid_namespace (cluster : WazuhCluster) : Prop :=
  free_of "/"%char (wc_Namespace cluster) = true.

(** The part of a configuration that comes from the cluster's name. *)
Definition client_of (cluster : WazuhCluster) (c : ClientConfig) : Prop :=
  cc_BaseURL c = buildServiceURL clusterDomain cluster /\ cc_Insecure c = false.

(** The cache holds what the factory writes. *)
Definition coherent (f : factory) : Prop :=
  forall k e, f !! k = Some e ->
    cached_credsHash e = hash_of (cached_client e) /\
    exists cluster, valid_namespace cluster /\ k = cacheKey cluster /\
      client_of cluster (cached_client e).

(** No NUL byte in the user name and the password. *)
Definition nul_free (c : ClientConfig) : Prop :=
  free_of Ascii.zero (cc_Username c) = true /\ free_of Ascii.zero (cc_Password c) = true.

Lemma cacheKey_inj c1 c2 :
  valid_namespace c1 -> valid_namespace c2 -> cacheKey c1 = cacheKey c2 ->
  buildServiceURL clusterDomain c1 = buildServiceURL clusterDomain c2.
Proof.
  intros H1 H2 E. unfold buildServiceURL.
  by destruct (append_sep_inj _ _ _ _ _ H1 H2 E) as [-> ->].
Qed.

Lemma material_inj c1 c2 :
  nul_free c1 -> nul_free c2 -> material_of c1 = material_of c2 ->
  cc_Username c1 = cc_Username c2 /\ cc_Password c1 = cc_Password c2 /\
  cc_CACert c1 = cc_CACert c2.
Proof.
  intros [U1 P1] [U2 P2] E.
  apply (append_sep_inj _ _ _ _ _ U1 U2) in E as [? E].
  by apply (append_sep_inj _ _ _ _ _ P1 P2) in E as [? ?].
Qed.

(** What a successful call has read from the two secrets. *)
Definition read_secrets (cluster : WazuhCluster) (w : W) (u p ca : string) (w' : W) : Prop :=
  exists s1 w1 s2,
    get_secret (wc_Namespace cluster) (IndexerCredentialsName (wc_Name cluster)) w = (Found s1, w1) /\
    s1 !! SecretKeyAdminUsername = Some u /\ s1 !! SecretKeyAdminPassword = Some p /\
    get_secret (wc_Namespace cluster) (IndexerCertsName (wc_Name cluster)) w1 = (Found s2, w') /\
    s2 !! SecretKeyCACert = Some ca.

Lemma getCredentials_ok cluster f w u p s' :
  getCredentials cluster (f, w) = (Ok (u, p), s') ->
  exists s1 w1, s' = (f, w1) /\
    get_secret (wc_Namespace cluster) (IndexerCredentialsName (wc_Name cluster)) w = (Found s1, w1) /\
    s1 !! SecretKeyAdminUsername = Some u /\ s1 !! SecretKeyAdminPassword = Some p.
Proof.
  unfold getCredentials. rewrite io_bind_ok. intros (s1 & s2 & H & Hk).
  apply read_ok in H as (w1 & -> & H). apply io_api_ok in H.
  destruct (s1 !! SecretKeyAdminUsername) eqn:E1; [|done].
  destruct (s1 !! SecretKeyAdminPassword) eqn:E2; [|done].
  unfold io_ret in Hk. simplify_eq. eauto 10.
Qed.

Lemma getCACertificate_ok cluster f w ca s' :
  getCACertificate cluster (f, w) = (Ok ca, s') ->
  exists s1 w1, s' = (f, w1) /\
    get_secret (wc_Namespace cluster) (IndexerCertsName (wc_Name cluster)) w = (Found s1, w1) /\
    s1 !! SecretKeyCACert = Some ca.
Proof.
  unfold getCACertificate. rewrite io_bind_ok. intros (s1 & s2 & H & Hk).
  apply read_ok in H as (w1 & -> & H). apply io_api_ok in H.
  destruct (s1 !! SecretKeyCACert) eqn:E1; [|done].
  unfold io_ret in Hk. simplify_eq. eauto 10.
Qed.

Lemma NewClient_ok c c' : NewClient pem_ok c = Ok c' -> c' = c.
Proof. unfold NewClient. destruct (_ && _); intros; by simplify_eq. Qed.

(** One successful call, without the error paths. *)
Lemma GetClientForCluster_ok cluster f w c f' w' :
  GetClientForCluster sha256_hex pem_ok clusterDomain cluster (f, w) = (Ok c, (f', w')) ->
  exists u p ca,
    read_secrets cluster w u p ca w' /\
    let hash := computeCredsHash sha256_hex u p ca in
    (f' = f /\ f !! cacheKey cluster = Some {| cached_client := c; cached_credsHash := hash |} \/
     c = client_config clusterDomain cluster u p ca /\
     f' = <[cacheKey cluster := {| cached_client := c; cached_credsHash := hash |}]> f).
Proof.
  unfold GetClientForCluster. rewrite io_bind_ok. intros ([u p] & s1 & H1 & H).
  apply io_wrap_ok, getCredentials_ok in H1 as (k1 & w1 & -> & Hk1 & Hu & Hp).
  apply io_bind_ok in H as (ca & s2 & H2 & H).
  apply io_wrap_ok, getCACertificate_ok in H2 as (k2 & w2 & -> & Hk2 & Hca).
  unfold io_bind at 1, io_get in H. cbn [fst] in H.
  set (create := match NewClient _ _ with Ok _ => _ | Err _ => _ end) in H.
  assert (Hc : create (f, w2) = (Ok c, (f', w')) ->
    w' = w2 /\ c = client_config clusterDomain cluster u p ca /\
    f' = <[cacheKey cluster := {| cached_client := c;
             cached_credsHash := computeCredsHash sha256_hex u p ca |}]> f).
  { unfold create. destruct (NewClient _ _) as [c1|] eqn:En; [|done].
    apply NewClient_ok in En as ->. unfold io_bind, io_modify, io_ret. cbn. by intros; simplify_eq. }
  clearbody create. unfold read_secrets.
  destruct (f !! cacheKey cluster) as [[c1 h1]|] eqn:E; [case_bool_decide as Eh|].
  - unfold io_ret in H. cbn in *. simplify_eq. eauto 20.
  - destruct (Hc H) as (-> & -> & ->). eauto 20.
  - destruct (Hc H) as (-> & -> & ->). eauto 20.
Qed.

Lemma coherent_insert f cluster u p ca :
  coherent f -> valid_namespace cluster ->
  coherent (<[cacheKey cluster :=
    {| cached_client := client_config clusterDomain cluster u p ca;
       cached_credsHash := computeCredsHash sha256_hex u p ca |}]> f).
Proof.
  intros Hf Hv k e. rewrite lookup_insert_Some. intros [[<- <-]|[_ H]]; [|by apply Hf].
  split; [done|]. exists cluster. by split_and!.
Qed.

(** A client obtained from a coherent cache has the cluster's address. *)
Lemma GetClientForCluster_client cluster f w c f' w' :
  coherent f -> valid_namespace cluster ->
  GetClientForCluster sha256_hex pem_ok clusterDomain cluster (f, w) = (Ok c, (f', w')) ->
  coherent f' /\ client_of cluster c.
Proof.
  intros Hf Hv (u & p & ca & _ & [[-> E]|[-> ->]])%GetClientForCluster_ok.
  - split; [done|]. destruct (Hf _ _ E) as (_ & cluster' & Hv' & Hk & [Hu Hi]). split; [|done].
    cbn in Hu. by rewrite Hu, (cacheKey_inj cluster cluster').
  - split; [by apply coherent_insert|done].
Qed.
End Lemmas.

(** ** Properties *)
Section Properties.
Context {W : Type} `{!KubeClient W}.
Context (sha256_hex : string -> string) (pem_ok : string -> bool) (clusterDomain : string).

(** the factory hands out the right client.  After any number of calls for
    any clusters (the cache is coherent), a client obtained for a cluster has
    that cluster's address, verifies TLS, and carries the credentials and the
    CA that the two secrets hold now, unless two different credentials have
    the same truncated hash; the other clusters' cached clients are untouched
    and the cache stays coherent. *)
Theorem client_is_current cluster f w c f' w' :
  coherent sha256_hex clusterDomain f -> valid_namespace cluster ->
  GetClientForCluster sha256_hex pem_ok clusterDomain cluster (f, w) = (Ok c, (f', w')) ->
  coherent sha256_hex clusterDomain f' /\
  (forall k, k <> cacheKey cluster -> f' !! k = f !! k) /\
  client_of clusterDomain cluster c /\
  exists u p ca, read_secrets cluster w u p ca w' /\
    let current := client_config clusterDomain cluster u p ca in
    hash_of sha256_hex c = hash_of sha256_hex current /\
    (nul_free c -> nul_free current -> c <> current -> material_of c <> material_of current).
Proof.
  intros Hf Hv H. destruct (GetClientForCluster_client _ _ _ _ _ _ _ _ _ Hf Hv H) as [Hf' Hc].
  apply GetClientForCluster_ok in H as (u & p & ca & Hr & [[-> E]|[-> ->]]).
  - split_and!; try done. exists u, p, ca. split; [done|].
    destruct (Hf _ _ E) as (Hh & _). cbn in Hh. split; [exact (eq_sym Hh)|].
    intros Hn1 Hn2 Hne Hm. apply Hne. destruct Hc as [Hu Hi].
    destruct (material_inj _ _ Hn1 Hn2 Hm) as (E1 & E2 & E3).
    destruct c as [b' u' p' ca' i']; cbn in *; subst. done.
  - split; [done|]. split; [intros; by rewrite lookup_insert_ne|].
    split; [done|]. exists u, p, ca. by split_and!.
Qed.
End Properties.
