(* ===== verification/Rollback.v ===== *)
(** * Rollback ([internal/wazuh/drain/rollback.go])

    Putting a StatefulSet back to the number of replicas it had before the
    drain, and checking that it got there. *)
From S2P Require Import Prelude GoStrings GoFloat Kube DrainState IndexerDrain Cluster.
Local Open Scope go_scope.
Local Open Scope list_scope.

Section Rollback.
Context {W : Type} `{!KubeClient W}.

(** The previous replicas recorded in the drain status, or the fallback. *)
Definition previous_replicas (fallback : Z) (status : option ComponentDrainStatus) : Z :=
  default fallback (s ← status; cds_PreviousReplicas s).

Definition rollbackIndexer (cluster : WazuhCluster) : IO W unit :=
  let previousReplicas := previous_replicas 3 (indexer_drain cluster) in
  sts <- io_wrap "failed to get indexer StatefulSet"
           (io_api (get_statefulset (wc_Namespace cluster) (wc_Name cluster +:+ "-indexer"))) ;;
  if bool_decide (sts_SpecReplicas sts = Some previousReplicas) then io_ret tt
  else io_wrap "failed to update indexer StatefulSet replicas"
         (io_api (update_statefulset (set_spec_replicas previousReplicas sts))).

Definition rollbackManager (cluster : WazuhCluster) : IO W unit :=
  let previousReplicas := previous_replicas 1 (manager_drain cluster) in
  sts <- io_wrap "failed to get manager worker StatefulSet"
           (io_api (get_statefulset (wc_Namespace cluster) (wc_Name cluster +:+ "-manager-worker"))) ;;
  if bool_decide (sts_SpecReplicas sts = Some previousReplicas) then io_ret tt
  else io_wrap "failed to update manager worker StatefulSet replicas"
         (io_api (update_statefulset (set_spec_replicas previousReplicas sts))).

Definition ExecuteRollback (cluster : WazuhCluster) (component : string) : IO W unit :=
  if bool_decide (component = DrainComponentIndexer) then rollbackIndexer cluster
  else if bool_decide (component = DrainComponentManager) then rollbackManager cluster
  else io_err ("unknown component: " +:+ component).

Definition verifyIndexerRollback (cluster : WazuhCluster) : IO W bool :=
  let previousReplicas := previous_replicas 3 (indexer_drain cluster) in
  sts <- io_wrap "failed to get indexer StatefulSet"
           (io_api (get_statefulset (wc_Namespace cluster) (wc_Name cluster +:+ "-indexer"))) ;;
  io_ret (bool_decide (sts_ReadyReplicas sts = previousReplicas) &&
          bool_decide (sts_Replicas sts = previousReplicas)).

Definition verifyManagerRollback (cluster : WazuhCluster) : IO W bool :=
  let previousReplicas := previous_replicas 1 (manager_drain cluster) in
  sts <- io_wrap "failed to get manager worker StatefulSet"
           (io_api (get_statefulset (wc_Namespace cluster) (wc_Name cluster +:+ "-manager-worker"))) ;;
  io_ret (bool_decide (sts_ReadyReplicas sts = previousReplicas) &&
          bool_decide (sts_Replicas sts = previousReplicas)).

Definition VerifyRollbackComplete (cluster : WazuhCluster) (component : string) : IO W bool :=
  if bool_decide (component = DrainComponentIndexer) then verifyIndexerRollback cluster
  else if bool_decide (component = DrainComponentManager) then verifyManagerRollback cluster
  else io_err ("unknown component: " +:+ component).
End Rollback.

(** What the API server does with an accepted update: the next read of the
    StatefulSet has the new replicas, and a read changes nothing. *)
Class StatefulSetStore (W : Type) `{!KubeClient W} := {
  read_only ns n w r w' : get_statefulset ns n w = (r, w') -> w' = w;
  read_written s w w' ns n s0 :
    get_statefulset ns n w = (Found s0, w) -> sts_Namespace s = sts_Namespace s0 ->
    sts_Name s = sts_Name s0 -> update_statefulset s w = (Found tt, w') ->
    get_statefulset ns n w' = (Found s, w')
}.

(** ** Lemmas *)

(** The component's StatefulSet and the replicas to restore. *)
Definition rollback_goal (cluster : WazuhCluster) (component : string) : option (string * Z) :=
  if bool_decide (component = DrainComponentIndexer)
  then Some (wc_Name cluster +:+ "-indexer", previous_replicas 3 (indexer_drain cluster))
  else if bool_decide (component = DrainComponentManager)
  then Some (wc_Name cluster +:+ "-manager-worker", previous_replicas 1 (manager_drain cluster))
  else None.

Section Lemmas.
Context {W : Type} `{!KubeClient W}.

Lemma ExecuteRollback_ok cluster component w w' :
  ExecuteRollback cluster component w = (Ok tt, w') ->
  exists name previous sts w1, rollback_goal cluster component = Some (name, previous) /\
    get_statefulset (wc_Namespace cluster) name w = (Found sts, w1) /\
    ((sts_SpecReplicas sts = Some previous /\ w' = w1) \/
     (sts_SpecReplicas sts <> Some previous /\
      update_statefulset (set_spec_replicas previous sts) w1 = (Found tt, w'))).
Proof.
  unfold ExecuteRollback, rollback_goal, rollbackIndexer, rollbackManager.
  repeat case_bool_decide; [| |done]; intros (sts & w1 & Hg & Hk)%io_bind_ok;
    apply io_wrap_ok, io_api_ok in Hg; (eexists _, _, sts, w1; split; [done|]; split; [done|]);
    case_bool_decide; unfold io_ret in Hk; simplify_eq; auto; right; (split; [done|]);
    by apply io_wrap_ok, io_api_ok in Hk.
Qed.

Lemma VerifyRollbackComplete_ok cluster component w b w' :
  VerifyRollbackComplete cluster component w = (Ok b, w') ->
  exists name previous sts, rollback_goal cluster component = Some (name, previous) /\
    get_statefulset (wc_Namespace cluster) name w = (Found sts, w') /\
    (b = true <-> sts_ReadyReplicas sts = previous /\ sts_Replicas sts = previous).
Proof.
  unfold VerifyRollbackComplete, rollback_goal, verifyIndexerRollback, verifyManagerRollback.
  repeat case_bool_decide; [| |done]; intros (sts & w1 & Hg & Hk)%io_bind_ok;
    apply io_wrap_ok, io_api_ok in Hg; unfold io_ret in Hk; simplify_eq;
    (eexists _, _, sts; split; [done|]; split; [done|]);
    by rewrite andb_true_iff, !bool_decide_eq_true.
Qed.
End Lemmas.

(** ** Properties *)

(** a rollback restores the replicas recorded when the drain started (3 for
    the indexer and 1 for the workers when nothing is recorded), changes
    nothing else of the StatefulSet, and a second rollback only reads; it is
    reported complete exactly when that many pods exist and are ready. *)
Theorem rollback_restores {W} `{!KubeClient W, !StatefulSetStore W} cluster component (w w' : W) :
  ExecuteRollback cluster component w = (Ok tt, w') ->
  exists name previous sts, rollback_goal cluster component = Some (name, previous) /\
    get_statefulset (wc_Namespace cluster) name w = (Found sts, w) /\
    (exists sts', get_statefulset (wc_Namespace cluster) name w' = (Found sts', w') /\
       sts' = set_spec_replicas previous sts) /\
    ExecuteRollback cluster component w' = (Ok tt, w') /\
    (forall b w2, VerifyRollbackComplete cluster component w' = (Ok b, w2) ->
       b = true <-> sts_ReadyReplicas sts = previous /\ sts_Replicas sts = previous).
Proof.
  intros (name & previous & sts & w1 & Hgoal & Hget & Hor)%ExecuteRollback_ok.
  pose proof (read_only _ _ _ _ _ Hget) as ->. exists name, previous, sts.
  split; [done|]. split; [done|].
  assert (Hw : get_statefulset (wc_Namespace cluster) name w' = (Found (set_spec_replicas previous sts), w')).
  { destruct Hor as [[Hs ->]|[_ Hu]].
    - rewrite Hget. destruct sts; cbn in Hs; by subst.
    - by eapply read_written. }
  split; [by eauto|]. split.
  - revert Hw Hgoal. clear. intros Hw. unfold rollback_goal, ExecuteRollback, rollbackIndexer, rollbackManager.
    repeat case_bool_decide; intros; simplify_eq; unfold io_bind, io_wrap, io_api; rewrite Hw; cbn;
      by rewrite bool_decide_true.
  - intros b w2 (n & p & s & Hg & Hget' & Hb)%VerifyRollbackComplete_ok. simplify_eq.
    rewrite Hw in Hget'. by simplify_eq.
Qed.

#[export] Program Instance SimKube_store : StatefulSetStore SimKube.kube.
Next Obligation. intros ns n w r w'. cbn. unfold SimKube.read. by intros; simplify_eq. Qed.
Next Obligation.
  intros s w w' ns n s0 Hg Hns Hn Hu. cbn in *. unfold SimKube.read in *.
  injection Hg as Hg. injection Hu as <-. cbn.
  assert (List.find (SimKube.named ns n) (SimKube.k_statefulsets w) = Some s0) as Hf
    by (destruct (List.find _ _); by simplify_eq).
  clear Hg. f_equal. rewrite Hns, Hn. revert Hf. induction (SimKube.k_statefulsets w) as [|x l IH]; cbn; [done|].
  destruct (SimKube.named ns n x) eqn:E.
  - intros [= ->]. 
    assert (SimKube.named (sts_Namespace s0) (sts_Name s0) s0 = true) as ->.
    { unfold SimKube.named. by rewrite !bool_decide_true. }
    assert (SimKube.named ns n s = true) as ->; [|done].
    unfold SimKube.named in *. rewrite Hns, Hn. done.
  - intros Hf. destruct (SimKube.named (sts_Namespace s0) (sts_Name s0) x) eqn:E2; rewrite ?E; [|by apply IH].
    exfalso. apply find_some in Hf as [_ Hf]. unfold SimKube.named in *.
    apply andb_prop in Hf as [H1%bool_decide_eq_true H2%bool_decide_eq_true].
    rewrite H1, H2 in E2. congruence.
Qed.

Example rollback_restores_witness :
  let w := {| SimKube.k_statefulsets := [SimKube.steady "ns" "a-indexer" 2];
              SimKube.k_pods := []; SimKube.k_secrets := [] |} in
  let cluster :=
    {| wc_Name := "a"; wc_Namespace := "ns"; wc_SpecDrain := None; wc_SpecIndexer := None;
       wc_SpecManager := None; wc_SpecDashboard := None; wc_StatusDrain := None; wc_StatusLastUpdate := None;
     wc_Meta := no_meta; wc_Spec := no_refs; wc_Status := no_status |} in
  exists w', ExecuteRollback cluster "indexer" w = (Ok tt, w') /\
    ExecuteRollback cluster "indexer" w' = (Ok tt, w').
Proof.
  intros w cluster. exists (ExecuteRollback cluster "indexer" w).2.
  assert (H0 : ExecuteRollback cluster "indexer" w = (Ok tt, (ExecuteRollback cluster "indexer" w).2))
    by (vm_compute; reflexivity).
  split; [exact H0|].
  destruct (rollback_restores cluster "indexer" w _ H0) as (n & p & s & _ & _ & _ & H & _).
  exact H.
Defined.
