(* ===== verification/DrainGate.v ===== *)
(** * The scale-down gate
      ([internal/opensearch/reconciler/indexer_reconciler.go],
       [internal/wazuh/reconciler/worker_reconciler.go])

    Before a StatefulSet is scaled down, [CheckScaleDownDrain] moves the drain
    of the pod that will go one step further and says whether to wait.  The
    indexer's and the worker's reconcilers have the same code over different
    drainers: it is written once here, against the interface [DrainTarget],
    which the two drainers implement in [ScaleDown.v]. *)
From S2P Require Import Prelude GoStrings GoFloat Kube OpenSearchAPI WazuhAPI.
From S2P Require Import DrainState DrainDetect IndexerDrain ManagerDrain Cluster.
Local Open Scope go_scope.
Local Open Scope list_scope.

(** What one component contributes: its names and messages, where its
    configuration and status live, and its client and drainer.  [CL] is the
    API client the reconciler caches, [D] the drainer's struct, [P] a progress
    report. *)
Class DrainTarget (W CL D P Cfg : Type) := {
  dt_stsName : string -> string;
  dt_getError : string;
  dt_clientError : string;
  dt_config : DrainConfig -> option Cfg;
  dt_enabled : Cfg -> option bool;
  dt_status : DrainStatus -> option ComponentDrainStatus;
  dt_set_status : option ComponentDrainStatus -> DrainStatus -> DrainStatus;
  (** the cached client, or a new one, which is then cached *)
  dt_ensure_client : WazuhCluster -> IO (option CL * W) CL;
  dt_new : option Cfg -> CL -> D;
  (** does the reset drop the client too *)
  dt_reset_client : bool;
  dt_start : Z -> string -> IO (D * W) unit;
  dt_monitor : Z -> string -> IO (D * W) P;
  dt_verify : Z -> string -> IO (D * W) bool;
  dt_cancel : IO (D * W) unit;
  dt_percent : P -> Z;
  dt_message : P -> string;
  dt_complete : P -> bool;
  (** [UpdateShardCount] or [UpdateQueueDepth] *)
  dt_record : P -> ComponentDrainStatus -> ComponentDrainStatus;
  dt_drainingMessage : string;
  dt_verifyingMessage : string
}.

(** The laws the gate's theorems use: writing the component's status reads
    back, and recording the counter changes only the counters. *)
Class DrainTargetLaws (W CL D P Cfg : Type) `{!DrainTarget W CL D P Cfg} := {
  dt_status_set s ds : dt_status (dt_set_status s ds) = s;
  dt_record_op p s : exists op, dt_record p s = apply_op 0 s op /\
    (exists n, op = OpShards n \/ op = OpQueue n)
}.

Record DrainCheckResult (P : Type) := {
  ck_NeedsDrain : bool;
  ck_DrainInProgress : bool;
  ck_DrainComplete : bool;
  ck_TargetPod : string;
  ck_Progress : option P;
  ck_Error : option error
}.
Arguments ck_NeedsDrain {P}.
Arguments ck_DrainInProgress {P}.
Arguments ck_DrainComplete {P}.
Arguments ck_TargetPod {P}.
Arguments ck_Progress {P}.
Arguments ck_Error {P}.
Arguments Build_DrainCheckResult {P}.

Section Gate.
Context {W CL D P Cfg : Type} `{!KubeClient W} `{!DrainTarget W CL D P Cfg}.

(** The reconciler's cached client and drainer, the cluster object being
    reconciled (its status is updated in place) and the world. *)
Record gate := {
  g_client : option CL;
  g_drainer : option D;
  g_cluster : WazuhCluster;
  g_world : W
}.

Definition with_cluster (c : WazuhCluster) (g : gate) : gate :=
  {| g_client := g_client g; g_drainer := g_drainer g; g_cluster := c; g_world := g_world g |}.

(** The component's drain status inside the cluster object. *)
Definition gate_status (g : gate) : option ComponentDrainStatus :=
  d ← wc_StatusDrain (g_cluster g); dt_status d.

Definition put_status (s : ComponentDrainStatus) (g : gate) : gate :=
  let d := default empty_drain_status (wc_StatusDrain (g_cluster g)) in
  with_cluster (set_drain_status (Some (dt_set_status (Some s) d)) (g_cluster g)) g.

Definition component_config (c : WazuhCluster) : option Cfg := d ← wc_SpecDrain c; dt_config d.

Definition drain_enabled (c : WazuhCluster) : bool :=
  match component_config c with
  | Some cfg => default false (dt_enabled cfg)
  | None => false
  end.

(** A call on the world, on the cached client, on the drainer. *)
Definition on_world {A} (m : IO W A) : IO gate A := fun g =>
  let '(r, w) := m (g_world g) in
  (r, {| g_client := g_client g; g_drainer := g_drainer g; g_cluster := g_cluster g;
         g_world := w |}).

Definition on_client {A} (m : IO (option CL * W) A) : IO gate A := fun g =>
  let '(r, (cl, w)) := m (g_client g, g_world g) in
  (r, {| g_client := cl; g_drainer := g_drainer g; g_cluster := g_cluster g; g_world := w |}).

Definition on_drainer {A} (d : D) (m : IO (D * W) A) : IO gate A := fun g =>
  let '(r, (d', w)) := m (d, g_world g) in
  (r, {| g_client := g_client g; g_drainer := Some d'; g_cluster := g_cluster g;
         g_world := w |}).

Definition getOrInitDrainStatus : IO gate ComponentDrainStatus :=
  g <- io_get ;;
  let s := default InitializeDrainStatus (gate_status g) in
  io_modify (put_status s) ;;;
  io_ret s.

(** [if r.drainer == nil { r.drainer = NewDrainer(...) }] *)
Definition drainer_for (client : CL) (g : gate) : D :=
  match g_drainer g with
  | Some d => d
  | None => dt_new (component_config (g_cluster g)) client
  end.

Definition ensure_drainer (client : CL) : IO gate D :=
  g <- io_get ;;
  let d := drainer_for client g in
  io_modify (fun g => {| g_client := g_client g; g_drainer := Some d; g_cluster := g_cluster g;
                         g_world := g_world g |}) ;;;
  io_ret d.

(** A transition whose refusal is only logged. *)
Definition try_transition (s : ComponentDrainStatus) (r : result ComponentDrainStatus)
    : IO gate ComponentDrainStatus :=
  let s' := keep s r in io_modify (put_status s') ;;; io_ret s'.

Definition startDrain (now : Z) (scaleInfo : ScaleDownInfo) (status : ComponentDrainStatus)
    : IO gate unit :=
  g <- io_get ;;
  client <- io_wrap dt_clientError (on_client (dt_ensure_client (g_cluster g))) ;;
  d <- ensure_drainer client ;;
  let nodeName := sd_TargetPodName scaleInfo in
  match DrainState.StartDrain now status nodeName (sd_CurrentReplicas scaleInfo)
          (sd_TargetReplicas scaleInfo) with
  | Err e => io_err (errorf "failed to transition drain state" e)
  | Ok status =>
      io_modify (put_status status) ;;;
      try started <- on_drainer d (dt_start now nodeName) ;;
      match started with
      | Err err =>
          try_transition status (MarkFailed now (Some status) ("Failed to start drain: " +:+ err)) ;;;
          io_err err
      | Ok _ =>
          try_transition status
            (TransitionTo now (Some status) DrainPhaseDraining dt_drainingMessage) ;;;
          io_ret tt
      end
  end.

Definition monitorDrainProgress (now : Z) (nodeName : string) (status : ComponentDrainStatus)
    : IO gate P :=
  g <- io_get ;;
  match g_drainer g with
  | None => io_err "drainer not initialized"
  | Some d =>
      progress <- on_drainer d (dt_monitor now nodeName) ;;
      let status := UpdateProgress status (dt_percent progress) (dt_message progress) in
      let status := dt_record progress status in
      try_transition status
        (if dt_complete progress
         then TransitionTo now (Some status) DrainPhaseVerifying dt_verifyingMessage
         else Ok status) ;;;
      io_ret progress
  end.

Definition verifyDrainComplete (now : Z) (nodeName : string) (status : ComponentDrainStatus)
    : IO gate bool :=
  g <- io_get ;;
  match g_drainer g with
  | None => io_err "drainer not initialized"
  | Some d =>
      complete <- on_drainer d (dt_verify now nodeName) ;;
      if complete : bool then
        try_transition status (MarkComplete now (Some status)) ;;;
        g <- io_get ;;
        try cancelled <- on_drainer (default d (g_drainer g)) dt_cancel ;;
        io_ret true
      else io_ret false
  end.

Definition CheckScaleDownDrain (now : Z) (desiredReplicas : Z) : IO gate (DrainCheckResult P) :=
  g <- io_get ;;
  let cluster := g_cluster g in
  let result needs in_progress complete target progress err :=
    Build_DrainCheckResult needs in_progress complete target progress err in
  let none := result false false false "" None None in
  got <- on_world (io_outcome (get_statefulset (wc_Namespace cluster)
                                 (dt_stsName (wc_Name cluster)))) ;;
  match got with
  | Failed e => if IsNotFound e then io_ret none else io_err (errorf dt_getError (api_message e))
  | Found sts =>
      let scaleInfo := DetectStatefulSetScaleDown (Some sts) desiredReplicas in
      let target := sd_TargetPodName scaleInfo in
      if negb (sd_Detected scaleInfo) then io_ret none
      else if negb (drain_enabled cluster)
      then io_ret (result false false false target None None)
      else
        drainStatus <- getOrInitDrainStatus ;;
        match cds_Phase drainStatus with
        | DrainPhaseIdle | PhaseUnset =>
            startDrain now scaleInfo drainStatus ;;;
            io_ret (result true true false target None None)
        | DrainPhasePending | DrainPhaseDraining =>
            try progress <- monitorDrainProgress now target drainStatus ;;
            io_ret (match progress with
                    | Err err => result true true false target None (Some err)
                    | Ok progress => result true true false target (Some progress) None
                    end)
        | DrainPhaseVerifying =>
            try complete <- verifyDrainComplete now target drainStatus ;;
            io_ret (match complete with
                    | Err err => result true false false target None (Some err)
                    | Ok true => result true false true target None None
                    | Ok false => result true true false target None None
                    end)
        | DrainPhaseComplete => io_ret (result true false true target None None)
        | DrainPhaseFailed =>
            io_ret (result true false false target None
                      (Some ("drain failed: " +:+ cds_Message drainStatus)))
        | DrainPhaseRollingBack => io_ret (result true false false target None None)
        end
  end.

(** [ResetDrainState]: the status back to idle, the caches emptied. *)
Definition ResetDrainState (now : Z) (g : gate) : gate :=
  let g' := match gate_status g with
            | Some s => put_status (default s (Reset now (Some s))) g
            | None => g
            end in
  {| g_client := if dt_reset_client then None else g_client g'; g_drainer := None;
     g_cluster := g_cluster g'; g_world := g_world g' |}.

(** *** The controller's use of it ([wazuhcluster_controller.go], steps 3 and 5) *)

Inductive gate_decision : Type :=
| Wait                    (** return early and requeue *)
| Proceed (reset : bool). (** apply the new replica count; reset the drain at the end *)

Definition gate_step (now : Z) (desiredReplicas : Z) (g : gate) : gate_decision * gate :=
  match CheckScaleDownDrain now desiredReplicas g with
  | (Err _, g') => (Proceed false, g')
  | (Ok drainResult, g') =>
      if ck_DrainInProgress drainResult then (Wait, g')
      else (Proceed (ck_DrainComplete drainResult), g')
  end.
End Gate.
Arguments gate W CL D : clear implicits.

(** ** What the gate does in each phase *)
Section GateLemmas.
Context {W CL D P Cfg : Type} `{!KubeClient W} `{!DrainTarget W CL D P Cfg}
  `{!DrainTargetLaws W CL D P Cfg}.
Implicit Types g : gate W CL D.

(** There is a StatefulSet with more replicas than desired, and its component's
    drain is enabled. *)
Definition drain_wanted (n : Z) (g : gate W CL D) (sts : StatefulSet) (w1 : W) : Prop :=
  get_statefulset (wc_Namespace (g_cluster g)) (dt_stsName (wc_Name (g_cluster g))) (g_world g)
    = (Found sts, w1) /\
  sd_Detected (DetectStatefulSetScaleDown (Some sts) n) = true /\
  drain_enabled (g_cluster g) = true.

Definition target_of (n : Z) (sts : StatefulSet) : string :=
  sd_TargetPodName (DetectStatefulSetScaleDown (Some sts) n).

Definition set_world (w : W) (g : gate W CL D) : gate W CL D :=
  {| g_client := g_client g; g_drainer := g_drainer g; g_cluster := g_cluster g; g_world := w |}.

Definition current_status (g : gate W CL D) : ComponentDrainStatus :=
  default InitializeDrainStatus (gate_status g).

(** The gate after the lookup and [getOrInitDrainStatus]. *)
Definition entered (w1 : W) (g : gate W CL D) : gate W CL D :=
  put_status (current_status g) (set_world w1 g).

Lemma gate_status_put s g : gate_status (put_status s g) = Some s.
Proof. unfold gate_status, put_status. cbn. apply dt_status_set. Qed.

Lemma try_transition_eq s r g :
  try_transition s r g = (Ok (keep s r), put_status (keep s r) g).
Proof. done. Qed.

Lemma check_wanted now n g sts w1 :
  drain_wanted n g sts w1 ->
  CheckScaleDownDrain now n g =
  (let target := target_of n sts in
   match cds_Phase (current_status g) with
   | DrainPhaseIdle | PhaseUnset =>
       startDrain now (DetectStatefulSetScaleDown (Some sts) n) (current_status g) ;;;
       io_ret (Build_DrainCheckResult true true false target None None)
   | DrainPhasePending | DrainPhaseDraining =>
       try progress <- monitorDrainProgress now target (current_status g) ;;
       io_ret (match progress with
               | Err err => Build_DrainCheckResult true true false target None (Some err)
               | Ok progress => Build_DrainCheckResult true true false target (Some progress) None
               end)
   | DrainPhaseVerifying =>
       try complete <- verifyDrainComplete now target (current_status g) ;;
       io_ret (match complete with
               | Err err => Build_DrainCheckResult true false false target None (Some err)
               | Ok true => Build_DrainCheckResult true false true target None None
               | Ok false => Build_DrainCheckResult true true false target None None
               end)
   | DrainPhaseComplete => io_ret (Build_DrainCheckResult true false true target None None)
   | DrainPhaseFailed =>
       io_ret (Build_DrainCheckResult true false false target None
                 (Some ("drain failed: " +:+ cds_Message (current_status g))))
   | DrainPhaseRollingBack => io_ret (Build_DrainCheckResult true false false target None None)
   end) (entered w1 g).
Proof.
  intros (Hget & Hdet & Hen). unfold CheckScaleDownDrain.
  unfold io_bind at 1, io_get at 1. unfold io_bind at 1, on_world at 1, io_outcome at 1.
  rewrite Hget. rewrite Hdet, Hen. cbn [negb].
  unfold getOrInitDrainStatus. unfold io_bind at 1 2 3, io_get at 1, io_modify at 1, io_ret at 1.
  done.
Qed.

(** What a run touches of the cluster object: through [put_status] only.  A
    relation that [put_status] respects is respected by the whole run. *)
Section Touches.
Context (R : WazuhCluster -> WazuhCluster -> Prop) `{!PreOrder R}.
Context (HR : forall s g, R (g_cluster g) (g_cluster (put_status s g))).

Definition touches (g g' : gate W CL D) : Prop := R (g_cluster g) (g_cluster g').

#[local] Instance touches_preorder : PreOrder touches.
Proof. split; [intros g; unfold touches; reflexivity|intros x y z H1 H2; unfold touches in *; by etrans]. Qed.

Lemma touches_put s : keeps touches (io_modify (put_status s)).
Proof. intros g. apply HR. Qed.
Lemma touches_try s r : keeps touches (try_transition s r).
Proof. intros g. apply HR. Qed.
Lemma touches_world {A} (m : IO W A) : keeps touches (on_world (CL := CL) (D := D) m).
Proof. intros g. unfold on_world, touches. destruct (m _). reflexivity. Qed.
Lemma touches_client {A} (m : IO (option CL * W) A) : keeps touches (on_client (D := D) m).
Proof. intros g. unfold on_client, touches. destruct (m _) as [r [cl w]]. reflexivity. Qed.
Lemma touches_drainer {A} d (m : IO (D * W) A) : keeps touches (on_drainer (CL := CL) d m).
Proof. intros g. unfold on_drainer, touches. destruct (m _) as [r [d' w]]. reflexivity. Qed.
Lemma touches_ensure client : keeps touches (ensure_drainer client).
Proof. intros g. unfold ensure_drainer, io_bind, io_get, io_modify, io_ret, touches. reflexivity. Qed.
#[local] Hint Resolve touches_put touches_try touches_world touches_client touches_drainer
  touches_ensure : keeps.

Lemma touches_start now info s : keeps touches (startDrain now info s).
Proof.
  unfold startDrain. keeps_auto.
Qed.

Lemma touches_monitor now n s : keeps touches (monitorDrainProgress now n s).
Proof. unfold monitorDrainProgress. keeps_auto. Qed.

Lemma touches_verify now n s : keeps touches (verifyDrainComplete now n s).
Proof. unfold verifyDrainComplete. keeps_auto. Qed.
#[local] Hint Resolve touches_start touches_monitor touches_verify : keeps.

Lemma touches_check now n : keeps touches (CheckScaleDownDrain now n).
Proof. unfold CheckScaleDownDrain, getOrInitDrainStatus. keeps_auto. Qed.

Lemma touches_gate now n g : R (g_cluster g) (g_cluster (gate_step now n g).2).
Proof.
  pose proof (touches_check now n g) as H. unfold gate_step.
  destruct (CheckScaleDownDrain now n g) as [[r|e] g']; [by destruct (ck_DrainInProgress r)|done].
Qed.

Lemma touches_reset now g : R (g_cluster g) (g_cluster (ResetDrainState now g)).
Proof.
  unfold ResetDrainState. cbn [g_cluster]. destruct (gate_status g); [apply HR|reflexivity].
Qed.
End Touches.

(** The status a monitoring run leaves. *)
Definition monitored (now : Z) (p : P) (s : ComponentDrainStatus) : ComponentDrainStatus :=
  let s := dt_record p (UpdateProgress s (dt_percent p) (dt_message p)) in
  if dt_complete p then keep s (TransitionTo now (Some s) DrainPhaseVerifying dt_verifyingMessage)
  else s.

Lemma monitor_eq now target s g :
  monitorDrainProgress now target s g =
  match g_drainer g with
  | None => (Err "drainer not initialized", g)
  | Some d =>
      match dt_monitor now target (d, g_world g) with
      | (Err e, (d', w)) => (Err e, {| g_client := g_client g; g_drainer := Some d';
                                       g_cluster := g_cluster g; g_world := w |})
      | (Ok p, (d', w)) =>
          (Ok p, put_status (monitored now p s)
                   {| g_client := g_client g; g_drainer := Some d';
                      g_cluster := g_cluster g; g_world := w |})
      end
  end.
Proof.
  unfold monitorDrainProgress, io_bind at 1, io_get. destruct (g_drainer g) as [d|]; [|done].
  unfold io_bind at 1, on_drainer. destruct (dt_monitor _ _ _) as [[p|e] [d' w]]; [|done].
  unfold io_bind. rewrite try_transition_eq. unfold monitored. by destruct (dt_complete p).
Qed.

Lemma verify_eq now target s g :
  verifyDrainComplete now target s g =
  match g_drainer g with
  | None => (Err "drainer not initialized", g)
  | Some d =>
      match dt_verify now target (d, g_world g) with
      | (Ok true, (d', w)) =>
          let '(_, (d'', w')) := dt_cancel (d', w) in
          (Ok true, {| g_client := g_client g; g_drainer := Some d'';
                       g_cluster := g_cluster (put_status (keep s (MarkComplete now (Some s))) g);
                       g_world := w' |})
      | (r, (d', w)) => (r, {| g_client := g_client g; g_drainer := Some d';
                               g_cluster := g_cluster g; g_world := w |})
      end
  end.
Proof.
  unfold verifyDrainComplete, io_bind at 1, io_get at 1. destruct (g_drainer g) as [d|]; [|done].
  unfold io_bind at 1, on_drainer at 1.
  destruct (dt_verify _ _ _) as [[[]|e] [d' w]]; [|done..].
  unfold io_bind at 1. rewrite try_transition_eq. unfold io_bind, io_get, io_try, on_drainer. cbn.
  by destruct (dt_cancel (d', w)) as [r [d'' w']].
Qed.

(** *** The status across one run *)

Lemma record_phase p s : cds_Phase (dt_record p s) = cds_Phase s.
Proof. destruct (dt_record_op p s) as (op & -> & n & [-> | ->]); done. Qed.

Lemma record_wf p s : wf s -> IsDrainInProgress (Some s) = true -> wf (dt_record p s).
Proof.
  intros Hwf Hp. destruct (dt_record_op p s) as (op & -> & n & Hop).
  apply wf_apply; [done|]. by destruct Hop as [-> | ->].
Qed.

Lemma monitored_pending now p s :
  cds_Phase s = DrainPhasePending -> cds_Phase (monitored now p s) = DrainPhasePending.
Proof.
  intros Hs. unfold monitored. set (s' := dt_record _ _).
  assert (cds_Phase s' = DrainPhasePending) as Hs' by (unfold s'; by rewrite record_phase).
  destruct (dt_complete p); [|done]. unfold TransitionTo. rewrite Hs'. done.
Qed.

Lemma monitored_wf now p s :
  wf s -> IsDrainInProgress (Some s) = true -> wf (monitored now p s).
Proof.
  intros Hwf Hp. unfold monitored.
  assert (wf (dt_record p (UpdateProgress s (dt_percent p) (dt_message p)))) as Hwf'.
  { apply record_wf; [|done].
    by apply (wf_apply now s (OpProgress (dt_percent p) (dt_message p))). }
  destruct (dt_complete p); [|done].
  by apply (wf_apply now _ (OpTransition DrainPhaseVerifying dt_verifyingMessage)).
Qed.

(** ** The abstract specification of one run

    What the gate promises the controller, as a relation between the status it
    finds, its decision and the status it leaves; [node] is the pod to drain. *)
Inductive gate_effect (now : Z) (n : Z) (sts : StatefulSet) (s : ComponentDrainStatus)
    : gate_decision -> ComponentDrainStatus -> Prop :=
| eff_started s1 :
    quiet (cds_Phase s) = true ->
    DrainState.StartDrain now s (target_of n sts)
      (sd_CurrentReplicas (DetectStatefulSetScaleDown (Some sts) n)) n = Ok s1 ->
    gate_effect now n sts s Wait
      (keep s1 (TransitionTo now (Some s1) DrainPhaseDraining dt_drainingMessage))
| eff_not_started :
    quiet (cds_Phase s) = true -> gate_effect now n sts s (Proceed false) s
| eff_start_failed s1 e :
    quiet (cds_Phase s) = true ->
    DrainState.StartDrain now s (target_of n sts)
      (sd_CurrentReplicas (DetectStatefulSetScaleDown (Some sts) n)) n = Ok s1 ->
    gate_effect now n sts s (Proceed false)
      (keep s1 (MarkFailed now (Some s1) ("Failed to start drain: " +:+ e)))
| eff_unreadable :
    cds_Phase s = DrainPhasePending \/ cds_Phase s = DrainPhaseDraining ->
    gate_effect now n sts s Wait s
| eff_monitored p :
    cds_Phase s = DrainPhasePending \/ cds_Phase s = DrainPhaseDraining ->
    gate_effect now n sts s Wait (monitored now p s)
| eff_verify_failed :
    cds_Phase s = DrainPhaseVerifying -> gate_effect now n sts s (Proceed false) s
| eff_not_verified :
    cds_Phase s = DrainPhaseVerifying -> gate_effect now n sts s Wait s
| eff_verified d w s' :
    cds_Phase s = DrainPhaseVerifying ->
    dt_verify now (target_of n sts) (d, w) = (Ok true, s') ->
    gate_effect now n sts s (Proceed true) (keep s (MarkComplete now (Some s)))
| eff_complete :
    cds_Phase s = DrainPhaseComplete -> gate_effect now n sts s (Proceed true) s
| eff_failed :
    cds_Phase s = DrainPhaseFailed \/ cds_Phase s = DrainPhaseRollingBack ->
    gate_effect now n sts s (Proceed false) s.

Lemma detect_current n sts :
  sd_TargetReplicas (DetectStatefulSetScaleDown (Some sts) n) = n.
Proof. unfold DetectStatefulSetScaleDown. by case_bool_decide. Qed.

(** What [startDrain] does to the status and what it returns. *)
Lemma start_effect now n sts s g :
  gate_status g = Some s -> quiet (cds_Phase s) = true ->
  let '(r, g') := startDrain now (DetectStatefulSetScaleDown (Some sts) n) s g in
  exists s', gate_status g' = Some s' /\
    gate_effect now n sts s (match r with Ok _ => Wait | Err _ => Proceed false end) s'.
Proof.
  intros Hg Hq. unfold startDrain, io_bind at 1, io_get at 1.
  unfold io_bind at 1, io_wrap, on_client.
  destruct (dt_ensure_client _ _) as [[c0|e] [cl w]]; cbn [wrapf].
  2: { exists s. split; [done|]. by apply eff_not_started. }
  unfold ensure_drainer. unfold io_bind at 1 2, io_get at 1. cbn [g_drainer g_cluster g_client].
  set (d := drainer_for _ _). clearbody d.
  unfold io_bind at 1, io_modify at 1, io_ret at 1. rewrite detect_current.
  fold (target_of n sts).
  destruct (DrainState.StartDrain _ _ _ _ _) as [s1|e] eqn:Es.
  2: { exists s. split; [done|]. by apply eff_not_started. }
  unfold io_bind at 1, io_modify at 1. unfold io_try, on_drainer. cbn [g_world put_status with_cluster].
  destruct (dt_start _ _ _) as [[[]|e] [d' w']]; unfold io_bind, io_err, io_ret;
    rewrite try_transition_eq; cbn iota beta; (eexists; split; [apply gate_status_put|]).
  - by apply eff_started.
  - by eapply eff_start_failed.
Qed.

(** Every run takes a step of the specification. *)
Lemma gate_refines now n g sts w1 :
  drain_wanted n g sts w1 ->
  exists dec g' s', gate_step now n g = (dec, g') /\ gate_status g' = Some s' /\
    gate_effect now n sts (current_status g) dec s'.
Proof.
  intros Hw. unfold gate_step. rewrite (check_wanted _ _ _ _ _ Hw). clear Hw.
  assert (Hs : gate_status (entered w1 g) = Some (current_status g)) by apply gate_status_put.
  set (s := current_status g) in *. generalize dependent (entered w1 g). intros g1 Hs.
  destruct (cds_Phase s) eqn:Ep; cbn zeta iota beta.
  1, 2: pose proof (start_effect now n sts s g1 Hs) as H; rewrite Ep in H; specialize (H eq_refl);
    unfold io_bind; destruct (startDrain _ _ s g1) as [[[]|e] g2]; cbn;
    destruct H as (s' & Hs' & He); eauto 10.
  1, 2: unfold io_try at 1; rewrite monitor_eq; destruct (g_drainer g1) as [d|];
    [destruct (dt_monitor _ _ _) as [[p|e] [d' w]]|]; cbn; eexists _, _, _;
    (split; [done|]); (split; [first [apply gate_status_put|exact Hs]|]);
    eauto using eff_monitored, eff_unreadable.
  - unfold io_try at 1. rewrite verify_eq. destruct (g_drainer g1) as [d|].
    + destruct (dt_verify _ _ _) as [[[]|e] [d' w]] eqn:Ev.
      * destruct (dt_cancel _) as [r [d'' w']]. cbn. eexists _, _, _. split; [done|].
        split; [apply gate_status_put|]. by eapply eff_verified.
      * cbn. eexists _, _, _. split; [done|]. split; [exact Hs|]. by apply eff_not_verified.
      * cbn. eexists _, _, _. split; [done|]. split; [exact Hs|]. by apply eff_verify_failed.
    + cbn. eexists _, _, _. split; [done|]. split; [exact Hs|]. by apply eff_verify_failed.
  - cbn. eexists _, _, _. split; [done|]. split; [exact Hs|]. by apply eff_complete.
  - cbn. eexists _, _, _. split; [done|]. split; [exact Hs|]. apply eff_failed. auto.
  - cbn. eexists _, _, _. split; [done|]. split; [exact Hs|]. apply eff_failed. auto.
Qed.

Lemma start_status now s p n m s1 :
  DrainState.StartDrain now s p n m = Ok s1 ->
  cds_Phase s = DrainPhaseIdle /\ cds_Phase s1 = DrainPhasePending /\
  s1 = apply_op now s (OpStart p n m).
Proof.
  intros H. cbn. rewrite H. unfold DrainState.StartDrain in H.
  case_bool_decide as E; [done|]. simplify_eq. done.
Qed.

Lemma effect_wf now n sts s dec s' :
  wf s -> gate_effect now n sts s dec s' -> wf s'.
Proof.
  intros Hwf He. destruct He as [s1 Hq Hs| |s1 e Hq Hs|Hp|p Hp|Hp|Hp|d w s' Hp Hv|Hp|Hp]; try done.
  - apply start_status in Hs as (_ & Hp & ->).
    apply (wf_apply now _ (OpTransition DrainPhaseDraining dt_drainingMessage)); [|done].
    by apply wf_apply.
  - apply start_status in Hs as (_ & Hp & ->).
    apply (wf_apply now _ (OpTransition DrainPhaseFailed _)); [|done]. by apply wf_apply.
  - apply monitored_wf; [done|]. cbn. by destruct Hp as [-> | ->].
  - by apply (wf_apply now _ (OpTransition DrainPhaseComplete _)).
Qed.

Lemma reset_status now g s :
  gate_status g = Some s ->
  gate_status (ResetDrainState now g) =
  Some (with_message "Reset to idle"
          (clear_drain_state (set_phase now DrainPhaseIdle (cds_Message s) s))).
Proof. intros Hs. unfold ResetDrainState. rewrite Hs. apply gate_status_put. Qed.

(** A start that the servers accept. *)
Lemma startDrain_ok now info s g c0 cl w2 d' w3 :
  cds_Phase s = DrainPhaseIdle ->
  dt_ensure_client (g_cluster g) (g_client g, g_world g) = (Ok c0, (cl, w2)) ->
  dt_start now (sd_TargetPodName info) (drainer_for c0 g, w2) = (Ok tt, (d', w3)) ->
  let s1 := keep s (DrainState.StartDrain now s (sd_TargetPodName info) (sd_CurrentReplicas info)
                      (sd_TargetReplicas info)) in
  exists g1, startDrain now info s g =
    (Ok tt, put_status (keep s1 (TransitionTo now (Some s1) DrainPhaseDraining dt_drainingMessage)) g1).
Proof.
  intros Hp He Hs s1. unfold startDrain, io_bind at 1, io_get at 1.
  unfold io_bind at 1, io_wrap, on_client. rewrite He. cbn [wrapf].
  unfold ensure_drainer. unfold io_bind at 1 2, io_get at 1. cbn [g_drainer g_cluster g_client].
  set (d := drainer_for _ _).
  assert (d = drainer_for c0 g) as Ed by done. clearbody d. subst d.
  unfold io_bind at 1, io_modify at 1, io_ret at 1.
  destruct (DrainState.StartDrain _ _ _ _ _) as [s2|e] eqn:Es.
  2: { unfold DrainState.StartDrain in Es. by rewrite Hp in Es. }
  unfold io_bind at 1, io_modify at 1. unfold io_try, on_drainer. cbn [g_world put_status with_cluster].
  rewrite Hs. unfold io_bind at 1. rewrite try_transition_eq. cbn [keep] in s1. subst s1.
  by eexists.
Qed.

(** A drain that is pending cannot be marked as failed. *)
Lemma not_failed now s1 m :
  cds_Phase s1 = DrainPhasePending -> keep s1 (MarkFailed now (Some s1) m) = s1.
Proof. intros Hp. unfold MarkFailed, TransitionTo. by rewrite Hp. Qed.

(** A start that the servers refuse. *)
Lemma startDrain_refused now info s g c0 cl w2 e :
  cds_Phase s = DrainPhaseIdle ->
  dt_ensure_client (g_cluster g) (g_client g, g_world g) = (Ok c0, (cl, w2)) ->
  (dt_start now (sd_TargetPodName info) (drainer_for c0 g, w2)).1 = Err e ->
  exists g1 s1, startDrain now info s g = (Err e, put_status s1 g1) /\
    cds_Phase s1 = DrainPhasePending.
Proof.
  intros Hp He Hs. unfold startDrain, io_bind at 1, io_get at 1.
  unfold io_bind at 1, io_wrap, on_client. rewrite He. cbn [wrapf].
  unfold ensure_drainer. unfold io_bind at 1 2, io_get at 1. cbn [g_drainer g_cluster g_client].
  set (d := drainer_for _ _).
  assert (d = drainer_for c0 g) as Ed by done. clearbody d. subst d.
  unfold io_bind at 1, io_modify at 1, io_ret at 1.
  destruct (DrainState.StartDrain _ _ _ _ _) as [s2|e'] eqn:Es.
  2: { unfold DrainState.StartDrain in Es. by rewrite Hp in Es. }
  unfold io_bind at 1, io_modify at 1. unfold io_try, on_drainer. cbn [g_world put_status with_cluster].
  destruct (dt_start _ _ _) as [r [d' w']]. cbn in Hs. subst r.
  unfold io_bind at 1. rewrite try_transition_eq.
  apply start_status in Es as (_ & Hp2 & _). rewrite not_failed by done. by eexists _, _.
Qed.

(** ** Histories of runs

    Between two runs anything may happen to the world, to the cached client and
    to the drainer (other controllers, other reconciles, a restart of the
    operator, which loses both); the cluster object keeps its drain status,
    which is persisted, and the scale-down is still wanted. *)
Record run := {
  run_now : Z;
  run_gate : gate W CL D;
  run_sts : StatefulSet;
  run_decision : gate_decision
}.

Inductive history (n : Z) : ComponentDrainStatus -> list run -> ComponentDrainStatus -> Prop :=
| history_nil s : history n s [] s
| history_cons s now g sts w1 dec g' s1 rs s2 :
    gate_status g = Some s ->
    drain_wanted n g sts w1 ->
    gate_step now n g = (dec, g') ->
    gate_status g' = Some s1 ->
    history n s1 rs s2 ->
    history n s ({| run_now := now; run_gate := g; run_sts := sts; run_decision := dec |} :: rs) s2.

Lemma history_effect n s r rs s2 :
  history n s (r :: rs) s2 ->
  exists s1, gate_effect (run_now r) n (run_sts r) s (run_decision r) s1 /\ history n s1 rs s2.
Proof.
  inversion 1 as [|? now g sts w1 dec g' s1 ? ? Hg Hw Hstep Hs1 Hrest]; subst. cbn.
  destruct (gate_refines now n g sts w1 Hw) as (dec' & g2 & s' & Hstep' & Hs' & He).
  rewrite Hstep in Hstep'. simplify_eq.
  unfold current_status in He. rewrite Hg in He. eauto.
Qed.

(** One more run in front of a history. *)
Lemma history_step n now g sts w1 rs s2 :
  drain_wanted n g sts w1 -> gate_status g = Some (current_status g) ->
  history n (current_status (gate_step now n g).2) rs s2 ->
  history n (current_status g)
    ({| run_now := now; run_gate := g; run_sts := sts; run_decision := (gate_step now n g).1 |} :: rs)
    s2.
Proof.
  intros Hw Hs Hh. destruct (gate_refines now n g sts w1 Hw) as (dec & g' & s' & E & Hs' & _).
  eapply history_cons; [done..| | |]; rewrite ?E; cbn; [done|done|].
  rewrite E in Hh. cbn in Hh. unfold current_status in Hh. by rewrite Hs' in Hh.
Qed.

(** The drain of the run's target was verified by the servers in this run. *)
Definition verified_in (n : Z) (r : run) : Prop :=
  exists d w s', dt_verify (run_now r) (target_of n (run_sts r)) (d, w) = (Ok true, s').

Lemma monitored_complete now p s :
  cds_Phase s = DrainPhaseDraining -> dt_complete p = true ->
  cds_Phase (monitored now p s) = DrainPhaseVerifying.
Proof.
  intros Hp Hc. unfold monitored. rewrite Hc. set (x := dt_record _ _).
  assert (cds_Phase x = DrainPhaseDraining) as Hx by (unfold x; by rewrite record_phase).
  unfold TransitionTo. by rewrite Hx.
Qed.

(** Where the phase goes when the gate monitors a drain. *)
Lemma monitored_phase now p s :
  cds_Phase s = DrainPhasePending \/ cds_Phase s = DrainPhaseDraining ->
  cds_Phase (monitored now p s) = cds_Phase s \/
  cds_Phase (monitored now p s) = DrainPhaseVerifying.
Proof.
  intros [Hp|Hp]; [left; by rewrite (monitored_pending _ _ _ Hp)|].
  unfold monitored. set (x := dt_record _ _).
  assert (cds_Phase x = DrainPhaseDraining) as Hx by (unfold x; by rewrite record_phase).
  destruct (dt_complete p); [right|left; by rewrite Hx].
  unfold TransitionTo. by rewrite Hx.
Qed.

Lemma started_phase now s1 m :
  cds_Phase s1 = DrainPhasePending ->
  cds_Phase (keep s1 (TransitionTo now (Some s1) DrainPhaseDraining m)) = DrainPhaseDraining.
Proof. intros Hp. unfold TransitionTo. by rewrite Hp. Qed.

Lemma completed_phase now s :
  cds_Phase s = DrainPhaseVerifying ->
  cds_Phase (keep s (MarkComplete now (Some s))) = DrainPhaseComplete.
Proof. intros Hp. unfold MarkComplete, TransitionTo. by rewrite Hp. Qed.

(** Proceeding as drained leaves the status Complete. *)
Lemma proceed_drained_phase now n g g' :
  gate_step now n g = (Proceed true, g') -> cds_Phase <$> gate_status g' = Some DrainPhaseComplete.
Proof.
  intros H. destruct (get_statefulset (wc_Namespace (g_cluster g)) (dt_stsName (wc_Name (g_cluster g)))
    (g_world g)) as [[sts|e] w1] eqn:Eg.
  2: { unfold gate_step, CheckScaleDownDrain, io_bind, io_get, on_world, io_outcome in H. rewrite Eg in H.
       destruct (IsNotFound e); simplify_eq/=. }
  destruct (sd_Detected (DetectStatefulSetScaleDown (Some sts) n)) eqn:Ed.
  2: { unfold gate_step, CheckScaleDownDrain, io_bind, io_get, on_world, io_outcome in H.
       rewrite Eg, Ed in H. simplify_eq/=. }
  destruct (drain_enabled (g_cluster g)) eqn:Ee.
  2: { unfold gate_step, CheckScaleDownDrain, io_bind, io_get, on_world, io_outcome in H.
       rewrite Eg, Ed, Ee in H. simplify_eq/=. }
  unfold gate_step in H. rewrite (check_wanted now n g sts w1) in H by done.
  destruct (cds_Phase (current_status g)) eqn:Ep.
  all: cbn beta zeta iota in H; unfold io_bind, io_try, io_ret in H.
  all: try (destruct (startDrain _ _ _ _) as [[[]|e] g1]; by simplify_eq/=).
  all: try (destruct (monitorDrainProgress _ _ _ _) as [[p|e] g1]; by simplify_eq/=).
  all: try by simplify_eq/=.
  - rewrite verify_eq in H. destruct (g_drainer _); [|by simplify_eq/=].
    destruct (dt_verify _ _ _) as [[[]|e] [d' w]]; [|by simplify_eq/=..].
    destruct (dt_cancel _) as [r [d'' w']]. injection H as <-.
    change (gate_status _) with (gate_status (put_status (keep (current_status g)
      (MarkComplete now (Some (current_status g)))) (entered w1 g))).
    rewrite gate_status_put. cbn. f_equal. by apply completed_phase.
  - injection H as <-. unfold entered. rewrite gate_status_put. cbn. by rewrite Ep.
Qed.

(** Only a verification makes a drain complete, only a complete one lets the
    scale-down through as drained. *)
Lemma effect_complete now n sts s dec s1 :
  gate_effect now n sts s dec s1 -> cds_Phase s <> DrainPhaseComplete ->
  cds_Phase s1 = DrainPhaseComplete \/ dec = Proceed true ->
  dec = Proceed true /\ exists d w s', dt_verify now (target_of n sts) (d, w) = (Ok true, s').
Proof.
  intros He Hs Hor. destruct He as [s1 Hq Hst|Hq|s1 e Hq Hst|Hp|p Hp|Hp|Hp|d w s' Hp Hv|Hp|Hp].
  - apply start_status in Hst as (_ & Hph & _). destruct Hor as [Hor|]; [|done].
    by rewrite started_phase in Hor.
  - destruct Hor; [congruence|done].
  - apply start_status in Hst as (_ & Hph & _). destruct Hor as [Hor|]; [|done].
    rewrite not_failed in Hor by done. congruence.
  - destruct Hor; [congruence|done].
  - destruct Hor as [Hor|]; [|done]. pose proof (monitored_phase now p s Hp) as [H|H]; congruence.
  - destruct Hor; [congruence|done].
  - destruct Hor; [congruence|done].
  - eauto.
  - done.
  - destruct Hor; [congruence|done].
Qed.

Lemma history_verified n s rs s2 :
  history n s rs s2 -> cds_Phase s <> DrainPhaseComplete ->
  Exists (fun r => run_decision r = Proceed true) rs ->
  Exists (fun r => run_decision r = Proceed true /\ verified_in n r) rs.
Proof.
  revert s. induction rs as [|r rs IH]; intros s Hh Hs Hex; [by inversion Hex|].
  apply history_effect in Hh as (s1 & He & Hh).
  destruct (decide (cds_Phase s1 = DrainPhaseComplete)) as [Hc|Hc].
  - left. apply (effect_complete _ _ _ _ _ _ He Hs). by left.
  - apply Exists_cons in Hex as [Hd|Hex]; [left|right; by eapply IH].
    apply (effect_complete _ _ _ _ _ _ He Hs). by right.
Qed.

Lemma history_pending n s rs s2 :
  history n s rs s2 -> cds_Phase s = DrainPhasePending ->
  Forall (fun r => run_decision r = Wait) rs /\ cds_Phase s2 = DrainPhasePending.
Proof.
  revert s. induction rs as [|r rs IH]; intros s Hh Hs; [by inversion Hh; subst|].
  apply history_effect in Hh as (s1 & He & Hh). remember (run_decision r) as dec eqn:Hdec.
  destruct He as [s1 Hq Hst|Hq|s1 e Hq Hst|Hp|p Hp|Hp|Hp|d w s' Hp Hv|Hp|Hp];
    try (rewrite Hs in Hq; done); try (rewrite Hs in Hp; done).
  - destruct (IH _ Hh Hs). auto.
  - destruct (IH _ Hh (monitored_pending _ _ _ Hs)). auto.
  - destruct Hp as [Hp|Hp]; by rewrite Hs in Hp.
Qed.

Lemma history_wf n s rs s2 : history n s rs s2 -> wf s -> wf s2.
Proof.
  revert s. induction rs as [|r rs IH]; intros s Hh Hs; [by inversion Hh; subst|].
  apply history_effect in Hh as (s1 & He & Hh). by eapply IH; [|eapply effect_wf].
Qed.
End GateLemmas.

(** ** Properties *)
Section GateProperties.
Context {W CL D P Cfg : Type} `{!KubeClient W} `{!DrainTarget W CL D P Cfg}
  `{!DrainTargetLaws W CL D P Cfg}.
Implicit Types g : gate W CL D.


(** C7: no scale-down is let through as drained unless the servers verified
    the drain: in any history of runs from a status that is not Complete,
    with the world, the client and the drainer changing freely in between
    (restarts included), the first time the controller proceeds "complete",
    the verification of the very pod to be removed had answered yes. *)
Theorem proceeds_only_when_verified n s rs s2 :
  history n s rs s2 -> cds_Phase s <> DrainPhaseComplete ->
  Exists (fun r => run_decision r = Proceed true) rs ->
  Exists (fun r => run_decision r = Proceed true /\ verified_in n r) rs.
Proof. apply history_verified. Qed.

(** The drain status stays well formed over any history of runs. *)
Theorem gate_keeps_status_wf n s rs s2 : history n s rs s2 -> wf s -> wf s2.
Proof. apply history_wf. Qed.


(** exactly when the controller scales down without a finished drain,
    although the drain is enabled and wanted: the start failed, the verifying
    call failed (or the operator was restarted while verifying, which loses the
    drainer), or the previous drain is Failed or RollingBack.  In every other
    case it waits or proceeds as drained. *)
Theorem proceeds_undrained now n g sts w1 :
  drain_wanted n g sts w1 ->
  let s := current_status g in
  (gate_step now n g).1 = Proceed false <->
  match cds_Phase s with
  | DrainPhaseIdle | PhaseUnset =>
      is_ok (startDrain now (DetectStatefulSetScaleDown (Some sts) n) s (entered w1 g)).1 = false
  | DrainPhaseVerifying =>
      match g_drainer g with
      | None => True
      | Some d => is_ok (dt_verify now (target_of n sts) (d, w1)).1 = false
      end
  | DrainPhaseFailed | DrainPhaseRollingBack => True
  | _ => False
  end.
Proof.
  intros Hw s. unfold gate_step. rewrite (check_wanted _ _ _ _ _ Hw). fold s.
  destruct (cds_Phase s); cbn zeta iota beta.
  1, 2: unfold io_bind; destruct (startDrain _ _ _ _) as [[[]|e] g2]; cbn; by split.
  1, 2: unfold io_try; destruct (monitorDrainProgress _ _ _ _) as [[p|e] g2]; cbn; by split.
  2-4: cbn; by split.
  unfold io_try. rewrite verify_eq. cbn [entered put_status with_cluster set_world g_drainer g_world].
  destruct (g_drainer g) as [d|]; [|cbn; by split].
  destruct (dt_verify _ _ _) as [[[]|e] [d' w']]; cbn; try by split.
  destruct (dt_cancel _) as [r [d'' w'']]; cbn; by split.
Qed.

(** a drain whose start the server refuses blocks itself.  The run that
    fails scales down anyway, with the status left Pending (marking it Failed
    is not a valid transition); and from Pending no run ever does anything but
    wait, whatever the servers answer and however often the operator restarts. *)
Theorem failed_start_sticks now n g sts w1 c0 cl w2 e :
  drain_wanted n g sts w1 ->
  cds_Phase (current_status g) = DrainPhaseIdle ->
  dt_ensure_client (g_cluster (entered w1 g)) (g_client g, w1) = (Ok c0, (cl, w2)) ->
  (dt_start now (target_of n sts) (drainer_for c0 (entered w1 g), w2)).1 = Err e ->
  exists g' s', gate_step now n g = (Proceed false, g') /\
    gate_status g' = Some s' /\ cds_Phase s' = DrainPhasePending /\
    forall rs s2, history n s' rs s2 ->
      Forall (fun r => run_decision r = Wait) rs /\ cds_Phase s2 = DrainPhasePending.
Proof.
  intros Hw Hph Hens Hst. unfold gate_step. rewrite (check_wanted _ _ _ _ _ Hw), Hph.
  unfold io_bind at 1.
  destruct (startDrain_refused now (DetectStatefulSetScaleDown (Some sts) n) (current_status g)
              (entered w1 g) c0 cl w2 e Hph Hens Hst) as (g1 & s1 & -> & Hp).
  eexists _, _. split; [done|]. split; [apply gate_status_put|]. split; [done|].
  intros rs s2 Hh. by eapply history_pending.
Qed.

(** a status that is still Complete from an earlier scale-down lets the
    next one through without a drain: the run looks at the StatefulSet, asks
    neither the drainer nor the server anything, and proceeds as drained. *)
Theorem stale_complete_skips_drain now n g sts w1 :
  drain_wanted n g sts w1 -> cds_Phase (current_status g) = DrainPhaseComplete ->
  gate_step now n g = (Proceed true, entered w1 g) /\
  g_world (entered w1 g) = w1 /\ g_drainer (entered w1 g) = g_drainer g.
Proof.
  intros Hw Hph. unfold gate_step. by rewrite (check_wanted _ _ _ _ _ Hw), Hph.
Qed.
End GateProperties.
