(* ===== verification/ScaleDown.v ===== *)
(** * Scale-down of the indexer and of the workers

    The two implementations of the gate of [DrainGate.v]: the indexer's
    ([internal/opensearch/reconciler/indexer_reconciler.go]) over the shard
    drainer and the worker's
    ([internal/wazuh/reconciler/worker_reconciler.go]) over the queue drainer,
    with the API clients that the reconcilers cache.  One reconciler serves
    all the WazuhClusters of the operator ([cmd/wazuh-operator/main.go]). *)
From S2P Require Import Prelude GoStrings GoFloat Kube OpenSearchAPI WazuhAPI.
From S2P Require Import DrainState DrainDetect IndexerDrain ManagerDrain Cluster ClientFactory DrainGate.
Local Open Scope go_scope.
Local Open Scope list_scope.

(** ** The indexer *)
Section Indexer.
Context {W : Type} (K : KubeClient W) (os_at : ClientConfig -> OpenSearchService W).
Context (sha256_hex : string -> string) (pem_ok : string -> bool) (clusterDomain : string).

Definition indexer_kube : KubeClient (factory * W) := kube_snd K.

Definition ensureOpenSearchClient (cluster : WazuhCluster)
    : IO (option ClientConfig * (factory * W)) ClientConfig :=
  s <- io_get ;;
  match s.1 with
  | Some c => io_ret c
  | None =>
      newClient <- io_world (GetClientForCluster sha256_hex pem_ok clusterDomain cluster) ;;
      io_modify (prod_map (fun _ => Some newClient) id) ;;;
      io_ret newClient
  end.

(** A drainer keeps the client it was created with. *)
Definition indexer_drainer : Type := IndexerDrainer * ClientConfig.

Definition with_client {A} (m : ClientConfig -> IO (IndexerDrainer * W) A)
    : IO (indexer_drainer * (factory * W)) A := fun '((d, c), (f, w)) =>
  let '(r, (d', w')) := m c (d, w) in (r, ((d', c), (f, w'))).

Definition indexer_target
    : DrainTarget (factory * W) ClientConfig indexer_drainer DrainProgress IndexerDrainConfig := {|
  dt_stsName name := name +:+ "-indexer";
  dt_getError := "failed to get indexer StatefulSet";
  dt_clientError := "failed to create OpenSearch client";
  dt_config := dc_Indexer;
  dt_enabled := idc_Enabled;
  dt_status := ds_Indexer;
  dt_set_status := set_indexer_drain;
  dt_ensure_client := ensureOpenSearchClient;
  dt_new config client := (NewIndexerDrainer config, client);
  dt_reset_client := false;
  dt_start _ n := with_client (fun c => @IndexerDrain.StartDrain W (os_at c) n);
  dt_monitor _ n := with_client (fun c => @MonitorProgress W (os_at c) n);
  dt_verify _ n := with_client (fun c => @VerifyComplete W (os_at c) n);
  dt_cancel := with_client (fun c => @IndexerDrain.CancelDrain W (os_at c));
  dt_percent := dp_Percent;
  dt_message := dp_Message;
  dt_complete := dp_IsComplete;
  dt_record p s := UpdateShardCount s (dp_ShardsRemaining p);
  dt_drainingMessage := "Relocating shards from node";
  dt_verifyingMessage := "Verifying drain completion"
|}.

Definition indexer_EvaluateDrainFeasibility (now : Z) (cluster : WazuhCluster) (nodeName : string)
    : IO (option ClientConfig * (factory * W)) DryRunResult :=
  try ensured <- ensureOpenSearchClient cluster ;;
  match ensured with
  | Err err =>
      io_ret {| dr_Feasible := false; dr_EvaluatedAt := now; dr_Component := DrainComponentIndexer;
                dr_Blockers := ["Cannot connect to OpenSearch: " +:+ err]; dr_Warnings := [];
                dr_EstimatedDuration := None |}
  | Ok c =>
      let drainer := NewIndexerDrainer (d ← wc_SpecDrain cluster; dc_Indexer d) in
      fun '(cl, (f, w)) =>
        let '(r, (_, w')) := @IndexerDrain.EvaluateFeasibility W (os_at c) now nodeName (drainer, w) in
        (r, (cl, (f, w')))
  end.
End Indexer.

(** ** The workers *)
Section Worker.
Context {W : Type} (K : KubeClient W) (wz_at : WazuhAPIConfig -> WazuhService W).
Context (sha256_hex : string -> string) (clusterDomain : string).

(** The adapters allocated so far; an adapter is shared by the reconciler and
    the drainer, so both see its token. *)
Definition heap : Type := list WazuhAPIAdapter.

Definition worker_kube : KubeClient (heap * W) := kube_snd K.

(** [HashStrings] *)
Definition HashStrings (strings : list string) : string :=
  sha256_hex (String.concat "" (map (fun s => s +:+ String (Ascii.ascii_of_nat 10) "") strings)).

Definition getWazuhAPICredentials (cluster : WazuhCluster) : IO (heap * W) (string * string) :=
  let namespace := wc_Namespace cluster in
  let default_secret :=
    got <- io_world (io_outcome (get_secret namespace (APICredentialsName (wc_Name cluster)))) ;;
    match got with
    | Found secret => io_ret (default "" (secret !! "api-username"), default "" (secret !! "api-password"))
    | Failed e => if IsNotFound e then io_ret ("wazuh", "wazuh")
                  else io_err (errorf "failed to get default API credentials secret" (api_message e))
    end in
  match m ← wc_SpecManager cluster; mg_APICredentials m with
  | Some ref =>
      let secretName := GetSecretName (Some ref) in
      if bool_decide (secretName <> "") then
        secret <- io_wrap "failed to get API credentials secret"
                    (io_world (io_api (get_secret namespace secretName))) ;;
        let usernameKey := if bool_decide (cr_UsernameKey ref = "") then "username" else cr_UsernameKey ref in
        let passwordKey := if bool_decide (cr_PasswordKey ref = "") then "password" else cr_PasswordKey ref in
        io_ret (default "" (secret !! usernameKey), default "" (secret !! passwordKey))
      else default_secret
  | None => default_secret
  end.

Definition wazuh_url (cluster : WazuhCluster) : string :=
  "https://" +:+ ServiceFQDN clusterDomain (wc_Name cluster +:+ "-manager-master") (wc_Namespace cluster)
  +:+ ":" +:+ pretty 55000.

(** The reconciler's [wazuhClient] (an address) and [wazuhClientCredentialsHash]. *)
Definition wazuh_client : Type := nat * string.

Definition ensureWazuhClient (cluster : WazuhCluster)
    : IO (option wazuh_client * (heap * W)) wazuh_client :=
  creds <- io_wrap "failed to get Wazuh API credentials" (io_world (getWazuhAPICredentials cluster)) ;;
  let '(username, password) := creds in
  let credentialsHash := HashStrings [username; password] in
  s <- io_get ;;
  let create :=
    let client := (length s.2.1, credentialsHash) in
    io_modify (fun '(_, (h, w)) =>
      (Some client,
       (h ++ [NewWazuhAPIAdapter {| ac_BaseURL := wazuh_url cluster; ac_Username := username;
                                    ac_Password := password |}], w))) ;;;
    io_ret client in
  match s.1 with
  | Some (a, h) => if bool_decide (h = credentialsHash) then io_ret (a, h) else create
  | None => create
  end.

Definition worker_drainer : Type := ManagerDrainer * nat.

(** The adapter at an address (addresses come from [ensureWazuhClient] only). *)
Definition adapter_at (h : heap) (a : nat) : WazuhAPIAdapter :=
  List.nth a h (NewWazuhAPIAdapter {| ac_BaseURL := ""; ac_Username := ""; ac_Password := "" |}).

Definition with_adapter {A} (m : WazuhAPIConfig -> IO (ManagerDrainer * (WazuhAPIAdapter * W)) A)
    : IO (worker_drainer * (heap * W)) A := fun '((d, a), (h, w)) =>
  let adapter := adapter_at h a in
  let '(r, (d', (adapter', w'))) := m (wa_config adapter) (d, (adapter, w)) in
  (r, ((d', a), (<[a := adapter']> h, w'))).

Definition worker_target
    : DrainTarget (heap * W) wazuh_client worker_drainer ManagerDrainProgress ManagerDrainConfig := {|
  dt_stsName name := name +:+ "-manager-worker";
  dt_getError := "failed to get worker StatefulSet";
  dt_clientError := "failed to create Wazuh client";
  dt_config := dc_Manager;
  dt_enabled := mdc_Enabled;
  dt_status := ds_Manager;
  dt_set_status := set_manager_drain;
  dt_ensure_client := ensureWazuhClient;
  dt_new config client := (NewManagerDrainer config, client.1);
  dt_reset_client := true;
  dt_start now n := with_adapter (fun c => @ManagerDrain.StartDrain W (wz_at c) now n);
  dt_monitor now n := with_adapter (fun c => @MonitorQueueDepth W (wz_at c) now n);
  dt_verify now n := with_adapter (fun c => @VerifyQueueEmpty W (wz_at c) now n);
  dt_cancel := with_adapter (fun _ => ManagerDrain.CancelDrain);
  dt_percent := mp_Percent;
  dt_message := mp_Message;
  dt_complete := mp_IsComplete;
  dt_record p s := UpdateQueueDepth s (mp_QueueDepth p);
  dt_drainingMessage := "Draining event queue on worker";
  dt_verifyingMessage := "Verifying queue drain completion"
|}.

(** The gate's operations at this target. *)
Definition worker_gate : Type := gate (heap * W) wazuh_client worker_drainer.

Definition worker_CheckScaleDownDrain
    : Z -> Z -> IO worker_gate (DrainCheckResult ManagerDrainProgress) :=
  @CheckScaleDownDrain _ _ _ _ _ worker_kube worker_target.
Definition worker_getOrInitDrainStatus : IO worker_gate ComponentDrainStatus :=
  @getOrInitDrainStatus _ _ _ _ _ worker_target.
Definition worker_startDrain : Z -> ScaleDownInfo -> ComponentDrainStatus -> IO worker_gate unit :=
  @startDrain _ _ _ _ _ worker_target.
Definition worker_monitorDrainProgress
    : Z -> string -> ComponentDrainStatus -> IO worker_gate ManagerDrainProgress :=
  @monitorDrainProgress _ _ _ _ _ worker_target.
Definition worker_verifyDrainComplete
    : Z -> string -> ComponentDrainStatus -> IO worker_gate bool :=
  @verifyDrainComplete _ _ _ _ _ worker_target.
Definition worker_ResetDrainState : Z -> worker_gate -> worker_gate :=
  @ResetDrainState _ _ _ _ _ worker_target.

Definition worker_EvaluateDrainFeasibility (now : Z) (cluster : WazuhCluster) (nodeName : string)
    : IO (option wazuh_client * (heap * W)) DryRunResult :=
  try ensured <- ensureWazuhClient cluster ;;
  match ensured with
  | Err err =>
      io_ret {| dr_Feasible := false; dr_EvaluatedAt := now; dr_Component := DrainComponentManager;
                dr_Blockers := ["Cannot connect to Wazuh API: " +:+ err]; dr_Warnings := [];
                dr_EstimatedDuration := None |}
  | Ok client =>
      let drainer := NewManagerDrainer (d ← wc_SpecDrain cluster; dc_Manager d) in
      fun '(cl, hw) =>
        let '(r, (_, hw')) := with_adapter (fun c =>
          @ManagerDrain.EvaluateFeasibility W (wz_at c) now nodeName) ((drainer, client.1), hw) in
        (r, (cl, hw'))
  end.
End Worker.

(** ** Both satisfy the gate's laws *)
#[export] Instance indexer_laws {W} os_at sha256_hex pem_ok dom (K : KubeClient W) :
  @DrainTargetLaws _ _ _ _ _ (indexer_target K os_at sha256_hex pem_ok dom).
Proof. split; [done|]. intros p s. exists (OpShards (dp_ShardsRemaining p)). eauto. Qed.

#[export] Instance worker_laws {W} wz_at sha256_hex dom (K : KubeClient W) :
  @DrainTargetLaws _ _ _ _ _ (worker_target K wz_at sha256_hex dom).
Proof. split; [done|]. intros p s. exists (OpQueue (mp_QueueDepth p)). eauto. Qed.

(** ** Lemmas *)
Section Lemmas.
Context {W : Type} (K : KubeClient W) (sha256_hex : string -> string) (pem_ok : string -> bool)
  (clusterDomain : string).

(** A gate of the indexer. *)
Definition indexer_gate : Type := gate (factory * W) ClientConfig indexer_drainer.

Definition indexer_step (os_at : ClientConfig -> OpenSearchService W) :
    Z -> Z -> indexer_gate -> gate_decision * indexer_gate :=
  @gate_step _ _ _ _ _ (indexer_kube K) (indexer_target K os_at sha256_hex pem_ok clusterDomain).

Lemma with_client_ok {A} (m : ClientConfig -> IO (IndexerDrainer * W) A) d c f w r s :
  with_client m ((d, c), (f, w)) = (r, s) ->
  exists d' w', m c (d, w) = (r, (d', w')) /\ s = ((d', c), (f, w')).
Proof.
  unfold with_client. destruct (m c (d, w)) as [r' [d' w']]. intros; simplify_eq. eauto.
Qed.

Lemma with_client_ext {A} (m m' : ClientConfig -> IO (IndexerDrainer * W) A) d c x :
  m c = m' c -> with_client m ((d, c), x) = with_client m' ((d, c), x).
Proof. unfold with_client. by intros ->. Qed.

(** The gate talks to the servers through client [c] only. *)
Definition talks_to (c : ClientConfig) (g : indexer_gate) : Prop :=
  g_client g = Some c /\ (g_drainer g = None \/ exists d, g_drainer g = Some (d, c)).

Section Same.
Context (os_at os_at' : ClientConfig -> OpenSearchService W) (c : ClientConfig).
Context (Hos : os_at c = os_at' c).
Let T := indexer_target K os_at sha256_hex pem_ok clusterDomain.
Let T' := indexer_target K os_at' sha256_hex pem_ok clusterDomain.

Lemma start_same now info s g :
  talks_to c g ->
  @startDrain _ _ _ _ _ T now info s g = @startDrain _ _ _ _ _ T' now info s g.
Proof.
  intros [Hc Hd]. unfold startDrain, ensure_drainer, io_bind, io_wrap, io_get, io_modify, io_ret,
    on_client. cbn. unfold ensureOpenSearchClient, io_bind, io_get. cbn. rewrite Hc. cbn.
  destruct (DrainState.StartDrain _ _ _ _ _); [|done].
  unfold io_try, on_drainer.
  destruct Hd as [->|[d ->]]; cbn; by rewrite Hos.
Qed.

Lemma monitor_same now n s g :
  talks_to c g ->
  @monitorDrainProgress _ _ _ _ _ T now n s g = @monitorDrainProgress _ _ _ _ _ T' now n s g.
Proof.
  intros [Hc Hd]. unfold monitorDrainProgress, io_bind, io_get, on_drainer.
  destruct Hd as [->|[d ->]]; [done|]. cbn. by rewrite Hos.
Qed.

Lemma verify_same now n s g :
  talks_to c g ->
  @verifyDrainComplete _ _ _ _ _ T now n s g = @verifyDrainComplete _ _ _ _ _ T' now n s g.
Proof.
  intros [Hc Hd]. unfold verifyDrainComplete, io_bind, io_get, on_drainer.
  destruct Hd as [->|[d ->]]; [done|]. cbn. rewrite Hos.
  destruct (g_world g) as [f w]. unfold with_client.
  destruct (@VerifyComplete _ _ _ _) as [[[]|e] [d' w']]; try done.
  unfold try_transition, io_bind, io_get, io_modify, io_ret, io_try, on_drainer. cbn.
  by rewrite Hos.
Qed.

Lemma check_same now n g :
  talks_to c g ->
  @CheckScaleDownDrain _ _ _ _ _ (indexer_kube K) T now n g =
  @CheckScaleDownDrain _ _ _ _ _ (indexer_kube K) T' now n g.
Proof.
  intros Ht. unfold CheckScaleDownDrain. apply io_bind_ext; [done|].
  unfold io_get. intros a s [= <- <-]. apply io_bind_ext; [done|].
  intros [sts|e] g1 H1; [|done].
  assert (talks_to c g1) as Ht1.
  { unfold on_world, io_outcome in H1. destruct (get_statefulset _ _ _) as [r w].
    simplify_eq. exact Ht. }
  clear H1. destruct (negb (sd_Detected _)); [done|].
  change (@drain_enabled _ _ _ _ _ T (g_cluster g)) with (@drain_enabled _ _ _ _ _ T' (g_cluster g)).
  destruct (negb _); [done|]. apply io_bind_ext; [done|]. intros s g2 H2.
  assert (talks_to c g2) as Ht2 by (injection H2 as _ <-; exact Ht1).
  destruct (cds_Phase s); try done.
  - apply io_bind_ext; [by apply start_same|done].
  - apply io_bind_ext; [by apply start_same|done].
  - apply io_try_ext, monitor_same, Ht2.
  - apply io_try_ext, monitor_same, Ht2.
  - apply io_try_ext, verify_same, Ht2.
Qed.
End Same.
End Lemmas.

Section WorkerLemmas.
Context {W : Type} (K : KubeClient W) (sha256_hex : string -> string) (clusterDomain : string).

Lemma getWazuhAPICredentials_frames cluster : frames (getWazuhAPICredentials K cluster).
Proof.
  unfold getWazuhAPICredentials. set (d := io_bind _ _).
  assert (frames d) as Hd.
  { apply frames_bind; [apply frames_world|]. intros [s|e]; [apply frames_ret|].
    destruct (IsNotFound e); auto with wazuh. }
  clearbody d. destruct (_ ≫= _); [case_bool_decide|]; auto with wazuh.
Qed.

Lemma ensure_eq cluster cl h w u p w' :
  getWazuhAPICredentials K cluster (h, w) = (Ok (u, p), (h, w')) ->
  ensureWazuhClient K sha256_hex clusterDomain cluster (cl, (h, w)) =
  (let k := HashStrings sha256_hex [u; p] in
   let fresh := (Ok (length h, k),
     (Some (length h, k),
      (h ++ [NewWazuhAPIAdapter {| ac_BaseURL := wazuh_url clusterDomain cluster;
                                   ac_Username := u; ac_Password := p |}], w'))) in
   match cl with
   | Some (a, k') => if bool_decide (k' = k) then (Ok (a, k'), (cl, (h, w'))) else fresh
   | None => fresh
   end).
Proof.
  intros H. unfold ensureWazuhClient, io_bind at 1, io_wrap, io_world. rewrite H. cbn [wrapf].
  unfold io_bind at 1, io_get. cbn [fst snd]. destruct cl as [[a k]|]; [|done].
  by case_bool_decide.
Qed.

Lemma ensure_inv cluster cl h w c cl' h' w' :
  ensureWazuhClient K sha256_hex clusterDomain cluster (cl, (h, w)) = (Ok c, (cl', (h', w'))) ->
  exists u p, getWazuhAPICredentials K cluster (h, w) = (Ok (u, p), (h, w')) /\
    c.2 = HashStrings sha256_hex [u; p] /\ cl' = Some c /\
    ((cl = Some c /\ h' = h) \/
     ((forall a k, cl = Some (a, k) -> k <> c.2) /\ c.1 = length h /\
      h' = h ++ [NewWazuhAPIAdapter {| ac_BaseURL := wazuh_url clusterDomain cluster;
                                       ac_Username := u; ac_Password := p |}])).
Proof.
  destruct (getWazuhAPICredentials_frames cluster h w) as [w1 Hh].
  destruct (getWazuhAPICredentials K cluster (h, w)) as [[[u p]|e] s] eqn:E; cbn in Hh; subst s.
  2: { unfold ensureWazuhClient, io_bind at 1, io_wrap, io_world. by rewrite E. }
  rewrite (ensure_eq _ _ _ _ _ _ _ E). cbn zeta. intros H. exists u, p.
  destruct cl as [[a k]|]; [case_bool_decide as Hk|]; simplify_eq/=; split_and!; try done;
    [by left|right; split_and!; try done; by intros ? ? [= <- <-]|right; done].
Qed.
End WorkerLemmas.

(** ** Properties *)
Section Properties.
Context {W : Type} (K : KubeClient W) (sha256_hex : string -> string) (pem_ok : string -> bool)
  (clusterDomain : string).
Implicit Types os_at : ClientConfig -> OpenSearchService W.

(** C1: an indexer node is removed as drained only after its shards are gone:
    in every history of reconciles from a status that is not Complete, the
    first run that lets the scale-down through as drained got from the
    OpenSearch server it talks to a list of shards with none on the very pod
    to be removed, and then a health with nothing relocating. *)
Theorem indexer_scale_down_safe os_at n s
    (rs : list (@run (factory * W) ClientConfig indexer_drainer)) s2 :
  @history _ _ _ _ _ (indexer_kube K)
    (indexer_target K os_at sha256_hex pem_ok clusterDomain) n s rs s2 ->
  cds_Phase s <> DrainPhaseComplete ->
  Exists (fun r => run_decision r = Proceed true) rs ->
  Exists (fun r => run_decision r = Proceed true /\
    exists c w all w1 h w2,
      @replied W _ (@get_cat_shards W (os_at c)) w all w1 /\
      Forall (fun x => si_Node x <> target_of n (run_sts r)) all /\
      @replied W _ (@get_cluster_health W (os_at c)) w1 h w2 /\ ch_RelocatingShards h <= 0) rs.
Proof.
  intros Hh Hs Hex. eapply Exists_impl; [by eapply (@history_verified _ _ _ _ _ _ _
    (indexer_laws os_at sha256_hex pem_ok clusterDomain K))|].
  cbn. intros r (Hr & [d c] & [f w] & s' & Hv). split; [done|].
  cbn [dt_verify indexer_target] in Hv. apply with_client_ok in Hv as (d' & w' & Hv & _).
  apply VerifyComplete_true in Hv as (all & w1 & h & w2 & ? & ? & ? & ? & _). eauto 10.
Qed.

(** the client cached for one cluster serves every cluster.  Once the
    reconciler has a client, the drain of any WazuhCluster depends on the
    OpenSearch server behind that client only: two deployments that differ in
    every other server, the cluster's own included, give the same decision and
    the same status. *)
Theorem drain_ignores_own_cluster os_at os_at' c now n (g : indexer_gate) :
  talks_to c g -> os_at c = os_at' c ->
  indexer_step K sha256_hex pem_ok clusterDomain os_at now n g =
  indexer_step K sha256_hex pem_ok clusterDomain os_at' now n g.
Proof.
  intros Ht Hos. unfold indexer_step, gate_step.
  by rewrite (check_same K sha256_hex pem_ok clusterDomain os_at os_at' c Hos now n g Ht).
Qed.

(** the worker's client follows the credentials and nothing else.  A call
    reads the credentials now in force; the cached adapter is kept exactly when
    their hash is the cached one, else a new adapter for this cluster is
    created next to the old ones.  Since the address is not compared, a second
    cluster with the same credentials (the built-in default, for one) is given
    the adapter of the first. *)
Theorem worker_client_follows_credentials (cluster : WazuhCluster) cl h w c cl' h' w' :
  ensureWazuhClient K sha256_hex clusterDomain cluster (cl, (h, w)) = (Ok c, (cl', (h', w'))) ->
  cl' = Some c /\
  exists u p, getWazuhAPICredentials K cluster (h, w) = (Ok (u, p), (h, w')) /\
    c.2 = HashStrings sha256_hex [u; p] /\
    ((cl = Some c /\ h' = h) \/
     ((forall a k, cl = Some (a, k) -> k <> c.2) /\ c.1 = length h /\
      h' = h ++ [NewWazuhAPIAdapter {| ac_BaseURL := wazuh_url clusterDomain cluster;
                                       ac_Username := u; ac_Password := p |}])) /\
    (forall cluster2 w1 w2,
       getWazuhAPICredentials K cluster2 (h', w1) = (Ok (u, p), (h', w2)) ->
       ensureWazuhClient K sha256_hex clusterDomain cluster2 (cl', (h', w1)) =
         (Ok c, (cl', (h', w2)))).
Proof.
  intros H. pose proof (ensure_inv K sha256_hex clusterDomain cluster cl h w c cl' h' w' H) as (u & p & Hg & Hc & -> & Hor).
  split; [done|]. exists u, p. split; [done|]. split; [done|]. split; [done|].
  intros cluster2 w1 w2 H2. rewrite (ensure_eq K sha256_hex clusterDomain cluster2 (Some c) h' w1 u p w2 H2).
  destruct c as [a k]. cbn in Hc. subst k. cbn zeta iota. by rewrite bool_decide_true.
Qed.
End Properties.

(** ** Two clusters to try the theorems on *)
Module Sites.
Record site := { s_kube : SimKube.kube; s_a : Sim.cluster; s_b : Sim.cluster }.

(** An operation on a part of the site. *)
Definition zoom {X R} (get : site -> X) (set : X -> site -> site) (m : X -> R * X)
    : site -> R * site := fun s => let '(r, x) := m (get s) in (r, set x s).

Definition set_kube (k : SimKube.kube) (s : site) : site :=
  {| s_kube := k; s_a := s_a s; s_b := s_b s |}.
Definition set_a (c : Sim.cluster) (s : site) : site :=
  {| s_kube := s_kube s; s_a := c; s_b := s_b s |}.
Definition set_b (c : Sim.cluster) (s : site) : site :=
  {| s_kube := s_kube s; s_a := s_a s; s_b := c |}.

#[global] Instance kube : KubeClient site := {
  get_statefulset ns n := zoom s_kube set_kube (get_statefulset ns n);
  update_statefulset s := zoom s_kube set_kube (update_statefulset s);
  list_pods ns l := zoom s_kube set_kube (list_pods ns l);
  delete_pod p := zoom s_kube set_kube (delete_pod p);
  get_secret ns n := zoom s_kube set_kube (get_secret ns n)
}.

Definition server (get : site -> Sim.cluster) (set : Sim.cluster -> site -> site)
    : OpenSearchService site := {|
  get_cluster_health := zoom get set get_cluster_health;
  get_cat_shards := zoom get set get_cat_shards;
  get_cluster_settings b := zoom get set (get_cluster_settings b);
  put_cluster_settings u := zoom get set (put_cluster_settings u)
|}.

Definition url (name : string) : string := "https://" +:+ name +:+ "-indexer.ns.svc.cluster.local:9200".

Definition os_at (c : ClientConfig) : OpenSearchService site :=
  if bool_decide (cc_BaseURL c = url "b") then server s_b set_b else server s_a set_a.

(** The same net without a second server. *)
Definition os_at' (c : ClientConfig) : OpenSearchService site := server s_a set_a.

Definition client (name : string) : ClientConfig :=
  {| cc_BaseURL := url name; cc_Username := "admin"; cc_Password := "pw-" +:+ name;
     cc_CACert := "ca"; cc_Insecure := false |}.

Definition secrets (name : string) : list (string * Secret) :=
  [(name +:+ "-indexer-credentials",
    <["admin-username" := "admin"]> {["admin-password" := "pw-" +:+ name]});
   (name +:+ "-indexer-certs", {["ca.crt" := "ca"]})].

Definition cluster (name : string) (st : option ComponentDrainStatus) : WazuhCluster :=
  {| wc_Name := name; wc_Namespace := "ns";
     wc_SpecDrain := Some
       {| dc_DryRun := false;
          dc_Indexer := Some {| idc_Enabled := Some true; idc_Timeout := None;
                                idc_HealthCheckInterval := None |};
          dc_Manager := None; dc_Retry := None |};
     wc_SpecIndexer := None; wc_SpecManager := None; wc_SpecDashboard := None;
     wc_StatusDrain := Some (set_indexer_drain st empty_drain_status); wc_StatusLastUpdate := None;
     wc_Meta := no_meta; wc_Spec := no_refs; wc_Status := no_status |}.

(** Every node of [a] but the last holds a shard; of [b] every node does. *)
Definition two_clusters : site :=
  {| s_kube := {| SimKube.k_statefulsets :=
                    [SimKube.steady "ns" "a-indexer" 3; SimKube.steady "ns" "b-indexer" 3];
                  SimKube.k_pods := []; SimKube.k_secrets := secrets "a" ++ secrets "b" |};
     s_a := {| Sim.health := Sim.green 3;
               Sim.shards := [Sim.shard_on "a-indexer-0"; Sim.shard_on "a-indexer-1"];
               Sim.excluded := ""; Sim.reachable := true |};
     s_b := {| Sim.health := Sim.green 3;
               Sim.shards := [Sim.shard_on "b-indexer-0"; Sim.shard_on "b-indexer-1";
                              Sim.shard_on "b-indexer-2"];
               Sim.excluded := ""; Sim.reachable := true |} |}.

Definition sha (s : string) : string := s.
Definition pem (s : string) : bool := true.
Definition dom : string := "cluster.local".

#[global] Instance fkube : KubeClient (factory * site) := indexer_kube kube.
#[global] Instance target :
    DrainTarget (factory * site) ClientConfig indexer_drainer DrainProgress IndexerDrainConfig :=
  indexer_target kube os_at sha pem dom.

Definition step : Z -> indexer_gate -> gate_decision * indexer_gate :=
  fun now g => indexer_step kube sha pem dom os_at now 2 g.

Definition gate0 (name : string) (st : option ComponentDrainStatus) (w : site) : @indexer_gate site :=
  {| g_client := None; g_drainer := None; g_cluster := cluster name st; g_world := (∅, w) |}.

(** Cluster [a] is scaled down from three to two nodes: three reconciles. *)
Definition g0 := gate0 "a" (Some InitializeDrainStatus) two_clusters.
Definition g1 := (step 10 g0).2.
Definition g2 := (step 20 g1).2.
Definition g3 := (step 30 g2).2.
Definition the_sts : StatefulSet := SimKube.steady "ns" "a-indexer" 3.

(** The same, with the server of [a] out of reach. *)
Definition unreachable : site := set_a Sim.down two_clusters.
Definition h0 := gate0 "a" (Some InitializeDrainStatus) unreachable.

Definition at_run (now : Z) (g : indexer_gate) : run :=
  {| run_now := now; run_gate := g; run_sts := the_sts; run_decision := (step now g).1 |}.
Definition runs : list run := [at_run 10 g0; at_run 20 g1; at_run 30 g2].

Definition status_in (p : DrainPhase) : ComponentDrainStatus := with_phase p zero_status.
End Sites.



Lemma Sites_history : history 2 (current_status Sites.g0) Sites.runs (current_status Sites.g3).
Proof.
  apply (history_step 2 10 Sites.g0 Sites.the_sts (∅, Sites.two_clusters));
    [split_and!; vm_compute; reflexivity|vm_compute; reflexivity|].
  apply (history_step 2 20 Sites.g1 Sites.the_sts (g_world Sites.g1));
    [split_and!; vm_compute; reflexivity|vm_compute; reflexivity|].
  apply (history_step 2 30 Sites.g2 Sites.the_sts (g_world Sites.g2));
    [split_and!; vm_compute; reflexivity|vm_compute; reflexivity|].
  apply history_nil.
Qed.

Example proceeds_only_when_verified_witness :
  Exists (fun r => run_decision r = Proceed true /\ verified_in 2 r) Sites.runs.
Proof.
  apply (proceeds_only_when_verified _ _ _ _ Sites_history); [vm_compute; discriminate|].
  do 2 right. left. vm_compute. reflexivity.
Defined.

Lemma Sites_wanted : drain_wanted 2 Sites.g0 Sites.the_sts (∅, Sites.two_clusters).
Proof. split_and!; vm_compute; reflexivity. Qed.

Lemma Sites_wanted_h0 : drain_wanted 2 Sites.h0 Sites.the_sts (∅, Sites.unreachable).
Proof. split_and!; vm_compute; reflexivity. Qed.


Example gate_keeps_status_wf_witness : wf (current_status Sites.g3).
Proof.
  apply (gate_keeps_status_wf _ _ _ _ Sites_history).
  by split; vm_compute.
Defined.


(** An operator that restarted while verifying. *)
Example proceeds_undrained_witness :
  (gate_step 30 2 (Sites.gate0 "a" (Some (Sites.status_in DrainPhaseVerifying)) Sites.two_clusters)).1
    = Proceed false.
Proof.
  refine (proj2 (proceeds_undrained 30 2
    (Sites.gate0 "a" (Some (Sites.status_in DrainPhaseVerifying)) Sites.two_clusters) Sites.the_sts
    (∅, Sites.two_clusters) _) _); [split_and!; vm_compute; reflexivity|vm_compute; exact I].
Defined.

Definition Sites_ensured : factory * Sites.site :=
  (dt_ensure_client (g_cluster (entered (∅, Sites.unreachable) Sites.h0))
     (g_client Sites.h0, (∅, Sites.unreachable))).2.2.

Example failed_start_sticks_witness :
  exists g' s', gate_step 10 2 Sites.h0 = (Proceed false, g') /\ gate_status g' = Some s' /\
    cds_Phase s' = DrainPhasePending.
Proof.
  edestruct (failed_start_sticks 10 2 Sites.h0 Sites.the_sts (∅, Sites.unreachable) (Sites.client "a")
    (Some (Sites.client "a")) Sites_ensured) as (g' & s' & Hg & Hs & Hp & _);
    [exact Sites_wanted_h0|vm_compute; reflexivity|vm_compute; reflexivity|vm_compute; reflexivity|].
  exists g', s'. split; [exact Hg|]. split; [exact Hs|exact Hp].
Defined.

(** The status is still Complete although the server of [a] is down. *)
Example stale_complete_skips_drain_witness :
  let g := Sites.gate0 "a" (Some (Sites.status_in DrainPhaseComplete)) Sites.unreachable in
  (gate_step 10 2 g).1 = Proceed true.
Proof.
  intros g.
  rewrite (proj1 (stale_complete_skips_drain 10 2 g Sites.the_sts (∅, Sites.unreachable)
    ltac:(split_and!; vm_compute; reflexivity) ltac:(vm_compute; reflexivity))).
  reflexivity.
Defined.

Example indexer_scale_down_safe_witness :
  Exists (fun r => run_decision r = Proceed true /\
    exists c w all w1 h w2,
      @replied Sites.site _ (@get_cat_shards Sites.site (Sites.os_at c)) w all w1 /\
      Forall (fun x => si_Node x <> target_of 2 (run_sts r)) all /\
      @replied Sites.site _ (@get_cluster_health Sites.site (Sites.os_at c)) w1 h w2 /\
      ch_RelocatingShards h <= 0) Sites.runs.
Proof.
  apply (indexer_scale_down_safe Sites.kube Sites.sha Sites.pem Sites.dom Sites.os_at 2 _ Sites.runs
    _ Sites_history); [vm_compute; discriminate|].
  do 2 right. left. vm_compute. reflexivity.
Defined.

(** The drain of [b] with the client and the drainer left from [a]: its own
    server still lists a shard on the pod to be removed, and it is verified. *)
Example drain_ignores_own_cluster_witness :
  let g := {| g_client := Some (Sites.client "a");
              g_drainer := Some (NewIndexerDrainer None, Sites.client "a");
              g_cluster := Sites.cluster "b" (Some (Sites.status_in DrainPhaseVerifying));
              g_world := (∅, Sites.two_clusters) |} in
  indexer_step Sites.kube Sites.sha Sites.pem Sites.dom Sites.os_at 10 2 g =
    indexer_step Sites.kube Sites.sha Sites.pem Sites.dom Sites.os_at' 10 2 g /\
  (Sites.step 10 g).1 = Proceed true /\
  In (Sim.shard_on "b-indexer-2") (Sim.shards (Sites.s_b Sites.two_clusters)).
Proof.
  intros g. split; [|split; [vm_compute; reflexivity|vm_compute; auto]].
  apply (drain_ignores_own_cluster Sites.kube Sites.sha Sites.pem Sites.dom Sites.os_at Sites.os_at'
           (Sites.client "a")); [split; [reflexivity|right; eexists; reflexivity]|reflexivity].
Defined.

(** Neither [a] nor [b] has API credentials: both get the adapter of [a]. *)
Example worker_client_follows_credentials_witness :
  let ensure name s :=
    ensureWazuhClient Sites.kube Sites.sha Sites.dom (Sites.cluster name None) s in
  let s1 := (ensure "a" (None, ([], Sites.two_clusters))).2 in
  (ensure "b" s1).2 = s1 /\
  ac_BaseURL (wa_config (adapter_at s1.2.1 0)) = "https://a-manager-master.ns.svc.cluster.local:55000".
Proof.
  intros ensure s1. split; [|vm_compute; reflexivity].
  destruct (ensure "a" (None, ([], Sites.two_clusters))) as [r [cl' [h' w']]] eqn:E.
  destruct r as [c|]; [|vm_compute in E; discriminate].
  destruct (worker_client_follows_credentials Sites.kube Sites.sha Sites.dom _ _ _ _ _ _ _ _ E)
    as (_ & u & p & Hg & _ & _ & Hsame).
  assert ((u, p) = ("wazuh", "wazuh") /\ w' = Sites.two_clusters) as [[= -> ->] ->].
  { vm_compute in Hg. injection Hg as <- <- <-. split; reflexivity. }
  unfold s1, ensure. cbn [snd]. rewrite (Hsame (Sites.cluster "b" None) Sites.two_clusters Sites.two_clusters);
    [reflexivity|vm_compute; reflexivity].
Defined.

Example client_is_current_witness :
  let r := GetClientForCluster Sites.sha Sites.pem Sites.dom (Sites.cluster "a" None)
             (∅, Sites.two_clusters) in
  exists f' w', r = (Ok (Sites.client "a"), (f', w')) /\ coherent Sites.sha Sites.dom f'.
Proof.
  intros r. exists r.2.1, r.2.2. split; [vm_compute; reflexivity|].
  eapply (client_is_current Sites.sha Sites.pem Sites.dom (Sites.cluster "a" None) ∅
            Sites.two_clusters (Sites.client "a") r.2.1 r.2.2);
    [intros k e H; by rewrite lookup_empty in H|reflexivity|vm_compute; reflexivity].
Defined.
