(* ===== verification/Rolling.v ===== *)
(** * Rolling restarts ([internal/shared/rolling], [internal/*/reconciler/*_rolling_restart.go])

    One step of a rolling restart deletes at most one outdated pod; the
    reconcilers of the manager and of the indexer choose the StatefulSet and
    the health check, the controller folds the outcomes into the status. *)
From Stdlib Require Import Ascii.
From S2P Require Import Prelude GoStrings GoFloat Kube OpenSearchAPI.
From S2P Require Import DrainState IndexerDrain Cluster ClientFactory ScaleDown.
Local Open Scope go_scope.
Local Open Scope list_scope.

#[export] Instance RestartPhase_eq_dec : EqDecision RestartPhase.
Proof. solve_decision. Defined.

Record RestartResult := {
  rr_Phase : RestartPhase;
  rr_TotalPods : Z;
  rr_UpdatedPods : Z;
  rr_CurrentPod : string;
  rr_Message : string
}.

(** [HealthChecker.IsHealthyForRestart] *)
Definition HealthChecker (S : Type) : Type := IO S (bool * string).

Fixpoint ready_condition (conds : list (string * string)) : bool :=
  match conds with
  | [] => false
  | (type, status) :: conds =>
      if bool_decide (type = "Ready") then bool_decide (status = "True") else ready_condition conds
  end.

Definition isPodReady (p : Pod) : bool := ready_condition (pod_Conditions p).

Definition extractOrdinal (podName : string) : Z :=
  match Atoi (List.last (Split "-"%char podName) "") with
  | Ok ordinal => ordinal
  | Err _ => 0
  end.

(** [sort.Slice]: an insertion sort (what Go runs on short slices).  The pods of
    one StatefulSet have different ordinals, so every sort gives this result. *)
Fixpoint insert_by {A} (less : A -> A -> bool) (x : A) (l : list A) : list A :=
  match l with
  | [] => [x]
  | y :: l => if less x y then x :: y :: l else y :: insert_by less x l
  end.
Definition sort_by {A} (less : A -> A -> bool) (l : list A) : list A :=
  fold_left (fun sorted x => insert_by less x sorted) l [].

Definition owned_by (sts : StatefulSet) (p : Pod) : bool :=
  existsb (fun uid => bool_decide (uid = sts_UID sts)) (pod_OwnerUIDs p).

(** The label read from a map without it is the empty string. *)
Definition pod_revision (p : Pod) : string := default "" (pod_Labels p !! "controller-revision-hash").

Definition is_updated (target : string) (p : Pod) : bool := bool_decide (pod_revision p = target).

Definition ordinal_less (deleteHighestFirst : bool) (p q : Pod) : bool :=
  let oi := extractOrdinal (pod_Name p) in
  let oj := extractOrdinal (pod_Name q) in
  if deleteHighestFirst then bool_decide (oj < oi) else bool_decide (oi < oj).

Section Orchestrator.
Context {S : Type} `{!KubeClient S}.

Definition OrchestrateRestart (sts : StatefulSet) (healthChecker : HealthChecker S)
    (deleteHighestFirst : bool) : IO S RestartResult :=
  let targetRevision := sts_UpdateRevision sts in
  if bool_decide (targetRevision = sts_CurrentRevision sts) then
    io_ret {| rr_Phase := RestartPhaseIdle; rr_TotalPods := sts_Replicas sts;
              rr_UpdatedPods := sts_Replicas sts; rr_CurrentPod := "";
              rr_Message := "all pods are on current revision" |}
  else
    podList <- io_wrap ("failed to list pods for StatefulSet " +:+ sts_Name sts)
                 (io_api (list_pods (sts_Namespace sts) (sts_MatchLabels sts))) ;;
    let ownedPods := List.filter (owned_by sts) podList in
    let updatedPods := List.filter (is_updated targetRevision) ownedPods in
    let outdatedPods := List.filter (fun p => negb (is_updated targetRevision p)) ownedPods in
    let result phase current message :=
      {| rr_Phase := phase; rr_TotalPods := wrap32 (Z.of_nat (length ownedPods));
         rr_UpdatedPods := wrap32 (Z.of_nat (length updatedPods)); rr_CurrentPod := current;
         rr_Message := message |} in
    match outdatedPods with
    | [] => io_ret (result RestartPhaseComplete "" "all pods updated to target revision")
    | _ =>
        match List.find (fun p => negb (isPodReady p)) ownedPods with
        | Some pod =>
            io_ret (result RestartPhaseInProgress (pod_Name pod)
                      ("waiting for pod " +:+ pod_Name pod +:+ " to become ready"))
        | None =>
            health <- io_wrap ("health check failed for StatefulSet " +:+ sts_Name sts)
                        healthChecker ;;
            let '(healthy, msg) := health in
            if negb healthy
            then io_ret (result RestartPhaseInProgress "" ("waiting for cluster health: " +:+ msg))
            else
              match sort_by (ordinal_less deleteHighestFirst) outdatedPods with
              | [] => io_err "unreachable: sorting keeps the pods"
              | podToDelete :: _ =>
                  io_wrap ("failed to delete pod " +:+ pod_Name podToDelete)
                    (io_api (delete_pod podToDelete)) ;;;
                  io_ret (result RestartPhaseInProgress (pod_Name podToDelete)
                    ("deleted pod " +:+ pod_Name podToDelete +:+ " ("
                     +:+ pretty (wrap32 (Z.of_nat (length updatedPods))) +:+ "/"
                     +:+ pretty (wrap32 (Z.of_nat (length ownedPods))) +:+ " updated)"))
              end
        end
    end.

(** [ManagerWorkerHealthChecker.IsHealthyForRestart] *)
Definition ManagerWorkerHealthChecker (namespace : string) (selectorLabels : gmap string string)
    : HealthChecker S :=
  podList <- io_wrap "failed to list pods" (io_api (list_pods namespace selectorLabels)) ;;
  io_ret (match List.find (fun p => negb (isPodReady p)) podList with
          | Some pod => (false, "pod " +:+ pod_Name pod +:+ " is not ready")
          | None => (true, "all " +:+ pretty (Z.of_nat (length podList)) +:+ " pods are ready")
          end).

(** *** The manager ([cluster_rolling_restart.go]) *)

(** The part the worker's and the master's function share. *)
Definition orchestrate_manager_sts (cluster : WazuhCluster) (name what : string)
    (labels : gmap string string) : IO S (option RestartResult) :=
  got <- io_outcome (get_statefulset (wc_Namespace cluster) name) ;;
  match got with
  | Failed e =>
      if IsNotFound e then io_ret None
      else io_err (errorf ("failed to get " +:+ what +:+ " StatefulSet") (api_message e))
  | Found sts =>
      if bool_decide (sts_UpdateRevision sts = sts_CurrentRevision sts) then io_ret None
      else
        result <- OrchestrateRestart sts
                    (ManagerWorkerHealthChecker (wc_Namespace cluster) labels) true ;;
        io_ret (Some result)
  end.

Definition orchestrateWorkerRestart (cluster : WazuhCluster) : IO S (option RestartResult) :=
  orchestrate_manager_sts cluster (ManagerWorkerName (wc_Name cluster)) "worker"
    (<[LabelManagerNodeType := "worker"]> (SelectorLabels (wc_Name cluster) "wazuh-manager")).

Definition orchestrateMasterRestart (cluster : WazuhCluster) : IO S (option RestartResult) :=
  orchestrate_manager_sts cluster (ManagerMasterName (wc_Name cluster)) "master"
    (SelectorLabels (wc_Name cluster) "wazuh-manager").

Definition in_progress (r : option RestartResult) : bool :=
  match r with Some r => bool_decide (rr_Phase r = RestartPhaseInProgress) | None => false end.

(** The results for the master and for the workers, and the error: a master
    that fails leaves the workers' result. *)
Definition OrchestrateManagerRollingRestart (cluster : WazuhCluster)
    : IO S (option RestartResult * option RestartResult * option error) :=
  match wc_SpecManager cluster with
  | None => io_ret (None, None, None)
  | Some _ =>
      try workers <- orchestrateWorkerRestart cluster ;;
      match workers with
      | Err e => io_ret (None, None, Some (errorf "worker rolling restart failed" e))
      | Ok workerResult =>
          if in_progress workerResult then io_ret (None, workerResult, None)
          else
            try master <- orchestrateMasterRestart cluster ;;
            match master with
            | Err e => io_ret (None, workerResult, Some (errorf "master rolling restart failed" e))
            | Ok masterResult => io_ret (masterResult, workerResult, None)
            end
      end
  end.
End Orchestrator.

(** *** The indexer ([indexer_rolling_restart.go], [indexer_health_checker.go]) *)
Section Indexer.
Context {W : Type} (K : KubeClient W) (os_at : ClientConfig -> OpenSearchService W).
Context (sha256_hex : string -> string) (pem_ok : string -> bool) (clusterDomain : string).

(** [IndexerHealthChecker.IsHealthyForRestart] *)
Definition indexer_IsHealthyForRestart (c : ClientConfig) (desiredNodeCount : Z)
    : IO W (bool * string) :=
  health <- io_wrap "failed to get cluster health" (@GetClusterHealth W (os_at c)) ;;
  io_ret
    (if bool_decide (ch_Status health = "red") then
       (false, "cluster status is RED (" +:+ pretty (ch_UnassignedShards health)
               +:+ " unassigned shards)")
     else if bool_decide (0 < ch_RelocatingShards health) then
       (false, "cluster has " +:+ pretty (ch_RelocatingShards health) +:+ " relocating shards")
     else if bool_decide (0 < ch_InitializingShards health) then
       (false, "cluster has " +:+ pretty (ch_InitializingShards health) +:+ " initializing shards")
     else if bool_decide (ch_NumberOfNodes health < desiredNodeCount) then
       (false, "cluster has " +:+ pretty (ch_NumberOfNodes health) +:+ " nodes, expected "
               +:+ pretty desiredNodeCount)
     else (true, "cluster is " +:+ ch_Status health +:+ " with "
                 +:+ pretty (ch_NumberOfNodes health) +:+ " nodes")).

(** The state: the cached client, the factory and the world. *)
Definition RIO (A : Type) := IO (option ClientConfig * (factory * W)) A.

Definition on_kube {A} (m : IO W A) : RIO A := io_world (io_world m).

Definition ensured (cluster : WazuhCluster) : RIO ClientConfig :=
  ensureOpenSearchClient K sha256_hex pem_ok clusterDomain cluster.

(** The loop over the pools; [total] and [updated] are the aggregates. *)
Fixpoint restart_pools (cluster : WazuhCluster) (health : HealthChecker W) (total updated : Z)
    (pools : list IndexerNodePoolSpec) : IO W (option RestartResult) :=
  match pools with
  | [] =>
      io_ret (if bool_decide (total = 0) then None
              else Some {| rr_Phase := RestartPhaseComplete; rr_TotalPods := total;
                           rr_UpdatedPods := updated; rr_CurrentPod := "";
                           rr_Message := "all node pools updated" |})
  | pool :: pools =>
      got <- io_outcome (get_statefulset (wc_Namespace cluster)
                           (IndexerNodePoolName (wc_Name cluster) (pool_Name pool))) ;;
      match got with
      | Failed _ => restart_pools cluster health total updated pools
      | Found sts =>
          let total := wrap32 (total + sts_Replicas sts) in
          if bool_decide (sts_UpdateRevision sts = sts_CurrentRevision sts)
          then restart_pools cluster health total (wrap32 (updated + sts_Replicas sts)) pools
          else
            result <- io_wrap ("rolling restart failed for nodePool " +:+ pool_Name pool)
                        (OrchestrateRestart sts health true) ;;
            let updated := wrap32 (updated + rr_UpdatedPods result) in
            if bool_decide (rr_Phase result = RestartPhaseInProgress) then
              io_ret (Some {| rr_Phase := RestartPhaseInProgress; rr_TotalPods := total;
                              rr_UpdatedPods := updated; rr_CurrentPod := rr_CurrentPod result;
                              rr_Message := "pool " +:+ pool_Name pool +:+ ": "
                                            +:+ rr_Message result |})
            else restart_pools cluster health total updated pools
      end
  end.

Definition orchestrateNodePoolRollingRestart (cluster : WazuhCluster) (spec : WazuhIndexerClusterSpec)
    : RIO (option RestartResult) :=
  try client <- ensured cluster ;;
  match client with
  | Err _ => io_ret None
  | Ok c =>
      on_kube (restart_pools cluster (indexer_IsHealthyForRestart c (GetTotalReplicas spec)) 0 0
                 (ix_NodePools spec))
  end.

Definition OrchestrateRollingRestart (cluster : WazuhCluster) : RIO (option RestartResult) :=
  match wc_SpecIndexer cluster with
  | None => io_ret None
  | Some spec =>
      if IsAdvancedMode spec then orchestrateNodePoolRollingRestart cluster spec
      else
        let stsName := IndexerName (wc_Name cluster) in
        sts <- io_wrap ("failed to get indexer StatefulSet " +:+ stsName)
                 (on_kube (io_api (get_statefulset (wc_Namespace cluster) stsName))) ;;
        if bool_decide (sts_UpdateRevision sts = sts_CurrentRevision sts) then io_ret None
        else
          try client <- ensured cluster ;;
          match client with
          | Err _ => io_ret None
          | Ok c =>
              result <- io_wrap "rolling restart failed for indexer"
                          (on_kube (OrchestrateRestart sts
                             (indexer_IsHealthyForRestart c (ix_Replicas spec)) true)) ;;
              io_ret (Some result)
          end
  end.
End Indexer.

(** ** The status the controller derives ([updateRollingRestartStatus]) *)
(** One of the three equal blocks. *)
Definition update_component (now : Z) (old : option ComponentRollingRestart)
    (r : option RestartResult) : option ComponentRollingRestart :=
  match r with
  | Some r =>
      if bool_decide (rr_Phase r <> RestartPhaseIdle) then
        Some {| crr_Phase := rr_Phase r; crr_TotalPods := rr_TotalPods r;
                crr_UpdatedPods := rr_UpdatedPods r; crr_CurrentPod := rr_CurrentPod r;
                crr_Message := rr_Message r;
                crr_StartTime := default now (crr_StartTime <$> old);
                crr_LastTransitionTime := now |}
      else None
  | None => None
  end.

Definition updateRollingRestartStatus (now : Z) (status : option RollingRestartStatus)
    (indexerRestart masterRestart workerRestart : option RestartResult) (hasRollingRestart : bool)
    : option RollingRestartStatus :=
  match hasRollingRestart, indexerRestart, masterRestart, workerRestart with
  | false, None, None, None => None
  | _, _, _, _ =>
      let component f := s ← status; f s in
      let indexer := update_component now (component rrs_Indexer) indexerRestart in
      let master := update_component now (component rrs_ManagerMaster) masterRestart in
      let worker := update_component now (component rrs_ManagerWorker) workerRestart in
      match indexer, master, worker with
      | None, None, None => None
      | _, _, _ => Some {| rrs_InProgress := hasRollingRestart; rrs_Indexer := indexer;
                           rrs_ManagerMaster := master; rrs_ManagerWorker := worker |}
      end
  end.

Definition RequeueIntervalNormal : duration := 30 * Second.
Definition RequeueIntervalPendingRollout : duration := 5 * Second.
Definition RequeueIntervalRollingRestart : duration := 10 * Second.

Definition determineRequeueInterval (hasPendingRollouts hasRollingRestart : bool) : duration :=
  if hasPendingRollouts then RequeueIntervalPendingRollout
  else if hasRollingRestart then RequeueIntervalRollingRestart
  else RequeueIntervalNormal.

(** ** Lemmas *)
Section SortLemmas.
Context {A : Type} (less : A -> A -> bool).

Lemma insert_by_perm x l : insert_by less x l ≡ₚ x :: l.
Proof.
  induction l as [|y l IH]; cbn; [done|]. destruct (less x y); [done|].
  rewrite IH. apply Permutation_swap.
Qed.

Lemma sort_by_perm l : sort_by less l ≡ₚ l.
Proof.
  unfold sort_by. enough (forall acc, fold_left (fun s x => insert_by less x s) l acc ≡ₚ acc ++ l) as H
    by apply (H []).
  induction l as [|x l IH]; intros acc; cbn; [by rewrite app_nil_r|].
  rewrite IH, insert_by_perm. cbn. by rewrite Permutation_middle.
Qed.

(** The first element comes first in the order. *)
Definition heads (l : list A) : Prop :=
  match l with [] => True | x :: l => Forall (fun y => less y x = false) l end.

Lemma insert_by_heads x l :
  (forall a b, less a b = true -> less b a = false) ->
  (forall a b c, less b a = false -> less c b = false -> less c a = false) ->
  heads l -> heads (insert_by less x l).
Proof.
  intros Has Htr. destruct l as [|y l]; cbn; [done|]. intros Hl.
  destruct (less x y) eqn:E; cbn.
  - pose proof (Has _ _ E). constructor; [done|].
    eapply Forall_impl; [exact Hl|]. cbn. eauto.
  - apply Forall_forall. intros z Hz. rewrite insert_by_perm in Hz.
    apply elem_of_cons in Hz as [->|Hz]; [done|]. rewrite Forall_forall in Hl. by apply Hl.
Qed.

Lemma sort_by_heads l :
  (forall a b, less a b = true -> less b a = false) ->
  (forall a b c, less b a = false -> less c b = false -> less c a = false) ->
  heads (sort_by less l).
Proof.
  intros Has Htr. unfold sort_by.
  enough (forall acc, heads acc -> heads (fold_left (fun s x => insert_by less x s) l acc)) as H
    by by apply H.
  induction l as [|x l IH]; intros acc Hacc; cbn; [done|]. apply IH. by apply insert_by_heads.
Qed.
End SortLemmas.

Lemma ordinal_sorted b l p rest :
  sort_by (ordinal_less b) l = p :: rest ->
  In p l /\
  forall q, In q l -> if b then extractOrdinal (pod_Name q) <= extractOrdinal (pod_Name p)
                      else extractOrdinal (pod_Name p) <= extractOrdinal (pod_Name q).
Proof.
  intros E. pose proof (sort_by_perm (ordinal_less b) l) as Hp.
  assert (Hh : heads (ordinal_less b) (sort_by (ordinal_less b) l)).
  { apply sort_by_heads; unfold ordinal_less; destruct b; intros *;
      rewrite ?bool_decide_eq_true, ?bool_decide_eq_false; lia. }
  rewrite E in Hp, Hh. split.
  - apply list_elem_of_In. rewrite <-Hp. by left.
  - intros q Hq. apply list_elem_of_In in Hq. rewrite <-Hp in Hq.
    apply elem_of_cons in Hq as [->|Hq]; [destruct b; lia|].
    cbn in Hh. rewrite Forall_forall in Hh. specialize (Hh _ Hq).
    unfold ordinal_less in Hh. destruct b; apply bool_decide_eq_false in Hh; lia.
Qed.

(** ** What one step does *)
Section Steps.
Context {S : Type} `{!KubeClient S}.

Definition outdated_of (sts : StatefulSet) (owned : list Pod) : list Pod :=
  List.filter (fun p => negb (is_updated (sts_UpdateRevision sts) p)) owned.

Definition restart_result (sts : StatefulSet) (owned : list Pod) (phase : RestartPhase)
    (current message : string) : RestartResult :=
  {| rr_Phase := phase; rr_TotalPods := wrap32 (Z.of_nat (length owned));
     rr_UpdatedPods :=
       wrap32 (Z.of_nat (length (List.filter (is_updated (sts_UpdateRevision sts)) owned)));
     rr_CurrentPod := current; rr_Message := message |}.

(** The specification of a step: the cases, what they need and what they do to
    the world. *)
Inductive restart_step (sts : StatefulSet) (health : HealthChecker S) (high : bool) (w : S)
    : result RestartResult -> S -> Prop :=
| step_idle m :
    sts_UpdateRevision sts = sts_CurrentRevision sts ->
    restart_step sts health high w
      (Ok {| rr_Phase := RestartPhaseIdle; rr_TotalPods := sts_Replicas sts;
             rr_UpdatedPods := sts_Replicas sts; rr_CurrentPod := ""; rr_Message := m |}) w
| step_no_list e e' w1 :
    list_pods (sts_Namespace sts) (sts_MatchLabels sts) w = (Failed e', w1) ->
    restart_step sts health high w (Err e) w1
| step_complete pods w1 m :
    list_pods (sts_Namespace sts) (sts_MatchLabels sts) w = (Found pods, w1) ->
    outdated_of sts (List.filter (owned_by sts) pods) = [] ->
    restart_step sts health high w
      (Ok (restart_result sts (List.filter (owned_by sts) pods) RestartPhaseComplete "" m)) w1
| step_wait_pod pods w1 p m :
    list_pods (sts_Namespace sts) (sts_MatchLabels sts) w = (Found pods, w1) ->
    outdated_of sts (List.filter (owned_by sts) pods) <> [] ->
    In p pods -> owned_by sts p = true -> isPodReady p = false ->
    restart_step sts health high w
      (Ok (restart_result sts (List.filter (owned_by sts) pods) RestartPhaseInProgress (pod_Name p) m)) w1
| step_unhealthy pods w1 w2 msg m :
    list_pods (sts_Namespace sts) (sts_MatchLabels sts) w = (Found pods, w1) ->
    health w1 = (Ok (false, msg), w2) ->
    restart_step sts health high w
      (Ok (restart_result sts (List.filter (owned_by sts) pods) RestartPhaseInProgress "" m)) w2
| step_no_health pods w1 e e' w2 :
    list_pods (sts_Namespace sts) (sts_MatchLabels sts) w = (Found pods, w1) ->
    health w1 = (Err e', w2) ->
    restart_step sts health high w (Err e) w2
| step_delete pods w1 msg w2 p r w3 :
    list_pods (sts_Namespace sts) (sts_MatchLabels sts) w = (Found pods, w1) ->
    (forall q, In q pods -> owned_by sts q = true -> isPodReady q = true) ->
    health w1 = (Ok (true, msg), w2) ->
    In p (outdated_of sts (List.filter (owned_by sts) pods)) ->
    (forall q, In q (outdated_of sts (List.filter (owned_by sts) pods)) ->
       if high then extractOrdinal (pod_Name q) <= extractOrdinal (pod_Name p)
       else extractOrdinal (pod_Name p) <= extractOrdinal (pod_Name q)) ->
    delete_pod p w2 = (r, w3) ->
    forall res, match r with
    | Found _ => exists m, res = Ok (restart_result sts (List.filter (owned_by sts) pods)
                                       RestartPhaseInProgress (pod_Name p) m)
    | Failed _ => exists e, res = Err e
    end ->
    restart_step sts health high w res w3.

Lemma OrchestrateRestart_step sts health high w :
  let '(r, w') := OrchestrateRestart sts health high w in restart_step sts health high w r w'.
Proof.
  unfold OrchestrateRestart. case_bool_decide as Hrev; [by apply step_idle|].
  unfold io_bind at 1, io_wrap at 1, io_api at 1.
  destruct (list_pods _ _ w) as [[pods|e] w1] eqn:El; cbn [wrapf].
  2: { by eapply step_no_list. }
  fold (outdated_of sts (List.filter (owned_by sts) pods)).
  set (owned := List.filter (owned_by sts) pods) in *.
  destruct (outdated_of sts owned) as [|o os] eqn:Eo; [by eapply step_complete|].
  destruct (List.find _ owned) as [p|] eqn:Ef.
  { apply find_some in Ef as [Hin Hr]. apply negb_true_iff in Hr.
    apply filter_In in Hin as [Hin Hown]. eapply step_wait_pod; eauto. unfold owned in Eo. by rewrite Eo. }
  unfold io_bind at 1, io_wrap at 1. destruct (health w1) as [[[[] msg]|e] w2] eqn:Eh; cbn [wrapf negb].
  2: { by eapply step_unhealthy. }
  2: { by eapply step_no_health. }
  destruct (sort_by _ _) as [|p rest] eqn:Es.
  { pose proof (sort_by_perm (ordinal_less high) (o :: os)) as Hp. rewrite Es in Hp.
    by apply Permutation_nil_cons in Hp. }
  destruct (ordinal_sorted high (o :: os) p rest Es) as [Hp Hmax]. rewrite <-Eo in Hp, Hmax.
  unfold io_bind at 1, io_wrap at 1, io_api at 1.
  destruct (delete_pod p w2) as [r w3] eqn:Ed.
  assert (Hall : forall q, In q pods -> owned_by sts q = true -> isPodReady q = true).
  { intros q Hq Hown. apply find_none with (x := q) in Ef; [by apply negb_false_iff in Ef|].
    apply filter_In. by split. }
  destruct r as [[]|e]; cbn [wrapf]; (eapply step_delete; [exact El|exact Hall|exact Eh|exact Hp|exact Hmax|exact Ed|]);
    cbn; by eexists.
Qed.

(** The steps of the environment that the operator counts on: the list shows
    the StatefulSet's pods, and a pod that is deleted is replaced by one of the
    new revision that becomes ready (what the StatefulSet controller does with
    the OnDelete strategy). *)
Class RestartEnv (sts : StatefulSet) := {
  pods_of : S -> list Pod;
  renewed : Pod -> Pod;
  env_list w : list_pods (sts_Namespace sts) (sts_MatchLabels sts) w = (Found (pods_of w), w);
  env_delete p w : exists w', delete_pod p w = (Found tt, w') /\
    pods_of w' = map (fun q => if bool_decide (pod_Name q = pod_Name p) then renewed q else q) (pods_of w);
  env_renewed p : is_updated (sts_UpdateRevision sts) (renewed p) = true /\
    isPodReady (renewed p) = true /\ owned_by sts (renewed p) = owned_by sts p
}.

Definition all_ready (sts : StatefulSet) `{!RestartEnv sts} (w : S) : Prop :=
  forall p, In p (pods_of w) -> owned_by sts p = true -> isPodReady p = true.

Definition count_outdated (sts : StatefulSet) `{!RestartEnv sts} (w : S) : nat :=
  length (outdated_of sts (List.filter (owned_by sts) (pods_of w))).

Lemma outdated_renewed sts `{!RestartEnv sts} p l :
  let l' := map (fun q => if bool_decide (pod_Name q = pod_Name p) then renewed q else q) l in
  outdated_of sts (List.filter (owned_by sts) l') =
  List.filter (fun q => negb (bool_decide (pod_Name q = pod_Name p)))
    (outdated_of sts (List.filter (owned_by sts) l)).
Proof.
  cbn. unfold outdated_of. induction l as [|q l IH]; cbn; [done|].
  destruct (bool_decide (pod_Name q = pod_Name p)) eqn:E.
  - destruct (env_renewed q) as (Hu & _ & ->). destruct (owned_by sts q); cbn; rewrite ?Hu; cbn; [|done].
    destruct (is_updated _ q); cbn; rewrite ?E; cbn; done.
  - destruct (owned_by sts q); cbn; [|done].
    destruct (is_updated _ q); cbn; rewrite ?E; cbn; congruence.
Qed.

Lemma filter_length_lt {A} (f : A -> bool) l x :
  In x l -> f x = false -> (length (List.filter f l) < length l)%nat.
Proof.
  induction l as [|y l IH]; cbn; [done|]. pose proof (List.filter_length_le f l).
  intros [->|Hin] Hf; [rewrite Hf; lia|]. specialize (IH Hin Hf). destruct (f y); cbn; lia.
Qed.

(** A step in such an environment, the health check saying yes. *)
Lemma restart_progress sts `{!RestartEnv sts} health high w :
  sts_UpdateRevision sts <> sts_CurrentRevision sts ->
  (forall w, exists msg, health w = (Ok (true, msg), w)) ->
  all_ready sts w ->
  exists r w', OrchestrateRestart sts health high w = (Ok r, w') /\ all_ready sts w' /\
    ((count_outdated sts w = 0%nat /\ rr_Phase r = RestartPhaseComplete /\ w' = w) \/
     (rr_Phase r = RestartPhaseInProgress /\ (count_outdated sts w' < count_outdated sts w)%nat)).
Proof.
  intros Hrev Hh Hr. pose proof (OrchestrateRestart_step sts health high w) as Hs.
  destruct (OrchestrateRestart sts health high w) as [r w'].
  assert (El := env_list w). destruct (Hh w) as [msg0 Hw].
  destruct Hs as [m E|e e' w1 E|pods w1 m E Eo|pods w1 p m E Eo Hin Hown Hnr|pods w1 w2 msg m E Eh
    |pods w1 e e' w2 E Eh|pods w1 msg w2 p rd w3 E Hall Eh Hp Hmax Ed res Hres];
    rewrite ?El in E; try done; try injection E as <- <-.
  - eexists _, _. split; [done|]. split; [done|]. left. unfold count_outdated. by rewrite Eo.
  - specialize (Hr _ Hin Hown). congruence.
  - congruence.
  - congruence.
  - rewrite Hw in Eh. injection Eh as _ <-.
    destruct (env_delete p w) as (w2 & Ed' & Hpods). rewrite Ed in Ed'. simplify_eq.
    destruct Hres as [m ->]. eexists _, _. split; [done|]. split; [|right; split; [done|]].
    + intros q Hq Hown. rewrite Hpods in Hq. apply in_map_iff in Hq as (q' & Hq & Hin).
      destruct (env_renewed q') as (_ & Hready & Ho). case_bool_decide; subst q; [done|]. by apply Hr.
    + unfold count_outdated. rewrite Hpods, outdated_renewed.
      apply (filter_length_lt _ _ p Hp). by rewrite bool_decide_true.
Qed.
End Steps.

(** ** Counting deletions

    The same client with a log of the pods it was asked to delete. *)
Definition logged {S} (K : KubeClient S) : KubeClient (list Pod * S) := {|
  get_statefulset ns n := lift_snd (get_statefulset ns n);
  update_statefulset s := lift_snd (update_statefulset s);
  list_pods ns l := lift_snd (list_pods ns l);
  delete_pod p := fun '(log, w) => let '(r, w') := delete_pod p w in (r, (log ++ [p], w'));
  get_secret ns n := lift_snd (get_secret ns n)
|}.

Section Logged.
Context {S : Type} (K : KubeClient S).
Let KL := logged K.

Lemma frames_api {A} (m : API S A) : frames (io_api (lift_snd (X := list Pod) m)).
Proof. intros d w. unfold io_api, lift_snd. destruct (m w) as [r w']. by exists w'. Qed.

Lemma frames_outcome {A} (m : API S A) : frames (io_outcome (lift_snd (X := list Pod) m)).
Proof. intros d w. unfold io_outcome, lift_snd. destruct (m w) as [r w']. by exists w'. Qed.

(** What a computation may add to the log: nothing, or one pod when its answer
    says that a restart is in progress (or failed). *)
Definition one_delete {A} (busy : A -> bool) (m : IO (list Pod * S) A) : Prop :=
  forall log w r log' w', m (log, w) = (r, (log', w')) ->
    log' = log \/ ((exists p, log' = log ++ [p]) /\ match r with Ok a => busy a = true | Err _ => True end).

Lemma one_delete_frames {A} busy (m : IO (list Pod * S) A) : frames m -> one_delete busy m.
Proof. intros Hm log w r log' w' E. destruct (Hm log w) as [w1 H]. rewrite E in H. left. by simplify_eq/=. Qed.

Lemma one_delete_wrap {A} busy c (m : IO (list Pod * S) A) :
  one_delete busy m -> one_delete busy (io_wrap c m).
Proof.
  intros Hm log w r log' w' E. unfold io_wrap in E. destruct (m (log, w)) as [r1 [l1 w1]] eqn:E1.
  simplify_eq. destruct (Hm _ _ _ _ _ E1) as [->|[Hp Hb]]; [by left|right]. split; [done|].
  by destruct r1.
Qed.

(** After a deletion nothing more is deleted. *)
Lemma one_delete_bind {A B} busy busy' (m : IO (list Pod * S) A) (k : A -> IO (list Pod * S) B) :
  one_delete busy m ->
  (forall a, if busy a then forall log w r log' w', k a (log, w) = (r, (log', w')) ->
                             log' = log /\ match r with Ok b => busy' b = true | Err _ => True end
             else one_delete busy' (k a)) ->
  one_delete busy' (io_bind m k).
Proof.
  intros Hm Hk log w r log' w' E. unfold io_bind in E.
  destruct (m (log, w)) as [[a|e] [l1 w1]] eqn:E1; destruct (Hm _ _ _ _ _ E1) as [->|[[p ->] Hb]].
  - specialize (Hk a). destruct (busy a); [|by apply (Hk _ _ _ _ _ E)].
    left. by apply (Hk _ _ _ _ _ E).
  - specialize (Hk a). rewrite Hb in Hk. destruct (Hk _ _ _ _ _ E) as [-> Hr]. right. eauto.
  - simplify_eq. by left.
  - simplify_eq. right. eauto.
Qed.

Lemma one_delete_read {A B} busy (m : IO (list Pod * S) A) (k : A -> IO (list Pod * S) B) :
  frames m -> (forall a, one_delete busy (k a)) -> one_delete busy (io_bind m k).
Proof.
  intros Hm Hk. apply (one_delete_bind (fun _ => false)); [by apply one_delete_frames|done].
Qed.

Lemma one_delete_ret {A} busy (a : A) : one_delete busy (io_ret a).
Proof. apply one_delete_frames, frames_ret. Qed.

Lemma one_delete_err {A} (busy : A -> bool) e : one_delete busy (io_err e).
Proof. apply one_delete_frames, frames_err. Qed.

Definition busy_result (r : RestartResult) : bool := in_progress (Some r).

Lemma OrchestrateRestart_one sts (health : HealthChecker (list Pod * S)) high :
  frames health -> one_delete busy_result (@OrchestrateRestart _ KL sts health high).
Proof.
  intros Hh. unfold OrchestrateRestart. case_bool_decide; [apply one_delete_ret|].
  apply one_delete_read; [apply frames_wrap, frames_api|]. intros pods.
  destruct (List.filter _ (List.filter _ pods)) as [|o os]; [apply one_delete_ret|].
  destruct (List.find _ _); [apply one_delete_ret|].
  apply one_delete_read; [by apply frames_wrap|]. intros [[] msg]; cbn [negb]; [|apply one_delete_ret].
  destruct (sort_by _ _) as [|p rest]; [apply one_delete_err|].
  intros log w r log' w' E. right. unfold io_bind, io_wrap, io_api in E. cbn in E.
  destruct (delete_pod p w) as [[[]|e] w1]; unfold io_ret in E; cbn in E; simplify_eq; eauto.
Qed.

Lemma manager_sts_one cluster name what labels :
  one_delete in_progress (@orchestrate_manager_sts _ KL cluster name what labels).
Proof.
  unfold orchestrate_manager_sts. apply one_delete_read; [apply frames_outcome|].
  intros [sts|e]; [|destruct (IsNotFound e); [apply one_delete_ret|apply one_delete_err]].
  case_bool_decide; [apply one_delete_ret|].
  eapply (one_delete_bind busy_result); [apply OrchestrateRestart_one|].
  - unfold ManagerWorkerHealthChecker. apply frames_bind; [apply frames_wrap, frames_api|].
    intros pods. apply frames_ret.
  - intros r. destruct (busy_result r) eqn:E; [|apply one_delete_ret].
    intros log w r' log' w' Hk. unfold io_ret in Hk. by simplify_eq.
Qed.

Lemma restart_pools_one cluster health total updated pools :
  frames health -> one_delete in_progress (@restart_pools _ KL cluster health total updated pools).
Proof.
  intros Hh. revert total updated. induction pools as [|pool pools IH]; intros total updated;
    cbn [restart_pools]; [apply one_delete_ret|].
  apply one_delete_read; [apply frames_outcome|]. intros [sts|e]; [|apply IH].
  case_bool_decide; [apply IH|].
  eapply (one_delete_bind busy_result); [by apply one_delete_wrap, OrchestrateRestart_one|].
  intros r. unfold busy_result, in_progress. case_bool_decide as Hp; [|apply IH].
  intros log w r' log' w' Hk. unfold io_ret in Hk. simplify_eq. split; [done|]. by rewrite bool_decide_true.
Qed.
End Logged.

Lemma indexer_healthy {S} (os_at : ClientConfig -> OpenSearchService S) c n w msg w' :
  indexer_IsHealthyForRestart os_at c n w = (Ok (true, msg), w') ->
  exists h w1 w2, @replied S _ (@get_cluster_health S (os_at c)) w1 h w2 /\
    ch_Status h <> "red" /\ ch_RelocatingShards h <= 0 /\ ch_InitializingShards h <= 0 /\
    n <= ch_NumberOfNodes h.
Proof.
  unfold indexer_IsHealthyForRestart. intros (h & w1 & Hh & H)%io_bind_ok.
  apply io_wrap_ok, (@GetClusterHealth_ok S (os_at c)) in Hh. unfold io_ret in H.
  repeat case_bool_decide; simplify_eq. exists h, w, w'. split_and!; [done|done|lia|lia|lia].
Qed.

(** ** Properties *)
Section Properties.
Context {S : Type} {K : KubeClient S}.

(** C12: every run of the orchestrator is one step of its specification: it
    deletes a pod only after it has seen every pod of the StatefulSet ready
    and the health check said yes, only a pod of an old revision, and of those
    the one with the highest (or lowest) ordinal; a failing call ends it with
    an error. *)
Theorem rolling_restart_step sts (health : HealthChecker S) high w r w' :
  OrchestrateRestart sts health high w = (r, w') -> restart_step sts health high w r w'.
Proof.
  intros E. pose proof (OrchestrateRestart_step sts health high w) as H. by rewrite E in H.
Qed.

(** C16: a rolling restart terminates: where deleted pods come back renewed and
    ready and the health check keeps saying yes, at most as many runs as there
    are outdated pods bring every pod to the new revision, and the next run
    reports completion. *)
Theorem rolling_restart_converges sts `{!RestartEnv sts} (health : HealthChecker S) high w n :
  sts_UpdateRevision sts <> sts_CurrentRevision sts ->
  (forall w, exists msg, health w = (Ok (true, msg), w)) ->
  all_ready sts w -> (count_outdated sts w <= n)%nat ->
  let w' := Nat.iter n (fun w => (OrchestrateRestart sts health high w).2) w in
  count_outdated sts w' = 0%nat /\
  exists r, OrchestrateRestart sts health high w' = (Ok r, w') /\ rr_Phase r = RestartPhaseComplete.
Proof.
  intros Hrev Hh. revert w. induction n as [|n IH]; intros w Hr Hn; cbn zeta.
  - assert (count_outdated sts w = 0%nat) as H0 by lia. cbn [Nat.iter nat_rect]. split; [done|].
    destruct (restart_progress sts health high w Hrev Hh Hr) as (r & w' & E & _ & [(_ & Hp & ->)|(_ & Hlt)]);
      [eauto|lia].
  - destruct (restart_progress sts health high w Hrev Hh Hr) as (r & w' & E & Hr' & [(H0 & _ & ->)|(_ & Hlt)]);
      rewrite Nat.iter_succ_r, E; cbn [snd]; apply IH; try done; lia.
Qed.


(** the master is restarted after the workers: the master's StatefulSet is
    looked at only when the workers' restart is not in progress; while it is,
    the run ends with the world as the workers' step left it. *)
Theorem workers_before_master cluster w master worker w' :
  OrchestrateManagerRollingRestart cluster w = (Ok (master, worker, None), w') ->
  wc_SpecManager cluster <> None ->
  exists w1, orchestrateWorkerRestart cluster w = (Ok worker, w1) /\
    (if in_progress worker then master = None /\ w' = w1
     else orchestrateMasterRestart cluster w1 = (Ok master, w')).
Proof.
  unfold OrchestrateManagerRollingRestart. destruct (wc_SpecManager cluster) as [spec|]; [|done]. intros H _.
  unfold io_try at 1 in H. destruct (orchestrateWorkerRestart cluster w) as [[wk|e] w1]; [|done]. exists w1.
  destruct (in_progress wk) eqn:E; [unfold io_ret in H; simplify_eq; by rewrite E|].
  unfold io_try in H. destruct (orchestrateMasterRestart cluster w1) as [[m|e] w2] eqn:E2; [|done].
  unfold io_ret in H. simplify_eq. by rewrite E.
Qed.

(** an indexer pod is deleted only while OpenSearch reports a cluster that
    is not red, moves and initializes no shard, and has at least the desired
    number of nodes. *)
Theorem indexer_restart_needs_health (os_at : ClientConfig -> OpenSearchService S) c n sts high
    log w r p w' :
  @OrchestrateRestart _ (logged K) sts (io_world (indexer_IsHealthyForRestart os_at c n)) high (log, w)
    = (r, (log ++ [p], w')) ->
  owned_by sts p = true /\ is_updated (sts_UpdateRevision sts) p = false /\
  exists h w1 w2, @replied S _ (@get_cluster_health S (os_at c)) w1 h w2 /\
    ch_Status h <> "red" /\ ch_RelocatingShards h <= 0 /\ ch_InitializingShards h <= 0 /\
    n <= ch_NumberOfNodes h.
Proof.
  intros E. pose proof (@OrchestrateRestart_step _ (logged K) sts
    (io_world (indexer_IsHealthyForRestart os_at c n)) high (log, w)) as H. rewrite E in H. clear E.
  assert (Hself : log ++ [p] <> log).
  { intros Hl. apply (f_equal (@length Pod)) in Hl. rewrite length_app in Hl. cbn in Hl. lia. }
  assert (Hl : forall ns l r s, @list_pods _ (logged K) ns l (log, w) = (r, s) -> s.1 = log).
  { intros ns l r0 s. cbn. unfold lift_snd. destruct (list_pods ns l w). by intros; simplify_eq. }
  assert (Hh : forall s r s', s.1 = log ->
    io_world (indexer_IsHealthyForRestart os_at c n) s = (r, s') -> s'.1 = log).
  { intros [l s] r0 s' Hlog. cbn in Hlog. subst l. intros (w1 & -> & _)%io_world_ok. done. }
  inversion H as [m E|e e' w1 E|pods w1 m E Eo|pods w1 q m E Eo Hin Hown Hnr|pods w1 w2 msg m E Eh
    |pods w1 e e' w2 E Eh|pods w1 msg w2 q rd w3 E Hall Eh Hp Hmax Ed res Hres]; subst;
    try (apply Hl in E; done); try (apply Hl in E; apply Hh in Eh; done).
  - done.
  - pose proof (Hl _ _ _ _ E) as H1. pose proof (Hh _ _ _ H1 Eh) as H2.
    destruct w1 as [l1 w1], w2 as [l2 w2]. cbn in H1, H2. subst l1 l2.
    cbn in Ed. destruct (delete_pod q w2) as [rq wq]. injection Ed as _ Hq _.
    apply app_inj_tail in Hq as [_ ->].
    apply filter_In in Hp as [Hp Hu]. apply filter_In in Hp as [_ Hown].
    split; [done|]. split; [by apply negb_true_iff|].
    apply io_world_ok in Eh as (w3 & Ew & Eh). injection Ew as ->.
    by apply (indexer_healthy _ _ _ _ _ _ Eh).
Qed.

(** what a manager restart does not see: pods that are not there.  The
    health check and the orchestrator look at the listed pods only, so as long
    as those are ready the next outdated pod is deleted, whatever the number
    of replicas the StatefulSet should have, for instance when the pod deleted
    before has not been created again yet. *)
Theorem manager_restart_ignores_missing_pods cluster sts name what labels pods pods' w0 w1 w2 w3 :
  get_statefulset (wc_Namespace cluster) name w0 = (Found sts, w1) ->
  sts_UpdateRevision sts <> sts_CurrentRevision sts ->
  list_pods (sts_Namespace sts) (sts_MatchLabels sts) w1 = (Found pods, w2) ->
  list_pods (wc_Namespace cluster) labels w2 = (Found pods', w3) ->
  (forall p, In p pods -> owned_by sts p = true -> isPodReady p = true) ->
  (forall p, In p pods' -> isPodReady p = true) ->
  outdated_of sts (List.filter (owned_by sts) pods) <> [] ->
  exists p, In p (outdated_of sts (List.filter (owned_by sts) pods)) /\
    (orchestrate_manager_sts cluster name what labels w0).2 = (delete_pod p w3).2.
Proof.
  intros Hg Hrev El El' Hr Hr' Ho. unfold orchestrate_manager_sts, io_bind at 1, io_outcome.
  rewrite Hg, bool_decide_false by done. unfold io_bind at 1.
  pose proof (OrchestrateRestart_step sts (ManagerWorkerHealthChecker (wc_Namespace cluster) labels)
    true w1) as H.
  assert (Hh : exists msg, ManagerWorkerHealthChecker (wc_Namespace cluster) labels w2 = (Ok (true, msg), w3)).
  { unfold ManagerWorkerHealthChecker, io_bind, io_wrap, io_api. rewrite El'. cbn.
    destruct (List.find _ pods') as [p|] eqn:Ef; [|by eexists].
    apply find_some in Ef as [Hin Hn]. by rewrite (Hr' _ Hin) in Hn. }
  destruct Hh as [msg0 Hh]. destruct (OrchestrateRestart _ _ _ w1) as [r w'].
  destruct H as [m E|e e' w4 E|ps w4 m E Eo|ps w4 p m E Eo Hin Hown Hnr|ps w4 w5 msg m E Eh
    |ps w4 e e' w5 E Eh|ps w4 msg w5 p rd w6 E Hall Eh Hp Hmax Ed res Hres];
    rewrite ?El in E; try done; try injection E as <- <-; try congruence.
  - specialize (Hr _ Hin Hown). congruence.
  - rewrite Hh in Eh. injection Eh as _ <-. exists p. split; [done|]. rewrite Ed. destruct rd as [[]|]; [destruct Hres as [m ->]|destruct Hres as [? ->]]; done.
Qed.
End Properties.

(** ** StatefulSets to try the theorems on *)
Module SimRestart.
Definition rolled (name : string) (spec : Z) : StatefulSet :=
  {| sts_Name := name; sts_Namespace := "ns"; sts_UID := "uid-" +:+ name;
     sts_SpecReplicas := Some spec; sts_MatchLabels := {[ "app" := name ]};
     sts_Replicas := spec; sts_ReadyReplicas := spec; sts_UpdatedReplicas := 0;
     sts_CurrentRevision := "r1"; sts_UpdateRevision := "r2";
     sts_Generation := 2; sts_ObservedGeneration := 2 |}.

Definition pod (sts name revision : string) : Pod :=
  {| pod_Name := name; pod_Namespace := "ns";
     pod_Labels := <["controller-revision-hash" := revision]> {[ "app" := sts ]};
     pod_OwnerUIDs := ["uid-" +:+ sts];
     pod_Conditions := [("Initialized", "True"); ("Ready", "True")]; pod_RestartCounts := [0] |}.

(** The pods of one StatefulSet, with the StatefulSet controller at work: a
    deleted pod comes back with the new revision. *)
Definition renew (p : Pod) : Pod :=
  {| pod_Name := pod_Name p; pod_Namespace := pod_Namespace p;
     pod_Labels := <["controller-revision-hash" := "r2"]> (pod_Labels p);
     pod_OwnerUIDs := pod_OwnerUIDs p; pod_Conditions := [("Ready", "True")];
     pod_RestartCounts := pod_RestartCounts p |}.

Definition workers : StatefulSet := rolled "w-manager-worker" 3.

#[global] Instance client : KubeClient (list Pod) := {
  get_statefulset ns n w :=
    (if bool_decide (n = sts_Name workers) then Found workers else Failed (NotFound n), w);
  update_statefulset _ w := (Found tt, w);
  list_pods _ _ w := (Found w, w);
  delete_pod p w :=
    (Found tt, map (fun q => if bool_decide (pod_Name q = pod_Name p) then renew q else q) w);
  get_secret _ n w := (Failed (NotFound n), w)
}.

#[global] Program Instance env : RestartEnv workers := {| pods_of w := w; renewed := renew |}.
Next Obligation. done. Qed.
Next Obligation. intros p w. by eexists. Qed.
Next Obligation.
  intros p. split; [|done]. unfold is_updated, pod_revision, renew. cbn [pod_Labels].
  by rewrite lookup_insert_eq.
Qed.

Definition three : list Pod :=
  map (fun i => pod "w-manager-worker" ("w-manager-worker-" +:+ pretty i) "r1") [0; 1; 2].

Definition yes : HealthChecker (list Pod) := fun w => (Ok (true, "healthy"), w).

Definition cluster : WazuhCluster :=
  {| wc_Name := "w"; wc_Namespace := "ns"; wc_SpecDrain := None; wc_SpecIndexer := None;
     wc_SpecManager := Some three_workers;
     wc_SpecDashboard := None; wc_StatusDrain := None; wc_StatusLastUpdate := None;
     wc_Meta := no_meta; wc_Spec := no_refs; wc_Status := no_status |}.

(** The same StatefulSet without its controller: deleted pods stay away.  The
    pod deleted last, ordinal 2, has not come back. *)
Definition still : KubeClient (list Pod) := {|
  get_statefulset ns n := @get_statefulset _ client ns n;
  update_statefulset s := @update_statefulset _ client s;
  list_pods ns l := @list_pods _ client ns l;
  delete_pod p w :=
    (Found tt, List.filter (fun q => negb (bool_decide (pod_Name q = pod_Name p))) w);
  get_secret ns n := @get_secret _ client ns n
|}.
Definition two_left : list Pod := take 2 three.

(** The indexer of [Sites.two_clusters] with a new revision. *)
Definition indexer_sts : StatefulSet := rolled "a-indexer" 3.
Definition indexer_site : Sites.site :=
  Sites.set_kube
    {| SimKube.k_statefulsets := [indexer_sts];
       SimKube.k_pods := [pod "a-indexer" "a-indexer-0" "r1"; pod "a-indexer" "a-indexer-2" "r1";
                          pod "a-indexer" "a-indexer-1" "r2"];
       SimKube.k_secrets := [] |} Sites.two_clusters.
End SimRestart.

Example rolling_restart_step_witness :
  restart_step SimRestart.workers SimRestart.yes true SimRestart.three
    (OrchestrateRestart SimRestart.workers SimRestart.yes true SimRestart.three).1
    (OrchestrateRestart SimRestart.workers SimRestart.yes true SimRestart.three).2.
Proof. apply rolling_restart_step. apply surjective_pairing. Defined.

Example rolling_restart_converges_witness :
  let w' := Nat.iter 3 (fun w => (OrchestrateRestart SimRestart.workers SimRestart.yes true w).2)
              SimRestart.three in
  count_outdated SimRestart.workers w' = 0%nat /\
  exists r, OrchestrateRestart SimRestart.workers SimRestart.yes true w' = (Ok r, w') /\
    rr_Phase r = RestartPhaseComplete.
Proof.
  apply (rolling_restart_converges SimRestart.workers SimRestart.yes true SimRestart.three 3).
  - discriminate.
  - intros w. eexists. reflexivity.
  - intros p Hp _. cbn in Hp. intuition (subst; reflexivity).
  - vm_compute. lia.
Defined.


Example workers_before_master_witness :
  let run := OrchestrateManagerRollingRestart SimRestart.cluster SimRestart.three in
  exists worker w1, run.1 = Ok (None, Some worker, None) /\
    rr_CurrentPod worker = "w-manager-worker-2" /\
    orchestrateWorkerRestart SimRestart.cluster SimRestart.three = (Ok (Some worker), w1).
Proof.
  destruct (OrchestrateManagerRollingRestart SimRestart.cluster SimRestart.three) as [r w'] eqn:E.
  assert (r = Ok (None, Some (restart_result SimRestart.workers SimRestart.three
    RestartPhaseInProgress "w-manager-worker-2" "deleted pod w-manager-worker-2 (0/3 updated)"), None)) as ->.
  { change r with ((r, w').1). rewrite <-E. vm_compute. reflexivity. }
  destruct (workers_before_master _ _ _ _ _ E) as (w1 & H & _); [discriminate|].
  eexists _, w1. split; [reflexivity|]. split; [reflexivity|exact H].
Defined.

Definition indexer_run :=
  @OrchestrateRestart _ (logged Sites.kube) SimRestart.indexer_sts
    (io_world (indexer_IsHealthyForRestart Sites.os_at (Sites.client "a") 3)) true
    ([], SimRestart.indexer_site).

Example indexer_restart_needs_health_witness :
  let p := SimRestart.pod "a-indexer" "a-indexer-2" "r1" in
  indexer_run = (indexer_run.1, ([] ++ [p], indexer_run.2.2)) /\
  owned_by SimRestart.indexer_sts p = true.
Proof.
  intros p. assert (HA : indexer_run = (indexer_run.1, ([] ++ [p], indexer_run.2.2)))
    by (vm_compute; reflexivity).
  split; [exact HA|]. exact (proj1 (indexer_restart_needs_health _ _ _ _ _ _ _ _ _ _ HA)).
Defined.

(** Two of three workers are left and one of them is deleted. *)
Example manager_restart_ignores_missing_pods_witness :
  exists p, In p (outdated_of SimRestart.workers
                    (List.filter (owned_by SimRestart.workers) SimRestart.two_left)) /\
    (@orchestrateWorkerRestart _ SimRestart.still SimRestart.cluster SimRestart.two_left).2
      = (@delete_pod _ SimRestart.still p SimRestart.two_left).2.
Proof.
  eapply (manager_restart_ignores_missing_pods (K := SimRestart.still) SimRestart.cluster
            SimRestart.workers);
    [reflexivity|discriminate|reflexivity|reflexivity| | |].
  - intros p Hp _. cbn in Hp. intuition (subst; reflexivity).
  - intros p Hp. cbn in Hp. intuition (subst; reflexivity).
  - intros H. apply (f_equal (@length Pod)) in H. vm_compute in H. discriminate.
Defined.
