(* ===== verification/NodePoolDrain.v ===== *)
(** * Scale-down of a node pool ([indexer_reconciler.go], [checkNodePoolScaleDownDrain])

    In the advanced topology every node pool has its own StatefulSet.  Lowering
    a pool's replicas goes through [checkNodePoolScaleDownDrain], which answers
    whether the update of the replicas has to wait; it shares the reconciler's
    client and drainer and the drain status with the gate of [ScaleDown.v]. *)
From S2P Require Import Prelude GoStrings GoFloat Kube OpenSearchAPI.
From S2P Require Import DrainState IndexerDrain Cluster ClientFactory DrainGate ScaleDown.
Local Open Scope go_scope.
Local Open Scope list_scope.

Definition getTotalClusterManagers (cluster : WazuhCluster) : Z :=
  fold_left (fun total pool =>
      if pool_HasClusterManagerRole pool then wrap32 (total + pool_Replicas pool) else total)
    (default [] (ix_NodePools <$> wc_SpecIndexer cluster)) 0.

Section NodePool.
Context {W : Type} (K : KubeClient W) (os_at : ClientConfig -> OpenSearchService W).
Context (sha256_hex : string -> string) (pem_ok : string -> bool) (clusterDomain : string).

Let T := indexer_target K os_at sha256_hex pem_ok clusterDomain.

(** The reconciler, as in [ScaleDown.v]. *)
Definition pool_gate : Type := @indexer_gate W.

(** The StatefulSet of the pool is an argument: [currentReplicas] is its
    [Spec.Replicas]. *)
Definition scale_down_info (cluster : WazuhCluster) (pool : IndexerNodePoolSpec)
    (currentReplicas : Z) : NodePoolScaleDownInfo :=
  {| np_PoolName := pool_Name pool; np_Roles := pool_Roles pool;
     np_CurrentReplicas := currentReplicas; np_DesiredReplicas := pool_Replicas pool;
     np_TargetPodNames :=
       GetNodePoolScaleDownTargets (wc_Name cluster) (pool_Name pool) currentReplicas
         (pool_Replicas pool) |}.

Definition put (s : ComponentDrainStatus) : IO pool_gate unit :=
  io_modify (@put_status _ _ _ _ _ T s).

Definition pool_status : IO pool_gate ComponentDrainStatus :=
  @getOrInitDrainStatus _ _ _ _ _ T.

(** A call of a method of [r.drainer], which talks to its own client. *)
Definition on_pool_drainer {A} (d : indexer_drainer)
    (m : forall c, IO (IndexerDrainer * W) A) : IO pool_gate A :=
  on_drainer d (with_client m).

(** The [switch] on the phase. *)
Definition manage_pool_drain (now : Z) (targetPods : list string) (status : ComponentDrainStatus)
    (d : indexer_drainer) : IO pool_gate bool :=
  match cds_Phase status with
  | DrainPhaseIdle | PhaseUnset =>
      try started <- on_pool_drainer d (fun c => @StartNodePoolDrain W (os_at c) targetPods) ;;
      match started with
      | Err err =>
          put (with_message err (with_phase DrainPhaseFailed status)) ;;;
          io_err (errorf "failed to start drain" err)
      | Ok _ =>
          put (with_last_transition (Some now) (with_start (Some now)
                 (with_message ("Draining " +:+ pretty (Z.of_nat (length targetPods)) +:+ " pods")
                    (with_phase DrainPhaseDraining status)))) ;;;
          io_ret true
      end
  | DrainPhaseDraining =>
      try progress <- on_pool_drainer d (fun c => @MonitorNodePoolDrainProgress W (os_at c) targetPods) ;;
      match progress with
      | Err _ => io_ret true
      | Ok progress =>
          let status := with_message (dp_Message progress) (with_progress (dp_Percent progress) status) in
          put (if dp_IsComplete progress then with_phase DrainPhaseVerifying status else status) ;;;
          io_ret true
      end
  | DrainPhaseVerifying =>
      try complete <- on_pool_drainer d (fun c => @VerifyNodePoolDrainComplete W (os_at c) targetPods) ;;
      match complete with
      | Err _ => io_ret true
      | Ok false => io_ret true
      | Ok true =>
          put (with_message "Drain complete, proceeding with scale-down"
                 (with_last_transition (Some now) (with_phase DrainPhaseComplete status))) ;;;
          g <- io_get ;;
          try cancelled <- on_pool_drainer (default d (g_drainer g)) (fun c => @IndexerDrain.CancelDrain W (os_at c)) ;;
          io_ret false
      end
  | DrainPhaseComplete => put (with_phase DrainPhaseIdle status) ;;; io_ret false
  | DrainPhaseFailed => put (with_phase DrainPhaseIdle status) ;;; io_ret true
  | DrainPhasePending | DrainPhaseRollingBack => io_ret false
  end.

(** [true]: the replicas must not be changed yet.  [Panics] is the nil health
    of [EvaluateNodePoolScaleDown]. *)
Definition checkNodePoolScaleDownDrain (now : Z) (pool : IndexerNodePoolSpec) (currentReplicas : Z)
    : IO pool_gate (outcome bool) :=
  g <- io_get ;;
  let cluster := g_cluster g in
  if negb (@drain_enabled _ _ _ _ _ T cluster) then io_ret (Returns false)
  else
    let info := scale_down_info cluster pool currentReplicas in
    try client <- on_client (ensureOpenSearchClient K sha256_hex pem_ok clusterDomain cluster) ;;
    match client with
    | Err _ => io_ret (Returns false)
    | Ok c =>
        d <- @ensure_drainer _ _ _ _ _ T c ;;
        evaluated <- io_wrap "failed to evaluate scale-down drain"
          (on_pool_drainer d (fun c =>
             @EvaluateNodePoolScaleDown W (os_at c) true info (getTotalClusterManagers cluster))) ;;
        match evaluated with
        | Panics => io_ret Panics
        | Returns drainResult =>
            if negb (nr_Feasible drainResult)
            then io_err ("scale-down blocked: " +:+ List.hd "" (nr_Blockers drainResult))
            else if negb (nr_NeedsDrain drainResult) then io_ret (Returns false)
            else
              status <- pool_status ;;
              d <- @ensure_drainer _ _ _ _ _ T c ;;
              waiting <- manage_pool_drain now (np_TargetPodNames info) status d ;;
              io_ret (Returns waiting)
        end
    end.
End NodePool.

(** ** Lemmas *)
Section Lemmas.
Context {W : Type} (K : KubeClient W) (os_at : ClientConfig -> OpenSearchService W).
Context (sha256_hex : string -> string) (pem_ok : string -> bool) (clusterDomain : string).
Let T := indexer_target K os_at sha256_hex pem_ok clusterDomain.

Definition pool_check := checkNodePoolScaleDownDrain K os_at sha256_hex pem_ok clusterDomain.

Definition pool_phase (g : @indexer_gate W) : DrainPhase :=
  cds_Phase (@current_status _ _ _ _ _ T g).

Definition pool_enabled (g : @indexer_gate W) : bool :=
  @drain_enabled _ _ _ _ _ T (g_cluster g).

(** No client for the cluster could be made. *)
Definition no_client (g : @indexer_gate W) : Prop :=
  exists e, (on_client (ensureOpenSearchClient K sha256_hex pem_ok clusterDomain (g_cluster g)) g).1 = Err e.

Lemma coordinating_has_role info role :
  HasRole info role = true -> role <> OpenSearchRoleCoordinatingOnly -> IsCoordinatingOnly info = false.
Proof.
  intros (r & Hin & Hr)%existsb_exists Hne. apply bool_decide_eq_true in Hr. subst r.
  destruct (IsCoordinatingOnly info) eqn:E; [|done]. unfold IsCoordinatingOnly in E.
  rewrite forallb_forall in E. apply E, bool_decide_eq_true in Hin. done.
Qed.

(** A pool with data is drained, or the evaluation blocks the scale-down. *)
Lemma evaluate_data c info total d w r s' :
  IsScaleDown info = true -> HasDataRole info = true ->
  @EvaluateNodePoolScaleDown W (os_at c) true info total (d, w) = (Ok (Returns r), s') ->
  nr_NeedsDrain r = true.
Proof.
  intros Hs Hd. unfold EvaluateNodePoolScaleDown.
  rewrite Hs, Hd, (coordinating_has_role info OpenSearchRoleData) by done. cbn [negb].
  unfold io_try, io_world, io_ret. destruct (GetClusterHealth w) as [[h|e] w']; by intros; simplify_eq.
Qed.

Lemma on_client_cluster {A} (m : IO (option ClientConfig * (factory * W)) A) (g : @indexer_gate W) r g1 :
  on_client m g = (r, g1) -> g_cluster g1 = g_cluster g.
Proof. unfold on_client. destruct (m _) as [r' [cl w]]. by intros; simplify_eq. Qed.

Lemma on_drainer_ok {A} d (m : IO (indexer_drainer * (factory * W)) A) (g : @indexer_gate W) r g1 :
  on_drainer d m g = (r, g1) ->
  exists d' w', m (d, g_world g) = (r, (d', w')) /\ g_cluster g1 = g_cluster g /\ g_drainer g1 = Some d'.
Proof. unfold on_drainer. destruct (m _) as [r' [d' w']]. intros; simplify_eq. eauto. Qed.

Lemma ensure_drainer_ok c (g : @indexer_gate W) d g1 :
  @ensure_drainer _ _ _ _ _ T c g = (Ok d, g1) ->
  d = @drainer_for _ _ _ _ _ T c g /\
  g1 = {| g_client := g_client g; g_drainer := Some (@drainer_for _ _ _ _ _ T c g);
          g_cluster := g_cluster g; g_world := g_world g |}.
Proof. unfold ensure_drainer, io_bind, io_get, io_modify, io_ret. by intros; simplify_eq. Qed.

(** A run that got as far as the phase: the client is there, the drain is
    needed and [manage_pool_drain] decides. *)
Lemma pool_check_inv now pool cur g b g' :
  pool_check now pool cur g = (Ok (Returns b), g') -> pool_enabled g = true ->
  let info := scale_down_info (g_cluster g) pool cur in
  IsScaleDown info = true -> HasDataRole info = true ->
  (no_client g /\ b = false) \/
  exists g1 d, g_drainer g1 = Some d /\ gate_status (DrainTarget0 := T) g1 = Some (@current_status _ _ _ _ _ T g) /\
    manage_pool_drain K os_at sha256_hex pem_ok clusterDomain now (np_TargetPodNames info)
      (@current_status _ _ _ _ _ T g) d g1 = (Ok b, g').
Proof.
  intros H Hen info Hs Hd. unfold pool_check, checkNodePoolScaleDownDrain in H.
  unfold io_bind at 1, io_get at 1 in H. unfold pool_enabled, T in Hen. rewrite Hen in H. cbn [negb] in H.
  fold info in H. unfold io_try at 1 in H.
  destruct (on_client _ g) as [[c|e] g1] eqn:E1.
  2: { left. unfold io_ret in H. simplify_eq. split; [|done]. exists e. by rewrite E1. }
  right. pose proof (on_client_cluster _ _ _ _ E1) as Hc1.
  apply io_bind_ok in H as (d & g2 & H2 & H). apply ensure_drainer_ok in H2 as [-> ->].
  apply io_bind_ok in H as (ev & g3 & H3%io_wrap_ok & H).
  apply on_drainer_ok in H3 as (d3 & w3 & Ev & Hc3 & Hd3).
  destruct ev as [r|]; [|unfold io_ret in H; by simplify_eq].
  destruct (negb (nr_Feasible r)); [done|].
  destruct (drainer_for c g1) as [d0 c0]. destruct (g_world _) as [f w].
  apply with_client_ok in Ev as (d' & w' & Ev & Hd3').
  rewrite (evaluate_data _ _ _ _ _ _ _ Hs Hd Ev) in H. cbn [negb] in H.
  assert (Hs3 : @current_status _ _ _ _ _ T g3 = @current_status _ _ _ _ _ T g).
  { unfold current_status, gate_status. by rewrite Hc3; cbn; rewrite Hc1. }
  apply io_bind_ok in H as (s & g4 & H4 & H). injection H4 as <- <-.
  change (default _ _) with (@current_status _ _ _ _ _ T g3) in H. rewrite Hs3 in H.
  apply io_bind_ok in H as (d5 & g5 & H5 & H). apply ensure_drainer_ok in H5 as [-> ->].
  apply io_bind_ok in H as (b' & g6 & H6 & H). unfold io_ret in H. simplify_eq.
  eexists _, _. split; [|split; [|exact H6]]; [done|]. 
  exact (@gate_status_put _ _ _ _ _ T (indexer_laws _ _ _ _ _) _ g3).
Qed.

(** When [manage_pool_drain] lets the scale-down go on. *)
Lemma manage_false now targets s d (g : @indexer_gate W) g' :
  manage_pool_drain K os_at sha256_hex pem_ok clusterDomain now targets s d g = (Ok false, g') ->
  (cds_Phase s = DrainPhaseComplete \/ cds_Phase s = DrainPhasePending \/
   cds_Phase s = DrainPhaseRollingBack) \/
  (cds_Phase s = DrainPhaseVerifying /\ pool_phase g' = DrainPhaseComplete /\
   exists c w s', @VerifyNodePoolDrainComplete W (os_at c) targets (d.1, w) = (Ok true, s')).
Proof.
  unfold manage_pool_drain, io_try, io_bind, put, io_modify, io_ret, io_err.
  destruct (cds_Phase s); try (by auto).
  1, 2: destruct (on_pool_drainer d _ g) as [[[]|e] g2]; done.
  - destruct (on_pool_drainer d _ g) as [[p|e] g2]; done.
  - destruct (on_pool_drainer d _ g) as [[[]|e] g2] eqn:E; try done.
    destruct d as [d0 c]. apply on_drainer_ok in E as (d1 & w1 & E & _).
    destruct (g_world g) as [f w]. apply with_client_ok in E as (d' & w' & E & _).
    unfold io_get. set (s1 := with_message _ _).
    destruct (on_pool_drainer _ _ _) as [r g3] eqn:E3. intros; simplify_eq. right. split; [done|].
    split; [|by eauto].
    apply on_drainer_ok in E3 as (d2 & w2 & _ & Hc & _). unfold pool_phase, current_status, gate_status.
    rewrite Hc. done.
Qed.

(** Too few managers, in a pool without data. *)
Lemma evaluate_blocked c cluster pool cur dw :
  pool_HasClusterManagerRole pool = true -> pool_HasRole pool OpenSearchRoleData = false ->
  0 <= pool_Replicas pool < cur -> cur < 2 ^ 31 ->
  let T := getTotalClusterManagers cluster in
  0 <= T < 2 ^ 31 -> T - (cur - pool_Replicas pool) < 3 ->
  @EvaluateNodePoolScaleDown W (os_at c) true (scale_down_info cluster pool cur) T dw =
  (Ok (Returns
     {| nr_NeedsDrain := false; nr_SkipReason := "NodePool does not have data role";
        nr_Feasible := false;
        nr_Blockers := ["Scale-down would reduce cluster_manager nodes from "
          +:+ pretty T +:+ " to " +:+ pretty (T - (cur - pool_Replicas pool))
          +:+ ", below minimum quorum of 3"];
        nr_Warnings := []; nr_TargetNodes := [] |}), dw).
Proof.
  intros Hm Hd Hr Hcur T0 HT Hq. unfold EvaluateNodePoolScaleDown.
  set (info := scale_down_info cluster pool cur).
  assert (IsScaleDown info = true) as Hs by (apply bool_decide_eq_true; cbn; lia).
  assert (HasClusterManagerRole info = true) as Hm' by exact Hm.
  assert (HasDataRole info = false) as Hd' by exact Hd.
  assert (GetReplicasDelta info = cur - pool_Replicas pool) as Hdelta.
  { unfold GetReplicasDelta. rewrite Hs. apply wrap32_id. cbn. unfold int32. lia. }
  assert (wrap32 (T0 - (cur - pool_Replicas pool)) = T0 - (cur - pool_Replicas pool)) as Hn
    by (apply wrap32_id; unfold int32; lia).
  rewrite Hs, (coordinating_has_role info OpenSearchRoleClusterManager Hm') by done.
  rewrite Hm', Hd', Hdelta. cbn [negb andb]. rewrite Hn.
  rewrite (bool_decide_true (T0 - _ < MinClusterManagerNodes)) by (unfold MinClusterManagerNodes; lia).
  unfold io_ret. by rewrite bool_decide_false.
Qed.
End Lemmas.

(** ** Properties *)
Section Properties.
Context {W : Type} (K : KubeClient W) (os_at : ClientConfig -> OpenSearchService W).
Context (sha256_hex : string -> string) (pem_ok : string -> bool) (clusterDomain : string).
Let T := indexer_target K os_at sha256_hex pem_ok clusterDomain.
Let check := pool_check K os_at sha256_hex pem_ok clusterDomain.
Let phase := pool_phase K os_at sha256_hex pem_ok clusterDomain.
Let enabled := pool_enabled K os_at sha256_hex pem_ok clusterDomain.


(** a finished drain lets the next one through.  With the status still
    Complete, which nothing resets before the next scale-down, of this pool or
    of another one, a run that gets past the evaluation answers "go on"
    without asking any server about the pods, and only then resets the status. *)
Theorem node_pool_stale_complete now targets s d (g : @indexer_gate W) :
  cds_Phase s = DrainPhaseComplete ->
  manage_pool_drain K os_at sha256_hex pem_ok clusterDomain now targets s d g =
  (Ok false, @put_status _ _ _ _ _ T (with_phase DrainPhaseIdle s) g).
Proof. intros Hp. unfold manage_pool_drain. by rewrite Hp. Qed.

(** the quorum check subtracts the pods twice.  The cluster managers are
    counted in the new specification, which no longer has the pods to be
    removed, and the evaluation subtracts them again: a pool of dedicated
    managers cannot go down to [T] managers unless [T] minus the number of
    pods removed is still three. *)
Theorem quorum_counts_removed_pods_twice now pool cur g c g1 :
  enabled g = true ->
  on_client (ensureOpenSearchClient K sha256_hex pem_ok clusterDomain (g_cluster g)) g = (Ok c, g1) ->
  pool_HasClusterManagerRole pool = true -> pool_HasRole pool OpenSearchRoleData = false ->
  0 <= pool_Replicas pool < cur -> cur < 2 ^ 31 ->
  let T := getTotalClusterManagers (g_cluster g) in
  0 <= T < 2 ^ 31 -> T - (cur - pool_Replicas pool) < 3 ->
  (check now pool cur g).1 = Err ("scale-down blocked: Scale-down would reduce cluster_manager nodes from "
    +:+ pretty T +:+ " to " +:+ pretty (T - (cur - pool_Replicas pool))
    +:+ ", below minimum quorum of 3").
Proof.
  intros Hen He Hm Hd Hr Hcur T0 HT Hq. unfold check, pool_check, checkNodePoolScaleDownDrain.
  unfold io_bind at 1, io_get at 1. unfold enabled, pool_enabled in Hen. rewrite Hen. cbn [negb].
  unfold io_try at 1. rewrite He.
  unfold io_bind at 1, ensure_drainer. unfold io_bind at 1 2, io_get at 1, io_modify at 1, io_ret at 1.
  set (d := drainer_for _ _). clearbody d. destruct d as [d c0].
  unfold io_bind at 1, io_wrap at 1, on_pool_drainer, on_drainer. cbn [g_world].
  destruct (g_world g1) as [f w]. unfold with_client.
  rewrite (evaluate_blocked os_at _ _ _ _ _ Hm Hd Hr Hcur HT Hq). done.
Qed.
End Properties.

(** ** Pools to try the theorems on *)
Module SimPools.
Definition pool (name : string) (replicas : Z) (roles : list string) : IndexerNodePoolSpec :=
  {| pool_Name := name; pool_Replicas := replicas; pool_Roles := roles;
     pool_StorageSize := "50Gi" |}.
Definition hot : IndexerNodePoolSpec := pool "hot" 1 ["data"].
Definition masters : IndexerNodePoolSpec := pool "masters" 3 ["cluster_manager"].

(** The cluster [a] of [Sites], with two pools; the new specification has
    one [hot] node and three managers. *)
Definition cluster (st : ComponentDrainStatus) : WazuhCluster :=
  let c := Sites.cluster "a" (Some st) in
  {| wc_Name := wc_Name c; wc_Namespace := wc_Namespace c; wc_SpecDrain := wc_SpecDrain c;
     wc_SpecIndexer := Some {| ix_Replicas := 0; ix_NodePools := [hot; masters]; ix_StorageSize := "";
     ix_Networking := no_networking |};
     wc_SpecManager := None; wc_SpecDashboard := None; wc_StatusDrain := wc_StatusDrain c; wc_StatusLastUpdate := None;
     wc_Meta := no_meta; wc_Spec := no_refs; wc_Status := no_status |}.

Definition gate (st : ComponentDrainStatus) : @indexer_gate Sites.site :=
  {| g_client := Some (Sites.client "a"); g_drainer := None; g_cluster := cluster st;
     g_world := (∅, Sites.two_clusters) |}.

Definition check := pool_check Sites.kube Sites.os_at Sites.sha Sites.pem Sites.dom.
End SimPools.


Example node_pool_stale_complete_witness :
  let s := Sites.status_in DrainPhaseComplete in
  let g := SimPools.gate s in
  (manage_pool_drain Sites.kube Sites.os_at Sites.sha Sites.pem Sites.dom 10 ["a-indexer-hot-2"] s
     (NewIndexerDrainer None, Sites.client "a") g).1 = Ok false.
Proof.
  intros s g. rewrite (node_pool_stale_complete Sites.kube Sites.os_at Sites.sha Sites.pem Sites.dom);
    reflexivity.
Defined.

(** Five managers, three wanted. *)
Example quorum_counts_removed_pods_twice_witness :
  (SimPools.check 10 SimPools.masters 5 (SimPools.gate (Sites.status_in DrainPhaseIdle))).1 =
  Err "scale-down blocked: Scale-down would reduce cluster_manager nodes from 3 to 1, below minimum quorum of 3".
Proof.
  unfold SimPools.check.
  rewrite (quorum_counts_removed_pods_twice Sites.kube Sites.os_at Sites.sha Sites.pem Sites.dom 10
    SimPools.masters 5 (SimPools.gate (Sites.status_in DrainPhaseIdle)) (Sites.client "a")
    (SimPools.gate (Sites.status_in DrainPhaseIdle))); try reflexivity; try (cbn; lia).
  all: vm_compute; repeat split; discriminate.
Defined.
