(* ===== verification/DrainController.v ===== *)
(** * Drains in the controller ([controllers/wazuhcluster_controller.go])

    What the reconcile loop of the WazuhCluster does about drains before it
    applies anything: the end of a rollback, the retries, the dry run, the
    gates of the indexer and of the workers, and the write-back of the drain
    status. *)
From S2P Require Import Prelude GoStrings GoFloat Kube OpenSearchAPI WazuhAPI.
From S2P Require Import DrainState DrainDetect DrainRetry IndexerDrain ManagerDrain.
From S2P Require Import Cluster ClientFactory Rollback DrainGate ScaleDown.
Local Open Scope go_scope.
Local Open Scope list_scope.

(** [ctrl.Result]: when to come back. *)
Inductive requeue : Type :=
| RequeueNow
| RequeueAfter (d : duration).

Definition RequeueIntervalDrainInProgress : duration := 10 * Second.

(** [time.Until] *)
Definition time_until (now t : Z) : duration := Z.max (- 2 ^ 63) (Z.min (2 ^ 63 - 1) (t - now)).

Section Controller.
Context {W : Type} (K : KubeClient W) `{!ClusterClient W}.
Context (os_at : ClientConfig -> OpenSearchService W) (wz_at : WazuhAPIConfig -> WazuhService W).
Context (sha256_hex : string -> string) (pem_ok : string -> bool) (clusterDomain : string).
(** Did the context end while waiting after attempt [k] of a retry. *)
Context (cancelled : nat -> option error).

(** The cached clients and drainers of the two component reconcilers, the
    client factory's cache, the adapters, the cluster object and the world. *)
Record reconcilers := {
  rc_ix_client : option ClientConfig;
  rc_ix_drainer : option indexer_drainer;
  rc_wk_client : option wazuh_client;
  rc_wk_drainer : option worker_drainer;
  rc_cache : factory;
  rc_heap : heap;
  rc_cluster : WazuhCluster;
  rc_world : W
}.

Definition indexer_part (r : reconcilers) : @indexer_gate W :=
  {| g_client := rc_ix_client r; g_drainer := rc_ix_drainer r; g_cluster := rc_cluster r;
     g_world := (rc_cache r, rc_world r) |}.

Definition set_indexer_part (g : @indexer_gate W) (r : reconcilers) : reconcilers :=
  {| rc_ix_client := g_client g; rc_ix_drainer := g_drainer g; rc_wk_client := rc_wk_client r;
     rc_wk_drainer := rc_wk_drainer r; rc_cache := (g_world g).1; rc_heap := rc_heap r;
     rc_cluster := g_cluster g; rc_world := (g_world g).2 |}.

Definition worker_part (r : reconcilers) : @worker_gate W :=
  {| g_client := rc_wk_client r; g_drainer := rc_wk_drainer r; g_cluster := rc_cluster r;
     g_world := (rc_heap r, rc_world r) |}.

Definition set_worker_part (g : @worker_gate W) (r : reconcilers) : reconcilers :=
  {| rc_ix_client := rc_ix_client r; rc_ix_drainer := rc_ix_drainer r; rc_wk_client := g_client g;
     rc_wk_drainer := g_drainer g; rc_cache := rc_cache r; rc_heap := (g_world g).1;
     rc_cluster := g_cluster g; rc_world := (g_world g).2 |}.

Definition RCIO (A : Type) := IO reconcilers A.

Definition on_indexer {A} (m : @indexer_gate W -> A * @indexer_gate W) : reconcilers -> A * reconcilers :=
  fun r => let '(a, g) := m (indexer_part r) in (a, set_indexer_part g r).
Definition on_worker {A} (m : @worker_gate W -> A * @worker_gate W) : reconcilers -> A * reconcilers :=
  fun r => let '(a, g) := m (worker_part r) in (a, set_worker_part g r).

Definition set_cluster_and_world (c : WazuhCluster) (w : W) (r : reconcilers) : reconcilers :=
  {| rc_ix_client := rc_ix_client r; rc_ix_drainer := rc_ix_drainer r;
     rc_wk_client := rc_wk_client r; rc_wk_drainer := rc_wk_drainer r; rc_cache := rc_cache r;
     rc_heap := rc_heap r; rc_cluster := c; rc_world := w |}.

Definition on_rest {A} (m : IO (WazuhCluster * W) A) : RCIO A := fun r =>
  let '(a, (c, w)) := m (rc_cluster r, rc_world r) in (a, set_cluster_and_world c w r).

(** *** Writing the drain status back *)
Definition write_drain_status (now : Z) (cluster : WazuhCluster) : API W unit := fun w =>
  match get_cluster (wc_Namespace cluster) (wc_Name cluster) w with
  | (Failed e, w) => (Failed e, w)
  | (Found latest, w) =>
      update_cluster_status (set_last_update now (set_drain_status (wc_StatusDrain cluster) latest)) w
  end.

Definition updateDrainStatus (now : Z) : IO (WazuhCluster * W) unit :=
  s <- io_get ;;
  io_world (io_api (RetryOnConflict cancelled (write_drain_status now s.1))).

(** *** Rollback *)
Definition set_component (component : string) (s : ComponentDrainStatus) (c : WazuhCluster) : WazuhCluster :=
  let d := default empty_drain_status (wc_StatusDrain c) in
  set_drain_status (Some (if bool_decide (component = DrainComponentIndexer)
                          then set_indexer_drain (Some s) d else set_manager_drain (Some s) d)) c.

Definition component_drain (component : string) (c : WazuhCluster) : option ComponentDrainStatus :=
  if bool_decide (component = DrainComponentIndexer) then indexer_drain c else manager_drain c.

(** One of the two equal blocks. *)
Definition verify_component_rollback (component : string) : IO (WazuhCluster * W) unit :=
  s <- io_get ;;
  match component_drain component s.1 with
  | Some st =>
      if bool_decide (cds_Phase st = DrainPhaseRollingBack) then
        complete <- io_world (VerifyRollbackComplete s.1 component) ;;
        if complete : bool then
          io_modify (prod_map (set_component component
            (with_message "Rollback complete, waiting for retry" (with_phase DrainPhaseFailed st))) id)
        else io_ret tt
      else io_ret tt
  | None => io_ret tt
  end.

Definition verifyRollbackComplete : IO (WazuhCluster * W) unit :=
  verify_component_rollback DrainComponentIndexer ;;;
  verify_component_rollback DrainComponentManager.

(** *** Retries *)
Definition retry_component (now : Z) (component : string) : IO (WazuhCluster * W) (option requeue) :=
  s <- io_get ;;
  match component_drain component s.1 with
  | Some st =>
      if bool_decide (cds_Phase st = DrainPhaseFailed \/ cds_Phase st = DrainPhaseRollingBack) then
        if rm_IsRetryDue now st then
          io_modify (prod_map (set_component component
            (with_message ("Retry attempt " +:+ pretty (cds_AttemptCount st) +:+ " starting")
               (with_phase DrainPhasePending st))) id) ;;;
          try updated <- updateDrainStatus now ;;
          io_ret (Some RequeueNow)
        else
          match cds_NextRetryTime st with
          | Some t =>
              let waitDuration := time_until now t in
              if bool_decide (0 < waitDuration) then io_ret (Some (RequeueAfter waitDuration))
              else io_ret None
          | None => io_ret None
          end
      else io_ret None
  | None => io_ret None
  end.

Definition checkAndHandleRetry (now : Z) : IO (WazuhCluster * W) (option requeue) :=
  indexer <- retry_component now DrainComponentIndexer ;;
  match indexer with
  | Some after => io_ret (Some after)
  | None => retry_component now DrainComponentManager
  end.

(** *** The dry run *)
Definition target_or (recorded : string) (cluster : WazuhCluster) (prefix : string)
    (desiredReplicas currentReplicas : Z) : string :=
  if bool_decide (recorded <> "") then recorded
  else if bool_decide (desiredReplicas < currentReplicas)
       then wc_Name cluster +:+ prefix +:+ pretty (wrap32 (currentReplicas - 1)) else "".

Definition dry_run_indexer_target (cluster : WazuhCluster) : string :=
  target_or (default "" (cds_TargetPod <$> indexer_drain cluster)) cluster "-indexer-"
    (match wc_SpecIndexer cluster with
     | Some s => if bool_decide (0 < ix_Replicas s) then ix_Replicas s else 3
     | None => 3
     end)
    (default 0 (wc_StatusIndexerReplicas cluster)).

Definition dry_run_manager_target (cluster : WazuhCluster) : string :=
  target_or (default "" (cds_TargetPod <$> manager_drain cluster)) cluster "-manager-worker-"
    (match wc_SpecManager cluster with Some m => Workers_GetReplicas m | None => 0 end)
    (default 0 (s ← manager_drain cluster; cds_PreviousReplicas s)).

(** Adding one component's verdict to the combined one. *)
Definition merge_result (tag : string) (duration_of : option duration -> option duration -> option duration)
    (r result : DryRunResult) : DryRunResult :=
  let prefixed := map (fun m => tag +:+ " " +:+ m) in
  {| dr_Feasible := dr_Feasible result && dr_Feasible r; dr_EvaluatedAt := dr_EvaluatedAt result;
     dr_Component := dr_Component result;
     dr_Blockers := dr_Blockers result ++ prefixed (dr_Blockers r);
     dr_Warnings := dr_Warnings result ++ prefixed (dr_Warnings r);
     dr_EstimatedDuration := duration_of (dr_EstimatedDuration result) (dr_EstimatedDuration r) |}.

Definition warn (m : string) (result : DryRunResult) : DryRunResult :=
  {| dr_Feasible := dr_Feasible result; dr_EvaluatedAt := dr_EvaluatedAt result;
     dr_Component := dr_Component result; dr_Blockers := dr_Blockers result;
     dr_Warnings := dr_Warnings result ++ [m];
     dr_EstimatedDuration := dr_EstimatedDuration result |}.

(** The first estimate stays, the second is added to it. *)
Definition first_duration (old new : option duration) : option duration :=
  match old with Some d => Some d | None => new end.
Definition sum_duration (old new : option duration) : option duration :=
  match new with
  | None => old
  | Some n => Some (match old with Some o => wrap64 (o + n) | None => n end)
  end.

Definition evaluated (what tag : string) (duration_of : option duration -> option duration -> option duration)
    (r : result DryRunResult) (result : DryRunResult) : DryRunResult :=
  match r with
  | Err err => warn (tag +:+ " Evaluation failed: " +:+ err) result
  | Ok r => merge_result tag duration_of r result
  end.

(** [evaluateDryRun]; the component reconcilers exist. *)
Definition evaluateDryRun (now : Z) : RCIO DryRunResult :=
  r <- io_get ;;
  let cluster := rc_cluster r in
  let result :=
    {| dr_Feasible := true; dr_EvaluatedAt := now; dr_Component := "all"; dr_Blockers := [];
       dr_Warnings := []; dr_EstimatedDuration := None |} in
  result <-
    (if @drain_enabled _ _ _ _ _ (indexer_target K os_at sha256_hex pem_ok clusterDomain) cluster then
       let targetNode := dry_run_indexer_target cluster in
       if bool_decide (targetNode <> "") then
         try r <- on_indexer (on_client
           (indexer_EvaluateDrainFeasibility K os_at sha256_hex pem_ok clusterDomain now cluster targetNode)) ;;
         io_ret (evaluated "indexer" "[indexer]" first_duration r result)
       else io_ret (warn "[indexer] No scale-down detected" result)
     else io_ret result) ;;
  result <-
    (if @drain_enabled _ _ _ _ _ (worker_target K wz_at sha256_hex clusterDomain) cluster then
       let targetNode := dry_run_manager_target cluster in
       if bool_decide (targetNode <> "") then
         try r <- on_worker (on_client
           (worker_EvaluateDrainFeasibility K wz_at sha256_hex clusterDomain now cluster targetNode)) ;;
         io_ret (evaluated "manager" "[manager]" sum_duration r result)
       else io_ret (warn "[manager] No scale-down detected" result)
     else io_ret result) ;;
  io_ret (if wc_SpecDashboard cluster is Some _
          then warn "[dashboard] PDB protection not yet implemented" result else result).

(** Step 2 of [Reconcile]: the verdict is recorded and written, and the
    reconcile ends there. *)
Definition dry_run_stage (now : Z) : RCIO requeue :=
  result <- evaluateDryRun now ;;
  io_modify (fun r => set_cluster_and_world
    (set_drain_status (Some (set_last_dry_run (Some result)
       (default empty_drain_status (wc_StatusDrain (rc_cluster r))))) (rc_cluster r)) (rc_world r) r) ;;;
  on_rest (updateDrainStatus now) ;;;
  io_ret (RequeueAfter (30 * Second)).

(** *** The gates: steps 3 and 5 *)

(** How a stage ends: the reconcile returns, or goes on with or without a reset
    of the drain at its end. *)
Inductive stage : Type :=
| Return (after : requeue)
| Continue (reset : bool).

Definition finish_stage (now : Z) (d : gate_decision) : RCIO stage :=
  match d with
  | Wait =>
      io_modify (fun r => set_cluster_and_world
        (set_drain_status (Some (default empty_drain_status (wc_StatusDrain (rc_cluster r)))) (rc_cluster r))
        (rc_world r) r) ;;;
      on_rest (updateDrainStatus now) ;;;
      io_ret (Return (RequeueAfter RequeueIntervalDrainInProgress))
  | Proceed reset => io_ret (Continue reset)
  end.

Definition indexer_stage (now : Z) : RCIO stage :=
  r <- io_get ;;
  match wc_SpecIndexer (rc_cluster r) with
  | None => io_ret (Continue false)
  | Some spec =>
      let desiredReplicas := gate_replicas spec in
      d <- (fun r => let '(d, r) := on_indexer
             (indexer_step K sha256_hex pem_ok clusterDomain os_at now desiredReplicas) r in (Ok d, r)) ;;
      finish_stage now d
  end.

Definition worker_step : Z -> Z -> @worker_gate W -> gate_decision * @worker_gate W :=
  @gate_step _ _ _ _ _ (worker_kube K) (worker_target K wz_at sha256_hex clusterDomain).

Definition worker_stage (now : Z) : RCIO stage :=
  r <- io_get ;;
  match wc_SpecManager (rc_cluster r) with
  | None => io_ret (Continue false)
  | Some spec =>
      d <- (fun r => let '(d, r) := on_worker (worker_step now (Workers_GetReplicas spec)) r in (Ok d, r)) ;;
      finish_stage now d
  end.
End Controller.

(** ** Lemmas *)
Section Lemmas.
Context {W : Type} (K : KubeClient W) `{!ClusterClient W}.
Context (os_at : ClientConfig -> OpenSearchService W) (wz_at : WazuhAPIConfig -> WazuhService W).
Context (sha256_hex : string -> string) (pem_ok : string -> bool) (clusterDomain : string).

(** What a write-back that succeeds has read and written. *)
Lemma updateDrainStatus_ok cancelled now c (w : W) s' :
  updateDrainStatus cancelled now (c, w) = (Ok tt, s') ->
  exists k wk latest w1 w', (k <= 3)%nat /\ attempts (write_drain_status now c) w k wk /\
    get_cluster (wc_Namespace c) (wc_Name c) wk = (Found latest, w1) /\
    update_cluster_status (set_last_update now (set_drain_status (wc_StatusDrain c) latest)) w1
      = (Found tt, w') /\
    s' = (c, w').
Proof.
  unfold updateDrainStatus, io_bind, io_get. cbn [fst]. intros (w' & -> & H%io_api_ok)%io_world_ok.
  apply retry_loop_ok in H as (k & wk & Hk & Ha & H). unfold write_drain_status in H.
  destruct (get_cluster _ _ wk) as [[latest|e] w1] eqn:E; [|done]. by exists k, wk, latest, w1, w'.
Qed.

(** A verdict that says what its blockers say. *)
Definition honest (r : DryRunResult) : Prop := dr_Feasible r = bool_decide (dr_Blockers r = []).

Lemma honest_warn m r : honest r -> honest (warn m r).
Proof. done. Qed.

Lemma honest_merge tag f r result : honest r -> honest result -> honest (merge_result tag f r result).
Proof.
  unfold honest. cbn. intros -> ->. destruct (dr_Blockers result), (dr_Blockers r); done.
Qed.

Lemma honest_evaluated what tag f r result :
  (forall d, r = Ok d -> honest d) -> honest result -> honest (evaluated what tag f r result).
Proof. intros Hr Hres. destruct r as [d|e]; [by apply honest_merge; [apply Hr|]|by apply honest_warn]. Qed.

Lemma honest_indexer c now n d w r s :
  @IndexerDrain.EvaluateFeasibility W (os_at c) now n (d, w) = (Ok r, s) -> honest r.
Proof.
  unfold IndexerDrain.EvaluateFeasibility, io_try, io_world, io_ret.
  destruct (GetClusterHealth w) as [[h|e] w1]; [|intros; by simplify_eq].
  destruct (GetShardCount n w1) as [c1 w2].
  destruct (match c1 with Ok _ => _ | Err _ => _ end) as [sc warnings].
  destruct (GetAllocationExclusion w2) as [c2 w3].
  destruct (match c2 with Ok _ => _ | Err _ => _ end) as [bs ws]. intros; by simplify_eq.
Qed.

Lemma honest_worker c now n s r s' :
  @ManagerDrain.EvaluateFeasibility W (wz_at c) now n s = (Ok r, s') -> honest r.
Proof.
  unfold ManagerDrain.EvaluateFeasibility, io_bind at 1.
  destruct (io_world _ s) as [[b|e] s1]; [|done].
  destruct b; cbn [negb]; [|unfold io_ret; intros; by simplify_eq].
  unfold io_try, io_bind, io_get, io_ret. 
  repeat match goal with |- context [let '(_, _) := ?x in _] => destruct x end.
  intros; by simplify_eq.
Qed.

Lemma honest_indexer_feasibility now c n s r s' :
  indexer_EvaluateDrainFeasibility K os_at sha256_hex pem_ok clusterDomain now c n s = (Ok r, s') -> honest r.
Proof.
  unfold indexer_EvaluateDrainFeasibility, io_try. destruct (ensureOpenSearchClient _ _ _ _ _ s) as [[cl|e] s1];
    [|unfold io_ret; intros; by simplify_eq].
  destruct s1 as [cl' [f w]].
  destruct (@IndexerDrain.EvaluateFeasibility _ _ _ _ _) as [r1 [d w']] eqn:E. intros; simplify_eq.
  by eapply honest_indexer.
Qed.

Lemma honest_worker_feasibility now c n s r s' :
  worker_EvaluateDrainFeasibility K wz_at sha256_hex clusterDomain now c n s = (Ok r, s') -> honest r.
Proof.
  unfold worker_EvaluateDrainFeasibility, io_try. destruct (ensureWazuhClient _ _ _ _ s) as [[cl|e] s1];
    [|unfold io_ret; intros; by simplify_eq].
  destruct s1 as [cl' [h w]]. unfold with_adapter.
  destruct (@ManagerDrain.EvaluateFeasibility _ _ _ _ _) as [r1 [d [a w']]] eqn:E. intros; simplify_eq.
  by eapply honest_worker.
Qed.

Lemma set_component_drain component s c :
  component_drain component (set_component component s c) = Some s.
Proof. unfold component_drain, set_component, indexer_drain, manager_drain. by case_bool_decide. Qed.

Lemma on_indexer_keeps {A} (m : IO (option ClientConfig * (factory * W)) A) r a r' :
  on_indexer (on_client m) r = (a, r') ->
  rc_cluster r' = rc_cluster r /\ rc_ix_drainer r' = rc_ix_drainer r /\
  rc_wk_drainer r' = rc_wk_drainer r.
Proof.
  unfold on_indexer, on_client. destruct (m _) as [r1 [cl [f w]]]. by intros; simplify_eq.
Qed.

Lemma on_worker_keeps {A} (m : IO (option wazuh_client * (heap * W)) A) r a r' :
  on_worker (on_client m) r = (a, r') ->
  rc_cluster r' = rc_cluster r /\ rc_ix_drainer r' = rc_ix_drainer r /\
  rc_wk_drainer r' = rc_wk_drainer r.
Proof.
  unfold on_worker, on_client. destruct (m _) as [r1 [cl [f w]]]. by intros; simplify_eq.
Qed.

(** What a part of the dry run leaves alone. *)
Definition dry (r r' : @reconcilers W) : Prop :=
  rc_cluster r' = rc_cluster r /\ rc_ix_drainer r' = rc_ix_drainer r /\
  rc_wk_drainer r' = rc_wk_drainer r.

Lemma dry_run_manager_part now r0 r cluster result :
  honest result -> dry r0 r ->
  exists res r',
    (result <-
      (if @drain_enabled _ _ _ _ _ (worker_target K wz_at sha256_hex clusterDomain) cluster then
         let targetNode := dry_run_manager_target cluster in
         if bool_decide (targetNode <> "") then
           try r <- on_worker (on_client
             (worker_EvaluateDrainFeasibility K wz_at sha256_hex clusterDomain now cluster targetNode)) ;;
           io_ret (evaluated "manager" "[manager]" sum_duration r result)
         else io_ret (warn "[manager] No scale-down detected" result)
       else io_ret result) ;;
     io_ret (if wc_SpecDashboard cluster is Some _
             then warn "[dashboard] PDB protection not yet implemented" result else result)) r
    = (Ok res, r') /\ honest res /\ dry r0 r'.
Proof.
  intros Hres Hdry.
  assert (Hend : forall x r1, honest x -> dry r0 r1 -> exists res r',
    @io_ret (@reconcilers W) _ (if wc_SpecDashboard cluster is Some _
      then warn "[dashboard] PDB protection not yet implemented" x else x) r1 = (Ok res, r') /\
    honest res /\ dry r0 r').
  { intros x r1 Hx Hr1. eexists _, _. split; [done|]. by destruct (wc_SpecDashboard cluster). }
  unfold io_bind. destruct (drain_enabled cluster); [|by apply Hend].
  case_bool_decide; [|by apply Hend]. unfold io_try. destruct (on_worker _ r) as [x r1] eqn:E.
  apply Hend.
  - apply honest_evaluated; [|done]. intros d ->. unfold on_worker, on_client in E.
    destruct (worker_EvaluateDrainFeasibility _ _ _ _ _ _ _ _) as [r2 [cl w]] eqn:E2.
    simplify_eq. by eapply honest_worker_feasibility.
  - apply on_worker_keeps in E as (H1 & H2 & H3).
    unfold dry in *. destruct Hdry as (D1 & D2 & D3). by rewrite H1, H2, H3.
Qed.

Lemma dry_run_spec now r :
  exists res r', evaluateDryRun K os_at wz_at sha256_hex pem_ok clusterDomain now r = (Ok res, r') /\
    honest res /\ dry r r'.
Proof.
  unfold evaluateDryRun. unfold io_bind at 1, io_get. set (result0 := Build_DryRunResult _ _ _ _ _ _).
  assert (H0 : honest result0) by done. clearbody result0.
  unfold io_bind at 1. destruct (drain_enabled _).
  2: { apply (dry_run_manager_part now r r (rc_cluster r) result0); done. }
  case_bool_decide; [|apply (dry_run_manager_part now r r (rc_cluster r)); done].
  unfold io_try. destruct (on_indexer _ r) as [x r1] eqn:E.
  apply (dry_run_manager_part now r r1 (rc_cluster r)); [|by apply on_indexer_keeps in E].
  apply honest_evaluated; [|done]. intros d ->.
  unfold on_indexer, on_client in E. destruct (indexer_EvaluateDrainFeasibility _ _ _ _ _ _ _ _ _) as [r2 [cl w]] eqn:E2.
  simplify_eq. by eapply honest_indexer_feasibility.
Qed.
End Lemmas.

(** ** Properties *)
Section Properties.
Context {W : Type} (K : KubeClient W) `{!ClusterClient W}.
Context (os_at : ClientConfig -> OpenSearchService W) (wz_at : WazuhAPIConfig -> WazuhService W).
Context (sha256_hex : string -> string) (pem_ok : string -> bool) (clusterDomain : string).
Context (cancelled : nat -> option error).

(** a dry run always gives a verdict, the verdict is "feasible" exactly when
    no blocker is listed, and it starts nothing: the cluster object, and with
    it the drain status, and both drainers are as they were. *)
Theorem dry_run_verdict now (r : @reconcilers W) :
  exists res r', evaluateDryRun K os_at wz_at sha256_hex pem_ok clusterDomain now r = (Ok res, r') /\
    (dr_Feasible res = true <-> dr_Blockers res = []) /\
    rc_cluster r' = rc_cluster r /\ rc_ix_drainer r' = rc_ix_drainer r /\
    rc_wk_drainer r' = rc_wk_drainer r.
Proof.
  destruct (dry_run_spec K os_at wz_at sha256_hex pem_ok clusterDomain now r)
    as (res & r' & E & Hh & Hd).
  exists res, r'. split; [done|]. split; [|done]. by rewrite Hh, bool_decide_eq_true.
Qed.

(** a drain that is retried never moves again.  When a retry of the
    indexer's drain is due, the controller sets it to Pending and comes back at
    once; from that status every later run of the gate only waits, whatever
    the server answers. *)
Theorem due_retry_sticks now c w st :
  indexer_drain c = Some st ->
  cds_Phase st = DrainPhaseFailed \/ cds_Phase st = DrainPhaseRollingBack ->
  rm_IsRetryDue now st = true ->
  exists c' w' st', checkAndHandleRetry cancelled now (c, w) = (Ok (Some RequeueNow), (c', w')) /\
    indexer_drain c' = Some st' /\ cds_Phase st' = DrainPhasePending /\
    forall n (rs : list (@run (factory * W) ClientConfig indexer_drainer)) s2,
      @history _ _ _ _ _ (indexer_kube K) (indexer_target K os_at sha256_hex pem_ok clusterDomain)
        n st' rs s2 ->
      Forall (fun r => run_decision r = Wait) rs /\ cds_Phase s2 = DrainPhasePending.
Proof.
  intros Hst Hp Hdue. unfold checkAndHandleRetry, io_bind at 1, retry_component.
  unfold io_bind at 1, io_get at 1. cbn [fst].
  assert (component_drain DrainComponentIndexer c = Some st) as -> by exact Hst.
  rewrite (bool_decide_true _ Hp), Hdue. unfold io_bind at 1, io_modify at 1.
  set (st' := with_message _ _). cbn [prod_map fst snd id].
  unfold io_try. destruct (updateDrainStatus cancelled now _) as [u [c' w']] eqn:E.
  assert (c' = set_component DrainComponentIndexer st' c) as ->.
  { unfold updateDrainStatus, io_bind, io_get, io_world in E. destruct (io_api _ _). by simplify_eq. }
  eexists _, w', st'. split; [done|].
  split; [exact (set_component_drain DrainComponentIndexer st' c)|]. split; [done|].
  intros n rs s2 Hh. by eapply (@history_pending _ _ _ _ _ _ _
    (indexer_laws os_at sha256_hex pem_ok clusterDomain K)).
Qed.

(** writing the drain status back loses no other change.  When it succeeds,
    within at most four attempts, what was written is the object just read
    from the server with the drain status of this reconcile and a new
    timestamp; the object in memory is not changed. *)
Theorem drain_status_written now c w s' :
  updateDrainStatus cancelled now (c, w) = (Ok tt, s') ->
  exists k wk latest w1 w', (k <= 3)%nat /\ attempts (write_drain_status now c) w k wk /\
    get_cluster (wc_Namespace c) (wc_Name c) wk = (Found latest, w1) /\
    update_cluster_status (set_last_update now (set_drain_status (wc_StatusDrain c) latest)) w1
      = (Found tt, w') /\
    s' = (c, w').
Proof. apply updateDrainStatus_ok. Qed.
End Properties.

(** ** A cluster to try the theorems on *)
Module SimCluster.
#[global] Instance client : ClusterClient WazuhCluster := {
  get_cluster ns n c :=
    (if bool_decide (ns = wc_Namespace c) && bool_decide (n = wc_Name c) then Found c
     else Failed (NotFound n), c);
  update_cluster_status new c := (Found tt, new)
}.

(** No workload: only the WazuhCluster itself. *)
Definition nothing : KubeClient WazuhCluster := {|
  get_statefulset _ n c := (Failed (NotFound n), c);
  update_statefulset _ c := (Found tt, c);
  list_pods _ _ c := (Found [], c);
  delete_pod _ c := (Found tt, c);
  get_secret _ n c := (Failed (NotFound n), c)
|}.

Definition os (c : ClientConfig) : OpenSearchService WazuhCluster := {|
  get_cluster_health c := (Err "refused", c);
  get_cat_shards c := (Err "refused", c);
  get_cluster_settings _ c := (Err "refused", c);
  put_cluster_settings _ c := (Err "refused", c)
|}.

Definition failed : ComponentDrainStatus :=
  with_retry 1 (Some 5) (Sites.status_in DrainPhaseFailed).
Definition cluster : WazuhCluster := Sites.cluster "a" (Some failed).
End SimCluster.

Example due_retry_sticks_witness :
  exists c' w' st', checkAndHandleRetry (fun _ => None) 10 (SimCluster.cluster, SimCluster.cluster)
      = (Ok (Some RequeueNow), (c', w')) /\
    indexer_drain c' = Some st' /\ cds_Phase st' = DrainPhasePending.
Proof.
  destruct (due_retry_sticks SimCluster.nothing SimCluster.os Sites.sha Sites.pem Sites.dom (fun _ => None)
    10 SimCluster.cluster SimCluster.cluster SimCluster.failed) as (c' & w' & st' & H1 & H2 & H3 & _);
    [reflexivity|left; reflexivity|reflexivity|].
  exists c', w', st'. split; [exact H1|]. split; [exact H2|exact H3].
Defined.

Example drain_status_written_witness :
  let c := SimCluster.cluster in
  let run := updateDrainStatus (fun _ => None) 10 (c, Sites.cluster "a" None) in
  run = (Ok tt, (c, set_last_update 10 c)) /\
  exists latest, wc_StatusDrain (set_drain_status (wc_StatusDrain c) latest) = wc_StatusDrain c.
Proof.
  intros c run. assert (H : run = (Ok tt, (c, set_last_update 10 c))) by reflexivity.
  split; [exact H|].
  destruct (drain_status_written _ _ _ _ _ H) as (k & wk & latest & _). exists latest. reflexivity.
Defined.
