(* ===== verification/Rollouts.v ===== *)
(** * Pending rollouts ([internal/utils/rollout.go], [controllers/wazuhcluster_controller.go])

    A change of a workload is applied without waiting: the rollout is recorded
    in the status of the WazuhCluster and looked at again by later reconciles.
    [state] below pairs that part of the status with the world. *)
From S2P Require Import Prelude GoStrings GoFloat Kube DrainState IndexerDrain Cluster.
Local Open Scope go_scope.
Local Open Scope list_scope.

(** [StartTime] is [None] for the zero time. *)
Record PendingRollout := {
  ro_Name : string;
  ro_Namespace : string;
  ro_Type : string;
  ro_Component : string;
  ro_Reason : string;
  ro_StartTime : option Z;
  ro_Generation : Z
}.

Record RolloutStatus := {
  rs_Complete : bool;
  rs_Ready : bool;
  rs_ReadyReplicas : Z;
  rs_Desired : Z;
  rs_Updated : Z;
  rs_Duration : duration;
  rs_Message : string;
  rs_Error : option api_error
}.

Definition RolloutTypeStatefulSet : string := "StatefulSet".
Definition RolloutTypeDeployment : string := "Deployment".
Definition DefaultRolloutTimeout : duration := 10 * Minute.

Definition failed_status (e : api_error) : RolloutStatus :=
  {| rs_Complete := false; rs_Ready := false; rs_ReadyReplicas := 0; rs_Desired := 0;
     rs_Updated := 0; rs_Duration := 0; rs_Message := ""; rs_Error := Some e |}.

(** The common part of the two checks: the status when [complete] tells
    whether the rollout is. *)
Definition rollout_status (now : Z) (r : PendingRollout) (desired ready updated : Z) (complete : bool)
    : RolloutStatus :=
  {| rs_Complete := complete; rs_Ready := complete; rs_ReadyReplicas := ready;
     rs_Desired := desired; rs_Updated := updated;
     rs_Duration := match ro_StartTime r with Some t => time_since now t | None => 0 end;
     rs_Message :=
       if complete
       then "Rollout complete: " +:+ pretty desired +:+ "/" +:+ pretty desired +:+ " pods ready"
       else pretty ready +:+ "/" +:+ pretty desired +:+ " pods ready, " +:+ pretty updated +:+ " updated";
     rs_Error := None |}.

Definition statefulset_complete (s : StatefulSet) : bool :=
  let desired := default 1 (sts_SpecReplicas s) in
  bool_decide (sts_UpdatedReplicas s = desired) && bool_decide (sts_ReadyReplicas s = desired) &&
  bool_decide (sts_CurrentRevision s = sts_UpdateRevision s).

Definition deployment_complete (d : Deployment) : bool :=
  let desired := default 1 (dep_SpecReplicas d) in
  bool_decide (dep_UpdatedReplicas d = desired) && bool_decide (dep_ReadyReplicas d = desired) &&
  bool_decide (dep_AvailableReplicas d = desired) &&
  bool_decide (dep_Generation d <= dep_ObservedGeneration d).

Section Rollouts.
Context {W : Type} `{!KubeClient W, !DeploymentClient W}.

Definition checkStatefulSetStatus (now : Z) (r : PendingRollout) (w : W) : RolloutStatus * W :=
  match get_statefulset (ro_Namespace r) (ro_Name r) w with
  | (Failed e, w') => (failed_status e, w')
  | (Found s, w') =>
      (rollout_status now r (default 1 (sts_SpecReplicas s)) (sts_ReadyReplicas s)
         (sts_UpdatedReplicas s) (statefulset_complete s), w')
  end.

Definition checkDeploymentStatus (now : Z) (r : PendingRollout) (w : W) : RolloutStatus * W :=
  match get_deployment (ro_Namespace r) (ro_Name r) w with
  | (Failed e, w') => (failed_status e, w')
  | (Found d, w') =>
      (rollout_status now r (default 1 (dep_SpecReplicas d)) (dep_ReadyReplicas d)
         (dep_UpdatedReplicas d) (deployment_complete d), w')
  end.

Definition CheckRolloutStatus (now : Z) (r : PendingRollout) (w : W) : RolloutStatus * W :=
  if bool_decide (ro_Type r = RolloutTypeStatefulSet) then checkStatefulSetStatus now r w
  else if bool_decide (ro_Type r = RolloutTypeDeployment) then checkDeploymentStatus now r w
  else (failed_status (OtherError ("unknown rollout type: " +:+ ro_Type r)), w).

(** [WaitForRollout], started at [now]: between two checks the [select]
    receives one event, the end of the context or the 5 s timer (at the
    instant it fires).  [None] is "still waiting after these events". *)
Fixpoint WaitForRollout (timeout : duration) (start now : Z) (r : PendingRollout)
    (events : list wait_event) (w : W) : option (result unit) * W :=
  if bool_decide (start + timeout < now)
  then (Some (Err ("timeout waiting for rollout of " +:+ ro_Type r +:+ "/" +:+ ro_Name r)), w)
  else
    let '(status, w) := CheckRolloutStatus now r w in
    match rs_Error status with
    | Some e => (Some (Err (api_message e)), w)
    | None =>
        if rs_Complete status then (Some (Ok tt), w)
        else match events with
             | [] => (None, w)
             | CtxDone err :: _ => (Some (Err err), w)
             | Tick now :: events => WaitForRollout timeout start now r events w
             end
    end.

(** ** The pending rollouts of a cluster *)

Definition set_ready (e : PendingCertRollout) : PendingCertRollout :=
  {| pr_Component := pr_Component e; pr_WorkloadName := pr_WorkloadName e;
     pr_WorkloadType := pr_WorkloadType e; pr_StartTime := pr_StartTime e;
     pr_Reason := pr_Reason e; pr_Ready := true |}.

Definition to_check (namespace : string) (e : PendingCertRollout) : PendingRollout :=
  {| ro_Name := pr_WorkloadName e; ro_Namespace := namespace; ro_Type := pr_WorkloadType e;
     ro_Component := pr_Component e; ro_Reason := pr_Reason e; ro_StartTime := pr_StartTime e;
     ro_Generation := 0 |}.

(** One iteration: the entry kept and whether it is pending. *)
Definition check_entry (now : Z) (namespace : string) (e : PendingCertRollout) (w : W)
    : PendingCertRollout * bool * W :=
  if pr_Ready e then (e, false, w)
  else
    let '(status, w) := CheckRolloutStatus now (to_check namespace e) w in
    match rs_Error status with
    | Some _ => (e, true, w)
    | None => if rs_Ready status then (set_ready e, false, w) else (e, true, w)
    end.

Fixpoint check_entries (now : Z) (namespace : string) (l : list PendingCertRollout) (w : W)
    : list PendingCertRollout * bool * W :=
  match l with
  | [] => ([], false, w)
  | e :: l =>
      let '(e, pending, w) := check_entry now namespace e w in
      let '(l, more, w) := check_entries now namespace l w in
      (e :: l, pending || more, w)
  end.

Definition state : Type := option CertificateRolloutStatus * W.

Definition checkAndUpdatePendingRollouts (now : Z) (namespace : string) (s : state) : bool * state :=
  match s with
  | (None, w) => (false, s)
  | (Some st, w) =>
      if bool_decide (length (cr_PendingRollouts st) = 0%nat) then (false, s)
      else
        let '(l, hasPending, w) := check_entries now namespace (cr_PendingRollouts st) w in
        (hasPending,
         (Some {| cr_PendingRollouts := l; cr_LastRolloutTime := cr_LastRolloutTime st;
                  cr_RolloutsInProgress := hasPending |}, w))
  end.

Definition new_entry (r : PendingRollout) : PendingCertRollout :=
  {| pr_Component := ro_Component r; pr_WorkloadName := ro_Name r; pr_WorkloadType := ro_Type r;
     pr_StartTime := ro_StartTime r; pr_Reason := ro_Reason r; pr_Ready := false |}.

(** The first pending entry of the component is replaced, or one is appended. *)
Fixpoint add_entry (r : PendingRollout) (l : list PendingCertRollout) : list PendingCertRollout :=
  match l with
  | [] => [new_entry r]
  | e :: l =>
      if bool_decide (pr_Component e = ro_Component r) && negb (pr_Ready e)
      then new_entry r :: l else e :: add_entry r l
  end.

Definition addPendingRollouts (now : Z) (rollouts : list PendingRollout)
    (st : option CertificateRolloutStatus) : option CertificateRolloutStatus :=
  Some {| cr_PendingRollouts :=
            fold_left (fun l r => add_entry r l) rollouts
              (default [] (cr_PendingRollouts <$> st));
          cr_LastRolloutTime := Some now;
          cr_RolloutsInProgress := true |}.

(** What reconciles do to the status, one after the other. *)
Inductive rollout_op :=
| CheckRollouts (now : Z)
| AddRollouts (now : Z) (rollouts : list PendingRollout).

Definition apply_rollout_op (namespace : string) (s : state) (op : rollout_op) : state :=
  match op with
  | CheckRollouts now => (checkAndUpdatePendingRollouts now namespace s).2
  | AddRollouts now rollouts => (addPendingRollouts now rollouts s.1, s.2)
  end.
End Rollouts.

(** ** Lemmas *)

Definition pending (e : PendingCertRollout) : bool := negb (pr_Ready e).

(** The components with a pending entry, in order. *)
Definition pending_components (l : list PendingCertRollout) : list string :=
  map pr_Component (List.filter pending l).

Definition entries (st : option CertificateRolloutStatus) : list PendingCertRollout :=
  default [] (cr_PendingRollouts <$> st).

Section Lemmas.
Context {W : Type} `{!KubeClient W, !DeploymentClient W}.

(** The server showed the workload of [r] completely rolled out. *)
Definition observed_complete (r : PendingRollout) (w w' : W) : Prop :=
  (ro_Type r = RolloutTypeStatefulSet /\ exists s,
     get_statefulset (ro_Namespace r) (ro_Name r) w = (Found s, w') /\ statefulset_complete s = true) \/
  (ro_Type r = RolloutTypeDeployment /\ exists d,
     get_deployment (ro_Namespace r) (ro_Name r) w = (Found d, w') /\ deployment_complete d = true).

Lemma CheckRolloutStatus_complete now r w st w' :
  CheckRolloutStatus now r w = (st, w') ->
  rs_Ready st = rs_Complete st /\
  (rs_Error st = None /\ rs_Complete st = true <-> observed_complete r w w').
Proof.
  unfold CheckRolloutStatus, checkStatefulSetStatus, checkDeploymentStatus, observed_complete.
  assert (RolloutTypeStatefulSet <> RolloutTypeDeployment) by done.
  intros Hchk. repeat case_bool_decide.
  - destruct (get_statefulset _ _ _) as [[s|e] w1]; simplify_eq/=; (split; [done|]).
    + split; [intros [_ Hc]; left; eauto|].
      intros [(_ & ? & ? & ?)|[Ht _]]; simplify_eq/=; first [done | congruence].
    + split; [by intros []|]. intros [(_ & ? & ? & _)|[Ht _]]; simplify_eq/=; congruence.
  - destruct (get_deployment _ _ _) as [[d|e] w1]; simplify_eq/=; (split; [done|]).
    + split; [intros [_ Hc]; right; eauto|].
      intros [[Ht _]|(_ & ? & ? & ?)]; simplify_eq/=; first [done | congruence].
    + split; [by intros []|]. intros [[Ht _]|(_ & ? & ? & _)]; simplify_eq/=; congruence.
  - simplify_eq/=. split; [done|]. split; [by intros []|]. intros [[]|[]]; congruence.
Qed.

(** What one look at an entry may do. *)
Inductive entry_step (namespace : string) (e : PendingCertRollout) (w w' : W)
    : PendingCertRollout -> Prop :=
| entry_kept_ready : pr_Ready e = true -> w' = w -> entry_step namespace e w w' e
| entry_completed : pr_Ready e = false -> observed_complete (to_check namespace e) w w' ->
    entry_step namespace e w w' (set_ready e)
| entry_pending : pr_Ready e = false -> ~ observed_complete (to_check namespace e) w w' ->
    entry_step namespace e w w' e.

Lemma check_entry_step now ns e w e' b w' :
  check_entry now ns e w = (e', b, w') ->
  entry_step ns e w w' e' /\ b = pending e'.
Proof.
  unfold check_entry, pending. destruct (pr_Ready e) eqn:Er.
  { intros; simplify_eq. rewrite Er. split; [by constructor|done]. }
  destruct (CheckRolloutStatus _ _ _) as [st w1] eqn:E.
  apply CheckRolloutStatus_complete in E as [Hrc Hiff]. rewrite Hrc.
  destruct (rs_Error st) eqn:Ee; [|destruct (rs_Complete st) eqn:Ec]; intros; simplify_eq/=;
    rewrite ?Er; (split; [|done]).
  - apply entry_pending; [done|]. by intros [? _]%Hiff.
  - apply entry_completed; [done|]. by apply Hiff.
  - apply entry_pending; [done|]. by intros [_ ?]%Hiff.
Qed.

(** A pass over the list, the world threaded through. *)
Inductive entries_step (namespace : string)
    : list PendingCertRollout -> W -> list PendingCertRollout -> W -> Prop :=
| entries_nil w : entries_step namespace [] w [] w
| entries_cons e l w e' w1 l' w' : entry_step namespace e w w1 e' ->
    entries_step namespace l w1 l' w' -> entries_step namespace (e :: l) w (e' :: l') w'.

Lemma check_entries_step now ns l w l' b w' :
  check_entries now ns l w = (l', b, w') ->
  entries_step ns l w l' w' /\ b = existsb pending l'.
Proof.
  revert w l' b. induction l as [|e l IH]; cbn [check_entries]; intros w l' b.
  { intros; simplify_eq. split; [constructor|done]. }
  destruct (check_entry now ns e w) as [[e' p] w1] eqn:E.
  destruct (check_entries now ns l w1) as [[l1 m] w2] eqn:El. intros; simplify_eq.
  apply check_entry_step in E as [? ->]. apply IH in El as [? ->].
  split; [by econstructor|done].
Qed.

Lemma entry_step_same ns e w w' e' : entry_step ns e w w' e' ->
  e' = e \/ (pr_Ready e = false /\ e' = set_ready e).
Proof. destruct 1; auto. Qed.

Lemma entries_step_same ns l w l' w' : entries_step ns l w l' w' ->
  Forall2 (fun e e' => e' = e \/ (pr_Ready e = false /\ e' = set_ready e)) l l'.
Proof. induction 1; constructor; eauto using entry_step_same. Qed.
End Lemmas.

Lemma pending_components_cons e l :
  pending_components (e :: l) =
    (if pr_Ready e then [] else [pr_Component e]) ++ pending_components l.
Proof. unfold pending_components, pending. cbn. by destruct (pr_Ready e). Qed.

Lemma pending_components_step l l' :
  Forall2 (fun e e' => e' = e \/ (pr_Ready e = false /\ e' = set_ready e)) l l' ->
  sublist (pending_components l') (pending_components l).
Proof.
  induction 1 as [|e e' l l' He _ IH]; [done|]. rewrite !pending_components_cons.
  destruct He as [->|[-> ->]]; cbn.
  - by apply sublist_app.
  - by constructor.
Qed.

Lemma pending_components_add r l :
  pending_components (add_entry r l) =
    if bool_decide (ro_Component r ∈ pending_components l) then pending_components l
    else pending_components l ++ [ro_Component r].
Proof.
  induction l as [|e l IH]; [done|]. cbn [add_entry]. rewrite (pending_components_cons e l).
  destruct (pr_Ready e) eqn:Er.
  - rewrite andb_false_r, pending_components_cons, Er. cbn [app]. exact IH.
  - rewrite andb_true_r. destruct (decide (pr_Component e = ro_Component r)) as [Hc|Hc];
      [rewrite (bool_decide_true (pr_Component e = _)) by done
      |rewrite (bool_decide_false (pr_Component e = _)) by done].
    + rewrite pending_components_cons. cbn. rewrite Hc.
      rewrite bool_decide_true; [done|]. by left.
    + rewrite pending_components_cons, Er, IH. cbn [app].
      repeat case_bool_decide; set_solver.
Qed.

Lemma pending_components_adds rs l :
  NoDup (pending_components l) ->
  NoDup (pending_components (fold_left (fun l r => add_entry r l) rs l)).
Proof.
  revert l. induction rs as [|r rs IH]; intros l H; cbn; [done|]. apply IH.
  rewrite pending_components_add. case_bool_decide; [done|].
  apply NoDup_app. split_and!; [done| |apply NoDup_singleton].
  intros x Hx ->%list_elem_of_singleton. done.
Qed.

(** The list may get longer, and keeps what is complete. *)
Definition grows (l l' : list PendingCertRollout) : Prop :=
  (length l <= length l')%nat /\ forall e, pr_Ready e = true -> e ∈ l -> e ∈ l'.

#[export] Instance grows_preorder : PreOrder grows.
Proof. split; [by split|]. intros l1 l2 l3 [H1 H2] [H3 H4]. split; [lia|]. eauto. Qed.

Lemma grows_step l l' :
  Forall2 (fun e e' => e' = e \/ (pr_Ready e = false /\ e' = set_ready e)) l l' -> grows l l'.
Proof.
  intros H. split; [by rewrite (Forall2_length _ _ _ H)|].
  induction H as [|e e' l l' He _ IH]; intros x Hx; [done|].
  rewrite !elem_of_cons. intros [->|Hin]; [|by auto]. destruct He as [->|[Hf _]]; [by left|congruence].
Qed.

Lemma grows_add r l : grows l (add_entry r l).
Proof.
  induction l as [|e l [IHl IH]]; [split; [cbn; lia|]; intros e _ H; by apply elem_of_nil in H|].
  cbn [add_entry].
  destruct (bool_decide (pr_Component e = ro_Component r) && negb (pr_Ready e)) eqn:E.
  - split; [done|]. intros x Hx [->|Hin]%elem_of_cons; [|by right].
    by rewrite Hx, andb_false_r in E.
  - split; [cbn; lia|]. intros x Hx [->|Hin]%elem_of_cons; rewrite elem_of_cons; auto.
Qed.

Lemma grows_adds rs l : grows l (fold_left (fun l r => add_entry r l) rs l).
Proof.
  revert l. induction rs as [|r rs IH]; intros l; cbn; [done|].
  etransitivity; [apply grows_add|apply IH].
Qed.

Section Steps.
Context {W : Type} `{!KubeClient W, !DeploymentClient W}.

Lemma check_entries_same now ns (s : state) :
  Forall2 (fun e e' => e' = e \/ (pr_Ready e = false /\ e' = set_ready e))
    (entries s.1) (entries (checkAndUpdatePendingRollouts now ns s).2.1).
Proof.
  destruct s as [[st|] w]; cbn; [|constructor]. unfold checkAndUpdatePendingRollouts.
  case_bool_decide as H; cbn; [clear H; induction (cr_PendingRollouts st); constructor; auto|].
  destruct (check_entries _ _ _ _) as [[l' p] w'] eqn:E. cbn.
  apply check_entries_step in E as [E _]. by eapply entries_step_same.
Qed.

Lemma op_step ns (s : state) op : let s' := apply_rollout_op ns s op in
  grows (entries s.1) (entries s'.1) /\
  (NoDup (pending_components (entries s.1)) -> NoDup (pending_components (entries s'.1))).
Proof.
  destruct op as [now|now rs]; cbn.
  - pose proof (check_entries_same now ns s) as H. split; [by apply grows_step|].
    intros Hn. by apply pending_components_step in H; eapply sublist_NoDup in H.
  - split; [apply grows_adds|]. apply pending_components_adds.
Qed.

Lemma ops_grow ns ops (s : state) : let s' := fold_left (apply_rollout_op ns) ops s in
  grows (entries s.1) (entries s'.1) /\
  (NoDup (pending_components (entries s.1)) -> NoDup (pending_components (entries s'.1))).
Proof.
  revert s. induction ops as [|op ops IH]; intros s; cbn; [done|].
  destruct (op_step ns s op) as [Hg Hn]. destruct (IH (apply_rollout_op ns s op)) as [Hg' Hn'].
  split; [by etransitivity|]. auto.
Qed.
End Steps.

(** ** Properties *)

Section Properties.
Context {W : Type} `{!KubeClient W, !DeploymentClient W}.

(** a look at the pending rollouts changes nothing but their [Ready] flags:
    entry by entry, in order, a ready entry stays as it is without asking the
    server, a pending one becomes ready exactly when the server shows its
    workload rolled out completely, and unreadable or missing workloads stay
    pending.  The answer and [RolloutsInProgress] say whether any entry is
    still pending. *)
Theorem rollouts_checked now ns st w b s' :
  cr_PendingRollouts st <> [] ->
  checkAndUpdatePendingRollouts now ns (Some st, w) = (b, s') ->
  exists l' w', s' = (Some {| cr_PendingRollouts := l'; cr_LastRolloutTime := cr_LastRolloutTime st;
                             cr_RolloutsInProgress := b |}, w') /\
    entries_step ns (cr_PendingRollouts st) w l' w' /\
    (b = true <-> pending_components l' <> []).
Proof.
  intros Hne H. unfold checkAndUpdatePendingRollouts in H.
  rewrite bool_decide_false in H; [|by destruct (cr_PendingRollouts st)].
  destruct (check_entries _ _ _ _) as [[l' p] w'] eqn:E. simplify_eq.
  apply check_entries_step in E as [Hs ->]. eexists _, _. split_and!; [done..|].
  clear Hs. induction l' as [|e l' IH]; [done|].
  rewrite pending_components_cons. cbn. unfold pending at 1. by destruct (pr_Ready e).
Qed.

(** over any history of reconciles the status keeps at most one pending
    rollout per component, forgets no completed one, and never shrinks. *)
Theorem rollout_history ns ops more (w : W) :
  let run := fold_left (apply_rollout_op ns) in
  let before := entries (run ops (None, w)).1 in
  let after := entries (run (ops ++ more) (None, w)).1 in
  NoDup (pending_components before) /\
  (length before <= length after)%nat /\
  (forall e, pr_Ready e = true -> e ∈ before -> e ∈ after).
Proof.
  cbv zeta. rewrite fold_left_app.
  destruct (ops_grow ns ops (None, w)) as [_ Hn]. split; [by apply Hn, NoDup_nil|].
  exact (proj1 (ops_grow ns more (fold_left (apply_rollout_op ns) ops (None, w)))).
Qed.

(** [WaitForRollout] returns: when the timer has fired after the timeout
    the call has ended, and without an error only when the server showed the
    rollout complete. *)
Theorem wait_for_rollout timeout start now r events t w :
  Tick t ∈ events -> start + timeout < t ->
  exists res w', WaitForRollout timeout start now r events w = (Some res, w') /\
    (res = Ok tt -> exists w1, observed_complete r w1 w').
Proof.
  intros Hin Ht. revert now w. induction events as [|ev events IH]; intros now w;
    [by apply elem_of_nil in Hin|].
  cbn [WaitForRollout]. case_bool_decide; [by eexists _, _; split|].
  destruct (CheckRolloutStatus now r w) as [st w1] eqn:E.
  destruct (rs_Error st) eqn:Ee; [by eexists _, _; split|].
  destruct (rs_Complete st) eqn:Ec.
  { eexists _, _. split; [done|]. intros _. exists w.
    eapply CheckRolloutStatus_complete; eauto. }
  destruct ev as [e|t']; [by eexists _, _; split|].
  apply elem_of_cons in Hin as [Heq|Hin]; [|by apply IH].
  simplify_eq. destruct events; cbn [WaitForRollout];
    rewrite bool_decide_true by done; by eexists _, _; split.
Qed.

(** a completed StatefulSet rollout may be one that has not begun: the
    check compares the status with the replicas but not the observed
    generation with the generation, so that a status the StatefulSet
    controller has not yet brought up to date for the new template marks the
    rollout ready at the first look.  A Deployment's rollout is only ready
    when its generation has been observed. *)
Theorem stale_status_completes_rollout now ns e w w' :
  pr_Ready e = false ->
  (forall s, pr_WorkloadType e = RolloutTypeStatefulSet ->
     get_statefulset ns (pr_WorkloadName e) w = (Found s, w') ->
     sts_UpdatedReplicas s = default 1 (sts_SpecReplicas s) ->
     sts_ReadyReplicas s = default 1 (sts_SpecReplicas s) ->
     sts_CurrentRevision s = sts_UpdateRevision s ->
     sts_ObservedGeneration s < sts_Generation s ->
     check_entry now ns e w = (set_ready e, false, w')) /\
  (forall d, pr_WorkloadType e = RolloutTypeDeployment ->
     get_deployment ns (pr_WorkloadName e) w = (Found d, w') ->
     dep_ObservedGeneration d < dep_Generation d ->
     check_entry now ns e w = (e, true, w')).
Proof.
  intros Hr. split.
  - intros s Ht Hg Hu Hrd Hc _. unfold check_entry, CheckRolloutStatus, checkStatefulSetStatus. cbn.
    rewrite Hr, bool_decide_true, Hg by done. cbn. unfold statefulset_complete.
    by rewrite !bool_decide_true.
  - intros d Ht Hg Hlt. unfold check_entry, CheckRolloutStatus, checkDeploymentStatus. cbn.
    rewrite Hr, Ht, Hg. cbn. unfold deployment_complete.
    by rewrite (bool_decide_false (dep_Generation d <= _)), !andb_false_r by lia.
Qed.
End Properties.

(** ** Workloads to try the theorems on *)
Module SimRollouts.
(** A server with one StatefulSet, one Deployment, and a tick on every read of
    the StatefulSet that brings one more pod up to date. *)
Record server := { v_sts : StatefulSet; v_dep : Deployment }.

Definition tick (s : StatefulSet) : StatefulSet :=
  let n := Z.min (sts_Replicas s) (sts_UpdatedReplicas s + 1) in
  {| sts_Name := sts_Name s; sts_Namespace := sts_Namespace s; sts_UID := sts_UID s;
     sts_SpecReplicas := sts_SpecReplicas s; sts_MatchLabels := sts_MatchLabels s;
     sts_Replicas := sts_Replicas s; sts_ReadyReplicas := sts_ReadyReplicas s;
     sts_UpdatedReplicas := n;
     sts_CurrentRevision := if bool_decide (n = sts_Replicas s) then sts_UpdateRevision s
                            else sts_CurrentRevision s;
     sts_UpdateRevision := sts_UpdateRevision s;
     sts_Generation := sts_Generation s; sts_ObservedGeneration := sts_Generation s |}.

#[global] Instance kube : KubeClient server := {
  get_statefulset _ n v :=
    (if bool_decide (n = sts_Name (v_sts v)) then Found (v_sts v) else Failed (NotFound n),
     {| v_sts := tick (v_sts v); v_dep := v_dep v |});
  update_statefulset s v := (Found tt, {| v_sts := s; v_dep := v_dep v |});
  list_pods _ _ v := (Found [], v);
  delete_pod _ v := (Found tt, v);
  get_secret _ n v := (Failed (NotFound n), v)
}.

#[global] Instance deployments : DeploymentClient server := {
  get_deployment _ _ v := (Found (v_dep v), v)
}.

Definition half_rolled : StatefulSet :=
  {| sts_Name := "w-indexer"; sts_Namespace := "ns"; sts_UID := "u"; sts_SpecReplicas := Some 3;
     sts_MatchLabels := ∅; sts_Replicas := 3; sts_ReadyReplicas := 3; sts_UpdatedReplicas := 1;
     sts_CurrentRevision := "r1"; sts_UpdateRevision := "r2";
     sts_Generation := 2; sts_ObservedGeneration := 2 |}.

(** Freshly updated: the status still describes the previous generation. *)
Definition stale : StatefulSet :=
  {| sts_Name := "w-indexer"; sts_Namespace := "ns"; sts_UID := "u"; sts_SpecReplicas := Some 3;
     sts_MatchLabels := ∅; sts_Replicas := 3; sts_ReadyReplicas := 3; sts_UpdatedReplicas := 3;
     sts_CurrentRevision := "r1"; sts_UpdateRevision := "r1";
     sts_Generation := 2; sts_ObservedGeneration := 1 |}.

Definition rolled_dashboard : Deployment :=
  {| dep_SpecReplicas := None; dep_Replicas := 1; dep_ReadyReplicas := 1; dep_UpdatedReplicas := 1;
     dep_AvailableReplicas := 1; dep_Generation := 4; dep_ObservedGeneration := 4 |}.

Definition indexer_rollout : PendingRollout :=
  {| ro_Name := "w-indexer"; ro_Namespace := "ns"; ro_Type := RolloutTypeStatefulSet;
     ro_Component := "indexer"; ro_Reason := "spec-change"; ro_StartTime := Some 0;
     ro_Generation := 0 |}.

Definition dashboard_rollout : PendingRollout :=
  {| ro_Name := "w-dashboard"; ro_Namespace := "ns"; ro_Type := RolloutTypeDeployment;
     ro_Component := "dashboard"; ro_Reason := "config-change"; ro_StartTime := Some 0;
     ro_Generation := 0 |}.

Definition started : CertificateRolloutStatus :=
  {| cr_PendingRollouts := [new_entry indexer_rollout; new_entry dashboard_rollout];
     cr_LastRolloutTime := Some 0; cr_RolloutsInProgress := true |}.
End SimRollouts.
Import SimRollouts.

Example rollouts_checked_witness :
  exists l' w', entries_step "ns" (cr_PendingRollouts started)
                  {| v_sts := half_rolled; v_dep := rolled_dashboard |} l' w' /\
    pending_components l' = ["indexer"].
Proof.
  set (w := {| v_sts := half_rolled; v_dep := rolled_dashboard |}).
  destruct (rollouts_checked 5 "ns" started w _ _ ltac:(discriminate) eq_refl)
    as (l' & w' & Heq & Hs & _).
  exists l', w'. split; [exact Hs|]. vm_compute in Heq. injection Heq as <- _. reflexivity.
Defined.

Example rollout_history_witness :
  let ops := [AddRollouts 0 [dashboard_rollout; indexer_rollout]; CheckRollouts 1] in
  let again := [AddRollouts 2 [dashboard_rollout; indexer_rollout]] in
  let w := {| v_sts := half_rolled; v_dep := rolled_dashboard |} in
  NoDup (pending_components (entries (fold_left (apply_rollout_op "ns") ops (None, w)).1)) /\
  length (entries (fold_left (apply_rollout_op "ns") (ops ++ again) (None, w)).1) = 3%nat.
Proof.
  intros ops again w. destruct (rollout_history "ns" ops again w) as [Hn _].
  split; [exact Hn | vm_compute; reflexivity].
Defined.

Example wait_for_rollout_witness :
  exists res w', WaitForRollout DefaultRolloutTimeout 0 0 indexer_rollout
      [Tick (5 * Second); Tick (10 * Second); Tick (601 * Second)]
      {| v_sts := half_rolled; v_dep := rolled_dashboard |} = (Some res, w') /\ res = Ok tt.
Proof.
  destruct (wait_for_rollout DefaultRolloutTimeout 0 0 indexer_rollout
      [Tick (5 * Second); Tick (10 * Second); Tick (601 * Second)] (601 * Second)
      {| v_sts := half_rolled; v_dep := rolled_dashboard |}) as (res & w' & H & _).
  { do 2 right. left. }
  { vm_compute. reflexivity. }
  exists res, w'. split; [exact H|]. vm_compute in H. congruence.
Defined.

Example stale_status_completes_rollout_witness :
  check_entry 5 "ns" (new_entry indexer_rollout) {| v_sts := stale; v_dep := rolled_dashboard |}
  = (set_ready (new_entry indexer_rollout), false,
     {| v_sts := tick stale; v_dep := rolled_dashboard |}).
Proof.
  apply (stale_status_completes_rollout 5 "ns" (new_entry indexer_rollout) _ _ eq_refl) with (s := stale);
    try reflexivity.
Defined.
