(* ===== verification/Workload.v ===== *)
(** * Applying workloads ([internal/*/reconciler], [internal/shared/patch], [internal/utils])

    How the StatefulSets of the indexer and of the managers and the Deployment
    of the dashboard are created, updated and recreated: which changes are
    noticed, what an update sends, and what happens when it is refused.

    Values of Kubernetes types that the code only copies and compares
    (selectors, affinities, security contexts, ...) are of the type [V], with
    [equality.Semantic.DeepEqual] as [deep_equal]. *)
From S2P Require Import Prelude GoStrings GoFloat Kube IndexerDrain Rollouts.
Local Open Scope go_scope.
Local Open Scope list_scope.

(** A map of strings that may be nil. *)
Definition annotations : Type := option (gmap string string).

(** [m[key]], with the empty string for a missing key or a nil map. *)
Definition lookup_str (m : annotations) (k : string) : string := default "" (m ≫= lookup k).

Definition AnnotationSpecHash : string := "wazuh.com/spec-hash".
Definition AnnotationConfigHash : string := "wazuh.com/config-hash".
Definition AnnotationCertHash : string := "wazuh.com/cert-hash".
Definition AnnotationRuleHash : string := "wazuh.com/rule-hash".
Definition AnnotationDecoderHash : string := "wazuh.com/decoder-hash".

(** A ConfigMap mounted as a file: its name and the file's. *)
Record ConfigMapRef := { ref_Name : string; ref_FileName : string }.

(** The volumes and mounts of rules and decoders are determined by their
    references. *)
Record PodTemplate (V : Type) := {
  pt_Annotations : annotations;
  pt_SecurityContext : V;
  pt_Tolerations : V;
  pt_Affinity : V;
  pt_RuleMounts : list ConfigMapRef;
  pt_DecoderMounts : list ConfigMapRef;
  pt_Rest : V
}.
Arguments pt_Annotations {V} _.
Arguments pt_SecurityContext {V} _.
Arguments pt_Tolerations {V} _.
Arguments pt_Affinity {V} _.
Arguments pt_RuleMounts {V} _.
Arguments pt_DecoderMounts {V} _.
Arguments pt_Rest {V} _.

Record FullStatefulSet (V : Type) := {
  fs_Name : string;
  fs_Namespace : string;
  fs_ServerMeta : V;   (* UID, resource version, creation time, status *)
  fs_Deleting : bool;
  fs_Labels : annotations;
  fs_Annotations : annotations;
  fs_OwnerReferences : V;
  fs_Selector : V;
  fs_ServiceName : string;
  fs_VolumeClaimTemplates : V;
  fs_PodManagementPolicy : string;
  fs_Replicas : option Z;
  fs_Template : PodTemplate V;
  fs_UpdateStrategy : V;
  fs_MinReadySeconds : Z;
  fs_RetentionPolicy : V;
  fs_Ordinals : V;
  fs_RevisionHistoryLimit : option Z
}.
Arguments fs_Name {V} _.
Arguments fs_Namespace {V} _.
Arguments fs_ServerMeta {V} _.
Arguments fs_Deleting {V} _.
Arguments fs_Labels {V} _.
Arguments fs_Annotations {V} _.
Arguments fs_OwnerReferences {V} _.
Arguments fs_Selector {V} _.
Arguments fs_ServiceName {V} _.
Arguments fs_VolumeClaimTemplates {V} _.
Arguments fs_PodManagementPolicy {V} _.
Arguments fs_Replicas {V} _.
Arguments fs_Template {V} _.
Arguments fs_UpdateStrategy {V} _.
Arguments fs_MinReadySeconds {V} _.
Arguments fs_RetentionPolicy {V} _.
Arguments fs_Ordinals {V} _.
Arguments fs_RevisionHistoryLimit {V} _.

(** ** [internal/shared/patch/merge.go] *)

Definition mergeStringMaps (current desired : annotations) : annotations :=
  match desired with
  | None => current
  | Some d => Some (d ∪ default ∅ current)
  end.

Definition MergeStatefulSetUpdate {V} (current desired : FullStatefulSet V) : FullStatefulSet V :=
  {| fs_Name := fs_Name current;
     fs_Namespace := fs_Namespace current;
     fs_ServerMeta := fs_ServerMeta current;
     fs_Deleting := fs_Deleting current;
     fs_Labels := mergeStringMaps (fs_Labels current) (fs_Labels desired);
     fs_Annotations := mergeStringMaps (fs_Annotations current) (fs_Annotations desired);
     fs_OwnerReferences := fs_OwnerReferences desired;
     fs_Selector := fs_Selector current;
     fs_ServiceName := fs_ServiceName current;
     fs_VolumeClaimTemplates := fs_VolumeClaimTemplates current;
     fs_PodManagementPolicy := fs_PodManagementPolicy current;
     fs_Replicas := fs_Replicas desired;
     fs_Template := fs_Template desired;
     fs_UpdateStrategy := fs_UpdateStrategy desired;
     fs_MinReadySeconds := fs_MinReadySeconds desired;
     fs_RetentionPolicy := fs_RetentionPolicy desired;
     fs_Ordinals := fs_Ordinals desired;
     fs_RevisionHistoryLimit := fs_RevisionHistoryLimit current |}.

(** ** The changes that are noticed *)

Section Changes.
Context {V : Type} (deep_equal : V -> V -> bool).

(** [internal/shared/patch/immutable.go] *)
Definition NeedsStatefulSetRecreation (current desired : FullStatefulSet V) : bool * string :=
  if negb (bool_decide (fs_PodManagementPolicy current = fs_PodManagementPolicy desired))
  then (true, "PodManagementPolicy changed from " +:+ fs_PodManagementPolicy current +:+ " to "
              +:+ fs_PodManagementPolicy desired)
  else if negb (deep_equal (pt_SecurityContext (fs_Template current))
                           (pt_SecurityContext (fs_Template desired)))
  then (true, "SecurityContext changed")
  else (false, "").

(** [needsUpdate] and [updateReason]; a change sets the one and extends the
    other. *)
Definition noticed : Type := bool * string.

Definition note (sep reason : string) (changed : bool) (n : noticed) : noticed :=
  if changed
  then (true, if bool_decide (n.2 = "") then reason else n.2 +:+ sep +:+ reason)
  else n.

Record hashes := {
  h_Cert : string;
  h_Config : string;
  h_Spec : string;
  h_Rule : string;
  h_Decoder : string
}.

(** [hash != "" && hash != existing] *)
Definition hash_changed (hash : string) (m : annotations) (key : string) : bool :=
  negb (bool_decide (hash = "")) && negb (bool_decide (hash = lookup_str m key)).

(** The indexer's and the dashboard's checks, in the order of the code. *)
Definition indexer_changes (h : hashes) (found_annotations : annotations)
    (found desired : PodTemplate V) : noticed :=
  let n := (false, "") in
  let n := note "," "spec-change" (hash_changed (h_Spec h) found_annotations AnnotationSpecHash) n in
  let n := note "," "tolerations-change"
             (negb (deep_equal (pt_Tolerations found) (pt_Tolerations desired))) n in
  let n := note "," "affinity-change"
             (negb (deep_equal (pt_Affinity found) (pt_Affinity desired))) n in
  let n := note "," "certificate-renewal"
             (hash_changed (h_Cert h) (pt_Annotations found) AnnotationCertHash) n in
  note "," "config-change" (hash_changed (h_Config h) (pt_Annotations found) AnnotationConfigHash) n.

(** The master's and the workers' checks. *)
Definition manager_changes (h : hashes) (found_annotations : annotations)
    (found desired : PodTemplate V) : noticed :=
  let n := (false, "") in
  let n := note "+" "certificate-change"
             (hash_changed (h_Cert h) (pt_Annotations found) AnnotationCertHash) n in
  let n := note "+" "config-change"
             (hash_changed (h_Config h) (pt_Annotations found) AnnotationConfigHash) n in
  let n := note "+" "spec-change" (hash_changed (h_Spec h) found_annotations AnnotationSpecHash) n in
  let n := note "+" "tolerations-change"
             (negb (deep_equal (pt_Tolerations found) (pt_Tolerations desired))) n in
  let n := note "+" "affinity-change"
             (negb (deep_equal (pt_Affinity found) (pt_Affinity desired))) n in
  let n := note "+" "rule-change"
             (negb (bool_decide (h_Rule h = lookup_str (pt_Annotations found) AnnotationRuleHash))) n in
  note "+" "decoder-change"
    (negb (bool_decide (h_Decoder h = lookup_str (pt_Annotations found) AnnotationDecoderHash))) n.
End Changes.

(** ** Deployments *)

Record FullDeployment (V : Type) := {
  fd_Name : string;
  fd_Namespace : string;
  fd_ServerMeta : V;
  fd_Deleting : bool;
  fd_Labels : annotations;
  fd_Annotations : annotations;
  fd_OwnerReferences : V;
  fd_Selector : V;
  fd_Replicas : option Z;
  fd_Template : PodTemplate V;
  fd_Strategy : V;
  fd_MinReadySeconds : Z;
  fd_RevisionHistoryLimit : option Z;
  fd_Paused : bool;
  fd_ProgressDeadlineSeconds : option Z
}.
Arguments fd_Name {V} _.
Arguments fd_Namespace {V} _.
Arguments fd_ServerMeta {V} _.
Arguments fd_Deleting {V} _.
Arguments fd_Labels {V} _.
Arguments fd_Annotations {V} _.
Arguments fd_OwnerReferences {V} _.
Arguments fd_Selector {V} _.
Arguments fd_Replicas {V} _.
Arguments fd_Template {V} _.
Arguments fd_Strategy {V} _.
Arguments fd_MinReadySeconds {V} _.
Arguments fd_RevisionHistoryLimit {V} _.
Arguments fd_Paused {V} _.
Arguments fd_ProgressDeadlineSeconds {V} _.

Definition MergeDeploymentUpdate {V} (current desired : FullDeployment V) : FullDeployment V :=
  {| fd_Name := fd_Name current;
     fd_Namespace := fd_Namespace current;
     fd_ServerMeta := fd_ServerMeta current;
     fd_Deleting := fd_Deleting current;
     fd_Labels := mergeStringMaps (fd_Labels current) (fd_Labels desired);
     fd_Annotations := mergeStringMaps (fd_Annotations current) (fd_Annotations desired);
     fd_OwnerReferences := fd_OwnerReferences desired;
     fd_Selector := fd_Selector current;
     fd_Replicas := fd_Replicas desired;
     fd_Template := fd_Template desired;
     fd_Strategy := fd_Strategy desired;
     fd_MinReadySeconds := fd_MinReadySeconds desired;
     fd_RevisionHistoryLimit := fd_RevisionHistoryLimit desired;
     fd_Paused := fd_Paused desired;
     fd_ProgressDeadlineSeconds := fd_ProgressDeadlineSeconds desired |}.

(** ** [internal/utils/workload_recreate.go]: errors about immutable fields *)

Definition IsStatefulSetImmutableError (e : api_error) : bool :=
  match e with
  | Invalid msg | Forbidden msg =>
      Contains msg "updates to statefulset spec" || Contains msg "volumeClaimTemplates"
  | _ => false
  end.

Definition IsDeploymentImmutableError (e : api_error) : bool :=
  match e with
  | Invalid msg | Forbidden msg =>
      if negb (Contains msg "spec.selector") then false
      else Contains msg "field is immutable" || Contains msg "Invalid value"
  | _ => false
  end.

(** ** One workload, either kind

    The code that applies a StatefulSet and the code that applies a Deployment
    are the same up to the fields and operations collected here. *)
Class WorkloadKind (V T : Type) := {
  k_type : string;                        (* RolloutType *)
  k_noun : string;                        (* in messages *)
  k_name : T -> string;
  k_namespace : T -> string;
  k_deleting : T -> bool;
  k_annotations : T -> annotations;
  k_template : T -> PodTemplate V;
  k_merge : T -> T -> T;                  (* current, desired *)
  k_recreation : T -> T -> bool * string; (* found, desired *)
  k_immutable_error : api_error -> bool
}.

Definition statefulset_kind {V} (deep_equal : V -> V -> bool) : WorkloadKind V (FullStatefulSet V) := {|
  k_type := RolloutTypeStatefulSet;
  k_noun := "statefulset";
  k_name := fs_Name;
  k_namespace := fs_Namespace;
  k_deleting := fs_Deleting;
  k_annotations := fs_Annotations;
  k_template := fs_Template;
  k_merge := MergeStatefulSetUpdate;
  k_recreation := NeedsStatefulSetRecreation deep_equal;
  k_immutable_error := IsStatefulSetImmutableError
|}.

(** A Deployment is never recreated before an update was refused. *)
Definition deployment_kind {V} : WorkloadKind V (FullDeployment V) := {|
  k_type := RolloutTypeDeployment;
  k_noun := "deployment";
  k_name := fd_Name;
  k_namespace := fd_Namespace;
  k_deleting := fd_Deleting;
  k_annotations := fd_Annotations;
  k_template := fd_Template;
  k_merge := MergeDeploymentUpdate;
  k_recreation _ _ := (false, "");
  k_immutable_error := IsDeploymentImmutableError
|}.

Class WorkloadClient (T W : Type) := {
  get_workload : string -> string -> API W T;
  create_workload : T -> API W unit;
  update_workload : T -> API W unit;
  (* with foreground propagation, or with the server's default *)
  delete_workload : bool -> T -> API W unit
}.

Section Apply.
Context {V T W : Type} `{KV : !WorkloadKind V T, !WorkloadClient T W}.
Context (cancelled : nat -> option error).

(** [RecreateStatefulSetOnError] / [RecreateDeploymentOnError] *)
Definition RecreateOnError (desired existing : T) (err : api_error) : IO W bool :=
  if negb (k_immutable_error err) then io_err (api_message err)
  else if k_deleting existing
  then io_err (k_noun +:+ " " +:+ k_namespace existing +:+ "/" +:+ k_name existing
               +:+ " is already being deleted")
  else
    out <- io_outcome (delete_workload true existing) ;;
    match out with
    | Found _ => io_ret true
    | Failed e => if IsNotFound e then io_ret true else io_err (api_message e)
    end.

(** [updateStatefulSetWithRetry] / [updateDeploymentWithRetry] *)
Definition updateOnce (desired : T) : API W unit := fun w =>
  match get_workload (k_namespace desired) (k_name desired) w with
  | (Failed e, w) => (Failed e, w)
  | (Found current, w) => update_workload (k_merge current desired) w
  end.

Definition updateWithRetry (desired : T) : API W unit :=
  RetryOnConflict cancelled (updateOnce desired).

(** [component] is the rollout's, [label] the one in messages, [changes] what
    is noticed. *)
Definition pending_rollout (now : Z) (component : string) (desired : T) (reason : string)
    : PendingRollout :=
  {| ro_Name := k_name desired; ro_Namespace := k_namespace desired; ro_Type := k_type;
     ro_Component := component; ro_Reason := reason; ro_StartTime := Some now;
     ro_Generation := 0 |}.

Definition apply_workload (now : Z) (component label : string)
    (changes : annotations -> PodTemplate V -> PodTemplate V -> noticed) (desired : T)
    : IO W (option PendingRollout) :=
  let what := label +:+ " " +:+ k_noun in
  out <- io_outcome (get_workload (k_namespace desired) (k_name desired)) ;;
  match out with
  | Failed e =>
      if IsNotFound e then
        io_wrap ("failed to create " +:+ what) (io_api (create_workload desired)) ;;;
        io_ret (Some (pending_rollout now component desired "initial-creation"))
      else io_err (errorf ("failed to get " +:+ what) (api_message e))
  | Found found =>
      let '(needsRecreation, recreationReason) := k_recreation found desired in
      if needsRecreation then
        del <- io_outcome (delete_workload false found) ;;
        match del with
        | Failed e =>
            if IsNotFound e then io_ret tt
            else io_err (errorf ("failed to delete " +:+ what +:+ " for recreation") (api_message e))
        | Found _ => io_ret tt
        end ;;;
        io_wrap ("failed to create " +:+ what +:+ " after recreation")
          (io_api (create_workload desired)) ;;;
        io_ret (Some (pending_rollout now component desired ("recreation-" +:+ recreationReason)))
      else
        let '(needsUpdate, updateReason) :=
          changes (k_annotations found) (k_template found) (k_template desired) in
        if needsUpdate then
          up <- io_outcome (updateWithRetry desired) ;;
          match up with
          | Failed e =>
              recreated <- io_wrap ("failed to update " +:+ what) (RecreateOnError desired found e) ;;
              if negb recreated then io_err (errorf ("failed to update " +:+ what) (api_message e))
              else io_err (k_noun +:+ " " +:+ k_namespace desired +:+ "/" +:+ k_name desired
                           +:+ " deleted for immutable field recreation")
          | Found _ => io_ret (Some (pending_rollout now component desired updateReason))
          end
        else io_ret None
  end.
End Apply.

(** ** Rules and decoders ([rule_reconciler.go], [decoder_reconciler.go])

    [WazuhRule] and [WazuhDecoder] resources have the same fields; so do the
    two functions that collect them. *)
Record CustomContent := {
  cc_Name : string;
  cc_ClusterRef : string;
  cc_Applied : bool;                (* Status.Phase is Applied *)
  cc_ConfigMapRef : option string;
  cc_FileStem : string;             (* RuleName / DecoderName *)
  cc_Content : string
}.

Record ContentInfo := { ci_ConfigMapName : string; ci_FileName : string; ci_Name : string }.

Class ContentClient (W : Type) := {
  list_rules : string -> API W (list CustomContent);
  list_decoders : string -> API W (list CustomContent)
}.

Definition info_le (a b : ContentInfo) : Prop := string_le (ci_Name a) (ci_Name b).
#[export] Instance info_le_dec : RelDecision info_le.
Proof. intros a b. unfold info_le. apply _. Defined.

Section Contents.
Context {W : Type} (sha256_hex : string -> string).

Definition for_cluster (what : string) (list_items : string -> API W (list CustomContent))
    (clusterName namespace : string) : IO W (list CustomContent) :=
  items <- io_wrap ("failed to list " +:+ what) (io_api (list_items namespace)) ;;
  io_ret (List.filter (fun c => bool_decide (cc_ClusterRef c = clusterName)) items).

Definition infos (l : list CustomContent) : list ContentInfo :=
  omap (fun c => ref ← (if cc_Applied c then cc_ConfigMapRef c else None);
                 Some {| ci_ConfigMapName := ref; ci_FileName := cc_FileStem c +:+ ".xml";
                         ci_Name := cc_Name c |}) l.

Definition contents (l : list CustomContent) : list string :=
  omap (fun c => _ ← (if cc_Applied c then cc_ConfigMapRef c else None); Some (cc_Content c)) l.

(** The bytes of the contents one after the other, hashed. *)
Definition computeContentHash (l : list string) : string :=
  String.substring 0 16 (sha256_hex (String.concat "" l)).

Definition GetConfigMapsForCluster (what : string)
    (list_items : string -> API W (list CustomContent)) (clusterName namespace : string)
    : IO W (list ContentInfo * string) :=
  items <- for_cluster what list_items clusterName namespace ;;
  io_ret (merge_sort info_le (infos items),
          computeContentHash (merge_sort string_le (contents items))).

Definition convertConfigMaps (l : list ContentInfo) : list ConfigMapRef :=
  map (fun i => {| ref_Name := ci_ConfigMapName i; ref_FileName := ci_FileName i |}) l.

(** What the managers mount and the hash that goes with it; an error is logged
    and treated like an empty list. *)
Definition collect (what : string) (list_items : string -> API W (list CustomContent))
    (clusterName namespace : string) : IO W (list ConfigMapRef * string) :=
  try r <- GetConfigMapsForCluster what list_items clusterName namespace ;;
  match r with
  | Ok (i :: l, hash) => io_ret (convertConfigMaps (i :: l), hash)
  | _ => io_ret ([], "")
  end.
End Contents.

(** ** The builders, as far as the annotations and mounts go

    [base] is the object with every other field in place. *)

(** [WithSpecHash], on the map of annotations *)
Definition set_hash (key hash : string) (m : gmap string string) : gmap string string :=
  if bool_decide (hash = "") then m else <[key := hash]> m.

(** [WithCertHash], [WithConfigHash], ..., on the pod annotations *)
Definition set_pod_hash (key hash : string) (m : annotations) : annotations :=
  if bool_decide (hash = "") then m else Some (<[key := hash]> (default ∅ m)).

(** [WithAnnotations] copies; an empty map is not passed on. *)
Definition built_annotations (user : annotations) (h : hashes) : annotations :=
  Some (set_hash AnnotationSpecHash (h_Spec h) (default ∅ user)).

Definition built_pod_annotations (user : annotations) (h : hashes) : annotations :=
  let m := if bool_decide (default ∅ user = ∅) then None else user in
  let m := set_pod_hash AnnotationCertHash (h_Cert h) m in
  let m := set_pod_hash AnnotationConfigHash (h_Config h) m in
  let m := set_pod_hash AnnotationRuleHash (h_Rule h) m in
  set_pod_hash AnnotationDecoderHash (h_Decoder h) m.

Definition built_template {V} (base : PodTemplate V) (pods : annotations)
    (rules decoders : list ConfigMapRef) : PodTemplate V :=
  {| pt_Annotations := pods; pt_SecurityContext := pt_SecurityContext base;
     pt_Tolerations := pt_Tolerations base; pt_Affinity := pt_Affinity base;
     pt_RuleMounts := rules; pt_DecoderMounts := decoders; pt_Rest := pt_Rest base |}.

(** What the custom resource says about a component. *)
Record component_spec := {
  sp_Annotations : annotations;
  sp_PodAnnotations : annotations
}.

Definition build_statefulset {V} (base : FullStatefulSet V) (spec : component_spec) (h : hashes)
    (rules decoders : list ConfigMapRef) : FullStatefulSet V :=
  {| fs_Name := fs_Name base; fs_Namespace := fs_Namespace base;
     fs_ServerMeta := fs_ServerMeta base; fs_Deleting := fs_Deleting base;
     fs_Labels := fs_Labels base;
     fs_Annotations := built_annotations (sp_Annotations spec) h;
     fs_OwnerReferences := fs_OwnerReferences base;
     fs_Selector := fs_Selector base; fs_ServiceName := fs_ServiceName base;
     fs_VolumeClaimTemplates := fs_VolumeClaimTemplates base;
     fs_PodManagementPolicy := fs_PodManagementPolicy base;
     fs_Replicas := fs_Replicas base;
     fs_Template := built_template (fs_Template base)
                      (built_pod_annotations (sp_PodAnnotations spec) h) rules decoders;
     fs_UpdateStrategy := fs_UpdateStrategy base; fs_MinReadySeconds := fs_MinReadySeconds base;
     fs_RetentionPolicy := fs_RetentionPolicy base; fs_Ordinals := fs_Ordinals base;
     fs_RevisionHistoryLimit := fs_RevisionHistoryLimit base |}.

Definition build_deployment {V} (base : FullDeployment V) (spec : component_spec) (h : hashes)
    : FullDeployment V :=
  {| fd_Name := fd_Name base; fd_Namespace := fd_Namespace base;
     fd_ServerMeta := fd_ServerMeta base; fd_Deleting := fd_Deleting base;
     fd_Labels := fd_Labels base;
     fd_Annotations := built_annotations (sp_Annotations spec) h;
     fd_OwnerReferences := fd_OwnerReferences base; fd_Selector := fd_Selector base;
     fd_Replicas := fd_Replicas base;
     fd_Template := built_template (fd_Template base)
                      (built_pod_annotations (sp_PodAnnotations spec) h) [] [];
     fd_Strategy := fd_Strategy base; fd_MinReadySeconds := fd_MinReadySeconds base;
     fd_RevisionHistoryLimit := fd_RevisionHistoryLimit base; fd_Paused := fd_Paused base;
     fd_ProgressDeadlineSeconds := fd_ProgressDeadlineSeconds base |}.

(** ** The reconcilers' handlers *)

Definition plain_hashes (certHash configHash specHash : string) : hashes :=
  {| h_Cert := certHash; h_Config := configHash; h_Spec := specHash; h_Rule := ""; h_Decoder := "" |}.

Section Handlers.
Context {V W : Type} (deep_equal : V -> V -> bool).
Context `{!WorkloadClient (FullStatefulSet V) W, !WorkloadClient (FullDeployment V) W}.
Context `{!ContentClient W}.
Context (sha256_hex : string -> string) (cancelled : nat -> option error).

(** [IndexerReconciler.reconcileStatefulSetNonBlocking] *)
Definition reconcileIndexerStatefulSet (now : Z) (certHash configHash specHash : string)
    (spec : component_spec) (base : FullStatefulSet V) : IO W (option PendingRollout) :=
  let h := plain_hashes certHash configHash specHash in
  apply_workload (KV := statefulset_kind deep_equal) cancelled now "indexer" "indexer"
    (indexer_changes deep_equal h) (build_statefulset base spec h [] []).

(** [DashboardReconciler.reconcileDeploymentNonBlocking] *)
Definition reconcileDashboardDeployment (now : Z) (certHash configHash specHash : string)
    (spec : component_spec) (base : FullDeployment V) : IO W (option PendingRollout) :=
  let h := plain_hashes certHash configHash specHash in
  apply_workload (KV := deployment_kind) cancelled now "dashboard" "dashboard"
    (indexer_changes deep_equal h) (build_deployment base spec h).

(** The rest of the master's and the workers' handlers, once the objects they
    depend on are built. *)
Definition reconcile_manager_statefulset (component label : string) (now : Z)
    (certHash configHash specHash : string) (clusterName : string)
    (spec : component_spec) (base : FullStatefulSet V) : IO W (option PendingRollout) :=
  rules <- collect sha256_hex "WazuhRules" list_rules clusterName (fs_Namespace base) ;;
  decoders <- collect sha256_hex "WazuhDecoders" list_decoders clusterName (fs_Namespace base) ;;
  let h := {| h_Cert := certHash; h_Config := configHash; h_Spec := specHash;
              h_Rule := rules.2; h_Decoder := decoders.2 |} in
  apply_workload (KV := statefulset_kind deep_equal) cancelled now component label
    (manager_changes deep_equal h) (build_statefulset base spec h rules.1 decoders.1).

Definition reconcileMasterNonBlocking := reconcile_manager_statefulset "manager-master" "master".
Definition reconcileWorkersNonBlocking := reconcile_manager_statefulset "manager-worker" "worker".
End Handlers.

(** ** What one run does, abstractly *)

Section Effects.
Context {V T W : Type} `{KV : !WorkloadKind V T, !WorkloadClient T W}.
Context (cancelled : nat -> option error).
Context (now : Z) (component label : string).
Context (changes : annotations -> PodTemplate V -> PodTemplate V -> noticed) (desired : T).

Let rollout (reason : string) : option PendingRollout :=
  Some (pending_rollout now component desired reason).

Definition reads (w w1 : W) (found : T) : Prop :=
  get_workload (k_namespace desired) (k_name desired) w = (Found found, w1).

(** A deletion the code takes for done. *)
Definition deletes (foreground : bool) (found : T) (w w' : W) : Prop :=
  exists r, delete_workload foreground found w = (r, w') /\
    (r = Found tt \/ exists e, r = Failed e /\ IsNotFound e = true).

(** The outcomes: at most one accepted write of the desired state, announced by
    a rollout; a deletion without a creation only together with an error. *)
Inductive apply_effect (w : W) : result (option PendingRollout) -> W -> Prop :=
| effect_unreadable e w' m :
    get_workload (k_namespace desired) (k_name desired) w = (Failed e, w') -> IsNotFound e = false ->
    apply_effect w (Err m) w'
| effect_created e w1 w' :
    get_workload (k_namespace desired) (k_name desired) w = (Failed e, w1) -> IsNotFound e = true ->
    create_workload desired w1 = (Found tt, w') ->
    apply_effect w (Ok (rollout "initial-creation")) w'
| effect_create_refused e w1 e' w' m :
    get_workload (k_namespace desired) (k_name desired) w = (Failed e, w1) -> IsNotFound e = true ->
    create_workload desired w1 = (Failed e', w') ->
    apply_effect w (Err m) w'
| effect_untouched found w' :
    reads w w' found -> (k_recreation found desired).1 = false ->
    (changes (k_annotations found) (k_template found) (k_template desired)).1 = false ->
    apply_effect w (Ok None) w'
| effect_recreated found reason w1 w2 w' :
    reads w w1 found -> k_recreation found desired = (true, reason) ->
    deletes false found w1 w2 -> create_workload desired w2 = (Found tt, w') ->
    apply_effect w (Ok (rollout ("recreation-" +:+ reason))) w'
| effect_deleted_only found reason w1 w2 e w' m :
    reads w w1 found -> k_recreation found desired = (true, reason) ->
    deletes false found w1 w2 -> create_workload desired w2 = (Failed e, w') ->
    apply_effect w (Err m) w'
| effect_delete_refused found reason w1 e w' m :
    reads w w1 found -> k_recreation found desired = (true, reason) ->
    delete_workload false found w1 = (Failed e, w') -> apply_effect w (Err m) w'
| effect_updated found reason w1 k wk current w2 w' :
    reads w w1 found -> (k_recreation found desired).1 = false ->
    changes (k_annotations found) (k_template found) (k_template desired) = (true, reason) ->
    (k <= 3)%nat -> attempts (updateOnce desired) w1 k wk -> reads wk w2 current ->
    update_workload (k_merge current desired) w2 = (Found tt, w') ->
    apply_effect w (Ok (rollout reason)) w'
| effect_update_refused found reason w1 e w' m :
    reads w w1 found -> (k_recreation found desired).1 = false ->
    changes (k_annotations found) (k_template found) (k_template desired) = (true, reason) ->
    updateWithRetry cancelled desired w1 = (Failed e, w') ->
    (k_immutable_error e = false \/ k_deleting found = true) ->
    apply_effect w (Err m) w'
| effect_deleted_after_refusal found reason w1 e w2 r w' m :
    reads w w1 found -> (k_recreation found desired).1 = false ->
    changes (k_annotations found) (k_template found) (k_template desired) = (true, reason) ->
    updateWithRetry cancelled desired w1 = (Failed e, w2) -> k_immutable_error e = true ->
    delete_workload true found w2 = (r, w') ->
    apply_effect w (Err m) w'.

Lemma updateWithRetry_ok w w' :
  updateWithRetry cancelled desired w = (Found tt, w') ->
  exists k wk current w2, (k <= 3)%nat /\ attempts (updateOnce desired) w k wk /\
    reads wk w2 current /\ update_workload (k_merge current desired) w2 = (Found tt, w').
Proof.
  intros (k & wk & Hk & Ha & H)%retry_loop_ok. unfold updateOnce in H. unfold reads.
  destruct (get_workload _ _ wk) as [[current|e] w2] eqn:E; [|done]. by exists k, wk, current, w2.
Qed.

Lemma apply_workload_effect w r w' :
  apply_workload cancelled now component label changes desired w = (r, w') -> apply_effect w r w'.
Proof.
  unfold apply_workload, io_bind at 1, io_outcome at 1.
  destruct (get_workload _ _ w) as [[found|e] w1] eqn:Eg.
  - destruct (k_recreation found desired) as [[] reason] eqn:Er.
    + unfold io_bind, io_outcome, io_wrap, wrapf, io_api, io_ret, io_err.
      destruct (delete_workload false found w1) as [[[]|e] w2] eqn:Ed.
      * cbn. destruct (create_workload desired w2) as [[[]|e] w3] eqn:Ec; intros; simplify_eq/=.
        -- eapply effect_recreated; eauto. by eexists; split; [|left].
        -- eapply effect_deleted_only; eauto. by eexists; split; [|left].
      * destruct (IsNotFound e) eqn:En; [|intros; simplify_eq/=; by eapply effect_delete_refused].
        cbn. destruct (create_workload desired w2) as [[[]|e'] w3] eqn:Ec; intros; simplify_eq/=.
        -- eapply effect_recreated; eauto. eexists; split; [done|]. right. eauto.
        -- eapply effect_deleted_only; eauto. eexists; split; [done|]. right. eauto.
    + destruct (changes _ _ _) as [[] why] eqn:Ech; [|unfold io_ret; intros; simplify_eq/=; eapply effect_untouched;
        rewrite ?Er, ?Ech; eauto].
      unfold io_bind at 1, io_outcome at 1.
      destruct (updateWithRetry cancelled desired w1) as [[[]|e] w2] eqn:Eu; intros H; cbn in H.
      * unfold io_ret in H. simplify_eq. apply updateWithRetry_ok in Eu as (k & wk & current & w3 & ? & ? & ? & ?).
        eapply effect_updated; rewrite ?Er; eauto.
      * unfold io_bind, io_wrap, RecreateOnError, io_outcome, io_ret, io_err, io_bind in H.
        destruct (k_immutable_error e) eqn:Ei; cbn in H;
          [|simplify_eq/=; eapply effect_update_refused; rewrite ?Er; eauto].
        destruct (k_deleting found) eqn:Edel; cbn in H;
          [simplify_eq/=; eapply effect_update_refused; rewrite ?Er; eauto|].
        destruct (delete_workload true found w2) as [[[]|e'] w3] eqn:Ed; cbn in H;
          [|destruct (IsNotFound e'); cbn in H]; simplify_eq/=;
          eapply effect_deleted_after_refusal; rewrite ?Er; eauto.
  - destruct (IsNotFound e) eqn:En; [|unfold io_err; intros; simplify_eq/=; by eapply effect_unreadable].
    unfold io_bind, io_wrap, wrapf, io_api, io_ret.
    destruct (create_workload desired w1) as [[[]|e'] w2] eqn:Ec; intros; simplify_eq/=.
    + by eapply effect_created.
    + by eapply effect_create_refused.
Qed.
End Effects.

(** ** Laws *)

(** [DeepEqual] holds of a value and itself. *)
Class DeepEqualLaws {V} (deep_equal : V -> V -> bool) := {
  deep_equal_refl v : deep_equal v v = true
}.

(** What an update owes to the desired object. *)
Class WorkloadKindLaws (V T : Type) `{!WorkloadKind V T} := {
  merge_named c d : k_name (k_merge c d) = k_name c /\ k_namespace (k_merge c d) = k_namespace c;
  merge_template c d : k_template (k_merge c d) = k_template d;
  merge_annotations c d : k_annotations (k_merge c d) = mergeStringMaps (k_annotations c) (k_annotations d);
  recreation_refl d : (k_recreation d d).1 = false;
  merge_recreation c d : (k_recreation c d).1 = false -> (k_recreation (k_merge c d) d).1 = false
}.

#[export] Instance statefulset_laws {V} (deep_equal : V -> V -> bool) `{!DeepEqualLaws deep_equal} :
  @WorkloadKindLaws V (FullStatefulSet V) (statefulset_kind deep_equal).
Proof.
  split; [done..| |].
  - intros d. cbn. unfold NeedsStatefulSetRecreation.
    by rewrite bool_decide_true, deep_equal_refl by done.
  - intros c d. cbn. unfold NeedsStatefulSetRecreation. cbn.
    case_bool_decide; cbn; [|done]. intros _. by rewrite deep_equal_refl.
Qed.

#[export] Instance deployment_laws {V} : @WorkloadKindLaws V (FullDeployment V) deployment_kind.
Proof. by split. Qed.

(** The stored object looks like the written one to this code: whatever the
    server fills in, [DeepEqual] does not see it in the compared fields. *)
Definition looks_like {V T} `{KV : !WorkloadKind V T} (deep_equal : V -> V -> bool) (stored written : T)
    : Prop :=
  k_annotations stored = k_annotations written /\
  pt_Annotations (k_template stored) = pt_Annotations (k_template written) /\
  (forall v, deep_equal (pt_Tolerations (k_template stored)) v =
             deep_equal (pt_Tolerations (k_template written)) v) /\
  (forall v, deep_equal (pt_Affinity (k_template stored)) v =
             deep_equal (pt_Affinity (k_template written)) v) /\
  (forall d, k_recreation stored d = k_recreation written d).

(** A server that nobody else writes to: reading changes nothing, a refused
    update changes nothing, and what was written is there to read. *)
Class QuietServer {V T W : Type} `{KV : !WorkloadKind V T, !WorkloadClient T W}
    (deep_equal : V -> V -> bool) := {
  get_quiet ns n (w : W) r w' : get_workload (T := T) ns n w = (r, w') -> w' = w;
  get_named ns n (w : W) (t : T) w' : get_workload ns n w = (Found t, w') ->
    k_name t = n /\ k_namespace t = ns;
  update_refused (t : T) (w : W) e w' : update_workload t w = (Failed e, w') -> w' = w;
  create_stored (t : T) (w : W) w' : create_workload t w = (Found tt, w') ->
    exists t', get_workload (k_namespace t) (k_name t) w' = (Found t', w') /\
               looks_like deep_equal t' t;
  update_stored (t : T) (w : W) w' : update_workload t w = (Found tt, w') ->
    exists t', get_workload (k_namespace t) (k_name t) w' = (Found t', w') /\
               looks_like deep_equal t' t
}.

(** ** Lemmas on maps of strings *)

Lemma lookup_merge c d k v : lookup_str d k = v -> v <> "" ->
  lookup_str (mergeStringMaps c d) k = v.
Proof.
  unfold lookup_str, mergeStringMaps. destruct d as [d|]; [|cbn; intros <-; done]. cbn.
  intros Hd Hv. destruct (d !! k) as [x|] eqn:E; cbn in Hd; [|congruence].
  by rewrite (lookup_union_Some_l _ _ _ _ E).
Qed.

Lemma lookup_set_pod_hash key hash m : hash <> "" ->
  lookup_str (set_pod_hash key hash m) key = hash.
Proof.
  intros H. unfold set_pod_hash, lookup_str. rewrite bool_decide_false by done. cbn.
  by rewrite lookup_insert_eq.
Qed.

Lemma lookup_set_pod_hash_ne key key' hash m : key <> key' ->
  lookup_str (set_pod_hash key hash m) key' = lookup_str m key'.
Proof.
  intros H. unfold set_pod_hash, lookup_str. case_bool_decide; [done|]. cbn.
  rewrite lookup_insert_ne by done. by destruct m; cbn; rewrite ?lookup_empty.
Qed.

Lemma lookup_set_pod_hash_any key hash m : lookup_str m key = "" ->
  lookup_str (set_pod_hash key hash m) key = hash.
Proof.
  intros H. destruct (decide (hash = "")) as [->|]; [done|by apply lookup_set_pod_hash].
Qed.

(** The built annotations carry every hash that is set. *)
Definition carries (h : hashes) (m pods : annotations) : Prop :=
  (h_Spec h <> "" -> lookup_str m AnnotationSpecHash = h_Spec h) /\
  (h_Cert h <> "" -> lookup_str pods AnnotationCertHash = h_Cert h) /\
  (h_Config h <> "" -> lookup_str pods AnnotationConfigHash = h_Config h).

Lemma built_carries ann pods h :
  carries h (built_annotations ann h) (built_pod_annotations pods h).
Proof.
  unfold carries, built_annotations, built_pod_annotations. split_and!; intros Hne.
  - unfold set_hash, lookup_str. rewrite bool_decide_false by done. cbn. by rewrite lookup_insert_eq.
  - rewrite !(lookup_set_pod_hash_ne _ AnnotationCertHash) by done. by apply lookup_set_pod_hash.
  - rewrite 2!(lookup_set_pod_hash_ne _ AnnotationConfigHash) by done. by apply lookup_set_pod_hash.
Qed.

(** The rule and decoder hashes, set or not, unless the user's own pod
    annotations use their keys. *)
Lemma built_rule_hash pods h key hash :
  (key, hash) ∈ [(AnnotationRuleHash, h_Rule h); (AnnotationDecoderHash, h_Decoder h)] ->
  lookup_str pods key = "" ->
  lookup_str (built_pod_annotations pods h) key = hash.
Proof.
  intros Hin Hp. unfold built_pod_annotations.
  assert (H0 : lookup_str (if bool_decide (default ∅ pods = ∅) then None else pods) key = "")
    by (case_bool_decide; done).
  apply elem_of_cons in Hin as [Heq|Heq%list_elem_of_singleton]; simplify_eq.
  - rewrite (lookup_set_pod_hash_ne AnnotationDecoderHash) by done.
    apply lookup_set_pod_hash_any.
    by rewrite !(lookup_set_pod_hash_ne _ AnnotationRuleHash) by done.
  - apply lookup_set_pod_hash_any.
    by rewrite !(lookup_set_pod_hash_ne _ AnnotationDecoderHash) by done.
Qed.

(** ** Lemmas on noticed changes *)

(** [(true, reasons joined)] or [(false, "")] *)
Definition joined (sep : string) (l : list (string * bool)) : noticed :=
  let reasons := map fst (List.filter snd l) in
  (bool_decide (reasons <> []), Join sep reasons).

Lemma Join_snoc sep l x : l <> [] -> Join sep (l ++ [x]) = Join sep l +:+ sep +:+ x.
Proof.
  induction l as [|y [|z l] IH]; [done|done|]. intros _.
  change ((y :: z :: l) ++ [x]) with (y :: ((z :: l) ++ [x])).
  cbn [Join]. cbn [app]. cbn [app] in IH. rewrite IH by done.
  cbn [Join]. by rewrite !append_assoc.
Qed.

Lemma Join_nonempty sep l : Forall (.≠ "") l -> Join sep l = "" -> l = [].
Proof.
  intros H E. destruct l as [|x l]; [done|]. exfalso. apply Forall_cons in H as [Hx _].
  destruct x; [done|]. by destruct l.
Qed.

Lemma note_joined sep r b l : r <> "" -> Forall (fun x => x.1 <> "") l ->
  note sep r b (joined sep l) = joined sep (l ++ [(r, b)]).
Proof.
  intros Hr Hl. unfold joined. rewrite List.filter_app, map_app. cbn.
  set (reasons := map fst (List.filter snd l)).
  assert (Hne : Forall (.≠ "") reasons).
  { subst reasons. clear -Hl. induction Hl as [|[s c] l Hs _ IH]; [done|].
    cbn. destruct c; cbn; [by constructor|done]. }
  destruct b; cbn; [|by rewrite app_nil_r]. unfold note. cbn [snd].
  destruct reasons as [|x reasons'] eqn:E; [done|].
  rewrite bool_decide_false; [|by intros ?%Join_nonempty].
  rewrite Join_snoc by done. rewrite bool_decide_true by (by destruct reasons'). done.
Qed.

Section ChangesLemmas.
Context {V : Type} (deep_equal : V -> V -> bool).

Definition indexer_change_list (h : hashes) (m : annotations) (found desired : PodTemplate V)
    : list (string * bool) :=
  [("spec-change", hash_changed (h_Spec h) m AnnotationSpecHash);
   ("tolerations-change", negb (deep_equal (pt_Tolerations found) (pt_Tolerations desired)));
   ("affinity-change", negb (deep_equal (pt_Affinity found) (pt_Affinity desired)));
   ("certificate-renewal", hash_changed (h_Cert h) (pt_Annotations found) AnnotationCertHash);
   ("config-change", hash_changed (h_Config h) (pt_Annotations found) AnnotationConfigHash)].

Definition manager_change_list (h : hashes) (m : annotations) (found desired : PodTemplate V)
    : list (string * bool) :=
  [("certificate-change", hash_changed (h_Cert h) (pt_Annotations found) AnnotationCertHash);
   ("config-change", hash_changed (h_Config h) (pt_Annotations found) AnnotationConfigHash);
   ("spec-change", hash_changed (h_Spec h) m AnnotationSpecHash);
   ("tolerations-change", negb (deep_equal (pt_Tolerations found) (pt_Tolerations desired)));
   ("affinity-change", negb (deep_equal (pt_Affinity found) (pt_Affinity desired)));
   ("rule-change",
     negb (bool_decide (h_Rule h = lookup_str (pt_Annotations found) AnnotationRuleHash)));
   ("decoder-change",
     negb (bool_decide (h_Decoder h = lookup_str (pt_Annotations found) AnnotationDecoderHash)))].

Lemma joined_nil sep : (false, "") = joined sep [].
Proof. done. Qed.

Ltac notes sep :=
  rewrite (joined_nil sep), !note_joined by (done || (repeat constructor; done)); reflexivity.

Lemma indexer_changes_joined h m f d :
  indexer_changes deep_equal h m f d = joined "," (indexer_change_list h m f d).
Proof. unfold indexer_changes. notes ",". Qed.

Lemma manager_changes_joined h m f d :
  manager_changes deep_equal h m f d = joined "+" (manager_change_list h m f d).
Proof. unfold manager_changes. notes "+". Qed.

Lemma joined_quiet sep l : Forall (fun x => x.2 = false) l -> joined sep l = (false, "").
Proof.
  intros H. unfold joined. replace (List.filter snd l) with (@nil (string * bool)); [done|].
  induction H as [|[s b] l Hb _ IH]; [done|]. cbn in *. by rewrite Hb.
Qed.

Lemma joined_none sep l : (joined sep l).1 = false -> Forall (fun x => x.2 = false) l.
Proof.
  unfold joined. cbn. rewrite bool_decide_eq_false. intros H. apply dec_stable in H.
  induction l as [|[s b] l IH]; constructor; cbn in *; destruct b; cbn in H; try done; auto.
Qed.

Lemma hash_changed_same hash m key :
  (hash <> "" -> lookup_str m key = hash) -> hash_changed hash m key = false.
Proof.
  intros H. unfold hash_changed. case_bool_decide as E; [done|]. rewrite H by done.
  by rewrite bool_decide_true.
Qed.
End ChangesLemmas.

(** ** Properties *)

Section Settle.
Context {V T W : Type} `{KV : !WorkloadKind V T, !WorkloadKindLaws V T, !WorkloadClient T W}.
Context (deep_equal : V -> V -> bool) `{!DeepEqualLaws deep_equal}.
Context `{Q : !QuietServer (T := T) (W := W) deep_equal}.
Context (cancelled : nat -> option error).

(** Nothing is noticed on an object that carries the desired pod annotations
    and, possibly among others, the desired annotations. *)
Definition recognises (changes : annotations -> PodTemplate V -> PodTemplate V -> noticed)
    (desired : T) : Prop :=
  forall m f,
    (forall k v, lookup_str (k_annotations desired) k = v -> v <> "" -> lookup_str m k = v) ->
    pt_Annotations f = pt_Annotations (k_template desired) ->
    deep_equal (pt_Tolerations f) (pt_Tolerations (k_template desired)) = true ->
    deep_equal (pt_Affinity f) (pt_Affinity (k_template desired)) = true ->
    (changes m f (k_template desired)).1 = false.

Lemma settled now component label changes desired (w : W) found :
  recognises changes desired ->
  get_workload (k_namespace desired) (k_name desired) w = (Found found, w) ->
  (looks_like deep_equal found desired \/
   exists c, (k_recreation c desired).1 = false /\ looks_like deep_equal found (k_merge c desired)) ->
  apply_workload cancelled now component label changes desired w = (Ok None, w).
Proof.
  intros Hrec Hget Hl.
  assert (Hq : (k_recreation found desired).1 = false /\
               (changes (k_annotations found) (k_template found) (k_template desired)).1 = false).
  { destruct Hl as [(Ha & Hp & Ht & Hf & Hr)|(c & Hc & Ha & Hp & Ht & Hf & Hr)].
    - rewrite Hr. split; [apply recreation_refl|].
      apply Hrec; rewrite ?Ha, ?Hp, ?Ht, ?Hf; auto using deep_equal_refl.
    - rewrite Hr. split; [by apply merge_recreation|].
      rewrite merge_annotations in Ha. rewrite merge_template in Hp, Ht, Hf.
      apply Hrec; rewrite ?Ha, ?Hp, ?Ht, ?Hf; auto using deep_equal_refl, lookup_merge. }
  destruct Hq as [Hr Hch]. unfold apply_workload, io_bind, io_outcome. rewrite Hget.
  destruct (k_recreation found desired) as [rec why]. cbn in Hr. subst rec.
  destruct (changes _ _ _) as [upd reason]. cbn in Hch. by subst upd.
Qed.

Lemma updateOnce_quiet desired (w : W) e w' :
  updateOnce desired w = (Failed e, w') -> w' = w.
Proof.
  unfold updateOnce. destruct (get_workload _ _ w) as [[c|e1] w1] eqn:E; intros H.
  - apply get_quiet in E as ->. by eapply update_refused.
  - simplify_eq. by eapply get_quiet.
Qed.

Lemma retry_quiet desired k n (w w' : W) :
  retry_loop cancelled (updateOnce desired) k n w = (Found tt, w') ->
  updateOnce desired w = (Found tt, w').
Proof.
  revert k w. induction n as [|n IH]; intros k w; cbn [retry_loop];
    destruct (updateOnce desired w) as [[[]|e] w1] eqn:E; intros H; try (by simplify_eq);
    destruct (IsRetryableKubernetesError e); cbn in H; try done.
  destruct (cancelled k); [done|]. pose proof (updateOnce_quiet _ _ _ _ E) as ->.
  apply IH in H. congruence.
Qed.

(** A run on an existing object that is not to be recreated. *)
Lemma quiet_run now component label changes desired (w : W) found r w' :
  get_workload (k_namespace desired) (k_name desired) w = (Found found, w) ->
  (k_recreation found desired).1 = false ->
  apply_workload cancelled now component label changes desired w = (Ok r, w') ->
  let n := changes (k_annotations found) (k_template found) (k_template desired) in
  (n.1 = false /\ r = None /\ w' = w) \/
  (n.1 = true /\ r = Some (pending_rollout now component desired n.2) /\
   update_workload (k_merge found desired) w = (Found tt, w')).
Proof.
  intros Hg Hr H n. unfold apply_workload, io_bind at 1, io_outcome at 1 in H. rewrite Hg in H.
  destruct (k_recreation found desired) as [rec why]. cbn in Hr. subst rec. subst n.
  destruct (changes _ _ _) as [[] reason]; [right|left; unfold io_ret in H; by simplify_eq].
  unfold io_bind at 1, io_outcome at 1 in H.
  destruct (updateWithRetry cancelled desired w) as [[[]|e] w1] eqn:Eu; cbn in H.
  - unfold io_ret in H. simplify_eq. apply retry_quiet in Eu. unfold updateOnce in Eu.
    by rewrite Hg in Eu.
  - unfold io_bind in H. destruct (io_wrap _ _ _) as [[[]|] ?]; cbn in H; done.
Qed.

Lemma apply_settles now component label changes desired (w : W) r w' :
  recognises changes desired ->
  apply_workload cancelled now component label changes desired w = (Ok r, w') ->
  forall later, apply_workload cancelled later component label changes desired w' = (Ok None, w').
Proof.
  intros Hrec H later. apply apply_workload_effect in H as E.
  inversion E as [|e w1 ? _ _ Hc| |found ? Hg Hr Hch|found reason w1 w2 ? _ _ _ Hc| | |
                  found reason w1 k wk current w2 ? Hg Hr Hch _ _ _ _| |]; subst.
  - apply create_stored in Hc as (t' & Hget & Hl). eapply settled; eauto.
  - unfold reads in Hg. apply get_quiet in Hg as Hw. subst w'.
    unfold apply_workload, io_bind, io_outcome. rewrite Hg.
    destruct (k_recreation found desired) as [rec why]. cbn in Hr. subst rec.
    destruct (changes _ _ _) as [upd rs]. cbn in Hch. by subst upd.
  - apply create_stored in Hc as (t' & Hget & Hl). eapply settled; eauto.
  - unfold reads in Hg. apply get_quiet in Hg as Hw. subst w1.
    pose proof (get_named _ _ _ _ _ Hg) as [Hn1 Hns1].
    destruct (quiet_run _ _ _ _ _ _ _ _ _ Hg Hr H) as [(_ & [=] & _)|(_ & _ & Hu)].
    apply update_stored in Hu as (t' & Hget & Hl).
    destruct (merge_named found desired) as [Hn Hns]. rewrite Hn, Hns, Hn1, Hns1 in Hget.
    eapply settled; [done|done|]. right. by exists found.
Qed.
End Settle.

Section Handlers.
Context {V W : Type} (deep_equal : V -> V -> bool) `{!DeepEqualLaws deep_equal}.
Context `{CS : !WorkloadClient (FullStatefulSet V) W, CD : !WorkloadClient (FullDeployment V) W}.
Context `{!ContentClient W}.
Context (sha256_hex : string -> string) (cancelled : nat -> option error).

Lemma indexer_recognises {T} `{KV : !WorkloadKind V T} h ann pods desired :
  k_annotations desired = built_annotations ann h ->
  pt_Annotations (k_template desired) = built_pod_annotations pods h ->
  recognises deep_equal (indexer_changes deep_equal h) desired.
Proof.
  intros Ha Hp m f Hm Hf Ht Haf. destruct (built_carries ann pods h) as (Hs & Hc & Hg).
  rewrite indexer_changes_joined, joined_quiet; [done|].
  rewrite <-Ha in Hs. rewrite <-Hp, <-Hf in Hc, Hg.
  repeat constructor; cbn; rewrite ?Ht, ?Haf; try done; apply hash_changed_same; auto.
Qed.

Lemma manager_recognises {T} `{KV : !WorkloadKind V T} h ann pods desired :
  lookup_str pods AnnotationRuleHash = "" -> lookup_str pods AnnotationDecoderHash = "" ->
  k_annotations desired = built_annotations ann h ->
  pt_Annotations (k_template desired) = built_pod_annotations pods h ->
  recognises deep_equal (manager_changes deep_equal h) desired.
Proof.
  intros Hrk Hdk Ha Hp m f Hm Hf Ht Haf. destruct (built_carries ann pods h) as (Hs & Hc & Hg).
  pose proof (built_rule_hash pods h AnnotationRuleHash (h_Rule h) ltac:(set_solver) Hrk) as Hr.
  pose proof (built_rule_hash pods h AnnotationDecoderHash (h_Decoder h) ltac:(set_solver) Hdk) as Hd.
  rewrite manager_changes_joined, joined_quiet; [done|].
  rewrite <-Ha in Hs. rewrite <-Hp, <-Hf in Hc, Hg, Hr, Hd.
  repeat constructor; cbn; rewrite ?Ht, ?Haf, ?Hr, ?Hd, ?bool_decide_true; try done;
    apply hash_changed_same; auto.
Qed.

(** The custom resources of rules and decoders do not change. *)
Definition contents_fixed (rules decoders : list CustomContent) : Prop :=
  forall ns (w : W), list_rules ns w = (Found rules, w) /\ list_decoders ns w = (Found decoders, w).

Lemma collect_fixed what (list_items : string -> API W (list CustomContent)) items clusterName ns :
  (forall w, list_items ns w = (Found items, w)) ->
  exists res, forall w, collect sha256_hex what list_items clusterName ns w = (Ok res, w).
Proof.
  intros H. unfold collect, GetConfigMapsForCluster, for_cluster, io_try, io_bind, io_wrap, io_api, io_ret.
  setoid_rewrite H. cbn. destruct (merge_sort _ _); by eexists.
Qed.

Lemma collect_total what (list_items : string -> API W (list CustomContent)) clusterName ns (w : W) :
  exists res w', collect sha256_hex what list_items clusterName ns w = (Ok res, w').
Proof.
  unfold collect, io_try. destruct (GetConfigMapsForCluster _ _ _ _ _ _) as [[[[|i l] hash]|e] w'];
    by eexists _, w'.
Qed.

(** C34: applying a workload settles.  On a server that nobody else writes to,
    whatever a run of the indexer's, the dashboard's or a manager's handler
    had to do, once it has ended without an error the next run notices
    nothing, writes nothing and announces no rollout: the hashes, affinities
    and tolerations it compares are the ones it has written. *)
Theorem workloads_settle rules decoders now later certHash configHash specHash cluster spec
    (base : FullStatefulSet V) (dbase : FullDeployment V) :
  QuietServer (W := W) (KV := statefulset_kind deep_equal) deep_equal ->
  QuietServer (W := W) (KV := deployment_kind) deep_equal ->
  contents_fixed rules decoders ->
  lookup_str (sp_PodAnnotations spec) AnnotationRuleHash = "" ->
  lookup_str (sp_PodAnnotations spec) AnnotationDecoderHash = "" ->
  (forall r w w',
     reconcileIndexerStatefulSet deep_equal cancelled now certHash configHash specHash spec base w
       = (Ok r, w') ->
     reconcileIndexerStatefulSet deep_equal cancelled later certHash configHash specHash spec base w'
       = (Ok None, w')) /\
  (forall r w w',
     reconcileDashboardDeployment deep_equal cancelled now certHash configHash specHash spec dbase w
       = (Ok r, w') ->
     reconcileDashboardDeployment deep_equal cancelled later certHash configHash specHash spec dbase w'
       = (Ok None, w')) /\
  (forall component label r w w',
     reconcile_manager_statefulset deep_equal sha256_hex cancelled component label now
       certHash configHash specHash cluster spec base w = (Ok r, w') ->
     reconcile_manager_statefulset deep_equal sha256_hex cancelled component label later
       certHash configHash specHash cluster spec base w' = (Ok None, w')).
Proof.
  intros QS QD Hfix Hrk Hdk. split_and!.
  - intros r w w' H.
    refine (apply_settles (KV := statefulset_kind deep_equal) deep_equal cancelled _ _ _ _ _ _ _ _ _ H _).
    by eapply indexer_recognises.
  - intros r w w' H.
    refine (apply_settles (KV := deployment_kind) deep_equal cancelled _ _ _ _ _ _ _ _ _ H _).
    by eapply indexer_recognises.
  - intros component label r w w'. unfold reconcile_manager_statefulset.
    destruct (collect_fixed "WazuhRules" list_rules rules cluster (fs_Namespace base)) as [rr Hr];
      [intros; by apply Hfix|].
    destruct (collect_fixed "WazuhDecoders" list_decoders decoders cluster (fs_Namespace base))
      as [dd Hd]; [intros; by apply Hfix|].
    unfold io_bind at 1 2. rewrite Hr, Hd. unfold io_bind at 1 2. rewrite Hr, Hd.
    intros H.
    refine (apply_settles (KV := statefulset_kind deep_equal) deep_equal cancelled _ _ _ _ _ _ _ _ _ H _).
    by eapply manager_recognises.
Qed.

(** What is mounted for a list of resources, and its hash. *)
Definition mounts (l : list CustomContent) : list ConfigMapRef :=
  convertConfigMaps (merge_sort info_le (infos l)).
Definition content_hash (l : list CustomContent) : string :=
  computeContentHash sha256_hex (merge_sort string_le (contents l)).

Definition of_cluster (clusterName : string) (l : list CustomContent) : list CustomContent :=
  List.filter (fun c => bool_decide (cc_ClusterRef c = clusterName)) l.

Lemma collect_found what (list_items : string -> API W (list CustomContent)) cluster ns (w w' : W) l :
  list_items ns w = (Found l, w') -> infos (of_cluster cluster l) <> [] ->
  collect sha256_hex what list_items cluster ns w =
    (Ok (mounts (of_cluster cluster l), content_hash (of_cluster cluster l)), w').
Proof.
  intros H Hne. unfold collect, GetConfigMapsForCluster, for_cluster, io_try, io_bind, io_wrap, io_api,
    io_ret. rewrite H. cbn. fold (of_cluster cluster l). unfold mounts, content_hash.
  assert (Hs : merge_sort info_le (infos (of_cluster cluster l)) <> []).
  { intros E. pose proof (merge_sort_Permutation info_le (infos (of_cluster cluster l))) as Hp.
    rewrite E in Hp. by apply Permutation_nil_l in Hp. }
  by destruct (merge_sort info_le _).
Qed.

Lemma collect_failed what (list_items : string -> API W (list CustomContent)) cluster ns (w w' : W) e :
  list_items ns w = (Failed e, w') ->
  collect sha256_hex what list_items cluster ns w = (Ok ([], ""), w').
Proof.
  intros H. unfold collect, GetConfigMapsForCluster, for_cluster, io_try, io_bind, io_wrap, io_api, io_ret.
  by rewrite H.
Qed.


(** a change of a volume claim template, of the service name or of the
    selector is recorded as applied and is not.  The update of an existing
    StatefulSet carries the new spec hash together with the fields of the
    object on the server, so the server has nothing to refuse, the path that
    recreates a StatefulSet after a refusal is not taken, and no later run
    looks at the difference again. *)
Theorem immutable_changes_are_lost now certHash configHash specHash spec (base found : FullStatefulSet V)
    r w w' :
  QuietServer (W := W) (KV := statefulset_kind deep_equal) deep_equal ->
  get_workload (fs_Namespace base) (fs_Name base) w = (Found found, w) ->
  (NeedsStatefulSetRecreation deep_equal found base).1 = false ->
  reconcileIndexerStatefulSet deep_equal cancelled now certHash configHash specHash spec base w
    = (Ok r, w') ->
  (r = None /\ w' = w) \/
  (exists sent, update_workload sent w = (Found tt, w') /\
     fs_VolumeClaimTemplates sent = fs_VolumeClaimTemplates found /\
     fs_ServiceName sent = fs_ServiceName found /\ fs_Selector sent = fs_Selector found /\
     (specHash <> "" -> lookup_str (fs_Annotations sent) AnnotationSpecHash = specHash) /\
     forall later, reconcileIndexerStatefulSet deep_equal cancelled later certHash configHash specHash
                     spec base w' = (Ok None, w')).
Proof.
  intros Q Hg Hrec H. set (h := plain_hashes certHash configHash specHash).
  destruct (quiet_run (KV := statefulset_kind deep_equal) deep_equal cancelled now "indexer" "indexer"
    (indexer_changes deep_equal h) (build_statefulset base spec h [] []) w found r w' Hg Hrec H)
    as [(_ & -> & ->)|(_ & _ & Hu)]; [by left|right].
  eexists. split; [exact Hu|]. split_and!; [done..| |].
  - intros Hne. change (lookup_str (mergeStringMaps (fs_Annotations found)
      (built_annotations (sp_Annotations spec) h)) AnnotationSpecHash = specHash).
    apply lookup_merge; [|done].
    by apply (built_carries (sp_Annotations spec) (sp_PodAnnotations spec) h).
  - refine (apply_settles (KV := statefulset_kind deep_equal) deep_equal cancelled _ _ _ _ _ _ _ _ _ H).
    by eapply indexer_recognises.
Qed.

(** when the WazuhRules cannot be listed, the managers lose their rules.
    The error is logged and the handler goes on with an empty rule hash, which
    differs from the one on the pods: the StatefulSet is updated to mount no
    rule at all, and its pods restart without the custom detection rules. *)
Theorem unreadable_rules_are_unmounted component label now certHash configHash specHash cluster spec
    (base found : FullStatefulSet V) e r w w' decoders :
  QuietServer (W := W) (KV := statefulset_kind deep_equal) deep_equal ->
  get_workload (fs_Namespace base) (fs_Name base) w = (Found found, w) ->
  (NeedsStatefulSetRecreation deep_equal found base).1 = false ->
  lookup_str (pt_Annotations (fs_Template found)) AnnotationRuleHash <> "" ->
  list_rules (fs_Namespace base) w = (Failed e, w) ->
  collect sha256_hex "WazuhDecoders" list_decoders cluster (fs_Namespace base) w = (Ok decoders, w) ->
  reconcile_manager_statefulset deep_equal sha256_hex cancelled component label now
    certHash configHash specHash cluster spec base w = (Ok r, w') ->
  exists sent ro, r = Some ro /\ update_workload sent w = (Found tt, w') /\
    pt_RuleMounts (fs_Template sent) = [].
Proof.
  intros Q Hg Hrec Hne Hl Hd H. unfold reconcile_manager_statefulset in H.
  unfold io_bind at 1 in H. rewrite (collect_failed _ _ _ _ _ _ _ Hl) in H.
  unfold io_bind at 1 in H. rewrite Hd in H. cbn [fst snd] in H.
  set (h := Build_hashes certHash configHash specHash "" decoders.2) in H.
  destruct (quiet_run (KV := statefulset_kind deep_equal) deep_equal cancelled now component label
    (manager_changes deep_equal h) (build_statefulset base spec h [] decoders.1) w found r w' Hg Hrec H)
    as [(Hch & _)|(_ & -> & Hu)]; [exfalso|by eexists _, _].
  rewrite manager_changes_joined in Hch. apply joined_none in Hch.
  rewrite Forall_forall in Hch.
  specialize (Hch ("rule-change", negb (bool_decide (h_Rule h = lookup_str
    (pt_Annotations (fs_Template found)) AnnotationRuleHash))) ltac:(set_solver)).
  cbn in Hch. rewrite bool_decide_false in Hch by congruence. done.
Qed.

(** the rule hash does not see which file holds which rules.  If the rules
    of the cluster change so that the same contents are still there (two
    resources exchange their contents, a rule file is renamed, a ConfigMap is
    replaced), the handler notices nothing: the pods go on with the mounts
    and the file contents they were started with. *)
Theorem rule_hash_ignores_files component label now certHash configHash specHash cluster spec
    (base found : FullStatefulSet V) w old new decoders :
  QuietServer (W := W) (KV := statefulset_kind deep_equal) deep_equal ->
  lookup_str (sp_PodAnnotations spec) AnnotationRuleHash = "" ->
  lookup_str (sp_PodAnnotations spec) AnnotationDecoderHash = "" ->
  list_rules (fs_Namespace base) w = (Found new, w) ->
  collect sha256_hex "WazuhDecoders" list_decoders cluster (fs_Namespace base) w = (Ok decoders, w) ->
  infos (of_cluster cluster new) <> [] ->
  contents (of_cluster cluster old) ≡ₚ contents (of_cluster cluster new) ->
  get_workload (fs_Namespace base) (fs_Name base) w = (Found found, w) ->
  looks_like (KV := statefulset_kind deep_equal) deep_equal found
    (build_statefulset base spec
       {| h_Cert := certHash; h_Config := configHash; h_Spec := specHash;
          h_Rule := content_hash (of_cluster cluster old); h_Decoder := decoders.2 |}
       (mounts (of_cluster cluster old)) decoders.1) ->
  reconcile_manager_statefulset deep_equal sha256_hex cancelled component label now
    certHash configHash specHash cluster spec base w = (Ok None, w).
Proof.
  intros Q Hrk Hdk Hl Hd Hne Hp Hg Hlook. unfold reconcile_manager_statefulset.
  unfold io_bind at 1. rewrite (collect_found _ _ _ _ _ _ _ Hl Hne).
  unfold io_bind at 1. rewrite Hd. cbn [fst snd].
  assert (Hh : content_hash (of_cluster cluster new) = content_hash (of_cluster cluster old)).
  { unfold content_hash. by rewrite (merge_sort_perm _ _ Hp). }
  rewrite Hh.
  eapply (settled (KV := statefulset_kind deep_equal) deep_equal); [by eapply manager_recognises|exact Hg|].
  left. exact Hlook.
Qed.
End Handlers.

(** ** A server to try the theorems on *)
Module SimWorkloads.
(** Room for one StatefulSet and one Deployment. *)
Record server := {
  v_sts : option (FullStatefulSet string);
  v_dep : option (FullDeployment string)
}.

Definition eqv (a b : string) : bool := bool_decide (a = b).
#[global] Instance eqv_laws : DeepEqualLaws eqv.
Proof. split. intros v. by apply bool_decide_eq_true. Qed.

Definition slot {T} (name namespace : T -> string) (ns n : string) (o : option T) : api_result T :=
  match o with
  | Some t => if bool_decide (name t = n) && bool_decide (namespace t = ns)
              then Found t else Failed (NotFound n)
  | None => Failed (NotFound n)
  end.

Definition put {T} (name namespace : T -> string) (set : option T -> server -> server)
    (get : server -> option T) (t : T) (v : server) : api_result unit * server :=
  match slot name namespace (namespace t) (name t) (get v) with
  | Found _ => (Found tt, set (Some t) v)
  | Failed e => (Failed e, v)
  end.

Definition set_sts o v := {| v_sts := o; v_dep := v_dep v |}.
Definition set_dep o v := {| v_sts := v_sts v; v_dep := o |}.

#[global] Instance statefulsets : WorkloadClient (FullStatefulSet string) server := {
  get_workload ns n v := (slot fs_Name fs_Namespace ns n (v_sts v), v);
  create_workload t v := (Found tt, set_sts (Some t) v);
  update_workload := put fs_Name fs_Namespace set_sts v_sts;
  delete_workload _ _ v := (Found tt, set_sts None v)
}.
#[global] Instance deployments : WorkloadClient (FullDeployment string) server := {
  get_workload ns n v := (slot fd_Name fd_Namespace ns n (v_dep v), v);
  create_workload t v := (Found tt, set_dep (Some t) v);
  update_workload := put fd_Name fd_Namespace set_dep v_dep;
  delete_workload _ _ v := (Found tt, set_dep None v)
}.
(** The rules, if they can be read; no decoders. *)
Definition resources (rules : option (list CustomContent)) : ContentClient server := {|
  list_rules _ v := (match rules with Some l => Found l | None => Failed (OtherError "timeout") end, v);
  list_decoders _ v := (Found [], v)
|}.

Lemma slot_found {T} (name namespace : T -> string) ns n o t :
  slot name namespace ns n o = Found t -> o = Some t /\ name t = n /\ namespace t = ns.
Proof.
  unfold slot. destruct o as [x|]; [|done]. repeat case_bool_decide; cbn; intros; by simplify_eq.
Qed.

Lemma slot_self {T} (name namespace : T -> string) t :
  slot name namespace (namespace t) (name t) (Some t) = Found t.
Proof. unfold slot. by rewrite !bool_decide_true. Qed.

#[global] Instance quiet_statefulsets :
  QuietServer (KV := statefulset_kind eqv) (W := server) eqv.
Proof.
  split; cbn.
  - intros; by simplify_eq.
  - intros ns n w t w' H. simplify_eq. by apply slot_found in H as (_ & ? & ?).
  - intros t w e w'. unfold put. destruct (slot _ _ _ _ _); intros; by simplify_eq.
  - intros t w w' H. simplify_eq. exists t. split; [by rewrite <-(slot_self fs_Name fs_Namespace t)|done].
  - intros t w w'. unfold put. destruct (slot _ _ _ _ _); intros; simplify_eq.
    exists t. split; [by rewrite <-(slot_self fs_Name fs_Namespace t)|done].
Qed.
#[global] Instance quiet_deployments :
  QuietServer (KV := deployment_kind) (W := server) eqv.
Proof.
  split; cbn.
  - intros; by simplify_eq.
  - intros ns n w t w' H. simplify_eq. by apply slot_found in H as (_ & ? & ?).
  - intros t w e w'. unfold put. destruct (slot _ _ _ _ _); intros; by simplify_eq.
  - intros t w w' H. simplify_eq. exists t. split; [by rewrite <-(slot_self fd_Name fd_Namespace t)|done].
  - intros t w w'. unfold put. destruct (slot _ _ _ _ _); intros; simplify_eq.
    exists t. split; [by rewrite <-(slot_self fd_Name fd_Namespace t)|done].
Qed.

Definition template : PodTemplate string :=
  {| pt_Annotations := None; pt_SecurityContext := "fsGroup: 1000"; pt_Tolerations := "";
     pt_Affinity := ""; pt_RuleMounts := []; pt_DecoderMounts := []; pt_Rest := "containers" |}.

Definition sts (name claims : string) (replicas : Z) : FullStatefulSet string :=
  {| fs_Name := name; fs_Namespace := "ns"; fs_ServerMeta := ""; fs_Deleting := false;
     fs_Labels := Some {[ "app" := name ]}; fs_Annotations := None; fs_OwnerReferences := "owner";
     fs_Selector := "app"; fs_ServiceName := name; fs_VolumeClaimTemplates := claims;
     fs_PodManagementPolicy := "Parallel"; fs_Replicas := Some replicas; fs_Template := template;
     fs_UpdateStrategy := "OnDelete"; fs_MinReadySeconds := 30; fs_RetentionPolicy := "";
     fs_Ordinals := ""; fs_RevisionHistoryLimit := None |}.

Definition dep : FullDeployment string :=
  {| fd_Name := "w-dashboard"; fd_Namespace := "ns"; fd_ServerMeta := ""; fd_Deleting := false;
     fd_Labels := None; fd_Annotations := None; fd_OwnerReferences := "owner"; fd_Selector := "app";
     fd_Replicas := Some 1; fd_Template := template; fd_Strategy := ""; fd_MinReadySeconds := 0;
     fd_RevisionHistoryLimit := None; fd_Paused := false; fd_ProgressDeadlineSeconds := None |}.

Definition user : component_spec :=
  {| sp_Annotations := Some {[ "team" := "soc" ]}; sp_PodAnnotations := None |}.

Definition rule (name file content : string) : CustomContent :=
  {| cc_Name := name; cc_ClusterRef := "w"; cc_Applied := true; cc_ConfigMapRef := Some ("cm-" +:+ name);
     cc_FileStem := file; cc_Content := content |}.

Definition never : nat -> option error := fun _ => None.
Definition no_hash (s : string) : string := s.

Definition two_rules : list CustomContent := [rule "a" "ssh" "<ssh/>"; rule "b" "web" "<web/>"].
Definition empty : server := {| v_sts := None; v_dep := None |}.
#[global] Instance with_rules : ContentClient server := resources (Some two_rules).

(** The managers as the handler builds them for some rules. *)
Definition built (rules : list CustomContent) : FullStatefulSet string :=
  build_statefulset (sts "w-manager-master" "50Gi" 1) user
    {| h_Cert := "c1"; h_Config := "g1"; h_Spec := "s1";
       h_Rule := content_hash no_hash (of_cluster "w" rules); h_Decoder := "" |}
    (mounts (of_cluster "w" rules)) [].
End SimWorkloads.
Import SimWorkloads.


Lemma two_rules_fixed : contents_fixed (W := server) two_rules [].
Proof. done. Qed.

Example workloads_settle_witness :
  exists w', reconcileMasterNonBlocking eqv no_hash never 7 "c1" "g1" "s1" "w" user
      (sts "w-manager-master" "50Gi" 1) empty
    = (Ok (Some (pending_rollout (KV := statefulset_kind eqv) 7 "manager-master" (built two_rules)
                   "initial-creation")), w') /\
    reconcileMasterNonBlocking eqv no_hash never 9 "c1" "g1" "s1" "w" user
      (sts "w-manager-master" "50Gi" 1) w' = (Ok None, w').
Proof.
  eexists. split; [vm_compute; reflexivity|].
  refine (proj2 (proj2 (workloads_settle eqv no_hash never two_rules [] 7 9 "c1" "g1" "s1" "w" user
    (sts "w-manager-master" "50Gi" 1) dep _ _ two_rules_fixed eq_refl eq_refl))
    "manager-master" "master" (Some _) empty _ _); vm_compute; reflexivity.
Defined.


(** The storage class of the indexer's volumes changes, and with it the hash. *)
Example immutable_changes_are_lost_witness :
  let found := build_statefulset (sts "w-indexer" "slow" 3) user (plain_hashes "c1" "g1" "s1") [] [] in
  let w := {| v_sts := Some found; v_dep := None |} in
  exists sent w', update_workload sent w = (Found tt, w') /\
    fs_VolumeClaimTemplates sent = "slow" /\
    lookup_str (fs_Annotations sent) AnnotationSpecHash = "s2" /\
    reconcileIndexerStatefulSet eqv never 9 "c1" "g1" "s2" user (sts "w-indexer" "fast" 3) w'
      = (Ok None, w').
Proof.
  intros found w.
  destruct (reconcileIndexerStatefulSet eqv never 7 "c1" "g1" "s2" user (sts "w-indexer" "fast" 3) w)
    as [r w'] eqn:E.
  destruct r as [r|e]; [|vm_compute in E; discriminate E].
  destruct (immutable_changes_are_lost (CS := statefulsets) eqv never 7 "c1" "g1" "s2" user (sts "w-indexer" "fast" 3)
    found r w w' _ ltac:(vm_compute; reflexivity)
    ltac:(vm_compute; reflexivity) E) as [[-> _]|(sent & Hu & Hv & _ & _ & Hs & Hl)].
  - vm_compute in E. discriminate E.
  - exists sent, w'. split; [exact Hu|]. split; [exact Hv|]. split; [apply Hs; discriminate|].
    apply Hl.
Defined.

Example unreadable_rules_are_unmounted_witness :
  let w := {| v_sts := Some (built two_rules); v_dep := None |} in
  exists sent w', update_workload sent w = (Found tt, w') /\ pt_RuleMounts (fs_Template sent) = [] /\
    pt_RuleMounts (fs_Template (built two_rules)) <> [].
Proof.
  intros w.
  destruct (reconcile_manager_statefulset (ContentClient0 := resources None) eqv no_hash never "manager-master"
    "master" 7 "c1" "g1" "s1" "w" user (sts "w-manager-master" "50Gi" 1) w) as [r w'] eqn:E.
  destruct r as [r|e]; [|vm_compute in E; discriminate E].
  destruct (@unreadable_rules_are_unmounted _ _ eqv _ statefulsets (resources None) no_hash never "manager-master" "master" 7 "c1" "g1" "s1"
    "w" user (sts "w-manager-master" "50Gi" 1) (built two_rules) _ r w w' ([], "") _
    ltac:(vm_compute; reflexivity) ltac:(vm_compute; reflexivity) ltac:(vm_compute; discriminate)
    ltac:(vm_compute; reflexivity) ltac:(vm_compute; reflexivity) E)
    as (sent & ro & _ & Hu & Hm).
  exists sent, w'. split; [exact Hu|]. split; [exact Hm|]. vm_compute. discriminate.
Defined.

(** The two rules exchange their contents. *)
Example rule_hash_ignores_files_witness :
  let old := [rule "a" "ssh" "<web/>"; rule "b" "web" "<ssh/>"] in
  let w := {| v_sts := Some (built old); v_dep := None |} in
  reconcile_manager_statefulset eqv no_hash never "manager-master" "master" 7 "c1" "g1" "s1" "w" user
    (sts "w-manager-master" "50Gi" 1) w = (Ok None, w).
Proof.
  intros old w.
  apply (rule_hash_ignores_files eqv no_hash never "manager-master" "master" 7 "c1" "g1" "s1" "w" user
    (sts "w-manager-master" "50Gi" 1) (built old) w old two_rules ([], "")); try reflexivity.
  - apply _.
  - discriminate.
  - apply perm_swap.
  - repeat split.
Defined.
