(* ===== verification/NodePools.v ===== *)
(** * Indexer topologies ([internal/opensearch/validation], [api/v1/wazuhcluster_webhook.go])

    Which node pools are accepted: by the admission webhook when the resource
    is written, and by the controller when it reconciles it. *)
From S2P Require Import Prelude GoStrings GoFloat DrainState IndexerDrain Cluster.
From Stdlib Require Import Ascii.
Local Open Scope go_scope.
Local Open Scope list_scope.

(** ** Names: [^[a-z0-9]([-a-z0-9]*[a-z0-9])?$] *)

Definition in_range (lo hi : nat) (a : ascii) : bool :=
  bool_decide (lo <= nat_of_ascii a)%nat && bool_decide (nat_of_ascii a <= hi)%nat.
Definition alnum (a : ascii) : bool := in_range 97 122 a || in_range 48 57 a.
Definition dash_alnum (a : ascii) : bool := bool_decide (a = "-"%char) || alnum a.

Definition nodePoolNameRegex (s : string) : bool :=
  match String.list_ascii_of_string s with
  | [] => false
  | a :: rest =>
      alnum a &&
      match rest with
      | [] => true
      | b :: _ => forallb dash_alnum rest && alnum (List.last rest a)
      end
  end.

(** ** [internal/opensearch/validation/nodepool_validator.go] *)

Record ValidationError := { ve_Field : string; ve_Message : string }.

Record ValidationResult := {
  vr_Valid : bool;
  vr_Errors : list ValidationError;
  vr_Warnings : list string
}.

Definition valid_result : ValidationResult := {| vr_Valid := true; vr_Errors := []; vr_Warnings := [] |}.

Definition AddError (field message : string) (r : ValidationResult) : ValidationResult :=
  {| vr_Valid := false;
     vr_Errors := vr_Errors r ++ [{| ve_Field := field; ve_Message := message |}];
     vr_Warnings := vr_Warnings r |}.

Definition AddWarning (message : string) (r : ValidationResult) : ValidationResult :=
  {| vr_Valid := vr_Valid r; vr_Errors := vr_Errors r; vr_Warnings := vr_Warnings r ++ [message] |}.

(** [if b { f }] on the result being built *)
Definition when (b : bool) (f : ValidationResult -> ValidationResult) (r : ValidationResult)
    : ValidationResult := if b then f r else r.

Definition OpenSearchRoleList : list string :=
  ["cluster_manager"; "data"; "ingest"; "search"; "coordinating_only"; "ml"; "remote_cluster_client"].

Definition IsValidOpenSearchRole (role : string) : bool :=
  existsb (fun r => bool_decide (role = r)) OpenSearchRoleList.

Definition MaxNodePoolNameLength : Z := 15.
Definition MinDataNodes : Z := 1.

Definition name_length (s : string) : Z := Z.of_nat (String.length s).

(** The loop over the roles, from index [i]. *)
Fixpoint check_roles (field : string) (i : nat) (roles : list string) (r : ValidationResult)
    : ValidationResult :=
  match roles with
  | [] => r
  | role :: roles =>
      check_roles field (S i) roles
        (when (negb (IsValidOpenSearchRole role))
           (AddError (field +:+ ".roles[" +:+ pretty i +:+ "]")
              ("invalid role '" +:+ role +:+ "'; valid roles are: [" +:+ Join " " OpenSearchRoleList
               +:+ "]")) r)
  end.

Definition ValidateNodePoolSpec (pool : IndexerNodePoolSpec) (fieldPrefix : string) : ValidationResult :=
  let name := pool_Name pool in
  let r := valid_result in
  let r :=
    if bool_decide (name = "") then AddError (fieldPrefix +:+ ".name") "name is required" r
    else
      let r := when (negb (nodePoolNameRegex name))
        (AddError (fieldPrefix +:+ ".name")
          ("name must be DNS-compatible (lowercase alphanumeric, may contain hyphens, "
           +:+ "must start and end with alphanumeric)")) r in
      when (bool_decide (MaxNodePoolNameLength < name_length name))
        (AddError (fieldPrefix +:+ ".name")
          ("name must be at most " +:+ pretty MaxNodePoolNameLength +:+ " characters; got "
           +:+ pretty (name_length name))) r in
  let r := when (bool_decide (pool_Replicas pool < 0))
    (AddError (fieldPrefix +:+ ".replicas") "replicas cannot be negative") r in
  let r := check_roles fieldPrefix 0 (pool_Roles pool) r in
  let r := when (pool_HasClusterManagerRole pool && pool_HasDataRole pool)
    (AddWarning ("nodePool '" +:+ name +:+ "' has both cluster_manager and data roles; "
                 +:+ "consider separating these roles for better stability in production")) r in
  when (bool_decide (pool_StorageSize pool = "") && pool_HasDataRole pool)
    (AddWarning ("nodePool '" +:+ name +:+ "' has data role but no storageSize specified; "
                 +:+ "using default")) r.

(** What the loop of [ValidateNodePools] carries along. *)
Record tally := {
  t_result : ValidationResult;
  t_seen : gset string;
  t_managers : Z;
  t_data : Z;
  t_hasManager : bool;
  t_hasData : bool
}.

Definition start_tally : tally :=
  {| t_result := valid_result; t_seen := ∅; t_managers := 0; t_data := 0;
     t_hasManager := false; t_hasData := false |}.

Definition check_pool (i : nat) (pool : IndexerNodePoolSpec) (t : tally) : tally :=
  let poolField := "spec.indexer.nodePools[" +:+ pretty i +:+ "]" in
  let poolResult := ValidateNodePoolSpec pool poolField in
  let r := t_result t in
  let r :=
    {| vr_Valid := if vr_Valid poolResult then vr_Valid r else false;
       vr_Errors := if vr_Valid poolResult then vr_Errors r else vr_Errors r ++ vr_Errors poolResult;
       vr_Warnings := vr_Warnings r ++ vr_Warnings poolResult |} in
  let r := when (bool_decide (pool_Name pool ∈ t_seen t))
    (AddError (poolField +:+ ".name")
      ("duplicate nodePool name '" +:+ pool_Name pool +:+ "'; each nodePool must have a unique name")) r in
  {| t_result := r;
     t_seen := {[pool_Name pool]} ∪ t_seen t;
     t_managers := if pool_HasClusterManagerRole pool then wrap32 (t_managers t + pool_Replicas pool)
                   else t_managers t;
     t_data := if pool_HasDataRole pool then wrap32 (t_data t + pool_Replicas pool) else t_data t;
     t_hasManager := t_hasManager t || pool_HasClusterManagerRole pool;
     t_hasData := t_hasData t || pool_HasDataRole pool |}.

Fixpoint check_pools (i : nat) (pools : list IndexerNodePoolSpec) (t : tally) : tally :=
  match pools with
  | [] => t
  | pool :: pools => check_pools (S i) pools (check_pool i pool t)
  end.

Definition ValidateNodePools (spec : WazuhIndexerClusterSpec) : ValidationResult :=
  if bool_decide (0 < ix_Replicas spec) && bool_decide (0 < length (ix_NodePools spec))%nat
  then AddError "spec.indexer"
         ("replicas and nodePools are mutually exclusive; use either replicas (simple mode) "
          +:+ "or nodePools (advanced mode), not both") valid_result
  else if negb (IsAdvancedMode spec) then valid_result
  else
    let t := check_pools 0 (ix_NodePools spec) start_tally in
    let r := t_result t in
    let r := when (t_hasManager t && bool_decide (t_managers t < MinClusterManagerNodes))
      (AddError "spec.indexer.nodePools"
        ("cluster_manager role requires at least " +:+ pretty MinClusterManagerNodes
         +:+ " nodes for quorum; found " +:+ pretty (t_managers t))) r in
    let r := when (t_hasData t && bool_decide (t_data t < MinDataNodes))
      (AddError "spec.indexer.nodePools"
        ("at least " +:+ pretty MinDataNodes +:+ " data node is required; found "
         +:+ pretty (t_data t))) r in
    when (negb (t_hasData t))
      (AddWarning "no nodePool has the data role; the cluster will not be able to store data") r.

(** [Reconcile] stops here with the first error; [Panics] is [Errors[0]] of an
    empty list. *)
Definition topology_error (spec : WazuhIndexerClusterSpec) : outcome (option error) :=
  let r := ValidateNodePools spec in
  if vr_Valid r then Returns None
  else match vr_Errors r with
       | [] => Panics
       | e :: _ => Returns (Some ("nodePool validation failed: " +:+ ve_Message e))
       end.

(** ** The webhook ([api/v1/wazuhcluster_webhook.go]) *)

(** [Default], the indexer's part. *)
Definition default_indexer (spec : WazuhIndexerClusterSpec) : WazuhIndexerClusterSpec :=
  if negb (IsAdvancedMode spec) && bool_decide (ix_Replicas spec = 0)
  then {| ix_Replicas := 3; ix_NodePools := ix_NodePools spec; ix_StorageSize := ix_StorageSize spec;
        ix_Networking := ix_Networking spec |} else spec.

(** Errors and warnings so far. *)
Definition messages : Type := list string * list string.
Definition add_error (b : bool) (e : string) (m : messages) : messages :=
  if b then (m.1 ++ [e], m.2) else m.
Definition add_warning (b : bool) (w : string) (m : messages) : messages :=
  if b then (m.1, m.2 ++ [w]) else m.

Record webhook_tally := {
  wt_messages : messages;
  wt_seen : gset string;
  wt_managers : Z;
  wt_data : Z;
  wt_hasManager : bool;
  wt_hasData : bool
}.

Definition webhook_pool (i : nat) (pool : IndexerNodePoolSpec) (t : webhook_tally) : webhook_tally :=
  let prefix := "spec.indexer.nodePools[" +:+ pretty i +:+ "]" in
  let name := pool_Name pool in
  let unnamed := bool_decide (name = "") in
  let m := wt_messages t in
  let m := add_error unnamed (prefix +:+ ".name: is required") m in
  let m := add_error (negb unnamed && negb (nodePoolNameRegex name))
             (prefix +:+ ".name: must be DNS-compatible (lowercase alphanumeric with hyphens)") m in
  let m := add_error (negb unnamed && bool_decide (63 < name_length name))
             (prefix +:+ ".name: must be at most 63 characters") m in
  let m := add_error (negb unnamed && bool_decide (name ∈ wt_seen t))
             (prefix +:+ ".name: duplicate name '" +:+ name +:+ "'") m in
  let m := add_error (bool_decide (pool_Replicas pool < 0))
             (prefix +:+ ".replicas: cannot be negative") m in
  let m := add_warning (pool_HasClusterManagerRole pool && pool_HasDataRole pool)
             ("nodePool '" +:+ name +:+ "' has both cluster_manager and data roles; "
              +:+ "consider separating for production") m in
  {| wt_messages := m;
     wt_seen := if unnamed then wt_seen t else {[name]} ∪ wt_seen t;
     wt_managers := if pool_HasClusterManagerRole pool then wrap32 (wt_managers t + pool_Replicas pool)
                    else wt_managers t;
     wt_data := if pool_HasDataRole pool then wrap32 (wt_data t + pool_Replicas pool) else wt_data t;
     wt_hasManager := wt_hasManager t || pool_HasClusterManagerRole pool;
     wt_hasData := wt_hasData t || pool_HasDataRole pool |}.

Fixpoint webhook_pools (i : nat) (pools : list IndexerNodePoolSpec) (t : webhook_tally) : webhook_tally :=
  match pools with
  | [] => t
  | pool :: pools => webhook_pools (S i) pools (webhook_pool i pool t)
  end.

Definition webhook_validateNodePools (pools : list IndexerNodePoolSpec) : messages :=
  if bool_decide (length pools = 0%nat)
  then (["spec.indexer.nodePools: at least one nodePool must be defined"], [])
  else
    let t := webhook_pools 0 pools
      {| wt_messages := ([], []); wt_seen := ∅; wt_managers := 0; wt_data := 0;
         wt_hasManager := false; wt_hasData := false |} in
    let m := wt_messages t in
    let m := add_error (wt_hasManager t && bool_decide (wt_managers t < 3))
      ("spec.indexer.nodePools: cluster_manager role requires at least 3 nodes for quorum; found "
       +:+ pretty (wt_managers t)) m in
    let m := add_error (wt_hasData t && bool_decide (wt_data t < 1))
      ("spec.indexer.nodePools: at least 1 data node is required; found " +:+ pretty (wt_data t)) m in
    add_warning (negb (wt_hasData t))
      "no nodePool has the data role; cluster will not be able to store data" m.

(** [validateIndexerSpec], up to the check of the gateway. *)
Definition validateIndexerSpec (spec : WazuhIndexerClusterSpec) : messages :=
  if bool_decide (0 < ix_Replicas spec) && bool_decide (0 < length (ix_NodePools spec))%nat
  then (["spec.indexer: replicas and nodePools are mutually exclusive"], [])
  else
    let m := ([], []) in
    let m :=
      if IsSimpleMode spec then
        add_warning (bool_decide (ix_Replicas spec < 3))
          "indexer has fewer than 3 replicas; consider 3+ for high availability"
          (add_error (bool_decide (ix_Replicas spec < 1)) "spec.indexer.replicas: must be at least 1" m)
      else m in
    if IsAdvancedMode spec then
      let p := webhook_validateNodePools (ix_NodePools spec) in (m.1 ++ p.1, m.2 ++ p.2)
    else m.

(** The indexer's part of [validateUpdate]: the error, or the warnings. *)
Definition validate_topology_update (old new : WazuhIndexerClusterSpec) : result (list string) :=
  if IsSimpleMode old && IsAdvancedMode new
  then Err ("spec.indexer: cannot transition from simple mode to advanced mode; "
            +:+ "create a new cluster for the desired topology")
  else if IsAdvancedMode old && IsSimpleMode new
  then Err ("spec.indexer: cannot transition from advanced mode to simple mode; "
            +:+ "create a new cluster for the desired topology")
  else Ok (if bool_decide (GetTotalReplicas new < GetTotalReplicas old)
           then ["scaling down indexer replicas will trigger shard relocation"] else []).

(** *** The way of a submitted specification to the operator

    The API server first applies the defaults of the resource's schema and
    checks it (the [+kubebuilder] markers of [Replicas] and of
    [IndexerNodePoolSpec]); the webhook then sets its own defaults and
    validates. *)

(** [default=3] for a field that was not given. *)
Definition schema_default (given : option Z) (pools : list IndexerNodePoolSpec) : WazuhIndexerClusterSpec :=
  {| ix_Replicas := default 3 given; ix_NodePools := pools; ix_StorageSize := "";
     ix_Networking := no_networking |}.

Definition schema_pool_ok (pool : IndexerNodePoolSpec) : bool :=
  nodePoolNameRegex (pool_Name pool) && bool_decide (name_length (pool_Name pool) <= 15) &&
  bool_decide (0 <= pool_Replicas pool) && forallb IsValidOpenSearchRole (pool_Roles pool).

Definition schema_ok (spec : WazuhIndexerClusterSpec) : bool :=
  bool_decide (1 <= ix_Replicas spec) && forallb schema_pool_ok (ix_NodePools spec).

Definition admit_indexer (given : option Z) (pools : list IndexerNodePoolSpec)
    : result WazuhIndexerClusterSpec :=
  let spec := schema_default given pools in
  if negb (schema_ok spec) then Err "is invalid"
  else
    let spec := default_indexer spec in
    match (validateIndexerSpec spec).1 with
    | [] => Ok spec
    | errors => Err ("validation failed: [" +:+ Join " " errors +:+ "]")
    end.

(** ** What acceptance means *)

Definition sum_replicas (has : IndexerNodePoolSpec -> bool) (pools : list IndexerNodePoolSpec) : Z :=
  fold_left (fun n p => if has p then wrap32 (n + pool_Replicas p) else n) pools 0.

(** One pool on its own. *)
Definition pool_ok (maxlen : Z) (pool : IndexerNodePoolSpec) : Prop :=
  nodePoolNameRegex (pool_Name pool) = true /\ name_length (pool_Name pool) <= maxlen /\
  0 <= pool_Replicas pool.

Definition roles_ok (pool : IndexerNodePoolSpec) : Prop :=
  Forall (fun r => IsValidOpenSearchRole r = true) (pool_Roles pool).

(** The pools together: distinct names, a quorum of managers if there are any,
    a data node if there should be any. *)
Definition pools_ok (pools : list IndexerNodePoolSpec) : Prop :=
  NoDup (map pool_Name pools) /\
  (existsb pool_HasClusterManagerRole pools = true ->
     3 <= sum_replicas pool_HasClusterManagerRole pools) /\
  (existsb pool_HasDataRole pools = true -> 1 <= sum_replicas pool_HasDataRole pools).

(** A count is refused when the role is there and the nodes are not. *)
Lemma enough_nodes (has : bool) n k : has && bool_decide (n < k) = false <-> (has = true -> k <= n).
Proof. destruct has; cbn; [rewrite bool_decide_eq_false|]; split; try done; intros; lia || auto with lia. Qed.

(** ** Lemmas: the controller's validator *)

(** [Valid] says whether there are errors. *)
Definition coherent (r : ValidationResult) : Prop := vr_Valid r = true <-> vr_Errors r = [].

Lemma when_error b f m r : coherent r ->
  coherent (when b (AddError f m) r) /\
  (vr_Valid (when b (AddError f m) r) = true <-> vr_Valid r = true /\ b = false).
Proof.
  unfold coherent. intros H. destruct b; cbn; [|tauto].
  split; (split; [done|]); [intros Hx; by destruct (vr_Errors r)|by intros [_ ?]].
Qed.

Lemma when_warning b m r : coherent r ->
  coherent (when b (AddWarning m) r) /\ vr_Valid (when b (AddWarning m) r) = vr_Valid r.
Proof. by destruct b. Qed.

Lemma check_roles_valid field i roles r : coherent r ->
  coherent (check_roles field i roles r) /\
  (vr_Valid (check_roles field i roles r) = true <->
   vr_Valid r = true /\ Forall (fun x => IsValidOpenSearchRole x = true) roles).
Proof.
  revert i r. induction roles as [|x roles IH]; intros i r H; cbn [check_roles].
  { split; [done|]. rewrite Forall_nil. tauto. }
  match goal with |- context [when ?b (AddError ?f ?m) r] =>
    destruct (when_error b f m r H) as [Hc Hv] end.
  destruct (IH (S i) _ Hc) as [IHc IHv]. split; [done|].
  rewrite IHv, Hv, Forall_cons, negb_false_iff. tauto.
Qed.

Lemma regex_nonempty s : nodePoolNameRegex s = true -> s <> "".
Proof. by intros H ->. Qed.

Lemma pool_spec_valid pool f :
  coherent (ValidateNodePoolSpec pool f) /\
  (vr_Valid (ValidateNodePoolSpec pool f) = true <->
   pool_ok MaxNodePoolNameLength pool /\ roles_ok pool).
Proof.
  unfold ValidateNodePoolSpec, pool_ok, roles_ok.
  set (r1 := if bool_decide (pool_Name pool = "") then _ else _).
  assert (H1 : coherent r1 /\ (vr_Valid r1 = true <->
    nodePoolNameRegex (pool_Name pool) = true /\ name_length (pool_Name pool) <= MaxNodePoolNameLength)).
  { subst r1. case_bool_decide as E.
    - split; [by split|]. rewrite E. by split; [|intros []].
    - match goal with |- context [when (negb _) (AddError ?f ?m) valid_result] =>
        destruct (when_error (negb (nodePoolNameRegex (pool_Name pool))) f m valid_result) as [Hc Hv] end;
        [by split|].
      match goal with |- context [when (bool_decide ?P) (AddError ?f ?m) ?r] =>
        destruct (when_error (bool_decide P) f m r Hc) as [Hc2 Hv2] end.
      split; [done|]. rewrite Hv2, Hv, negb_false_iff, bool_decide_eq_false. cbn. intuition lia. }
  clearbody r1. destruct H1 as [Hc1 Hv1].
  match goal with |- context [when ?b (AddError ?f ?m) r1] =>
    destruct (when_error b f m r1 Hc1) as [Hc2 Hv2]; set (r2 := when b (AddError f m) r1) in * end.
  clearbody r2. destruct (check_roles_valid f 0 (pool_Roles pool) r2 Hc2) as [Hc3 Hv3].
  set (r3 := check_roles _ _ _ _) in *. clearbody r3.
  match goal with |- context [when ?b (AddWarning ?m) r3] =>
    destruct (when_warning b m r3 Hc3) as [Hc4 Hv4]; set (r4 := when b (AddWarning m) r3) in * end.
  clearbody r4.
  match goal with |- context [when ?b (AddWarning ?m) r4] =>
    destruct (when_warning b m r4 Hc4) as [Hc5 Hv5] end.
  split; [done|]. rewrite Hv5, Hv4, Hv3, Hv2, Hv1, bool_decide_eq_false. intuition lia.
Qed.

Lemma check_pool_valid i pool t : coherent (t_result t) ->
  coherent (t_result (check_pool i pool t)) /\
  (vr_Valid (t_result (check_pool i pool t)) = true <->
   vr_Valid (t_result t) = true /\ pool_ok MaxNodePoolNameLength pool /\ roles_ok pool /\
   pool_Name pool ∉ t_seen t).
Proof.
  intros H. unfold check_pool. cbn [t_result].
  set (f := "spec.indexer.nodePools[" +:+ pretty i +:+ "]").
  destruct (pool_spec_valid pool f) as [Hc Hv]. set (p := ValidateNodePoolSpec pool f) in *.
  match goal with |- context [when ?b (AddError ?g ?m) ?r] =>
    destruct (when_error b g m r) as [Hc2 Hv2] end.
  { unfold coherent in *. cbn. destruct (vr_Valid p); [done|]. split; [done|].
    intros [_ Hn]%app_eq_nil. by apply Hc in Hn. }
  split; [done|]. rewrite Hv2, bool_decide_eq_false. cbn [vr_Valid].
  clear Hc Hc2 Hv2. destruct (vr_Valid p).
  - destruct (proj1 Hv eq_refl) as [Ho Hr]. tauto.
  - split; [by intros []|]. intros (_ & Ho & Hr & _). discriminate (proj2 Hv (conj Ho Hr)).
Qed.

Lemma check_pools_valid i pools t : coherent (t_result t) ->
  coherent (t_result (check_pools i pools t)) /\
  (vr_Valid (t_result (check_pools i pools t)) = true <->
   vr_Valid (t_result t) = true /\
   Forall (fun p => pool_ok MaxNodePoolNameLength p /\ roles_ok p) pools /\
   NoDup (map pool_Name pools) /\ Forall (fun p => pool_Name p ∉ t_seen t) pools).
Proof.
  revert i t. induction pools as [|p pools IH]; intros i t H; cbn [check_pools map].
  { split; [done|]. rewrite !Forall_nil. split; [|tauto]. intros; split_and!; auto using NoDup_nil_2. }
  destruct (check_pool_valid i p t H) as [Hc Hv]. destruct (IH (S i) _ Hc) as [IHc IHv].
  split; [done|]. rewrite IHv, Hv, !Forall_cons, NoDup_cons.
  assert (Hs : Forall (fun q => pool_Name q ∉ t_seen (check_pool i p t)) pools <->
    pool_Name p ∉ map pool_Name pools /\ Forall (fun q => pool_Name q ∉ t_seen t) pools).
  { cbn [check_pool t_seen]. rewrite !Forall_forall. split.
    - intros Hf. split; [intros (q & Hq & Hin)%list_elem_of_fmap|intros q Hin]; specialize (Hf q Hin); set_solver.
    - intros [Hp Hf] q Hin. specialize (Hf q Hin).
      assert (pool_Name q <> pool_Name p); [|set_solver].
      intros E. apply Hp. rewrite <-E. by apply list_elem_of_fmap_2. }
  rewrite Hs. tauto.
Qed.

Lemma check_pools_counts i pools t :
  let t' := check_pools i pools t in
  t_managers t' = fold_left (fun n p => if pool_HasClusterManagerRole p
                                         then wrap32 (n + pool_Replicas p) else n) pools (t_managers t) /\
  t_data t' = fold_left (fun n p => if pool_HasDataRole p
                                     then wrap32 (n + pool_Replicas p) else n) pools (t_data t) /\
  t_hasManager t' = t_hasManager t || existsb pool_HasClusterManagerRole pools /\
  t_hasData t' = t_hasData t || existsb pool_HasDataRole pools.
Proof.
  revert i t. induction pools as [|p pools IH]; intros i t; cbn [check_pools fold_left existsb].
  { by rewrite !orb_false_r. }
  destruct (IH (S i) (check_pool i p t)) as (-> & -> & -> & ->). cbn. by rewrite !orb_assoc.
Qed.

Lemma ValidateNodePools_valid spec :
  coherent (ValidateNodePools spec) /\
  (vr_Valid (ValidateNodePools spec) = true <->
   (IsAdvancedMode spec = true -> ix_Replicas spec <= 0 /\
      Forall (fun p => pool_ok MaxNodePoolNameLength p /\ roles_ok p) (ix_NodePools spec) /\
      pools_ok (ix_NodePools spec))).
Proof.
  unfold ValidateNodePools, IsAdvancedMode.
  destruct (bool_decide (0 < length (ix_NodePools spec))%nat) eqn:Ea;
    [|rewrite andb_false_r; split; [by split|by split]].
  rewrite andb_true_r. cbn [negb].
  destruct (decide (0 < ix_Replicas spec)) as [Er|Er];
    [rewrite (bool_decide_true _ Er)|rewrite (bool_decide_false _ Er)].
  { unfold coherent. cbn. split; [by split|]. split; [done|]. intros H.
    destruct (H eq_refl) as [? _]. lia. }
  destruct (check_pools_valid 0 (ix_NodePools spec) start_tally) as [Hc Hv]; [by split|].
  destruct (check_pools_counts 0 (ix_NodePools spec) start_tally) as (Hm & Hd & Hhm & Hhd).
  set (t := check_pools _ _ _) in *. cbn in Hm, Hd, Hhm, Hhd.
  match goal with |- context [when ?b (AddError ?f ?m) (t_result t)] =>
    destruct (when_error b f m _ Hc) as [Hc2 Hv2]; set (r2 := when b (AddError f m) (t_result t)) in * end.
  match goal with |- context [when ?b (AddError ?f ?m) r2] =>
    destruct (when_error b f m _ Hc2) as [Hc3 Hv3]; set (r3 := when b (AddError f m) r2) in * end.
  match goal with |- context [when ?b (AddWarning ?m) r3] =>
    destruct (when_warning b m _ Hc3) as [Hc4 Hv4] end.
  split; [done|]. rewrite Hv4, Hv3, Hv2, Hv, !enough_nodes, Hhm, Hhd, Hm, Hd.
  fold (sum_replicas pool_HasClusterManagerRole (ix_NodePools spec)).
  fold (sum_replicas pool_HasDataRole (ix_NodePools spec)).
  assert (Hseen : Forall (fun p => pool_Name p ∉ t_seen start_tally) (ix_NodePools spec))
    by (apply Forall_forall; set_solver).
  unfold pools_ok. split.
  - intros [[[_ (Hf & Hn & _)] Hcm] Hda] _. split; [lia|done].
  - intros H. destruct (H eq_refl) as (_ & Hf & Hn & Hcm & Hda). done.
Qed.

Lemma topology_error_valid spec :
  topology_error spec <> Panics /\
  (topology_error spec = Returns None <-> vr_Valid (ValidateNodePools spec) = true).
Proof.
  unfold topology_error. destruct (ValidateNodePools_valid spec) as [Hc _]. unfold coherent in Hc.
  destruct (vr_Valid _) eqn:Hv; [done|].
  destruct (vr_Errors _) eqn:He; [|done]. by discriminate (proj2 Hc eq_refl).
Qed.

(** ** Lemmas: the webhook *)

Lemma add_error_nil b e m : (add_error b e m).1 = [] <-> m.1 = [] /\ b = false.
Proof.
  destruct b; cbn; [|tauto]. split; [by intros [_ ?]%app_eq_nil|by intros []].
Qed.

Lemma add_warning_errors b w m : (add_warning b w m).1 = m.1.
Proof. by destruct b. Qed.

Lemma webhook_pool_ok i pool t :
  (wt_messages (webhook_pool i pool t)).1 = [] <->
  (wt_messages t).1 = [] /\ pool_ok 63 pool /\ pool_Name pool ∉ wt_seen t.
Proof.
  unfold webhook_pool, pool_ok. cbn [wt_messages].
  rewrite add_warning_errors, !add_error_nil.
  rewrite !andb_false_iff, !negb_false_iff, !bool_decide_eq_false, bool_decide_eq_true.
  split.
  - intros [[[[[Hm Hn] Hr] Hl] Hs] Hp]. split; [done|]. split; [split_and!|].
    + by destruct Hr.
    + destruct Hl; [done|lia].
    + lia.
    + by destruct Hs.
  - intros (Hm & (Hr & Hl & Hp) & Hs). apply regex_nonempty in Hr as Hne.
    split_and!; try done; try (right; done); try lia; right; lia.
Qed.

Lemma webhook_pools_ok i pools t :
  (wt_messages (webhook_pools i pools t)).1 = [] <->
  (wt_messages t).1 = [] /\ Forall (pool_ok 63) pools /\ NoDup (map pool_Name pools) /\
  Forall (fun p => pool_Name p ∉ wt_seen t) pools.
Proof.
  revert i t. induction pools as [|p pools IH]; intros i t; cbn [webhook_pools map].
  { rewrite !Forall_nil. split; [|tauto]. intros; split_and!; auto using NoDup_nil_2. }
  rewrite IH, webhook_pool_ok, !Forall_cons, NoDup_cons.
  assert (Hs : pool_Name p <> "" ->
    Forall (fun q => pool_Name q ∉ wt_seen (webhook_pool i p t)) pools <->
    pool_Name p ∉ map pool_Name pools /\ Forall (fun q => pool_Name q ∉ wt_seen t) pools).
  { intros Hne. cbn [webhook_pool wt_seen]. rewrite (bool_decide_false _ Hne), !Forall_forall. split.
    - intros Hf. split; [intros (q & Hq & Hin)%list_elem_of_fmap|intros q Hin]; specialize (Hf q Hin); set_solver.
    - intros [Hp Hf] q Hin. specialize (Hf q Hin).
      assert (pool_Name q <> pool_Name p); [|set_solver].
      intros E. apply Hp. rewrite <-E. by apply list_elem_of_fmap_2. }
  split.
  - intros ((Hm & Ho & Hn) & Hf & Hd & Hseen).
    apply Hs in Hseen as [Hp Hseen]; [by split_and!|]. by apply regex_nonempty, Ho.
  - intros (Hm & [Ho Hf] & [Hp Hd] & [Hn Hseen]). split_and!; try done.
    apply Hs; [by apply regex_nonempty, Ho|done].
Qed.

Lemma webhook_pools_counts i pools t :
  let t' := webhook_pools i pools t in
  wt_managers t' = fold_left (fun n p => if pool_HasClusterManagerRole p
                                         then wrap32 (n + pool_Replicas p) else n) pools (wt_managers t) /\
  wt_data t' = fold_left (fun n p => if pool_HasDataRole p
                                     then wrap32 (n + pool_Replicas p) else n) pools (wt_data t) /\
  wt_hasManager t' = wt_hasManager t || existsb pool_HasClusterManagerRole pools /\
  wt_hasData t' = wt_hasData t || existsb pool_HasDataRole pools.
Proof.
  revert i t. induction pools as [|p pools IH]; intros i t; cbn [webhook_pools fold_left existsb].
  { by rewrite !orb_false_r. }
  destruct (IH (S i) (webhook_pool i p t)) as (-> & -> & -> & ->). cbn. by rewrite !orb_assoc.
Qed.

Lemma webhook_ok spec :
  (validateIndexerSpec spec).1 = [] <->
  (IsAdvancedMode spec = true ->
     ix_Replicas spec <= 0 /\ Forall (pool_ok 63) (ix_NodePools spec) /\ pools_ok (ix_NodePools spec)).
Proof.
  unfold validateIndexerSpec, IsAdvancedMode, IsSimpleMode.
  set (pools := ix_NodePools spec). destruct (decide (length pools = 0%nat)) as [Ep|Ep].
  { rewrite !(bool_decide_false (0 < length pools)%nat), andb_false_r by lia. cbn.
    rewrite (bool_decide_true _ Ep), andb_true_r. case_bool_decide; [|by split].
    rewrite add_warning_errors, add_error_nil, bool_decide_eq_false. split; [done|]. split; [done|lia]. }
  rewrite !(bool_decide_true (0 < length pools)%nat) by lia.
  rewrite andb_true_r, (bool_decide_false _ Ep), andb_false_r.
  destruct (decide (0 < ix_Replicas spec)) as [Er|Er];
    [rewrite (bool_decide_true _ Er)|rewrite (bool_decide_false _ Er)].
  { split; [done|]. intros H. destruct (H eq_refl). lia. }
  unfold webhook_validateNodePools. rewrite (bool_decide_false _ Ep). cbn [fst snd app].
  set (t0 := {| wt_messages := ([], []) |}).
  destruct (webhook_pools_counts 0 pools t0) as (Hm & Hd & Hhm & Hhd). cbn in Hm, Hd, Hhm, Hhd.
  pose proof (webhook_pools_ok 0 pools t0) as Hok. set (t := webhook_pools 0 pools t0) in *.
  rewrite add_warning_errors, !add_error_nil, Hok, !enough_nodes, Hhm, Hhd, Hm, Hd.
  fold (sum_replicas pool_HasClusterManagerRole pools) (sum_replicas pool_HasDataRole pools).
  assert (Hseen : Forall (fun p => pool_Name p ∉ wt_seen t0) pools) by (apply Forall_forall; set_solver).
  unfold pools_ok. split.
  - intros [[(_ & Hf & Hn & _) Hcm] Hda] _. split; [lia|done].
  - intros H. destruct (H eq_refl) as (_ & Hf & Hn & Hcm & Hda). done.
Qed.

(** ** What a topology may become *)

(** One update that the webhook lets through. *)
Definition update_admitted (old new : WazuhIndexerClusterSpec) : Prop :=
  exists submitted, 0 <= ix_Replicas submitted /\ new = default_indexer submitted /\
    (validateIndexerSpec new).1 = [] /\ is_ok (validate_topology_update old new) = true.

Lemma default_indexer_mode spec : 0 <= ix_Replicas spec ->
  let spec' := default_indexer spec in
  IsAdvancedMode spec' = IsAdvancedMode spec /\
  (IsAdvancedMode spec' = false -> IsSimpleMode spec' = true).
Proof.
  intros H. cbv zeta. unfold default_indexer, IsAdvancedMode, IsSimpleMode.
  destruct (decide (length (ix_NodePools spec) = 0%nat)) as [E|E].
  - rewrite (bool_decide_false (0 < length (ix_NodePools spec))%nat) by lia. cbn [negb andb].
    destruct (decide (ix_Replicas spec = 0)) as [E0|E0];
      [rewrite (bool_decide_true _ E0)|rewrite (bool_decide_false _ E0)]; cbn [ix_Replicas ix_NodePools];
      rewrite (bool_decide_true _ E), !(bool_decide_false (0 < length (ix_NodePools spec))%nat) by lia;
      by rewrite bool_decide_true by lia.
  - rewrite (bool_decide_true (0 < length (ix_NodePools spec))%nat) by lia. cbn [negb andb].
    by rewrite bool_decide_true by lia.
Qed.

Lemma update_keeps_mode old new :
  (IsAdvancedMode old = false -> IsSimpleMode old = true) -> update_admitted old new ->
  IsAdvancedMode new = IsAdvancedMode old /\ (IsAdvancedMode new = false -> IsSimpleMode new = true).
Proof.
  intros Hold (sub & Hr & -> & _ & Hu). destruct (default_indexer_mode sub Hr) as [_ Hs].
  split; [|done]. unfold validate_topology_update in Hu.
  destruct (IsAdvancedMode old) eqn:Ha, (IsAdvancedMode (default_indexer sub)) eqn:Hb; try done.
  - rewrite (Hs eq_refl) in Hu. by destruct (IsSimpleMode old).
  - by rewrite (Hold eq_refl) in Hu.
Qed.

(** ** Properties *)

(** The controller accepts a topology exactly when it is simple or its
    pools are well formed: names of at most 15 letters, digits and inner
    hyphens, all different, known roles, no negative replicas, at least three
    managers and one data node where the roles occur; it never reads the first
    error of an empty list.  (No rule asks for a pool of managers or of data
    nodes at all.) *)
Theorem valid_pools_iff (spec : WazuhIndexerClusterSpec) :
  topology_error spec <> Panics /\
  (topology_error spec = Returns None <->
   (IsAdvancedMode spec = true ->
      ix_Replicas spec <= 0 /\
      Forall (fun p => pool_ok MaxNodePoolNameLength p /\ roles_ok p) (ix_NodePools spec) /\
      pools_ok (ix_NodePools spec))).
Proof.
  destruct (topology_error_valid spec) as [Hp Ht]. split; [done|].
  rewrite Ht. apply ValidateNodePools_valid.
Qed.

(** The two validators agree: the controller accepts exactly the
    topologies that the webhook accepts, once the names are as short and the
    roles as known as the schema wants them; no admitted resource stops the
    reconcile later. *)
Theorem admission_agrees (spec : WazuhIndexerClusterSpec) :
  vr_Valid (ValidateNodePools spec) = true <->
  (validateIndexerSpec spec).1 = [] /\
  (IsAdvancedMode spec = true ->
     Forall (fun p => name_length (pool_Name p) <= MaxNodePoolNameLength /\ roles_ok p) (ix_NodePools spec)).
Proof.
  destruct (ValidateNodePools_valid spec) as [_ ->]. rewrite webhook_ok.
  unfold pool_ok, MaxNodePoolNameLength. split.
  - intros H. split; intros Ha; destruct (H Ha) as (Hr & Hf & Hp); [split_and!; [done| |done]|];
      eapply Forall_impl; try exact Hf; cbn; intros p ((?&?&?)&?); split_and!; auto; lia.
  - intros [H Hs] Ha. destruct (H Ha) as (Hr & Hf & Hp). specialize (Hs Ha). split_and!; [done| |done].
    rewrite Forall_forall in *. intros p Hin. destruct (Hf p Hin) as (?&?&?), (Hs p Hin). done.
Qed.

(** Only simple topologies get through the API server: the schema gives
    [replicas] the default 3 where it was left out and refuses anything below
    1, so a specification with pools, whatever they are, fails the check that
    replicas and pools exclude each other. *)
Theorem only_simple_mode_is_admitted (given : option Z) (pools : list IndexerNodePoolSpec)
    (spec : WazuhIndexerClusterSpec) :
  admit_indexer given pools = Ok spec <->
  pools = [] /\ 1 <= default 3 given /\ spec = {| ix_Replicas := default 3 given; ix_NodePools := []; ix_StorageSize := "";
     ix_Networking := no_networking |}.
Proof.
  unfold admit_indexer, schema_default, schema_ok, default_indexer. cbn [ix_Replicas ix_NodePools].
  set (n := default 3 given). destruct (decide (1 <= n)) as [Hn|Hn];
    [rewrite (bool_decide_true _ Hn)|rewrite (bool_decide_false _ Hn)]; cbn [andb negb].
  2: { split; [done|]. by intros (_ & ? & _). }
  rewrite (bool_decide_false (n = 0)) by lia. rewrite andb_false_r.
  destruct pools as [|p pools].
  - cbn [forallb negb]. rewrite (proj2 (webhook_ok _)) by done.
    split; [by intros [= <-]|by intros (_ & _ & ->)].
  - split; [|by intros (? & _)]. destruct (forallb _ _); [|done]. cbn [negb].
    destruct (validateIndexerSpec _).1 eqn:E; [|done]. apply webhook_ok in E; cbn in *; [lia|done].
Qed.

(** Whatever updates the webhook lets through, one after the other, a
    cluster keeps the kind of topology it was created with. *)
Theorem topology_fixed (created last : WazuhIndexerClusterSpec)
    (Hcreated : 0 <= ix_Replicas created) (Hh : rtc update_admitted (default_indexer created) last) :
  IsAdvancedMode last = IsAdvancedMode created /\ IsSimpleMode last = negb (IsAdvancedMode created).
Proof.
  destruct (default_indexer_mode created Hcreated) as [Hm Hs]. rewrite <-Hm. clear Hm.
  assert (H : IsAdvancedMode last = IsAdvancedMode (default_indexer created) /\
              (IsAdvancedMode last = false -> IsSimpleMode last = true)).
  { revert Hs. induction Hh as [|x y z Hxy _ IH]; [done|]. intros Hx.
    destruct (update_keeps_mode _ _ Hx Hxy) as [<- Hy]. by apply IH. }
  destruct H as [<- H]. split; [done|]. destruct (IsAdvancedMode last) eqn:Ha; [|by apply H].
  unfold IsAdvancedMode, IsSimpleMode in *. apply bool_decide_eq_true in Ha.
  rewrite (bool_decide_false (length _ = 0%nat)) by lia. apply andb_false_r.
Qed.

(** *** Witnesses *)

Definition pool (name : string) (replicas : Z) (roles : list string) : IndexerNodePoolSpec :=
  {| pool_Name := name; pool_Replicas := replicas; pool_Roles := roles; pool_StorageSize := "" |}.

(** The example of [docs/usage/features/advanced-indexer-topology.md], in short. *)
Definition documented : list IndexerNodePoolSpec :=
  [pool "masters" 3 ["cluster_manager"]; pool "data-hot" 3 ["data"; "ingest"]; pool "coordinators" 2 []].

Example documented_is_valid :
  topology_error {| ix_Replicas := 0; ix_NodePools := documented; ix_StorageSize := "";
     ix_Networking := no_networking |} = Returns None.
Proof. vm_compute. reflexivity. Qed.

Example documented_is_refused :
  admit_indexer None documented =
  Err "validation failed: [spec.indexer: replicas and nodePools are mutually exclusive]".
Proof. vm_compute. reflexivity. Qed.

(** A name that the webhook accepts and the controller refuses, and pools
    without a manager. *)
Example long_name :
  let spec := {| ix_Replicas := 0; ix_NodePools := [pool "data-in-the-first-zone" 1 ["data"]]; ix_StorageSize := "";
     ix_Networking := no_networking |} in
  (validateIndexerSpec spec).1 = [] /\
  topology_error spec =
  Returns (Some "nodePool validation failed: name must be at most 15 characters; got 22").
Proof. vm_compute. done. Qed.

Lemma topology_fixed_witness :
  let created := {| ix_Replicas := 0; ix_NodePools := documented; ix_StorageSize := "";
     ix_Networking := no_networking |} in
  let larger := {| ix_Replicas := 0; ix_NodePools := pool "more" 1 ["data"] :: documented; ix_StorageSize := "";
     ix_Networking := no_networking |} in
  rtc update_admitted (default_indexer created) larger /\
  IsAdvancedMode larger = true /\ IsSimpleMode larger = false.
Proof.
  intros created larger.
  assert (H : rtc update_admitted (default_indexer created) larger).
  { apply rtc_once. exists larger. repeat split; vm_compute; congruence. }
  split; [exact H|]. exact (topology_fixed created larger ltac:(vm_compute; congruence) H).
Defined.
