(* ===== verification/Maintenance.v ===== *)
(** * Durations, renewal thresholds and maintenance windows

    Models [internal/certificates/common/duration.go], the thresholds and
    validities of [internal/certificates/options.go],
    [internal/utils/maintenance_window.go] and [checkCAMaintenanceWindow] of
    [internal/certificates/reconciler/certificate_maintenance.go]: when a new
    certificate authority may be put in place.

    An instant is a [Z], in nanoseconds.  The cron library and the time zone
    database are parameters ([cron_next], [load_location]); the search for the
    last start of a window is a loop without a bound, so it takes fuel. *)
From S2P Require Import Prelude GoStrings GoFloat DrainState.
From Stdlib Require Import Ascii.
Local Open Scope go_scope.
Local Open Scope list_scope.

(** ** Durations of certificates *)

(** The UTF-8 encodings of the characters that [unicode.IsSpace] accepts. *)
Definition bytes (l : list nat) : string :=
  String.string_of_list_ascii (map ascii_of_nat l).
Definition space_encodings : list string :=
  map (fun n => bytes [n]) [9; 10; 11; 12; 13; 32]%nat ++
  [bytes [194; 133]; bytes [194; 160]; bytes [225; 154; 128]]%nat ++
  map (fun n => bytes [226; 128; n]%nat)
    [128; 129; 130; 131; 132; 133; 134; 135; 136; 137; 138; 168; 169; 175]%nat ++
  [bytes [226; 129; 159]; bytes [227; 128; 128]]%nat.

Definition strip_space (encodings : list string) (s : string) : option string :=
  list_find (fun e => HasPrefix s e = true) encodings ≫= fun r => strip_prefix r.2 s.

Fixpoint trim_front (encodings : list string) (fuel : nat) (s : string) : string :=
  match fuel with
  | O => s
  | S fuel => match strip_space encodings s with
              | Some r => trim_front encodings fuel r
              | None => s
              end
  end.

(** [strings.TrimSpace] *)
Definition TrimSpace (s : string) : string :=
  let front := trim_front space_encodings (String.length s) s in
  String.rev (trim_front (map String.rev space_encodings) (String.length front) (String.rev front)).

(** The string up to its last byte, and that byte. *)
Fixpoint split_last (s : string) : option (string * ascii) :=
  match s with
  | "" => None
  | String a s' => match split_last s' with
                   | None => Some ("", a)
                   | Some (front, z) => Some (String a front, z)
                   end
  end.

Definition ParseCertDuration (s : string) : result duration :=
  match split_last (TrimSpace s) with
  | None => Err "empty duration string"
  | Some (valueStr, unit) =>
      match Atoi valueStr with
      | Err e => Err (errorf ("invalid duration value '" +:+ valueStr +:+ "'") e)
      | Ok value =>
          if bool_decide (value < 0)
          then Err ("duration value must be positive, got " +:+ pretty value)
          else
            let unit := String unit "" in
            if bool_decide (ToLower unit = "d") then Ok (wrap64 (wrap64 (value * 24) * Hour))
            else if bool_decide (ToLower unit = "h") then Ok (wrap64 (value * Hour))
            else if bool_decide (ToLower unit = "m") then Ok (wrap64 (value * Minute))
            else Err ("invalid duration unit '" +:+ unit
                      +:+ "': use 'd' (days), 'h' (hours), or 'm' (minutes)")
      end
  end.

Definition Day : duration := 24 * Hour.

Definition FormatCertDuration (d : duration) : string :=
  if bool_decide (d <= 0) then "0m"
  else if bool_decide (0 < d / Day) && bool_decide (d mod Day = 0) then pretty (d / Day) +:+ "d"
  else if bool_decide (0 < d / Hour) && bool_decide (d mod Hour = 0) then pretty (d / Hour) +:+ "h"
  else pretty (d / Minute) +:+ "m".

(** [if s != "" { if d, err := ParseCertDuration(s); err == nil { x = d } }] *)
Definition duration_or (s : string) (x : duration) : duration :=
  if bool_decide (s = "") then x
  else match ParseCertDuration s with Ok d => d | Err _ => x end.

(** ** Options ([options.go], [getCertOptions]) *)

Inductive cert_kind := KindCA | KindNode | KindAdmin | KindDashboard | KindFilebeat.
#[export] Instance cert_kind_eq_dec : EqDecision cert_kind.
Proof. solve_decision. Defined.

Record Subject := {
  sj_Country : string;
  sj_State : string;
  sj_Locality : string;
  sj_Organization : string;
  sj_OrganizationalUnit : string
}.

(** Validity and threshold of every kind of certificate; [NodeValidity] and
    [RenewalThreshold] are those of [KindNode]. *)
Record CertificateOptions := {
  co_Validity : cert_kind -> duration;
  co_Threshold : cert_kind -> duration;
  co_Subject : Subject;
  co_KeyAlgorithm : string;
  co_ECDSACurve : string
}.

Definition DefaultValidity (k : cert_kind) : duration :=
  match k with KindCA => 3650 * Day | _ => 365 * Day end.
Definition DefaultThreshold (k : cert_kind) : duration :=
  match k with KindCA => 60 * Day | _ => 30 * Day end.

Definition DefaultSubject : Subject :=
  {| sj_Country := "US"; sj_State := "California"; sj_Locality := "San Francisco";
     sj_Organization := "Wazuh"; sj_OrganizationalUnit := "Security" |}.

Definition DefaultCertificateOptions : CertificateOptions :=
  {| co_Validity := DefaultValidity; co_Threshold := DefaultThreshold;
     co_Subject := DefaultSubject; co_KeyAlgorithm := "RSA"; co_ECDSACurve := "P256" |}.

(** [cluster.Spec.TLS.CertConfig]: the durations are strings, [""] when not
    given; [IndexerValidity] is that of [KindNode]. *)
Record CertificateConfig := {
  cc_Validity : cert_kind -> string;
  cc_Threshold : cert_kind -> string;
  cc_Subject : Subject;
  cc_KeyAlgorithm : string;
  cc_ECDSACurve : string
}.

Definition string_or (s x : string) : string := if bool_decide (s = "") then x else s.

Definition subject_or (s x : Subject) : Subject :=
  {| sj_Country := string_or (sj_Country s) (sj_Country x);
     sj_State := string_or (sj_State s) (sj_State x);
     sj_Locality := string_or (sj_Locality s) (sj_Locality x);
     sj_Organization := string_or (sj_Organization s) (sj_Organization x);
     sj_OrganizationalUnit := string_or (sj_OrganizationalUnit s) (sj_OrganizationalUnit x) |}.

Definition getCertOptions (cfg : option CertificateConfig) : CertificateOptions :=
  let opts := DefaultCertificateOptions in
  match cfg with
  | None => opts
  | Some cfg =>
      {| co_Validity := fun k => duration_or (cc_Validity cfg k) (co_Validity opts k);
         co_Threshold := fun k => duration_or (cc_Threshold cfg k) (co_Threshold opts k);
         co_Subject := subject_or (cc_Subject cfg) (co_Subject opts);
         co_KeyAlgorithm := string_or (cc_KeyAlgorithm cfg) (co_KeyAlgorithm opts);
         co_ECDSACurve := string_or (cc_ECDSACurve cfg) (co_ECDSACurve opts) |}
  end.

(** [GetCAValidity], [GetNodeValidity], ... *)
Definition GetValidity (o : CertificateOptions) (k : cert_kind) : duration :=
  if bool_decide (0 < co_Validity o k) then co_Validity o k else DefaultValidity k.
(** [GetCARenewalThreshold], [GetRenewalThreshold], ... *)
Definition GetThreshold (o : CertificateOptions) (k : cert_kind) : duration :=
  if bool_decide (0 < co_Threshold o k) then co_Threshold o k else DefaultThreshold k.

(** [NeedsRenewal], on the end of the validity *)
Definition NeedsRenewal (now notAfter : Z) (threshold : duration) : bool :=
  bool_decide (notAfter - threshold < now).

(** [ShouldRenewCA], [ShouldRenewNode], ... *)
Definition ShouldRenew (o : CertificateOptions) (k : cert_kind) (now notAfter : Z) : bool :=
  NeedsRenewal now notAfter (GetThreshold o k).

(** ** Maintenance windows *)

(** The zero [time.Time]: the first of January of the year 1. *)
Definition zero_time : Z := - 62135596800 * Second.

Record MaintenanceWindow := {
  mw_Schedule : string;
  mw_Duration : string;
  mw_Timezone : string
}.

Record CAMaintenanceConfig := {
  cm_AutoRestart : bool;
  cm_MaintenanceWindows : list MaintenanceWindow;
  cm_MaxWaitDuration : string
}.

Record CAMaintenanceCheckResult := {
  cmr_AllowRenewal : bool;
  cmr_Reason : string;
  cmr_NextWindowStart : Z;
  cmr_ForceRenewal : bool
}.

(** The loop of [IsWithinWindow]: the last start up to [now], searched from
    [last] on. *)
Fixpoint last_scheduled (fuel : nat) (next : Z -> Z) (now last : Z) : option Z :=
  match fuel with
  | O => None
  | S fuel => if bool_decide (now < next last) then Some last
              else last_scheduled fuel next now (next last)
  end.

(** Is [now] within a window of [d]?  [None] when the fuel ran out. *)
Definition IsWithinWindow (fuel : nat) (next : Z -> Z) (d : duration) (now : Z) : option bool :=
  let checkStart := now + wrap64 (wrap64 (- d) - 24 * Hour) in
  last ← last_scheduled fuel next now checkStart;
  Some (if bool_decide (last = checkStart) then false
        else bool_decide (last < now) && bool_decide (now < last + d)).

Section Maintenance.
Context {Loc : Type}.
(** [time.LoadLocation], [time.UTC]. *)
Context (load_location : string -> option Loc) (utc : Loc).
(** The parsed schedule's [Next], in the given time zone; [None] when the
    schedule does not parse. *)
Context (cron_next : Loc -> string -> option (Z -> Z)).
(** [Format(time.RFC3339)] *)
Context (rfc3339 : Z -> string).

(** [NewMaintenanceWindowChecker] and the parser: the window's [Next] and
    duration, or [None] where one of the calls returns an error. *)
Definition window_duration (w : MaintenanceWindow) : duration := duration_or (mw_Duration w) (4 * Hour).

Definition window_location (w : MaintenanceWindow) : option Loc :=
  if bool_decide (mw_Timezone w = "") || bool_decide (mw_Timezone w = "UTC") then Some utc
  else load_location (mw_Timezone w).

Definition window_next (w : MaintenanceWindow) : option (Z -> Z) :=
  loc ← window_location w; cron_next loc (mw_Schedule w).

(** The loop over the windows: [Some None] when [now] is within one of them,
    [Some (Some t)] with the earliest next start otherwise. *)
Fixpoint check_windows (fuel : nat) (now : Z) (windows : list MaintenanceWindow) (nextWindow : Z)
    : option (option Z) :=
  match windows with
  | [] => Some (Some nextWindow)
  | w :: windows =>
      match window_next w with
      | None => check_windows fuel now windows nextWindow
      | Some next =>
          inWindow ← IsWithinWindow fuel next (window_duration w) now;
          if inWindow : bool then Some None
          else
            let n := next now in
            check_windows fuel now windows
              (if bool_decide (nextWindow = zero_time) || bool_decide (n < nextWindow) then n
               else nextWindow)
      end
  end.

Definition allowed (reason : string) (force : bool) : CAMaintenanceCheckResult :=
  {| cmr_AllowRenewal := true; cmr_Reason := reason; cmr_NextWindowStart := zero_time;
     cmr_ForceRenewal := force |}.

Definition checkCAMaintenanceWindow (fuel : nat) (config : option CAMaintenanceConfig) (now caExpiry : Z)
    : option CAMaintenanceCheckResult :=
  match config with
  | None => Some (allowed "No maintenance windows configured" false)
  | Some c =>
      if negb (cm_AutoRestart c) then
        Some {| cmr_AllowRenewal := false;
                cmr_Reason := "AutoRestart is disabled, waiting for manual intervention";
                cmr_NextWindowStart := zero_time; cmr_ForceRenewal := false |}
      else
        match cm_MaintenanceWindows c with
        | [] => Some (allowed "No maintenance windows configured" false)
        | windows =>
            r ← check_windows fuel now windows zero_time;
            match r with
            | None => Some (allowed "Currently within maintenance window" false)
            | Some nextWindow =>
                let maxWait := duration_or (cm_MaxWaitDuration c) (7 * 24 * Hour) in
                let timeUntilExpiry := time_since caExpiry now in
                if bool_decide (timeUntilExpiry < maxWait) && negb (bool_decide (nextWindow = zero_time))
                   && bool_decide (caExpiry < nextWindow)
                then Some (allowed ("Forcing renewal: CA expires in "
                                    +:+ Duration_String (Duration_Round timeUntilExpiry Hour)
                                    +:+ ", before next maintenance window") true)
                else Some {| cmr_AllowRenewal := false;
                             cmr_Reason := "Waiting for maintenance window starting at " +:+ rfc3339 nextWindow;
                             cmr_NextWindowStart := nextWindow; cmr_ForceRenewal := false |}
            end
        end
  end.
End Maintenance.

(** ** Schedules *)

(** [next] finds the least start after an instant among those that [fires]
    holds of, and a schedule has at most one start per minute: what the cron
    library documents of a schedule that has starts. *)
Class CronSchedule (next : Z -> Z) (fires : Z -> Prop) : Prop := {
  next_fires t : fires (next t);
  next_after t : t < next t;
  next_least t s : fires s -> t < s -> next t <= s;
  fires_apart s s' : fires s -> fires s' -> s < s' -> s + Minute <= s'
}.

(** A duration whose arithmetic does not overflow. *)
Definition window_length (d : duration) : Prop := 0 <= d < 2 ^ 63 - 24 * Hour.

(** Enough iterations: one per minute of the time searched, and two more. *)
Definition enough_fuel (d : duration) : nat := S (S (Z.to_nat ((d + 24 * Hour) / Minute))).

Lemma check_start d now : window_length d ->
  now + wrap64 (wrap64 (- d) - 24 * Hour) = now - d - 24 * Hour.
Proof.
  unfold window_length, Hour, Minute, Second, Millisecond. intros H.
  rewrite (wrap64_id (- d)) by (unfold int64; lia). rewrite wrap64_id; [lia|unfold int64; lia].
Qed.

Section Schedule.
Context (next : Z -> Z) (fires : Z -> Prop) {HS : CronSchedule next fires}.

(** The search ends at the last start up to [now], if there is one. *)
Lemma last_scheduled_from_start fuel now from : fires from -> from <= now ->
  (Z.to_nat ((now - from) / Minute) < fuel)%nat ->
  exists last, last_scheduled fuel next now from = Some last /\ from <= last <= now /\
    fires last /\ (forall s, fires s -> last < s -> now < s).
Proof.
  revert from. induction fuel as [|fuel IH]; intros from Hfrom Hle Hf; [lia|]. cbn [last_scheduled].
  pose proof (next_after from) as Hn. case_bool_decide as Hb.
  - exists from. split_and!; [done|lia|lia|done|].
    intros s Hs Hl. pose proof (next_least from s Hs Hl). lia.
  - pose proof (fires_apart from (next from) Hfrom (next_fires from) Hn) as Hgap.
    destruct (IH (next from)) as (last & -> & Hr & Hl & Hs); [apply next_fires|lia| |].
    { assert (Hm : 0 < Minute) by done.
      assert ((now - next from) / Minute <= (now - from) / Minute - 1).
      { replace (now - from) with (now - from - Minute + 1 * Minute) by lia.
        rewrite Z.div_add by lia. pose proof (Z.div_le_mono (now - next from) (now - from - Minute) Minute). lia. }
      pose proof (Z.div_pos (now - next from) Minute). lia. }
    exists last. split_and!; [done|lia|lia|done|done].
Qed.

Lemma last_scheduled_spec fuel now from : from <= now -> (S (Z.to_nat ((now - from) / Minute)) < fuel)%nat ->
  exists last, last_scheduled fuel next now from = Some last /\ from <= last <= now /\
    (last = from \/ fires last) /\ (forall s, fires s -> last < s -> now < s).
Proof.
  intros Hle Hf. destruct fuel as [|fuel]; [lia|]. cbn [last_scheduled].
  pose proof (next_after from) as Hn. case_bool_decide as Hb.
  - exists from. split_and!; [done|lia|lia|by left|].
    intros s Hs Hl. pose proof (next_least from s Hs Hl). lia.
  - destruct (last_scheduled_from_start fuel now (next from)) as (last & -> & Hr & Hl & Hs);
      [apply next_fires|lia| |].
    { assert (Hm : 0 < Minute) by done.
      pose proof (Z.div_le_mono (now - next from) (now - from) Minute Hm). lia. }
    exists last. split_and!; [done|lia|lia|by right|done].
Qed.

Lemma within_window fuel d now : window_length d -> (enough_fuel d <= fuel)%nat ->
  exists b, IsWithinWindow fuel next d now = Some b /\
    (b = true <-> ~ fires now /\ exists s, fires s /\ s < now < s + d).
Proof.
  intros Hd Hf. unfold IsWithinWindow. cbv zeta. rewrite check_start by done.
  unfold window_length, enough_fuel in *. remember (now - d - 24 * Hour) as from eqn:Efrom.
  assert (Hh : 0 < 24 * Hour) by done.
  destruct (last_scheduled_spec fuel now from) as (last & -> & Hr & Hl & Hs); [lia| |].
  { replace (now - from) with (d + 24 * Hour) by lia. lia. }
  cbn [mbind option_bind]. eexists; split; [done|]. case_bool_decide as Eb.
  - split; [done|]. intros (_ & s & Hfs & ?). pose proof (Hs s Hfs). lia.
  - destruct Hl as [|Hl]; [done|]. rewrite andb_true_iff, !bool_decide_eq_true. split.
    + intros [H1 H2]. split; [|by exists last]. intros Hnow. pose proof (Hs now Hnow). lia.
    + intros [Hnow (s & Hfs & Hs1)]. assert (~ last < s) by (intros ?; pose proof (Hs s Hfs); lia).
      assert (last <> now) by (by intros ->). split; lia.
Qed.
End Schedule.

(** A schedule without starts: [Next] gives the zero time, which is not after
    [now], and the loop goes on from there. *)
Lemma last_scheduled_hangs fuel next now from :
  (forall t, next t = zero_time) -> zero_time <= now -> last_scheduled fuel next now from = None.
Proof.
  intros Hn Hz. revert from. induction fuel as [|fuel IH]; intros from; [done|]. cbn [last_scheduled].
  rewrite Hn, bool_decide_false by lia. apply IH.
Qed.

Section Decision.
Context {Loc : Type} (load_location : string -> option Loc) (utc : Loc).
Context (cron_next : Loc -> string -> option (Z -> Z)) (rfc3339 : Z -> string).
(** The starts of a schedule in a time zone. *)
Context (fires : Loc -> string -> Z -> Prop).
Hypothesis schedules : forall loc schedule next,
  cron_next loc schedule = Some next -> CronSchedule next (fires loc schedule).

Local Abbreviation next_of := (window_next load_location utc cron_next).
Local Abbreviation check := (checkCAMaintenanceWindow load_location utc cron_next rfc3339).

Definition window_fires (w : MaintenanceWindow) (t : Z) : Prop :=
  exists loc, window_location load_location utc w = Some loc /\ fires loc (mw_Schedule w) t.

(** The windows that the code can use: time zone and schedule are known. *)
Definition usable (windows : list MaintenanceWindow) (w : MaintenanceWindow) : Prop :=
  w ∈ windows /\ is_Some (next_of w).

Definition active (w : MaintenanceWindow) (now : Z) : Prop :=
  ~ window_fires w now /\ exists s, window_fires w s /\ s < now < s + window_duration w.

Definition fits (fuel : nat) (w : MaintenanceWindow) : Prop :=
  window_length (window_duration w) /\ (enough_fuel (window_duration w) <= fuel)%nat.

Lemma window_schedule w next : next_of w = Some next -> CronSchedule next (window_fires w).
Proof.
  unfold window_next. intros H. destruct (window_location _ _ w) as [loc|] eqn:El; [|done].
  destruct (schedules _ _ _ H) as [H1 H2 H3 H4]. split; [by exists loc|apply H2| |].
  - intros t s (loc' & E' & Hs). rewrite El in E'. simplify_eq. by apply H3.
  - intros s s' (loc1 & E1 & Hs) (loc2 & E2 & Hs'). rewrite El in E1, E2. simplify_eq. by apply H4.
Qed.

(** What the loop over the windows has found out. *)
Definition scanned (now : Z) (windows : list MaintenanceWindow) (nextWindow : Z) (r : option Z) : Prop :=
  match r with
  | None => exists w, usable windows w /\ active w now
  | Some t =>
      (forall w, usable windows w -> ~ active w now) /\
      (t = nextWindow \/ now < t /\ exists w, usable windows w /\ window_fires w t) /\
      (nextWindow <> zero_time -> t <= nextWindow) /\
      (forall w, usable windows w -> t <> zero_time /\ forall s, window_fires w s -> now < s -> t <= s)
  end.

Lemma usable_cons w ws x : usable (w :: ws) x <-> (x = w /\ is_Some (next_of w)) \/ usable ws x.
Proof.
  unfold usable. rewrite elem_of_cons. split; [intros [[->|?] ?]; auto|intros [[-> ?]|[? ?]]; auto].
Qed.

Lemma check_windows_spec fuel now ws acc : Forall (fits fuel) ws -> zero_time < now ->
  (acc = zero_time \/ now < acc) ->
  exists r, check_windows load_location utc cron_next fuel now ws acc = Some r /\ scanned now ws acc r.
Proof.
  intros Hf Hz. revert acc. induction Hf as [|w ws [Hl Hfu] _ IH]; intros acc Hacc; cbn [check_windows].
  { exists (Some acc). split; [done|]. unfold scanned, usable.
    split_and!; [by intros w [?%elem_of_nil _]|by left|done|by intros w [?%elem_of_nil _]]. }
  destruct (next_of w) as [next|] eqn:En.
  2: { destruct (IH acc Hacc) as (r & -> & Hr). exists r. split; [done|]. destruct r as [t|]; cbn in *.
       - destruct Hr as (H1 & H2 & H3 & H4). setoid_rewrite usable_cons.
         assert (Hno : ~ is_Some (next_of w)) by (rewrite En; by intros [? ?]). naive_solver.
       - destruct Hr as (x & Hx & Ha). exists x. rewrite usable_cons. auto. }
  pose proof (window_schedule w next En) as HS.
  destruct (within_window next (window_fires w) fuel (window_duration w) now Hl Hfu) as (b & -> & Hb).
  cbn [mbind option_bind]. destruct b.
  { exists None. split; [done|]. exists w. rewrite usable_cons. split; [left; eauto|]. by apply Hb. }
  set (acc' := if _ : bool then next now else acc).
  pose proof (next_after (fires := window_fires w) now) as Hn.
  assert (Hacc' : now < acc' /\ acc' <= next now /\ (acc <> zero_time -> acc' <= acc) /\
                  (acc' = acc \/ acc' = next now)).
  { subst acc'. destruct (bool_decide (acc = zero_time)) eqn:E1; cbn [orb].
    - apply bool_decide_eq_true in E1. split_and!; [lia|lia|done|by right].
    - apply bool_decide_eq_false in E1. case_bool_decide; split_and!; try lia; auto. }
  clearbody acc'. destruct Hacc' as (Ha1 & Ha2 & Ha3 & Ha4).
  destruct (IH acc') as (r & -> & Hr); [by right|]. exists r. split; [done|]. destruct r as [t|]; cbn in *.
  - destruct Hr as (H1 & H2 & H3 & H4). assert (Hta : t <= acc') by (apply H3; lia).
    assert (Hnt : now < t) by (destruct H2 as [->|[? _]]; lia).
    split_and!.
    + intros x [[-> _]|Hx]%usable_cons; [|by apply H1]. intros Ha%Hb. done.
    + destruct H2 as [->|[? (x & Hx & Hfx)]].
      * destruct Ha4 as [Ea|Ea]; subst; [by left|]. right. split; [done|]. exists w. rewrite usable_cons.
        split; [left; eauto|]. apply next_fires.
      * right. split; [done|]. exists x. rewrite usable_cons. auto.
    + intros Hne. specialize (Ha3 Hne). lia.
    + intros x [[-> _]|Hx]%usable_cons; [|by apply H4]. split; [lia|].
      intros s Hs Hlt. pose proof (next_least (fires := window_fires w) now s Hs Hlt). lia.
  - destruct Hr as (x & Hx & Ha). exists x. rewrite usable_cons. auto.
Qed.

(** The decision from what the loop found out. *)
Lemma check_decision fuel c now caExpiry : cm_AutoRestart c = true -> cm_MaintenanceWindows c <> [] ->
  Forall (fits fuel) (cm_MaintenanceWindows c) -> zero_time < now ->
  exists r nextWindow, check fuel (Some c) now caExpiry = Some r /\
    scanned now (cm_MaintenanceWindows c) zero_time nextWindow /\
    match nextWindow with
    | None => cmr_AllowRenewal r = true /\ cmr_ForceRenewal r = false
    | Some t =>
        cmr_AllowRenewal r = cmr_ForceRenewal r /\
        (cmr_ForceRenewal r = true <->
         time_since caExpiry now < duration_or (cm_MaxWaitDuration c) (7 * 24 * Hour) /\
         t <> zero_time /\ caExpiry < t) /\
        (cmr_AllowRenewal r = false -> cmr_NextWindowStart r = t)
    end.
Proof.
  intros Ha Hne Hf Hz. unfold checkCAMaintenanceWindow. rewrite Ha. cbn [negb].
  destruct (check_windows_spec fuel now (cm_MaintenanceWindows c) zero_time Hf Hz) as (r & Hr & Hs); [by left|].
  destruct (cm_MaintenanceWindows c) as [|w ws]; [done|]. rewrite Hr. cbn [mbind option_bind].
  destruct r as [t|]; [|by eexists _, None].
  set (b := bool_decide (_ < _) && _ && _). exists (if b then allowed (
    "Forcing renewal: CA expires in " +:+ Duration_String (Duration_Round (time_since caExpiry now) Hour)
    +:+ ", before next maintenance window") true else
    {| cmr_AllowRenewal := false;
       cmr_Reason := "Waiting for maintenance window starting at " +:+ rfc3339 t;
       cmr_NextWindowStart := t; cmr_ForceRenewal := false |}), (Some t).
  split; [by destruct b|]. split; [done|].
  assert (Hb : b = true <-> time_since caExpiry now < duration_or (cm_MaxWaitDuration c) (7 * 24 * Hour) /\
                            t <> zero_time /\ caExpiry < t).
  { subst b. rewrite !andb_true_iff, negb_true_iff, !bool_decide_eq_true, bool_decide_eq_false. tauto. }
  destruct b; cbn; split_and!; try done.
Qed.


(** A postponed renewal comes in time.  If some window is usable, it is
    postponed to the earliest start of a usable window after now; that start
    does not come after the expiry, unless the expiry is further away than the
    longest wait; and any reconcile inside the window that starts then is
    allowed to renew. *)
Theorem renewal_postponed fuel c now caExpiry r w0
    (Hauto : cm_AutoRestart c = true) (Hfits : Forall (fits fuel) (cm_MaintenanceWindows c))
    (Hnow : zero_time < now) (Husable : usable (cm_MaintenanceWindows c) w0)
    (Hr : check fuel (Some c) now caExpiry = Some r) (Hpostponed : cmr_AllowRenewal r = false) :
  let t := cmr_NextWindowStart r in
  now < t /\ (t <= caExpiry \/ duration_or (cm_MaxWaitDuration c) (7 * 24 * Hour) <= time_since caExpiry now) /\
  (forall w s, usable (cm_MaintenanceWindows c) w -> window_fires w s -> now < s -> t <= s) /\
  exists w, usable (cm_MaintenanceWindows c) w /\ window_fires w t /\
    forall now' caExpiry', t < now' < t + window_duration w -> ~ window_fires w now' ->
      exists r', check fuel (Some c) now' caExpiry' = Some r' /\ cmr_AllowRenewal r' = true.
Proof.
  assert (Hwindows : cm_MaintenanceWindows c <> []) by (intros E; destruct Husable as [Hin _]; by rewrite E in Hin; apply elem_of_nil in Hin).
  destruct (check_decision fuel c now caExpiry Hauto Hwindows Hfits Hnow) as (r1 & nw & Hr1 & Hs & Hd).
  assert (r1 = r) as -> by congruence. destruct nw as [t|]; cbn in Hs.
  2: { destruct Hd as [Hd _]. congruence. }
  destruct Hs as (Hno & Ht & _ & Hleast), Hd as (Heq & Hforce & Hnext). cbv zeta.
  rewrite (Hnext Hpostponed). destruct (Hleast w0 Husable) as [Hz _].
  destruct Ht as [|[Hlt (w & Hu & Hfw)]]; [done|]. split; [done|]. split; [|split].
  - rewrite <-Heq, Hpostponed in Hforce. destruct (decide (t <= caExpiry)); [by left|right].
    destruct (decide (duration_or (cm_MaxWaitDuration c) (7 * 24 * Hour) <= time_since caExpiry now)); [done|].
    exfalso. assert (false = true); [|done]. apply Hforce. split_and!; [lia|done|lia].
  - intros x s Hx. by destruct (Hleast x Hx) as [_ H]; apply H.
  - exists w. split; [done|]. split; [done|]. intros now' caExpiry' Hin Hnf.
    destruct (check_decision fuel c now' caExpiry' Hauto Hwindows Hfits) as (r' & nw & Hr' & Hs & Hd); [lia|].
    exists r'. split; [done|]. destruct nw as [t'|]; [|by destruct Hd].
    destruct Hs as [Hs _]. exfalso. apply (Hs w Hu). split; [done|]. by exists t.
Qed.
End Decision.

(** A schedule that parses and never comes, such as the 30th of February,
    hangs the operator: the loop that looks for the last start does not end,
    whatever number of iterations it is given, and with it the check of the
    maintenance windows and the reconcile. *)
Theorem impossible_schedule_hangs {Loc} (load_location : string -> option Loc) utc cron_next rfc3339
    (c : CAMaintenanceConfig) (w : MaintenanceWindow) (rest : list MaintenanceWindow) (next : Z -> Z) now caExpiry
    (Hauto : cm_AutoRestart c = true) (Hw : cm_MaintenanceWindows c = w :: rest)
    (Hnext : window_next load_location utc cron_next w = Some next)
    (Hnever : forall t, next t = zero_time) (Hnow : zero_time <= now) :
  forall fuel, checkCAMaintenanceWindow load_location utc cron_next rfc3339 fuel (Some c) now caExpiry = None.
Proof.
  intros fuel. unfold checkCAMaintenanceWindow. rewrite Hauto, Hw. cbn [negb check_windows].
  rewrite Hnext. unfold IsWithinWindow. cbv zeta. by rewrite last_scheduled_hangs.
Qed.

(** ** Durations *)

Lemma rev_app_spec s t : String.rev_app s t = String.rev s +:+ t.
Proof.
  unfold String.rev. revert t. induction s as [|a s IH]; intros t; [done|]. cbn [String.rev_app].
  rewrite IH, (IH (String a "")), append_assoc. done.
Qed.

Lemma rev_append s t : String.rev (s +:+ t) = String.rev t +:+ String.rev s.
Proof.
  induction s as [|a s IH]; [by rewrite append_nil_r|].
  change (String.rev_app (s +:+ t) (String a "") = String.rev t +:+ String.rev_app s (String a "")).
  by rewrite !rev_app_spec, IH, append_assoc.
Qed.

Lemma rev_rev s : String.rev (String.rev s) = s.
Proof.
  induction s as [|a s IH]; [done|].
  change (String.rev (String.rev_app s (String a "")) = String a s).
  by rewrite rev_app_spec, rev_append, IH.
Qed.

Lemma strip_digit a s x : digit_value a = Some x -> strip_space space_encodings (String a s) = None.
Proof. destruct a as [[] [] [] [] [] [] [] []]; try done; intros _; vm_compute; reflexivity. Qed.

Lemma strip_unit a s : a ∈ ["d"; "h"; "m"]%char ->
  strip_space (map String.rev space_encodings) (String a s) = None.
Proof.
  rewrite !elem_of_cons. intros [->|[->|[->|[]%elem_of_nil]]]; vm_compute; reflexivity.
Qed.

Lemma trim_front_stuck encodings fuel s : strip_space encodings s = None -> trim_front encodings fuel s = s.
Proof. intros H. destruct fuel; cbn; [done|]. by rewrite H. Qed.

Lemma split_last_app s c : split_last (s +:+ String c "") = Some (s, c).
Proof. induction s as [|a s IH]; [done|]. rewrite append_cons. cbn [split_last]. by rewrite IH. Qed.

(** A number and a unit: what [FormatCertDuration] prints. *)
Definition unit_of (c : ascii) : duration :=
  if bool_decide (c = "d"%char) then Day else if bool_decide (c = "h"%char) then Hour else Minute.

Lemma wrap64_mul a b : wrap64 (wrap64 a * b) = wrap64 (a * b).
Proof.
  unfold wrap64. f_equal. set (q := (a + 2 ^ 63) / 2 ^ 64).
  pose proof (Z.div_mod (a + 2 ^ 63) (2 ^ 64)). fold q in H.
  replace (((a + 2 ^ 63) mod 2 ^ 64 - 2 ^ 63) * b + 2 ^ 63) with (a * b + 2 ^ 63 + - q * b * 2 ^ 64) by nia.
  by apply Z.mod_add.
Qed.

Lemma parse_number v c : 0 <= v -> int64 v -> c ∈ ["d"; "h"; "m"]%char ->
  ParseCertDuration (pretty v +:+ String c "") = Ok (wrap64 (v * unit_of c)).
Proof.
  intros H0 H64 Hc. unfold ParseCertDuration, TrimSpace.
  assert (Hd : exists a x s, pretty v = String a s /\ digit_value a = Some x).
  { pose proof (pretty_N_digits (Z.to_N v)) as Hd. pose proof (pretty_N_nonempty (Z.to_N v)) as Hn.
    rewrite (pretty_Z_nonneg v H0). destruct (pretty (Z.to_N v)) as [|a s]; [done|]. cbn in Hd.
    destruct (digit_value a) as [x|] eqn:Ex; [|done]. eauto. }
  destruct Hd as (a & x & s & Hs & Hx).
  rewrite (trim_front_stuck space_encodings) by (rewrite Hs, append_cons; by eapply strip_digit).
  rewrite rev_append. change (String.rev (String c "")) with (String c "").
  rewrite trim_front_stuck by (rewrite append_cons; by apply strip_unit).
  rewrite rev_append, rev_rev. change (String.rev (String c "")) with (String c "").
  rewrite split_last_app, (Atoi_pretty v H64), bool_decide_false by lia.
  rewrite !elem_of_cons in Hc. rewrite wrap64_mul, <-Z.mul_assoc.
  by destruct Hc as [->|[->|[->|[]%elem_of_nil]]].
Qed.

(** A duration printed for certificates is read back, rounded down to
    minutes: the defaults and the logged thresholds mean what they say. *)
Theorem cert_duration_roundtrip d (H : 0 <= d < 2 ^ 63) :
  ParseCertDuration (FormatCertDuration d) = Ok (d - d mod Minute).
Proof.
  assert (Hm : 0 < Minute) by done.
  assert (Hp : forall u c, 0 < u -> (u | d) \/ u = Minute -> (Minute | u) -> u = unit_of c -> c ∈ ["d"; "h"; "m"]%char ->
    ParseCertDuration (pretty (d / u) +:+ String c "") = Ok (d - d mod Minute)).
  { intros u c Hu Hdiv Hmu -> Hc. pose proof (Z.div_pos d (unit_of c)).
    pose proof (Z.mul_div_le d (unit_of c) Hu).
    assert (d / unit_of c * unit_of c = d - d mod Minute).
    { destruct Hdiv as [Hdiv| ->].
      - assert (d mod Minute = 0) by (apply Z.mod_divide; [lia|by etrans]).
        assert (d mod unit_of c = 0) by (apply Z.mod_divide; [lia|done]).
        pose proof (Z.div_mod d (unit_of c)). lia.
      - pose proof (Z.div_mod d Minute). lia. }
    rewrite parse_number; [|lia|unfold int64; nia|done].
    f_equal. rewrite wrap64_id; [lia|]. pose proof (Z.mod_pos_bound d Minute). unfold int64. lia. }
  unfold FormatCertDuration. case_bool_decide as E0.
  { assert (d = 0) as -> by lia. vm_compute. reflexivity. }
  destruct (bool_decide (0 < d / Day) && _) eqn:Ed.
  { apply andb_true_iff in Ed as [_ Ed]. apply bool_decide_eq_true in Ed.
    apply (Hp Day "d"%char); try done; [left; by apply Z.mod_divide|by exists (24 * 60)|set_solver]. }
  destruct (bool_decide (0 < d / Hour) && _) eqn:Eh.
  { apply andb_true_iff in Eh as [_ Eh]. apply bool_decide_eq_true in Eh.
    apply (Hp Hour "h"%char); try done; [left; by apply Z.mod_divide|by exists 60|set_solver]. }
  apply (Hp Minute "m"%char); try done; [by right|set_solver].
Qed.

(** The 584 years of ["213504d"] are 25 minutes, and 292 years and a half are
    taken for no validity at all. *)
Example long_validity :
  ParseCertDuration "213504d" = Ok 1526290448384 /\
  is_ok (ParseCertDuration "106752d") = true /\
  GetValidity (getCertOptions (Some {| cc_Validity := fun _ => "106752d"; cc_Threshold := fun _ => "";
     cc_Subject := DefaultSubject; cc_KeyAlgorithm := ""; cc_ECDSACurve := "" |})) KindNode = 365 * Day.
Proof. vm_compute. done. Qed.

(** *** Witnesses *)

(** Starts at every full hour. *)
Module SimWindows.
Definition hourly (t : Z) : Z := (t / Hour + 1) * Hour.
Definition at_hour (t : Z) : Prop := (Hour | t).

Lemma hourly_schedule : CronSchedule hourly at_hour.
Proof.
  assert (Hp : 0 < Hour) by done. split; unfold hourly, at_hour.
  - intros t. by exists (t / Hour + 1).
  - intros t. pose proof (Z.mul_succ_div_gt t Hour Hp) as H. by rewrite Z.mul_comm, Z.add_1_r.
  - intros t s [k ->] Hlt. assert (t / Hour < k); [|nia].
    apply Z.div_lt_upper_bound; [done|]. by rewrite Z.mul_comm.
  - intros s s' [k ->] [k' ->] Hlt. apply Z.mul_lt_mono_pos_r in Hlt; [|done].
    assert (Minute <= Hour) by done. transitivity ((k + 1) * Hour); [lia|apply Z.mul_le_mono_nonneg_r; lia].
Qed.

Definition utc : unit := tt.
Definition no_location (name : string) : option unit := None.
Definition cron (_ : unit) (schedule : string) : option (Z -> Z) :=
  if bool_decide (schedule = "0 * * * *") then Some hourly
  else if bool_decide (schedule = "0 0 30 2 *") then Some (fun _ => zero_time) else None.
Definition cron_hourly (_ : unit) (schedule : string) : option (Z -> Z) :=
  if bool_decide (schedule = "0 * * * *") then Some hourly else None.
Definition fires (_ : unit) (_ : string) : Z -> Prop := at_hour.

Lemma schedules loc schedule next : cron_hourly loc schedule = Some next -> CronSchedule next (fires loc schedule).
Proof. unfold cron_hourly. case_bool_decide; intros; simplify_eq. apply hourly_schedule. Qed.

Definition half_hours : MaintenanceWindow :=
  {| mw_Schedule := "0 * * * *"; mw_Duration := "30m"; mw_Timezone := "" |}.
Definition config (w : MaintenanceWindow) : CAMaintenanceConfig :=
  {| cm_AutoRestart := true; cm_MaintenanceWindows := [w]; cm_MaxWaitDuration := "7d" |}.
Definition february_30 : MaintenanceWindow :=
  {| mw_Schedule := "0 0 30 2 *"; mw_Duration := "4h"; mw_Timezone := "UTC" |}.
Definition no_format (t : Z) : string := pretty t.

Lemma half_hours_fit : Forall (fits (enough_fuel (30 * Minute))) (cm_MaintenanceWindows (config half_hours)).
Proof.
  apply Forall_singleton. replace (30 * Minute) with (window_duration half_hours) by (vm_compute; reflexivity).
  split; [vm_compute; split; congruence|done].
Qed.
End SimWindows.

Section Witnesses.
Import SimWindows.

Local Abbreviation check fuel := (checkCAMaintenanceWindow no_location utc cron_hourly no_format fuel (Some (config half_hours))).

(** Ten minutes past the hour a renewal is allowed, ten minutes before it is not. *)
Example in_window : cmr_AllowRenewal <$> check 1500 (70 * Minute) (90 * Day) = Some true.
Proof. vm_compute. reflexivity. Qed.
Example out_of_window : cmr_AllowRenewal <$> check 1500 (50 * Minute) (90 * Day) = Some false.
Proof. vm_compute. reflexivity. Qed.
Example forced_before_expiry : cmr_ForceRenewal <$> check 1500 (50 * Minute) (55 * Minute) = Some true.
Proof. vm_compute. reflexivity. Qed.


Definition postponed : CAMaintenanceCheckResult :=
  {| cmr_AllowRenewal := false; cmr_Reason := "Waiting for maintenance window starting at 3600000000000";
     cmr_NextWindowStart := 60 * Minute; cmr_ForceRenewal := false |}.

Lemma half_hours_usable : usable no_location utc cron_hourly (cm_MaintenanceWindows (config half_hours)) half_hours.
Proof. split; [by left|by eexists]. Qed.

Lemma renewal_postponed_witness :
  check (enough_fuel (30 * Minute)) (50 * Minute) (90 * Day) = Some postponed /\
  50 * Minute < cmr_NextWindowStart postponed /\ cmr_NextWindowStart postponed <= 60 * Minute.
Proof.
  assert (H : check (enough_fuel (30 * Minute)) (50 * Minute) (90 * Day) = Some postponed)
    by (vm_compute; reflexivity).
  split; [exact H|].
  destruct (renewal_postponed no_location utc cron_hourly no_format fires schedules _ _ _ _ _ _
              (eq_refl : cm_AutoRestart (config half_hours) = true) half_hours_fit
              (eq_refl : zero_time < 50 * Minute) half_hours_usable H eq_refl) as (H1 & _).
  split; [exact H1|]. vm_compute. discriminate.
Defined.

Lemma impossible_schedule_hangs_witness :
  checkCAMaintenanceWindow no_location utc cron no_format 1000 (Some (config february_30)) 0 (90 * Day) = None.
Proof.
  exact (impossible_schedule_hangs no_location utc cron no_format (config february_30) february_30 []
           (fun _ => zero_time) 0 (90 * Day) eq_refl eq_refl ltac:(vm_compute; reflexivity)
           (fun _ => eq_refl) ltac:(vm_compute; discriminate) 1000%nat).
Defined.
End Witnesses.

Lemma cert_duration_roundtrip_witness :
  0 <= 365 * Day < 2 ^ 63 /\ FormatCertDuration (365 * Day) = "365d" /\
  ParseCertDuration (FormatCertDuration (365 * Day)) = Ok (365 * Day - (365 * Day) mod Minute).
Proof.
  split; [split; vm_compute; congruence|]. split; [vm_compute; reflexivity|].
  apply cert_duration_roundtrip. split; vm_compute; congruence.
Defined.
