(* ===== verification/Versions.v ===== *)
(** * Versions ([pkg/versions/versions.go])

    Parsing and ordering of versions, the table of supported releases and the
    level of support for reloading certificates without a restart. *)
From S2P Require Import Prelude GoStrings.
From Stdlib Require Import Ascii.
Local Open Scope list_scope.

Record Version := { v_Major : Z; v_Minor : Z; v_Patch : Z }.

Definition ParseVersion (version : string) : result Version :=
  let version := TrimPrefix version "v" in
  match Split "." version with
  | major :: minor :: rest =>
      match Atoi major with
      | Err _ => Err ("invalid major version: " +:+ major)
      | Ok major =>
          match Atoi minor with
          | Err _ => Err ("invalid minor version: " +:+ minor)
          | Ok minor =>
              let patch :=
                match rest with
                | [] => 0
                | p :: _ => match Split "-" p with
                            | patchStr :: _ => match Atoi patchStr with Ok n => n | Err _ => 0 end
                            | [] => 0
                            end
                end in
              Ok {| v_Major := major; v_Minor := minor; v_Patch := patch |}
          end
      end
  | _ => Err ("invalid version format: " +:+ version)
  end.

Definition Compare (v other : Version) : Z :=
  if negb (bool_decide (v_Major v = v_Major other)) then
    if bool_decide (v_Major v < v_Major other) then -1 else 1
  else if negb (bool_decide (v_Minor v = v_Minor other)) then
    if bool_decide (v_Minor v < v_Minor other) then -1 else 1
  else if negb (bool_decide (v_Patch v = v_Patch other)) then
    if bool_decide (v_Patch v < v_Patch other) then -1 else 1
  else 0.

Definition GreaterThanOrEqual (v other : Version) : bool := bool_decide (0 <= Compare v other).
Definition LessThan (v other : Version) : bool := bool_decide (Compare v other < 0).
Definition Version_String (v : Version) : string :=
  pretty (v_Major v) +:+ "." +:+ pretty (v_Minor v) +:+ "." +:+ pretty (v_Patch v).

Definition ver (major minor patch : Z) : Version :=
  {| v_Major := major; v_Minor := minor; v_Patch := patch |}.

(** ** The table *)

Record WazuhVersionInfo := {
  vi_WazuhVersion : string;
  vi_OpenSearchVersion : string;
  vi_PrometheusExporterPluginVersion : string
}.

Definition release (wazuh openSearch : string) : string * WazuhVersionInfo :=
  (wazuh, {| vi_WazuhVersion := wazuh; vi_OpenSearchVersion := openSearch;
             vi_PrometheusExporterPluginVersion := openSearch +:+ ".0" |}).

(** The entries of [wazuhVersionMapping]; iteration over the map takes them in
    any order. *)
Definition wazuhVersionMapping : list (string * WazuhVersionInfo) :=
  [release "4.14.3" "2.19.4"; release "4.14.2" "2.19.4"; release "4.14.1" "2.19.3";
   release "4.14.0" "2.19.3"; release "4.13.1" "2.19.2"; release "4.13.0" "2.19.2";
   release "4.12.0" "2.19.1"; release "4.11.2" "2.16.0"; release "4.11.1" "2.16.0";
   release "4.11.0" "2.16.0"; release "4.10.3" "2.16.0"; release "4.10.2" "2.16.0";
   release "4.10.1" "2.16.0"; release "4.10.0" "2.16.0"; release "4.9.3" "2.13.0";
   release "4.9.2" "2.13.0"; release "4.9.1" "2.13.0"; release "4.9.0" "2.13.0"].

(** [bestMatch] and [bestMatchVersion]. *)
Definition best : Type := option (WazuhVersionInfo * Version).

(** One iteration of the search for the best match. *)
Definition improve (wv : Version) (b : best) (entry : string * WazuhVersionInfo) : best :=
  match ParseVersion entry.1 with
  | Err _ => b
  | Ok mapped =>
      if negb (bool_decide (v_Major mapped = v_Major wv)) then b
      else if negb (bool_decide (v_Minor mapped = v_Minor wv)) then b
      else if match b with None => true | Some b => bool_decide (v_Patch b.2 < v_Patch mapped) end
      then if bool_decide (v_Patch mapped <= v_Patch wv) then Some (entry.2, mapped) else b
      else b
  end.

(** The search, over the entries in the order [mapping]. *)
Definition search (mapping : list (string * WazuhVersionInfo)) (wv : Version) : best :=
  fold_left (improve wv) mapping None.

Definition GetWazuhVersionInfo (mapping : list (string * WazuhVersionInfo)) (wazuhVersion : string)
    : result WazuhVersionInfo :=
  let wazuhVersion := TrimPrefix wazuhVersion "v" in
  match List.find (fun e => bool_decide (e.1 = wazuhVersion)) mapping with
  | Some (_, info) => Ok info
  | None =>
      match ParseVersion wazuhVersion with
      | Err _ => Err ("invalid Wazuh version format: " +:+ wazuhVersion)
      | Ok wv =>
          match search mapping wv with
          | Some (info, _) =>
              Ok {| vi_WazuhVersion := wazuhVersion; vi_OpenSearchVersion := vi_OpenSearchVersion info;
                    vi_PrometheusExporterPluginVersion := vi_PrometheusExporterPluginVersion info |}
          | None => Err ("unsupported Wazuh version " +:+ wazuhVersion
                         +:+ ": only versions 4.9.0 and above are supported")
          end
      end
  end.

Definition WazuhToOpenSearchVersion (mapping : list (string * WazuhVersionInfo)) (wazuhVersion : string)
    : result Version :=
  match GetWazuhVersionInfo mapping wazuhVersion with
  | Ok info => ParseVersion (vi_OpenSearchVersion info)
  | Err _ =>
      match ParseVersion wazuhVersion with
      | Err e => Err (errorf "failed to parse Wazuh version" e)
      | Ok wv =>
          let four n := bool_decide (v_Major wv = 4) && bool_decide (n <= v_Minor wv) in
          Ok (if four 12 then ver 2 19 1
              else if four 10 then ver 2 16 0
              else if four 9 then ver 2 13 0
              else if four 7 then ver 2 10 0
              else if four 4 then ver 2 6 0
              else if bool_decide (5 <= v_Major wv) then ver 2 19 0
              else ver 1 0 0)
      end
  end.

(** ** Reloading certificates *)

Inductive HotReloadSupport := HotReloadNotSupported | HotReloadWithAPICall | HotReloadAutomatic.
#[export] Instance HotReloadSupport_eq_dec : EqDecision HotReloadSupport.
Proof. solve_decision. Defined.

Definition MinOpenSearchVersionForHotReload : Version := ver 2 13 0.
Definition MinOpenSearchVersionForAutoHotReload : Version := ver 2 19 0.

Definition GetHotReloadSupport (openSearchVersion : option Version) : HotReloadSupport :=
  match openSearchVersion with
  | None => HotReloadNotSupported
  | Some v =>
      if LessThan v MinOpenSearchVersionForHotReload then HotReloadNotSupported
      else if GreaterThanOrEqual v MinOpenSearchVersionForAutoHotReload then HotReloadAutomatic
      else HotReloadWithAPICall
  end.

Definition GetHotReloadSupportForWazuh (mapping : list (string * WazuhVersionInfo)) (wazuhVersion : string)
    : result HotReloadSupport :=
  match WazuhToOpenSearchVersion mapping wazuhVersion with
  | Err e => Err e
  | Ok v => Ok (GetHotReloadSupport (Some v))
  end.

Definition IsWazuhVersionSupported (wazuhVersion : string) : bool :=
  match ParseVersion wazuhVersion with
  | Err _ => false
  | Ok v => bool_decide (5 <= v_Major v) || (bool_decide (v_Major v = 4) && bool_decide (9 <= v_Minor v))
  end.

(** ** Lemmas *)

(** The order of versions. *)
Definition ver_lt (v w : Version) : Prop :=
  v_Major v < v_Major w \/
  v_Major v = v_Major w /\ (v_Minor v < v_Minor w \/
    v_Minor v = v_Minor w /\ v_Patch v < v_Patch w).

Lemma Compare_spec v w :
  (Compare v w = -1 <-> ver_lt v w) /\ (Compare v w = 0 <-> v = w) /\ (Compare v w = 1 <-> ver_lt w v).
Proof.
  destruct v as [a b c], w as [a' b' c']. unfold Compare, ver_lt. cbn [v_Major v_Minor v_Patch].
  repeat (case_bool_decide; cbn [negb]; simplify_eq); split_and!; split; intros H';
    try done; try lia; try (injection H'; lia); try (f_equal; lia).
Qed.

(** Candidates of the search, and the best of them. *)
Definition candidate (mapping : list (string * WazuhVersionInfo)) (wv : Version)
    (info : WazuhVersionInfo) (v : Version) : Prop :=
  exists key, (key, info) ∈ mapping /\ ParseVersion key = Ok v /\
    v_Major v = v_Major wv /\ v_Minor v = v_Minor wv /\ v_Patch v <= v_Patch wv.

Definition is_best (mapping : list (string * WazuhVersionInfo)) (wv : Version) (b : best) : Prop :=
  match b with
  | None => forall info v, ~ candidate mapping wv info v
  | Some (info, v) => candidate mapping wv info v /\
      forall info' v', candidate mapping wv info' v' -> v_Patch v' <= v_Patch v
  end.

Lemma candidate_app m e wv info v :
  candidate (m ++ [e]) wv info v <-> candidate m wv info v \/ candidate [e] wv info v.
Proof.
  unfold candidate. setoid_rewrite elem_of_app. split.
  - intros (k & [?|?] & ?); eauto.
  - intros [(k & ? & ?)|(k & ? & ?)]; eauto.
Qed.

Lemma candidate_one e wv info v :
  candidate [e] wv info v <->
  info = e.2 /\ ParseVersion e.1 = Ok v /\ v_Major v = v_Major wv /\ v_Minor v = v_Minor wv /\
  v_Patch v <= v_Patch wv.
Proof.
  unfold candidate. setoid_rewrite list_elem_of_singleton. split.
  - by intros (k & <- & ?).
  - destruct e as [k i]. intros (-> & ?). by exists k.
Qed.

Lemma improve_best m e wv b : is_best m wv b -> is_best (m ++ [e]) wv (improve wv b e).
Proof.
  intros Hb.
  assert (Hkeep : (forall info v, candidate [e] wv info v ->
             match b with None => False | Some b => v_Patch v <= v_Patch b.2 end) -> is_best (m ++ [e]) wv b).
  { intros He. destruct b as [[i v]|]; cbn in *; setoid_rewrite candidate_app.
    - destruct Hb as [Hc Hm]. split; [by left|]. intros i' v' [?|?]; eauto.
    - intros i v [?|?]; [by eapply Hb|by eapply He]. }
  assert (Hnone : ~ (exists info v, candidate [e] wv info v) -> is_best (m ++ [e]) wv b)
    by (intros Hn; apply Hkeep; intros; exfalso; eauto).
  unfold improve. destruct (ParseVersion e.1) as [v|] eqn:Ep.
  2: { apply Hnone. intros (i & v & Hc%candidate_one). naive_solver congruence. }
  repeat case_bool_decide; cbn [negb].
  all: rewrite ?(fun c : bool => match c return (if c then b else b) = b with true => eq_refl | false => eq_refl end).
  all: try (apply Hnone; intros (i & v' & Hc%candidate_one); destruct Hc as (_ & Hv & ?);
            rewrite Ep in Hv; simplify_eq; lia).
  destruct b as [[i0 v0]|]; [case_bool_decide|]; cbn [snd] in *.
  - split; [apply candidate_app; right; by apply candidate_one|].
    intros i' v' [Hc|Hc]%candidate_app; [destruct Hb as [_ Hb]; pose proof (Hb _ _ Hc); lia|].
    apply candidate_one in Hc as (_ & Hv & _). rewrite Ep in Hv. by simplify_eq.
  - apply Hkeep. intros i' v' Hc. apply candidate_one in Hc as (_ & Hv & _). rewrite Ep in Hv. simplify_eq. cbn. lia.
  - split; [apply candidate_app; right; by apply candidate_one|].
    intros i' v' [Hc|Hc]%candidate_app; [by apply Hb in Hc|].
    apply candidate_one in Hc as (_ & Hv & _). rewrite Ep in Hv. by simplify_eq.
Qed.

Lemma search_best mapping wv : is_best mapping wv (search mapping wv).
Proof.
  unfold search. induction mapping as [|e m IH] using rev_ind.
  - intros info v (k & Hk & _). by apply elem_of_nil in Hk.
  - rewrite fold_left_app. by apply improve_best.
Qed.

(** The entries of the table: their keys are versions, all different, and the
    versions of one minor release have the same support. *)
Definition level (v : Version) : HotReloadSupport :=
  if bool_decide (5 <= v_Major v) || bool_decide (v_Major v = 4 /\ 12 <= v_Minor v) then HotReloadAutomatic
  else if bool_decide (v_Major v = 4 /\ 9 <= v_Minor v) then HotReloadWithAPICall
  else HotReloadNotSupported.

Definition entry_ok (e : string * WazuhVersionInfo) : bool :=
  match ParseVersion e.1, ParseVersion (vi_OpenSearchVersion e.2) with
  | Ok v, Ok o => bool_decide (GetHotReloadSupport (Some o) = level v)
  | _, _ => false
  end.

Lemma table_ok : forallb entry_ok wazuhVersionMapping = true.
Proof. vm_compute. reflexivity. Qed.

Lemma level_minor v w : v_Major v = v_Major w -> v_Minor v = v_Minor w -> level v = level w.
Proof. unfold level. by intros -> ->. Qed.

Lemma fallback_level wv :
  let four n := bool_decide (v_Major wv = 4) && bool_decide (n <= v_Minor wv) in
  GetHotReloadSupport (Some
    (if four 12 then ver 2 19 1 else if four 10 then ver 2 16 0 else if four 9 then ver 2 13 0
     else if four 7 then ver 2 10 0 else if four 4 then ver 2 6 0
     else if bool_decide (5 <= v_Major wv) then ver 2 19 0 else ver 1 0 0)) = level wv.
Proof.
  cbv zeta. unfold level. destruct (decide (v_Major wv = 4)) as [E|E].
  - rewrite E. rewrite (bool_decide_true (4 = 4)) by done. cbn [andb].
    repeat case_bool_decide; cbn [orb]; try lia; vm_compute; reflexivity.
  - rewrite (bool_decide_false (v_Major wv = 4)) by done. cbn [andb].
    repeat case_bool_decide; cbn [orb]; try lia; vm_compute; reflexivity.
Qed.

(** A version has no second ["v"] to trim. *)
Lemma ParseVersion_trimmed s v :
  ParseVersion s = Ok v -> TrimPrefix (TrimPrefix s "v") "v" = TrimPrefix s "v".
Proof.
  unfold ParseVersion. destruct (TrimPrefix s "v") as [|a r]; [done|]. intros H.
  destruct (decide (a = "v"%char)) as [->|Ha].
  - exfalso. cbn [Split] in H. rewrite decide_False in H by done.
    destruct (Split "." r) as [|w [|minor rest]]; [done|done|].
    cbn in H. destruct w; by cbn in H.
  - unfold TrimPrefix. cbn [strip_prefix]. by rewrite decide_False.
Qed.

Lemma find_entry (mapping : list (string * WazuhVersionInfo)) (s key : string) info :
  List.find (fun e => bool_decide (e.1 = s)) mapping = Some (key, info) -> key = s /\ (s, info) ∈ mapping.
Proof.
  intros H. apply List.find_some in H as [Hin Hk]. apply bool_decide_eq_true in Hk. cbn in Hk. subst key.
  by apply list_elem_of_In in Hin.
Qed.

Lemma entry_support mapping key info v : Permutation mapping wazuhVersionMapping ->
  (key, info) ∈ mapping -> ParseVersion key = Ok v ->
  exists o, ParseVersion (vi_OpenSearchVersion info) = Ok o /\ GetHotReloadSupport (Some o) = level v.
Proof.
  intros Hp Hin Hk. rewrite Hp in Hin. apply list_elem_of_In in Hin.
  pose proof (proj1 (List.forallb_forall _ _) table_ok _ Hin) as He. unfold entry_ok in He. cbn [fst snd] in He.
  rewrite Hk in He. destruct (ParseVersion (vi_OpenSearchVersion info)) as [o|]; [|done].
  exists o. split; [done|]. by apply bool_decide_eq_true in He.
Qed.

(** ** Properties *)

(** How certificates may be reloaded is decided by the release line alone,
    in whatever order the table of versions is searched: automatically from
    Wazuh 4.12 and in 5.x, by a call from 4.9 to 4.11, not before. *)
Theorem hot_reload_by_version (mapping : list (string * WazuhVersionInfo)) (s : string) (v : Version)
    (Hmapping : Permutation mapping wazuhVersionMapping) (Hv : ParseVersion s = Ok v) :
  GetHotReloadSupportForWazuh mapping s = Ok (level v).
Proof.
  pose proof (ParseVersion_trimmed s v Hv) as Htrim.
  assert (Hpv : ParseVersion (TrimPrefix s "v") = Ok v).
  { unfold ParseVersion in *. by rewrite Htrim. }
  unfold GetHotReloadSupportForWazuh, WazuhToOpenSearchVersion, GetWazuhVersionInfo.
  destruct (List.find _ mapping) as [[key info]|] eqn:Ef.
  { apply find_entry in Ef as [-> Hin].
    destruct (entry_support mapping _ _ v Hmapping Hin Hpv) as (o & -> & ->). done. }
  rewrite Hpv. pose proof (search_best mapping v) as Hb.
  destruct (search mapping v) as [[info w]|].
  - destruct Hb as [(key & Hin & Hk & Hma & Hmi & _) _].
    destruct (entry_support mapping _ _ w Hmapping Hin Hk) as (o & Ho & Hl). cbn [vi_OpenSearchVersion].
    rewrite Ho, Hl. f_equal. by apply level_minor.
  - rewrite Hv. f_equal. apply fallback_level.
Qed.

Lemma hot_reload_by_version_witness :
  GetHotReloadSupportForWazuh (reverse wazuhVersionMapping) "v4.13.7-rc2" = Ok HotReloadAutomatic.
Proof.
  exact (hot_reload_by_version (reverse wazuhVersionMapping) "v4.13.7-rc2" (ver 4 13 7)
           (reverse_Permutation _) ltac:(vm_compute; reflexivity)).
Defined.

(** A newer release that the table does not know gets an older OpenSearch than
    the last one it knows. *)
Example newer_is_older :
  WazuhToOpenSearchVersion wazuhVersionMapping "4.14.3" = Ok (ver 2 19 4) /\
  WazuhToOpenSearchVersion wazuhVersionMapping "4.15.0" = Ok (ver 2 19 1).
Proof. vm_compute. done. Qed.
