(* ===== verification/Certificates.v ===== *)
(** * Certificates ([internal/certificates])

    The certificate authority of a cluster and the certificates it issues:
    names ([sans]), the check of the cluster's domain ([common]), generation,
    [reconciler/certificate_renewal.go], [certificate_maintenance.go],
    [certificate_metrics.go] and [certificate_custom.go]: what one reconcile
    does with each secret.  [CertReconcile] composes them.

    Keys, signatures and PEM are the interface [X509].  One reconcile reads
    the clock once; owner references are always set. *)
From S2P Require Import Prelude GoStrings GoFloat Kube DrainState IndexerDrain ManagerDrain Cluster ClientFactory.
From S2P Require Import Maintenance Versions.
From Stdlib Require Import Ascii.
Local Open Scope go_scope.
Local Open Scope list_scope.

(** ** Secrets *)

Record SecretObject := {
  so_Name : string;
  so_Namespace : string;
  so_Labels : gmap string string;
  so_Data : Secret;
  so_ResourceVersion : string
}.

Class SecretClient (W : Type) := {
  read_secret : string -> string -> API W SecretObject;
  create_secret : SecretObject -> API W unit;
  update_secret : SecretObject -> API W unit
}.

(** [string(data[key])] *)
Definition data_at (d : Secret) (key : string) : string := default "" (d !! key).

Definition SecretKeyCACert : string := "ca.crt".
Definition SecretKeyCAKey : string := "ca.key".
Definition SecretKeyTLSCert : string := "tls.crt".
Definition SecretKeyTLSKey : string := "tls.key".

(** ** Certificates *)

(** Of an [x509.Certificate]. *)
Record Certificate := { ct_NotAfter : Z; ct_DNSNames : list string }.

(** [CAResult], [NodeCertResult], ... *)
Record CertResult := {
  cr_Certificate : Certificate;
  cr_CertificatePEM : string;
  cr_PrivateKeyPEM : string
}.

(** [CAConfig], [NodeCertConfig], ... *)
Record CertGenConfig := {
  gc_CommonName : string;
  gc_Subject : Subject;
  gc_Validity : duration;
  gc_KeyAlgorithm : string;
  gc_ECDSACurve : string;
  gc_DNSNames : list string
}.

(** The template of a certificate to be signed. *)
Record Template := {
  tp_CommonName : string;
  tp_Subject : Subject;
  tp_NotAfter : Z;
  tp_IsCA : bool;
  tp_DNSNames : list string;
  tp_KeyAlgorithm : string;
  tp_ECDSACurve : string
}.

(** A new key and the certificate of the template, signed by the authority or,
    without one, by its own key, both as PEM; and reading them. *)
Class X509 (W : Type) := {
  issue : Template -> option CertResult -> IO W (string * string);
  parse_cert : string -> string -> result Certificate;
  ConvertPrivateKeyPEMToPKCS8 : string -> result string
}.

Section Generate.
Context {W : Type} `{!X509 W}.

(** [GenerateCA] and, with an authority, [GenerateNodeCert],
    [GenerateDashboardCert], [GenerateFilebeatCert], [GenerateAdminCert]. *)
Definition Generate (kind : cert_kind) (config : CertGenConfig) (ca : option CertResult) (now : Z)
    : IO W CertResult :=
  if bool_decide (gc_CommonName config = "") then io_err "common name is required"
  else
    let validity := if bool_decide (gc_Validity config <= 0) then DefaultValidity kind
                    else gc_Validity config in
    pems <- issue {| tp_CommonName := gc_CommonName config;
                     tp_Subject := subject_or (gc_Subject config) DefaultSubject;
                     tp_NotAfter := now + validity; tp_IsCA := bool_decide (kind = KindCA);
                     tp_DNSNames := match kind with KindAdmin => ["localhost"] | _ => gc_DNSNames config end;
                     tp_KeyAlgorithm := gc_KeyAlgorithm config;
                     tp_ECDSACurve := gc_ECDSACurve config |} ca ;;
    match parse_cert pems.1 pems.2 with
    | Err e => io_err e
    | Ok cert =>
        let result key := io_ret {| cr_Certificate := cert; cr_CertificatePEM := pems.1; cr_PrivateKeyPEM := key |} in
        if bool_decide (kind = KindAdmin) then
          match ConvertPrivateKeyPEMToPKCS8 pems.2 with
          | Err e => io_err (errorf "failed to convert admin private key to PKCS#8" e)
          | Ok key => result key
          end
        else result pems.2
    end.
End Generate.

(** ** Names ([sans], [pkg/dns]) *)

Section Names.
(** [dns.ClusterDomain()] *)
Context (clusterDomain : string).

Definition dns_PodFQDN (pod service namespace : string) : string :=
  pod +:+ "." +:+ service +:+ "." +:+ namespace +:+ ".svc." +:+ clusterDomain.
Definition dns_WildcardServiceFQDN (service namespace : string) : string :=
  "*." +:+ service +:+ "." +:+ namespace +:+ ".svc." +:+ clusterDomain.

(** A service, by all its names. *)
Definition service_names (service namespace : string) : list string :=
  [service; service +:+ "." +:+ namespace; service +:+ "." +:+ namespace +:+ ".svc";
   ServiceFQDN clusterDomain service namespace].

(** [for i := 0; i < replicas; i++] *)
Definition ordinals (replicas : Z) : list Z := map Z.of_nat (seq 0 (Z.to_nat replicas)).

Definition GenerateDashboardSANs (clusterName namespace : string) : list string :=
  "localhost" :: service_names (clusterName +:+ "-dashboard") namespace.

Definition GenerateIndexerNodeSANs (clusterName namespace : string) (replicas : Z) : list string :=
  let headless := clusterName +:+ "-indexer-headless" in
  "localhost" :: service_names (clusterName +:+ "-indexer") namespace ++
  [dns_WildcardServiceFQDN headless namespace] ++
  concat (map (fun i => let pod := clusterName +:+ "-indexer-" +:+ pretty i in
                        [pod; dns_PodFQDN pod headless namespace]) (ordinals replicas)).

Definition GenerateManagerNodeSANs (clusterName namespace : string) (workerReplicas : Z) : list string :=
  let master := clusterName +:+ "-manager-master" in
  let workers := clusterName +:+ "-manager-workers" in
  let masterPod := clusterName +:+ "-manager-master-0" in
  "localhost" :: service_names master namespace ++
  [masterPod; dns_PodFQDN masterPod master namespace] ++
  service_names workers namespace ++
  concat (map (fun i => let pod := clusterName +:+ "-manager-workers-" +:+ pretty i in
                        [pod; dns_PodFQDN pod workers namespace]) (ordinals workerReplicas)).

Definition GenerateFilebeatSANs := GenerateManagerNodeSANs.

(** ** The cluster's domain ([domain_validator.go]) *)

(** What follows the last occurrence of [sub]. *)
Fixpoint after_last (sub s : string) : option string :=
  match s with
  | "" => None
  | String _ s' => match after_last sub s' with
                   | Some r => Some r
                   | None => strip_prefix sub s
                   end
  end.

Definition ExtractDomainFromSAN (san : string) : option string :=
  domain ← after_last ".svc." san;
  if bool_decide (domain = "") then None else Some domain.

Definition RequiresDomainRegeneration (cert : Certificate) : bool :=
  existsb (fun san => match ExtractDomainFromSAN san with
                      | Some domain => negb (bool_decide (domain = clusterDomain))
                      | None => false
                      end) (ct_DNSNames cert).
End Names.

(** ** Reconciling one certificate ([certificate_renewal.go]) *)

Definition cert_labels (name component clusterName : string) : gmap string string :=
  <["app.kubernetes.io/name" := "wazuh-" +:+ name]>
  (<["app.kubernetes.io/instance" := clusterName]>
  (<["app.kubernetes.io/component" := component]>
  (<["app.kubernetes.io/part-of" := "wazuh"]>
  (<["app.kubernetes.io/managed-by" := "wazuh-operator"]>
   {["wazuh.com/cluster" := clusterName]})))).

(** Which certificate: the noun of the messages, the secret, the label of the
    component, and what it is issued for. *)
Record Leaf := {
  lf_Noun : string;
  lf_Kind : cert_kind;
  lf_SecretName : string;
  lf_Name : string;
  lf_Component : string;
  lf_CommonName : string;
  lf_SANs : list string
}.

Section Reconcile.
Context {W : Type} `{!X509 W, !SecretClient W} (clusterDomain : string).
Context (clusterName namespace : string).

(** The configuration of a new certificate, from the options. *)
Definition gen_config (opts : CertificateOptions) (kind : cert_kind) (commonName : string) (sans : list string)
    : CertGenConfig :=
  {| gc_CommonName := commonName; gc_Subject := co_Subject opts; gc_Validity := GetValidity opts kind;
     gc_KeyAlgorithm := co_KeyAlgorithm opts; gc_ECDSACurve := co_ECDSACurve opts; gc_DNSNames := sans |}.

Definition leaf_secret (l : Leaf) (ca cert : CertResult) (resourceVersion : string) : SecretObject :=
  {| so_Name := lf_SecretName l; so_Namespace := namespace;
     so_Labels := cert_labels (lf_Name l) (lf_Component l) clusterName;
     so_Data := <[SecretKeyCACert := cr_CertificatePEM ca]>
                  (<[SecretKeyTLSCert := cr_CertificatePEM cert]>
                    {[SecretKeyTLSKey := cr_PrivateKeyPEM cert]});
     so_ResourceVersion := resourceVersion |}.

(** The second half of the four functions: a new certificate, in a new secret
    or in place of the one [found]. *)
Definition issue_leaf (now : Z) (opts : CertificateOptions) (ca : CertResult) (l : Leaf)
    (found : option SecretObject) : IO W bool :=
  cert <- io_wrap ("failed to generate " +:+ lf_Noun l +:+ " certificate")
            (Generate (lf_Kind l) (gen_config opts (lf_Kind l) (lf_CommonName l) (lf_SANs l)) (Some ca) now) ;;
  match found with
  | None =>
      io_wrap ("failed to create " +:+ lf_Noun l +:+ " secret")
        (io_api (create_secret (leaf_secret l ca cert ""))) ;;;
      io_ret false
  | Some found =>
      io_wrap ("failed to update " +:+ lf_Noun l +:+ " secret")
        (io_api (update_secret (leaf_secret l ca cert (so_ResourceVersion found)))) ;;;
      io_ret true
  end.

Definition with_data (d : Secret) (s : SecretObject) : SecretObject :=
  {| so_Name := so_Name s; so_Namespace := so_Namespace s; so_Labels := so_Labels s;
     so_Data := d; so_ResourceVersion := so_ResourceVersion s |}.

(** The key of a valid administrator's certificate is converted. *)
Definition migrate_admin_key (found : SecretObject) : IO W unit :=
  let key := data_at (so_Data found) SecretKeyTLSKey in
  match ConvertPrivateKeyPEMToPKCS8 key with
  | Err _ => io_ret tt
  | Ok converted =>
      if bool_decide (key = converted) then io_ret tt
      else io_wrap ("failed to migrate admin key to PKCS#8 in secret " +:+ so_Name found)
             (io_api (update_secret (with_data (<[SecretKeyTLSKey := converted]> (so_Data found)) found)))
  end.

(** [reconcileNodeCertWithRenewalStatus] and the other three, which return only
    the error: was the certificate renewed? *)
Definition reconcileLeafCert (now : Z) (opts : CertificateOptions) (ca : CertResult) (l : Leaf) : IO W bool :=
  out <- io_outcome (read_secret namespace (lf_SecretName l)) ;;
  match out with
  | Failed e =>
      if IsNotFound e then issue_leaf now opts ca l None
      else io_err (errorf ("failed to get " +:+ lf_Noun l +:+ " secret") (api_message e))
  | Found found =>
      match parse_cert (data_at (so_Data found) SecretKeyTLSCert) (data_at (so_Data found) SecretKeyTLSKey) with
      | Err _ => issue_leaf now opts ca l (Some found)
      | Ok cert =>
          if RequiresDomainRegeneration clusterDomain cert then issue_leaf now opts ca l (Some found)
          else if ShouldRenew opts (lf_Kind l) now (ct_NotAfter cert) then issue_leaf now opts ca l (Some found)
          else (if bool_decide (lf_Kind l = KindAdmin) then migrate_admin_key found else io_ret tt) ;;;
               io_ret false
      end
  end.

Definition node_leaf (secretName component : string) (sans : list string) : Leaf :=
  {| lf_Noun := "node"; lf_Kind := KindNode; lf_SecretName := secretName; lf_Name := component;
     lf_Component := component; lf_CommonName := clusterName +:+ "-" +:+ component; lf_SANs := sans |}.

Definition manager_leaf (node : string) (workerReplicas : Z) : Leaf :=
  node_leaf (clusterName +:+ "-" +:+ node +:+ "-certs") node
    (GenerateManagerNodeSANs clusterDomain clusterName namespace workerReplicas).

Definition indexer_leaf (indexerReplicas : Z) : Leaf :=
  node_leaf (clusterName +:+ "-indexer-certs") "indexer"
    (GenerateIndexerNodeSANs clusterDomain clusterName namespace indexerReplicas).

Definition dashboard_leaf : Leaf :=
  {| lf_Noun := "dashboard"; lf_Kind := KindDashboard; lf_SecretName := clusterName +:+ "-dashboard-certs";
     lf_Name := "dashboard"; lf_Component := "dashboard"; lf_CommonName := clusterName +:+ "-dashboard";
     lf_SANs := GenerateDashboardSANs clusterDomain clusterName namespace |}.

Definition filebeat_leaf (workerReplicas : Z) : Leaf :=
  {| lf_Noun := "filebeat"; lf_Kind := KindFilebeat; lf_SecretName := clusterName +:+ "-filebeat-certs";
     lf_Name := "filebeat"; lf_Component := "filebeat"; lf_CommonName := clusterName +:+ "-filebeat";
     lf_SANs := GenerateFilebeatSANs clusterDomain clusterName namespace workerReplicas |}.

Definition admin_leaf : Leaf :=
  {| lf_Noun := "admin"; lf_Kind := KindAdmin; lf_SecretName := clusterName +:+ "-admin-certs";
     lf_Name := "admin"; lf_Component := "certificates"; lf_CommonName := "admin"; lf_SANs := [] |}.

(** [workerReplicas] is 0 without a manager; [indexerReplicas] is at least 1. *)
Definition reconcileManagerCerts (now : Z) (opts : CertificateOptions) (ca : CertResult) (workerReplicas : Z)
    : IO W unit :=
  io_wrap "failed to reconcile master certificate"
    (reconcileLeafCert now opts ca (manager_leaf "manager-master" workerReplicas)) ;;;
  io_wrap "failed to reconcile worker certificate"
    (reconcileLeafCert now opts ca (manager_leaf "manager-worker" workerReplicas)) ;;;
  io_ret tt.

Definition worker_replicas (manager : option WazuhManagerClusterSpec) : Z :=
  match manager with Some m => Workers_GetReplicas m | None => 0 end.
Definition indexer_replicas (indexer : option WazuhIndexerClusterSpec) : Z :=
  match indexer with
  | Some s => if bool_decide (0 < ix_Replicas s) then ix_Replicas s else 1
  | None => 1
  end.

Definition reconcileIndexerCerts (now : Z) (opts : CertificateOptions) (ca : CertResult)
    (indexer : option WazuhIndexerClusterSpec) : IO W bool :=
  reconcileLeafCert now opts ca (indexer_leaf (indexer_replicas indexer)).

Definition reconcileDashboardCerts (now : Z) (opts : CertificateOptions) (ca : CertResult) : IO W unit :=
  reconcileLeafCert now opts ca dashboard_leaf ;;; io_ret tt.

Definition reconcileFilebeatCerts (now : Z) (opts : CertificateOptions) (ca : CertResult)
    (manager : option WazuhManagerClusterSpec) : IO W unit :=
  reconcileLeafCert now opts ca (filebeat_leaf (worker_replicas manager)) ;;; io_ret tt.

Definition reconcileAdminCerts (now : Z) (opts : CertificateOptions) (ca : CertResult) : IO W unit :=
  reconcileLeafCert now opts ca admin_leaf ;;; io_ret tt.

(** ** The certificate authority ([certificate_maintenance.go]) *)

(** A computation that may not end. *)
Inductive run (A : Type) := Finished (a : A) | Hangs.
Arguments Finished {A} a.
Arguments Hangs {A}.

Record CAReconcileResult := {
  car_CAResult : CertResult;
  car_Renewed : bool;
  car_RenewalPending : bool;
  car_NextMaintenanceWindow : Z
}.

Definition ca_secret (ca : CertResult) : SecretObject :=
  {| so_Name := clusterName +:+ "-ca"; so_Namespace := namespace;
     so_Labels := cert_labels "ca" "certificates" clusterName;
     so_Data := <[SecretKeyCACert := cr_CertificatePEM ca]> (<[SecretKeyCAKey := cr_PrivateKeyPEM ca]>
                (<[SecretKeyTLSCert := cr_CertificatePEM ca]> {[SecretKeyTLSKey := cr_PrivateKeyPEM ca]}));
     so_ResourceVersion := "" |}.

Definition regenerateCA (now : Z) (opts : CertificateOptions) (found : option SecretObject)
    : IO W (run CAReconcileResult) :=
  ca <- io_wrap "failed to generate CA"
          (Generate KindCA (gen_config opts KindCA (clusterName +:+ "-ca") []) None now) ;;
  match found with
  | Some found =>
      io_wrap "failed to update CA secret"
        (io_api (update_secret {| so_Name := so_Name found; so_Namespace := so_Namespace found;
                                  so_Labels := so_Labels (ca_secret ca); so_Data := so_Data (ca_secret ca);
                                  so_ResourceVersion := so_ResourceVersion found |})) ;;;
      io_ret (Finished {| car_CAResult := ca; car_Renewed := true; car_RenewalPending := false;
                          car_NextMaintenanceWindow := zero_time |})
  | None =>
      io_wrap "failed to create CA secret" (io_api (create_secret (ca_secret ca))) ;;;
      io_ret (Finished {| car_CAResult := ca; car_Renewed := false; car_RenewalPending := false;
                          car_NextMaintenanceWindow := zero_time |})
  end.

(** [maintenance] is [checkCAMaintenanceWindow] at [now], of the expiry;
    [None] when it does not end.  A secret found has a name. *)
Definition reconcileCA (now : Z) (maintenance : Z -> option CAMaintenanceCheckResult)
    (opts : CertificateOptions) : IO W (run CAReconcileResult) :=
  out <- io_outcome (read_secret namespace (clusterName +:+ "-ca")) ;;
  match out with
  | Failed e =>
      if IsNotFound e then regenerateCA now opts None
      else io_err (errorf "failed to get CA secret" (api_message e))
  | Found found =>
      let pem := data_at (so_Data found) SecretKeyCACert in
      let key := data_at (so_Data found) SecretKeyCAKey in
      match parse_cert pem key with
      | Err _ => regenerateCA now opts (Some found)
      | Ok cert =>
          let ca := {| cr_Certificate := cert; cr_CertificatePEM := pem; cr_PrivateKeyPEM := key |} in
          let keep pending nextWindow :=
            io_ret (Finished {| car_CAResult := ca; car_Renewed := false; car_RenewalPending := pending;
                                car_NextMaintenanceWindow := nextWindow |}) in
          if ShouldRenew opts KindCA now (ct_NotAfter cert) then
            match maintenance (ct_NotAfter cert) with
            | None => io_ret Hangs
            | Some m => if negb (cmr_AllowRenewal m) then keep true (cmr_NextWindowStart m)
                        else regenerateCA now opts (Some found)
            end
          else keep false zero_time
      end
  end.
(** ** Hashes of the secrets ([certificate_metrics.go], [internal/utils/hash.go]) *)

Section Hashes.
Context (sha256_hex : string -> string).

Definition newline : string := String (ascii_of_nat 10) "".

(** The keys sorted, a line each. *)
Definition HashMap (m : gmap string string) : string :=
  sha256_hex (Join "" (map (fun k => k +:+ "=" +:+ data_at m k +:+ newline)
                         (merge_sort string_le (map fst (map_to_list m))))).

Definition HashSecretData (d : Secret) : string := HashMap d.

Definition ShortHash (hash : string) : string :=
  if decide (8 < String.length hash)%nat then String.substring 0 8 hash else hash.

Record CertHashResult := {
  ch_CA : string;
  ch_Dashboard : string;
  ch_Indexer : string;
  ch_ManagerMaster : string;
  ch_ManagerWorker : string;
  ch_Filebeat : string;
  ch_Admin : string;
  ch_CARenewed : bool;
  ch_CARenewalPending : bool;
  ch_CARenewalScheduledAt : Z;
  ch_IndexerCertsRenewed : bool;
  ch_HotReloadTriggered : bool;
  ch_HotReloadError : option error
}.

(** [getSecretHash] of each; an error ends the list. *)
Fixpoint secret_hashes (secrets : list (string * string)) : IO W (list string * option error) :=
  match secrets with
  | [] => io_ret ([], None)
  | (what, name) :: rest =>
      out <- io_outcome (read_secret namespace name) ;;
      match out with
      | Failed e =>
          if IsNotFound e then r <- secret_hashes rest ;; io_ret ("" :: r.1, r.2)
          else io_ret ([], Some (errorf ("failed to get " +:+ what +:+ " secret hash") (api_message e)))
      | Found s => r <- secret_hashes rest ;; io_ret (ShortHash (HashSecretData (so_Data s)) :: r.1, r.2)
      end
  end.

Definition cert_secrets : list (string * string) :=
  [("CA", clusterName +:+ "-ca"); ("dashboard", clusterName +:+ "-dashboard-certs");
   ("indexer", clusterName +:+ "-indexer-certs");
   ("manager master", clusterName +:+ "-manager-master-certs");
   ("manager worker", clusterName +:+ "-manager-worker-certs");
   ("filebeat", clusterName +:+ "-filebeat-certs"); ("admin", clusterName +:+ "-admin-certs")].

Definition hashes_result (l : list string) : CertHashResult :=
  let at_ i := default "" (l !! i) in
  {| ch_CA := at_ 0%nat; ch_Dashboard := at_ 1%nat; ch_Indexer := at_ 2%nat;
     ch_ManagerMaster := at_ 3%nat; ch_ManagerWorker := at_ 4%nat; ch_Filebeat := at_ 5%nat;
     ch_Admin := at_ 6%nat; ch_CARenewed := false; ch_CARenewalPending := false;
     ch_CARenewalScheduledAt := zero_time; ch_IndexerCertsRenewed := false;
     ch_HotReloadTriggered := false; ch_HotReloadError := None |}.

(** What was collected, and the error that ended it. *)
Definition collectCertHashes : IO W (CertHashResult * option error) :=
  r <- secret_hashes cert_secrets ;;
  io_ret (hashes_result r.1, r.2).
End Hashes.

(** ** Certificates of the user ([certificate_custom.go]) *)

Record CustomCertsConfig := {
  cu_CASecretRef : option SecretKeySelector;
  cu_NodeSecretRef : option SecretKeySelector;
  cu_AdminSecretRef : option SecretKeySelector;
  cu_FilebeatSecretRef : option SecretKeySelector
}.

Definition SecretKeyRootCA : string := "root-ca.pem".

Definition readSecretFromRef (ref : option SecretKeySelector) : IO W Secret :=
  match ref with
  | None => io_err "secret reference is nil"
  | Some ref =>
      out <- io_outcome (read_secret namespace (sel_Name ref)) ;;
      match out with
      | Failed e =>
          if IsNotFound e then
            io_err ("secret " +:+ sel_Name ref +:+ " not found in namespace " +:+ namespace)
          else io_err (errorf ("failed to get secret " +:+ sel_Name ref) (api_message e))
      | Found s =>
          if negb (bool_decide (sel_Key ref = "")) && bool_decide (so_Data s !! sel_Key ref = None)
          then io_err ("key " +:+ quoted (sel_Key ref) +:+ " not found in secret " +:+ sel_Name ref)
          else io_ret (so_Data s)
      end
  end.

(** [CommonLabels] *)
Definition custom_labels (version : string) : gmap string string :=
  <["app.kubernetes.io/version" := version]>
  (<["wazuh.com/managed-by" := "wazuh-operator"]> (cert_labels "certificates" "certificates" clusterName)).

Section Custom.
Context (version : string).

Definition ensureCustomCertSecret (secretName : string) (data : Secret) : IO W unit :=
  let secret := {| so_Name := secretName; so_Namespace := namespace; so_Labels := custom_labels version;
                   so_Data := data; so_ResourceVersion := "" |} in
  out <- io_outcome (read_secret namespace secretName) ;;
  match out with
  | Failed e =>
      if IsNotFound e then io_api (create_secret secret)
      else io_err (errorf ("failed to get existing secret " +:+ secretName) (api_message e))
  | Found existing =>
      io_api (update_secret {| so_Name := so_Name existing; so_Namespace := so_Namespace existing;
                               so_Labels := so_Labels secret; so_Data := data;
                               so_ResourceVersion := so_ResourceVersion existing |})
  end.

(** The user's keys, over the authority. *)
Definition custom_data (caCert : string) (user : Secret) : Secret := user ∪ {[SecretKeyRootCA := caCert]}.

Definition copyNodeCertsToComponents (nodeData : Secret) (caCert : string) : IO W unit :=
  let copy name := io_wrap ("failed to ensure secret " +:+ name)
                     (ensureCustomCertSecret name (custom_data caCert nodeData)) in
  copy (clusterName +:+ "-indexer-certs") ;;;
  copy (clusterName +:+ "-manager-master-certs") ;;;
  copy (clusterName +:+ "-manager-worker-certs") ;;;
  copy (clusterName +:+ "-dashboard-certs").

(** [if ref != nil { ... }] *)
Definition custom_part (what : string) (ref : option SecretKeySelector) (use : Secret -> IO W unit) : IO W unit :=
  match ref with
  | None => io_ret tt
  | Some _ =>
      d <- io_wrap ("failed to read " +:+ what +:+ " certificate secret") (readSecretFromRef ref) ;;
      use d
  end.

Definition reconcileCustomCerts (sha256_hex : string -> string) (customCerts : CustomCertsConfig)
    : IO W CertHashResult :=
  caData <- io_wrap "failed to read CA secret" (readSecretFromRef (cu_CASecretRef customCerts)) ;;
  let caCert := match cu_CASecretRef customCerts with
                | Some ref => data_at caData (sel_Key ref) | None => "" end in
  io_wrap "failed to ensure CA secret"
    (ensureCustomCertSecret (clusterName +:+ "-ca") {[SecretKeyCACert := caCert]}) ;;;
  custom_part "node" (cu_NodeSecretRef customCerts) (fun d =>
    io_wrap "failed to copy node certificates" (copyNodeCertsToComponents d caCert)) ;;;
  custom_part "admin" (cu_AdminSecretRef customCerts) (fun d =>
    io_wrap "failed to ensure admin certs secret"
      (ensureCustomCertSecret (clusterName +:+ "-admin-certs") (custom_data caCert d))) ;;;
  custom_part "filebeat" (cu_FilebeatSecretRef customCerts) (fun d =>
    io_wrap "failed to ensure filebeat certs secret"
      (ensureCustomCertSecret (clusterName +:+ "-filebeat-certs") (custom_data caCert d))) ;;;
  r <- collectCertHashes sha256_hex ;;
  io_ret r.1.
End Custom.
End Reconcile.
Arguments Finished {A} a.
Arguments Hangs {A}.

(** ** A store of secrets

    What the theorems use of an API server that answers reads: it holds the
    data of the secrets, a write that succeeds stores, one that fails does
    not; and of an X.509 library: a certificate issued is the template's, its
    validity rounded down to the second. *)
Class SecretStore (W : Type) `{!X509 W, !SecretClient W} := {
  secret_at : W -> string -> string -> option Secret;
  read_answers ns n w :
    match secret_at w ns n with
    | Some d => exists rv l, read_secret ns n w =
        (Found {| so_Name := n; so_Namespace := ns; so_Labels := l; so_Data := d; so_ResourceVersion := rv |}, w)
    | None => exists m, read_secret ns n w = (Failed (NotFound m), w)
    end;
  write_stores s w r w' : create_secret s w = (r, w') \/ update_secret s w = (r, w') ->
    forall ns n, secret_at w' ns n =
      match r with
      | Found _ => if decide (ns = so_Namespace s /\ n = so_Name s) then Some (so_Data s) else secret_at w ns n
      | Failed _ => secret_at w ns n
      end;
  issue_keeps t ca w r w' ns n : issue t ca w = (r, w') -> secret_at w' ns n = secret_at w ns n;
  issue_template t ca w pems w' : issue t ca w = (Ok pems, w') ->
    exists cert, parse_cert pems.1 pems.2 = Ok cert /\
      tp_NotAfter t - Second < ct_NotAfter cert <= tp_NotAfter t /\ ct_DNSNames cert = tp_DNSNames t;
  pkcs8_same key key' : ConvertPrivateKeyPEMToPKCS8 key = Ok key' ->
    ConvertPrivateKeyPEMToPKCS8 key' = Ok key' /\
    forall pem, parse_cert pem key' = parse_cert pem key
}.

(** ** Lemmas on the names *)

Lemma after_last_free a t : free_of "."%char a = true ->
  after_last ".svc." (a +:+ t) = after_last ".svc." t.
Proof.
  induction a as [|c a IH]; [done|]. rewrite append_cons. cbn [free_of].
  intros [Hc Ha]%andb_prop. cbn [after_last]. rewrite IH by done.
  destruct (after_last ".svc." t); [done|]. cbn [strip_prefix].
  apply negb_true_iff, bool_decide_eq_false in Hc. by rewrite decide_False.
Qed.

Lemma after_last_app sub p s r : after_last sub s = Some r -> after_last sub (p +:+ s) = Some r.
Proof. intros H. induction p as [|c p IH]; [done|]. rewrite append_cons. cbn [after_last]. by rewrite IH. Qed.

(** The domain read back from a name that ends with [.svc.<domain>]. *)
Definition domain_seen (domain : string) : string := default domain (after_last ".svc." ("." +:+ domain)).

Lemma after_last_cons sub c s :
  after_last sub (String c s) = match after_last sub s with Some r => Some r | None => strip_prefix sub (String c s) end.
Proof. done. Qed.

Lemma after_last_fqdn p domain : after_last ".svc." (p +:+ ".svc." +:+ domain) = Some (domain_seen domain).
Proof.
  apply after_last_app. unfold domain_seen.
  change (".svc." +:+ domain) with ("." +:+ "svc" +:+ "." +:+ domain).
  assert (after_last ".svc." ("svc" +:+ "." +:+ domain) = after_last ".svc." ("." +:+ domain)) as E
    by by rewrite after_last_free.
  change ("." +:+ "svc" +:+ "." +:+ domain) with (String "." ("svc" +:+ "." +:+ domain)).
  rewrite after_last_cons, E. by destruct (after_last ".svc." ("." +:+ domain)).
Qed.

Lemma after_last_none s : free_of "."%char s = true -> after_last ".svc." s = None.
Proof. intros H. rewrite <-(append_nil_r s), after_last_free by done. done. Qed.

Section NameLemmas.
Context (clusterDomain namespace : string).
Hypothesis (Hns : free_of "."%char namespace = true) (Hseen : domain_seen clusterDomain <> "").

Definition mismatch (san : string) : bool :=
  match ExtractDomainFromSAN san with
  | Some domain => negb (bool_decide (domain = clusterDomain))
  | None => false
  end.

(** The names of this domain and namespace do not read back. *)
Definition unreadable : bool :=
  negb (bool_decide (domain_seen clusterDomain = clusterDomain))
  || bool_decide (namespace = "svc") && negb (bool_decide (clusterDomain = "svc")).

Lemma mismatch_free s : free_of "."%char s = true -> mismatch s = false.
Proof. intros H. unfold mismatch, ExtractDomainFromSAN. by rewrite after_last_none. Qed.

Lemma mismatch_fqdn p :
  mismatch (p +:+ ".svc." +:+ clusterDomain) = negb (bool_decide (domain_seen clusterDomain = clusterDomain)).
Proof. unfold mismatch, ExtractDomainFromSAN. rewrite after_last_fqdn. cbn. by rewrite bool_decide_false. Qed.

Lemma mismatch_namespaced s : free_of "."%char s = true -> mismatch (s +:+ "." +:+ namespace) = false.
Proof.
  intros H. unfold mismatch, ExtractDomainFromSAN. rewrite after_last_free by done.
  change ("." +:+ namespace) with (String "." namespace). rewrite after_last_cons, after_last_none by done.
  change (strip_prefix ".svc." (String "." namespace)) with (strip_prefix "svc." namespace).
  destruct (strip_prefix "svc." namespace) eqn:E; [|done].
  apply strip_prefix_Some in E. rewrite E in Hns. done.
Qed.

Lemma mismatch_svc s : free_of "."%char s = true ->
  mismatch (s +:+ "." +:+ namespace +:+ ".svc") =
  bool_decide (namespace = "svc") && negb (bool_decide (clusterDomain = "svc")).
Proof.
  intros H. unfold mismatch, ExtractDomainFromSAN. rewrite after_last_free by done.
  change ("." +:+ namespace +:+ ".svc") with (String "." (namespace +:+ ".svc")).
  rewrite after_last_cons, (after_last_free namespace ".svc") by done.
  change (after_last ".svc." ".svc") with (@None string).
  change (strip_prefix ".svc." (String "." (namespace +:+ ".svc")))
    with (strip_prefix "svc." (namespace +:+ ".svc")).
  destruct (strip_prefix "svc." (namespace +:+ ".svc")) as [r|] eqn:E.
  - apply strip_prefix_Some in E.
    assert (namespace = "svc" /\ "svc" = r) as [En <-] by by apply (append_sep_inj "."%char).
    rewrite (bool_decide_true _ En). cbn. f_equal. by apply bool_decide_ext.
  - rewrite bool_decide_false; [done|]. intros En. by rewrite En in E.
Qed.

Lemma mismatch_services service : free_of "."%char service = true ->
  existsb mismatch (service_names clusterDomain service namespace) = unreadable.
Proof.
  intros H. unfold service_names, unreadable. cbn [existsb].
  rewrite mismatch_free, mismatch_namespaced, mismatch_svc by done.
  replace (ServiceFQDN clusterDomain service namespace)
    with ((service +:+ "." +:+ namespace) +:+ ".svc." +:+ clusterDomain)
    by by unfold ServiceFQDN; rewrite !append_assoc.
  rewrite mismatch_fqdn. cbn. by rewrite orb_false_r, orb_comm.
Qed.

(** Names of pods never read back worse than those of the services. *)
Definition harmless (l : list string) : Prop := existsb mismatch l = true -> unreadable = true.

Lemma harmless_app l k : harmless l -> harmless k -> harmless (l ++ k).
Proof. unfold harmless. rewrite existsb_app. intros ?? [?|?]%orb_prop; auto. Qed.

Lemma harmless_services service : free_of "."%char service = true ->
  harmless (service_names clusterDomain service namespace).
Proof. intros H. unfold harmless. by rewrite mismatch_services. Qed.

Lemma harmless_fqdn p : harmless [p +:+ ".svc." +:+ clusterDomain].
Proof. unfold harmless, unreadable. cbn. rewrite mismatch_fqdn, orb_false_r. by intros ->. Qed.

Lemma harmless_pod pod service : free_of "."%char pod = true ->
  harmless [pod; dns_PodFQDN clusterDomain pod service namespace].
Proof.
  intros H. apply (harmless_app [pod]).
  - unfold harmless. cbn. by rewrite mismatch_free.
  - unfold dns_PodFQDN.
    replace (pod +:+ "." +:+ service +:+ "." +:+ namespace +:+ ".svc." +:+ clusterDomain)
      with ((pod +:+ "." +:+ service +:+ "." +:+ namespace) +:+ ".svc." +:+ clusterDomain)
      by by rewrite !append_assoc.
    apply harmless_fqdn.
Qed.

Lemma harmless_concat {A} (f : A -> list string) l : (forall x, harmless (f x)) -> harmless (concat (map f l)).
Proof. intros H. induction l as [|x l IH]; [done|]. cbn. by apply harmless_app. Qed.
End NameLemmas.

Lemma free_ordinal c i : free_of "."%char c = true -> 0 <= i -> free_of "."%char (c +:+ pretty i) = true.
Proof.
  intros H Hi. rewrite free_of_app, H, pretty_Z_nonneg by done. by apply pretty_N_free.
Qed.

Lemma ordinals_nonneg n i : In i (ordinals n) -> 0 <= i.
Proof. unfold ordinals. rewrite in_map_iff. intros (k & <- & _). lia. Qed.

Lemma existsb_localhost d l : existsb (mismatch d) ("localhost" :: l) = existsb (mismatch d) l.
Proof. cbn [existsb]. by rewrite mismatch_free. Qed.

Lemma mismatch_localhost d : existsb (mismatch d) ["localhost"] = false.
Proof. by rewrite existsb_localhost. Qed.

Section Settles.
Context (clusterDomain clusterName namespace : string).
Hypothesis (Hcn : free_of "."%char clusterName = true) (Hns : free_of "."%char namespace = true).
Hypothesis (Hseen : domain_seen clusterDomain <> "").

Lemma free_named suffix : free_of "."%char suffix = true -> free_of "."%char (clusterName +:+ suffix) = true.
Proof. intros H. by rewrite free_of_app, Hcn. Qed.

Lemma harmless_pods prefix service n : free_of "."%char prefix = true ->
  harmless clusterDomain namespace
    (concat (map (fun i => let pod := clusterName +:+ prefix +:+ pretty i in
                           [pod; dns_PodFQDN clusterDomain pod service namespace]) (ordinals n))).
Proof.
  intros H. pose proof (ordinals_nonneg n) as Hn. induction (ordinals n) as [|i l IH]; [done|].
  cbn [map concat]. apply harmless_app; [|apply IH; intros; apply Hn; by right].
  apply harmless_pod; [done|]. rewrite <-append_assoc. apply free_ordinal; [by apply free_named|].
  apply Hn. by left.
Qed.

Lemma mismatch_names service rest : free_of "."%char service = true ->
  harmless clusterDomain namespace rest ->
  existsb (mismatch clusterDomain) ("localhost" :: service_names clusterDomain service namespace ++ rest)
  = unreadable clusterDomain namespace.
Proof.
  intros Hs Hr. rewrite existsb_localhost, existsb_app, mismatch_services by done.
  unfold harmless in Hr. destruct (unreadable clusterDomain namespace); [done|].
  destruct (existsb _ rest); [|done]. by discriminate Hr.
Qed.

Lemma mismatch_dashboard :
  existsb (mismatch clusterDomain) (GenerateDashboardSANs clusterDomain clusterName namespace)
  = unreadable clusterDomain namespace.
Proof.
  unfold GenerateDashboardSANs. rewrite <-(app_nil_r (service_names _ _ _)).
  apply mismatch_names; [by apply free_named|done].
Qed.

Lemma mismatch_indexer n :
  existsb (mismatch clusterDomain) (GenerateIndexerNodeSANs clusterDomain clusterName namespace n)
  = unreadable clusterDomain namespace.
Proof.
  unfold GenerateIndexerNodeSANs. apply mismatch_names; [by apply free_named|].
  apply harmless_app; [|by apply harmless_pods].
  unfold dns_WildcardServiceFQDN.
  replace ("*." +:+ (clusterName +:+ "-indexer-headless") +:+ "." +:+ namespace +:+ ".svc." +:+ clusterDomain)
    with (("*." +:+ (clusterName +:+ "-indexer-headless") +:+ "." +:+ namespace) +:+ ".svc." +:+ clusterDomain)
    by by rewrite !append_assoc.
  by apply harmless_fqdn.
Qed.

Lemma mismatch_manager n :
  existsb (mismatch clusterDomain) (GenerateManagerNodeSANs clusterDomain clusterName namespace n)
  = unreadable clusterDomain namespace.
Proof.
  unfold GenerateManagerNodeSANs. apply mismatch_names; [by apply free_named|].
  apply harmless_app; [by apply harmless_pod, free_named|].
  apply harmless_app; [|by apply harmless_pods].
  by apply harmless_services, free_named.
Qed.
End Settles.

(** The names the operator puts into a certificate pass its own check of
    the cluster's domain when, and only when, the domain reads back from
    [.svc.<domain>] (no label [svc] in front of or inside it) and the
    namespace is not called [svc]; otherwise a certificate just issued fails
    the check: every reconcile issues it again. *)
Theorem own_names_pass clusterDomain clusterName namespace n names cert :
  free_of "."%char clusterName = true -> free_of "."%char namespace = true ->
  domain_seen clusterDomain <> "" ->
  In names [GenerateDashboardSANs clusterDomain clusterName namespace;
            GenerateIndexerNodeSANs clusterDomain clusterName namespace n;
            GenerateManagerNodeSANs clusterDomain clusterName namespace n;
            GenerateFilebeatSANs clusterDomain clusterName namespace n] ->
  ct_DNSNames cert = names ->
  RequiresDomainRegeneration clusterDomain cert
  = negb (bool_decide (domain_seen clusterDomain = clusterDomain))
    || bool_decide (namespace = "svc") && negb (bool_decide (clusterDomain = "svc")).
Proof.
  intros Hc Hn Hs Hin Hcert. change (_ || _) with (unreadable clusterDomain namespace).
  unfold RequiresDomainRegeneration. rewrite Hcert.
  change (existsb _ names) with (existsb (mismatch clusterDomain) names).
  destruct Hin as [<-|[<-|[<-|[<-|[]]]]].
  - by apply mismatch_dashboard.
  - by apply mismatch_indexer.
  - by apply mismatch_manager.
  - by apply mismatch_manager.
Qed.

Lemma own_names_pass_witness :
  let cert domain := {| ct_NotAfter := 0; ct_DNSNames := GenerateDashboardSANs domain "prod" "wazuh" |} in
  RequiresDomainRegeneration "cluster.local" (cert "cluster.local") = false /\
  RequiresDomainRegeneration "svc.company.internal" (cert "svc.company.internal") = true.
Proof.
  cbv zeta. split.
  - rewrite (own_names_pass "cluster.local" "prod" "wazuh" 0 (GenerateDashboardSANs "cluster.local" "prod" "wazuh"));
      [reflexivity|reflexivity|reflexivity|discriminate|by left|reflexivity].
  - rewrite (own_names_pass "svc.company.internal" "prod" "wazuh" 0
               (GenerateDashboardSANs "svc.company.internal" "prod" "wazuh"));
      [reflexivity|reflexivity|reflexivity|discriminate|by left|reflexivity].
Defined.

(** ** Lemmas on one certificate *)

Lemma data_at_eq (d : Secret) k v : data_at (<[k := v]> d) k = v.
Proof. unfold data_at. replace (<[k := v]> d !! k) with (Some v); [done|]. symmetry. apply lookup_insert_eq. Qed.

Lemma data_at_ne (d : Secret) k k' v : k <> k' -> data_at (<[k := v]> d) k' = data_at d k'.
Proof.
  intros H. unfold data_at. replace (<[k := v]> d !! k') with (d !! k'); [done|].
  symmetry. by apply lookup_insert_ne.
Qed.

(** The secret need not be touched. *)
Definition valid_leaf (clusterDomain : string) {W} `{!X509 W} (now : Z) (opts : CertificateOptions)
    (kind : cert_kind) (d : Secret) : bool :=
  match parse_cert (data_at d SecretKeyTLSCert) (data_at d SecretKeyTLSKey) with
  | Ok cert => negb (RequiresDomainRegeneration clusterDomain cert)
               && negb (ShouldRenew opts kind now (ct_NotAfter cert))
  | Err _ => false
  end.

(** The key of an administrator is in its final form. *)
Definition migrated {W} `{!X509 W} (kind : cert_kind) (d : Secret) : Prop :=
  kind = KindAdmin -> forall key, ConvertPrivateKeyPEMToPKCS8 (data_at d SecretKeyTLSKey) = Ok key ->
  key = data_at d SecretKeyTLSKey.

Section Leaves.
Context {W : Type} `{!X509 W, !SecretClient W, !SecretStore W} (clusterDomain clusterName namespace : string).

(** Every secret but the one named is as it was. *)
Definition others_kept (name : string) (w w' : W) : Prop :=
  forall ns n, ns <> namespace \/ n <> name -> secret_at w' ns n = secret_at w ns n.

Lemma write_named (s : SecretObject) (m : API W unit) e w a w' :
  (forall w r w', m w = (r, w') -> create_secret s w = (r, w') \/ update_secret s w = (r, w')) ->
  so_Namespace s = namespace ->
  io_wrap e (io_api m) w = (Ok a, w') ->
  others_kept (so_Name s) w w' /\ secret_at w' namespace (so_Name s) = Some (so_Data s).
Proof.
  intros Hm Hns H. apply io_wrap_ok, io_api_ok, Hm in H. pose proof (write_stores _ _ _ _ H) as Hw. split.
  - intros ns n Hne. rewrite Hw, decide_False; [done|]. rewrite Hns. intros [-> ->]. by destruct Hne.
  - by rewrite Hw, decide_True.
Qed.

Lemma Generate_spec kind config ca now w cert w' :
  Generate kind config ca now w = (Ok cert, w') ->
  (forall ns n, secret_at w' ns n = secret_at w ns n) /\
  exists c, parse_cert (cr_CertificatePEM cert) (cr_PrivateKeyPEM cert) = Ok c /\
    now + (if bool_decide (gc_Validity config <= 0) then DefaultValidity kind else gc_Validity config) - Second
      < ct_NotAfter c /\
    ct_DNSNames c = match kind with KindAdmin => ["localhost"] | _ => gc_DNSNames config end /\
    (kind = KindAdmin -> ConvertPrivateKeyPEMToPKCS8 (cr_PrivateKeyPEM cert) = Ok (cr_PrivateKeyPEM cert)).
Proof.
  unfold Generate. case_bool_decide; [done|].
  remember (if bool_decide (gc_Validity config <= 0) then _ else _) as validity. cbv zeta.
  intros (pems & w1 & Hi & H1)%io_bind_ok.
  pose proof (issue_template _ _ _ _ _ Hi) as (c & Hp & Ha & Hd). cbn in Ha, Hd.
  pose proof (fun ns n => issue_keeps _ _ _ _ _ ns n Hi) as Hkeep.
  rewrite Hp in H1. cbv zeta in H1. case_bool_decide as Ek.
  - destruct (ConvertPrivateKeyPEMToPKCS8 pems.2) as [key|] eqn:Ec; [|done].
    apply pkcs8_same in Ec as [Ec1 Ec2]. unfold io_ret in H1. simplify_eq. split; [done|].
    cbn [cr_CertificatePEM cr_PrivateKeyPEM]. exists c. rewrite Ec2. split_and!; try done; lia.
  - unfold io_ret in H1. simplify_eq. split; [done|]. cbn [cr_CertificatePEM cr_PrivateKeyPEM].
    exists c. split_and!; try done; lia.
Qed.

(** What a leaf's secret holds when it has just been issued. *)
Definition fresh_leaf (now : Z) (opts : CertificateOptions) (ca : CertResult) (l : Leaf) (d : Secret) : Prop :=
  data_at d SecretKeyCACert = cr_CertificatePEM ca /\
  exists c, parse_cert (data_at d SecretKeyTLSCert) (data_at d SecretKeyTLSKey) = Ok c /\
    now + GetValidity opts (lf_Kind l) - Second < ct_NotAfter c /\
    ct_DNSNames c = match lf_Kind l with KindAdmin => ["localhost"] | _ => lf_SANs l end /\
    migrated (lf_Kind l) d.

Lemma GetValidity_pos opts k : 0 < GetValidity opts k.
Proof.
  unfold GetValidity. case_bool_decide; [done|]. by destruct k.
Qed.

Lemma leaf_secret_data l (ca cert : CertResult) rv :
  data_at (so_Data (leaf_secret clusterName namespace l ca cert rv)) SecretKeyCACert = cr_CertificatePEM ca /\
  data_at (so_Data (leaf_secret clusterName namespace l ca cert rv)) SecretKeyTLSCert = cr_CertificatePEM cert /\
  data_at (so_Data (leaf_secret clusterName namespace l ca cert rv)) SecretKeyTLSKey = cr_PrivateKeyPEM cert.
Proof. unfold data_at, leaf_secret. cbn [so_Data]. by simplify_map_eq. Qed.

Lemma issue_leaf_spec now opts ca l found w b w' :
  issue_leaf clusterName namespace now opts ca l found w = (Ok b, w') ->
  b = bool_decide (is_Some found) /\ others_kept (lf_SecretName l) w w' /\
  exists d, secret_at w' namespace (lf_SecretName l) = Some d /\ fresh_leaf now opts ca l d.
Proof.
  unfold issue_leaf. intros (cert & w1 & Hg%io_wrap_ok & H)%io_bind_ok.
  apply Generate_spec in Hg as (Hkeep & c & Hp & Ha & Hd & Hm). cbn in Ha, Hd.
  pose proof (GetValidity_pos opts (lf_Kind l)) as Hpos.
  rewrite bool_decide_false in Ha by lia.
  assert (Hfresh : forall rv, fresh_leaf now opts ca l (so_Data (leaf_secret clusterName namespace l ca cert rv))).
  { intros rv. destruct (leaf_secret_data l ca cert rv) as (E1 & E2 & E3). split; [done|].
    exists c. unfold migrated. rewrite E2, E3. split_and!; [done..|]. intros E key. rewrite Hm by done. congruence. }
  destruct found as [found|].
  - apply io_bind_ok in H as ([] & w2 & H & Hr). unfold io_ret in Hr. simplify_eq.
    apply (write_named (leaf_secret clusterName namespace l ca cert (so_ResourceVersion found)))
      in H as [Hoth Hs]; [|by auto|done].
    split_and!; [done| |eauto]. intros ns n Hne. rewrite Hoth by done. apply Hkeep.
  - apply io_bind_ok in H as ([] & w2 & H & Hr). unfold io_ret in Hr. simplify_eq.
    apply (write_named (leaf_secret clusterName namespace l ca cert "")) in H as [Hoth Hs]; [|by auto|done].
    split_and!; [done| |eauto]. intros ns n Hne. rewrite Hoth by done. apply Hkeep.
Qed.

(** A valid certificate: only an administrator's key may still be converted. *)
Lemma reconcile_valid now opts ca l w d :
  secret_at w namespace (lf_SecretName l) = Some d ->
  valid_leaf clusterDomain now opts (lf_Kind l) d = true ->
  exists found, so_Data found = d /\ so_Name found = lf_SecretName l /\ so_Namespace found = namespace /\
  reconcileLeafCert clusterDomain clusterName namespace now opts ca l w =
  ((if bool_decide (lf_Kind l = KindAdmin) then migrate_admin_key found else io_ret tt) ;;; io_ret false) w.
Proof.
  intros Hd Hv. pose proof (read_answers namespace (lf_SecretName l) w) as Hr. rewrite Hd in Hr.
  destruct Hr as (rv & lab & Hr). eexists. split_and!; [..|].
  4: { unfold reconcileLeafCert. unfold io_bind at 1, io_outcome. rewrite Hr. cbn [so_Data].
       unfold valid_leaf in Hv. destruct (parse_cert _ _) as [cert|]; [|done].
       destruct (RequiresDomainRegeneration clusterDomain cert); [done|].
       destruct (ShouldRenew opts (lf_Kind l) now (ct_NotAfter cert)); [done|]. reflexivity. }
  all: done.
Qed.

Lemma migrate_done found w : migrated KindAdmin (so_Data found) -> migrate_admin_key found w = (Ok tt, w).
Proof.
  intros Hm. unfold migrate_admin_key. destruct (ConvertPrivateKeyPEMToPKCS8 _) eqn:E; [|done].
  apply Hm in E; [|done]. by rewrite bool_decide_true.
Qed.

Lemma reconcile_valid_leaf now opts ca l w d :
  secret_at w namespace (lf_SecretName l) = Some d ->
  valid_leaf clusterDomain now opts (lf_Kind l) d = true -> migrated (lf_Kind l) d ->
  reconcileLeafCert clusterDomain clusterName namespace now opts ca l w = (Ok false, w).
Proof.
  intros Hd Hv Hm. destruct (reconcile_valid now opts ca l w d Hd Hv) as (found & <- & _ & _ & ->).
  case_bool_decide as Ek; [|done]. rewrite Ek in Hm. unfold io_bind. by rewrite migrate_done.
Qed.

(** An invalid or a missing one is issued. *)
Lemma reconcile_invalid now opts ca l w :
  match secret_at w namespace (lf_SecretName l) with
  | Some d => valid_leaf clusterDomain now opts (lf_Kind l) d = false
  | None => True
  end ->
  exists found, bool_decide (is_Some found) = bool_decide (is_Some (secret_at w namespace (lf_SecretName l))) /\
  reconcileLeafCert clusterDomain clusterName namespace now opts ca l w
  = issue_leaf clusterName namespace now opts ca l found w.
Proof.
  intros Hv. pose proof (read_answers namespace (lf_SecretName l) w) as Hr.
  destruct (secret_at w namespace (lf_SecretName l)) as [d|].
  - destruct Hr as (rv & lab & Hr). eexists (Some _). split; [done|].
    unfold reconcileLeafCert. unfold io_bind at 1, io_outcome. rewrite Hr. cbn [so_Data].
    unfold valid_leaf in Hv. destruct (parse_cert _ _) as [cert|]; [|reflexivity].
    destruct (RequiresDomainRegeneration clusterDomain cert); [reflexivity|].
    destruct (ShouldRenew opts (lf_Kind l) now (ct_NotAfter cert)); [reflexivity|done].
  - destruct Hr as (m & Hr). exists None. split; [done|].
    unfold reconcileLeafCert. unfold io_bind at 1, io_outcome. by rewrite Hr.
Qed.

Lemma migrate_keeps found w r w' : so_Namespace found = namespace ->
  migrate_admin_key found w = (r, w') ->
  others_kept (so_Name found) w w' /\
  (secret_at w' namespace (so_Name found) = secret_at w namespace (so_Name found) \/
   exists key, ConvertPrivateKeyPEMToPKCS8 (data_at (so_Data found) SecretKeyTLSKey) = Ok key /\
     secret_at w' namespace (so_Name found) = Some (<[SecretKeyTLSKey := key]> (so_Data found))).
Proof.
  intros Hns. unfold migrate_admin_key.
  destruct (ConvertPrivateKeyPEMToPKCS8 _) as [key|] eqn:E; [|intros; unfold io_ret in *; simplify_eq; by split; [|left]].
  case_bool_decide; [intros; unfold io_ret in *; simplify_eq; by split; [|left]|].
  unfold io_wrap, io_api. destruct (update_secret _ w) as [r1 w1] eqn:Eu. intros; simplify_eq.
  pose proof (write_stores _ _ _ _ (or_intror Eu)) as Hw. cbn [so_Name so_Namespace with_data so_Data] in Hw.
  split.
  - intros ns n Hne. rewrite Hw. destruct r1; [|done]. rewrite decide_False; [done|].
    rewrite Hns. intros [-> ->]. by destruct Hne.
  - rewrite Hw. destruct r1; [|by left]. right. exists key. split; [done|]. by rewrite decide_True.
Qed.

Lemma migrate_settles now opts found w w' : so_Namespace found = namespace ->
  secret_at w namespace (so_Name found) = Some (so_Data found) ->
  valid_leaf clusterDomain now opts KindAdmin (so_Data found) = true ->
  migrate_admin_key found w = (Ok tt, w') ->
  exists d, secret_at w' namespace (so_Name found) = Some d /\
    valid_leaf clusterDomain now opts KindAdmin d = true /\ migrated KindAdmin d.
Proof.
  intros Hns Hd Hv. unfold migrate_admin_key.
  destruct (ConvertPrivateKeyPEMToPKCS8 _) as [key|] eqn:E.
  2: { unfold io_ret. intros; simplify_eq. exists (so_Data found). split_and!; [done..|].
       intros _ key. by rewrite E. }
  case_bool_decide as Ek.
  { unfold io_ret. intros; simplify_eq. exists (so_Data found). split_and!; [done..|].
    intros _ key'. rewrite E. congruence. }
  intros [_ Hs]%(write_named (with_data (<[SecretKeyTLSKey := key]> (so_Data found)) found)); [|by auto|done].
  eexists. split; [exact Hs|]. apply pkcs8_same in E as [E1 E2].
  unfold valid_leaf, migrated in *. cbn [with_data so_Data].
  rewrite data_at_ne, data_at_eq by done. rewrite E2. split; [exact Hv|]. intros _ key'. rewrite E1. congruence.
Qed.

(** After a run the certificate is valid at that instant, when a new one of
    its kind would be. *)
Lemma reconcile_settles now opts ca l w b w' :
  GetThreshold opts (lf_Kind l) + Second <= GetValidity opts (lf_Kind l) ->
  (lf_Kind l <> KindAdmin -> existsb (mismatch clusterDomain) (lf_SANs l) = false) ->
  reconcileLeafCert clusterDomain clusterName namespace now opts ca l w = (Ok b, w') ->
  exists d, secret_at w' namespace (lf_SecretName l) = Some d /\
    valid_leaf clusterDomain now opts (lf_Kind l) d = true /\ migrated (lf_Kind l) d.
Proof.
  intros Hth Hnames H.
  assert (Hfresh : forall d, fresh_leaf now opts ca l d ->
            valid_leaf clusterDomain now opts (lf_Kind l) d = true /\ migrated (lf_Kind l) d).
  { intros d (_ & c & Hp & Ha & Hd & Hm). split; [|done]. unfold valid_leaf. rewrite Hp.
    apply andb_true_intro. split; apply negb_true_iff.
    - unfold RequiresDomainRegeneration. rewrite Hd. destruct (lf_Kind l); try by apply Hnames.
      by apply mismatch_localhost.
    - unfold ShouldRenew, NeedsRenewal. apply bool_decide_eq_false. lia. }
  destruct (secret_at w namespace (lf_SecretName l)) as [d|] eqn:Ed;
    [destruct (valid_leaf clusterDomain now opts (lf_Kind l) d) eqn:Ev|].
  2-3: destruct (reconcile_invalid now opts ca l w) as (found & _ & Hr); [by rewrite Ed|];
    rewrite Hr in H; apply issue_leaf_spec in H as (_ & _ & d' & ? & ?); eauto.
  destruct (reconcile_valid now opts ca l w d Ed Ev) as (found & Hf & En & Ens & Hr).
  rewrite Hr in H. case_bool_decide as Ek.
  2: { injection H as _ <-. exists d. split_and!; [done|done|]. by intros ?. }
  apply io_bind_ok in H as ([] & w1 & Hm & H). injection H as _ ->.
  rewrite <-En, Ek. rewrite <-En in Ed. rewrite Ek in Ev. rewrite <-Hf in Ed, Ev. by eapply migrate_settles.
Qed.
End Leaves.

(** C13: One certificate.  With a server that answers reads, a run that
    succeeds touches no other secret.  A certificate that parses, carries
    no foreign domain and is not within its threshold of expiry is kept, whoever
    the authority is now: at most an administrator's key is converted.  Every
    other one is issued by the given authority for the whole validity and
    the leaf's names, and counts as renewed exactly when the secret existed. *)
Theorem leaf_reconcile {W} `{!X509 W, !SecretClient W, !SecretStore W} clusterDomain clusterName namespace
    now opts ca (l : Leaf) (w : W) b w' :
  reconcileLeafCert clusterDomain clusterName namespace now opts ca l w = (Ok b, w') ->
  others_kept namespace (lf_SecretName l) w w' /\
  let before := secret_at w namespace (lf_SecretName l) in
  let after := secret_at w' namespace (lf_SecretName l) in
  match before with
  | Some d =>
      if valid_leaf clusterDomain now opts (lf_Kind l) d
      then b = false /\
           (after = Some d \/ lf_Kind l = KindAdmin /\
              exists key, ConvertPrivateKeyPEMToPKCS8 (data_at d SecretKeyTLSKey) = Ok key /\
                          after = Some (<[SecretKeyTLSKey := key]> d))
      else b = true /\ exists d', after = Some d' /\ fresh_leaf now opts ca l d'
  | None => b = false /\ exists d', after = Some d' /\ fresh_leaf now opts ca l d'
  end.
Proof.
  intros H. cbv zeta.
  destruct (secret_at w namespace (lf_SecretName l)) as [d|] eqn:Ed;
    [destruct (valid_leaf clusterDomain now opts (lf_Kind l) d) eqn:Ev|].
  - destruct (reconcile_valid clusterDomain clusterName namespace now opts ca l w d Ed Ev)
      as (found & <- & En & Ens & Hr).
    rewrite Hr in H. case_bool_decide as Ek; [|unfold io_bind, io_ret in H; simplify_eq; split; [done|]; eauto].
    apply io_bind_ok in H as ([] & w1 & Hm & H). unfold io_ret in H. simplify_eq.
    apply (migrate_keeps (so_Namespace found)) in Hm as [Ho Hs]; [|done]. rewrite En in Ho, Hs. split; [done|]. split; [done|].
    rewrite Ed in Hs. destruct Hs as [->|(key & ? & ?)]; [by left|]. right. eauto.
  - destruct (reconcile_invalid clusterDomain clusterName namespace now opts ca l w) as (found & Hf & Hr);
      [by rewrite Ed|].
    rewrite Hr in H. apply issue_leaf_spec in H as (-> & Ho & d' & ? & ?).
    split; [done|]. rewrite Hf, Ed. eauto.
  - destruct (reconcile_invalid clusterDomain clusterName namespace now opts ca l w) as (found & Hf & Hr);
      [by rewrite Ed|].
    rewrite Hr in H. apply issue_leaf_spec in H as (-> & Ho & d' & ? & ?).
    split; [done|]. rewrite Hf, Ed. eauto.
Qed.

(** ** Certificates of the user *)

Lemma append_inj (p a b : string) : p +:+ a = p +:+ b -> a = b.
Proof. induction p as [|c p IH]; [done|]. rewrite !append_cons. intros [= H]. by apply IH. Qed.

Lemma custom_data_ne caCert (user : gmap string string) k : k <> SecretKeyRootCA ->
  custom_data caCert user !! k = user !! k.
Proof.
  intros H. transitivity ((user ∪ {[SecretKeyRootCA := caCert]} : gmap string string) !! k); [done|].
  rewrite lookup_union, lookup_singleton_ne by congruence. by destruct (user !! k).
Qed.

Lemma custom_data_eq caCert (user : gmap string string) :
  custom_data caCert user !! SecretKeyRootCA = Some (default caCert (user !! SecretKeyRootCA)).
Proof.
  transitivity ((user ∪ {[SecretKeyRootCA := caCert]} : gmap string string) !! SecretKeyRootCA); [done|].
  rewrite lookup_union, lookup_singleton_eq. by destruct (user !! SecretKeyRootCA).
Qed.

Section CustomLemmas.
Context {W : Type} `{!X509 W, !SecretClient W, !SecretStore W} (clusterName namespace version : string).

Lemma ensure_spec name data w u w' :
  ensureCustomCertSecret clusterName namespace version name data w = (Ok u, w') ->
  others_kept namespace name w w' /\ secret_at w' namespace name = Some data.
Proof.
  unfold ensureCustomCertSecret. cbv zeta. unfold io_bind, io_outcome.
  pose proof (read_answers namespace name w) as Hr. destruct (secret_at w namespace name) as [d|].
  - destruct Hr as (rv & lab & ->). intros H%(proj2 (io_wrap_ok "" _ _ _ _)).
    by apply (write_named namespace {| so_Name := name; so_Namespace := namespace;
      so_Labels := custom_labels clusterName version; so_Data := data; so_ResourceVersion := rv |}) in H; [|by auto|].
  - destruct Hr as (m & ->). cbn [IsNotFound]. intros H%(proj2 (io_wrap_ok "" _ _ _ _)).
    by apply (write_named namespace {| so_Name := name; so_Namespace := namespace;
      so_Labels := custom_labels clusterName version; so_Data := data; so_ResourceVersion := "" |}) in H; [|by auto|].
Qed.

Lemma read_ref_spec ref w d w' : readSecretFromRef namespace (Some ref) w = (Ok d, w') ->
  w' = w /\ secret_at w namespace (sel_Name ref) = Some d.
Proof.
  unfold readSecretFromRef. unfold io_bind, io_outcome.
  pose proof (read_answers namespace (sel_Name ref) w) as Hr.
  destruct (secret_at w namespace (sel_Name ref)) as [d'|].
  - destruct Hr as (rv & lab & ->). cbn [so_Data]. destruct (_ && _); [done|]. by intros [= -> ->].
  - destruct Hr as (m & ->). by cbn.
Qed.

(** Four copies, and nothing else. *)
Lemma copies_spec nodeData caCert w u w' :
  copyNodeCertsToComponents clusterName namespace version nodeData caCert w = (Ok u, w') ->
  forall suffix, In suffix ["-indexer-certs"; "-manager-master-certs"; "-manager-worker-certs"; "-dashboard-certs"] ->
  secret_at w' namespace (clusterName +:+ suffix) = Some (custom_data caCert nodeData).
Proof.
  unfold copyNodeCertsToComponents. cbv zeta.
  intros (? & w1 & [Ho1 Hs1]%io_wrap_ok%ensure_spec & H)%io_bind_ok.
  apply io_bind_ok in H as (? & w2 & [Ho2 Hs2]%io_wrap_ok%ensure_spec & H).
  apply io_bind_ok in H as (? & w3 & [Ho3 Hs3]%io_wrap_ok%ensure_spec & H).
  apply io_wrap_ok, ensure_spec in H as [Ho4 Hs4].
  assert (Hne : forall a b, a <> b -> namespace <> namespace \/ clusterName +:+ a <> clusterName +:+ b).
  { intros a b Hab. right. intros E. apply Hab. by eapply append_inj. }
  intros suffix [<-|[<-|[<-|[<-|[]]]]].
  - rewrite Ho4, Ho3, Ho2 by (by apply Hne). done.
  - rewrite Ho4, Ho3 by (by apply Hne). done.
  - rewrite Ho4 by (by apply Hne). done.
  - done.
Qed.

Lemma custom_part_keeps suffix what e ref data w u w' :
  custom_part namespace what ref (fun d =>
    io_wrap e (ensureCustomCertSecret clusterName namespace version (clusterName +:+ suffix) (data d))) w = (Ok u, w') ->
  forall n, n <> clusterName +:+ suffix -> secret_at w' namespace n = secret_at w namespace n.
Proof.
  unfold custom_part. destruct ref as [ref|]; [|by intros [= _ <-]].
  intros (d & w1 & [-> _]%io_wrap_ok%read_ref_spec & [Ho _]%io_wrap_ok%ensure_spec)%io_bind_ok n Hn.
  apply Ho. by right.
Qed.

Lemma collect_same sha256_hex w h w' : collectCertHashes clusterName namespace sha256_hex w = (Ok h, w') -> w' = w.
Proof.
  unfold collectCertHashes. intros (r & w1 & H & H1)%io_bind_ok. injection H1 as _ ->. revert r H.
  generalize (cert_secrets clusterName). intros l. induction l as [|[what name] l IH]; intros r; cbn [secret_hashes].
  { by intros [= _ ->]. }
  unfold io_bind at 1, io_outcome. pose proof (read_answers namespace name w) as Hr.
  destruct (secret_at w namespace name) as [d|].
  - destruct Hr as (rv & lab & ->). intros (r1 & w2 & H & H1)%io_bind_ok. injection H1 as _ ->. by apply IH in H.
  - destruct Hr as (m & ->). cbn [IsNotFound]. intros (r1 & w2 & H & H1)%io_bind_ok. injection H1 as _ ->.
    by apply IH in H.
Qed.
End CustomLemmas.

(** ** A server and a library to try the theorems on

    Secrets by namespace and name; a certificate is its end and its names,
    separated by commas. *)
Module SimCerts.
Definition world : Type := gmap (string * string) Secret.

Definition encode (t : Template) : string := Join "," (pretty (tp_NotAfter t) :: tp_DNSNames t).

Definition decode (pem : string) : result Certificate :=
  match Split ","%char pem with
  | s :: names => match parse_signed s with
                  | Some n => Ok {| ct_NotAfter := n; ct_DNSNames := names |}
                  | None => Err "bad certificate"
                  end
  | [] => Err "bad certificate"
  end.

#[global] Instance x509 : X509 world := {
  issue t ca := if forallb (free_of ","%char) (tp_DNSNames t) && bool_decide (0 <= tp_NotAfter t)
                then io_ret (encode t, "key") else io_err "bad template";
  parse_cert pem key := decode pem;
  ConvertPrivateKeyPEMToPKCS8 key := Ok key
}.

Definition store (s : SecretObject) : API world unit := fun w =>
  (Found tt, <[(so_Namespace s, so_Name s) := so_Data s]> w).

#[global] Instance client : SecretClient world := {
  read_secret ns n := fun w =>
    (match w !! (ns, n) with
     | Some d => Found {| so_Name := n; so_Namespace := ns; so_Labels := ∅; so_Data := d;
                          so_ResourceVersion := "1" |}
     | None => Failed (NotFound (n +:+ " not found"))
     end, w);
  create_secret := store;
  update_secret := store
}.

Lemma decode_encode t : forallb (free_of ","%char) (tp_DNSNames t) = true -> 0 <= tp_NotAfter t ->
  decode (encode t) = Ok {| ct_NotAfter := tp_NotAfter t; ct_DNSNames := tp_DNSNames t |}.
Proof.
  intros Hn Ht. unfold decode, encode.
  rewrite (Split_Join ","%char); [by rewrite parse_signed_pretty|done|].
  constructor; [rewrite pretty_Z_nonneg by done; by apply pretty_N_free|].
  apply List.Forall_forall. by apply forallb_forall.
Qed.

#[global] Program Instance secrets : SecretStore world := { secret_at w ns n := w !! (ns, n) }.
Next Obligation. intros ns n w. cbn. destruct (w !! (ns, n)); eauto. Qed.
Next Obligation.
  intros s w r w' H ns n. assert (r = Found tt /\ w' = <[(so_Namespace s, so_Name s) := so_Data s]> w) as [-> ->].
  { destruct H as [H|H]; cbn in H; unfold store in H; by inversion H. }
  cbn. unfold world in *. case_decide as E.
  - destruct E as [-> ->]. apply lookup_insert_eq.
  - rewrite lookup_insert_ne; [done|]. intros ?; simplify_eq. tauto.
Qed.
Next Obligation.
  intros t ca w r w' ns n. cbn. destruct (_ && _); unfold io_ret, io_err; intros; by simplify_eq.
Qed.
Next Obligation.
  intros t ca w pems w'. cbn. destruct (_ && _) eqn:E; unfold io_ret, io_err; intros; simplify_eq.
  apply andb_prop in E as [Hn Ht%bool_decide_eq_true]. eexists. split; [by apply decode_encode|].
  cbn. split; [|done]. unfold Second, Millisecond. split; lia.
Qed.
Next Obligation. intros key key'. cbn. intros; by simplify_eq. Qed.
End SimCerts.

Lemma leaf_reconcile_witness :
  let l := dashboard_leaf "cluster.local" "prod" "wazuh" in
  let ca := {| cr_Certificate := {| ct_NotAfter := 0; ct_DNSNames := [] |};
               cr_CertificatePEM := "ca"; cr_PrivateKeyPEM := "cakey" |} in
  exists w', reconcileLeafCert "cluster.local" "prod" "wazuh" 0 DefaultCertificateOptions ca l
               (∅ : SimCerts.world) = (Ok false, w') /\
    exists d, secret_at w' "wazuh" "prod-dashboard-certs" = Some d /\
      fresh_leaf 0 DefaultCertificateOptions ca l d.
Proof.
  cbv zeta. destruct (reconcileLeafCert _ _ _ _ _ _ _ _) as [r w'] eqn:E. exists w'.
  assert (r = Ok false) as -> by (change r with (r, w').1; rewrite <-E; vm_compute; reflexivity).
  split; [reflexivity|].
  apply (leaf_reconcile "cluster.local" "prod" "wazuh") in E. apply E.
Defined.

(** Certificates of the user.  A run that succeeds leaves in the secrets
    of the indexer, the two managers and the dashboard the keys of the node
    secret beside the authority under [root-ca.pem]; under [ca.crt], where the
    pods read the authority, there is what the node secret itself had, if
    anything, whatever [caSecretRef] says. *)
Theorem custom_ca_key {W} `{!X509 W, !SecretClient W, !SecretStore W} clusterName namespace version sha256_hex
    (customCerts : CustomCertsConfig) (ca node : SecretKeySelector) (w : W) r w' :
  cu_CASecretRef customCerts = Some ca -> cu_NodeSecretRef customCerts = Some node ->
  sel_Name node <> clusterName +:+ "-ca" ->
  reconcileCustomCerts clusterName namespace version sha256_hex customCerts w = (Ok r, w') ->
  exists caData nodeData,
    secret_at w namespace (sel_Name ca) = Some caData /\ secret_at w namespace (sel_Name node) = Some nodeData /\
    forall suffix, In suffix ["-indexer-certs"; "-manager-master-certs"; "-manager-worker-certs"; "-dashboard-certs"] ->
      exists d, secret_at w' namespace (clusterName +:+ suffix) = Some d /\
        d !! SecretKeyCACert = nodeData !! SecretKeyCACert /\
        d !! SecretKeyRootCA = Some (default (data_at caData (sel_Key ca)) (nodeData !! SecretKeyRootCA)).
Proof.
  intros Hca Hnode Hdiff. unfold reconcileCustomCerts. rewrite Hca, Hnode. cbv zeta.
  intros (caData & w1 & [-> HcaData]%io_wrap_ok%read_ref_spec & H)%io_bind_ok.
  apply io_bind_ok in H as (? & w2 & [Ho2 _]%io_wrap_ok%ensure_spec & H).
  apply io_bind_ok in H as (? & w3 & Hn & H). cbn [custom_part] in Hn.
  apply io_bind_ok in Hn as (nodeData & w4 & [-> Hnd]%io_wrap_ok%read_ref_spec & Hcopies%io_wrap_ok).
  exists caData, nodeData. split; [done|]. split; [rewrite <-Ho2; [done|by right]|].
  apply io_bind_ok in H as (? & w5 & Ha & H). apply io_bind_ok in H as (? & w6 & Hf & H).
  pose proof (custom_part_keeps clusterName namespace version "-admin-certs" _ _ _ _ _ _ _ Ha) as Hka.
  pose proof (custom_part_keeps clusterName namespace version "-filebeat-certs" _ _ _ _ _ _ _ Hf) as Hkf.
  apply io_bind_ok in H as (h & w7 & Hc & H). injection H as _ <-.
  apply collect_same in Hc as ->.
  intros suffix Hin. pose proof (copies_spec _ _ _ _ _ _ _ _ Hcopies suffix Hin) as Hs.
  exists (custom_data (data_at caData (sel_Key ca)) nodeData). split_and!.
  - rewrite Hkf, Hka; [done|..]; intros E%append_inj; subst suffix;
      by repeat (destruct Hin as [Hin|Hin]; [discriminate Hin|]).
  - by apply custom_data_ne.
  - apply custom_data_eq.
Qed.

Lemma custom_ca_key_witness :
  let cu := {| cu_CASecretRef := Some {| sel_Name := "my-ca"; sel_Key := "ca.crt" |};
               cu_NodeSecretRef := Some {| sel_Name := "my-node"; sel_Key := "tls.crt" |};
               cu_AdminSecretRef := None; cu_FilebeatSecretRef := None |} in
  let w : SimCerts.world :=
    {[ ("wazuh", "my-ca") := {[ "ca.crt" := "CA" ]};
       ("wazuh", "my-node") := <[ "tls.crt" := "cert" ]> {[ "tls.key" := "key" ]} ]} in
  exists r w' d, reconcileCustomCerts "prod" "wazuh" "4.9.0" id cu w = (Ok r, w') /\
    secret_at w' "wazuh" "prod-indexer-certs" = Some d /\ d !! SecretKeyCACert = None.
Proof.
  cbv zeta. destruct (reconcileCustomCerts _ _ _ _ _ _) as [r0 w'] eqn:E.
  assert (Hok : is_ok r0 = true) by (change r0 with (r0, w').1; rewrite <-E; vm_compute; reflexivity).
  destruct r0 as [r|e]; [|discriminate Hok]. exists r, w'.
  apply (custom_ca_key _ _ _ _ _ {| sel_Name := "my-ca"; sel_Key := "ca.crt" |}
           {| sel_Name := "my-node"; sel_Key := "tls.crt" |}) in E;
    [|reflexivity|reflexivity|discriminate].
  destruct E as (caData & nodeData & _ & Hn & Hs).
  assert (Hnone : match secret_at ({[ ("wazuh", "my-ca") := {[ "ca.crt" := "CA" ]};
                      ("wazuh", "my-node") := <[ "tls.crt" := "cert" ]> {[ "tls.key" := "key" ]} ]} : SimCerts.world)
                    "wazuh" "my-node" with Some d => d !! SecretKeyCACert | None => None end = None)
    by (vm_compute; reflexivity).
  cbn [sel_Name] in Hn. rewrite Hn in Hnone.
  destruct (Hs "-indexer-certs" (or_introl eq_refl)) as (d & Hd & Hca & _).
  exists d. split; [reflexivity|]. split; [exact Hd|]. rewrite Hca. exact Hnone.
Defined.
