(* ===== verification/HotReload.v ===== *)
(** * Reloading certificates ([internal/opensearch/hotreload])

    After the indexer's certificate was renewed, the operator waits until the
    kubelet shows it to the first pod, then asks every pod in turn to reload
    it.  Sleeping, [exec] into a pod and HTTP are the interface [Pods]; the
    waits run until a deadline ([poll]), whose fuel is the number of attempts.

    One reconcile reads the wall clock as often as the code does here. *)
From S2P Require Import Prelude GoStrings GoFloat Kube DrainState IndexerDrain ManagerDrain Cluster ClientFactory.
From S2P Require Import Maintenance Versions Certificates.
From Stdlib Require Import Ascii.
Local Open Scope go_scope.
Local Open Scope list_scope.

(** ** The client ([internal/opensearch/api/client.go]) *)

(** [api.ClientConfig] for one pod. *)
Record PodClient := {
  pc_BaseURL : string;
  pc_CACert : string;
  pc_ClientCert : string;
  pc_ClientKey : string;
  pc_Insecure : bool
}.

(** A response: the status code, and the body when it could be read. *)
Definition response : Type := (Z * result string)%type.

Class Pods (W : Type) := {
  (** [time.Now()] *)
  clock : IO W Z;
  (** waiting on [time.After] and the context; an error is [ctx.Err()] *)
  pause : duration -> IO W unit;
  (** [execReadCertificate]: the standard output of [cat] in the container
      [opensearch] of the pod *)
  exec_cat : string -> string -> string -> IO W string;
  http : PodClient -> string -> string -> IO W response
}.

Section Client.
Context {W : Type} `{!Pods W}.
(** [AppendCertsFromPEM], [tls.X509KeyPair], and the member [status] of a JSON
    object ([None]: not JSON). *)
Context (pem_ok : string -> bool) (X509KeyPair : string -> string -> result unit).
Context (json_status : string -> option string).

Definition nonempty (s : string) : bool := negb (bool_decide (s = "")).

(** [api.NewClient] *)
Definition NewPodClient (c : PodClient) : result PodClient :=
  if nonempty (pc_CACert c) && negb (pem_ok (pc_CACert c)) then Err "failed to parse CA certificate"
  else if nonempty (pc_ClientCert c) && nonempty (pc_ClientKey c) then
    match X509KeyPair (pc_ClientCert c) (pc_ClientKey c) with
    | Err e => Err (errorf "failed to load client certificate" e)
    | Ok _ => Ok c
    end
  else Ok c.

Definition status_error (what : string) (code : Z) (body : string) : error :=
  what +:+ " failed with status " +:+ pretty code +:+ ": " +:+ body.

(** The status of the security plugin. *)
Definition CheckSecurityHealth (c : PodClient) : IO W string :=
  resp <- io_wrap "failed to check security health" (http c "GET" "/_plugins/_security/health") ;;
  match resp.2 with
  | Err e => io_err (errorf "failed to read response body" e)
  | Ok body =>
      if bool_decide (resp.1 = 200) then io_ret (default "UP" (json_status body))
      else io_err (status_error "security health check" resp.1 body)
  end.

Definition IsSecurityHealthy (c : PodClient) : IO W bool :=
  try r <- CheckSecurityHealth c ;;
  io_ret (match r with Ok status => bool_decide (status = "UP") | Err _ => false end).

(** [ReloadTransportCertificates], [ReloadHTTPCertificates] *)
Definition reload_path (layer : string) : string := "/_plugins/_security/api/ssl/" +:+ layer +:+ "/reloadcerts".

Definition reload_layer (c : PodClient) (layer noun : string) : IO W unit :=
  resp <- io_wrap ("failed to reload " +:+ noun +:+ " certificates") (http c "PUT" (reload_path layer)) ;;
  match resp.2 with
  | Err e => io_err (errorf "failed to read response body" e)
  | Ok body => if bool_decide (resp.1 = 200) then io_ret tt
               else io_err (status_error "certificate reload" resp.1 body)
  end.

Definition ReloadAllCertificates (c : PodClient) : IO W unit :=
  try t <- reload_layer c "transport" "transport" ;;
  try h <- reload_layer c "http" "HTTP" ;;
  let errs := (match t with Err e => [errorf "transport" e] | Ok _ => [] end) ++
              (match h with Err e => [errorf "http" e] | Ok _ => [] end) in
  match errs with
  | [] => io_ret tt
  | _ => io_err ("certificate reload errors: " +:+ Join "; " errs)
  end.

(** ** Waiting ([reload_api.go], [propagation.go]) *)

(** An attempt of a wait. *)
Inductive poll_step := Ready | NotYet (why : option error).

(** The three loops: until [deadline], an attempt and a pause that grows by
    [next]; [expired] makes the error of the last failure.  [None]: the fuel
    was not enough. *)
Fixpoint poll (fuel : nat) (attempt : IO W poll_step) (next : duration -> duration)
    (expired : option error -> error) (deadline : Z) (backoff : duration) (lastErr : option error)
    : IO W (option unit) :=
  match fuel with
  | O => io_ret None
  | S fuel =>
      now <- clock ;;
      if bool_decide (deadline < now) then io_err (expired lastErr)
      else
        step <- attempt ;;
        match step with
        | Ready => io_ret (Some tt)
        | NotYet why =>
            pause backoff ;;;
            poll fuel attempt next expired deadline (next backoff)
              (match why with Some e => Some e | None => lastErr end)
        end
  end.

(** [backoff = time.Duration(float64(backoff) * 1.5)], at most 5 seconds; the
    products are exact. *)
Definition next_backoff (backoff : duration) : duration := Z.min (5 * Second) (backoff * 3 / 2).

Definition waitForSecurityReady (fuel : nat) (c : PodClient) (timeout : duration) : IO W (option unit) :=
  now <- clock ;;
  poll fuel
    (try r <- CheckSecurityHealth c ;;
     io_ret (match r with
             | Ok status => if bool_decide (status = "UP") then Ready else NotYet None
             | Err e => NotYet (Some e)
             end))
    next_backoff
    (fun lastErr => let msg := "timeout waiting for security to be ready after " +:+ Duration_String timeout in
                    match lastErr with Some e => errorf (msg +:+ ": last error") e | None => msg end)
    (now + timeout) Second None.

Definition waitForCertificatePropagationViaTLS (fuel : nat) (podURL caCert adminCert adminKey : string)
    (timeout : duration) : IO W (option unit) :=
  now <- clock ;;
  poll fuel
    (match NewPodClient {| pc_BaseURL := podURL; pc_CACert := caCert; pc_ClientCert := adminCert;
                           pc_ClientKey := adminKey; pc_Insecure := false |} with
     | Err _ => io_ret (NotYet None)
     | Ok c => healthy <- IsSecurityHealthy c ;; io_ret (if healthy : bool then Ready else NotYet None)
     end)
    id (fun _ => "timeout waiting for certificate propagation after " +:+ Duration_String timeout) (now + timeout) (5 * Second) None.

(** What precedes the last occurrence of [sub], a nonempty string. *)
Fixpoint before_last (sub s : string) : option string :=
  match s with
  | "" => None
  | String c s' => match before_last sub s' with
                   | Some p => Some (String c p)
                   | None => if HasPrefix s sub then Some "" else None
                   end
  end.

(** Pod, namespace and cluster of a pod's address. *)
Definition pod_info (podURL : string) : result (string * string * string) :=
  match Split "."%char (TrimPrefix podURL "https://") with
  | podName :: _ :: namespace :: _ =>
      let clusterName := TrimSuffix (TrimSuffix podName "-0") "-indexer" in
      Ok (podName, namespace, match before_last "-indexer-" podName with
                              | Some (String c p) => String c p
                              | _ => clusterName
                              end)
  | _ => Err ("invalid pod URL format: " +:+ podURL)
  end.
End Client.

(** ** Hot reload *)

(** [cluster.Spec.TLS] *)
Record HotReloadConfig := { hr_Enabled : bool; hr_ForceAPIReload : bool }.

Record TLSConfig := {
  tls_Enabled : option bool;
  tls_CertConfig : option CertificateConfig;
  tls_CustomCerts : option CustomCertsConfig;
  tls_HotReload : option HotReloadConfig;
  tls_CAMaintenance : option CAMaintenanceConfig
}.

Record PodReloadResult := {
  pr_PodName : string;
  pr_PodURL : string;
  pr_Success : bool;
  pr_Error : option error;
  pr_Attempts : Z
}.

Record HotReloadResult := {
  hrr_Supported : bool;
  hrr_RequiresAPICall : bool;
  hrr_APICallMade : bool;
  hrr_Error : option error;
  hrr_PodResults : list PodReloadResult;
  hrr_TotalPods : Z;
  hrr_SuccessfulPods : Z
}.

Definition hot_reload_result (supported api : bool) (e : option error) : HotReloadResult :=
  {| hrr_Supported := supported; hrr_RequiresAPICall := api; hrr_APICallMade := false; hrr_Error := e;
     hrr_PodResults := []; hrr_TotalPods := 0; hrr_SuccessfulPods := 0 |}.

Definition ShouldTriggerHotReload (tls : option TLSConfig) : bool :=
  match tls with
  | None => false
  | Some t => if bool_decide (tls_Enabled t = Some false) then false
              else match tls_HotReload t with None => true | Some h => hr_Enabled h end
  end.

Definition ShouldForceAPIReload (tls : option TLSConfig) : bool :=
  match tls ≫= tls_HotReload with None => false | Some h => hr_ForceAPIReload h end.

Section Reload.
Context {W : Type} `{!Pods W, !SecretClient W}.
Context (sha256_hex : string -> string) (pem_ok : string -> bool) (X509KeyPair : string -> string -> result unit).
Context (json_status : string -> option string) (clusterDomain : string).
(** Is there a [RESTConfig]? the fuel of the waits. *)
Context (can_exec : bool) (fuel : nat).
Context (clusterName namespace : string).

(** The value of a key of a secret. *)
Definition secret_value (secretName what key : string) : IO W string :=
  s <- io_wrap ("failed to get " +:+ what +:+ " secret " +:+ secretName)
         (io_api (read_secret namespace secretName)) ;;
  match so_Data s !! key with
  | None => io_err (key +:+ " not found in secret " +:+ secretName)
  | Some v => io_ret v
  end.

Definition getCACertificate : IO W string := secret_value (clusterName +:+ "-ca") "CA" SecretKeyCACert.

(** The secret is read once. *)
Definition getAdminCertificate : IO W (string * string) :=
  let secretName := clusterName +:+ "-admin-certs" in
  s <- io_wrap ("failed to get admin cert secret " +:+ secretName) (io_api (read_secret namespace secretName)) ;;
  match so_Data s !! SecretKeyTLSCert, so_Data s !! SecretKeyTLSKey with
  | None, _ => io_err ("tls.crt not found in secret " +:+ secretName)
  | Some _, None => io_err ("tls.key not found in secret " +:+ secretName)
  | Some cert, Some key => io_ret (cert, key)
  end.

Definition getIndexerNodeCertificate (namespace clusterName : string) : IO W string :=
  let secretName := clusterName +:+ "-indexer-certs" in
  s <- io_wrap ("failed to get indexer cert secret " +:+ secretName) (io_api (read_secret namespace secretName)) ;;
  match so_Data s !! SecretKeyTLSCert with
  | None => io_err ("tls.crt not found in secret " +:+ secretName)
  | Some v => io_ret v
  end.

Definition PathIndexerCerts : string := "/usr/share/wazuh-indexer/config/certs".

Definition waitForCertificatePropagation (podURL caCert adminCert adminKey : string) (timeout : duration)
    : IO W (option unit) :=
  match pod_info podURL with
  | Err e => io_err e
  | Ok (podName, namespace, clusterName) =>
      let via_tls :=
        waitForCertificatePropagationViaTLS pem_ok X509KeyPair json_status fuel podURL caCert adminCert
          adminKey timeout in
      if negb can_exec then via_tls
      else
        try expected <- getIndexerNodeCertificate namespace clusterName ;;
        match expected with
        | Err _ => via_tls
        | Ok expectedCert =>
            let expectedHash := sha256_hex expectedCert in
            now <- clock ;;
            poll fuel
              (try r <- exec_cat namespace podName (PathIndexerCerts +:+ "/" +:+ SecretKeyTLSCert) ;;
               io_ret (match r with
                       | Ok content => if bool_decide (sha256_hex content = expectedHash)
                                       then Ready else NotYet None
                       | Err _ => NotYet None
                       end))
              id (fun _ => "timeout waiting for certificate sync after " +:+ Duration_String timeout
                        +:+ " - kubelet may be slow or certificates not mounted") (now + timeout) (5 * Second) None
        end
  end.

(** [callReloadWithRetry]: attempt [4 - left] of 3. *)
Fixpoint reload_attempts (c : PodClient) (left : nat) (backoff : duration) : IO W unit :=
  match left with
  | O => io_err "all 3 retry attempts failed"
  | S left' =>
      try r <- ReloadAllCertificates c ;;
      match r with
      | Ok _ => io_ret tt
      | Err e =>
          match left' with
          | O => io_err (errorf "all 3 retry attempts failed" e)
          | _ => pause backoff ;;; reload_attempts c left' (2 * backoff)
          end
      end
  end.

Definition callReloadWithRetry (c : PodClient) : IO W unit := reload_attempts c 3 Second.

Definition pod_name (i : Z) : string := clusterName +:+ "-indexer-" +:+ pretty i.
Definition pod_url (i : Z) : string :=
  "https://" +:+ dns_PodFQDN clusterDomain (pod_name i) (clusterName +:+ "-indexer-headless") namespace
  +:+ ":" +:+ pretty PortIndexerREST.

Definition pod_client (caCert adminCert adminKey : string) (i : Z) : PodClient :=
  {| pc_BaseURL := pod_url i; pc_CACert := caCert; pc_ClientCert := adminCert; pc_ClientKey := adminKey;
     pc_Insecure := true |}.

Definition pod_result (i : Z) (e : option error) (attempts : Z) : PodReloadResult :=
  {| pr_PodName := pod_name i; pr_PodURL := pod_url i; pr_Success := bool_decide (e = None);
     pr_Error := e; pr_Attempts := attempts |}.

(** One pod: its result and its line in the overall error. *)
Definition reload_pod (caCert adminCert adminKey : string) (i : Z)
    : IO W (option (PodReloadResult * option error)) :=
  match NewPodClient pem_ok X509KeyPair (pod_client caCert adminCert adminKey i) with
  | Err e => io_ret (Some (pod_result i (Some (errorf "failed to create client" e)) 0,
                           Some (pod_name i +:+ ": " +:+ e)))
  | Ok c =>
      try ready <- waitForSecurityReady json_status fuel c (60 * Second) ;;
      match ready with
      | Ok None => io_ret None
      | Err e => io_ret (Some (pod_result i (Some (errorf "security not ready" e)) 0,
                               Some (pod_name i +:+ ": security not ready")))
      | Ok (Some _) =>
          try r <- callReloadWithRetry c ;;
          match r with
          | Err e => io_ret (Some (pod_result i (Some e) 3, Some (pod_name i +:+ ": " +:+ e)))
          | Ok _ => io_ret (Some (pod_result i None 3, None))
          end
      end
  end.

Fixpoint reload_pods (caCert adminCert adminKey : string) (l : list Z)
    : IO W (option (list (PodReloadResult * option error))) :=
  match l with
  | [] => io_ret (Some [])
  | i :: l =>
      r <- reload_pod caCert adminCert adminKey i ;;
      match r with
      | None => io_ret None
      | Some r => rest <- reload_pods caCert adminCert adminKey l ;; io_ret (cons r <$> rest)
      end
  end.

(** What [callReloadCertificatesAPIPerPod] writes into the result: the pods'
    results, their number and the error. *)
Definition reload_report (replicas : Z) (l : list (PodReloadResult * option error))
    : list PodReloadResult * Z * Z * option error :=
  let errors := omap snd l in
  (map fst l, replicas, Z.of_nat (length (List.filter pr_Success (map fst l))),
   match errors with
   | [] => None
   | _ => Some ("certificate reload failed on " +:+ pretty (Z.of_nat (length errors)) +:+ "/" +:+ pretty replicas
                +:+ " pods: " +:+ Join "; " errors)
   end).

Definition callReloadCertificatesAPIPerPod (indexer : option WazuhIndexerClusterSpec) (propagationTimeout : duration)
    : IO W (option (list PodReloadResult * Z * Z * option error)) :=
  try ca <- getCACertificate ;;
  match ca with
  | Err e => io_ret (Some ([], 0, 0, Some (errorf "failed to get CA certificate" e)))
  | Ok caCert =>
      try admin <- getAdminCertificate ;;
      match admin with
      | Err e => io_ret (Some ([], 0, 0, Some (errorf "failed to get admin certificate" e)))
      | Ok (adminCert, adminKey) =>
          let replicas := indexer_replicas indexer in
          let timeout := if bool_decide (propagationTimeout = 0) then 120 * Second else propagationTimeout in
          try propagated <- waitForCertificatePropagation (pod_url 0) caCert adminCert adminKey timeout ;;
          match propagated with
          | Ok None => io_ret None
          | Err e => io_ret (Some ([], replicas, 0, Some (errorf "certificate propagation failed" e)))
          | Ok (Some _) =>
              try waited <- pause (5 * Second) ;;
              match waited with
              | Err e => io_ret (Some ([], replicas, 0, Some e))
              | Ok _ =>
                  r <- reload_pods caCert adminCert adminKey (ordinals replicas) ;;
                  io_ret (reload_report replicas <$> r)
              end
          end
      end
  end.

(** [TriggerHotReload]; [None] when the fuel was not enough. *)
Definition TriggerHotReload (mapping : list (string * WazuhVersionInfo)) (tls : option TLSConfig)
    (version : string) (indexer : option WazuhIndexerClusterSpec) (propagationTimeout : duration)
    : IO W (option HotReloadResult) :=
  let call :=
    r <- callReloadCertificatesAPIPerPod indexer propagationTimeout ;;
    io_ret ((fun '(pods, total, successful, e) =>
               {| hrr_Supported := true; hrr_RequiresAPICall := true; hrr_APICallMade := true; hrr_Error := e;
                  hrr_PodResults := pods; hrr_TotalPods := total; hrr_SuccessfulPods := successful |}) <$> r) in
  if negb (ShouldTriggerHotReload tls) then io_ret (Some (hot_reload_result false false None))
  else
    match GetHotReloadSupportForWazuh mapping version with
    | Err e => io_ret (Some (hot_reload_result false false (Some e)))
    | Ok HotReloadNotSupported => io_ret (Some (hot_reload_result false false None))
    | Ok HotReloadAutomatic =>
        if ShouldForceAPIReload tls then call else io_ret (Some (hot_reload_result true false None))
    | Ok HotReloadWithAPICall => call
    end.
End Reload.

(** ** Programs within a relation

    A preorder of worlds that every call respects is respected by the whole
    hot reload: time, for instance, or keeping the secrets. *)
Definition within {W A} (R : W -> W -> Prop) (m : IO W A) : Prop := forall w r w', m w = (r, w') -> R w w'.

Class PodsWithin {W} `{!Pods W, !SecretClient W} (R : W -> W -> Prop) := {
  within_preorder :: PreOrder R;
  within_clock : within R clock;
  within_pause d : within R (pause d);
  within_exec ns pod file : within R (exec_cat ns pod file);
  within_http c m p : within R (http c m p);
  within_read ns n : within R (io_api (read_secret ns n))
}.

Section Within.
Context {W : Type} (R : W -> W -> Prop) `{!PreOrder R}.

Lemma within_ret {A} (a : A) : within R (io_ret a).
Proof. intros w r w' H. unfold io_ret in H. by simplify_eq. Qed.
Lemma within_err {A} e : within R (io_err (A := A) e).
Proof. intros w r w' H. unfold io_err in H. by simplify_eq. Qed.
Lemma within_bind {A B} (m : IO W A) (k : A -> IO W B) :
  within R m -> (forall a, within R (k a)) -> within R (io_bind m k).
Proof.
  intros Hm Hk w r w'. unfold io_bind. destruct (m w) as [[a|e] w1] eqn:E; intros H.
  - transitivity w1; [by eapply Hm|by eapply Hk].
  - simplify_eq. by eapply Hm.
Qed.
Lemma within_try {A B} (m : IO W A) (k : result A -> IO W B) :
  within R m -> (forall a, within R (k a)) -> within R (io_try m k).
Proof.
  intros Hm Hk w r w'. unfold io_try. destruct (m w) as [a w1] eqn:E; intros H.
  transitivity w1; [by eapply Hm|by eapply Hk].
Qed.
Lemma within_wrap {A} e (m : IO W A) : within R m -> within R (io_wrap e m).
Proof. intros Hm w r w'. unfold io_wrap. destruct (m w) as [a w1] eqn:E; intros; simplify_eq. by eapply Hm. Qed.
End Within.

(** Case analysis down to the calls. *)
Ltac go_within :=
  intros; cbv zeta;
  repeat match goal with
         | |- within ?R (io_bind _ _) => apply (within_bind R); [|intros]
         | |- within ?R (io_try _ _) => apply (within_try R); [|intros]
         | |- within ?R (io_wrap _ _) => apply (within_wrap R)
         | |- within _ (match ?x with _ => _ end) => destruct x
         | |- within ?R (io_ret _) => apply (within_ret R)
         | |- within ?R (io_err _) => apply (within_err R)
         | |- within _ _ => solve [apply within_clock | apply within_pause | apply within_exec
                                  | apply within_http | apply within_read | eauto 1]
         end.

Section Calls.
Context {W : Type} `{!Pods W, !SecretClient W} (R : W -> W -> Prop) `{!PodsWithin R}.
Context (sha256_hex : string -> string) (pem_ok : string -> bool) (X509KeyPair : string -> string -> result unit).
Context (json_status : string -> option string) (clusterDomain : string) (can_exec : bool) (fuel : nat).

Lemma within_health c : within R (CheckSecurityHealth json_status c).
Proof. unfold CheckSecurityHealth. go_within. Qed.

Lemma within_healthy c : within R (IsSecurityHealthy json_status c).
Proof. unfold IsSecurityHealthy. pose proof (within_health c). go_within. Qed.

Lemma within_layer c layer noun : within R (reload_layer c layer noun).
Proof. unfold reload_layer. go_within. Qed.

Lemma within_reload c : within R (ReloadAllCertificates c).
Proof. unfold ReloadAllCertificates. pose proof (within_layer c). go_within. Qed.

Lemma within_poll n attempt next expired deadline backoff lastErr :
  within R attempt -> within R (poll n attempt next expired deadline backoff lastErr).
Proof.
  intros Ha. revert backoff lastErr. induction n as [|n IH]; intros; cbn [poll]; go_within.
Qed.

Lemma within_attempts c left backoff : within R (reload_attempts c left backoff).
Proof.
  revert backoff. induction left as [|left IH]; intros backoff; cbn [reload_attempts];
    pose proof (within_reload c); [go_within|].
  destruct left; go_within; apply IH.
Qed.

Lemma within_tls url ca cert key timeout :
  within R (waitForCertificatePropagationViaTLS pem_ok X509KeyPair json_status fuel url ca cert key timeout).
Proof.
  unfold waitForCertificatePropagationViaTLS. pose proof within_healthy. go_within. apply within_poll. go_within.
Qed.

Lemma within_propagation url ca cert key timeout :
  within R (waitForCertificatePropagation sha256_hex pem_ok X509KeyPair json_status can_exec fuel
              url ca cert key timeout).
Proof.
  unfold waitForCertificatePropagation, getIndexerNodeCertificate. pose proof (within_tls url).
  go_within. apply within_poll. go_within.
Qed.

Section Cluster.
Context (clusterName namespace : string).

Lemma within_pod ca cert key i :
  within R (reload_pod pem_ok X509KeyPair json_status clusterDomain fuel clusterName namespace ca cert key i).
Proof.
  unfold reload_pod, waitForSecurityReady, callReloadWithRetry.
  pose proof within_health as Hh. pose proof within_attempts as Ha.
  go_within; try apply Ha; apply within_poll; go_within.
Qed.

Lemma within_pods ca cert key l :
  within R (reload_pods pem_ok X509KeyPair json_status clusterDomain fuel clusterName namespace ca cert key l).
Proof.
  induction l; cbn [reload_pods]; pose proof (within_pod ca cert key); go_within.
Qed.

Lemma within_trigger mapping tls version indexer timeout :
  within R (TriggerHotReload sha256_hex pem_ok X509KeyPair json_status clusterDomain can_exec fuel
              clusterName namespace mapping tls version indexer timeout).
Proof.
  unfold TriggerHotReload, callReloadCertificatesAPIPerPod, getCACertificate, getAdminCertificate, secret_value.
  pose proof within_propagation. pose proof within_pods. go_within.
Qed.
End Cluster.
End Calls.

(** ** Time and history

    What the theorems use of the pods: time passes while the operator waits
    and never goes back; and [reloaded w c p]: the pod of [c] has answered a
    [PUT] on [p] with 200, which is not forgotten. *)
Class PodsHistory (W : Type) `{!Pods W, !SecretClient W} := {
  time_of : W -> Z;
  reloaded : W -> PodClient -> string -> Prop;
  later w w' := time_of w <= time_of w' /\ forall c p, reloaded w c p -> reloaded w' c p;
  clock_reads w : clock w = (Ok (time_of w), w);
  pause_later d w r w' : pause d w = (r, w') -> later w w' /\ (r = Ok tt -> time_of w + d <= time_of w');
  exec_later ns pod file w r w' : exec_cat ns pod file w = (r, w') -> later w w';
  http_later c m p w r w' : http c m p w = (r, w') -> later w w';
  http_put c p w b w' : http c "PUT" p w = (Ok (200, Ok b), w') -> reloaded w' c p;
  read_later ns n w r w' : read_secret ns n w = (r, w') -> later w w'
}.

#[export] Instance later_within {W} `{!Pods W, !SecretClient W, !PodsHistory W} : PodsWithin later.
Proof.
  split.
  - split; [by intros w; split|]. intros w1 w2 w3 [? H1] [? H2]. split; [lia|]. auto.
  - intros w r w'. rewrite clock_reads. intros; by simplify_eq.
  - intros d w r w' H. by apply pause_later in H as [? _].
  - intros ns pod file w r w' H. by apply exec_later in H.
  - intros c m p w r w' H. by apply http_later in H.
  - intros ns n w r w'. unfold io_api. destruct (read_secret ns n w) as [a w1] eqn:E. intros; simplify_eq.
    by apply read_later in E.
Qed.

Section Terminates.
Context {W : Type} `{!Pods W, !SecretClient W, !PodsHistory W}.
Context (pem_ok : string -> bool) (X509KeyPair : string -> string -> result unit).
Context (json_status : string -> option string).

(** A wait ends: [b] is the shortest pause. *)
Lemma poll_ends b next fuel attempt expired deadline backoff lastErr w : 0 < b ->
  within later attempt -> (forall x, b <= x -> b <= next x) -> b <= backoff ->
  deadline - time_of w < (Z.of_nat fuel - 1) * b -> (0 < fuel)%nat ->
  forall w', poll fuel attempt next expired deadline backoff lastErr w <> (Ok None, w').
Proof.
  intros Hb Ha Hn. revert backoff lastErr w. induction fuel as [|fuel IH]; intros backoff lastErr w Hback Hd Hf w'; [lia|].
  cbn [poll]. unfold io_bind at 1. rewrite clock_reads. case_bool_decide as Hdl; [done|].
  assert (0 < fuel)%nat by nia.
  unfold io_bind at 1. destruct (attempt w) as [[step|e] w1] eqn:E1; [|done].
  pose proof (Ha _ _ _ E1) as [Ht1 _]. destruct step as [|why]; [done|].
  unfold io_bind at 1. destruct (pause backoff w1) as [[[]|e] w2] eqn:E2; [|done].
  pose proof (pause_later _ _ _ _ E2) as [_ Ht2]. specialize (Ht2 eq_refl).
  apply IH; [by apply Hn| |done]. nia.
Qed.

Lemma next_backoff_grows x : Second <= x -> Second <= next_backoff x.
Proof.
  intros Hx. unfold next_backoff. apply Z.min_glb; [by vm_compute|].
  apply Z.div_le_lower_bound; [done|]. unfold Second, Millisecond in *. lia.
Qed.

Lemma security_ends fuel c w : (62 <= fuel)%nat ->
  forall w', waitForSecurityReady json_status fuel c (60 * Second) w <> (Ok None, w').
Proof.
  intros Hf w'. unfold waitForSecurityReady. unfold io_bind at 1. rewrite clock_reads.
  apply (poll_ends Second); [by vm_compute| |apply next_backoff_grows|done| |lia].
  - pose proof (within_health later json_status c). go_within.
  - unfold Second, Millisecond. nia.
Qed.

Lemma tls_ends fuel url ca cert key timeout w : timeout < (Z.of_nat fuel - 1) * (5 * Second) -> (0 < fuel)%nat ->
  forall w', waitForCertificatePropagationViaTLS pem_ok X509KeyPair json_status fuel url ca cert key timeout w
             <> (Ok None, w').
Proof.
  intros Ht Hf w'. unfold waitForCertificatePropagationViaTLS. unfold io_bind at 1. rewrite clock_reads.
  apply (poll_ends (5 * Second)); [by vm_compute| |done|done|lia|lia].
  pose proof (within_healthy later json_status). go_within.
Qed.
End Terminates.

Section Safe.
Context {W : Type} `{!Pods W, !SecretClient W, !PodsHistory W}.
Context (sha256_hex : string -> string) (pem_ok : string -> bool) (X509KeyPair : string -> string -> result unit).
Context (json_status : string -> option string) (clusterDomain : string) (can_exec : bool) (fuel : nat).
Context (clusterName namespace : string).
Hypothesis (Hfuel : (62 <= fuel)%nat).

Lemma io_try_ok {A B} (m : IO W A) (k : result A -> IO W B) w :
  io_try m k w = let '(r, w') := m w in k r w'.
Proof. done. Qed.

Lemma propagation_ends url ca cert key timeout w : timeout < (Z.of_nat fuel - 1) * (5 * Second) ->
  forall w', waitForCertificatePropagation sha256_hex pem_ok X509KeyPair json_status can_exec fuel
               url ca cert key timeout w <> (Ok None, w').
Proof.
  intros Ht w'. unfold waitForCertificatePropagation. destruct (pod_info url) as [[[pod ns] cn]|]; [|done].
  cbv zeta. destruct can_exec; cbn [negb]; [|by apply tls_ends; [|lia]].
  rewrite io_try_ok. destruct (getIndexerNodeCertificate ns cn w) as [[expected|e] w1]; [|by apply tls_ends; [|lia]].
  unfold io_bind at 1. rewrite clock_reads. apply (poll_ends (5 * Second)); [by vm_compute| |done|done|lia|lia].
  go_within.
Qed.

Lemma reload_pod_answers ca cert key i w : exists r w',
  reload_pod pem_ok X509KeyPair json_status clusterDomain fuel clusterName namespace ca cert key i w
  = (Ok (Some r), w').
Proof.
  unfold reload_pod. destruct (NewPodClient _ _ _) as [c|e]; [|eexists _, _; reflexivity].
  rewrite io_try_ok. destruct (waitForSecurityReady _ _ _ _ w) as [[[u|]|e] w1] eqn:E.
  - rewrite io_try_ok. destruct (callReloadWithRetry c w1) as [[]]; eexists _, _; reflexivity.
  - by apply security_ends in E.
  - eexists _, _; reflexivity.
Qed.

Lemma reload_pods_answer ca cert key l w : exists r w',
  reload_pods pem_ok X509KeyPair json_status clusterDomain fuel clusterName namespace ca cert key l w
  = (Ok (Some r), w').
Proof.
  revert w. induction l as [|i l IH]; intros w; cbn [reload_pods]; [eexists _, _; reflexivity|].
  destruct (reload_pod_answers ca cert key i w) as (r & w1 & E). unfold io_bind at 1. rewrite E.
  destruct (IH w1) as (rest & w2 & E2). unfold io_bind. rewrite E2. eexists _, _; reflexivity.
Qed.

Lemma call_answers indexer timeout w :
  (if bool_decide (timeout = 0) then 120 * Second else timeout) < (Z.of_nat fuel - 1) * (5 * Second) ->
  exists r w', callReloadCertificatesAPIPerPod sha256_hex pem_ok X509KeyPair json_status clusterDomain can_exec fuel
    clusterName namespace indexer timeout w = (Ok (Some r), w').
Proof.
  intros Ht. unfold callReloadCertificatesAPIPerPod. rewrite io_try_ok.
  destruct (getCACertificate _ _ w) as [[ca|e] w1]; [|eexists _, _; reflexivity].
  rewrite io_try_ok. destruct (getAdminCertificate _ _ w1) as [[[cert key]|e] w2]; [|eexists _, _; reflexivity].
  cbv zeta. rewrite io_try_ok.
  destruct (waitForCertificatePropagation _ _ _ _ _ _ _ _ _ _ _ w2) as [[[u|]|e] w3] eqn:Ep;
    [|by apply propagation_ends in Ep|eexists _, _; reflexivity].
  rewrite io_try_ok. destruct (pause (5 * Second) w3) as [[u'|e] w4]; [|eexists _, _; reflexivity].
  destruct (reload_pods_answer ca cert key (ordinals (indexer_replicas indexer)) w4) as (l & w5 & El).
  unfold io_bind. rewrite El. eexists _, _; reflexivity.
Qed.

(** *** Success is real *)

Lemma reload_layer_ok c layer noun w w' :
  reload_layer c layer noun w = (Ok tt, w') -> reloaded w' c (reload_path layer).
Proof.
  unfold reload_layer. intros ([code b] & w1 & H%io_wrap_ok & H1)%io_bind_ok. cbn in H1.
  destruct b as [b|]; [|done]. case_bool_decide as Ec; [|done]. subst code. unfold io_ret in H1. simplify_eq.
  by eapply http_put.
Qed.

Lemma ReloadAll_ok c w u w' : ReloadAllCertificates c w = (Ok u, w') ->
  reloaded w' c (reload_path "transport") /\ reloaded w' c (reload_path "http").
Proof.
  unfold ReloadAllCertificates. rewrite io_try_ok. destruct (reload_layer c "transport" _ w) as [[[]|e] w1] eqn:E1;
    rewrite io_try_ok; destruct (reload_layer c "http" _ w1) as [[[]|e'] w2] eqn:E2; cbn; try done.
  unfold io_ret. intros; simplify_eq. split; [|by eapply reload_layer_ok].
  apply (within_layer later c) in E2 as [_ Hk]. apply Hk. by eapply reload_layer_ok.
Qed.

Lemma reload_attempts_ok c left backoff w u w' : reload_attempts c left backoff w = (Ok u, w') ->
  reloaded w' c (reload_path "transport") /\ reloaded w' c (reload_path "http").
Proof.
  revert backoff w. induction left as [|left IH]; intros backoff w; cbn [reload_attempts]; [done|].
  rewrite io_try_ok. destruct (ReloadAllCertificates c w) as [[u1|e] w1] eqn:E.
  - unfold io_ret. intros; simplify_eq. by eapply ReloadAll_ok.
  - destruct left; [done|]. intros (? & w2 & _ & H)%io_bind_ok. by apply IH in H.
Qed.

Definition pod_reloaded (w : W) (ca cert key : string) (i : Z) : Prop :=
  let c := pod_client clusterDomain clusterName namespace ca cert key i in
  reloaded w c (reload_path "transport") /\ reloaded w c (reload_path "http").

Lemma reload_pod_ok ca cert key i w r w' :
  reload_pod pem_ok X509KeyPair json_status clusterDomain fuel clusterName namespace ca cert key i w
  = (Ok (Some (r, None)), w') -> pr_Success r = true /\ pod_reloaded w' ca cert key i.
Proof.
  unfold reload_pod.
  destruct (NewPodClient _ _ (pod_client _ _ _ _ _ _ i)) as [c|e] eqn:En; [|done].
  assert (c = pod_client clusterDomain clusterName namespace ca cert key i) as ->.
  { unfold NewPodClient in En. repeat (case_match; try done); by simplify_eq. }
  rewrite io_try_ok. destruct (waitForSecurityReady _ _ _ _ w) as [[[u|]|e] w1]; [|done|done].
  rewrite io_try_ok. destruct (callReloadWithRetry _ w1) as [[u'|e] w2] eqn:Er; [|done].
  unfold io_ret. intros; simplify_eq. split; [done|]. by eapply reload_attempts_ok.
Qed.

Lemma reload_pods_ok ca cert key l w rs w' :
  reload_pods pem_ok X509KeyPair json_status clusterDomain fuel clusterName namespace ca cert key l w
  = (Ok (Some rs), w') ->
  omap snd rs = [] ->
  Forall (fun r => pr_Success r.1 = true) rs /\ length rs = length l /\
  Forall (pod_reloaded w' ca cert key) l.
Proof.
  revert w rs. induction l as [|i l IH]; intros w rs; cbn [reload_pods].
  { unfold io_ret. intros; by simplify_eq. }
  intros (r & w1 & E1 & H)%io_bind_ok Hnone. destruct r as [[r e]|]; [|done].
  apply io_bind_ok in H as (rest & w2 & E2 & H). unfold io_ret in H. simplify_eq.
  destruct rest as [rest|]; [|done]. cbn in H. simplify_eq. cbn in Hnone. destruct e; [done|].
  apply reload_pod_ok in E1 as [Hs [H1 H2]]. pose proof (within_pods later _ _ _ _ _ _ _ _ _ _ _ _ _ _ E2) as [_ Hk].
  apply IH in E2 as (Hall & Hlen & Hl); [|done].
  split_and!; [by constructor|cbn; lia|]. constructor; [split; by apply Hk|done].
Qed.

Lemma call_ok indexer timeout w pods total successful w' :
  callReloadCertificatesAPIPerPod sha256_hex pem_ok X509KeyPair json_status clusterDomain can_exec fuel
    clusterName namespace indexer timeout w = (Ok (Some (pods, total, successful, None)), w') ->
  total = indexer_replicas indexer /\
  successful = Z.of_nat (length (ordinals (indexer_replicas indexer))) /\
  exists ca cert key, Forall (pod_reloaded w' ca cert key) (ordinals (indexer_replicas indexer)).
Proof.
  unfold callReloadCertificatesAPIPerPod. rewrite io_try_ok.
  destruct (getCACertificate _ _ w) as [[ca|e] w1]; [|done].
  rewrite io_try_ok. destruct (getAdminCertificate _ _ w1) as [[[cert key]|e] w2]; [|done].
  cbv zeta. rewrite io_try_ok.
  destruct (waitForCertificatePropagation _ _ _ _ _ _ _ _ _ _ _ w2) as [[[u|]|e] w3]; [|done|done].
  rewrite io_try_ok. destruct (pause (5 * Second) w3) as [[u'|e] w4]; [|done].
  intros (l & w5 & El & H)%io_bind_ok. unfold io_ret in H.
  destruct l as [l|]; [|done]. cbn in H. unfold reload_report in H. cbv zeta in H.
  destruct (omap snd l) eqn:Eo; [|done]. simplify_eq.
  apply reload_pods_ok in El as (Hs & Hlen & Hl); [|done]. split_and!; [done| |by exists ca, cert, key].
  rewrite <-Hlen. f_equal. clear -Hs. induction Hs as [|r l Hr _ IH]; [done|].
  cbn. rewrite Hr. cbn. by rewrite IH.
Qed.
End Safe.

(** C37: A hot reload always answers, within the fuel of its longest wait, and
    means what it says.  Disabled, unsupported or automatic it sends nothing
    and reports no error.  When it calls the API and reports no error, every
    pod of the indexer has answered 200 to the reload of both its layers and
    is counted. *)
Theorem hot_reload_verdict {W} `{!Pods W, !SecretClient W, !PodsHistory W} sha256_hex pem_ok X509KeyPair
    json_status clusterDomain can_exec fuel clusterName namespace mapping tls version indexer timeout (w : W) :
  (62 <= fuel)%nat ->
  (if bool_decide (timeout = 0) then 120 * Second else timeout) < (Z.of_nat fuel - 1) * (5 * Second) ->
  exists r w',
    TriggerHotReload sha256_hex pem_ok X509KeyPair json_status clusterDomain can_exec fuel clusterName namespace
      mapping tls version indexer timeout w = (Ok (Some r), w') /\
    if negb (ShouldTriggerHotReload tls) then r = hot_reload_result false false None /\ w' = w
    else
      match GetHotReloadSupportForWazuh mapping version with
      | Err e => r = hot_reload_result false false (Some e) /\ w' = w
      | Ok HotReloadNotSupported => r = hot_reload_result false false None /\ w' = w
      | Ok support =>
          if bool_decide (support = HotReloadAutomatic) && negb (ShouldForceAPIReload tls)
          then r = hot_reload_result true false None /\ w' = w
          else hrr_APICallMade r = true /\
               (hrr_Error r = None ->
                hrr_TotalPods r = indexer_replicas indexer /\
                hrr_SuccessfulPods r = Z.of_nat (length (ordinals (indexer_replicas indexer))) /\
                exists ca cert key,
                  Forall (pod_reloaded clusterDomain clusterName namespace w' ca cert key)
                    (ordinals (indexer_replicas indexer)))
      end.
Proof.
  intros Hfuel Ht. unfold TriggerHotReload. cbv zeta.
  destruct (ShouldTriggerHotReload tls); cbn [negb]; [|by eexists _, _].
  pose proof (call_answers sha256_hex pem_ok X509KeyPair json_status clusterDomain can_exec fuel clusterName
                namespace Hfuel indexer timeout w Ht) as ([[[pods total] successful] e] & w' & E).
  assert (Hreal : e = None -> total = indexer_replicas indexer /\
            successful = Z.of_nat (length (ordinals (indexer_replicas indexer))) /\
            exists ca cert key, Forall (pod_reloaded clusterDomain clusterName namespace w' ca cert key)
                                  (ordinals (indexer_replicas indexer))).
  { intros ->. by eapply call_ok. }
  destruct (GetHotReloadSupportForWazuh mapping version) as [[]|]; cbn; try by eexists _, _.
  - unfold io_bind. rewrite E. eexists _, _. split; [reflexivity|]. done.
  - destruct (ShouldForceAPIReload tls); cbn; [|by eexists _, _].
    unfold io_bind. rewrite E. eexists _, _. split; [reflexivity|]. done.
Qed.

(** ** Pods to try the theorems on

    A clock that only waiting moves, and pods that answer 200; the world of
    the secrets is [SimCerts]. *)
Module SimPods.
Record pods := { p_time : Z; p_puts : list (PodClient * string) }.
Definition world : Type := pods * SimCerts.world.

#[global] Instance client : SecretClient world := {
  read_secret ns n := lift_snd (read_secret ns n);
  create_secret s := lift_snd (create_secret s);
  update_secret s := lift_snd (update_secret s)
}.

#[global] Instance x509 : X509 world := {
  issue t ca := io_world (issue t ca);
  parse_cert := parse_cert;
  ConvertPrivateKeyPEMToPKCS8 := ConvertPrivateKeyPEMToPKCS8
}.

#[global] Instance pods_client : Pods world := {
  clock := fun w => (Ok (p_time w.1), w);
  pause d := fun w => (Ok tt, ({| p_time := p_time w.1 + Z.max 0 d; p_puts := p_puts w.1 |}, w.2));
  exec_cat ns pod file := io_ret "tls.crt";
  http c m p := fun w =>
    (Ok (200, Ok "{}"),
     if bool_decide (m = "PUT") then ({| p_time := p_time w.1; p_puts := (c, p) :: p_puts w.1 |}, w.2) else w)
}.

Lemma lift_snd_eq {X A} (m : API SimCerts.world A) (w w' : X * SimCerts.world) r :
  lift_snd m w = (r, w') -> m w.2 = (r, w'.2) /\ w'.1 = w.1.
Proof. destruct w as [x w]. unfold lift_snd. destruct (m w) eqn:E. cbn. intros; by simplify_eq. Qed.

Lemma io_world_eq {X A} (m : IO SimCerts.world A) (w w' : X * SimCerts.world) r :
  io_world m w = (r, w') -> m w.2 = (r, w'.2) /\ w'.1 = w.1.
Proof. destruct w as [x w]. unfold io_world. destruct (m w) eqn:E. cbn. intros; by simplify_eq. Qed.

#[global] Program Instance secrets : SecretStore world := { secret_at w ns n := secret_at w.2 ns n }.
Next Obligation.
  intros ns n [p w]. pose proof (read_answers ns n w) as H.
  change (read_secret ns n (p, w)) with (lift_snd (X := pods) (read_secret ns n) (p, w)).
  change ((p, w).2) with w. unfold lift_snd.
  destruct (secret_at w ns n).
  - destruct H as (rv & l & H). exists rv, l. by rewrite H.
  - destruct H as (m & H). exists m. by rewrite H.
Qed.
Next Obligation.
  intros s w r w' H ns n. apply (write_stores s w.2 r w'.2).
  destruct H as [H|H]; apply lift_snd_eq in H as [H _]; [by left|by right].
Qed.
Next Obligation. intros t ca w r w' ns n H. apply io_world_eq in H as [H _]. by eapply issue_keeps. Qed.
Next Obligation. intros t ca w pems w' H. apply io_world_eq in H as [H _]. exact (issue_template (W := SimCerts.world) _ _ _ _ _ H). Qed.
Next Obligation. intros key key' H. by eapply (pkcs8_same (W := SimCerts.world)). Qed.

#[global] Program Instance history : PodsHistory world := {
  time_of w := p_time w.1;
  reloaded w c p := In (c, p) (p_puts w.1)
}.
Next Obligation. intros w. reflexivity. Qed.
Next Obligation. intros d w r w'. cbn. intros; simplify_eq. cbn. split; [split; [lia|done]|lia]. Qed.
Next Obligation. intros ns pod file w r w'. cbn. unfold io_ret. intros; simplify_eq. by split. Qed.
Next Obligation.
  intros c m p w r w'. cbn. intros; simplify_eq. case_bool_decide; [|by split].
  split; [done|]. cbn. auto.
Qed.
Next Obligation. intros c p w b w'. cbn. intros; simplify_eq. by left. Qed.
Next Obligation. intros ns n w r w' H. apply lift_snd_eq in H as [_ ->]. by split. Qed.
End SimPods.

(** Secrets of a cluster of one indexer pod. *)
Definition sim_secrets : SimPods.world :=
  ({| SimPods.p_time := 0; SimPods.p_puts := [] |},
   {[ ("wazuh", "prod-ca") := {[ SecretKeyCACert := "ca" ]};
      ("wazuh", "prod-admin-certs") := <[ SecretKeyTLSCert := "cert" ]> {[ SecretKeyTLSKey := "key" ]};
      ("wazuh", "prod-indexer-certs") := {[ SecretKeyTLSCert := "tls.crt" ]} ]}).

Definition hot_reload_on : option TLSConfig :=
  Some {| tls_Enabled := None; tls_CertConfig := None; tls_CustomCerts := None; tls_HotReload := None;
          tls_CAMaintenance := None |}.

Lemma hot_reload_verdict_witness :
  exists r w',
    TriggerHotReload id (fun _ => true) (fun _ _ => Ok tt) (fun _ => None) "cluster.local" true 62 "prod" "wazuh"
      wazuhVersionMapping hot_reload_on "4.9.0" (Some {| ix_Replicas := 3; ix_NodePools := []; ix_StorageSize := "";
     ix_Networking := no_networking |}) 0 sim_secrets
    = (Ok (Some r), w') /\
    hrr_SuccessfulPods r = 3 /\
    exists ca cert key, Forall (pod_reloaded "cluster.local" "prod" "wazuh" w' ca cert key) (ordinals 3).
Proof.
  destruct (hot_reload_verdict id (fun _ => true) (fun _ _ => Ok tt) (fun _ => None) "cluster.local" true 62
              "prod" "wazuh" wazuhVersionMapping hot_reload_on "4.9.0"
              (Some {| ix_Replicas := 3; ix_NodePools := []; ix_StorageSize := "";
     ix_Networking := no_networking |}) 0 sim_secrets)
    as (r & w' & E & H); [lia|by vm_compute|].
  exists r, w'. split; [exact E|].
  assert (Hs : GetHotReloadSupportForWazuh wazuhVersionMapping "4.9.0" = Ok HotReloadWithAPICall)
    by by vm_compute.
  rewrite Hs in H. cbn in H. destruct H as [_ H].
  assert (He : hrr_Error r = None).
  { assert (Hr : ((fun x => match x with Ok (Some r) => hrr_Error r | _ => Some "" end)
             (TriggerHotReload id (fun _ => true) (fun _ _ => Ok tt) (fun _ => None) "cluster.local" true 62 "prod"
               "wazuh" wazuhVersionMapping hot_reload_on "4.9.0"
               (Some {| ix_Replicas := 3; ix_NodePools := []; ix_StorageSize := "";
     ix_Networking := no_networking |}) 0 sim_secrets).1) = None) by (vm_compute; reflexivity).
    rewrite E in Hr. exact Hr. }
  destruct (H He) as (_ & H2 & H3). split; [rewrite H2; reflexivity|exact H3].
Defined.
