(* ===== verification/CertReconcile.v ===== *)
(** * The certificate reconciler and the restarts it asks for

    [ReconcileWithHashes] ([internal/certificates/reconciler/
    certificate_reconciler.go]): the authority, then every certificate, then
    the hashes of the secrets and, when only the indexer's certificate was
    renewed, the hot reload; and the hashes the [WazuhCluster] controller hands
    to the reconcilers of the components ([controllers/
    wazuhcluster_controller.go]), which restart their pods when a non-empty
    hash changes ([Workload]). *)
From S2P Require Import Prelude GoStrings GoFloat Kube DrainState IndexerDrain ManagerDrain Cluster ClientFactory.
From S2P Require Import Maintenance Versions Certificates HotReload.
From Stdlib Require Import Ascii.
Local Open Scope go_scope.
Local Open Scope list_scope.

Section CertReconcile.
Context {W : Type} `{!X509 W, !SecretClient W, !Pods W}.
Context (sha256_hex : string -> string) (pem_ok : string -> bool) (X509KeyPair : string -> string -> result unit).
Context (json_status : string -> option string) (clusterDomain : string) (can_exec : bool) (fuel : nat).
Context (mapping : list (string * WazuhVersionInfo)).
(** [checkCAMaintenanceWindow] of the cluster's configuration, now and the
    authority's expiry; [None] when it does not end. *)
Context (maintenance : option CAMaintenanceConfig -> Z -> Z -> option CAMaintenanceCheckResult).
(** The cluster: name, namespace, [Spec.Version], [Spec.TLS], [Spec.Indexer]
    and [Spec.Manager]. *)
Context (clusterName namespace version : string) (tls : option TLSConfig).
Context (indexer : option WazuhIndexerClusterSpec) (manager : option WazuhManagerClusterSpec).

Definition with_pending (next : Z) (h : CertHashResult) : CertHashResult :=
  {| ch_CA := ch_CA h; ch_Dashboard := ch_Dashboard h; ch_Indexer := ch_Indexer h;
     ch_ManagerMaster := ch_ManagerMaster h; ch_ManagerWorker := ch_ManagerWorker h;
     ch_Filebeat := ch_Filebeat h; ch_Admin := ch_Admin h; ch_CARenewed := ch_CARenewed h;
     ch_CARenewalPending := true; ch_CARenewalScheduledAt := next;
     ch_IndexerCertsRenewed := ch_IndexerCertsRenewed h; ch_HotReloadTriggered := ch_HotReloadTriggered h;
     ch_HotReloadError := ch_HotReloadError h |}.

Definition with_renewed (ca nodes triggered : bool) (e : option error) (h : CertHashResult) : CertHashResult :=
  {| ch_CA := ch_CA h; ch_Dashboard := ch_Dashboard h; ch_Indexer := ch_Indexer h;
     ch_ManagerMaster := ch_ManagerMaster h; ch_ManagerWorker := ch_ManagerWorker h;
     ch_Filebeat := ch_Filebeat h; ch_Admin := ch_Admin h; ch_CARenewed := ca;
     ch_CARenewalPending := ch_CARenewalPending h; ch_CARenewalScheduledAt := ch_CARenewalScheduledAt h;
     ch_IndexerCertsRenewed := nodes; ch_HotReloadTriggered := triggered; ch_HotReloadError := e |}.

(** [HotReloadError] and [HotReloadTriggered] *)
Definition hot_reload_report (r : HotReloadResult) : bool * option error :=
  match hrr_Error r with
  | Some e => (false, Some e)
  | None => (hrr_APICallMade r || hrr_Supported r && negb (hrr_RequiresAPICall r), None)
  end.

(** Every certificate but the authority's; was the indexer's renewed? *)
Definition reconcile_leaves (now : Z) (opts : CertificateOptions) (ca : CertResult) : IO W bool :=
  io_wrap "failed to reconcile manager certificates"
    (reconcileManagerCerts clusterDomain clusterName namespace now opts ca (worker_replicas manager)) ;;;
  renewed <- io_wrap "failed to reconcile indexer certificates"
               (reconcileIndexerCerts clusterDomain clusterName namespace now opts ca indexer) ;;
  io_wrap "failed to reconcile dashboard certificates"
    (reconcileDashboardCerts clusterDomain clusterName namespace now opts ca) ;;;
  io_wrap "failed to reconcile filebeat certificates"
    (reconcileFilebeatCerts clusterDomain clusterName namespace now opts ca manager) ;;;
  io_wrap "failed to reconcile admin certificates"
    (reconcileAdminCerts clusterDomain clusterName namespace now opts ca) ;;;
  io_ret renewed.

Definition ReconcileWithHashes (now : Z) (propagationTimeout : duration) : IO W (run CertHashResult) :=
  match tls ≫= tls_CustomCerts with
  | Some customCerts =>
      r <- reconcileCustomCerts clusterName namespace version sha256_hex customCerts ;;
      io_ret (Finished r)
  | None =>
      let opts := getCertOptions (tls ≫= tls_CertConfig) in
      ca <- io_wrap "failed to reconcile CA"
              (reconcileCA clusterName namespace now (maintenance (tls ≫= tls_CAMaintenance) now) opts) ;;
      match ca with
      | Hangs => io_ret Hangs
      | Finished ca =>
          if car_RenewalPending ca then
            h <- collectCertHashes clusterName namespace sha256_hex ;;
            io_ret (Finished (with_pending (car_NextMaintenanceWindow ca) h.1))
          else
            renewed <- reconcile_leaves now opts (car_CAResult ca) ;;
            h <- collectCertHashes clusterName namespace sha256_hex ;;
            if renewed && negb (car_Renewed ca) then
              r <- TriggerHotReload sha256_hex pem_ok X509KeyPair json_status clusterDomain can_exec fuel
                     clusterName namespace mapping tls version indexer propagationTimeout ;;
              match r with
              | None => io_ret Hangs
              | Some r => let '(triggered, e) := hot_reload_report r in
                          io_ret (Finished (with_renewed (car_Renewed ca) renewed triggered e h.1))
              end
            else io_ret (Finished (with_renewed (car_Renewed ca) renewed false None h.1))
      end
  end.
End CertReconcile.

(** ** What the controller hands on *)

(** The indexer's hash is passed only in the reconcile that needs a restart. *)
Definition indexer_cert_hash (h : option CertHashResult) : string :=
  match h with
  | Some h => if ch_CARenewed h || (ch_IndexerCertsRenewed h && negb (bool_decide (ch_HotReloadError h = None)))
              then ch_Indexer h else ""
  | None => ""
  end.

(** Master, worker, dashboard. *)
Definition other_cert_hashes (h : option CertHashResult) : string * string * string :=
  match h with
  | Some h => (ch_ManagerMaster h, ch_ManagerWorker h, ch_Dashboard h)
  | None => ("", "", "")
  end.

(** ** Lemmas *)

Section Store.
Context {W : Type} `{!X509 W, !SecretClient W, !SecretStore W}.
Context (sha256_hex : string -> string) (clusterDomain clusterName namespace : string).

(** The hash of a secret; empty without one. *)
Definition hash_of (w : W) (name : string) : string :=
  match secret_at w namespace name with
  | Some d => ShortHash (HashSecretData sha256_hex d)
  | None => ""
  end.

Lemma secret_hashes_spec l w :
  secret_hashes namespace sha256_hex l w = (Ok (map (fun s => hash_of w s.2) l, None), w).
Proof.
  induction l as [|[what name] l IH]; [done|]. cbn [secret_hashes]. unfold io_bind at 1, io_outcome.
  pose proof (read_answers namespace name w) as Hr. cbn [map snd]. unfold hash_of at 1.
  destruct (secret_at w namespace name) as [d|].
  - destruct Hr as (rv & lab & ->). cbn [so_Data]. unfold io_bind. by rewrite IH.
  - destruct Hr as (m & ->). cbn [IsNotFound]. unfold io_bind. by rewrite IH.
Qed.

Definition hashes_now (w : W) : CertHashResult :=
  hashes_result (map (fun s => hash_of w s.2) (cert_secrets clusterName)).

Lemma collect_spec w : collectCertHashes clusterName namespace sha256_hex w = (Ok (hashes_now w, None), w).
Proof. unfold collectCertHashes. unfold io_bind. by rewrite secret_hashes_spec. Qed.

(** *** The authority *)

Definition ca_name : string := clusterName +:+ "-ca".

(** The authority's secret parses and is not due. *)
Definition valid_ca (now : Z) (opts : CertificateOptions) (d : Secret) : bool :=
  match parse_cert (data_at d SecretKeyCACert) (data_at d SecretKeyCAKey) with
  | Ok cert => negb (ShouldRenew opts KindCA now (ct_NotAfter cert))
  | Err _ => false
  end.

Lemma ca_secret_data ca :
  data_at (so_Data (ca_secret clusterName namespace ca)) SecretKeyCACert = cr_CertificatePEM ca /\
  data_at (so_Data (ca_secret clusterName namespace ca)) SecretKeyCAKey = cr_PrivateKeyPEM ca.
Proof. cbn [ca_secret so_Data]. split; [by rewrite data_at_eq|]. by rewrite data_at_ne, data_at_eq. Qed.

Lemma regenerateCA_spec now opts found w r w' :
  (forall f, found = Some f -> so_Name f = ca_name /\ so_Namespace f = namespace) ->
  GetThreshold opts KindCA + Second <= GetValidity opts KindCA ->
  regenerateCA clusterName namespace now opts found w = (Ok (Finished r), w') ->
  car_Renewed r = bool_decide (is_Some found) /\ car_RenewalPending r = false /\
  others_kept namespace ca_name w w' /\
  exists d, secret_at w' namespace ca_name = Some d /\ valid_ca now opts d = true /\
            data_at d SecretKeyCACert = cr_CertificatePEM (car_CAResult r).
Proof.
  intros Hfound Hth. unfold regenerateCA. intros (ca & w1 & Hg%io_wrap_ok & H)%io_bind_ok.
  apply Generate_spec in Hg as (Hkeep & c & Hp & Ha & _). cbn [gen_config gc_Validity] in Ha.
  pose proof (GetValidity_pos opts KindCA) as Hpos. rewrite bool_decide_false in Ha by lia.
  assert (Hv : valid_ca now opts (so_Data (ca_secret clusterName namespace ca)) = true).
  { unfold valid_ca. destruct (ca_secret_data ca) as [-> ->]. rewrite Hp.
    apply negb_true_iff. unfold ShouldRenew, NeedsRenewal. apply bool_decide_eq_false. lia. }
  destruct found as [f|].
  - destruct (Hfound f eq_refl) as [En Ens].
    apply io_bind_ok in H as ([] & w2 & H & Hr). injection Hr as <- <-.
    apply (write_named namespace {| so_Name := so_Name f; so_Namespace := so_Namespace f;
             so_Labels := so_Labels (ca_secret clusterName namespace ca);
             so_Data := so_Data (ca_secret clusterName namespace ca);
             so_ResourceVersion := so_ResourceVersion f |}) in H as [Ho Hs]; [|by auto|done].
    cbn [so_Name] in Ho, Hs. rewrite En in Ho, Hs. split_and!; [done|done| |].
    + intros ns n Hne. rewrite Ho by done. apply Hkeep.
    + eexists. split_and!; [exact Hs|exact Hv|apply ca_secret_data].
  - apply io_bind_ok in H as ([] & w2 & H & Hr). injection Hr as <- <-.
    apply (write_named namespace (ca_secret clusterName namespace ca)) in H as [Ho Hs]; [|by auto|done].
    split_and!; [done|done| |].
    + intros ns n Hne. rewrite Ho by done. apply Hkeep.
    + eexists. split_and!; [exact Hs|exact Hv|apply ca_secret_data].
Qed.

(** What one reconcile of the authority did. *)
Lemma reconcileCA_spec now maintenance opts w r w' :
  GetThreshold opts KindCA + Second <= GetValidity opts KindCA ->
  reconcileCA clusterName namespace now maintenance opts w = (Ok (Finished r), w') ->
  others_kept namespace ca_name w w' /\
  (car_RenewalPending r = true -> w' = w /\ car_Renewed r = false) /\
  (car_RenewalPending r = false ->
     exists d, secret_at w' namespace ca_name = Some d /\ valid_ca now opts d = true /\
               data_at d SecretKeyCACert = cr_CertificatePEM (car_CAResult r)) /\
  (car_Renewed r = true -> exists d, secret_at w namespace ca_name = Some d /\ valid_ca now opts d = false).
Proof.
  intros Hth. unfold reconcileCA. unfold io_bind at 1, io_outcome.
  pose proof (read_answers namespace (clusterName +:+ "-ca") w) as Hread. fold ca_name in Hread |- *.
  destruct (secret_at w namespace ca_name) as [d|] eqn:Ed.
  2: { destruct Hread as (m & ->). cbn [IsNotFound]. intros H.
       apply regenerateCA_spec in H as (Hr & Hp & Ho & Hd); [|done|done]. rewrite Hr, Hp. done. }
  destruct Hread as (rv & lab & ->). cbv zeta. cbn [so_Data].
  assert (Hregen : forall w', valid_ca now opts d = false ->
    regenerateCA clusterName namespace now opts (Some {| so_Name := ca_name; so_Namespace := namespace;
      so_Labels := lab; so_Data := d; so_ResourceVersion := rv |}) w = (Ok (Finished r), w') ->
    others_kept namespace ca_name w w' /\
    (car_RenewalPending r = true -> w' = w /\ car_Renewed r = false) /\
    (car_RenewalPending r = false -> exists d, secret_at w' namespace ca_name = Some d /\
       valid_ca now opts d = true /\ data_at d SecretKeyCACert = cr_CertificatePEM (car_CAResult r)) /\
    (car_Renewed r = true -> exists d, Some d = Some d /\ secret_at w namespace ca_name = Some d /\ valid_ca now opts d = false)).
  { intros w1 Hv H. apply regenerateCA_spec in H as (Hr & Hp & Ho & Hd); [|by intros f [= <-]|done].
    rewrite Hp. split_and!; [done|done|done|]. intros _. by exists d. }
  unfold valid_ca in Hregen at 1. destruct (parse_cert _ _) as [cert|e] eqn:Ep.
  2: { intros H. apply Hregen in H as (? & ? & ? & Hn); [|done]. split_and!; [done..|].
       intros Hr. destruct (Hn Hr) as (d' & _ & Hd' & ?). rewrite Ed in Hd'. by eauto. }
  destruct (ShouldRenew opts KindCA now (ct_NotAfter cert)) eqn:Es.
  - destruct (maintenance (ct_NotAfter cert)) as [m|]; [|done].
    destruct (cmr_AllowRenewal m); cbn [negb].
    + intros H. apply Hregen in H as (? & ? & ? & Hn); [|done]. split_and!; [done..|].
      intros Hr. destruct (Hn Hr) as (d' & _ & Hd' & ?). rewrite Ed in Hd'. by eauto.
    + intros [= <- <-]. cbn. split_and!; [done|done|done|done].
  - intros [= <- <-]. cbn. split_and!; [done|done| |done]. intros _. exists d. split_and!; [done| |done].
    unfold valid_ca. by rewrite Ep, Es.
Qed.

Lemma reconcileCA_valid now maintenance opts w d :
  secret_at w namespace ca_name = Some d -> valid_ca now opts d = true ->
  exists r, reconcileCA clusterName namespace now maintenance opts w = (Ok (Finished r), w) /\
    car_Renewed r = false /\ car_RenewalPending r = false.
Proof.
  intros Hd Hv. unfold reconcileCA. unfold io_bind at 1, io_outcome.
  pose proof (read_answers namespace (clusterName +:+ "-ca") w) as Hread. fold ca_name in Hread |- *.
  rewrite Hd in Hread. destruct Hread as (rv & lab & ->). cbv zeta. cbn [so_Data].
  unfold valid_ca in Hv. destruct (parse_cert _ _) as [cert|]; [|done].
  apply negb_true_iff in Hv. rewrite Hv. by eexists.
Qed.
End Store.

Section Steps.
Context {W : Type} `{!X509 W, !SecretClient W, !SecretStore W}.
Context (clusterDomain clusterName namespace : string) (now : Z) (opts : CertificateOptions) (ca : CertResult).

(** Certificates reconciled one after the other, with what each reported. *)
Fixpoint steps (ls : list Leaf) (w : W) (bs : list bool) (w' : W) : Prop :=
  match ls, bs with
  | [], [] => w' = w
  | l :: ls, b :: bs =>
      exists w1, reconcileLeafCert clusterDomain clusterName namespace now opts ca l w = (Ok b, w1) /\
                 steps ls w1 bs w'
  | _, _ => False
  end.

Lemma steps_kept ls w bs w' ns n : steps ls w bs w' ->
  ~ (ns = namespace /\ In n (map lf_SecretName ls)) -> secret_at w' ns n = secret_at w ns n.
Proof.
  revert w bs. induction ls as [|l ls IH]; intros w [|b bs]; cbn [steps]; try done; [by intros ->|].
  intros (w1 & Hl & Hs) Hn. rewrite (IH _ _ Hs).
  - apply leaf_reconcile in Hl as [Ho _]. apply Ho.
    destruct (decide (ns = namespace)) as [->|]; [right|by left].
    intros ->. apply Hn. split; [done|by left].
  - intros [-> Hin]. apply Hn. split; [done|by right].
Qed.

(** Facts on single runs carry over to the sequence, for distinct secrets. *)
Lemma steps_each (Q : Leaf -> option Secret -> option Secret -> Prop) ls w bs w' :
  (forall l b w w', In l ls ->
     reconcileLeafCert clusterDomain clusterName namespace now opts ca l w = (Ok b, w') ->
     Q l (secret_at w namespace (lf_SecretName l)) (secret_at w' namespace (lf_SecretName l))) ->
  NoDup (map lf_SecretName ls) -> steps ls w bs w' ->
  forall l, In l ls -> Q l (secret_at w namespace (lf_SecretName l)) (secret_at w' namespace (lf_SecretName l)).
Proof.
  revert w bs. induction ls as [|l ls IH]; intros w [|b bs] HQ Hnd; cbn [steps]; try done.
  intros (w1 & Hl & Hs) l' Hin. cbn [map] in Hnd. apply NoDup_cons in Hnd as [Hni Hnd].
  rewrite list_elem_of_In in Hni. destruct Hin as [<-|Hin].
  - rewrite (steps_kept _ _ _ _ _ _ Hs); [by eapply HQ; [left|]|]. by intros [_ ?].
  - assert (Hw1 : secret_at w1 namespace (lf_SecretName l') = secret_at w namespace (lf_SecretName l')).
    { apply leaf_reconcile in Hl as [Ho _]. apply Ho. right. intros E. apply Hni. rewrite <-E. by apply in_map. }
    rewrite <-Hw1. eapply IH; [|done|done|done]. intros. eapply HQ; [by right|done].
Qed.

(** Settled certificates: nothing to do. *)
Definition settled (l : Leaf) (w : W) : Prop :=
  exists d, secret_at w namespace (lf_SecretName l) = Some d /\
    valid_leaf clusterDomain now opts (lf_Kind l) d = true /\ migrated (lf_Kind l) d.

Lemma settled_run l w : settled l w ->
  reconcileLeafCert clusterDomain clusterName namespace now opts ca l w = (Ok false, w).
Proof. intros (d & ? & ? & ?). by eapply reconcile_valid_leaf. Qed.

Lemma steps_settle ls w bs w' :
  (forall l, In l ls ->
     GetThreshold opts (lf_Kind l) + Second <= GetValidity opts (lf_Kind l) /\
     (lf_Kind l <> KindAdmin -> existsb (mismatch clusterDomain) (lf_SANs l) = false)) ->
  NoDup (map lf_SecretName ls) -> steps ls w bs w' -> forall l, In l ls -> settled l w'.
Proof.
  intros Hok Hnd Hs l Hin. unfold settled.
  apply (steps_each (fun l _ after => exists d, after = Some d /\
           valid_leaf clusterDomain now opts (lf_Kind l) d = true /\ migrated (lf_Kind l) d) ls w bs w');
    [|done..].
  intros l' b w1 w1' Hin' Hr. destruct (Hok l' Hin'). by eapply reconcile_settles.
Qed.

(** A valid certificate other than the administrator's is kept as it is. *)
Lemma steps_keep_valid ls w bs w' l d :
  NoDup (map lf_SecretName ls) -> steps ls w bs w' -> In l ls -> lf_Kind l <> KindAdmin ->
  secret_at w namespace (lf_SecretName l) = Some d -> valid_leaf clusterDomain now opts (lf_Kind l) d = true ->
  secret_at w' namespace (lf_SecretName l) = secret_at w namespace (lf_SecretName l).
Proof.
  intros Hnd Hs Hin Hk Hd Hv.
  refine (steps_each (fun l before after => lf_Kind l <> KindAdmin ->
            forall d, before = Some d -> valid_leaf clusterDomain now opts (lf_Kind l) d = true ->
            after = before) ls w bs w' _ Hnd Hs l Hin Hk d Hd Hv).
  intros l0 b0 wa wb _ Hr%leaf_reconcile Hk0 d0 E0 Hv0. destruct Hr as [_ Hr]. cbv zeta in Hr.
  rewrite E0, Hv0 in Hr. destruct Hr as [_ [->|[? _]]]; [done|by destruct Hk0].
Qed.
End Steps.

Section Reconciles.
Context {W : Type} `{!X509 W, !SecretClient W, !SecretStore W, !Pods W}.
Context (sha256_hex : string -> string) (pem_ok : string -> bool) (X509KeyPair : string -> string -> result unit).
Context (json_status : string -> option string) (clusterDomain : string) (can_exec : bool) (fuel : nat).
Context (mapping : list (string * WazuhVersionInfo)).
Context (maintenance : option CAMaintenanceConfig -> Z -> Z -> option CAMaintenanceCheckResult).
Context (clusterName namespace version : string) (tls : option TLSConfig).
Context (indexer : option WazuhIndexerClusterSpec) (manager : option WazuhManagerClusterSpec).

Definition leaves : list Leaf :=
  [manager_leaf clusterDomain clusterName namespace "manager-master" (worker_replicas manager);
   manager_leaf clusterDomain clusterName namespace "manager-worker" (worker_replicas manager);
   indexer_leaf clusterDomain clusterName namespace (indexer_replicas indexer);
   dashboard_leaf clusterDomain clusterName namespace;
   filebeat_leaf clusterDomain clusterName namespace (worker_replicas manager);
   admin_leaf clusterName].

Lemma leaves_named :
  map lf_SecretName leaves = map (fun suffix => clusterName +:+ suffix)
    ["-manager-master-certs"; "-manager-worker-certs"; "-indexer-certs"; "-dashboard-certs"; "-filebeat-certs";
     "-admin-certs"].
Proof. done. Qed.

Lemma leaves_distinct : NoDup (map lf_SecretName leaves).
Proof.
  rewrite leaves_named. apply NoDup_fmap_2; [|by apply (bool_decide_unpack _); vm_compute].
  intros a b H. by apply append_inj in H.
Qed.

Lemma leaves_not_ca : ~ In (ca_name clusterName) (map lf_SecretName leaves).
Proof.
  rewrite leaves_named, in_map_iff. intros (s & E%append_inj & Hin). subst s.
  by repeat (destruct Hin as [Hin|Hin]; [discriminate Hin|]).
Qed.

Lemma io_unit_ok {A} (m : IO W A) w u w' : (m ;;; io_ret tt) w = (Ok u, w') -> exists a, m w = (Ok a, w').
Proof. intros (a & w1 & H & [= _ ->])%io_bind_ok. by exists a. Qed.

Lemma reconcile_leaves_steps now opts ca w b w' :
  reconcile_leaves clusterDomain clusterName namespace indexer manager now opts ca w = (Ok b, w') <->
  exists b1 b2 b4 b5 b6, steps clusterDomain clusterName namespace now opts ca leaves w [b1; b2; b; b4; b5; b6] w'.
Proof.
  unfold reconcile_leaves, reconcileManagerCerts. split.
  - intros ([] & w2 & H%io_wrap_ok & H2)%io_bind_ok.
    apply io_bind_ok in H as (b1 & w1 & H1%io_wrap_ok & H).
    apply io_bind_ok in H as (b2 & w2' & H3%io_wrap_ok & H). injection H as ->.
    apply io_bind_ok in H2 as (b3 & w3 & H4%io_wrap_ok & H2).
    apply io_bind_ok in H2 as (? & w4 & (b4 & H5)%io_wrap_ok%io_unit_ok & H2).
    apply io_bind_ok in H2 as (? & w5 & (b5 & H6)%io_wrap_ok%io_unit_ok & H2).
    apply io_bind_ok in H2 as (? & w6 & (b6 & H7)%io_wrap_ok%io_unit_ok & H2). injection H2 as -> ->.
    exists b1, b2, b4, b5, b6. cbn [steps leaves]. eauto 20.
  - intros (b1 & b2 & b4 & b5 & b6 & w1 & H1 & w2 & H2 & w3 & H3 & w4 & H4 & w5 & H5 & w6 & H6 & ->).
    unfold reconcileIndexerCerts, reconcileDashboardCerts, reconcileFilebeatCerts, reconcileAdminCerts.
    unfold io_bind, io_wrap. rewrite H1, H2. cbn. rewrite H3. cbn. rewrite H4. cbn. rewrite H5. cbn. by rewrite H6.
Qed.

Definition same_secrets (w w' : W) : Prop := forall ns n, secret_at w' ns n = secret_at w ns n.

#[local] Abbreviation opts := (getCertOptions (tls ≫= tls_CertConfig)).
#[local] Abbreviation Reconcile_at := (ReconcileWithHashes sha256_hex pem_ok X509KeyPair json_status clusterDomain
  can_exec fuel mapping maintenance clusterName namespace version tls indexer manager).
#[local] Abbreviation ca_of := (ca_name clusterName).

(** The names and options with which a new certificate is not due at once. *)
Definition well_configured : Prop :=
  free_of "."%char clusterName = true /\ free_of "."%char namespace = true /\
  domain_seen clusterDomain <> "" /\ unreadable clusterDomain namespace = false /\
  forall k, GetThreshold opts k + Second <= GetValidity opts k.

Lemma leaves_fine : well_configured -> forall l, In l leaves ->
  GetThreshold opts (lf_Kind l) + Second <= GetValidity opts (lf_Kind l) /\
  (lf_Kind l <> KindAdmin -> existsb (mismatch clusterDomain) (lf_SANs l) = false).
Proof.
  intros (Hc & Hn & Hs & Hu & Hth) l Hin. split; [apply Hth|].
  destruct Hin as [<-|[<-|[<-|[<-|[<-|[<-|[]]]]]]]; cbn [lf_Kind lf_SANs manager_leaf node_leaf indexer_leaf
    dashboard_leaf filebeat_leaf admin_leaf]; intros Hk; try done; rewrite <-Hu.
  - by apply mismatch_manager.
  - by apply mismatch_manager.
  - by apply mismatch_indexer.
  - by apply mismatch_dashboard.
  - by apply mismatch_manager.
Qed.

(** A run that came through, taken apart. *)
Lemma Reconcile_parts `{!PodsWithin same_secrets} now timeout w r w' :
  tls ≫= tls_CustomCerts = None ->
  Reconcile_at now timeout w = (Ok (Finished r), w') ->
  exists ca w1, reconcileCA clusterName namespace now (maintenance (tls ≫= tls_CAMaintenance) now) opts w
                  = (Ok (Finished ca), w1) /\
    if car_RenewalPending ca
    then w' = w1 /\ r = with_pending (car_NextMaintenanceWindow ca) (hashes_now sha256_hex clusterName namespace w1)
    else exists b w2, reconcile_leaves clusterDomain clusterName namespace indexer manager now opts
                        (car_CAResult ca) w1 = (Ok b, w2) /\ same_secrets w2 w' /\
         exists triggered e, r = with_renewed (car_Renewed ca) b triggered e
                                   (hashes_now sha256_hex clusterName namespace w2).
Proof.
  intros Hcu. unfold ReconcileWithHashes. rewrite Hcu. cbv zeta.
  intros (ca & w1 & H1%io_wrap_ok & H)%io_bind_ok. destruct ca as [ca|]; [|done].
  exists ca, w1. split; [done|]. destruct (car_RenewalPending ca).
  { unfold io_bind in H. rewrite collect_spec in H. by injection H as <- <-. }
  apply io_bind_ok in H as (b & w2 & H2 & H). exists b, w2. split; [done|].
  unfold io_bind at 1 in H. rewrite collect_spec in H. cbv beta iota in H.
  destruct (b && negb (car_Renewed ca)).
  - apply io_bind_ok in H as (hr & w3 & H3 & H). destruct hr as [hr|]; [|done].
    destruct (hot_reload_report hr) as [triggered e]. injection H as <- <-.
    split; [|by exists triggered, e]. by apply (within_trigger same_secrets) in H3.
  - injection H as <- <-. split; [by intros ns n|]. by exists false, None.
Qed.

(** C9: Reconciling certificates comes to rest.  With names that read back
    and thresholds shorter than the validities, a reconcile that came through
    without a pending renewal leaves seven valid secrets: another one at that
    instant changes nothing at all, renews nothing, and hands the indexer no
    hash to restart for (what the first reported is not reported again). *)
Theorem certificates_settle `{!PodsWithin same_secrets} now timeout timeout' w r w' :
  tls ≫= tls_CustomCerts = None -> well_configured ->
  Reconcile_at now timeout w = (Ok (Finished r), w') -> ch_CARenewalPending r = false ->
  exists r', Reconcile_at now timeout' w' = (Ok (Finished r'), w') /\
    r' = hashes_now sha256_hex clusterName namespace w' /\ indexer_cert_hash (Some r') = "".
Proof.
  intros Hcu Hwc Hrun Hpend. pose proof Hwc as (_ & _ & _ & _ & Hth).
  destruct (Reconcile_parts now timeout w r w' Hcu Hrun) as (ca & w1 & Hca & H).
  apply reconcileCA_spec in Hca as (_ & _ & Hvalid & _); [|apply Hth].
  destruct (car_RenewalPending ca); [destruct H as [_ ->]; discriminate Hpend|].
  destruct (Hvalid eq_refl) as (d & Hd & Hv & _). clear Hvalid.
  destruct H as (b & w2 & Hl & Hsame & _).
  apply reconcile_leaves_steps in Hl as (b1 & b2 & b4 & b5 & b6 & Hsteps).
  assert (Hca' : secret_at w' namespace ca_of = Some d).
  { rewrite Hsame, (steps_kept _ _ _ _ _ _ _ _ _ _ _ _ Hsteps); [done|]. intros [_ Hin]. by apply leaves_not_ca in Hin. }
  assert (Hall : forall l, In l leaves -> settled clusterDomain namespace now opts l w').
  { intros l Hin.
    destruct (steps_settle _ _ _ _ _ _ _ _ _ _ (leaves_fine Hwc) leaves_distinct Hsteps l Hin) as (dl & ? & ? & ?).
    exists dl. by rewrite Hsame. }
  destruct (reconcileCA_valid clusterName namespace now (maintenance (tls ≫= tls_CAMaintenance) now) opts w' d
              Hca' Hv) as (ca' & Hrun' & Hr' & Hp').
  assert (Hl' : reconcile_leaves clusterDomain clusterName namespace indexer manager now opts (car_CAResult ca') w'
                = (Ok false, w')).
  { apply reconcile_leaves_steps. exists false, false, false, false, false. unfold leaves in *. cbn [steps In] in *.
    repeat (eexists; split; [apply settled_run, Hall; tauto|]). done. }
  eexists. split; [|split; [reflexivity|reflexivity]].
  unfold ReconcileWithHashes. rewrite Hcu. cbv zeta. unfold io_bind at 1, io_wrap at 1. rewrite Hrun'. cbn [wrapf].
  rewrite Hp'. unfold io_bind at 1. rewrite Hl'. unfold io_bind. rewrite collect_spec. cbn [andb]. by rewrite Hr'.
Qed.

(** The renewal of the authority stops at the authority.  In the reconcile
    that renews it every node, dashboard and Filebeat certificate that is not
    itself due stays byte for byte as it was, signed by the old authority and
    with the old authority beside it; and when none is due the masters, the
    workers and the dashboard are handed the hashes they already have, so that
    none of them restarts. *)
Theorem ca_renewal_keeps_leaves `{!PodsWithin same_secrets} now timeout w r w' :
  tls ≫= tls_CustomCerts = None -> GetThreshold opts KindCA + Second <= GetValidity opts KindCA ->
  Reconcile_at now timeout w = (Ok (Finished r), w') -> ch_CARenewed r = true ->
  (exists d d', secret_at w namespace ca_of = Some d /\ valid_ca now opts d = false /\
                secret_at w' namespace ca_of = Some d' /\ valid_ca now opts d' = true) /\
  let not_due l := exists d, secret_at w namespace (lf_SecretName l) = Some d /\
                             valid_leaf clusterDomain now opts (lf_Kind l) d = true in
  (forall l, In l leaves -> lf_Kind l <> KindAdmin -> not_due l ->
     secret_at w' namespace (lf_SecretName l) = secret_at w namespace (lf_SecretName l)) /\
  ((forall l, In l leaves -> lf_Kind l <> KindAdmin -> not_due l) ->
     let old suffix := hash_of sha256_hex namespace w (clusterName +:+ suffix) in
     other_cert_hashes (Some r) = (old "-manager-master-certs", old "-manager-worker-certs", old "-dashboard-certs")).
Proof.
  intros Hcu Hth Hrun Hren.
  destruct (Reconcile_parts now timeout w r w' Hcu Hrun) as (ca & w1 & Hca & H).
  apply reconcileCA_spec in Hca as (Hothers & Hpending & Hvalid & Hold); [|done].
  destruct (car_RenewalPending ca) eqn:Ep; [destruct H as [_ ->]; discriminate Hren|].
  destruct H as (b & w2 & Hl & Hsame & triggered & e & ->). cbn [with_renewed ch_CARenewed] in Hren.
  destruct (Hold Hren) as (d & Hd & Hdv). destruct (Hvalid eq_refl) as (d' & Hd' & Hdv' & _).
  apply reconcile_leaves_steps in Hl as (b1 & b2 & b4 & b5 & b6 & Hsteps).
  assert (Hw1 : forall l, In l leaves ->
            secret_at w1 namespace (lf_SecretName l) = secret_at w namespace (lf_SecretName l)).
  { intros l Hin. apply Hothers. right. intros E. apply leaves_not_ca. rewrite <-E. by apply in_map. }
  assert (Hkept : forall l, In l leaves -> lf_Kind l <> KindAdmin ->
            (exists d, secret_at w namespace (lf_SecretName l) = Some d /\
                       valid_leaf clusterDomain now opts (lf_Kind l) d = true) ->
            secret_at w2 namespace (lf_SecretName l) = secret_at w namespace (lf_SecretName l)).
  { intros l Hin Hk (dl & Hdl & Hvl). rewrite <-Hw1 in Hdl |- * by done.
    by apply (steps_keep_valid _ _ _ _ _ _ _ _ _ _ _ _ leaves_distinct Hsteps Hin Hk Hdl Hvl). }
  split; [|split].
  - exists d, d'. split_and!; [done|done| |done]. rewrite Hsame, (steps_kept _ _ _ _ _ _ _ _ _ _ _ _ Hsteps); [done|].
    intros [_ Hin]. by apply leaves_not_ca in Hin.
  - intros l Hin Hk Hdue. rewrite Hsame. by apply Hkept.
  - cbv zeta. intros Hall. unfold hash_of.
    assert (Hk : forall l, In l leaves -> lf_Kind l <> KindAdmin ->
              secret_at w2 namespace (lf_SecretName l) = secret_at w namespace (lf_SecretName l)).
    { intros l Hin Hk. by apply Hkept, Hall. }
    unfold leaves in Hk. cbn [In] in Hk.
    pose proof (Hk _ (or_introl eq_refl) ltac:(done)) as H1.
    pose proof (Hk _ (or_intror (or_introl eq_refl)) ltac:(done)) as H2.
    pose proof (Hk _ (or_intror (or_intror (or_intror (or_introl eq_refl)))) ltac:(done)) as H3.
    cbn [lf_SecretName manager_leaf node_leaf dashboard_leaf] in H1, H2, H3.
    change (clusterName +:+ "-" +:+ "manager-master" +:+ "-certs") with (clusterName +:+ "-manager-master-certs") in H1.
    change (clusterName +:+ "-" +:+ "manager-worker" +:+ "-certs") with (clusterName +:+ "-manager-worker-certs") in H2.
    unfold other_cert_hashes, hashes_now, hash_of, cert_secrets. cbn. by rewrite H1, H2, H3.
Qed.

(** The indexer's new certificate may go unnoticed.  When the indexer's
    certificate was renewed alone and hot reload is disabled or not supported
    by the version, the reload reports no error: nothing is reloaded and no
    hash is handed on, so that the indexer neither reloads nor restarts. *)
Theorem silent_renewal `{!PodsWithin same_secrets} now timeout w r w' :
  tls ≫= tls_CustomCerts = None ->
  Reconcile_at now timeout w = (Ok (Finished r), w') ->
  ShouldTriggerHotReload tls = false \/ GetHotReloadSupportForWazuh mapping version = Ok HotReloadNotSupported ->
  ch_CARenewed r = false ->
  indexer_cert_hash (Some r) = "" /\ ch_HotReloadTriggered r = false /\ ch_HotReloadError r = None.
Proof.
  intros Hcu Hrun Hoff Hca. unfold ReconcileWithHashes in Hrun. rewrite Hcu in Hrun. cbv zeta in Hrun.
  apply io_bind_ok in Hrun as (ca & w1 & _ & H). destruct ca as [ca|]; [|done].
  destruct (car_RenewalPending ca).
  { unfold io_bind in H. rewrite collect_spec in H. by injection H as <- _. }
  apply io_bind_ok in H as (b & w2 & _ & H).
  unfold io_bind at 1 in H. rewrite collect_spec in H. cbv beta iota in H.
  assert (Ht : TriggerHotReload sha256_hex pem_ok X509KeyPair json_status clusterDomain can_exec fuel clusterName
                 namespace mapping tls version indexer timeout w2 = (Ok (Some (hot_reload_result false false None)), w2)).
  { unfold TriggerHotReload. cbv zeta. destruct (ShouldTriggerHotReload tls); [|done].
    destruct Hoff as [?| ->]; done. }
  destruct (b && negb (car_Renewed ca)) eqn:Eb.
  - unfold io_bind in H. rewrite Ht in H. injection H as <- _. cbn in *. rewrite Hca. by rewrite andb_false_r.
  - injection H as <- _. cbn in *. rewrite Hca. by rewrite andb_false_r.
Qed.

(** While the renewal of the authority waits, nothing is renewed: for as
    long as the maintenance check says no, no secret is written and every
    certificate, due or expired, stays. *)
Theorem pending_ca_changes_nothing now timeout w d cert m :
  tls ≫= tls_CustomCerts = None ->
  secret_at w namespace ca_of = Some d ->
  parse_cert (data_at d SecretKeyCACert) (data_at d SecretKeyCAKey) = Ok cert ->
  ShouldRenew opts KindCA now (ct_NotAfter cert) = true ->
  maintenance (tls ≫= tls_CAMaintenance) now (ct_NotAfter cert) = Some m -> cmr_AllowRenewal m = false ->
  Reconcile_at now timeout w
  = (Ok (Finished (with_pending (cmr_NextWindowStart m) (hashes_now sha256_hex clusterName namespace w))), w).
Proof.
  intros Hcu Hd Hp Hren Hm Hno. unfold ReconcileWithHashes. rewrite Hcu. cbv zeta. unfold io_bind at 1, io_wrap at 1.
  unfold reconcileCA. unfold io_bind at 1, io_outcome.
  pose proof (read_answers namespace (clusterName +:+ "-ca") w) as Hread. fold (ca_name clusterName) in Hread |- *.
  rewrite Hd in Hread. destruct Hread as (rv & lab & ->). cbv zeta. cbn [so_Data].
  rewrite Hp, Hren, Hm, Hno. cbn [negb wrapf car_RenewalPending io_ret].
  unfold io_bind. by rewrite collect_spec.
Qed.
End Reconciles.

(** ** Runs *)
Module SimReconcile.
#[global] Program Instance apart : PodsWithin (same_secrets (W := SimPods.world)).
Next Obligation. split; [by intros w ns n|]. intros w1 w2 w3 H1 H2 ns n. by rewrite H2. Qed.
Next Obligation. intros w r w' [= <- <-]. by intros ns n. Qed.
Next Obligation. intros d w r w' [= <- <-]. by intros ns n. Qed.
Next Obligation. intros ns pod file w r w' [= <- <-]. by intros ns' n. Qed.
Next Obligation.
  intros c m p w r w'. cbn. intros; simplify_eq. case_bool_decide; by intros ns n.
Qed.
Next Obligation.
  intros ns n w r w'. unfold io_api. destruct (read_secret ns n w) as [a w1] eqn:E. intros; simplify_eq.
  apply SimPods.lift_snd_eq in E as [E _]. injection E as _ E.
  intros ns' n'. cbn. by rewrite E.
Qed.

Definition empty : SimPods.world := ({| SimPods.p_time := 0; SimPods.p_puts := [] |}, ∅).

(** The validity of the authority; hot reload on or off. *)
Definition tls (validity : string) (hot : bool) : option TLSConfig :=
  Some {| tls_Enabled := None;
          tls_CertConfig := Some {| cc_Validity := fun k => if decide (k = KindCA) then validity else "";
                                    cc_Threshold := fun _ => "";
                                    cc_Subject := {| sj_Country := ""; sj_State := ""; sj_Locality := "";
                                                     sj_Organization := ""; sj_OrganizationalUnit := "" |};
                                    cc_KeyAlgorithm := ""; cc_ECDSACurve := "" |};
          tls_CustomCerts := None;
          tls_HotReload := Some {| hr_Enabled := hot; hr_ForceAPIReload := false |};
          tls_CAMaintenance := None |}.

Definition always (allow : bool) : option CAMaintenanceConfig -> Z -> Z -> option CAMaintenanceCheckResult :=
  fun _ _ _ => Some {| cmr_AllowRenewal := allow; cmr_Reason := ""; cmr_NextWindowStart := zero_time;
                       cmr_ForceRenewal := false |}.

Abbreviation reconcile allow tls now := (ReconcileWithHashes id (fun _ => true) (fun _ _ => Ok tt) (fun _ => None)
  "cluster.local" true 62 wazuhVersionMapping (always allow) "prod" "wazuh" "4.9.0" tls None None now 0).

(** The worlds after a first reconcile at time 0. *)
Definition installed : SimPods.world := Eval vm_compute in (reconcile true (tls "100d" true) 0 empty).2.
Definition installed_off : SimPods.world := Eval vm_compute in (reconcile true (tls "" false) 0 empty).2.

(** The report of a run that came through. *)
Definition report {W} (m : IO W (run CertHashResult)) (w : W) : option CertHashResult :=
  match (m w).1 with Ok (Finished r) => Some r | _ => None end.

Lemma report_run {W} (m : IO W (run CertHashResult)) w r : report m w = Some r ->
  m w = (Ok (Finished r), (m w).2).
Proof. unfold report. destruct (m w) as [[[]|] w']; cbn; intros; by simplify_eq. Qed.
End SimReconcile.

Lemma certificates_settle_witness :
  let run0 := SimReconcile.reconcile true (SimReconcile.tls "100d" true) 0 in
  exists r r' w', run0 SimReconcile.empty = (Ok (Finished r), w') /\ run0 w' = (Ok (Finished r'), w') /\
    indexer_cert_hash (Some r') = "".
Proof.
  cbv zeta. destruct (SimReconcile.report (SimReconcile.reconcile true (SimReconcile.tls "100d" true) 0)
    SimReconcile.empty) as [r|] eqn:E; [|vm_compute in E; discriminate E].
  pose proof (SimReconcile.report_run _ _ _ E) as Hrun. exists r.
  assert (Hp : ch_CARenewalPending r = false).
  { assert (Hq : (ch_CARenewalPending <$> Some r) = Some false) by (rewrite <-E; vm_compute; reflexivity).
    injection Hq as Hq. exact Hq. }
  destruct (certificates_settle id (fun _ => true) (fun _ _ => Ok tt) (fun _ => None) "cluster.local" true 62
              wazuhVersionMapping (SimReconcile.always true) "prod" "wazuh" "4.9.0" (SimReconcile.tls "100d" true)
              None None 0 0 0 _ _ _ eq_refl ltac:(split_and!; [by vm_compute..|intros []; by vm_compute]) Hrun Hp)
    as (r' & H1 & _ & H2).
  exists r', (SimReconcile.reconcile true (SimReconcile.tls "100d" true) 0 SimReconcile.empty).2.
  split; [exact Hrun|]. split; [exact H1|exact H2].
Defined.

Lemma ca_renewal_keeps_leaves_witness :
  let run50 := SimReconcile.reconcile true (SimReconcile.tls "100d" true) (50 * Day) in
  exists r w', run50 SimReconcile.installed = (Ok (Finished r), w') /\ ch_CARenewed r = true /\
    secret_at w' "wazuh" "prod-ca" <> secret_at SimReconcile.installed "wazuh" "prod-ca" /\
    secret_at w' "wazuh" "prod-indexer-certs" = secret_at SimReconcile.installed "wazuh" "prod-indexer-certs".
Proof.
  cbv zeta. destruct (SimReconcile.report (SimReconcile.reconcile true (SimReconcile.tls "100d" true) (50 * Day))
    SimReconcile.installed) as [r|] eqn:E; [|vm_compute in E; discriminate E].
  pose proof (SimReconcile.report_run _ _ _ E) as Hrun. exists r.
  assert (Hp : ch_CARenewed r = true).
  { assert (Hq : (ch_CARenewed <$> Some r) = Some true) by (rewrite <-E; vm_compute; reflexivity).
    injection Hq as Hq. exact Hq. }
  destruct (ca_renewal_keeps_leaves id (fun _ => true) (fun _ _ => Ok tt) (fun _ => None) "cluster.local" true 62
              wazuhVersionMapping (SimReconcile.always true) "prod" "wazuh" "4.9.0" (SimReconcile.tls "100d" true)
              None None (50 * Day) 0 _ _ _ eq_refl ltac:(by vm_compute) Hrun Hp)
    as ((d & d' & Hd & Hv & Hd' & Hv') & Hkept & _).
  eexists. split; [exact Hrun|]. split; [exact Hp|]. split.
  - intros Heq. change ("prod-ca") with (ca_name "prod") in Heq. rewrite Hd, Hd' in Heq. injection Heq as ->.
    rewrite Hv in Hv'. discriminate Hv'.
  - apply (Hkept (indexer_leaf "cluster.local" "prod" "wazuh" 1)); [right; right; left; reflexivity|discriminate|].
    apply (checked_some (valid_leaf "cluster.local" (50 * Day)
             (getCertOptions (SimReconcile.tls "100d" true ≫= tls_CertConfig)) KindNode)).
    vm_compute. reflexivity.
Defined.

Lemma silent_renewal_witness :
  let run340 := SimReconcile.reconcile true (SimReconcile.tls "" false) (340 * Day) in
  exists r w', run340 SimReconcile.installed_off = (Ok (Finished r), w') /\
    ch_IndexerCertsRenewed r = true /\ indexer_cert_hash (Some r) = "" /\ ch_HotReloadTriggered r = false.
Proof.
  cbv zeta. destruct (SimReconcile.report (SimReconcile.reconcile true (SimReconcile.tls "" false) (340 * Day))
    SimReconcile.installed_off) as [r|] eqn:E; [|vm_compute in E; discriminate E].
  pose proof (SimReconcile.report_run _ _ _ E) as Hrun.
  assert (Hq : ((fun r => (ch_CARenewed r, ch_IndexerCertsRenewed r)) <$> Some r) = Some (false, true))
    by (rewrite <-E; vm_compute; reflexivity).
  injection Hq as Hc Hi.
  destruct (silent_renewal id (fun _ => true) (fun _ _ => Ok tt) (fun _ => None) "cluster.local" true 62
              wazuhVersionMapping (SimReconcile.always true) "prod" "wazuh" "4.9.0" (SimReconcile.tls "" false)
              None None (340 * Day) 0 _ _ _ eq_refl Hrun (or_introl eq_refl) Hc) as (H1 & H2 & _).
  exists r. eexists. split; [exact Hrun|]. split; [exact Hi|]. split; [exact H1|exact H2].
Defined.

Lemma pending_ca_changes_nothing_witness :
  let run340 := SimReconcile.reconcile false (SimReconcile.tls "100d" true) (340 * Day) in
  exists r, run340 SimReconcile.installed = (Ok (Finished r), SimReconcile.installed).
Proof.
  cbv zeta.
  destruct (checked_some (fun d => match parse_cert (data_at d SecretKeyCACert) (data_at d SecretKeyCAKey) with
                                   | Ok cert => ShouldRenew (getCertOptions (SimReconcile.tls "100d" true ≫= tls_CertConfig))
                                                  KindCA (340 * Day) (ct_NotAfter cert)
                                   | Err _ => false
                                   end) (secret_at SimReconcile.installed "wazuh" "prod-ca")) as (d & Ed & Hv);
    [vm_compute; reflexivity|].
  destruct (parse_cert _ _) as [cert|] eqn:Ep; [|discriminate Hv].
  eexists. exact (pending_ca_changes_nothing id (fun _ => true) (fun _ _ => Ok tt) (fun _ => None) "cluster.local" true 62
    wazuhVersionMapping (SimReconcile.always false) "prod" "wazuh" "4.9.0" (SimReconcile.tls "100d" true)
    None None (340 * Day) 0 _ d cert _ eq_refl Ed Ep Hv eq_refl eq_refl).
Defined.
