(* ===== verification/ClusterStatus.v ===== *)
(** * The status and the end of a WazuhCluster ([controllers/wazuhcluster_controller.go])

    The conditions and how they are persisted on error paths, the components'
    statuses ([GetStatus] of the three reconcilers), the status written at the
    end of a reconcile, and the clean-up behind the finalizer. *)
From S2P Require Import Prelude GoStrings GoFloat Kube DrainState IndexerDrain Cluster ScaleDown.
Local Open Scope go_scope.
Local Open Scope list_scope.

Definition ConditionTypeReady : string := "Ready".
Definition ConditionTypeProgressing : string := "Progressing".
Definition ConditionTypeAvailable : string := "Available".
Definition ConditionTypeSecurityReady : string := "SecurityReady".
Definition ConditionTrue : string := "True".
Definition ConditionFalse : string := "False".

Definition ClusterPhasePending : string := "Pending".
Definition ClusterPhaseCreating : string := "Creating".
Definition ClusterPhaseRunning : string := "Running".
Definition ClusterPhaseDeleting : string := "Deleting".

(** ** Conditions *)

(** The time of the last transition is kept when the status stays. *)
Definition keep_transition (old new : Condition) : Condition :=
  if bool_decide (cn_Status old = cn_Status new)
  then {| cn_Type := cn_Type new; cn_Status := cn_Status new; cn_Reason := cn_Reason new;
          cn_Message := cn_Message new; cn_LastTransitionTime := cn_LastTransitionTime old;
          cn_ObservedGeneration := cn_ObservedGeneration new |}
  else new.

(** The first condition of the type is replaced, or the new one appended. *)
Fixpoint put_condition (new : Condition) (conditions : list Condition) : list Condition :=
  match conditions with
  | [] => [new]
  | c :: rest =>
      if bool_decide (cn_Type c = cn_Type new) then keep_transition c new :: rest
      else c :: put_condition new rest
  end.

Definition set_conditions (l : list Condition) (s : StatusRest) : StatusRest :=
  {| sr_Phase := sr_Phase s; sr_Version := sr_Version s;
     sr_ObservedGeneration := sr_ObservedGeneration s; sr_Conditions := l;
     sr_Manager := sr_Manager s; sr_Indexer := sr_Indexer s; sr_Dashboard := sr_Dashboard s;
     sr_Security := sr_Security s; sr_CertificateRollouts := sr_CertificateRollouts s;
     sr_VolumeExpansion := sr_VolumeExpansion s; sr_RollingRestart := sr_RollingRestart s |}.

Definition set_phase (phase : string) (s : StatusRest) : StatusRest :=
  {| sr_Phase := phase; sr_Version := sr_Version s;
     sr_ObservedGeneration := sr_ObservedGeneration s; sr_Conditions := sr_Conditions s;
     sr_Manager := sr_Manager s; sr_Indexer := sr_Indexer s; sr_Dashboard := sr_Dashboard s;
     sr_Security := sr_Security s; sr_CertificateRollouts := sr_CertificateRollouts s;
     sr_VolumeExpansion := sr_VolumeExpansion s; sr_RollingRestart := sr_RollingRestart s |}.

Definition conditions_of (c : WazuhCluster) : list Condition := sr_Conditions (wc_Status c).

Definition with_conditions (l : list Condition) (c : WazuhCluster) : WazuhCluster :=
  set_status (set_conditions l (wc_Status c)) c.

Definition updateCondition (now : Z) (conditionType status reason message : string)
    (cluster : WazuhCluster) : WazuhCluster :=
  with_conditions
    (put_condition
       {| cn_Type := conditionType; cn_Status := status; cn_Reason := reason; cn_Message := message;
          cn_LastTransitionTime := now; cn_ObservedGeneration := om_Generation (wc_Meta cluster) |}
       (conditions_of cluster)) cluster.

Section Persist.
Context {W : Type} `{!ClusterClient W} (cancelled : nat -> option error).

(** One run of the function that is retried; it returns the conditions that
    were written. *)
Definition persist_once (now : Z) (cluster : WazuhCluster) (conditionType reason message : string)
    : API W (list Condition) := fun w =>
  match get_cluster (wc_Namespace cluster) (wc_Name cluster) w with
  | (Failed e, w) => (Failed e, w)
  | (Found latest, w) =>
      let latest := updateCondition now conditionType ConditionFalse reason message latest in
      match update_cluster_status latest w with
      | (Failed e, w) => (Failed e, w)
      | (Found _, w) => (Found (conditions_of latest), w)
      end
  end.

(** An error is only logged. *)
Definition persistCondition (now : Z) (conditionType reason message : string)
    : IO (WazuhCluster * W) unit :=
  io_modify (prod_map (updateCondition now conditionType ConditionFalse reason message) id) ;;;
  s <- io_get ;;
  try out <- io_world (io_api (RetryOnConflict cancelled
               (persist_once now s.1 conditionType reason message))) ;;
  match out with
  | Ok l => io_modify (prod_map (with_conditions l) id)
  | Err _ => io_ret tt
  end.
End Persist.

(** ** The components' statuses *)

Definition ComponentStatusPhaseStarting : string := "Starting".
Definition ComponentStatusPhaseReady : string := "Ready".
Definition ComponentStatusPhaseScaling : string := "Scaling".
Definition ComponentStatusPhaseDegraded : string := "Degraded".

(** [getStatefulSetPhase] and [getDeploymentPhase], on the same three counts. *)
Definition replicas_phase (ready replicas updated : Z) : string :=
  if bool_decide (ready = 0) then ComponentStatusPhaseStarting
  else if bool_decide (ready < replicas) then ComponentStatusPhaseDegraded
  else if bool_decide (updated < replicas) then ComponentStatusPhaseScaling
  else ComponentStatusPhaseReady.

Definition getStatefulSetPhase (s : StatefulSet) : string :=
  replicas_phase (sts_ReadyReplicas s) (sts_Replicas s) (sts_UpdatedReplicas s).
Definition getDeploymentPhase (d : Deployment) : string :=
  replicas_phase (dep_ReadyReplicas d) (dep_Replicas d) (dep_UpdatedReplicas d).

Definition DashboardName (clusterName : string) : string := clusterName +:+ "-dashboard".

Definition Manager_GetTotalReplicas (m : WazuhManagerClusterSpec) : Z :=
  wrap32 (1 + Workers_GetReplicas m).

Section Status.
Context {W : Type} `{!KubeClient W, !DeploymentClient W, !ClusterClient W}.
Context (cancelled : nat -> option error).

(** [return nil, nil] when there is no such workload. *)
Definition if_found {A B} (m : API W A) (k : A -> API W (option B)) : API W (option B) := fun w =>
  match m w with
  | (Failed e, w) => (if IsNotFound e then Found None else Failed e, w)
  | (Found a, w) => k a w
  end.

Definition Indexer_GetStatus (cluster : WazuhCluster) : API W (option ComponentStatus) :=
  if_found (get_statefulset (wc_Namespace cluster) (IndexerName (wc_Name cluster))) (fun sts w =>
    (Found (Some {| cst_Replicas := sts_Replicas sts; cst_ReadyReplicas := sts_ReadyReplicas sts;
                    cst_DesiredReplicas := default 0 (ix_Replicas <$> wc_SpecIndexer cluster);
                    cst_Phase := getStatefulSetPhase sts; cst_TopologyMode := "" |}), w)).

(** Workers that cannot be read count as none. *)
Definition GetManagerStatus (cluster : WazuhCluster) : API W (option ComponentStatus) :=
  if_found (get_statefulset (wc_Namespace cluster) (ManagerMasterName (wc_Name cluster)))
    (fun master w =>
    let '(workers, w) := get_statefulset (wc_Namespace cluster) (ManagerWorkerName (wc_Name cluster)) w in
    let '(workerReady, workerTotal) :=
      match workers with
      | Found sts => (sts_ReadyReplicas sts, sts_Replicas sts)
      | Failed _ => (0, 0)
      end in
    (Found (Some
       {| cst_Replicas := wrap32 (sts_Replicas master + workerTotal);
          cst_ReadyReplicas := wrap32 (sts_ReadyReplicas master + workerReady);
          cst_DesiredReplicas := default 0 (Manager_GetTotalReplicas <$> wc_SpecManager cluster);
          cst_Phase := getStatefulSetPhase master; cst_TopologyMode := "" |}), w)).

Definition Dashboard_GetStatus (cluster : WazuhCluster) : API W (option ComponentStatus) :=
  if_found (get_deployment (wc_Namespace cluster) (DashboardName (wc_Name cluster))) (fun dep w =>
    (Found (Some {| cst_Replicas := dep_Replicas dep; cst_ReadyReplicas := dep_ReadyReplicas dep;
                    cst_DesiredReplicas := default 0 (da_Replicas <$> wc_SpecDashboard cluster);
                    cst_Phase := getDeploymentPhase dep; cst_TopologyMode := "" |}), w)).

(** *** The status at the end of a reconcile *)

(** What a reading ([GetStatus]) does to the recorded status and to
    [allReady]: nothing when it failed. *)
Definition component_reading (reading : api_result (option ComponentStatus))
    (recorded : option ComponentStatus) (allReady : bool) : option ComponentStatus * bool :=
  match reading with
  | Failed _ => (recorded, allReady)
  | Found status =>
      (status,
       match status with
       | Some s => if bool_decide (cst_ReadyReplicas s < cst_Replicas s) then false else allReady
       | None => allReady
       end)
  end.


(** The object that is written, from the working copy, the latest object and
    the three readings. *)
Definition final_status (now : Z) (cluster latest : WazuhCluster)
    (indexer manager dashboard : api_result (option ComponentStatus)) : WazuhCluster :=
  let old := wc_Status latest in
  let '(ix, allReady) := component_reading indexer (sr_Indexer old) true in
  let '(mg, allReady) := component_reading manager (sr_Manager old) allReady in
  let '(da, allReady) := component_reading dashboard (sr_Dashboard old) allReady in
  let running := allReady && is_some ix && is_some mg && is_some da in
  let status :=
    {| sr_Phase := if running then ClusterPhaseRunning else ClusterPhaseCreating;
       sr_Version := sr_Version old;
       sr_ObservedGeneration := om_Generation (wc_Meta latest);
       sr_Conditions := conditions_of cluster;
       sr_Manager := mg; sr_Indexer := ix; sr_Dashboard := da;
       sr_Security := sr_Security (wc_Status cluster);
       sr_CertificateRollouts := sr_CertificateRollouts (wc_Status cluster);
       sr_VolumeExpansion := sr_VolumeExpansion old;
       sr_RollingRestart := sr_RollingRestart (wc_Status cluster) |} in
  let latest := set_last_update now (set_drain_status (wc_StatusDrain cluster) (set_status status latest)) in
  if running
  then updateCondition now ConditionTypeAvailable ConditionTrue "ClusterAvailable" "Cluster is available"
         (updateCondition now ConditionTypeReady ConditionTrue "ClusterReady" "All components are ready"
            latest)
  else updateCondition now ConditionTypeProgressing ConditionTrue "ComponentsStarting"
         "Waiting for components to be ready" latest.

(** The working copy and the latest object share their conditions' array; a
    repeated run at the same instant starts from what the first one wrote into
    it, which [put_condition_idem] shows to make no difference. *)
Definition status_once (now : Z) (cluster : WazuhCluster) : API W unit := fun w =>
  match get_cluster (wc_Namespace cluster) (wc_Name cluster) w with
  | (Failed e, w) => (Failed e, w)
  | (Found latest, w) =>
      let '(indexer, w) := Indexer_GetStatus cluster w in
      let '(manager, w) := GetManagerStatus cluster w in
      let '(dashboard, w) := Dashboard_GetStatus cluster w in
      update_cluster_status (final_status now cluster latest indexer manager dashboard) w
  end.

Definition updateStatus (now : Z) : IO (WazuhCluster * W) unit :=
  s <- io_get ;;
  io_world (io_api (RetryOnConflict cancelled (status_once now s.1))).
End Status.

(** ** Deletion *)

Definition wazuhClusterFinalizer : string := "resources.wazuh.com/finalizer".

(** Deleting an object of a kind, and updating the WazuhCluster's metadata. *)
Class CleanupClient (W : Type) := {
  delete_object : string -> string -> string -> API W unit;
  update_cluster : WazuhCluster -> API W unit
}.

Definition set_meta (m : ObjectMeta) (c : WazuhCluster) : WazuhCluster :=
  {| wc_Name := wc_Name c; wc_Namespace := wc_Namespace c; wc_SpecDrain := wc_SpecDrain c;
     wc_SpecIndexer := wc_SpecIndexer c; wc_SpecManager := wc_SpecManager c;
     wc_SpecDashboard := wc_SpecDashboard c; wc_StatusDrain := wc_StatusDrain c;
     wc_StatusLastUpdate := wc_StatusLastUpdate c;
     wc_Meta := m; wc_Spec := wc_Spec c; wc_Status := wc_Status c |}.

Definition ContainsFinalizer (c : WazuhCluster) (f : string) : bool :=
  bool_decide (f ∈ om_Finalizers (wc_Meta c)).

Definition with_finalizers (l : list string) (c : WazuhCluster) : WazuhCluster :=
  set_meta {| om_Generation := om_Generation (wc_Meta c); om_Deleting := om_Deleting (wc_Meta c);
              om_Finalizers := l |} c.

Definition AddFinalizer (f : string) (c : WazuhCluster) : WazuhCluster :=
  if ContainsFinalizer c f then c else with_finalizers (om_Finalizers (wc_Meta c) ++ [f]) c.

Definition RemoveFinalizer (f : string) (c : WazuhCluster) : WazuhCluster :=
  with_finalizers (List.filter (fun g => negb (bool_decide (g = f))) (om_Finalizers (wc_Meta c))) c.

(** What is deleted, in order: kind and name. *)
Definition cleanup_objects (name : string) : list (string * string) :=
  map (fun s => ("StatefulSet", name +:+ s)) ["-manager-master"; "-manager-worker"; "-indexer"] ++
  [("Deployment", name +:+ "-dashboard")] ++
  map (fun s => ("Service", name +:+ s))
    ["-manager-master"; "-manager-master-headless"; "-manager-worker"; "-manager-worker-headless";
     "-indexer"; "-indexer-headless"; "-dashboard"; "-agents"] ++
  map (fun s => ("ConfigMap", name +:+ s))
    ["-manager-master-config"; "-manager-worker-config"; "-indexer-config"; "-dashboard-config";
     "-filebeat-config"] ++
  map (fun s => ("Secret", name +:+ s))
    ["-manager-master-certs"; "-manager-worker-certs"; "-indexer-certs"; "-indexer-security";
     "-indexer-credentials"; "-dashboard-certs"; "-admin-certs"; "-filebeat-certs"; "-cluster-key";
     "-api-credentials"].

Section Deletion.
Context {W : Type} `{!ClusterClient W, !CleanupClient W}.

Fixpoint delete_all (namespace : string) (objects : list (string * string)) : IO W unit :=
  match objects with
  | [] => io_ret tt
  | (kind, name) :: rest =>
      out <- io_outcome (delete_object kind namespace name) ;;
      match out with
      | Failed e =>
          if IsNotFound e then delete_all namespace rest
          else io_err (errorf ("failed to delete " +:+ kind +:+ " " +:+ namespace +:+ "/" +:+ name)
                         (api_message e))
      | Found _ => delete_all namespace rest
      end
  end.

Definition cleanupResources (cluster : WazuhCluster) : IO W unit :=
  delete_all (wc_Namespace cluster) (cleanup_objects (wc_Name cluster)).

Definition handleDeletion (cluster : WazuhCluster) : IO W unit :=
  if negb (ContainsFinalizer cluster wazuhClusterFinalizer) then io_ret tt
  else
    let cluster := set_status (set_phase ClusterPhaseDeleting (wc_Status cluster)) cluster in
    written <- io_outcome (update_cluster_status cluster) ;;
    io_wrap "failed to cleanup resources" (cleanupResources cluster) ;;;
    io_wrap "failed to remove finalizer"
      (io_api (update_cluster (RemoveFinalizer wazuhClusterFinalizer cluster))).
End Deletion.

(** ** Lemmas *)

(** The conditions as the API server sees them: a map by type. *)
Definition condition_map (l : list Condition) : gmap string Condition :=
  list_to_map (map (fun c => (cn_Type c, c)) l).

Definition condition_is (ty status : string) (l : list Condition) : Prop :=
  cn_Status <$> condition_map l !! ty = Some status.

(** The abstract operation: a condition replaces the one of its type, and
    keeps its transition time when the status stays. *)
Definition map_put (new : Condition) (m : gmap string Condition) : gmap string Condition :=
  <[cn_Type new := match m !! cn_Type new with
                   | Some old => keep_transition old new
                   | None => new
                   end]> m.

Lemma keep_transition_type old new : cn_Type (keep_transition old new) = cn_Type new.
Proof. unfold keep_transition. by case_bool_decide. Qed.

Lemma keep_transition_status old new : cn_Status (keep_transition old new) = cn_Status new.
Proof. unfold keep_transition. by case_bool_decide. Qed.

Lemma keep_transition_again old new : keep_transition (keep_transition old new) new = keep_transition old new.
Proof.
  unfold keep_transition. destruct (decide (cn_Status old = cn_Status new)) as [E|E].
  - rewrite !(bool_decide_true (cn_Status old = cn_Status new)) by done. cbn. by rewrite bool_decide_true.
  - rewrite !(bool_decide_false (cn_Status old = cn_Status new)) by done. rewrite bool_decide_true by done. by destruct new.
Qed.

Lemma condition_map_cons c l : condition_map (c :: l) = <[cn_Type c := c]> (condition_map l).
Proof. done. Qed.

Lemma condition_map_put new l : condition_map (put_condition new l) = map_put new (condition_map l).
Proof.
  induction l as [|c l IH]; [done|]. cbn [put_condition]. case_bool_decide as E.
  - rewrite !condition_map_cons, keep_transition_type. unfold map_put.
    rewrite E, lookup_insert_eq, insert_insert_eq. done.
  - rewrite !condition_map_cons, IH. unfold map_put.
    rewrite lookup_insert_ne by done. by rewrite insert_insert_ne.
Qed.

Lemma put_condition_types new l :
  map cn_Type (put_condition new l) =
  if bool_decide (cn_Type new ∈ map cn_Type l) then map cn_Type l else map cn_Type l ++ [cn_Type new].
Proof.
  induction l as [|c l IH]; [done|]. cbn [put_condition map].
  rewrite (bool_decide_ext (cn_Type new ∈ cn_Type c :: map cn_Type l)
             (cn_Type c = cn_Type new \/ cn_Type new ∈ map cn_Type l))
    by (rewrite elem_of_cons; naive_solver).
  destruct (decide (cn_Type c = cn_Type new)) as [E|E].
  - rewrite !bool_decide_true by auto. cbn [map]. by rewrite keep_transition_type, E.
  - rewrite (bool_decide_false (cn_Type c = _)) by done. cbn [map]. rewrite IH.
    rewrite (bool_decide_ext (cn_Type c = cn_Type new \/ _) (cn_Type new ∈ map cn_Type l)) by naive_solver.
    by case_bool_decide.
Qed.

Lemma put_condition_nodup new l :
  NoDup (map cn_Type l) -> NoDup (map cn_Type (put_condition new l)).
Proof.
  rewrite put_condition_types. case_bool_decide; [done|]. intros HD. apply NoDup_app.
  split_and!; [done| |apply NoDup_singleton]. intros x Hx ->%list_elem_of_singleton. done.
Qed.

Lemma put_condition_idem new l : put_condition new (put_condition new l) = put_condition new l.
Proof.
  induction l as [|c l IH]; cbn [put_condition].
  - rewrite bool_decide_true by done. unfold keep_transition. rewrite bool_decide_true by done. by destruct new.
  - case_bool_decide as E; cbn [put_condition].
    + rewrite keep_transition_type, bool_decide_true by done. by rewrite keep_transition_again.
    + by rewrite bool_decide_false, IH.
Qed.

Lemma condition_is_put ty status new l :
  condition_is ty status (put_condition new l) <->
  if bool_decide (cn_Type new = ty) then cn_Status new = status else condition_is ty status l.
Proof.
  unfold condition_is. rewrite condition_map_put. unfold map_put. case_bool_decide as E.
  - subst ty. rewrite lookup_insert_eq. cbn. destruct (condition_map l !! cn_Type new) as [old|];
      [rewrite keep_transition_status|]; naive_solver.
  - by rewrite lookup_insert_ne.
Qed.

Lemma condition_is_update now ty0 st0 re msg c ty st :
  condition_is ty st (conditions_of (updateCondition now ty0 st0 re msg c)) <->
  if bool_decide (ty0 = ty) then st0 = st else condition_is ty st (conditions_of c).
Proof. apply condition_is_put. Qed.

(** When a component does not keep the cluster from running: a reading with
    enough ready replicas, or no reading but a recorded status. *)
Definition counted_ready (reading : api_result (option ComponentStatus))
    (recorded : option ComponentStatus) : Prop :=
  match reading with
  | Failed _ => is_Some recorded
  | Found (Some s) => cst_Replicas s <= cst_ReadyReplicas s
  | Found None => False
  end.

Lemma component_reading_ready r old b :
  (component_reading r old b).2 && is_some (component_reading r old b).1 = true <->
  b = true /\ counted_ready r old.
Proof.
  unfold component_reading, counted_ready. destruct r as [[s|]|e]; cbn.
  - case_bool_decide; cbn; [split; [done|lia]|]. rewrite andb_true_r. split; [split; [done|lia]|tauto].
  - rewrite andb_false_r. naive_solver.
  - rewrite andb_true_iff. destruct old; cbn; unfold is_Some; naive_solver.
Qed.

Lemma final_status_running now c latest ix mg da :
  let new := final_status now c latest ix mg da in
  let old := wc_Status latest in
  exists running : bool,
    (running = true <-> counted_ready ix (sr_Indexer old) /\ counted_ready mg (sr_Manager old) /\
                        counted_ready da (sr_Dashboard old)) /\
    sr_Phase (wc_Status new) = (if running then ClusterPhaseRunning else ClusterPhaseCreating) /\
    (forall ty st, condition_is ty st (conditions_of new) <->
       if running
       then if bool_decide (ty = ConditionTypeReady \/ ty = ConditionTypeAvailable)
            then ConditionTrue = st else condition_is ty st (conditions_of c)
       else if bool_decide (ty = ConditionTypeProgressing)
            then ConditionTrue = st else condition_is ty st (conditions_of c)).
Proof.
  cbv zeta. unfold final_status.
  pose proof (component_reading_ready ix (sr_Indexer (wc_Status latest)) true) as H1.
  destruct (component_reading ix _ _) as [s1 b1].
  pose proof (component_reading_ready mg (sr_Manager (wc_Status latest)) b1) as H2.
  destruct (component_reading mg _ _) as [s2 b2].
  pose proof (component_reading_ready da (sr_Dashboard (wc_Status latest)) b2) as H3.
  destruct (component_reading da _ _) as [s3 b3]. cbn [fst snd] in *.
  rewrite andb_true_iff in H1, H2, H3.
  exists (b3 && is_some s1 && is_some s2 && is_some s3). split.
  { rewrite !andb_true_iff. tauto. }
  destruct (b3 && is_some s1 && is_some s2 && is_some s3); (split; [done|]).
  - intros ty st. rewrite !condition_is_update.
    destruct (decide (ConditionTypeAvailable = ty)) as [E|NA]; [subst ty; rewrite !bool_decide_true by auto; reflexivity|].
    rewrite (bool_decide_false (ConditionTypeAvailable = ty)) by done. cbv iota.
    rewrite condition_is_update.
    destruct (decide (ConditionTypeReady = ty)) as [E|NR]; [subst ty; rewrite !bool_decide_true by auto; reflexivity|].
    rewrite !bool_decide_false; naive_solver.
  - intros ty st. rewrite !condition_is_update.
    destruct (decide (ConditionTypeProgressing = ty)) as [E|NP]; [subst ty; rewrite !bool_decide_true by auto; reflexivity|].
    rewrite !bool_decide_false; naive_solver.
Qed.

(** Everything else comes from the one copy or the other. *)
Lemma final_status_fields now c latest ix mg da :
  let new := final_status now c latest ix mg da in
  (wc_Name new, wc_Namespace new, wc_Meta new, wc_Spec new)
    = (wc_Name latest, wc_Namespace latest, wc_Meta latest, wc_Spec latest) /\
  (wc_SpecDrain new, wc_SpecIndexer new, wc_SpecManager new, wc_SpecDashboard new)
    = (wc_SpecDrain latest, wc_SpecIndexer latest, wc_SpecManager latest, wc_SpecDashboard latest) /\
  (sr_Security (wc_Status new), sr_CertificateRollouts (wc_Status new), sr_RollingRestart (wc_Status new),
   wc_StatusDrain new)
    = (sr_Security (wc_Status c), sr_CertificateRollouts (wc_Status c), sr_RollingRestart (wc_Status c),
       wc_StatusDrain c) /\
  (sr_Version (wc_Status new), sr_VolumeExpansion (wc_Status new))
    = (sr_Version (wc_Status latest), sr_VolumeExpansion (wc_Status latest)) /\
  (sr_ObservedGeneration (wc_Status new), wc_StatusLastUpdate new)
    = (om_Generation (wc_Meta latest), Some now).
Proof.
  cbv zeta. unfold final_status.
  destruct (component_reading ix _ _) as [s1 b1], (component_reading mg _ _) as [s2 b2],
    (component_reading da _ _) as [s3 b3].
  by destruct (b3 && is_some s1 && is_some s2 && is_some s3).
Qed.

(** What a status update that succeeds has read and written. *)
Lemma updateStatus_ok {W} `{!KubeClient W, !DeploymentClient W, !ClusterClient W} cancelled now c (w : W) s' :
  updateStatus cancelled now (c, w) = (Ok tt, s') ->
  exists k wk latest w1 ix w2 mg w3 da w4 w',
    (k <= 3)%nat /\ attempts (status_once now c) w k wk /\
    get_cluster (wc_Namespace c) (wc_Name c) wk = (Found latest, w1) /\
    Indexer_GetStatus c w1 = (ix, w2) /\ GetManagerStatus c w2 = (mg, w3) /\
    Dashboard_GetStatus c w3 = (da, w4) /\
    update_cluster_status (final_status now c latest ix mg da) w4 = (Found tt, w') /\ s' = (c, w').
Proof.
  unfold updateStatus, io_bind, io_get. cbn [fst]. intros (w' & -> & H%io_api_ok)%io_world_ok.
  apply retry_loop_ok in H as (k & wk & Hk & Ha & H). unfold status_once in H.
  destruct (get_cluster _ _ wk) as [[latest|e] w1] eqn:Eg; [|done].
  destruct (Indexer_GetStatus c w1) as [ix w2] eqn:E1.
  destruct (GetManagerStatus c w2) as [mg w3] eqn:E2.
  destruct (Dashboard_GetStatus c w3) as [da w4] eqn:E3.
  by exists k, wk, latest, w1, ix, w2, mg, w3, da, w4, w'.
Qed.

(** The writes to a cluster's conditions that [Reconcile] makes on a valid
    specification: the status at its end, the error paths, and the state of the
    security plugin. *)
Inductive condition_write : list Condition -> list Condition -> Prop :=
| write_status now c latest ix mg da :
    condition_write (conditions_of c) (conditions_of (final_status now c latest ix mg da))
| write_failure now c reason message :
    condition_write (conditions_of c)
      (conditions_of (updateCondition now ConditionTypeProgressing ConditionFalse reason message c))
| write_security now c status reason message :
    condition_write (conditions_of c)
      (conditions_of (updateCondition now ConditionTypeSecurityReady status reason message c)).

(** The objects of a list are deleted, or were not there, from one state to
    another. *)
Inductive deleted {W} `{!CleanupClient W} (namespace : string) : list (string * string) -> W -> W -> Prop :=
| deleted_nil w : deleted namespace [] w w
| deleted_cons kind name rest r w w1 w2 :
    delete_object kind namespace name w = (r, w1) ->
    (r = Found tt \/ exists msg, r = Failed (NotFound msg)) ->
    deleted namespace rest w1 w2 -> deleted namespace ((kind, name) :: rest) w w2.

Lemma delete_all_outcome {W} `{!CleanupClient W} ns objects (w : W) :
  (exists w', delete_all ns objects w = (Ok tt, w') /\ deleted ns objects w w') \/
  (exists done kind name rest e w1 w', objects = done ++ (kind, name) :: rest /\ deleted ns done w w1 /\
     delete_object kind ns name w1 = (Failed e, w') /\ IsNotFound e = false /\
     delete_all ns objects w =
       (Err (errorf ("failed to delete " +:+ kind +:+ " " +:+ ns +:+ "/" +:+ name) (api_message e)), w')).
Proof.
  revert w. induction objects as [|[kind name] rest IH]; intros w; cbn [delete_all].
  { left. exists w. split; [done|constructor]. }
  unfold io_bind, io_outcome. destruct (delete_object kind ns name w) as [r w1] eqn:E. cbn beta iota.
  set (failure := fun k n e => Err (errorf ("failed to delete " +:+ k +:+ " " +:+ ns +:+ "/" +:+ n)
                                      (api_message e)) : result unit).
  assert (Hgo : (r = Found tt \/ exists msg, r = Failed (NotFound msg)) ->
    (exists w', delete_all ns rest w1 = (Ok tt, w') /\ deleted ns ((kind, name) :: rest) w w') \/
    (exists done k n rest' e w2 w', (kind, name) :: rest = done ++ (k, n) :: rest' /\ deleted ns done w w2 /\
     delete_object k ns n w2 = (Failed e, w') /\ IsNotFound e = false /\
     delete_all ns rest w1 = (failure k n e, w'))).
  { intros Hr. destruct (IH w1) as [(w' & H & Hd)|(d & k & n & rest' & e & w2 & w' & -> & Hd & Hk & He & H)].
    - left. exists w'. split; [done|]. by eapply deleted_cons.
    - right. exists ((kind, name) :: d), k, n, rest', e, w2, w'. split_and!; try done. by eapply deleted_cons. }
  destruct r as [[]|e].
  - apply Hgo. by left.
  - destruct (IsNotFound e) eqn:En.
    + apply Hgo. right. destruct e; try done. by eexists.
    + right. exists [], kind, name, rest, e, w, w1. split_and!; try done. constructor.
Qed.

(** ** Properties *)
Section Properties.
Context {W : Type} `{!KubeClient W, !DeploymentClient W, !ClusterClient W, !CleanupClient W}.
Context (cancelled : nat -> option error).


(** the conditions outlive what they report.  Once [Ready] or
    [Available] is true, no later reconcile of a valid specification makes it
    anything else, whatever becomes of the components, and the condition
    [Progressing] that the end of a reconcile sets to true while components
    start is left alone when the cluster runs; a type never has two
    conditions. *)
Theorem conditions_outlive_state l l' :
  rtc condition_write l l' ->
  (NoDup (map cn_Type l) -> NoDup (map cn_Type l')) /\
  (forall ty, ty = ConditionTypeReady \/ ty = ConditionTypeAvailable ->
     condition_is ty ConditionTrue l -> condition_is ty ConditionTrue l') /\
  (forall now c latest ix mg da st,
     sr_Phase (wc_Status (final_status now c latest ix mg da)) = ClusterPhaseRunning ->
     condition_is ConditionTypeProgressing st (conditions_of (final_status now c latest ix mg da)) <->
     condition_is ConditionTypeProgressing st (conditions_of c)).
Proof.
  intros H. split; [|split].
  - induction H as [l|l l1 l2 Hw _ IH]; [done|]. intros HD. apply IH. destruct Hw as
      [now c latest ix mg da|now c reason message|now c status reason message];
      [|by apply put_condition_nodup..].
    unfold final_status. repeat (destruct (component_reading _ _ _)).
    destruct (_ && _); repeat apply put_condition_nodup; done.
  - intros ty Hty. induction H as [l|l l1 l2 Hw _ IH]; [done|]. intros Hl. apply IH. destruct Hw as
      [now c latest ix mg da|now c reason message|now c status reason message].
    + destruct (final_status_running now c latest ix mg da) as (b & _ & _ & ->). destruct b.
      * by rewrite bool_decide_true.
      * by rewrite bool_decide_false by (destruct Hty as [-> | ->]; done).
    + rewrite condition_is_update. by rewrite bool_decide_false by (destruct Hty as [-> | ->]; done).
    + rewrite condition_is_update. by rewrite bool_decide_false by (destruct Hty as [-> | ->]; done).
  - intros now c latest ix mg da st Hp.
    destruct (final_status_running now c latest ix mg da) as (b & _ & Hb & ->). rewrite Hb in Hp.
    destruct b; [|done]. by rewrite bool_decide_false by (intros [?|?]; done).
Qed.

(** the finalizer goes last.  Deleting a WazuhCluster removes the finalizer
    only after every object of the list was deleted or found absent, in order;
    the first refusal ends the clean-up with its error and with the finalizer
    still in place, nothing after it having been tried. *)
Theorem finalizer_goes_last cluster w :
  ContainsFinalizer cluster wazuhClusterFinalizer = true ->
  let marked := set_status (set_phase ClusterPhaseDeleting (wc_Status cluster)) cluster in
  let w0 := (update_cluster_status marked w).2 in
  let ns := wc_Namespace cluster in
  (exists w1, deleted ns (cleanup_objects (wc_Name cluster)) w0 w1 /\
     handleDeletion cluster w =
       io_wrap "failed to remove finalizer"
         (io_api (update_cluster (RemoveFinalizer wazuhClusterFinalizer marked))) w1) \/
  (exists done kind name rest e w1 w',
     cleanup_objects (wc_Name cluster) = done ++ (kind, name) :: rest /\ deleted ns done w0 w1 /\
     delete_object kind ns name w1 = (Failed e, w') /\ IsNotFound e = false /\
     handleDeletion cluster w =
       (Err (errorf "failed to cleanup resources"
          (errorf ("failed to delete " +:+ kind +:+ " " +:+ ns +:+ "/" +:+ name) (api_message e))), w')).
Proof.
  intros Hf marked w0 ns.
  assert (Hrun : handleDeletion cluster w =
    match delete_all ns (cleanup_objects (wc_Name cluster)) w0 with
    | (Ok _, w1) => io_wrap "failed to remove finalizer"
                      (io_api (update_cluster (RemoveFinalizer wazuhClusterFinalizer marked))) w1
    | (Err e, w1) => (Err (errorf "failed to cleanup resources" e), w1)
    end).
  { unfold handleDeletion. rewrite Hf. cbn [negb]. fold marked. subst w0.
    unfold io_bind at 1, io_outcome. destruct (update_cluster_status marked w) as [r w0].
    unfold io_bind, io_wrap at 1. cbn [snd]. unfold cleanupResources.
    change (wc_Namespace marked) with ns. change (wc_Name marked) with (wc_Name cluster).
    by destruct (delete_all ns _ w0) as [[[]|e] w1]. }
  destruct (delete_all_outcome ns (cleanup_objects (wc_Name cluster)) w0)
    as [(w1 & H & Hd)|(d & k & n & rest & e & w1 & w' & Ho & Hd & Hk & He & H)]; rewrite H in Hrun.
  - left. by exists w1.
  - right. exists d, k, n, rest, e, w1, w'. by split_and!.
Qed.
End Properties.

(** ** A cluster to try the theorems on *)
Module SimStatus.
Record site := {
  s_cluster : WazuhCluster;
  s_readable : bool;               (* do the reads of workloads work *)
  s_objects : list (string * string)
}.

Definition read_sts (ns n : string) : API site StatefulSet := fun s =>
  (if s_readable s then Found (SimKube.steady ns n 1) else Failed (OtherError "connection refused"), s).

#[global] Instance kube : KubeClient site := {
  get_statefulset := read_sts;
  update_statefulset _ s := (Found tt, s);
  list_pods _ _ s := (Found [], s);
  delete_pod _ s := (Found tt, s);
  get_secret _ n s := (Failed (NotFound n), s)
}.

#[global] Instance deployments : DeploymentClient site := {
  get_deployment _ _ s :=
    (if s_readable s
     then Found {| dep_SpecReplicas := Some 1; dep_Replicas := 1; dep_ReadyReplicas := 1;
                   dep_UpdatedReplicas := 1; dep_AvailableReplicas := 1; dep_Generation := 1;
                   dep_ObservedGeneration := 1 |}
     else Failed (OtherError "connection refused"), s)
}.

Definition set_cluster (c : WazuhCluster) (s : site) : site :=
  {| s_cluster := c; s_readable := s_readable s; s_objects := s_objects s |}.

#[global] Instance clusters : ClusterClient site := {
  get_cluster _ _ s := (Found (s_cluster s), s);
  update_cluster_status c s := (Found tt, set_cluster c s)
}.

#[global] Instance cleanup : CleanupClient site := {
  delete_object kind _ name s :=
    (if bool_decide ((kind, name) ∈ s_objects s) then Found tt else Failed (NotFound name),
     {| s_cluster := s_cluster s; s_readable := s_readable s;
        s_objects := List.filter (fun o => negb (bool_decide (o = (kind, name)))) (s_objects s) |});
  update_cluster c s := (Found tt, set_cluster c s)
}.

Definition degraded : option ComponentStatus :=
  Some {| cst_Phase := ComponentStatusPhaseDegraded; cst_ReadyReplicas := 0; cst_Replicas := 3;
          cst_DesiredReplicas := 3; cst_TopologyMode := "" |}.

(** Every recorded status says that nothing is ready. *)
Definition down : WazuhCluster :=
  let c := Sites.cluster "a" None in
  set_status
    {| sr_Phase := ClusterPhaseCreating; sr_Version := "4.9.0"; sr_ObservedGeneration := 1;
       sr_Conditions := []; sr_Manager := degraded; sr_Indexer := degraded; sr_Dashboard := degraded;
       sr_Security := None; sr_CertificateRollouts := None; sr_VolumeExpansion := None;
       sr_RollingRestart := None |}
    (with_finalizers [wazuhClusterFinalizer; "other/finalizer"] c).

Definition unreadable : site := {| s_cluster := down; s_readable := false; s_objects := [] |}.
End SimStatus.


(** A cluster without components that was ready stays [Ready]. *)
Example conditions_outlive_state_witness :
  let up := updateCondition 1 ConditionTypeReady ConditionTrue "ClusterReady" "All components are ready"
              SimStatus.down in
  let now_down := final_status 10 up SimStatus.down (Found None) (Found None) (Found None) in
  sr_Phase (wc_Status now_down) = ClusterPhaseCreating /\
  condition_is ConditionTypeReady ConditionTrue (conditions_of now_down).
Proof.
  intros up now_down. split; [reflexivity|].
  refine (proj1 (proj2 (conditions_outlive_state (conditions_of up) (conditions_of now_down) _)) _ _ _).
  - apply rtc_once, write_status.
  - by left.
  - reflexivity.
Defined.

Example finalizer_goes_last_witness :
  let s := {| SimStatus.s_cluster := SimStatus.down; SimStatus.s_readable := true;
              SimStatus.s_objects := [("Secret", "a-cluster-key")] |} in
  ContainsFinalizer SimStatus.down wazuhClusterFinalizer = true /\
  om_Finalizers (wc_Meta (SimStatus.s_cluster (handleDeletion SimStatus.down s).2)) = ["other/finalizer"] /\
  exists w1, deleted (wc_Namespace SimStatus.down) (cleanup_objects (wc_Name SimStatus.down))
    (update_cluster_status
       (set_status (set_phase ClusterPhaseDeleting (wc_Status SimStatus.down)) SimStatus.down) s).2 w1.
Proof.
  intros s. split; [reflexivity|]. split; [vm_compute; reflexivity|].
  assert (Hr : is_ok (handleDeletion SimStatus.down s).1 = true) by (vm_compute; reflexivity).
  destruct (finalizer_goes_last SimStatus.down s eq_refl)
    as [(w1 & Hd & _)|(d & k & n & rest & e & w1 & w' & _ & _ & _ & _ & H)].
  - exists w1. exact Hd.
  - rewrite H in Hr. discriminate Hr.
Defined.
