(* ===== verification/Credentials.v ===== *)
(** * Rotation of the API and enrolment credentials ([controllers/wazuhcluster_controller.go])

    The secrets' hashes are kept in the status; when one changes, the workloads
    that use the secret get a new annotation on their pod template, which
    restarts their pods. *)
From S2P Require Import Prelude GoStrings GoFloat Kube DrainState IndexerDrain Cluster ScaleDown.
From S2P Require Import ClusterStatus Rolling Rollouts Workload.
Local Open Scope go_scope.
Local Open Scope list_scope.

Definition apiCredentialRecoveryHashAnnotation : string := "wazuh.com/api-credential-recovery-hash".
Definition authdCredentialRecoveryHashAnnotation : string := "wazuh.com/authd-credential-recovery-hash".
Definition AnnotationRestartedAt : string := "wazuh.com/restarted-at".
Definition AnnotationRollingRestartTriggered : string := "wazuh.com/rolling-restart-triggered".

(** ** Which secret, which keys *)

Definition resolveAPICredentialsRef (cluster : WazuhCluster) : string * string * string :=
  let secretName := APICredentialsName (wc_Name cluster) in
  match m ← wc_SpecManager cluster; mg_APICredentials m with
  | None => (secretName, "api-username", "api-password")
  | Some ref =>
      let customSecret := GetSecretName (Some ref) in
      let '(secretName, usernameKey, passwordKey) :=
        if bool_decide (customSecret <> "") then (customSecret, "username", "password")
        else (secretName, "api-username", "api-password") in
      (secretName,
       if bool_decide (cr_UsernameKey ref <> "") then cr_UsernameKey ref else usernameKey,
       if bool_decide (cr_PasswordKey ref <> "") then cr_PasswordKey ref else passwordKey)
  end.

Definition defaultAuthdSecretKey (secretName : string) : string :=
  if HasSuffix secretName "-authd-pass" then "authd.pass" else "password".

Record authd_ref := {
  ar_SecretName : string;
  ar_PasswordKey : string
}.

(** The reference when the password is used, and [enabledOnMasterOnly]. *)
Definition resolveAuthdCredentialsRef (cluster : WazuhCluster) : option authd_ref * bool :=
  match wc_SpecManager cluster with
  | None => (None, true)
  | Some m =>
      let auth := mg_Auth m in
      let disabled := default false (a ← auth; au_Disabled a) in
      let usePassword := default false (a ← auth; au_UsePassword a) in
      let enabledOnMasterOnly := default true (a ← auth; au_EnabledOnMasterOnly a) in
      let '(secretName, passwordKey) :=
        match a ← auth; au_PasswordSecretRef a with
        | Some s => (sel_Name s, sel_Key s)
        | None => ("", "")
        end in
      let '(secretName, passwordKey, usePassword) :=
        match mg_AuthdPasswordSecretRef m with
        | Some s =>
            if bool_decide (secretName = "") then (sel_Name s, sel_Key s, true)
            else (secretName, passwordKey, usePassword)
        | None => (secretName, passwordKey, usePassword)
        end in
      let passwordKey :=
        if bool_decide (passwordKey = "") then defaultAuthdSecretKey secretName else passwordKey in
      if disabled || negb usePassword || bool_decide (secretName = "")
      then (None, enabledOnMasterOnly)
      else (Some {| ar_SecretName := secretName; ar_PasswordKey := passwordKey |}, enabledOnMasterOnly)
  end.

(** ** Requesting a restart *)

(** What [triggerStatefulSetRestartWithHash] and
    [triggerDeploymentRestartWithHash] use of either kind. *)
Class Restartable (V T : Type) := {
  rk_replicas : T -> option Z;
  rk_annotate : gmap string string -> T -> T
}.

Definition annotate_template {V} (m : gmap string string) (p : PodTemplate V) : PodTemplate V :=
  {| pt_Annotations := Some m; pt_SecurityContext := pt_SecurityContext p;
     pt_Tolerations := pt_Tolerations p; pt_Affinity := pt_Affinity p;
     pt_RuleMounts := pt_RuleMounts p; pt_DecoderMounts := pt_DecoderMounts p; pt_Rest := pt_Rest p |}.

#[export] Instance statefulset_restartable {V} : Restartable V (FullStatefulSet V) := {
  rk_replicas := fs_Replicas;
  rk_annotate m s :=
    {| fs_Name := fs_Name s; fs_Namespace := fs_Namespace s; fs_ServerMeta := fs_ServerMeta s;
       fs_Deleting := fs_Deleting s; fs_Labels := fs_Labels s; fs_Annotations := fs_Annotations s;
       fs_OwnerReferences := fs_OwnerReferences s; fs_Selector := fs_Selector s;
       fs_ServiceName := fs_ServiceName s; fs_VolumeClaimTemplates := fs_VolumeClaimTemplates s;
       fs_PodManagementPolicy := fs_PodManagementPolicy s; fs_Replicas := fs_Replicas s;
       fs_Template := annotate_template m (fs_Template s); fs_UpdateStrategy := fs_UpdateStrategy s;
       fs_MinReadySeconds := fs_MinReadySeconds s; fs_RetentionPolicy := fs_RetentionPolicy s;
       fs_Ordinals := fs_Ordinals s; fs_RevisionHistoryLimit := fs_RevisionHistoryLimit s |}
}.

#[export] Instance deployment_restartable {V} : Restartable V (FullDeployment V) := {
  rk_replicas := fd_Replicas;
  rk_annotate m d :=
    {| fd_Name := fd_Name d; fd_Namespace := fd_Namespace d; fd_ServerMeta := fd_ServerMeta d;
       fd_Deleting := fd_Deleting d; fd_Labels := fd_Labels d; fd_Annotations := fd_Annotations d;
       fd_OwnerReferences := fd_OwnerReferences d; fd_Selector := fd_Selector d;
       fd_Replicas := fd_Replicas d; fd_Template := annotate_template m (fd_Template d);
       fd_Strategy := fd_Strategy d; fd_MinReadySeconds := fd_MinReadySeconds d;
       fd_RevisionHistoryLimit := fd_RevisionHistoryLimit d; fd_Paused := fd_Paused d;
       fd_ProgressDeadlineSeconds := fd_ProgressDeadlineSeconds d |}
}.

Section Trigger.
Context {V T W : Type} `{!WorkloadKind V T, !Restartable V T, !WorkloadClient T W}.
Context (cancelled : nat -> option error) (rfc3339 : Z -> string).

Definition restart_annotations (now : Z) (key hash : string) (m : annotations) : gmap string string :=
  <[key := hash]> (<[AnnotationRollingRestartTriggered := "true"]>
    (<[AnnotationRestartedAt := rfc3339 now]> (default ∅ m))).

Definition trigger_once (now : Z) (namespace name key hash : string) : API W unit := fun w =>
  match get_workload namespace name w with
  | (Failed e, w) => (Failed e, w)
  | (Found t, w) =>
      if bool_decide (rk_replicas t = Some 0) then (Found tt, w)
      else
        let m := pt_Annotations (k_template t) in
        if bool_decide (lookup_str m key = hash) then (Found tt, w)
        else update_workload (rk_annotate (restart_annotations now key hash m) t) w
  end.

Definition triggerRestartWithHash (now : Z) (namespace name key hash : string) : API W unit :=
  RetryOnConflict cancelled (trigger_once now namespace name key hash).
End Trigger.

(** ** The two rotations *)

Definition empty_security : SecurityStatus :=
  {| se_Initialized := false; se_InitializationTime := None; se_LastSyncTime := None;
     se_DefaultAdminUser := ""; se_DefaultAdminSource := ""; se_SyncedUsers := 0; se_SyncedRoles := 0;
     se_SyncedRoleMappings := 0; se_SyncedTenants := 0; se_SyncedActionGroups := 0;
     se_IndexerRestartCount := 0; se_CredentialsHash := ""; se_APICredentialsHash := "";
     se_AuthdCredentialsHash := "" |}.

Definition set_security (s : option SecurityStatus) (c : WazuhCluster) : WazuhCluster :=
  let st := wc_Status c in
  set_status
    {| sr_Phase := sr_Phase st; sr_Version := sr_Version st;
       sr_ObservedGeneration := sr_ObservedGeneration st; sr_Conditions := sr_Conditions st;
       sr_Manager := sr_Manager st; sr_Indexer := sr_Indexer st; sr_Dashboard := sr_Dashboard st;
       sr_Security := s; sr_CertificateRollouts := sr_CertificateRollouts st;
       sr_VolumeExpansion := sr_VolumeExpansion st; sr_RollingRestart := sr_RollingRestart st |} c.

(** The security status of a cluster, with an empty one for none. *)
Definition security (c : WazuhCluster) : SecurityStatus :=
  default empty_security (sr_Security (wc_Status c)).

Definition with_api_hash (h : string) (s : SecurityStatus) : SecurityStatus :=
  {| se_Initialized := se_Initialized s; se_InitializationTime := se_InitializationTime s;
     se_LastSyncTime := se_LastSyncTime s; se_DefaultAdminUser := se_DefaultAdminUser s;
     se_DefaultAdminSource := se_DefaultAdminSource s; se_SyncedUsers := se_SyncedUsers s;
     se_SyncedRoles := se_SyncedRoles s; se_SyncedRoleMappings := se_SyncedRoleMappings s;
     se_SyncedTenants := se_SyncedTenants s; se_SyncedActionGroups := se_SyncedActionGroups s;
     se_IndexerRestartCount := se_IndexerRestartCount s; se_CredentialsHash := se_CredentialsHash s;
     se_APICredentialsHash := h; se_AuthdCredentialsHash := se_AuthdCredentialsHash s |}.

Definition with_authd_hash (h : string) (s : SecurityStatus) : SecurityStatus :=
  {| se_Initialized := se_Initialized s; se_InitializationTime := se_InitializationTime s;
     se_LastSyncTime := se_LastSyncTime s; se_DefaultAdminUser := se_DefaultAdminUser s;
     se_DefaultAdminSource := se_DefaultAdminSource s; se_SyncedUsers := se_SyncedUsers s;
     se_SyncedRoles := se_SyncedRoles s; se_SyncedRoleMappings := se_SyncedRoleMappings s;
     se_SyncedTenants := se_SyncedTenants s; se_SyncedActionGroups := se_SyncedActionGroups s;
     se_IndexerRestartCount := se_IndexerRestartCount s; se_CredentialsHash := se_CredentialsHash s;
     se_APICredentialsHash := se_APICredentialsHash s; se_AuthdCredentialsHash := h |}.

Section Rotation.
Context {V W : Type} (deep_equal : V -> V -> bool).
Context `{!KubeClient W, !WorkloadClient (FullStatefulSet V) W, !WorkloadClient (FullDeployment V) W}.
Context (cancelled : nat -> option error) (rfc3339 : Z -> string) (sha256_hex : string -> string).

#[local] Existing Instance deployment_kind.
#[local] Instance sts_kind : WorkloadKind V (FullStatefulSet V) := statefulset_kind deep_equal.

(** [string(secret.Data[key])] *)
Definition secret_string (secret : Secret) (key : string) : string := default "" (secret !! key).

Definition computeAPICredentialsHash (cluster : WazuhCluster) : API W string := fun w =>
  let '(secretName, usernameKey, passwordKey) := resolveAPICredentialsRef cluster in
  match get_secret (wc_Namespace cluster) secretName w with
  | (Failed e, w) => (Failed e, w)
  | (Found secret, w) =>
      let username := secret_string secret usernameKey in
      let password := secret_string secret passwordKey in
      (Found (if bool_decide (username = "") && bool_decide (password = "") then ""
              else HashStrings sha256_hex [username; password]), w)
  end.

(** [None] is "not configured". *)
Definition computeAuthdCredentialsHash (cluster : WazuhCluster) : API W (option string) := fun w =>
  match (resolveAuthdCredentialsRef cluster).1 with
  | None => (Found None, w)
  | Some ref =>
      match get_secret (wc_Namespace cluster) (ar_SecretName ref) w with
      | (Failed e, w) => (Failed e, w)
      | (Found secret, w) =>
          let password := secret_string secret (ar_PasswordKey ref) in
          let password :=
            if bool_decide (password = "")
            then secret_string secret
                   (if bool_decide (ar_PasswordKey ref = "password") then "authd.pass" else "password")
            else password in
          (Found (Some (if bool_decide (password = "") then ""
                        else HashStrings sha256_hex [password])), w)
      end
  end.

(** [if err := trigger...; err != nil && !errors.IsNotFound(err) { return ... }] *)
Definition unless_missing (ctx : string) (m : API W unit) : IO (WazuhCluster * W) unit :=
  out <- io_world (io_outcome m) ;;
  match out with
  | Failed e => if IsNotFound e then io_ret tt else io_err (errorf ctx (api_message e))
  | Found _ => io_ret tt
  end.

Definition restart_statefulset (now : Z) (ns name key hash : string) : API W unit :=
  triggerRestartWithHash (T := FullStatefulSet V) cancelled rfc3339 now ns name key hash.
Definition restart_deployment (now : Z) (ns name key hash : string) : API W unit :=
  triggerRestartWithHash (T := FullDeployment V) cancelled rfc3339 now ns name key hash.

Definition set_security_in (s : SecurityStatus) : IO (WazuhCluster * W) unit :=
  io_modify (prod_map (set_security (Some s)) id).

Definition reconcileAPICredentialsStatusAndRollout (now : Z) : IO (WazuhCluster * W) unit :=
  s <- io_get ;;
  let cluster := s.1 in
  let ns := wc_Namespace cluster in
  let name := wc_Name cluster in
  match wc_SpecManager cluster with
  | None => io_ret tt
  | Some _ =>
      computed <- io_world (io_outcome (computeAPICredentialsHash cluster)) ;;
      match computed with
      | Failed e =>
          if IsNotFound e then io_ret tt
          else io_err (errorf "failed to compute Wazuh API credentials hash" (api_message e))
      | Found newHash =>
          if bool_decide (newHash = "") then io_ret tt
          else
            set_security_in (security cluster) ;;;
            let oldHash := se_APICredentialsHash (security cluster) in
            if bool_decide (oldHash = newHash) then io_ret tt
            else if bool_decide (oldHash = "") then
              set_security_in (with_api_hash newHash (security cluster))
            else
              let key := apiCredentialRecoveryHashAnnotation in
              unless_missing "failed to restart manager master after API credentials change"
                (restart_statefulset now ns (ManagerMasterName name) key newHash) ;;;
              unless_missing "failed to restart manager workers after API credentials change"
                (restart_statefulset now ns (ManagerWorkerName name) key newHash) ;;;
              unless_missing "failed to restart dashboard after API credentials change"
                (restart_deployment now ns (DashboardName name) key newHash) ;;;
              set_security_in (with_api_hash newHash (security cluster))
      end
  end.

Definition reconcileAuthdCredentialsStatusAndRollout (now : Z) : IO (WazuhCluster * W) unit :=
  s <- io_get ;;
  let cluster := s.1 in
  let ns := wc_Namespace cluster in
  let name := wc_Name cluster in
  match wc_SpecManager cluster with
  | None => io_ret tt
  | Some _ =>
      computed <- io_world (io_outcome (computeAuthdCredentialsHash cluster)) ;;
      match computed with
      | Failed e =>
          if IsNotFound e then io_ret tt
          else io_err (errorf "failed to compute authd credentials hash" (api_message e))
      | Found newHash =>
          set_security_in (security cluster) ;;;
          let oldHash := se_AuthdCredentialsHash (security cluster) in
          let newHash := default "" newHash in
          if bool_decide (newHash = "") then
            (if bool_decide (oldHash <> "") then set_security_in (with_authd_hash "" (security cluster))
             else io_ret tt)
          else if bool_decide (oldHash = newHash) then io_ret tt
          else if bool_decide (oldHash = "") then
            set_security_in (with_authd_hash newHash (security cluster))
          else
            let key := authdCredentialRecoveryHashAnnotation in
            unless_missing "failed to restart manager master after authd password change"
              (restart_statefulset now ns (ManagerMasterName name) key newHash) ;;;
            (if negb (resolveAuthdCredentialsRef cluster).2 then
               unless_missing "failed to restart manager workers after authd password change"
                 (restart_statefulset now ns (ManagerWorkerName name) key newHash)
             else io_ret tt) ;;;
            set_security_in (with_authd_hash newHash (security cluster))
      end
  end.
End Rotation.

(** ** Laws of a server that only these calls change *)

(** The objects of a kind as the server has them; a call that fails changes
    none of them. *)
Class RestartStore (V T W : Type) `{!WorkloadKind V T, !WorkloadClient T W} := {
  stored : string -> string -> W -> option T;
  get_keeps ns n w ns' n' : stored ns' n' (get_workload ns n w).2 = stored ns' n' w;
  get_found ns n w t : (get_workload ns n w).1 = Found t ->
    stored ns n w = Some t /\ k_namespace t = ns /\ k_name t = n;
  get_missing ns n w e : (get_workload ns n w).1 = Failed e -> IsNotFound e = true -> stored ns n w = None;
  update_found t w : (update_workload t w).1 = Found tt -> forall ns n,
    stored ns n (update_workload t w).2
      = if decide (ns = k_namespace t /\ n = k_name t) then Some t else stored ns n w;
  update_failed t w e ns n : (update_workload t w).1 = Failed e ->
    stored ns n (update_workload t w).2 = stored ns n w;
  update_missing t w e : (update_workload t w).1 = Failed e -> IsNotFound e = true ->
    stored (k_namespace t) (k_name t) w = None
}.

(** A restart keeps the name of the object and replaces its annotations. *)
Class RestartableLaws (V T : Type) `{!WorkloadKind V T, !Restartable V T} := {
  annotate_named m (t : T) : k_namespace (rk_annotate m t) = k_namespace t /\
                             k_name (rk_annotate m t) = k_name t;
  annotate_template_of m (t : T) : pt_Annotations (k_template (rk_annotate m t)) = Some m;
  annotate_replicas m (t : T) : rk_replicas (rk_annotate m t) = rk_replicas t
}.

#[export] Instance statefulset_restartable_laws {V} (deep_equal : V -> V -> bool) :
  @RestartableLaws V (FullStatefulSet V) (statefulset_kind deep_equal) _.
Proof. by split. Qed.
#[export] Instance deployment_restartable_laws {V} :
  @RestartableLaws V (FullDeployment V) deployment_kind _.
Proof. by split. Qed.

(** An object whose pods need no restart for [hash]: there is none, it has no
    pods, or its template carries the hash. *)
Definition up_to_date {V T} `{!WorkloadKind V T, !Restartable V T} (key hash : string) (o : option T) : Prop :=
  match o with
  | None => True
  | Some t => rk_replicas t = Some 0 \/ lookup_str (pt_Annotations (k_template t)) key = hash
  end.

Section Triggers.
Context {V T W : Type} `{KV : !WorkloadKind V T, RT : !Restartable V T, WC : !WorkloadClient T W}.
Context `{!RestartStore V T W, !RestartableLaws V T}.
Context (cancelled : nat -> option error) (rfc3339 : Z -> string).

(** What the states of the store have in common with an earlier one. *)
Definition same_store (w w' : W) : Prop := forall ns n, stored (V := V) (T := T) ns n w' = stored ns n w.

Lemma trigger_outcome now ns n key hash w :
  match triggerRestartWithHash (T := T) cancelled rfc3339 now ns n key hash w with
  | (Found _, w') =>
      up_to_date key hash (stored ns n w') /\
      (forall ns' n', (ns', n') <> (ns, n) -> stored ns' n' w' = stored ns' n' w) /\
      (up_to_date key hash (stored ns n w) -> same_store w w')
  | (Failed e, w') => same_store w w' /\ (IsNotFound e = true -> stored ns n w' = None)
  end.
Proof.
  unfold triggerRestartWithHash.
  apply (RetryOnConflict_rule cancelled _ (same_store w) _ (fun w' => stored ns n w' = None)); [by intros ??|].
  intros w0 H0. unfold trigger_once.
  pose proof (get_keeps (V := V) (T := T) ns n w0) as Hk. pose proof (get_found (V := V) (T := T) ns n w0) as Hf.
  pose proof (get_missing (V := V) (T := T) ns n w0) as Hm.
  destruct (get_workload ns n w0) as [[t|e] w1]; cbn [fst snd] in *.
  2: { split; [intros ??; by rewrite Hk, H0|]. intros En. rewrite Hk. by eapply Hm. }
  destruct (Hf t eq_refl) as (Hs & Hns & Hn). clear Hf Hm.
  assert (H1 : same_store w w1) by (intros ??; by rewrite Hk, H0).
  assert (Hs1 : stored ns n w1 = Some t) by (by rewrite Hk).
  case_bool_decide as E1; [|case_bool_decide as E2].
  - split_and!; [rewrite Hs1; by left|intros; apply H1|done].
  - split_and!; [rewrite Hs1; by right|intros; apply H1|done].
  - set (t' := rk_annotate _ t). destruct (annotate_named
      (restart_annotations rfc3339 now key hash (pt_Annotations (k_template t))) t) as [Ens Enm].
    fold t' in Ens, Enm. rewrite Hns in Ens. rewrite Hn in Enm.
    pose proof (update_found (V := V) t' w1) as Uf. pose proof (update_failed (V := V) t' w1) as Uk.
    pose proof (update_missing (V := V) t' w1) as Um. rewrite Ens, Enm in Uf, Um.
    destruct (update_workload t' w1) as [[[]|e] w2]; cbn [fst snd] in *.
    + specialize (Uf eq_refl). split_and!.
      * rewrite Uf, decide_True by done. right. unfold t'. rewrite annotate_template_of.
        unfold lookup_str, restart_annotations. cbn. by rewrite lookup_insert_eq.
      * intros ns' n' Hne. rewrite Uf, decide_False by naive_solver. apply H1.
      * intros Hup. exfalso. rewrite <-(H1 ns n), Hs1 in Hup. by destruct Hup.
    + split; [intros ??; by rewrite (Uk e _ _ eq_refl), H1|].
      intros En. rewrite (Uk e _ _ eq_refl). by apply (Um e).
Qed.
End Triggers.

(** The two kinds and the secrets do not touch each other. *)
Class SeparateStores (V W : Type) `{!KubeClient W}
    `{S1 : RestartStore V (FullStatefulSet V) W, S2 : RestartStore V (FullDeployment V) W} := {
  sts_get_deployments ns n (w : W) ns' n' :
    stored (T := FullDeployment V) ns' n' (get_workload (T := FullStatefulSet V) ns n w).2
      = stored ns' n' w;
  sts_update_deployments (t : FullStatefulSet V) (w : W) ns' n' :
    stored (T := FullDeployment V) ns' n' (update_workload t w).2 = stored ns' n' w;
  dep_get_statefulsets ns n (w : W) ns' n' :
    stored (T := FullStatefulSet V) ns' n' (get_workload (T := FullDeployment V) ns n w).2
      = stored ns' n' w;
  dep_update_statefulsets (t : FullDeployment V) (w : W) ns' n' :
    stored (T := FullStatefulSet V) ns' n' (update_workload t w).2 = stored ns' n' w;
  secret_statefulsets ns n (w : W) ns' n' :
    stored (T := FullStatefulSet V) ns' n' (get_secret ns n w).2 = stored ns' n' w;
  secret_deployments ns n (w : W) ns' n' :
    stored (T := FullDeployment V) ns' n' (get_secret ns n w).2 = stored ns' n' w
}.

Section Properties.
Context {V W : Type} (deep_equal : V -> V -> bool).
Context `{!KubeClient W, !WorkloadClient (FullStatefulSet V) W, !WorkloadClient (FullDeployment V) W}.
#[local] Existing Instance deployment_kind.
#[local] Instance sts_kind' : WorkloadKind V (FullStatefulSet V) := statefulset_kind deep_equal.
#[local] Instance sts_laws' : RestartableLaws V (FullStatefulSet V) := statefulset_restartable_laws deep_equal.
Context `{!RestartStore V (FullStatefulSet V) W, !RestartStore V (FullDeployment V) W}.
Context `{!SeparateStores V W}.
Context (cancelled : nat -> option error) (rfc3339 : Z -> string) (sha256_hex : string -> string).

Abbreviation api_rotation := (reconcileAPICredentialsStatusAndRollout deep_equal cancelled rfc3339 sha256_hex).
Abbreviation authd_rotation := (reconcileAuthdCredentialsStatusAndRollout deep_equal cancelled rfc3339 sha256_hex).

Definition sts_at (w : W) (ns n : string) : option (FullStatefulSet V) := stored ns n w.
Definition dep_at (w : W) (ns n : string) : option (FullDeployment V) := stored ns n w.

(** No workload was changed. *)
Definition untouched (w w' : W) : Prop :=
  (forall ns n, sts_at w' ns n = sts_at w ns n) /\ (forall ns n, dep_at w' ns n = dep_at w ns n).

Lemma trigger_keeps {T} `{!WorkloadKind V T, !Restartable V T, !WorkloadClient T W} (I : W -> Prop)
    now ns n key hash w :
  (forall w, I w -> I (get_workload (T := T) ns n w).2) ->
  (forall (t : T) w, I w -> I (update_workload t w).2) ->
  I w -> I (triggerRestartWithHash (T := T) cancelled rfc3339 now ns n key hash w).2.
Proof.
  intros Hg Hu Hw. unfold triggerRestartWithHash.
  pose proof (RetryOnConflict_rule cancelled (trigger_once rfc3339 now ns n key hash : API W unit) I
    (fun _ => I) (fun _ => True) w Hw) as H. destruct (RetryOnConflict _ _ w) as [r w'].
  enough (Hone : forall w0, I w0 -> I (trigger_once (T := T) rfc3339 now ns n key hash w0).2).
  { destruct r; cbn; apply H; intros w0 H0; specialize (Hone w0 H0); by destruct (trigger_once _ _ _ _ _ _ w0) as [[]]. }
  intros w0 H0. unfold trigger_once. specialize (Hg w0 H0).
  destruct (get_workload ns n w0) as [[t|e] w1]; [|done]. do 2 (case_bool_decide; [done|]). by apply Hu.
Qed.

Lemma compute_untouched c w : untouched w (computeAPICredentialsHash sha256_hex c w).2.
Proof.
  unfold computeAPICredentialsHash. destruct (resolveAPICredentialsRef c) as [[s u] p].
  pose proof (secret_statefulsets (V := V) (wc_Namespace c) s w) as H1.
  pose proof (secret_deployments (V := V) (wc_Namespace c) s w) as H2.
  by destruct (get_secret _ s w) as [[x|e] w1].
Qed.

Lemma compute_authd_untouched c w : untouched w (computeAuthdCredentialsHash sha256_hex c w).2.
Proof.
  unfold computeAuthdCredentialsHash. destruct ((resolveAuthdCredentialsRef c).1) as [ref|]; [|done].
  pose proof (secret_statefulsets (V := V) (wc_Namespace c) (ar_SecretName ref) w) as H1.
  pose proof (secret_deployments (V := V) (wc_Namespace c) (ar_SecretName ref) w) as H2.
  by destruct (get_secret _ _ w) as [[x|e] w1].
Qed.

Lemma untouched_trans w1 w2 w3 : untouched w1 w2 -> untouched w2 w3 -> untouched w1 w3.
Proof. intros [A B] [C D]. split; intros; [by rewrite C|by rewrite D]. Qed.

(** Restarting one StatefulSet: the object is up to date afterwards, nothing
    else changed, and it did not change when it was up to date before. *)
Lemma restart_statefulset_spec ctx now c ns n key hash w r s' :
  unless_missing ctx (restart_statefulset deep_equal cancelled rfc3339 now ns n key hash) (c, w) = (r, s') ->
  exists w', s' = (c, w') /\ (r = Ok tt -> up_to_date key hash (sts_at w' ns n)) /\
    (forall ns' n', (ns', n') <> (ns, n) -> sts_at w' ns' n' = sts_at w ns' n') /\
    (forall ns' n', dep_at w' ns' n' = dep_at w ns' n') /\
    (up_to_date key hash (sts_at w ns n) -> untouched w w').
Proof.
  unfold unless_missing, restart_statefulset, io_bind, io_world, io_outcome.
  pose proof (trigger_outcome (V := V) (T := FullStatefulSet V) cancelled rfc3339 now ns n key hash w) as H.
  pose proof (trigger_keeps (T := FullStatefulSet V) (fun w0 => forall ns' n', dep_at w0 ns' n' = dep_at w ns' n')
    now ns n key hash w) as Hd.
  assert (Hg : forall w0, (forall ns' n', dep_at w0 ns' n' = dep_at w ns' n') -> forall ns' n',
    dep_at (get_workload (T := FullStatefulSet V) ns n w0).2 ns' n' = dep_at w ns' n').
  { intros w0 H0 ??. rewrite <-H0. apply sts_get_deployments. }
  assert (Hu : forall (t : FullStatefulSet V) w0, (forall ns' n', dep_at w0 ns' n' = dep_at w ns' n') ->
    forall ns' n', dep_at (update_workload t w0).2 ns' n' = dep_at w ns' n').
  { intros t w0 H0 ??. rewrite <-H0. apply sts_update_deployments. }
  specialize (Hd Hg Hu ltac:(done)).
  destruct (triggerRestartWithHash _ _ _ _ _ _ _ w) as [[[]|e] w']; cbn [snd] in Hd.
  - intros E. injection E as <- <-. destruct H as (H1 & H2 & H3). exists w'.
    split_and!; try done. intros Hup. by split; [apply H3|].
  - destruct H as [H1 H2].
    assert (Hout : s' = (c, w') -> (r = Ok tt -> IsNotFound e = true) -> exists w'', s' = (c, w'') /\
      (r = Ok tt -> up_to_date key hash (sts_at w'' ns n)) /\
      (forall ns' n', (ns', n') <> (ns, n) -> sts_at w'' ns' n' = sts_at w ns' n') /\
      (forall ns' n', dep_at w'' ns' n' = dep_at w ns' n') /\
      (up_to_date key hash (sts_at w ns n) -> untouched w w'')).
    { intros -> Hr. exists w'. split_and!; try done; [|by intros; apply H1].
      intros Hok. unfold sts_at. by rewrite H2 by auto. }
    destruct (IsNotFound e); intros E; injection E as <- <-; apply Hout; done.
Qed.

Lemma restart_deployment_spec ctx now c ns n key hash w r s' :
  unless_missing ctx (restart_deployment (V := V) cancelled rfc3339 now ns n key hash) (c, w) = (r, s') ->
  exists w', s' = (c, w') /\ (r = Ok tt -> up_to_date key hash (dep_at w' ns n)) /\
    (forall ns' n', sts_at w' ns' n' = sts_at w ns' n') /\
    (up_to_date key hash (dep_at w ns n) -> untouched w w').
Proof.
  unfold unless_missing, restart_deployment, io_bind, io_world, io_outcome.
  pose proof (trigger_outcome (V := V) (T := FullDeployment V) cancelled rfc3339 now ns n key hash w) as H.
  pose proof (trigger_keeps (T := FullDeployment V) (fun w0 => forall ns' n', sts_at w0 ns' n' = sts_at w ns' n')
    now ns n key hash w) as Hd.
  assert (Hg : forall w0, (forall ns' n', sts_at w0 ns' n' = sts_at w ns' n') -> forall ns' n',
    sts_at (get_workload (T := FullDeployment V) ns n w0).2 ns' n' = sts_at w ns' n').
  { intros w0 H0 ??. rewrite <-H0. apply dep_get_statefulsets. }
  assert (Hu : forall (t : FullDeployment V) w0, (forall ns' n', sts_at w0 ns' n' = sts_at w ns' n') ->
    forall ns' n', sts_at (update_workload t w0).2 ns' n' = sts_at w ns' n').
  { intros t w0 H0 ??. rewrite <-H0. apply dep_update_statefulsets. }
  specialize (Hd Hg Hu ltac:(done)).
  destruct (triggerRestartWithHash _ _ _ _ _ _ _ w) as [[[]|e] w']; cbn [snd] in Hd.
  - intros E. injection E as <- <-. destruct H as (H1 & H2 & H3). exists w'.
    split_and!; try done. intros Hup. by split; [|apply H3].
  - destruct H as [H1 H2].
    assert (Hout : s' = (c, w') -> (r = Ok tt -> IsNotFound e = true) -> exists w'', s' = (c, w'') /\
      (r = Ok tt -> up_to_date key hash (dep_at w'' ns n)) /\
      (forall ns' n', sts_at w'' ns' n' = sts_at w ns' n') /\
      (up_to_date key hash (dep_at w ns n) -> untouched w w'')).
    { intros -> Hr. exists w'. split_and!; try done. intros Hok. unfold dep_at. by rewrite H2 by auto. }
    destruct (IsNotFound e); intros E; injection E as <- <-; apply Hout; done.
Qed.

Lemma master_not_worker n : ManagerMasterName n <> ManagerWorkerName n.
Proof. unfold ManagerMasterName, ManagerWorkerName. intros H%(inj (String.append n)). discriminate H. Qed.

(** The workloads of a cluster that use the API credentials. *)
Definition all_up_to_date (key hash : string) (c : WazuhCluster) (w : W) : Prop :=
  up_to_date key hash (sts_at w (wc_Namespace c) (ManagerMasterName (wc_Name c))) /\
  up_to_date key hash (sts_at w (wc_Namespace c) (ManagerWorkerName (wc_Name c))) /\
  up_to_date key hash (dep_at w (wc_Namespace c) (DashboardName (wc_Name c))).

Lemma untouched_sts w w' ns n key h :
  untouched w w' -> up_to_date key h (sts_at w ns n) -> up_to_date key h (sts_at w' ns n).
Proof. intros [H _]. by rewrite H. Qed.
Lemma untouched_dep w w' ns n key h :
  untouched w w' -> up_to_date key h (dep_at w ns n) -> up_to_date key h (dep_at w' ns n).
Proof. intros [_ H]. by rewrite H. Qed.

(** The three restarts after a change of the API credentials, and what follows
    them. *)
Lemma restart_all_spec now c key h x1 x2 x3 (final : SecurityStatus) w r c' w' :
  (unless_missing x1 (restart_statefulset deep_equal cancelled rfc3339 now (wc_Namespace c)
                        (ManagerMasterName (wc_Name c)) key h) ;;;
   unless_missing x2 (restart_statefulset deep_equal cancelled rfc3339 now (wc_Namespace c)
                        (ManagerWorkerName (wc_Name c)) key h) ;;;
   unless_missing x3 (restart_deployment (V := V) cancelled rfc3339 now (wc_Namespace c)
                        (DashboardName (wc_Name c)) key h) ;;;
   set_security_in final) (c, w) = (r, (c', w')) ->
  (r = Ok tt /\ c' = set_security (Some final) c /\ all_up_to_date key h c w' \/
   (exists e, r = Err e) /\ c' = c) /\
  (all_up_to_date key h c w -> untouched w w').
Proof.
  unfold io_bind at 1. destruct (unless_missing x1 _ (c, w)) as [r1 s1] eqn:E1.
  apply restart_statefulset_spec in E1 as (w1 & -> & U1 & O1 & D1 & N1).
  destruct r1 as [[]|e1]; [|intros H; simplify_eq; split; [right; eauto|intros (A & _); by apply N1]].
  unfold io_bind at 1. destruct (unless_missing x2 _ (c, w1)) as [r2 s2] eqn:E2.
  apply restart_statefulset_spec in E2 as (w2 & -> & U2 & O2 & D2 & N2).
  assert (N12 : all_up_to_date key h c w -> untouched w w2).
  { intros (A & B & _). specialize (N1 A). eapply untouched_trans; [done|]. apply N2.
    by eapply untouched_sts. }
  destruct r2 as [[]|e2]; [|intros H; simplify_eq; split; [right; eauto|done]].
  unfold io_bind at 1. destruct (unless_missing x3 _ (c, w2)) as [r3 s3] eqn:E3.
  apply restart_deployment_spec in E3 as (w3 & -> & U3 & O3 & N3).
  assert (N123 : all_up_to_date key h c w -> untouched w w3).
  { intros A. specialize (N12 A). eapply untouched_trans; [done|]. apply N3.
    eapply untouched_dep; [done|]. apply A. }
  destruct r3 as [[]|e3]; [|intros H; simplify_eq; split; [right; eauto|done]].
  unfold set_security_in, io_modify. intros H. simplify_eq/=. split; [|done]. left. split_and!; try done.
  split_and!; [| |by apply U3].
  - rewrite O3, O2; [by apply U1|]. intros Hn. injection Hn as Hn. by apply master_not_worker in Hn.
  - rewrite O3. by apply U2.
Qed.


(** a new enrolment password reaches the managers unless a blank one came
    between.  A run that records a new hash over an old one has marked the
    master, and the workers when they enrol agents too; a failed run leaves the
    recorded hash.  But a password that is blank or no longer configured erases
    the record, and a run without a record restarts nothing: the password
    that follows a blank one is taken for the first. *)
Theorem authd_rotation_gap now c w r c' w' :
  authd_rotation now (c, w) = (r, (c', w')) ->
  let old := se_AuthdCredentialsHash (security c) in
  let new := se_AuthdCredentialsHash (security c') in
  let key := authdCredentialRecoveryHashAnnotation in
  (forall e, r = Err e -> new = old) /\
  (new <> old -> old <> "" -> new <> "" ->
     up_to_date key new (sts_at w' (wc_Namespace c) (ManagerMasterName (wc_Name c))) /\
     ((resolveAuthdCredentialsRef c).2 = false ->
        up_to_date key new (sts_at w' (wc_Namespace c) (ManagerWorkerName (wc_Name c))))) /\
  (old = "" -> untouched w w') /\
  (forall h w1, wc_SpecManager c <> None -> computeAuthdCredentialsHash sha256_hex c w = (Found h, w1) ->
     default "" h = "" -> r = Ok tt /\ new = "" /\ untouched w w').
Proof.
  intros H old new key. unfold reconcileAuthdCredentialsStatusAndRollout in H. unfold io_bind at 1, io_get in H.
  cbn [fst] in H. destruct (wc_SpecManager c); [|unfold io_ret in H; simplify_eq; by split_and!].
  unfold io_bind at 1, io_world at 1, io_outcome at 1 in H. pose proof (compute_authd_untouched c w) as Hc.
  destruct (computeAuthdCredentialsHash sha256_hex c w) as [[h|e] w1] eqn:Ec; cbn [snd] in Hc.
  2: { destruct (IsNotFound e); unfold io_ret, io_err in H; simplify_eq; by split_and!. }
  unfold io_bind at 1, set_security_in at 1, io_modify in H.
  cbn [prod_map fst snd id] in H. change (se_AuthdCredentialsHash (security c)) with old in H.
  set (c1 := set_security (Some (security c)) c) in H.
  assert (Hold : se_AuthdCredentialsHash (security c1) = old) by done.
  destruct (decide (default "" h = "")) as [Eh|Nh].
  { rewrite (bool_decide_true (default "" h = "")) in H by done.
    destruct (decide (old = "")) as [Eo|No].
    - rewrite bool_decide_false in H by auto. unfold io_ret in H. simplify_eq.
      split_and!; naive_solver.
    - rewrite bool_decide_true in H by done. unfold set_security_in, io_modify in H. simplify_eq/=.
      split_and!; naive_solver. }
  rewrite (bool_decide_false (default "" h = "")) in H by done.
  destruct (decide (old = default "" h)) as [Eo|No].
  { rewrite bool_decide_true in H by done. unfold io_ret in H. simplify_eq. split_and!; naive_solver. }
  rewrite (bool_decide_false (old = default "" h)) in H by done.
  destruct (decide (old = "")) as [Eo|Ne].
  { rewrite bool_decide_true in H by done. unfold set_security_in, io_modify in H. simplify_eq/=.
    split_and!; naive_solver. }
  rewrite (bool_decide_false (old = "")) in H by done.
  split; [|split; [|split; [done|naive_solver]]]; unfold io_bind at 1 in H;
    destruct (unless_missing _ _ (c1, w1)) as [r1 s1] eqn:E1;
    apply restart_statefulset_spec in E1 as (w2 & -> & U1 & O1 & D1 & N1);
    (destruct r1 as [[]|e1]; [|by simplify_eq]); unfold io_bind at 1 in H;
    destruct (resolveAuthdCredentialsRef c).2; cbn [negb] in H.
  - unfold io_ret, set_security_in, io_modify in H. by simplify_eq/=.
  - destruct (unless_missing _ _ (c1, w2)) as [[[]|e2] s2] eqn:E2.
    + unfold set_security_in, io_modify in H. by simplify_eq/=.
    + apply restart_statefulset_spec in E2 as (w3 & -> & _). by simplify_eq.
  - unfold io_ret, set_security_in, io_modify in H. simplify_eq/=. intros _ _ _. split; [by apply U1|done].
  - destruct (unless_missing _ _ (c1, w2)) as [r2 s2] eqn:E2.
    apply restart_statefulset_spec in E2 as (w3 & -> & U2 & O2 & _). destruct r2 as [[]|e2]; [|by simplify_eq].
    unfold set_security_in, io_modify in H. simplify_eq/=. intros _ _ _. split; [|intros _; by apply U2].
    rewrite O2; [by apply U1|]. intros Hn. injection Hn as Hn. by apply master_not_worker in Hn.
Qed.

End Properties.

(** A reference that overrides keys names its secret. *)
Definition names_its_secret (c : WazuhCluster) : Prop :=
  forall ref, (m ← wc_SpecManager c; mg_APICredentials m) = Some ref ->
    GetSecretName (Some ref) <> "" \/ (cr_UsernameKey ref = "" /\ cr_PasswordKey ref = "").

(** the rotation watches the credentials that are in use.  Whenever a
    reference that overrides keys also names its secret, the secret and keys
    whose hash the rotation keeps are those from which the worker's reconciler
    takes its user name and password; a reference that overrides keys of the
    default secret is followed by the rotation only. *)
Theorem rotation_watches_credentials {W} (K : KubeClient W) c h w w1 secret :
  let '(name, usernameKey, passwordKey) := resolveAPICredentialsRef c in
  get_secret (wc_Namespace c) name w = (Found secret, w1) ->
  (names_its_secret c ->
     getWazuhAPICredentials K c (h, w)
       = (Ok (secret_string secret usernameKey, secret_string secret passwordKey), (h, w1))) /\
  (~ names_its_secret c ->
     getWazuhAPICredentials K c (h, w)
       = (Ok (secret_string secret "api-username", secret_string secret "api-password"), (h, w1))).
Proof.
  unfold resolveAPICredentialsRef, getWazuhAPICredentials, names_its_secret.
  destruct (m ← wc_SpecManager c; mg_APICredentials m) as [ref|].
  - destruct (decide (GetSecretName (Some ref) = "")) as [E|E].
    + rewrite !(bool_decide_false (GetSecretName (Some ref) <> "")) by auto. intros Hg. split.
      * intros H. destruct (H ref eq_refl) as [?|[-> ->]]; [done|].
        unfold io_bind, io_world, io_outcome, io_ret. by rewrite Hg.
      * intros _. unfold io_bind, io_world, io_outcome, io_ret. by rewrite Hg.
    + rewrite !(bool_decide_true (GetSecretName (Some ref) <> "")) by auto. intros Hg. split.
      * intros _. unfold io_bind, io_wrap, io_world, io_api, io_ret, wrapf. rewrite Hg.
        by repeat case_bool_decide.
      * intros Hn. exfalso. apply Hn. intros ? [= <-]. by left.
  - intros Hg. split; [|intros Hn; exfalso; apply Hn; by intros].
    intros _. unfold io_bind, io_world, io_outcome, io_ret. by rewrite Hg.
Qed.

(** ** A server to try the theorems on *)
Module SimRotation.
Import SimWorkloads.

(** A secret, a master (no workers) and a dashboard. *)
Record site := { t_secret : Secret; t_server : server }.

Definition on_server {A} (m : API server A) : API site A := fun s =>
  let '(r, v) := m (t_server s) in (r, {| t_secret := t_secret s; t_server := v |}).

#[global] Instance kube : KubeClient site := {
  get_statefulset _ n s := (Failed (NotFound n), s);
  update_statefulset _ s := (Found tt, s);
  list_pods _ _ s := (Found [], s);
  delete_pod _ s := (Found tt, s);
  get_secret _ _ s := (Found (t_secret s), s)
}.
#[global] Instance statefulsets : WorkloadClient (FullStatefulSet string) site := {
  get_workload ns n := on_server (get_workload ns n);
  create_workload t := on_server (create_workload t);
  update_workload t := on_server (update_workload t);
  delete_workload f t := on_server (delete_workload f t)
}.
#[global] Instance deployments : WorkloadClient (FullDeployment string) site := {
  get_workload ns n := on_server (get_workload ns n);
  create_workload t := on_server (create_workload t);
  update_workload t := on_server (update_workload t);
  delete_workload f t := on_server (delete_workload f t)
}.

Definition held {T} (r : api_result T) : option T := match r with Found t => Some t | Failed _ => None end.

Lemma slot_update {T} (name namespace : T -> string) t o ns n :
  slot name namespace (namespace t) (name t) o = Found t \/ (exists u, slot name namespace (namespace t) (name t) o = Found u) ->
  held (slot name namespace ns n (Some t))
    = if decide (ns = namespace t /\ n = name t) then Some t else held (slot name namespace ns n o).
Proof.
  intros H. assert (exists u, o = Some u /\ name u = name t /\ namespace u = namespace t) as (u & -> & E1 & E2).
  { destruct H as [H|[u H]]; apply slot_found in H; eauto. }
  unfold slot. rewrite E1, E2. destruct (decide (ns = namespace t /\ n = name t)) as [[-> ->]|Hne].
  - by rewrite !bool_decide_true by done.
  - destruct (decide (name t = n)) as [En|]; [rewrite (bool_decide_true (name t = n)) by done|by rewrite bool_decide_false by done].
    case_bool_decide; [exfalso; apply Hne; auto|done].
Qed.

#[global, refine] Instance statefulset_store :
  @RestartStore string (FullStatefulSet string) site (statefulset_kind eqv) _ := {
  stored ns n s := held (slot fs_Name fs_Namespace ns n (v_sts (t_server s)))
}.
Proof.
  - done.
  - cbn. intros ns n w t H. rewrite H. by apply slot_found in H as (_ & ? & ?).
  - cbn. intros ns n w e H _. by rewrite H.
  - cbn. intros t w H ns n. unfold on_server, put in *.
    destruct (slot _ _ (fs_Namespace t) (fs_Name t) _) as [u|] eqn:E; cbn in *; [|done].
    apply slot_update. right. by exists u.
  - cbn. intros t w e ns n H. unfold on_server, put in *. by destruct (slot _ _ (fs_Namespace t) _ _).
  - cbn. intros t w e H _. unfold on_server, put in *. by destruct (slot _ _ (fs_Namespace t) _ _).
Defined.
#[global, refine] Instance deployment_store :
  @RestartStore string (FullDeployment string) site deployment_kind _ := {
  stored ns n s := held (slot fd_Name fd_Namespace ns n (v_dep (t_server s)))
}.
Proof.
  - done.
  - cbn. intros ns n w t H. rewrite H. by apply slot_found in H as (_ & ? & ?).
  - cbn. intros ns n w e H _. by rewrite H.
  - cbn. intros t w H ns n. unfold on_server, put in *.
    destruct (slot _ _ (fd_Namespace t) (fd_Name t) _) as [u|] eqn:E; cbn in *; [|done].
    apply slot_update. right. by exists u.
  - cbn. intros t w e ns n H. unfold on_server, put in *. by destruct (slot _ _ (fd_Namespace t) _ _).
  - cbn. intros t w e H _. unfold on_server, put in *. by destruct (slot _ _ (fd_Namespace t) _ _).
Defined.
#[global] Instance separate : SeparateStores string site
  (S1 := statefulset_store) (S2 := deployment_store).
Proof.
  split; try done; cbn; intros t w ns n; unfold on_server, put.
  - by destruct (slot _ _ (fs_Namespace t) (fs_Name t) _).
  - by destruct (slot _ _ (fd_Namespace t) (fd_Name t) _).
Qed.

Definition cluster (api authd : string) : WazuhCluster :=
  {| wc_Name := "w"; wc_Namespace := "ns"; wc_SpecDrain := None; wc_SpecIndexer := None;
     wc_SpecManager := Some
       {| mg_WorkersReplicas := Some 3; mg_APICredentials := None; mg_Auth := None;
          mg_AuthdPasswordSecretRef := Some {| sel_Name := "w-authd-pass"; sel_Key := "" |};
          mg_MasterStorageSize := ""; mg_WorkersStorageSize := "";
          mg_Networking := no_manager_networking |};
     wc_SpecDashboard := None; wc_StatusDrain := None; wc_StatusLastUpdate := None;
     wc_Meta := no_meta; wc_Spec := no_refs;
     wc_Status := wc_Status (set_security (Some (with_api_hash api (with_authd_hash authd empty_security)))
                               SimRestart.cluster) |}.

Definition at_secret (s : Secret) : site :=
  {| t_secret := s;
     t_server := {| v_sts := Some (sts "w-manager-master" "50Gi" 1); v_dep := Some dep |} |}.

Definition fresh : Secret :=
  <["api-username" := "wazuh"]> (<["api-password" := "new"]> {["authd.pass" := "enrol"]}).

Definition rotate := reconcileAPICredentialsStatusAndRollout eqv never (fun _ => "now") no_hash 1.
Definition rotate_authd := reconcileAuthdCredentialsStatusAndRollout eqv never (fun _ => "now") no_hash 1.
End SimRotation.
Import SimWorkloads.


(** The secret is blank once; the password that follows restarts nothing. *)
Example authd_rotation_gap_witness :
  let c := SimRotation.cluster "" "old" in
  let blank := SimRotation.rotate_authd (c, SimRotation.at_secret ∅) in
  let run := SimRotation.rotate_authd (blank.2.1, SimRotation.at_secret SimRotation.fresh) in
  se_AuthdCredentialsHash (security blank.2.1) = "" /\
  untouched eqv (SimRotation.at_secret SimRotation.fresh) run.2.2.
Proof.
  intros c blank run.
  assert (Hb : se_AuthdCredentialsHash (security blank.2.1) = "") by (vm_compute; reflexivity).
  split; [exact Hb|].
  refine (proj1 (proj2 (proj2 (authd_rotation_gap eqv never (fun _ => "now") no_hash 1 blank.2.1
    (SimRotation.at_secret SimRotation.fresh) run.1 run.2.1 run.2.2 _))) Hb).
  rewrite <-!surjective_pairing. reflexivity.
Defined.

Example rotation_watches_credentials_witness :
  let c := SimRotation.cluster "" "" in
  names_its_secret c /\
  getWazuhAPICredentials SimRotation.kube c ([], SimRotation.at_secret SimRotation.fresh)
    = (Ok ("wazuh", "new"), ([], SimRotation.at_secret SimRotation.fresh)).
Proof.
  intros c. assert (Hn : names_its_secret c) by (intros ref H; discriminate H). split; [exact Hn|].
  exact (proj1 (rotation_watches_credentials SimRotation.kube c [] (SimRotation.at_secret SimRotation.fresh)
    (SimRotation.at_secret SimRotation.fresh) SimRotation.fresh eq_refl) Hn).
Defined.
