(* ===== verification/Storage.v ===== *)
(** * Expanding volumes ([internal/shared/storage], [cluster_reconciler_volume.go], [indexer_reconciler.go])

    The size of a component's volumes is compared with the specification, the
    claims that are too small are patched, and the outcome goes into the
    status.  A quantity is its exact value, in its smallest unit;
    [resource.ParseQuantity] and [String] are parameters. *)
From S2P Require Import Prelude GoStrings GoFloat Kube DrainState IndexerDrain Cluster ScaleDown.
From S2P Require Import ClusterStatus Rolling.
Local Open Scope go_scope.
Local Open Scope list_scope.

Definition ResourceStorage : string := "storage".
Definition AnnotationRequestedStorageSize : string := "wazuh.com/requested-storage-size".
Definition AnnotationLastExpansionTime : string := "wazuh.com/last-expansion-time".
Definition DefaultManagerStorageSize : string := "10Gi".
Definition DefaultIndexerStorageSize : string := "10Gi".
Definition DefaultStorageClassAnnotation : string := "storageclass.kubernetes.io/is-default-class".

(** Conditions are (type, status, message); nil maps are [None]. *)
Record PVC := {
  pvc_Name : string;
  pvc_Namespace : string;
  pvc_StorageClassName : option string;
  pvc_Requests : option (gmap string Z);
  pvc_Annotations : option (gmap string string);
  pvc_Conditions : list (string * string * string)
}.

Record StorageClass := {
  sc_Name : string;
  sc_AllowVolumeExpansion : option bool;
  sc_Annotations : option (gmap string string)
}.

Class StorageClient (W : Type) := {
  list_pvcs : string -> gmap string string -> API W (list PVC);
  patch_pvc : PVC -> PVC -> API W unit;           (* from, to *)
  get_storage_class : string -> API W StorageClass;
  list_storage_classes : API W (list StorageClass)
}.

(** [requests[storage]]: the zero quantity when it is missing. *)
Definition requested_storage (p : PVC) : Z := default 0 (m ← pvc_Requests p; m !! ResourceStorage).

Inductive PVCExpansionPhase : Type :=
| PVCExpansionPhaseNone
| PVCExpansionPhaseResizing
| PVCExpansionPhaseFileSystemResizePending
| PVCExpansionPhaseCompleted.

Record PVCExpansionCondition := {
  pec_Phase : PVCExpansionPhase;
  pec_Message : string;
  pec_IsComplete : bool
}.

Record ExpansionValidationResult := {
  ev_Valid : bool;
  ev_NeedsExpansion : bool;
  ev_CurrentSize : Z;
  ev_RequestedSize : Z;
  ev_ErrorMessage : string;
  ev_StorageClassSupportsExpansion : bool
}.

(** [Quantity.Cmp] *)
Definition CompareStorageSizes (a b : Z) : Z :=
  match a ?= b with Lt => -1 | Eq => 0 | Gt => 1 end.

(** ** [status.go] *)

Record ExpansionStatusUpdate := {
  eu_Phase : ExpansionPhase;
  eu_RequestedSize : string;
  eu_CurrentSize : string;
  eu_Message : string;
  eu_PVCsExpanded : list string;
  eu_PVCsPending : list string
}.

Definition status_of_update (time : Z) (u : ExpansionStatusUpdate) : ComponentExpansionStatus :=
  {| ces_Phase := eu_Phase u; ces_RequestedSize := eu_RequestedSize u;
     ces_CurrentSize := eu_CurrentSize u; ces_Message := eu_Message u; ces_LastTransitionTime := time;
     ces_PVCsExpanded := eu_PVCsExpanded u; ces_PVCsPending := eu_PVCsPending u |}.

Definition NewComponentExpansionStatus (now : Z) (u : ExpansionStatusUpdate) : ComponentExpansionStatus :=
  status_of_update now u.

Definition UpdateComponentExpansionStatus (now : Z) (existing : option ComponentExpansionStatus)
    (u : ExpansionStatusUpdate) : ComponentExpansionStatus :=
  match existing with
  | None => NewComponentExpansionStatus now u
  | Some old =>
      status_of_update (if bool_decide (ces_Phase old = eu_Phase u) then ces_LastTransitionTime old else now) u
  end.

Definition count (l : list string) : string := pretty (Z.of_nat (length l)).

Definition CreatePendingStatus (requested current : string) (pending : list string) : ExpansionStatusUpdate :=
  {| eu_Phase := ExpansionPhasePending; eu_RequestedSize := requested; eu_CurrentSize := current;
     eu_Message := "Waiting to expand " +:+ count pending +:+ " PVC(s) from " +:+ current +:+ " to "
                   +:+ requested;
     eu_PVCsExpanded := []; eu_PVCsPending := pending |}.

Definition CreateInProgressStatus (requested current : string) (expanded pending : list string)
    : ExpansionStatusUpdate :=
  {| eu_Phase := ExpansionPhaseInProgress; eu_RequestedSize := requested; eu_CurrentSize := current;
     eu_Message := "Expanding PVCs: " +:+ count expanded +:+ " completed, " +:+ count pending
                   +:+ " pending";
     eu_PVCsExpanded := expanded; eu_PVCsPending := pending |}.

Definition CreateCompletedStatus (requested : string) (expanded : list string) : ExpansionStatusUpdate :=
  {| eu_Phase := ExpansionPhaseCompleted; eu_RequestedSize := requested; eu_CurrentSize := requested;
     eu_Message := "All " +:+ count expanded +:+ " PVC(s) expanded successfully to " +:+ requested;
     eu_PVCsExpanded := expanded; eu_PVCsPending := [] |}.

Definition CreateFailedStatus (requested current message : string) (expanded pending : list string)
    : ExpansionStatusUpdate :=
  {| eu_Phase := ExpansionPhaseFailed; eu_RequestedSize := requested; eu_CurrentSize := current;
     eu_Message := message; eu_PVCsExpanded := expanded; eu_PVCsPending := pending |}.

Section Storage.
Context {W : Type} `{!StorageClient W}.
Context (parse_quantity : string -> result Z) (quantity_string : Z -> string) (rfc3339 : Z -> string).

(** ** [storageclass.go] *)

Definition CanStorageClassExpand (name : string) : IO W bool :=
  if bool_decide (name = "") then io_err "storage class name cannot be empty"
  else
    sc <- io_wrap ("failed to get StorageClass " +:+ name) (io_api (get_storage_class name)) ;;
    io_ret (default false (sc_AllowVolumeExpansion sc)).

Definition GetDefaultStorageClass : IO W string :=
  classes <- io_wrap "failed to list StorageClasses" (io_api list_storage_classes) ;;
  match List.find (fun sc => bool_decide ((m ← sc_Annotations sc; m !! DefaultStorageClassAnnotation)
                                          = Some "true")) classes with
  | Some sc => io_ret (sc_Name sc)
  | None => io_err "no default StorageClass found in the cluster"
  end.

Definition GetStorageClassForPVC (name : option string) : IO W string :=
  match name with
  | Some n => if bool_decide (n <> "") then io_ret n else GetDefaultStorageClass
  | None => GetDefaultStorageClass
  end.

(** ** [validation.go] *)

Definition CompareStorageSizeStrings (a b : string) : result Z :=
  match parse_quantity a with
  | Err e => Err (errorf ("failed to parse size " +:+ quoted a) e)
  | Ok a =>
      match parse_quantity b with
      | Err e => Err (errorf ("failed to parse size " +:+ quoted b) e)
      | Ok b => Ok (CompareStorageSizes a b)
      end
  end.

Definition IsShrinkRequest (current requested : string) : result bool :=
  match CompareStorageSizeStrings current requested with
  | Err e => Err e
  | Ok c => Ok (bool_decide (0 < c))
  end.

Definition validation (valid needs : bool) (current requested : Z) (message : string) (supports : bool)
    : ExpansionValidationResult :=
  {| ev_Valid := valid; ev_NeedsExpansion := needs; ev_CurrentSize := current;
     ev_RequestedSize := requested; ev_ErrorMessage := message;
     ev_StorageClassSupportsExpansion := supports |}.

(** It never returns an error. *)
Definition ValidateExpansion (pvc : PVC) (requestedSize : string) : IO W ExpansionValidationResult :=
  match parse_quantity requestedSize with
  | Err e =>
      io_ret (validation false false 0 0
                ("invalid requested size " +:+ quoted requestedSize +:+ ": " +:+ e) false)
  | Ok requested =>
      let current := requested_storage pvc in
      let comparison := CompareStorageSizes current requested in
      if bool_decide (comparison = 0) then io_ret (validation true false current requested "" false)
      else if bool_decide (comparison = 1) then
        io_ret (validation false false current requested
          ("cannot decrease storage size from " +:+ quantity_string current +:+ " to "
           +:+ quantity_string requested +:+ ": Kubernetes does not support shrinking PVCs") false)
      else
        try class <- GetStorageClassForPVC (pvc_StorageClassName pvc) ;;
        match class with
        | Err e => io_ret (validation false true current requested
                             ("failed to determine storage class: " +:+ e) false)
        | Ok class =>
            try can <- CanStorageClassExpand class ;;
            match can with
            | Err e => io_ret (validation false true current requested
                                 ("failed to check StorageClass expansion support: " +:+ e) false)
            | Ok false =>
                io_ret (validation false true current requested
                  ("StorageClass " +:+ quoted class
                   +:+ " does not support volume expansion (allowVolumeExpansion is not true)") false)
            | Ok true => io_ret (validation true true current requested "" true)
            end
        end
  end.

(** ** [expansion.go] *)

Definition expanded_pvc (now : Z) (newSize : string) (q : Z) (p : PVC) : PVC :=
  {| pvc_Name := pvc_Name p; pvc_Namespace := pvc_Namespace p;
     pvc_StorageClassName := pvc_StorageClassName p;
     pvc_Requests := Some (<[ResourceStorage := q]> (default ∅ (pvc_Requests p)));
     pvc_Annotations :=
       Some (<[AnnotationLastExpansionTime := rfc3339 now]>
               (<[AnnotationRequestedStorageSize := newSize]> (default ∅ (pvc_Annotations p))));
     pvc_Conditions := pvc_Conditions p |}.

Definition ExpandPVC (now : Z) (pvc : PVC) (newSize : string) : IO W unit :=
  match parse_quantity newSize with
  | Err e => io_err (errorf ("invalid storage size " +:+ quoted newSize) e)
  | Ok q =>
      io_wrap ("failed to patch PVC " +:+ pvc_Namespace pvc +:+ "/" +:+ pvc_Name pvc)
        (io_api (patch_pvc pvc (expanded_pvc now newSize q pvc)))
  end.

(** A condition that says a resize is going on. *)
Definition resizing (c : string * string * string) : option PVCExpansionCondition :=
  let '(type, status, message) := c in
  if negb (bool_decide (status = "True")) then None
  else if bool_decide (type = "Resizing")
  then Some {| pec_Phase := PVCExpansionPhaseResizing; pec_Message := message; pec_IsComplete := false |}
  else if bool_decide (type = "FileSystemResizePending")
  then Some {| pec_Phase := PVCExpansionPhaseFileSystemResizePending; pec_Message := message;
               pec_IsComplete := false |}
  else None.

Definition GetPVCExpansionCondition (pvc : PVC) : PVCExpansionCondition :=
  match omap resizing (pvc_Conditions pvc) with
  | c :: _ => c
  | [] =>
      let none := {| pec_Phase := PVCExpansionPhaseNone; pec_Message := ""; pec_IsComplete := true |} in
      match m ← pvc_Annotations pvc; m !! AnnotationRequestedStorageSize with
      | Some size =>
          match parse_quantity size with
          | Ok q => if bool_decide (0 <= CompareStorageSizes (requested_storage pvc) q)
                    then {| pec_Phase := PVCExpansionPhaseCompleted;
                            pec_Message := "Expansion completed successfully"; pec_IsComplete := true |}
                    else none
          | Err _ => none
          end
      | None => none
      end
  end.

Definition GetPVCStorageSize (pvc : PVC) : string :=
  match pvc_Requests pvc with None => "" | Some _ => quantity_string (requested_storage pvc) end.

(** ** The loop over a component's claims ([processVolumeExpansion]; the
    indexer's reconciler has the same loop) *)

Record progress := {
  p_Expanded : list string;
  p_Pending : list string;
  p_Needed : bool;
  p_Error : option error
}.

Definition no_progress : progress :=
  {| p_Expanded := []; p_Pending := []; p_Needed := false; p_Error := None |}.
Definition add_error (e : error) (p : progress) : progress :=
  {| p_Expanded := p_Expanded p; p_Pending := p_Pending p; p_Needed := p_Needed p; p_Error := Some e |}.
Definition add_expanded (n : string) (p : progress) : progress :=
  {| p_Expanded := p_Expanded p ++ [n]; p_Pending := p_Pending p; p_Needed := p_Needed p;
     p_Error := p_Error p |}.
Definition add_pending (n : string) (p : progress) : progress :=
  {| p_Expanded := p_Expanded p; p_Pending := p_Pending p ++ [n]; p_Needed := true;
     p_Error := p_Error p |}.

Definition process_pvc (now : Z) (requestedSize : string) (pvc : PVC) (p : progress) : IO W progress :=
  try v <- ValidateExpansion pvc requestedSize ;;
  match v with
  | Err e => io_ret (add_error e p)
  | Ok v =>
      if negb (ev_Valid v) then
        if bool_decide (ev_ErrorMessage v = "") then io_ret p
        else
          match IsShrinkRequest (quantity_string (ev_CurrentSize v)) requestedSize with
          | Ok true => io_ret p
          | _ =>
              if negb (ev_StorageClassSupportsExpansion v) && ev_NeedsExpansion v
              then io_ret (add_error ("storage class does not support expansion: " +:+ ev_ErrorMessage v) p)
              else io_ret p
          end
      else if negb (ev_NeedsExpansion v) then io_ret (add_expanded (pvc_Name pvc) p)
      else
        let p := add_pending (pvc_Name pvc) p in
        if negb (pec_IsComplete (GetPVCExpansionCondition pvc)) then io_ret p
        else
          try done <- ExpandPVC now pvc requestedSize ;;
          match done with
          | Err e => io_ret (add_error e p)
          | Ok _ => io_ret p
          end
  end.

Fixpoint processVolumeExpansion (now : Z) (requestedSize : string) (pvcs : list PVC) (p : progress)
    : IO W progress :=
  match pvcs with
  | [] => io_ret p
  | pvc :: pvcs =>
      p <- process_pvc now requestedSize pvc p ;;
      processVolumeExpansion now requestedSize pvcs p
  end.

(** ** The components *)

Inductive component : Type := TheIndexer | TheMaster | TheWorkers.

Definition component_label (k : component) : string :=
  match k with TheIndexer => "indexer" | TheMaster => "manager-master" | TheWorkers => "manager-worker" end.

Definition component_noun (k : component) : string :=
  match k with TheIndexer => "indexer" | TheMaster => "manager master" | TheWorkers => "manager worker" end.

Definition get_component (k : component) (v : VolumeExpansionStatus) : option ComponentExpansionStatus :=
  match k with TheIndexer => ves_Indexer v | TheMaster => ves_ManagerMaster v
             | TheWorkers => ves_ManagerWorkers v end.

Definition set_component_expansion (k : component) (s : option ComponentExpansionStatus)
    (v : VolumeExpansionStatus) : VolumeExpansionStatus :=
  match k with
  | TheIndexer => {| ves_Indexer := s; ves_ManagerMaster := ves_ManagerMaster v;
                     ves_ManagerWorkers := ves_ManagerWorkers v |}
  | TheMaster => {| ves_Indexer := ves_Indexer v; ves_ManagerMaster := s;
                    ves_ManagerWorkers := ves_ManagerWorkers v |}
  | TheWorkers => {| ves_Indexer := ves_Indexer v; ves_ManagerMaster := ves_ManagerMaster v;
                     ves_ManagerWorkers := s |}
  end.

Definition requested_size (k : component) (c : WazuhCluster) : string :=
  let or_default d s := if bool_decide (s = "") then d else s in
  match k with
  | TheIndexer => or_default DefaultIndexerStorageSize (default "" (ix_StorageSize <$> wc_SpecIndexer c))
  | TheMaster => or_default DefaultManagerStorageSize (default "" (mg_MasterStorageSize <$> wc_SpecManager c))
  | TheWorkers => or_default DefaultManagerStorageSize (default "" (mg_WorkersStorageSize <$> wc_SpecManager c))
  end.

Definition get_pvcs (k : component) (c : WazuhCluster) : IO W (list PVC) :=
  io_wrap ("failed to list " +:+ component_noun k +:+ " PVCs")
    (io_api (list_pvcs (wc_Namespace c)
       (<["app.kubernetes.io/instance" := wc_Name c]>
          {["app.kubernetes.io/component" := component_label k]}))).

Definition set_volume_expansion (v : option VolumeExpansionStatus) (c : WazuhCluster) : WazuhCluster :=
  let st := wc_Status c in
  set_status
    {| sr_Phase := sr_Phase st; sr_Version := sr_Version st;
       sr_ObservedGeneration := sr_ObservedGeneration st; sr_Conditions := sr_Conditions st;
       sr_Manager := sr_Manager st; sr_Indexer := sr_Indexer st; sr_Dashboard := sr_Dashboard st;
       sr_Security := sr_Security st; sr_CertificateRollouts := sr_CertificateRollouts st;
       sr_VolumeExpansion := v; sr_RollingRestart := sr_RollingRestart st |} c.

(** What the update writes, [None] to clear the status. *)
Definition status_update (requestedSize currentSize : string) (p : progress) : option ExpansionStatusUpdate :=
  match p_Error p with
  | Some e => Some (CreateFailedStatus requestedSize currentSize e (p_Expanded p) (p_Pending p))
  | None =>
      match p_Pending p, p_Expanded p with
      | _ :: _, _ :: _ =>
          Some (CreateInProgressStatus requestedSize currentSize (p_Expanded p) (p_Pending p))
      | _ :: _, [] => Some (CreatePendingStatus requestedSize currentSize (p_Pending p))
      | [], _ :: _ => Some (CreateCompletedStatus requestedSize (p_Expanded p))
      | [], [] => None
      end
  end.

Definition update_expansion_status (now : Z) (k : component) (requestedSize : string) (p : progress)
    : IO (WazuhCluster * W) unit :=
  s <- io_get ;;
  let v := default {| ves_Indexer := None; ves_ManagerMaster := None; ves_ManagerWorkers := None |}
             (sr_VolumeExpansion (wc_Status s.1)) in
  currentSize <-
    (if bool_decide (p_Expanded p = []) && negb (bool_decide (p_Pending p = [])) then
       try pvcs <- io_world (get_pvcs k s.1) ;;
       io_ret (match pvcs with Ok (pvc :: _) => GetPVCStorageSize pvc | _ => requestedSize end)
     else io_ret requestedSize) ;;
  let s' := UpdateComponentExpansionStatus now (get_component k v) <$>
              status_update requestedSize currentSize p in
  io_modify (prod_map (set_volume_expansion (Some (set_component_expansion k s' v))) id).

(** [reconcileVolumeExpansion], [reconcileMasterVolumeExpansion] and
    [reconcileWorkerVolumeExpansion]; the result is whether the completion of
    the expansion is announced by an event. *)
Definition reconcile_volume_expansion (now : Z) (k : component) : IO (WazuhCluster * W) bool :=
  s <- io_get ;;
  let requestedSize := requested_size k s.1 in
  pvcs <- io_wrap ("failed to list " +:+ component_noun k +:+ " PVCs") (io_world (get_pvcs k s.1)) ;;
  if bool_decide (pvcs = []) then io_ret false
  else
    p <- io_world (processVolumeExpansion now requestedSize pvcs no_progress) ;;
    update_expansion_status now k requestedSize p ;;;
    io_ret (bool_decide (p_Pending p = []) && negb (bool_decide (p_Expanded p = [])) && p_Needed p).
End Storage.

(** ** Laws of a server that only these calls change *)
Class PvcStore (W : Type) `{!StorageClient W} := {
  pvc_at : string -> string -> W -> option PVC;
  list_keeps ns l w ns' n : pvc_at ns' n (list_pvcs ns l w).2 = pvc_at ns' n w;
  class_keeps name w ns' n : pvc_at ns' n (get_storage_class name w).2 = pvc_at ns' n w;
  classes_keep w ns' n : pvc_at ns' n (list_storage_classes w).2 = pvc_at ns' n w;
  patch_applies p q w : (patch_pvc p q w).1 = Found tt -> forall ns n,
    pvc_at ns n (patch_pvc p q w).2
      = if decide (ns = pvc_Namespace q /\ n = pvc_Name q) then Some q else pvc_at ns n w;
  patch_refused p q w e ns n : (patch_pvc p q w).1 = Failed e ->
    pvc_at ns n (patch_pvc p q w).2 = pvc_at ns n w
}.

(** The question whether a claim's class can be expanded. *)
Definition can_expand {W} `{!StorageClient W} (pvc : PVC) : IO W bool :=
  class <- GetStorageClassForPVC (pvc_StorageClassName pvc) ;; CanStorageClassExpand class.

Section Lemmas.
Context {W : Type} `{!StorageClient W, !PvcStore W}.
Context (parse_quantity : string -> result Z) (quantity_string : Z -> string) (rfc3339 : Z -> string).
(** What the server answers about a claim's class, at any time. *)
Context (expandable : PVC -> bool).
(** A quantity prints as its value: no precision is lost. *)
Hypothesis string_exact : forall q q', parse_quantity (quantity_string q) = Ok q' -> q' = q.
Hypothesis class_answers : forall pvc w, (can_expand pvc w).1 = Ok true <-> expandable pvc = true.

Abbreviation process_one := (process_pvc parse_quantity quantity_string rfc3339).
Abbreviation process := (processVolumeExpansion parse_quantity quantity_string rfc3339).

Definition same_claims (w w' : W) : Prop := forall ns n, pvc_at ns n w' = pvc_at ns n w.

Lemma same_refl w : same_claims w w.
Proof. by intros ??. Qed.

Lemma same_trans w1 w2 w3 : same_claims w1 w2 -> same_claims w2 w3 -> same_claims w1 w3.
Proof. intros A B ??. by rewrite B. Qed.

Lemma can_expand_keeps pvc w : same_claims w (can_expand pvc w).2.
Proof.
  assert (Hget : forall name w, same_claims w (CanStorageClassExpand name w).2).
  { intros name w0 ns n. unfold CanStorageClassExpand, io_bind, io_wrap, io_api, io_err, io_ret.
    case_bool_decide; [done|]. pose proof (class_keeps name w0 ns n) as Hk.
    by destruct (get_storage_class name w0) as [[sc|e] w1]. }
  assert (Hdef : forall w, same_claims w (GetDefaultStorageClass w).2).
  { intros w0 ns n. unfold GetDefaultStorageClass, io_bind, io_wrap, io_api, io_err, io_ret.
    pose proof (classes_keep w0 ns n) as H. destruct (list_storage_classes w0) as [[l|e] w1]; [|done].
    cbn in *. by destruct (List.find _ l). }
  unfold can_expand, io_bind.
  assert (Hname : same_claims w (GetStorageClassForPVC (pvc_StorageClassName pvc) w).2).
  { unfold GetStorageClassForPVC. destruct (pvc_StorageClassName pvc); [|apply Hdef].
    case_bool_decide; [done|apply Hdef]. }
  destruct (GetStorageClassForPVC _ w) as [[name|e] w1]; [|done]. by eapply same_trans.
Qed.

(** Validation in terms of the comparison and of that question. *)
Lemma validate_run pvc size q w : parse_quantity size = Ok q ->
  exists v w', ValidateExpansion parse_quantity quantity_string pvc size w = (Ok v, w') /\ same_claims w w' /\
    match (requested_storage pvc ?= q)%Z with
    | Eq => ev_Valid v = true /\ ev_NeedsExpansion v = false
    | Gt => ev_Valid v = false /\ ev_NeedsExpansion v = false
    | Lt => ev_NeedsExpansion v = true /\ ev_Valid v = expandable pvc /\
            ev_StorageClassSupportsExpansion v = expandable pvc /\
            (expandable pvc = false -> ev_ErrorMessage v <> "") /\ ev_CurrentSize v = requested_storage pvc
    end.
Proof.
  intros Hq. unfold ValidateExpansion. rewrite Hq. cbv zeta. unfold CompareStorageSizes.
  destruct (requested_storage pvc ?= q)%Z eqn:Ec.
  - eexists _, w. split; [reflexivity|]. split; [apply same_refl|done].
  - pose proof (class_answers pvc w) as Ha. pose proof (can_expand_keeps pvc w) as Hk.
    unfold can_expand, io_bind in Ha, Hk. unfold io_try, io_ret.
    assert (Hno : forall r : result bool, (r = Ok true <-> expandable pvc = true) -> r <> Ok true ->
      expandable pvc = false) by (intros r Hr0 Hr; destruct (expandable pvc); [by destruct Hr; apply Hr0|done]).
    rewrite !bool_decide_false by lia.
    destruct (GetStorageClassForPVC _ w) as [[name|e] w1].
    + destruct (CanStorageClassExpand name w1) as [[[]|e] w2]; cbn [fst snd] in *; eexists _, w2;
        (split; [reflexivity|]); (split; [done|]); cbn.
      * destruct Ha as [Ha _]. by rewrite Ha.
      * rewrite (Hno _ Ha) by done. split_and!; try done.
      * rewrite (Hno _ Ha) by done. split_and!; try done.
    + cbn [fst snd] in *. eexists _, w1. split; [reflexivity|]. split; [done|]. cbn.
      rewrite (Hno _ Ha) by done. by split_and!.
  - eexists _, w. split; [reflexivity|]. split; [apply same_refl|done].
Qed.

(** One claim: nothing but this claim changes, and only when it is too small,
    its class can be expanded and no resize is going on. *)
Lemma process_one_run now size q pvc p w : parse_quantity size = Ok q ->
  exists p' w', process_one now size pvc p w = (Ok p', w') /\
    match (requested_storage pvc ?= q)%Z with
    | Eq => p' = add_expanded (pvc_Name pvc) p /\ same_claims w w'
    | Gt => p' = p /\ same_claims w w'
    | Lt =>
        if expandable pvc then
          exists oe, p' = from_option add_error id oe (add_pending (pvc_Name pvc) p) /\
          (same_claims w w' /\ (oe = None -> pec_IsComplete (GetPVCExpansionCondition parse_quantity pvc) = false) \/
           oe = None /\ pec_IsComplete (GetPVCExpansionCondition parse_quantity pvc) = true /\ forall ns n, pvc_at ns n w'
             = if decide (ns = pvc_Namespace pvc /\ n = pvc_Name pvc)
               then Some (expanded_pvc rfc3339 now size q pvc) else pvc_at ns n w)
        else (exists e, p' = add_error e p) /\ same_claims w w'
    end.
Proof.
  intros Hq. destruct (validate_run pvc size q w Hq) as (v & w1 & Hv & Hs & H).
  unfold process_pvc, io_try. rewrite Hv.
  destruct (requested_storage pvc ?= q)%Z eqn:Ec.
  - destruct H as [-> ->]. cbn. by eexists _, _.
  - destruct H as (Hn & Hvd & Hsup & Hmsg & Hcur). rewrite Hn, Hvd, Hsup, Hcur. destruct (expandable pvc); cbn [negb andb].
    + destruct (pec_IsComplete (GetPVCExpansionCondition parse_quantity pvc)) eqn:Ei; cbn [negb].
      * unfold ExpandPVC. rewrite Hq. unfold io_wrap, io_api.
        set (new := expanded_pvc rfc3339 now size q pvc).
        pose proof (patch_applies pvc new w1) as Ha. pose proof (patch_refused pvc new w1) as Hr.
        destruct (patch_pvc pvc new w1) as [[[]|e] w2]; cbn [fst snd] in *; cbn.
        -- eexists _, w2. split; [done|]. exists None. split; [done|]. right. split_and!; [done|done|]. intros ns n.
           rewrite (Ha eq_refl ns n). cbn. by rewrite Hs.
        -- eexists _, w2. split; [done|]. exists (Some (errorf ("failed to patch PVC " +:+ pvc_Namespace pvc +:+ "/" +:+ pvc_Name pvc) (api_message e))).
           split; [done|]. left. split; [|done]. intros ns n. by rewrite (Hr e ns n eq_refl), Hs.
      * eexists _, w1. split; [done|]. exists None. split; [done|]. left. done.
    + rewrite bool_decide_false by auto.
      assert (Hsh : IsShrinkRequest parse_quantity (quantity_string (requested_storage pvc)) size <> Ok true).
      { unfold IsShrinkRequest, CompareStorageSizeStrings.
        destruct (parse_quantity (quantity_string _)) as [c|e] eqn:E1; [|done]. apply string_exact in E1. subst c.
        rewrite Hq. unfold CompareStorageSizes. by rewrite Ec. }
      eexists _, w1. split; [|split; [by eexists|done]].
      by destruct (IsShrinkRequest _ _ _) as [[]|e'].
  - destruct H as [-> ->]. cbn [negb andb]. rewrite andb_false_r. eexists p, w1. split; [|done].
    case_bool_decide; [done|]. by destruct (IsShrinkRequest _ _ _) as [[]|e'].
Qed.

Definition claim_key (p : PVC) : string * string := (pvc_Namespace p, pvc_Name p).
Definition at_size (q : Z) (p : PVC) : bool := bool_decide (requested_storage p = q).
Definition to_grow (q : Z) (p : PVC) : bool := bool_decide (requested_storage p < q) && expandable p.
Definition is_resizing (p : PVC) : bool := negb (pec_IsComplete (GetPVCExpansionCondition parse_quantity p)).

(** What becomes of a claim: it stays, or it was to grow, nothing resized it,
    and its request now is [q]. *)
Definition claim_after (now q : Z) (size : string) (p : PVC) (w' : W) : Prop :=
  pvc_at (pvc_Namespace p) (pvc_Name p) w' = Some p \/
  to_grow q p = true /\ is_resizing p = false /\
  pvc_at (pvc_Namespace p) (pvc_Name p) w' = Some (expanded_pvc rfc3339 now size q p).

(** A claim about which there is nothing to report. *)
Definition served (now q : Z) (size : string) (p : PVC) (w' : W) : Prop :=
  requested_storage p < q -> expandable p = true /\
    (is_resizing p = true \/
     pvc_at (pvc_Namespace p) (pvc_Name p) w' = Some (expanded_pvc rfc3339 now size q p)).

Lemma add_error_fields oe p :
  (p_Expanded (from_option add_error id oe p), p_Pending (from_option add_error id oe p),
   p_Needed (from_option add_error id oe p)) = (p_Expanded p, p_Pending p, p_Needed p) /\
  (p_Error (from_option add_error id oe p) = None -> oe = None /\ p_Error p = None).
Proof. by destruct oe. Qed.

(** [process_one_run] with the claim in the store, in terms of the above. *)
Lemma process_one_outcome now size q pvc p w :
  parse_quantity size = Ok q -> pvc_at (pvc_Namespace pvc) (pvc_Name pvc) w = Some pvc ->
  exists p' w', process_one now size pvc p w = (Ok p', w') /\
    p_Expanded p' = p_Expanded p ++ (if at_size q pvc then [pvc_Name pvc] else []) /\
    p_Pending p' = p_Pending p ++ (if to_grow q pvc then [pvc_Name pvc] else []) /\
    p_Needed p' = p_Needed p || to_grow q pvc /\
    (p_Error p' = None -> p_Error p = None /\ served now q size pvc w') /\
    (q <= requested_storage pvc -> p_Error p' = p_Error p) /\
    claim_after now q size pvc w' /\
    (forall ns n, (ns, n) <> claim_key pvc -> pvc_at ns n w' = pvc_at ns n w).
Proof.
  intros Hq Hin. destruct (process_one_run now size q pvc p w Hq) as (p' & w' & Hr & H).
  exists p', w'. split; [done|]. unfold served, claim_after, at_size, to_grow, is_resizing, claim_key.
  destruct (requested_storage pvc ?= q)%Z eqn:Ec.
  - apply Z.compare_eq in Ec. destruct H as [-> Hs]. rewrite (bool_decide_true (requested_storage pvc = q)) by done.
    rewrite (bool_decide_false (requested_storage pvc < q)) by lia. cbn [andb]. rewrite app_nil_r, orb_false_r.
    split_and!; try done; [intros; split; [done|lia]|left; by rewrite Hs].
  - rewrite Z.compare_lt_iff in Ec. rewrite (bool_decide_false (requested_storage pvc = q)) by lia.
    rewrite (bool_decide_true (requested_storage pvc < q)) by lia. cbn [andb]. destruct (expandable pvc).
    + destruct H as (oe & -> & Hcase). destruct (add_error_fields oe (add_pending (pvc_Name pvc) p)) as [Hf He].
      injection Hf as -> -> ->. cbn [add_pending p_Expanded p_Pending p_Needed p_Error] in *.
      rewrite app_nil_r, orb_true_r. split_and!; try done.
      * intros Herr. destruct (He Herr) as [-> Hp]. split; [done|]. intros _. split; [done|].
        destruct Hcase as [[_ Hi]|(_ & _ & Hc)]; [left; by rewrite Hi|right]. by rewrite Hc, decide_True.
      * lia.
      * destruct Hcase as [[Hs _]|(_ & Hi & Hc)]; [left; by rewrite Hs|right]. rewrite Hi, Hc, decide_True by done. done.
      * intros ns n Hne. destruct Hcase as [[Hs _]|(_ & _ & Hc)]; [apply Hs|]. rewrite Hc.
        by rewrite decide_False by (intros [-> ->]; by apply Hne).
    + destruct H as [[e ->] Hs]. rewrite !app_nil_r, orb_false_r. split_and!; try done; [lia|left; by rewrite Hs].
  - rewrite Z.compare_gt_iff in Ec. destruct H as [-> Hs]. rewrite (bool_decide_false (requested_storage pvc = q)) by lia.
    rewrite (bool_decide_false (requested_storage pvc < q)) by lia. cbn [andb]. rewrite !app_nil_r, orb_false_r.
    split_and!; try done; [intros; split; [done|lia]|left; by rewrite Hs].
Qed.

Lemma process_outcome now size q pvcs p w :
  parse_quantity size = Ok q -> NoDup (map claim_key pvcs) ->
  Forall (fun c => pvc_at (pvc_Namespace c) (pvc_Name c) w = Some c) pvcs ->
  exists p' w', process now size pvcs p w = (Ok p', w') /\
    p_Expanded p' = p_Expanded p ++ map pvc_Name (List.filter (at_size q) pvcs) /\
    p_Pending p' = p_Pending p ++ map pvc_Name (List.filter (to_grow q) pvcs) /\
    p_Needed p' = p_Needed p || existsb (to_grow q) pvcs /\
    (p_Error p' = None -> p_Error p = None /\ Forall (fun c => served now q size c w') pvcs) /\
    (Forall (fun c => q <= requested_storage c) pvcs -> p_Error p' = p_Error p) /\
    Forall (fun c => claim_after now q size c w') pvcs /\
    (forall ns n, (ns, n) ∉ map claim_key pvcs -> pvc_at ns n w' = pvc_at ns n w).
Proof.
  intros Hq. revert p w. induction pvcs as [|c pvcs IH]; intros p w HD HF; cbn [processVolumeExpansion].
  { eexists p, w. split; [done|]. cbn. by rewrite !app_nil_r, orb_false_r. }
  apply NoDup_cons in HD as [Hc HD]. apply Forall_cons in HF as [Hin HF].
  destruct (process_one_outcome now size q c p w Hq Hin) as (p1 & w1 & Hr & E1 & E2 & E3 & E4 & EK & E5 & E6).
  assert (HF1 : Forall (fun c => pvc_at (pvc_Namespace c) (pvc_Name c) w1 = Some c) pvcs).
  { rewrite Forall_forall in *. intros d Hd. rewrite E6; [by apply HF|]. intros He. apply Hc.
    change (claim_key d = claim_key c) in He. rewrite <-He. by apply (list_elem_of_fmap_2 claim_key). }
  destruct (IH p1 w1 HD HF1) as (p2 & w2 & Hr2 & F1 & F2 & F3 & F4 & FK & F5 & F6).
  assert (Hkeep : pvc_at (pvc_Namespace c) (pvc_Name c) w2 = pvc_at (pvc_Namespace c) (pvc_Name c) w1)
    by by apply F6.
  exists p2, w2. unfold io_bind. rewrite Hr. split; [done|]. cbn [List.filter existsb].
  split_and!.
  - rewrite F1, E1, <-app_assoc. by destruct (at_size q c).
  - rewrite F2, E2, <-app_assoc. by destruct (to_grow q c).
  - by rewrite F3, E3, orb_assoc.
  - intros He. destruct (F4 He) as [He1 Hs]. destruct (E4 He1) as [Hep Hs1]. split; [done|].
    constructor; [|done]. unfold served. by rewrite Hkeep.
  - intros HL. apply Forall_cons in HL as [HL1 HL2]. by rewrite FK, EK.
  - constructor; [|done]. unfold claim_after. by rewrite Hkeep.
  - intros ns n Hn. cbn [map] in Hn. apply not_elem_of_cons in Hn as [Hn1 Hn2]. rewrite F6, E6; done.
Qed.
End Lemmas.

Section Properties.
Context {W : Type} `{!StorageClient W, !PvcStore W}.
Context (parse_quantity : string -> result Z) (quantity_string : Z -> string) (rfc3339 : Z -> string).
Context (expandable : PVC -> bool).
Hypothesis string_exact : forall q q', parse_quantity (quantity_string q) = Ok q' -> q' = q.
Hypothesis class_answers : forall pvc (w : W), (can_expand pvc w).1 = Ok true <-> expandable pvc = true.

Abbreviation reconcile := (reconcile_volume_expansion parse_quantity quantity_string rfc3339).

Lemma get_pvcs_keeps k c (w : W) : same_claims w (get_pvcs k c w).2.
Proof.
  intros ns n. unfold get_pvcs, io_wrap, io_api.
  match goal with |- context [list_pvcs ?a ?b w] => pose proof (list_keeps a b w ns n) as H end.
  by destruct (list_pvcs _ _ w) as [[l|e] w1].
Qed.

(** The status a reconcile leaves for its component. *)
Definition component_expansion (k : component) (c : WazuhCluster) : option ComponentExpansionStatus :=
  v ← sr_VolumeExpansion (wc_Status c); get_component k v.

Lemma update_status_run now k size p c (w : W) :
  exists c' w', update_expansion_status quantity_string now k size p (c, w) = (Ok tt, (c', w')) /\
    same_claims w w' /\
    (ces_Phase <$> component_expansion k c') = (eu_Phase <$> status_update size size p) /\
    (ces_PVCsExpanded <$> component_expansion k c') = (eu_PVCsExpanded <$> status_update size size p).
Proof.
  unfold update_expansion_status, io_bind at 1, io_get. cbn [fst]. unfold io_bind.
  set (v := default _ (sr_VolumeExpansion (wc_Status c))).
  assert (Hset : forall current w', same_claims w w' -> exists c1 w1,
    @io_modify (WazuhCluster * W) (prod_map (set_volume_expansion (Some (set_component_expansion k
      (UpdateComponentExpansionStatus now (get_component k v) <$> status_update size current p) v))) id) (c, w')
      = (Ok tt, (c1, w1)) /\ same_claims w w1 /\
    (ces_Phase <$> component_expansion k c1) = (eu_Phase <$> status_update size size p) /\
    (ces_PVCsExpanded <$> component_expansion k c1) = (eu_PVCsExpanded <$> status_update size size p)).
  { intros current w' Hs. eexists _, w'. split; [done|]. split; [done|].
    assert (E : forall s, component_expansion k (set_volume_expansion (Some (set_component_expansion k s v)) c) = s)
      by by destruct k. cbn [fst]. rewrite E. unfold status_update.
    destruct (p_Error p), (p_Pending p), (p_Expanded p), (get_component k v); split; done. }
  destruct (bool_decide _ && _).
  - unfold io_try, io_world, io_ret. pose proof (get_pvcs_keeps k c w) as Hk.
    destruct (get_pvcs k c w) as [r w1]. by apply Hset.
  - apply Hset, same_refl.
Qed.


(** A size that cannot be parsed is reported nowhere: no claim changes and the
    component has no expansion status, as if there was nothing to do. *)
Theorem unreadable_size_is_silent now k c w pvcs w1 e :
  get_pvcs k c w = (Ok pvcs, w1) -> pvcs <> [] ->
  parse_quantity (requested_size k c) = Err e ->
  exists c' w', reconcile now k (c, w) = (Ok false, (c', w')) /\ same_claims w1 w' /\
    component_expansion k c' = None.
Proof.
  intros Hget Hne Hq.
  assert (Hone : forall pvc p (w0 : W), process_pvc parse_quantity quantity_string rfc3339 now
    (requested_size k c) pvc p w0 = (Ok p, w0)).
  { intros pvc p w0. unfold process_pvc, io_try, ValidateExpansion. rewrite Hq. unfold io_ret.
    cbn [validation ev_Valid ev_ErrorMessage ev_CurrentSize ev_StorageClassSupportsExpansion ev_NeedsExpansion negb andb].
    case_bool_decide; [done|]. unfold IsShrinkRequest, CompareStorageSizeStrings. rewrite Hq.
    by destruct (parse_quantity (quantity_string 0)). }
  assert (Hall : forall l p (w0 : W), processVolumeExpansion parse_quantity quantity_string rfc3339 now
    (requested_size k c) l p w0 = (Ok p, w0)).
  { induction l as [|pvc l IH]; intros p w0; [done|]. cbn [processVolumeExpansion]. unfold io_bind.
    by rewrite Hone. }
  unfold reconcile_volume_expansion, io_bind at 1, io_get. cbn [fst].
  unfold io_bind, io_wrap, wrapf, io_world. rewrite Hget. cbn iota beta. rewrite bool_decide_false by done.
  rewrite Hall.
  destruct (update_status_run now k (requested_size k c) no_progress c w1) as (c' & w' & Hu & Hs & Hp & _).
  rewrite Hu. eexists c', w'. split; [done|]. split; [done|]. by destruct (component_expansion k c').
Qed.
End Properties.

(** ** Claims to try the theorems on *)
Module SimClaims.
#[global] Instance client : StorageClient (list PVC) := {
  list_pvcs _ _ l := (Found l, l);
  patch_pvc _ q l :=
    (Found tt, q :: List.filter (fun p => negb (bool_decide (claim_key p = claim_key q))) l);
  get_storage_class n l :=
    (Found {| sc_Name := n; sc_AllowVolumeExpansion := Some true; sc_Annotations := None |}, l);
  list_storage_classes l := (Found [], l)
}.

Definition at_key (ns n : string) (l : list PVC) : option PVC :=
  List.find (fun p => bool_decide (claim_key p = (ns, n))) l.

Lemma find_filter_other (k k' : string * string) l : k <> k' ->
  List.find (fun p => bool_decide (claim_key p = k))
    (List.filter (fun p => negb (bool_decide (claim_key p = k'))) l)
  = List.find (fun p => bool_decide (claim_key p = k)) l.
Proof.
  intros Hne. induction l as [|p l IH]; [done|]. cbn. destruct (decide (claim_key p = k')) as [E|E].
  - rewrite (bool_decide_true (claim_key p = k')) by done. cbn [negb].
    rewrite (bool_decide_false (claim_key p = k)) by congruence. exact IH.
  - rewrite (bool_decide_false (claim_key p = k')) by done. cbn [negb List.find].
    destruct (bool_decide (claim_key p = k)); [done|exact IH].
Qed.

#[global, refine] Instance store : PvcStore (list PVC) := { pvc_at := at_key }.
Proof.
  - done.
  - done.
  - done.
  - intros p q w _ ns n. cbn. unfold at_key. cbn. destruct (decide (ns = pvc_Namespace q /\ n = pvc_Name q)) as [[-> ->]|H].
    + by rewrite bool_decide_true.
    + rewrite bool_decide_false by (intros [= <- <-]; by apply H).
      apply find_filter_other. intros [= -> ->]. by apply H.
  - done.
Defined.

Definition parse (s : string) : result Z :=
  if bool_decide (s = "10Gi") then Ok 10 else if bool_decide (s = "20Gi") then Ok 20
  else Err "quantities must match the regular expression".
Definition print (q : Z) : string :=
  if bool_decide (q = 10) then "10Gi" else if bool_decide (q = 20) then "20Gi" else "1Ki".

Lemma print_exact q q' : parse (print q) = Ok q' -> q' = q.
Proof.
  unfold print. case_bool_decide as E1; [subst; vm_compute; congruence|].
  case_bool_decide as E2; [subst; vm_compute; congruence|]. vm_compute. discriminate.
Qed.

Definition claim (n : string) (q : Z) (conditions : list (string * string * string)) : PVC :=
  {| pvc_Name := n; pvc_Namespace := "ns"; pvc_StorageClassName := Some "fast";
     pvc_Requests := Some {[ ResourceStorage := q ]}; pvc_Annotations := None;
     pvc_Conditions := conditions |}.

Definition cluster : WazuhCluster := SimRestart.cluster.

Lemma answers pvc (w : list PVC) :
  (can_expand pvc w).1 = Ok true <->
  bool_decide (default "" (pvc_StorageClassName pvc) <> "") = true.
Proof.
  unfold can_expand, io_bind, GetStorageClassForPVC, GetDefaultStorageClass, CanStorageClassExpand.
  destruct (pvc_StorageClassName pvc) as [n|]; [|done]. cbn [default from_option id].
  destruct (decide (n = "")) as [->|Hn]; [done|]. rewrite !bool_decide_true by done.
  unfold io_ret. by rewrite bool_decide_false.
Qed.
End SimClaims.


Example unreadable_size_is_silent_witness :
  let c := set_volume_expansion None SimClaims.cluster in
  let l := [SimClaims.claim "a" 10 []] in
  let run := reconcile_volume_expansion (fun _ => Err "unparsable") SimClaims.print (fun _ => "now") 1
               TheMaster (c, l) in
  run.1 = Ok false /\ component_expansion TheMaster run.2.1 = None.
Proof.
  intros c l run.
  destruct (unreadable_size_is_silent (fun _ => Err "unparsable") SimClaims.print (fun _ => "now") 1
    TheMaster c l l l "unparsable") as (c' & w' & Hr & _ & Hn); [reflexivity|discriminate|reflexivity|].
  unfold run. rewrite Hr. split; [reflexivity|exact Hn].
Defined.
