(* ===== verification/Reconcile.v ===== *)
(** * The reconcile loop of the WazuhCluster ([controllers/wazuhcluster_controller.go])

    [Reconcile] from the first read of the object to the requeue: the mode and
    topology checks, the references to components in resources of their own,
    the certificates, the dry run, the two scale-down gates with their deferred
    resets, the components, the rotations, networking, the rollouts, the
    rolling restarts and the status.  The steps modelled in other files are
    called as they are; the helper reconcilers that build and apply objects are
    the interface [Parts]. *)
From S2P Require Import Prelude GoStrings GoFloat Kube OpenSearchAPI WazuhAPI.
From S2P Require Import DrainState DrainDetect DrainRetry IndexerDrain ManagerDrain.
From S2P Require Import Cluster ClientFactory Rollback DrainGate ScaleDown Rolling DrainController Rollouts.
From S2P Require Import Workload NodePools Certificates CertReconcile ClusterStatus Credentials.
Local Open Scope go_scope.
Local Open Scope list_scope.

(** ** Modes and network sections ([api/v1/wazuhcluster_types.go]) *)

Definition IsInlineMode (c : WazuhCluster) : bool :=
  is_some (wc_SpecManager c) || is_some (wc_SpecIndexer c) || is_some (wc_SpecDashboard c).

Definition IsReferenceMode (c : WazuhCluster) : bool :=
  is_some (sp_ManagerRef (wc_Spec c)) || is_some (sp_IndexerRef (wc_Spec c))
  || is_some (sp_DashboardRef (wc_Spec c)).

Definition IsMixedMode (c : WazuhCluster) : bool := IsInlineMode c && IsReferenceMode c.

Definition enabled (o : option bool) : bool := default false o.

Definition indexer_networking (c : WazuhCluster) : Networking :=
  default no_networking (ix_Networking <$> wc_SpecIndexer c).
Definition dashboard_networking (c : WazuhCluster) : Networking :=
  default no_networking (da_Networking <$> wc_SpecDashboard c).
Definition manager_networking (c : WazuhCluster) : ManagerNetworking :=
  default no_manager_networking (mg_Networking <$> wc_SpecManager c).

Definition hasGatewayAPIEnabled (c : WazuhCluster) : bool :=
  enabled (nw_GatewayAPI (dashboard_networking c)) || enabled (mn_MasterGatewayAPI (manager_networking c))
  || enabled (nw_GatewayAPI (indexer_networking c)).

Definition hasNetworkPolicyEnabled (c : WazuhCluster) : bool :=
  enabled (nw_NetworkPolicy (indexer_networking c)) || enabled (mn_NetworkPolicy (manager_networking c))
  || enabled (nw_NetworkPolicy (dashboard_networking c)).

Definition hasIngressEnabled (c : WazuhCluster) : bool :=
  enabled (nw_Ingress (dashboard_networking c)) || enabled (mn_MasterIngress (manager_networking c))
  || enabled (mn_WorkersIngress (manager_networking c)) || enabled (nw_Ingress (indexer_networking c)).

(** ** Components in resources of their own *)

(** What a reference copies, and what else the resource says about networking. *)
Record OpenSearchIndexerSpec := {
  oi_Replicas : Z;
  oi_StorageSize : string;
  oi_Networking : Networking
}.
Record OpenSearchDashboardSpec := { od_Replicas : Z; od_Networking : Networking }.

(** A [WazuhManager] has the fields of the cluster's manager but for the network
    policy. *)
Record WazuhManagerSpec := {
  wm_WorkersReplicas : option Z;
  wm_APICredentials : option CredentialsSecretRef;
  wm_Auth : option AuthConfig;
  wm_AuthdPasswordSecretRef : option SecretKeySelector;
  wm_MasterStorageSize : string;
  wm_WorkersStorageSize : string;
  wm_MasterGatewayAPI : option bool;
  wm_MasterIngress : option bool;
  wm_WorkersIngress : option bool
}.

Class ReferenceClient (W : Type) := {
  get_manager : string -> string -> API W WazuhManagerSpec;
  get_indexer : string -> string -> API W OpenSearchIndexerSpec;
  get_dashboard : string -> string -> API W OpenSearchDashboardSpec
}.

Definition manager_from (m : WazuhManagerSpec) : WazuhManagerClusterSpec :=
  {| mg_WorkersReplicas := wm_WorkersReplicas m; mg_APICredentials := wm_APICredentials m;
     mg_Auth := wm_Auth m; mg_AuthdPasswordSecretRef := wm_AuthdPasswordSecretRef m;
     mg_MasterStorageSize := wm_MasterStorageSize m; mg_WorkersStorageSize := wm_WorkersStorageSize m;
     mg_Networking :=
       {| mn_MasterGatewayAPI := wm_MasterGatewayAPI m; mn_MasterIngress := wm_MasterIngress m;
          mn_WorkersIngress := wm_WorkersIngress m; mn_NetworkPolicy := None |} |}.

Definition indexer_from (i : OpenSearchIndexerSpec) : WazuhIndexerClusterSpec :=
  {| ix_Replicas := oi_Replicas i; ix_NodePools := []; ix_StorageSize := oi_StorageSize i;
     ix_Networking := no_networking |}.

Definition dashboard_from (d : OpenSearchDashboardSpec) : WazuhDashboardClusterSpec :=
  {| da_Replicas := od_Replicas d; da_Networking := no_networking |}.

Definition set_components (m : option WazuhManagerClusterSpec) (i : option WazuhIndexerClusterSpec)
    (d : option WazuhDashboardClusterSpec) (c : WazuhCluster) : WazuhCluster :=
  {| wc_Name := wc_Name c; wc_Namespace := wc_Namespace c; wc_SpecDrain := wc_SpecDrain c;
     wc_SpecIndexer := i; wc_SpecManager := m; wc_SpecDashboard := d;
     wc_StatusDrain := wc_StatusDrain c; wc_StatusLastUpdate := wc_StatusLastUpdate c;
     wc_Meta := wc_Meta c; wc_Spec := wc_Spec c; wc_Status := wc_Status c |}.

(** ** Fields of the status *)

Definition set_version (v : string) (s : StatusRest) : StatusRest :=
  {| sr_Phase := sr_Phase s; sr_Version := v;
     sr_ObservedGeneration := sr_ObservedGeneration s; sr_Conditions := sr_Conditions s;
     sr_Manager := sr_Manager s; sr_Indexer := sr_Indexer s; sr_Dashboard := sr_Dashboard s;
     sr_Security := sr_Security s; sr_CertificateRollouts := sr_CertificateRollouts s;
     sr_VolumeExpansion := sr_VolumeExpansion s; sr_RollingRestart := sr_RollingRestart s |}.

Definition set_indexer_status (i : option ComponentStatus) (s : StatusRest) : StatusRest :=
  {| sr_Phase := sr_Phase s; sr_Version := sr_Version s;
     sr_ObservedGeneration := sr_ObservedGeneration s; sr_Conditions := sr_Conditions s;
     sr_Manager := sr_Manager s; sr_Indexer := i; sr_Dashboard := sr_Dashboard s;
     sr_Security := sr_Security s; sr_CertificateRollouts := sr_CertificateRollouts s;
     sr_VolumeExpansion := sr_VolumeExpansion s; sr_RollingRestart := sr_RollingRestart s |}.

Definition set_rollouts (o : option CertificateRolloutStatus) (s : StatusRest) : StatusRest :=
  {| sr_Phase := sr_Phase s; sr_Version := sr_Version s;
     sr_ObservedGeneration := sr_ObservedGeneration s; sr_Conditions := sr_Conditions s;
     sr_Manager := sr_Manager s; sr_Indexer := sr_Indexer s; sr_Dashboard := sr_Dashboard s;
     sr_Security := sr_Security s; sr_CertificateRollouts := o;
     sr_VolumeExpansion := sr_VolumeExpansion s; sr_RollingRestart := sr_RollingRestart s |}.

Definition set_restarts (o : option RollingRestartStatus) (s : StatusRest) : StatusRest :=
  {| sr_Phase := sr_Phase s; sr_Version := sr_Version s;
     sr_ObservedGeneration := sr_ObservedGeneration s; sr_Conditions := sr_Conditions s;
     sr_Manager := sr_Manager s; sr_Indexer := sr_Indexer s; sr_Dashboard := sr_Dashboard s;
     sr_Security := sr_Security s; sr_CertificateRollouts := sr_CertificateRollouts s;
     sr_VolumeExpansion := sr_VolumeExpansion s; sr_RollingRestart := o |}.

Definition in_status (f : StatusRest -> StatusRest) (c : WazuhCluster) : WazuhCluster :=
  set_status (f (wc_Status c)) c.

(** [Status.Indexer.TopologyMode] follows the specification. *)
Definition with_topology (spec : WazuhIndexerClusterSpec) (i : option ComponentStatus) : ComponentStatus :=
  {| cst_Phase := default "" (cst_Phase <$> i); cst_ReadyReplicas := default 0 (cst_ReadyReplicas <$> i);
     cst_Replicas := default 0 (cst_Replicas <$> i);
     cst_DesiredReplicas := default 0 (cst_DesiredReplicas <$> i);
     cst_TopologyMode := if IsAdvancedMode spec then "advanced" else "simple" |}.

(** ** The helper reconcilers

    What they do to the state of the controller: the cluster object, which they
    are passed by reference, the caches and the world. *)
Class Parts (W : Type) := {
  (** [CertificateReconciler.ReconcileWithHashes] *)
  reconcile_certificates : Z -> @RCIO W CertHashResult;
  (** [IndexerReconciler.ReconcileNonBlocking] with the certificate's hash *)
  apply_indexer : Z -> string -> @RCIO W (option PendingRollout);
  (** [CheckSecurityInitialization], [ResolveAndSetDefaultAdmin], [SyncSecurityCRDs] *)
  check_security : Z -> @RCIO W bool;
  resolve_admin : Z -> @RCIO W unit;
  sync_security : Z -> @RCIO W unit;
  (** [DetectIndexerRestart] *)
  detect_restart : @RCIO W bool;
  (** [ClusterReconciler.ReconcileManagerNonBlocking], the master's and the
      workers' hashes *)
  apply_managers : Z -> string -> string -> @RCIO W (list PendingRollout);
  apply_log_rotation : @RCIO W unit;
  (** [DashboardReconciler.ReconcileNonBlocking] *)
  apply_dashboard : Z -> string -> @RCIO W (option PendingRollout);
  apply_monitoring : @RCIO W unit;
  apply_gateway : @RCIO W unit;
  apply_ingress : @RCIO W unit;
  apply_network_policies : @RCIO W unit
}.

Section Reconcile.
Context {V W : Type} (deep_equal : V -> V -> bool).
Context (K : KubeClient W) `{!DeploymentClient W, !ClusterClient W, !CleanupClient W, !ReferenceClient W}.
Context `{!WorkloadClient (FullStatefulSet V) W, !WorkloadClient (FullDeployment V) W} (P : Parts W).
Context (os_at : ClientConfig -> OpenSearchService W) (wz_at : WazuhAPIConfig -> WazuhService W).
Context (sha256_hex : string -> string) (pem_ok : string -> bool) (clusterDomain : string).
Context (cancelled : nat -> option error) (rfc3339 : Z -> string).
(** [GatewayAPIEnabled] of the operator's configuration. *)
Context (GatewayAPIEnabled : bool).

Definition on_cluster (f : WazuhCluster -> WazuhCluster) : @RCIO W unit :=
  io_modify (fun r => set_cluster_and_world (f (rc_cluster r)) (rc_world r) r).

Definition on_kube_world {A} (m : IO W A) : @RCIO W A := on_rest (io_world m).

(** *** How errors end a step *)

(** The error is recorded in a condition and returned. *)
Definition fatal {A} (now : Z) (conditionType reason : string) (m : @RCIO W A) : @RCIO W A :=
  try r <- m ;;
  match r with
  | Ok a => io_ret a
  | Err e => on_rest (persistCondition cancelled now conditionType reason e) ;;; io_err e
  end.

(** The error is only logged. *)
Definition non_fatal {A} (m : @RCIO W A) : @RCIO W unit := try r <- m ;; io_ret tt.

(** [defer f()], where it is reached. *)
Definition deferred {A} (reached : bool) (f : @reconcilers W -> @reconcilers W) (m : @RCIO W A)
    : @RCIO W A := fun r => let '(a, r) := m r in (a, if reached then f r else r).

(** *** The object *)

Definition fetch (namespace name : string) : @RCIO W (option WazuhCluster) :=
  got <- on_kube_world (io_outcome (get_cluster namespace name)) ;;
  match got with
  | Found cluster => on_cluster (fun _ => cluster) ;;; io_ret (Some cluster)
  | Failed e => if IsNotFound e then io_ret None else io_err (api_message e)
  end.

Definition add_finalizer : @RCIO W unit :=
  on_cluster (AddFinalizer wazuhClusterFinalizer) ;;;
  r <- io_get ;;
  on_kube_world (io_api (update_cluster (rc_cluster r))).

Definition start_creating : @RCIO W unit :=
  r <- io_get ;;
  let phase := sr_Phase (wc_Status (rc_cluster r)) in
  if bool_decide (phase = "") || bool_decide (phase = ClusterPhasePending) then
    on_cluster (in_status (fun s => set_version (sp_Version (wc_Spec (rc_cluster r)))
                                      (set_phase ClusterPhaseCreating s))) ;;;
    r <- io_get ;;
    on_kube_world (io_api (update_cluster_status (rc_cluster r)))
  else io_ret tt.

Definition mixed_mode_error : error :=
  "invalid configuration: cannot mix inline mode and reference mode. " +:+
  "Use either inline specs (manager/indexer/dashboard) OR references (managerRef/indexerRef/dashboardRef), not both".

Definition validate (now : Z) : @RCIO W unit :=
  r <- io_get ;;
  if IsMixedMode (rc_cluster r) then
    fatal now ConditionTypeReady "InvalidMode" (io_err mixed_mode_error)
  else
    match wc_SpecIndexer (rc_cluster r) with
    | None => io_ret tt
    | Some spec =>
        let result := ValidateNodePools spec in
        if negb (vr_Valid result) then
          match vr_Errors result with
          | e :: _ =>
              on_rest (persistCondition cancelled now ConditionTypeProgressing "NodePoolValidationFailed"
                         (ve_Message e)) ;;;
              io_err ("nodePool validation failed: " +:+ ve_Message e)
          | [] => io_err "index out of range"
          end
        else on_cluster (in_status (fun s =>
               set_indexer_status (Some (with_topology spec (sr_Indexer s))) s))
    end.

Definition check_rollouts (now : Z) : @RCIO W bool := fun r =>
  let c := rc_cluster r in
  let '(pending, (st, w)) :=
    checkAndUpdatePendingRollouts now (wc_Namespace c) (sr_CertificateRollouts (wc_Status c), rc_world r) in
  (Ok pending, set_cluster_and_world
     (match sr_CertificateRollouts (wc_Status c) with
      | Some _ => in_status (set_rollouts st) c
      | None => c
      end) w r).

(** *** References ([resolveManagerRef], [resolveIndexerRef], [resolveDashboardRef]) *)
Definition resolve_ref {A} (kind : string) (get : string -> string -> API W A) (clusterNamespace : string)
    (ref : option ComponentRef) : IO W (option A) :=
  match ref with
  | None => io_ret None
  | Some ref =>
      let namespace := if bool_decide (rf_Namespace ref = "") then clusterNamespace else rf_Namespace ref in
      let what := kind +:+ " " +:+ namespace +:+ "/" +:+ rf_Name ref in
      got <- io_outcome (get namespace (rf_Name ref)) ;;
      match got with
      | Found a => io_ret (Some a)
      | Failed e =>
          io_err (errorf (if IsNotFound e then "referenced " +:+ what +:+ " not found"
                          else "failed to get referenced " +:+ what) (api_message e))
      end
  end.

(** One reference: what it gives replaces the inline specification. *)
Definition populate {A} (now : Z) (kind reason : string) (get : string -> string -> API W A)
    (ref : WazuhCluster -> option ComponentRef) (put : A -> WazuhCluster -> WazuhCluster) : @RCIO W unit :=
  r <- io_get ;;
  got <- fatal now ConditionTypeProgressing reason
           (on_kube_world (resolve_ref kind get (wc_Namespace (rc_cluster r)) (ref (rc_cluster r)))) ;;
  match got with
  | Some a => on_cluster (put a)
  | None => io_ret tt
  end.

Definition resolve_references (now : Z) : @RCIO W unit :=
  r <- io_get ;;
  if IsReferenceMode (rc_cluster r) then
    populate now "WazuhManager" "ManagerRefResolutionFailed" get_manager
      (fun c => sp_ManagerRef (wc_Spec c))
      (fun m c => set_components (Some (manager_from m)) (wc_SpecIndexer c) (wc_SpecDashboard c) c) ;;;
    populate now "OpenSearchIndexer" "IndexerRefResolutionFailed" get_indexer
      (fun c => sp_IndexerRef (wc_Spec c))
      (fun i c => set_components (wc_SpecManager c) (Some (indexer_from i)) (wc_SpecDashboard c) c) ;;;
    populate now "OpenSearchDashboard" "DashboardRefResolutionFailed" get_dashboard
      (fun c => sp_DashboardRef (wc_Spec c))
      (fun d c => set_components (wc_SpecManager c) (wc_SpecIndexer c) (Some (dashboard_from d)) c)
  else io_ret tt.

(** *** Security: step 4 *)
Definition security_stage (now : Z) : @RCIO W bool :=
  try checked <- check_security now ;;
  let initialized := match checked with Ok b => b | Err _ => false end in
  (if initialized then
     on_cluster (updateCondition now ConditionTypeSecurityReady ConditionTrue "SecurityInitialized"
                   "OpenSearch security plugin is initialized") ;;;
     non_fatal (resolve_admin now) ;;;
     non_fatal (sync_security now)
   else
     on_cluster (updateCondition now ConditionTypeSecurityReady ConditionFalse "SecurityPending"
                   "Waiting for OpenSearch security to initialize")) ;;;
  io_ret initialized.

(** *** Networking: steps 10 to 12 *)

(** A reconciler runs in any case, to remove what is no longer wanted; its
    errors count where the section is enabled. *)
Definition networking_part (now : Z) (wanted : bool) (reason : string) (m : @RCIO W unit) : @RCIO W unit :=
  if wanted then fatal now ConditionTypeProgressing reason m else non_fatal m.

Definition networking_stage (now : Z) : @RCIO W unit :=
  r <- io_get ;;
  (if GatewayAPIEnabled
   then networking_part now (hasGatewayAPIEnabled (rc_cluster r)) "GatewayAPIFailed" apply_gateway
   else io_ret tt) ;;;
  r <- io_get ;;
  networking_part now (hasIngressEnabled (rc_cluster r)) "IngressFailed" apply_ingress ;;;
  r <- io_get ;;
  networking_part now (hasNetworkPolicyEnabled (rc_cluster r)) "NetworkPolicyFailed" apply_network_policies.

(** *** Restarts and rollouts: steps 13 to 15 *)
Definition restart_detection (now : Z) (securityInitialized : bool) : @RCIO W unit :=
  try restarted <- detect_restart ;;
  match restarted with
  | Ok true => if securityInitialized then non_fatal (sync_security now) else io_ret tt
  | _ => io_ret tt
  end.

Definition record_rollouts (now : Z) (rollouts : list PendingRollout) : @RCIO W unit :=
  match rollouts with
  | [] => io_ret tt
  | _ => on_cluster (in_status (fun s =>
           set_rollouts (addPendingRollouts now rollouts (sr_CertificateRollouts s)) s))
  end.

Definition restart_stage (now : Z) : @RCIO W bool :=
  r <- io_get ;;
  try indexer <- on_indexer (on_client
    (OrchestrateRollingRestart K os_at sha256_hex pem_ok clusterDomain (rc_cluster r))) ;;
  let indexerRestart := match indexer with Ok o => o | Err _ => None end in
  r <- io_get ;;
  m <- on_kube_world (OrchestrateManagerRollingRestart (rc_cluster r)) ;;
  let '(masterRestart, workerRestart, _) := m in
  let hasRollingRestart :=
    in_progress indexerRestart || in_progress masterRestart || in_progress workerRestart in
  on_cluster (in_status (fun s =>
    set_restarts (updateRollingRestartStatus now (sr_RollingRestart s) indexerRestart masterRestart
                    workerRestart hasRollingRestart) s)) ;;;
  io_ret hasRollingRestart.

(** *** The deferred resets *)
Definition reset_indexer (now : Z) (r : @reconcilers W) : @reconcilers W :=
  set_indexer_part (@ResetDrainState _ _ _ _ _
    (indexer_target K os_at sha256_hex pem_ok clusterDomain) now (indexer_part r)) r.

Definition reset_worker (now : Z) (r : @reconcilers W) : @reconcilers W :=
  set_worker_part (worker_ResetDrainState K wz_at sha256_hex clusterDomain now (worker_part r)) r.

Definition option_list {A} (o : option A) : list A := match o with Some a => [a] | None => [] end.

(** *** Steps 6 to 13: everything but the indexer; the new rollouts are returned *)
Definition apply_components (now : Z) (hashes : string * string * string) (securityInitialized : bool)
    : @RCIO W (list PendingRollout) :=
  let '(masterCertHash, workerCertHash, dashboardCertHash) := hashes in
  managerRollouts <- fatal now ConditionTypeProgressing "ManagerFailed"
                       (apply_managers now masterCertHash workerCertHash) ;;
  non_fatal apply_log_rotation ;;;
  dashboardRollout <- fatal now ConditionTypeProgressing "DashboardFailed"
                        (apply_dashboard now dashboardCertHash) ;;
  on_rest (reconcileAPICredentialsStatusAndRollout deep_equal cancelled rfc3339 sha256_hex now) ;;;
  on_rest (reconcileAuthdCredentialsStatusAndRollout deep_equal cancelled rfc3339 sha256_hex now) ;;;
  non_fatal apply_monitoring ;;;
  networking_stage now ;;;
  restart_detection now securityInitialized ;;;
  io_ret (managerRollouts ++ option_list dashboardRollout).

(** *** From step 6 on *)
Definition after_worker_gate (now : Z) (hasPendingRollouts : bool) (hashes : string * string * string)
    (indexerRollouts : list PendingRollout) (securityInitialized : bool) : @RCIO W (option requeue) :=
  rollouts <- apply_components now hashes securityInitialized ;;
  let newPendingRollouts := indexerRollouts ++ rollouts in
  record_rollouts now newPendingRollouts ;;;
  hasRollingRestart <- restart_stage now ;;
  on_rest (updateStatus cancelled now) ;;;
  io_ret (Some (RequeueAfter (determineRequeueInterval
    (hasPendingRollouts || negb (bool_decide (newPendingRollouts = []))) hasRollingRestart))).

(** *** Steps 3 to 5 *)
Definition after_indexer_gate (now : Z) (hasPendingRollouts : bool) (certHashes : CertHashResult)
    : @RCIO W (option requeue) :=
  indexerRollout <- fatal now ConditionTypeProgressing "IndexerFailed"
                      (apply_indexer now (indexer_cert_hash (Some certHashes))) ;;
  securityInitialized <- security_stage now ;;
  gate <- worker_stage K wz_at sha256_hex clusterDomain cancelled now ;;
  match gate with
  | Return after => io_ret (Some after)
  | Continue reset =>
      deferred reset (reset_worker now)
        (after_worker_gate now hasPendingRollouts (other_cert_hashes (Some certHashes))
           (option_list indexerRollout) securityInitialized)
  end.

(** *** From the certificates on: steps 1 to 3 *)
Definition apply_cluster (now : Z) (hasPendingRollouts : bool) : @RCIO W (option requeue) :=
  certHashes <- fatal now ConditionTypeProgressing "CertificatesFailed" (reconcile_certificates now) ;;
  r <- io_get ;;
  if default false (dc_DryRun <$> wc_SpecDrain (rc_cluster r)) then
    after <- dry_run_stage K os_at wz_at sha256_hex pem_ok clusterDomain cancelled now ;;
    io_ret (Some after)
  else
    gate <- indexer_stage K os_at sha256_hex pem_ok clusterDomain cancelled now ;;
    match gate with
    | Return after => io_ret (Some after)
    | Continue reset =>
        deferred reset (reset_indexer now) (after_indexer_gate now hasPendingRollouts certHashes)
    end.

(** [ctrl.Result], or the error. *)
Definition Reconcile (now : Z) (namespace name : string) : @RCIO W (option requeue) :=
  fetched <- fetch namespace name ;;
  match fetched with
  | None => io_ret None
  | Some cluster =>
      if om_Deleting (wc_Meta cluster) then on_kube_world (handleDeletion cluster) ;;; io_ret None
      else if negb (ContainsFinalizer cluster wazuhClusterFinalizer) then
        add_finalizer ;;; io_ret (Some RequeueNow)
      else
        start_creating ;;;
        validate now ;;;
        hasPendingRollouts <- check_rollouts now ;;
        non_fatal (on_rest (verifyRollbackComplete K)) ;;;
        retry <- on_rest (checkAndHandleRetry cancelled now) ;;
        match retry with
        | Some after => io_ret (Some after)
        | None =>
            resolve_references now ;;;
            apply_cluster now hasPendingRollouts
        end
  end.
End Reconcile.

(** ** Lemmas *)

(** The helper reconcilers respect a relation on the controller's state. *)
Class PartsKeep {W} (R : @reconcilers W -> @reconcilers W -> Prop) (P : Parts W) : Prop := {
  keep_certificates now : keeps R (reconcile_certificates now);
  keep_indexer now h : keeps R (apply_indexer now h);
  keep_security now : keeps R (check_security now);
  keep_admin now : keeps R (resolve_admin now);
  keep_sync now : keeps R (sync_security now);
  keep_detect : keeps R detect_restart;
  keep_managers now h h' : keeps R (apply_managers now h h');
  keep_log : keeps R apply_log_rotation;
  keep_dashboard now h : keeps R (apply_dashboard now h);
  keep_monitoring : keeps R apply_monitoring;
  keep_gateway : keeps R apply_gateway;
  keep_ingress : keeps R apply_ingress;
  keep_policies : keeps R apply_network_policies
}.
#[export] Hint Resolve keep_certificates keep_indexer keep_security keep_admin keep_sync keep_detect
  keep_managers keep_log keep_dashboard keep_monitoring keep_gateway keep_ingress keep_policies : keeps.

(** What the steps do to the cluster object, seen through a relation [RC] that
    changes of the status, but for its drain part, respect. *)
Section Keeping.
Context {V W : Type} (deep_equal : V -> V -> bool).
Context (K : KubeClient W) `{!DeploymentClient W, !ClusterClient W, !CleanupClient W, !ReferenceClient W}.
Context `{!WorkloadClient (FullStatefulSet V) W, !WorkloadClient (FullDeployment V) W} (P : Parts W).
Context (os_at : ClientConfig -> OpenSearchService W) (wz_at : WazuhAPIConfig -> WazuhService W).
Context (sha256_hex : string -> string) (pem_ok : string -> bool) (clusterDomain : string).
Context (cancelled : nat -> option error) (rfc3339 : Z -> string) (GatewayAPIEnabled : bool).
Context (RC : WazuhCluster -> WazuhCluster -> Prop) `{!PreOrder RC}.

Definition on_object (r r' : @reconcilers W) : Prop := RC (rc_cluster r) (rc_cluster r').
Definition on_first (s s' : WazuhCluster * W) : Prop := RC s.1 s'.1.

#[export] Instance on_object_preorder : PreOrder on_object.
Proof. split; [intros r; unfold on_object; reflexivity|intros x y z H1 H2; unfold on_object in *; by etrans]. Qed.
#[export] Instance on_first_preorder : PreOrder on_first.
Proof. split; [intros r; unfold on_first; reflexivity|intros x y z H1 H2; unfold on_first in *; by etrans]. Qed.

Lemma keeps_first_world {A} (m : IO W A) : keeps on_first (io_world m).
Proof. intros [c w]. unfold io_world, on_first. destruct (m w). reflexivity. Qed.

Lemma keeps_rest {A} (m : IO (WazuhCluster * W) A) : keeps on_first m -> keeps on_object (on_rest m).
Proof.
  intros H r. specialize (H (rc_cluster r, rc_world r)). unfold on_rest, on_object.
  by destruct (m _) as [a [c w]].
Qed.

Lemma keeps_kube {A} (m : IO W A) : keeps on_object (on_kube_world m).
Proof. apply keeps_rest, keeps_first_world. Qed.

Lemma keeps_cluster f : (forall c, RC c (f c)) -> keeps on_object (on_cluster (W := W) f).
Proof. intros H r. apply H. Qed.

Lemma keeps_ix_client {A} (m : IO (option ClientConfig * (factory * W)) A) :
  keeps on_object (on_indexer (on_client m)).
Proof.
  intros r. unfold on_object. destruct (on_indexer _ r) as [a r'] eqn:E.
  apply on_indexer_keeps in E as (H & _). cbn. rewrite H. reflexivity.
Qed.

Lemma keeps_deferred {A} b f (m : @RCIO W A) :
  (forall r, on_object r (f r)) -> keeps on_object m -> keeps on_object (deferred b f m).
Proof.
  intros Hf Hm r. specialize (Hm r). unfold deferred. destruct (m r) as [a r']. cbn in *.
  destruct b; [|done]. etrans; [exact Hm|apply Hf].
Qed.

Lemma keeps_non_fatal {A} (m : @RCIO W A) : keeps on_object m -> keeps on_object (non_fatal m).
Proof. intros H. unfold non_fatal. keeps_auto. Qed.
#[local] Hint Resolve keeps_first_world keeps_rest keeps_kube keeps_cluster keeps_ix_client keeps_deferred
  keeps_non_fatal : keeps.

Section StatusOnly.
Context (Hcond : forall l c, RC c (with_conditions l c)).
Context (Hsec : forall s c, RC c (set_security s c)).
Context (Hrestarts : forall o c, RC c (set_status (set_restarts o (wc_Status c)) c)).

Lemma keeps_persist now ty reason msg : keeps on_first (persistCondition cancelled now ty reason msg).
Proof.
  unfold persistCondition. keeps_auto; apply keeps_modify; intros [c w]; apply Hcond.
Qed.
#[local] Hint Resolve keeps_persist : keeps.

Lemma keeps_fatal {A} now ty reason (m : @RCIO W A) :
  keeps on_object m -> keeps on_object (fatal cancelled now ty reason m).
Proof. intros H. unfold fatal. keeps_auto. Qed.

Lemma keeps_set_security s : keeps on_first (set_security_in (W := W) s).
Proof. apply keeps_modify. intros [c w]. apply Hsec. Qed.

Lemma keeps_unless ctx m : keeps on_first (unless_missing (W := W) ctx m).
Proof. unfold unless_missing. keeps_auto. Qed.
#[local] Hint Resolve keeps_set_security keeps_unless : keeps.

Lemma keeps_api now : keeps on_first
  (reconcileAPICredentialsStatusAndRollout deep_equal cancelled rfc3339 sha256_hex now).
Proof. unfold reconcileAPICredentialsStatusAndRollout. keeps_auto. Qed.

Lemma keeps_authd now : keeps on_first
  (reconcileAuthdCredentialsStatusAndRollout deep_equal cancelled rfc3339 sha256_hex now).
Proof. unfold reconcileAuthdCredentialsStatusAndRollout. keeps_auto. Qed.

Lemma keeps_update_status now : keeps on_first (updateStatus cancelled now).
Proof. unfold updateStatus. keeps_auto. Qed.
#[local] Hint Resolve keeps_api keeps_authd keeps_update_status : keeps.

Lemma keeps_write_drain now : keeps on_first (updateDrainStatus cancelled now).
Proof. unfold updateDrainStatus. keeps_auto. Qed.

Lemma keeps_restart_stage now :
  keeps on_object (restart_stage K os_at sha256_hex pem_ok clusterDomain now).
Proof.
  unfold restart_stage. keeps_auto. apply keeps_cluster. intros c.
  unfold in_status. cbv beta.
  apply Hrestarts.
Qed.
#[local] Hint Resolve keeps_fatal keeps_restart_stage : keeps.

Context `{!PartsKeep on_object P}.

Lemma keeps_networking_part now b reason m :
  keeps on_object m -> keeps on_object (networking_part cancelled now b reason m).
Proof. intros H. unfold networking_part. keeps_auto. Qed.
#[local] Hint Resolve keeps_networking_part : keeps.

Lemma keeps_networking now : keeps on_object (networking_stage P cancelled GatewayAPIEnabled now).
Proof. unfold networking_stage. keeps_auto. Qed.

Lemma keeps_detection now b : keeps on_object (restart_detection P now b).
Proof. unfold restart_detection. keeps_auto. Qed.
#[local] Hint Resolve keeps_networking keeps_detection : keeps.

Lemma keeps_components now hs b :
  keeps on_object (apply_components deep_equal K P sha256_hex cancelled rfc3339 GatewayAPIEnabled now hs b).
Proof. unfold apply_components. keeps_auto. Qed.

Lemma keeps_security_stage now : keeps on_object (security_stage P now).
Proof. unfold security_stage, updateCondition. keeps_auto; apply keeps_cluster; intros c; apply Hcond. Qed.

(** The workers' gate writes its own part of the drain status. *)
Lemma keeps_worker_stage now :
  (forall s c, RC c (set_drain_status (Some (set_manager_drain s (default empty_drain_status (wc_StatusDrain c)))) c)) ->
  (forall c, RC c (set_drain_status (Some (default empty_drain_status (wc_StatusDrain c))) c)) ->
  keeps on_object (worker_stage K wz_at sha256_hex clusterDomain cancelled now).
Proof.
  intros Hd Hi. unfold worker_stage, finish_stage. keeps_auto.
  - intros r. unfold on_worker, on_object.
    pose proof (@touches_gate _ _ _ _ _ (worker_kube K) (worker_target K wz_at sha256_hex clusterDomain)
      RC _ (fun s g => Hd (Some s) (g_cluster g)) now (Workers_GetReplicas w) (worker_part r)) as H.
    unfold worker_step. destruct (gate_step _ _ _) as [d g]. exact H.
  - apply keeps_modify. intros r. apply Hi.
  - apply keeps_rest, keeps_write_drain.
Qed.
End StatusOnly.
End Keeping.

(** An answer that brings the controller back: at once, or after some time. *)
Definition comes_back (answer : option requeue) : Prop :=
  match answer with
  | Some RequeueNow => True
  | Some (RequeueAfter d) => 0 < d
  | None => False
  end.

Definition stage_comes_back (s : stage) : Prop :=
  match s with Return after => comes_back (Some after) | Continue _ => True end.

Section Answers.
Context {V W : Type} (deep_equal : V -> V -> bool).
Context (K : KubeClient W) `{!DeploymentClient W, !ClusterClient W, !CleanupClient W, !ReferenceClient W}.
Context `{!WorkloadClient (FullStatefulSet V) W, !WorkloadClient (FullDeployment V) W} (P : Parts W).
Context (os_at : ClientConfig -> OpenSearchService W) (wz_at : WazuhAPIConfig -> WazuhService W).
Context (sha256_hex : string -> string) (pem_ok : string -> bool) (clusterDomain : string).
Context (cancelled : nat -> option error) (rfc3339 : Z -> string) (GatewayAPIEnabled : bool).

Lemma requeue_positive b1 b2 : 0 < determineRequeueInterval b1 b2.
Proof. by destruct b1, b2. Qed.

Lemma post_rest {A} (Q : A -> Prop) (m : IO (WazuhCluster * W) A) : post Q m -> post Q (on_rest m).
Proof. intros H r. specialize (H (rc_cluster r, rc_world r)). unfold on_rest. by destruct (m _) as [a [c w]]. Qed.

Lemma post_deferred {A} (Q : A -> Prop) b f (m : @RCIO W A) : post Q m -> post Q (deferred b f m).
Proof. intros H r. specialize (H r). unfold deferred. by destruct (m r). Qed.

Lemma retry_comes_back now :
  post (fun o => match o with Some after => comes_back (Some after) | None => True end)
    (checkAndHandleRetry (W := W) cancelled now).
Proof.
  assert (Hc : forall c, post (fun o => match o with Some after => comes_back (Some after) | None => True end)
    (retry_component (W := W) cancelled now c)).
  { intros c. unfold retry_component. post_auto; cbn; try done. by eapply bool_decide_eq_true_1. }
  unfold checkAndHandleRetry. eapply post_bind; [apply Hc|]. intros [after|] Ha; [by apply post_ret|apply Hc].
Qed.

Lemma finish_comes_back now d : post stage_comes_back (finish_stage (W := W) cancelled now d).
Proof. unfold finish_stage. by post_auto. Qed.

Lemma indexer_stage_comes_back now :
  post stage_comes_back (indexer_stage K os_at sha256_hex pem_ok clusterDomain cancelled now).
Proof. unfold indexer_stage. post_auto; [apply finish_comes_back|done]. Qed.

Lemma worker_stage_comes_back now :
  post stage_comes_back (worker_stage K wz_at sha256_hex clusterDomain cancelled now).
Proof. unfold worker_stage. post_auto; [apply finish_comes_back|done]. Qed.

Lemma after_indexer_gate_comes_back now b h :
  post comes_back (after_indexer_gate deep_equal K P os_at wz_at sha256_hex pem_ok clusterDomain cancelled
                     rfc3339 GatewayAPIEnabled now b h).
Proof.
  unfold after_indexer_gate. do 2 (apply post_after; intros ?).
  eapply post_bind; [apply worker_stage_comes_back|]. intros [after|reset] Hs; [by apply post_ret|].
  apply post_deferred. unfold after_worker_gate. post_auto. apply requeue_positive.
Qed.

Lemma apply_cluster_comes_back now b :
  post comes_back (apply_cluster deep_equal K P os_at wz_at sha256_hex pem_ok clusterDomain cancelled
                     rfc3339 GatewayAPIEnabled now b).
Proof.
  unfold apply_cluster. do 2 (apply post_after; intros ?). destruct (default _ _).
  - eapply (post_bind (fun after => comes_back (Some after))); [|intros; by apply post_ret].
    unfold dry_run_stage. by post_auto.
  - eapply post_bind; [apply indexer_stage_comes_back|]. intros [after|reset] Hs; [by apply post_ret|].
    apply post_deferred, after_indexer_gate_comes_back.
Qed.
End Answers.

(** An API server that stores the object it is given. *)
Class ClusterStore (W : Type) `{!ClusterClient W} := {
  stored_cluster : string -> string -> W -> option WazuhCluster;
  get_cluster_named ns n w c w' :
    get_cluster ns n w = (Found c, w') -> wc_Namespace c = ns /\ wc_Name c = n;
  update_cluster_stores c w w' :
    update_cluster_status c w = (Found tt, w') ->
    stored_cluster (wc_Namespace c) (wc_Name c) w' = Some c
}.

(** The resource that a reference names was read and gave [o]. *)
Definition reference_read {W A B} (get : string -> string -> API W A) (from : A -> B) (ns : string)
    (ref : option ComponentRef) (o : option B) : Prop :=
  match ref with
  | None => o = None
  | Some ref => exists w a w',
      get (if bool_decide (rf_Namespace ref = "") then ns else rf_Namespace ref) (rf_Name ref) w = (Found a, w') /\
      o = Some (from a)
  end.

Definition same_rollouts (c c' : WazuhCluster) : Prop :=
  sr_CertificateRollouts (wc_Status c') = sr_CertificateRollouts (wc_Status c).
Definition same_indexer_drain (c c' : WazuhCluster) : Prop :=
  (wc_Namespace c', wc_Name c', indexer_drain c') = (wc_Namespace c, wc_Name c, indexer_drain c).

#[export] Instance same_rollouts_preorder : PreOrder same_rollouts.
Proof. split; [intros c; done|intros x y z; unfold same_rollouts; congruence]. Qed.
#[export] Instance same_indexer_drain_preorder : PreOrder same_indexer_drain.
Proof. split; [intros c; done|intros x y z; unfold same_indexer_drain; congruence]. Qed.

Lemma manager_drain_same s c : same_indexer_drain c
  (set_drain_status (Some (set_manager_drain s (default empty_drain_status (wc_StatusDrain c)))) c).
Proof. unfold same_indexer_drain, indexer_drain. cbn. by destruct (wc_StatusDrain c). Qed.

Lemma init_drain_same c :
  same_indexer_drain c (set_drain_status (Some (default empty_drain_status (wc_StatusDrain c))) c).
Proof. unfold same_indexer_drain, indexer_drain. cbn. by destruct (wc_StatusDrain c). Qed.
#[export] Hint Resolve manager_drain_same init_drain_same : wazuh.

(** A reference gives an indexer or a dashboard without a network. *)
Lemma indexer_read_networking {W} `{!ReferenceClient W} ns ref o :
  reference_read (W := W) get_indexer indexer_from ns ref o ->
  default no_networking (ix_Networking <$> o) = no_networking.
Proof. destruct ref as [f|]; [intros (w & i & w' & _ & ->)|intros ->]; done. Qed.

Lemma dashboard_read_networking {W} `{!ReferenceClient W} ns ref o :
  reference_read (W := W) get_dashboard dashboard_from ns ref o ->
  default no_networking (da_Networking <$> o) = no_networking.
Proof. destruct ref as [f|]; [intros (w & i & w' & _ & ->)|intros ->]; done. Qed.

Lemma manager_read_policy {W} `{!ReferenceClient W} ns ref o :
  reference_read (W := W) get_manager manager_from ns ref o ->
  mn_NetworkPolicy (default no_manager_networking (mg_Networking <$> o)) = None.
Proof. destruct ref as [f|]; [intros (w & i & w' & _ & ->)|intros ->]; done. Qed.

Section PropertyLemmas.
Context {V W : Type} (deep_equal : V -> V -> bool).
Context (K : KubeClient W) `{!DeploymentClient W, !ClusterClient W, !CleanupClient W, !ReferenceClient W}.
Context `{!WorkloadClient (FullStatefulSet V) W, !WorkloadClient (FullDeployment V) W} (P : Parts W).
Context (os_at : ClientConfig -> OpenSearchService W) (wz_at : WazuhAPIConfig -> WazuhService W).
Context (sha256_hex : string -> string) (pem_ok : string -> bool) (clusterDomain : string).
Context (cancelled : nat -> option error) (rfc3339 : Z -> string) (GatewayAPIEnabled : bool).

Abbreviation after_workers := (after_worker_gate deep_equal K P os_at sha256_hex pem_ok clusterDomain
  cancelled rfc3339 GatewayAPIEnabled).
Abbreviation after_indexer := (after_indexer_gate deep_equal K P os_at wz_at sha256_hex pem_ok clusterDomain
  cancelled rfc3339 GatewayAPIEnabled).

Lemma fatal_ok {A} now ty reason (m : @RCIO W A) r a r' :
  fatal cancelled now ty reason m r = (Ok a, r') -> m r = (Ok a, r').
Proof.
  unfold fatal, io_try. destruct (m r) as [[b|e] r1]; [done|]. intros (x & r2 & _ & H)%io_bind_ok. done.
Qed.

Lemma on_kube_ok {A} (m : IO W A) r a r' :
  on_kube_world m r = (a, r') -> exists w', m (rc_world r) = (a, w') /\
    r' = set_cluster_and_world (rc_cluster r) w' r.
Proof.
  unfold on_kube_world, on_rest, io_world. destruct (m _) as [x w]. intros; simplify_eq. eauto.
Qed.

Lemma on_rest_ok {A} (m : IO (WazuhCluster * W) A) r a r' :
  on_rest m r = (a, r') -> exists c w, m (rc_cluster r, rc_world r) = (a, (c, w)) /\
    r' = set_cluster_and_world c w r.
Proof. unfold on_rest. destruct (m _) as [x [c w]]. intros; simplify_eq. eauto. Qed.

Lemma populate_ok {A} now kind reason (get : string -> string -> API W A) ref put r r' :
  populate cancelled now kind reason get ref put r = (Ok tt, r') ->
  match ref (rc_cluster r) with
  | None => rc_cluster r' = rc_cluster r
  | Some f => exists w a w',
      get (if bool_decide (rf_Namespace f = "") then wc_Namespace (rc_cluster r) else rf_Namespace f)
        (rf_Name f) w = (Found a, w') /\ rc_cluster r' = put a (rc_cluster r)
  end.
Proof.
  unfold populate, io_bind at 1, io_get. intros (o & r1 & Hf%fatal_ok & H)%io_bind_ok.
  apply on_kube_ok in Hf as (w' & Hf & ->). unfold resolve_ref in Hf.
  destruct (ref (rc_cluster r)) as [f|]; [|unfold io_ret in *; by simplify_eq/=].
  unfold io_bind, io_outcome in Hf. exists (rc_world r). destruct (get _ _ _) as [[a|e] w1] eqn:Eg; [|done].
  unfold io_ret in Hf. simplify_eq. exists a, w'. split; [done|].
  unfold on_cluster, io_modify in H. by simplify_eq.
Qed.

(** The end of a run: the rollouts, the restarts and the status. *)
Definition finish (now : Z) (pending : bool) (l : list PendingRollout) : @RCIO W (option requeue) :=
  record_rollouts now l ;;;
  hasRollingRestart <- restart_stage K os_at sha256_hex pem_ok clusterDomain now ;;
  on_rest (updateStatus cancelled now) ;;;
  io_ret (Some (RequeueAfter (determineRequeueInterval (pending || negb (bool_decide (l = [])))
                                hasRollingRestart))).

Section Cases.
Context (RC : WazuhCluster -> WazuhCluster -> Prop) `{!PreOrder RC, !PartsKeep (on_object RC) P}.
Context (Hcond : forall l c, RC c (with_conditions l c)) (Hsec : forall s c, RC c (set_security s c)).
Context (Hrestarts : forall o c, RC c (set_status (set_restarts o (wc_Status c)) c)).
Context (Hdrain : forall s c,
  RC c (set_drain_status (Some (set_manager_drain s (default empty_drain_status (wc_StatusDrain c)))) c)).
Context (Hinit : forall c, RC c (set_drain_status (Some (default empty_drain_status (wc_StatusDrain c))) c)).

Lemma keeps_reset_worker now r : on_object RC r (reset_worker K wz_at sha256_hex clusterDomain now r).
Proof.
  unfold on_object, reset_worker. apply (@touches_reset _ _ _ _ _
    (worker_target K wz_at sha256_hex clusterDomain) RC _ (fun s g => Hdrain (Some s) (g_cluster g)) now (worker_part r)).
Qed.

(** A run from the indexer's gate on ends before the rollouts are recorded,
    having respected [RC], or with [finish]. *)
Lemma after_indexer_cases now pending h r res r' :
  after_indexer now pending h r = (res, r') ->
  (on_object RC r r' /\
     ((exists e, res = Err e) \/
      exists after r1, worker_stage K wz_at sha256_hex clusterDomain cancelled now r1 = (Ok (Return after), r') /\
        on_object RC r r1 /\ res = Ok (Some after))) \/
  (exists ix others reset r1, (apply_indexer now (indexer_cert_hash (Some h)) r).1 = Ok ix /\
     on_object RC r r1 /\
     deferred reset (reset_worker K wz_at sha256_hex clusterDomain now)
       (finish now pending (option_list ix ++ others)) r1 = (res, r')).
Proof.
  unfold after_indexer_gate, io_bind at 1. intros H.
  pose proof (keeps_fatal cancelled RC Hcond now ConditionTypeProgressing "IndexerFailed" _
                (keep_indexer now (indexer_cert_hash (Some h))) r) as H1.
  destruct (fatal _ _ _ _ _ r) as [[ix|e] r1] eqn:E1; [|simplify_eq; left; eauto].
  apply fatal_ok in E1. unfold io_bind at 1 in H.
  pose proof (keeps_security_stage P RC Hcond now r1) as H2.
  destruct (security_stage _ _ r1) as [[b|e] r2] eqn:E2; cbn in H1, H2;
    [|simplify_eq; left; split; [by etrans|eauto]].
  assert (H12 : on_object RC r r2) by by etrans. unfold io_bind at 1 in H.
  pose proof (keeps_worker_stage K wz_at sha256_hex clusterDomain cancelled RC now Hdrain Hinit r2) as H3.
  destruct (worker_stage _ _ _ _ _ _ r2) as [[[after|reset]|e] r3] eqn:E3; cbn in H3.
  - unfold io_ret in H. simplify_eq. left. split; [by etrans|]. right. by exists after, r2.
  - assert (H13 : on_object RC r r3) by by etrans.
    pose proof (keeps_components deep_equal K P sha256_hex cancelled rfc3339 GatewayAPIEnabled RC Hcond Hsec
      now (other_cert_hashes (Some h)) b r3) as H4.
    unfold deferred, after_worker_gate, io_bind at 1 in H.
    destruct (apply_components _ _ _ _ _ _ _ _ _ _ r3) as [[others|e] r4] eqn:E4; cbn in H4.
    + right. exists ix, others, reset, r4. rewrite E1. split; [done|]. split; [by etrans|exact H].
    + simplify_eq. left. split; [|by left; eexists]. etrans; [by etrans|].
      destruct reset; [apply keeps_reset_worker|reflexivity].
  - simplify_eq. left. split; [by etrans|by left; eexists].
Qed.
End Cases.

(** The object in memory after a step that only reads and writes elsewhere. *)
Lemma record_rollouts_eq now l (r : @reconcilers W) :
  exists r', record_rollouts now l r = (Ok tt, r') /\ same_indexer_drain (rc_cluster r) (rc_cluster r') /\
    sr_CertificateRollouts (wc_Status (rc_cluster r')) =
      if bool_decide (l = []) then sr_CertificateRollouts (wc_Status (rc_cluster r))
      else addPendingRollouts now l (sr_CertificateRollouts (wc_Status (rc_cluster r))).
Proof. destruct l as [|x l]; by eexists. Qed.

Lemma finish_keeps (RC : WazuhCluster -> WazuhCluster -> Prop) `{!PreOrder RC} now pending l :
  (forall o c, RC c (set_status (set_restarts o (wc_Status c)) c)) ->
  keeps (on_object RC)
    (hasRollingRestart <- restart_stage K os_at sha256_hex pem_ok clusterDomain now ;;
     on_rest (updateStatus cancelled now) ;;;
     io_ret (Some (RequeueAfter (determineRequeueInterval (pending || negb (bool_decide (l = @nil PendingRollout)))
                                   hasRollingRestart)))).
Proof.
  intros H. pose proof (keeps_restart_stage K os_at sha256_hex pem_ok clusterDomain RC H now).
  keeps_auto. apply keeps_rest. by apply keeps_update_status.
Qed.

Section Stored.
Context `{!ClusterStore W}.

(** The indexer's part of the drain status that the server now has for [c]. *)
Definition stored_drain (c : WazuhCluster) (w : W) : option ComponentDrainStatus :=
  stored_cluster (wc_Namespace c) (wc_Name c) w ≫= indexer_drain.

Lemma worker_return_stores now r after r' :
  worker_stage K wz_at sha256_hex clusterDomain cancelled now r = (Ok (Return after), r') ->
  stored_drain (rc_cluster r') (rc_world r') = indexer_drain (rc_cluster r').
Proof.
  unfold worker_stage, io_bind at 1, io_get. destruct (wc_SpecManager _) as [spec|]; [|done].
  intros (d & r1 & _ & H)%io_bind_ok. destruct d as [|reset]; [|done]. cbn [finish_stage] in H.
  apply io_bind_ok in H as ([] & r2 & _ & H).
  apply io_bind_ok in H as ([] & r3 & H3 & H). unfold io_ret in H. simplify_eq.
  apply on_rest_ok in H3 as (c & w & H3 & ->).
  apply updateDrainStatus_ok in H3 as (k & wk & latest & w1 & w' & _ & _ & Hg & Hu & Hs). simplify_eq.
  apply get_cluster_named in Hg as [Hns Hn]. apply update_cluster_stores in Hu.
  unfold stored_drain. cbn in Hu |- *. by rewrite <-Hns, <-Hn, Hu.
Qed.

Lemma finish_stores now pending l r after r' :
  finish now pending l r = (Ok after, r') ->
  stored_drain (rc_cluster r') (rc_world r') = indexer_drain (rc_cluster r').
Proof.
  unfold finish. intros (u & r1 & _ & H)%io_bind_ok. apply io_bind_ok in H as (b & r2 & _ & H).
  apply io_bind_ok in H as ([] & r3 & H3 & H). unfold io_ret in H. simplify_eq.
  apply on_rest_ok in H3 as (c & w & H3 & ->).
  apply updateStatus_ok in H3 as (k & wk & latest & w1 & ix & w2 & mg & w3 & da & w4 & w' & _ & _ & Hg & _ & _ & _ & Hu & Hs).
  simplify_eq. apply get_cluster_named in Hg as [Hns Hn]. apply update_cluster_stores in Hu.
  destruct (final_status_fields now (rc_cluster r2) latest ix mg da) as (F1 & _ & F3 & _).
  injection F1 as F1 F2 _ _. injection F3 as _ _ _ F3.
  unfold stored_drain. cbn. rewrite <-Hns, <-Hn, <-F1, <-F2, Hu. cbn. unfold indexer_drain. by rewrite F3.
Qed.

Lemma reset_indexer_world now r :
  rc_world (reset_indexer K os_at sha256_hex pem_ok clusterDomain now r) = rc_world r.
Proof. unfold reset_indexer, ResetDrainState. cbn. by destruct (gate_status _). Qed.

Lemma reset_worker_world now r :
  rc_world (reset_worker K wz_at sha256_hex clusterDomain now r) = rc_world r.
Proof. unfold reset_worker, worker_ResetDrainState, ResetDrainState. cbn. by destruct (gate_status _). Qed.

Lemma reset_indexer_names now (r : @reconcilers W) : let r' := reset_indexer K os_at sha256_hex pem_ok clusterDomain now r in
  wc_Namespace (rc_cluster r') = wc_Namespace (rc_cluster r) /\ wc_Name (rc_cluster r') = wc_Name (rc_cluster r).
Proof. unfold reset_indexer, ResetDrainState. cbn. by destruct (gate_status _). Qed.

Lemma reset_indexer_idle now (r : @reconcilers W) s :
  indexer_drain (rc_cluster r) = Some s ->
  cds_Phase <$> indexer_drain (rc_cluster (reset_indexer K os_at sha256_hex pem_ok clusterDomain now r))
    = Some DrainPhaseIdle.
Proof.
  intros Hs. pose proof (@reset_status _ _ _ _ _ _ (indexer_laws os_at sha256_hex pem_ok clusterDomain K)
    now (indexer_part r) s Hs) as H.
  etrans; [exact (f_equal (fmap cds_Phase) H)|done].
Qed.
End Stored.

Lemma indexer_stage_drained now r r' :
  indexer_stage K os_at sha256_hex pem_ok clusterDomain cancelled now r = (Ok (Continue true), r') ->
  cds_Phase <$> indexer_drain (rc_cluster r') = Some DrainPhaseComplete.
Proof.
  unfold indexer_stage, io_bind at 1, io_get. destruct (wc_SpecIndexer _) as [spec|]; [|done].
  intros (d & r1 & Hd & H)%io_bind_ok. destruct d as [|reset]; cbn [finish_stage] in H.
  { apply io_bind_ok in H as ([] & r2 & _ & H). by apply io_bind_ok in H as ([] & r3 & _ & H). }
  unfold io_ret in H. simplify_eq. unfold on_indexer in Hd.
  destruct (indexer_step _ _ _ _ _ _ _ _) as [d g] eqn:E. simplify_eq.
  apply (@proceed_drained_phase _ _ _ _ _ _ _ (indexer_laws os_at sha256_hex pem_ok clusterDomain K)) in E.
  exact E.
Qed.
End PropertyLemmas.

(** ** Properties *)
Section Properties.
Context {V W : Type} (deep_equal : V -> V -> bool).
Context (K : KubeClient W) `{!DeploymentClient W, !ClusterClient W, !CleanupClient W, !ReferenceClient W}.
Context `{!WorkloadClient (FullStatefulSet V) W, !WorkloadClient (FullDeployment V) W} (P : Parts W).
Context (os_at : ClientConfig -> OpenSearchService W) (wz_at : WazuhAPIConfig -> WazuhService W).
Context (sha256_hex : string -> string) (pem_ok : string -> bool) (clusterDomain : string).
Context (cancelled : nat -> option error) (rfc3339 : Z -> string) (GatewayAPIEnabled : bool).

Abbreviation reconcile := (Reconcile deep_equal K P os_at wz_at sha256_hex pem_ok clusterDomain cancelled
  rfc3339 GatewayAPIEnabled).
Abbreviation from_indexer := (after_indexer_gate deep_equal K P os_at wz_at sha256_hex pem_ok clusterDomain
  cancelled rfc3339 GatewayAPIEnabled).
Abbreviation gate_of_indexer := (indexer_stage K os_at sha256_hex pem_ok clusterDomain cancelled).
Abbreviation reset_of_indexer := (reset_indexer K os_at sha256_hex pem_ok clusterDomain).

(** C3: the loop never goes to sleep over a live cluster.  Whatever the server
    and the helper reconcilers answer, a reconcile that returns without an
    error (after which it is retried) asks to come back, at once or after a
    positive time, unless the object does not exist or is being deleted. *)
Theorem reconcile_comes_back now ns name r :
  match (reconcile now ns name r).1 with
  | Err _ => True
  | Ok answer =>
      comes_back answer \/
      (answer = None /\
       ((exists e w, get_cluster ns name (rc_world r) = (Failed e, w) /\ IsNotFound e = true) \/
        exists c w, get_cluster ns name (rc_world r) = (Found c, w) /\ om_Deleting (wc_Meta c) = true))
  end.
Proof.
  unfold Reconcile, io_bind at 1.
  destruct (fetch ns name r) as [[o|e] r1] eqn:Ef; [|done].
  unfold fetch in Ef. apply io_bind_ok in Ef as (got & r2 & Hg & Ef).
  apply on_kube_ok in Hg as (w2 & Hg & _). unfold io_outcome in Hg.
  destruct (get_cluster ns name (rc_world r)) as [g w1] eqn:Eg. simplify_eq.
  destruct got as [c|e].
  - apply io_bind_ok in Ef as ([] & r3 & _ & Ef). unfold io_ret in Ef. simplify_eq.
    destruct (om_Deleting (wc_Meta c)) eqn:Ed.
    + destruct ((on_kube_world _ ;;; io_ret None) r1) as [[a|e] r4] eqn:E4; [|done]. right.
      apply io_bind_ok in E4 as (u & r5 & _ & E4). unfold io_ret in E4. simplify_eq. eauto 8.
    + assert (H : forall m : @RCIO W (option requeue), post comes_back m ->
        match (m r1).1 with Ok a => comes_back a \/ (a = None /\
          ((exists e w, (@Found WazuhCluster c, w2) = (Failed e, w) /\ IsNotFound e = true) \/
           exists c' w, (Found c, w2) = (Found c', w) /\ om_Deleting (wc_Meta c') = true)) | Err _ => True end).
      { intros m Hm. specialize (Hm r1). destruct (m r1).1; [by left|done]. }
      apply H. destruct (negb _); [by post_auto|]. do 4 (apply post_after; intros ?).
      eapply post_bind; [apply post_rest, retry_comes_back|]. intros [after|] Ha; [by apply post_ret|].
      apply post_after; intros ?. apply apply_cluster_comes_back.
  - destruct (IsNotFound e) eqn:He; unfold io_ret, io_err in Ef; simplify_eq. right. eauto 8.
Qed.



(** C4: a finished drain disarms the gate.  When the indexer's gate proceeds
    because its drain is complete, and the reconcile then ends without an
    error, the drain is idle again in memory, but what the server has stored
    says Complete: from that status on, the next scale-down of the indexer
    proceeds as drained without any client, drainer or server having been
    asked. *)
Theorem finished_drain_disarms_gate `{!ClusterStore W, !PartsKeep (on_object same_indexer_drain) P}
    now pending h r0 r1 answer r' :
  gate_of_indexer now r0 = (Ok (Continue true), r1) ->
  deferred true (reset_of_indexer now) (from_indexer now pending h) r1 = (Ok answer, r') ->
  cds_Phase <$> indexer_drain (rc_cluster r') = Some DrainPhaseIdle /\
  exists s, stored_drain (rc_cluster r') (rc_world r') = Some s /\ cds_Phase s = DrainPhaseComplete /\
    forall now' n (g : @indexer_gate W) sts w1, indexer_drain (g_cluster g) = Some s ->
      @drain_wanted _ _ _ _ _ (indexer_kube K) (indexer_target K os_at sha256_hex pem_ok clusterDomain) n g sts w1 ->
      exists g', indexer_step K sha256_hex pem_ok clusterDomain os_at now' n g = (Proceed true, g') /\
        g_world g' = w1 /\ g_client g' = g_client g /\ g_drainer g' = g_drainer g.
Proof.
  intros Hgate H. apply indexer_stage_drained in Hgate.
  unfold deferred in H. destruct (from_indexer now pending h r1) as [res r2] eqn:E.
  injection H as -> <-.
  assert (Hd : same_indexer_drain (rc_cluster r1) (rc_cluster r2) /\
               stored_drain (rc_cluster r2) (rc_world r2) = indexer_drain (rc_cluster r2)).
  { apply (after_indexer_cases deep_equal K P os_at wz_at sha256_hex pem_ok clusterDomain cancelled rfc3339
             GatewayAPIEnabled same_indexer_drain) in E; auto with wazuh; try done.
    - destruct E as [[HR [[e He]|(after & r3 & Hw & _ & _)]]|(ix & others & reset & r3 & _ & HR & E)]; [done|..].
      + split; [exact HR|]. by eapply worker_return_stores.
      + unfold deferred in E. destruct (finish _ _ _ _ _ _ _ _ _ r3) as [a r4] eqn:E4. injection E as -> <-.
        pose proof (finish_stores _ _ _ _ _ _ _ _ _ _ _ _ E4) as Hst.
        unfold finish, io_bind at 1 in E4. destruct (record_rollouts_eq now (option_list ix ++ others) r3)
          as (r5 & E5 & H5 & _). rewrite E5 in E4.
        pose proof (finish_keeps K os_at sha256_hex pem_ok clusterDomain cancelled same_indexer_drain now pending
                      (option_list ix ++ others) (fun _ _ => eq_refl) r5) as H6.
        rewrite E4 in H6. cbn in H6.
        assert (Hs : same_indexer_drain (rc_cluster r1) (rc_cluster r4)).
        { etrans; [exact HR|]. etrans; [exact H5|exact H6]. }
        destruct reset; [|done].
        assert (H7 : same_indexer_drain (rc_cluster r4)
                  (rc_cluster (reset_worker K wz_at sha256_hex clusterDomain now r4))).
        { apply (keeps_reset_worker K wz_at sha256_hex clusterDomain same_indexer_drain). auto with wazuh. }
        split; [by etrans|]. unfold stored_drain in Hst |- *.
        apply pair_equal_spec in H7 as [[-> ->]%pair_equal_spec ->]. by rewrite reset_worker_world. }
  destruct Hd as [Hsame Hst]. injection Hsame as _ _ Hsame. rewrite <-Hsame in Hgate.
  destruct (indexer_drain (rc_cluster r2)) as [s|] eqn:Es; [|done]. cbn in Hgate. injection Hgate as Hph.
  split; [by eapply reset_indexer_idle|]. exists s.
  destruct (reset_indexer_names K os_at sha256_hex pem_ok clusterDomain now r2) as [Hn1 Hn2].
  split; [unfold stored_drain; rewrite Hn1, Hn2, reset_indexer_world; exact Hst|]. split; [done|].
  intros now' n g sts w1 Hg Hw. unfold indexer_step, gate_step.
  rewrite (@check_wanted _ _ _ _ _ _ _ _ _ _ _ _ Hw).
  assert (Hc : @current_status _ _ _ _ _ (indexer_target K os_at sha256_hex pem_ok clusterDomain) g = s).
  { unfold current_status. change (gate_status g) with (indexer_drain (g_cluster g)). by rewrite Hg. }
  rewrite Hc, Hph. by eexists.
Qed.
End Properties.


(** ** A controller to try the theorems on *)
Module SimLoop.
(** The object, next to the two clusters of [Sites]. *)
Record world := { x_cluster : WazuhCluster; x_site : Sites.site }.

Definition at_site {R} (m : Sites.site -> R * Sites.site) : world -> R * world := fun x =>
  let '(r, s) := m (x_site x) in (r, {| x_cluster := x_cluster x; x_site := s |}).

#[global] Instance kube : KubeClient world := {
  get_statefulset ns n := at_site (get_statefulset ns n);
  update_statefulset s := at_site (update_statefulset s);
  list_pods ns l := at_site (list_pods ns l);
  delete_pod p := at_site (delete_pod p);
  get_secret ns n := at_site (get_secret ns n)
}.

Definition os_at (c : ClientConfig) : OpenSearchService world := {|
  get_cluster_health := at_site (@get_cluster_health _ (Sites.os_at c));
  get_cat_shards := at_site (@get_cat_shards _ (Sites.os_at c));
  get_cluster_settings b := at_site (@get_cluster_settings _ (Sites.os_at c) b);
  put_cluster_settings u := at_site (@put_cluster_settings _ (Sites.os_at c) u)
|}.

Definition wz_at (c : WazuhAPIConfig) : WazuhService world := {|
  post_authenticate x := (Err "refused", x);
  get_manager_info _ x := (Err "refused", x);
  get_cluster_status _ x := (Err "refused", x);
  get_stats _ _ x := (Err "refused", x);
  get_nodes _ _ x := (Err "refused", x)
|}.

#[global] Instance deployments : DeploymentClient world := {
  get_deployment _ n x := (Failed (NotFound n), x)
}.
#[global] Instance clusters : ClusterClient world := {
  get_cluster ns n x :=
    (if bool_decide (ns = wc_Namespace (x_cluster x)) && bool_decide (n = wc_Name (x_cluster x))
     then Found (x_cluster x) else Failed (NotFound n), x);
  update_cluster_status c x := (Found tt, {| x_cluster := c; x_site := x_site x |})
}.
#[global, refine] Instance store : ClusterStore world := {
  stored_cluster ns n x :=
    if bool_decide (ns = wc_Namespace (x_cluster x)) && bool_decide (n = wc_Name (x_cluster x))
    then Some (x_cluster x) else None
}.
Proof.
  - intros ns n w c w' H. cbn in H. destruct (bool_decide (ns = _)) eqn:E1; [|done].
    destruct (bool_decide (n = _)) eqn:E2; [|done]. cbn in H. simplify_eq.
    by apply bool_decide_eq_true in E1 as ->, E2 as ->.
  - intros c w w' H. cbn in H. simplify_eq. cbn. by rewrite !bool_decide_true.
Defined.

#[global] Instance statefulsets : WorkloadClient (FullStatefulSet string) world := {
  get_workload _ n x := (Failed (NotFound n), x);
  create_workload _ x := (Found tt, x);
  update_workload _ x := (Found tt, x);
  delete_workload _ _ x := (Found tt, x)
}.
#[global] Instance full_deployments : WorkloadClient (FullDeployment string) world := {
  get_workload _ n x := (Failed (NotFound n), x);
  create_workload _ x := (Found tt, x);
  update_workload _ x := (Found tt, x);
  delete_workload _ _ x := (Found tt, x)
}.

(** Every component has a resource with everything enabled. *)
Definition everything : Networking :=
  {| nw_GatewayAPI := Some true; nw_Ingress := Some true; nw_NetworkPolicy := Some true |}.
#[global] Instance references : ReferenceClient world := {
  get_manager _ n x := (Failed (NotFound n), x);
  get_indexer _ _ x := (Found {| oi_Replicas := 3; oi_StorageSize := "50Gi"; oi_Networking := everything |}, x);
  get_dashboard _ _ x := (Found {| od_Replicas := 1; od_Networking := everything |}, x)
}.

Definition hashes : CertHashResult :=
  {| ch_CA := "ca"; ch_Dashboard := "d"; ch_Indexer := "i"; ch_ManagerMaster := "m";
     ch_ManagerWorker := "w"; ch_Filebeat := "f"; ch_Admin := "a"; ch_CARenewed := true;
     ch_CARenewalPending := false; ch_CARenewalScheduledAt := 0; ch_IndexerCertsRenewed := false;
     ch_HotReloadTriggered := false; ch_HotReloadError := None |}.

Definition indexer_rollout : PendingRollout :=
  {| ro_Name := "a-indexer"; ro_Namespace := "ns"; ro_Type := "StatefulSet"; ro_Component := "indexer";
     ro_Reason := "certificates renewed"; ro_StartTime := Some 5; ro_Generation := 2 |}.

(** The indexer's update starts a rollout; nothing else has anything to do. *)
Definition parts : Parts world := {|
  reconcile_certificates _ := io_ret hashes;
  apply_indexer _ _ := io_ret (Some indexer_rollout);
  check_security _ := io_ret false;
  resolve_admin _ := io_ret tt;
  sync_security _ := io_ret tt;
  detect_restart := io_ret false;
  apply_managers _ _ _ := io_ret [];
  apply_log_rotation := io_ret tt;
  apply_dashboard _ _ := io_ret None;
  apply_monitoring := io_ret tt;
  apply_gateway := io_ret tt;
  apply_ingress := io_ret tt;
  apply_network_policies := io_ret tt
|}.

#[global] Instance parts_keep (R : @reconcilers world -> @reconcilers world -> Prop) `{!PreOrder R} : PartsKeep R parts.
Proof. split; intros; apply keeps_ret; exact _. Qed.

Definition controller (c : WazuhCluster) : @reconcilers world :=
  {| rc_ix_client := Some (Sites.client "a");
     rc_ix_drainer := Some ({| id_timeout := 0; id_healthCheckInterval := 0; id_initialShardCount := 0 |},
                            Sites.client "a");
     rc_wk_client := None; rc_wk_drainer := None; rc_cache := ∅; rc_heap := [];
     rc_cluster := c; rc_world := {| x_cluster := c; x_site := Sites.two_clusters |} |}.

(** Three nodes, two wanted, the third one empty and about to be verified. *)
Definition verifying : WazuhCluster :=
  set_components None (Some {| ix_Replicas := 2; ix_NodePools := []; ix_StorageSize := "";
                               ix_Networking := no_networking |}) None
    (Sites.cluster "a" (Some (Sites.status_in DrainPhaseVerifying))).

Definition by_reference : WazuhCluster :=
  let c := Sites.cluster "a" None in
  {| wc_Name := wc_Name c; wc_Namespace := wc_Namespace c; wc_SpecDrain := None; wc_SpecIndexer := None;
     wc_SpecManager := None; wc_SpecDashboard := None; wc_StatusDrain := None; wc_StatusLastUpdate := None;
     wc_Meta := no_meta;
     wc_Spec := {| sp_Version := "4.14.0"; sp_ManagerRef := None;
                   sp_IndexerRef := Some {| rf_Name := "os"; rf_Namespace := "" |};
                   sp_DashboardRef := Some {| rf_Name := "ui"; rf_Namespace := "shared" |} |};
     wc_Status := no_status |}.

Definition never : nat -> option error := fun _ => None.
Definition time_string (t : Z) : string := "now".
End SimLoop.

Abbreviation sim_gate := (indexer_stage SimLoop.kube SimLoop.os_at Sites.sha Sites.pem Sites.dom SimLoop.never 50).
Abbreviation sim_reset := (reset_indexer SimLoop.kube SimLoop.os_at Sites.sha Sites.pem Sites.dom 50).
Abbreviation sim_rest := (after_indexer_gate SimWorkloads.eqv SimLoop.kube SimLoop.parts SimLoop.os_at SimLoop.wz_at
  Sites.sha Sites.pem Sites.dom SimLoop.never SimLoop.time_string true 50 false SimLoop.hashes).



(** The last shard has left the third node: the gate opens, the run goes on to
    its end, and the server is left with a drain that is Complete. *)
Example finished_drain_disarms_gate_witness :
  let r1 := (sim_gate (SimLoop.controller SimLoop.verifying)).2 in
  let r' := (deferred true sim_reset sim_rest r1).2 in
  cds_Phase <$> indexer_drain (rc_cluster r') = Some DrainPhaseIdle /\
  exists s, stored_drain (rc_cluster r') (rc_world r') = Some s /\ cds_Phase s = DrainPhaseComplete.
Proof.
  cbv zeta.
  destruct (finished_drain_disarms_gate SimWorkloads.eqv SimLoop.kube SimLoop.parts SimLoop.os_at SimLoop.wz_at
    Sites.sha Sites.pem Sites.dom SimLoop.never SimLoop.time_string true 50 false SimLoop.hashes
    (SimLoop.controller SimLoop.verifying)
    (sim_gate (SimLoop.controller SimLoop.verifying)).2
    (Some (RequeueAfter 5000000000))
    (deferred true sim_reset sim_rest (sim_gate (SimLoop.controller SimLoop.verifying)).2).2)
    as (H1 & s & H2 & H3 & _); [vm_compute; reflexivity..|]. split; [exact H1|]. exact (ex_intro _ s (conj H2 H3)).
Defined.
