(* ===== verification/RestAPI.v ===== *)
(** * The REST calls on OpenSearch resources ([internal/opensearch/api],
    [internal/adapters/opensearch_http_adapter.go])

    The bodies of the requests as JSON values, built from the Go structs as
    their tags say, and the calls for users, roles, role mappings, tenants,
    action groups, indices, templates and ISM policies.  The server is the
    interface [RestServer]; what [encoding/json] makes of a text is the
    interface [JSON]. *)
From S2P Require Import Prelude GoStrings GoFloat Kube ClientFactory.
Local Open Scope go_scope.
Local Open Scope list_scope.

(** ** JSON *)

(** Numbers are kept as their text. *)
#[warnings="-register-all"]
Inductive json : Type :=
| JNull
| JBool (b : bool)
| JNum (text : string)
| JStr (s : string)
| JArr (l : list json)
| JObj (m : gmap string json).

Definition jint (z : Z) : json := JNum (pretty z).

(** A [[]string] that may be nil, and a [map[string]any] that may be nil. *)
Abbreviation slice := (option (list string)).
Abbreviation gomap := (option (gmap string json)).

Definition elems (s : slice) : list string := default [] s.

Definition strings (s : slice) : json :=
  match s with None => JNull | Some l => JArr (JStr <$> l) end.
Definition gomap_json (m : gomap) : json := match m with None => JNull | Some m => JObj m end.

(** A struct: the fields that are there. *)
Definition object (fields : list (string * option json)) : json :=
  JObj (list_to_map (omap (fun '(k, v) => pair k <$> v) fields)).

(** [omitempty] *)
Definition omit_str (s : string) : option json := if bool_decide (s = "") then None else Some (JStr s).
Definition omit_strs (s : slice) : option json :=
  match elems s with [] => None | _ => Some (strings s) end.
Definition omit_int (z : Z) : option json := if bool_decide (z = 0) then None else Some (jint z).
Definition omit_bool (b : bool) : option json := if b then Some (JBool true) else None.
Definition omit_list {A} (f : A -> json) (l : list A) : option json :=
  match l with [] => None | _ => Some (JArr (f <$> l)) end.
Definition omit_map {A} (f : A -> json) (m : gmap string A) : option json :=
  if bool_decide (m = ∅) then None else Some (JObj (f <$> m)).
Definition omit_gomap (m : gomap) : option json := omit_map id (default ∅ m).

(** ** The server and the decoder *)

Record http_response := { hr_StatusCode : Z; hr_Body : string }.

(** A request of a client: method, path, body.  An error is one of the
    connection. *)
Class RestServer (W : Type) :=
  rest_request : ClientConfig -> string -> string -> option json -> IO W http_response.

Definition StatusOK : Z := 200.
Definition StatusCreated : Z := 201.
Definition StatusNotFound : Z := 404.

(** ** The resources ([security_api.go], [templates_api.go], [ism_api.go]) *)

Record SecurityUser := {
  su_Hash : string;
  su_Password : string;
  su_BackendRoles : slice;
  su_Attributes : gmap string string;
  su_Description : string;
  su_OpendistroSecurityRoles : slice
}.

Definition user_json (u : SecurityUser) : json :=
  object [("hash", omit_str (su_Hash u)); ("password", omit_str (su_Password u));
          ("backend_roles", omit_strs (su_BackendRoles u));
          ("attributes", omit_map JStr (su_Attributes u));
          ("description", omit_str (su_Description u));
          ("opendistro_security_roles", omit_strs (su_OpendistroSecurityRoles u))].

Record IndexPermission := {
  ip_IndexPatterns : slice;
  ip_DocumentLevelSecurity : string;
  ip_FieldLevelSecurity : slice;
  ip_MaskedFields : slice;
  ip_AllowedActions : slice
}.

Definition index_permission_json (p : IndexPermission) : json :=
  object [("index_patterns", Some (strings (ip_IndexPatterns p)));
          ("dls", omit_str (ip_DocumentLevelSecurity p)); ("fls", omit_strs (ip_FieldLevelSecurity p));
          ("masked_fields", omit_strs (ip_MaskedFields p));
          ("allowed_actions", Some (strings (ip_AllowedActions p)))].

Record TenantPermission := { tp_TenantPatterns : slice; tp_AllowedActions : slice }.

Definition tenant_permission_json (p : TenantPermission) : json :=
  object [("tenant_patterns", Some (strings (tp_TenantPatterns p)));
          ("allowed_actions", Some (strings (tp_AllowedActions p)))].

Record SecurityRole := {
  sro_Description : string;
  sro_ClusterPermissions : slice;
  sro_IndexPermissions : list IndexPermission;
  sro_TenantPermissions : list TenantPermission
}.

Definition role_json (r : SecurityRole) : json :=
  object [("description", omit_str (sro_Description r));
          ("cluster_permissions", omit_strs (sro_ClusterPermissions r));
          ("index_permissions", omit_list index_permission_json (sro_IndexPermissions r));
          ("tenant_permissions", omit_list tenant_permission_json (sro_TenantPermissions r))].

Record RoleMapping := {
  rm_Description : string;
  rm_BackendRoles : slice;
  rm_Hosts : slice;
  rm_Users : slice;
  rm_AndBackendRoles : slice
}.

Definition role_mapping_json (m : RoleMapping) : json :=
  object [("description", omit_str (rm_Description m)); ("backend_roles", omit_strs (rm_BackendRoles m));
          ("hosts", omit_strs (rm_Hosts m)); ("users", omit_strs (rm_Users m));
          ("and_backend_roles", omit_strs (rm_AndBackendRoles m))].

Record Tenant := { te_Description : string }.
Definition tenant_json (t : Tenant) : json := object [("description", omit_str (te_Description t))].

Record ActionGroup := { ag_AllowedActions : slice; ag_Type : string; ag_Description : string }.
Definition action_group_json (g : ActionGroup) : json :=
  object [("allowed_actions", omit_strs (ag_AllowedActions g)); ("type", omit_str (ag_Type g));
          ("description", omit_str (ag_Description g))].

Record AliasSpec := {
  al_Filter : gomap;
  al_IndexRouting : string;
  al_SearchRouting : string;
  al_IsWriteIndex : option bool
}.
Definition alias_json (a : AliasSpec) : json :=
  object [("filter", omit_gomap (al_Filter a)); ("index_routing", omit_str (al_IndexRouting a));
          ("search_routing", omit_str (al_SearchRouting a));
          ("is_write_index", JBool <$> al_IsWriteIndex a)].

Record TemplateSpec := {
  ts_Settings : gomap;
  ts_Mappings : gomap;
  ts_Aliases : gmap string AliasSpec
}.
Definition template_spec_json (t : TemplateSpec) : json :=
  object [("settings", omit_gomap (ts_Settings t)); ("mappings", omit_gomap (ts_Mappings t));
          ("aliases", omit_map alias_json (ts_Aliases t))].

Record IndexTemplate := {
  it_IndexPatterns : slice;
  it_Template : option TemplateSpec;
  it_ComposedOf : slice;
  it_Priority : Z
}.
Definition index_template_json (t : IndexTemplate) : json :=
  object [("index_patterns", Some (strings (it_IndexPatterns t)));
          ("template", template_spec_json <$> it_Template t);
          ("composed_of", omit_strs (it_ComposedOf t)); ("priority", omit_int (it_Priority t))].

(** [SettingsRaw], [MappingsRaw]: bytes, none being as good as nil. *)
Record ComponentTemplate := { ct_SettingsRaw : string; ct_MappingsRaw : string }.

Record ISMConditions := { ic_MinIndexAge : string; ic_MinDocCount : Z; ic_MinSize : string }.
Definition ism_conditions_json (c : ISMConditions) : json :=
  object [("min_index_age", omit_str (ic_MinIndexAge c)); ("min_doc_count", omit_int (ic_MinDocCount c));
          ("min_size", omit_str (ic_MinSize c))].

Record ISMTransition := { it_StateName : string; it_Conditions : option ISMConditions }.
Definition ism_transition_json (t : ISMTransition) : json :=
  object [("state_name", Some (JStr (it_StateName t)));
          ("conditions", ism_conditions_json <$> it_Conditions t)].

(** An action is its raw configuration. *)
Record ISMState := { is_Name : string; is_Actions : list string; is_Transitions : list ISMTransition }.
Record ISMTemplatePattern := { ip_Patterns : slice; ip_Priority : Z }.
Definition ism_pattern_json (p : ISMTemplatePattern) : json :=
  object [("index_patterns", Some (strings (ip_Patterns p))); ("priority", omit_int (ip_Priority p))].

Record ISMPolicy := {
  ip_Description : string;
  ip_DefaultState : string;
  ip_States : list ISMState;
  ip_ISMTemplate : list ISMTemplatePattern
}.

Record ISMPolicyGetResponse := { gr_SeqNo : Z; gr_PrimaryTerm : Z }.
Record SecurityHealthResponse := { sh_Status : string; sh_Mode : string }.

(** [encoding/json] on a text: [Unmarshal] into [any], and [Decode] into the
    types of the answers. *)
Class JSON := {
  unmarshal : string -> result json;
  decode_mappings : string -> result (gmap string RoleMapping);
  decode_tenants : string -> result (gmap string Tenant);
  decode_groups : string -> result (gmap string ActionGroup);
  decode_index_templates : string -> result (list IndexTemplate);
  decode_component_templates : string -> result (list ComponentTemplate);
  decode_policy : string -> result ISMPolicy;
  decode_policy_meta : string -> result ISMPolicyGetResponse;
  decode_health : string -> result SecurityHealthResponse
}.

(** ** Settings of indices ([NormalizeIndexSettings]) *)

Definition camelToSnakeSettings : gmap string string :=
  list_to_map
    [("numberOfShards", "number_of_shards"); ("numberOfReplicas", "number_of_replicas");
     ("numberOfRoutingShards", "number_of_routing_shards"); ("refreshInterval", "refresh_interval");
     ("maxResultWindow", "max_result_window"); ("autoExpandReplicas", "auto_expand_replicas")].

Definition object_fields (j : option json) : gmap string json :=
  match j with Some (JObj m) => m | _ => ∅ end.

Definition normalize_settings (settings : gmap string json) : gmap string json :=
  if bool_decide (settings = ∅) then settings
  else
    let others := delete "index" settings in
    let indexSettings :=
      map_fold (fun key value acc =>
        match camelToSnakeSettings !! key with Some snakeKey => <[snakeKey := value]> acc | None => acc end)
        (object_fields (settings !! "index")) others in
    let result := filter (fun '(key, _) => camelToSnakeSettings !! key = None) others in
    if bool_decide (indexSettings = ∅) then result else <["index" := JObj indexSettings]> result.

Definition NormalizeIndexSettings (settings : gomap) : gomap := normalize_settings <$> settings.

Section Marshal.
Context `{!JSON}.

(** [json.Unmarshal] into a [map[string]any]: [None] is an error. *)
Definition unmarshal_map (raw : string) : option gomap :=
  match unmarshal raw with
  | Ok (JObj m) => Some (Some m)
  | Ok JNull => Some None
  | _ => None
  end.

(** [ComponentTemplateSpec.MarshalJSON] *)
Definition component_template_json (t : ComponentTemplate) : json :=
  let settings :=
    if bool_decide (ct_SettingsRaw t = "") then None
    else (fun m => gomap_json (NormalizeIndexSettings m)) <$> unmarshal_map (ct_SettingsRaw t) in
  let mappings :=
    if bool_decide (ct_MappingsRaw t = "") then None
    else match unmarshal (ct_MappingsRaw t) with Ok j => Some j | Err _ => None end in
  object [("template", Some (object [("settings", settings); ("mappings", mappings)]))].

(** [ISMAction.MarshalJSON]: the raw configuration, if there is one, must be
    JSON. *)
Definition action_json (raw : string) : result json :=
  if bool_decide (raw = "") then Ok (JObj ∅) else unmarshal raw.

Fixpoint all_ok {A} (l : list (result A)) : result (list A) :=
  match l with
  | [] => Ok []
  | Err e :: _ => Err e
  | Ok a :: l => match all_ok l with Ok l => Ok (a :: l) | Err e => Err e end
  end.

Definition state_json (s : ISMState) : result json :=
  match all_ok (action_json <$> is_Actions s) with
  | Err e => Err e
  | Ok actions =>
      Ok (object [("name", Some (JStr (is_Name s))); ("actions", omit_list id actions);
                  ("transitions", omit_list ism_transition_json (is_Transitions s))])
  end.

Definition ism_policy_json (p : ISMPolicy) : result json :=
  match all_ok (state_json <$> ip_States p) with
  | Err e => Err e
  | Ok states =>
      Ok (object [("policy", Some (object
            [("description", omit_str (ip_Description p)); ("default_state", omit_str (ip_DefaultState p));
             ("states", omit_list id states);
             ("ism_template", omit_list ism_pattern_json (ip_ISMTemplate p))]))])
  end.
End Marshal.

(** ** Calls *)

(** The calls of one kind of resource: the path before the name, the words of
    the errors, whether they tell the status, and whether an error of the
    connection is put into words as well. *)
Record endpoint := { ep_path : string; ep_what : string; ep_status : bool; ep_wrap : bool }.

Definition UsersAPI : endpoint :=
  {| ep_path := "/_plugins/_security/api/internalusers/"; ep_what := "user"; ep_status := false; ep_wrap := false |}.
Definition RolesAPI : endpoint :=
  {| ep_path := "/_plugins/_security/api/roles/"; ep_what := "role"; ep_status := false; ep_wrap := false |}.
Definition IndexAPI : endpoint :=
  {| ep_path := "/"; ep_what := "index"; ep_status := false; ep_wrap := false |}.
Definition IndexSettingsAPI : endpoint :=
  {| ep_path := "/"; ep_what := "index settings"; ep_status := false; ep_wrap := false |}.
Definition RoleMappingsAPI : endpoint :=
  {| ep_path := "/_plugins/_security/api/rolesmapping/"; ep_what := "role mapping"; ep_status := false; ep_wrap := true |}.
Definition TenantsAPI : endpoint :=
  {| ep_path := "/_plugins/_security/api/tenants/"; ep_what := "tenant"; ep_status := false; ep_wrap := true |}.
Definition ActionGroupsAPI : endpoint :=
  {| ep_path := "/_plugins/_security/api/actiongroups/"; ep_what := "action group"; ep_status := false; ep_wrap := true |}.
Definition IndexTemplatesAPI : endpoint :=
  {| ep_path := "/_index_template/"; ep_what := "index template"; ep_status := true; ep_wrap := true |}.
Definition ComponentTemplatesAPI : endpoint :=
  {| ep_path := "/_component_template/"; ep_what := "component template"; ep_status := true; ep_wrap := true |}.
Definition ISMAPI : endpoint :=
  {| ep_path := "/_plugins/_ism/policies/"; ep_what := "ISM policy"; ep_status := true; ep_wrap := true |}.

Section Calls.
Context {W : Type} {RS : RestServer W} {JS : JSON}.

Definition failure (e : endpoint) (verb : string) : string := "failed to " +:+ verb +:+ " " +:+ ep_what e.

(** What the server said to a request it refused. *)
Definition refusal (e : endpoint) (resp : http_response) : error :=
  if ep_status e
  then "status " +:+ pretty (hr_StatusCode resp) +:+ ", body: " +:+ hr_Body resp
  else hr_Body resp.

Definition accepted (codes : list Z) (resp : http_response) : bool :=
  existsb (fun c => bool_decide (hr_StatusCode resp = c)) codes.

Definition call (e : endpoint) (verb method : string) (codes : list Z) (c : ClientConfig) (name : string)
    (body : option json) : IO W http_response :=
  resp <- (let m := rest_request c method (ep_path e +:+ name) body in
           if ep_wrap e then io_wrap (failure e verb) m else m) ;;
  if accepted codes resp then io_ret resp else io_err (errorf (failure e verb) (refusal e resp)).

Definition create (e : endpoint) (c : ClientConfig) (name : string) (body : json) : IO W unit :=
  call e "create" "PUT" [StatusOK; StatusCreated] c name (Some body) ;;; io_ret tt.

Definition delete_at (e : endpoint) (c : ClientConfig) (name : string) : IO W unit :=
  call e "delete" "DELETE" [StatusOK; StatusNotFound] c name None ;;; io_ret tt.

(** The decoded answer, unless there is nothing. *)
Definition get_at {A} (e : endpoint) (decode : string -> result A) (c : ClientConfig) (name : string)
    : IO W (option A) :=
  resp <- call e "get" "GET" [StatusOK; StatusNotFound] c name None ;;
  if bool_decide (hr_StatusCode resp = StatusNotFound) then io_ret None
  else match decode (hr_Body resp) with
       | Ok a => io_ret (Some a)
       | Err err => io_err (errorf ("failed to decode " +:+ ep_what e) err)
       end.

(** *** Security *)
Definition CreateUser c username u := create UsersAPI c username (user_json u).
Definition DeleteUser c username := delete_at UsersAPI c username.
Definition CreateRole c roleName r := create RolesAPI c roleName (role_json r).
Definition DeleteRole c roleName := delete_at RolesAPI c roleName.

Definition named {A} (name : string) (o : option (gmap string A)) : option A := m ← o; m !! name.

Definition GetRoleMapping c name : IO W (option RoleMapping) :=
  m <- get_at RoleMappingsAPI decode_mappings c name ;; io_ret (named name m).
Definition CreateRoleMapping c name m := create RoleMappingsAPI c name (role_mapping_json m).
Definition DeleteRoleMapping c name := delete_at RoleMappingsAPI c name.

Definition GetTenant c name : IO W (option Tenant) :=
  m <- get_at TenantsAPI decode_tenants c name ;; io_ret (named name m).
Definition CreateTenant c name t := create TenantsAPI c name (tenant_json t).
Definition DeleteTenant c name := delete_at TenantsAPI c name.

Definition GetActionGroup c name : IO W (option ActionGroup) :=
  m <- get_at ActionGroupsAPI decode_groups c name ;; io_ret (named name m).
Definition CreateActionGroup c name g := create ActionGroupsAPI c name (action_group_json g).
Definition DeleteActionGroup c name := delete_at ActionGroupsAPI c name.

(** *** Templates *)
Definition GetIndexTemplate c name : IO W (option IndexTemplate) :=
  l <- get_at IndexTemplatesAPI decode_index_templates c name ;; io_ret (l ≫= head).
Definition IndexTemplateExists c name : IO W bool :=
  t <- GetIndexTemplate c name ;; io_ret (is_some t).
Definition CreateIndexTemplate c name t := create IndexTemplatesAPI c name (index_template_json t).
Definition DeleteIndexTemplate c name := delete_at IndexTemplatesAPI c name.

Definition GetComponentTemplate c name : IO W (option ComponentTemplate) :=
  l <- get_at ComponentTemplatesAPI decode_component_templates c name ;; io_ret (l ≫= head).
Definition ComponentTemplateExists c name : IO W bool :=
  t <- GetComponentTemplate c name ;; io_ret (is_some t).
Definition CreateComponentTemplate c name t := create ComponentTemplatesAPI c name (component_template_json t).
Definition DeleteComponentTemplate c name := delete_at ComponentTemplatesAPI c name.

(** *** Indices *)
Definition IndexExists (c : ClientConfig) (indexName : string) : IO W bool :=
  resp <- rest_request c "HEAD" (ep_path IndexAPI +:+ indexName) None ;;
  io_ret (bool_decide (hr_StatusCode resp = StatusOK)).
Definition CreateIndex c indexName (settings : gmap string json) := create IndexAPI c indexName (JObj settings).
Definition UpdateIndexSettings (c : ClientConfig) (indexName : string) (settings : gmap string json) : IO W unit :=
  call IndexSettingsAPI "update" "PUT" [StatusOK] c (indexName +:+ "/_settings") (Some (JObj settings)) ;;;
  io_ret tt.
Definition DeleteIndex c indexName := delete_at IndexAPI c indexName.

(** *** ISM policies *)
Definition Exists c policyID : IO W bool :=
  p <- get_at ISMAPI decode_policy c policyID ;; io_ret (is_some p).
Definition GetWithMeta c policyID : IO W (option ISMPolicyGetResponse) := get_at ISMAPI decode_policy_meta c policyID.

(** A body that cannot be marshalled is never sent. *)
Definition with_policy {A} (verb : string) (policy : ISMPolicy) (send : json -> IO W A) : IO W A :=
  match ism_policy_json policy with
  | Ok body => send body
  | Err e => io_err (errorf (failure ISMAPI verb) (errorf "failed to marshal request body" e))
  end.
Definition CreatePolicy (c : ClientConfig) (policyID : string) (policy : ISMPolicy) : IO W unit :=
  with_policy "create" policy (create ISMAPI c policyID).
Definition UpdatePolicy (c : ClientConfig) (policyID : string) (policy : ISMPolicy) (seqNo primaryTerm : Z) : IO W unit :=
  with_policy "update" policy (fun body =>
    call ISMAPI "update" "PUT" [StatusOK] c
      (policyID +:+ "?if_seq_no=" +:+ pretty seqNo +:+ "&if_primary_term=" +:+ pretty primaryTerm) (Some body) ;;;
    io_ret tt).
Definition DeletePolicy c policyID := delete_at ISMAPI c policyID.
End Calls.

(** ** Lemmas *)
Section Lemmas.
Context {W : Type} {RS : RestServer W} {JS : JSON}.

(** A call that succeeded sent one request, and the server accepted it. *)
Lemma rest_call_ok e verb method codes c name body (w : W) resp w' :
  call e verb method codes c name body w = (Ok resp, w') <->
  rest_request c method (ep_path e +:+ name) body w = (Ok resp, w') /\ accepted codes resp = true.
Proof.
  unfold call. rewrite io_bind_ok. split.
  - intros (r & w1 & H & Ha). destruct (accepted codes r) eqn:E; [|done]. unfold io_ret in Ha. simplify_eq.
    split; [|done]. destruct (ep_wrap e); [by apply io_wrap_ok in H|done].
  - intros [H Ha]. exists resp, w'. rewrite Ha. split; [|done]. destruct (ep_wrap e); [by apply io_wrap_ok|done].
Qed.

Definition put_accepted (e : endpoint) (c : ClientConfig) (name : string) (body : json) (w w' : W) : Prop :=
  exists resp, rest_request c "PUT" (ep_path e +:+ name) (Some body) w = (Ok resp, w') /\
    accepted [StatusOK; StatusCreated] resp = true.

Lemma create_ok e c name body (w : W) u w' :
  create e c name body w = (Ok u, w') <-> put_accepted e c name body w w'.
Proof.
  unfold create. rewrite io_bind_ok. destruct u. split.
  - intros (resp & w1 & H%rest_call_ok & Hr). unfold io_ret in Hr. simplify_eq. by exists resp.
  - intros (resp & H). exists resp, w'. split; [by apply rest_call_ok|done].
Qed.
End Lemmas.

(** *** Fields of a body *)

Definition field (k : string) (body : json) : option json := object_fields (Some body) !! k.

Fixpoint field_in (k : string) (l : list (string * option json)) : option json :=
  match l with
  | [] => None
  | (k', v) :: l =>
      if String.eqb k' k then match v with Some v => Some v | None => field_in k l end else field_in k l
  end.

Lemma field_object k l : field k (object l) = field_in k l.
Proof.
  unfold field, object, object_fields. induction l as [|[k' v] l IH]; [apply lookup_empty|].
  cbn [field_in omap list_omap]. destruct (String.eqb_spec k' k) as [->|Hne].
  - destruct v as [v|]; [apply lookup_insert_eq|exact IH].
  - destruct v as [v|]; [|exact IH]. etrans; [by apply lookup_insert_ne|exact IH].
Qed.

(** *** Settings *)

(** No two settings are spelled the same under ["index"], and the spelling used
    there is not the name of a setting itself. *)
Lemma snake_inj k k' s :
  camelToSnakeSettings !! k = Some s -> camelToSnakeSettings !! k' = Some s -> k = k'.
Proof.
  unfold camelToSnakeSettings.
  intros H1%elem_of_list_to_map_2%list_elem_of_In H2%elem_of_list_to_map_2%list_elem_of_In.
  cbn in H1, H2. intuition congruence.
Qed.

Lemma snake_fixed k s : camelToSnakeSettings !! k = Some s -> camelToSnakeSettings !! s = None /\ k <> "index".
Proof.
  unfold camelToSnakeSettings at 1. intros Hk%elem_of_list_to_map_2%list_elem_of_In. cbn in Hk.
  repeat destruct Hk as [Hk|Hk]; simplify_eq; split; done.
Qed.

Definition into_index (existing others : gmap string json) : gmap string json :=
  map_fold (fun key value acc =>
    match camelToSnakeSettings !! key with Some snakeKey => <[snakeKey := value]> acc | None => acc end)
    existing others.

Lemma into_index_spec existing others s :
  (forall k v, camelToSnakeSettings !! k = Some s -> others !! k = Some v -> into_index existing others !! s = Some v) /\
  ((forall k, camelToSnakeSettings !! k = Some s -> others !! k = None) ->
   into_index existing others !! s = existing !! s).
Proof.
  unfold into_index. revert others.
  apply (map_fold_weak_ind (fun acc m =>
    (forall k v, camelToSnakeSettings !! k = Some s -> m !! k = Some v -> acc !! s = Some v) /\
    ((forall k, camelToSnakeSettings !! k = Some s -> m !! k = None) -> acc !! s = existing !! s))).
  { split; [intros k v _; by rewrite lookup_empty|done]. }
  intros i x m acc Hi [IH1 IH2]. split.
  - intros k v Hk. rewrite lookup_insert_Some. intros [[-> ->]|[Hne Hv]].
    + rewrite Hk. apply lookup_insert_eq.
    + destruct (camelToSnakeSettings !! i) as [s'|] eqn:Es; [|by eapply IH1].
      rewrite lookup_insert_ne; [by eapply IH1|]. intros ->. by apply Hne, (snake_inj _ _ s).
  - intros Hno. destruct (camelToSnakeSettings !! i) as [s'|] eqn:Es.
    + destruct (decide (s' = s)) as [->|Hne].
      * specialize (Hno i Es). by rewrite lookup_insert_eq in Hno.
      * rewrite lookup_insert_ne by done. apply IH2. intros k Hk.
        destruct (decide (i = k)) as [->|Hik]; [done|]. specialize (Hno k Hk). by rewrite lookup_insert_ne in Hno.
    + apply IH2. intros k Hk. destruct (decide (i = k)) as [->|Hik]; [by rewrite Es in Hk|].
      specialize (Hno k Hk). by rewrite lookup_insert_ne in Hno.
Qed.

Lemma normalize_eq m : m <> ∅ ->
  normalize_settings m =
    (let ix := into_index (object_fields (m !! "index")) (delete "index" m) in
     let rest := filter (fun '(key, _) => camelToSnakeSettings !! key = None) (delete "index" m) in
     if bool_decide (ix = ∅) then rest else <["index" := JObj ix]> rest).
Proof. intros Hm. unfold normalize_settings. by rewrite bool_decide_false. Qed.

(** What the normalised settings say under ["index"] and beside it. *)
Lemma normalize_at_index m :
  normalize_settings m !! "index" =
    (let ix := into_index (object_fields (m !! "index")) (delete "index" m) in
     if bool_decide (ix = ∅) then None else Some (JObj ix)).
Proof.
  destruct (decide (m = ∅)) as [->|Hm]; [done|]. rewrite normalize_eq by done. cbv zeta.
  destruct (bool_decide _); [|apply lookup_insert_eq].
  apply map_lookup_filter_None_2. left. apply lookup_delete_eq.
Qed.

Lemma normalize_index m :
  object_fields (normalize_settings m !! "index") = into_index (object_fields (m !! "index")) (delete "index" m).
Proof. rewrite normalize_at_index. cbv zeta. by case_bool_decide as E; [rewrite E|]. Qed.

Lemma normalize_beside m k : k <> "index" ->
  normalize_settings m !! k = match camelToSnakeSettings !! k with Some _ => None | None => m !! k end.
Proof.
  intros Hk. destruct (decide (m = ∅)) as [->|Hm].
  { unfold normalize_settings. rewrite bool_decide_true by done. rewrite lookup_empty. by destruct (_ !! k). }
  rewrite normalize_eq by done. cbv zeta.
  assert (H : filter (fun '(key, _) => camelToSnakeSettings !! key = None) (delete "index" m) !! k =
              match camelToSnakeSettings !! k with Some _ => None | None => m !! k end).
  { destruct (camelToSnakeSettings !! k) as [s|] eqn:Es.
    - apply map_lookup_filter_None_2. right. intros v _ Hv. by rewrite Es in Hv.
    - destruct (m !! k) as [v|] eqn:Ev.
      + apply map_lookup_filter_Some_2; [by rewrite lookup_delete_ne|exact Es].
      + apply map_lookup_filter_None_2. left. by rewrite lookup_delete_ne. }
  destruct (bool_decide _); [done|]. by rewrite lookup_insert_ne.
Qed.

Lemma normalize_idempotent m : normalize_settings (normalize_settings m) = normalize_settings m.
Proof.
  apply map_eq. intros k. destruct (decide (k = "index")) as [->|Hk].
  - rewrite normalize_at_index. cbv zeta.
    replace (into_index _ _) with (object_fields (normalize_settings m !! "index")).
    + rewrite normalize_index, normalize_at_index. done.
    + apply map_eq. intros s. symmetry. apply into_index_spec. intros k Hk.
      destruct (snake_fixed _ _ Hk) as [_ Hne]. rewrite lookup_delete_ne, normalize_beside by done. by rewrite Hk.
  - rewrite !normalize_beside by done. by destruct (camelToSnakeSettings !! k).
Qed.

(** the settings of a template are put where OpenSearch looks for them,
    without losing or inventing any: a known name in camel case disappears from
    the top level and its value is found under ["index"] in snake case, where
    it wins over a value that is already there; everything else stays; and
    normalising once is enough. *)
Theorem settings_normalized m :
  let n := normalize_settings m in
  let under settings := object_fields (settings !! "index") in
  (forall k s, camelToSnakeSettings !! k = Some s ->
     n !! k = None /\ under n !! s = match m !! k with Some v => Some v | None => under m !! s end) /\
  (forall k, camelToSnakeSettings !! k = None -> k <> "index" -> n !! k = m !! k) /\
  (forall s, (forall k, camelToSnakeSettings !! k <> Some s) -> under n !! s = under m !! s) /\
  normalize_settings n = n.
Proof.
  cbv zeta. split_and!.
  - intros k s Hk. destruct (snake_fixed _ _ Hk) as [_ Hne]. split; [by rewrite normalize_beside, Hk|].
    rewrite normalize_index. destruct (into_index_spec (object_fields (m !! "index")) (delete "index" m) s) as [H1 H2].
    destruct (m !! k) as [v|] eqn:Ev.
    + apply (H1 k); [done|]. by rewrite lookup_delete_ne.
    + apply H2. intros k' Hk'. rewrite (snake_inj _ _ _ Hk' Hk). by rewrite lookup_delete_ne.
  - intros k Hk Hne. by rewrite normalize_beside, Hk.
  - intros s Hs. rewrite normalize_index. apply into_index_spec. intros k Hk. by destruct (Hs k).
  - apply normalize_idempotent.
Qed.
