(* ===== verification/OSResources.v ===== *)
(** * Users, roles, tenants, templates, policies: the OpenSearch resources
    ([internal/opensearch/reconciler], [controllers/opensearch*_controller.go])

    Each kind of resource has a reconciler of its own that pushes the
    specification to the cluster it refers to and records the result.  Their
    common frame, the finalizer, the deletion, the hash of the specification
    and the status, is written once ([reconcile_resource]); what is sent, and
    what is recorded of a failure, is the kind's own. *)
From Stdlib Require Import Ascii.
From S2P Require Import Prelude GoStrings GoFloat Kube Cluster ClientFactory ScaleDown RestAPI.
Local Open Scope go_scope.
Local Open Scope list_scope.

(** ** The resources ([api/v1]) *)

Record WazuhClusterReference := { cref_Name : string; cref_Namespace : string }.

Definition OpenSearchResourcePhaseReady : string := "Ready".
Definition OpenSearchResourcePhaseFailed : string := "Failed".

(** The status is the same for every kind. *)
Record ResourceStatus := {
  rst_Phase : string;
  rst_Message : string;
  rst_LastSyncTime : option Z;
  rst_ObservedGeneration : Z;
  rst_LastAppliedHash : string;
  rst_DriftDetected : bool;
  rst_LastDriftTime : option Z
}.

Record resource (Spec : Type) := {
  res_Name : string;
  res_Namespace : string;
  res_Meta : ObjectMeta;
  res_CreationTimestamp : Z;
  res_Spec : Spec;
  res_Status : ResourceStatus
}.
Arguments res_Name {Spec}.
Arguments res_Namespace {Spec}.
Arguments res_Meta {Spec}.
Arguments res_CreationTimestamp {Spec}.
Arguments res_Spec {Spec}.
Arguments res_Status {Spec}.

Definition set_resource_meta {Spec} (m : ObjectMeta) (r : resource Spec) : resource Spec :=
  {| res_Name := res_Name r; res_Namespace := res_Namespace r; res_Meta := m;
     res_CreationTimestamp := res_CreationTimestamp r; res_Spec := res_Spec r; res_Status := res_Status r |}.

Definition set_resource_status {Spec} (s : ResourceStatus) (r : resource Spec) : resource Spec :=
  {| res_Name := res_Name r; res_Namespace := res_Namespace r; res_Meta := res_Meta r;
     res_CreationTimestamp := res_CreationTimestamp r; res_Spec := res_Spec r; res_Status := s |}.

Class Referring (Spec : Type) := ClusterRef : Spec -> WazuhClusterReference.

Record OpenSearchUserSpec := {
  us_ClusterRef : WazuhClusterReference;
  us_DefaultAdmin : bool;
  us_PasswordSecret : option CredentialsSecretRef;
  us_Hash : string;
  us_BackendRoles : slice;
  us_OpenSearchRoles : slice;
  us_Attributes : gmap string string;
  us_Description : string
}.

Record RoleIndexPermission := {
  rp_IndexPatterns : slice;
  rp_AllowedActions : slice;
  rp_DLS : string;
  rp_FLS : slice;
  rp_MaskedFields : slice
}.
Record RoleTenantPermission := { rt_TenantPatterns : slice; rt_AllowedActions : slice }.

Record OpenSearchRoleSpec := {
  ro_ClusterRef : WazuhClusterReference;
  ro_ClusterPermissions : slice;
  ro_IndexPermissions : list RoleIndexPermission;
  ro_TenantPermissions : list RoleTenantPermission;
  ro_Description : string
}.

Record OpenSearchRoleMappingSpec := {
  ma_ClusterRef : WazuhClusterReference;
  ma_Users : slice;
  ma_BackendRoles : slice;
  ma_Hosts : slice;
  ma_AndBackendRoles : slice;
  ma_Description : string
}.

Record OpenSearchTenantSpec := { tn_ClusterRef : WazuhClusterReference; tn_Description : string }.

Record OpenSearchActionGroupSpec := {
  gs_ClusterRef : WazuhClusterReference;
  gs_AllowedActions : slice;
  gs_Type : string;
  gs_Description : string
}.

(** A [runtime.RawExtension] is its text, when there is one. *)
Abbreviation raw := (option string).

Record IndexSettings := {
  xs_NumberOfShards : option Z;
  xs_NumberOfReplicas : option Z;
  xs_RefreshInterval : string;
  xs_Codec : string;
  xs_Custom : raw
}.
Record IndexMappings := { xm_Properties : raw; xm_Dynamic : string }.
Record OpenSearchIndexAlias := { xa_Name : string; xa_Filter : raw; xa_Routing : string; xa_IsWriteIndex : bool }.
Record OpenSearchIndexSpec := {
  xi_ClusterRef : WazuhClusterReference;
  xi_Settings : option IndexSettings;
  xi_Mappings : option IndexMappings;
  xi_Aliases : list OpenSearchIndexAlias
}.

Record IndexAlias := {
  ia_Filter : raw;
  ia_IndexRouting : string;
  ia_SearchRouting : string;
  ia_IsWriteIndex : option bool
}.
Record TemplateBody := {
  tb_Settings : raw;
  tb_Mappings : raw;
  tb_Aliases : gmap string IndexAlias
}.
Record OpenSearchIndexTemplateSpec := {
  tm_ClusterRef : WazuhClusterReference;
  tm_IndexPatterns : slice;
  tm_Template : option TemplateBody;
  tm_ComposedOf : slice;
  tm_Priority : Z;
  tm_Version : Z;
  tm_Metadata : raw;
  (** [DataStream.Hidden], when there is a data stream *)
  tm_DataStream : option bool
}.
Record OpenSearchComponentTemplateSpec := {
  cm_ClusterRef : WazuhClusterReference;
  cm_Template : TemplateBody;
  cm_Version : Z;
  cm_Metadata : raw
}.

Record ISMRetryConfig := { ir_Count : Z; ir_Backoff : string; ir_Delay : string }.
Record ISMActionSpec := { act_Config : raw; act_Timeout : string; act_Retry : option ISMRetryConfig }.
Record CronCondition := { cron_Expression : string; cron_Timezone : string }.
Record ISMTransitionConditions := {
  tc_MinIndexAge : string;
  tc_MinDocCount : Z;
  tc_MinSize : string;
  tc_Cron : option CronCondition
}.
Record ISMTransitionSpec := { tr_StateName : string; tr_Conditions : option ISMTransitionConditions }.
Record ISMStateSpec := {
  st_Name : string;
  st_Actions : list ISMActionSpec;
  st_Transitions : list ISMTransitionSpec
}.
Record ISMTemplateConfig := { tc_IndexPatterns : slice; tc_Priority : Z }.
Record OpenSearchISMPolicySpec := {
  po_ClusterRef : WazuhClusterReference;
  po_Description : string;
  po_DefaultState : string;
  po_States : list ISMStateSpec;
  po_ISMTemplate : list ISMTemplateConfig
}.

#[export] Instance user_referring : Referring OpenSearchUserSpec := us_ClusterRef.
#[export] Instance role_referring : Referring OpenSearchRoleSpec := ro_ClusterRef.
#[export] Instance mapping_referring : Referring OpenSearchRoleMappingSpec := ma_ClusterRef.
#[export] Instance tenant_referring : Referring OpenSearchTenantSpec := tn_ClusterRef.
#[export] Instance group_referring : Referring OpenSearchActionGroupSpec := gs_ClusterRef.
#[export] Instance index_referring : Referring OpenSearchIndexSpec := xi_ClusterRef.
#[export] Instance template_referring : Referring OpenSearchIndexTemplateSpec := tm_ClusterRef.
#[export] Instance component_referring : Referring OpenSearchComponentTemplateSpec := cm_ClusterRef.
#[export] Instance policy_referring : Referring OpenSearchISMPolicySpec := po_ClusterRef.

(** The API server for one kind: an update answers with the object as it is
    stored. *)
Class ResourceClient (W Spec : Type) := {
  get_resource : string -> string -> API W (resource Spec);
  list_resources : string -> API W (list (resource Spec));
  update_resource : resource Spec -> API W (resource Spec);
  update_resource_status : resource Spec -> API W (resource Spec)
}.

(** ** What is sent *)
Section Bodies.
Context `{!JSON}.

Definition buildRole (s : OpenSearchRoleSpec) : SecurityRole :=
  {| sro_Description := ro_Description s; sro_ClusterPermissions := ro_ClusterPermissions s;
     sro_IndexPermissions :=
       (fun perm => {| ip_IndexPatterns := rp_IndexPatterns perm; ip_DocumentLevelSecurity := "";
                       ip_FieldLevelSecurity := None; ip_MaskedFields := None;
                       ip_AllowedActions := rp_AllowedActions perm |}) <$> ro_IndexPermissions s;
     sro_TenantPermissions :=
       (fun perm => {| tp_TenantPatterns := rt_TenantPatterns perm;
                       tp_AllowedActions := rt_AllowedActions perm |}) <$> ro_TenantPermissions s |}.

(** The user that is sent, with what [getPassword] gave. *)
Definition build_user (s : OpenSearchUserSpec) (password : string) : SecurityUser :=
  {| su_Hash := ""; su_Password := password; su_BackendRoles := us_BackendRoles s;
     su_Attributes := us_Attributes s; su_Description := us_Description s;
     su_OpendistroSecurityRoles := us_OpenSearchRoles s |}.

Definition buildRoleMapping (s : OpenSearchRoleMappingSpec) : RoleMapping :=
  {| rm_Description := ma_Description s; rm_BackendRoles := ma_BackendRoles s; rm_Hosts := ma_Hosts s;
     rm_Users := ma_Users s; rm_AndBackendRoles := ma_AndBackendRoles s |}.

Definition buildTenant (s : OpenSearchTenantSpec) : Tenant := {| te_Description := tn_Description s |}.

Definition buildActionGroup (s : OpenSearchActionGroupSpec) : ActionGroup :=
  {| ag_AllowedActions := gs_AllowedActions s; ag_Type := gs_Type s; ag_Description := gs_Description s |}.

(** [json.Unmarshal] of a [RawExtension] into a map; an error leaves it nil. *)
Definition raw_map (r : raw) : gomap := text ← r; default None (unmarshal_map text).

Definition buildIndexTemplate (s : OpenSearchIndexTemplateSpec) : IndexTemplate :=
  {| it_IndexPatterns := tm_IndexPatterns s;
     it_Template :=
       (fun t =>
          {| ts_Settings := NormalizeIndexSettings (raw_map (tb_Settings t));
             ts_Mappings := raw_map (tb_Mappings t);
             ts_Aliases :=
               (fun a => {| al_Filter := raw_map (ia_Filter a); al_IndexRouting := ia_IndexRouting a;
                            al_SearchRouting := ia_SearchRouting a; al_IsWriteIndex := ia_IsWriteIndex a |})
               <$> tb_Aliases t |}) <$> tm_Template s;
     it_ComposedOf := tm_ComposedOf s; it_Priority := tm_Priority s |}.

Definition buildComponentTemplate (s : OpenSearchComponentTemplateSpec) : ComponentTemplate :=
  {| ct_SettingsRaw := default "" (tb_Settings (cm_Template s));
     ct_MappingsRaw := default "" (tb_Mappings (cm_Template s)) |}.

Definition buildISMPolicy (s : OpenSearchISMPolicySpec) : ISMPolicy :=
  {| ip_Description := po_Description s; ip_DefaultState := po_DefaultState s;
     ip_States :=
       (fun state =>
          {| is_Name := st_Name state;
             is_Actions := (fun action => default "" (act_Config action)) <$> st_Actions state;
             is_Transitions :=
               (fun t => {| it_StateName := tr_StateName t;
                            it_Conditions :=
                              (fun c => {| ic_MinIndexAge := tc_MinIndexAge c; ic_MinDocCount := tc_MinDocCount c;
                                           ic_MinSize := tc_MinSize c |}) <$> tr_Conditions t |})
               <$> st_Transitions state |}) <$> po_States s;
     ip_ISMTemplate :=
       (fun t => {| ip_Patterns := tc_IndexPatterns t; ip_Priority := tc_Priority t |}) <$> po_ISMTemplate s |}.

Definition index_settings (shards replicas : option Z) : gmap string json :=
  object_fields (Some (object [("number_of_shards", jint <$> shards); ("number_of_replicas", jint <$> replicas)])).

Definition buildIndexSettings (s : OpenSearchIndexSpec) : gmap string json :=
  let indexSettings := match xi_Settings s with
                       | Some x => index_settings (xs_NumberOfShards x) (xs_NumberOfReplicas x)
                       | None => ∅
                       end in
  if bool_decide (indexSettings = ∅) then ∅
  else {["settings" := JObj {["index" := JObj indexSettings]}]}.

Definition buildDynamicSettings (s : OpenSearchIndexSpec) : gmap string json :=
  let indexSettings := match xi_Settings s with
                       | Some x => index_settings None (xs_NumberOfReplicas x)
                       | None => ∅
                       end in
  if bool_decide (indexSettings = ∅) then ∅ else {["index" := JObj indexSettings]}.
End Bodies.

(** ** Clients for a reference ([client_factory.go]) *)
Section Reconcilers.
Context {W : Type} `{!KubeClient W, !ClusterClient W} {RS : RestServer W} {JS : JSON}.
Context (sha256_hex : string -> string) (pem_ok : string -> bool) (clusterDomain : string).

Definition referenced_cluster (namespace name : string) : @FIO W WazuhCluster :=
  io_wrap ("failed to get WazuhCluster " +:+ namespace +:+ "/" +:+ name)
    (io_world (io_api (get_cluster namespace name))).

Definition GetClient (namespace name : string) : @FIO W ClientConfig :=
  cluster <- referenced_cluster namespace name ;;
  GetClientForCluster sha256_hex pem_ok clusterDomain cluster.

Definition ref_namespace (ref : WazuhClusterReference) (resourceNamespace : string) : string :=
  if bool_decide (cref_Namespace ref = "") then resourceNamespace else cref_Namespace ref.

Definition GetClientForRef (ref : WazuhClusterReference) (resourceNamespace : string) : @FIO W ClientConfig :=
  GetClient (ref_namespace ref resourceNamespace) (cref_Name ref).

Definition GetConnectionInfo (ref : WazuhClusterReference) (resourceNamespace : string) : @FIO W ClientConfig :=
  cluster <- referenced_cluster (ref_namespace ref resourceNamespace) (cref_Name ref) ;;
  creds <- io_wrap "failed to get credentials" (getCredentials cluster) ;;
  caCert <- io_wrap "failed to get CA certificate" (getCACertificate cluster) ;;
  io_ret (client_config clusterDomain cluster creds.1 creds.2 caCert).

(** ** The frame *)
Section Frame.
Context {Spec : Type} `{!Referring Spec, !ResourceClient W Spec}.
(** The canonical JSON of a specification. *)
Context (canonical : Spec -> result string).

(** [patch.ComputeSpecHash] *)
Definition ComputeSpecHash (s : Spec) : result string :=
  match canonical s with
  | Ok data => Ok (String.substring 0 16 (sha256_hex data))
  | Err e => Err e
  end.

Definition record_hash (now : Z) (s : Spec) (st : ResourceStatus) : ResourceStatus :=
  let hash := ComputeSpecHash s in
  let last := rst_LastAppliedHash st in
  let drift := match hash with
               | Ok h => negb (bool_decide (last = "")) && negb (bool_decide (last = h))
               | Err _ => false
               end in
  {| rst_Phase := rst_Phase st; rst_Message := rst_Message st; rst_LastSyncTime := rst_LastSyncTime st;
     rst_ObservedGeneration := rst_ObservedGeneration st;
     rst_LastAppliedHash := match hash with Ok h => h | Err _ => last end;
     rst_DriftDetected := drift;
     rst_LastDriftTime := if drift then Some now else rst_LastDriftTime st |}.

Definition with_result (now : Z) (phase message : string) (st : ResourceStatus) : ResourceStatus :=
  {| rst_Phase := phase; rst_Message := message; rst_LastSyncTime := Some now;
     rst_ObservedGeneration := rst_ObservedGeneration st; rst_LastAppliedHash := rst_LastAppliedHash st;
     rst_DriftDetected := rst_DriftDetected st; rst_LastDriftTime := rst_LastDriftTime st |}.

Definition on_server {A} (m : API W A) : @FIO W A := io_world (io_api m).

Definition updateStatus (now : Z) (phase message : string) (r : resource Spec) : @FIO W unit :=
  on_server (update_resource_status (set_resource_status (with_result now phase message (res_Status r)) r)) ;;;
  io_ret tt.

(** A reconciler of one kind: how it synchronises and what it deletes. *)
Record kind := {
  k_Finalizer : string;
  k_ready : string;
  k_sync : Z -> resource Spec -> @FIO W unit;
  k_delete : resource Spec -> @FIO W unit
}.

Definition has_finalizer (f : string) (r : resource Spec) : bool := bool_decide (f ∈ om_Finalizers (res_Meta r)).
Definition with_finalizer_list (l : list string) (r : resource Spec) : resource Spec :=
  set_resource_meta {| om_Generation := om_Generation (res_Meta r); om_Deleting := om_Deleting (res_Meta r);
                       om_Finalizers := l |} r.
Definition add_finalizer_to (f : string) (r : resource Spec) : resource Spec :=
  if has_finalizer f r then r else with_finalizer_list (om_Finalizers (res_Meta r) ++ [f]) r.
Definition remove_finalizer_from (f : string) (r : resource Spec) : resource Spec :=
  with_finalizer_list (List.filter (fun g => negb (bool_decide (g = f))) (om_Finalizers (res_Meta r))) r.

Definition handleDeletion (k : kind) (r : resource Spec) : @FIO W unit :=
  try deleted <- k_delete k r ;;
  on_server (update_resource (remove_finalizer_from (k_Finalizer k) r)) ;;; io_ret tt.

Definition reconcile_resource (k : kind) (now : Z) (r : resource Spec) : @FIO W unit :=
  r <- (if has_finalizer (k_Finalizer k) r then io_ret r
        else io_wrap "failed to add finalizer" (on_server (update_resource (add_finalizer_to (k_Finalizer k) r)))) ;;
  if om_Deleting (res_Meta r) then handleDeletion k r
  else
    k_sync k now r ;;;
    io_wrap "failed to update status"
      (updateStatus now OpenSearchResourcePhaseReady (k_ready k)
         (set_resource_status (record_hash now (res_Spec r) (res_Status r)) r)).

(** The controller of the kind: [ctrl.Result] is always empty. *)
Definition reconcile_request (k : kind) (now : Z) (namespace name : string) : @FIO W unit :=
  got <- io_world (io_outcome (get_resource namespace name)) ;;
  match got with
  | Found r => reconcile_resource k now r
  | Failed e => if IsNotFound e then io_ret tt else io_err (api_message e)
  end.

(** *** Steps that several kinds share *)

(** [getOpenSearchClient], and the one line that replaces it *)
Definition adapter_for (r : resource Spec) : @FIO W ClientConfig :=
  config <- io_wrap "failed to get connection info"
              (GetConnectionInfo (ClusterRef (res_Spec r)) (res_Namespace r)) ;;
  match NewClient pem_ok config with Ok c => io_ret c | Err e => io_err e end.

Definition client_for (r : resource Spec) : @FIO W ClientConfig :=
  GetClientForRef (ClusterRef (res_Spec r)) (res_Namespace r).

(** A failure is written to the status, if it can be, and returned. *)
Definition reporting {A} (now : Z) (r : resource Spec) (message context : string) (m : @FIO W A) : @FIO W A :=
  try x <- m ;;
  match x with
  | Ok a => io_ret a
  | Err e =>
      try written <- updateStatus now OpenSearchResourcePhaseFailed (errorf message e) r ;;
      io_err (errorf context e)
  end.

(** Is it there?  Then create or update it: the words of the status, of the
    error of the check, and of the error of the request. *)
Definition create_or_update (word check_word put_word : string)
    (exists_at : ClientConfig -> string -> IO W bool) (put : ClientConfig -> string -> IO W unit)
    (now : Z) (r : resource Spec) : @FIO W unit :=
  c <- io_wrap "failed to get OpenSearch client" (client_for r) ;;
  existing <- reporting now r ("Failed to check " +:+ word +:+ " existence")
                ("failed to check " +:+ check_word +:+ " existence") (io_world (exists_at c (res_Name r))) ;;
  let action := if existing : bool then "update" else "create" in
  reporting now r ("Failed to " +:+ action +:+ " " +:+ word) ("failed to " +:+ action +:+ " " +:+ put_word)
    (io_world (put c (res_Name r))).

(** Without a client there is nothing to delete. *)
Definition delete_with_client (word : string) (delete : ClientConfig -> string -> IO W unit)
    (r : resource Spec) : @FIO W unit :=
  try client <- client_for r ;;
  match client with
  | Err _ => io_ret tt
  | Ok c => io_wrap ("failed to delete " +:+ word) (io_world (delete c (res_Name r)))
  end.
End Frame.

(** ** The kinds *)
Context `{!ResourceClient W OpenSearchRoleMappingSpec, !ResourceClient W OpenSearchTenantSpec}.
Context `{!ResourceClient W OpenSearchActionGroupSpec, !ResourceClient W OpenSearchIndexTemplateSpec}.
Context `{!ResourceClient W OpenSearchComponentTemplateSpec, !ResourceClient W OpenSearchISMPolicySpec}.

Definition is_there {A} (get : ClientConfig -> string -> IO W (option A)) (c : ClientConfig) (name : string)
    : IO W bool := o <- get c name ;; io_ret (is_some o).

(** *** Users *)
Definition getPassword (user : resource OpenSearchUserSpec) : @FIO W string :=
  let spec := res_Spec user in
  if negb (bool_decide (us_Hash spec = "")) then io_ret (us_Hash spec)
  else match us_PasswordSecret spec with
       | None => io_err "password secret reference not specified and no hash provided"
       | Some ref =>
           secret <- io_wrap "failed to get password secret"
                       (io_world (io_api (get_secret (res_Namespace user) (cr_SecretName ref)))) ;;
           let key := if bool_decide (cr_PasswordKey ref = "") then "password" else cr_PasswordKey ref in
           match secret !! key with
           | Some password => io_ret password
           | None => io_err ("key " +:+ key +:+ " not found in secret")
           end
       end.

Definition sync_user (now : Z) (user : resource OpenSearchUserSpec) : @FIO W unit :=
  password <- io_wrap "failed to get password" (getPassword user) ;;
  c <- io_wrap "failed to get OpenSearch client" (adapter_for user) ;;
  io_wrap "failed to create/update user" (io_world (CreateUser c (res_Name user) (build_user (res_Spec user) password))).

Definition delete_user (user : resource OpenSearchUserSpec) : @FIO W unit :=
  c <- io_wrap "failed to get OpenSearch client" (adapter_for user) ;;
  io_wrap "failed to delete user" (io_world (DeleteUser c (res_Name user))).

Definition UserReconciler : @kind OpenSearchUserSpec :=
  {| k_Finalizer := "opensearchuser.resources.wazuh.com/finalizer"; k_ready := "User reconciled successfully";
     k_sync := sync_user; k_delete := delete_user |}.

(** *** Roles *)
Definition sync_role (now : Z) (role : resource OpenSearchRoleSpec) : @FIO W unit :=
  c <- io_wrap "failed to get OpenSearch client" (adapter_for role) ;;
  io_wrap "failed to create/update role" (io_world (CreateRole c (res_Name role) (buildRole (res_Spec role)))).

Definition delete_role (role : resource OpenSearchRoleSpec) : @FIO W unit :=
  try client <- adapter_for role ;;
  match client with
  | Err _ => io_ret tt
  | Ok c => io_wrap "failed to delete role" (io_world (DeleteRole c (res_Name role)))
  end.

Definition RoleReconciler : @kind OpenSearchRoleSpec :=
  {| k_Finalizer := "opensearchrole.resources.wazuh.com/finalizer"; k_ready := "Role reconciled successfully";
     k_sync := sync_role; k_delete := delete_role |}.

(** *** Role mappings, tenants, action groups *)
Definition delete_role_mapping (r : resource OpenSearchRoleMappingSpec) : @FIO W unit :=
  delete_with_client "role mapping" DeleteRoleMapping r.

Definition RoleMappingReconciler : @kind OpenSearchRoleMappingSpec :=
  {| k_Finalizer := "opensearchrolemapping.resources.wazuh.com/finalizer";
     k_ready := "Role mapping reconciled successfully";
     k_sync now r := create_or_update "role mapping" "role mapping" "role mapping" (is_there GetRoleMapping)
                       (fun c name => CreateRoleMapping c name (buildRoleMapping (res_Spec r))) now r;
     k_delete := delete_role_mapping |}.

Definition delete_tenant (r : resource OpenSearchTenantSpec) : @FIO W unit :=
  delete_with_client "tenant" DeleteTenant r.

Definition TenantReconciler : @kind OpenSearchTenantSpec :=
  {| k_Finalizer := "opensearchtenant.resources.wazuh.com/finalizer"; k_ready := "Tenant reconciled successfully";
     k_sync now r := create_or_update "tenant" "tenant" "tenant" (is_there GetTenant)
                       (fun c name => CreateTenant c name (buildTenant (res_Spec r))) now r;
     k_delete := delete_tenant |}.

Definition delete_action_group (r : resource OpenSearchActionGroupSpec) : @FIO W unit :=
  delete_with_client "action group" DeleteActionGroup r.

Definition ActionGroupReconciler : @kind OpenSearchActionGroupSpec :=
  {| k_Finalizer := "opensearchactiongroup.resources.wazuh.com/finalizer";
     k_ready := "Action group reconciled successfully";
     k_sync now r := create_or_update "action group" "action group" "action group" (is_there GetActionGroup)
                       (fun c name => CreateActionGroup c name (buildActionGroup (res_Spec r))) now r;
     k_delete := delete_action_group |}.

(** *** Templates *)
Definition delete_template (r : resource OpenSearchIndexTemplateSpec) : @FIO W unit :=
  delete_with_client "index template" DeleteIndexTemplate r.

Definition TemplateReconciler : @kind OpenSearchIndexTemplateSpec :=
  {| k_Finalizer := "opensearchindextemplate.resources.wazuh.com/finalizer";
     k_ready := "Index template reconciled successfully";
     k_sync now r := create_or_update "template" "template" "index template" IndexTemplateExists
                       (fun c name => CreateIndexTemplate c name (buildIndexTemplate (res_Spec r))) now r;
     k_delete := delete_template |}.

Definition delete_component_template (r : resource OpenSearchComponentTemplateSpec) : @FIO W unit :=
  delete_with_client "component template" DeleteComponentTemplate r.

Definition ComponentTemplateReconciler : @kind OpenSearchComponentTemplateSpec :=
  {| k_Finalizer := "opensearchcomponenttemplate.resources.wazuh.com/finalizer";
     k_ready := "Component template reconciled successfully";
     k_sync now r := create_or_update "template" "component template" "component template" ComponentTemplateExists
                       (fun c name => CreateComponentTemplate c name (buildComponentTemplate (res_Spec r))) now r;
     k_delete := delete_component_template |}.

(** *** Indices *)
Definition sync_index (now : Z) (index : resource OpenSearchIndexSpec) : @FIO W unit :=
  c <- io_wrap "failed to get OpenSearch client" (adapter_for index) ;;
  there <- io_wrap "failed to check if index exists" (io_world (IndexExists c (res_Name index))) ;;
  if negb there then
    io_wrap "failed to create index" (io_world (CreateIndex c (res_Name index) (buildIndexSettings (res_Spec index))))
  else
    let dynamicSettings := buildDynamicSettings (res_Spec index) in
    if bool_decide (dynamicSettings = ∅) then io_ret tt
    else io_wrap "failed to update index settings"
           (io_world (UpdateIndexSettings c (res_Name index) dynamicSettings)).

Definition delete_index (index : resource OpenSearchIndexSpec) : @FIO W unit :=
  c <- io_wrap "failed to get OpenSearch client" (adapter_for index) ;;
  io_wrap "failed to delete index" (io_world (DeleteIndex c (res_Name index))).

Definition IndexReconciler : @kind OpenSearchIndexSpec :=
  {| k_Finalizer := "opensearchindex.resources.wazuh.com/finalizer"; k_ready := "Index reconciled successfully";
     k_sync := sync_index; k_delete := delete_index |}.

(** *** ISM policies *)
Definition sync_policy (now : Z) (policy : resource OpenSearchISMPolicySpec) : @FIO W unit :=
  c <- io_wrap "failed to get OpenSearch client" (client_for policy) ;;
  there <- reporting now policy "Failed to check policy existence" "failed to check policy existence"
             (io_world (Exists c (res_Name policy))) ;;
  let ismPolicy := buildISMPolicy (res_Spec policy) in
  if negb there then
    reporting now policy "Failed to create ISM policy" "failed to create ISM policy"
      (io_world (CreatePolicy c (res_Name policy) ismPolicy))
  else
    existing <- reporting now policy "Failed to get ISM policy for update" "failed to get ISM policy for update"
                  (io_world (GetWithMeta c (res_Name policy))) ;;
    match existing with
    | None => io_err "invalid memory address or nil pointer dereference"
    | Some existing =>
        reporting now policy "Failed to update ISM policy" "failed to update ISM policy"
          (io_world (UpdatePolicy c (res_Name policy) ismPolicy (gr_SeqNo existing) (gr_PrimaryTerm existing)))
    end.

Definition delete_policy (r : resource OpenSearchISMPolicySpec) : @FIO W unit :=
  delete_with_client "ISM policy" DeletePolicy r.

Definition PolicyReconciler : @kind OpenSearchISMPolicySpec :=
  {| k_Finalizer := "opensearchismpolicy.resources.wazuh.com/finalizer";
     k_ready := "ISM policy reconciled successfully";
     k_sync := sync_policy; k_delete := delete_policy |}.
End Reconcilers.

(** ** Lemmas *)

(** The namespaces in the API server are DNS labels. *)
Class DnsNames (W : Type) `{!ClusterClient W} : Prop :=
  dns_namespace : forall ns n w cluster w',
    get_cluster ns n w = (Found cluster, w') -> valid_namespace cluster.

(** An OpenSearch that stores what it accepts, at the path it is given. *)
Class RestStore (W : Type) {RS : RestServer W} := {
  rest_stored : string -> string -> W -> option json;
  put_stores c path body w resp w' :
    rest_request c "PUT" path (Some body) w = (Ok resp, w') ->
    accepted [StatusOK; StatusCreated] resp = true ->
    rest_stored (cc_BaseURL c) path w' = Some body
}.

(** Another server keeps the statuses. *)
Class StatusApart (W Spec : Type) {RS : RestServer W} `{!RestStore W, !ResourceClient W Spec} : Prop :=
  status_apart : forall (r : resource Spec) w x w' url path,
    update_resource_status r w = (x, w') -> rest_stored url path w' = rest_stored url path w.

Section Lemmas.
Context {W : Type} `{!KubeClient W, !ClusterClient W, !DnsNames W} {RS : RestServer W} {JS : JSON}.
Context (sha256_hex : string -> string) (pem_ok : string -> bool) (clusterDomain : string).

(** [c] is a client of the cluster that the resource refers to. *)
Definition client_at {Spec} `{!Referring Spec} (r : resource Spec) (c : ClientConfig) : Prop :=
  exists w cluster w',
    get_cluster (ref_namespace (ClusterRef (res_Spec r)) (res_Namespace r)) (cref_Name (ClusterRef (res_Spec r))) w
      = (Found cluster, w') /\
    cc_BaseURL c = buildServiceURL clusterDomain cluster.

Section Clients.
Context {Spec : Type} `{!Referring Spec}.

Lemma client_for_ok (r : resource Spec) f w c f' w' :
  coherent sha256_hex clusterDomain f ->
  client_for sha256_hex pem_ok clusterDomain r (f, w) = (Ok c, (f', w')) ->
  coherent sha256_hex clusterDomain f' /\ client_at r c.
Proof.
  intros Hf. unfold client_for, GetClientForRef, GetClient. intros (cluster & s1 & H1 & H)%io_bind_ok.
  apply read_ok in H1 as (w1 & -> & H1%io_api_ok).
  destruct (GetClientForCluster_client sha256_hex pem_ok clusterDomain cluster f w1 c f' w') as [Hf' [Hu _]];
    [done|by eapply dns_namespace|done|].
  split; [done|]. by exists w, cluster, w1.
Qed.

Lemma adapter_for_ok (r : resource Spec) f w c s' :
  adapter_for pem_ok clusterDomain r (f, w) = (Ok c, s') -> s'.1 = f /\ client_at r c.
Proof.
  unfold adapter_for, GetConnectionInfo. intros (c1 & s1 & H1%io_wrap_ok & H)%io_bind_ok.
  apply io_bind_ok in H1 as (cluster & s2 & H2 & H1). apply read_ok in H2 as (w2 & -> & H2%io_api_ok).
  apply io_bind_ok in H1 as ([u p] & s3 & H3%io_wrap_ok & H1).
  apply getCredentials_ok in H3 as (k3 & w3 & -> & _).
  apply io_bind_ok in H1 as (ca & s4 & H4%io_wrap_ok & H1).
  apply getCACertificate_ok in H4 as (k4 & w4 & -> & _).
  unfold io_ret in H1. simplify_eq. cbn [fst snd] in H.
  destruct (NewClient _ _) eqn:En; [|done]. apply NewClient_ok in En as ->. unfold io_ret in H. simplify_eq.
  split; [done|]. by exists w, cluster, w2.
Qed.

Context `{!ResourceClient W Spec}.

(** A step whose failure is reported: what it did when it succeeded, and what
    is written when it fails. *)
Lemma reporting_ok {A} now (r : resource Spec) message context (m : @FIO W A) s a s' :
  reporting now r message context m s = (Ok a, s') <-> m s = (Ok a, s').
Proof.
  unfold reporting, io_try. destruct (m s) as [[b|e] s1]; [done|]. split; [|done].
  by destruct (updateStatus _ _ _ _ _).
Qed.

Lemma create_or_update_ok word check_word put_word ex put now (r : resource Spec) f w u f' w' :
  coherent sha256_hex clusterDomain f ->
  create_or_update sha256_hex pem_ok clusterDomain word check_word put_word ex put now r (f, w) = (Ok u, (f', w')) ->
  exists c w1, client_at r c /\ put c (res_Name r) w1 = (Ok u, w').
Proof.
  intros Hf. unfold create_or_update. intros (c & [f1 w1] & H1%io_wrap_ok & H)%io_bind_ok.
  apply client_for_ok in H1 as [Hf1 Hc]; [|done].
  apply io_bind_ok in H as (b & s2 & H2%reporting_ok & H). apply io_world_ok in H2 as (w2 & -> & _).
  apply reporting_ok, io_world_ok in H as (w3 & Hs & H). simplify_eq. by exists c, w2.
Qed.
End Clients.

(** A successful synchronisation has put the specification at its name. *)
Class Pushes {Spec} `{!Referring Spec} (k : @kind W Spec) (e : endpoint) (sent : Spec -> json -> Prop) : Prop :=
  pushes : forall now (r : resource Spec) f w u f' w',
    coherent sha256_hex clusterDomain f -> k_sync k now r (f, w) = (Ok u, (f', w')) ->
    exists c body w1, client_at r c /\ sent (res_Spec r) body /\ put_accepted e c (res_Name r) body w1 w'.

Lemma pushes_create {Spec} `{!Referring Spec, !ResourceClient W Spec} word check_word put_word ex e
    (body : Spec -> json) (k : @kind W Spec) :
  (forall now r, k_sync k now r =
    create_or_update sha256_hex pem_ok clusterDomain word check_word put_word ex
      (fun c name => create e c name (body (res_Spec r))) now r) ->
  Pushes k e (fun s b => b = body s).
Proof.
  intros Hk now r f w u f' w' Hf. rewrite Hk.
  intros (c & w1 & Hc & H%create_ok)%create_or_update_ok; [|done]. by exists c, (body (res_Spec r)), w1.
Qed.

#[export] Instance mapping_pushes `{!ResourceClient W OpenSearchRoleMappingSpec} :
  Pushes (RoleMappingReconciler sha256_hex pem_ok clusterDomain) RoleMappingsAPI
    (fun s b => b = role_mapping_json (buildRoleMapping s)).
Proof. by eapply (pushes_create _ _ _ _ _ (fun s => role_mapping_json (buildRoleMapping s))). Qed.

#[export] Instance tenant_pushes `{!ResourceClient W OpenSearchTenantSpec} :
  Pushes (TenantReconciler sha256_hex pem_ok clusterDomain) TenantsAPI
    (fun s b => b = tenant_json (buildTenant s)).
Proof. by eapply (pushes_create _ _ _ _ _ (fun s => tenant_json (buildTenant s))). Qed.

#[export] Instance group_pushes `{!ResourceClient W OpenSearchActionGroupSpec} :
  Pushes (ActionGroupReconciler sha256_hex pem_ok clusterDomain) ActionGroupsAPI
    (fun s b => b = action_group_json (buildActionGroup s)).
Proof. by eapply (pushes_create _ _ _ _ _ (fun s => action_group_json (buildActionGroup s))). Qed.

#[export] Instance template_pushes `{!ResourceClient W OpenSearchIndexTemplateSpec} :
  Pushes (TemplateReconciler sha256_hex pem_ok clusterDomain) IndexTemplatesAPI
    (fun s b => b = index_template_json (buildIndexTemplate s)).
Proof. by eapply (pushes_create _ _ _ _ _ (fun s => index_template_json (buildIndexTemplate s))). Qed.

#[export] Instance component_pushes `{!ResourceClient W OpenSearchComponentTemplateSpec} :
  Pushes (ComponentTemplateReconciler sha256_hex pem_ok clusterDomain) ComponentTemplatesAPI
    (fun s b => b = component_template_json (buildComponentTemplate s)).
Proof. by eapply (pushes_create _ _ _ _ _ (fun s => component_template_json (buildComponentTemplate s))). Qed.

#[export] Instance role_pushes :
  Pushes (RoleReconciler pem_ok clusterDomain) RolesAPI (fun s b => b = role_json (buildRole s)).
Proof.
  intros now r f w u f' w' _. cbn [k_sync RoleReconciler]. unfold sync_role.
  intros (c & [f1 w1] & H1%io_wrap_ok & H)%io_bind_ok. apply adapter_for_ok in H1 as [_ Hc].
  apply io_wrap_ok, io_world_ok in H as (w2 & Hs & H%create_ok). simplify_eq.
  by exists c, (role_json (buildRole (res_Spec r))), w1.
Qed.

(** The password that is sent: the hash itself, when the user has one. *)
Definition sent_user (s : OpenSearchUserSpec) (body : json) : Prop :=
  exists password, body = user_json (build_user s password) /\ (us_Hash s <> "" -> password = us_Hash s).

#[export] Instance user_pushes : Pushes (UserReconciler pem_ok clusterDomain) UsersAPI sent_user.
Proof.
  intros now r f w u f' w' _. cbn [k_sync UserReconciler]. unfold sync_user.
  intros (p & [f1 w1] & H1%io_wrap_ok & H)%io_bind_ok.
  apply io_bind_ok in H as (c & [f2 w2] & H2%io_wrap_ok & H). apply adapter_for_ok in H2 as [_ Hc].
  apply io_wrap_ok, io_world_ok in H as (w3 & Hs & H%create_ok). simplify_eq.
  exists c, (user_json (build_user (res_Spec r) p)), w2. split_and!; try done. exists p. split; [done|].
  intros Hh. unfold getPassword in H1. rewrite bool_decide_false in H1 by done. cbn in H1.
  unfold io_ret in H1. by simplify_eq.
Qed.
End Lemmas.

(** ** Properties *)
Section Properties.
Context {W : Type} `{!KubeClient W, !ClusterClient W, !DnsNames W} {RS : RestServer W} {JS : JSON}.
Context (sha256_hex : string -> string) (pem_ok : string -> bool) (clusterDomain : string).


(** What reading the API server and talking to OpenSearch leave alone. *)
Record left_alone (R : W -> W -> Prop) : Prop := {
  alone_order : PreOrder R;
  alone_cluster ns n w : R w (get_cluster ns n w).2;
  alone_secret ns n w : R w (get_secret ns n w).2;
  alone_request c method path body w : R w (rest_request c method path body w).2
}.

Section Alone.
Context (R : W -> W -> Prop) (HR : left_alone R).
Definition on_snd (s s' : factory * W) : Prop := R s.2 s'.2.

#[local] Instance alone_preorder : PreOrder R := alone_order R HR.
#[local] Instance on_snd_preorder : PreOrder on_snd.
Proof. split; [intros s; unfold on_snd; reflexivity|intros x y z; unfold on_snd; apply transitivity]. Qed.

Lemma keeps_in_world {A} (m : IO W A) : keeps R m -> keeps on_snd (io_world m).
Proof. intros H [f w]. specialize (H w). unfold io_world, on_snd. by destruct (m w). Qed.

Lemma keeps_api_call {A} (m : API W A) : (forall w, R w (m w).2) -> keeps R (io_api m).
Proof. intros H w. specialize (H w). unfold io_api. by destruct (m w). Qed.

Lemma keeps_cluster_read ns n : keeps R (io_api (get_cluster ns n)).
Proof. apply keeps_api_call, HR. Qed.
Lemma keeps_secret_read ns n : keeps R (io_api (get_secret ns n)).
Proof. apply keeps_api_call, HR. Qed.
#[local] Hint Resolve keeps_in_world keeps_cluster_read keeps_secret_read : keeps.

Lemma keeps_call e verb method codes c name body : keeps R (call e verb method codes c name body).
Proof. unfold call. keeps_auto; intros w; apply HR. Qed.
#[local] Hint Resolve keeps_call : keeps.

Lemma keeps_adapter {Spec} `{!Referring Spec} (r : resource Spec) : keeps on_snd (adapter_for pem_ok clusterDomain r).
Proof.
  unfold adapter_for, GetConnectionInfo, referenced_cluster, getCredentials, getCACertificate. keeps_auto.
Qed.
#[local] Hint Resolve keeps_adapter : keeps.

Lemma keeps_sync_user now r : keeps on_snd (sync_user pem_ok clusterDomain now r).
Proof. unfold sync_user, getPassword, CreateUser, create. keeps_auto; apply keeps_in_world; keeps_auto. Qed.

Lemma keeps_sync_role now r : keeps on_snd (sync_role pem_ok clusterDomain now r).
Proof. unfold sync_role, CreateRole, create. keeps_auto; apply keeps_in_world; keeps_auto. Qed.

Lemma keeps_sync_index now r : keeps on_snd (sync_index pem_ok clusterDomain now r).
Proof.
  unfold sync_index, IndexExists, CreateIndex, UpdateIndexSettings, create.
  keeps_auto; apply keeps_in_world; keeps_auto. intros w; apply HR.
Qed.
End Alone.

(** A reconcile whose synchronisation failed ends there. *)
Lemma failed_sync_ends {Spec} `{!Referring Spec, !ResourceClient W Spec} (canonical : Spec -> result string) (k : kind)
    now (r : resource Spec) s e s' :
  has_finalizer (k_Finalizer k) r = true -> om_Deleting (res_Meta r) = false ->
  k_sync k now r s = (Err e, s') -> reconcile_resource sha256_hex canonical k now r s = (Err e, s').
Proof.
  intros Hfin Hdel H. unfold reconcile_resource. rewrite Hfin. unfold io_bind at 1, io_ret at 1. rewrite Hdel.
  unfold io_bind. by rewrite H.
Qed.

(** What a failed [create_or_update] has written last. *)
Lemma create_or_update_err {Spec} `{!Referring Spec, !ResourceClient W Spec} word check_word put_word ex put now
    (r : resource Spec) s e s' :
  create_or_update sha256_hex pem_ok clusterDomain word check_word put_word ex put now r s = (Err e, s') ->
  (exists e', client_for sha256_hex pem_ok clusterDomain r s = (Err e', s')) \/
  (exists st w1 x, rst_Phase st = OpenSearchResourcePhaseFailed /\ rst_LastSyncTime st = Some now /\
     update_resource_status (set_resource_status st r) w1 = (x, s'.2)).
Proof.
  assert (Hrep : forall A message context (m : @FIO W A) t e' t',
    reporting now r message context m t = (Err e', t') ->
    exists st w1 x, rst_Phase st = OpenSearchResourcePhaseFailed /\ rst_LastSyncTime st = Some now /\
      update_resource_status (set_resource_status st r) w1 = (x, t'.2)).
  { intros A message context m t e' t'. unfold reporting, io_try. destruct (m t) as [[a|e1] [f1 w1]]; [done|].
    unfold updateStatus, on_server, io_bind, io_world, io_api, io_ret, io_err.
    set (st := with_result _ _ _ _). destruct (update_resource_status _ w1) as [[y|y] w2] eqn:E;
      intros H; injection H as _ <-; eexists st, w1, _; (split; [reflexivity|]); (split; [reflexivity|]); exact E. }
  unfold create_or_update, io_bind at 1. intros H.
  destruct (io_wrap _ _ s) as [[c|e1] s1] eqn:Ec.
  - right. unfold io_bind at 1 in H. destruct (reporting _ _ _ _ _ s1) as [[b|e2] s2] eqn:E2; [by eapply Hrep|].
    injection H as _ <-. by eapply Hrep.
  - left. unfold io_wrap in Ec. destruct (client_for _ _ _ _ s) as [[c|e2] s2]; [done|].
    injection Ec as _ <-. injection H as _ <-. by exists e2.
Qed.

(** whether a failure shows depends on the kind.  When a tenant (or a role
    mapping, an action group, a template) cannot be synchronised once there is a
    client, its reconcile ends by writing Failed to its status; when a user, a
    role or an index cannot, nothing is written: whatever it had reported
    before, Ready included, stays. *)
Theorem failures_recorded now s e s' :
  (forall `{!ResourceClient W OpenSearchTenantSpec} canonical (r : resource OpenSearchTenantSpec),
     let k := TenantReconciler sha256_hex pem_ok clusterDomain in
     has_finalizer (k_Finalizer k) r = true -> om_Deleting (res_Meta r) = false ->
     k_sync k now r s = (Err e, s') ->
     reconcile_resource sha256_hex canonical k now r s = (Err e, s') /\
     ((exists e', client_for sha256_hex pem_ok clusterDomain r s = (Err e', s')) \/
      exists st w1 x, rst_Phase st = OpenSearchResourcePhaseFailed /\ rst_LastSyncTime st = Some now /\
        update_resource_status (set_resource_status st r) w1 = (x, s'.2))) /\
  (forall R, left_alone R ->
     (forall `{!ResourceClient W OpenSearchUserSpec} canonical r,
        let k := UserReconciler pem_ok clusterDomain in
        has_finalizer (k_Finalizer k) r = true -> om_Deleting (res_Meta r) = false ->
        k_sync k now r s = (Err e, s') ->
        reconcile_resource sha256_hex canonical k now r s = (Err e, s') /\ R s.2 s'.2) /\
     (forall `{!ResourceClient W OpenSearchRoleSpec} canonical r,
        let k := RoleReconciler pem_ok clusterDomain in
        has_finalizer (k_Finalizer k) r = true -> om_Deleting (res_Meta r) = false ->
        k_sync k now r s = (Err e, s') ->
        reconcile_resource sha256_hex canonical k now r s = (Err e, s') /\ R s.2 s'.2) /\
     (forall `{!ResourceClient W OpenSearchIndexSpec} canonical r,
        let k := IndexReconciler pem_ok clusterDomain in
        has_finalizer (k_Finalizer k) r = true -> om_Deleting (res_Meta r) = false ->
        k_sync k now r s = (Err e, s') ->
        reconcile_resource sha256_hex canonical k now r s = (Err e, s') /\ R s.2 s'.2)).
Proof.
  split; [|intros R HR; split_and!]; intros H canonical r; cbv zeta; intros Hfin Hdel He;
    (split; [by apply failed_sync_ends|]).
  - cbn [k_sync TenantReconciler] in He. exact (create_or_update_err _ _ _ _ _ _ _ _ _ _ He).
  - pose proof (keeps_sync_user R HR now r s) as K. cbn [k_sync UserReconciler] in He. by rewrite He in K.
  - pose proof (keeps_sync_role R HR now r s) as K. cbn [k_sync RoleReconciler] in He. by rewrite He in K.
  - pose proof (keeps_sync_index R HR now r s) as K. cbn [k_sync IndexReconciler] in He. by rewrite He in K.
Qed.
End Properties.

(** ** An API server and an OpenSearch to try the theorems on *)
Module SimRest.
Record world := {
  z_site : Sites.site;
  z_clusters : list WazuhCluster;
  z_store : gmap (string * string) json;
  (** the paths that the security plugin refuses *)
  z_reserved : list string;
  z_users : list (resource OpenSearchUserSpec);
  z_roles : list (resource OpenSearchRoleSpec);
  z_mappings : list (resource OpenSearchRoleMappingSpec);
  z_tenants : list (resource OpenSearchTenantSpec);
  z_groups : list (resource OpenSearchActionGroupSpec)
}.

Definition set_site x z := {| z_site := x; z_clusters := z_clusters z; z_store := z_store z;
  z_reserved := z_reserved z; z_users := z_users z; z_roles := z_roles z; z_mappings := z_mappings z;
  z_tenants := z_tenants z; z_groups := z_groups z |}.
Definition set_store x z := {| z_site := z_site z; z_clusters := z_clusters z; z_store := x;
  z_reserved := z_reserved z; z_users := z_users z; z_roles := z_roles z; z_mappings := z_mappings z;
  z_tenants := z_tenants z; z_groups := z_groups z |}.
Definition set_users x z := {| z_site := z_site z; z_clusters := z_clusters z; z_store := z_store z;
  z_reserved := z_reserved z; z_users := x; z_roles := z_roles z; z_mappings := z_mappings z;
  z_tenants := z_tenants z; z_groups := z_groups z |}.
Definition set_roles x z := {| z_site := z_site z; z_clusters := z_clusters z; z_store := z_store z;
  z_reserved := z_reserved z; z_users := z_users z; z_roles := x; z_mappings := z_mappings z;
  z_tenants := z_tenants z; z_groups := z_groups z |}.
Definition set_mappings x z := {| z_site := z_site z; z_clusters := z_clusters z; z_store := z_store z;
  z_reserved := z_reserved z; z_users := z_users z; z_roles := z_roles z; z_mappings := x;
  z_tenants := z_tenants z; z_groups := z_groups z |}.
Definition set_tenants x z := {| z_site := z_site z; z_clusters := z_clusters z; z_store := z_store z;
  z_reserved := z_reserved z; z_users := z_users z; z_roles := z_roles z; z_mappings := z_mappings z;
  z_tenants := x; z_groups := z_groups z |}.
Definition set_groups x z := {| z_site := z_site z; z_clusters := z_clusters z; z_store := z_store z;
  z_reserved := z_reserved z; z_users := z_users z; z_roles := z_roles z; z_mappings := z_mappings z;
  z_tenants := z_tenants z; z_groups := x |}.

Definition at_site {R} (m : Sites.site -> R * Sites.site) : world -> R * world := fun z =>
  let '(r, s) := m (z_site z) in (r, set_site s z).

#[global] Instance kube : KubeClient world := {
  get_statefulset ns n := at_site (get_statefulset ns n);
  update_statefulset s := at_site (update_statefulset s);
  list_pods ns l := at_site (list_pods ns l);
  delete_pod p := at_site (delete_pod p);
  get_secret ns n := at_site (get_secret ns n)
}.

Definition named_cluster (ns n : string) (c : WazuhCluster) : bool :=
  bool_decide (wc_Namespace c = ns) && bool_decide (wc_Name c = n) && free_of "/"%char (wc_Namespace c).

#[global] Instance clusters : ClusterClient world := {
  get_cluster ns n z :=
    (match List.find (named_cluster ns n) (z_clusters z) with
     | Some c => Found c
     | None => Failed (NotFound n)
     end, z);
  update_cluster_status c z := (Found tt, z)
}.

#[global] Instance dns : DnsNames world.
Proof.
  intros ns n w c w' H. cbn in H. destruct (List.find _ _) eqn:E; [|done].
  apply List.find_some in E as [_ E]. injection H as <- _. unfold named_cluster in E.
  apply andb_true_iff in E as [_ E]. exact E.
Qed.

(** A list of objects of one kind. *)
Class Kept (S : Type) := { kept : world -> list (resource S); keep : list (resource S) -> world -> world }.
#[global] Instance kept_users : Kept OpenSearchUserSpec := {| kept := z_users; keep := set_users |}.
#[global] Instance kept_roles : Kept OpenSearchRoleSpec := {| kept := z_roles; keep := set_roles |}.
#[global] Instance kept_mappings : Kept OpenSearchRoleMappingSpec := {| kept := z_mappings; keep := set_mappings |}.
#[global] Instance kept_tenants : Kept OpenSearchTenantSpec := {| kept := z_tenants; keep := set_tenants |}.
#[global] Instance kept_groups : Kept OpenSearchActionGroupSpec := {| kept := z_groups; keep := set_groups |}.

Definition replace {S} (r : resource S) (l : list (resource S)) : list (resource S) :=
  (fun x => if bool_decide (res_Name x = res_Name r) && bool_decide (res_Namespace x = res_Namespace r)
            then r else x) <$> l.

#[global] Instance resources {S} `{!Kept S} : ResourceClient world S := {
  get_resource ns n z :=
    (match List.find (fun r => bool_decide (res_Namespace r = ns) && bool_decide (res_Name r = n)) (kept z) with
     | Some r => Found r
     | None => Failed (NotFound n)
     end, z);
  list_resources ns z := (Found (List.filter (fun r => bool_decide (res_Namespace r = ns)) (kept z)), z);
  update_resource r z := (Found r, keep (replace r (kept z)) z);
  update_resource_status r z := (Found r, keep (replace r (kept z)) z)
}.

(** The plugin is up and its index is there. *)
#[global] Instance rest : RestServer world := fun c method path body z =>
  let at_path := (cc_BaseURL c, path) in
  match body with
  | Some b =>
      if existsb (fun p => bool_decide (p = path)) (z_reserved z)
      then (Ok {| hr_StatusCode := 403; hr_Body := "reserved" |}, z)
      else (Ok {| hr_StatusCode := 201; hr_Body := "" |}, set_store (<[at_path := b]> (z_store z)) z)
  | None =>
      if bool_decide (method = "DELETE")
      then (Ok {| hr_StatusCode := 200; hr_Body := "" |}, set_store (delete at_path (z_store z)) z)
      else if bool_decide (path = "/_plugins/_security/health")
      then (Ok {| hr_StatusCode := 200; hr_Body := "UP" |}, z)
      else if bool_decide (path = "/.opendistro_security")
      then (Ok {| hr_StatusCode := 200; hr_Body := "" |}, z)
      else (Ok {| hr_StatusCode := if is_some (z_store z !! at_path) then 200 else 404; hr_Body := "" |}, z)
  end.

#[global, refine] Instance store : RestStore world := { rest_stored url path z := z_store z !! (url, path) }.
Proof.
  intros c path body w resp w' H Hacc. unfold rest_request, rest in H.
  destruct (existsb _ _); simplify_eq. apply lookup_insert_eq.
Defined.

#[global] Instance apart_users : StatusApart world OpenSearchUserSpec.
Proof. intros r w x w' url path H. cbn in H. by simplify_eq. Qed.
#[global] Instance apart_tenants : StatusApart world OpenSearchTenantSpec.
Proof. intros r w x w' url path H. cbn in H. by simplify_eq. Qed.

#[global] Instance decoders : JSON := {
  unmarshal _ := Err "not JSON";
  decode_mappings _ := Ok ∅;
  decode_tenants _ := Ok ∅;
  decode_groups _ := Ok ∅;
  decode_index_templates _ := Ok [];
  decode_component_templates _ := Ok [];
  decode_policy _ := Err "not a policy";
  decode_policy_meta _ := Err "not a policy";
  decode_health body := Ok {| sh_Status := body; sh_Mode := "" |}
}.

Definition no_resource_status : ResourceStatus :=
  {| rst_Phase := ""; rst_Message := ""; rst_LastSyncTime := None; rst_ObservedGeneration := 0;
     rst_LastAppliedHash := ""; rst_DriftDetected := false; rst_LastDriftTime := None |}.

Definition owned {S} (finalizer name ns : string) (s : S) : resource S :=
  {| res_Name := name; res_Namespace := ns;
     res_Meta := {| om_Generation := 1; om_Deleting := false; om_Finalizers := [finalizer] |};
     res_CreationTimestamp := 0; res_Spec := s; res_Status := no_resource_status |}.

Definition ref_to (name ns : string) : WazuhClusterReference := {| cref_Name := name; cref_Namespace := ns |}.

Definition userf : string := "opensearchuser.resources.wazuh.com/finalizer".
Definition tenantf : string := "opensearchtenant.resources.wazuh.com/finalizer".

Definition user_spec (ref : WazuhClusterReference) (hash : string) : OpenSearchUserSpec :=
  {| us_ClusterRef := ref; us_DefaultAdmin := false; us_PasswordSecret := None; us_Hash := hash;
     us_BackendRoles := None; us_OpenSearchRoles := None; us_Attributes := ∅; us_Description := "" |}.

(** A user given by its hash, one that has nothing to log in with, and a
    tenant. *)
Definition alice : resource OpenSearchUserSpec := owned userf "alice" "ns" (user_spec (ref_to "a" "") "$2y$12$abc").
Definition bob : resource OpenSearchUserSpec := owned userf "bob" "ns" (user_spec (ref_to "a" "") "").
Definition soc : resource OpenSearchTenantSpec :=
  owned tenantf "soc" "ns" {| tn_ClusterRef := ref_to "a" ""; tn_Description := "SOC" |}.

Definition z0 : world :=
  {| z_site := Sites.two_clusters; z_clusters := [Sites.cluster "a" None; Sites.cluster "b" None]; z_store := ∅;
     z_reserved := ["/_plugins/_security/api/tenants/soc"];
     z_users := [alice; bob]; z_roles := []; z_mappings := []; z_tenants := [soc]; z_groups := [] |}.

Definition canonical {S} (s : S) : result string := Ok "spec".

(** The same world but for the store. *)
Definition same_objects (z z' : world) : Prop :=
  (z_users z', z_tenants z') = (z_users z, z_tenants z).

Lemma objects_alone : left_alone same_objects.
Proof.
  split.
  - split; [done|]. unfold same_objects. intros x y z; congruence.
  - done.
  - intros ns n w. unfold same_objects. cbn [get_secret kube]. unfold at_site.
    by destruct (get_secret ns n (z_site w)).
  - intros c method path body w. unfold same_objects, rest_request, rest.
    destruct body; [destruct (existsb _ _)|destruct (bool_decide _)]; try done.
    by repeat destruct (bool_decide _).
Qed.
End SimRest.

Lemma no_clients_coherent : coherent Sites.sha Sites.dom ∅.
Proof. intros k e. by rewrite lookup_empty. Qed.


(** The server refuses the tenant, and Bob has no password: one status says so,
    the other world is as it was. *)
Example failures_recorded_witness :
  let run := reconcile_resource Sites.sha SimRest.canonical (TenantReconciler Sites.sha Sites.pem Sites.dom) 5
               SimRest.soc (∅, SimRest.z0) in
  let run' := reconcile_resource Sites.sha SimRest.canonical (UserReconciler Sites.pem Sites.dom) 5 SimRest.bob
                (∅, SimRest.z0) in
  ((exists e', client_for Sites.sha Sites.pem Sites.dom SimRest.soc (∅, SimRest.z0) = (Err e', run.2)) \/
   exists st w1 x, rst_Phase st = OpenSearchResourcePhaseFailed /\ rst_LastSyncTime st = Some 5 /\
     update_resource_status (set_resource_status st SimRest.soc) w1 = (x, run.2.2)) /\
  SimRest.same_objects SimRest.z0 run'.2.2.
Proof.
  cbv zeta. split.
  - set (sync := k_sync (TenantReconciler Sites.sha Sites.pem Sites.dom) 5 SimRest.soc (∅, SimRest.z0)).
    destruct (failures_recorded Sites.sha Sites.pem Sites.dom 5 (∅, SimRest.z0)
                "failed to create tenant: failed to create tenant: reserved" sync.2) as [H _].
    destruct (H _ SimRest.canonical SimRest.soc eq_refl eq_refl) as [Hr Hst]; [vm_compute; reflexivity|].
    rewrite Hr. exact Hst.
  - set (sync := k_sync (UserReconciler Sites.pem Sites.dom) 5 SimRest.bob (∅, SimRest.z0)).
    destruct (failures_recorded Sites.sha Sites.pem Sites.dom 5 (∅, SimRest.z0)
                "failed to get password: password secret reference not specified and no hash provided" sync.2) as [_ H].
    destruct (H SimRest.same_objects SimRest.objects_alone) as [Hu _].
    destruct (Hu _ SimRest.canonical SimRest.bob eq_refl eq_refl) as [Hr HR]; [vm_compute; reflexivity|].
    rewrite Hr. exact HR.
Defined.
