(* ===== verification/SecuritySync.v ===== *)
(** * Keeping OpenSearch security in step ([internal/opensearch/security],
    [internal/opensearch/reconciler/indexer_reconciler.go])

    What the reconcile of a cluster does about security: it checks that the
    security plugin is initialised, finds the administrator, pushes the users,
    roles, mappings, tenants and action groups of the cluster again, and looks
    for restarted pods.  The resources are also pushed by reconcilers of their
    own ([OSResources]).  These steps are four of the helper operations that
    [Reconcile] takes from [Parts]. *)
From S2P Require Import Prelude GoStrings GoFloat Kube DrainState Cluster ClientFactory ScaleDown.
From S2P Require Import DrainController ClusterStatus Credentials Reconcile RestAPI OSResources.
Local Open Scope go_scope.
Local Open Scope list_scope.

(** ** The administrator ([credentials.go]) *)

Record AdminCredentials := {
  ad_Username : string;
  ad_Password : string;
  ad_Source : string;
  ad_CRDName : string
}.

Definition SecuritySourceAuto : string := "auto".
Definition SecuritySourceCRD : string := "crd".

(** [sort.Slice]: the elements in an order, which one among equals is not said. *)
Class SortSlice (A : Type) (before : A -> A -> bool) := {
  sort_slice : list A -> list A;
  sort_slice_perm l : sort_slice l ≡ₚ l;
  sort_slice_sorted l : Sorted (fun a b => before b a = false) (sort_slice l)
}.

(** Counts of one kind of resource. *)
Record SyncCount := { sc_Created : Z; sc_Updated : Z; sc_Failed : Z }.

Record SyncResult := {
  sy_Users : SyncCount;
  sy_Roles : SyncCount;
  sy_Mappings : SyncCount;
  sy_Tenants : SyncCount;
  sy_ActionGroups : SyncCount;
  sy_Errors : list error
}.

Definition HasErrors (r : SyncResult) : bool := bool_decide (0 < length (sy_Errors r))%nat.

Definition no_count : SyncCount := {| sc_Created := 0; sc_Updated := 0; sc_Failed := 0 |}.
Definition one_updated (n : SyncCount) : SyncCount :=
  {| sc_Created := sc_Created n; sc_Updated := sc_Updated n + 1; sc_Failed := sc_Failed n |}.
Definition one_failed (n : SyncCount) : SyncCount :=
  {| sc_Created := sc_Created n; sc_Updated := sc_Updated n; sc_Failed := sc_Failed n + 1 |}.

Definition created_before (a b : resource OpenSearchUserSpec) : bool :=
  bool_decide (res_CreationTimestamp a < res_CreationTimestamp b).

(** What became of a resource: pushed, failed, or refused by the server. *)
Inductive push_outcome : Type :=
| Pushed
| PushFailed (e : error)
| PushRefused (msg : string).

Section Security.
Context {W : Type} `{!KubeClient W, !ClusterClient W} {RS : RestServer W} {JS : JSON}.
Context (sha256_hex : string -> string) (pem_ok : string -> bool) (clusterDomain : string).

Section Admin.
Context `{!ResourceClient W OpenSearchUserSpec, !SortSlice (resource OpenSearchUserSpec) created_before}.

Definition FindDefaultAdminCRDs (namespace name : string) : IO W (list (resource OpenSearchUserSpec)) :=
  users <- io_wrap "failed to list OpenSearchUser CRDs" (io_api (list_resources namespace)) ;;
  io_ret (sort_slice (List.filter (fun user =>
    us_DefaultAdmin (res_Spec user) && bool_decide (cref_Name (us_ClusterRef (res_Spec user)) = name)) users)).

Definition ResolveDefaultAdmin (cluster : WazuhCluster) : IO W (option (resource OpenSearchUserSpec)) :=
  defaultAdmins <- FindDefaultAdminCRDs (wc_Namespace cluster) (wc_Name cluster) ;;
  io_ret (head defaultAdmins).

Definition GetPasswordFromCRD (user : resource OpenSearchUserSpec) : IO W string :=
  let spec := res_Spec user in
  match us_PasswordSecret spec with
  | None =>
      if negb (bool_decide (us_Hash spec = ""))
      then io_err ("user " +:+ res_Name user +:+ " only has a hash, no password available for authentication")
      else io_err ("user " +:+ res_Name user +:+ " has no passwordSecret configured")
  | Some ref =>
      secret <- io_wrap ("failed to get password secret " +:+ cr_SecretName ref)
                  (io_api (get_secret (res_Namespace user) (cr_SecretName ref))) ;;
      let key := if bool_decide (cr_PasswordKey ref = "") then "password" else cr_PasswordKey ref in
      match secret !! key with
      | Some password => io_ret password
      | None => io_err ("key " +:+ key +:+ " not found in secret " +:+ cr_SecretName ref)
      end
  end.

Definition getAutoGeneratedCredentials (cluster : WazuhCluster) : IO W (string * string) :=
  let secretName := IndexerCredentialsName (wc_Name cluster) in
  secret <- io_wrap ("failed to get credentials secret " +:+ secretName)
              (io_api (get_secret (wc_Namespace cluster) secretName)) ;;
  match secret !! SecretKeyAdminUsername, secret !! SecretKeyAdminPassword with
  | None, _ => io_err (SecretKeyAdminUsername +:+ " not found in secret " +:+ secretName)
  | Some _, None => io_err (SecretKeyAdminPassword +:+ " not found in secret " +:+ secretName)
  | Some username, Some password => io_ret (username, password)
  end.

Definition GetAdminCredentials (cluster : WazuhCluster) : IO W AdminCredentials :=
  adminUser <- io_wrap "failed to resolve default admin" (ResolveDefaultAdmin cluster) ;;
  match adminUser with
  | Some adminUser =>
      password <- io_wrap ("failed to get password from CRD " +:+ res_Name adminUser) (GetPasswordFromCRD adminUser) ;;
      io_ret {| ad_Username := res_Name adminUser; ad_Password := password; ad_Source := SecuritySourceCRD;
                ad_CRDName := res_Name adminUser |}
  | None =>
      creds <- io_wrap "failed to get auto-generated credentials" (getAutoGeneratedCredentials cluster) ;;
      io_ret {| ad_Username := creds.1; ad_Password := creds.2; ad_Source := SecuritySourceAuto; ad_CRDName := "" |}
  end.
End Admin.

(** ** Is the plugin initialised? ([initialization.go]) *)

Definition checkSecurityHealth (c : ClientConfig) : IO W bool :=
  resp <- rest_request c "GET" "/_plugins/_security/health" None ;;
  if negb (bool_decide (hr_StatusCode resp = StatusOK)) then
    io_err (errorf ("security health check returned status " +:+ pretty (hr_StatusCode resp)) (hr_Body resp))
  else
    match decode_health (hr_Body resp) with
    | Err e => io_err (errorf "failed to decode security health response" e)
    | Ok health => io_ret (bool_decide (sh_Status health = "UP") || bool_decide (sh_Mode health = "normal"))
    end.

Definition checkSecurityIndexExists (c : ClientConfig) : IO W bool :=
  resp <- rest_request c "GET" "/.opendistro_security" None ;;
  if bool_decide (hr_StatusCode resp = StatusOK) then io_ret true
  else if bool_decide (hr_StatusCode resp = StatusNotFound) then io_ret false
  else io_err (errorf ("unexpected response checking security index: " +:+ pretty (hr_StatusCode resp)) (hr_Body resp)).

Definition CheckInitialized (c : ClientConfig) : IO W bool :=
  healthOK <- io_wrap "failed to check security health" (checkSecurityHealth c) ;;
  if negb healthOK then io_ret false
  else io_wrap "failed to check security index" (checkSecurityIndexExists c).

(** ** The synchroniser ([synchronizer.go]) *)

Section Kind.
Context {Spec : Type} `{!Referring Spec, !ResourceClient W Spec}.

(** [updateUserStatus] and its like: a failure is only logged. *)
Definition update_sync_status (now : Z) (r : resource Spec) (phase message : string) : IO W unit :=
  let st := with_result now phase message (res_Status r) in
  try written <- io_api (update_resource_status (set_resource_status
    {| rst_Phase := rst_Phase st; rst_Message := rst_Message st; rst_LastSyncTime := rst_LastSyncTime st;
       rst_ObservedGeneration := om_Generation (res_Meta r); rst_LastAppliedHash := rst_LastAppliedHash st;
       rst_DriftDetected := rst_DriftDetected st; rst_LastDriftTime := rst_LastDriftTime st |} r)) ;;
  io_ret tt.

(** The body of the loops: a refusal counts, but is no error of the result. *)
Definition sync_one (now : Z) (word ready : string) (push : resource Spec -> IO W push_outcome)
    (r : resource Spec) (n : SyncCount * list error) : IO W (SyncCount * list error) :=
  outcome <- push r ;;
  match outcome with
  | Pushed =>
      update_sync_status now r OpenSearchResourcePhaseReady ready ;;;
      io_ret (one_updated n.1, n.2)
  | PushFailed e =>
      update_sync_status now r OpenSearchResourcePhaseFailed e ;;;
      io_ret (one_failed n.1, n.2 ++ [errorf (word +:+ " " +:+ res_Name r) e])
  | PushRefused msg =>
      update_sync_status now r OpenSearchResourcePhaseFailed msg ;;;
      io_ret (one_failed n.1, n.2)
  end.

Fixpoint sync_loop (now : Z) (clusterName word ready : string) (push : resource Spec -> IO W push_outcome)
    (l : list (resource Spec)) (n : SyncCount * list error) : IO W (SyncCount * list error) :=
  match l with
  | [] => io_ret n
  | r :: l =>
      n <- (if negb (bool_decide (cref_Name (ClusterRef (res_Spec r)) = clusterName)) then io_ret n
            else sync_one now word ready push r n) ;;
      sync_loop now clusterName word ready push l n
  end.

(** [SyncUsers] and its like; an error of the list is the result's. *)
Definition sync_kind (now : Z) (cluster : WazuhCluster) (type_name word ready group : string)
    (push : resource Spec -> IO W push_outcome) : IO W (SyncCount * list error) :=
  try listed <- io_wrap ("failed to list " +:+ type_name +:+ " CRDs")
                  (io_api (list_resources (Spec := Spec) (wc_Namespace cluster))) ;;
  match listed with
  | Err e => io_ret (no_count, [errorf (group +:+ " sync error") e])
  | Ok l => sync_loop now (wc_Name cluster) word ready push l (no_count, [])
  end.

(** [osClient.Put]: an error of the connection, a refusal, or done. *)
Definition put_resource (c : ClientConfig) (e : endpoint) (body : resource Spec -> json) (r : resource Spec)
    : IO W push_outcome :=
  try resp <- rest_request c "PUT" (ep_path e +:+ res_Name r) (Some (body r)) ;;
  match resp with
  | Err err => io_ret (PushFailed err)
  | Ok resp =>
      if accepted [StatusOK; StatusCreated] resp then io_ret Pushed
      else io_ret (PushRefused ("HTTP " +:+ pretty (hr_StatusCode resp) +:+ ": " +:+ hr_Body resp))
  end.
End Kind.

Context `{!ResourceClient W OpenSearchUserSpec, !SortSlice (resource OpenSearchUserSpec) created_before}.
Context `{!ResourceClient W OpenSearchRoleSpec, !ResourceClient W OpenSearchRoleMappingSpec}.
Context `{!ResourceClient W OpenSearchTenantSpec, !ResourceClient W OpenSearchActionGroupSpec}.

Definition buildSecurityUser (user : resource OpenSearchUserSpec) : IO W SecurityUser :=
  let spec := res_Spec user in
  let secUser hash password :=
    {| su_Hash := hash; su_Password := password; su_BackendRoles := us_BackendRoles spec;
       su_Attributes := us_Attributes spec; su_Description := us_Description spec;
       su_OpendistroSecurityRoles := us_OpenSearchRoles spec |} in
  if negb (bool_decide (us_Hash spec = "")) then io_ret (secUser (us_Hash spec) "")
  else match us_PasswordSecret spec with
       | Some _ =>
           password <- io_wrap "failed to get password" (GetPasswordFromCRD user) ;;
           io_ret (secUser "" password)
       | None => io_err ("user " +:+ res_Name user +:+ " has no password or hash configured")
       end.

Definition createOrUpdateUser (c : ClientConfig) (username : string) (user : SecurityUser) : IO W unit :=
  resp <- rest_request c "PUT" (ep_path UsersAPI +:+ username) (Some (user_json user)) ;;
  if accepted [StatusOK; StatusCreated] resp then io_ret tt
  else io_err ("failed to create/update user: HTTP " +:+ pretty (hr_StatusCode resp) +:+ ": " +:+ hr_Body resp).

Definition push_user (c : ClientConfig) (user : resource OpenSearchUserSpec) : IO W push_outcome :=
  try pushed <- (secUser <- buildSecurityUser user ;; createOrUpdateUser c (res_Name user) secUser) ;;
  match pushed with Ok _ => io_ret Pushed | Err e => io_ret (PushFailed e) end.

Definition SyncUsers (now : Z) (cluster : WazuhCluster) (c : ClientConfig) : IO W (SyncCount * list error) :=
  sync_kind now cluster "OpenSearchUser" "user" "User synced successfully" "users" (push_user c).

(** The roles are built as their own reconciler does. *)
Definition buildSecurityRole (role : resource OpenSearchRoleSpec) : SecurityRole :=
  let s := res_Spec role in
  {| sro_Description := ro_Description s; sro_ClusterPermissions := ro_ClusterPermissions s;
     sro_IndexPermissions :=
       (fun ip => {| ip_IndexPatterns := rp_IndexPatterns ip; ip_DocumentLevelSecurity := "";
                     ip_FieldLevelSecurity := None; ip_MaskedFields := None;
                     ip_AllowedActions := rp_AllowedActions ip |}) <$> ro_IndexPermissions s;
     sro_TenantPermissions :=
       (fun tp => {| tp_TenantPatterns := rt_TenantPatterns tp;
                     tp_AllowedActions := rt_AllowedActions tp |}) <$> ro_TenantPermissions s |}.

Definition SyncRoles (now : Z) (cluster : WazuhCluster) (c : ClientConfig) : IO W (SyncCount * list error) :=
  sync_kind now cluster "OpenSearchRole" "role" "Role synced successfully" "roles"
    (put_resource c RolesAPI (fun role => role_json (buildSecurityRole role))).

(** These bodies are maps: what is nil is sent as null. *)
Definition mapping_body (m : resource OpenSearchRoleMappingSpec) : json :=
  object [("backend_roles", Some (strings (ma_BackendRoles (res_Spec m))));
          ("hosts", Some (strings (ma_Hosts (res_Spec m)))); ("users", Some (strings (ma_Users (res_Spec m))))].
Definition tenant_body (t : resource OpenSearchTenantSpec) : json :=
  object [("description", Some (JStr (tn_Description (res_Spec t))))].
Definition group_body (g : resource OpenSearchActionGroupSpec) : json :=
  object [("allowed_actions", Some (strings (gs_AllowedActions (res_Spec g))))].

Definition SyncRoleMappings (now : Z) (cluster : WazuhCluster) (c : ClientConfig) : IO W (SyncCount * list error) :=
  sync_kind now cluster "OpenSearchRoleMapping" "mapping" "Role mapping synced successfully" "role mappings"
    (put_resource c RoleMappingsAPI mapping_body).

Definition SyncTenants (now : Z) (cluster : WazuhCluster) (c : ClientConfig) : IO W (SyncCount * list error) :=
  sync_kind now cluster "OpenSearchTenant" "tenant" "Tenant synced successfully" "tenants"
    (put_resource c TenantsAPI tenant_body).

Definition SyncActionGroups (now : Z) (cluster : WazuhCluster) (c : ClientConfig) : IO W (SyncCount * list error) :=
  sync_kind now cluster "OpenSearchActionGroup" "actiongroup" "Action group synced successfully" "action groups"
    (put_resource c ActionGroupsAPI group_body).

Definition SyncAllForCluster (now : Z) (cluster : WazuhCluster) : @FIO W SyncResult :=
  c <- io_wrap "failed to create OpenSearch client"
         (GetClientForCluster sha256_hex pem_ok clusterDomain cluster) ;;
  initialized <- io_wrap "failed to check security initialization" (io_world (CheckInitialized c)) ;;
  if negb initialized then io_err "security not initialized, cannot sync"
  else
    io_world (
      users <- SyncUsers now cluster c ;;
      roles <- SyncRoles now cluster c ;;
      mappings <- SyncRoleMappings now cluster c ;;
      tenants <- SyncTenants now cluster c ;;
      groups <- SyncActionGroups now cluster c ;;
      io_ret {| sy_Users := users.1; sy_Roles := roles.1; sy_Mappings := mappings.1; sy_Tenants := tenants.1;
                sy_ActionGroups := groups.1;
                sy_Errors := users.2 ++ roles.2 ++ mappings.2 ++ tenants.2 ++ groups.2 |}).

(** ** The steps of the reconcile ([indexer_reconciler.go])

    They see the factory, the cluster in memory and the world. *)

Definition on_factory {A} (m : @FIO W A) : @RCIO W A := fun r =>
  let '(a, (f, w)) := m (rc_cache r, rc_world r) in
  (a, {| rc_ix_client := rc_ix_client r; rc_ix_drainer := rc_ix_drainer r; rc_wk_client := rc_wk_client r;
         rc_wk_drainer := rc_wk_drainer r; rc_cache := f; rc_heap := rc_heap r; rc_cluster := rc_cluster r;
         rc_world := w |}).

Definition update_security (f : SecurityStatus -> SecurityStatus) : @RCIO W unit :=
  on_cluster (fun c => set_security (Some (f (security c))) c).

Definition with_initialized (now : Z) (initialized : bool) (s : SecurityStatus) : SecurityStatus :=
  {| se_Initialized := initialized;
     se_InitializationTime :=
       if initialized && negb (se_Initialized s) then Some now else se_InitializationTime s;
     se_LastSyncTime := se_LastSyncTime s; se_DefaultAdminUser := se_DefaultAdminUser s;
     se_DefaultAdminSource := se_DefaultAdminSource s; se_SyncedUsers := se_SyncedUsers s;
     se_SyncedRoles := se_SyncedRoles s; se_SyncedRoleMappings := se_SyncedRoleMappings s;
     se_SyncedTenants := se_SyncedTenants s; se_SyncedActionGroups := se_SyncedActionGroups s;
     se_IndexerRestartCount := se_IndexerRestartCount s; se_CredentialsHash := se_CredentialsHash s;
     se_APICredentialsHash := se_APICredentialsHash s; se_AuthdCredentialsHash := se_AuthdCredentialsHash s |}.

Definition CheckSecurityInitialization (now : Z) : @RCIO W bool :=
  r <- io_get ;;
  status <- io_wrap "failed to get indexer status" (on_kube_world (io_api (Indexer_GetStatus (rc_cluster r)))) ;;
  if bool_decide (default 0 (cst_ReadyReplicas <$> status) = 0) then io_ret false
  else
    try client <- on_factory (GetClientForCluster sha256_hex pem_ok clusterDomain (rc_cluster r)) ;;
    match client with
    | Err _ => io_ret false
    | Ok c =>
        try checked <- on_kube_world (CheckInitialized c) ;;
        match checked with
        | Err _ => io_ret false
        | Ok initialized =>
            update_security (with_initialized now initialized) ;;;
            io_ret initialized
        end
    end.

Definition synced (n : SyncCount) : Z := sc_Updated n + sc_Created n.

Definition with_sync (now : Z) (result : SyncResult) (s : SecurityStatus) : SecurityStatus :=
  {| se_Initialized := se_Initialized s; se_InitializationTime := se_InitializationTime s;
     se_LastSyncTime := Some now; se_DefaultAdminUser := se_DefaultAdminUser s;
     se_DefaultAdminSource := se_DefaultAdminSource s; se_SyncedUsers := synced (sy_Users result);
     se_SyncedRoles := synced (sy_Roles result); se_SyncedRoleMappings := synced (sy_Mappings result);
     se_SyncedTenants := synced (sy_Tenants result); se_SyncedActionGroups := synced (sy_ActionGroups result);
     se_IndexerRestartCount := se_IndexerRestartCount s; se_CredentialsHash := se_CredentialsHash s;
     se_APICredentialsHash := se_APICredentialsHash s; se_AuthdCredentialsHash := se_AuthdCredentialsHash s |}.

Definition SyncSecurityCRDs (now : Z) : @RCIO W unit :=
  r <- io_get ;;
  if negb (default false (se_Initialized <$> sr_Security (wc_Status (rc_cluster r)))) then io_ret tt
  else
    result <- io_wrap "failed to sync security CRDs" (on_factory (SyncAllForCluster now (rc_cluster r))) ;;
    update_security (with_sync now result).

Definition with_restarts (n : Z) (s : SecurityStatus) : SecurityStatus :=
  {| se_Initialized := se_Initialized s; se_InitializationTime := se_InitializationTime s;
     se_LastSyncTime := se_LastSyncTime s; se_DefaultAdminUser := se_DefaultAdminUser s;
     se_DefaultAdminSource := se_DefaultAdminSource s; se_SyncedUsers := se_SyncedUsers s;
     se_SyncedRoles := se_SyncedRoles s; se_SyncedRoleMappings := se_SyncedRoleMappings s;
     se_SyncedTenants := se_SyncedTenants s; se_SyncedActionGroups := se_SyncedActionGroups s;
     se_IndexerRestartCount := n; se_CredentialsHash := se_CredentialsHash s;
     se_APICredentialsHash := se_APICredentialsHash s; se_AuthdCredentialsHash := se_AuthdCredentialsHash s |}.

Definition restart_selector (cluster : WazuhCluster) : gmap string string :=
  <["app.kubernetes.io/name" := "opensearch-indexer"]>
    (<["app.kubernetes.io/instance" := wc_Name cluster]> {["app.kubernetes.io/component" := "indexer"]}).

(** [constants.CommonLabels]: what the operator labels its pods with. *)
Definition CommonLabels (clusterName component version : string) : gmap string string :=
  <["app.kubernetes.io/name" := "wazuh-" +:+ component]>
  (<["app.kubernetes.io/instance" := clusterName]>
  (<["app.kubernetes.io/version" := version]>
  (<["app.kubernetes.io/component" := component]>
  (<["app.kubernetes.io/part-of" := "wazuh"]>
  (<["app.kubernetes.io/managed-by" := "wazuh-operator"]>
  (<["wazuh.com/cluster" := clusterName]>
  {["wazuh.com/managed-by" := "wazuh-operator"]})))))).

Definition total_restarts (pods : list Pod) : Z :=
  fold_left (fun n c => wrap32 (n + c)) (pods ≫= pod_RestartCounts) 0.

Definition DetectIndexerRestart : @RCIO W bool :=
  r <- io_get ;;
  pods <- io_wrap "failed to list indexer pods"
            (on_kube_world (io_api (list_pods (wc_Namespace (rc_cluster r)) (restart_selector (rc_cluster r))))) ;;
  let totalRestarts := total_restarts pods in
  if bool_decide (se_IndexerRestartCount (security (rc_cluster r)) < totalRestarts) then
    update_security (with_restarts totalRestarts) ;;; io_ret true
  else update_security id ;;; io_ret false.

Definition with_admin (a : AdminCredentials) (s : SecurityStatus) : SecurityStatus :=
  {| se_Initialized := se_Initialized s; se_InitializationTime := se_InitializationTime s;
     se_LastSyncTime := se_LastSyncTime s; se_DefaultAdminUser := ad_Username a;
     se_DefaultAdminSource := ad_Source a; se_SyncedUsers := se_SyncedUsers s;
     se_SyncedRoles := se_SyncedRoles s; se_SyncedRoleMappings := se_SyncedRoleMappings s;
     se_SyncedTenants := se_SyncedTenants s; se_SyncedActionGroups := se_SyncedActionGroups s;
     se_IndexerRestartCount := se_IndexerRestartCount s; se_CredentialsHash := se_CredentialsHash s;
     se_APICredentialsHash := se_APICredentialsHash s; se_AuthdCredentialsHash := se_AuthdCredentialsHash s |}.

Definition ResolveAndSetDefaultAdmin (now : Z) : @RCIO W unit :=
  r <- io_get ;;
  creds <- io_wrap "failed to get admin credentials" (on_kube_world (GetAdminCredentials (rc_cluster r))) ;;
  update_security (with_admin creds).

(** The security operations that [Reconcile] calls; the others are [P]'s. *)
Definition security_parts (P : Parts W) : Parts W := {|
  reconcile_certificates := reconcile_certificates;
  apply_indexer := apply_indexer;
  check_security := CheckSecurityInitialization;
  resolve_admin := ResolveAndSetDefaultAdmin;
  sync_security := SyncSecurityCRDs;
  detect_restart := DetectIndexerRestart;
  apply_managers := apply_managers;
  apply_log_rotation := apply_log_rotation;
  apply_dashboard := apply_dashboard;
  apply_monitoring := apply_monitoring;
  apply_gateway := apply_gateway;
  apply_ingress := apply_ingress;
  apply_network_policies := apply_network_policies
|}.
End Security.

(** ** Lemmas *)
Section Lemmas.
Context {W : Type} `{!KubeClient W, !ClusterClient W} {RS : RestServer W} {JS : JSON}.
Context (sha256_hex : string -> string) (pem_ok : string -> bool) (clusterDomain : string).

Section Loop.
Context {Spec : Type} `{!Referring Spec, !ResourceClient W Spec}.

(** The resources that a cluster of this name pushes. *)
Definition pushed_for (name : string) (l : list (resource Spec)) : list (resource Spec) :=
  List.filter (fun r => bool_decide (cref_Name (ClusterRef (res_Spec r)) = name)) l.

Lemma update_sync_status_ok now (r : resource Spec) phase message w :
  exists w', update_sync_status now r phase message w = (Ok tt, w').
Proof. unfold update_sync_status, io_try. destruct (io_api _ w) as [x w']. by exists w'. Qed.

Lemma sync_loop_spec now name word ready (push : resource Spec -> IO W push_outcome) l n w n' w' :
  sync_loop now name word ready push l n w = (Ok n', w') ->
  sc_Created n'.1 = sc_Created n.1 /\
  sc_Updated n'.1 + sc_Failed n'.1 = sc_Updated n.1 + sc_Failed n.1 + Z.of_nat (length (pushed_for name l)) /\
  (forall r, r ∈ pushed_for name l -> exists w1 x w2, push r w1 = (Ok x, w2)) /\
  ((forall r w1 e w2, push r w1 <> (Ok (PushFailed e), w2)) -> n'.2 = n.2).
Proof.
  revert n w. induction l as [|r l IH]; intros n w; cbn [sync_loop].
  { unfold io_ret. intros H. simplify_eq. cbn. split_and!; [done|lia|set_solver|done]. }
  intros (n1 & w1 & H1 & H)%io_bind_ok. apply IH in H as (Hc & Hs & Hp & He).
  unfold pushed_for in *. cbn [List.filter]. destruct (bool_decide _); cbn [negb] in H1.
  - unfold sync_one in H1. apply io_bind_ok in H1 as (x & w2 & Hx & H1).
    assert (Hn : sc_Created n1.1 = sc_Created n.1 /\ sc_Updated n1.1 + sc_Failed n1.1 = sc_Updated n.1 + sc_Failed n.1 + 1 /\
                 ((forall e, x <> PushFailed e) -> n1.2 = n.2)).
    { destruct x as [|e|m]; apply io_bind_ok in H1 as (u & w3 & _ & H1); unfold io_ret in H1; simplify_eq; cbn;
        (split; [done|]); (split; [lia|]); intros H'; [done|by destruct (H' e)|done]. }
    destruct Hn as (Hc1 & Hs1 & He1). cbn [length]. split_and!; [congruence|lia| |].
    + intros r' [->|Hr']%elem_of_cons; [by exists w, x, w2|by apply Hp].
    + intros Hno. rewrite He, He1; [done| |done]. intros e ->. by apply (Hno r w e w2).
  - unfold io_ret in H1. simplify_eq. by split_and!.
Qed.

Lemma put_resource_ok c e body (r : resource Spec) w x w' :
  put_resource c e body r w = (Ok x, w') ->
  exists resp, rest_request c "PUT" (ep_path e +:+ res_Name r) (Some (body r)) w = (resp, w') /\
    match resp with
    | Err err => x = PushFailed err
    | Ok resp => x = if accepted [StatusOK; StatusCreated] resp then Pushed
                     else PushRefused ("HTTP " +:+ pretty (hr_StatusCode resp) +:+ ": " +:+ hr_Body resp)
    end.
Proof.
  unfold put_resource, io_try. destruct (rest_request _ _ _ _ w) as [[resp|err] w1].
  - intros H. exists (Ok resp). destruct (accepted _ _); unfold io_ret in H; by simplify_eq.
  - unfold io_ret. intros H. simplify_eq. by eexists.
Qed.
End Loop.
End Lemmas.

(** ** The steps leave the rest of the status alone *)
Section Keep.
Context {W : Type} `{!KubeClient W, !ClusterClient W} {RS : RestServer W} {JS : JSON}.
Context (sha256_hex : string -> string) (pem_ok : string -> bool) (clusterDomain : string).
Context `{!ResourceClient W OpenSearchUserSpec, !SortSlice (resource OpenSearchUserSpec) created_before}.
Context `{!ResourceClient W OpenSearchRoleSpec, !ResourceClient W OpenSearchRoleMappingSpec}.
Context `{!ResourceClient W OpenSearchTenantSpec, !ResourceClient W OpenSearchActionGroupSpec}.
Context (RC : WazuhCluster -> WazuhCluster -> Prop) `{!PreOrder RC}.
Context (Hsec : forall s c, RC c (set_security s c)).

Lemma keeps_factory {A} (m : @FIO W A) : keeps (on_object RC) (on_factory m).
Proof. intros r. unfold on_factory, on_object. destruct (m _) as [a [f w]]. cbn. reflexivity. Qed.

Lemma keeps_update_security f : keeps (on_object (W := W) RC) (update_security f).
Proof. apply keeps_cluster. intros c. apply Hsec. Qed.

Lemma keeps_world_call {A} (m : IO W A) : keeps (on_object RC) (on_kube_world m).
Proof. by apply keeps_kube. Qed.
#[local] Hint Resolve keeps_factory keeps_update_security keeps_world_call : keeps.

#[export] Instance security_parts_keep P : PartsKeep (on_object RC) P ->
  PartsKeep (on_object RC) (security_parts sha256_hex pem_ok clusterDomain P).
Proof.
  intros []. split; try done; intros; cbn.
  - unfold CheckSecurityInitialization. keeps_auto.
  - unfold ResolveAndSetDefaultAdmin. keeps_auto.
  - unfold SyncSecurityCRDs. keeps_auto.
  - unfold DetectIndexerRestart. keeps_auto.
Qed.
End Keep.

(** ** Properties *)
Section Properties.
Context {W : Type} `{!KubeClient W, !ClusterClient W} {RS : RestServer W} {JS : JSON}.
Context (sha256_hex : string -> string) (pem_ok : string -> bool) (clusterDomain : string).

(** A role as it would be without its restrictions to documents and fields. *)
Definition unrestricted (s : OpenSearchRoleSpec) : OpenSearchRoleSpec :=
  {| ro_ClusterRef := ro_ClusterRef s; ro_ClusterPermissions := ro_ClusterPermissions s;
     ro_IndexPermissions :=
       (fun p => {| rp_IndexPatterns := rp_IndexPatterns p; rp_AllowedActions := rp_AllowedActions p;
                    rp_DLS := ""; rp_FLS := None; rp_MaskedFields := None |}) <$> ro_IndexPermissions s;
     ro_TenantPermissions := ro_TenantPermissions s; ro_Description := ro_Description s |}.

Definition set_spec {Spec Spec'} (s : Spec') (r : resource Spec) : resource Spec' :=
  {| res_Name := res_Name r; res_Namespace := res_Namespace r; res_Meta := res_Meta r;
     res_CreationTimestamp := res_CreationTimestamp r; res_Spec := s; res_Status := res_Status r |}.

(** C21: document-level security is not enforced.  A role whose index permissions
    are restricted to documents ([dls]), to fields ([fls]) or to masked fields
    is sent to OpenSearch without the restrictions, by its own reconciler and
    by the cluster's synchroniser: both do exactly what they do for the role
    that has none. *)
Theorem role_restrictions_dropped now (role : resource OpenSearchRoleSpec) (s : factory * W) :
  let free := set_spec (unrestricted (res_Spec role)) role in
  sync_role pem_ok clusterDomain now role s = sync_role pem_ok clusterDomain now free s /\
  buildSecurityRole role = buildSecurityRole free /\
  (forall c w, put_resource c RolesAPI (fun r => role_json (buildSecurityRole r)) role w =
               put_resource c RolesAPI (fun r => role_json (buildSecurityRole r)) free w).
Proof.
  assert (Hb : buildRole (res_Spec role) = buildRole (unrestricted (res_Spec role))).
  { unfold buildRole. cbn. f_equal. rewrite <-list_fmap_compose. by apply list_fmap_ext. }
  cbv zeta. split_and!.
  - unfold sync_role, adapter_for. cbn [set_spec res_Spec res_Name res_Namespace]. by rewrite <-Hb.
  - exact Hb.
  - intros c w. unfold put_resource. cbn [set_spec res_Name].
    change (buildSecurityRole (set_spec (unrestricted (res_Spec role)) role)) with (buildRole (unrestricted (res_Spec role))).
    by rewrite <-Hb.
Qed.

(** two writers, one resource.  The synchroniser of the cluster and the
    resource's own reconciler send the same request for a user with a password
    secret and for a role.  For a user given by a hash they do not: the
    synchroniser sends the hash as a hash, the reconciler sends it as the
    password itself; and of a role mapping the synchroniser leaves out the
    roles that must all be held, of an action group its type. *)
Theorem two_writers :
  (forall user f (w : W) u w', us_Hash (res_Spec user) = "" ->
     buildSecurityUser user w = (Ok u, w') ->
     exists p, getPassword user (f, w) = (Ok p, (f, w')) /\ u = build_user (res_Spec user) p) /\
  (forall user f (w : W) u w', us_Hash (res_Spec user) <> "" ->
     buildSecurityUser user w = (Ok u, w') ->
     getPassword user (f, w) = (Ok (us_Hash (res_Spec user)), (f, w')) /\
     let own := user_json (build_user (res_Spec user) (us_Hash (res_Spec user))) in
     field "hash" (user_json u) = Some (JStr (us_Hash (res_Spec user))) /\ field "password" (user_json u) = None /\
     field "hash" own = None /\ field "password" own = Some (JStr (us_Hash (res_Spec user)))) /\
  (forall role, buildSecurityRole role = buildRole (res_Spec role)) /\
  (forall m, field "and_backend_roles" (mapping_body m) = None /\
     field "and_backend_roles" (role_mapping_json (buildRoleMapping (res_Spec m)))
       = omit_strs (ma_AndBackendRoles (res_Spec m))) /\
  (forall g, field "type" (group_body g) = None /\
     field "type" (action_group_json (buildActionGroup (res_Spec g))) = omit_str (gs_Type (res_Spec g))).
Proof.
  split_and!.
  - intros user f w u w' Hh H. unfold buildSecurityUser in H. unfold getPassword.
    rewrite bool_decide_true in H |- * by done. cbn [negb] in H |- *.
    destruct (us_PasswordSecret (res_Spec user)) as [ref|] eqn:Er; [|done].
    apply io_bind_ok in H as (p & w1 & H1%io_wrap_ok & H). unfold io_ret in H. simplify_eq.
    exists p. split; [|done]. unfold GetPasswordFromCRD in H1. rewrite Er in H1.
    apply io_bind_ok in H1 as (sec & w2 & H2%io_wrap_ok & H1).
    apply io_bind_ok. exists sec, (f, w2). split; [apply read_ok; by exists w2|].
    destruct (sec !! _); [|done]. unfold io_ret in *. by simplify_eq.
  - intros user f w u w' Hh H. unfold buildSecurityUser in H. unfold getPassword.
    rewrite bool_decide_false in H |- * by done. cbn [negb] in H |- *. unfold io_ret in *. simplify_eq.
    split; [done|]. cbv zeta. unfold user_json, omit_str. cbn [su_Hash su_Password build_user].
    rewrite (bool_decide_false (us_Hash (res_Spec user) = "")) by done. rewrite bool_decide_true by done.
    rewrite !field_object. done.
  - done.
  - intros m. unfold mapping_body, role_mapping_json. rewrite !field_object. cbn.
    by destruct (omit_strs (ma_AndBackendRoles _)).
  - intros g. unfold group_body, action_group_json. rewrite !field_object. cbn. by destruct (omit_str (gs_Type _)).
Qed.

(** what a cluster's synchronisation sends.  It pushes every resource of the
    cluster's namespace that names the cluster, whatever namespace the
    reference gives (the resource's own reconciler goes to the cluster of that
    namespace); each is counted once, as updated or as failed, never as
    created; and as long as the connection holds, no refusal of the server is
    an error of the result. *)
Theorem sync_by_name {Spec} `{!Referring Spec, !ResourceClient W Spec} now cluster type_name word ready group c e
    (body : resource Spec -> json) w l w1 n errs w' :
  list_resources (wc_Namespace cluster) w = (Found l, w1) ->
  sync_kind now cluster type_name word ready group (put_resource c e body) w = (Ok (n, errs), w') ->
  sc_Created n = 0 /\
  sc_Updated n + sc_Failed n = Z.of_nat (length (pushed_for (wc_Name cluster) l)) /\
  (forall r, r ∈ l -> cref_Name (ClusterRef (res_Spec r)) = wc_Name cluster ->
     exists w2 resp w3, rest_request c "PUT" (ep_path e +:+ res_Name r) (Some (body r)) w2 = (resp, w3)) /\
  ((forall path b w2, exists resp w3, rest_request c "PUT" path (Some b) w2 = (Ok resp, w3)) -> errs = []).
Proof.
  intros Hl. unfold sync_kind, io_try, io_wrap, io_api. rewrite Hl. cbn [wrapf].
  intros H. apply sync_loop_spec in H as (Hc & Hs & Hp & He). cbn in Hc, Hs, He. split_and!; [done|lia| |].
  - intros r Hr Hn. destruct (Hp r) as (w2 & x & w3 & Hx).
    { unfold pushed_for. apply list_elem_of_In, filter_In. split; [by apply list_elem_of_In|].
      by apply bool_decide_eq_true. }
    apply put_resource_ok in Hx as (resp & Hx & _). by exists w2, resp, w3.
  - intros Hall. apply He. intros r w2 e' w3 Hx. apply put_resource_ok in Hx as (resp & Hx & Ho).
    destruct (Hall (ep_path e +:+ res_Name r) (body r) w2) as (resp' & w4 & Hx'). rewrite Hx' in Hx.
    injection Hx as <- <-. by destruct (accepted _ _).
Qed.

(** The health and the index, as the server told them. *)
Definition plugin_answers (c : ClientConfig) (initialized : bool) (w w' : W) : Prop :=
  exists h w1 health,
    rest_request c "GET" "/_plugins/_security/health" None w = (Ok h, w1) /\ hr_StatusCode h = StatusOK /\
    decode_health (hr_Body h) = Ok health /\
    let up := bool_decide (sh_Status health = "UP") || bool_decide (sh_Mode health = "normal") in
    if up then
      exists i, rest_request c "GET" "/.opendistro_security" None w1 = (Ok i, w') /\
        ((initialized = true /\ hr_StatusCode i = StatusOK) \/ (initialized = false /\ hr_StatusCode i = StatusNotFound))
    else initialized = false /\ w' = w1.

Lemma CheckInitialized_ok c (w : W) b w' :
  CheckInitialized c w = (Ok b, w') <-> plugin_answers c b w w'.
Proof.
  unfold CheckInitialized, plugin_answers, checkSecurityHealth, checkSecurityIndexExists. split.
  - intros (up & w1 & H1%io_wrap_ok & H)%io_bind_ok. apply io_bind_ok in H1 as (h & w2 & Hh & H1).
    destruct (bool_decide (hr_StatusCode h = StatusOK)) eqn:Eh; [|done]. apply bool_decide_eq_true in Eh.
    cbn [negb] in H1. destruct (decode_health _) as [health|] eqn:Ed; [|done]. unfold io_ret in H1. simplify_eq.
    exists h, w1, health. split_and!; try done. cbv zeta. destruct (_ || _); cbn [negb] in H.
    + apply io_wrap_ok, io_bind_ok in H as (i & w2 & Hi & H). exists i.
      destruct (bool_decide (hr_StatusCode i = StatusOK)) eqn:E1.
      { unfold io_ret in H. simplify_eq. apply bool_decide_eq_true in E1. auto. }
      destruct (bool_decide (hr_StatusCode i = StatusNotFound)) eqn:E2; [|done].
      unfold io_ret in H. simplify_eq. apply bool_decide_eq_true in E2. auto.
    + unfold io_ret in H. by simplify_eq.
  - intros (h & w1 & health & Hh & Es & Ed & H). apply io_bind_ok.
    exists (bool_decide (sh_Status health = "UP") || bool_decide (sh_Mode health = "normal")), w1. split.
    + apply io_wrap_ok, io_bind_ok. exists h, w1. split; [done|]. rewrite bool_decide_true by done. cbn [negb].
      by rewrite Ed.
    + cbv zeta in H. destruct (_ || _); cbn [negb].
      * destruct H as (i & Hi & H). apply io_wrap_ok, io_bind_ok. exists i, w'. split; [done|].
        destruct H as [[-> E]|[-> E]]; rewrite E; done.
      * destruct H as [-> ->]. done.
Qed.

(** The indexer is ready, there is a client, and the plugin answers [b]. *)
Definition security_checked (r : @reconcilers W) (b : bool) : Prop :=
  exists st w1 c f w2 w3,
    Indexer_GetStatus (rc_cluster r) (rc_world r) = (Found (Some st), w1) /\ cst_ReadyReplicas st <> 0 /\
    GetClientForCluster sha256_hex pem_ok clusterDomain (rc_cluster r) (rc_cache r, w1) = (Ok c, (f, w2)) /\
    plugin_answers c b w2 w3.

Lemma security_cases now (r r' : @reconcilers W) b :
  CheckSecurityInitialization sha256_hex pem_ok clusterDomain now r = (Ok b, r') ->
  (security_checked r b /\ se_Initialized (security (rc_cluster r')) = b /\ forall b', security_checked r b' -> b' = b) \/
  (b = false /\ rc_cluster r' = rc_cluster r /\ forall b', ~ security_checked r b').
Proof.
  unfold CheckSecurityInitialization, io_bind at 1, io_get.
  intros (st & r1 & H1%io_wrap_ok & H)%io_bind_ok. apply on_kube_ok in H1 as (w1 & H1%io_api_ok & ->).
  destruct (bool_decide _) eqn:Eready.
  { unfold io_ret in H. simplify_eq. right. split_and!; try done.
    intros b' (st' & w' & c & f & w2 & w3 & Hs & Hr & _). rewrite H1 in Hs. simplify_eq.
    by apply bool_decide_eq_true in Eready. }
  apply bool_decide_eq_false in Eready. destruct st as [st|]; [|done]. cbn in Eready.
  unfold io_try at 1, on_factory in H. cbn [rc_cache rc_world rc_cluster set_cluster_and_world] in H.
  destruct (GetClientForCluster _ _ _ _ _) as [[c|e] [f w2]] eqn:Ec.
  2: { unfold io_ret in H. simplify_eq. right. split_and!; try done.
       intros b' (st' & w' & c & f' & w2' & w3 & Hs & _ & Hc & _). rewrite H1 in Hs. simplify_eq. by rewrite Ec in Hc. }
  assert (Hdet : forall b', security_checked r b' -> exists w3, CheckInitialized c w2 = (Ok b', w3)).
  { intros b' (st' & w' & c' & f' & w2' & w3 & Hs & _ & Hc & Hp%CheckInitialized_ok). rewrite H1 in Hs. simplify_eq.
    rewrite Ec in Hc. simplify_eq. by exists w3. }
  unfold io_try, on_kube_world, on_rest, io_world in H. cbn [rc_cache rc_world rc_cluster set_cluster_and_world] in H.
  destruct (CheckInitialized c w2) as [[b1|e] w3] eqn:Ei.
  - left. apply io_bind_ok in H as (u & r2 & Hu & H). unfold io_ret, update_security, on_cluster, io_modify in *.
    simplify_eq. split_and!; [|done|by intros b' (w' & Hb')%Hdet; simplify_eq].
    exists st, w1, c, f, w2, w3. split_and!; try done. by apply CheckInitialized_ok.
  - unfold io_ret in H. simplify_eq. right. split_and!; try done. by intros b' (w' & Hb')%Hdet.
Qed.

(** when security counts as initialised.  The check says yes exactly when
    the indexer has a ready replica, a client can be had, the plugin's health
    is UP or normal and its index exists; the record follows what the server
    answered, but stays as it was while there is no answer: it may then still
    say initialised. *)
Theorem security_initialized now (r r' : @reconcilers W) b :
  CheckSecurityInitialization sha256_hex pem_ok clusterDomain now r = (Ok b, r') ->
  (b = true <-> security_checked r true) /\
  (forall b', security_checked r b' -> se_Initialized (security (rc_cluster r')) = b') /\
  ((forall b', ~ security_checked r b') -> rc_cluster r' = rc_cluster r).
Proof.
  intros [(Hb & Hrec & Hdet)|(-> & Hc & Hno)]%security_cases.
  - split_and!.
    + split; [by intros ->|]. intros Ht. by rewrite (Hdet _ Ht).
    + intros b' Hb'. by rewrite (Hdet _ Hb').
    + intros Hno. by destruct (Hno b).
  - split_and!; [|by intros b' Hb'%Hno|done]. split; [done|]. by intros Ht%Hno.
Qed.

(** a restart of the indexer is never noticed.  Every pod that the operator
    labels is named [wazuh-...] ([CommonLabels]), and the check selects pods
    named [opensearch-indexer]: it finds none, answers no and leaves the recorded
    number of restarts. *)
Theorem restart_never_detected (r r' : @reconcilers W) b :
  (forall pods w', list_pods (wc_Namespace (rc_cluster r)) (restart_selector (rc_cluster r)) (rc_world r) = (Found pods, w') ->
     forall p, p ∈ pods ->
       restart_selector (rc_cluster r) ⊆ pod_Labels p /\
       exists component version, CommonLabels (wc_Name (rc_cluster r)) component version ⊆ pod_Labels p) ->
  0 <= se_IndexerRestartCount (security (rc_cluster r)) ->
  DetectIndexerRestart r = (Ok b, r') ->
  b = false /\ security (rc_cluster r') = security (rc_cluster r).
Proof.
  intros Hpods Hn. unfold DetectIndexerRestart, io_bind at 1, io_get.
  intros (pods & r1 & H1%io_wrap_ok & H)%io_bind_ok. apply on_kube_ok in H1 as (w1 & H1%io_api_ok & ->).
  assert (pods = []) as ->.
  { destruct pods as [|p pods]; [done|]. destruct (Hpods _ _ H1 p) as (Hsel & component & version & Hown); [by left|].
    assert (Hs : restart_selector (rc_cluster r) !! "app.kubernetes.io/name" = Some "opensearch-indexer").
    { apply lookup_insert_eq. }
    assert (Hn' : CommonLabels (wc_Name (rc_cluster r)) component version !! "app.kubernetes.io/name"
                  = Some ("wazuh-" +:+ component)) by apply lookup_insert_eq.
    eapply lookup_weaken in Hs, Hn'; [|done..]. rewrite Hn' in Hs. done. }
  cbn [rc_cluster set_cluster_and_world] in H.
  change (total_restarts []) with 0 in H. rewrite bool_decide_false in H by lia.
  apply io_bind_ok in H as (u & r2 & Hu & H). unfold update_security, on_cluster, io_modify, io_ret in *.
  by simplify_eq.
Qed.

(** the default administrator is the oldest of the users marked for the
    cluster, and comes from the generated secret only when there is none. *)
Theorem default_admin_oldest `{!ResourceClient W OpenSearchUserSpec, !SortSlice (resource OpenSearchUserSpec) created_before}
    cluster (w : W) a w' :
  GetAdminCredentials cluster w = (Ok a, w') ->
  exists users w1,
    list_resources (wc_Namespace cluster) w = (Found users, w1) /\
    let marked u := u ∈ users /\ us_DefaultAdmin (res_Spec u) = true /\
                    cref_Name (us_ClusterRef (res_Spec u)) = wc_Name cluster in
    (ad_Source a = SecuritySourceCRD /\
       exists u, marked u /\ ad_Username a = res_Name u /\
         (forall u', marked u' -> res_CreationTimestamp u <= res_CreationTimestamp u') /\
         GetPasswordFromCRD u w1 = (Ok (ad_Password a), w')) \/
    (ad_Source a = SecuritySourceAuto /\ (forall u, ~ marked u) /\
       getAutoGeneratedCredentials cluster w1 = (Ok (ad_Username a, ad_Password a), w')).
Proof.
  unfold GetAdminCredentials, ResolveDefaultAdmin, FindDefaultAdminCRDs.
  intros (o & w1 & H1%io_wrap_ok & H)%io_bind_ok. apply io_bind_ok in H1 as (l & w2 & H1 & Ho).
  apply io_bind_ok in H1 as (users & w3 & H1%io_wrap_ok%io_api_ok & Hl). unfold io_ret in Ho, Hl. simplify_eq.
  exists users, w1. split; [done|]. cbv zeta. set (mine := List.filter _ users) in *.
  assert (Hm : forall u, u ∈ sort_slice mine <-> u ∈ users /\ us_DefaultAdmin (res_Spec u) = true /\
                 cref_Name (us_ClusterRef (res_Spec u)) = wc_Name cluster).
  { intros u. rewrite sort_slice_perm. unfold mine. rewrite list_elem_of_In, filter_In, <-list_elem_of_In.
    by rewrite andb_true_iff, bool_decide_eq_true. }
  pose proof (sort_slice_sorted mine) as Hs. destruct (sort_slice mine) as [|u rest]; cbn [head] in H.
  - right. apply io_bind_ok in H as ([n p] & w2 & H2%io_wrap_ok & H). unfold io_ret in H. simplify_eq.
    split_and!; [done| |done]. intros u Hu%Hm. set_solver.
  - left. apply io_bind_ok in H as (p & w2 & H2%io_wrap_ok & H). unfold io_ret in H. simplify_eq.
    split; [done|]. exists u. split; [apply Hm; by left|]. split; [done|]. split; [|done].
    intros u' [->|Hu']%Hm%elem_of_cons; [done|].
    apply Sorted_StronglySorted in Hs; [|intros x y z; unfold created_before; rewrite !bool_decide_eq_false; lia].
    inversion Hs as [|? ? _ Hall]; subst. rewrite Forall_forall in Hall. specialize (Hall _ Hu').
    unfold created_before in Hall. apply bool_decide_eq_false in Hall. lia.
Qed.
End Properties.

(** ** Witnesses *)
Module SimSecurity.
Definition no_later (a b : resource OpenSearchUserSpec) : Prop := created_before b a = false.
#[global] Instance no_later_dec a b : Decision (no_later a b).
Proof. unfold no_later. apply _. Defined.
#[global] Instance no_later_total : Total no_later.
Proof. intros a b. unfold no_later, created_before. rewrite !bool_decide_eq_false. lia. Qed.

#[global, refine] Instance sorting : SortSlice (resource OpenSearchUserSpec) created_before := {
  sort_slice := merge_sort no_later
}.
Proof.
  - intros l. apply merge_sort_Permutation.
  - intros l. apply (Sorted_merge_sort _).
Defined.

(** A tenant of the cluster [a] of another namespace, and one of [b]. *)
Definition foreign : resource OpenSearchTenantSpec :=
  SimRest.owned SimRest.tenantf "hr" "ns" {| tn_ClusterRef := SimRest.ref_to "a" "other"; tn_Description := "HR" |}.
Definition of_b : resource OpenSearchTenantSpec :=
  SimRest.owned SimRest.tenantf "b-only" "ns" {| tn_ClusterRef := SimRest.ref_to "b" ""; tn_Description := "" |}.

(** Two administrators; the younger one is listed first. *)
Definition admin (name : string) (created : Z) : resource OpenSearchUserSpec :=
  {| res_Name := name; res_Namespace := "ns"; res_Meta := no_meta; res_CreationTimestamp := created;
     res_Spec := {| us_ClusterRef := SimRest.ref_to "a" ""; us_DefaultAdmin := true;
                    us_PasswordSecret := Some {| cr_SecretName := "a-indexer-credentials"; cr_ExternalSecretRef := None;
                                                 cr_UsernameKey := ""; cr_PasswordKey := "admin-password" |};
                    us_Hash := ""; us_BackendRoles := None; us_OpenSearchRoles := None; us_Attributes := ∅;
                    us_Description := "" |};
     res_Status := SimRest.no_resource_status |}.

Definition z1 : SimRest.world :=
  SimRest.set_tenants [SimRest.soc; foreign; of_b]
    (SimRest.set_users [SimRest.alice; admin "young" 20; admin "old" 10] SimRest.z0).

(** An indexer pod as the operator labels it, restarted twice. *)
Definition restarted : Pod :=
  {| pod_Name := "a-indexer-0"; pod_Namespace := "ns"; pod_Labels := CommonLabels "a" "indexer" "4.9.0";
     pod_OwnerUIDs := []; pod_Conditions := []; pod_RestartCounts := [2] |}.

Definition z2 : SimRest.world :=
  SimRest.set_site
    (Sites.set_kube {| SimKube.k_statefulsets := SimKube.k_statefulsets (Sites.s_kube Sites.two_clusters);
                       SimKube.k_pods := [restarted];
                       SimKube.k_secrets := SimKube.k_secrets (Sites.s_kube Sites.two_clusters) |} Sites.two_clusters) z1.

Definition cluster_a : WazuhCluster := Sites.cluster "a" None.

Definition controller : @reconcilers SimRest.world :=
  {| rc_ix_client := None; rc_ix_drainer := None; rc_wk_client := None; rc_wk_drainer := None; rc_cache := ∅;
     rc_heap := []; rc_cluster := cluster_a; rc_world := z2 |}.
End SimSecurity.

(** The server refuses [soc]; [hr] of another cluster is pushed, [b-only] is
    not. *)
Example sync_by_name_witness :
  let run := sync_kind 5 SimSecurity.cluster_a "OpenSearchTenant" "tenant" "ok" "tenants"
               (put_resource (Sites.client "a") TenantsAPI tenant_body) SimSecurity.z1 in
  run.1 = Ok ({| sc_Created := 0; sc_Updated := 1; sc_Failed := 1 |}, []) /\
  exists w2 resp w3, rest_request (Sites.client "a") "PUT" "/_plugins/_security/api/tenants/hr"
    (Some (tenant_body SimSecurity.foreign)) w2 = (resp, w3).
Proof.
  cbv zeta. split; [vm_compute; reflexivity|].
  destruct (sync_by_name 5 SimSecurity.cluster_a "OpenSearchTenant" "tenant" "ok" "tenants" (Sites.client "a") TenantsAPI
              tenant_body SimSecurity.z1 [SimRest.soc; SimSecurity.foreign; SimSecurity.of_b] SimSecurity.z1
              {| sc_Created := 0; sc_Updated := 1; sc_Failed := 1 |} []
              (sync_kind 5 SimSecurity.cluster_a "OpenSearchTenant" "tenant" "ok" "tenants"
                 (put_resource (Sites.client "a") TenantsAPI tenant_body) SimSecurity.z1).2)
    as (_ & _ & H & _); [vm_compute; reflexivity..|].
  apply (H SimSecurity.foreign); [right; left|reflexivity].
Defined.

Example security_initialized_witness :
  (CheckSecurityInitialization Sites.sha Sites.pem Sites.dom 5 SimSecurity.controller).1 = Ok true /\
  security_checked Sites.sha Sites.pem Sites.dom SimSecurity.controller true.
Proof.
  split; [vm_compute; reflexivity|].
  apply (security_initialized Sites.sha Sites.pem Sites.dom 5 SimSecurity.controller
           (CheckSecurityInitialization Sites.sha Sites.pem Sites.dom 5 SimSecurity.controller).2 true);
    [vm_compute; reflexivity|reflexivity].
Defined.

Example restart_never_detected_witness :
  (DetectIndexerRestart SimSecurity.controller).1 = Ok false /\
  security (rc_cluster (DetectIndexerRestart SimSecurity.controller).2) = security (rc_cluster SimSecurity.controller).
Proof.
  split; [vm_compute; reflexivity|].
  apply (restart_never_detected SimSecurity.controller (DetectIndexerRestart SimSecurity.controller).2 false);
    [|vm_compute; discriminate|vm_compute; reflexivity].
  intros pods w' H. vm_compute in H. injection H as <- _. intros p Hp. by apply not_elem_of_nil in Hp.
Defined.

(** Alice, who is given by a hash. *)
Example two_writers_witness :
  getPassword SimRest.alice (∅, SimRest.z0) = (Ok "$2y$12$abc", (∅, SimRest.z0)) /\
  field "password" (user_json (build_user (res_Spec SimRest.alice) "$2y$12$abc")) = Some (JStr "$2y$12$abc").
Proof.
  destruct (two_writers (W := SimRest.world)) as (_ & H & _).
  destruct (H SimRest.alice ∅ SimRest.z0
              {| su_Password := ""; su_Hash := "$2y$12$abc"; su_BackendRoles := None;
                 su_OpendistroSecurityRoles := None; su_Attributes := ∅; su_Description := "" |} SimRest.z0)
    as (H1 & _ & _ & _ & H2); [vm_compute; discriminate|vm_compute; reflexivity|].
  by split.
Defined.

(** The older of the two administrators, though the younger is listed first. *)
Example default_admin_oldest_witness :
  (GetAdminCredentials SimSecurity.cluster_a SimSecurity.z2).1
    = Ok {| ad_Username := "old"; ad_Password := "pw-a"; ad_Source := SecuritySourceCRD; ad_CRDName := "old" |} /\
  exists (users : list (resource OpenSearchUserSpec)) w1, list_resources "ns" SimSecurity.z2 = (Found users, w1).
Proof.
  split; [vm_compute; reflexivity|].
  destruct (default_admin_oldest SimSecurity.cluster_a SimSecurity.z2
    {| ad_Username := "old"; ad_Password := "pw-a"; ad_Source := SecuritySourceCRD; ad_CRDName := "old" |}
    (GetAdminCredentials SimSecurity.cluster_a SimSecurity.z2).2) as (users & w1 & H & _); [vm_compute; reflexivity|].
  by exists users, w1.
Defined.
