(* ===== verification/SnapshotAPI.v ===== *)
(** * The snapshot API of OpenSearch

    [internal/opensearch/api/snapshots_api.go] (repositories, snapshots,
    restores) and [snapshot_api.go] (policies of the snapshot management
    plugin), over the server of [RestAPI]: what is sent, which answers are
    accepted and what is read of them. *)
From S2P Require Import Prelude GoStrings Kube ClientFactory RestAPI.
Local Open Scope string_scope.
Local Open Scope list_scope.
Local Open Scope go_scope.

Definition StatusAccepted : Z := 202.

(** ** Data *)

Record Repository := { repo_Type : string; repo_Settings : gmap string json }.
Definition repository_json (r : Repository) : json :=
  object [("type", Some (JStr (repo_Type r))); ("settings", omit_map id (repo_Settings r))].

Record Snapshot := {
  sn_Snapshot : string;
  sn_UUID : string;
  sn_State : string;
  sn_Indices : slice;
  sn_IncludeGlobalState : bool
}.
Definition snapshot_json (s : Snapshot) : json :=
  object [("snapshot", Some (JStr (sn_Snapshot s))); ("uuid", omit_str (sn_UUID s)); ("state", omit_str (sn_State s));
          ("indices", omit_strs (sn_Indices s)); ("include_global_state", omit_bool (sn_IncludeGlobalState s))].

(** Counts of shards, as 64-bit integers. *)
Record ApiShardStats := { as_Total : Z; as_Successful : Z; as_Failed : Z }.
Definition no_shards : ApiShardStats := {| as_Total := 0; as_Successful := 0; as_Failed := 0 |}.

(** Of the listing and the status of snapshots, what the operator reads. *)
Record SnapshotInfo := { si_Snapshot : string; si_State : string }.
Record SnapshotStatus := { ss_ShardsStats : ApiShardStats; ss_TotalSizeInBytes : Z }.

Record RestoreOptions := {
  ro_Indices : slice;
  ro_IgnoreUnavailable : bool;
  ro_IncludeGlobalState : bool;
  ro_RenamePattern : string;
  ro_RenameReplacement : string;
  ro_IndexSettings : gmap string json;
  ro_Partial : bool
}.
Definition restore_options_json (o : RestoreOptions) : json :=
  object [("indices", omit_strs (ro_Indices o)); ("ignore_unavailable", omit_bool (ro_IgnoreUnavailable o));
          ("include_global_state", omit_bool (ro_IncludeGlobalState o)); ("rename_pattern", omit_str (ro_RenamePattern o));
          ("rename_replacement", omit_str (ro_RenameReplacement o)); ("index_settings", omit_map id (ro_IndexSettings o));
          ("partial", omit_bool (ro_Partial o))].

Record RestoreResult := { rr_Indices : slice; rr_Shards : ApiShardStats }.

(** A recovery, index by index: the stages of its shards. *)
Abbreviation recovery := (gmap string (list string)).

Record CronSchedule := { cs_Expression : string; cs_Timezone : string }.
Definition schedule_json (c : CronSchedule) : json :=
  object [("cron", Some (object [("expression", Some (JStr (cs_Expression c))); ("timezone", omit_str (cs_Timezone c))]))].

Record SnapshotCreation := { sc_Schedule : CronSchedule; sc_TimeLimit : string }.
Record SnapshotDeleteCondition := { dc_MaxAge : string; dc_MaxCount : Z; dc_MinCount : Z }.
Record SnapshotDeletion := { sd_Schedule : option CronSchedule; sd_Condition : option SnapshotDeleteCondition }.
Record SnapshotConfig := { sf_Repository : string; sf_Indices : string }.

(** The fields of a policy that the operator sets. *)
Record SnapshotPolicy := {
  sp_Description : string;
  sp_Creation : SnapshotCreation;
  sp_Deletion : option SnapshotDeletion;
  sp_SnapshotConfig : SnapshotConfig;
  sp_Enabled : bool
}.

Definition creation_json (c : SnapshotCreation) : json :=
  object [("schedule", Some (schedule_json (sc_Schedule c))); ("time_limit", omit_str (sc_TimeLimit c))].
Definition delete_condition_json (c : SnapshotDeleteCondition) : json :=
  object [("max_age", omit_str (dc_MaxAge c)); ("max_count", omit_int (dc_MaxCount c));
          ("min_count", omit_int (dc_MinCount c))].
Definition deletion_json (d : SnapshotDeletion) : json :=
  object [("schedule", schedule_json <$> sd_Schedule d); ("condition", delete_condition_json <$> sd_Condition d)].
Definition snapshot_config_json (c : SnapshotConfig) : json :=
  object [("repository", Some (JStr (sf_Repository c))); ("indices", omit_str (sf_Indices c))].
Definition snapshot_policy_json (p : SnapshotPolicy) : json :=
  object [("description", omit_str (sp_Description p)); ("creation", Some (creation_json (sp_Creation p)));
          ("deletion", deletion_json <$> sp_Deletion p);
          ("snapshot_config", Some (snapshot_config_json (sp_SnapshotConfig p)));
          ("enabled", Some (JBool (sp_Enabled p)))].

Record SnapshotPolicyInfo := { pi_SeqNo : Z; pi_PrimaryTerm : Z }.

(** The decoding of the answers ([encoding/json]); what a body does not mention
    is left zero.  A recovery is nil when the body is [null]. *)
Class SnapshotJSON := {
  decode_repositories : string -> result (gmap string Repository);
  decode_snapshots : string -> result (list Snapshot);
  decode_snapshot_infos : string -> result (list SnapshotInfo);
  decode_snapshot_status : string -> result (list SnapshotStatus);
  decode_verification : string -> result unit;
  decode_restore : string -> result RestoreResult;
  decode_recovery : string -> result (option recovery);
  decode_policy_info : string -> result SnapshotPolicyInfo
}.

(** ** Calls *)

Definition RepositoriesAPI : endpoint :=
  {| ep_path := "/_snapshot/"; ep_what := "repository"; ep_status := false; ep_wrap := true |}.
Definition SnapshotsAPI : endpoint :=
  {| ep_path := "/_snapshot/"; ep_what := "snapshot"; ep_status := false; ep_wrap := true |}.
Definition SnapshotStatusAPI : endpoint :=
  {| ep_path := "/_snapshot/"; ep_what := "snapshot status"; ep_status := false; ep_wrap := true |}.
Definition SnapshotListAPI : endpoint :=
  {| ep_path := "/_snapshot/"; ep_what := "snapshots"; ep_status := false; ep_wrap := true |}.
Definition RecoveryAPI : endpoint :=
  {| ep_path := "/"; ep_what := "restore status"; ep_status := false; ep_wrap := true |}.
Definition SnapshotPoliciesAPI : endpoint :=
  {| ep_path := "/_plugins/_sm/policies/"; ep_what := "snapshot policy"; ep_status := false; ep_wrap := true |}.

Section Calls.
Context {W : Type} {RS : RestServer W} {SJ : SnapshotJSON}.

(** *** Repositories *)
Definition CreateRepository (c : ClientConfig) (repoName : string) (repo : Repository) : IO W unit :=
  call RepositoriesAPI "create" "PUT" [StatusOK] c repoName (Some (repository_json repo)) ;;; io_ret tt.
Definition UpdateRepository := CreateRepository.
Definition GetRepository (c : ClientConfig) (repoName : string) : IO W (option Repository) :=
  m <- get_at RepositoriesAPI decode_repositories c repoName ;; io_ret (named repoName m).
Definition DeleteRepository (c : ClientConfig) (repoName : string) : IO W unit := delete_at RepositoriesAPI c repoName.

Definition VerifyRepository (c : ClientConfig) (repoName : string) : IO W unit :=
  resp <- io_wrap "failed to verify repository"
            (rest_request c "POST" ("/_snapshot/" +:+ repoName +:+ "/_verify") None) ;;
  if negb (accepted [StatusOK] resp) then io_err (errorf "repository verification failed" (hr_Body resp))
  else match decode_verification (hr_Body resp) with
       | Ok _ => io_ret tt
       | Err e => io_err (errorf "failed to decode verification result" e)
       end.

Definition ReloadSecureSettings (c : ClientConfig) : IO W unit :=
  resp <- io_wrap "failed to reload secure settings"
            (rest_request c "POST" "/_nodes/reload_secure_settings" (Some (JObj ∅))) ;;
  if accepted [StatusOK] resp then io_ret tt
  else io_err (errorf ("failed to reload secure settings (status " +:+ pretty (hr_StatusCode resp) +:+ ")")
                 (hr_Body resp)).

(** *** Snapshots *)
Definition snapshot_path (repoName snapshotName : string) : string := repoName +:+ "/" +:+ snapshotName.

Definition CreateSnapshot (c : ClientConfig) (repoName snapshotName : string) (s : Snapshot) : IO W unit :=
  call SnapshotsAPI "create" "PUT" [StatusOK; StatusAccepted] c (snapshot_path repoName snapshotName)
    (Some (snapshot_json s)) ;;; io_ret tt.
Definition GetSnapshot (c : ClientConfig) (repoName snapshotName : string) : IO W (option Snapshot) :=
  l <- get_at SnapshotsAPI decode_snapshots c (snapshot_path repoName snapshotName) ;; io_ret (l ≫= head).
Definition GetSnapshotStatus (c : ClientConfig) (repoName snapshotName : string) : IO W (option (list SnapshotStatus)) :=
  get_at SnapshotStatusAPI decode_snapshot_status c (snapshot_path repoName snapshotName +:+ "/_status").

Definition ListSnapshots (c : ClientConfig) (repoName : string) : IO W (list SnapshotInfo) :=
  resp <- call SnapshotListAPI "list" "GET" [StatusOK; StatusNotFound] c (repoName +:+ "/_all") None ;;
  if bool_decide (hr_StatusCode resp = StatusNotFound) then io_ret []
  else match decode_snapshot_infos (hr_Body resp) with
       | Ok l => io_ret l
       | Err e => io_err (errorf "failed to decode snapshots list" e)
       end.

(** *** Restores *)
Definition RestoreSnapshot (c : ClientConfig) (repoName snapshotName : string) (opts : RestoreOptions)
    : IO W RestoreResult :=
  resp <- call SnapshotsAPI "restore" "POST" [StatusOK; StatusAccepted] c
            (snapshot_path repoName snapshotName +:+ "/_restore") (Some (restore_options_json opts)) ;;
  match decode_restore (hr_Body resp) with
  | Ok r => io_ret r
  | Err e => io_err (errorf "failed to decode restore result" e)
  end.

Definition GetRestoreStatus (c : ClientConfig) (indexName : string) : IO W (option recovery) :=
  r <- get_at RecoveryAPI decode_recovery c
         (if bool_decide (indexName = "") then "_recovery" else indexName +:+ "/_recovery") ;;
  io_ret (mjoin r).

(** *** Policies *)
Definition CreateSnapshotPolicy (c : ClientConfig) (policyID : string) (p : SnapshotPolicy) : IO W unit :=
  call SnapshotPoliciesAPI "create" "POST" [StatusOK; StatusCreated] c policyID (Some (snapshot_policy_json p)) ;;;
  io_ret tt.
Definition GetPolicyInfo (c : ClientConfig) (policyID : string) : IO W (option SnapshotPolicyInfo) :=
  get_at SnapshotPoliciesAPI decode_policy_info c policyID.
Definition versioned_path (policyID : string) (seqNo primaryTerm : Z) : string :=
  policyID +:+ "?if_seq_no=" +:+ pretty seqNo +:+ "&if_primary_term=" +:+ pretty primaryTerm.
Definition UpdateSnapshotPolicy (c : ClientConfig) (policyID : string) (p : SnapshotPolicy) (seqNo primaryTerm : Z)
    : IO W unit :=
  call SnapshotPoliciesAPI "update" "PUT" [StatusOK; StatusCreated] c (versioned_path policyID seqNo primaryTerm)
    (Some (snapshot_policy_json p)) ;;;
  io_ret tt.
Definition DeleteSnapshotPolicy (c : ClientConfig) (policyID : string) : IO W unit :=
  delete_at SnapshotPoliciesAPI c policyID.
End Calls.
