(* ===== verification/Snapshots.v ===== *)
(** * Snapshots and restores

    [manual_snapshot_reconciler.go], [restore_reconciler.go] and their
    controllers.  A reconcile works on the object in memory: every write of the
    status sends it and, when the server accepts, replaces it by the server's
    answer; the controller looks at the phase that is left in memory to decide
    when to come back. *)
From S2P Require Import Prelude GoStrings GoFloat GoTime Kube Cluster DrainState ClientFactory ScaleDown ClusterStatus.
From S2P Require Import RestAPI OSResources SnapshotAPI.
Local Open Scope string_scope.
Local Open Scope list_scope.
Local Open Scope go_scope.

(** ** Objects with a status of their own *)

Record custom (Spec Status : Type) := {
  cu_Name : string;
  cu_Namespace : string;
  cu_Meta : ObjectMeta;
  cu_Spec : Spec;
  cu_Status : Status
}.
Arguments cu_Name {Spec Status}.
Arguments cu_Namespace {Spec Status}.
Arguments cu_Meta {Spec Status}.
Arguments cu_Spec {Spec Status}.
Arguments cu_Status {Spec Status}.

Definition set_custom_meta {Spec Status} (m : ObjectMeta) (o : custom Spec Status) : custom Spec Status :=
  {| cu_Name := cu_Name o; cu_Namespace := cu_Namespace o; cu_Meta := m; cu_Spec := cu_Spec o;
     cu_Status := cu_Status o |}.
Definition set_custom_status {Spec Status} (s : Status) (o : custom Spec Status) : custom Spec Status :=
  {| cu_Name := cu_Name o; cu_Namespace := cu_Namespace o; cu_Meta := cu_Meta o; cu_Spec := cu_Spec o;
     cu_Status := s |}.

(** The API server for one kind; an update answers with the object as it is
    stored. *)
Class CustomClient (W Spec Status : Type) := {
  get_custom : string -> string -> API W (custom Spec Status);
  update_custom : custom Spec Status -> API W (custom Spec Status);
  update_custom_status : custom Spec Status -> API W (custom Spec Status)
}.

(** [meta.SetStatusCondition] at an instant. *)
Class ConditionHelper := SetStatusCondition : Z -> list Condition -> Condition -> list Condition.

Section Object.
Context {W Spec Status : Type} `{!CustomClient W Spec Status}.

(** The object in memory, and the factory with the world. *)
Definition OIO (A : Type) : Type := IO (custom Spec Status * (factory * W)) A.

Definition modify_object (f : custom Spec Status -> custom Spec Status) : OIO unit :=
  io_modify (fun '(o, s) => (f o, s)).
Definition modify_status (f : Status -> Status) : OIO unit :=
  modify_object (fun o => set_custom_status (f (cu_Status o)) o).

(** [r.Update(ctx, object)] and [r.Status().Update(ctx, object)] *)
Definition update_object : OIO unit :=
  s <- io_get ;; o <- io_world (on_server (update_custom s.1)) ;; modify_object (fun _ => o).
Definition put_status : OIO unit :=
  s <- io_get ;; o <- io_world (on_server (update_custom_status s.1)) ;; modify_object (fun _ => o).

(** A request to the server of OpenSearch. *)
Definition ask {A} (m : IO W A) : OIO A := io_world (io_world m).

Definition object_has_finalizer (f : string) (o : custom Spec Status) : bool :=
  bool_decide (f ∈ om_Finalizers (cu_Meta o)).
Definition object_finalizers (l : list string) (o : custom Spec Status) : custom Spec Status :=
  set_custom_meta {| om_Generation := om_Generation (cu_Meta o); om_Deleting := om_Deleting (cu_Meta o);
                     om_Finalizers := l |} o.
Definition drop_finalizer (f : string) (o : custom Spec Status) : custom Spec Status :=
  object_finalizers (List.filter (fun g => negb (bool_decide (g = f))) (om_Finalizers (cu_Meta o))) o.

(** The start of every [Reconcile]: the finalizer, then deletion or work. *)
Definition with_object_finalizer (f : string) (deletion work : OIO unit) : OIO unit :=
  s <- io_get ;;
  (if object_has_finalizer f s.1 then io_ret tt
   else modify_object (object_finalizers (om_Finalizers (cu_Meta s.1) ++ [f])) ;;;
        io_wrap "failed to add finalizer" update_object) ;;;
  s <- io_get ;;
  if om_Deleting (cu_Meta s.1) then deletion else work.

(** The deletions that keep the data: only the finalizer goes. *)
Definition release (f : string) : OIO unit :=
  modify_object (drop_finalizer f) ;;; io_wrap "failed to remove finalizer" update_object.

(** The controllers: when to come back, in nanoseconds, if nothing failed. *)
Definition reconcile_custom (reconcile : OIO unit) (again : custom Spec Status -> option Z) (namespace name : string)
    : @FIO W (option Z) :=
  got <- io_world (io_outcome (get_custom namespace name)) ;;
  match got with
  | Failed e => if IsNotFound e then io_ret None else io_err (api_message e)
  | Found o => fun s =>
      let '(r, (o', s')) := reconcile (o, s) in
      (match r with
       | Err e => Err e
       | Ok _ => Ok (again o')
       end, s')
  end.
Definition while_busy (busy : Status -> bool) (o : custom Spec Status) : option Z :=
  if busy (cu_Status o) then Some (10 * Second) else None.
End Object.

(** ** Texts for humans *)

(** The loop: how often 1024 goes into [n], and its power. *)
Fixpoint byte_scale (fuel : nat) (n div : Z) (exp : nat) : Z * nat :=
  match fuel with
  | O => (div, exp)
  | S fuel => if bool_decide (1024 <= n) then byte_scale fuel (Z.quot n 1024) (wrap64 (div * 1024)) (S exp)
              else (div, exp)
  end.

Definition formatBytes (bytes : Z) : result string :=
  if bool_decide (bytes < 1024) then Ok (pretty bytes +:+ " B")
  else
    let '(div, exp) := byte_scale 64 (Z.quot bytes 1024) 1024 0 in
    match String.get exp "KMGTPE" with
    | Some unit =>
        Ok (FormatFixed 1 (SFdiv prec64 emax64 (float64_of_Z bytes) (float64_of_Z div)) +:+ " " +:+
            String unit "iB")
    | None => Err "index out of range"
    end.

(** [x - y*60], in [float64]. *)
Definition less_sixty (x y : spec_float) : spec_float := SFsub prec64 emax64 x (fmul y (float64_of_Z 60)).

Definition formatDuration (d : duration) : string :=
  if bool_decide (d < Minute) then FormatFixed 0 (Duration_Seconds d) +:+ "s"
  else if bool_decide (d < Hour) then
    FormatFixed 0 (Duration_Minutes d) +:+ "m" +:+
    FormatFixed 0 (less_sixty (Duration_Seconds d) (Duration_Minutes d)) +:+ "s"
  else
    FormatFixed 0 (Duration_Hours d) +:+ "h" +:+
    FormatFixed 0 (less_sixty (Duration_Minutes d) (Duration_Hours d)) +:+ "m".

Definition generateSnapshotName (now : Z) (baseName : string) : string := baseName +:+ "-" +:+ Format_compact now.

(** ** Data *)

Record ShardStats := { sh_Total : Z; sh_Successful : Z; sh_Failed : Z }.
Definition shards_of (s : ApiShardStats) : ShardStats :=
  {| sh_Total := wrap32 (as_Total s); sh_Successful := wrap32 (as_Successful s); sh_Failed := wrap32 (as_Failed s) |}.

Record OpenSearchSnapshotSpec := {
  os_ClusterRef : WazuhClusterReference;
  os_Repository : string;
  os_Indices : slice;
  os_IgnoreUnavailable : bool;
  os_IncludeGlobalState : bool;
  os_Partial : bool;
  os_WaitForCompletion : bool
}.

Record OpenSearchSnapshotStatus := {
  oss_Phase : string;
  oss_SnapshotName : string;
  oss_State : string;
  oss_StartTime : option Z;
  oss_EndTime : option Z;
  oss_Duration : string;
  oss_Indices : slice;
  oss_Shards : option ShardStats;
  oss_TotalSize : string;
  oss_Message : string;
  oss_Conditions : list Condition;
  oss_ObservedGeneration : Z
}.

Definition SnapshotPhaseInProgress : string := "InProgress".
Definition SnapshotPhasePending : string := "Pending".
Definition SnapshotPhaseCompleted : string := "Completed".
Definition SnapshotPhaseFailed : string := "Failed".
Definition SnapshotPhasePartial : string := "Partial".

Record OpenSearchRestoreSpec := {
  or_ClusterRef : WazuhClusterReference;
  or_Repository : string;
  or_Snapshot : string;
  or_Indices : slice;
  or_IgnoreUnavailable : bool;
  or_IncludeGlobalState : bool;
  or_RenamePattern : string;
  or_RenameReplacement : string;
  or_IndexSettings : gmap string string;
  or_Partial : bool;
  or_WaitForCompletion : bool
}.

Record OpenSearchRestoreStatus := {
  ors_Phase : string;
  ors_Message : string;
  ors_StartTime : option Z;
  ors_EndTime : option Z;
  ors_Duration : string;
  ors_RestoredIndices : slice;
  ors_Shards : option ShardStats;
  ors_Conditions : list Condition;
  ors_ObservedGeneration : Z
}.

Definition OpenSearchRestorePhasePending : string := "Pending".
Definition OpenSearchRestorePhaseValidating : string := "Validating".
Definition OpenSearchRestorePhaseInProgress : string := "InProgress".
Definition OpenSearchRestorePhaseCompleted : string := "Completed".
Definition OpenSearchRestorePhaseFailed : string := "Failed".

Definition ConditionTypeSnapshotComplete : string := "SnapshotComplete".
Definition ConditionTypeRestoreComplete : string := "RestoreComplete".

#[export] Instance snapshot_referring : Referring OpenSearchSnapshotSpec := os_ClusterRef.
#[export] Instance restore_referring : Referring OpenSearchRestoreSpec := or_ClusterRef.

(** ** Manual snapshots *)
Section Reconcilers.
Context {W : Type} `{!KubeClient W, !ClusterClient W} {RS : RestServer W} {SJ : SnapshotJSON} {CH : ConditionHelper}.
Context (sha256_hex : string -> string) (pem_ok : string -> bool) (clusterDomain : string).

(** The client for the object's reference. *)
Definition object_client {Spec Status} `{!Referring Spec} (o : custom Spec Status) : @FIO W ClientConfig :=
  io_wrap "failed to get OpenSearch client"
    (GetClientForRef sha256_hex pem_ok clusterDomain (ClusterRef (cu_Spec o)) (cu_Namespace o)).

Section Snapshot.
Context `{!CustomClient W OpenSearchSnapshotSpec OpenSearchSnapshotStatus}.

Definition snapshot_condition (phase : string) : string * string :=
  if bool_decide (phase = SnapshotPhaseCompleted) then ("True", "SnapshotComplete")
  else if bool_decide (phase = SnapshotPhaseFailed) then ("False", "SnapshotFailed")
  else if bool_decide (phase = SnapshotPhasePartial) then ("True", "SnapshotPartial")
  else ("False", "SnapshotInProgress").

Definition snapshot_status (now generation : Z) (phase state message : string) (s : OpenSearchSnapshotStatus)
    : OpenSearchSnapshotStatus :=
  {| oss_Phase := phase; oss_SnapshotName := oss_SnapshotName s;
     oss_State := if bool_decide (state = "") then oss_State s else state;
     oss_StartTime := oss_StartTime s; oss_EndTime := oss_EndTime s; oss_Duration := oss_Duration s;
     oss_Indices := oss_Indices s; oss_Shards := oss_Shards s; oss_TotalSize := oss_TotalSize s;
     oss_Message := message;
     oss_Conditions := SetStatusCondition now (oss_Conditions s)
       {| cn_Type := ConditionTypeSnapshotComplete; cn_Status := (snapshot_condition phase).1;
          cn_Reason := (snapshot_condition phase).2; cn_Message := message; cn_LastTransitionTime := 0;
          cn_ObservedGeneration := generation |};
     oss_ObservedGeneration := generation |}.

Definition update_snapshot (now : Z) (phase state message : string) : OIO unit :=
  modify_object (fun o =>
    set_custom_status (snapshot_status now (om_Generation (cu_Meta o)) phase state message (cu_Status o)) o) ;;;
  put_status.

Definition set_snapshot_name (name : string) (s : OpenSearchSnapshotStatus) : OpenSearchSnapshotStatus :=
  {| oss_Phase := oss_Phase s; oss_SnapshotName := name; oss_State := oss_State s; oss_StartTime := oss_StartTime s;
     oss_EndTime := oss_EndTime s; oss_Duration := oss_Duration s; oss_Indices := oss_Indices s;
     oss_Shards := oss_Shards s; oss_TotalSize := oss_TotalSize s; oss_Message := oss_Message s;
     oss_Conditions := oss_Conditions s; oss_ObservedGeneration := oss_ObservedGeneration s |}.
Definition set_snapshot_start (now : Z) (s : OpenSearchSnapshotStatus) : OpenSearchSnapshotStatus :=
  {| oss_Phase := oss_Phase s; oss_SnapshotName := oss_SnapshotName s; oss_State := oss_State s;
     oss_StartTime := Some now; oss_EndTime := oss_EndTime s; oss_Duration := oss_Duration s;
     oss_Indices := oss_Indices s; oss_Shards := oss_Shards s; oss_TotalSize := oss_TotalSize s;
     oss_Message := oss_Message s; oss_Conditions := oss_Conditions s;
     oss_ObservedGeneration := oss_ObservedGeneration s |}.
(** The end, and, when it is asked for and the start is known, the duration. *)
Definition set_snapshot_end (now : Z) (timed : bool) (s : OpenSearchSnapshotStatus) : OpenSearchSnapshotStatus :=
  {| oss_Phase := oss_Phase s; oss_SnapshotName := oss_SnapshotName s; oss_State := oss_State s;
     oss_StartTime := oss_StartTime s; oss_EndTime := Some now;
     oss_Duration := match oss_StartTime s with
                     | Some t => if timed then formatDuration (time_since now t) else oss_Duration s
                     | None => oss_Duration s
                     end;
     oss_Indices := oss_Indices s; oss_Shards := oss_Shards s; oss_TotalSize := oss_TotalSize s;
     oss_Message := oss_Message s; oss_Conditions := oss_Conditions s;
     oss_ObservedGeneration := oss_ObservedGeneration s |}.
Definition set_snapshot_info (info : Snapshot) (s : OpenSearchSnapshotStatus) : OpenSearchSnapshotStatus :=
  {| oss_Phase := oss_Phase s; oss_SnapshotName := oss_SnapshotName s; oss_State := sn_State info;
     oss_StartTime := oss_StartTime s; oss_EndTime := oss_EndTime s; oss_Duration := oss_Duration s;
     oss_Indices := sn_Indices info; oss_Shards := oss_Shards s; oss_TotalSize := oss_TotalSize s;
     oss_Message := oss_Message s; oss_Conditions := oss_Conditions s;
     oss_ObservedGeneration := oss_ObservedGeneration s |}.
Definition set_snapshot_size (shards : ShardStats) (size : string) (s : OpenSearchSnapshotStatus)
    : OpenSearchSnapshotStatus :=
  {| oss_Phase := oss_Phase s; oss_SnapshotName := oss_SnapshotName s; oss_State := oss_State s;
     oss_StartTime := oss_StartTime s; oss_EndTime := oss_EndTime s; oss_Duration := oss_Duration s;
     oss_Indices := oss_Indices s; oss_Shards := Some shards; oss_TotalSize := size;
     oss_Message := oss_Message s; oss_Conditions := oss_Conditions s;
     oss_ObservedGeneration := oss_ObservedGeneration s |}.

(** The phase and message of a state, and what happens to the times. *)
Definition snapshot_phase (state : string) : string * string :=
  if bool_decide (state = "IN_PROGRESS") then (SnapshotPhaseInProgress, "Snapshot in progress")
  else if bool_decide (state = "SUCCESS") then (SnapshotPhaseCompleted, "Snapshot completed successfully")
  else if bool_decide (state = "FAILED") then (SnapshotPhaseFailed, "Snapshot failed")
  else if bool_decide (state = "PARTIAL") then (SnapshotPhasePartial, "Snapshot completed with some failures")
  else (SnapshotPhaseInProgress, "Unknown state: " +:+ state).
Definition snapshot_times (now : Z) (state : string) (s : OpenSearchSnapshotStatus) : OpenSearchSnapshotStatus :=
  if bool_decide (state = "SUCCESS") || bool_decide (state = "PARTIAL") then set_snapshot_end now true s
  else if bool_decide (state = "FAILED") then set_snapshot_end now false s
  else s.

(** [updateSnapshotStatus] *)
Definition poll_snapshot (now : Z) (c : ClientConfig) : OIO unit :=
  s <- io_get ;;
  let o := s.1 in
  let name := oss_SnapshotName (cu_Status o) in
  let repo := os_Repository (cu_Spec o) in
  if bool_decide (name = "") then io_err "snapshot name not set"
  else
    try got <- ask (GetSnapshot c repo name) ;;
    match got with
    | Err e => update_snapshot now SnapshotPhaseFailed "" (errorf "Failed to get snapshot status" e)
    | Ok None => update_snapshot now SnapshotPhaseFailed "" "Snapshot not found in repository"
    | Ok (Some info) =>
        modify_status (set_snapshot_info info) ;;;
        try detail <- ask (GetSnapshotStatus c repo name) ;;
        match detail with
        | Ok (Some (st :: _)) =>
            match formatBytes (ss_TotalSizeInBytes st) with
            | Ok size => modify_status (set_snapshot_size (shards_of (ss_ShardsStats st)) size)
            | Err e => io_err e
            end
        | _ => io_ret tt
        end ;;;
        modify_status (snapshot_times now (sn_State info)) ;;;
        let phase := snapshot_phase (sn_State info) in
        update_snapshot now phase.1 (sn_State info) phase.2
    end.

Definition reconcile_snapshot (now : Z) : OIO unit :=
  s <- io_get ;;
  c <- io_world (object_client s.1) ;;
  let repository := os_Repository (cu_Spec s.1) in
  try repo <- ask (GetRepository c repository) ;;
  match repo with
  | Err e => update_snapshot now SnapshotPhaseFailed "" (errorf "Failed to check repository" e)
  | Ok None =>
      update_snapshot now SnapshotPhaseFailed "" ("Repository '" +:+ repository +:+ "' not found")
  | Ok (Some _) =>
      let name := if bool_decide (oss_SnapshotName (cu_Status s.1) = "")
                  then generateSnapshotName now (cu_Name s.1) else oss_SnapshotName (cu_Status s.1) in
      modify_status (set_snapshot_name name) ;;;
      try existing <- ask (GetSnapshot c repository name) ;;
      match existing with
      | Err e => update_snapshot now SnapshotPhaseFailed "" (errorf "Failed to check snapshot" e)
      | Ok (Some _) => poll_snapshot now c
      | Ok None =>
          modify_status (set_snapshot_start now) ;;;
          try written <- update_snapshot now SnapshotPhaseInProgress "" "Creating snapshot" ;;
          s <- io_get ;;
          try created <- ask (CreateSnapshot c (os_Repository (cu_Spec s.1)) name
                                {| sn_Snapshot := ""; sn_UUID := ""; sn_State := "";
                                   sn_Indices := os_Indices (cu_Spec s.1);
                                   sn_IncludeGlobalState := os_IncludeGlobalState (cu_Spec s.1) |}) ;;
          match created with
          | Err e => update_snapshot now SnapshotPhaseFailed "" (errorf "Failed to create snapshot" e)
          | Ok _ => poll_snapshot now c
          end
      end
  end.

Definition ManualSnapshotFinalizer : string := "opensearchsnapshot.resources.wazuh.com/finalizer".
Definition ManualSnapshotReconciler (now : Z) : OIO unit :=
  with_object_finalizer ManualSnapshotFinalizer (release ManualSnapshotFinalizer) (reconcile_snapshot now).
Definition snapshot_busy (s : OpenSearchSnapshotStatus) : bool :=
  bool_decide (oss_Phase s = SnapshotPhaseInProgress) || bool_decide (oss_Phase s = SnapshotPhasePending).
Definition OpenSearchSnapshotReconciler (now : Z) (namespace name : string) : @FIO W (option Z) :=
  reconcile_custom (ManualSnapshotReconciler now) (while_busy snapshot_busy) namespace name.
End Snapshot.

(** ** Restores *)
Section Restore.
Context `{!CustomClient W OpenSearchRestoreSpec OpenSearchRestoreStatus}.

Definition restore_condition (phase : string) : string * string :=
  if bool_decide (phase = OpenSearchRestorePhaseCompleted) then ("True", "RestoreComplete")
  else if bool_decide (phase = OpenSearchRestorePhaseFailed) then ("False", "RestoreFailed")
  else ("False", "RestoreInProgress").

Definition restore_status (now generation : Z) (phase message : string) (s : OpenSearchRestoreStatus)
    : OpenSearchRestoreStatus :=
  {| ors_Phase := phase; ors_Message := message; ors_StartTime := ors_StartTime s; ors_EndTime := ors_EndTime s;
     ors_Duration := ors_Duration s; ors_RestoredIndices := ors_RestoredIndices s; ors_Shards := ors_Shards s;
     ors_Conditions := SetStatusCondition now (ors_Conditions s)
       {| cn_Type := ConditionTypeRestoreComplete; cn_Status := (restore_condition phase).1;
          cn_Reason := (restore_condition phase).2; cn_Message := message; cn_LastTransitionTime := 0;
          cn_ObservedGeneration := generation |};
     ors_ObservedGeneration := generation |}.

Definition update_restore (now : Z) (phase message : string) : OIO unit :=
  modify_object (fun o =>
    set_custom_status (restore_status now (om_Generation (cu_Meta o)) phase message (cu_Status o)) o) ;;;
  put_status.

Definition set_restore_start (now : Z) (s : OpenSearchRestoreStatus) : OpenSearchRestoreStatus :=
  {| ors_Phase := ors_Phase s; ors_Message := ors_Message s; ors_StartTime := Some now; ors_EndTime := ors_EndTime s;
     ors_Duration := ors_Duration s; ors_RestoredIndices := ors_RestoredIndices s; ors_Shards := ors_Shards s;
     ors_Conditions := ors_Conditions s; ors_ObservedGeneration := ors_ObservedGeneration s |}.
Definition set_restore_end (now : Z) (s : OpenSearchRestoreStatus) : OpenSearchRestoreStatus :=
  {| ors_Phase := ors_Phase s; ors_Message := ors_Message s; ors_StartTime := ors_StartTime s;
     ors_EndTime := Some now;
     ors_Duration := match ors_StartTime s with
                     | Some t => formatDuration (time_since now t)
                     | None => ors_Duration s
                     end;
     ors_RestoredIndices := ors_RestoredIndices s; ors_Shards := ors_Shards s; ors_Conditions := ors_Conditions s;
     ors_ObservedGeneration := ors_ObservedGeneration s |}.
Definition set_restore_result (r : RestoreResult) (s : OpenSearchRestoreStatus) : OpenSearchRestoreStatus :=
  {| ors_Phase := ors_Phase s; ors_Message := ors_Message s; ors_StartTime := ors_StartTime s;
     ors_EndTime := ors_EndTime s; ors_Duration := ors_Duration s; ors_RestoredIndices := rr_Indices r;
     ors_Shards := Some (shards_of (rr_Shards r)); ors_Conditions := ors_Conditions s;
     ors_ObservedGeneration := ors_ObservedGeneration s |}.

Definition all_done (r : recovery) : bool :=
  forallb (fun '(_, stages) => forallb (fun stage => bool_decide (stage = "DONE")) stages) (map_to_list r).

(** The restore was started and there was nothing in it. *)
Definition nothing_restored (s : OpenSearchRestoreStatus) : bool :=
  is_some (ors_StartTime s) &&
  match ors_Shards s with Some sh => bool_decide (sh_Total sh = 0) | None => false end.

Definition monitorRestoreProgress (now : Z) (c : ClientConfig) : OIO unit :=
  s <- io_get ;;
  match elems (ors_RestoredIndices (cu_Status s.1)) with
  | [] =>
      if nothing_restored (cu_Status s.1) then
        modify_status (set_restore_end now) ;;;
        update_restore now OpenSearchRestorePhaseCompleted "Restore completed (no matching indices to restore)"
      else update_restore now OpenSearchRestorePhaseInProgress "Waiting for restore to start"
  | indexName :: _ =>
      try recovered <- ask (GetRestoreStatus c indexName) ;;
      match recovered with
      | Err _ => io_ret tt
      | Ok None => update_restore now OpenSearchRestorePhaseInProgress "Restore in progress"
      | Ok (Some r) =>
          if all_done r then
            modify_status (set_restore_end now) ;;;
            update_restore now OpenSearchRestorePhaseCompleted "Restore completed successfully"
          else update_restore now OpenSearchRestorePhaseInProgress "Restore in progress"
      end
  end.

(** The checks before a restore: why it cannot be done, if it cannot. *)
Definition validate_restore (spec : OpenSearchRestoreSpec) (c : ClientConfig) : IO W (option string) :=
  try repo <- GetRepository c (or_Repository spec) ;;
  match repo with
  | Err e => io_ret (Some (errorf "Failed to check repository" e))
  | Ok None => io_ret (Some ("Repository '" +:+ or_Repository spec +:+ "' not found"))
  | Ok (Some _) =>
      try snapshot <- GetSnapshot c (or_Repository spec) (or_Snapshot spec) ;;
      match snapshot with
      | Err e => io_ret (Some (errorf "Failed to check snapshot" e))
      | Ok None =>
          io_ret (Some ("Snapshot '" +:+ or_Snapshot spec +:+ "' not found in repository '" +:+
                        or_Repository spec +:+ "'"))
      | Ok (Some s) =>
          if negb (bool_decide (sn_State s = "SUCCESS")) && negb (bool_decide (sn_State s = "PARTIAL"))
          then io_ret (Some ("Snapshot is not in a restorable state: " +:+ sn_State s))
          else io_ret None
      end
  end.

Definition restore_options (spec : OpenSearchRestoreSpec) : RestoreOptions :=
  {| ro_Indices := or_Indices spec; ro_IgnoreUnavailable := or_IgnoreUnavailable spec;
     ro_IncludeGlobalState := or_IncludeGlobalState spec; ro_RenamePattern := or_RenamePattern spec;
     ro_RenameReplacement := or_RenameReplacement spec; ro_IndexSettings := JStr <$> or_IndexSettings spec;
     ro_Partial := or_Partial spec |}.

Definition restore_fresh (s : OpenSearchRestoreStatus) : bool :=
  bool_decide (ors_Phase s = "") || bool_decide (ors_Phase s = OpenSearchRestorePhasePending).

(** Starting the restore, then looking at it; [true] when the reconcile goes on
    to look. *)
Definition start_restore (now : Z) (c : ClientConfig) : OIO bool :=
  modify_status (set_restore_start now) ;;;
  try written <- update_restore now OpenSearchRestorePhaseInProgress "Restoring indices" ;;
  s <- io_get ;;
  let spec := cu_Spec s.1 in
  try restored <- ask (RestoreSnapshot c (or_Repository spec) (or_Snapshot spec) (restore_options spec)) ;;
  match restored with
  | Err e =>
      update_restore now OpenSearchRestorePhaseFailed (errorf "Failed to restore snapshot" e) ;;; io_ret false
  | Ok r => modify_status (set_restore_result r) ;;; io_ret true
  end.

Definition reconcile_restore (now : Z) : OIO unit :=
  s <- io_get ;;
  if bool_decide (ors_Phase (cu_Status s.1) = OpenSearchRestorePhaseCompleted) ||
     bool_decide (ors_Phase (cu_Status s.1) = OpenSearchRestorePhaseFailed) then io_ret tt
  else
    c <- io_world (object_client s.1) ;;
    goes_on <-
      (if restore_fresh (cu_Status s.1) then
         try written <- update_restore now OpenSearchRestorePhaseValidating "Validating snapshot and repository" ;;
         s <- io_get ;;
         refused <- ask (validate_restore (cu_Spec s.1) c) ;;
         match refused with
         | Some message => update_restore now OpenSearchRestorePhaseFailed message ;;; io_ret false
         | None => io_ret true
         end
       else io_ret true) ;;
    if negb goes_on then io_ret tt
    else
      s <- io_get ;;
      goes_on <- (if bool_decide (ors_Phase (cu_Status s.1) = OpenSearchRestorePhaseValidating)
                  then start_restore now c else io_ret true) ;;
      if negb goes_on then io_ret tt else monitorRestoreProgress now c.

Definition RestoreFinalizer : string := "opensearchrestore.resources.wazuh.com/finalizer".
Definition RestoreReconciler (now : Z) : OIO unit :=
  with_object_finalizer RestoreFinalizer (release RestoreFinalizer) (reconcile_restore now).
Definition restore_busy (s : OpenSearchRestoreStatus) : bool :=
  bool_decide (ors_Phase s = OpenSearchRestorePhaseInProgress) ||
  bool_decide (ors_Phase s = OpenSearchRestorePhasePending) ||
  bool_decide (ors_Phase s = OpenSearchRestorePhaseValidating).
Definition OpenSearchRestoreReconciler (now : Z) (namespace name : string) : @FIO W (option Z) :=
  reconcile_custom (RestoreReconciler now) (while_busy restore_busy) namespace name.
End Restore.
End Reconcilers.

(** ** Laws and lemmas *)

(** The status subresource stores the status it is sent and answers with the
    rest as it was sent, but for the metadata.  (Stored times have the
    resolution of a second: the law speaks of instants that have it.) *)
Class StatusEcho (W Spec Status : Type) `{!CustomClient W Spec Status} : Prop :=
  status_echo : forall o w o' w', update_custom_status o w = (Found o', w') ->
    cu_Name o' = cu_Name o /\ cu_Namespace o' = cu_Namespace o /\ cu_Spec o' = cu_Spec o /\
    cu_Status o' = cu_Status o.

Definition same_custom {Spec Status} (o o' : custom Spec Status) : Prop :=
  cu_Name o' = cu_Name o /\ cu_Namespace o' = cu_Namespace o /\ cu_Spec o' = cu_Spec o.

#[export] Instance same_custom_preorder {Spec Status} : PreOrder (same_custom (Spec := Spec) (Status := Status)).
Proof. split; [done|]. unfold same_custom. intros x y z (?&?&?) (?&?&?); split_and!; congruence. Qed.

Section Writes.
Context {W Spec Status : Type} `{!CustomClient W Spec Status, !StatusEcho W Spec Status}.

Lemma put_status_run (o : custom Spec Status) (f : factory) (w : W) :
  exists r o' w', put_status (o, (f, w)) = (r, (o', (f, w'))) /\ same_custom o o' /\ cu_Status o' = cu_Status o /\
    w' = (update_custom_status o w).2.
Proof.
  unfold put_status, io_bind, io_get, io_world, on_server, io_api, modify_object, io_modify. cbn [fst].
  destruct (update_custom_status o w) as [[o'|e] w'] eqn:E; cbn; rewrite E.
  - apply status_echo in E as (? & ? & ? & ?). by exists (Ok tt), o', w'.
  - by exists (Err (api_message e)), o, w'.
Qed.

Lemma ask_run {A} (m : IO W A) (o : custom Spec Status) f w :
  ask m (o, (f, w)) = ((m w).1, (o, (f, (m w).2))).
Proof. unfold ask, io_world. by destruct (m w). Qed.
End Writes.

(** *** Texts *)

Lemma byte_scale_exp fuel n div exp k :
  n < 1024 ^ Z.of_nat (S k) -> ((byte_scale fuel n div exp).2 <= exp + k)%nat.
Proof.
  revert n div exp k. induction fuel as [|fuel IH]; intros n div exp k Hn; cbn [byte_scale]; [cbn; lia|].
  case_bool_decide as Hb; [|cbn; lia]. destruct k as [|k]; [cbn in Hn; lia|].
  etrans; [apply (IH _ _ _ k)|lia]. rewrite Nat2Z.inj_succ, Z.pow_succ_r in Hn by lia.
  rewrite Z.quot_div_nonneg by lia. apply Z.div_lt_upper_bound; lia.
Qed.

(** sizes can always be printed.  Whatever 64-bit number of bytes the server
    reports, a unit is found for it: the six letters suffice, and the index is
    never out of range. *)
Theorem sizes_have_units bytes : int64 bytes -> exists text, formatBytes bytes = Ok text.
Proof.
  intros Hb. unfold formatBytes. case_bool_decide; [eauto|].
  assert (Hn : Z.quot bytes 1024 < 1024 ^ Z.of_nat 6).
  { rewrite Z.quot_div_nonneg by lia. apply Z.div_lt_upper_bound; [lia|]. unfold int64 in Hb. lia. }
  pose proof (byte_scale_exp 64 _ 1024 0 5 Hn) as He. destruct (byte_scale _ _ _ _) as [div exp].
  cbn [snd] in He. do 6 (destruct exp as [|exp]; [eauto|]). lia.
Qed.

(** snapshot names are apart.  Two generated names are equal only when the
    objects have the same name and the instants the same second: neither another
    object, whatever its name, nor a later second gives a name again (in years of
    four digits). *)
Theorem snapshot_names_apart now now' base base' :
  four_digit_year now -> four_digit_year now' ->
  generateSnapshotName now base = generateSnapshotName now' base' -> base = base' /\ now / Second = now' / Second.
Proof.
  unfold generateSnapshotName. intros Hy Hy' H.
  pose proof (f_equal String.length H) as Hl. rewrite !append_length, !Format_compact_length in Hl by done.
  apply append_inj_length in H as [-> H]; [|lia]. apply append_inj_length in H as [_ H]; [|done].
  split; [done|]. by apply Format_compact_inj.
Qed.

(** The rest of a duration is computed from the rounded-off part and is always
    about zero: a minute and a half is printed as two minutes. *)
Example durations_lose_seconds :
  (fun k => formatDuration (k * Second)) <$> [59; 90; 150; 3599; 5400; 90000]
  = ["59s"; "2m0s"; "2m0s"; "60m0s"; "2h0m"; "25h0m"].
Proof. by vm_compute. Qed.

(** Finding the client of an object reads clusters and secrets. *)
Section ClientKeeps.
Context {W Spec Status : Type} `{!KubeClient W, !ClusterClient W, !Referring Spec}.
Context (sha256_hex : string -> string) (pem_ok : string -> bool) (clusterDomain : string).
Context (R : W -> W -> Prop) `{!PreOrder R}.
Context (Hcluster : forall ns n w, R w (get_cluster ns n w).2) (Hsecret : forall ns n w, R w (get_secret ns n w).2).
#[local] Instance second_preorder : PreOrder (fun s s' : factory * W => R s.2 s'.2).
Proof. split; [intros s; reflexivity|intros x y z; apply transitivity]. Qed.

Lemma keeps_second {A} (m : IO W A) : keeps R m -> keeps (fun s s' : factory * W => R s.2 s'.2) (io_world m).
Proof. intros H [f w]. specialize (H w). unfold io_world. by destruct (m w). Qed.
Lemma keeps_reply {A} (m : API W A) : (forall w, R w (m w).2) -> keeps R (io_api m).
Proof. intros H w. specialize (H w). unfold io_api. by destruct (m w). Qed.

Lemma client_keeps (o : custom Spec Status) f w :
  R w (object_client sha256_hex pem_ok clusterDomain o (f, w)).2.2.
Proof.
  change (R (f, w).2 (object_client sha256_hex pem_ok clusterDomain o (f, w)).2.2). generalize (f, w) as s.
  change (keeps (fun s s' : factory * W => R s.2 s'.2) (object_client sha256_hex pem_ok clusterDomain o)).
  unfold object_client, GetClientForRef, GetClient, referenced_cluster, GetClientForCluster, getCredentials,
    getCACertificate.
  keeps_auto; try (apply keeps_second, keeps_reply; intros; done).
  all: apply keeps_modify; intros ?; cbn; reflexivity.
Qed.
End ClientKeeps.

(** *** Reading

    [reading R]: reads of the API server and of OpenSearch, and writes of the
    status, lead from a world to one that [R] relates to it. *)
Section Reading.
Context {W : Type} `{!KubeClient W, !ClusterClient W} {RS : RestServer W} {SJ : SnapshotJSON} {CH : ConditionHelper}.
Context (sha256_hex : string -> string) (pem_ok : string -> bool) (clusterDomain : string).
Context {Spec Status : Type} `{!Referring Spec, !CustomClient W Spec Status}.

Record reading (R : W -> W -> Prop) : Prop := {
  reading_order : PreOrder R;
  reading_cluster ns n w : R w (get_cluster ns n w).2;
  reading_secret ns n w : R w (get_secret ns n w).2;
  reading_get c path w : R w (rest_request c "GET" path None w).2;
  reading_custom ns n w : R w (get_custom (Spec := Spec) ns n w).2;
  reading_status (o : custom Spec Status) w : R w (update_custom_status o w).2
}.

Context (R : W -> W -> Prop) (HR : reading R).
#[local] Instance reading_preorder : PreOrder R := reading_order R HR.

Lemma reading_client (o : custom Spec Status) f w :
  R w (object_client sha256_hex pem_ok clusterDomain o (f, w)).2.2.
Proof. apply client_keeps; [exact _|apply HR..]. Qed.

Lemma reading_get_at {A} e (decode : string -> result A) c name w : R w (get_at e decode c name w).2.
Proof.
  revert w. change (keeps R (get_at e decode c name)). unfold get_at, call. keeps_auto; intros w; apply HR.
Qed.
Lemma reading_repository c name w : R w (GetRepository c name w).2.
Proof.
  revert w. change (keeps R (GetRepository c name)). unfold GetRepository. keeps_auto. intros w; apply reading_get_at.
Qed.
Lemma reading_snapshot c repo name w : R w (GetSnapshot c repo name w).2.
Proof.
  revert w. change (keeps R (GetSnapshot c repo name)). unfold GetSnapshot. keeps_auto. intros w; apply reading_get_at.
Qed.
Lemma reading_recovery c name w : R w (GetRestoreStatus c name w).2.
Proof.
  revert w. change (keeps R (GetRestoreStatus c name)). unfold GetRestoreStatus. keeps_auto.
  all: intros w; apply reading_get_at.
Qed.
Lemma reading_validation spec c w : R w (validate_restore spec c w).2.
Proof.
  revert w. change (keeps R (validate_restore spec c)). unfold validate_restore. keeps_auto.
  all: intros w; first [apply reading_repository|apply reading_snapshot].
Qed.
End Reading.

(** The world after reads and writes of the status only. *)
Definition only_reads {W Spec Status} `{!KubeClient W, !ClusterClient W} {RS : RestServer W}
    `{!CustomClient W Spec Status} (w w' : W) : Prop :=
  forall R, reading (Spec := Spec) (Status := Status) R -> R w w'.

Lemma only_reads_refl {W Spec Status} `{!KubeClient W, !ClusterClient W} {RS : RestServer W}
    `{!CustomClient W Spec Status} (w : W) : only_reads (Spec := Spec) (Status := Status) w w.
Proof. intros R HR. pose proof (reading_order _ HR). reflexivity. Qed.
Lemma only_reads_trans {W Spec Status} `{!KubeClient W, !ClusterClient W} {RS : RestServer W}
    `{!CustomClient W Spec Status} (w1 w2 w3 : W) :
  only_reads (Spec := Spec) (Status := Status) w1 w2 -> only_reads (Spec := Spec) (Status := Status) w2 w3 ->
  only_reads (Spec := Spec) (Status := Status) w1 w3.
Proof.
  intros H1 H2 R HR. pose proof (reading_order _ HR). etrans; [by apply H1|by apply H2].
Qed.

(** *** Restores *)
Section Restores.
Context {W : Type} `{!KubeClient W, !ClusterClient W} {RS : RestServer W} {SJ : SnapshotJSON} {CH : ConditionHelper}.
Context (sha256_hex : string -> string) (pem_ok : string -> bool) (clusterDomain : string).
Context `{!CustomClient W OpenSearchRestoreSpec OpenSearchRestoreStatus}.
Context `{!StatusEcho W OpenSearchRestoreSpec OpenSearchRestoreStatus}.
Abbreviation restore := (custom OpenSearchRestoreSpec OpenSearchRestoreStatus).
Abbreviation reads := (only_reads (Spec := OpenSearchRestoreSpec) (Status := OpenSearchRestoreStatus)).

Lemma update_restore_run now phase message (o : restore) (f : factory) (w : W) :
  exists r o' w', update_restore now phase message (o, (f, w)) = (r, (o', (f, w'))) /\ same_custom o o' /\
    cu_Status o' = restore_status now (om_Generation (cu_Meta o)) phase message (cu_Status o) /\
    reads w w'.
Proof.
  unfold update_restore, io_bind, modify_object, io_modify.
  destruct (put_status_run (set_custom_status (restore_status now (om_Generation (cu_Meta o)) phase message
                                                 (cu_Status o)) o) f w) as (r & o' & w' & E & Hs & Hst & ->).
  eexists r, o', _. split_and!; [exact E|exact Hs|exact Hst|]. intros R HR. apply HR.
Qed.

(** What the checks found. *)
Definition restorable (spec : OpenSearchRestoreSpec) (c : ClientConfig) (w w' : W) : Prop :=
  exists repo w1 s, GetRepository c (or_Repository spec) w = (Ok (Some repo), w1) /\
    GetSnapshot c (or_Repository spec) (or_Snapshot spec) w1 = (Ok (Some s), w') /\
    (sn_State s = "SUCCESS" \/ sn_State s = "PARTIAL").

Lemma validate_restorable spec c w w' :
  validate_restore spec c w = (Ok None, w') <-> restorable spec c w w'.
Proof.
  unfold validate_restore, restorable, io_try, io_ret. destruct (GetRepository _ _ w) as [[[repo|]|e] w1].
  2,3: split; [done|by intros (?&?&?&?&_)].
  destruct (GetSnapshot _ _ _ w1) as [[[s|]|e] w2] eqn:E.
  2,3: split; [done|intros (?&?&?&?&H&_); simplify_eq; congruence].
  split.
  - intros H. exists repo, w1, s. repeat case_bool_decide; cbn in H; simplify_eq; auto.
  - intros (?&?&?&?&H&Hs). simplify_eq. rewrite E in H. simplify_eq.
    destruct Hs as [->| ->]; done.
Qed.

(** What is left of a restore after a look at it. *)
Inductive looked_at (now : Z) (o : restore) : OpenSearchRestoreStatus -> Prop :=
| looked_nothing :
    elems (ors_RestoredIndices (cu_Status o)) = [] -> nothing_restored (cu_Status o) = true ->
    looked_at now o (restore_status now (om_Generation (cu_Meta o)) OpenSearchRestorePhaseCompleted
      "Restore completed (no matching indices to restore)" (set_restore_end now (cu_Status o)))
| looked_waiting :
    elems (ors_RestoredIndices (cu_Status o)) = [] -> nothing_restored (cu_Status o) = false ->
    looked_at now o (restore_status now (om_Generation (cu_Meta o)) OpenSearchRestorePhaseInProgress
      "Waiting for restore to start" (cu_Status o))
| looked_unknown : elems (ors_RestoredIndices (cu_Status o)) <> [] -> looked_at now o (cu_Status o)
| looked_going : elems (ors_RestoredIndices (cu_Status o)) <> [] ->
    looked_at now o (restore_status now (om_Generation (cu_Meta o)) OpenSearchRestorePhaseInProgress
      "Restore in progress" (cu_Status o))
| looked_done : elems (ors_RestoredIndices (cu_Status o)) <> [] ->
    looked_at now o (restore_status now (om_Generation (cu_Meta o)) OpenSearchRestorePhaseCompleted
      "Restore completed successfully" (set_restore_end now (cu_Status o))).

Lemma monitor_run now c (o : restore) (f : factory) (w : W) :
  exists r o' w', monitorRestoreProgress now c (o, (f, w)) = (r, (o', (f, w'))) /\ same_custom o o' /\
    looked_at now o (cu_Status o') /\
    reads w w'.
Proof.
  assert (Hup : forall o1 w1 ph msg, same_custom o o1 ->
    reads w w1 ->
    looked_at now o (restore_status now (om_Generation (cu_Meta o1)) ph msg (cu_Status o1)) ->
    exists r o' w', update_restore now ph msg (o1, (f, w1)) = (r, (o', (f, w'))) /\ same_custom o o' /\
      looked_at now o (cu_Status o') /\
      forall R, reading (Spec := OpenSearchRestoreSpec) (Status := OpenSearchRestoreStatus) R -> R w w').
  { intros o1 w1 ph msg Hs HR Hl. destruct (update_restore_run now ph msg o1 f w1) as (r & o' & w' & E & Hs' & Hst & HR').
    exists r, o', w'. split_and!; [exact E|by etrans|by rewrite Hst|by eapply only_reads_trans]. }
  assert (H0 : reads w w) by apply only_reads_refl.
  unfold monitorRestoreProgress, io_bind at 1, io_get. cbn [fst].
  destruct (elems (ors_RestoredIndices (cu_Status o))) as [|i l] eqn:Ei.
  - destruct (nothing_restored (cu_Status o)) eqn:En; [|apply Hup; [done|done|by constructor]].
    unfold io_bind, modify_status, modify_object, io_modify.
    apply Hup; [done|done|]. cbn. by constructor.
  - unfold io_try. rewrite ask_run.
    assert (HR1 : reads w (GetRestoreStatus c i w).2) by (intros R Hr; by eapply reading_recovery).
    assert (Hne : elems (ors_RestoredIndices (cu_Status o)) <> []) by (by rewrite Ei).
    destruct (GetRestoreStatus c i w) as [[[rec|]|e] w1]; cbn [fst snd] in *.
    + destruct (all_done rec); [|apply Hup; [done|done|by constructor]].
      unfold io_bind, modify_status, modify_object, io_modify. apply Hup; [done|done|]. cbn. by constructor.
    + apply Hup; [done|done|by constructor].
    + exists (Ok tt), o, w1. split_and!; [done|done|by constructor|done].
Qed.

Definition asks_restore (spec : OpenSearchRestoreSpec) (c : ClientConfig) : IO W RestoreResult :=
  RestoreSnapshot c (or_Repository spec) (or_Snapshot spec) (restore_options spec).

Definition started (now gen : Z) (res : RestoreResult) (s : OpenSearchRestoreStatus) : OpenSearchRestoreStatus :=
  set_restore_result res
    (restore_status now gen OpenSearchRestorePhaseInProgress "Restoring indices" (set_restore_start now s)).

Lemma start_run now c (o : restore) (f : factory) (w : W) :
  exists w1, reads w w1 /\
  let '(x, w2) := asks_restore (cu_Spec o) c w1 in
  match x with
  | Err e => exists r o' w', start_restore now c (o, (f, w)) = (r, (o', (f, w'))) /\ r <> Ok true /\
      same_custom o o' /\ reads w2 w' /\ ors_Phase (cu_Status o') = OpenSearchRestorePhaseFailed
  | Ok res => exists o' gen, start_restore now c (o, (f, w)) = (Ok true, (o', (f, w2))) /\ same_custom o o' /\
      cu_Status o' = started now gen res (cu_Status o)
  end.
Proof.
  set (o0 := set_custom_status (set_restore_start now (cu_Status o)) o).
  destruct (update_restore_run now OpenSearchRestorePhaseInProgress "Restoring indices" o0 f w)
    as (r1 & o1 & w1 & E1 & Hs1 & Hst1 & HR1).
  exists w1. split; [exact HR1|]. unfold start_restore.
  erewrite io_bind_run by reflexivity. erewrite io_try_run by exact E1.
  erewrite io_bind_run by reflexivity. cbv zeta. cbn [fst]. erewrite io_try_run by apply ask_run.
  assert (cu_Spec o1 = cu_Spec o) as -> by apply Hs1. fold (asks_restore (cu_Spec o) c).
  destruct (asks_restore (cu_Spec o) c w1) as [[res|e] w2]; cbn [fst snd].
  - eexists _, _. split_and!; [erewrite io_bind_run by reflexivity; done|exact Hs1|]. cbn. by rewrite Hst1.
  - destruct (update_restore_run now OpenSearchRestorePhaseFailed (errorf "Failed to restore snapshot" e) o1 f w2)
      as (r2 & o2 & w3 & E2 & Hs2 & Hst2 & HR2).
    unfold io_bind. rewrite E2. exists (match r2 with Ok _ => Ok false | Err e => Err e end), o2, w3.
    split_and!; [by destruct r2..| | |].
    + etrans; [exact Hs1|exact Hs2].
    + done.
    + by rewrite Hst2.
Qed.

(** The checks let a fresh restore pass, and it is then validating. *)
Lemma validation_run now c (o : restore) (f : factory) (w : W) :
  exists r o' w',
    (try written <- update_restore now OpenSearchRestorePhaseValidating "Validating snapshot and repository" ;;
     s <- io_get ;;
     refused <- ask (validate_restore (cu_Spec s.1) c) ;;
     match refused with
     | Some message => update_restore now OpenSearchRestorePhaseFailed message ;;; io_ret false
     | None => io_ret true
     end) (o, (f, w)) = (r, (o', (f, w'))) /\ same_custom o o' /\ reads w w' /\
    match r with
    | Ok true => ors_Phase (cu_Status o') = OpenSearchRestorePhaseValidating /\
                 (exists gen, cu_Status o' = restore_status now gen OpenSearchRestorePhaseValidating
                    "Validating snapshot and repository" (cu_Status o)) /\
                 exists w0, reads w w0 /\ restorable (cu_Spec o) c w0 w'
    | _ => ors_Phase (cu_Status o') = OpenSearchRestorePhaseFailed
    end.
Proof.
  destruct (update_restore_run now OpenSearchRestorePhaseValidating "Validating snapshot and repository" o f w)
    as (r1 & o1 & w1 & E1 & Hs1 & Hst1 & HR1).
  erewrite io_try_run by exact E1. erewrite io_bind_run by reflexivity. cbn [fst].
  pose proof (ask_run (validate_restore (cu_Spec o1) c) o1 f w1) as Ea.
  assert (HR2 : reads w1 (validate_restore (cu_Spec o1) c w1).2) by (intros R HR; by eapply reading_validation).
  assert (Hsp : cu_Spec o1 = cu_Spec o) by apply Hs1.
  destruct (validate_restore (cu_Spec o1) c w1) as [[[message|]|e] w2] eqn:Ev; cbn [fst snd] in *.
  - erewrite io_bind_run by exact Ea. destruct (update_restore_run now OpenSearchRestorePhaseFailed message o1 f w2)
      as (r2 & o2 & w3 & E2 & Hs2 & Hst2 & HR3).
    unfold io_bind. rewrite E2. exists (match r2 with Ok _ => Ok false | Err e => Err e end), o2, w3.
    split_and!; [by destruct r2|by etrans|by do 2 (eapply only_reads_trans; [done|])|].
    destruct r2; by rewrite Hst2.
  - erewrite io_bind_run by exact Ea. eexists _, o1, w2. split_and!; [done|done|by eapply only_reads_trans|].
    split_and!; [by rewrite Hst1|eauto|]. exists w1. split; [done|]. apply validate_restorable. by rewrite <-Hsp.
  - exfalso. revert Ev. unfold validate_restore, io_try, io_ret.
    destruct (GetRepository _ _ _) as [[[]|] ?]; [|congruence..].
    destruct (GetSnapshot _ _ _ _) as [[[]|] ?]; [|congruence..]. destruct (_ && _); congruence.
Qed.

Definition restore_finished (s : OpenSearchRestoreStatus) : bool :=
  bool_decide (ors_Phase s = OpenSearchRestorePhaseCompleted) || bool_decide (ors_Phase s = OpenSearchRestorePhaseFailed).

(** The ways of a reconcile; [o1] is the restore when it is asked for. *)
Inductive restore_run (now : Z) (o : restore) (w : W) : restore -> W -> Prop :=
| run_finished : restore_finished (cu_Status o) = true -> restore_run now o w o w
| run_no_client w' : restore_finished (cu_Status o) = false -> reads w w' -> restore_run now o w o w'
| run_refused o' w' : restore_fresh (cu_Status o) = true -> reads w w' -> same_custom o o' ->
    ors_Phase (cu_Status o') = OpenSearchRestorePhaseFailed -> restore_run now o w o' w'
| run_looked o' w' : restore_finished (cu_Status o) = false -> restore_fresh (cu_Status o) = false ->
    ors_Phase (cu_Status o) <> OpenSearchRestorePhaseValidating -> reads w w' -> same_custom o o' ->
    looked_at now o (cu_Status o') -> restore_run now o w o' w'
| run_asked o1 o' c w1 w2 x w3 w' :
    same_custom o o1 -> ors_RestoredIndices (cu_Status o1) = ors_RestoredIndices (cu_Status o) ->
    (if restore_fresh (cu_Status o) then exists w0, reads w w0 /\ restorable (cu_Spec o) c w0 w1
     else ors_Phase (cu_Status o) = OpenSearchRestorePhaseValidating /\ reads w w1) ->
    reads w1 w2 -> asks_restore (cu_Spec o) c w2 = (x, w3) -> reads w3 w' -> same_custom o o' ->
    match x with
    | Err e => ors_Phase (cu_Status o') = OpenSearchRestorePhaseFailed
    | Ok res => exists o2 gen, cu_Status o2 = started now gen res (cu_Status o1) /\ looked_at now o2 (cu_Status o')
    end ->
    restore_run now o w o' w'.

Lemma asked_run now c (o o1 : restore) f w w1 r o' s' :
  same_custom o o1 -> ors_RestoredIndices (cu_Status o1) = ors_RestoredIndices (cu_Status o) ->
  (if restore_fresh (cu_Status o) then exists w0, reads w w0 /\ restorable (cu_Spec o) c w0 w1
   else ors_Phase (cu_Status o) = OpenSearchRestorePhaseValidating /\ reads w w1) ->
  (goes_on <- start_restore now c ;;
   (if negb goes_on then io_ret tt else monitorRestoreProgress now c)) (o1, (f, w1)) = (r, (o', s')) ->
  restore_run now o w o' s'.2.
Proof.
  intros Hs Hi Hfresh. destruct (start_run now c o1 f w1) as (w2 & HR & Hx).
  assert (cu_Spec o1 = cu_Spec o) as Hsp by apply Hs. rewrite Hsp in Hx.
  destruct (asks_restore (cu_Spec o) c w2) as [[res|e] w3] eqn:Ea.
  - destruct Hx as (o2 & gen & E & Hs2 & Hst). erewrite io_bind_run by exact E. cbn [negb].
    destruct (monitor_run now c o2 f w3) as (r3 & o3 & w4 & E3 & Hs3 & Hl & HR3). rewrite E3.
    intros H. simplify_eq. eapply (run_asked _ _ _ o1); [done..|exact HR|exact Ea|done| |cbn; eauto].
    etrans; [exact Hs|]. by etrans.
  - destruct Hx as (r2 & o2 & w4 & E & Hne & Hs2 & HR2 & Hph).
    assert (Hend : forall r3 s3, (goes_on <- start_restore now c ;;
      (if negb goes_on then io_ret tt else monitorRestoreProgress now c)) (o1, (f, w1)) = (r3, s3) -> s3 = (o2, (f, w4))).
    { intros r3 s3. unfold io_bind. rewrite E. destruct r2 as [[|]|e2]; [done|..]; cbn; unfold io_ret; congruence. }
    intros H. apply Hend in H. simplify_eq. eapply (run_asked _ _ _ o1); [done..|exact HR|exact Ea|done| |done].
    by etrans.
Qed.

Lemma reconcile_restore_run now (o : restore) f w r o' s' :
  reconcile_restore sha256_hex pem_ok clusterDomain now (o, (f, w)) = (r, (o', s')) -> restore_run now o w o' s'.2.
Proof.
  unfold reconcile_restore. erewrite io_bind_run by reflexivity. cbn [fst]. fold (restore_finished (cu_Status o)).
  destruct (restore_finished (cu_Status o)) eqn:Ef; [unfold io_ret; intros; simplify_eq; by apply run_finished|].
  pose proof (fun R HR => reading_client sha256_hex pem_ok clusterDomain R HR o f w) as HRc.
  change (reads w (object_client sha256_hex pem_ok clusterDomain o (f, w)).2.2) in HRc.
  unfold io_bind at 1. unfold io_world at 1.
  destruct (object_client sha256_hex pem_ok clusterDomain o (f, w)) as [[c|e] [f1 w1]]; cbn [snd] in HRc.
  2: { intros; simplify_eq. by apply run_no_client. }
  destruct (restore_fresh (cu_Status o)) eqn:Efresh.
  - destruct (validation_run now c o f1 w1) as (r2 & o2 & w2 & E2 & Hs2 & HR2 & Hr2).
    unfold io_bind at 1. rewrite E2. destruct r2 as [[|]|e2].
    + cbn [negb]. destruct Hr2 as (Hph & (gen & Hst) & w0 & HR0 & Hok). erewrite io_bind_run by reflexivity.
      cbn [fst]. rewrite Hph. rewrite bool_decide_true by done. intros H. eapply asked_run; [done| | |exact H].
      * by rewrite Hst.
      * rewrite Efresh. exists w0. split; [by eapply only_reads_trans|done].
    + cbn. unfold io_ret. intros; simplify_eq. apply run_refused; [done|by eapply only_reads_trans|done..].
    + intros; simplify_eq. apply run_refused; [done|by eapply only_reads_trans|done..].
  - unfold io_ret at 1. erewrite io_bind_run by reflexivity. cbn [negb]. erewrite io_bind_run by reflexivity.
    cbn [fst]. case_bool_decide as Hv.
    + intros H. eapply asked_run; [done|done|by rewrite Efresh|exact H].
    + erewrite io_bind_run by reflexivity. cbn [negb].
      destruct (monitor_run now c o f1 w1) as (r3 & o3 & w4 & E3 & Hs3 & Hl & HR3). rewrite E3.
      intros; simplify_eq. apply run_looked; [done|done|done|by eapply only_reads_trans|done|done].
Qed.

(** C22: what leads to a restore.  A reconcile only reads and writes its status,
    except for at most one request to restore.  That request is sent in two
    cases: to a fresh object after the server has shown the repository and a
    complete or partial snapshot, and, unchecked, to an object found in the
    phase Validating. *)
Theorem restore_after_validation now (o : restore) f w r o' s' :
  reconcile_restore sha256_hex pem_ok clusterDomain now (o, (f, w)) = (r, (o', s')) ->
  reads w s'.2 \/
  exists c w1 w2 x w3,
    (if restore_fresh (cu_Status o) then exists w0, reads w w0 /\ restorable (cu_Spec o) c w0 w1
     else ors_Phase (cu_Status o) = OpenSearchRestorePhaseValidating /\ reads w w1) /\
    reads w1 w2 /\ asks_restore (cu_Spec o) c w2 = (x, w3) /\ reads w3 s'.2.
Proof.
  intros H%reconcile_restore_run. destruct H; eauto 12 using only_reads_refl.
Qed.

(** The server starts a restore in the background: its answer names neither
    indices nor shards. *)
Definition in_background : Prop :=
  forall spec c w res w', asks_restore spec c w = (Ok res, w') ->
    elems (rr_Indices res) = [] /\ as_Total (rr_Shards res) = 0.

Definition restore_starts (s : OpenSearchRestoreStatus) : bool :=
  restore_fresh s || bool_decide (ors_Phase s = OpenSearchRestorePhaseValidating).


(** A restore that was asked for, and whose answer was not kept. *)
Definition forgotten (s : OpenSearchRestoreStatus) : Prop :=
  ors_Phase s = OpenSearchRestorePhaseInProgress /\ elems (ors_RestoredIndices s) = [] /\ nothing_restored s = false.

Definition reconciled (o o' : restore) : Prop :=
  exists now f w r s', reconcile_restore sha256_hex pem_ok clusterDomain now (o, (f, w)) = (r, (o', s')).

(** a forgotten restore never ends.  The status that is stored before the
    request says InProgress and holds nothing else; when the answer is lost (the
    operator stops, or cannot write the status), no number of reconciles, on any
    states of the servers, leaves that phase, and the controller keeps coming
    back. *)
Theorem forgotten_restore_waits :
  (forall now gen message s, elems (ors_RestoredIndices s) = [] -> ors_Shards s = None ->
     forgotten (restore_status now gen OpenSearchRestorePhaseInProgress message (set_restore_start now s))) /\
  (forall o o' : restore, forgotten (cu_Status o) -> rtc reconciled o o' ->
     forgotten (cu_Status o') /\ restore_busy (cu_Status o') = true).
Proof.
  split.
  - intros now gen message s Hi Hs. split_and!; [done|done|]. unfold nothing_restored. cbn. by rewrite Hs.
  - intros o o' Ho H. assert (Hf : forgotten (cu_Status o')).
    + induction H as [|o1 o2 o3 (now & f & w & r & s' & H%reconcile_restore_run) _ IH]; [done|]. apply IH.
      destruct Ho as (Hp & Hi & Hn).
      destruct H as [| |o' w' Hfr _ _ _|o' w' _ _ _ _ _ Hl|o1' o' c w1 w2 x w3 w' _ _ Hph _ _ _ _ _]; [done..| | |].
      * unfold restore_fresh in Hfr. by rewrite Hp in Hfr.
      * destruct Hl; try done; congruence.
      * unfold restore_fresh in Hph. rewrite Hp in Hph. by destruct Hph.
    + split; [done|]. destruct Hf as [Hp _]. unfold restore_busy. by rewrite Hp.
Qed.
End Restores.

(** *** Manual snapshots *)
Section Snapshots.
Context {W : Type} `{!KubeClient W, !ClusterClient W} {RS : RestServer W} {SJ : SnapshotJSON} {CH : ConditionHelper}.
Context (sha256_hex : string -> string) (pem_ok : string -> bool) (clusterDomain : string).
Context `{!CustomClient W OpenSearchSnapshotSpec OpenSearchSnapshotStatus}.
Context `{!StatusEcho W OpenSearchSnapshotSpec OpenSearchSnapshotStatus}.
Abbreviation snapshot := (custom OpenSearchSnapshotSpec OpenSearchSnapshotStatus).

Lemma update_snapshot_run now phase state message (o : snapshot) (f : factory) (w : W) :
  exists r o' w', update_snapshot now phase state message (o, (f, w)) = (r, (o', (f, w'))) /\ same_custom o o' /\
    cu_Status o' = snapshot_status now (om_Generation (cu_Meta o)) phase state message (cu_Status o).
Proof.
  unfold update_snapshot. erewrite io_bind_run by reflexivity.
  destruct (put_status_run (set_custom_status (snapshot_status now (om_Generation (cu_Meta o)) phase state message
                                                 (cu_Status o)) o) f w) as (r & o' & w' & E & Hs & Hst & _).
  by exists r, o', w'.
Qed.

Definition ended (state : string) : Prop := state = "SUCCESS" \/ state = "PARTIAL" \/ state = "FAILED".

(** The status says what the server said of the snapshot. *)
Definition follows (now : Z) (info : Snapshot) (s : OpenSearchSnapshotStatus) : Prop :=
  oss_Phase s = (snapshot_phase (sn_State info)).1 /\ oss_State s = sn_State info /\
  oss_Indices s = sn_Indices info /\ (ended (sn_State info) -> oss_EndTime s = Some now).

Lemma follows_status now gen info (s : OpenSearchSnapshotStatus) :
  oss_State s = sn_State info -> oss_Indices s = sn_Indices info ->
  follows now info (snapshot_status now gen (snapshot_phase (sn_State info)).1 (sn_State info)
    (snapshot_phase (sn_State info)).2 (snapshot_times now (sn_State info) s)).
Proof.
  intros Hst Hi. unfold follows, snapshot_times. split_and!; [done| | |].
  - cbn. by repeat case_bool_decide.
  - cbn. by repeat case_bool_decide.
  - intros [H|[H|H]]; cbn; by rewrite H.
Qed.

(** The outcome of a look at the snapshot. *)
Definition polled (now : Z) (o : snapshot) (r : result unit) (o' : snapshot) (c : ClientConfig) (w : W) : Prop :=
  same_custom o o' /\ oss_SnapshotName (cu_Status o') = oss_SnapshotName (cu_Status o) /\
  (r = Ok tt ->
   match (GetSnapshot c (os_Repository (cu_Spec o)) (oss_SnapshotName (cu_Status o)) w).1 with
   | Ok (Some info) => follows now info (cu_Status o')
   | _ => oss_Phase (cu_Status o') = SnapshotPhaseFailed
   end).

Lemma poll_run now c (o : snapshot) (f : factory) (w : W) :
  exists r o' w', poll_snapshot now c (o, (f, w)) = (r, (o', (f, w'))) /\ polled now o r o' c w.
Proof.
  unfold poll_snapshot, polled. erewrite io_bind_run by reflexivity. cbn [fst].
  case_bool_decide as En; [by exists (Err "snapshot name not set"), o, w|].
  erewrite io_try_run by apply ask_run.
  destruct (GetSnapshot _ _ _ w) as [[[info|]|e] w1]; cbn [fst snd].
  - erewrite io_bind_run by reflexivity. set (o1 := set_custom_status (set_snapshot_info info (cu_Status o)) o).
    erewrite io_try_run by apply ask_run.
    destruct (GetSnapshotStatus _ _ _ w1) as [detail w2]; cbn [fst snd].
    assert (Hdetail : exists r1 o2, match detail with
        | Ok (Some (st :: _)) =>
            match formatBytes (ss_TotalSizeInBytes st) with
            | Ok size => modify_status (set_snapshot_size (shards_of (ss_ShardsStats st)) size)
            | Err e => io_err e
            end
        | _ => io_ret tt
        end (o1, (f, w2)) = (r1, (o2, (f, w2))) /\ same_custom o o2 /\
        oss_SnapshotName (cu_Status o2) = oss_SnapshotName (cu_Status o) /\
        oss_State (cu_Status o2) = sn_State info /\ oss_Indices (cu_Status o2) = sn_Indices info).
    { destruct detail as [[[|st l]|]|e]. 2: destruct (formatBytes _) as [size|e]. all: by eexists _, _. }
    destruct Hdetail as (r1 & o2 & E2 & Hs2 & Hn2 & Hst2 & Hi2).
    unfold io_bind at 1. rewrite E2. destruct r1 as [[]|e]; [|by exists (Err e), o2, w2].
    erewrite io_bind_run by reflexivity. set (o3 := set_custom_status (snapshot_times now (sn_State info) (cu_Status o2)) o2). cbv zeta.
    destruct (update_snapshot_run now (snapshot_phase (sn_State info)).1 (sn_State info)
                (snapshot_phase (sn_State info)).2 o3 f w2) as (r & o' & w' & E & Hs & Hst).
    exists r, o', w'. split_and!; [exact E|by etrans| |].
    + rewrite Hst. cbn. rewrite <-Hn2. unfold snapshot_times. by repeat case_bool_decide.
    + intros _. rewrite Hst. by apply follows_status.
  - destruct (update_snapshot_run now SnapshotPhaseFailed "" "Snapshot not found in repository" o f w1)
      as (r & o' & w' & E & Hs & Hst). exists r, o', w'. by rewrite Hst.
  - destruct (update_snapshot_run now SnapshotPhaseFailed "" (errorf "Failed to get snapshot status" e) o f w1)
      as (r & o' & w' & E & Hs & Hst). exists r, o', w'. by rewrite Hst.
Qed.

Abbreviation reads_snapshots := (only_reads (Spec := OpenSearchSnapshotSpec) (Status := OpenSearchSnapshotStatus)).

Lemma update_snapshot_reads now phase state message (o : snapshot) f w :
  reads_snapshots w (update_snapshot now phase state message (o, (f, w))).2.2.2.
Proof.
  unfold update_snapshot. erewrite io_bind_run by reflexivity.
  match goal with |- reads_snapshots _ (put_status (?x, _)).2.2.2 =>
    destruct (put_status_run x f w) as (r & o' & w' & -> & _ & _ & ->) end.
  intros R HR. apply HR.
Qed.

Lemma poll_reads now c (o : snapshot) (f : factory) (w : W) :
  reads_snapshots w (poll_snapshot now c (o, (f, w))).2.2.2.
Proof.
  unfold poll_snapshot. erewrite io_bind_run by reflexivity. cbn [fst].
  case_bool_decide; [apply only_reads_refl|]. erewrite io_try_run by apply ask_run.
  assert (H1 : reads_snapshots w (GetSnapshot c (os_Repository (cu_Spec o)) (oss_SnapshotName (cu_Status o)) w).2)
    by (intros R HR; by eapply reading_snapshot).
  destruct (GetSnapshot _ _ _ w) as [[[info|]|e] w1]; cbn [fst snd] in *.
  2,3: eapply only_reads_trans; [exact H1|apply update_snapshot_reads].
  erewrite io_bind_run by reflexivity. erewrite io_try_run by apply ask_run.
  assert (H2 : reads_snapshots w1
                 (GetSnapshotStatus c (os_Repository (cu_Spec o)) (oss_SnapshotName (cu_Status o)) w1).2)
    by (intros R HR; by eapply (reading_get_at _ HR)).
  destruct (GetSnapshotStatus _ _ _ w1) as [detail w2]; cbn [fst snd] in *.
  assert (H12 : reads_snapshots w w2) by (by eapply only_reads_trans).
  eapply only_reads_trans; [exact H12|].
  destruct detail as [[[|st l]|]|e]. 2: destruct (formatBytes _) as [size|e]; [|apply only_reads_refl].
  all: erewrite io_bind_run by reflexivity; erewrite io_bind_run by reflexivity; apply update_snapshot_reads.
Qed.

(** The name a reconcile works with. *)
Definition working_name (now : Z) (o : snapshot) : string :=
  if bool_decide (oss_SnapshotName (cu_Status o) = "") then generateSnapshotName now (cu_Name o)
  else oss_SnapshotName (cu_Status o).

Definition snapshot_request (o : snapshot) : Snapshot :=
  {| sn_Snapshot := ""; sn_UUID := ""; sn_State := ""; sn_Indices := os_Indices (cu_Spec o);
     sn_IncludeGlobalState := os_IncludeGlobalState (cu_Spec o) |}.

(** How a reconcile ends for the status. *)
Definition snapshot_outcome (now : Z) (o : snapshot) (r : result unit) (o' : snapshot) : Prop :=
  (oss_SnapshotName (cu_Status o') = oss_SnapshotName (cu_Status o) \/
   oss_SnapshotName (cu_Status o') = working_name now o) /\
  (r = Ok tt -> oss_Phase (cu_Status o') = SnapshotPhaseFailed \/ exists info, follows now info (cu_Status o')).

Lemma failed_outcome now (o o1 : snapshot) message f w r o' s' :
  oss_SnapshotName (cu_Status o1) = oss_SnapshotName (cu_Status o) \/
  oss_SnapshotName (cu_Status o1) = working_name now o ->
  update_snapshot now SnapshotPhaseFailed "" message (o1, (f, w)) = (r, (o', s')) ->
  snapshot_outcome now o r o' /\ reads_snapshots w s'.2.
Proof.
  intros Hn H. pose proof (update_snapshot_reads now SnapshotPhaseFailed "" message o1 f w) as HR. rewrite H in HR.
  destruct (update_snapshot_run now SnapshotPhaseFailed "" message o1 f w) as (r1 & o2 & w2 & E & _ & Hst).
  rewrite H in E. simplify_eq. split; [|done]. split; rewrite Hst; [done|by left].
Qed.

Lemma polled_outcome now (o o1 : snapshot) c f w r o' s' :
  oss_SnapshotName (cu_Status o1) = working_name now o ->
  poll_snapshot now c (o1, (f, w)) = (r, (o', s')) ->
  snapshot_outcome now o r o' /\ reads_snapshots w s'.2.
Proof.
  intros Hn H. pose proof (poll_reads now c o1 f w) as HR. rewrite H in HR.
  destruct (poll_run now c o1 f w) as (r1 & o3 & w5 & E & _ & Hn3 & Hp). rewrite H in E. simplify_eq.
  split; [|done]. split; [right; congruence|]. intros Hr. specialize (Hp Hr).
  destruct (GetSnapshot _ _ _ w).1 as [[info|]|]; eauto.
Qed.

(** Asking for the snapshot, from the world [w] to [w']. *)
Definition snapshot_asked (now : Z) (o : snapshot) (c : ClientConfig) (w w' : W) : Prop :=
  exists w1 x w2, reads_snapshots w w1 /\
    CreateSnapshot c (os_Repository (cu_Spec o)) (working_name now o) (snapshot_request o) w1 = (x, w2) /\
    reads_snapshots w2 w'.

Lemma create_outcome now (o o1 : snapshot) c f w r o' s' :
  cu_Spec o1 = cu_Spec o -> oss_SnapshotName (cu_Status o1) = working_name now o ->
  (modify_status (set_snapshot_start now) ;;;
   try written <- update_snapshot now SnapshotPhaseInProgress "" "Creating snapshot" ;;
   s <- io_get ;;
   try created <- ask (CreateSnapshot c (os_Repository (cu_Spec s.1)) (working_name now o) (snapshot_request s.1)) ;;
   match created with
   | Err e => update_snapshot now SnapshotPhaseFailed "" (errorf "Failed to create snapshot" e)
   | Ok _ => poll_snapshot now c
   end) (o1, (f, w)) = (r, (o', s')) ->
  snapshot_outcome now o r o' /\ snapshot_asked now o c w s'.2.
Proof.
  intros Hsp Hn. erewrite io_bind_run by reflexivity.
  set (o2 := set_custom_status (set_snapshot_start now (cu_Status o1)) o1).
  destruct (update_snapshot_run now SnapshotPhaseInProgress "" "Creating snapshot" o2 f w)
    as (r3 & o3 & w4 & E3 & Hs3 & Hst3).
  pose proof (update_snapshot_reads now SnapshotPhaseInProgress "" "Creating snapshot" o2 f w) as HR3.
  rewrite E3 in HR3. erewrite io_try_run by exact E3. erewrite io_bind_run by reflexivity. cbn [fst snd] in *.
  unfold snapshot_request. assert (cu_Spec o3 = cu_Spec o) as -> by (etrans; [apply Hs3|done]).
  fold (snapshot_request o). erewrite io_try_run by apply ask_run.
  assert (Hn3 : oss_SnapshotName (cu_Status o3) = working_name now o) by (by rewrite Hst3).
  destruct (CreateSnapshot _ _ _ _ w4) as [x w5] eqn:Ecr; cbn [fst snd]. intros H.
  assert (Hend : snapshot_outcome now o r o' /\ reads_snapshots w5 s'.2).
  { destruct x as [[]|e]; [by eapply polled_outcome|eapply failed_outcome; [by right|exact H]]. }
  destruct Hend as [Hout HR]. split; [done|]. by exists w4, x, w5.
Qed.

(** a snapshot is what the server says, every time.  The name, once given, is
    kept.  A reconcile that succeeds leaves the object Failed, or in the phase,
    state and indices of the server's answer, and the end of a snapshot that has
    ended is set to the time of this reconcile, whatever was recorded before.
    And whatever phase the object is in, Completed included, a snapshot that the
    repository does not have is asked for again, under the same name. *)
Theorem snapshot_follows_server now (o : snapshot) f w r o' s' :
  reconcile_snapshot sha256_hex pem_ok clusterDomain now (o, (f, w)) = (r, (o', s')) ->
  snapshot_outcome now o r o' /\
  (forall c f1 w1 repo w2 w3,
     object_client sha256_hex pem_ok clusterDomain o (f, w) = (Ok c, (f1, w1)) ->
     GetRepository c (os_Repository (cu_Spec o)) w1 = (Ok (Some repo), w2) ->
     GetSnapshot c (os_Repository (cu_Spec o)) (working_name now o) w2 = (Ok None, w3) ->
     snapshot_asked now o c w3 s'.2).
Proof.
  unfold reconcile_snapshot. erewrite io_bind_run by reflexivity. cbn [fst].
  unfold io_bind at 1. unfold io_world at 1.
  destruct (object_client sha256_hex pem_ok clusterDomain o (f, w)) as [[c|e] [f1 w1]].
  2: { intros; simplify_eq. split; [|done]. by split; [left|]. }
  cbv zeta. erewrite io_try_run by apply ask_run.
  destruct (GetRepository _ _ w1) as [[[repo|]|e] w2] eqn:Er; cbn [fst snd].
  2,3: intros H; eapply failed_outcome in H as [H _]; [|by left]; split; [done|]; intros; simplify_eq; congruence.
  fold (working_name now o). erewrite io_bind_run by reflexivity.
  set (o1 := set_custom_status (set_snapshot_name (working_name now o) (cu_Status o)) o).
  erewrite io_try_run by apply ask_run.
  destruct (GetSnapshot _ _ (working_name now o) w2) as [[[info|]|e] w3] eqn:Eg; cbn [fst snd].
  - intros H. eapply polled_outcome in H as [H _]; [|done]. split; [done|]. intros; simplify_eq; congruence.
  - intros H. apply (create_outcome now o) in H as [H1 H2]; [|done..]. split; [done|]. intros; simplify_eq; congruence.
  - intros H. eapply failed_outcome in H as [H _]; [|by right]. split; [done|]. intros; simplify_eq; congruence.
Qed.
End Snapshots.

(** ** Witnesses *)
Module SimSnapshots.
Record shelf := {
  h_restore : custom OpenSearchRestoreSpec OpenSearchRestoreStatus;
  h_snapshot : custom OpenSearchSnapshotSpec OpenSearchSnapshotStatus;
  (** the snapshots of the repository, by path *)
  h_taken : list string
}.
Definition world : Type := shelf * Sites.site.

Definition set_restore o h := {| h_restore := o; h_snapshot := h_snapshot h; h_taken := h_taken h |}.
Definition set_snapshot o h := {| h_restore := h_restore h; h_snapshot := o; h_taken := h_taken h |}.
Definition set_taken l h := {| h_restore := h_restore h; h_snapshot := h_snapshot h; h_taken := l |}.

#[global] Instance kube : KubeClient world := {
  get_statefulset ns n := lift_snd (get_statefulset ns n);
  update_statefulset s := lift_snd (update_statefulset s);
  list_pods ns l := lift_snd (list_pods ns l);
  delete_pod p := lift_snd (delete_pod p);
  get_secret ns n := lift_snd (get_secret ns n)
}.

#[global] Instance clusters : ClusterClient world := {
  get_cluster ns n w := (if bool_decide (n = "a") then Found (Sites.cluster "a" None) else Failed (NotFound n), w);
  update_cluster_status c w := (Found tt, w)
}.

#[global] Instance restores : CustomClient world OpenSearchRestoreSpec OpenSearchRestoreStatus := {
  get_custom ns n w := (Found (h_restore w.1), w);
  update_custom o w := (Found o, (set_restore o w.1, w.2));
  update_custom_status o w := (Found o, (set_restore o w.1, w.2))
}.
#[global] Instance snapshots : CustomClient world OpenSearchSnapshotSpec OpenSearchSnapshotStatus := {
  get_custom ns n w := (Found (h_snapshot w.1), w);
  update_custom o w := (Found o, (set_snapshot o w.1, w.2));
  update_custom_status o w := (Found o, (set_snapshot o w.1, w.2))
}.
#[global] Instance restores_echo : StatusEcho world OpenSearchRestoreSpec OpenSearchRestoreStatus.
Proof. intros o w o' w' H. cbn in H. by simplify_eq. Qed.
#[global] Instance snapshots_echo : StatusEcho world OpenSearchSnapshotSpec OpenSearchSnapshotStatus.
Proof. intros o w o' w' H. cbn in H. by simplify_eq. Qed.

(** One repository, [nightly]; what is taken has succeeded; restores run in the
    background. *)
#[global] Instance rest : RestServer world := fun c method path body w =>
  let reply code text := (Ok {| hr_StatusCode := code; hr_Body := text |}, w) in
  if bool_decide (method = "PUT")
  then (Ok {| hr_StatusCode := 200; hr_Body := "" |}, (set_taken (path :: h_taken w.1) w.1, w.2))
  else if bool_decide (method = "POST") then reply 200 "accepted"
  else if bool_decide (path = "/_snapshot/nightly") then reply 200 "repository"
  else if existsb (fun p => bool_decide (p = path)) (h_taken w.1) then reply 200 "SUCCESS"
  else reply 404 "".

#[global] Instance json : SnapshotJSON := {
  decode_repositories _ := Ok {["nightly" := {| repo_Type := "fs"; repo_Settings := ∅ |}]};
  decode_snapshots body := Ok [{| sn_Snapshot := ""; sn_UUID := ""; sn_State := body; sn_Indices := Some ["wazuh-1"];
                                  sn_IncludeGlobalState := false |}];
  decode_snapshot_infos _ := Ok [];
  decode_snapshot_status _ := Ok [];
  decode_verification _ := Ok tt;
  decode_restore _ := Ok {| rr_Indices := None; rr_Shards := no_shards |};
  decode_recovery _ := Ok None;
  decode_policy_info _ := Ok {| pi_SeqNo := 0; pi_PrimaryTerm := 0 |}
}.

#[global] Instance conditions : ConditionHelper := fun now l c => put_condition c l.

Definition object {S T} (finalizer name : string) (spec : S) (status : T) : custom S T :=
  {| cu_Name := name; cu_Namespace := "ns";
     cu_Meta := {| om_Generation := 1; om_Deleting := false; om_Finalizers := [finalizer] |};
     cu_Spec := spec; cu_Status := status |}.

Definition restore_in (phase : string) : custom OpenSearchRestoreSpec OpenSearchRestoreStatus :=
  object RestoreFinalizer "back"
    {| or_ClusterRef := SimRest.ref_to "a" ""; or_Repository := "nightly"; or_Snapshot := "monday"; or_Indices := None;
       or_IgnoreUnavailable := true; or_IncludeGlobalState := false; or_RenamePattern := "";
       or_RenameReplacement := ""; or_IndexSettings := ∅; or_Partial := false; or_WaitForCompletion := true |}
    {| ors_Phase := phase; ors_Message := ""; ors_StartTime := None; ors_EndTime := None; ors_Duration := "";
       ors_RestoredIndices := None; ors_Shards := None; ors_Conditions := []; ors_ObservedGeneration := 0 |}.

Definition snapshot_in (phase name : string) : custom OpenSearchSnapshotSpec OpenSearchSnapshotStatus :=
  object ManualSnapshotFinalizer "friday"
    {| os_ClusterRef := SimRest.ref_to "a" ""; os_Repository := "nightly"; os_Indices := None;
       os_IgnoreUnavailable := true; os_IncludeGlobalState := false; os_Partial := false;
       os_WaitForCompletion := true |}
    {| oss_Phase := phase; oss_SnapshotName := name; oss_State := "SUCCESS"; oss_StartTime := Some 0;
       oss_EndTime := Some (60 * Second); oss_Duration := "1m0s"; oss_Indices := None; oss_Shards := None;
       oss_TotalSize := ""; oss_Message := ""; oss_Conditions := []; oss_ObservedGeneration := 1 |}.

Definition start : world :=
  ({| h_restore := restore_in ""; h_snapshot := snapshot_in "Completed" "friday-1";
      h_taken := ["/_snapshot/nightly/monday"] |}, Sites.two_clusters).

Definition restore_once (now : Z) (o : custom OpenSearchRestoreSpec OpenSearchRestoreStatus) :=
  reconcile_restore Sites.sha Sites.pem Sites.dom now (o, (∅, start)).
Definition snapshot_once (now : Z) (o : custom OpenSearchSnapshotSpec OpenSearchSnapshotStatus) :=
  reconcile_snapshot Sites.sha Sites.pem Sites.dom now (o, (∅, start)).
End SimSnapshots.

Example sizes_have_units_witness : formatBytes 1536 = Ok "1.5 KiB" /\ exists text, formatBytes (2 ^ 63 - 1) = Ok text.
Proof. split; [vm_compute; reflexivity|apply sizes_have_units; vm_compute; split; [discriminate|reflexivity]]. Defined.

Example snapshot_names_apart_witness :
  generateSnapshotName 0 "a" = "a-19700101-000000" /\
  (generateSnapshotName 0 "a" = generateSnapshotName (Second - 1) "a" -> "a" = "a" /\ 0 / Second = (Second - 1) / Second).
Proof.
  split; [vm_compute; reflexivity|].
  apply snapshot_names_apart; vm_compute; (split; [discriminate|reflexivity]).
Defined.

(** A restore of Monday's snapshot is asked for after the checks. *)
Example restore_after_validation_witness :
  let run := SimSnapshots.restore_once 5 (SimSnapshots.restore_in "") in
  only_reads (Spec := OpenSearchRestoreSpec) (Status := OpenSearchRestoreStatus) SimSnapshots.start run.2.2.2 \/
  exists c w1 w2 x w3,
    (exists w0, only_reads (Spec := OpenSearchRestoreSpec) (Status := OpenSearchRestoreStatus) SimSnapshots.start w0 /\
       restorable (cu_Spec (SimSnapshots.restore_in "")) c w0 w1) /\
    only_reads (Spec := OpenSearchRestoreSpec) (Status := OpenSearchRestoreStatus) w1 w2 /\
    asks_restore (cu_Spec (SimSnapshots.restore_in "")) c w2 = (x, w3) /\
    only_reads (Spec := OpenSearchRestoreSpec) (Status := OpenSearchRestoreStatus) w3 run.2.2.2.
Proof.
  cbv zeta. apply (restore_after_validation Sites.sha Sites.pem Sites.dom 5 (SimSnapshots.restore_in "") ∅
    SimSnapshots.start (SimSnapshots.restore_once 5 (SimSnapshots.restore_in "")).1
    (SimSnapshots.restore_once 5 (SimSnapshots.restore_in "")).2.1).
  vm_compute. reflexivity.
Defined.


Definition SimForgotten : custom OpenSearchRestoreSpec OpenSearchRestoreStatus :=
  set_custom_status (restore_status 5 1 OpenSearchRestorePhaseInProgress "Restoring indices"
    (set_restore_start 5 (cu_Status (SimSnapshots.restore_in "")))) (SimSnapshots.restore_in "").

Example forgotten_restore_waits_witness :
  let run := SimSnapshots.restore_once 10 SimForgotten in
  ors_Message (cu_Status run.2.1) = "Waiting for restore to start" /\ restore_busy (cu_Status run.2.1) = true.
Proof.
  cbv zeta. split; [vm_compute; reflexivity|].
  destruct (forgotten_restore_waits (W := SimSnapshots.world) Sites.sha Sites.pem Sites.dom) as [H1 H2].
  apply (H2 SimForgotten); [apply H1; reflexivity|]. apply rtc_once.
  exists 10, ∅, SimSnapshots.start. eexists _, _. vm_compute. reflexivity.
Defined.

(** Friday's snapshot was completed and has left the repository: it is taken
    again. *)
Example snapshot_follows_server_witness :
  let o := SimSnapshots.snapshot_in "Completed" "friday-1" in
  let run := SimSnapshots.snapshot_once 90 o in
  run.1 = Ok tt /\ snapshot_outcome 90 o run.1 run.2.1 /\ oss_EndTime (cu_Status run.2.1) = Some 90.
Proof.
  cbv zeta. split; [vm_compute; reflexivity|]. split; [|vm_compute; reflexivity].
  apply (snapshot_follows_server Sites.sha Sites.pem Sites.dom 90 (SimSnapshots.snapshot_in "Completed" "friday-1") ∅
    SimSnapshots.start _ _ (SimSnapshots.snapshot_once 90 (SimSnapshots.snapshot_in "Completed" "friday-1")).2.2).
  vm_compute. reflexivity.
Defined.
