(* ===== verification/Repositories.v ===== *)
(** * Snapshot repositories and snapshot policies

    [snapshot_repository_reconciler.go], [snapshot_policy_reconciler.go] and
    their controllers, over the calls of [SnapshotAPI].  Their status is never
    written from the object at hand: it is read again, changed and written, by
    client-go's [retry.RetryOnConflict], which is the interface
    [ClientGoRetry]. *)
From S2P Require Import Prelude GoStrings GoFloat GoTime Kube Cluster DrainState ClientFactory ScaleDown ClusterStatus.
From S2P Require Import RestAPI OSResources SnapshotAPI Snapshots.
Local Open Scope string_scope.
Local Open Scope list_scope.
Local Open Scope go_scope.

(** ** client-go *)

(** [retry.RetryOnConflict(retry.DefaultRetry, fn)] *)
Class ClientGoRetry := on_conflict : forall S : Type, (S -> api_result unit * S) -> S -> api_result unit * S.

(** A run of [fn], and again while it ends in a conflict. *)
Inductive retried {S : Type} (fn : S -> api_result unit * S) : S -> api_result unit * S -> Prop :=
| retried_last s out : fn s = out -> retried fn s out
| retried_again s m s' out : fn s = (Failed (Conflict m), s') -> retried fn s' out -> retried fn s out.

(** Its documentation: the function runs until it succeeds or fails with
    another error than a conflict, or the attempts are used up. *)
Class RetriesOnConflict {CR : ClientGoRetry} : Prop :=
  retries_on_conflict : forall (S : Type) (fn : S -> api_result unit * S) s, retried fn s (on_conflict S fn s).

(** ** The status, read again *)
Section Latest.
Context {W Spec Status : Type} `{!CustomClient W Spec Status} {CR : ClientGoRetry}.

Definition write_latest (change : Status -> Status) (s : custom Spec Status * (factory * W))
    : api_result unit * (custom Spec Status * (factory * W)) :=
  let '(o, (f, w)) := s in
  match get_custom (cu_Namespace o) (cu_Name o) w with
  | (Failed e, w) => (Failed e, (o, (f, w)))
  | (Found latest, w) =>
      match update_custom_status (set_custom_status (change (cu_Status latest)) latest) w with
      | (Failed e, w) => (Failed e, (o, (f, w)))
      | (Found latest, w) => (Found tt, (set_custom_status (cu_Status latest) o, (f, w)))
      end
  end.

(** [updateStatus], and [updateRepositoryStatusWithRetry] *)
Definition update_latest (change : Status -> Status) : @OIO W Spec Status unit := fun s =>
  let '(r, s') := on_conflict _ (write_latest change) s in
  (match r with Found _ => Ok tt | Failed e => Err (api_message e) end, s').

End Latest.

(** ** Data *)

Record RepositoryCredentialsRef := { rc_Name : string; rc_AccessKeyKey : string; rc_SecretKeyKey : string }.

Record SnapshotRepositorySettings := {
  rs_Bucket : string;
  rs_BasePath : string;
  rs_Region : string;
  rs_Endpoint : string;
  rs_PathStyleAccess : bool;
  rs_Compress : bool;
  rs_ChunkSize : string;
  rs_MaxRestoreBytesPerSec : string;
  rs_MaxSnapshotBytesPerSec : string;
  rs_Location : string;
  rs_CredentialsSecret : option RepositoryCredentialsRef;
  rs_Container : string;
  rs_ServerSideEncryption : bool;
  rs_StorageClass : string;
  rs_CannedACL : string;
  rs_Protocol : string;
  rs_ReadOnly : bool;
  rs_Client : string;
  rs_UseKeystore : bool;
  rs_ApplicationName : string;
  rs_EndpointSuffix : string;
  rs_URI : string;
  rs_Path : string;
  rs_SecurityPrincipal : string;
  rs_HadoopConf : gmap string string
}.

Record OpenSearchSnapshotRepositorySpec := {
  orp_ClusterRef : WazuhClusterReference;
  orp_Type : string;
  orp_Settings : SnapshotRepositorySettings;
  orp_Verify : bool
}.

Record OpenSearchSnapshotRepositoryStatus := {
  rps_Phase : string;
  rps_Message : string;
  rps_Verified : bool;
  rps_LastVerifiedTime : option Z;
  rps_SnapshotCount : Z;
  rps_Conditions : list Condition;
  rps_ObservedGeneration : Z;
  rps_LastSyncTime : option Z
}.

Definition RepositoryPhaseCreating : string := "Creating".
Definition RepositoryPhaseVerifying : string := "Verifying".
Definition RepositoryPhaseReady : string := "Ready".
Definition RepositoryPhaseFailed : string := "Failed".

Definition RepositoryTypeS3 : string := "s3".
Definition RepositoryTypeAzure : string := "azure".
Definition RepositoryTypeFS : string := "fs".
Definition RepositoryTypeGCS : string := "gcs".
Definition RepositoryTypeHDFS : string := "hdfs".
Definition DefaultAccessKeyKey : string := "access-key".
Definition DefaultSecretKeyKey : string := "secret-key".
Definition ConditionTypeRepositoryReady : string := "RepositoryReady".

(** The parts of a policy; [api/v1] and the API have types of their own. *)
Record RepositorySettings := {
  pset_Location : string;
  pset_Bucket : string;
  pset_BasePath : string;
  pset_Compress : bool;
  pset_Region : string;
  pset_Endpoint : string;
  pset_CredentialsSecretRef : option (string * string)
}.
Record PolicyRepository := { pr_Name : string; pr_Type : string; pr_Settings : option RepositorySettings }.
Record PolicyConfig := {
  pc_Indices : slice;
  pc_IgnoreUnavailable : bool;
  pc_IncludeGlobalState : bool;
  pc_Partial : bool
}.
Record PolicySchedule := { psc_Expression : string; psc_Timezone : string }.
Record PolicyCreation := { pcr_Schedule : PolicySchedule; pcr_TimeLimit : string }.
Record DeletionCondition := { pd_MaxAge : string; pd_MaxCount : option Z; pd_MinCount : option Z }.
Record PolicyDeletion := { pdl_Schedule : option PolicySchedule; pdl_Condition : option DeletionCondition }.
Record NotificationConditions := { nc_Creation : bool; nc_Deletion : bool; nc_Failure : bool }.
Record SnapshotNotification := { sno_Channel : option string; sno_Conditions : option NotificationConditions }.

Record OpenSearchSnapshotPolicySpec := {
  osp_ClusterRef : WazuhClusterReference;
  osp_Description : string;
  osp_Repository : PolicyRepository;
  osp_SnapshotConfig : option PolicyConfig;
  osp_Creation : PolicyCreation;
  osp_Deletion : option PolicyDeletion;
  osp_Notification : option SnapshotNotification
}.

Definition OpenSearchResourcePhasePending : string := "Pending".
Definition SnapshotPolicyFinalizer : string := "opensearchsnapshotpolicy.resources.wazuh.com/finalizer".
Definition SnapshotRepositoryFinalizer : string := "opensearchsnapshotrepository.resources.wazuh.com/finalizer".

#[export] Instance repository_referring : Referring OpenSearchSnapshotRepositorySpec := orp_ClusterRef.
#[export] Instance snapshot_policy_referring : Referring OpenSearchSnapshotPolicySpec := osp_ClusterRef.

(** ** What is sent *)

(** A map of settings: the fields that are set. *)
Definition settings_of (fields : list (string * option json)) : gmap string json :=
  list_to_map (omap (fun '(k, v) => pair k <$> v) fields).

Definition common_settings (s : SnapshotRepositorySettings) : gmap string json :=
  settings_of
    [("bucket", omit_str (rs_Bucket s)); ("base_path", omit_str (rs_BasePath s));
     ("compress", omit_bool (rs_Compress s)); ("chunk_size", omit_str (rs_ChunkSize s));
     ("max_restore_bytes_per_sec", omit_str (rs_MaxRestoreBytesPerSec s));
     ("max_snapshot_bytes_per_sec", omit_str (rs_MaxSnapshotBytesPerSec s));
     ("readonly", omit_bool (rs_ReadOnly s));
     ("client", if bool_decide (rs_Client s = "default") then None else omit_str (rs_Client s))].

Definition hadoop_settings (conf : gmap string string) : gmap string json :=
  kmap (String.append "conf.") (JStr <$> conf).

Definition typed_settings (type : string) (s : SnapshotRepositorySettings) : gmap string json :=
  if bool_decide (type = RepositoryTypeS3) then
    settings_of
      [("region", omit_str (rs_Region s)); ("endpoint", omit_str (rs_Endpoint s));
       ("protocol", omit_str (rs_Protocol s)); ("path_style_access", omit_bool (rs_PathStyleAccess s));
       ("server_side_encryption", omit_bool (rs_ServerSideEncryption s));
       ("storage_class", omit_str (rs_StorageClass s)); ("canned_acl", omit_str (rs_CannedACL s))]
  else if bool_decide (type = RepositoryTypeFS) then settings_of [("location", omit_str (rs_Location s))]
  else if bool_decide (type = RepositoryTypeAzure) then
    settings_of [("container", omit_str (rs_Container s)); ("endpoint_suffix", omit_str (rs_EndpointSuffix s))]
  else if bool_decide (type = RepositoryTypeGCS) then
    settings_of [("application_name", omit_str (rs_ApplicationName s))]
  else if bool_decide (type = RepositoryTypeHDFS) then
    hadoop_settings (rs_HadoopConf s) ∪
    settings_of [("uri", omit_str (rs_URI s)); ("path", omit_str (rs_Path s));
                 ("security.principal", omit_str (rs_SecurityPrincipal s))]
  else ∅.

Definition credential_settings (type accessKey secretKey : string) : gmap string json :=
  if bool_decide (type = RepositoryTypeS3)
  then {["access_key" := JStr accessKey; "secret_key" := JStr secretKey]}
  else if bool_decide (type = RepositoryTypeAzure)
  then {["account" := JStr accessKey; "key" := JStr secretKey]}
  else ∅.

Definition policy_schedule (s : PolicySchedule) : CronSchedule :=
  {| cs_Expression := psc_Expression s; cs_Timezone := psc_Timezone s |}.
Definition delete_condition (c : DeletionCondition) : SnapshotDeleteCondition :=
  {| dc_MaxAge := pd_MaxAge c; dc_MaxCount := default 0 (pd_MaxCount c); dc_MinCount := default 0 (pd_MinCount c) |}.

Definition buildSnapshotPolicy (s : OpenSearchSnapshotPolicySpec) : SnapshotPolicy :=
  {| sp_Description := osp_Description s;
     sp_Creation := {| sc_Schedule := policy_schedule (pcr_Schedule (osp_Creation s));
                       sc_TimeLimit := pcr_TimeLimit (osp_Creation s) |};
     sp_Deletion := (fun d => {| sd_Schedule := policy_schedule <$> pdl_Schedule d;
                                 sd_Condition := delete_condition <$> pdl_Condition d |}) <$> osp_Deletion s;
     sp_SnapshotConfig := {| sf_Repository := pr_Name (osp_Repository s);
                             sf_Indices := match osp_SnapshotConfig s with
                                           | Some c => Join "," (elems (pc_Indices c))
                                           | None => ""
                                           end |};
     sp_Enabled := true |}.

(** ** Repositories *)
Section Reconcilers.
Context {W : Type} `{!KubeClient W, !ClusterClient W} {RS : RestServer W} {SJ : SnapshotJSON} {CH : ConditionHelper}
  {CR : ClientGoRetry}.
Context (sha256_hex : string -> string) (pem_ok : string -> bool) (clusterDomain : string).

Section Repository.
Context `{!CustomClient W OpenSearchSnapshotRepositorySpec OpenSearchSnapshotRepositoryStatus}.

Definition loadCredentials (namespace : string) (ref : RepositoryCredentialsRef) : IO W (string * string) :=
  secret <- io_wrap ("failed to get credentials secret " +:+ rc_Name ref) (io_api (get_secret namespace (rc_Name ref))) ;;
  let accessKeyKey := if bool_decide (rc_AccessKeyKey ref = "") then DefaultAccessKeyKey else rc_AccessKeyKey ref in
  let secretKeyKey := if bool_decide (rc_SecretKeyKey ref = "") then DefaultSecretKeyKey else rc_SecretKeyKey ref in
  match (secret : gmap string string) !! accessKeyKey with
  | None => io_err ("access key not found in secret " +:+ rc_Name ref +:+ " (key: " +:+ accessKeyKey +:+ ")")
  | Some accessKey =>
      match (secret : gmap string string) !! secretKeyKey with
      | None => io_err ("secret key not found in secret " +:+ rc_Name ref +:+ " (key: " +:+ secretKeyKey +:+ ")")
      | Some secretKey => io_ret (accessKey, secretKey)
      end
  end.

Definition buildRepositorySettings (namespace : string) (spec : OpenSearchSnapshotRepositorySpec)
    : IO W (gmap string json) :=
  let s := orp_Settings spec in
  let settings := typed_settings (orp_Type spec) s ∪ common_settings s in
  match rs_CredentialsSecret s with
  | Some ref =>
      if rs_UseKeystore s then io_ret settings
      else
        keys <- io_wrap "failed to load credentials" (loadCredentials namespace ref) ;;
        io_ret (credential_settings (orp_Type spec) keys.1 keys.2 ∪ settings)
  | None => io_ret settings
  end.

(** [updateStatus]: the parameter [verified] is false wherever it is called. *)
Definition repository_status (now : Z) (phase message : string) (s : OpenSearchSnapshotRepositoryStatus)
    : OpenSearchSnapshotRepositoryStatus :=
  {| rps_Phase := phase; rps_Message := message; rps_Verified := false;
     rps_LastVerifiedTime := rps_LastVerifiedTime s; rps_SnapshotCount := rps_SnapshotCount s;
     rps_Conditions := rps_Conditions s; rps_ObservedGeneration := rps_ObservedGeneration s;
     rps_LastSyncTime := Some now |}.

Definition repository_ready (now generation : Z) (verified : bool) (count : Z)
    (s : OpenSearchSnapshotRepositoryStatus) : OpenSearchSnapshotRepositoryStatus :=
  {| rps_Phase := RepositoryPhaseReady; rps_Message := "Repository is ready"; rps_Verified := verified;
     rps_LastVerifiedTime := if verified then Some now else rps_LastVerifiedTime s;
     rps_SnapshotCount := count;
     rps_Conditions := SetStatusCondition now (rps_Conditions s)
       {| cn_Type := ConditionTypeRepositoryReady; cn_Status := "True"; cn_Reason := "RepositoryReady";
          cn_Message := "Repository is ready and verified"; cn_LastTransitionTime := 0;
          cn_ObservedGeneration := generation |};
     rps_ObservedGeneration := generation; rps_LastSyncTime := Some now |}.

(** A step of the reconcile whose failure is reported. *)
Definition repository_step {A} (now : Z) (message context : string)
    (m : @OIO W OpenSearchSnapshotRepositorySpec OpenSearchSnapshotRepositoryStatus A)
    : @OIO W OpenSearchSnapshotRepositorySpec OpenSearchSnapshotRepositoryStatus A :=
  try r <- m ;;
  match r with
  | Ok a => io_ret a
  | Err e => try written <- update_latest (repository_status now RepositoryPhaseFailed (errorf message e)) ;;
             io_err (errorf context e)
  end.

Definition put_repository (now : Z) (c : ClientConfig) (name : string) (there : bool) (repo : Repository)
    : @OIO W OpenSearchSnapshotRepositorySpec OpenSearchSnapshotRepositoryStatus unit :=
  if there
  then repository_step now "Failed to update repository" "failed to update repository"
         (ask (UpdateRepository c name repo))
  else
    try written <- update_latest (repository_status now RepositoryPhaseCreating "Creating repository") ;;
    repository_step now "Failed to create repository" "failed to create repository"
      (ask (CreateRepository c name repo)).

Definition verify_repository (now : Z) (c : ClientConfig) (name : string)
    : @OIO W OpenSearchSnapshotRepositorySpec OpenSearchSnapshotRepositoryStatus unit :=
  try written <- update_latest (repository_status now RepositoryPhaseVerifying "Verifying repository") ;;
  repository_step now "Repository verification failed" "repository verification failed"
    (ask (VerifyRepository c name)).

Definition reconcile_repository (now : Z)
    : @OIO W OpenSearchSnapshotRepositorySpec OpenSearchSnapshotRepositoryStatus unit :=
  s <- io_get ;;
  let name := cu_Name s.1 in
  let spec := cu_Spec s.1 in
  c <- io_world (object_client sha256_hex pem_ok clusterDomain s.1) ;;
  existing <- repository_step now "Failed to check repository" "failed to check repository existence"
                (ask (GetRepository c name)) ;;
  settings <- repository_step now "Failed to build settings" "failed to build repository settings"
                (ask (buildRepositorySettings (cu_Namespace s.1) spec)) ;;
  put_repository now c name (bool_decide (is_Some existing))
    {| repo_Type := orp_Type spec; repo_Settings := settings |} ;;;
  (if rs_UseKeystore (orp_Settings spec)
   then try reloaded <- ask (ReloadSecureSettings c) ;; io_ret tt else io_ret tt) ;;;
  (if orp_Verify spec then verify_repository now c name else io_ret tt) ;;;
  try listed <- ask (ListSnapshots c name) ;;
  let count := match listed with Ok l => wrap32 (Z.of_nat (List.length l)) | Err _ => 0 end in
  s <- io_get ;;
  let desired := repository_ready now (om_Generation (cu_Meta s.1)) (orp_Verify spec) count (cu_Status s.1) in
  modify_status (fun _ => desired) ;;;
  io_wrap "failed to update status" (update_latest (fun _ => desired)).

Definition delete_repository : @OIO W OpenSearchSnapshotRepositorySpec OpenSearchSnapshotRepositoryStatus unit :=
  s <- io_get ;;
  try client <- io_world (object_client sha256_hex pem_ok clusterDomain s.1) ;;
  match client with
  | Err _ => io_ret tt
  | Ok c =>
      try listed <- ask (ListSnapshots c (cu_Name s.1)) ;;
      try deleted <- ask (DeleteRepository c (cu_Name s.1)) ;;
      io_ret tt
  end ;;;
  release SnapshotRepositoryFinalizer.

Definition SnapshotRepositoryReconciler (now : Z)
    : @OIO W OpenSearchSnapshotRepositorySpec OpenSearchSnapshotRepositoryStatus unit :=
  with_object_finalizer SnapshotRepositoryFinalizer delete_repository (reconcile_repository now).
Definition OpenSearchSnapshotRepositoryReconciler (now : Z) (namespace name : string) : @FIO W (option Z) :=
  reconcile_custom (SnapshotRepositoryReconciler now) (fun _ => None) namespace name.

(** The watch on secrets: the repositories of its namespace that refer to it. *)
Definition findRepositoriesForSecret (namespace secret : string)
    (repos : list (custom OpenSearchSnapshotRepositorySpec OpenSearchSnapshotRepositoryStatus))
    : list (string * string) :=
  omap (fun o => match rs_CredentialsSecret (orp_Settings (cu_Spec o)) with
                 | Some ref => if bool_decide (cu_Namespace o = namespace) && bool_decide (rc_Name ref = secret)
                               then Some (cu_Namespace o, cu_Name o) else None
                 | None => None
                 end) repos.
End Repository.

(** ** Policies *)
Section Policy.
Context `{!CustomClient W OpenSearchSnapshotPolicySpec ResourceStatus}.
(** The canonical JSON of a specification. *)
Context (canonical : OpenSearchSnapshotPolicySpec -> result string).

Definition isSnapshotPolicyVersionRequiredError (e : error) : bool :=
  Contains (ToLower e) "sequence number and primary term must be provided".

(** A double quote. *)
Definition quote : string := String (Ascii.ascii_of_nat 34) "".
Definition isSnapshotPolicyConflictError (e : error) : bool :=
  Contains (ToLower e) "version_conflict_engine_exception" ||
  Contains (ToLower e) (quote +:+ "status" +:+ quote +:+ ":409") ||
  Contains (ToLower e) "version conflict".

(** The attempts [attempt .. maxAttempts], [left] of them.  [current] is nil
    only if it was so at the start. *)
Fixpoint update_attempts (c : ClientConfig) (policyName : string) (p : SnapshotPolicy)
    (left : nat) (current : option SnapshotPolicyInfo) : IO W unit :=
  match left with
  | O => io_err "unexpected snapshot policy update retry termination"
  | S left' =>
      info <- match current with
              | Some info => io_ret info
              | None =>
                  latest <- io_wrap "failed to refresh snapshot policy metadata" (GetPolicyInfo c policyName) ;;
                  match latest with
                  | Some info => io_ret info
                  | None => io_err ("snapshot policy " +:+ policyName +:+ " not found during update")
                  end
              end ;;
      try put <- UpdateSnapshotPolicy c policyName p (pi_SeqNo info) (pi_PrimaryTerm info) ;;
      match put with
      | Ok _ => io_ret tt
      | Err e =>
          if negb (isSnapshotPolicyConflictError e) || bool_decide (left' = 0%nat) then io_err e
          else
            latest <- io_wrap "failed to refresh snapshot policy metadata after conflict"
                        (GetPolicyInfo c policyName) ;;
            match latest with
            | None => io_err ("snapshot policy " +:+ policyName +:+ " disappeared during conflict retry")
            | Some info => update_attempts c policyName p left' (Some info)
            end
      end
  end.
Definition maxAttempts : nat := 4.
Definition updateSnapshotPolicyWithRetry (c : ClientConfig) (policyName : string) (p : SnapshotPolicy)
    (info : SnapshotPolicyInfo) : IO W unit :=
  update_attempts c policyName p maxAttempts (Some info).

(** The creation; a policy that is there after all is updated. *)
Definition create_or_retry (c : ClientConfig) (policyName : string) (p : SnapshotPolicy) : IO W unit :=
  try created <- CreateSnapshotPolicy c policyName p ;;
  match created with
  | Ok _ => io_ret tt
  | Err e =>
      if isSnapshotPolicyVersionRequiredError e then
        try latest <- GetPolicyInfo c policyName ;;
        match latest with
        | Ok (Some info) => updateSnapshotPolicyWithRetry c policyName p info
        | _ => io_err e
        end
      else io_err e
  end.

Definition policy_status (now : Z) (phase message : string) : @OIO W OpenSearchSnapshotPolicySpec ResourceStatus unit :=
  update_latest (with_result now phase message).

(** A step of the reconcile whose failure is reported. *)
Definition policy_step {A} (now : Z) (message context : string)
    (m : @OIO W OpenSearchSnapshotPolicySpec ResourceStatus A) : @OIO W OpenSearchSnapshotPolicySpec ResourceStatus A :=
  try r <- m ;;
  match r with
  | Ok a => io_ret a
  | Err e => try written <- policy_status now OpenSearchResourcePhaseFailed (errorf message e) ;;
             io_err (errorf context e)
  end.

Definition repository_there (now : Z) (c : ClientConfig) (repoName : string)
    : @OIO W OpenSearchSnapshotPolicySpec ResourceStatus unit :=
  if bool_decide (repoName = "") then io_ret tt
  else
    repo <- policy_step now ("Failed to check repository '" +:+ repoName +:+ "'")
              ("failed to check repository '" +:+ repoName +:+ "'") (ask (GetRepository c repoName)) ;;
    match repo with
    | Some _ => io_ret tt
    | None =>
        try written <- policy_status now OpenSearchResourcePhasePending
                         ("Repository '" +:+ repoName +:+ "' not found - waiting for repository creation") ;;
        io_err ("repository '" +:+ repoName +:+ "' not found, will retry")
    end.

Definition reconcile_policy (now : Z) : @OIO W OpenSearchSnapshotPolicySpec ResourceStatus unit :=
  s <- io_get ;;
  let name := cu_Name s.1 in
  c <- io_world (object_client sha256_hex pem_ok clusterDomain s.1) ;;
  repository_there now c (pr_Name (osp_Repository (cu_Spec s.1))) ;;;
  info <- policy_step now "Failed to get snapshot policy" "failed to get snapshot policy"
            (ask (GetPolicyInfo c name)) ;;
  let p := buildSnapshotPolicy (cu_Spec s.1) in
  match info with
  | None => policy_step now "Failed to create snapshot policy" "failed to create snapshot policy"
              (ask (create_or_retry c name p))
  | Some info => policy_step now "Failed to update snapshot policy" "failed to update snapshot policy"
                   (ask (updateSnapshotPolicyWithRetry c name p info))
  end ;;;
  modify_object (fun o => set_custom_status (record_hash sha256_hex canonical now (cu_Spec o) (cu_Status o)) o) ;;;
  io_wrap "failed to update status"
    (policy_status now OpenSearchResourcePhaseReady "Snapshot policy reconciled successfully").

(** [Delete] *)
Definition delete_snapshot_policy : @OIO W OpenSearchSnapshotPolicySpec ResourceStatus unit :=
  s <- io_get ;;
  try client <- io_world (object_client sha256_hex pem_ok clusterDomain s.1) ;;
  match client with
  | Err _ => io_ret tt
  | Ok c => io_wrap "failed to delete snapshot policy" (ask (DeleteSnapshotPolicy c (cu_Name s.1)))
  end.
Definition policy_deletion : @OIO W OpenSearchSnapshotPolicySpec ResourceStatus unit :=
  try deleted <- delete_snapshot_policy ;;
  modify_object (drop_finalizer SnapshotPolicyFinalizer) ;;; update_object.

Definition SnapshotPolicyReconciler (now : Z) : @OIO W OpenSearchSnapshotPolicySpec ResourceStatus unit :=
  with_object_finalizer SnapshotPolicyFinalizer policy_deletion (reconcile_policy now).
Definition OpenSearchSnapshotPolicyReconciler (now : Z) (namespace name : string) : @FIO W (option Z) :=
  reconcile_custom (SnapshotPolicyReconciler now) (fun _ => None) namespace name.
End Policy.
End Reconcilers.

(** ** Lemmas *)

Lemma settings_of_lookup fields k v :
  settings_of fields !! k = Some v -> (k, Some v) ∈ fields.
Proof.
  unfold settings_of. intros H%elem_of_list_to_map_2. apply list_elem_of_omap in H as ([k' [v'|]] & Hin & H); simplify_eq/=.
  done.
Qed.

(** The keys of credentials. *)
Definition credential_keys (type : string) : list string :=
  if bool_decide (type = RepositoryTypeS3) then ["access_key"; "secret_key"]
  else if bool_decide (type = RepositoryTypeAzure) then ["account"; "key"]
  else [].
Definition secret_keys : list string := ["access_key"; "secret_key"; "account"; "key"].

Lemma plain_settings type s k :
  k ∈ secret_keys -> (typed_settings type s ∪ common_settings s) !! k = None.
Proof.
  intros Hk. apply eq_None_not_Some. intros [v H%lookup_union_Some_raw].
  assert (Hc : common_settings s !! k = Some v -> False).
  { intros Hv%settings_of_lookup. unfold secret_keys in *. set_solver. }
  destruct H as [H|[_ H]]; [|done]. unfold typed_settings in H.
  repeat case_bool_decide; [| | | | |by rewrite lookup_empty in H].
  5: apply lookup_union_Some_raw in H as [H|[_ H]].
  5: { apply lookup_kmap_Some in H as (k' & -> & _); [unfold secret_keys in Hk; set_solver|].
       by intros ???; simplify_eq/=. }
  all: apply settings_of_lookup in H; unfold secret_keys in *; set_solver.
Qed.

(** The key of the secret that is meant. *)
Definition key_or (key fallback : string) : string := if bool_decide (key = "") then fallback else key.

Section Credentials.
Context {W : Type} `{!KubeClient W}.

Lemma loadCredentials_ok ns ref w keys w' :
  loadCredentials ns ref w = (Ok keys, w') <->
  exists secret, get_secret ns (rc_Name ref) w = (Found secret, w') /\
    (secret : gmap string string) !! key_or (rc_AccessKeyKey ref) DefaultAccessKeyKey = Some keys.1 /\
    (secret : gmap string string) !! key_or (rc_SecretKeyKey ref) DefaultSecretKeyKey = Some keys.2.
Proof.
  unfold loadCredentials, io_bind, io_wrap, io_api. fold (key_or (rc_AccessKeyKey ref) DefaultAccessKeyKey).
  fold (key_or (rc_SecretKeyKey ref) DefaultSecretKeyKey).
  destruct (get_secret ns (rc_Name ref) w) as [[secret|e] w1]; cbn [wrapf];
    [|split; [done|by intros (? & ? & _)]].
  split.
  - intros H. cbv zeta in H. destruct (_ !! _) as [a|] eqn:Ha; [|done].
    destruct (_ !! key_or (rc_SecretKeyKey ref) _) as [b|] eqn:Hb; [|done].
    unfold io_ret in H. simplify_eq. by exists secret.
  - intros (secret' & Hg & Ha & Hb). simplify_eq. cbv zeta. rewrite Ha, Hb. by destruct keys.
Qed.

(** credentials are sent only in place of the keystore.  Built settings carry
    a key of credentials exactly when the resource names a secret, does not use
    the keystore, and has a type that takes credentials, and then the values are
    those of the secret; with the keystore, or without a secret, no secret is
    read.  (For the other types the secret is required and read, and nothing of
    it is sent.) *)
Theorem credentials_inline_only ns spec w settings w' :
  buildRepositorySettings ns spec w = (Ok settings, w') ->
  let s := orp_Settings spec in
  let inline ref := rs_CredentialsSecret s = Some ref /\ rs_UseKeystore s = false in
  (forall k, k ∈ secret_keys ->
     is_Some (settings !! k) <-> (exists ref, inline ref) /\ k ∈ credential_keys (orp_Type spec)) /\
  (forall ref, inline ref -> exists secret a b,
     get_secret ns (rc_Name ref) w = (Found secret, w') /\
     (secret : gmap string string) !! key_or (rc_AccessKeyKey ref) DefaultAccessKeyKey = Some a /\
     (secret : gmap string string) !! key_or (rc_SecretKeyKey ref) DefaultSecretKeyKey = Some b /\
     credential_settings (orp_Type spec) a b ⊆ settings) /\
  ((forall ref, ~ inline ref) -> w' = w).
Proof.
  intros H. cbv zeta. unfold buildRepositorySettings in H. cbv zeta in H.
  set (s := orp_Settings spec) in *. set (plain := typed_settings _ s ∪ common_settings s) in H.
  assert (Hplain : forall k, k ∈ secret_keys -> plain !! k = None) by (intros; by apply plain_settings).
  destruct (rs_CredentialsSecret s) as [ref|] eqn:Er; [destruct (rs_UseKeystore s) eqn:Ek|].
  1, 3: unfold io_ret in H; simplify_eq; split_and!; [|by intros ? []|done]; intros k Hk; rewrite Hplain by done;
    split; [by intros []|by intros ((? & ? & ?) & _)].
  apply io_bind_ok in H as (keys & w1 & (secret & Hg & Ha & Hb)%io_wrap_ok%loadCredentials_ok & H).
  unfold io_ret in H. simplify_eq. split_and!.
  - intros k Hk. rewrite lookup_union_is_Some, Hplain by done. unfold credential_settings, credential_keys.
    assert (Hno : forall P Q R : Prop, (P <-> R) -> Q -> (P \/ is_Some (None : option json)) <-> Q /\ R).
    { intros P Q R HP HQ. rewrite HP. split; [intros [?|[? ?]]; done|tauto]. }
    apply Hno; [|by exists ref]. repeat case_bool_decide.
    1, 2: rewrite lookup_insert_is_Some', lookup_singleton_is_Some, !elem_of_cons, elem_of_nil;
      (split; [intros [<-|<-]|intros [->|[->|[]]]]); auto.
    rewrite lookup_empty, elem_of_nil. by split; [intros []|].
  - intros ref' [? _]. simplify_eq. exists secret, keys.1, keys.2. split_and!; [done..|].
    apply map_union_subseteq_l.
  - intros Hn. by destruct (Hn ref).
Qed.
End Credentials.

(** *** Updating a policy *)
Section Updates.
Context {W : Type} {RS : RestServer W} {SJ : SnapshotJSON}.
Context (c : ClientConfig) (policyName : string) (p : SnapshotPolicy).

Definition put_policy (info : SnapshotPolicyInfo) : IO W unit :=
  UpdateSnapshotPolicy c policyName p (pi_SeqNo info) (pi_PrimaryTerm info).

(** A PUT that meets a conflict, and the version read after it. *)
Definition conflict_round : relation (SnapshotPolicyInfo * W) := fun s s' =>
  exists e w, put_policy s.1 s.2 = (Err e, w) /\ isSnapshotPolicyConflictError e = true /\
    GetPolicyInfo c policyName w = (Ok (Some s'.1), s'.2).

Lemma update_attempts_ok n info w w' :
  update_attempts c policyName p n (Some info) w = (Ok tt, w') <->
  exists k info' w1, (k < n)%nat /\ nsteps conflict_round k (info, w) (info', w1) /\ put_policy info' w1 = (Ok tt, w').
Proof.
  revert info w. induction n as [|n IH]; intros info w; cbn [update_attempts].
  { split; [done|]. intros (? & ? & ? & ? & _). lia. }
  erewrite io_bind_run by reflexivity. fold (put_policy info). unfold io_try.
  destruct (put_policy info w) as [[[]|e] w1] eqn:Ep.
  { split.
    - intros H. unfold io_ret in H. simplify_eq. exists 0%nat, info, w. split_and!; [lia|constructor|done].
    - intros (k & info' & w2 & _ & Hk & Hp). unfold io_ret.
      inversion Hk as [|? ? [i v] ? (e & w3 & He & _)]; simplify_eq/=; congruence. }
  assert (Hstep : forall Q : SnapshotPolicyInfo -> W -> Prop, (forall i v, isSnapshotPolicyConflictError e = true ->
            GetPolicyInfo c policyName w1 = (Ok (Some i), v) -> Q i v) ->
          forall i v, conflict_round (info, w) (i, v) -> Q i v).
  { intros Q HQ i v (e' & w2 & He & Hc & Hg). cbn [fst snd] in *. rewrite Ep in He. simplify_eq. eauto. }
  destruct (isSnapshotPolicyConflictError e) eqn:Ec; cbn [negb orb].
  2: { split; [done|]. intros (k & info' & w2 & _ & Hk & Hp).
       inversion Hk as [|? ? [i v] ? Hr]; simplify_eq/=; [congruence|].
       by apply (Hstep (fun _ _ => False)) in Hr. }
  case_bool_decide as Hn.
  { subst n. split; [done|]. intros (k & info' & w2 & Hlt & Hk & Hp).
    replace k with 0%nat in Hk by lia. inversion Hk; simplify_eq. congruence. }
  split.
  - intros (latest & w2 & Hg%io_wrap_ok & H)%io_bind_ok. destruct latest as [i|]; [|done].
    apply IH in H as (k & info' & w3 & Hlt & Hk & Hp). exists (S k), info', w3. split_and!; [lia| |done].
    econstructor; [|done]. by exists e, w1.
  - intros (k & info' & w2 & Hlt & Hk & Hp). inversion Hk as [|k' ? [i v] ? Hr Hk']; simplify_eq/=; [congruence|].
    apply (Hstep (fun i v => GetPolicyInfo c policyName w1 = (Ok (Some i), v))) in Hr; [|done].
    apply io_bind_ok. exists (Some i), v. split; [by apply io_wrap_ok|]. apply IH.
    exists k', info', w2. split_and!; [lia|done..].
Qed.

(** an update of a policy gives way to at most three others.  It succeeds
    exactly when one of its PUTs is accepted: the first with the version it was
    handed, and, after each conflict, of which there were three at most, one with
    the version just read again.  Any other error, a policy that is gone and a
    fourth conflict are failures, and nothing is sent after a PUT is accepted. *)
Theorem policy_update_verdict info w w' :
  updateSnapshotPolicyWithRetry c policyName p info w = (Ok tt, w') <->
  exists k info' w1, (k <= 3)%nat /\ nsteps conflict_round k (info, w) (info', w1) /\ put_policy info' w1 = (Ok tt, w').
Proof.
  unfold updateSnapshotPolicyWithRetry, maxAttempts. rewrite update_attempts_ok.
  by setoid_rewrite (Nat.lt_succ_r _ 3).
Qed.
End Updates.

(** *** The status, read again *)
Section LatestLaws.
Context {W Spec Status : Type} `{!CustomClient W Spec Status} {CR : ClientGoRetry} {RL : RetriesOnConflict}.

Lemma on_conflict_rule {S : Type} (fn : S -> api_result unit * S) (I : S -> Prop) (Q : api_result unit * S -> Prop) s :
  I s -> (forall s, I s -> Q (fn s) /\ (forall m s', fn s = (Failed (Conflict m), s') -> I s')) ->
  Q (on_conflict S fn s).
Proof.
  intros Hs Hfn. induction (retries_on_conflict S fn s) as [s out <-|s m s' out E _ IH].
  - by apply Hfn.
  - apply IH. by eapply Hfn.
Qed.

Lemma latest_keeps (R : W -> W -> Prop) `{!PreOrder R} (change : Status -> Status) :
  (forall o f w, R w (write_latest (Spec := Spec) change (o, (f, w))).2.2.2) ->
  keeps (fun s s' : custom Spec Status * (factory * W) => R s.2.2 s'.2.2) (update_latest change).
Proof.
  intros Hput s. unfold update_latest.
  pose proof (on_conflict_rule (write_latest change) (fun s' => R s.2.2 s'.2.2) (fun out => R s.2.2 out.2.2.2) s) as Hr.
  destruct (on_conflict _ _ s) as [r s']. apply Hr; [reflexivity|].
  intros [o [f w]] Hs. cbn [snd] in Hs. specialize (Hput o f w). split; [by etrans|].
  intros m s1 E. rewrite E in Hput. by etrans.
Qed.

Lemma write_latest_run `{!StatusEcho W Spec Status} (change : Status -> Status) (o : custom Spec Status) (f : factory) (w : W) :
  exists r o' w', write_latest change (o, (f, w)) = (r, (o', (f, w'))) /\
    ((r = Found tt /\ exists st, o' = set_custom_status (change st) o) \/ (exists e, r = Failed e) /\ o' = o).
Proof.
  unfold write_latest. destruct (get_custom _ _ w) as [[latest|e] w1]; [|eexists _, _, _; split; [done|eauto]].
  destruct (update_custom_status _ w1) as [[l|e] w2] eqn:E; eexists _, _, _; (split; [done|]); [|eauto].
  apply status_echo in E as (_ & _ & _ & ->). left. eauto.
Qed.

(** The object at hand changes in its status only, and only by what was written. *)
Lemma update_latest_run `{!StatusEcho W Spec Status} (change : Status -> Status) (o : custom Spec Status) (f : factory) (w : W) :
  exists r o' w', update_latest change (o, (f, w)) = (r, (o', (f, w'))) /\
    ((r = Ok tt /\ exists st, o' = set_custom_status (change st) o) \/ (exists e, r = Err e) /\ o' = o).
Proof.
  unfold update_latest.
  assert (Hc : exists r o' w', on_conflict _ (write_latest change) (o, (f, w)) = (r, (o', (f, w'))) /\
    ((r = Found tt /\ exists st, o' = set_custom_status (change st) o) \/ (exists e, r = Failed e) /\ o' = o)).
  { apply (on_conflict_rule _ (fun s => exists w, s = (o, (f, w))) (fun out => exists r o' w', out = _ /\ _)); [eauto|].
    intros s [w0 ->]. destruct (write_latest_run change o f w0) as (r & o' & w' & E & Hr). split.
    - by exists r, o', w'.
    - intros m s' E'. rewrite E' in E. simplify_eq. destruct Hr as [[? _]|[_ ->]]; [done|eauto]. }
  destruct Hc as (r & o' & w' & E & Hr). rewrite E. eexists _, o', w'. split; [done|].
  destruct Hr as [[-> ?]|[[e ->] ->]]; eauto.
Qed.
End LatestLaws.

(** ** Drift of policies *)

(** Where the status of the objects of one kind is kept: the status subresource
    writes it, an update of the object leaves it (or, with the last finalizer,
    deletes the object), and nothing else touches it. *)
Class StatusStore (W Spec Status : Type) `{!KubeClient W, !ClusterClient W} {RS : RestServer W}
    `{!CustomClient W Spec Status} := {
  status_of : string -> string -> W -> option Status;
  store_found ns n w (o : custom Spec Status) w' : get_custom ns n w = (Found o, w') ->
    cu_Namespace o = ns /\ cu_Name o = n /\ status_of ns n w' = Some (cu_Status o);
  store_get ns n w ns' n' : status_of ns' n' (get_custom (Spec := Spec) ns n w).2 = status_of ns' n' w;
  store_put (o : custom Spec Status) w ns n :
    status_of ns n (update_custom_status o w).2 = status_of ns n w \/
    ns = cu_Namespace o /\ n = cu_Name o /\ status_of ns n (update_custom_status o w).2 = Some (cu_Status o);
  store_update (o : custom Spec Status) w ns n :
    status_of ns n (update_custom o w).2 = status_of ns n w \/ status_of ns n (update_custom o w).2 = None;
  store_request c method path body w ns n : status_of ns n (rest_request c method path body w).2 = status_of ns n w;
  store_cluster ns n w ns' n' : status_of ns' n' (get_cluster ns n w).2 = status_of ns' n' w;
  store_secret ns n w ns' n' : status_of ns' n' (get_secret ns n w).2 = status_of ns' n' w
}.

(** What a status remembers of drift. *)
Definition memory (st : ResourceStatus) : string * bool * option Z * Z :=
  (rst_LastAppliedHash st, rst_DriftDetected st, rst_LastDriftTime st, rst_ObservedGeneration st).

Section Drift.
Context {W : Type} `{!KubeClient W, !ClusterClient W} {RS : RestServer W} {SJ : SnapshotJSON}
  {CR : ClientGoRetry} {RL : RetriesOnConflict}.
Context (sha256_hex : string -> string) (pem_ok : string -> bool) (clusterDomain : string).
Context (canonical : OpenSearchSnapshotPolicySpec -> result string).
Context {CC : CustomClient W OpenSearchSnapshotPolicySpec ResourceStatus}.
Context `{!StatusStore W OpenSearchSnapshotPolicySpec ResourceStatus}.

(** Every status that is still there remembers what it did. *)
Definition remembers (w w' : W) : Prop := forall ns n,
  memory <$> status_of ns n w' = memory <$> status_of ns n w \/ status_of ns n w' = None.
Definition same_statuses (w w' : W) : Prop := forall ns n, status_of ns n w' = status_of ns n w.

#[local] Instance remembers_preorder : PreOrder remembers.
Proof.
  split; [by left|]. intros x y z H1 H2 ns n. destruct (H2 ns n) as [E|E]; [|by right].
  rewrite E. destruct (H1 ns n) as [E1|E1]; [by left|].
  right. rewrite E1 in E. by destruct (status_of ns n z).
Qed.
Lemma same_remembers w w' : same_statuses w w' -> remembers w w'.
Proof. intros Hs ns n. left. by rewrite Hs. Qed.

#[local] Abbreviation Rw := (fun s s' : custom OpenSearchSnapshotPolicySpec ResourceStatus * (factory * W) =>
  remembers s.2.2 s'.2.2).
#[local] Instance Rw_preorder : PreOrder Rw.
Proof. split; [intros s; reflexivity|intros x y z; apply transitivity]. Qed.

Lemma ask_remembers {A} (m : IO W A) : keeps remembers m -> keeps Rw (ask m).
Proof. intros Hm [o [f w]]. rewrite ask_run. apply Hm. Qed.
Lemma request_remembers c method path body : keeps remembers (rest_request c method path body).
Proof. intros w. apply same_remembers. intros ns n. apply store_request. Qed.
#[local] Hint Resolve request_remembers ask_remembers : keeps.

Lemma policy_status_remembers now phase message : keeps Rw (policy_status (W := W) now phase message).
Proof.
  unfold policy_status. apply latest_keeps; [exact _|]. intros o f w. unfold write_latest.
  pose proof (store_get (cu_Namespace o) (cu_Name o) w) as Hg.
  destruct (get_custom _ _ w) as [[latest|e] w1] eqn:E; cbn [snd] in Hg; [|by apply same_remembers].
  apply store_found in E as (Hns & Hn & Hst).
  set (o1 := set_custom_status _ latest). pose proof (store_put o1 w1) as Hp.
  destruct (update_custom_status o1 w1) as [r w2]. cbn [snd] in Hp.
  enough (remembers w w2) by (by destruct r). intros ns n. left.
  destruct (Hp ns n) as [->|(-> & -> & ->)]; [by rewrite Hg|].
  cbn [cu_Namespace cu_Name set_custom_status o1]. by rewrite <-(Hg), Hns, Hn, Hst.
Qed.
Lemma modify_remembers g : keeps Rw (modify_object (W := W) g).
Proof. intros [o [f w]]. cbn. reflexivity. Qed.
#[local] Hint Resolve modify_remembers : keeps.
Lemma update_object_remembers : keeps Rw (update_object (W := W)).
Proof.
  unfold update_object. keeps_auto. intros [o' [f w]]. unfold io_world, on_server, io_api.
  pose proof (store_update a.1 w) as Hu. unfold io_world. destruct (update_custom a.1 w) as [[x|e] w1]; cbn in *;
    intros ns n; destruct (Hu ns n) as [E|E]; rewrite E; auto.
Qed.
Lemma client_remembers (o : custom OpenSearchSnapshotPolicySpec ResourceStatus) :
  keeps Rw (io_world (object_client sha256_hex pem_ok clusterDomain o)).
Proof.
  intros [o' [f w]]. unfold io_world.
  pose proof (client_keeps sha256_hex pem_ok clusterDomain remembers
    (fun ns n w => same_remembers _ _ (fun ns' n' => store_cluster ns n w ns' n'))
    (fun ns n w => same_remembers _ _ (fun ns' n' => store_secret ns n w ns' n')) o f w) as Hc.
  by destruct (object_client _ _ _ o (f, w)) as [r [f' w']].
Qed.
#[local] Hint Resolve policy_status_remembers update_object_remembers client_remembers : keeps.

Lemma updates_remember c name p n info : keeps remembers (update_attempts c name p n info).
Proof.
  revert info. induction n as [|n IH]; intros info; cbn [update_attempts]; [apply keeps_err; exact _|].
  unfold GetPolicyInfo, UpdateSnapshotPolicy, get_at, call. keeps_auto.
Qed.
#[local] Hint Resolve updates_remember : keeps.

Lemma policy_reconciler_remembers now : keeps Rw (SnapshotPolicyReconciler sha256_hex pem_ok clusterDomain canonical now).
Proof.
  unfold SnapshotPolicyReconciler, with_object_finalizer, policy_deletion, delete_snapshot_policy, reconcile_policy,
    repository_there, policy_step.
  keeps_auto; apply ask_remembers;
    unfold DeleteSnapshotPolicy, delete_at, GetRepository, GetPolicyInfo, create_or_retry, CreateSnapshotPolicy,
      updateSnapshotPolicyWithRetry, GetPolicyInfo, get_at, call; keeps_auto.
Qed.

(** A reconcile of a policy, or anything else, such as an edit of a
    specification, that leaves the statuses. *)
Definition policy_event (w w' : W) : Prop :=
  (exists now ns n (f : factory) r f', OpenSearchSnapshotPolicyReconciler sha256_hex pem_ok clusterDomain canonical now ns n (f, w)
     = (r, (f', w'))) \/ same_statuses w w'.

Lemma policy_event_remembers w w' : policy_event w w' -> remembers w w'.
Proof.
  intros [(now & ns & n & f & r & f' & E)|Hs]; [|by apply same_remembers].
  unfold OpenSearchSnapshotPolicyReconciler, reconcile_custom, io_bind, io_world, io_outcome in E.
  assert (Hg : remembers w (get_custom (Spec := OpenSearchSnapshotPolicySpec) ns n w).2)
    by (apply same_remembers; intros ??; apply store_get).
  destruct (get_custom ns n w) as [[o|e] w1]; cbn [snd] in Hg.
  - pose proof (policy_reconciler_remembers now (o, (f, w1))) as Hk.
    destruct (SnapshotPolicyReconciler _ _ _ _ _ (o, (f, w1))) as [r1 [o1 [f1 w2]]]. cbn [fst snd] in Hk. simplify_eq.
    by etrans.
  - destruct (IsNotFound e); unfold io_ret, io_err in E; by simplify_eq.
Qed.

(** C23: drift of a policy is never recorded.  The reconcile computes the hash of
    the specification and compares it with the last one, but the status it then
    writes is the one it reads again: whatever reconciles and edits happen, the
    hash, the drift flag, the time of drift and the observed generation in the
    status of a policy stay what they were.  A policy is created without a hash,
    so none is ever found to have drifted. *)
Theorem policy_drift_never_recorded w w' ns n st st' :
  rtc policy_event w w' -> status_of ns n w = Some st -> status_of ns n w' = Some st' ->
  memory st' = memory st.
Proof.
  intros Hr E E'. assert (Hw : remembers w w').
  { clear E E'. induction Hr as [w|w1 w2 w3 H1 _ IH]; [reflexivity|]. etrans; [by apply policy_event_remembers|done]. }
  destruct (Hw ns n) as [Hm|Hm]; [|congruence]. rewrite E, E' in Hm. by apply (inj Some) in Hm.
Qed.
End Drift.

(** ** Repositories *)
Section Ready.
Context {W : Type} `{!KubeClient W, !ClusterClient W} {RS : RestServer W} {SJ : SnapshotJSON} {CH : ConditionHelper}
  {CR : ClientGoRetry} {RL : RetriesOnConflict}.
Context (sha256_hex : string -> string) (pem_ok : string -> bool) (clusterDomain : string).
Context {CC : CustomClient W OpenSearchSnapshotRepositorySpec OpenSearchSnapshotRepositoryStatus}.
Context `{!StatusEcho W OpenSearchSnapshotRepositorySpec OpenSearchSnapshotRepositoryStatus}.
Abbreviation repository := (custom OpenSearchSnapshotRepositorySpec OpenSearchSnapshotRepositoryStatus).
Abbreviation reads :=
  (only_reads (Spec := OpenSearchSnapshotRepositorySpec) (Status := OpenSearchSnapshotRepositoryStatus)).

Lemma latest_reads change (o : repository) (f : factory) (w : W) : reads w (update_latest change (o, (f, w))).2.2.2.
Proof.
  intros R HR. pose proof (reading_order _ HR). revert o f w.
  assert (Hk : keeps (fun s s' : repository * (factory * W) => R s.2.2 s'.2.2) (update_latest change)).
  { apply latest_keeps; [exact _|]. intros o f w. unfold write_latest.
    pose proof (reading_custom _ HR (cu_Namespace o) (cu_Name o) w) as Hg.
    destruct (get_custom _ _ w) as [[l|e] w1]; [|done]. etrans; [exact Hg|]. cbn [snd].
    pose proof (reading_status _ HR (set_custom_status (change (cu_Status l)) l) w1) as Hs.
    by destruct (update_custom_status _ w1) as [[?|?] ?]. }
  intros o f w. apply (Hk (o, (f, w))).
Qed.

(** A status written on the way. *)
Lemma touch_run change (o : repository) (f : factory) (w : W) :
  exists r st w', update_latest change (o, (f, w)) = (r, (set_custom_status st o, (f, w'))) /\ reads w w' /\
    (r = Ok tt -> exists st', st = change st').
Proof.
  destruct (update_latest_run change o f w) as (r & o' & w' & E & Hr). pose proof (latest_reads change o f w) as Hw.
  rewrite E in Hw |- *. destruct Hr as [[-> [st ->]]|[[e ->] ->]].
  - exists (Ok tt), (change st), w'. split_and!; [done..|eauto].
  - exists (Err e), (cu_Status o), w'. split_and!; [by destruct o|done..].
Qed.

Lemma repository_step_ok {A} now message context (m : IO W A) (o : repository) (f : factory) (w : W) a s' :
  repository_step now message context (ask m) (o, (f, w)) = (Ok a, s') ->
  exists w', m w = (Ok a, w') /\ s' = (o, (f, w')).
Proof.
  unfold repository_step. erewrite io_try_run by apply ask_run. destruct (m w) as [[x|e] w1]; cbn [fst snd].
  - unfold io_ret. intros. simplify_eq. eauto.
  - unfold io_try. by destruct (update_latest _ _).
Qed.

Lemma verify_ok now c name (o : repository) (f : factory) (w : W) s' :
  verify_repository now c name (o, (f, w)) = (Ok tt, s') ->
  exists st w1 w2, reads w w1 /\ VerifyRepository c name w1 = (Ok tt, w2) /\ s' = (set_custom_status st o, (f, w2)).
Proof.
  unfold verify_repository. set (ch := repository_status _ _ _). destruct (touch_run ch o f w) as (r & st & w1 & E & Hw & _).
  erewrite io_try_run by exact E. intros (w2 & Hv & ->)%repository_step_ok. by exists st, w1, w2.
Qed.

Lemma put_ok now c name there repo (o : repository) (f : factory) (w : W) s' :
  put_repository now c name there repo (o, (f, w)) = (Ok tt, s') ->
  exists st w1 w2, reads w w1 /\ CreateRepository c name repo w1 = (Ok tt, w2) /\ s' = (set_custom_status st o, (f, w2)).
Proof.
  unfold put_repository. destruct there.
  - intros (w2 & Hv & ->)%repository_step_ok. exists (cu_Status o), w, w2.
    split_and!; [apply only_reads_refl|exact Hv|by destruct o].
  - set (ch := repository_status _ _ _). destruct (touch_run ch o f w) as (r & st & w1 & E & Hw & _).
    erewrite io_try_run by exact E. intros (w2 & Hv & ->)%repository_step_ok. by exists st, w1, w2.
Qed.

(** The settings are built and the repository is put, with reads before each. *)
Definition repository_put (o : repository) (c : ClientConfig) (w w' : W) : Prop :=
  exists w1 settings w2 w3, reads w w1 /\
    buildRepositorySettings (cu_Namespace o) (cu_Spec o) w1 = (Ok settings, w2) /\ reads w2 w3 /\
    CreateRepository c (cu_Name o) {| repo_Type := orp_Type (cu_Spec o); repo_Settings := settings |} w3 = (Ok tt, w').

Definition ready_status (now : Z) (o : repository) (s : OpenSearchSnapshotRepositoryStatus) : Prop :=
  rps_Phase s = RepositoryPhaseReady /\ rps_Verified s = orp_Verify (cu_Spec o) /\
  rps_ObservedGeneration s = om_Generation (cu_Meta o) /\ rps_LastSyncTime s = Some now /\
  (orp_Verify (cu_Spec o) = true -> rps_LastVerifiedTime s = Some now).

(** a repository is ready once the server has it.  When a reconcile ends
    without error, the server has accepted, after nothing but reads, the
    repository with the settings that were built from the specification and the
    secret, has verified it if that is asked for, and the status that was written
    last says Ready, and verified exactly if verification is asked for. *)
Theorem repository_ready_after_put now (o : repository) (f : factory) (w : W) o' s' :
  reconcile_repository sha256_hex pem_ok clusterDomain now (o, (f, w)) = (Ok tt, (o', s')) ->
  exists c f1 w1 w2,
    object_client sha256_hex pem_ok clusterDomain o (f, w) = (Ok c, (f1, w1)) /\
    repository_put o c w1 w2 /\
    (orp_Verify (cu_Spec o) = true -> exists w3 w4, VerifyRepository c (cu_Name o) w3 = (Ok tt, w4)) /\
    ready_status now o (cu_Status o').
Proof.
  unfold reconcile_repository. erewrite io_bind_run by reflexivity. cbv zeta. cbn [fst].
  intros (c & s1 & Hc & H)%io_bind_ok. apply io_world_ok in Hc as ([f1 w1] & -> & Hc).
  apply io_bind_ok in H as (existing & s2 & Hg & H). apply repository_step_ok in Hg as (w2 & Hg & ->).
  apply io_bind_ok in H as (settings & s3 & Hb & H). apply repository_step_ok in Hb as (w3 & Hb & ->).
  apply io_bind_ok in H as ([] & s4 & Hp & H). apply put_ok in Hp as (st & w4 & w5 & Hr & Hp & ->).
  exists c, f1, w1, w5. split; [done|]. split.
  { exists w2, settings, w3, w4. split_and!; [|done..]. intros R HR.
    pose proof (reading_repository R HR c (cu_Name o) w1) as Hx. by rewrite Hg in Hx. }
  apply io_bind_ok in H as ([] & s5 & Hk & H).
  assert (exists w6, s5 = (set_custom_status st o, (f1, w6))) as [w6 ->].
  { destruct (rs_UseKeystore _); [|unfold io_ret in Hk; simplify_eq; eauto].
    unfold io_try in Hk. rewrite ask_run in Hk. unfold io_ret in Hk. simplify_eq. eauto. }
  clear Hk. apply io_bind_ok in H as ([] & s6 & Hv & H).
  assert (exists st' w7, s6 = (set_custom_status st' o, (f1, w7)) /\
    (orp_Verify (cu_Spec o) = true -> exists w3 w4, VerifyRepository c (cu_Name o) w3 = (Ok tt, w4)))
    as (st' & w7 & -> & Hver).
  { destruct (orp_Verify _); [|unfold io_ret in Hv; simplify_eq; by exists st, w6].
    apply verify_ok in Hv as (st1 & wa & wb & _ & Hv & ->). exists st1, wb. eauto. }
  split; [done|]. clear Hv. revert H. erewrite io_try_run by apply ask_run.
  erewrite io_bind_run by reflexivity. cbv zeta. erewrite io_bind_run by reflexivity. cbn [fst snd].
  intros H%io_wrap_ok. set (desired := repository_ready _ _ _ _ _) in H.
  destruct (touch_run (fun _ => desired) (set_custom_status desired (set_custom_status st' o)) f1
    (ListSnapshots c (cu_Name o) w7).2) as (r & x & w8 & E & _ & Hx).
  rewrite E in H. simplify_eq. destruct (Hx eq_refl) as [? ->]. cbn. subst desired.
  unfold ready_status. cbn. by destruct (orp_Verify (cu_Spec o)).
Qed.
End Ready.

(** ** Witnesses *)
Module SimRepositories.
Fixpoint again {A : Type} (n : nat) (fn : A -> api_result unit * A) (s : A) : api_result unit * A :=
  match fn s with
  | (Failed (Conflict m), s') => match n with O => (Failed (Conflict m), s') | S n => again n fn s' end
  | out => out
  end.
Lemma again_retried {A : Type} n (fn : A -> api_result unit * A) s : retried fn s (again n fn s).
Proof.
  revert s. induction n as [|n IH]; intros s; cbn [again].
  all: destruct (fn s) as [[[]|[]] s'] eqn:E; try by apply retried_last.
  eapply retried_again; [exact E|apply IH].
Qed.
#[global] Instance five_times : ClientGoRetry := fun A => again 4.
#[global] Instance five_times_retries : RetriesOnConflict.
Proof. intros A fn s. apply again_retried. Qed.

Record rack := {
  k_repository : custom OpenSearchSnapshotRepositorySpec OpenSearchSnapshotRepositoryStatus;
  k_policy : custom OpenSearchSnapshotPolicySpec ResourceStatus;
  (** what was put, and how many status writes are still in conflict *)
  k_put : list string;
  k_busy : nat
}.
Definition world : Type := rack * Sites.site.

Definition set_repository o k := {| k_repository := o; k_policy := k_policy k; k_put := k_put k; k_busy := k_busy k |}.
Definition set_policy o k := {| k_repository := k_repository k; k_policy := o; k_put := k_put k; k_busy := k_busy k |}.
Definition put_at path k :=
  {| k_repository := k_repository k; k_policy := k_policy k; k_put := path :: k_put k; k_busy := k_busy k |}.
Definition less_busy k :=
  {| k_repository := k_repository k; k_policy := k_policy k; k_put := k_put k; k_busy := pred (k_busy k) |}.

#[global] Instance kube : KubeClient world := {
  get_statefulset ns n := lift_snd (get_statefulset ns n);
  update_statefulset s := lift_snd (update_statefulset s);
  list_pods ns l := lift_snd (list_pods ns l);
  delete_pod p := lift_snd (delete_pod p);
  get_secret ns n := if bool_decide (n = "keys")
                     then fun w => (Found {["access-key" := "AK"; "secret-key" := "SK"]}, w)
                     else lift_snd (get_secret ns n)
}.
#[global] Instance clusters : ClusterClient world := {
  get_cluster ns n w := (if bool_decide (n = "a") then Found (Sites.cluster "a" None) else Failed (NotFound n), w);
  update_cluster_status c w := (Found tt, w)
}.

(** Whether an object is the one with this name. *)
Definition is_at {S T} (ns n : string) (o : custom S T) : bool :=
  bool_decide (cu_Namespace o = ns) && bool_decide (cu_Name o = n).

#[global] Instance repositories : CustomClient world OpenSearchSnapshotRepositorySpec OpenSearchSnapshotRepositoryStatus := {
  get_custom ns n w := (Found (k_repository w.1), w);
  update_custom o w := (Found o, (set_repository o w.1, w.2));
  update_custom_status o w :=
    match k_busy w.1 with
    | O => (Found o, (set_repository o w.1, w.2))
    | S _ => (Failed (Conflict "the object has been modified"), (less_busy w.1, w.2))
    end
}.
#[global] Instance policies : CustomClient world OpenSearchSnapshotPolicySpec ResourceStatus := {
  get_custom ns n w := (if is_at ns n (k_policy w.1) then Found (k_policy w.1) else Failed (NotFound n), w);
  update_custom o w :=
    let stored := set_custom_status (cu_Status (k_policy w.1)) o in
    if is_at (cu_Namespace o) (cu_Name o) (k_policy w.1) then (Found stored, (set_policy stored w.1, w.2))
    else (Failed (NotFound (cu_Name o)), w);
  update_custom_status o w :=
    let stored := set_custom_status (cu_Status o) (k_policy w.1) in
    if is_at (cu_Namespace o) (cu_Name o) (k_policy w.1) then (Found stored, (set_policy stored w.1, w.2))
    else (Failed (NotFound (cu_Name o)), w)
}.
#[global] Instance repositories_echo :
  StatusEcho world OpenSearchSnapshotRepositorySpec OpenSearchSnapshotRepositoryStatus.
Proof. intros o w o' w' H. cbn in H. destruct (k_busy w.1); by simplify_eq. Qed.

#[global] Instance rest : RestServer world := fun c method path body w =>
  let reply code text := (Ok {| hr_StatusCode := code; hr_Body := text |}, w) in
  if bool_decide (method = "PUT") || bool_decide (method = "POST")
  then (Ok {| hr_StatusCode := 200; hr_Body := "" |}, (put_at path w.1, w.2))
  else if existsb (fun p => bool_decide (p = path)) (k_put w.1) then reply 200 "there" else reply 404 "".

Definition kept_status (ns n : string) (w : world) : option ResourceStatus :=
  if is_at ns n (k_policy w.1) then Some (cu_Status (k_policy w.1)) else None.
#[global] Instance policy_store : StatusStore world OpenSearchSnapshotPolicySpec ResourceStatus.
Proof.
  refine {| status_of := kept_status |}; unfold kept_status.
  - intros ns n w o w' H. cbn in H. destruct (is_at ns n (k_policy w.1)) eqn:E; [|done]. simplify_eq. rewrite E.
    unfold is_at in E. apply andb_true_iff in E as [?%bool_decide_eq_true ?%bool_decide_eq_true]. done.
  - done.
  - intros o w ns n. cbn. destruct (is_at (cu_Namespace o) _ _) eqn:E; [|by left]. cbn.
    change (is_at ns n (set_custom_status (cu_Status o) (k_policy w.1))) with (is_at ns n (k_policy w.1)).
    destruct (is_at ns n (k_policy w.1)) eqn:E'; [right|by left]. unfold is_at in *.
    apply andb_true_iff in E as [?%bool_decide_eq_true ?%bool_decide_eq_true].
    apply andb_true_iff in E' as [?%bool_decide_eq_true ?%bool_decide_eq_true]. by subst.
  - intros o w ns n. cbn. destruct (is_at (cu_Namespace o) _ _) eqn:E; [|by left]. cbn. left. unfold is_at in *. cbn.
    apply andb_true_iff in E as [Ens%bool_decide_eq_true En%bool_decide_eq_true]. by rewrite <-Ens, <-En.
  - intros c method path body w ns n. unfold rest_request, rest.
    destruct (_ || _); [done|]. by destruct (existsb _ _).
  - done.
  - intros ns n [k x] ns' n'. cbn. case_bool_decide; [done|]. unfold lift_snd. by destruct (get_secret ns n x).
Defined.

#[global] Instance decoders : SnapshotJSON := {
  decode_repositories _ := Ok {["nightly" := {| repo_Type := "s3"; repo_Settings := ∅ |}]};
  decode_snapshots _ := Ok [];
  decode_snapshot_infos _ := Ok [];
  decode_snapshot_status _ := Ok [];
  decode_verification _ := Ok tt;
  decode_restore _ := Ok {| rr_Indices := None; rr_Shards := no_shards |};
  decode_recovery _ := Ok None;
  decode_policy_info _ := Ok {| pi_SeqNo := 7; pi_PrimaryTerm := 1 |}
}.
#[global] Instance conditions : ConditionHelper := fun now l c => put_condition c l.

Definition settings (keystore : bool) : SnapshotRepositorySettings :=
  {| rs_Bucket := "wazuh"; rs_BasePath := ""; rs_Region := "eu"; rs_Endpoint := ""; rs_PathStyleAccess := false;
     rs_Compress := true; rs_ChunkSize := ""; rs_MaxRestoreBytesPerSec := ""; rs_MaxSnapshotBytesPerSec := "";
     rs_Location := ""; rs_CredentialsSecret := Some {| rc_Name := "keys"; rc_AccessKeyKey := ""; rc_SecretKeyKey := "" |};
     rs_Container := ""; rs_ServerSideEncryption := false; rs_StorageClass := ""; rs_CannedACL := ""; rs_Protocol := "";
     rs_ReadOnly := false; rs_Client := "default"; rs_UseKeystore := keystore; rs_ApplicationName := "";
     rs_EndpointSuffix := ""; rs_URI := ""; rs_Path := ""; rs_SecurityPrincipal := ""; rs_HadoopConf := ∅ |}.
Definition spec (keystore : bool) : OpenSearchSnapshotRepositorySpec :=
  {| orp_ClusterRef := SimRest.ref_to "a" ""; orp_Type := "s3"; orp_Settings := settings keystore; orp_Verify := true |}.

Definition nightly : custom OpenSearchSnapshotRepositorySpec OpenSearchSnapshotRepositoryStatus :=
  SimSnapshots.object SnapshotRepositoryFinalizer "nightly" (spec false)
    {| rps_Phase := ""; rps_Message := ""; rps_Verified := false; rps_LastVerifiedTime := None; rps_SnapshotCount := 0;
       rps_Conditions := []; rps_ObservedGeneration := 0; rps_LastSyncTime := None |}.
Definition daily (description : string) (st : ResourceStatus) : custom OpenSearchSnapshotPolicySpec ResourceStatus :=
  SimSnapshots.object SnapshotPolicyFinalizer "daily"
    {| osp_ClusterRef := SimRest.ref_to "a" ""; osp_Description := description;
       osp_Repository := {| pr_Name := ""; pr_Type := "s3"; pr_Settings := None |}; osp_SnapshotConfig := None;
       osp_Creation := {| pcr_Schedule := {| psc_Expression := "0 0 * * *"; psc_Timezone := "UTC" |}; pcr_TimeLimit := "" |};
       osp_Deletion := None; osp_Notification := None |} st.
Definition start (busy : nat) : world :=
  ({| k_repository := nightly; k_policy := daily "daily" SimRest.no_resource_status; k_put := []; k_busy := busy |},
   Sites.two_clusters).

Definition built (keystore : bool) : gmap string json :=
  match (buildRepositorySettings "ns" (spec keystore) (start 0)).1 with Ok m => m | Err _ => ∅ end.

Definition canonical (s : OpenSearchSnapshotPolicySpec) : result string := Ok (osp_Description s).
Definition policy_once (now : Z) (w : world) :=
  OpenSearchSnapshotPolicyReconciler Sites.sha Sites.pem Sites.dom canonical now "ns" "daily" (∅, w).
Lemma once_event now w : policy_event Sites.sha Sites.pem Sites.dom canonical w (policy_once now w).2.2.
Proof.
  left. exists now, "ns", "daily", ∅, (policy_once now w).1, (policy_once now w).2.1. unfold policy_once.
  by destruct (OpenSearchSnapshotPolicyReconciler _ _ _ _ _ _ _ _) as [? [? ?]].
Qed.
(** The policy is reconciled, edited, and reconciled again. *)
Definition reconciled : world := (policy_once 5 (start 0)).2.2.
Definition edited : world := (set_policy (daily "every day" (cu_Status (k_policy reconciled.1))) reconciled.1, reconciled.2).
Definition reconciled_again : world := (policy_once 9 edited).2.2.
End SimRepositories.

Example credentials_inline_only_witness :
  is_Some (SimRepositories.built false !! "access_key") /\ ~ is_Some (SimRepositories.built true !! "access_key").
Proof.
  assert (H : forall k, buildRepositorySettings "ns" (SimRepositories.spec k) (SimRepositories.start 0)
                = (Ok (SimRepositories.built k), SimRepositories.start 0)) by (intros []; vm_compute; reflexivity).
  assert (Hk : "access_key" ∈ secret_keys) by (unfold secret_keys; set_solver).
  split.
  - apply (credentials_inline_only _ _ _ _ _ (H false)); [exact Hk|]. split; [by eexists|]. apply elem_of_cons. by left.
  - intros Hs. apply (credentials_inline_only _ _ _ _ _ (H true)) in Hs as [[? [_ Hf]] _]; [done|exact Hk].
Defined.

(** The policy was edited between two successful reconciles; its status knows no
    hash and no drift. *)
Example policy_drift_never_recorded_witness :
  (SimRepositories.policy_once 5 (SimRepositories.start 0)).1 = Ok None /\
  (SimRepositories.policy_once 9 SimRepositories.edited).1 = Ok None /\
  forall st', status_of "ns" "daily" SimRepositories.reconciled_again = Some st' ->
    memory st' = ("", false, None, 0).
Proof.
  split; [vm_compute; reflexivity|]. split; [vm_compute; reflexivity|]. intros st' E'.
  change ("", false, None, 0) with (memory SimRest.no_resource_status).
  eapply (policy_drift_never_recorded Sites.sha Sites.pem Sites.dom SimRepositories.canonical (SimRepositories.start 0)
    SimRepositories.reconciled_again "ns" "daily"); [|reflexivity|exact E'].
  apply (rtc_l _ _ SimRepositories.reconciled); [apply SimRepositories.once_event|].
  apply (rtc_l _ _ SimRepositories.edited); [right|apply rtc_once, SimRepositories.once_event].
  intros ns n. vm_compute. reflexivity.
Defined.

(** With two conflicts on the way, the repository is put, verified and ready. *)
Example repository_ready_after_put_witness :
  let run := reconcile_repository Sites.sha Sites.pem Sites.dom 5 (SimRepositories.nightly, (∅, SimRepositories.start 2)) in
  run.1 = Ok tt /\ rps_Phase (cu_Status run.2.1) = RepositoryPhaseReady /\ rps_Verified (cu_Status run.2.1) = true.
Proof.
  cbv zeta. split; [vm_compute; reflexivity|].
  destruct (repository_ready_after_put (W := SimRepositories.world) Sites.sha Sites.pem Sites.dom 5 SimRepositories.nightly ∅
    (SimRepositories.start 2) (reconcile_repository Sites.sha Sites.pem Sites.dom 5
      (SimRepositories.nightly, (∅, SimRepositories.start 2))).2.1
    (reconcile_repository Sites.sha Sites.pem Sites.dom 5 (SimRepositories.nightly, (∅, SimRepositories.start 2))).2.2)
    as (_ & _ & _ & _ & _ & _ & _ & H & Hv & _); [vm_compute; reflexivity|].
  split; [exact H|exact Hv].
Defined.
