(* ===== verification/BackupJobs.v ===== *)
(** * Jobs of backups and restores

    [internal/wazuh/builder/jobs]: the Jobs, CronJobs and access rights that a
    WazuhBackup and a WazuhRestore stand for, with their shell scripts in full.
    The security contexts and owner references, which are the same for all, and
    the labels of the pods, which are the object's, are left out. *)
From Stdlib Require Import Ascii.
From S2P Require Import Prelude GoStrings.
From S2P Require Import RestAPI OSResources Repositories.
Local Open Scope string_scope.
Local Open Scope list_scope.

(** ** Resources ([api/v1]) *)

Record ServiceAccountConfig := {
  sac_Create : bool;
  sac_Name : string;
  sac_Annotations : gmap string string;
  sac_Labels : gmap string string
}.
Record BackupImage := { bi_Repository : string; bi_Tag : string; bi_PullPolicy : string }.

(** Requests and limits, as texts of quantities. *)
Record ResourceRequirements := { rq_Requests : gmap string string; rq_Limits : gmap string string }.

Record BackupComponents := {
  bc_AgentKeys : bool;
  bc_FIMDatabase : bool;
  bc_AgentDatabase : bool;
  bc_Integrations : bool;
  bc_AlertLogs : bool;
  bc_CustomPaths : list string
}.
Record BackupRetention := { br_MaxBackups : Z; br_MaxAge : string }.
Record GCSBackupConfig := { gb_Project : string }.
Record AzureBackupConfig := { ab_Container : string; ab_AccountName : string; ab_EndpointSuffix : string }.
Record HDFSBackupConfig := { hb_URI : string; hb_Path : string }.
Record BackupStorage := {
  bs_Type : string;
  bs_Bucket : string;
  bs_Prefix : string;
  bs_Region : string;
  bs_Endpoint : string;
  bs_ForcePathStyle : bool;
  bs_CredentialsSecret : option RepositoryCredentialsRef;
  bs_GCS : option GCSBackupConfig;
  bs_Azure : option AzureBackupConfig;
  bs_HDFS : option HDFSBackupConfig
}.
Record WazuhBackupSpec := {
  wb_ClusterRef : WazuhClusterReference;
  wb_Components : BackupComponents;
  wb_Schedule : string;
  wb_Retention : option BackupRetention;
  wb_Storage : BackupStorage;
  wb_Suspend : bool;
  wb_BackupTimeout : string;
  wb_Image : option BackupImage;
  wb_Resources : option ResourceRequirements;
  wb_ServiceAccount : option ServiceAccountConfig
}.
Definition IsScheduled (s : WazuhBackupSpec) : bool := negb (bool_decide (wb_Schedule s = "")).

Record S3RestoreSource := {
  s3_Bucket : string;
  s3_Key : string;
  s3_Region : string;
  s3_Endpoint : string;
  s3_ForcePathStyle : bool;
  s3_CredentialsSecret : RepositoryCredentialsRef
}.
Record GCSRestoreSource := {
  gs_Bucket : string;
  gs_Key : string;
  gs_Project : string;
  gs_CredentialsSecret : option RepositoryCredentialsRef
}.
Record AzureRestoreSource := {
  az_Container : string;
  az_Key : string;
  az_AccountName : string;
  az_EndpointSuffix : string;
  az_CredentialsSecret : option RepositoryCredentialsRef
}.
Record HDFSRestoreSource := { hs_URI : string; hs_Path : string; hs_Key : string }.
Record WazuhBackupReference := { wbr_Name : string; wbr_BackupTimestamp : string }.
Record RestoreSource := {
  rsrc_S3 : option S3RestoreSource;
  rsrc_GCS : option GCSRestoreSource;
  rsrc_Azure : option AzureRestoreSource;
  rsrc_HDFS : option HDFSRestoreSource;
  rsrc_WazuhBackupRef : option WazuhBackupReference
}.
Record WazuhRestoreSpec := {
  wr_ClusterRef : WazuhClusterReference;
  wr_Source : RestoreSource;
  wr_Components : option BackupComponents;
  wr_PreRestoreBackup : bool;
  wr_StopManager : bool;
  wr_RestartAfterRestore : bool;
  wr_RestoreTimeout : string;
  wr_Image : option BackupImage;
  wr_Resources : option ResourceRequirements;
  wr_ServiceAccount : option ServiceAccountConfig
}.

(** ** Objects ([batch/v1], [core/v1], [rbac/v1]) *)

Inductive EnvValue : Type := Plain (value : string) | FromSecret (secret key : string).

Record Container := {
  ct_Name : string;
  ct_Image : string;
  ct_ImagePullPolicy : string;
  ct_Command : list string;
  ct_Args : list string;
  ct_Env : list (string * EnvValue);
  ct_Resources : ResourceRequirements;
  (** name, path; all of them read-only *)
  ct_VolumeMounts : list (string * string)
}.
Record PodSpec := {
  ps_ServiceAccountName : string;
  ps_RestartPolicy : string;
  ps_Container : Container;
  (** name, secret *)
  ps_Volumes : list (string * string)
}.
Record Named := { nm_Name : string; nm_Namespace : string; nm_Labels : gmap string string }.
Record JobSpec := { js_BackoffLimit : Z; js_TTLSecondsAfterFinished : option Z; js_Pod : PodSpec }.
Record JobStatus := { jst_Active : Z; jst_Succeeded : Z; jst_Failed : Z }.
Record Job := { job_Meta : Named; job_Spec : JobSpec; job_Status : JobStatus }.
Record CronJobSpec := {
  cjs_Schedule : string;
  cjs_Suspend : bool;
  cjs_SuccessfulJobsHistoryLimit : Z;
  cjs_FailedJobsHistoryLimit : Z;
  cjs_ConcurrencyPolicy : string;
  cjs_JobLabels : gmap string string;
  cjs_Job : JobSpec
}.
Record CronJob := { cj_Meta : Named; cj_Spec : CronJobSpec }.
Record ServiceAccount := { sa_Meta : Named; sa_Annotations : gmap string string }.
Record PolicyRule := { rule_APIGroups : list string; rule_Resources : list string; rule_Verbs : list string }.
Record Role := { role_Meta : Named; role_Rules : list PolicyRule }.
(** The role, and the service accounts by name and namespace. *)
Record RoleBinding := { rb_Meta : Named; rb_RoleRef : string; rb_Subjects : list (string * string) }.

(** ** What both builders share *)

Definition concat (l : list string) : string := Join "" l.

(** [key=value ] *)
Definition option_text (key value : string) : string := if bool_decide (value = "") then "" else key +:+ "=" +:+ value +:+ " ".
Definition flag (b : bool) : string := if b then "true" else "false".

Definition WazuhBackupPathAgentKeys : string := "/var/ossec/etc/client.keys".
Definition WazuhBackupPathFIMDatabase : string := "/var/ossec/queue/fim/db/".
Definition WazuhBackupPathAgentDatabase : string := "/var/ossec/queue/db/".
Definition WazuhBackupPathIntegrations : string := "/var/ossec/integrations/".
Definition WazuhBackupPathAlertLogs : string := "/var/ossec/logs/alerts/".
Definition DefaultBackupImage : string := "ghcr.io/maximewewer/wazuh-operator/backup-tools:latest".

Definition component_paths (c : BackupComponents) : list string :=
  (if bc_AgentKeys c then [WazuhBackupPathAgentKeys] else []) ++
  (if bc_FIMDatabase c then [WazuhBackupPathFIMDatabase] else []) ++
  (if bc_AgentDatabase c then [WazuhBackupPathAgentDatabase] else []) ++
  (if bc_Integrations c then [WazuhBackupPathIntegrations] else []) ++
  (if bc_AlertLogs c then [WazuhBackupPathAlertLogs] else []) ++
  bc_CustomPaths c.
Definition tar_path (path : string) : string := TrimPrefix path "/var/ossec/".

Definition job_image (i : option BackupImage) : string :=
  match i with
  | Some i =>
      if bool_decide (bi_Repository i = "") then DefaultBackupImage
      else bi_Repository i +:+ ":" +:+ (if bool_decide (bi_Tag i = "") then "latest" else bi_Tag i)
  | None => DefaultBackupImage
  end.
Definition job_pull_policy (i : option BackupImage) : string :=
  match i with
  | Some i => if bool_decide (bi_PullPolicy i = "") then "IfNotPresent" else bi_PullPolicy i
  | None => "IfNotPresent"
  end.
Definition job_resources (r : option ResourceRequirements) : ResourceRequirements :=
  default {| rq_Requests := {["cpu" := "100m"; "memory" := "128Mi"]};
             rq_Limits := {["cpu" := "500m"; "memory" := "512Mi"]} |} r.

Definition job_labels (kind name clusterName : string) : gmap string string :=
  {["app.kubernetes.io/name" := "wazuh-" +:+ kind; "app.kubernetes.io/instance" := name;
    "app.kubernetes.io/component" := kind; "app.kubernetes.io/managed-by" := "wazuh-operator";
    "wazuh.com/" +:+ kind := name; "wazuh.com/cluster" := clusterName]}.

Definition account_name (cfg : option ServiceAccountConfig) (resourceName : string) : string :=
  match cfg with
  | Some cfg => if bool_decide (sac_Name cfg = "") then resourceName else sac_Name cfg
  | None => resourceName
  end.
Definition ShouldCreateServiceAccount (cfg : option ServiceAccountConfig) : bool :=
  match cfg with Some cfg => sac_Create cfg | None => true end.

Definition build_account (m : Named) (cfg : option ServiceAccountConfig) : ServiceAccount :=
  {| sa_Meta := {| nm_Name := account_name cfg (nm_Name m); nm_Namespace := nm_Namespace m;
                   nm_Labels := match cfg with Some cfg => sac_Labels cfg ∪ nm_Labels m | None => nm_Labels m end |};
     sa_Annotations := match cfg with Some cfg => sac_Annotations cfg | None => ∅ end |}.
Definition build_role (m : Named) : Role :=
  {| role_Meta := m;
     role_Rules := [{| rule_APIGroups := [""]; rule_Resources := ["pods"]; rule_Verbs := ["get"; "list"] |};
                    {| rule_APIGroups := [""]; rule_Resources := ["pods/exec"]; rule_Verbs := ["create"] |}] |}.
Definition build_binding (m : Named) (cfg : option ServiceAccountConfig) : RoleBinding :=
  {| rb_Meta := m; rb_RoleRef := nm_Name m; rb_Subjects := [(account_name cfg (nm_Name m), nm_Namespace m)] |}.

Definition or_key (key fallback : string) : string := if bool_decide (key = "") then fallback else key.
Definition secret_env (first second : string) (c : RepositoryCredentialsRef) : list (string * EnvValue) :=
  [(first, FromSecret (rc_Name c) (or_key (rc_AccessKeyKey c) DefaultAccessKeyKey));
   (second, FromSecret (rc_Name c) (or_key (rc_SecretKeyKey c) DefaultSecretKeyKey))].
Definition rclone_env : string * EnvValue := ("RCLONE_CONFIG", Plain "/tmp/.rclone.conf").
Definition s3_env (c : RepositoryCredentialsRef) := secret_env "AWS_ACCESS_KEY_ID" "AWS_SECRET_ACCESS_KEY" c.
Definition azure_env (c : RepositoryCredentialsRef) := secret_env "AZURE_STORAGE_ACCOUNT" "AZURE_STORAGE_KEY" c.

Definition gcs_volumes (c : option RepositoryCredentialsRef) : list (string * string) :=
  match c with Some c => [("gcs-credentials", rc_Name c)] | None => [] end.
Definition gcs_mounts (c : option RepositoryCredentialsRef) : list (string * string) :=
  match c with Some _ => [("gcs-credentials", "/mnt/credentials")] | None => [] end.

(** The remotes of rclone. *)
Definition rclone_s3 (endpoint region : string) (pathStyle : bool) : string :=
  "rclone config create remote s3 env_auth=true " +:+ option_text "endpoint" endpoint +:+ option_text "region" region +:+
  (if pathStyle then "force_path_style=true " else "") +:+ "provider=Other".
Definition rclone_gcs (project : string) (credentials : bool) : string :=
  "rclone config create remote gcs " +:+ option_text "project_number" project +:+
  (if credentials then "service_account_file=/mnt/credentials/credentials-file " else "env_auth=true ") +:+
  "bucket_policy_only=true".
Definition rclone_azure (account endpoint : string) : string :=
  "rclone config create remote azureblob " +:+ option_text "account" account +:+
  option_text "endpoint_suffix" endpoint +:+ "env_auth=true".
Definition rclone_hdfs (uri : string) : string := "rclone config create remote webdav url=" +:+ uri.

Definition job_container (what image policy script : string) (env : list (string * EnvValue))
    (resources : ResourceRequirements) (mounts : list (string * string)) : Container :=
  {| ct_Name := what; ct_Image := image; ct_ImagePullPolicy := policy; ct_Command := ["/bin/sh"; "-c"];
     ct_Args := [script]; ct_Env := env; ct_Resources := resources; ct_VolumeMounts := mounts |}.
Definition new_job : JobStatus := {| jst_Active := 0; jst_Succeeded := 0; jst_Failed := 0 |}.

(** ** [BackupJobBuilder] *)
Module Backup.
Section Builder.
Context (name namespace : string) (spec : WazuhBackupSpec).
Let storage := wb_Storage spec.
Let clusterName := cref_Name (wb_ClusterRef spec).

Definition resourceName : string := name +:+ "-backup".
Definition meta : Named :=
  {| nm_Name := resourceName; nm_Namespace := namespace; nm_Labels := job_labels "backup" name clusterName |}.

Definition buildRcloneConfig : string :=
  if bool_decide (bs_Type storage = RepositoryTypeS3) then
    rclone_s3 (bs_Endpoint storage) (bs_Region storage) (bs_ForcePathStyle storage)
  else if bool_decide (bs_Type storage = RepositoryTypeGCS) then
    rclone_gcs (match bs_GCS storage with Some g => gb_Project g | None => "" end) (is_some (bs_CredentialsSecret storage))
  else if bool_decide (bs_Type storage = RepositoryTypeAzure) then
    rclone_azure (match bs_Azure storage with Some a => ab_AccountName a | None => "" end)
      (match bs_Azure storage with Some a => ab_EndpointSuffix a | None => "" end)
  else if bool_decide (bs_Type storage = RepositoryTypeHDFS) then
    match bs_HDFS storage with
    | Some h => rclone_hdfs (hb_URI h)
    | None => shell "echo `ERROR: HDFS config is required for hdfs storage type`; exit 1"
    end
  else concat [shell "echo `ERROR: Unknown storage type: "; bs_Type storage; shell "`; exit 1"].

Definition buildRemotePath : string :=
  let at_root root := "remote:" +:+ root +:+ "/${S3_PREFIX}" in
  if bool_decide (bs_Type storage = RepositoryTypeHDFS) then
    match bs_HDFS storage with Some h => at_root (hb_Path h) | None => at_root "" end
  else if bool_decide (bs_Type storage = RepositoryTypeAzure) then
    at_root (match bs_Azure storage with Some a => or_key (ab_Container a) (bs_Bucket storage) | None => bs_Bucket storage end)
  else at_root (bs_Bucket storage).

Definition buildBackupScript : string :=
  let prefix := or_key (bs_Prefix storage) "{{ .ClusterName }}/{{ .Namespace }}" in
  let paths := Join ", " (component_paths (wb_Components spec)) in
  let tarPaths := Join " " (tar_path <$> component_paths (wb_Components spec)) in
  let config := buildRcloneConfig in
  let remotePath := buildRemotePath in
  concat
    [shell "#!/bin/sh
set -e

echo `========================================`
echo `Wazuh Backup Job`
echo `Cluster: "; clusterName; shell "`
echo `Namespace: "; namespace; shell "`
echo `Backup Name: "; name; shell "`
echo `Storage Type: "; bs_Type storage; shell "`
echo `Started at: $(date -u +%Y-%m-%dT%H:%M:%SZ)`
echo `========================================`

# Variables
BACKUP_NAME=`"; name; shell "`
CLUSTER_NAME=`"; clusterName; shell "`
NAMESPACE=`"; namespace; shell "`
TIMESTAMP=$(date -u +%Y%m%d-%H%M%S)
ARCHIVE_NAME=`${BACKUP_NAME}-${TIMESTAMP}.tar.gz`
TEMP_DIR=`/tmp/backup`
S3_PREFIX=`"; prefix; shell "`

# Resolve prefix template
S3_PREFIX=$(echo `$S3_PREFIX` | sed `s/{{ .ClusterName }}/${CLUSTER_NAME}/g` | sed `s/{{ .Namespace }}/${NAMESPACE}/g` | sed `s/{{ .Date }}/${TIMESTAMP}/g`)

echo `Backup paths: "; paths; shell "`
echo `Remote prefix: ${S3_PREFIX}`

# Configure rclone remote
"; config; shell "

# Create temp directory
mkdir -p ${TEMP_DIR}

# Get manager pod name (master or first manager)
MANAGER_POD=$(kubectl get pods -n ${NAMESPACE} -l app.kubernetes.io/component=wazuh-manager,app.kubernetes.io/instance=${CLUSTER_NAME} -o jsonpath='{.items[0].metadata.name}')

if [ -z `$MANAGER_POD` ]; then
    echo `ERROR: No Wazuh Manager pod found`
    exit 1
fi

echo `Using manager pod: ${MANAGER_POD}`

# Create backup archive on the manager pod
echo `Creating backup archive on manager pod...`
kubectl exec -n ${NAMESPACE} ${MANAGER_POD} -c wazuh-manager -- sh -c `cd /var/ossec && tar -czf /tmp/${ARCHIVE_NAME} "; tarPaths; shell " 2>/dev/null || true`

# Copy backup from pod to local temp
echo `Copying backup archive from pod...`
kubectl cp ${NAMESPACE}/${MANAGER_POD}:/tmp/${ARCHIVE_NAME} ${TEMP_DIR}/${ARCHIVE_NAME} -c wazuh-manager

# Get backup size
BACKUP_SIZE=$(ls -lh ${TEMP_DIR}/${ARCHIVE_NAME} | awk '{print $5}')
echo `Backup size: ${BACKUP_SIZE}`

# Upload via rclone
echo `Uploading backup...`
rclone copy ${TEMP_DIR}/${ARCHIVE_NAME} "; remotePath; shell "

# Verify upload
echo `Verifying upload...`
rclone ls "; remotePath; shell "/${ARCHIVE_NAME}

# Cleanup temp archive on manager pod
echo `Cleaning up temporary files...`
kubectl exec -n ${NAMESPACE} ${MANAGER_POD} -c wazuh-manager -- rm -f /tmp/${ARCHIVE_NAME} || true

# Cleanup local temp
rm -rf ${TEMP_DIR}

echo `========================================`
echo `Backup completed successfully!`
echo `Location: "; remotePath; shell "/${ARCHIVE_NAME}`
echo `Size: ${BACKUP_SIZE}`
echo `Finished at: $(date -u +%Y-%m-%dT%H:%M:%SZ)`
echo `========================================`
"].

Definition buildEnvVars : list (string * EnvValue) :=
  rclone_env ::
  match bs_CredentialsSecret storage with
  | None => []
  | Some c => if bool_decide (bs_Type storage = RepositoryTypeS3) then s3_env c
              else if bool_decide (bs_Type storage = RepositoryTypeAzure) then azure_env c else []
  end.

Definition gcs_credentials : option RepositoryCredentialsRef :=
  if bool_decide (bs_Type storage = RepositoryTypeGCS) then bs_CredentialsSecret storage else None.

Definition buildPodSpec (script : string) : PodSpec :=
  {| ps_ServiceAccountName := account_name (wb_ServiceAccount spec) resourceName; ps_RestartPolicy := "OnFailure";
     ps_Container := job_container "backup" (job_image (wb_Image spec)) (job_pull_policy (wb_Image spec)) script
                       buildEnvVars (job_resources (wb_Resources spec)) (gcs_mounts gcs_credentials);
     ps_Volumes := gcs_volumes gcs_credentials |}.

Definition BuildJob : Job :=
  {| job_Meta := meta;
     job_Spec := {| js_BackoffLimit := 2; js_TTLSecondsAfterFinished := Some 86400;
                    js_Pod := buildPodSpec buildBackupScript |};
     job_Status := new_job |}.
Definition BuildCronJob : CronJob :=
  {| cj_Meta := meta;
     cj_Spec := {| cjs_Schedule := wb_Schedule spec; cjs_Suspend := wb_Suspend spec;
                   cjs_SuccessfulJobsHistoryLimit := 3; cjs_FailedJobsHistoryLimit := 1;
                   cjs_ConcurrencyPolicy := "Forbid"; cjs_JobLabels := nm_Labels meta;
                   cjs_Job := {| js_BackoffLimit := 2; js_TTLSecondsAfterFinished := None;
                                 js_Pod := buildPodSpec buildBackupScript |} |} |}.
End Builder.
End Backup.

(** ** [RestoreJobBuilder] *)
Module Restore.
Definition all_components : BackupComponents :=
  {| bc_AgentKeys := true; bc_FIMDatabase := true; bc_AgentDatabase := true; bc_Integrations := false;
     bc_AlertLogs := false; bc_CustomPaths := [] |}.

Section Builder.
Context (name namespace : string) (spec : WazuhRestoreSpec).
Let source := wr_Source spec.
Let clusterName := cref_Name (wr_ClusterRef spec).

Definition restore_resourceName : string := name +:+ "-restore".
Definition restore_object : Named :=
  {| nm_Name := restore_resourceName; nm_Namespace := namespace; nm_Labels := job_labels "restore" name clusterName |}.

Definition buildRestorePaths : list string := component_paths (default all_components (wr_Components spec)).

Definition getStorageType : string :=
  match rsrc_S3 source, rsrc_GCS source, rsrc_Azure source, rsrc_HDFS source with
  | Some _, _, _, _ => RepositoryTypeS3
  | None, Some _, _, _ => RepositoryTypeGCS
  | None, None, Some _, _ => RepositoryTypeAzure
  | None, None, None, Some _ => RepositoryTypeHDFS
  | None, None, None, None => ""
  end.

Definition no_source : string := shell "echo `ERROR: No restore source configured`; exit 1".

Definition buildRestoreRcloneConfig : string :=
  match rsrc_S3 source, rsrc_GCS source, rsrc_Azure source, rsrc_HDFS source with
  | Some s3, _, _, _ => rclone_s3 (s3_Endpoint s3) (s3_Region s3) (s3_ForcePathStyle s3)
  | None, Some gcs, _, _ => rclone_gcs (gs_Project gcs) (is_some (gs_CredentialsSecret gcs))
  | None, None, Some az, _ => rclone_azure (az_AccountName az) (az_EndpointSuffix az)
  | None, None, None, Some h => rclone_hdfs (hs_URI h)
  | None, None, None, None => no_source
  end.

(** The place of the archives, and the key. *)
Definition source_root_key : option (string * string) :=
  match rsrc_S3 source, rsrc_GCS source, rsrc_Azure source, rsrc_HDFS source with
  | Some s3, _, _, _ => Some (s3_Bucket s3, s3_Key s3)
  | None, Some gcs, _, _ => Some (gs_Bucket gcs, gs_Key gcs)
  | None, None, Some az, _ => Some (az_Container az, az_Key az)
  | None, None, None, Some h => Some (hs_Path h, hs_Key h)
  | None, None, None, None => None
  end.
Definition buildSourceRemotePath : string :=
  match source_root_key with Some (root, key) => "remote:" +:+ root +:+ "/" +:+ key | None => "" end.
Definition buildArchiveName : string :=
  let key := match source_root_key with Some (_, key) => key | None => "" end in
  default "backup.tar.gz" (last (Split "/"%char key)).
Definition source_dir : string := TrimSuffix buildSourceRemotePath ("/" +:+ buildArchiveName).

Definition restore_script : string :=
  let storageType := getStorageType in
  let paths := Join ", " buildRestorePaths in
  let tarPaths := Join " " (tar_path <$> buildRestorePaths) in
  let config := buildRestoreRcloneConfig in
  let sourcePath := buildSourceRemotePath in
  let archiveName := buildArchiveName in
  let sourceDir := source_dir in
  concat
    [shell "#!/bin/sh
set -e

echo `========================================`
echo `Wazuh Restore Job`
echo `Cluster: "; clusterName; shell "`
echo `Namespace: "; namespace; shell "`
echo `Restore Name: "; name; shell "`
echo `Storage Type: "; storageType; shell "`
echo `Started at: $(date -u +%Y-%m-%dT%H:%M:%SZ)`
echo `========================================`

# Variables
RESTORE_NAME=`"; name; shell "`
CLUSTER_NAME=`"; clusterName; shell "`
NAMESPACE=`"; namespace; shell "`
PRE_RESTORE_BACKUP=`"; flag (wr_PreRestoreBackup spec); shell "`
STOP_MANAGER=`"; flag (wr_StopManager spec); shell "`
RESTART_AFTER_RESTORE=`"; flag (wr_RestartAfterRestore spec); shell "`
TEMP_DIR=`/tmp/restore`
ARCHIVE_NAME=`"; archiveName; shell "`

echo `Source: "; sourcePath; shell "`
echo `Restore paths: "; paths; shell "`
echo `Pre-restore backup: ${PRE_RESTORE_BACKUP}`
echo `Stop manager: ${STOP_MANAGER}`
echo `Restart after: ${RESTART_AFTER_RESTORE}`

# Configure rclone remote
"; config; shell "

# Get manager pod name (master or first manager)
MANAGER_POD=$(kubectl get pods -n ${NAMESPACE} -l app.kubernetes.io/component=wazuh-manager,app.kubernetes.io/instance=${CLUSTER_NAME} -o jsonpath='{.items[0].metadata.name}')

if [ -z `$MANAGER_POD` ]; then
    echo `ERROR: No Wazuh Manager pod found`
    exit 1
fi

echo `Using manager pod: ${MANAGER_POD}`

# Create temp directory
mkdir -p ${TEMP_DIR}

# Download backup archive
echo `Downloading backup archive...`
rclone copy "; sourcePath; shell " ${TEMP_DIR}/

echo `Downloaded: ${ARCHIVE_NAME}`
ls -lh ${TEMP_DIR}/${ARCHIVE_NAME}

# Stop manager if requested
if [ `${STOP_MANAGER}` = `true` ]; then
    echo `Stopping Wazuh Manager service...`
    kubectl exec -n ${NAMESPACE} ${MANAGER_POD} -c wazuh-manager -- /var/ossec/bin/wazuh-control stop || echo `Warning: Could not stop wazuh-control`
    sleep 5
fi

# Create pre-restore backup if requested
if [ `${PRE_RESTORE_BACKUP}` = `true` ]; then
    echo `Creating pre-restore backup...`
    PRE_RESTORE_ARCHIVE=`pre-restore-$(date -u +%Y%m%d-%H%M%S).tar.gz`
    kubectl exec -n ${NAMESPACE} ${MANAGER_POD} -c wazuh-manager -- sh -c `cd /var/ossec && tar -czf /tmp/${PRE_RESTORE_ARCHIVE} "; tarPaths; shell " 2>/dev/null || true`

    # Upload pre-restore backup
    kubectl cp ${NAMESPACE}/${MANAGER_POD}:/tmp/${PRE_RESTORE_ARCHIVE} ${TEMP_DIR}/${PRE_RESTORE_ARCHIVE} -c wazuh-manager
    rclone copy ${TEMP_DIR}/${PRE_RESTORE_ARCHIVE} "; sourceDir; shell "/pre-restore/

    echo `Pre-restore backup saved`
    kubectl exec -n ${NAMESPACE} ${MANAGER_POD} -c wazuh-manager -- rm -f /tmp/${PRE_RESTORE_ARCHIVE} || true
fi

# Copy archive to manager pod
echo `Copying backup archive to manager pod...`
kubectl cp ${TEMP_DIR}/${ARCHIVE_NAME} ${NAMESPACE}/${MANAGER_POD}:/tmp/${ARCHIVE_NAME} -c wazuh-manager

# Extract backup archive
echo `Extracting backup archive...`
kubectl exec -n ${NAMESPACE} ${MANAGER_POD} -c wazuh-manager -- sh -c `cd /var/ossec && tar -xzf /tmp/${ARCHIVE_NAME} "; tarPaths; shell " 2>/dev/null || true`

# Fix permissions
echo `Fixing permissions...`
kubectl exec -n ${NAMESPACE} ${MANAGER_POD} -c wazuh-manager -- chown -R wazuh:wazuh /var/ossec/etc/ 2>/dev/null || true
kubectl exec -n ${NAMESPACE} ${MANAGER_POD} -c wazuh-manager -- chown -R wazuh:wazuh /var/ossec/queue/ 2>/dev/null || true

# Cleanup
echo `Cleaning up temporary files...`
kubectl exec -n ${NAMESPACE} ${MANAGER_POD} -c wazuh-manager -- rm -f /tmp/${ARCHIVE_NAME} || true
rm -rf ${TEMP_DIR}

# Restart manager if requested
if [ `${RESTART_AFTER_RESTORE}` = `true` ]; then
    echo `Starting Wazuh Manager service...`
    kubectl exec -n ${NAMESPACE} ${MANAGER_POD} -c wazuh-manager -- /var/ossec/bin/wazuh-control start || echo `Warning: Could not start wazuh-control`
    sleep 5

    # Check if service is running
    kubectl exec -n ${NAMESPACE} ${MANAGER_POD} -c wazuh-manager -- /var/ossec/bin/wazuh-control status || echo `Warning: Service status check failed`
fi

echo `========================================`
echo `Restore completed successfully!`
echo `Source: "; sourcePath; shell "`
echo `Restored to: ${MANAGER_POD}`
echo `Finished at: $(date -u +%Y-%m-%dT%H:%M:%SZ)`
echo `========================================`
"].
Definition buildRestoreScript : string :=
  if bool_decide (getStorageType = "") then no_source else restore_script.

Definition gcs_restore_credentials : option RepositoryCredentialsRef := rsrc_GCS source ≫= gs_CredentialsSecret.
Definition buildRestoreEnvVars : list (string * EnvValue) :=
  rclone_env ::
  match rsrc_S3 source with Some s3 => s3_env (s3_CredentialsSecret s3) | None => [] end ++
  match rsrc_Azure source ≫= az_CredentialsSecret with Some c => azure_env c | None => [] end.

Definition BuildRestoreJob : Job :=
  {| job_Meta := restore_object;
     job_Spec :=
       {| js_BackoffLimit := 1; js_TTLSecondsAfterFinished := Some 86400;
          js_Pod :=
            {| ps_ServiceAccountName := account_name (wr_ServiceAccount spec) restore_resourceName; ps_RestartPolicy := "Never";
               ps_Container := job_container "restore" (job_image (wr_Image spec)) (job_pull_policy (wr_Image spec))
                                 buildRestoreScript buildRestoreEnvVars (job_resources (wr_Resources spec))
                                 (gcs_mounts gcs_restore_credentials);
               ps_Volumes := gcs_volumes gcs_restore_credentials |} |};
     job_Status := new_job |}.
End Builder.
End Restore.
