(* ===== verification/Backups.v ===== *)
(** * Backups and restores of the Wazuh manager

    [internal/wazuh/reconciler/backup_reconciler.go], [restore_reconciler.go] and
    their controllers, over the objects of [BackupJobs].  The factory of
    OpenSearch clients is in the state, as for every controller, and is not
    used. *)
From Stdlib Require Import Ascii.
From S2P Require Import Prelude GoStrings GoFloat GoTime Kube Cluster DrainState ClientFactory ScaleDown ClusterStatus.
From S2P Require Import RestAPI OSResources SnapshotAPI Snapshots Repositories BackupJobs.
Local Open Scope string_scope.
Local Open Scope list_scope.
Local Open Scope go_scope.

(** ** Objects the reconcilers own

    An object of the kind is found under its name and namespace; [refresh] is
    what an update takes over from the object as it should be. *)

Class Owned (O : Type) := {
  owned_meta : O -> Named;
  refresh : O -> O -> O
}.
Definition with_labels (l : gmap string string) (m : Named) : Named :=
  {| nm_Name := nm_Name m; nm_Namespace := nm_Namespace m; nm_Labels := l |}.

#[export] Instance ServiceAccount_owned : Owned ServiceAccount := {|
  owned_meta := sa_Meta;
  refresh o e := {| sa_Meta := with_labels (nm_Labels (sa_Meta o)) (sa_Meta e); sa_Annotations := sa_Annotations e |}
|}.
#[export] Instance Role_owned : Owned Role := {|
  owned_meta := role_Meta;
  refresh o e := {| role_Meta := with_labels (nm_Labels (role_Meta o)) (role_Meta e); role_Rules := role_Rules o |}
|}.
#[export] Instance RoleBinding_owned : Owned RoleBinding := {|
  owned_meta := rb_Meta;
  refresh o e := {| rb_Meta := with_labels (nm_Labels (rb_Meta o)) (rb_Meta e); rb_RoleRef := rb_RoleRef o;
                    rb_Subjects := rb_Subjects o |}
|}.
#[export] Instance CronJob_owned : Owned CronJob := {|
  owned_meta := cj_Meta;
  refresh o e := {| cj_Meta := with_labels (nm_Labels (cj_Meta o)) (cj_Meta e); cj_Spec := cj_Spec o |}
|}.

(** The API server for one kind. *)
Class OwnedClient (W O : Type) := {
  get_owned : string -> string -> API W O;
  create_owned : O -> API W unit;
  update_owned : O -> API W unit
}.

Section Write.
Context {W O : Type} `{!Owned O, !OwnedClient W O}.
Definition createOrUpdate (o : O) : IO W unit :=
  got <- io_outcome (get_owned (nm_Namespace (owned_meta o)) (nm_Name (owned_meta o))) ;;
  match got with
  | Failed e => if IsNotFound e then io_api (create_owned o) else io_err (api_message e)
  | Found existing => io_api (update_owned (refresh o existing))
  end.
End Write.

(** ** Status *)

Record BackupInfo := {
  bki_Time : Z;
  bki_Status : string;
  bki_Size : string;
  bki_Location : string;
  bki_Duration : string;
  bki_Message : string
}.
Record WazuhBackupStatus := {
  wbs_Phase : string;
  wbs_Message : string;
  wbs_LastBackup : option BackupInfo;
  wbs_NextScheduledBackup : option Z;
  wbs_BackupHistory : list BackupInfo;
  wbs_BackupCount : Z;
  wbs_TotalSize : string;
  wbs_CronJobName : string;
  wbs_JobName : string;
  wbs_Conditions : list Condition;
  wbs_ObservedGeneration : Z
}.
Definition BackupPhasePending : string := "Pending".
Definition BackupPhaseActive : string := "Active".
Definition BackupPhaseSuspended : string := "Suspended".
Definition BackupPhaseFailed : string := "Failed".
Definition BackupStatusSuccess : string := "Success".
Definition BackupStatusFailed : string := "Failed".
Definition ConditionTypeBackupScheduled : string := "BackupScheduled".

Record RestoreSourceInfo := { rsi_Location : string; rsi_BackupTime : option Z; rsi_Size : string }.
Record WazuhRestoreStatus := {
  wrs_Phase : string;
  wrs_Message : string;
  wrs_StartTime : option Z;
  wrs_EndTime : option Z;
  wrs_Duration : string;
  wrs_SourceBackup : option RestoreSourceInfo;
  wrs_PreRestoreBackupLocation : string;
  wrs_RestoredComponents : list string;
  wrs_JobName : string;
  wrs_Conditions : list Condition;
  wrs_ObservedGeneration : Z
}.
Definition WazuhRestorePhasePending : string := "Pending".
Definition WazuhRestorePhaseValidating : string := "Validating".
Definition WazuhRestorePhaseStopping : string := "Stopping".
Definition WazuhRestorePhaseBackingUp : string := "BackingUp".
Definition WazuhRestorePhaseRestoring : string := "Restoring".
Definition WazuhRestorePhaseStarting : string := "Starting".
Definition WazuhRestorePhaseCompleted : string := "Completed".
Definition WazuhRestorePhaseFailed : string := "Failed".

Abbreviation backup := (custom WazuhBackupSpec WazuhBackupStatus).
Abbreviation wrestore := (custom WazuhRestoreSpec WazuhRestoreStatus).

(** ** Shared by both reconcilers *)
Section Reconcilers.
Context {W : Type} `{!KubeClient W, !ClusterClient W} {CH : ConditionHelper}.
Context `{!OwnedClient W Job, !OwnedClient W CronJob, !OwnedClient W ServiceAccount, !OwnedClient W Role,
          !OwnedClient W RoleBinding}.
Context `{!CustomClient W WazuhBackupSpec WazuhBackupStatus, !CustomClient W WazuhRestoreSpec WazuhRestoreStatus}.

(** [reconcileRBAC], for the objects' common name and labels. *)
Definition reconcileRBAC (m : Named) (account : option ServiceAccountConfig) : IO W unit :=
  (if ShouldCreateServiceAccount account
   then io_wrap "failed to reconcile ServiceAccount" (createOrUpdate (build_account m account)) else io_ret tt) ;;;
  io_wrap "failed to reconcile Role" (createOrUpdate (build_role m)) ;;;
  io_wrap "failed to reconcile RoleBinding" (createOrUpdate (build_binding m account)).

(** What the name of a cluster stands for: an object, nothing, or an error. *)
Definition cluster_named (namespace name : string) : IO W (api_result WazuhCluster) :=
  io_outcome (get_cluster namespace name).

(** ** Backups *)
Definition set_backup_objects (job cronJob : string) (s : WazuhBackupStatus) : WazuhBackupStatus :=
  {| wbs_Phase := wbs_Phase s; wbs_Message := wbs_Message s; wbs_LastBackup := wbs_LastBackup s;
     wbs_NextScheduledBackup := wbs_NextScheduledBackup s; wbs_BackupHistory := wbs_BackupHistory s;
     wbs_BackupCount := wbs_BackupCount s; wbs_TotalSize := wbs_TotalSize s; wbs_CronJobName := cronJob;
     wbs_JobName := job; wbs_Conditions := wbs_Conditions s; wbs_ObservedGeneration := wbs_ObservedGeneration s |}.
Definition set_job_name (n : string) (s : WazuhBackupStatus) := set_backup_objects n (wbs_CronJobName s) s.
Definition set_cron_job_name (n : string) (s : WazuhBackupStatus) := set_backup_objects (wbs_JobName s) n s.
Definition set_last_backup (b : BackupInfo) (s : WazuhBackupStatus) : WazuhBackupStatus :=
  {| wbs_Phase := wbs_Phase s; wbs_Message := wbs_Message s; wbs_LastBackup := Some b;
     wbs_NextScheduledBackup := wbs_NextScheduledBackup s; wbs_BackupHistory := wbs_BackupHistory s;
     wbs_BackupCount := wbs_BackupCount s; wbs_TotalSize := wbs_TotalSize s; wbs_CronJobName := wbs_CronJobName s;
     wbs_JobName := wbs_JobName s; wbs_Conditions := wbs_Conditions s;
     wbs_ObservedGeneration := wbs_ObservedGeneration s |}.

Definition backup_condition (phase : string) : string * string :=
  if bool_decide (phase = BackupPhaseFailed) then ("False", "BackupFailed")
  else if bool_decide (phase = BackupPhaseSuspended) then ("False", "BackupSuspended")
  else if bool_decide (phase = BackupPhasePending) then ("False", "BackupPending")
  else ("True", "BackupReady").
Definition backup_status (now generation : Z) (phase message : string) (s : WazuhBackupStatus) : WazuhBackupStatus :=
  {| wbs_Phase := phase; wbs_Message := message; wbs_LastBackup := wbs_LastBackup s;
     wbs_NextScheduledBackup := wbs_NextScheduledBackup s; wbs_BackupHistory := wbs_BackupHistory s;
     wbs_BackupCount := wbs_BackupCount s; wbs_TotalSize := wbs_TotalSize s; wbs_CronJobName := wbs_CronJobName s;
     wbs_JobName := wbs_JobName s;
     wbs_Conditions := SetStatusCondition now (wbs_Conditions s)
       {| cn_Type := ConditionTypeBackupScheduled; cn_Status := (backup_condition phase).1;
          cn_Reason := (backup_condition phase).2; cn_Message := message; cn_LastTransitionTime := 0;
          cn_ObservedGeneration := generation |};
     wbs_ObservedGeneration := generation |}.
Definition update_backup (now : Z) (phase message : string) : OIO unit :=
  modify_object (fun o =>
    set_custom_status (backup_status now (om_Generation (cu_Meta o)) phase message (cu_Status o)) o) ;;;
  put_status.

(** The Job or CronJob an object stands for. *)
Definition backup_job (o : backup) : Job := Backup.BuildJob (cu_Name o) (cu_Namespace o) (cu_Spec o).
Definition backup_cron_job (o : backup) : CronJob := Backup.BuildCronJob (cu_Name o) (cu_Namespace o) (cu_Spec o).
Definition backup_meta (o : backup) : Named := Backup.meta (cu_Name o) (cu_Namespace o) (cu_Spec o).

Definition reconcileCronJob : OIO unit :=
  s <- io_get ;;
  let cronJob := backup_cron_job s.1 in
  got <- ask (io_outcome (get_owned (O := CronJob) (nm_Namespace (cj_Meta cronJob)) (nm_Name (cj_Meta cronJob)))) ;;
  match got with
  | Failed e =>
      if IsNotFound e then
        io_wrap "failed to create CronJob" (ask (io_api (create_owned cronJob))) ;;;
        modify_status (set_cron_job_name (nm_Name (cj_Meta cronJob)))
      else io_err (api_message e)
  | Found existing =>
      io_wrap "failed to update CronJob" (ask (io_api (update_owned (refresh cronJob existing)))) ;;;
      modify_status (set_cron_job_name (nm_Name (cj_Meta cronJob)))
  end.

(** The last backup, as the Job shows it. *)
Definition job_backup (now : Z) (j : JobStatus) : option BackupInfo :=
  let info status message :=
    Some {| bki_Time := now; bki_Status := status; bki_Size := ""; bki_Location := ""; bki_Duration := "";
            bki_Message := message |} in
  if bool_decide (0 < jst_Succeeded j) then info BackupStatusSuccess "Backup completed successfully"
  else if bool_decide (0 < jst_Failed j) then info BackupStatusFailed "Backup job failed"
  else None.

Definition reconcile_backup_job (now : Z) : OIO unit :=
  s <- io_get ;;
  let job := backup_job s.1 in
  got <- ask (io_outcome (get_owned (O := Job) (nm_Namespace (job_Meta job)) (nm_Name (job_Meta job)))) ;;
  match got with
  | Failed e =>
      if IsNotFound e then
        io_wrap "failed to create Job" (ask (io_api (create_owned job))) ;;;
        modify_status (set_job_name (nm_Name (job_Meta job)))
      else io_err (api_message e)
  | Found existing =>
      modify_status (set_job_name (nm_Name (job_Meta existing))) ;;;
      match job_backup now (job_Status existing) with
      | Some b => modify_status (set_last_backup b)
      | None => io_ret tt
      end
  end.

(** The phase and message at the end. *)
Definition backup_outcome (spec : WazuhBackupSpec) : string * string :=
  if wb_Suspend spec then (BackupPhaseSuspended, "Backup suspended")
  else (BackupPhaseActive, if IsScheduled spec then "Backup scheduled" else "One-shot backup job created").

Definition reconcile_backup (now : Z) : OIO unit :=
  s <- io_get ;;
  let o := s.1 in
  let name := cref_Name (wb_ClusterRef (cu_Spec o)) in
  cluster <- ask (cluster_named (cu_Namespace o) name) ;;
  match cluster with
  | Failed e =>
      if IsNotFound e then update_backup now BackupPhaseFailed ("WazuhCluster '" +:+ name +:+ "' not found")
      else io_err (errorf "failed to get WazuhCluster" (api_message e))
  | Found _ =>
      missing <-
        match bs_CredentialsSecret (wb_Storage (cu_Spec o)) with
        | None => io_ret None
        | Some c =>
            secret <- ask (io_outcome (get_secret (cu_Namespace o) (rc_Name c))) ;;
            match secret with
            | Found _ => io_ret None
            | Failed e => if IsNotFound e then io_ret (Some (rc_Name c))
                          else io_err (errorf "failed to get credentials Secret" (api_message e))
            end
        end ;;
      match missing with
      | Some secret => update_backup now BackupPhaseFailed ("Credentials Secret '" +:+ secret +:+ "' not found")
      | None =>
          io_wrap "failed to reconcile RBAC" (ask (reconcileRBAC (backup_meta o) (wb_ServiceAccount (cu_Spec o)))) ;;;
          (if IsScheduled (cu_Spec o) then io_wrap "failed to reconcile CronJob" reconcileCronJob
           else io_wrap "failed to reconcile Job" (reconcile_backup_job now)) ;;;
          update_backup now (backup_outcome (cu_Spec o)).1 (backup_outcome (cu_Spec o)).2
      end
  end.

Definition WazuhBackupFinalizer : string := "wazuhbackup.wazuh.com/finalizer".
Definition BackupReconcile (now : Z) : OIO unit :=
  with_object_finalizer WazuhBackupFinalizer (release WazuhBackupFinalizer) (reconcile_backup now).
Definition backup_again (o : backup) : option Z :=
  if negb (IsScheduled (cu_Spec o)) && negb (bool_decide (wbs_Phase (cu_Status o) = BackupPhaseFailed)) &&
     match wbs_LastBackup (cu_Status o) with Some b => bool_decide (bki_Status b = "") | None => true end
  then Some (30 * Second) else None.
Definition WazuhBackupReconciler (now : Z) (namespace name : string) : @FIO W (option Z) :=
  reconcile_custom (BackupReconcile now) backup_again namespace name.

(** ** Restores *)
Definition set_restore_job (n : string) (s : WazuhRestoreStatus) : WazuhRestoreStatus :=
  {| wrs_Phase := wrs_Phase s; wrs_Message := wrs_Message s; wrs_StartTime := wrs_StartTime s;
     wrs_EndTime := wrs_EndTime s; wrs_Duration := wrs_Duration s; wrs_SourceBackup := wrs_SourceBackup s;
     wrs_PreRestoreBackupLocation := wrs_PreRestoreBackupLocation s;
     wrs_RestoredComponents := wrs_RestoredComponents s; wrs_JobName := n; wrs_Conditions := wrs_Conditions s;
     wrs_ObservedGeneration := wrs_ObservedGeneration s |}.
(** The start of the Job, and where an S3 source is. *)
Definition set_job_start (now : Z) (name : string) (source : RestoreSource) (s : WazuhRestoreStatus)
    : WazuhRestoreStatus :=
  {| wrs_Phase := wrs_Phase s; wrs_Message := wrs_Message s; wrs_StartTime := Some now;
     wrs_EndTime := wrs_EndTime s; wrs_Duration := wrs_Duration s;
     wrs_SourceBackup := match rsrc_S3 source with
                         | Some s3 => Some {| rsi_Location := "s3://" +:+ s3_Bucket s3 +:+ "/" +:+ s3_Key s3;
                                              rsi_BackupTime := None; rsi_Size := "" |}
                         | None => wrs_SourceBackup s
                         end;
     wrs_PreRestoreBackupLocation := wrs_PreRestoreBackupLocation s;
     wrs_RestoredComponents := wrs_RestoredComponents s; wrs_JobName := name; wrs_Conditions := wrs_Conditions s;
     wrs_ObservedGeneration := wrs_ObservedGeneration s |}.
Definition set_job_end (now : Z) (s : WazuhRestoreStatus) : WazuhRestoreStatus :=
  {| wrs_Phase := wrs_Phase s; wrs_Message := wrs_Message s; wrs_StartTime := wrs_StartTime s;
     wrs_EndTime := Some now;
     wrs_Duration := match wrs_StartTime s with
                     | Some t => formatDuration (time_since now t)
                     | None => wrs_Duration s
                     end;
     wrs_SourceBackup := wrs_SourceBackup s; wrs_PreRestoreBackupLocation := wrs_PreRestoreBackupLocation s;
     wrs_RestoredComponents := wrs_RestoredComponents s; wrs_JobName := wrs_JobName s;
     wrs_Conditions := wrs_Conditions s; wrs_ObservedGeneration := wrs_ObservedGeneration s |}.

Definition wazuh_restore_condition (phase : string) : string * string :=
  if bool_decide (phase = WazuhRestorePhaseCompleted) then ("True", "RestoreComplete")
  else if bool_decide (phase = WazuhRestorePhaseFailed) then ("False", "RestoreFailed")
  else ("False", "RestoreInProgress").
Definition wazuh_restore_status (now generation : Z) (phase message : string) (s : WazuhRestoreStatus)
    : WazuhRestoreStatus :=
  {| wrs_Phase := phase; wrs_Message := message; wrs_StartTime := wrs_StartTime s; wrs_EndTime := wrs_EndTime s;
     wrs_Duration := wrs_Duration s; wrs_SourceBackup := wrs_SourceBackup s;
     wrs_PreRestoreBackupLocation := wrs_PreRestoreBackupLocation s;
     wrs_RestoredComponents := wrs_RestoredComponents s; wrs_JobName := wrs_JobName s;
     wrs_Conditions := SetStatusCondition now (wrs_Conditions s)
       {| cn_Type := ConditionTypeRestoreComplete; cn_Status := (wazuh_restore_condition phase).1;
          cn_Reason := (wazuh_restore_condition phase).2; cn_Message := message; cn_LastTransitionTime := 0;
          cn_ObservedGeneration := generation |};
     wrs_ObservedGeneration := generation |}.
Definition update_wazuh_restore (now : Z) (phase message : string) : OIO unit :=
  modify_object (fun o =>
    set_custom_status (wazuh_restore_status now (om_Generation (cu_Meta o)) phase message (cu_Status o)) o) ;;;
  put_status.

Definition restore_job (o : wrestore) : Job := Restore.BuildRestoreJob (cu_Name o) (cu_Namespace o) (cu_Spec o).
Definition restore_meta (o : wrestore) : Named := Restore.restore_object (cu_Name o) (cu_Namespace o) (cu_Spec o).

(** A read whose failure is the source's fault. *)
Definition demand {A} (m : API W A) (missing ctx : string) : IO W A :=
  got <- io_outcome m ;;
  match got with
  | Found a => io_ret a
  | Failed e => io_err (if IsNotFound e then missing else errorf ctx (api_message e))
  end.

Definition validate_s3 (namespace : string) (s3 : S3RestoreSource) : IO W unit :=
  if bool_decide (s3_Bucket s3 = "") then io_err "s3.bucket is required"
  else if bool_decide (s3_Key s3 = "") then io_err "s3.key is required"
  else
    let secret := rc_Name (s3_CredentialsSecret s3) in
    demand (get_secret namespace secret) ("credentials Secret '" +:+ secret +:+ "' not found")
      "failed to get credentials Secret" ;;;
    io_ret tt.
Definition validate_reference (namespace : string) (ref : WazuhBackupReference) : IO W unit :=
  b <- demand (get_custom (Spec := WazuhBackupSpec) (Status := WazuhBackupStatus) namespace (wbr_Name ref))
         ("WazuhBackup '" +:+ wbr_Name ref +:+ "' not found") "failed to get WazuhBackup" ;;
  match wbs_LastBackup (cu_Status b) with
  | None => io_err ("WazuhBackup '" +:+ wbr_Name ref +:+ "' has no completed backups")
  | Some _ => io_ret tt
  end.
Definition validateSource (namespace : string) (source : RestoreSource) : IO W unit :=
  match rsrc_S3 source, rsrc_WazuhBackupRef source with
  | None, None => io_err "either s3 or wazuhBackupRef must be specified"
  | s3, ref =>
      match s3 with Some s3 => validate_s3 namespace s3 | None => io_ret tt end ;;;
      match ref with Some ref => validate_reference namespace ref | None => io_ret tt end
  end.

(** What a Job that exists says of its restore: the phase, the message, and
    whether it is over. *)
Definition job_verdict (j : JobStatus) : string * string * bool :=
  if bool_decide (0 < jst_Succeeded j) then
    (WazuhRestorePhaseCompleted, "Restore completed successfully", true)
  else if bool_decide (0 < jst_Failed j) then (WazuhRestorePhaseFailed, "Restore job failed", true)
  else (WazuhRestorePhaseRestoring, "Restore in progress", false).

Definition reconcile_restore_job (now : Z) : OIO unit :=
  s <- io_get ;;
  let job := restore_job s.1 in
  got <- ask (io_outcome (get_owned (O := Job) (nm_Namespace (job_Meta job)) (nm_Name (job_Meta job)))) ;;
  match got with
  | Failed e =>
      if IsNotFound e then
        modify_status (set_job_start now (nm_Name (job_Meta job)) (wr_Source (cu_Spec s.1))) ;;;
        io_wrap "failed to create Job" (ask (io_api (create_owned job))) ;;;
        update_wazuh_restore now WazuhRestorePhaseRestoring "Restore job created"
      else io_err (api_message e)
  | Found existing =>
      let '(phase, message, over) := job_verdict (job_Status existing) in
      modify_status (set_restore_job (nm_Name (job_Meta existing))) ;;;
      (if over then modify_status (set_job_end now) else io_ret tt) ;;;
      update_wazuh_restore now phase message
  end.

Definition restore_over (s : WazuhRestoreStatus) : bool :=
  bool_decide (wrs_Phase s = WazuhRestorePhaseCompleted) || bool_decide (wrs_Phase s = WazuhRestorePhaseFailed).

Definition reconcile_wazuh_restore (now : Z) : OIO unit :=
  s <- io_get ;;
  let o := s.1 in
  if restore_over (cu_Status o) then io_ret tt
  else
    let name := cref_Name (wr_ClusterRef (cu_Spec o)) in
    cluster <- ask (cluster_named (cu_Namespace o) name) ;;
    match cluster with
    | Failed e =>
        if IsNotFound e then
          update_wazuh_restore now WazuhRestorePhaseFailed ("WazuhCluster '" +:+ name +:+ "' not found")
        else io_err (errorf "failed to get WazuhCluster" (api_message e))
    | Found _ =>
        try valid <- ask (validateSource (cu_Namespace o) (wr_Source (cu_Spec o))) ;;
        match valid with
        | Err e =>
            update_wazuh_restore now WazuhRestorePhaseFailed (errorf "Invalid source configuration" e)
        | Ok _ =>
            io_wrap "failed to reconcile RBAC"
              (ask (reconcileRBAC (restore_meta o) (wr_ServiceAccount (cu_Spec o)))) ;;;
            io_wrap "failed to reconcile Job" (reconcile_restore_job now)
        end
    end.

Definition WazuhRestoreFinalizer : string := "wazuhrestore.wazuh.com/finalizer".
Definition WazuhRestoreReconcile (now : Z) : OIO unit :=
  with_object_finalizer WazuhRestoreFinalizer (release WazuhRestoreFinalizer) (reconcile_wazuh_restore now).
Definition wazuh_restore_busy (s : WazuhRestoreStatus) : bool :=
  bool_decide (wrs_Phase s ∈ [WazuhRestorePhaseRestoring; WazuhRestorePhasePending; WazuhRestorePhaseValidating;
                              WazuhRestorePhaseStopping; WazuhRestorePhaseBackingUp; WazuhRestorePhaseStarting]).
Definition WazuhRestoreReconciler (now : Z) (namespace name : string) : @FIO W (option Z) :=
  reconcile_custom (WazuhRestoreReconcile now) (while_busy wazuh_restore_busy) namespace name.
End Reconcilers.

(** ** Laws and lemmas *)

(** *** Without a Job

    [quiet w w']: from [w] to [w'] only reads, writes of the restore's status and
    [createOrUpdate] of its access rights. *)
Section Quiet.
Context {W : Type} `{!KubeClient W, !ClusterClient W} {CH : ConditionHelper}.
Context `{!OwnedClient W Job, !OwnedClient W CronJob, !OwnedClient W ServiceAccount, !OwnedClient W Role,
          !OwnedClient W RoleBinding}.
Context `{!CustomClient W WazuhBackupSpec WazuhBackupStatus, !CustomClient W WazuhRestoreSpec WazuhRestoreStatus}.

Record undisturbing (R : W -> W -> Prop) : Prop := {
  un_order : PreOrder R;
  un_cluster ns n w : R w (get_cluster ns n w).2;
  un_secret ns n w : R w (get_secret ns n w).2;
  un_backup ns n w : R w (get_custom (Spec := WazuhBackupSpec) (Status := WazuhBackupStatus) ns n w).2;
  un_job ns n w : R w (get_owned (O := Job) ns n w).2;
  un_account (o : ServiceAccount) w : R w (createOrUpdate o w).2;
  un_role (o : Role) w : R w (createOrUpdate o w).2;
  un_binding (o : RoleBinding) w : R w (createOrUpdate o w).2;
  un_status (o : wrestore) w : R w (update_custom_status o w).2
}.
Definition quiet (w w' : W) : Prop := forall R, undisturbing R -> R w w'.

#[export] Instance quiet_preorder : PreOrder quiet.
Proof.
  split.
  - intros w R HR. pose proof (un_order _ HR). reflexivity.
  - intros w1 w2 w3 H1 H2 R HR. pose proof (un_order _ HR). etrans; [by apply H1|by apply H2].
Qed.
Lemma quiet_undisturbing : undisturbing quiet.
Proof. split; [exact _|intros; intros R HR; apply HR..]. Qed.

Lemma keeps_quiet_read {A} (m : API W A) : (forall w, quiet w (m w).2) -> keeps quiet (io_outcome m).
Proof. intros H w. specialize (H w). unfold io_outcome. by destruct (m w). Qed.
Lemma keeps_quiet_rbac m account : keeps quiet (reconcileRBAC m account).
Proof.
  unfold reconcileRBAC. keeps_auto.
  - intros w. apply (un_account _ quiet_undisturbing).
  - intros w. apply (un_role _ quiet_undisturbing).
  - intros w. apply (un_binding _ quiet_undisturbing).
Qed.
Lemma keeps_quiet_source ns source : keeps quiet (validateSource ns source).
Proof.
  unfold validateSource, validate_s3, validate_reference, demand.
  keeps_auto; apply keeps_quiet_read; intros ?; first [apply (un_secret _ quiet_undisturbing)|apply (un_backup _ quiet_undisturbing)].
Qed.

Lemma quiet_cluster ns n w : quiet w (cluster_named ns n w).2.
Proof. apply keeps_quiet_read. intros ?. apply (un_cluster _ quiet_undisturbing). Qed.
End Quiet.

(** *** Restores *)
Section Restores.
Context {W : Type} `{!KubeClient W, !ClusterClient W} {CH : ConditionHelper}.
Context `{!OwnedClient W Job, !OwnedClient W CronJob, !OwnedClient W ServiceAccount, !OwnedClient W Role,
          !OwnedClient W RoleBinding}.
Context `{!CustomClient W WazuhBackupSpec WazuhBackupStatus, !CustomClient W WazuhRestoreSpec WazuhRestoreStatus}.
Context {ER : StatusEcho W WazuhRestoreSpec WazuhRestoreStatus}.

Lemma update_wazuh_restore_run now phase message (o : wrestore) (f : factory) (w : W) :
  exists r o' w' gen, update_wazuh_restore now phase message (o, (f, w)) = (r, (o', (f, w'))) /\
    same_custom o o' /\ cu_Status o' = wazuh_restore_status now gen phase message (cu_Status o) /\ quiet w w'.
Proof.
  set (gen := om_Generation (cu_Meta o)).
  set (o0 := set_custom_status (wazuh_restore_status now gen phase message (cu_Status o)) o).
  destruct (put_status_run o0 f w) as (r & o' & w' & E & Hs & Hst & ->).
  exists r, o', (update_custom_status o0 w).2, gen. unfold update_wazuh_restore, modify_object.
  erewrite io_bind_run by reflexivity. fold gen o0. rewrite E.
  split_and!; [done|exact Hs|by rewrite Hst|apply (un_status _ quiet_undisturbing)].
Qed.

Definition job_of (o : wrestore) : API W Job :=
  get_owned (nm_Namespace (job_Meta (restore_job o))) (nm_Name (job_Meta (restore_job o))).

(** The ways of a reconcile. *)
Inductive restore_way (now : Z) (o : wrestore) (w : W) : wrestore -> W -> Prop :=
| way_over : restore_over (cu_Status o) = true -> restore_way now o w o w
| way_error w' : restore_over (cu_Status o) = false -> quiet w w' -> restore_way now o w o w'
| way_refused o' w' : restore_over (cu_Status o) = false -> quiet w w' -> same_custom o o' ->
    wrs_Phase (cu_Status o') = WazuhRestorePhaseFailed -> restore_way now o w o' w'
| way_job o' j w1 w2 w' : restore_over (cu_Status o) = false -> quiet w w1 -> job_of o w1 = (Found j, w2) ->
    quiet w2 w' -> same_custom o o' -> wrs_Phase (cu_Status o') = (job_verdict (job_Status j)).1.1 ->
    restore_way now o w o' w'
| way_created o' w0 w0' w1 e w2 x w3 w' : restore_over (cu_Status o) = false -> quiet w w0 ->
    validateSource (cu_Namespace o) (wr_Source (cu_Spec o)) w0 = (Ok tt, w0') -> quiet w0' w1 ->
    job_of o w1 = (Failed (NotFound e), w2) -> create_owned (restore_job o) w2 = (x, w3) -> quiet w3 w' ->
    same_custom o o' ->
    wrs_Phase (cu_Status o') = match x with Found _ => WazuhRestorePhaseRestoring | Failed _ => wrs_Phase (cu_Status o) end ->
    restore_way now o w o' w'.

Lemma reconcile_restore_job_way now (o : wrestore) f w w0 w0' w1 r o' s' :
  restore_over (cu_Status o) = false -> quiet w w0 ->
  validateSource (cu_Namespace o) (wr_Source (cu_Spec o)) w0 = (Ok tt, w0') -> quiet w0' w1 ->
  reconcile_restore_job now (o, (f, w1)) = (r, (o', s')) -> restore_way now o w o' s'.2.
Proof.
  intros Hover Hq Hv Hq1 E.
  assert (Hw1 : quiet w w1).
  { etrans; [exact Hq|]. etrans; [|exact Hq1].
    pose proof (keeps_quiet_source (cu_Namespace o) (wr_Source (cu_Spec o)) w0) as H. by rewrite Hv in H. }
  revert E. unfold reconcile_restore_job. erewrite io_bind_run by reflexivity. cbv zeta. cbn [fst].
  fold (job_of o). pose proof (un_job _ quiet_undisturbing (nm_Namespace (job_Meta (restore_job o)))
    (nm_Name (job_Meta (restore_job o))) w1) as Hj. fold (job_of o) in Hj.
  unfold io_bind at 1. rewrite ask_run. unfold io_outcome at 1 2.
  destruct (job_of o w1) as [[j|e] w2] eqn:Ej; cbn [fst snd] in *.
  - destruct (job_verdict (job_Status j)) as [[phase message] over] eqn:Evd.
    set (s1 := set_restore_job (nm_Name (job_Meta j)) (cu_Status o)).
    set (o1 := set_custom_status (if over then set_job_end now s1 else s1) o).
    destruct (update_wazuh_restore_run now phase message o1 f w2) as (r3 & o3 & w3 & gen & E3 & Hs3 & Hst3 & Hq3).
    intros E. assert (E' : update_wazuh_restore now phase message (o1, (f, w2)) = (r, (o', s')))
      by (destruct over; exact E).
    rewrite E3 in E'. simplify_eq.
    cbn. eapply way_job; [done|exact Hw1|exact Ej|exact Hq3|exact Hs3|]. rewrite Hst3, Evd. done.
  - destruct (IsNotFound e) eqn:Enf.
    2: { unfold io_err. intros. simplify_eq. apply way_error; [done|]. by etrans. }
    destruct e; try done.
    set (o1 := set_custom_status (set_job_start now (nm_Name (job_Meta (restore_job o))) (wr_Source (cu_Spec o))
                 (cu_Status o)) o).
    unfold io_bind at 1, modify_status, modify_object, io_modify. cbn [fst snd]. fold o1.
    unfold io_bind, io_wrap. rewrite ask_run. unfold io_api.
    destruct (create_owned (restore_job o) w2) as [[[]|e] w3] eqn:Ec; cbn [fst snd wrapf].
    + destruct (update_wazuh_restore_run now WazuhRestorePhaseRestoring "Restore job created" o1 f w3)
        as (r4 & o4 & w4 & gen & E4 & Hs4 & Hst4 & Hq4).
      rewrite E4. intros. simplify_eq. eapply way_created; [done|exact Hq|exact Hv|exact Hq1|exact Ej|exact Ec|
        exact Hq4|exact Hs4|by rewrite Hst4].
    + intros. simplify_eq. cbn. eapply way_created; [done|exact Hq|exact Hv|exact Hq1|exact Ej|exact Ec|reflexivity|
        done|done].
Qed.

Lemma reconcile_wazuh_restore_way now (o : wrestore) f w r o' s' :
  reconcile_wazuh_restore now (o, (f, w)) = (r, (o', s')) -> restore_way now o w o' s'.2.
Proof.
  unfold reconcile_wazuh_restore. erewrite io_bind_run by reflexivity. cbv zeta. cbn [fst].
  destruct (restore_over (cu_Status o)) eqn:Hover; [unfold io_ret; intros; simplify_eq; by apply way_over|].
  pose proof (quiet_cluster (cu_Namespace o) (cref_Name (wr_ClusterRef (cu_Spec o))) w) as Hc.
  unfold io_bind at 1. rewrite ask_run. revert Hc. unfold cluster_named, io_outcome.
  destruct (get_cluster _ _ w) as [got w1]. cbn [fst snd]. intros Hc.
  assert (Hrefuse : forall message w2, quiet w w2 ->
    update_wazuh_restore now WazuhRestorePhaseFailed message (o, (f, w2)) = (r, (o', s')) -> restore_way now o w o' s'.2).
  { intros message w2 Hw2. destruct (update_wazuh_restore_run now WazuhRestorePhaseFailed message o f w2)
      as (r3 & o3 & w3 & gen & E3 & Hs3 & Hst3 & Hq3). rewrite E3. intros; simplify_eq.
    apply way_refused; [done|by etrans|done|by rewrite Hst3]. }
  destruct got as [c|e].
  2: { destruct (IsNotFound e); [by apply Hrefuse|]. unfold io_err. intros; simplify_eq. by apply way_error. }
  unfold io_try at 1. rewrite ask_run.
  pose proof (keeps_quiet_source (cu_Namespace o) (wr_Source (cu_Spec o)) w1) as Hv.
  destruct (validateSource _ _ w1) as [[[]|e] w2] eqn:Ev; cbn [fst snd] in *; [|apply Hrefuse; by etrans].
  pose proof (keeps_quiet_rbac (restore_meta o) (wr_ServiceAccount (cu_Spec o)) w2) as Hr.
  unfold io_bind at 1, io_wrap at 1. rewrite ask_run. destruct (reconcileRBAC _ _ w2) as [[[]|e] w3]; cbn [fst snd wrapf] in *.
  2: { intros; simplify_eq. apply way_error; [done|]. by do 2 (etrans; [done|]). }
  unfold io_wrap. destruct (reconcile_restore_job now (o, (f, w3))) as [r4 [o4 s4]] eqn:E4. intros; simplify_eq.
  eapply reconcile_restore_job_way; eauto.
Qed.

(** A source the checks can accept. *)
Definition acceptable (source : RestoreSource) : Prop :=
  match rsrc_S3 source with
  | Some s3 => s3_Bucket s3 <> "" /\ s3_Key s3 <> ""
  | None => is_Some (rsrc_WazuhBackupRef source)
  end.
Lemma validated_acceptable ns source w w' : validateSource ns source w = (Ok tt, w') -> acceptable source.
Proof.
  unfold validateSource, acceptable. destruct (rsrc_S3 source) as [s3|], (rsrc_WazuhBackupRef source) as [ref|]; try done.
  all: intros (? & ? & H & _)%io_bind_ok; unfold validate_s3 in H.
  all: case_bool_decide; [done|]; case_bool_decide; done.
Qed.

(** what leads to the Job of a restore.  A reconcile reads, writes its status
    and its access rights, and nothing else, except that it may create one Job:
    the one the builder makes of the object, after the source was checked and
    accepted, and after the server has said that there is none of that name. *)
Theorem restore_job_after_validation now (o : wrestore) f w r o' s' :
  reconcile_wazuh_restore now (o, (f, w)) = (r, (o', s')) ->
  quiet w s'.2 \/
  exists w0 w0' w1 e w2 x w3,
    restore_over (cu_Status o) = false /\ acceptable (wr_Source (cu_Spec o)) /\
    quiet w w0 /\ validateSource (cu_Namespace o) (wr_Source (cu_Spec o)) w0 = (Ok tt, w0') /\
    quiet w0' w1 /\ job_of o w1 = (Failed (NotFound e), w2) /\
    create_owned (restore_job o) w2 = (x, w3) /\ quiet w3 s'.2.
Proof.
  intros H%reconcile_wazuh_restore_way.
  destruct H as [|w' _ Hq|o' w' _ Hq _ _|o' j w1 w2 w' _ Hq Hj Hq2 _ _|o' w0 w0' w1 e w2 x w3 w' Ho Hq Hv Hq1 Hj Hc Hq3 _ _].
  - left. reflexivity.
  - by left.
  - by left.
  - left. etrans; [exact Hq|]. etrans; [|exact Hq2].
    pose proof (un_job _ quiet_undisturbing (nm_Namespace (job_Meta (restore_job o))) (nm_Name (job_Meta (restore_job o))) w1)
      as H. fold (job_of o) in H. by rewrite Hj in H.
  - right. exists w0, w0', w1, e, w2, x, w3. split_and!; try done. by eapply validated_acceptable.
Qed.

(** C25: a restore that is said to be complete has had its Job succeed.  A
    reconcile that leaves the phase Completed on a restore that was not over has
    found the Job with a success in its status; in any other way, the phase is
    the one before, Failed, or Restoring. *)
Theorem restore_completed_after_job now (o : wrestore) f w r o' s' :
  reconcile_wazuh_restore now (o, (f, w)) = (r, (o', s')) -> restore_over (cu_Status o) = false ->
  wrs_Phase (cu_Status o') = wrs_Phase (cu_Status o) \/
  wrs_Phase (cu_Status o') ∈ [WazuhRestorePhaseFailed; WazuhRestorePhaseRestoring] \/
  (wrs_Phase (cu_Status o') = WazuhRestorePhaseCompleted /\
   exists j w1 w2, quiet w w1 /\ job_of o w1 = (Found j, w2) /\ 0 < jst_Succeeded (job_Status j)).
Proof.
  intros H%reconcile_wazuh_restore_way Ho.
  destruct H as [|w' _ Hq|o' w' _ Hq _ Hp|o' j w1 w2 w' _ Hq Hj Hq2 _ Hp|o' w0 w0' w1 e w2 x w3 w' _ Hq Hv Hq1 Hj Hc Hq3 _ Hp].
  - by left.
  - by left.
  - right. left. rewrite Hp. set_solver.
  - right. rewrite Hp. unfold job_verdict. case_bool_decide; [right; eauto 8|]. left. case_bool_decide; set_solver.
  - destruct x as [[]|e'].
    + right. left. rewrite Hp. set_solver.
    + by left.
Qed.

(** The script of a Job. *)
Definition job_script (j : Job) : list string := ct_Args (ps_Container (js_Pod (job_Spec j))).

(** a restore by reference restores nothing.  When the source names a
    WazuhBackup and no storage, a reconcile that creates a Job (the checks let it,
    if that backup has a last backup) creates one whose whole script prints an
    error and fails. *)
Theorem restore_by_reference_fails now (o : wrestore) f w r o' s' :
  rsrc_S3 (wr_Source (cu_Spec o)) = None -> rsrc_GCS (wr_Source (cu_Spec o)) = None ->
  rsrc_Azure (wr_Source (cu_Spec o)) = None -> rsrc_HDFS (wr_Source (cu_Spec o)) = None ->
  reconcile_wazuh_restore now (o, (f, w)) = (r, (o', s')) ->
  quiet w s'.2 \/
  exists job w2 x w3, create_owned job w2 = (x, w3) /\ quiet w3 s'.2 /\
    job_script job = [shell "echo `ERROR: No restore source configured`; exit 1"] /\
    is_Some (rsrc_WazuhBackupRef (wr_Source (cu_Spec o))).
Proof.
  intros Hs Hg Ha Hh H%reconcile_wazuh_restore_way.
  destruct H as [|w' _ Hq|o' w' _ Hq _ _|o' j w1 w2 w' _ Hq Hj Hq2 _ _|o' w0 w0' w1 e w2 x w3 w' Ho Hq Hv Hq1 Hj Hc Hq3 _ _].
  - left. reflexivity.
  - by left.
  - by left.
  - left. etrans; [exact Hq|]. etrans; [|exact Hq2].
    pose proof (un_job _ quiet_undisturbing (nm_Namespace (job_Meta (restore_job o))) (nm_Name (job_Meta (restore_job o))) w1)
      as H. fold (job_of o) in H. by rewrite Hj in H.
  - right. exists (restore_job o), w2, x, w3. apply validated_acceptable in Hv. unfold acceptable in Hv. rewrite Hs in Hv.
    split_and!; try done. cbn. unfold Restore.buildRestoreScript, Restore.getStorageType. by rewrite Hs, Hg, Ha, Hh.
Qed.
End Restores.

(** *** The archive of a restore *)

(** the archive is looked for where the copy leaves it.  The source's path is
    the directory the script works with, a slash, and the name of the archive, and
    that name is one path component: what [rclone copy] brings is the file the
    script then unpacks, and the directory is where it saves the archive from
    before. *)
Theorem archive_path_splits spec root key :
  Restore.source_root_key spec = Some (root, key) ->
  Restore.buildSourceRemotePath spec = Restore.source_dir spec +:+ "/" +:+ Restore.buildArchiveName spec /\
  free_of "/"%char (Restore.buildArchiveName spec) = true /\
  last (Split "/"%char key) = Some (Restore.buildArchiveName spec).
Proof.
  intros H. unfold Restore.source_dir, Restore.buildSourceRemotePath, Restore.buildArchiveName. rewrite H.
  destruct (Split_last "/"%char key) as (front & part & Hl & Hf & Hk). rewrite Hl. cbn [default from_option].
  split_and!; [|done|done].
  assert (exists dir, "remote:" +:+ root +:+ "/" +:+ key = dir +:+ "/" +:+ part) as [dir E].
  { destruct Hk as [[-> _]| ->].
    - exists ("remote:" +:+ root). by rewrite append_assoc.
    - exists ("remote:" +:+ root +:+ "/" +:+ front). by rewrite !append_assoc. }
  rewrite E, TrimSuffix_app. done.
Qed.

(** *** Scheduled backups *)
Section Scheduled.
Context {W : Type} `{!KubeClient W, !ClusterClient W} {CH : ConditionHelper}.
Context `{!OwnedClient W Job, !OwnedClient W CronJob, !OwnedClient W ServiceAccount, !OwnedClient W Role,
          !OwnedClient W RoleBinding}.
Context `{!CustomClient W WazuhBackupSpec WazuhBackupStatus, !CustomClient W WazuhRestoreSpec WazuhRestoreStatus}.
Context {EB : StatusEcho W WazuhBackupSpec WazuhBackupStatus}.

(** The same object, with the same last backup. *)
Definition same_last (o o' : backup) : Prop :=
  same_custom o o' /\ wbs_LastBackup (cu_Status o') = wbs_LastBackup (cu_Status o).
Abbreviation same_last_in := (fun s s' : backup * (factory * W) => same_last s.1 s'.1).
#[local] Instance same_last_preorder : PreOrder same_last_in.
Proof.
  split; [intros s; by split|]. intros [x ?] [y ?] [z ?] [? Hl] [? Hl']; split; cbn in *; [by etrans|congruence].
Qed.

Lemma keeps_last_ask {A} (m : IO W A) : keeps same_last_in (ask m).
Proof. intros [o [f w]]. rewrite ask_run. by split. Qed.
Lemma keeps_last_status (g : WazuhBackupStatus -> WazuhBackupStatus) :
  (forall st, wbs_LastBackup (g st) = wbs_LastBackup st) -> keeps same_last_in (modify_status g).
Proof. intros H. apply keeps_modify. intros [o s]. split; [done|]. cbn. apply H. Qed.
Lemma keeps_last_update now phase message : keeps same_last_in (update_backup now phase message).
Proof.
  apply keeps_bind; [exact _|apply keeps_modify; intros [o s]; by split|intros _].
  intros [o [f w]]. destruct (put_status_run o f w) as (r & o' & w' & -> & Hs & Hst & _). split; [done|]. cbn. by rewrite Hst.
Qed.
Hint Resolve keeps_last_ask keeps_last_update : keeps.

Lemma keeps_last_cron : keeps same_last_in reconcileCronJob.
Proof. unfold reconcileCronJob. keeps_auto; by apply keeps_last_status. Qed.

Lemma reconcile_scheduled now (o : backup) s r o' s' :
  IsScheduled (cu_Spec o) = true -> reconcile_backup now (o, s) = (r, (o', s')) -> same_last o o'.
Proof.
  intros Hs. unfold reconcile_backup. erewrite io_bind_run by reflexivity. cbv zeta. cbn [fst]. rewrite Hs.
  match goal with |- ?m (o, s) = _ -> _ => assert (H : keeps same_last_in m) end.
  { keeps_auto. apply keeps_last_cron. }
  intros E. specialize (H (o, s)). by rewrite E in H.
Qed.

Definition backup_reconciled (o o' : backup) : Prop :=
  exists now s r s', reconcile_backup now (o, s) = (r, (o', s')).

(** C26: no restore from a scheduled backup by reference.  However often a
    scheduled backup is reconciled, and whatever its CronJob has done, its status
    names no last backup; and as long as the server shows it so, the checks refuse
    every source that refers to it. *)
Theorem scheduled_backup_not_restorable (o o' : backup) :
  IsScheduled (cu_Spec o) = true -> wbs_LastBackup (cu_Status o) = None -> rtc backup_reconciled o o' ->
  wbs_LastBackup (cu_Status o') = None /\
  forall source ref ns w,
    rsrc_WazuhBackupRef source = Some ref -> (forall w1, (get_custom ns (wbr_Name ref) w1).1 = Found o') ->
    exists e, (validateSource ns source w).1 = Err e.
Proof.
  intros Hs Hl H.
  assert (Hall : IsScheduled (cu_Spec o') = true /\ wbs_LastBackup (cu_Status o') = None).
  { induction H as [|o1 o2 o3 (now & s & r & s' & E) _ IH]; [done|].
    destruct (reconcile_scheduled _ _ _ _ _ _ Hs E) as [(_ & _ & Hsp) Hl2]. apply IH; congruence. }
  destruct Hall as [_ Hn]. split; [done|]. intros source ref ns w Href Hget.
  assert (Hv : forall w1, exists e, (validate_reference ns ref w1).1 = Err e).
  { intros w1. specialize (Hget w1). unfold validate_reference, demand, io_bind, io_outcome.
    destruct (get_custom ns (wbr_Name ref) w1) as [got w2]. cbn in Hget. subst. cbn. rewrite Hn. by eexists. }
  unfold validateSource. rewrite Href. destruct (rsrc_S3 source) as [s3|].
  - unfold io_bind. destruct (validate_s3 ns s3 w) as [[[]|e] w1]; [apply Hv|by exists e].
  - unfold io_bind, io_ret. apply Hv.
Qed.

(** *** One-shot backups *)

(** the last backup of a one-shot backup is its Job's.  When a reconcile of a
    one-shot backup comes to its Job and the server shows one, the status names
    that Job, and the last backup is, dated now, a success if the Job counts one, a
    failure if it only counts failures, and what it was before while the Job
    runs. *)
Theorem one_shot_follows_job now (o : backup) f w j w' :
  get_owned (nm_Namespace (job_Meta (backup_job o))) (nm_Name (job_Meta (backup_job o))) w = (Found j, w') ->
  exists o', reconcile_backup_job now (o, (f, w)) = (Ok tt, (o', (f, w'))) /\ same_custom o o' /\
    wbs_JobName (cu_Status o') = nm_Name (job_Meta j) /\
    (if bool_decide (0 < jst_Succeeded (job_Status j))
     then bki_Status <$> wbs_LastBackup (cu_Status o') = Some "Success" /\
          bki_Time <$> wbs_LastBackup (cu_Status o') = Some now
     else if bool_decide (0 < jst_Failed (job_Status j))
     then bki_Status <$> wbs_LastBackup (cu_Status o') = Some "Failed" /\
          bki_Time <$> wbs_LastBackup (cu_Status o') = Some now
     else wbs_LastBackup (cu_Status o') = wbs_LastBackup (cu_Status o)).
Proof.
  intros E. unfold reconcile_backup_job. erewrite io_bind_run by reflexivity. cbv zeta. cbn [fst].
  unfold io_bind at 1. rewrite ask_run. unfold io_outcome. rewrite E. cbn [fst snd].
  unfold job_backup. erewrite io_bind_run by reflexivity.
  case_bool_decide; [|case_bool_decide]; eexists; (split; [reflexivity|]); cbn; by split_and!.
Qed.

(** a one-shot backup runs again when its Job has gone.  The Job is removed a day
    after its end, which makes the controller reconcile; whatever the last backup
    says, the Job is then created anew. *)
Theorem one_shot_runs_again now (o : backup) f w e w1 :
  get_owned (O := Job) (nm_Namespace (job_Meta (backup_job o))) (nm_Name (job_Meta (backup_job o))) w = (Failed (NotFound e), w1) ->
  (reconcile_backup_job now (o, (f, w))).2.2.2 = (create_owned (backup_job o) w1).2.
Proof.
  intros E. unfold reconcile_backup_job. erewrite io_bind_run by reflexivity. cbv zeta. cbn [fst].
  unfold io_bind at 1. rewrite ask_run. unfold io_outcome. rewrite E. cbn [fst snd IsNotFound].
  unfold io_bind, io_wrap. rewrite ask_run. unfold io_api. by destruct (create_owned _ _) as [[[]|] ?].
Qed.
End Scheduled.

(** ** A small server *)
Module SimBackups.
Record desk := { d_backup : backup; d_restore : wrestore; d_jobs : list Job }.
Definition world : Type := desk * Sites.site.

#[global] Instance kube : KubeClient world := {
  get_statefulset ns n := lift_snd (get_statefulset ns n);
  update_statefulset s := lift_snd (update_statefulset s);
  list_pods ns l := lift_snd (list_pods ns l);
  delete_pod p := lift_snd (delete_pod p);
  get_secret ns n w := (if bool_decide (n = "keys") then Found {["access-key" := "AK"]} else Failed (NotFound n), w)
}.
#[global] Instance clusters : ClusterClient world := {
  get_cluster ns n w := (if bool_decide (n = "a") then Found (Sites.cluster "a" None) else Failed (NotFound n), w);
  update_cluster_status c w := (Found tt, w)
}.
#[global] Instance backups : CustomClient world WazuhBackupSpec WazuhBackupStatus := {
  get_custom ns n w := (if bool_decide (n = cu_Name (d_backup w.1)) then Found (d_backup w.1) else Failed (NotFound n), w);
  update_custom o w := (Found o, ({| d_backup := o; d_restore := d_restore w.1; d_jobs := d_jobs w.1 |}, w.2));
  update_custom_status o w := (Found o, ({| d_backup := o; d_restore := d_restore w.1; d_jobs := d_jobs w.1 |}, w.2))
}.
#[global] Instance restores : CustomClient world WazuhRestoreSpec WazuhRestoreStatus := {
  get_custom ns n w := (if bool_decide (n = cu_Name (d_restore w.1)) then Found (d_restore w.1) else Failed (NotFound n), w);
  update_custom o w := (Found o, ({| d_backup := d_backup w.1; d_restore := o; d_jobs := d_jobs w.1 |}, w.2));
  update_custom_status o w := (Found o, ({| d_backup := d_backup w.1; d_restore := o; d_jobs := d_jobs w.1 |}, w.2))
}.
#[global] Instance backups_echo : StatusEcho world WazuhBackupSpec WazuhBackupStatus.
Proof. intros o w o' w' H. cbn in H. by simplify_eq. Qed.
#[global] Instance restores_echo : StatusEcho world WazuhRestoreSpec WazuhRestoreStatus.
Proof. intros o w o' w' H. cbn in H. by simplify_eq. Qed.

#[global] Instance jobs : OwnedClient world Job := {
  get_owned ns n w :=
    (match find (fun j => bool_decide (nm_Name (job_Meta j) = n)) (d_jobs w.1) with
     | Some j => Found j | None => Failed (NotFound n) end, w);
  create_owned j w := (Found tt, ({| d_backup := d_backup w.1; d_restore := d_restore w.1; d_jobs := j :: d_jobs w.1 |}, w.2));
  update_owned _ w := (Found tt, w)
}.
(** Kinds that are taken and not looked at. *)
Definition taken {O} : OwnedClient world O :=
  {| get_owned ns n w := (Failed (NotFound n), w); create_owned _ w := (Found tt, w); update_owned _ w := (Found tt, w) |}.
#[global] Instance cron_jobs : OwnedClient world CronJob := taken.
#[global] Instance accounts : OwnedClient world ServiceAccount := taken.
#[global] Instance roles : OwnedClient world Role := taken.
#[global] Instance bindings : OwnedClient world RoleBinding := taken.
#[global] Instance conditions : ConditionHelper := fun now l c => put_condition c l.

Definition keys : RepositoryCredentialsRef := {| rc_Name := "keys"; rc_AccessKeyKey := ""; rc_SecretKeyKey := "" |}.
Definition all : BackupComponents :=
  {| bc_AgentKeys := true; bc_FIMDatabase := false; bc_AgentDatabase := true; bc_Integrations := false;
     bc_AlertLogs := false; bc_CustomPaths := [] |}.
Definition weekly (schedule : string) : backup :=
  SimSnapshots.object WazuhBackupFinalizer "weekly"
    {| wb_ClusterRef := SimRest.ref_to "a" ""; wb_Components := all; wb_Schedule := schedule; wb_Retention := None;
       wb_Storage := {| bs_Type := "s3"; bs_Bucket := "wazuh"; bs_Prefix := ""; bs_Region := ""; bs_Endpoint := "";
                        bs_ForcePathStyle := false; bs_CredentialsSecret := Some keys; bs_GCS := None; bs_Azure := None;
                        bs_HDFS := None |};
       wb_Suspend := false; wb_BackupTimeout := ""; wb_Image := None; wb_Resources := None; wb_ServiceAccount := None |}
    {| wbs_Phase := ""; wbs_Message := ""; wbs_LastBackup := None; wbs_NextScheduledBackup := None;
       wbs_BackupHistory := []; wbs_BackupCount := 0; wbs_TotalSize := ""; wbs_CronJobName := ""; wbs_JobName := "";
       wbs_Conditions := []; wbs_ObservedGeneration := 0 |}.
Definition from_s3 : RestoreSource :=
  {| rsrc_S3 := Some {| s3_Bucket := "wazuh"; s3_Key := "a/ns/weekly-20260101-000000.tar.gz"; s3_Region := "";
                        s3_Endpoint := ""; s3_ForcePathStyle := false; s3_CredentialsSecret := keys |};
     rsrc_GCS := None; rsrc_Azure := None; rsrc_HDFS := None; rsrc_WazuhBackupRef := None |}.
Definition from_backup : RestoreSource :=
  {| rsrc_S3 := None; rsrc_GCS := None; rsrc_Azure := None; rsrc_HDFS := None;
     rsrc_WazuhBackupRef := Some {| wbr_Name := "weekly"; wbr_BackupTimestamp := "" |} |}.
Definition spec (source : RestoreSource) : WazuhRestoreSpec :=
  {| wr_ClusterRef := SimRest.ref_to "a" ""; wr_Source := source; wr_Components := None; wr_PreRestoreBackup := true;
     wr_StopManager := true; wr_RestartAfterRestore := true; wr_RestoreTimeout := ""; wr_Image := None;
     wr_Resources := None; wr_ServiceAccount := None |}.
Definition back (source : RestoreSource) : wrestore :=
  SimSnapshots.object WazuhRestoreFinalizer "back" (spec source)
    {| wrs_Phase := ""; wrs_Message := ""; wrs_StartTime := None; wrs_EndTime := None; wrs_Duration := "";
       wrs_SourceBackup := None; wrs_PreRestoreBackupLocation := ""; wrs_RestoredComponents := []; wrs_JobName := "";
       wrs_Conditions := []; wrs_ObservedGeneration := 0 |}.
Definition backed_up : WazuhBackupStatus :=
  set_last_backup {| bki_Time := 0; bki_Status := "Success"; bki_Size := ""; bki_Location := ""; bki_Duration := "";
                     bki_Message := "" |} (cu_Status (weekly "")).
Definition desk_of (source : RestoreSource) (jobs : list Job) : world :=
  ({| d_backup := set_custom_status backed_up (weekly ""); d_restore := back source; d_jobs := jobs |}, Sites.two_clusters).
Definition ended (succeeded failed : Z) : Job :=
  let j := restore_job (back from_s3) in
  {| job_Meta := job_Meta j; job_Spec := job_Spec j;
     job_Status := {| jst_Active := 0; jst_Succeeded := succeeded; jst_Failed := failed |} |}.
Definition reconcile source jobs := reconcile_wazuh_restore (5 * Second) (back source, (∅, desk_of source jobs)).
End SimBackups.

Section Witnesses.
Import SimBackups.
Definition phase_after source jobs : string := wrs_Phase (cu_Status (reconcile source jobs).2.1).

Example phases_seen :
  (phase_after from_s3 [], phase_after from_s3 [ended 0 0], phase_after from_s3 [ended 1 0], phase_after from_s3 [ended 0 1],
   phase_after from_backup [])
  = ("Restoring", "Restoring", "Completed", "Failed", "Restoring").
Proof. by vm_compute. Qed.

Lemma reconcile_parts source jobs :
  reconcile_wazuh_restore (5 * Second) (back source, (∅, desk_of source jobs)) =
  ((reconcile source jobs).1, ((reconcile source jobs).2.1, (reconcile source jobs).2.2)).
Proof. unfold reconcile. by destruct (reconcile_wazuh_restore _ _) as [? [? ?]]. Qed.

Lemma restore_job_after_validation_witness :
  quiet (desk_of from_s3 []) (reconcile from_s3 []).2.2.2 \/
  exists w0 w0' w1 e w2 x w3,
    restore_over (cu_Status (back from_s3)) = false /\ acceptable (wr_Source (cu_Spec (back from_s3))) /\
    quiet (desk_of from_s3 []) w0 /\
    validateSource (cu_Namespace (back from_s3)) (wr_Source (cu_Spec (back from_s3))) w0 = (Ok tt, w0') /\
    quiet w0' w1 /\ job_of (back from_s3) w1 = (Failed (NotFound e), w2) /\
    create_owned (restore_job (back from_s3)) w2 = (x, w3) /\ quiet w3 (reconcile from_s3 []).2.2.2.
Proof. eapply restore_job_after_validation. apply reconcile_parts. Defined.

Lemma restore_completed_after_job_witness :
  phase_after from_s3 [ended 1 0] = wrs_Phase (cu_Status (back from_s3)) \/
  phase_after from_s3 [ended 1 0] ∈ [WazuhRestorePhaseFailed; WazuhRestorePhaseRestoring] \/
  (phase_after from_s3 [ended 1 0] = WazuhRestorePhaseCompleted /\
   exists j w1 w2, quiet (desk_of from_s3 [ended 1 0]) w1 /\ job_of (back from_s3) w1 = (Found j, w2) /\
     0 < jst_Succeeded (job_Status j)).
Proof. eapply (restore_completed_after_job (5 * Second)); [apply reconcile_parts|reflexivity]. Defined.

Lemma restore_by_reference_fails_witness :
  quiet (desk_of from_backup []) (reconcile from_backup []).2.2.2 \/
  exists job w2 x w3, create_owned job w2 = (x, w3) /\ quiet w3 (reconcile from_backup []).2.2.2 /\
    job_script job = [shell "echo `ERROR: No restore source configured`; exit 1"] /\
    is_Some (rsrc_WazuhBackupRef (wr_Source (cu_Spec (back from_backup)))).
Proof. eapply restore_by_reference_fails; [reflexivity..|apply reconcile_parts]. Defined.

Lemma archive_path_splits_witness :
  Restore.buildSourceRemotePath (spec from_s3) = Restore.source_dir (spec from_s3) +:+ "/" +:+
    Restore.buildArchiveName (spec from_s3) /\
  free_of "/"%char (Restore.buildArchiveName (spec from_s3)) = true /\
  last (Split "/"%char "a/ns/weekly-20260101-000000.tar.gz") = Some (Restore.buildArchiveName (spec from_s3)).
Proof. apply (archive_path_splits (spec from_s3) "wazuh"). reflexivity. Defined.

Definition scheduled : backup := weekly "0 3 * * 0".
Definition server : world :=
  ({| d_backup := scheduled; d_restore := back from_backup; d_jobs := [] |}, Sites.two_clusters).
Definition rescheduled : backup := (reconcile_backup (5 * Second) (scheduled, (∅, server))).2.1.
Definition refused : result unit :=
  (validateSource "ns" from_backup
     ({| d_backup := rescheduled; d_restore := back from_backup; d_jobs := [] |}, Sites.two_clusters)).1.
Example refused_says : refused = Err "WazuhBackup 'weekly' has no completed backups".
Proof. by vm_compute. Qed.

Lemma scheduled_backup_not_restorable_witness :
  IsScheduled (cu_Spec scheduled) = true /\ wbs_Phase (cu_Status rescheduled) = "Active" /\
  wbs_LastBackup (cu_Status rescheduled) = None.
Proof.
  split_and!; [reflexivity|reflexivity|].
  refine (proj1 (scheduled_backup_not_restorable scheduled rescheduled eq_refl eq_refl _)).
  apply rtc_once. exists (5 * Second), (∅, server), (reconcile_backup (5 * Second) (scheduled, (∅, server))).1,
    (reconcile_backup (5 * Second) (scheduled, (∅, server))).2.2.
  unfold rescheduled. by destruct (reconcile_backup _ _) as [? [? ?]].
Defined.

Definition ran (succeeded failed : Z) : Job :=
  {| job_Meta := job_Meta (backup_job (weekly "")); job_Spec := job_Spec (backup_job (weekly ""));
     job_Status := {| jst_Active := 0; jst_Succeeded := succeeded; jst_Failed := failed |} |}.
Lemma one_shot_follows_job_witness :
  exists o', reconcile_backup_job (5 * Second) (weekly "", (∅, desk_of from_s3 [ran 1 1])) =
    (Ok tt, (o', (∅, desk_of from_s3 [ran 1 1]))) /\ same_custom (weekly "") o' /\
    bki_Status <$> wbs_LastBackup (cu_Status o') = Some "Success".
Proof.
  destruct (one_shot_follows_job (5 * Second) (weekly "") ∅ (desk_of from_s3 [ran 1 1]) (ran 1 1)
    (desk_of from_s3 [ran 1 1])) as (o' & E & Hs & _ & Hl); [cbn; by rewrite bool_decide_true|].
  exists o'. split_and!; [exact E|exact Hs|apply Hl].
Defined.
End Witnesses.
