(* ===== verification/Pods.v ===== *)
(** * Pods as the operator builds them

    The fields of [core/v1] and [apps/v1] that the builders in
    [internal/wazuh/builder/deployments], [internal/opensearch/builder/deployments]
    and [internal/monitoring] set, what the builders share, the affinity of
    [internal/shared/affinity], and when the API server takes a pod template. *)
From S2P Require Import Prelude GoStrings IndexerDrain Cluster Workload.
Local Open Scope string_scope.
Local Open Scope list_scope.

(** ** Data

    What the operator passes on without a look into it is kept as its JSON, a
    seccomp profile as its type; nil and empty lists and maps are one.  Ports are
    TCP. *)
Definition Json : Type := string.

Record KeyToPath := { kp_Key : string; kp_Path : string; kp_Mode : option Z }.
Inductive VolumeSource : Type :=
| ConfigMapVolume (name : string) (items : list KeyToPath)
| SecretVolume (name : string) (items : list KeyToPath)
| EmptyDir (sizeLimit : string)
| ProjectedSecrets (sources : list (string * list KeyToPath))
| OtherVolume (source : Json).
Record Volume := { vo_Name : string; vo_Source : VolumeSource }.
Record VolumeMount := { vm_Name : string; vm_MountPath : string; vm_SubPath : string; vm_ReadOnly : bool }.

Inductive EnvSource : Type :=
| Value (value : string)
| SecretKeyRef (secret key : string)
| FieldRef (path : string)
| OtherEnv (source : Json).
Record EnvVar := { ev_Name : string; ev_Source : EnvSource }.

Inductive ProbeHandler : Type :=
| TCPSocket (port : Z)
| HTTPGet (path : string) (port : Z) (scheme : string)
| OtherProbe (handler : Json).
Record Probe := {
  pr_Handler : ProbeHandler;
  pr_InitialDelaySeconds : Z;
  pr_PeriodSeconds : Z;
  pr_TimeoutSeconds : Z;
  pr_FailureThreshold : Z
}.
Record ContainerPort := { cp_Name : string; cp_Port : Z }.
Record ResourceRequirements := { rr_Requests : gmap string string; rr_Limits : gmap string string }.

Record Capabilities := { ca_Add : list string; ca_Drop : list string }.
Record SecurityContext := {
  sc_AllowPrivilegeEscalation : option bool;
  sc_Capabilities : option Capabilities;
  sc_RunAsUser : option Z;
  sc_RunAsGroup : option Z;
  sc_RunAsNonRoot : option bool;
  sc_ReadOnlyRootFilesystem : option bool;
  sc_Privileged : option bool;
  sc_SeccompProfile : option Json;
  sc_SELinuxOptions : option Json;
  sc_Rest : Json
}.
Record PodSecurityContext := {
  psc_FSGroup : option Z;
  psc_RunAsUser : option Z;
  psc_RunAsGroup : option Z;
  psc_RunAsNonRoot : option bool;
  psc_SeccompProfile : option Json;
  psc_SELinuxOptions : option Json;
  psc_Sysctls : list Json;
  psc_SupplementalGroups : list Z;
  psc_Rest : Json
}.

Record Container := {
  co_Name : string;
  co_Image : string;
  co_ImagePullPolicy : string;
  co_Command : list string;
  co_Args : list string;
  co_Resources : ResourceRequirements;
  co_SecurityContext : option SecurityContext;
  co_Ports : list ContainerPort;
  co_Env : list EnvVar;
  co_EnvFrom : list Json;
  co_VolumeMounts : list VolumeMount;
  co_LivenessProbe : option Probe;
  co_ReadinessProbe : option Probe;
  co_StartupProbe : option Probe;
  co_Rest : Json
}.

(** A term of a pod (anti-)affinity on labels and a topology, with its weight
    where it is only preferred. *)
Inductive AffinityTerm : Type :=
| OnLabels (weight : option Z) (labels : gmap string string) (topologyKey : string)
| OtherTerm (term : Json).
Record PodAntiAffinity := { pa_Required : list AffinityTerm; pa_Preferred : list AffinityTerm }.
Record Affinity := {
  af_NodeAffinity : option Json;
  af_PodAffinity : option Json;
  af_PodAntiAffinity : option PodAntiAffinity
}.

Record PodSpec := {
  po_TerminationGracePeriodSeconds : option Z;
  po_ServiceAccountName : string;
  po_NodeSelector : gmap string string;
  po_Tolerations : list Json;
  po_Affinity : option Affinity;
  po_ImagePullSecrets : list string;
  po_TopologySpreadConstraints : list Json;
  po_SecurityContext : PodSecurityContext;
  po_InitContainers : list Container;
  po_Containers : list Container;
  po_Volumes : list Volume
}.
Record PodTemplateSpec := { te_Labels : gmap string string; te_Annotations : annotations; te_Spec : PodSpec }.
(** A claim template: ReadWriteOnce, of a class and a size. *)
Record ClaimTemplate := {
  cl_Name : string;
  cl_Labels : gmap string string;
  cl_StorageClassName : option string;
  cl_Storage : string
}.
Record StatefulSetObject := {
  so_Name : string;
  so_Namespace : string;
  so_Labels : gmap string string;
  so_Annotations : gmap string string;
  so_Replicas : Z;
  so_ServiceName : string;
  so_MinReadySeconds : Z;
  so_PodManagementPolicy : string;
  so_UpdateStrategy : string;
  so_Selector : gmap string string;
  so_Template : PodTemplateSpec;
  so_Claims : list ClaimTemplate
}.
Record DeploymentObject := {
  do_Name : string;
  do_Namespace : string;
  do_Labels : gmap string string;
  do_Annotations : gmap string string;
  do_Replicas : Z;
  (** of a rolling update *)
  do_MaxUnavailable : Z;
  do_MaxSurge : Z;
  do_Selector : gmap string string;
  do_Template : PodTemplateSpec
}.

(** ** What the builders share *)

Definition plain_volume_mount (name path : string) : VolumeMount :=
  {| vm_Name := name; vm_MountPath := path; vm_SubPath := ""; vm_ReadOnly := false |}.
Definition read_only_mount (name path : string) : VolumeMount :=
  {| vm_Name := name; vm_MountPath := path; vm_SubPath := ""; vm_ReadOnly := true |}.
Definition sub_path_mount (name path sub : string) : VolumeMount :=
  {| vm_Name := name; vm_MountPath := path; vm_SubPath := sub; vm_ReadOnly := false |}.
Definition file_mount (name path sub : string) : VolumeMount :=
  {| vm_Name := name; vm_MountPath := path; vm_SubPath := sub; vm_ReadOnly := true |}.
Definition key_path (key path : string) : KeyToPath := {| kp_Key := key; kp_Path := path; kp_Mode := None |}.
Definition env_value (name value : string) : EnvVar := {| ev_Name := name; ev_Source := Value value |}.
Definition env_secret (name secret key : string) : EnvVar := {| ev_Name := name; ev_Source := SecretKeyRef secret key |}.
Definition env_field (name path : string) : EnvVar := {| ev_Name := name; ev_Source := FieldRef path |}.
Definition container_port (name : string) (port : Z) : ContainerPort := {| cp_Name := name; cp_Port := port |}.
Definition probe (handler : ProbeHandler) (delay period timeout failures : Z) : Probe :=
  {| pr_Handler := handler; pr_InitialDelaySeconds := delay; pr_PeriodSeconds := period;
     pr_TimeoutSeconds := timeout; pr_FailureThreshold := failures |}.

Definition no_resources : ResourceRequirements := {| rr_Requests := ∅; rr_Limits := ∅ |}.
Definition cpu_memory (cpu memory cpuLimit memoryLimit : string) : ResourceRequirements :=
  {| rr_Requests := {["cpu" := cpu; "memory" := memory]}; rr_Limits := {["cpu" := cpuLimit; "memory" := memoryLimit]} |}.
Definition no_security_context : SecurityContext :=
  {| sc_AllowPrivilegeEscalation := None; sc_Capabilities := None; sc_RunAsUser := None; sc_RunAsGroup := None;
     sc_RunAsNonRoot := None; sc_ReadOnlyRootFilesystem := None; sc_Privileged := None; sc_SeccompProfile := None;
     sc_SELinuxOptions := None; sc_Rest := "" |}.

(** A container without what only the main one has. *)
Definition helper_container (name image policy : string) (command args : list string) (r : ResourceRequirements)
    (sc : option SecurityContext) (env : list EnvVar) (mounts : list VolumeMount) : Container :=
  {| co_Name := name; co_Image := image; co_ImagePullPolicy := policy; co_Command := command; co_Args := args;
     co_Resources := r; co_SecurityContext := sc; co_Ports := []; co_Env := env; co_EnvFrom := [];
     co_VolumeMounts := mounts; co_LivenessProbe := None; co_ReadinessProbe := None; co_StartupProbe := None;
     co_Rest := "" |}.

(** The fields a user sets replace the builder's; the others of the user's
    context are dropped. *)
Definition override {A} (own user : option A) : option A :=
  match user with
  | Some a => Some a
  | None => own
  end.
Definition override_list {A} (own user : list A) : list A :=
  match user with
  | [] => own
  | l => l
  end.
Definition merge_pod_security (own : PodSecurityContext) (user : option PodSecurityContext) : PodSecurityContext :=
  match user with
  | None => own
  | Some u =>
      {| psc_FSGroup := override (psc_FSGroup own) (psc_FSGroup u);
         psc_RunAsUser := override (psc_RunAsUser own) (psc_RunAsUser u);
         psc_RunAsGroup := override (psc_RunAsGroup own) (psc_RunAsGroup u);
         psc_RunAsNonRoot := override (psc_RunAsNonRoot own) (psc_RunAsNonRoot u);
         psc_SeccompProfile := override (psc_SeccompProfile own) (psc_SeccompProfile u);
         psc_SELinuxOptions := override (psc_SELinuxOptions own) (psc_SELinuxOptions u);
         psc_Sysctls := override_list (psc_Sysctls own) (psc_Sysctls u);
         psc_SupplementalGroups := override_list (psc_SupplementalGroups own) (psc_SupplementalGroups u);
         psc_Rest := psc_Rest own |}
  end.
Definition merge_security (own : SecurityContext) (user : option SecurityContext) : SecurityContext :=
  match user with
  | None => own
  | Some u =>
      {| sc_AllowPrivilegeEscalation := override (sc_AllowPrivilegeEscalation own) (sc_AllowPrivilegeEscalation u);
         sc_Capabilities := override (sc_Capabilities own) (sc_Capabilities u);
         sc_RunAsUser := override (sc_RunAsUser own) (sc_RunAsUser u);
         sc_RunAsGroup := override (sc_RunAsGroup own) (sc_RunAsGroup u);
         sc_RunAsNonRoot := override (sc_RunAsNonRoot own) (sc_RunAsNonRoot u);
         sc_ReadOnlyRootFilesystem := override (sc_ReadOnlyRootFilesystem own) (sc_ReadOnlyRootFilesystem u);
         sc_Privileged := override (sc_Privileged own) (sc_Privileged u);
         sc_SeccompProfile := override (sc_SeccompProfile own) (sc_SeccompProfile u);
         sc_SELinuxOptions := override (sc_SELinuxOptions own) (sc_SELinuxOptions u);
         sc_Rest := sc_Rest own |}
  end.

(** The first string that is not empty. *)
Definition or_default (s d : string) : string := if bool_decide (s = "") then d else s.

(** [ImageSpec] and [ResolveImage] *)
Record ImageSpec := { im_Repository : string; im_Tag : string; im_PullPolicy : string }.
Definition ResolveImage (i : ImageSpec) (defaultRepo defaultTag : string) : string :=
  let repo := or_default (im_Repository i) defaultRepo in
  let tag := or_default (im_Tag i) defaultTag in
  if bool_decide (tag = "") then repo else repo +:+ ":" +:+ tag.

(** What every builder is told about its pods; [bu_Affinity] is the merged one. *)
Record Builder := {
  bu_Namespace : string;
  bu_ClusterName : string;
  bu_Version : string;
  bu_Replicas : Z;
  bu_StorageSize : string;
  bu_StorageClassName : option string;
  bu_Resources : option ResourceRequirements;
  bu_Image : string;
  bu_NodeSelector : gmap string string;
  bu_Tolerations : list Json;
  bu_Affinity : option Affinity;
  bu_ImagePullSecrets : list string;
  bu_TopologySpreadConstraints : list Json;
  bu_Labels : gmap string string;
  bu_Annotations : gmap string string;
  bu_PodAnnotations : annotations;
  bu_Env : list EnvVar;
  bu_EnvFrom : list Json;
  bu_Volumes : list Volume;
  bu_VolumeMounts : list VolumeMount;
  bu_ExtraInitContainers : list Container;
  bu_ExtraContainers : list Container;
  bu_TerminationGracePeriodSeconds : option Z;
  bu_ServiceAccountName : string;
  bu_ImagePullPolicy : string;
  bu_SecurityContext : option PodSecurityContext;
  bu_ContainerSecurityContext : option SecurityContext;
  bu_UpdateStrategy : string
}.
Definition resolveUpdateStrategy (b : Builder) : string := or_default (bu_UpdateStrategy b) "OnDelete".

(** The pod around its volumes and containers. *)
Definition pod_spec (b : Builder) (sc : PodSecurityContext) (init containers : list Container) (volumes : list Volume)
    : PodSpec :=
  {| po_TerminationGracePeriodSeconds := bu_TerminationGracePeriodSeconds b;
     po_ServiceAccountName := bu_ServiceAccountName b;
     po_NodeSelector := bu_NodeSelector b;
     po_Tolerations := bu_Tolerations b;
     po_Affinity := bu_Affinity b;
     po_ImagePullSecrets := bu_ImagePullSecrets b;
     po_TopologySpreadConstraints := bu_TopologySpreadConstraints b;
     po_SecurityContext := sc;
     po_InitContainers := init ++ bu_ExtraInitContainers b;
     po_Containers := containers;
     po_Volumes := volumes |}.

(** A StatefulSet with one claim; [resource.MustParse] panics on a size that is
    no quantity. *)
Class Quantities := is_quantity : string -> bool.
Definition stateful_set {Q : Quantities} (b : Builder) (name serviceName claim : string)
    (labels selector : gmap string string) (pod : PodSpec) : outcome StatefulSetObject :=
  if is_quantity (bu_StorageSize b) then
    Returns {| so_Name := name; so_Namespace := bu_Namespace b; so_Labels := labels; so_Annotations := bu_Annotations b;
               so_Replicas := bu_Replicas b; so_ServiceName := serviceName; so_MinReadySeconds := 30;
           so_PodManagementPolicy := "Parallel"; so_UpdateStrategy := resolveUpdateStrategy b; so_Selector := selector;
           so_Template := {| te_Labels := labels; te_Annotations := bu_PodAnnotations b; te_Spec := pod |};
           so_Claims := [{| cl_Name := claim; cl_Labels := selector; cl_StorageClassName := bu_StorageClassName b;
                            cl_Storage := bu_StorageSize b |}] |}
  else Panics.

(** ** Affinity ([internal/shared/affinity]) *)

Record AntiAffinitySpec := { aa_Enabled : bool; aa_TopologyKey : string; aa_Type : string; aa_Weight : Z }.

(** [BuildManagerAntiAffinity] and [BuildIndexerAntiAffinity] *)
Definition BuildAntiAffinity (component clusterName : string) (spec : option AntiAffinitySpec) : option Affinity :=
  match spec with
  | None => None
  | Some s =>
      if negb (aa_Enabled s) then None
      else
        let topologyKey := or_default (aa_TopologyKey s) "kubernetes.io/hostname" in
        let labels := SelectorLabels clusterName component in
        let anti :=
          if bool_decide (or_default (aa_Type s) "required" = "required")
          then {| pa_Required := [OnLabels None labels topologyKey]; pa_Preferred := [] |}
          else
            let weight := if bool_decide (0 < aa_Weight s) && bool_decide (aa_Weight s <= 100) then aa_Weight s else 100 in
            {| pa_Required := []; pa_Preferred := [OnLabels (Some weight) labels topologyKey] |} in
        Some {| af_NodeAffinity := None; af_PodAffinity := None; af_PodAntiAffinity := Some anti |}
  end.
Definition BuildManagerAntiAffinity := BuildAntiAffinity "wazuh-manager".
Definition BuildIndexerAntiAffinity := BuildAntiAffinity "indexer".

Definition MergeAntiAffinity (cluster individual : option Affinity) : option Affinity :=
  match individual, cluster with
  | None, _ => cluster
  | _, None => individual
  | Some i, Some c =>
      let own := default {| pa_Required := []; pa_Preferred := [] |} (af_PodAntiAffinity i) in
      Some {| af_NodeAffinity := af_NodeAffinity i; af_PodAffinity := af_PodAffinity i;
              af_PodAntiAffinity := Some
                match af_PodAntiAffinity c with
                | None => own
                | Some a => {| pa_Required := pa_Required own ++ pa_Required a;
                               pa_Preferred := pa_Preferred own ++ pa_Preferred a |}
                end |}
  end.

(** [ShouldApplyAntiAffinity] and [ShouldApplyIndexerAntiAffinity], of a
    component that is configured *)
Definition ShouldApplyAntiAffinity (spec : option AntiAffinitySpec) : bool :=
  match spec with
  | None => false
  | Some s => aa_Enabled s
  end.
Definition with_anti_affinity (build : option AntiAffinitySpec -> option Affinity) (spec : option AntiAffinitySpec)
    (own : option Affinity) : option Affinity :=
  if ShouldApplyAntiAffinity spec then MergeAntiAffinity (build spec) own else own.

(** ** Service accounts ([internal/shared/serviceaccount]) *)

Record ServiceAccountConfig := { sa_Create : bool; sa_Name : string }.
Definition ResolveServiceAccountName (cfg : option ServiceAccountConfig) (clusterName component : string) : string :=
  match cfg with
  | None => ""
  | Some cfg =>
      if negb (bool_decide (sa_Name cfg = "")) then sa_Name cfg
      else if sa_Create cfg then clusterName +:+ "-" +:+ component else ""
  end.

(** ** The custom resource, as far as its pods go

    One record for the parts of [WazuhMasterSpec], [WazuhWorkerSpec],
    [WazuhIndexerClusterSpec] and [WazuhDashboardClusterSpec] that are about
    pods; a field that a kind does not have is not read for it. *)
Record PodSettings := {
  st_Replicas : Z;
  st_Resources : option ResourceRequirements;
  st_StorageSize : string;
  st_StorageClass : option string;
  st_Image : option ImageSpec;
  st_NodeSelector : gmap string string;
  st_Tolerations : list Json;
  st_Affinity : option Affinity;
  st_AntiAffinity : option AntiAffinitySpec;
  st_TopologySpreadConstraints : list Json;
  st_Annotations : gmap string string;
  st_PodAnnotations : gmap string string;
  st_ExtraConfig : string;
  st_ExtraVolumes : list Volume;
  st_ExtraVolumeMounts : list VolumeMount;
  st_ExtraInitContainers : list Container;
  st_ExtraContainers : list Container;
  st_Env : list EnvVar;
  st_EnvFrom : list Json;
  st_SecurityContext : option PodSecurityContext;
  st_ContainerSecurityContext : option SecurityContext;
  st_TerminationGracePeriodSeconds : option Z;
  st_ServiceAccount : option ServiceAccountConfig;
  st_UpdateStrategy : string
}.
Definition no_settings : PodSettings :=
  {| st_Replicas := 0; st_Resources := None; st_StorageSize := ""; st_StorageClass := None; st_Image := None;
     st_NodeSelector := ∅; st_Tolerations := []; st_Affinity := None; st_AntiAffinity := None;
     st_TopologySpreadConstraints := []; st_Annotations := ∅; st_PodAnnotations := ∅; st_ExtraConfig := "";
     st_ExtraVolumes := []; st_ExtraVolumeMounts := []; st_ExtraInitContainers := []; st_ExtraContainers := [];
     st_Env := []; st_EnvFrom := []; st_SecurityContext := None; st_ContainerSecurityContext := None;
     st_TerminationGracePeriodSeconds := None; st_ServiceAccount := None; st_UpdateStrategy := "" |}.

Record WazuhExporterSpec := {
  we_Enabled : bool;
  we_Image : string;
  we_Port : Z;
  we_Resources : option ResourceRequirements;
  we_APIProtocol : string;
  we_APIVerifySSL : bool;
  we_LogLevel : string;
  we_SkipLastLogs : bool;
  we_SkipLastRegisteredAgent : bool;
  we_SkipWazuhAPIInfo : bool
}.
Record IndexerExporterSpec := { ie_Enabled : bool; ie_Version : string }.
Record MonitoringSpec := {
  mo_Enabled : bool;
  mo_WazuhExporter : option WazuhExporterSpec;
  mo_IndexerExporter : option IndexerExporterSpec
}.

(** The resource as a whole, and what [Spec] has besides. *)
Record ClusterMeta := {
  cm_Name : string;
  cm_Namespace : string;
  cm_Version : string;
  cm_ImagePullSecrets : list string;
  cm_StorageClassName : option string
}.

(** The class of a component's claims: its own, or the resource's. *)
Definition set_class (class : option string) : bool :=
  match class with
  | Some s => negb (bool_decide (s = ""))
  | None => false
  end.
Definition storage_class (own cluster : option string) : option string :=
  if set_class own then own else if set_class cluster then cluster else None.

(** ** The hash of a specification ([internal/shared/patch/hash.go])

    One record for the inputs of the four kinds, which differ in the fields they
    have: the JSON of a field that is not set is empty. *)
Record RepositoryPluginHashInput := { rh_Name : string; rh_ClientName : string; rh_CredentialsSecret : string }.
Record SpecInput := {
  si_Replicas : Z;
  si_Version : string;
  si_Resources : option ResourceRequirements;
  si_StorageSize : string;
  si_JavaOpts : string;
  si_Image : string;
  si_NodeSelector : gmap string string;
  si_Tolerations : list Json;
  si_Affinity : option Affinity;
  si_ImagePullSecrets : list string;
  si_TopologySpreadConstraints : list Json;
  si_Env : list EnvVar;
  si_EnvFrom : list Json;
  si_Annotations : gmap string string;
  si_PodAnnotations : gmap string string;
  si_ExtraConfig : string;
  si_ExtraVolumes : list Volume;
  si_ExtraVolumeMounts : list VolumeMount;
  si_ExtraInitContainers : list Container;
  si_ExtraContainers : list Container;
  si_IndexerExporter : option IndexerExporterSpec;
  si_WazuhExporter : option WazuhExporterSpec;
  si_RepositoryPlugins : list RepositoryPluginHashInput;
  si_ServiceAccountName : string;
  si_SecurityContext : option PodSecurityContext;
  si_ContainerSecurityContext : option SecurityContext;
  si_TerminationGracePeriodSeconds : option Z;
  si_ImagePullPolicy : string;
  si_UpdateStrategy : string;
  si_EnableSSL : bool
}.

(** The canonical JSON of an input, and SHA-256 in hexadecimal, are parameters. *)
Section SpecHash.
Context (canonical_json : SpecInput -> result string) (sha256_hex : string -> string).

Definition ComputeSpecHash (input : SpecInput) : result string :=
  match canonical_json input with
  | Err e => Err e
  | Ok json => Ok (String.substring 0 16 (sha256_hex json))
  end.
(** Without a hash the reconcilers go on. *)
Definition spec_hash (input : SpecInput) : string :=
  match ComputeSpecHash input with
  | Err _ => ""
  | Ok h => h
  end.
End SpecHash.

(** ** What the API server accepts

    Every mount of every container is of a volume or claim of the pod, no
    container mounts twice at a path, names are not used twice, and the name of
    a volume is at most 63 characters long and has no dot.  (Of the server's
    validation, the part that depends on how the operator puts a pod together.) *)
Definition all_containers (p : PodSpec) : list Container := po_InitContainers p ++ po_Containers p.
Definition volume_names (claims : list string) (p : PodSpec) : list string := map vo_Name (po_Volumes p) ++ claims.

Definition mounts_declared (declared : list string) (c : Container) : Prop :=
  Forall (fun m => vm_Name m ∈ declared) (co_VolumeMounts c).
Definition paths_distinct (c : Container) : Prop := NoDup (map vm_MountPath (co_VolumeMounts c)).
Definition label_name (s : string) : Prop := (String.length s <= 63)%nat /\ Ascii.ascii_of_nat 46 ∉ String.list_ascii_of_string s.

Definition valid_pod (claims : list string) (p : PodSpec) : Prop :=
  Forall (mounts_declared (volume_names claims p)) (all_containers p) /\
  Forall paths_distinct (all_containers p) /\
  NoDup (map vo_Name (po_Volumes p)) /\
  Forall label_name (map vo_Name (po_Volumes p)) /\
  NoDup (map co_Name (all_containers p)).
#[export] Instance mounts_declared_dec declared c : Decision (mounts_declared declared c) := _.
#[export] Instance paths_distinct_dec c : Decision (paths_distinct c) := _.
#[export] Instance label_name_dec s : Decision (label_name s) := _.
#[export] Instance valid_pod_dec claims p : Decision (valid_pod claims p) := _.

(** The selector selects the pods of the template (the server insists). *)
Definition selects (selector labels : gmap string string) : Prop := selector ⊆ labels.
