(* ===== verification/OssecConf.v ===== *)
(** * ossec.conf and the enrolment password

    [internal/wazuh/config/ossec_conf.go]: the configuration of the manager, from
    the resource to the text; the reconcilers that build it
    ([cluster_reconciler.go], [manager_reconciler.go], [worker_reconciler.go]),
    and the secret of the enrolment service they mount.  A reader of such texts
    is the specification of the template. *)
From Stdlib Require Import Ascii.
From S2P Require Import Prelude GoStrings Kube Cluster ClientFactory.
From S2P Require Import ClusterStatus Credentials Pods.
Local Open Scope string_scope.
Local Open Scope list_scope.
Local Open Scope go_scope.

(** ** Sections, as the template reads them *)

Record GlobalConfig := {
  gc_JSONOutOutput : bool;
  gc_AlertsLog : bool;
  gc_LogAll : bool;
  gc_LogAllJSON : bool;
  gc_EmailNotification : bool;
  gc_SMTPServer : string;
  gc_EmailFrom : string;
  gc_EmailTo : string;
  gc_EmailMaxPerHour : Z;
  gc_EmailLogSource : string;
  gc_AgentsDisconnectionTime : string;
  gc_AgentsDisconnectionAlertTime : string
}.
Record AlertsConfig := { al_LogAlertLevel : Z; al_EmailAlertLevel : Z }.
Record LoggingConfig := { lg_LogFormat : string }.
Record RemoteConfig := { rm_Connection : string; rm_Port : Z; rm_Protocol : string; rm_QueueSize : Z }.
(** [SecretKeyReference] is [SecretKeySelector]. *)
Record AuthConfig := {
  at_Disabled : bool;
  at_Port : Z;
  at_UseSourceIP : bool;
  at_Purge : bool;
  at_UsePassword : bool;
  at_PasswordSecretRef : option SecretKeySelector;
  at_Ciphers : string;
  at_SSLVerifyHost : bool;
  at_SSLManagerCert : string;
  at_SSLManagerKey : string;
  at_SSLAutoNegotiate : bool;
  at_EnabledOnMasterOnly : bool
}.
Record OSSECConfig := {
  oc_NodeType : string;
  oc_NodeName : string;
  oc_ClusterName : string;
  oc_ClusterKey : string;
  oc_MasterServiceName : string;
  oc_MasterAddress : string;
  oc_MasterPort : Z;
  oc_APIProtocol : string;
  oc_APIHost : string;
  oc_APIPort : Z;
  oc_ClusterEnabled : bool;
  oc_ClusterNodes : list string;
  oc_Hidden : bool;
  oc_ExtraConfig : string;
  oc_IndexerHost : string;
  oc_Namespace : string;
  oc_Global : GlobalConfig;
  oc_Alerts : AlertsConfig;
  oc_Logging : LoggingConfig;
  oc_Remote : RemoteConfig;
  oc_Auth : AuthConfig;
  oc_AuthdPassword : string
}.

Definition NodeTypeMaster : string := "master".
Definition NodeTypeWorker : string := "worker".
Definition PortManagerAPI : Z := 55000.
Definition PortManagerAgentEvents : Z := 1514.
Definition PortManagerAgentAuth : Z := 1515.
Definition PortManagerCluster : Z := 1516.

Definition DefaultGlobalConfig : GlobalConfig :=
  {| gc_JSONOutOutput := true; gc_AlertsLog := true; gc_LogAll := false; gc_LogAllJSON := false;
     gc_EmailNotification := false; gc_SMTPServer := "smtp.example.wazuh.com";
     gc_EmailFrom := "wazuh@example.wazuh.com"; gc_EmailTo := "recipient@example.wazuh.com";
     gc_EmailMaxPerHour := 12; gc_EmailLogSource := "alerts.log"; gc_AgentsDisconnectionTime := "10m";
     gc_AgentsDisconnectionAlertTime := "0" |}.
Definition DefaultAlertsConfig : AlertsConfig := {| al_LogAlertLevel := 3; al_EmailAlertLevel := 12 |}.
Definition DefaultLoggingConfig : LoggingConfig := {| lg_LogFormat := "plain" |}.
Definition DefaultRemoteConfig : RemoteConfig :=
  {| rm_Connection := "secure"; rm_Port := PortManagerAgentEvents; rm_Protocol := "tcp"; rm_QueueSize := 131072 |}.
Definition DefaultAuthConfig : AuthConfig :=
  {| at_Disabled := false; at_Port := PortManagerAgentAuth; at_UseSourceIP := false; at_Purge := true;
     at_UsePassword := false; at_PasswordSecretRef := None;
     at_Ciphers := "HIGH:!ADH:!EXP:!MD5:!RC4:!3DES:!CAMELLIA:@STRENGTH"; at_SSLVerifyHost := false;
     at_SSLManagerCert := "etc/sslmanager.cert"; at_SSLManagerKey := "etc/sslmanager.key";
     at_SSLAutoNegotiate := false; at_EnabledOnMasterOnly := true |}.
Definition DefaultOSSECConfig (clusterName nodeName : string) : OSSECConfig :=
  {| oc_NodeType := NodeTypeMaster; oc_NodeName := nodeName; oc_ClusterName := clusterName; oc_ClusterKey := "";
     oc_MasterServiceName := clusterName +:+ "-manager-master"; oc_MasterAddress := "";
     oc_MasterPort := PortManagerCluster; oc_APIProtocol := "https"; oc_APIHost := "0.0.0.0";
     oc_APIPort := PortManagerAPI; oc_ClusterEnabled := true; oc_ClusterNodes := []; oc_Hidden := false;
     oc_ExtraConfig := ""; oc_IndexerHost := clusterName +:+ "-indexer"; oc_Namespace := "default";
     oc_Global := DefaultGlobalConfig; oc_Alerts := DefaultAlertsConfig; oc_Logging := DefaultLoggingConfig;
     oc_Remote := DefaultRemoteConfig; oc_Auth := DefaultAuthConfig; oc_AuthdPassword := "" |}.

(** ** The template *)

Definition yesno (b : bool) : string := if b then "yes" else "no".

(** [$authDisabled] *)
Definition authDisabled (c : OSSECConfig) : bool :=
  if at_EnabledOnMasterOnly (oc_Auth c) && bool_decide (oc_NodeType c = "worker") then true
  else at_Disabled (oc_Auth c).

Definition ossecConfTemplate (c : OSSECConfig) : list string :=
  let g := oc_Global c in
  let a := oc_Auth c in
  ["<!--
  Wazuh - Manager - Configuration
  Generated by Wazuh Operator
-->

<ossec_config>
  <global>
    <jsonout_output>";
   yesno (gc_JSONOutOutput g);
   "</jsonout_output>
    <alerts_log>";
   yesno (gc_AlertsLog g);
   "</alerts_log>
    <logall>";
   yesno (gc_LogAll g);
   "</logall>
    <logall_json>";
   yesno (gc_LogAllJSON g);
   "</logall_json>
    <email_notification>";
   yesno (gc_EmailNotification g);
   "</email_notification>
    <smtp_server>";
   gc_SMTPServer g;
   "</smtp_server>
    <email_from>";
   gc_EmailFrom g;
   "</email_from>
    <email_to>";
   gc_EmailTo g;
   "</email_to>
    <email_maxperhour>";
   pretty (gc_EmailMaxPerHour g);
   "</email_maxperhour>
    <email_log_source>";
   gc_EmailLogSource g;
   "</email_log_source>
    <agents_disconnection_time>";
   gc_AgentsDisconnectionTime g;
   "</agents_disconnection_time>
    <agents_disconnection_alert_time>";
   gc_AgentsDisconnectionAlertTime g;
   "</agents_disconnection_alert_time>
  </global>

  <alerts>
    <log_alert_level>";
   pretty (al_LogAlertLevel (oc_Alerts c));
   "</log_alert_level>
    <email_alert_level>";
   pretty (al_EmailAlertLevel (oc_Alerts c));
   "</email_alert_level>
  </alerts>"] ++
  (if oc_ClusterEnabled c then
  ["
  <cluster>
    <name>";
   oc_ClusterName c;
   "</name>
    <node_name>to_be_replaced_by_hostname</node_name>
    <node_type>";
   oc_NodeType c;
   "</node_type>
    <key>to_be_replaced_by_cluster_key</key>
    <port>1516</port>
    <bind_addr>0.0.0.0</bind_addr>
    <nodes>
      <node>";
   oc_MasterServiceName c;
   "</node>
    </nodes>
    <hidden>";
   yesno (oc_Hidden c);
   "</hidden>
    <disabled>no</disabled>
  </cluster>"] else []) ++
  ["

  <logging>
    <log_format>";
   lg_LogFormat (oc_Logging c);
   "</log_format>
  </logging>

  <remote>
    <connection>";
   rm_Connection (oc_Remote c);
   "</connection>
    <port>";
   pretty (rm_Port (oc_Remote c));
   "</port>
    <protocol>";
   rm_Protocol (oc_Remote c);
   "</protocol>
    <queue_size>";
   pretty (rm_QueueSize (oc_Remote c));
   "</queue_size>
  </remote>";
   "
  <!-- wazuh-authd configuration -->
  <auth>
    <disabled>";
   yesno (authDisabled c);
   "</disabled>
    <port>";
   pretty (at_Port a);
   "</port>
    <use_source_ip>";
   yesno (at_UseSourceIP a);
   "</use_source_ip>
    <purge>";
   yesno (at_Purge a);
   "</purge>
    <use_password>";
   yesno (at_UsePassword a);
   "</use_password>";
   "
    <ciphers>";
   at_Ciphers a;
   "</ciphers>
    <ssl_verify_host>";
   yesno (at_SSLVerifyHost a);
   "</ssl_verify_host>
    <ssl_manager_cert>";
   at_SSLManagerCert a;
   "</ssl_manager_cert>
    <ssl_manager_key>";
   at_SSLManagerKey a;
   "</ssl_manager_key>
    <ssl_auto_negotiate>";
   yesno (at_SSLAutoNegotiate a);
   "</ssl_auto_negotiate>
  </auth>"] ++
  (if negb (bool_decide (oc_ExtraConfig c = "")) then
  ["
  <!-- Extra configuration -->
";
   oc_ExtraConfig c] else []) ++
  ["
</ossec_config>
"].

(** [OSSECConfigBuilder.Build] *)
Definition Build (c : OSSECConfig) : string := Join "" (ossecConfTemplate c).

(** ** From the resource ([api/v1]) *)

Record OSSECGlobalSpec := {
  gs_JSONOutOutput : option bool;
  gs_AlertsLog : option bool;
  gs_LogAll : option bool;
  gs_LogAllJSON : option bool;
  gs_EmailNotification : option bool;
  gs_SMTPServer : string;
  gs_EmailFrom : string;
  gs_EmailTo : string;
  gs_EmailMaxPerHour : option Z;
  gs_EmailLogSource : string;
  gs_AgentsDisconnectionTime : string;
  gs_AgentsDisconnectionAlertTime : string
}.
Record OSSECAlertsSpec := { als_LogAlertLevel : option Z; als_EmailAlertLevel : option Z }.
Record OSSECLoggingSpec := { lgs_LogFormat : string }.
Record OSSECRemoteSpec := {
  rms_Connection : string;
  rms_Port : option Z;
  rms_Protocol : string;
  rms_QueueSize : option Z
}.
Record OSSECAuthSpec := {
  ats_Disabled : option bool;
  ats_Port : option Z;
  ats_UseSourceIP : option bool;
  ats_Purge : option bool;
  ats_UsePassword : option bool;
  ats_PasswordSecretRef : option SecretKeySelector;
  ats_Ciphers : string;
  ats_SSLVerifyHost : option bool;
  ats_SSLManagerCert : string;
  ats_SSLManagerKey : string;
  ats_SSLAutoNegotiate : option bool;
  ats_EnabledOnMasterOnly : option bool
}.
Record WazuhConfigSpec := {
  wcs_Global : option OSSECGlobalSpec;
  wcs_Alerts : option OSSECAlertsSpec;
  wcs_Logging : option OSSECLoggingSpec;
  wcs_Remote : option OSSECRemoteSpec;
  wcs_Auth : option OSSECAuthSpec
}.

(** A text of the resource over its default. *)
Definition text_or (s fallback : string) : string := if bool_decide (s = "") then fallback else s.

Definition GlobalConfigFromSpec (spec : option OSSECGlobalSpec) : GlobalConfig :=
  let d := DefaultGlobalConfig in
  match spec with
  | None => d
  | Some s =>
      {| gc_JSONOutOutput := default (gc_JSONOutOutput d) (gs_JSONOutOutput s);
         gc_AlertsLog := default (gc_AlertsLog d) (gs_AlertsLog s);
         gc_LogAll := default (gc_LogAll d) (gs_LogAll s);
         gc_LogAllJSON := default (gc_LogAllJSON d) (gs_LogAllJSON s);
         gc_EmailNotification := default (gc_EmailNotification d) (gs_EmailNotification s);
         gc_SMTPServer := text_or (gs_SMTPServer s) (gc_SMTPServer d);
         gc_EmailFrom := text_or (gs_EmailFrom s) (gc_EmailFrom d);
         gc_EmailTo := text_or (gs_EmailTo s) (gc_EmailTo d);
         gc_EmailMaxPerHour := default (gc_EmailMaxPerHour d) (gs_EmailMaxPerHour s);
         gc_EmailLogSource := text_or (gs_EmailLogSource s) (gc_EmailLogSource d);
         gc_AgentsDisconnectionTime := text_or (gs_AgentsDisconnectionTime s) (gc_AgentsDisconnectionTime d);
         gc_AgentsDisconnectionAlertTime :=
           text_or (gs_AgentsDisconnectionAlertTime s) (gc_AgentsDisconnectionAlertTime d) |}
  end.
Definition AlertsConfigFromSpec (spec : option OSSECAlertsSpec) : AlertsConfig :=
  let d := DefaultAlertsConfig in
  match spec with
  | None => d
  | Some s => {| al_LogAlertLevel := default (al_LogAlertLevel d) (als_LogAlertLevel s);
                 al_EmailAlertLevel := default (al_EmailAlertLevel d) (als_EmailAlertLevel s) |}
  end.
Definition LoggingConfigFromSpec (spec : option OSSECLoggingSpec) : LoggingConfig :=
  match spec with
  | None => DefaultLoggingConfig
  | Some s => {| lg_LogFormat := text_or (lgs_LogFormat s) (lg_LogFormat DefaultLoggingConfig) |}
  end.
Definition RemoteConfigFromSpec (spec : option OSSECRemoteSpec) : RemoteConfig :=
  let d := DefaultRemoteConfig in
  match spec with
  | None => d
  | Some s => {| rm_Connection := text_or (rms_Connection s) (rm_Connection d);
                 rm_Port := default (rm_Port d) (rms_Port s);
                 rm_Protocol := text_or (rms_Protocol s) (rm_Protocol d);
                 rm_QueueSize := default (rm_QueueSize d) (rms_QueueSize s) |}
  end.
Definition AuthConfigFromSpec (spec : option OSSECAuthSpec) : AuthConfig :=
  let d := DefaultAuthConfig in
  match spec with
  | None => d
  | Some s =>
      {| at_Disabled := default (at_Disabled d) (ats_Disabled s);
         at_Port := default (at_Port d) (ats_Port s);
         at_UseSourceIP := default (at_UseSourceIP d) (ats_UseSourceIP s);
         at_Purge := default (at_Purge d) (ats_Purge s);
         at_UsePassword := default (at_UsePassword d) (ats_UsePassword s);
         at_PasswordSecretRef := ats_PasswordSecretRef s;
         at_Ciphers := text_or (ats_Ciphers s) (at_Ciphers d);
         at_SSLVerifyHost := default (at_SSLVerifyHost d) (ats_SSLVerifyHost s);
         at_SSLManagerCert := text_or (ats_SSLManagerCert s) (at_SSLManagerCert d);
         at_SSLManagerKey := text_or (ats_SSLManagerKey s) (at_SSLManagerKey d);
         at_SSLAutoNegotiate := default (at_SSLAutoNegotiate d) (ats_SSLAutoNegotiate s);
         at_EnabledOnMasterOnly := default (at_EnabledOnMasterOnly d) (ats_EnabledOnMasterOnly s) |}
  end.
Definition WazuhConfigFromSpec (spec : option WazuhConfigSpec)
    : GlobalConfig * AlertsConfig * LoggingConfig * RemoteConfig * AuthConfig :=
  match spec with
  | None => (DefaultGlobalConfig, DefaultAlertsConfig, DefaultLoggingConfig, DefaultRemoteConfig, DefaultAuthConfig)
  | Some s => (GlobalConfigFromSpec (wcs_Global s), AlertsConfigFromSpec (wcs_Alerts s),
               LoggingConfigFromSpec (wcs_Logging s), RemoteConfigFromSpec (wcs_Remote s),
               AuthConfigFromSpec (wcs_Auth s))
  end.

(** The sections and the rest put into a configuration by the reconcilers. *)
Definition with_sections (nodeType namespace masterAddress extraConfig : string)
    (sections : GlobalConfig * AlertsConfig * LoggingConfig * RemoteConfig * AuthConfig) (password : string)
    (c : OSSECConfig) : OSSECConfig :=
  let '(global, alerts, logging, remote, auth) := sections in
  {| oc_NodeType := nodeType; oc_NodeName := oc_NodeName c; oc_ClusterName := oc_ClusterName c;
     oc_ClusterKey := oc_ClusterKey c; oc_MasterServiceName := oc_MasterServiceName c;
     oc_MasterAddress := masterAddress; oc_MasterPort := PortManagerCluster; oc_APIProtocol := oc_APIProtocol c;
     oc_APIHost := oc_APIHost c; oc_APIPort := oc_APIPort c; oc_ClusterEnabled := oc_ClusterEnabled c;
     oc_ClusterNodes := oc_ClusterNodes c; oc_Hidden := oc_Hidden c; oc_ExtraConfig := extraConfig;
     oc_IndexerHost := oc_IndexerHost c; oc_Namespace := namespace; oc_Global := global; oc_Alerts := alerts;
     oc_Logging := logging; oc_Remote := remote; oc_Auth := auth; oc_AuthdPassword := password |}.

(** ** The reconcilers *)

(** The parts of the manager's specification in a WazuhCluster that matter here. *)
Record ManagerConfigSpec := {
  mc_Config : option WazuhConfigSpec;
  mc_AuthdPasswordSecretRef : option SecretKeySelector
}.

Definition set_password_ref (ref : SecretKeySelector) (a : AuthConfig) : AuthConfig :=
  {| at_Disabled := at_Disabled a; at_Port := at_Port a; at_UseSourceIP := at_UseSourceIP a; at_Purge := at_Purge a;
     at_UsePassword := true; at_PasswordSecretRef := Some ref; at_Ciphers := at_Ciphers a;
     at_SSLVerifyHost := at_SSLVerifyHost a; at_SSLManagerCert := at_SSLManagerCert a;
     at_SSLManagerKey := at_SSLManagerKey a; at_SSLAutoNegotiate := at_SSLAutoNegotiate a;
     at_EnabledOnMasterOnly := at_EnabledOnMasterOnly a |}.
Definition key_of (ref : SecretKeySelector) : string :=
  if bool_decide (sel_Key ref = "") then defaultAuthdSecretKey (sel_Name ref) else sel_Key ref.

(** The legacy reference stands in for the one of the section. *)
Definition with_legacy_ref (manager : option ManagerConfigSpec) (a : AuthConfig) : AuthConfig :=
  match at_PasswordSecretRef a, m ← manager; mc_AuthdPasswordSecretRef m with
  | None, Some ref => set_password_ref {| sel_Name := sel_Name ref; sel_Key := key_of ref |} a
  | _, _ => a
  end.

Definition authdPasswordSecretRef (manager : option ManagerConfigSpec) : option (string * string) :=
  match manager with
  | None => None
  | Some m =>
      let '(_, _, _, _, auth) := WazuhConfigFromSpec (mc_Config m) in
      let auth := with_legacy_ref (Some m) auth in
      match at_PasswordSecretRef auth with
      | None => None
      | Some ref =>
          if negb (at_UsePassword auth) || bool_decide (sel_Name ref = "") then None
          else Some (sel_Name ref, key_of ref)
      end
  end.

Definition injectAuthdPasswordSecretMount (manager : option ManagerConfigSpec) (volumes : list Volume)
    (mounts : list VolumeMount) : list Volume * list VolumeMount :=
  match authdPasswordSecretRef manager with
  | None => (volumes, mounts)
  | Some (secretName, secretKey) =>
      let volumeName := "wazuh-authd-password" in
      let keyPath := "authd.pass" in
      let mountPath := "/var/ossec/etc/authd.pass" in
      if existsb (fun v => bool_decide (vo_Name v = volumeName)) volumes then (volumes, mounts)
      else if existsb (fun m => bool_decide (vm_MountPath m = mountPath) ||
                                (bool_decide (vm_Name m = volumeName) && bool_decide (vm_SubPath m = keyPath))) mounts
      then (volumes, mounts)
      else (volumes ++ [{| vo_Name := volumeName; vo_Source := SecretVolume secretName [key_path secretKey keyPath] |}],
            mounts ++ [file_mount volumeName mountPath keyPath])
  end.

Section Reconcilers.
Context {W : Type} `{!KubeClient W} (clusterDomain : string).

Definition resolveSecretKey (namespace secretName key : string) : IO W string :=
  secret <- io_wrap ("failed to get secret " +:+ secretName) (io_api (get_secret namespace secretName)) ;;
  match (secret : Secret) !! key with
  | Some value => io_ret value
  | None => io_err ("key " +:+ key +:+ " not found in secret " +:+ secretName)
  end.

Definition resolveAuthdPassword (namespace : string) (auth : AuthConfig) : IO W string :=
  match at_PasswordSecretRef auth with
  | None => io_ret ""
  | Some ref =>
      if negb (at_UsePassword auth) then io_ret ""
      else
        let key := key_of ref in
        try password <- resolveSecretKey namespace (sel_Name ref) key ;;
        match password with
        | Ok p => io_ret p
        | Err _ =>
            let fallbackKey := if bool_decide (key = "password") then "authd.pass" else "password" in
            try fallback <- resolveSecretKey namespace (sel_Name ref) fallbackKey ;;
            io_ret (match fallback with Ok p => p | Err _ => "" end)
        end
  end.

Definition resolveManagerConfig (namespace : string) (manager : option ManagerConfigSpec)
    : IO W (GlobalConfig * AlertsConfig * LoggingConfig * RemoteConfig * AuthConfig * string) :=
  let '(global, alerts, logging, remote, auth) := WazuhConfigFromSpec (m ← manager; mc_Config m) in
  let auth := with_legacy_ref manager auth in
  password <- resolveAuthdPassword namespace auth ;;
  io_ret (global, alerts, logging, remote, auth, password).

Definition GetMasterServiceAddress (clusterName namespace : string) : string :=
  ServiceFQDN clusterDomain (clusterName +:+ "-manager-master") namespace.

Definition buildMasterOSSECConfig (name namespace : string) (manager : option ManagerConfigSpec)
    (extraConfig : string) : IO W string :=
  resolved <- io_wrap "failed to resolve manager config" (resolveManagerConfig namespace manager) ;;
  io_ret (Build (with_sections NodeTypeMaster namespace "" extraConfig resolved.1 resolved.2
                   (DefaultOSSECConfig name (name +:+ "-manager-master")))).
Definition buildWorkerOSSECConfig (name namespace : string) (manager : option ManagerConfigSpec)
    (extraConfig : string) : IO W string :=
  resolved <- io_wrap "failed to resolve manager config" (resolveManagerConfig namespace manager) ;;
  io_ret (Build (with_sections NodeTypeWorker namespace (GetMasterServiceAddress name namespace) extraConfig
                   resolved.1 resolved.2 (DefaultOSSECConfig name (name +:+ "-manager-worker")))).

(** A WazuhManager of its own: no legacy reference, no second key. *)
Definition standalone_conf (name namespace nodeType : string) (spec : option WazuhConfigSpec)
    (masterExtra workersExtra : string) : IO W string :=
  let '(global, alerts, logging, remote, auth) := WazuhConfigFromSpec spec in
  password <-
    match at_PasswordSecretRef auth with
    | Some ref =>
        if at_UsePassword auth then
          try got <- resolveSecretKey namespace (sel_Name ref) (sel_Key ref) ;;
          io_ret (match got with Ok p => p | Err _ => "" end)
        else io_ret ""
    | None => io_ret ""
    end ;;
  let extraConfig :=
    if bool_decide (nodeType = "master") && negb (bool_decide (masterExtra = "")) then masterExtra
    else if bool_decide (nodeType = "worker") && negb (bool_decide (workersExtra = "")) then workersExtra else "" in
  let master := bool_decide (nodeType = "master") in
  io_ret (Build (with_sections (if master then NodeTypeMaster else NodeTypeWorker) namespace
                   (if master then "" else GetMasterServiceAddress name namespace) extraConfig
                   (global, alerts, logging, remote, auth) password
                   (DefaultOSSECConfig name (name +:+ "-manager-" +:+ nodeType)))).

(** [BuildWorkerConfig], as a WazuhWorker of its own calls it; the node's name,
    the address of the master and the API's part are not in the text. *)
Definition BuildWorkerConfig (clusterName namespace nodeName clusterKey : string) (masterPort : Z)
    (extraConfig : string) : string :=
  let c := with_sections NodeTypeWorker namespace "" extraConfig (WazuhConfigFromSpec None) ""
             (DefaultOSSECConfig clusterName nodeName) in
  Build {| oc_NodeType := oc_NodeType c; oc_NodeName := nodeName; oc_ClusterName := clusterName;
           oc_ClusterKey := clusterKey; oc_MasterServiceName := oc_MasterServiceName c; oc_MasterAddress := "";
           oc_MasterPort := masterPort; oc_APIProtocol := oc_APIProtocol c; oc_APIHost := oc_APIHost c;
           oc_APIPort := oc_APIPort c; oc_ClusterEnabled := true; oc_ClusterNodes := []; oc_Hidden := false;
           oc_ExtraConfig := extraConfig; oc_IndexerHost := oc_IndexerHost c; oc_Namespace := namespace;
           oc_Global := oc_Global c; oc_Alerts := oc_Alerts c; oc_Logging := oc_Logging c; oc_Remote := oc_Remote c;
           oc_Auth := oc_Auth c; oc_AuthdPassword := "" |}.
End Reconcilers.

(** ** A reader

    It goes through the characters of an XML text with elements, texts and
    comments, and collects the elements without children with their paths; it
    fails where an end tag does not match.  References and attributes are not
    looked at. *)

Record reader := {
  (** the characters since [<], in a tag or a comment *)
  rd_markup : option string;
  (** the characters since the last tag *)
  rd_text : string;
  (** the open elements, the innermost first *)
  rd_open : list string;
  (** whether the innermost has had no child *)
  rd_leaf : bool;
  (** the leaves so far, the last first *)
  rd_leaves : list (list string * string)
}.

Definition is_char (a b : ascii) : bool := Ascii.eqb a b.

(** A markup at its [>]. *)
Definition end_markup (m : string) (r : reader) : option reader :=
  if HasPrefix m "!--" then
    Some (if HasSuffix m "--" && (5 <=? String.length m)%nat
          then {| rd_markup := None; rd_text := ""; rd_open := rd_open r; rd_leaf := rd_leaf r; rd_leaves := rd_leaves r |}
          else {| rd_markup := Some (m +:+ ">"); rd_text := ""; rd_open := rd_open r; rd_leaf := rd_leaf r;
                  rd_leaves := rd_leaves r |})
  else
    match m, rd_open r with
    | String "/" name, top :: rest =>
        if String.eqb name top
        then Some {| rd_markup := None; rd_text := ""; rd_open := rest; rd_leaf := false;
                     rd_leaves := if rd_leaf r then (rev (rd_open r), rd_text r) :: rd_leaves r else rd_leaves r |}
        else None
    | String "/" _, [] => None
    | _, open => Some {| rd_markup := None; rd_text := ""; rd_open := m :: open; rd_leaf := true; rd_leaves := rd_leaves r |}
    end.

Definition read_char (a : ascii) (r : reader) : option reader :=
  match rd_markup r with
  | Some m =>
      if is_char a ">" then end_markup m r
      else Some {| rd_markup := Some (m +:+ String a ""); rd_text := rd_text r; rd_open := rd_open r;
                   rd_leaf := rd_leaf r; rd_leaves := rd_leaves r |}
  | None =>
      Some (if is_char a "<"
            then {| rd_markup := Some ""; rd_text := rd_text r; rd_open := rd_open r; rd_leaf := rd_leaf r;
                    rd_leaves := rd_leaves r |}
            else {| rd_markup := None; rd_text := rd_text r +:+ String a ""; rd_open := rd_open r;
                    rd_leaf := rd_leaf r; rd_leaves := rd_leaves r |})
  end.

Fixpoint read (s : string) (r : option reader) : option reader :=
  match s with
  | "" => r
  | String a s => read s (r ≫= read_char a)
  end.

Definition at_text (text : string) (open : list string) (leaf : bool) (leaves : list (list string * string))
    : option reader :=
  Some {| rd_markup := None; rd_text := text; rd_open := open; rd_leaf := leaf; rd_leaves := leaves |}.
Definition settings_of (document : string) : option (list (list string * string)) :=
  match read document (at_text "" [] false []) with
  | Some r => match rd_markup r, rd_open r with None, [] => Some (rev (rd_leaves r)) | _, _ => None end
  | None => None
  end.

Lemma read_app s t r : read (s +:+ t) r = read t (read s r).
Proof. revert r. induction s as [|a s IH]; intros r; [done|]. rewrite append_cons. apply IH. Qed.

Lemma read_text v text open leaf leaves :
  free_of "<" v = true -> read v (at_text text open leaf leaves) = at_text (text +:+ v) open leaf leaves.
Proof.
  revert text. induction v as [|a v IH]; intros text H; [by rewrite append_nil_r|].
  cbn [free_of] in H. apply andb_true_iff in H as [Ha Hv]. cbn [read]. unfold at_text at 1. cbn [mbind option_bind].
  unfold read_char, is_char. cbn [rd_markup]. apply negb_true_iff, bool_decide_eq_false in Ha.
  destruct (Ascii.eqb_spec a "<"); [done|]. cbn [rd_text rd_open rd_leaf rd_leaves].
  change (Some _) with (at_text (text +:+ String a "") open leaf leaves). rewrite IH by done. by rewrite append_assoc.
Qed.

(** What the configuration sets, in the order of the text. *)
Definition settings (c : OSSECConfig) : list (list string * string) :=
  let at_ section key := ["ossec_config"; section; key] in
  let g := oc_Global c in
  let a := oc_Auth c in
  [(at_ "global" "jsonout_output", yesno (gc_JSONOutOutput g)); (at_ "global" "alerts_log", yesno (gc_AlertsLog g));
   (at_ "global" "logall", yesno (gc_LogAll g)); (at_ "global" "logall_json", yesno (gc_LogAllJSON g));
   (at_ "global" "email_notification", yesno (gc_EmailNotification g)); (at_ "global" "smtp_server", gc_SMTPServer g);
   (at_ "global" "email_from", gc_EmailFrom g); (at_ "global" "email_to", gc_EmailTo g);
   (at_ "global" "email_maxperhour", pretty (gc_EmailMaxPerHour g));
   (at_ "global" "email_log_source", gc_EmailLogSource g);
   (at_ "global" "agents_disconnection_time", gc_AgentsDisconnectionTime g);
   (at_ "global" "agents_disconnection_alert_time", gc_AgentsDisconnectionAlertTime g);
   (at_ "alerts" "log_alert_level", pretty (al_LogAlertLevel (oc_Alerts c)));
   (at_ "alerts" "email_alert_level", pretty (al_EmailAlertLevel (oc_Alerts c)))] ++
  (if oc_ClusterEnabled c then
     [(at_ "cluster" "name", oc_ClusterName c); (at_ "cluster" "node_name", "to_be_replaced_by_hostname");
      (at_ "cluster" "node_type", oc_NodeType c); (at_ "cluster" "key", "to_be_replaced_by_cluster_key");
      (at_ "cluster" "port", "1516"); (at_ "cluster" "bind_addr", "0.0.0.0");
      (["ossec_config"; "cluster"; "nodes"; "node"], oc_MasterServiceName c);
      (at_ "cluster" "hidden", yesno (oc_Hidden c)); (at_ "cluster" "disabled", "no")] else []) ++
  [(at_ "logging" "log_format", lg_LogFormat (oc_Logging c)); (at_ "remote" "connection", rm_Connection (oc_Remote c));
   (at_ "remote" "port", pretty (rm_Port (oc_Remote c))); (at_ "remote" "protocol", rm_Protocol (oc_Remote c));
   (at_ "remote" "queue_size", pretty (rm_QueueSize (oc_Remote c)));
   (at_ "auth" "disabled", yesno (at_Disabled a || (at_EnabledOnMasterOnly a && bool_decide (oc_NodeType c = "worker"))));
   (at_ "auth" "port", pretty (at_Port a)); (at_ "auth" "use_source_ip", yesno (at_UseSourceIP a));
   (at_ "auth" "purge", yesno (at_Purge a)); (at_ "auth" "use_password", yesno (at_UsePassword a));
   (at_ "auth" "ciphers", at_Ciphers a); (at_ "auth" "ssl_verify_host", yesno (at_SSLVerifyHost a));
   (at_ "auth" "ssl_manager_cert", at_SSLManagerCert a); (at_ "auth" "ssl_manager_key", at_SSLManagerKey a);
   (at_ "auth" "ssl_auto_negotiate", yesno (at_SSLAutoNegotiate a))].

(** No text of the configuration starts a tag. *)
Definition plain (c : OSSECConfig) : Prop := Forall (fun kv => free_of "<" kv.2 = true) (settings c).

(** An extra configuration that can stand inside the root: it is read there, adds
    [more], and leaves the root open. *)
Definition extra_reads (extra : string) (more : list (list string * string)) : Prop :=
  forall text leaves, exists text',
    read extra (at_text text ["ossec_config"] false leaves) = at_text text' ["ossec_config"] false (rev more ++ leaves).

Lemma yesno_free b : free_of "<" (yesno b) = true.
Proof. by destruct b. Qed.
Lemma pretty_free (n : Z) : free_of "<" (pretty n) = true.
Proof.
  destruct n as [|p|p]; [done|apply (pretty_N_free _ (N.pos p)); done|].
  change (pretty (Z.neg p)) with (String "-" (pretty (N.pos p))). cbn [free_of]. by rewrite pretty_N_free.
Qed.

(** One step of reading a list of pieces. *)
Lemma read_join_cons s l r : read (Join "" (s :: l)) r = read (Join "" l) (read s r).
Proof. destruct l as [|t l]; [done|]. change (Join "" (s :: t :: l)) with (s +:+ "" +:+ Join "" (t :: l)). by rewrite read_app. Qed.

Lemma authDisabled_or c :
  authDisabled c =
  at_Disabled (oc_Auth c) || (at_EnabledOnMasterOnly (oc_Auth c) && bool_decide (oc_NodeType c = "worker")).
Proof.
  unfold authDisabled. destruct (at_EnabledOnMasterOnly (oc_Auth c)); cbn [andb]; [|by rewrite orb_false_r].
  case_bool_decide; [by rewrite orb_true_r|by rewrite orb_false_r].
Qed.

(** Values are variables, and known to hold no tag. *)
Ltac name_values :=
  repeat match goal with
  | |- context [yesno ?b] =>
      let H := fresh "Hv" in let v := fresh "v" in
      pose proof (yesno_free b) as H; revert H; generalize (yesno b); intros v H
  | |- context [@pretty Z _ ?n] =>
      let H := fresh "Hv" in let v := fresh "v" in
      pose proof (pretty_free n) as H; revert H; generalize (@pretty Z _ n); intros v H
  end.
(** One piece: a value is text, anything else is computed. *)
Ltac read_piece :=
  rewrite read_join_cons;
  match goal with
  | |- context [read ?s (at_text ?t ?o ?l ?ls)] =>
      tryif is_var s then rewrite (read_text s) by assumption
      else
        let r := eval vm_compute in (read s (at_text t o l ls)) in
        match r with
        | Some {| rd_markup := None; rd_text := ?t'; rd_open := ?o'; rd_leaf := ?l'; rd_leaves := ?ls' |} =>
            change (read s (at_text t o l ls)) with (at_text t' o' l' ls')
        end
  end.

Lemma read_end text leaves :
  read (Join "" ["
</ossec_config>
"]) (at_text text ["ossec_config"] false leaves) = at_text "
" [] false leaves.
Proof. reflexivity. Qed.

Lemma read_template c text more :
  plain c -> oc_ExtraConfig c = "" /\ more = [] \/ oc_ExtraConfig c <> "" /\ extra_reads (oc_ExtraConfig c) more ->
  text = Build c -> settings_of text = Some (settings c ++ more).
Proof.
  intros Hp Hx ->. unfold settings_of, Build, plain, settings, ossecConfTemplate in *. rewrite authDisabled_or.
  destruct c as [nt nn cn ck ms ma mp ap ah aport ce cns hid xc ih ns g al lg rm au pw].
  destruct g as [j aln la laj en ss ef et em els adt adat], al as [lal eal], lg as [lf], rm as [rc rp rpr rq],
    au as [di po si pu up pr ci sv sc sk sn em0].
  cbn [oc_Global oc_Alerts oc_Logging oc_Remote oc_Auth oc_ClusterEnabled oc_ExtraConfig oc_ClusterName oc_NodeType
    oc_MasterServiceName oc_Hidden gc_JSONOutOutput gc_AlertsLog gc_LogAll gc_LogAllJSON gc_EmailNotification
    gc_SMTPServer gc_EmailFrom gc_EmailTo gc_EmailMaxPerHour gc_EmailLogSource gc_AgentsDisconnectionTime
    gc_AgentsDisconnectionAlertTime al_LogAlertLevel al_EmailAlertLevel lg_LogFormat rm_Connection rm_Port rm_Protocol
    rm_QueueSize at_Disabled at_Port at_UseSourceIP at_Purge at_UsePassword at_Ciphers at_SSLVerifyHost
    at_SSLManagerCert at_SSLManagerKey at_SSLAutoNegotiate at_EnabledOnMasterOnly] in *.
  revert Hp. generalize (di || (em0 && bool_decide (nt = "worker"))). intros dis Hp.
  destruct ce; cbn [app] in *; repeat (let H := fresh "Hf" in apply Forall_cons_1 in Hp as [H Hp]; cbn [snd] in H);
    name_values.
  all: destruct Hx as [[-> ->]|[Hne Hx]]; [rewrite bool_decide_true by done|rewrite bool_decide_false by done];
    cbn [negb app].
  all: repeat read_piece; try reflexivity.
  all: rewrite read_join_cons; match goal with
    | H : extra_reads ?x _ |- context [read ?x (at_text ?t _ _ ?ls)] => destruct (H t ls) as [? ->]
    end.
  all: rewrite read_end; cbn [at_text rd_markup rd_open rd_leaves].
  all: rewrite rev_app_distr, rev_involutive; reflexivity.
Qed.

(** C33: the configuration reads back.  When none of its texts starts a tag, and
    the extra configuration is none or one that can stand inside the root, the
    text that is built is well nested and a reader finds in it exactly the
    settings of the configuration, each once and in its section, and then those of
    the extra configuration.  The enrolment service is disabled where it is
    configured so, and on workers unless they are to have it. *)
Theorem configuration_reads_back c more :
  plain c -> oc_ExtraConfig c = "" /\ more = [] \/ oc_ExtraConfig c <> "" /\ extra_reads (oc_ExtraConfig c) more ->
  settings_of (Build c) = Some (settings c ++ more).
Proof. intros Hp Hx. by eapply read_template. Qed.

(** ** From the resource to the sections *)

(** The specification that asks for a configuration. *)
Definition global_spec (g : GlobalConfig) : OSSECGlobalSpec :=
  {| gs_JSONOutOutput := Some (gc_JSONOutOutput g); gs_AlertsLog := Some (gc_AlertsLog g);
     gs_LogAll := Some (gc_LogAll g); gs_LogAllJSON := Some (gc_LogAllJSON g);
     gs_EmailNotification := Some (gc_EmailNotification g); gs_SMTPServer := gc_SMTPServer g;
     gs_EmailFrom := gc_EmailFrom g; gs_EmailTo := gc_EmailTo g; gs_EmailMaxPerHour := Some (gc_EmailMaxPerHour g);
     gs_EmailLogSource := gc_EmailLogSource g; gs_AgentsDisconnectionTime := gc_AgentsDisconnectionTime g;
     gs_AgentsDisconnectionAlertTime := gc_AgentsDisconnectionAlertTime g |}.
Definition auth_spec (a : AuthConfig) : OSSECAuthSpec :=
  {| ats_Disabled := Some (at_Disabled a); ats_Port := Some (at_Port a); ats_UseSourceIP := Some (at_UseSourceIP a);
     ats_Purge := Some (at_Purge a); ats_UsePassword := Some (at_UsePassword a);
     ats_PasswordSecretRef := at_PasswordSecretRef a; ats_Ciphers := at_Ciphers a;
     ats_SSLVerifyHost := Some (at_SSLVerifyHost a); ats_SSLManagerCert := at_SSLManagerCert a;
     ats_SSLManagerKey := at_SSLManagerKey a; ats_SSLAutoNegotiate := Some (at_SSLAutoNegotiate a);
     ats_EnabledOnMasterOnly := Some (at_EnabledOnMasterOnly a) |}.
Definition spec_of (g : GlobalConfig) (al : AlertsConfig) (lg : LoggingConfig) (rm : RemoteConfig) (a : AuthConfig)
    : WazuhConfigSpec :=
  {| wcs_Global := Some (global_spec g);
     wcs_Alerts := Some {| als_LogAlertLevel := Some (al_LogAlertLevel al);
                           als_EmailAlertLevel := Some (al_EmailAlertLevel al) |};
     wcs_Logging := Some {| lgs_LogFormat := lg_LogFormat lg |};
     wcs_Remote := Some {| rms_Connection := rm_Connection rm; rms_Port := Some (rm_Port rm);
                           rms_Protocol := rm_Protocol rm; rms_QueueSize := Some (rm_QueueSize rm) |};
     wcs_Auth := Some (auth_spec a) |}.

(** The texts the five sections hold. *)
Definition section_texts (g : GlobalConfig) (lg : LoggingConfig) (rm : RemoteConfig) (a : AuthConfig) : list string :=
  [gc_SMTPServer g; gc_EmailFrom g; gc_EmailTo g; gc_EmailLogSource g; gc_AgentsDisconnectionTime g;
   gc_AgentsDisconnectionAlertTime g; lg_LogFormat lg; rm_Connection rm; rm_Protocol rm; at_Ciphers a;
   at_SSLManagerCert a; at_SSLManagerKey a].

Lemma text_or_nonempty s d : s <> "" -> text_or s d = s.
Proof. intros H. unfold text_or. by rewrite bool_decide_false. Qed.

(** every configuration can be asked for, but for empty texts.  Sections whose
    texts are not empty are the sections of the specification that states them; a
    specification that states nothing gives the defaults. *)
Theorem sections_from_spec g al lg rm a :
  Forall (fun s => s <> "") (section_texts g lg rm a) ->
  WazuhConfigFromSpec (Some (spec_of g al lg rm a)) = (g, al, lg, rm, a) /\
  WazuhConfigFromSpec (Some {| wcs_Global := None; wcs_Alerts := None; wcs_Logging := None; wcs_Remote := None;
                               wcs_Auth := None |}) = WazuhConfigFromSpec None.
Proof.
  intros H. split; [|done]. unfold section_texts in H.
  repeat (let Hs := fresh "Hs" in apply Forall_cons_1 in H as [Hs H]). clear H. cbn.
  destruct g, al, lg, rm, a; cbn in *. by rewrite !text_or_nonempty.
Qed.

(** ** The enrolment password *)

Section Password.
Context {W : Type} `{!KubeClient W} (clusterDomain : string).

Lemma authd_password_always (ns : string) (a : AuthConfig) (w : W) : exists p w', resolveAuthdPassword ns a w = (Ok p, w').
Proof.
  unfold resolveAuthdPassword. destruct (at_PasswordSecretRef a) as [ref|]; [|by eexists _, _].
  destruct (negb _); [by eexists _, _|]. unfold io_try at 1.
  destruct (resolveSecretKey _ _ _ w) as [[p|e] w1]; [by eexists _, _|]. unfold io_try.
  destruct (resolveSecretKey _ _ _ w1) as [[p|e'] w2]; by eexists _, _.
Qed.

Lemma manager_config_always ns manager (w : W) :
  exists p w', resolveManagerConfig ns manager w =
    (let '(global, alerts, logging, remote, auth) := WazuhConfigFromSpec (m ← manager; mc_Config m) in
     Ok (global, alerts, logging, remote, with_legacy_ref manager auth, p), w').
Proof.
  unfold resolveManagerConfig. destruct (WazuhConfigFromSpec _) as [[[[g al] lg] rm] a].
  destruct (authd_password_always ns (with_legacy_ref manager a) w) as (p & w' & E). exists p, w'.
  by erewrite io_bind_run by exact E.
Qed.

(** the configuration holds no secret.  The text of ossec.conf, on the master
    and on the workers, is a function of the resource alone: no secret the server
    holds, the enrolment password included, can change it, and it is always
    built, whether that password can be read or not. *)
Theorem configuration_without_secrets name ns manager extra :
  exists master worker, forall w : W,
    (buildMasterOSSECConfig name ns manager extra w).1 = Ok master /\
    (buildWorkerOSSECConfig clusterDomain name ns manager extra w).1 = Ok worker.
Proof.
  destruct (WazuhConfigFromSpec (m ← manager; mc_Config m)) as [[[[g al] lg] rm] a] eqn:E.
  exists (Build (with_sections NodeTypeMaster ns "" extra (g, al, lg, rm, with_legacy_ref manager a) ""
                   (DefaultOSSECConfig name (name +:+ "-manager-master")))),
         (Build (with_sections NodeTypeWorker ns "" extra (g, al, lg, rm, with_legacy_ref manager a) ""
                   (DefaultOSSECConfig name (name +:+ "-manager-worker")))).
  intros w. destruct (manager_config_always ns manager w) as (p & w' & Em). rewrite E in Em.
  unfold buildMasterOSSECConfig, buildWorkerOSSECConfig, io_bind, io_wrap. rewrite Em. done.
Qed.
End Password.

(** The section as the controller of the cluster reads it. *)
Definition auth_view (s : OSSECAuthSpec) : Cluster.AuthConfig :=
  {| au_Disabled := ats_Disabled s; au_UsePassword := ats_UsePassword s;
     au_EnabledOnMasterOnly := ats_EnabledOnMasterOnly s; au_PasswordSecretRef := ats_PasswordSecretRef s |}.
Definition auth_section (m : ManagerConfigSpec) : option OSSECAuthSpec := s ← mc_Config m; wcs_Auth s.
(** The same manager, for both. *)
Definition same_manager (m : WazuhManagerClusterSpec) (m' : ManagerConfigSpec) : Prop :=
  mg_Auth m = auth_view <$> auth_section m' /\ mg_AuthdPasswordSecretRef m = mc_AuthdPasswordSecretRef m'.

Lemma auth_of_config m : (WazuhConfigFromSpec (mc_Config m)).2 = AuthConfigFromSpec (auth_section m).
Proof. unfold auth_section. by destruct (mc_Config m). Qed.
Lemma key_of_key n k : key_of {| sel_Name := n; sel_Key := key_of {| sel_Name := n; sel_Key := k |} |} =
                       key_of {| sel_Name := n; sel_Key := k |}.
Proof. unfold key_of. cbn. repeat case_bool_decide; congruence. Qed.

Definition rotated_secret (c : WazuhCluster) : option (string * string) :=
  (fun r => (ar_SecretName r, ar_PasswordKey r)) <$> (resolveAuthdCredentialsRef c).1.

(** the secret that is watched is the secret that is mounted.  The controller,
    which restarts the managers when the enrolment password changes, and the
    reconciler, which mounts it, choose the secret each with code of its own.  They
    choose the same secret and key, or none, as long as the service is not disabled
    and a reference, where there is one, has a name. *)
Theorem watched_secret_is_mounted c m m' :
  wc_SpecManager c = Some m -> same_manager m m' ->
  (forall s, auth_section m' = Some s -> ats_Disabled s <> Some true) ->
  (forall s ref, auth_section m' = Some s -> ats_PasswordSecretRef s = Some ref -> sel_Name ref <> "") ->
  rotated_secret c = authdPasswordSecretRef (Some m').
Proof.
  intros Hm [Ha Hl] Hd Hn. unfold rotated_secret, resolveAuthdCredentialsRef, authdPasswordSecretRef. rewrite Hm, Ha, Hl.
  pose proof (auth_of_config m') as Hc. destruct (WazuhConfigFromSpec (mc_Config m')) as [[[[g al] lg] rm] a].
  cbn [snd] in Hc. subst a. clear Hm Ha Hl.
  assert (Hfin : forall n k (u e : bool),
    (fun r => (ar_SecretName r, ar_PasswordKey r)) <$>
      (if negb u || bool_decide (n = "") then (None, e)
       else (Some {| ar_SecretName := n;
                     ar_PasswordKey := if bool_decide (k = "") then defaultAuthdSecretKey n else k |}, e)).1 =
    if negb u || bool_decide (n = "") then None else Some (n, key_of {| sel_Name := n; sel_Key := k |})).
  { intros n k u e. by destruct (negb u || bool_decide (n = "")). }
  destruct (auth_section m') as [s|]; unfold with_legacy_ref; cbn.
  - specialize (Hd s eq_refl). specialize (Hn s). destruct s as [[[]|] po si pu up pr ci sv sc sk sn em]; cbn in *; try done.
    all: destruct pr as [[n k]|]; cbn;
      [specialize (Hn _ eq_refl eq_refl); cbn in Hn; rewrite (bool_decide_false (n = "")) by done|rewrite bool_decide_true by done].
    all: destruct (mc_AuthdPasswordSecretRef m') as [[ln lk]|]; cbn; rewrite ?key_of_key.
    all: try apply (Hfin _ _ true). all: try (by rewrite orb_true_r).
    all: rewrite (bool_decide_false (n = "")) by done; by destruct (default false up).
  - destruct (mc_AuthdPasswordSecretRef m') as [[ln lk]|]; cbn; [|done]. rewrite ?key_of_key. apply (Hfin _ _ true).
Qed.

(** ** Witnesses *)
Module SimOssec.
Definition extra : string := "  <vulnerability>
    <enabled>yes</enabled>
  </vulnerability>".
Definition conf : OSSECConfig :=
  with_sections NodeTypeWorker "ns" "" extra (WazuhConfigFromSpec None) "secret" (DefaultOSSECConfig "w" "w-manager-worker").
Definition more : list (list string * string) := [(["ossec_config"; "vulnerability"; "enabled"], "yes")].

(** The service is disabled, its password is still mounted. *)
Definition disabled : ManagerConfigSpec :=
  {| mc_Config := Some {| wcs_Global := None; wcs_Alerts := None; wcs_Logging := None; wcs_Remote := None;
                          wcs_Auth := Some (auth_spec
                            {| at_Disabled := true; at_Port := 1515; at_UseSourceIP := false; at_Purge := true;
                               at_UsePassword := true;
                               at_PasswordSecretRef := Some {| sel_Name := "pw"; sel_Key := "" |}; at_Ciphers := "";
                               at_SSLVerifyHost := false; at_SSLManagerCert := ""; at_SSLManagerKey := "";
                               at_SSLAutoNegotiate := false; at_EnabledOnMasterOnly := true |}) |};
     mc_AuthdPasswordSecretRef := None |}.
Example disabled_is_mounted : injectAuthdPasswordSecretMount (Some disabled) [] [] =
  ([{| vo_Name := "wazuh-authd-password"; vo_Source := SecretVolume "pw" [key_path "password" "authd.pass"] |}],
   [{| vm_Name := "wazuh-authd-password"; vm_MountPath := "/var/ossec/etc/authd.pass"; vm_SubPath := "authd.pass";
       vm_ReadOnly := true |}]).
Proof. by vm_compute. Qed.

(** A text that starts a tag cuts the document. *)
Example unescaped :
  settings_of (Build (with_sections NodeTypeMaster "ns" "" "" 
    (GlobalConfigFromSpec (Some (global_spec (let g := DefaultGlobalConfig in
       {| gc_JSONOutOutput := true; gc_AlertsLog := true; gc_LogAll := false; gc_LogAllJSON := false;
          gc_EmailNotification := true; gc_SMTPServer := gc_SMTPServer g; gc_EmailFrom := "Wazuh <wazuh@example.com>";
          gc_EmailTo := gc_EmailTo g; gc_EmailMaxPerHour := 12; gc_EmailLogSource := "alerts.log";
          gc_AgentsDisconnectionTime := "10m"; gc_AgentsDisconnectionAlertTime := "0" |}))),
     DefaultAlertsConfig, DefaultLoggingConfig, DefaultRemoteConfig, DefaultAuthConfig) "" (DefaultOSSECConfig "w" "n"))) = None.
Proof. by vm_compute. Qed.

Definition manager : ManagerConfigSpec :=
  {| mc_Config := None; mc_AuthdPasswordSecretRef := Some {| sel_Name := "w-authd-pass"; sel_Key := "" |} |}.
End SimOssec.

Section Witnesses.
Import SimOssec.

Lemma extra_reads_there : extra_reads extra more.
Proof. intros text leaves. exists "". vm_compute. reflexivity. Qed.

Lemma configuration_reads_back_witness :
  extra_reads extra more /\ settings_of (Build conf) = Some (settings conf ++ more).
Proof.
  split; [exact extra_reads_there|]. apply configuration_reads_back.
  - unfold plain. repeat (apply Forall_cons_2; [reflexivity|]). apply Forall_nil_2.
  - right. split; [done|exact extra_reads_there].
Defined.

Lemma sections_from_spec_witness :
  WazuhConfigFromSpec (Some (spec_of DefaultGlobalConfig DefaultAlertsConfig DefaultLoggingConfig DefaultRemoteConfig
    DefaultAuthConfig)) = WazuhConfigFromSpec None.
Proof.
  apply (sections_from_spec DefaultGlobalConfig DefaultAlertsConfig DefaultLoggingConfig DefaultRemoteConfig
    DefaultAuthConfig). repeat (apply Forall_cons_2; [done|]). apply Forall_nil_2.
Defined.

Lemma watched_secret_is_mounted_witness :
  rotated_secret (SimRotation.cluster "" "") = Some ("w-authd-pass", "authd.pass") /\
  rotated_secret (SimRotation.cluster "" "") = authdPasswordSecretRef (Some manager).
Proof. split; [reflexivity|]. by eapply watched_secret_is_mounted. Defined.
End Witnesses.
