(* ===== verification/ManagerPods.v ===== *)
(** * The pods of the Wazuh manager

    [internal/wazuh/builder/deployments/manager.go], [worker.go],
    [internal/monitoring/exporter.go], and what [reconcileMasterNonBlocking] and
    [reconcileWorkersNonBlocking] of [internal/wazuh/reconciler/cluster_reconciler.go]
    tell the builders and put into the hash of the specification
    ([internal/shared/patch/hash.go]).

    The builders' [With...] methods set fields; a builder is modelled as it is
    when [Build] is called. *)
From S2P Require Import Prelude GoStrings IndexerDrain Cluster ClientFactory Workload SecuritySync Pods OssecConf.
Local Open Scope string_scope.
Local Open Scope list_scope.

(** ** Names ([pkg/constants]) *)

Definition VolumeNameWazuhData : string := "wazuh-data".
Definition VolumeNameWazuhConfigSource : string := "wazuh-config-source".
Definition VolumeNameWazuhConfigMount : string := "wazuh-config-mount".
Definition VolumeNameWazuhCerts : string := "wazuh-certs".
Definition VolumeNameIndexerCerts : string := "indexer-certs".
Definition PathWazuhConfig : string := "/var/ossec/etc".
Definition PathFilebeatConfig : string := "/etc/filebeat".
Definition PathMountWazuhConfig : string := "/wazuh-config-mount".
Definition ManagerName (clusterName nodeType : string) : string := clusterName +:+ "-manager-" +:+ nodeType.
Definition ManagerConfigName (clusterName nodeType : string) : string :=
  ManagerName clusterName nodeType +:+ "-config".
Definition ManagerCertsName (clusterName nodeType : string) : string := ManagerName clusterName nodeType +:+ "-certs".
Definition ClusterKeyName (clusterName : string) : string := clusterName +:+ "-cluster-key".
Definition SecretKeyAPIUsername : string := "api-username".
Definition SecretKeyAPIPassword : string := "api-password".
Definition DefaultWazuhVersion : string := "4.14.0".

(** ** The exporter beside the master ([WazuhExporterConfig]) *)

Definition exporter_script : string := shell "
echo `Waiting for Wazuh API to be available...`
max_attempts=60
attempt=0
while [ $attempt -lt $max_attempts ]; do
    if python -c `
import urllib.request, ssl, base64, json, sys
try:
    creds = base64.b64encode(('$WAZUH_API_USERNAME:$WAZUH_API_PASSWORD').encode()).decode()
    req = urllib.request.Request('https://localhost:55000/security/user/authenticate', headers={'Authorization': 'Basic ' + creds})
    ctx = ssl.create_default_context()
    ctx.check_hostname = False
    ctx.verify_mode = ssl.CERT_NONE
    resp = urllib.request.urlopen(req, context=ctx, timeout=5)
    data = json.loads(resp.read())
    sys.exit(0 if 'data' in data else 1)
except Exception:
    sys.exit(1)
` 2>/dev/null; then
        echo `Wazuh API is ready!`
        break
    fi
    attempt=$((attempt + 1))
    echo `Attempt $attempt/$max_attempts: Wazuh API not ready yet, waiting 5s...`
    sleep 5
done
if [ $attempt -eq $max_attempts ]; then
    echo `WARNING: Wazuh API did not become available after $max_attempts attempts, starting exporter anyway...`
fi
exec python ./main.py
".

Definition isWazuhExporterEnabled (monitoring : option MonitoringSpec) : option WazuhExporterSpec :=
  m ← monitoring;
  if negb (mo_Enabled m) then None
  else e ← mo_WazuhExporter m; if we_Enabled e then Some e else None.
Definition exporter_port (e : WazuhExporterSpec) : Z := if bool_decide (we_Port e = 0) then 9090 else we_Port e.

Definition exporter_env (clusterName : string) (e : WazuhExporterSpec) : list EnvVar :=
  [env_value "WAZUH_API_HOST" "localhost"; env_value "WAZUH_API_PORT" "55000";
   env_value "WAZUH_API_PROTOCOL" (or_default (we_APIProtocol e) "https");
   env_secret "WAZUH_API_USERNAME" (APICredentialsName clusterName) SecretKeyAPIUsername;
   env_secret "WAZUH_API_PASSWORD" (APICredentialsName clusterName) SecretKeyAPIPassword;
   env_value "EXPORTER_PORT" (pretty (exporter_port e));
   env_value "EXPORTER_LOG_LEVEL" (or_default (we_LogLevel e) "INFO")] ++
  (if we_SkipLastLogs e then [env_value "SKIP_LAST_LOGS" "true"] else []) ++
  (if we_SkipLastRegisteredAgent e then [env_value "SKIP_LAST_REGISTERED_AGENT" "true"] else []) ++
  (if we_SkipWazuhAPIInfo e then [env_value "SKIP_WAZUH_API_INFO" "true"] else []).

Definition BuildExporterContainer (clusterName : string) (e : WazuhExporterSpec) : Container :=
  {| co_Name := "prometheus-exporter";
     co_Image := or_default (we_Image e) "kennyopennix/wazuh-exporter:latest";
     co_ImagePullPolicy := "IfNotPresent";
     co_Command := ["/bin/sh"; "-c"];
     co_Args := [exporter_script];
     co_Resources := default (cpu_memory "100m" "128Mi" "200m" "256Mi") (we_Resources e);
     co_SecurityContext := None;
     co_Ports := [container_port "metrics" (exporter_port e)];
     co_Env := exporter_env clusterName e;
     co_EnvFrom := [];
     co_VolumeMounts := [];
     co_LivenessProbe := Some (probe (HTTPGet "/metrics" (exporter_port e) "HTTP") 60 30 10 3);
     co_ReadinessProbe := None;
     co_StartupProbe := Some (probe (HTTPGet "/metrics" (exporter_port e) "HTTP") 30 10 5 30);
     co_Rest := "" |}.
Definition BuildExporterSidecar (clusterName : string) (monitoring : option MonitoringSpec) : list Container :=
  match isWazuhExporterEnabled monitoring with
  | None => []
  | Some e => [BuildExporterContainer clusterName e]
  end.

(** ** The StatefulSets *)

Section Build.
Context (clusterDomain : string).
Context {Q : Quantities}.

(** Both builders: one for a type of node, one for the workers. *)
Inductive manager_builder := ManagerStatefulSetBuilder (nodeType : string) | WorkerStatefulSetBuilder.
Definition node_type (k : manager_builder) : string :=
  match k with
  | ManagerStatefulSetBuilder t => t
  | WorkerStatefulSetBuilder => "worker"
  end.

Definition manager_labels (t : string) (b : Builder) : gmap string string :=
  bu_Labels b ∪ <[LabelManagerNodeType := t]> (CommonLabels (bu_ClusterName b) "wazuh-manager" (bu_Version b)).
Definition manager_selector (t clusterName : string) : gmap string string :=
  <[LabelManagerNodeType := t]> (SelectorLabels clusterName "wazuh-manager").

Definition rule_volume (r : ConfigMapRef) : Volume :=
  {| vo_Name := "wazuh-rule-" +:+ ref_Name r; vo_Source := ConfigMapVolume (ref_Name r) [] |}.
Definition decoder_volume (r : ConfigMapRef) : Volume :=
  {| vo_Name := "wazuh-decoder-" +:+ ref_Name r; vo_Source := ConfigMapVolume (ref_Name r) [] |}.
Definition rule_mount (r : ConfigMapRef) : VolumeMount :=
  file_mount ("wazuh-rule-" +:+ ref_Name r) ("/var/ossec/etc/rules/" +:+ ref_FileName r) (ref_FileName r).
Definition decoder_mount (r : ConfigMapRef) : VolumeMount :=
  file_mount ("wazuh-decoder-" +:+ ref_Name r) ("/var/ossec/etc/decoders/" +:+ ref_FileName r) (ref_FileName r).

Definition own_volumes (t clusterName : string) : list Volume :=
  [{| vo_Name := VolumeNameWazuhConfigSource; vo_Source := ConfigMapVolume (ManagerConfigName clusterName t) [] |};
   {| vo_Name := VolumeNameWazuhConfigMount; vo_Source := EmptyDir "10Mi" |};
   {| vo_Name := VolumeNameWazuhCerts;
      vo_Source := SecretVolume (ManagerCertsName clusterName t)
                     [key_path "tls.crt" "filebeat.pem"; key_path "tls.key" "filebeat-key.pem"] |};
   {| vo_Name := VolumeNameIndexerCerts;
      vo_Source := SecretVolume (IndexerCertsName clusterName) [key_path SecretKeyCACert "root-ca.pem"] |}].
Definition buildVolumes (t : string) (b : Builder) (rules decoders : list ConfigMapRef) : list Volume :=
  own_volumes t (bu_ClusterName b) ++ bu_Volumes b ++ map rule_volume rules ++ map decoder_volume decoders.

Definition own_mounts : list VolumeMount :=
  [sub_path_mount VolumeNameWazuhData "/var/ossec/api/configuration" "wazuh/api/configuration";
   sub_path_mount VolumeNameWazuhData PathWazuhConfig "wazuh/etc";
   sub_path_mount VolumeNameWazuhData "/var/ossec/logs" "wazuh/logs";
   sub_path_mount VolumeNameWazuhData "/var/ossec/queue" "wazuh/queue";
   sub_path_mount VolumeNameWazuhData "/var/ossec/var/multigroups" "wazuh/var/multigroups";
   sub_path_mount VolumeNameWazuhData "/var/ossec/integrations" "wazuh/integrations";
   sub_path_mount VolumeNameWazuhData "/var/ossec/active-response/bin" "wazuh/active-response/bin";
   sub_path_mount VolumeNameWazuhData "/var/ossec/agentless" "wazuh/agentless";
   sub_path_mount VolumeNameWazuhData "/var/ossec/wodles" "wazuh/wodles";
   sub_path_mount VolumeNameWazuhData PathFilebeatConfig "filebeat/config";
   sub_path_mount VolumeNameWazuhData "/var/lib/filebeat" "filebeat/data";
   plain_volume_mount VolumeNameWazuhConfigMount PathMountWazuhConfig;
   read_only_mount VolumeNameWazuhCerts "/etc/ssl/certs/wazuh";
   read_only_mount VolumeNameIndexerCerts "/etc/ssl/certs/indexer"].
Definition buildVolumeMounts (b : Builder) (rules decoders : list ConfigMapRef) : list VolumeMount :=
  own_mounts ++ bu_VolumeMounts b ++ map rule_mount rules ++ map decoder_mount decoders.

Definition buildInitContainerVolumeMounts : list VolumeMount :=
  [read_only_mount VolumeNameWazuhConfigSource "/config-source";
   plain_volume_mount VolumeNameWazuhConfigMount PathMountWazuhConfig;
   sub_path_mount VolumeNameWazuhData PathFilebeatConfig "filebeat/config";
   sub_path_mount VolumeNameWazuhData PathWazuhConfig "wazuh/etc"].
Definition init_script : string := shell "echo `Initializing PVC directories and copying configuration files...`
# Create directory structure for ossec.conf (emptyDir)
mkdir -p /wazuh-config-mount/etc
# Create required subdirectories on PVC-backed /var/ossec/etc
mkdir -p /var/ossec/etc/shared /var/ossec/etc/rules /var/ossec/etc/decoders
# Create ar.conf in shared directory (required by wazuh-analysisd)
touch /var/ossec/etc/shared/ar.conf
chown 0:999 /var/ossec/etc/shared/ar.conf
chmod 660 /var/ossec/etc/shared/ar.conf
chown 0:999 /var/ossec/etc/shared
chmod 770 /var/ossec/etc/shared
# Copy ossec.conf if it exists
if [ -f /config-source/ossec.conf ]; then
    cp /config-source/ossec.conf /wazuh-config-mount/etc/ossec.conf
    chmod 644 /wazuh-config-mount/etc/ossec.conf
    echo `Copied ossec.conf`
fi
# Copy filebeat.yml if it exists
if [ -f /config-source/filebeat.yml ]; then
    cp /config-source/filebeat.yml /etc/filebeat/filebeat.yml
    chmod 644 /etc/filebeat/filebeat.yml
    echo `Copied filebeat.yml`
fi
# Copy wazuh-template.json if it exists
if [ -f /config-source/wazuh-template.json ]; then
    cp /config-source/wazuh-template.json /etc/filebeat/wazuh-template.json
    chmod 644 /etc/filebeat/wazuh-template.json
    echo `Copied wazuh-template.json`
fi
# Copy local_internal_options.conf if it exists
if [ -f /config-source/local_internal_options.conf ]; then
    cp /config-source/local_internal_options.conf /wazuh-config-mount/etc/local_internal_options.conf
    chmod 644 /wazuh-config-mount/etc/local_internal_options.conf
    echo `Copied local_internal_options.conf`
fi
echo `Configuration copy complete`
ls -la /wazuh-config-mount/etc/ 2>/dev/null || true
ls -la /etc/filebeat/ 2>/dev/null || true".
Definition buildInitContainer : Container :=
  helper_container "fix-permissions" "busybox:1.36" "" ["/bin/sh"; "-c"; init_script] [] no_resources None []
    buildInitContainerVolumeMounts.

Definition master_address (b : Builder) : EnvVar :=
  env_value "WAZUH_MASTER_ADDRESS"
    (ServiceFQDN clusterDomain (ManagerMasterName (bu_ClusterName b)) (bu_Namespace b)).
Definition buildEnvVars (k : manager_builder) (b : Builder) : list EnvVar :=
  let c := bu_ClusterName b in
  [env_value "WAZUH_CLUSTER_NAME" c;
   env_secret "WAZUH_CLUSTER_KEY" (ClusterKeyName c) "cluster-key";
   env_value "WAZUH_NODE_TYPE" (node_type k);
   env_field "WAZUH_NODE_NAME" "metadata.name"] ++
  match k with
  | WorkerStatefulSetBuilder => [master_address b]
  | ManagerStatefulSetBuilder _ => []
  end ++
  [env_secret "API_USERNAME" (APICredentialsName c) SecretKeyAPIUsername;
   env_secret "API_PASSWORD" (APICredentialsName c) SecretKeyAPIPassword;
   env_value "INDEXER_URL" ("https://" +:+ IndexerServiceFQDN clusterDomain c (bu_Namespace b) +:+ ":9200");
   env_secret "INDEXER_USERNAME" (IndexerCredentialsName c) SecretKeyAdminUsername;
   env_secret "INDEXER_PASSWORD" (IndexerCredentialsName c) SecretKeyAdminPassword;
   env_value "FILEBEAT_SSL_VERIFICATION_MODE" "full";
   env_value "SSL_CERTIFICATE_AUTHORITIES" "/etc/ssl/certs/indexer/root-ca.pem";
   env_value "SSL_CERTIFICATE" "/etc/ssl/certs/wazuh/filebeat.pem";
   env_value "SSL_KEY" "/etc/ssl/certs/wazuh/filebeat-key.pem"] ++
  match k with
  | ManagerStatefulSetBuilder t => if bool_decide (t = "worker") then [master_address b] else []
  | WorkerStatefulSetBuilder => []
  end ++ bu_Env b.

Definition manager_pod_security : PodSecurityContext :=
  {| psc_FSGroup := Some 999; psc_RunAsUser := None; psc_RunAsGroup := None; psc_RunAsNonRoot := None;
     psc_SeccompProfile := Some "Unconfined"; psc_SELinuxOptions := None; psc_Sysctls := [];
     psc_SupplementalGroups := []; psc_Rest := "" |}.
Definition manager_security : SecurityContext :=
  {| sc_AllowPrivilegeEscalation := None; sc_Capabilities := Some {| ca_Add := ["SYS_CHROOT"]; ca_Drop := [] |};
     sc_RunAsUser := Some 0; sc_RunAsGroup := None; sc_RunAsNonRoot := None; sc_ReadOnlyRootFilesystem := None;
     sc_Privileged := None; sc_SeccompProfile := None; sc_SELinuxOptions := None; sc_Rest := "" |}.

Definition manager_container (k : manager_builder) (b : Builder) (rules decoders : list ConfigMapRef) : Container :=
  {| co_Name := "wazuh-manager";
     co_Image := or_default (bu_Image b) ("wazuh/wazuh-manager:" +:+ bu_Version b);
     co_ImagePullPolicy := or_default (bu_ImagePullPolicy b) "IfNotPresent";
     co_Command := []; co_Args := [];
     co_Resources := default (cpu_memory "500m" "512Mi" "1000m" "1Gi") (bu_Resources b);
     co_SecurityContext := Some (merge_security manager_security (bu_ContainerSecurityContext b));
     co_Ports := [container_port "registration" 1515; container_port "cluster" 1516; container_port "api" 55000;
                  container_port "agents" 1514];
     co_Env := buildEnvVars k b;
     co_EnvFrom := bu_EnvFrom b;
     co_VolumeMounts := buildVolumeMounts b rules decoders;
     co_LivenessProbe := Some (probe (TCPSocket 55000) 90 30 5 3);
     co_ReadinessProbe := Some (probe (TCPSocket 55000) 30 10 5 3);
     co_StartupProbe := None;
     co_Rest := "" |}.

(** The sidecar is the master's, and of the builder for a type of node. *)
Definition manager_pod (k : manager_builder) (b : Builder) (monitoring : option MonitoringSpec)
    (rules decoders : list ConfigMapRef) : PodSpec :=
  pod_spec b (merge_pod_security manager_pod_security (bu_SecurityContext b)) [buildInitContainer]
    (manager_container k b rules decoders ::
     match k with
     | ManagerStatefulSetBuilder t =>
         if bool_decide (t = "master") then BuildExporterSidecar (bu_ClusterName b) monitoring else []
     | WorkerStatefulSetBuilder => []
     end ++ bu_ExtraContainers b)
    (buildVolumes (node_type k) b rules decoders).

Definition BuildManager (k : manager_builder) (b : Builder) (monitoring : option MonitoringSpec)
    (rules decoders : list ConfigMapRef) : outcome StatefulSetObject :=
  let t := node_type k in
  stateful_set b (ManagerName (bu_ClusterName b) t) (ManagerName (bu_ClusterName b) t) VolumeNameWazuhData
    (manager_labels t b) (manager_selector t (bu_ClusterName b)) (manager_pod k b monitoring rules decoders).
(** [WorkerStatefulSetBuilder.Build] *)
Definition BuildWorker (b : Builder) (rules decoders : list ConfigMapRef) : outcome StatefulSetObject :=
  BuildManager WorkerStatefulSetBuilder b None rules decoders.

(** ** What the reconciler tells the builders *)

Record ManagerSpec := {
  ma_Master : PodSettings;
  ma_Workers : PodSettings;
  ma_WorkerReplicas : option Z;
  ma_Image : option ImageSpec;
  ma_AntiAffinity : option AntiAffinitySpec;
  ma_Config : ManagerConfigSpec
}.
Definition GetReplicas (m : ManagerSpec) : Z := default 2 (ma_WorkerReplicas m).

Context (meta : ClusterMeta) (monitoring : option MonitoringSpec) (manager : option ManagerSpec).

Definition master_settings : PodSettings := default no_settings (ma_Master <$> manager).
Definition worker_settings : PodSettings := default no_settings (ma_Workers <$> manager).
Definition manager_pull_policy : string := default "" (im_PullPolicy <$> (m ← manager; ma_Image m)).
(** the affinity of its own, with the rules of the manager *)
Definition manager_affinity (s : PodSettings) : option Affinity :=
  with_anti_affinity (BuildManagerAntiAffinity (cm_Name meta)) (m ← manager; ma_AntiAffinity m) (st_Affinity s).
Definition injected (s : PodSettings) : list Volume * list VolumeMount :=
  injectAuthdPasswordSecretMount (ma_Config <$> manager) (st_ExtraVolumes s) (st_ExtraVolumeMounts s).

(** What both are told. *)
Definition manager_pods (s : PodSettings) (replicas : Z) (component : string) (env : list EnvVar) (envFrom : list Json)
    (h : hashes) : Builder :=
  {| bu_Namespace := cm_Namespace meta;
     bu_ClusterName := cm_Name meta;
     bu_Version := or_default (cm_Version meta) DefaultWazuhVersion;
     bu_Replicas := replicas;
     bu_StorageSize := or_default (st_StorageSize s) "10Gi";
     bu_StorageClassName := storage_class (st_StorageClass s) (cm_StorageClassName meta);
     bu_Resources := st_Resources s;
     bu_Image := "";
     bu_NodeSelector := st_NodeSelector s;
     bu_Tolerations := st_Tolerations s;
     bu_Affinity := manager_affinity s;
     bu_ImagePullSecrets := cm_ImagePullSecrets meta;
     bu_TopologySpreadConstraints := st_TopologySpreadConstraints s;
     bu_Labels := ∅;
     bu_Annotations := set_hash AnnotationSpecHash (h_Spec h) (st_Annotations s);
     bu_PodAnnotations := built_pod_annotations (Some (st_PodAnnotations s)) h;
     bu_Env := env;
     bu_EnvFrom := envFrom;
     bu_Volumes := (injected s).1;
     bu_VolumeMounts := (injected s).2;
     bu_ExtraInitContainers := st_ExtraInitContainers s;
     bu_ExtraContainers := st_ExtraContainers s;
     bu_TerminationGracePeriodSeconds := Some (default 90 (st_TerminationGracePeriodSeconds s));
     bu_ServiceAccountName := ResolveServiceAccountName (st_ServiceAccount s) (cm_Name meta) component;
     bu_ImagePullPolicy := manager_pull_policy;
     bu_SecurityContext := None;
     bu_ContainerSecurityContext := None;
     bu_UpdateStrategy := "" |}.
Definition master_builder (h : hashes) : Builder :=
  manager_pods master_settings 1 "master" (st_Env master_settings) (st_EnvFrom master_settings) h.
(** The environment of the workers' specification is not passed on. *)
Definition worker_builder (h : hashes) : Builder :=
  manager_pods worker_settings (default 0 (GetReplicas <$> manager)) "worker" [] [] h.

Definition toWazuhExporterHashInput : option WazuhExporterSpec :=
  m ← monitoring; if negb (mo_Enabled m) then None else mo_WazuhExporter m.

(** The workers' volumes are those of their specification here, without the
    injected one. *)
Definition manager_spec_input (s : PodSettings) (component : string) (replicas : Z) (exporter : option WazuhExporterSpec)
    (volumes : list Volume * list VolumeMount) : SpecInput :=
  {| si_Replicas := replicas;
     si_Version := cm_Version meta;
     si_Resources := st_Resources s;
     si_StorageSize := or_default (st_StorageSize s) "10Gi";
     si_JavaOpts := "";
     si_Image := "";
     si_NodeSelector := st_NodeSelector s;
     si_Tolerations := st_Tolerations s;
     si_Affinity := manager_affinity s;
     si_ImagePullSecrets := cm_ImagePullSecrets meta;
     si_TopologySpreadConstraints := st_TopologySpreadConstraints s;
     si_Env := st_Env s;
     si_EnvFrom := st_EnvFrom s;
     si_Annotations := st_Annotations s;
     si_PodAnnotations := st_PodAnnotations s;
     si_ExtraConfig := st_ExtraConfig s;
     si_ExtraVolumes := volumes.1;
     si_ExtraVolumeMounts := volumes.2;
     si_ExtraInitContainers := st_ExtraInitContainers s;
     si_ExtraContainers := st_ExtraContainers s;
     si_IndexerExporter := None;
     si_WazuhExporter := exporter;
     si_RepositoryPlugins := [];
     si_ServiceAccountName := ResolveServiceAccountName (st_ServiceAccount s) (cm_Name meta) component;
     si_SecurityContext := st_SecurityContext s;
     si_ContainerSecurityContext := st_ContainerSecurityContext s;
     si_TerminationGracePeriodSeconds := st_TerminationGracePeriodSeconds s;
     si_ImagePullPolicy := manager_pull_policy;
     si_UpdateStrategy := "";
     si_EnableSSL := false |}.
Definition master_spec_input : SpecInput :=
  manager_spec_input master_settings "master" 0 toWazuhExporterHashInput (injected master_settings).
Definition worker_spec_input : SpecInput :=
  manager_spec_input worker_settings "worker" (default 0 (GetReplicas <$> manager)) None
    (st_ExtraVolumes worker_settings, st_ExtraVolumeMounts worker_settings).

Definition master_statefulset (h : hashes) (rules decoders : list ConfigMapRef) : outcome StatefulSetObject :=
  BuildManager (ManagerStatefulSetBuilder "master") (master_builder h) monitoring rules decoders.
Definition worker_statefulset (h : hashes) (rules decoders : list ConfigMapRef) : outcome StatefulSetObject :=
  BuildWorker (worker_builder h) rules decoders.
End Build.
