(* ===== verification/PodChecks.v ===== *)
(** * When the API server takes the pods of the manager

    A rule or a decoder becomes a volume and a mount of every manager pod; so a
    single one can make the API server refuse the whole StatefulSet
    ([Pods.valid_pod]).  Here is exactly when that happens, given that what the
    user adds to the pods fits. *)
From S2P Require Import Prelude GoStrings IndexerDrain Cluster ClientFactory Workload SecuritySync Pods OssecConf ManagerPods.
Local Open Scope string_scope.
Local Open Scope list_scope.

(** ** What the user adds *)

(** The volumes, mounts and containers of the operator's own. *)
Definition operator_volumes : list string :=
  [VolumeNameWazuhConfigSource; VolumeNameWazuhConfigMount; VolumeNameWazuhCerts; VolumeNameIndexerCerts].
Definition operator_paths : list string := map vm_MountPath own_mounts.
Definition operator_containers : list string := ["fix-permissions"; "wazuh-manager"; "prometheus-exporter"].
Definition rule_prefix : string := "wazuh-rule-".
Definition decoder_prefix : string := "wazuh-decoder-".
Definition rules_dir : string := "/var/ossec/etc/rules/".
Definition decoders_dir : string := "/var/ossec/etc/decoders/".

(** A name that the operator does not use, and that does not look like a rule's or
    decoder's. *)
Definition free (used : list string) (p q : string) (s : string) : Prop :=
  (s ∉ used) /\ strip_prefix p s = None /\ strip_prefix q s = None.
#[export] Instance free_dec used p q s : Decision (free used p q s) := _.

Definition declared_names (volumes : list Volume) : list string :=
  operator_volumes ++ map vo_Name volumes ++ [VolumeNameWazuhData].
Definition volumes_fit (volumes : list Volume) : Prop :=
  NoDup (map vo_Name volumes) /\
  Forall (free operator_volumes rule_prefix decoder_prefix) (map vo_Name volumes) /\
  Forall label_name (map vo_Name volumes).
Definition mounts_fit (volumes : list Volume) (mounts : list VolumeMount) : Prop :=
  NoDup (map vm_MountPath mounts) /\
  Forall (free operator_paths rules_dir decoders_dir) (map vm_MountPath mounts) /\
  Forall (fun m => vm_Name m ∈ declared_names volumes) mounts.
Definition containers_fit (volumes : list Volume) (init containers : list Container) : Prop :=
  Forall (mounts_declared (declared_names volumes)) (init ++ containers) /\
  Forall paths_distinct (init ++ containers) /\
  NoDup (map co_Name (init ++ containers)) /\
  Forall (fun n => n ∉ operator_containers) (map co_Name (init ++ containers)).
Definition extras_fit (volumes : list Volume) (mounts : list VolumeMount) (init containers : list Container) : Prop :=
  volumes_fit volumes /\ mounts_fit volumes mounts /\ containers_fit volumes init containers.
Definition settings_fit (s : PodSettings) : Prop :=
  extras_fit (st_ExtraVolumes s) (st_ExtraVolumeMounts s) (st_ExtraInitContainers s) (st_ExtraContainers s).

(** ** What rules and decoders add *)

Definition contents_fit (prefix : string) (l : list ConfigMapRef) : Prop :=
  NoDup (map ref_Name l) /\ NoDup (map ref_FileName l) /\
  Forall (fun r => label_name (prefix +:+ ref_Name r)) l.
#[export] Instance contents_fit_dec prefix l : Decision (contents_fit prefix l) := _.

(** ** Names *)

Lemma strip_prefix_Some_iff p s : strip_prefix p s = None <-> ~ exists r, s = p +:+ r.
Proof.
  split.
  - intros H [r ->]. by rewrite strip_prefix_app in H.
  - intros H. destruct (strip_prefix p s) as [r|] eqn:E; [|done]. destruct H. exists r. by apply strip_prefix_Some.
Qed.

Lemma NoDup_prefixed {A} (f : A -> string) p l : NoDup (map (fun a => p +:+ f a) l) <-> NoDup (map f l).
Proof.
  rewrite <- (map_map f (fun s => p +:+ s)). apply NoDup_fmap. intros s t. apply (inj (String.append p)).
Qed.

(** Names of the operator, of the user and of the contents, in that order. *)
Section Disjoint.
Context (p q : string) (used own user rules decoders : list string).
Hypothesis Hp : Forall (fun s => strip_prefix p s = None /\ strip_prefix q s = None) own.
Hypothesis Hown : NoDup own.
Hypothesis Huser : Forall (free own p q) user.
Hypothesis Hnodup : NoDup user.
Hypothesis Hpq : forall r s, p +:+ r <> q +:+ s.

Lemma names_distinct :
  NoDup (own ++ user ++ map (String.append p) rules ++ map (String.append q) decoders) <->
  NoDup (map (String.append p) rules) /\ NoDup (map (String.append q) decoders).
Proof.
  rewrite Forall_forall in Huser, Hp. split.
  - intros H. apply NoDup_app in H as (_ & _ & H). apply NoDup_app in H as (_ & _ & H). by apply NoDup_app in H as (? & _ & ?).
  - intros [Hr Hd]. apply NoDup_app. split_and!; [done| |].
    + intros s Hs. rewrite !not_elem_of_app. destruct (Hp s Hs) as [H1 H2]. split_and!.
      * intros Hu. by apply (Huser s Hu).
      * intros (r & -> & _)%list_elem_of_fmap. by rewrite strip_prefix_app in H1.
      * intros (r & -> & _)%list_elem_of_fmap. by rewrite strip_prefix_app in H2.
    + apply NoDup_app. split_and!; [done| |].
      * intros s Hs. destruct (Huser s Hs) as (_ & H1 & H2). rewrite not_elem_of_app. split.
        -- intros (r & -> & _)%list_elem_of_fmap. by rewrite strip_prefix_app in H1.
        -- intros (r & -> & _)%list_elem_of_fmap. by rewrite strip_prefix_app in H2.
      * apply NoDup_app. split_and!; [done| |done].
        intros s (r & -> & _)%list_elem_of_fmap (r' & E & _)%list_elem_of_fmap. by apply Hpq in E.
Qed.
End Disjoint.

(** ** The pod *)

Section Pod.
Context (clusterDomain : string) (k : manager_builder) (b : Builder) (monitoring : option MonitoringSpec).
Context (rules decoders : list ConfigMapRef).
Let pod := manager_pod clusterDomain k b monitoring rules decoders.
Let declared := volume_names [VolumeNameWazuhData] pod.

Lemma pod_volume_names :
  map vo_Name (po_Volumes pod) = operator_volumes ++ map vo_Name (bu_Volumes b) ++
    map (String.append rule_prefix) (map ref_Name rules) ++ map (String.append decoder_prefix) (map ref_Name decoders).
Proof. cbn [po_Volumes pod manager_pod pod_spec]. unfold buildVolumes. by rewrite !map_app, !map_map. Qed.

Lemma main_mount_paths :
  map vm_MountPath (buildVolumeMounts b rules decoders) = operator_paths ++ map vm_MountPath (bu_VolumeMounts b) ++
    map (String.append rules_dir) (map ref_FileName rules) ++ map (String.append decoders_dir) (map ref_FileName decoders).
Proof. unfold buildVolumeMounts. by rewrite !map_app, !map_map. Qed.

Lemma pod_volumes_distinct : volumes_fit (bu_Volumes b) ->
  NoDup (map vo_Name (po_Volumes pod)) <-> NoDup (map ref_Name rules) /\ NoDup (map ref_Name decoders).
Proof.
  intros (H1 & H2 & _). rewrite pod_volume_names, names_distinct; [..|done].
  - by rewrite !map_map, !NoDup_prefixed.
  - by repeat constructor.
  - by apply (bool_decide_unpack _); vm_compute.
  - done.
  - done.
Qed.

Lemma main_paths_distinct : mounts_fit (bu_Volumes b) (bu_VolumeMounts b) ->
  paths_distinct (manager_container clusterDomain k b rules decoders) <->
    NoDup (map ref_FileName rules) /\ NoDup (map ref_FileName decoders).
Proof.
  intros (H1 & H2 & _). unfold paths_distinct. cbn [co_VolumeMounts manager_container].
  rewrite main_mount_paths, names_distinct; [..|done].
  - by rewrite !map_map, !NoDup_prefixed.
  - by repeat constructor.
  - by apply (bool_decide_unpack _); vm_compute.
  - done.
  - done.
Qed.

Lemma pod_labels : volumes_fit (bu_Volumes b) ->
  Forall label_name (map vo_Name (po_Volumes pod)) <->
    Forall (fun r => label_name (rule_prefix +:+ ref_Name r)) rules /\
    Forall (fun r => label_name (decoder_prefix +:+ ref_Name r)) decoders.
Proof.
  intros (_ & _ & H). rewrite pod_volume_names, !Forall_app, !map_map, !Forall_map.
  assert (Forall label_name operator_volumes) by (by apply (bool_decide_unpack _); vm_compute).
  rewrite Forall_map in H. tauto.
Qed.

Lemma declared_is : declared ≡ₚ declared_names (bu_Volumes b) ++
  map (String.append rule_prefix) (map ref_Name rules) ++ map (String.append decoder_prefix) (map ref_Name decoders).
Proof. unfold declared, volume_names, declared_names. rewrite pod_volume_names. solve_Permutation. Qed.
Lemma declared_names_in s : s ∈ declared_names (bu_Volumes b) -> s ∈ declared.
Proof. intros H. rewrite declared_is, elem_of_app. by left. Qed.
Lemma declared_more c : mounts_declared (declared_names (bu_Volumes b)) c -> mounts_declared declared c.
Proof. intros H. eapply Forall_impl; [exact H|]. intros m. apply declared_names_in. Qed.

Lemma operator_mounts_declared l :
  Forall (fun m => vm_Name m ∈ operator_volumes ++ [VolumeNameWazuhData]) l -> Forall (fun m => vm_Name m ∈ declared) l.
Proof.
  intros H. eapply Forall_impl; [exact H|]. intros m. rewrite elem_of_app. intros Hm. apply declared_names_in.
  unfold declared_names. rewrite !elem_of_app. tauto.
Qed.
Lemma main_mounts_declared : mounts_fit (bu_Volumes b) (bu_VolumeMounts b) ->
  mounts_declared declared (manager_container clusterDomain k b rules decoders).
Proof.
  intros (_ & _ & H). unfold mounts_declared. cbn [co_VolumeMounts manager_container]. unfold buildVolumeMounts.
  rewrite !Forall_app, !Forall_map. split_and!.
  - apply operator_mounts_declared. by apply (bool_decide_unpack _); vm_compute.
  - eapply Forall_impl; [exact H|]. intros m. apply declared_names_in.
  - rewrite Forall_forall. intros r Hr. rewrite declared_is, !elem_of_app. right. left. rewrite map_map.
    exact (list_elem_of_fmap_2 (fun r => rule_prefix +:+ ref_Name r) _ _ Hr).
  - rewrite Forall_forall. intros r Hr. rewrite declared_is, !elem_of_app. right. right. rewrite map_map.
    exact (list_elem_of_fmap_2 (fun r => decoder_prefix +:+ ref_Name r) _ _ Hr).
Qed.

(** All its containers: the operator's, then the user's. *)
Let sidecar : list Container :=
  match k with
  | ManagerStatefulSetBuilder t =>
      if bool_decide (t = "master") then BuildExporterSidecar (bu_ClusterName b) monitoring else []
  | WorkerStatefulSetBuilder => []
  end.
Lemma sidecar_none_or_one : sidecar = [] \/ exists e, sidecar = [BuildExporterContainer (bu_ClusterName b) e].
Proof.
  unfold sidecar, BuildExporterSidecar. destruct k; [|by left]. case_bool_decide; [|by left].
  destruct (isWazuhExporterEnabled monitoring); [right; by eexists|by left].
Qed.
Lemma pod_containers : all_containers pod ≡ₚ
  manager_container clusterDomain k b rules decoders :: buildInitContainer :: sidecar ++
    (bu_ExtraInitContainers b ++ bu_ExtraContainers b).
Proof.
  unfold all_containers. cbn [po_InitContainers po_Containers pod manager_pod pod_spec]. fold sidecar. solve_Permutation.
Qed.

Lemma init_declared : mounts_declared declared buildInitContainer.
Proof. apply operator_mounts_declared. by apply (bool_decide_unpack _); vm_compute. Qed.
Lemma init_paths : paths_distinct buildInitContainer.
Proof. by apply (bool_decide_unpack _); vm_compute. Qed.
Lemma sidecar_no_mounts : Forall (fun c => co_VolumeMounts c = []) sidecar.
Proof. destruct sidecar_none_or_one as [->|[e ->]]; by repeat constructor. Qed.

Lemma container_names : containers_fit (bu_Volumes b) (bu_ExtraInitContainers b) (bu_ExtraContainers b) ->
  NoDup (map co_Name (all_containers pod)).
Proof.
  intros (_ & _ & H1 & H2). rewrite pod_containers. cbn [map]. rewrite map_app. cbn [co_Name manager_container].
  rewrite Forall_forall in H2.
  assert (Hn : forall n, n ∈ operator_containers ->
    n ∉ map co_Name (bu_ExtraInitContainers b ++ bu_ExtraContainers b)) by (intros n Hn Hi; by apply (H2 n)).
  destruct sidecar_none_or_one as [->|[e ->]]; cbn [map app co_Name BuildExporterContainer];
    repeat (apply NoDup_cons; split; [rewrite ?not_elem_of_cons; split_and?; try done; apply Hn; unfold operator_containers; set_solver|]); done.
Qed.

Lemma every_container (P : Container -> Prop) :
  Forall P (all_containers pod) <->
    P (manager_container clusterDomain k b rules decoders) /\ P buildInitContainer /\ Forall P sidecar /\
    Forall P (bu_ExtraInitContainers b ++ bu_ExtraContainers b).
Proof.
  pose proof pod_containers as E. generalize dependent (all_containers pod). intros l ->.
  by rewrite !Forall_cons, Forall_app.
Qed.

Lemma pod_mounts_declared : mounts_fit (bu_Volumes b) (bu_VolumeMounts b) ->
  containers_fit (bu_Volumes b) (bu_ExtraInitContainers b) (bu_ExtraContainers b) ->
  Forall (mounts_declared declared) (all_containers pod).
Proof.
  intros Hm [Hc _]. apply every_container. split_and!.
  - by apply main_mounts_declared.
  - apply init_declared.
  - eapply Forall_impl; [apply sidecar_no_mounts|]. intros c E. unfold mounts_declared. by rewrite E.
  - eapply Forall_impl; [exact Hc|]. intros c. apply declared_more.
Qed.

Lemma pod_paths : mounts_fit (bu_Volumes b) (bu_VolumeMounts b) ->
  containers_fit (bu_Volumes b) (bu_ExtraInitContainers b) (bu_ExtraContainers b) ->
  Forall paths_distinct (all_containers pod) <-> NoDup (map ref_FileName rules) /\ NoDup (map ref_FileName decoders).
Proof.
  intros Hm (_ & Hc & _). rewrite every_container, main_paths_distinct by done. pose proof init_paths.
  assert (Forall paths_distinct sidecar).
  { eapply Forall_impl; [apply sidecar_no_mounts|]. intros c E. unfold paths_distinct. rewrite E. constructor. }
  tauto.
Qed.

Lemma manager_pod_ok :
  extras_fit (bu_Volumes b) (bu_VolumeMounts b) (bu_ExtraInitContainers b) (bu_ExtraContainers b) ->
  valid_pod [VolumeNameWazuhData] pod <-> contents_fit rule_prefix rules /\ contents_fit decoder_prefix decoders.
Proof.
  intros (Hv & Hm & Hc). pose proof (container_names Hc). pose proof (pod_mounts_declared Hm Hc).
  unfold valid_pod, contents_fit.
  rewrite (pod_paths Hm Hc), (pod_volumes_distinct Hv), (pod_labels Hv). tauto.
Qed.
End Pod.

(** ** The StatefulSets *)

Lemma existsb_none {A} (f : A -> bool) l : existsb f l = false <-> Forall (fun a => f a = false) l.
Proof.
  induction l as [|a l IH]; cbn; [done|]. by rewrite orb_false_iff, Forall_cons, IH.
Qed.

Lemma NoDup_snoc {A} (l : list A) a : NoDup l -> a ∉ l -> NoDup (l ++ [a]).
Proof. intros H1 H2. apply NoDup_app. split_and!; [done| |apply NoDup_singleton]. intros b Hb ->%list_elem_of_singleton. done. Qed.

Lemma declared_names_more v volumes n : n ∈ declared_names volumes -> n ∈ declared_names (volumes ++ [v]).
Proof. unfold declared_names. rewrite map_app, !elem_of_app. tauto. Qed.
Lemma containers_fit_more v volumes init cs : containers_fit volumes init cs -> containers_fit (volumes ++ [v]) init cs.
Proof.
  intros (H1 & H2). split; [|done]. eapply Forall_impl; [exact H1|]. intros c Hc.
  eapply Forall_impl; [exact Hc|]. intros m. apply declared_names_more.
Qed.

(** The enrolment password goes where the user has nothing. *)
Lemma injection_fits config volumes mounts init cs :
  extras_fit volumes mounts init cs ->
  extras_fit (injectAuthdPasswordSecretMount config volumes mounts).1
    (injectAuthdPasswordSecretMount config volumes mounts).2 init cs.
Proof.
  intros H. unfold injectAuthdPasswordSecretMount. destruct (authdPasswordSecretRef config) as [[s k]|]; [|done].
  destruct (existsb _ volumes) eqn:Ev; [done|]. destruct (existsb _ mounts) eqn:Em; [done|].
  apply existsb_none in Ev, Em. rewrite Forall_forall in Ev. rewrite Forall_forall in Em. destruct H as ((V1 & V2 & V3) & (M1 & M2 & M3) & C).
  cbn [fst snd]. split_and!; [unfold volumes_fit|unfold mounts_fit|by apply containers_fit_more];
    rewrite !map_app, ?Forall_app.
  - split_and!; try done; [|by apply (bool_decide_unpack _); vm_compute..].
    apply NoDup_snoc; [done|]. intros (v & E & Hv)%list_elem_of_fmap. apply Ev, bool_decide_eq_false in Hv. by destruct Hv.
  - split_and!; try done.
    + apply NoDup_snoc; [done|]. intros (m & E & Hm)%list_elem_of_fmap. apply Em, orb_false_iff in Hm as [Hm _].
      apply bool_decide_eq_false in Hm. by destruct Hm.
    + by apply (bool_decide_unpack _); vm_compute.
    + eapply Forall_impl; [exact M3|]. intros m. apply declared_names_more.
    + constructor; [|done]. unfold declared_names. rewrite map_app, !elem_of_app. cbn. set_solver.
Qed.

Lemma selector_in_labels t c v : selects (manager_selector t c) (∅ ∪ <[LabelManagerNodeType := t]> (CommonLabels c "wazuh-manager" v)).
Proof.
  unfold selects, manager_selector. rewrite (left_id_L ∅ (∪)). apply insert_mono. unfold SelectorLabels, CommonLabels.
  apply insert_mono, insert_mono. apply map_singleton_subseteq_l. by simplify_map_eq.
Qed.

Section StatefulSets.
Context (clusterDomain : string) {Q : Quantities}.

(** What the API server looks at in a StatefulSet. *)
Definition accepted (s : StatefulSetObject) : Prop :=
  valid_pod (map cl_Name (so_Claims s)) (te_Spec (so_Template s)) /\ selects (so_Selector s) (te_Labels (so_Template s)).

Lemma built_accepted k b mon rules decoders s :
  BuildManager clusterDomain k b mon rules decoders = Returns s -> bu_Labels b = ∅ ->
  extras_fit (bu_Volumes b) (bu_VolumeMounts b) (bu_ExtraInitContainers b) (bu_ExtraContainers b) ->
  accepted s <-> contents_fit rule_prefix rules /\ contents_fit decoder_prefix decoders.
Proof.
  unfold BuildManager, stateful_set. destruct (is_quantity _); [|done]. intros [= <-] Hl He.
  unfold accepted. cbn [so_Claims so_Template so_Selector te_Spec te_Labels map cl_Name].
  rewrite manager_pod_ok by done. unfold manager_labels. rewrite Hl. pose proof (selector_in_labels (node_type k) (bu_ClusterName b) (bu_Version b)).
  tauto.
Qed.

Lemma statefulsets_accepted meta mon manager h rules decoders :
  settings_fit (master_settings manager) -> settings_fit (worker_settings manager) ->
  is_quantity (or_default (st_StorageSize (master_settings manager)) "10Gi") = true ->
  is_quantity (or_default (st_StorageSize (worker_settings manager)) "10Gi") = true ->
  exists master workers,
    master_statefulset clusterDomain meta mon manager h rules decoders = Returns master /\
    worker_statefulset clusterDomain meta manager h rules decoders = Returns workers /\
    (accepted master <-> contents_fit rule_prefix rules /\ contents_fit decoder_prefix decoders) /\
    (accepted workers <-> contents_fit rule_prefix rules /\ contents_fit decoder_prefix decoders).
Proof.
  intros Hm Hw Qm Qw. apply (injection_fits (ma_Config <$> manager)) in Hm, Hw.
  destruct (master_statefulset clusterDomain meta mon manager h rules decoders) as [m|] eqn:Em.
  2: { unfold master_statefulset, BuildManager, stateful_set in Em.
       cbn [bu_StorageSize master_builder manager_pods] in Em. by rewrite Qm in Em. }
  destruct (worker_statefulset clusterDomain meta manager h rules decoders) as [w|] eqn:Ew.
  2: { unfold worker_statefulset, BuildWorker, BuildManager, stateful_set in Ew.
       cbn [bu_StorageSize worker_builder manager_pods] in Ew. by rewrite Qw in Ew. }
  exists m, w. split_and!; [done|done| |].
  - by apply (built_accepted _ _ _ _ _ _ Em).
  - by apply (built_accepted _ _ _ _ _ _ Ew).
Qed.

Lemma list_ascii_app s t :
  String.list_ascii_of_string (s +:+ t) = String.list_ascii_of_string s ++ String.list_ascii_of_string t.
Proof. induction s as [|a s IH]; [done|]. rewrite append_cons. cbn. by rewrite IH. Qed.
(** How much of a label the prefix leaves to a name. *)
Definition name_fits (max : nat) (s : string) : Prop :=
  (String.length s <= max)%nat /\ Ascii.ascii_of_nat 46 ∉ String.list_ascii_of_string s.
Lemma label_prefixed p s :
  (String.length p <= 63)%nat -> (Ascii.ascii_of_nat 46 ∉ String.list_ascii_of_string p) ->
  label_name (p +:+ s) <-> name_fits (63 - String.length p) s.
Proof.
  intros H1 H2. unfold label_name, name_fits. rewrite append_length, list_ascii_app, not_elem_of_app.
  split; intros [? ?]; split; try tauto; lia.
Qed.
Lemma contents_fit_names p l :
  (String.length p <= 63)%nat -> (Ascii.ascii_of_nat 46 ∉ String.list_ascii_of_string p) ->
  contents_fit p l <-> NoDup (map ref_Name l) /\ NoDup (map ref_FileName l) /\
    Forall (name_fits (63 - String.length p)) (map ref_Name l).
Proof.
  intros H1 H2. unfold contents_fit. rewrite Forall_map.
  assert (Forall (fun r => label_name (p +:+ ref_Name r)) l <-> Forall (fun r => name_fits (63 - String.length p) (ref_Name r)) l).
  { apply Forall_iff. intros r. by apply label_prefixed. }
  tauto.
Qed.


(** The rules that are collected, the one among them. *)
Lemma collected_ref c l name :
  c ∈ l -> cc_Applied c = true -> cc_ConfigMapRef c = Some name ->
  name ∈ map ref_Name (convertConfigMaps (merge_sort info_le (infos l))).
Proof.
  intros Hc Ha Hr. unfold convertConfigMaps. rewrite map_map.
  apply (list_elem_of_fmap_2' ci_ConfigMapName _ {| ci_ConfigMapName := name; ci_FileName := cc_FileStem c +:+ ".xml"; ci_Name := cc_Name c |}); [|done].
  rewrite merge_sort_Permutation. apply list_elem_of_omap. exists c. split; [done|]. by rewrite Ha, Hr.
Qed.

(** C31: a rule with a long name stops every manager of its cluster.  The
    ConfigMap of a rule is called like the resource, with -rule behind it: when a rule of
    more than 47 characters, or with a dot in its name, is applied, the API server
    refuses the StatefulSets of the master and of the workers. *)
Theorem long_rule_name_refused meta mon manager h l c decoders :
  settings_fit (master_settings manager) -> settings_fit (worker_settings manager) ->
  is_quantity (or_default (st_StorageSize (master_settings manager)) "10Gi") = true ->
  is_quantity (or_default (st_StorageSize (worker_settings manager)) "10Gi") = true ->
  c ∈ l -> cc_Applied c = true -> cc_ConfigMapRef c = Some (cc_Name c +:+ "-rule") -> ~ name_fits 47 (cc_Name c) ->
  let rules := convertConfigMaps (merge_sort info_le (infos l)) in
  exists master workers,
    master_statefulset clusterDomain meta mon manager h rules decoders = Returns master /\
    worker_statefulset clusterDomain meta manager h rules decoders = Returns workers /\
    ~ accepted master /\ ~ accepted workers.
Proof.
  intros Hm Hw Qm Qw Hc Ha Hr Hn rules.
  destruct (statefulsets_accepted meta mon _ h rules decoders Hm Hw Qm Qw) as (m & w & Em & Ew & Im & Iw).
  exists m, w. rewrite Im, Iw.
  assert (Hno : ~ contents_fit rule_prefix rules).
  { rewrite contents_fit_names by (first [by vm_compute; lia|by apply (bool_decide_unpack _); vm_compute]).
    intros (_ & _ & H). rewrite Forall_forall in H. apply Hn.
    destruct (H _ (collected_ref _ _ _ Hc Ha Hr)) as [H1 H2]. rewrite append_length in H1. rewrite list_ascii_app, not_elem_of_app in H2.
    split; [|tauto]. cbn in H1. lia. }
  tauto.
Qed.
End StatefulSets.

(** ** Witnesses *)

Definition every_size : Quantities := fun _ => true.
Definition demo_meta (class : string) : ClusterMeta :=
  {| cm_Name := "soc"; cm_Namespace := "wazuh"; cm_Version := "4.14.1"; cm_ImagePullSecrets := [];
     cm_StorageClassName := Some class |}.
Definition fast_settings : PodSettings :=
  {| st_Replicas := 3; st_Resources := None; st_StorageSize := "50Gi"; st_StorageClass := Some "fast"; st_Image := None;
     st_NodeSelector := ∅; st_Tolerations := []; st_Affinity := None; st_AntiAffinity := None;
     st_TopologySpreadConstraints := []; st_Annotations := ∅; st_PodAnnotations := ∅; st_ExtraConfig := "";
     st_ExtraVolumes := []; st_ExtraVolumeMounts := []; st_ExtraInitContainers := []; st_ExtraContainers := [];
     st_Env := []; st_EnvFrom := []; st_SecurityContext := None; st_ContainerSecurityContext := None;
     st_TerminationGracePeriodSeconds := None; st_ServiceAccount := None; st_UpdateStrategy := "" |}.
Definition demo_manager (secret : string) : ManagerSpec :=
  {| ma_Master := fast_settings; ma_Workers := fast_settings; ma_WorkerReplicas := Some 2; ma_Image := None;
     ma_AntiAffinity := None;
     ma_Config := {| mc_Config := None; mc_AuthdPasswordSecretRef := Some {| sel_Name := secret; sel_Key := "password" |} |} |}.
Definition demo_rule (name : string) : CustomContent :=
  {| cc_Name := name; cc_ClusterRef := "soc"; cc_Applied := true; cc_ConfigMapRef := Some (name +:+ "-rule");
     cc_FileStem := "local"; cc_Content := "" |}.
Definition a_hash : hashes := plain_hashes "certs" "conf" "spec".

Lemma demo_settings_fit secret :
  settings_fit (master_settings (Some (demo_manager secret))) /\ settings_fit (worker_settings (Some (demo_manager secret))).
Proof. by repeat constructor. Qed.


Lemma long_rule_name_refused_witness :
  let c := demo_rule "detect-suspicious-powershell-commands-of-web-servers" in
  let rules := convertConfigMaps (merge_sort info_le (infos [c])) in
  exists master, master_statefulset (Q := every_size) "cluster.local" (demo_meta "a") None (Some (demo_manager "s"))
    a_hash rules [] = Returns master /\ ~ accepted master.
Proof.
  intros c rules. destruct (demo_settings_fit "s") as [Hm Hw].
  destruct (long_rule_name_refused "cluster.local" (Q := every_size) (demo_meta "a") None (Some (demo_manager "s")) a_hash
    [c] c [] Hm Hw eq_refl eq_refl) as (m & w & Em & _ & Im & _).
  - by left.
  - reflexivity.
  - reflexivity.
  - intros [H _]. revert H. vm_compute. lia.
  - by exists m.
Defined.
