(* ===== verification/IndexerPods.v ===== *)
(** * The pods of the indexer

    [internal/opensearch/builder/deployments/indexer.go],
    [indexer_nodepool.go], the plugins that init containers install
    ([internal/opensearch/plugins/repository.go],
    [internal/monitoring/plugin.go]), and what [reconcileStatefulSetNonBlocking]
    of [internal/opensearch/reconciler/indexer_reconciler.go] tells the builder
    and puts into the hash of the specification.  The two builders are one
    model with two kinds. *)
From S2P Require Import Prelude GoStrings IndexerDrain Cluster ClientFactory Workload Versions SecuritySync Pods.
From S2P Require Import OssecConf ManagerPods.
Local Open Scope string_scope.
Local Open Scope list_scope.

Definition VolumeNameIndexerData : string := "indexer-data".
Definition VolumeNameIndexerConfig : string := "indexer-config".
Definition VolumeNameIndexerSecurity : string := "indexer-security".
Definition VolumeNameAdminCerts : string := "admin-certs".
Definition VolumeNameConfigProcessed : string := "config-processed".
Definition PathIndexerData : string := "/var/lib/wazuh-indexer".
Definition PathIndexerBase : string := "/usr/share/wazuh-indexer".
Definition DefaultWazuhIndexerImage : string := "wazuh/wazuh-indexer".
Definition DefaultIndexerJavaOpts : string := "-Xms1g -Xmx1g -Dlog4j2.formatMsgNoLookups=true".

(** ** Where the configuration lies ([pkg/constants/indexer_paths.go]) *)

Definition UsesIndexerConfigDir (wazuhVersion : string) : bool :=
  match ParseVersion wazuhVersion with
  | Err _ => true
  | Ok v => GreaterThanOrEqual v {| v_Major := 4; v_Minor := 14; v_Patch := 0 |}
  end.
Definition IndexerConfigFilePath (v : string) : string :=
  if UsesIndexerConfigDir v then PathIndexerBase +:+ "/config/opensearch.yml" else PathIndexerBase +:+ "/opensearch.yml".
Definition IndexerSecurityConfigDir (v : string) : string :=
  if UsesIndexerConfigDir v then PathIndexerBase +:+ "/config/opensearch-security"
  else PathIndexerBase +:+ "/opensearch-security".
Definition IndexerCertsDir (v : string) : string :=
  if UsesIndexerConfigDir v then PathIndexerBase +:+ "/config/certs" else PathIndexerBase +:+ "/certs".

(** ** Repository plugins ([internal/opensearch/plugins]) *)

Record RepositoryPluginCredentials := { rpc_Name : string; rpc_Keys : gmap string string }.
Record RepositoryPluginConfig := {
  rp_Name : string;
  rp_ClientName : string;
  rp_CredentialsSecret : option RepositoryPluginCredentials
}.
Record RepositoryPluginInstaller := { in_Plugins : list RepositoryPluginConfig; in_IndexerImage : string }.

(** The image the init containers run: without a repository of its own, the
    default one at the version of the cluster. *)
Definition plugin_image (version : string) (image : option ImageSpec) : string :=
  match image with
  | Some i =>
      if bool_decide (im_Repository i = "") then DefaultWazuhIndexerImage +:+ ":" +:+ version
      else im_Repository i +:+ ":" +:+ or_default (im_Tag i) version
  | None => DefaultWazuhIndexerImage +:+ ":" +:+ version
  end.
(** [NewFromCluster] and [NeedsInstallation] *)
Definition NewFromCluster (version : string) (plugins : list RepositoryPluginConfig) (image : option ImageSpec)
    : option RepositoryPluginInstaller :=
  match plugins with
  | [] => None
  | _ => Some {| in_Plugins := plugins; in_IndexerImage := plugin_image version image |}
  end.

Definition pluginShortName (name : string) : string := TrimPrefix name "repository-".
Definition getKeyOrDefault (keys : gmap string string) (key defaultValue : string) : string :=
  default defaultValue (keys !! key).
Definition lines (l : list string) : string := Join "
" l.

Definition buildPluginInstallCommands (plugins : list RepositoryPluginConfig) : string :=
  lines (map (fun p => let name := rp_Name p in
    shell "echo `Installing " +:+ name +:+ shell "...`
/usr/share/wazuh-indexer/bin/opensearch-plugin install -b " +:+ name +:+ shell " || {
    echo `ERROR: Failed to install " +:+ name +:+ shell ", continuing...`
}
# Copy the plugin to persistent volume if installed
pluginDir=`/usr/share/wazuh-indexer/plugins/" +:+ name +:+ shell "`
if [ -d `$pluginDir` ]; then
    cp -r `$pluginDir` /mnt/plugins/
    echo `" +:+ name +:+ shell " installed successfully`
else
    echo `WARNING: " +:+ name +:+ shell " not found after installation`
fi") plugins).

Definition install_script (plugins : list RepositoryPluginConfig) : string :=
  shell "
set -e
echo `Repository plugin installer: " +:+ Join ", " (map rp_Name plugins) +:+ shell "`

# Check if repository plugins have already been initialized
if [ -f `/mnt/plugins/.repo-plugins-initialized` ]; then
    echo `Repository plugins already initialized`
    exit 0
fi

# If monitoring plugin has already initialized base plugins, skip base copy
if [ -f `/mnt/plugins/.plugins-initialized` ]; then
    echo `Base plugins already present (monitoring plugin initialized)`
else
    echo `Copying built-in plugins to persistent volume...`
    cp -r /usr/share/wazuh-indexer/plugins/* /mnt/plugins/
fi

# Install each repository plugin
" +:+ buildPluginInstallCommands plugins +:+ shell "

# Mark repository plugins as initialized
touch /mnt/plugins/.repo-plugins-initialized
echo `Repository plugins initialization completed`
".

Definition init_resources : ResourceRequirements := cpu_memory "100m" "128Mi" "200m" "256Mi".
Definition plugins_mount : VolumeMount := sub_path_mount VolumeNameIndexerData "/mnt/plugins" "plugins".
Definition BuildInstallInitContainer (i : RepositoryPluginInstaller) : Container :=
  helper_container "install-repository-plugins" (in_IndexerImage i) "" ["sh"; "-c"] [install_script (in_Plugins i)]
    init_resources None [env_value "OPENSEARCH_PATH_CONF" PathIndexerBase] [plugins_mount].

Definition credentials_name (p : RepositoryPluginConfig) : string := "repo-secret-" +:+ pluginShortName (rp_Name p).
(** What is done for each plugin with credentials. *)
Definition with_credentials {A} (f : RepositoryPluginConfig -> RepositoryPluginCredentials -> A)
    (plugins : list RepositoryPluginConfig) : list A :=
  omap (fun p => c ← rp_CredentialsSecret p; Some (f p c)) plugins.
Definition keystore_mounts (plugins : list RepositoryPluginConfig) : list VolumeMount :=
  plain_volume_mount "opensearch-keystore" "/mnt/keystore" ::
  with_credentials (fun p _ => read_only_mount (credentials_name p) ("/mnt/secrets/" +:+ pluginShortName (rp_Name p)))
    plugins.
Definition GetSecretVolumes (plugins : list RepositoryPluginConfig) : list Volume :=
  with_credentials (fun p c => {| vo_Name := credentials_name p; vo_Source := SecretVolume (rpc_Name c) [] |}) plugins.
Definition GetKeystoreVolume : Volume := {| vo_Name := "opensearch-keystore"; vo_Source := EmptyDir "10Mi" |}.
Definition GetPluginsVolumeMount : VolumeMount :=
  sub_path_mount VolumeNameIndexerData (PathIndexerBase +:+ "/plugins") "plugins".
Definition GetKeystoreVolumeMount : VolumeMount :=
  file_mount "opensearch-keystore" (PathIndexerBase +:+ "/config/opensearch.keystore") "opensearch.keystore".

(** The commands for one plugin; a file system has no credentials in the
    keystore. *)
Definition keystore_commands (p : RepositoryPluginConfig) (c : RepositoryPluginCredentials) : list string :=
  let client := or_default (rp_ClientName p) "default" in
  let path := "/mnt/secrets/" +:+ pluginShortName (rp_Name p) in
  let add key setting := "cat " +:+ path +:+ "/" +:+ getKeyOrDefault (rpc_Keys c) key key
    +:+ " | /usr/share/wazuh-indexer/bin/opensearch-keystore add -f " +:+ setting in
  let said what := shell ("echo `Adding " +:+ what +:+ " credentials for client '") +:+ client +:+ shell "'...`" in
  if bool_decide (rp_Name p = "repository-s3") then
    [lines [said "S3"; add "access-key" ("s3.client." +:+ client +:+ ".access_key");
            add "secret-key" ("s3.client." +:+ client +:+ ".secret_key")]]
  else if bool_decide (rp_Name p = "repository-gcs") then
    [lines [said "GCS"; "/usr/share/wazuh-indexer/bin/opensearch-keystore add-file -f gcs.client." +:+ client
            +:+ ".credentials_file " +:+ path +:+ "/"
            +:+ getKeyOrDefault (rpc_Keys c) "credentials-file" "credentials-file"]]
  else if bool_decide (rp_Name p = "repository-azure") then
    [lines [said "Azure"; add "account" ("azure.client." +:+ client +:+ ".account");
            add "key" ("azure.client." +:+ client +:+ ".key")]]
  else [].
Definition no_keystore_script : string := shell "echo `No keystore credentials to configure`
exit 0".
Definition buildKeystoreScript (plugins : list RepositoryPluginConfig) : string :=
  match concat (with_credentials keystore_commands plugins) with
  | [] => no_keystore_script
  | commands => shell "set -e
echo `Setting up OpenSearch keystore...`

# Fix sysconfig reference: Wazuh indexer opensearch-env sources /etc/sysconfig/wazuh-indexer
# which doesn't exist and can't be created (non-root). Replace reference with /dev/null.
sed -i 's|/etc/sysconfig/wazuh-indexer|/dev/null|g' /usr/share/wazuh-indexer/bin/opensearch-env 2>/dev/null || true

# Point keystore tool to our emptyDir volume
export OPENSEARCH_PATH_CONF=/mnt/keystore

# Create a fresh keystore (picks up Secret changes on every restart)
/usr/share/wazuh-indexer/bin/opensearch-keystore create

" +:+ lines commands +:+ shell "

echo `Keystore setup completed`
ls -la /mnt/keystore/opensearch.keystore 2>/dev/null || echo `No keystore file found`
"
  end.
Definition BuildKeystoreInitContainer (i : RepositoryPluginInstaller) : Container :=
  helper_container "setup-keystore" (in_IndexerImage i) "" ["sh"; "-c"] [buildKeystoreScript (in_Plugins i)]
    init_resources None [] (keystore_mounts (in_Plugins i)).

(** ** The exporter's plugin ([internal/monitoring/plugin.go]) *)

(** The plugin's version, over the table of versions in the order it is gone
    through. *)
Definition GetPrometheusExporterPluginVersionForWazuh (mapping : list (string * WazuhVersionInfo)) (v : string) : string :=
  match GetWazuhVersionInfo mapping v with
  | Ok info => vi_PrometheusExporterPluginVersion info
  | Err _ =>
      match GetWazuhVersionInfo mapping DefaultWazuhVersion with
      | Ok info => vi_PrometheusExporterPluginVersion info
      | Err _ => "2.19.1.0"
      end
  end.
Definition isIndexerExporterEnabled (monitoring : option MonitoringSpec) : option IndexerExporterSpec :=
  m ← monitoring;
  if negb (mo_Enabled m) then None
  else e ← mo_IndexerExporter m; if ie_Enabled e then Some e else None.

Definition prometheus_script (wazuhVersion pluginVersion : string) : string :=
  let url := "https://github.com/opensearch-project/opensearch-prometheus-exporter/releases/download/" +:+ pluginVersion
             +:+ "/prometheus-exporter-" +:+ pluginVersion +:+ ".zip" in
  shell "
set -e
# Install the OpenSearch Prometheus exporter plugin
# Wazuh Version: " +:+ wazuhVersion +:+ shell "
# Plugin Version: " +:+ pluginVersion +:+ shell "

TARGET_VERSION=`" +:+ pluginVersion +:+ shell "`
MARKER_FILE=`/mnt/plugins/.plugins-initialized`

echo `Preparing plugins directory...`

# Check if plugins are already initialized with the correct version
if [ -f `$MARKER_FILE` ]; then
    INSTALLED_VERSION=$(cat `$MARKER_FILE`)
    if [ `$INSTALLED_VERSION` = `$TARGET_VERSION` ]; then
        echo `Plugins already initialized with version $TARGET_VERSION`
        ls -la /mnt/plugins/ | head -25
        exit 0
    fi
    echo `Version mismatch: installed=$INSTALLED_VERSION, target=$TARGET_VERSION`
    echo `Cleaning plugins directory for upgrade...`
    rm -rf /mnt/plugins/*
fi

echo `Copying built-in plugins to persistent volume...`
# Copy all built-in plugins from the container image to persistent storage
cp -r /usr/share/wazuh-indexer/plugins/* /mnt/plugins/

echo `Installing Prometheus exporter plugin version " +:+ pluginVersion +:+ shell "...`
# Install the prometheus-exporter plugin to the container's plugin directory
/usr/share/wazuh-indexer/bin/opensearch-plugin install -b " +:+ url +:+ shell " || {
    echo `ERROR: Failed to install prometheus-exporter plugin, continuing anyway...`
}

# Copy the prometheus-exporter plugin if it was installed
if [ -d `/usr/share/wazuh-indexer/plugins/prometheus-exporter` ]; then
    echo `Copying prometheus-exporter plugin to persistent volume...`
    cp -r /usr/share/wazuh-indexer/plugins/prometheus-exporter /mnt/plugins/
    echo `Plugin copied successfully`
else
    echo `WARNING: prometheus-exporter plugin not found after installation`
fi

# Write the target version to marker file
echo `$TARGET_VERSION` > `$MARKER_FILE`
echo `Plugins initialization completed (version $TARGET_VERSION)`
ls -la /mnt/plugins/ | head -25
".

(** What the builder reads of the resource it is given. *)
Record IndexerCluster := {
  ic_Version : string;
  ic_Image : option ImageSpec;
  ic_RepositoryPlugins : list RepositoryPluginConfig;
  ic_Monitoring : option MonitoringSpec
}.
Definition BuildPluginInstallInitContainerFromSpec (mapping : list (string * WazuhVersionInfo)) (c : IndexerCluster)
    : list Container :=
  match isIndexerExporterEnabled (ic_Monitoring c) with
  | None => []
  | Some e =>
      let pluginVersion := or_default (ie_Version e) (GetPrometheusExporterPluginVersionForWazuh mapping (ic_Version c)) in
      [helper_container "install-prometheus-exporter" (plugin_image (ic_Version c) (ic_Image c)) "" ["sh"; "-c"]
         [prometheus_script (ic_Version c) pluginVersion] init_resources None
         [env_value "OPENSEARCH_PATH_CONF" PathIndexerBase] [plugins_mount]]
  end.
Definition GetPluginsVolumeMountFromSpec (c : IndexerCluster) : list VolumeMount :=
  match isIndexerExporterEnabled (ic_Monitoring c) with
  | None => []
  | Some _ => [GetPluginsVolumeMount]
  end.

(** ** The StatefulSets *)

Section Build.
Context {Q : Quantities} (mapping : list (string * WazuhVersionInfo)) (VMMaxMapCount : Z).

Inductive indexer_builder := IndexerStatefulSetBuilder | NodePoolStatefulSetBuilder (poolName : string).
Definition LabelNodePool : string := "wazuh.com/node-pool".
Definition pool_label (k : indexer_builder) (m : gmap string string) : gmap string string :=
  match k with
  | IndexerStatefulSetBuilder => m
  | NodePoolStatefulSetBuilder p => <[LabelNodePool := p]> m
  end.
Definition indexer_labels (k : indexer_builder) (b : Builder) : gmap string string :=
  bu_Labels b ∪ pool_label k (CommonLabels (bu_ClusterName b) "indexer" (bu_Version b)).
Definition indexer_selector (k : indexer_builder) (clusterName : string) : gmap string string :=
  pool_label k (SelectorLabels clusterName "indexer").

(** The StatefulSet, the service that governs it, and its ConfigMap. *)
Definition indexer_name (k : indexer_builder) (clusterName : string) : string :=
  match k with
  | IndexerStatefulSetBuilder => IndexerName clusterName
  | NodePoolStatefulSetBuilder p => IndexerNodePoolName clusterName p
  end.
Definition indexer_headless (k : indexer_builder) (clusterName : string) : string :=
  indexer_name k clusterName +:+ "-headless".
Definition indexer_config (k : indexer_builder) (clusterName : string) : string :=
  indexer_name k clusterName +:+ "-config".

Definition indexer_volumes (k : indexer_builder) (b : Builder) (c : IndexerCluster) : list Volume :=
  let n := bu_ClusterName b in
  [{| vo_Name := VolumeNameIndexerConfig; vo_Source := ConfigMapVolume (indexer_config k n) [] |};
   {| vo_Name := VolumeNameIndexerCerts; vo_Source := SecretVolume (IndexerCertsName n) [] |};
   {| vo_Name := VolumeNameAdminCerts; vo_Source := SecretVolume (n +:+ "-admin-certs") [] |};
   {| vo_Name := VolumeNameIndexerSecurity; vo_Source := SecretVolume (n +:+ "-indexer-security") [] |};
   {| vo_Name := VolumeNameConfigProcessed; vo_Source := EmptyDir "10Mi" |}] ++
  match NewFromCluster (ic_Version c) (ic_RepositoryPlugins c) (ic_Image c) with
  | None => []
  | Some i => GetSecretVolumes (in_Plugins i) ++ [GetKeystoreVolume]
  end ++ bu_Volumes b.

Definition indexer_mounts (b : Builder) (c : IndexerCluster) : list VolumeMount :=
  let monitoring := GetPluginsVolumeMountFromSpec c in
  [plain_volume_mount VolumeNameIndexerData PathIndexerData;
   file_mount VolumeNameConfigProcessed (IndexerConfigFilePath (bu_Version b)) "opensearch.yml";
   read_only_mount VolumeNameIndexerCerts (IndexerCertsDir (bu_Version b));
   read_only_mount VolumeNameAdminCerts (PathIndexerBase +:+ "/config/certs/admin");
   file_mount VolumeNameConfigProcessed (IndexerSecurityConfigDir (bu_Version b) +:+ "/internal_users.yml")
     "internal_users.yml";
   file_mount VolumeNameConfigProcessed (IndexerSecurityConfigDir (bu_Version b) +:+ "/roles_mapping.yml")
     "roles_mapping.yml"] ++ monitoring ++
  match NewFromCluster (ic_Version c) (ic_RepositoryPlugins c) (ic_Image c) with
  | None => []
  | Some _ => (match monitoring with [] => [GetPluginsVolumeMount] | _ => [] end) ++ [GetKeystoreVolumeMount]
  end ++ bu_VolumeMounts b.

Definition buildInitialMasterNodes (name : string) (replicas : Z) : string :=
  Join "," (map (fun i => name +:+ "-" +:+ pretty (Z.of_nat i)) (seq 0 (Z.to_nat replicas))).
Definition indexer_env (k : indexer_builder) (b : Builder) (javaOpts : string) : list EnvVar :=
  let n := bu_ClusterName b in
  [env_value "cluster.name" n; env_field "node.name" "metadata.name"] ++
  match k with
  | IndexerStatefulSetBuilder => [env_value "discovery.seed_hosts" (indexer_name k n)]
  | NodePoolStatefulSetBuilder _ => []
  end ++
  [env_value "OPENSEARCH_JAVA_OPTS" javaOpts; env_value "bootstrap.memory_lock" "false";
   env_value "network.host" "0.0.0.0";
   env_secret "OPENSEARCH_INITIAL_ADMIN_PASSWORD" (IndexerCredentialsName n) SecretKeyAdminPassword] ++
  match k with
  | IndexerStatefulSetBuilder =>
      [env_value "cluster.initial_master_nodes" (buildInitialMasterNodes (indexer_name k n) (bu_Replicas b))]
  | NodePoolStatefulSetBuilder _ => []
  end ++ bu_Env b.

Definition init_config_script : string := shell "
set -e
echo `Substituting environment variables in opensearch.yml...`
sed -e `s|\${NODE_NAME}|$NODE_NAME|g` \
    -e `s|\${CLUSTER_NAME}|$CLUSTER_NAME|g` \
    /tmp/config-template/opensearch.yml > /tmp/config/opensearch.yml

echo `Copying security configuration files...`
cp /tmp/security-template/*.yml /tmp/config/ 2>/dev/null || true

echo `Configuration files prepared`
ls -la /tmp/config/
".
Definition drop_all : Capabilities := {| ca_Add := []; ca_Drop := ["ALL"] |}.
(** A security context with the fields that the containers here set. *)
Definition restricted (escalation readOnly privileged : option bool) (user : option Z) (caps : option Capabilities)
    : SecurityContext :=
  {| sc_AllowPrivilegeEscalation := escalation; sc_Capabilities := caps; sc_RunAsUser := user; sc_RunAsGroup := None;
     sc_RunAsNonRoot := None; sc_ReadOnlyRootFilesystem := readOnly; sc_Privileged := privileged;
     sc_SeccompProfile := None; sc_SELinuxOptions := None; sc_Rest := "" |}.
Definition sysctl_command (k : indexer_builder) : list string :=
  match k with
  | IndexerStatefulSetBuilder => ["/bin/sh"; "-ec"; shell "CURRENT=$(sysctl -n vm.max_map_count)
DESIRED=`" +:+ pretty VMMaxMapCount +:+ shell "`
if [ `$DESIRED` -gt `$CURRENT` ]; then
  sysctl -w vm.max_map_count=$DESIRED
fi"]
  | NodePoolStatefulSetBuilder _ =>
      ["sh"; "-c"; "sysctl -w vm.max_map_count=262144 || echo 'sysctl failed - vm.max_map_count might need to be set on the host node'"]
  end.
Definition indexer_init_containers (k : indexer_builder) (b : Builder) (c : IndexerCluster) : list Container :=
  [helper_container "init-config" "busybox:stable" "" ["sh"; "-c"] [init_config_script] no_resources
     (Some (restricted (Some false) (Some false) None None (Some drop_all)))
     [env_field "NODE_NAME" "metadata.name"; env_value "CLUSTER_NAME" (bu_ClusterName b)]
     [read_only_mount VolumeNameIndexerConfig "/tmp/config-template";
      read_only_mount VolumeNameIndexerSecurity "/tmp/security-template";
      plain_volume_mount VolumeNameConfigProcessed "/tmp/config"];
   helper_container "volume-mount-hack" "busybox:stable" ""
     ["sh"; "-c"; "chown -R 1000:1000 " +:+ PathIndexerData +:+ " || true"] [] no_resources
     (Some (restricted None None None (Some 0) None)) []
     [plain_volume_mount VolumeNameIndexerData PathIndexerData];
   helper_container "increase-the-vm-max-map-count" "busybox:stable"
     (match k with IndexerStatefulSetBuilder => "IfNotPresent" | NodePoolStatefulSetBuilder _ => "" end)
     (sysctl_command k) [] no_resources
     (Some (restricted None None (Some true) (Some 0) (Some {| ca_Add := ["SYS_ADMIN"]; ca_Drop := [] |}))) [] []] ++
  BuildPluginInstallInitContainerFromSpec mapping c ++
  match NewFromCluster (ic_Version c) (ic_RepositoryPlugins c) (ic_Image c) with
  | None => []
  | Some i => [BuildInstallInitContainer i; BuildKeystoreInitContainer i]
  end.

Definition indexer_pod_security : PodSecurityContext :=
  {| psc_FSGroup := Some 1000; psc_RunAsUser := Some 1000; psc_RunAsGroup := None; psc_RunAsNonRoot := None;
     psc_SeccompProfile := Some "RuntimeDefault"; psc_SELinuxOptions := None; psc_Sysctls := [];
     psc_SupplementalGroups := []; psc_Rest := "" |}.
Definition indexer_security : SecurityContext := restricted (Some false) None None None (Some drop_all).

(** A node pool has no image policy and no security contexts of its own: its
    builder has no such fields. *)
Definition of_simple {A} (k : indexer_builder) (a : option A) : option A :=
  match k with
  | IndexerStatefulSetBuilder => a
  | NodePoolStatefulSetBuilder _ => None
  end.
Definition indexer_container (k : indexer_builder) (b : Builder) (c : IndexerCluster) (javaOpts : string) : Container :=
  {| co_Name := "opensearch";
     co_Image := or_default (bu_Image b) (DefaultWazuhIndexerImage +:+ ":" +:+ bu_Version b);
     co_ImagePullPolicy :=
       default "IfNotPresent" (of_simple k (Some (or_default (bu_ImagePullPolicy b) "IfNotPresent")));
     co_Command := []; co_Args := [];
     co_Resources := default (cpu_memory "500m" "1Gi" "1000m" "2Gi") (bu_Resources b);
     co_SecurityContext := Some (merge_security indexer_security (of_simple k (bu_ContainerSecurityContext b)));
     co_Ports := [container_port "rest" 9200; container_port "transport" 9300; container_port "metrics" 9600];
     co_Env := indexer_env k b javaOpts;
     co_EnvFrom := bu_EnvFrom b;
     co_VolumeMounts := indexer_mounts b c;
     co_LivenessProbe := Some (probe (TCPSocket 9200) 120 30 5 5);
     co_ReadinessProbe := Some (probe (TCPSocket 9200) 60 10 5 3);
     co_StartupProbe := None;
     co_Rest := "" |}.

Definition indexer_pod (k : indexer_builder) (b : Builder) (c : IndexerCluster) (javaOpts : string) : PodSpec :=
  pod_spec b (merge_pod_security indexer_pod_security (of_simple k (bu_SecurityContext b)))
    (indexer_init_containers k b c) (indexer_container k b c javaOpts :: bu_ExtraContainers b) (indexer_volumes k b c).
Definition BuildIndexer (k : indexer_builder) (b : Builder) (c : IndexerCluster) (javaOpts : string)
    : outcome StatefulSetObject :=
  let n := bu_ClusterName b in
  stateful_set b (indexer_name k n) (indexer_headless k n) VolumeNameIndexerData (indexer_labels k b)
    (indexer_selector k n) (indexer_pod k b c javaOpts).
(** [NodePoolStatefulSetBuilder.Build] *)
Definition BuildNodePool (poolName : string) : Builder -> IndexerCluster -> string -> outcome StatefulSetObject :=
  BuildIndexer (NodePoolStatefulSetBuilder poolName).

(** ** What the reconciler tells the builder *)

Record IndexerSpec := {
  xs_Pods : PodSettings;
  xs_JavaOpts : string;
  xs_RepositoryPlugins : list RepositoryPluginConfig
}.
Context (meta : ClusterMeta) (monitoring : option MonitoringSpec) (indexer : option IndexerSpec).

Definition indexer_settings : PodSettings := default no_settings (xs_Pods <$> indexer).
Definition indexer_cluster : IndexerCluster :=
  {| ic_Version := cm_Version meta; ic_Image := st_Image indexer_settings;
     ic_RepositoryPlugins := default [] (xs_RepositoryPlugins <$> indexer); ic_Monitoring := monitoring |}.
Definition indexer_replicas : Z :=
  if bool_decide (0 < st_Replicas indexer_settings) then st_Replicas indexer_settings else 3.
Definition indexer_java_opts : string := or_default (default "" (xs_JavaOpts <$> indexer)) DefaultIndexerJavaOpts.
Definition indexer_image : string :=
  match st_Image indexer_settings with
  | None => ""
  | Some i => ResolveImage i DefaultWazuhIndexerImage (cm_Version meta)
  end.
Definition indexer_pull_policy : string := default "" (im_PullPolicy <$> st_Image indexer_settings).
Definition indexer_affinity : option Affinity :=
  with_anti_affinity (BuildIndexerAntiAffinity (cm_Name meta)) (st_AntiAffinity indexer_settings)
    (st_Affinity indexer_settings).
(** Without an indexer in the resource, its class is not looked at either. *)
Definition indexer_class : option string :=
  match indexer with
  | None => None
  | Some _ => storage_class (st_StorageClass indexer_settings) (cm_StorageClassName meta)
  end.

Definition indexer_builder_of (h : hashes) : Builder :=
  let s := indexer_settings in
  {| bu_Namespace := cm_Namespace meta;
     bu_ClusterName := cm_Name meta;
     bu_Version := or_default (cm_Version meta) DefaultWazuhVersion;
     bu_Replicas := indexer_replicas;
     bu_StorageSize := or_default (st_StorageSize s) "10Gi";
     bu_StorageClassName := indexer_class;
     bu_Resources := st_Resources s;
     bu_Image := indexer_image;
     bu_NodeSelector := st_NodeSelector s;
     bu_Tolerations := st_Tolerations s;
     bu_Affinity := indexer_affinity;
     bu_ImagePullSecrets := cm_ImagePullSecrets meta;
     bu_TopologySpreadConstraints := st_TopologySpreadConstraints s;
     bu_Labels := ∅;
     bu_Annotations := set_hash AnnotationSpecHash (h_Spec h) (st_Annotations s);
     bu_PodAnnotations := built_pod_annotations (Some (st_PodAnnotations s)) h;
     bu_Env := st_Env s;
     bu_EnvFrom := st_EnvFrom s;
     bu_Volumes := st_ExtraVolumes s;
     bu_VolumeMounts := st_ExtraVolumeMounts s;
     bu_ExtraInitContainers := st_ExtraInitContainers s;
     bu_ExtraContainers := st_ExtraContainers s;
     bu_TerminationGracePeriodSeconds := Some (default 120 (st_TerminationGracePeriodSeconds s));
     bu_ServiceAccountName := ResolveServiceAccountName (st_ServiceAccount s) (cm_Name meta) "indexer";
     bu_ImagePullPolicy := indexer_pull_policy;
     bu_SecurityContext := st_SecurityContext s;
     bu_ContainerSecurityContext := st_ContainerSecurityContext s;
     bu_UpdateStrategy := st_UpdateStrategy s |}.

Definition toIndexerExporterHashInput : option IndexerExporterSpec :=
  m ← monitoring; if negb (mo_Enabled m) then None else mo_IndexerExporter m.
Definition plugin_hash (p : RepositoryPluginConfig) : RepositoryPluginHashInput :=
  {| rh_Name := rp_Name p; rh_ClientName := rp_ClientName p;
     rh_CredentialsSecret := default "" (rpc_Name <$> rp_CredentialsSecret p) |}.

Definition indexer_spec_input : SpecInput :=
  let s := indexer_settings in
  {| si_Replicas := indexer_replicas;
     si_Version := cm_Version meta;
     si_Resources := st_Resources s;
     si_StorageSize := or_default (st_StorageSize s) "10Gi";
     si_JavaOpts := indexer_java_opts;
     si_Image := indexer_image;
     si_NodeSelector := st_NodeSelector s;
     si_Tolerations := st_Tolerations s;
     si_Affinity := indexer_affinity;
     si_ImagePullSecrets := cm_ImagePullSecrets meta;
     si_TopologySpreadConstraints := st_TopologySpreadConstraints s;
     si_Env := st_Env s;
     si_EnvFrom := st_EnvFrom s;
     si_Annotations := st_Annotations s;
     si_PodAnnotations := st_PodAnnotations s;
     si_ExtraConfig := "";
     si_ExtraVolumes := st_ExtraVolumes s;
     si_ExtraVolumeMounts := st_ExtraVolumeMounts s;
     si_ExtraInitContainers := st_ExtraInitContainers s;
     si_ExtraContainers := st_ExtraContainers s;
     si_IndexerExporter := toIndexerExporterHashInput;
     si_WazuhExporter := None;
     si_RepositoryPlugins := map plugin_hash (ic_RepositoryPlugins indexer_cluster);
     si_ServiceAccountName := ResolveServiceAccountName (st_ServiceAccount s) (cm_Name meta) "indexer";
     si_SecurityContext := st_SecurityContext s;
     si_ContainerSecurityContext := st_ContainerSecurityContext s;
     si_TerminationGracePeriodSeconds := st_TerminationGracePeriodSeconds s;
     si_ImagePullPolicy := indexer_pull_policy;
     si_UpdateStrategy := st_UpdateStrategy s;
     si_EnableSSL := false |}.

Definition indexer_statefulset (h : hashes) : outcome StatefulSetObject :=
  BuildIndexer IndexerStatefulSetBuilder (indexer_builder_of h) indexer_cluster indexer_java_opts.
End Build.
