(* ===== verification/DashboardPods.v ===== *)
(** * The pods of the dashboard

    [internal/opensearch/builder/deployments/dashboard.go] and what
    [reconcileDeploymentNonBlocking] of
    [internal/opensearch/reconciler/dashboard_reconciler.go] tells the builder and
    puts into the hash of the specification. *)
From S2P Require Import Prelude GoStrings IndexerDrain Cluster ClientFactory ClusterStatus Workload SecuritySync Pods.
From S2P Require Import OssecConf ManagerPods IndexerPods.
Local Open Scope string_scope.
Local Open Scope list_scope.

Definition VolumeNameDashboardConfig : string := "dashboard-config".
Definition VolumeNameDashboardConfigProcessed : string := "dashboard-config-processed".
Definition VolumeNameDashboardCerts : string := "dashboard-certs".
Definition VolumeNameWazuhAppConfigScript : string := "wazuh-app-config-script".
Definition VolumeNameWazuhConfig : string := "wazuh-config".
Definition PathDashboardConfig : string := "/usr/share/wazuh-dashboard/config".
Definition DefaultWazuhDashboardImage : string := "wazuh/wazuh-dashboard".
Definition DashboardConfigName (c : string) : string := c +:+ "-dashboard-config".
Definition DashboardCertsName (c : string) : string := c +:+ "-dashboard-certs".
Definition DashboardWazuhConfigSecretName (c : string) : string := c +:+ "-dashboard-wazuh-config".

Section Build.
Context (clusterDomain : string).

Definition dashboard_labels (b : Builder) : gmap string string :=
  bu_Labels b ∪ CommonLabels (bu_ClusterName b) "dashboard" (bu_Version b).
Definition dashboard_selector (clusterName : string) : gmap string string := SelectorLabels clusterName "dashboard".

Definition dashboard_volumes (b : Builder) : list Volume :=
  let c := bu_ClusterName b in
  [{| vo_Name := VolumeNameDashboardConfig; vo_Source := ConfigMapVolume (DashboardConfigName c) [] |};
   {| vo_Name := VolumeNameDashboardConfigProcessed; vo_Source := EmptyDir "10Mi" |};
   {| vo_Name := VolumeNameDashboardCerts;
      vo_Source := ProjectedSecrets
        [(DashboardCertsName c, [key_path "tls.crt" "dashboard.pem"; key_path "tls.key" "dashboard-key.pem"]);
         (IndexerCertsName c, [key_path SecretKeyCACert "root-ca.pem"])] |};
   {| vo_Name := VolumeNameWazuhAppConfigScript;
      vo_Source := ConfigMapVolume (DashboardConfigName c)
        [{| kp_Key := "wazuh_app_config.sh"; kp_Path := "wazuh_app_config.sh"; kp_Mode := Some 493 |}] |};
   {| vo_Name := VolumeNameWazuhConfig;
      vo_Source := SecretVolume (DashboardWazuhConfigSecretName c) [key_path "wazuh.yml" "wazuh.yml"] |}] ++
  bu_Volumes b.
Definition dashboard_mounts (b : Builder) : list VolumeMount :=
  [sub_path_mount VolumeNameDashboardConfigProcessed (PathDashboardConfig +:+ "/opensearch_dashboards.yml")
     "opensearch_dashboards.yml";
   read_only_mount VolumeNameDashboardCerts (PathDashboardConfig +:+ "/certs");
   file_mount VolumeNameWazuhAppConfigScript "/wazuh_app_config.sh" "wazuh_app_config.sh";
   file_mount VolumeNameWazuhConfig (PathDashboardConfig +:+ "/wazuh.yml") "wazuh.yml"] ++ bu_VolumeMounts b.

Definition dashboard_env (b : Builder) (wazuhPlugin : bool) : list EnvVar :=
  let c := bu_ClusterName b in
  let admin name := env_secret name (IndexerCredentialsName c) in
  [env_value "OPENSEARCH_HOSTS" ("https://" +:+ IndexerServiceFQDN clusterDomain c (bu_Namespace b) +:+ ":9200");
   env_value "SERVER_SSL_ENABLED" "true";
   env_value "SERVER_SSL_CERTIFICATE" (PathDashboardConfig +:+ "/certs/dashboard.pem");
   env_value "SERVER_SSL_KEY" (PathDashboardConfig +:+ "/certs/dashboard-key.pem");
   env_value "OPENSEARCH_SSL_CERTIFICATEAUTHORITIES" (PathDashboardConfig +:+ "/certs/root-ca.pem");
   admin "DASHBOARD_USERNAME" SecretKeyAdminUsername; admin "DASHBOARD_PASSWORD" SecretKeyAdminPassword;
   admin "INDEXER_USERNAME" SecretKeyAdminUsername; admin "INDEXER_PASSWORD" SecretKeyAdminPassword] ++
  (if wazuhPlugin then
     [env_value "WAZUH_API_URL"
        ("https://" +:+ ServiceFQDN clusterDomain (ManagerMasterName c) (bu_Namespace b));
      env_secret "API_USERNAME" (APICredentialsName c) SecretKeyAPIUsername;
      env_secret "API_PASSWORD" (APICredentialsName c) SecretKeyAPIPassword]
   else []) ++ bu_Env b.

Definition dashboard_pod_security : PodSecurityContext :=
  {| psc_FSGroup := Some 1000; psc_RunAsUser := Some 1000; psc_RunAsGroup := None; psc_RunAsNonRoot := Some true;
     psc_SeccompProfile := Some "RuntimeDefault"; psc_SELinuxOptions := None; psc_Sysctls := [];
     psc_SupplementalGroups := []; psc_Rest := "" |}.
Definition dashboard_security : SecurityContext := restricted (Some true) None None None None.

Definition config_processor (b : Builder) (wazuhPlugin : bool) : Container :=
  helper_container "config-processor" "busybox:stable" ""
    ["sh"; "-c"; shell "sed `s/\${INDEXER_USERNAME}/$INDEXER_USERNAME/g; s/\${INDEXER_PASSWORD}/$INDEXER_PASSWORD/g` /config-template/opensearch_dashboards.yml > /config-processed/opensearch_dashboards.yml"]
    [] no_resources (Some (restricted (Some false) (Some true) None None (Some drop_all))) (dashboard_env b wazuhPlugin)
    [read_only_mount VolumeNameDashboardConfig "/config-template";
     plain_volume_mount VolumeNameDashboardConfigProcessed "/config-processed"].

Definition login_page (enableSSL : bool) : ProbeHandler := HTTPGet "/app/login" 5601 (if enableSSL then "HTTPS" else "HTTP").
Definition dashboard_container (b : Builder) (wazuhPlugin enableSSL : bool) : Container :=
  {| co_Name := "dashboard";
     co_Image := or_default (bu_Image b)
       ((if wazuhPlugin then "wazuh/wazuh-dashboard:" else "opensearchproject/opensearch-dashboards:") +:+ bu_Version b);
     co_ImagePullPolicy := or_default (bu_ImagePullPolicy b) "IfNotPresent";
     co_Command := []; co_Args := [];
     co_Resources := default (cpu_memory "250m" "512Mi" "500m" "1Gi") (bu_Resources b);
     co_SecurityContext := Some (merge_security dashboard_security (bu_ContainerSecurityContext b));
     co_Ports := [container_port "http" 5601];
     co_Env := dashboard_env b wazuhPlugin;
     co_EnvFrom := bu_EnvFrom b;
     co_VolumeMounts := dashboard_mounts b;
     co_LivenessProbe := Some (probe (login_page enableSSL) 60 30 5 3);
     co_ReadinessProbe := Some (probe (login_page enableSSL) 30 10 5 3);
     co_StartupProbe := None;
     co_Rest := "" |}.
Definition dashboard_pod (b : Builder) (wazuhPlugin enableSSL : bool) : PodSpec :=
  pod_spec b (merge_pod_security dashboard_pod_security (bu_SecurityContext b)) [config_processor b wazuhPlugin]
    (dashboard_container b wazuhPlugin enableSSL :: bu_ExtraContainers b) (dashboard_volumes b).

Definition BuildDashboard (b : Builder) (wazuhPlugin enableSSL : bool) : DeploymentObject :=
  {| do_Name := DashboardName (bu_ClusterName b); do_Namespace := bu_Namespace b; do_Labels := dashboard_labels b;
     do_Annotations := bu_Annotations b; do_Replicas := bu_Replicas b; do_MaxUnavailable := 0; do_MaxSurge := 1;
     do_Selector := dashboard_selector (bu_ClusterName b);
     do_Template := {| te_Labels := dashboard_labels b; te_Annotations := bu_PodAnnotations b;
                       te_Spec := dashboard_pod b wazuhPlugin enableSSL |} |}.

(** ** What the reconciler tells the builder *)

Record DashboardSpec := { ds_Pods : PodSettings; ds_EnableSSL : bool }.
Context (meta : ClusterMeta) (dashboard : option DashboardSpec).

Definition dashboard_settings : PodSettings := default no_settings (ds_Pods <$> dashboard).
Definition dashboard_ssl : bool := default true (ds_EnableSSL <$> dashboard).
Definition dashboard_image : string :=
  match st_Image dashboard_settings with
  | None => ""
  | Some i => ResolveImage i DefaultWazuhDashboardImage (cm_Version meta)
  end.
Definition dashboard_pull_policy : string := default "" (im_PullPolicy <$> st_Image dashboard_settings).

(** The builder has no storage: the size and class of its pods are not read. *)
Definition dashboard_builder (h : hashes) : Builder :=
  let s := dashboard_settings in
  {| bu_Namespace := cm_Namespace meta;
     bu_ClusterName := cm_Name meta;
     bu_Version := or_default (cm_Version meta) DefaultWazuhVersion;
     bu_Replicas := if bool_decide (0 < st_Replicas s) then st_Replicas s else 1;
     bu_StorageSize := "";
     bu_StorageClassName := None;
     bu_Resources := st_Resources s;
     bu_Image := dashboard_image;
     bu_NodeSelector := st_NodeSelector s;
     bu_Tolerations := st_Tolerations s;
     bu_Affinity := st_Affinity s;
     bu_ImagePullSecrets := cm_ImagePullSecrets meta;
     bu_TopologySpreadConstraints := st_TopologySpreadConstraints s;
     bu_Labels := ∅;
     bu_Annotations := set_hash AnnotationSpecHash (h_Spec h) (st_Annotations s);
     bu_PodAnnotations := built_pod_annotations (Some (st_PodAnnotations s)) h;
     bu_Env := st_Env s;
     bu_EnvFrom := st_EnvFrom s;
     bu_Volumes := st_ExtraVolumes s;
     bu_VolumeMounts := st_ExtraVolumeMounts s;
     bu_ExtraInitContainers := st_ExtraInitContainers s;
     bu_ExtraContainers := st_ExtraContainers s;
     bu_TerminationGracePeriodSeconds := Some (default 30 (st_TerminationGracePeriodSeconds s));
     bu_ServiceAccountName := ResolveServiceAccountName (st_ServiceAccount s) (cm_Name meta) "dashboard";
     bu_ImagePullPolicy := dashboard_pull_policy;
     bu_SecurityContext := st_SecurityContext s;
     bu_ContainerSecurityContext := st_ContainerSecurityContext s;
     bu_UpdateStrategy := "" |}.

Definition dashboard_spec_input : SpecInput :=
  let s := dashboard_settings in
  {| si_Replicas := st_Replicas s;
     si_Version := cm_Version meta;
     si_Resources := st_Resources s;
     si_StorageSize := "";
     si_JavaOpts := "";
     si_Image := dashboard_image;
     si_NodeSelector := st_NodeSelector s;
     si_Tolerations := st_Tolerations s;
     si_Affinity := st_Affinity s;
     si_ImagePullSecrets := cm_ImagePullSecrets meta;
     si_TopologySpreadConstraints := st_TopologySpreadConstraints s;
     si_Env := st_Env s;
     si_EnvFrom := st_EnvFrom s;
     si_Annotations := st_Annotations s;
     si_PodAnnotations := st_PodAnnotations s;
     si_ExtraConfig := "";
     si_ExtraVolumes := st_ExtraVolumes s;
     si_ExtraVolumeMounts := st_ExtraVolumeMounts s;
     si_ExtraInitContainers := st_ExtraInitContainers s;
     si_ExtraContainers := st_ExtraContainers s;
     si_IndexerExporter := None;
     si_WazuhExporter := None;
     si_RepositoryPlugins := [];
     si_ServiceAccountName := ResolveServiceAccountName (st_ServiceAccount s) (cm_Name meta) "dashboard";
     si_SecurityContext := st_SecurityContext s;
     si_ContainerSecurityContext := st_ContainerSecurityContext s;
     si_TerminationGracePeriodSeconds := st_TerminationGracePeriodSeconds s;
     si_ImagePullPolicy := dashboard_pull_policy;
     si_UpdateStrategy := "";
     si_EnableSSL := dashboard_ssl |}.

Definition dashboard_deployment (h : hashes) : DeploymentObject :=
  BuildDashboard (dashboard_builder h) true dashboard_ssl.
End Build.
