(* ===== verification/SpecChanges.v ===== *)
(** * Which changes of the resource reach the pods

    The reconcilers update a workload when the hash of its specification, of its
    configuration or of its certificates differs from the one in its
    annotations ([Workload]).  The inputs of the first hash are in
    [ManagerPods], [IndexerPods] and [DashboardPods], next to the pods that are
    built; here is when the hash sees everything that goes into the pods, what
    it misses, and what it sees that does not go in. *)
From S2P Require Import Prelude GoStrings Kube IndexerDrain Cluster ClientFactory Workload Versions SecuritySync Pods.
From S2P Require Import OssecConf ManagerPods PodChecks IndexerPods DashboardPods.
Local Open Scope string_scope.
Local Open Scope list_scope.

(** ** The hashes of a workload that stays as it is *)

Definition all_set (h : hashes) : Prop := h_Cert h <> "" /\ h_Config h <> "" /\ h_Spec h <> "".
(** The annotations have the hashes, the ones of rules and decoders included. *)
Definition carries_all (h : hashes) (m pods : annotations) : Prop :=
  carries h m pods /\ lookup_str pods AnnotationRuleHash = h_Rule h /\ lookup_str pods AnnotationDecoderHash = h_Decoder h.

Lemma hash_unchanged hash old m key :
  hash <> "" -> old <> "" -> (old <> "" -> lookup_str m key = old) -> hash_changed hash m key = false -> hash = old.
Proof.
  unfold hash_changed. intros H1 H2 Hm. rewrite Hm by done. rewrite bool_decide_false by done. cbn.
  by intros ->%negb_false_iff%bool_decide_eq_true.
Qed.

Section Hashes.
Context {V : Type} (deep_equal : V -> V -> bool) (h h' : hashes) (m : annotations) (found desired : PodTemplate V).
Hypothesis Hset : all_set h.
Hypothesis Hset' : all_set h'.

Lemma same_hashes : carries h m (pt_Annotations found) ->
  hash_changed (h_Cert h') (pt_Annotations found) AnnotationCertHash = false ->
  hash_changed (h_Config h') (pt_Annotations found) AnnotationConfigHash = false ->
  hash_changed (h_Spec h') m AnnotationSpecHash = false ->
  h_Cert h' = h_Cert h /\ h_Config h' = h_Config h /\ h_Spec h' = h_Spec h.
Proof.
  intros (Hs & Hc & Hg) H1 H2 H3. destruct Hset as (? & ? & ?), Hset' as (? & ? & ?).
  split_and!; by eapply hash_unchanged.
Qed.

Lemma manager_unchanged : carries_all h m (pt_Annotations found) ->
  (manager_changes deep_equal h' m found desired).1 = false -> h' = h.
Proof.
  intros (Hc & Hr & Hd). rewrite manager_changes_joined. intros H%joined_none. unfold manager_change_list in H.
  rewrite !Forall_cons in H. cbn in H. destruct H as (H1 & H2 & H3 & _ & _ & H6 & H7 & _).
  apply negb_false_iff, bool_decide_eq_true in H6, H7.
  destruct (same_hashes Hc H1 H2 H3) as (E1 & E2 & E3). destruct h, h'; cbn in *; congruence.
Qed.

Lemma indexer_unchanged : carries h m (pt_Annotations found) ->
  h_Rule h = h_Rule h' -> h_Decoder h = h_Decoder h' ->
  (indexer_changes deep_equal h' m found desired).1 = false -> h' = h.
Proof.
  intros Hc Hr Hd. rewrite indexer_changes_joined. intros H%joined_none. unfold indexer_change_list in H.
  rewrite !Forall_cons in H. cbn in H. destruct H as (H1 & _ & _ & H2 & H3 & _).
  destruct (same_hashes Hc H2 H3 H1) as (E1 & E2 & E3). destruct h, h'; cbn in *; congruence.
Qed.
End Hashes.

(** ** The inputs determine the pods *)

Section Determined.
Context (clusterDomain : string) {Q : Quantities}.

(** Two states of one resource. *)
Definition same_resource (a b : ClusterMeta) : Prop := cm_Name a = cm_Name b /\ cm_Namespace a = cm_Namespace b.

(** The fields of two equal inputs. *)
Ltac same_inputs H :=
  pose proof (f_equal si_Replicas H); pose proof (f_equal si_Version H); pose proof (f_equal si_Resources H);
  pose proof (f_equal si_StorageSize H); pose proof (f_equal si_JavaOpts H); pose proof (f_equal si_Image H);
  pose proof (f_equal si_NodeSelector H); pose proof (f_equal si_Tolerations H); pose proof (f_equal si_Affinity H);
  pose proof (f_equal si_ImagePullSecrets H); pose proof (f_equal si_TopologySpreadConstraints H);
  pose proof (f_equal si_Env H); pose proof (f_equal si_EnvFrom H); pose proof (f_equal si_Annotations H);
  pose proof (f_equal si_PodAnnotations H); pose proof (f_equal si_ExtraVolumes H);
  pose proof (f_equal si_ExtraVolumeMounts H); pose proof (f_equal si_ExtraInitContainers H);
  pose proof (f_equal si_ExtraContainers H); pose proof (f_equal si_IndexerExporter H);
  pose proof (f_equal si_WazuhExporter H); pose proof (f_equal si_RepositoryPlugins H);
  pose proof (f_equal si_ServiceAccountName H); pose proof (f_equal si_SecurityContext H);
  pose proof (f_equal si_ContainerSecurityContext H); pose proof (f_equal si_TerminationGracePeriodSeconds H);
  pose proof (f_equal si_ImagePullPolicy H); pose proof (f_equal si_UpdateStrategy H);
  pose proof (f_equal si_EnableSSL H); clear H; cbn in *.

(** Both sides are built from these fields. *)
Ltac by_inputs := repeat match goal with H : @eq _ _ _ |- _ => try rewrite H; clear H end; reflexivity.

Lemma exporter_enabled mon :
  isWazuhExporterEnabled mon = (e ← toWazuhExporterHashInput mon; if we_Enabled e then Some e else None).
Proof. by destruct mon as [[[] [] ?]|]. Qed.
Lemma plugin_enabled mon :
  isIndexerExporterEnabled mon = (e ← toIndexerExporterHashInput mon; if ie_Enabled e then Some e else None).
Proof. by destruct mon as [[[] ? []]|]. Qed.

Lemma build_manager_monitoring k b mon mon' rules decoders :
  isWazuhExporterEnabled mon = isWazuhExporterEnabled mon' ->
  BuildManager clusterDomain k b mon rules decoders = BuildManager clusterDomain k b mon' rules decoders.
Proof. intros H. unfold BuildManager, manager_pod, BuildExporterSidecar. by rewrite H. Qed.

Lemma master_determined (me me' : ClusterMeta) mon mon' ma ma' h rules decoders :
  same_resource me me' ->
  storage_class (st_StorageClass (master_settings ma)) (cm_StorageClassName me) =
    storage_class (st_StorageClass (master_settings ma')) (cm_StorageClassName me') ->
  master_spec_input me mon ma = master_spec_input me' mon' ma' ->
  master_statefulset clusterDomain me mon ma h rules decoders =
    master_statefulset clusterDomain me' mon' ma' h rules decoders.
Proof.
  intros [Hn Hns] Hsc Hi. same_inputs Hi. unfold master_statefulset.
  rewrite (build_manager_monitoring _ _ mon mon') by (rewrite !exporter_enabled; by_inputs).
  f_equal. unfold master_builder, manager_pods. rewrite Hn, Hns in *. by_inputs.
Qed.

(** The workers' input has no injected volume. *)
Lemma worker_determined (me me' : ClusterMeta) ma ma' h rules decoders :
  same_resource me me' ->
  storage_class (st_StorageClass (worker_settings ma)) (cm_StorageClassName me) =
    storage_class (st_StorageClass (worker_settings ma')) (cm_StorageClassName me') ->
  authdPasswordSecretRef (ma_Config <$> ma) = authdPasswordSecretRef (ma_Config <$> ma') ->
  worker_spec_input me ma = worker_spec_input me' ma' ->
  worker_statefulset clusterDomain me ma h rules decoders =
    worker_statefulset clusterDomain me' ma' h rules decoders.
Proof.
  intros [Hn Hns] Hsc Hr Hi. same_inputs Hi. unfold worker_statefulset.
  f_equal. unfold worker_builder, manager_pods, injected, injectAuthdPasswordSecretMount.
  rewrite Hn, Hns in *. by_inputs.
Qed.

Lemma dashboard_determined (me me' : ClusterMeta) da da' h :
  same_resource me me' ->
  dashboard_spec_input me da = dashboard_spec_input me' da' ->
  dashboard_deployment clusterDomain me da h = dashboard_deployment clusterDomain me' da' h.
Proof.
  intros [Hn Hns] Hi. same_inputs Hi. unfold dashboard_deployment.
  f_equal; [|by_inputs]. unfold dashboard_builder. rewrite Hn, Hns in *. by_inputs.
Qed.

Definition plugin_keys (p : RepositoryPluginConfig) : option (gmap string string) := rpc_Keys <$> rp_CredentialsSecret p.

Lemma plugins_determined (l l' : list RepositoryPluginConfig) :
  map plugin_keys l = map plugin_keys l' -> map plugin_hash l = map plugin_hash l' -> l = l'.
Proof.
  revert l'. induction l as [|[n c s] l IH]; intros [|[n' c' s'] l'] Hk Hh; [done..|].
  injection Hk as Hk Hks. injection Hh as ??? Hhs. f_equal; [|by apply IH].
  destruct s as [[]|], s' as [[]|]; cbn in *; congruence.
Qed.

Lemma build_indexer_cluster mapping vm k b c c' opts :
  ic_Version c = ic_Version c' -> ic_RepositoryPlugins c = ic_RepositoryPlugins c' ->
  plugin_image (ic_Version c) (ic_Image c) = plugin_image (ic_Version c') (ic_Image c') ->
  isIndexerExporterEnabled (ic_Monitoring c) = isIndexerExporterEnabled (ic_Monitoring c') ->
  BuildIndexer mapping vm k b c opts = BuildIndexer mapping vm k b c' opts.
Proof.
  intros Hv Hp Hi Hm. unfold BuildIndexer, indexer_pod, indexer_container, indexer_mounts, indexer_volumes,
    indexer_init_containers, BuildPluginInstallInitContainerFromSpec, GetPluginsVolumeMountFromSpec, NewFromCluster.
  by rewrite Hp, Hi, Hm, Hv.
Qed.

Lemma indexer_determined mapping vm (me me' : ClusterMeta) mon mon' ix ix' h :
  same_resource me me' ->
  indexer_class me ix = indexer_class me' ix' ->
  map plugin_keys (ic_RepositoryPlugins (indexer_cluster me mon ix)) =
    map plugin_keys (ic_RepositoryPlugins (indexer_cluster me' mon' ix')) ->
  plugin_image (cm_Version me) (st_Image (indexer_settings ix)) =
    plugin_image (cm_Version me') (st_Image (indexer_settings ix')) ->
  indexer_spec_input me mon ix = indexer_spec_input me' mon' ix' ->
  indexer_statefulset mapping vm me mon ix h = indexer_statefulset mapping vm me' mon' ix' h.
Proof.
  intros [Hn Hns] Hsc Hk Him Hi. same_inputs Hi. unfold indexer_statefulset.
  rewrite (build_indexer_cluster _ _ _ _ (indexer_cluster me mon ix) (indexer_cluster me' mon' ix')); cbn [ic_Version
    ic_Image ic_Monitoring ic_RepositoryPlugins indexer_cluster].
  - f_equal; [|by_inputs]. unfold indexer_builder_of. rewrite Hn, Hns in *. by_inputs.
  - by_inputs.
  - by apply plugins_determined.
  - exact Him.
  - rewrite !plugin_enabled. by_inputs.
Qed.
End Determined.

(** ** No change is missed *)

Section Noticed.
Context (clusterDomain : string) {Q : Quantities} (mapping : list (string * WazuhVersionInfo)) (vm : Z).
Context (canonical_json : SpecInput -> result string) (sha256_hex : string -> string).
Let hash_of := spec_hash canonical_json sha256_hex.

(** The 64 bits of the hash tell these two inputs apart. *)
Definition distinguishes (i i' : SpecInput) : Prop := hash_of i = hash_of i' -> i = i'.

Context {V : Type} (deep_equal : V -> V -> bool) (m : annotations) (found desired : PodTemplate V).
Context (me me' : ClusterMeta) (mon mon' : option MonitoringSpec) (h h' : hashes).

End Noticed.

(** ** What the hash misses *)

Section Missed.
Context (clusterDomain : string) {Q : Quantities}.

(** Two managers that differ in nothing but the reference of the resource to
    the secret with the enrolment password. *)
Definition other_authd_secret (a b : ManagerSpec) : Prop :=
  ma_Workers a = ma_Workers b /\ ma_WorkerReplicas a = ma_WorkerReplicas b /\ ma_Image a = ma_Image b /\
  ma_AntiAffinity a = ma_AntiAffinity b /\ mc_Config (ma_Config a) = mc_Config (ma_Config b) /\
  at_PasswordSecretRef (WazuhConfigFromSpec (mc_Config (ma_Config a))).2 = None.
(** The user has no volume or mount in the place of the injected ones. *)
Definition no_own_secret (volumes : list Volume) (mounts : list VolumeMount) : Prop :=
  Forall (fun v => vo_Name v <> "wazuh-authd-password") volumes /\
  Forall (fun v => vm_MountPath v <> "/var/ossec/etc/authd.pass" /\ vm_Name v <> "wazuh-authd-password") mounts.

Lemma injected_volumes config volumes mounts secret key :
  no_own_secret volumes mounts -> authdPasswordSecretRef config = Some (secret, key) ->
  (injectAuthdPasswordSecretMount config volumes mounts).1 =
    volumes ++ [{| vo_Name := "wazuh-authd-password"; vo_Source := SecretVolume secret [key_path key "authd.pass"] |}].
Proof.
  intros [Hv Hm] E. unfold injectAuthdPasswordSecretMount. rewrite E.
  rewrite (proj2 (existsb_none _ volumes)), (proj2 (existsb_none _ mounts)); [done|..].
  - eapply Forall_impl; [exact Hm|]. intros v [H1 H2]. cbn. by rewrite bool_decide_false, (bool_decide_false (vm_Name v = _)) by done.
  - eapply Forall_impl; [exact Hv|]. intros v H1. by apply bool_decide_false.
Qed.

Lemma worker_conf_same name ns extra (a b : ManagerSpec) {W} `{!KubeClient W} (w : W) :
  other_authd_secret a b ->
  is_Some (mc_AuthdPasswordSecretRef (ma_Config a)) -> is_Some (mc_AuthdPasswordSecretRef (ma_Config b)) ->
  (buildWorkerOSSECConfig clusterDomain name ns (Some (ma_Config a)) extra w).1 =
    (buildWorkerOSSECConfig clusterDomain name ns (Some (ma_Config b)) extra w).1.
Proof.
  intros (_ & _ & _ & _ & Ec & En) [ra Ra] [rb Rb]. unfold buildWorkerOSSECConfig, io_wrap, io_bind.
  destruct (manager_config_always ns (Some (ma_Config a)) w) as (pa & wa & ->).
  destruct (manager_config_always ns (Some (ma_Config b)) w) as (pb & wb & ->). cbn [mbind option_bind].
  rewrite <- Ec. destruct (WazuhConfigFromSpec (mc_Config (ma_Config a))) as [[[[g al] lg] rm] au]. cbn in En.
  unfold with_legacy_ref. rewrite En. cbn [mbind option_bind]. rewrite Ra, Rb. reflexivity.
Qed.
Definition built_volumes (o : outcome StatefulSetObject) : list Volume :=
  match o with
  | Returns s => po_Volumes (te_Spec (so_Template s))
  | Panics => []
  end.

Lemma worker_volumes me (a : ManagerSpec) h rules decoders :
  is_quantity (or_default (st_StorageSize (ma_Workers a)) "10Gi") = true ->
  built_volumes (worker_statefulset clusterDomain me (Some a) h rules decoders) =
    own_volumes "worker" (cm_Name me) ++
    (injectAuthdPasswordSecretMount (Some (ma_Config a)) (st_ExtraVolumes (ma_Workers a))
       (st_ExtraVolumeMounts (ma_Workers a))).1 ++ map rule_volume rules ++ map decoder_volume decoders.
Proof.
  intros Hq. unfold worker_statefulset, BuildWorker, BuildManager, stateful_set.
  cbn [bu_StorageSize worker_builder manager_pods]. unfold worker_settings. cbn [fmap option_fmap option_map default from_option id].
  by rewrite Hq.
Qed.

(** C32: a new secret for the enrolment password does not reach the workers.  Two
    resources that refer to different secrets, and are the same otherwise, have the
    same hash input for the workers and the same ossec.conf, so that the check of the
    workers' StatefulSet finds nothing to update; but the StatefulSets are
    different: the running one mounts the old secret, and keeps it. *)
Theorem worker_secret_change_missed (a b : ManagerSpec) (x y : string * string) me h m rules decoders
    {V} (deep_equal : V -> V -> bool) (found desired : PodTemplate V) :
  other_authd_secret a b ->
  is_Some (mc_AuthdPasswordSecretRef (ma_Config a)) -> is_Some (mc_AuthdPasswordSecretRef (ma_Config b)) ->
  authdPasswordSecretRef (Some (ma_Config a)) = Some x -> authdPasswordSecretRef (Some (ma_Config b)) = Some y -> x <> y ->
  no_own_secret (st_ExtraVolumes (ma_Workers a)) (st_ExtraVolumeMounts (ma_Workers a)) ->
  is_quantity (or_default (st_StorageSize (ma_Workers a)) "10Gi") = true ->
  carries_all h m (pt_Annotations found) ->
  deep_equal (pt_Tolerations found) (pt_Tolerations desired) = true ->
  deep_equal (pt_Affinity found) (pt_Affinity desired) = true ->
  worker_spec_input me (Some a) = worker_spec_input me (Some b) /\
  (forall W `(KC : KubeClient W) (w : W), let extra := st_ExtraConfig (ma_Workers a) in
     (buildWorkerOSSECConfig clusterDomain (cm_Name me) (cm_Namespace me) (Some (ma_Config a)) extra w).1 =
     (buildWorkerOSSECConfig clusterDomain (cm_Name me) (cm_Namespace me) (Some (ma_Config b)) extra w).1) /\
  manager_changes deep_equal h m found desired = (false, "") /\
  worker_statefulset clusterDomain me (Some a) h rules decoders <>
    worker_statefulset clusterDomain me (Some b) h rules decoders.
Proof.
  intros Hab Ra Rb Ea Eb Hxy Hown Hq Hc Ht Haf. split_and!.
  - destruct Hab as (E1 & E2 & E3 & E4 & _). unfold worker_spec_input, manager_spec_input, manager_affinity,
      manager_pull_policy, worker_settings, GetReplicas. cbn. by rewrite E1, E2, E3, E4.
  - intros W KC w. by apply worker_conf_same.
  - rewrite manager_changes_joined. apply joined_quiet. destruct Hc as ((Hs & Hce & Hg) & Hr & Hd).
    unfold manager_change_list. repeat constructor; cbn.
    + by apply hash_changed_same.
    + by apply hash_changed_same.
    + by apply hash_changed_same.
    + by rewrite Ht.
    + by rewrite Haf.
    + by rewrite bool_decide_true.
    + by rewrite bool_decide_true.
  - destruct Hab as (E1 & _). intros E%(f_equal built_volumes). destruct x as [s k], y as [s' k'].
    rewrite !worker_volumes in E by (rewrite <- ?E1; done). rewrite <- E1 in E.
    rewrite (injected_volumes _ _ _ _ _ Hown Ea), (injected_volumes _ _ _ _ _ Hown Eb) in E.
    apply app_inv_head, app_inv_tail, app_inv_head in E. by injection E as -> ->.
Qed.

(** Two lists of plugins with the same names, clients and secrets. *)
Definition same_plugins (l l' : list RepositoryPluginConfig) : Prop := map plugin_hash l = map plugin_hash l'.

Lemma same_plugins_names l l' : same_plugins l l' -> map rp_Name l = map rp_Name l'.
Proof. intros H. apply (f_equal (map rh_Name)) in H. by rewrite !map_map in H. Qed.
Lemma map_through {A B C} (f : A -> B) (g : A -> C) l l' :
  (forall a b, g a = g b -> f a = f b) -> map g l = map g l' -> map f l = map f l'.
Proof.
  intros Hf. revert l'. induction l as [|a l IH]; intros [|b l'] E; try done. injection E as E1 E2. cbn.
  by rewrite (Hf _ _ E1), (IH _ E2).
Qed.
Lemma same_plugins_install l l' image :
  same_plugins l l' ->
  BuildInstallInitContainer {| in_Plugins := l; in_IndexerImage := image |} =
    BuildInstallInitContainer {| in_Plugins := l'; in_IndexerImage := image |}.
Proof.
  intros H%same_plugins_names.
  assert (Hc : buildPluginInstallCommands l = buildPluginInstallCommands l').
  { unfold buildPluginInstallCommands. f_equal. eapply map_through; [|exact H]. intros p q E. by rewrite E. }
  unfold BuildInstallInitContainer, install_script. cbn [in_Plugins]. by rewrite H, Hc.
Qed.

Definition template_of (o : outcome StatefulSetObject) : option PodTemplateSpec :=
  match o with
  | Returns s => Some (so_Template s)
  | Panics => None
  end.
Definition built_init (o : outcome StatefulSetObject) : list Container :=
  default [] (po_InitContainers ∘ te_Spec <$> template_of o).
Definition with_plugins (l : list RepositoryPluginConfig) (x : IndexerSpec) : IndexerSpec :=
  {| xs_Pods := xs_Pods x; xs_JavaOpts := xs_JavaOpts x; xs_RepositoryPlugins := l |}.

Lemma indexer_init mapping vm me mon x h :
  is_quantity (or_default (st_StorageSize (xs_Pods x)) "10Gi") = true ->
  built_init (indexer_statefulset mapping vm me mon (Some x) h) =
    indexer_init_containers mapping vm IndexerStatefulSetBuilder (indexer_builder_of me (Some x) h)
      (indexer_cluster me mon (Some x)) ++ st_ExtraInitContainers (xs_Pods x).
Proof.
  intros Hq. unfold indexer_statefulset, BuildIndexer, stateful_set.
  cbn [bu_StorageSize indexer_builder_of]. unfold indexer_settings. cbn [fmap option_fmap option_map default from_option id].
  by rewrite Hq.
Qed.

Lemma plugin_init_containers mapping vm k b c :
  ic_RepositoryPlugins c <> [] ->
  exists l, forall c', ic_Version c' = ic_Version c -> ic_Image c' = ic_Image c -> ic_Monitoring c' = ic_Monitoring c ->
    ic_RepositoryPlugins c' <> [] ->
    indexer_init_containers mapping vm k b c' = l ++
      let i := {| in_Plugins := ic_RepositoryPlugins c'; in_IndexerImage := plugin_image (ic_Version c) (ic_Image c) |} in
      [BuildInstallInitContainer i; BuildKeystoreInitContainer i].
Proof.
  intros _. unfold indexer_init_containers. eexists. intros c' Hv Hi Hm Hp. rewrite app_assoc.
  unfold BuildPluginInstallInitContainerFromSpec, NewFromCluster. rewrite Hv, Hi, Hm.
  destruct (ic_RepositoryPlugins c') as [|p l]; [done|]. reflexivity.
Qed.

(** New keys for a repository's credentials do not reach the indexer.  Two
    resources whose plugins have the same names, clients and secrets, but other
    keys within the secrets, have the same hash input: the check of the indexer's
    StatefulSet finds nothing to update, although the init container that fills the
    keystore would be another. *)
Theorem plugin_keys_change_missed mapping vm me mon x l h m {V} (deep_equal : V -> V -> bool) (found desired : PodTemplate V) :
  same_plugins (xs_RepositoryPlugins x) l ->
  buildKeystoreScript (xs_RepositoryPlugins x) <> buildKeystoreScript l ->
  is_quantity (or_default (st_StorageSize (xs_Pods x)) "10Gi") = true ->
  carries h m (pt_Annotations found) ->
  deep_equal (pt_Tolerations found) (pt_Tolerations desired) = true ->
  deep_equal (pt_Affinity found) (pt_Affinity desired) = true ->
  indexer_spec_input me mon (Some x) = indexer_spec_input me mon (Some (with_plugins l x)) /\
  indexer_changes deep_equal h m found desired = (false, "") /\
  template_of (indexer_statefulset mapping vm me mon (Some x) h) <>
    template_of (indexer_statefulset mapping vm me mon (Some (with_plugins l x)) h).
Proof.
  intros Hs Hk Hq Hc Ht Ha. split_and!.
  - unfold indexer_spec_input. cbn. by rewrite Hs.
  - rewrite indexer_changes_joined. apply joined_quiet. destruct Hc as (? & ? & ?).
    repeat constructor; cbn; rewrite ?Ht, ?Ha; try done; by apply hash_changed_same.
  - intros E. assert (Hi : built_init (indexer_statefulset mapping vm me mon (Some x) h) =
      built_init (indexer_statefulset mapping vm me mon (Some (with_plugins l x)) h)) by (unfold built_init; by rewrite E).
    rewrite !indexer_init in Hi by done. apply app_inv_tail in Hi.
    assert (Hx : xs_RepositoryPlugins x <> []) by (intros Hx; rewrite Hx in *; by destruct l).
    assert (Hl : l <> []) by (intros ->; by destruct (xs_RepositoryPlugins x)).
    destruct (plugin_init_containers mapping vm IndexerStatefulSetBuilder (indexer_builder_of me (Some x) h)
      (indexer_cluster me mon (Some x)) Hx) as [pre Hpre].
    rewrite Hpre in Hi by done. change (indexer_builder_of me (Some (with_plugins l x)) h) with (indexer_builder_of me (Some x) h) in Hi.
    rewrite Hpre in Hi by done. apply app_inv_head in Hi. injection Hi as _ Hi _. done.
Qed.
End Missed.

(** ** What the hash sees and the pods do not *)

Section WithoutEffect.
Context (clusterDomain : string) {Q : Quantities}.

(** Settings that are hashed, for the master and for the workers, and that the
    builders are not told. *)
Definition without_security (s : PodSettings) : PodSettings :=
  {| st_Replicas := st_Replicas s; st_Resources := st_Resources s; st_StorageSize := st_StorageSize s;
     st_StorageClass := st_StorageClass s; st_Image := st_Image s; st_NodeSelector := st_NodeSelector s;
     st_Tolerations := st_Tolerations s; st_Affinity := st_Affinity s; st_AntiAffinity := st_AntiAffinity s;
     st_TopologySpreadConstraints := st_TopologySpreadConstraints s; st_Annotations := st_Annotations s;
     st_PodAnnotations := st_PodAnnotations s; st_ExtraConfig := st_ExtraConfig s; st_ExtraVolumes := st_ExtraVolumes s;
     st_ExtraVolumeMounts := st_ExtraVolumeMounts s; st_ExtraInitContainers := st_ExtraInitContainers s;
     st_ExtraContainers := st_ExtraContainers s; st_Env := st_Env s; st_EnvFrom := st_EnvFrom s;
     st_SecurityContext := None; st_ContainerSecurityContext := None;
     st_TerminationGracePeriodSeconds := st_TerminationGracePeriodSeconds s; st_ServiceAccount := st_ServiceAccount s;
     st_UpdateStrategy := st_UpdateStrategy s |}.
Definition without_env (s : PodSettings) : PodSettings :=
  {| st_Replicas := st_Replicas s; st_Resources := st_Resources s; st_StorageSize := st_StorageSize s;
     st_StorageClass := st_StorageClass s; st_Image := st_Image s; st_NodeSelector := st_NodeSelector s;
     st_Tolerations := st_Tolerations s; st_Affinity := st_Affinity s; st_AntiAffinity := st_AntiAffinity s;
     st_TopologySpreadConstraints := st_TopologySpreadConstraints s; st_Annotations := st_Annotations s;
     st_PodAnnotations := st_PodAnnotations s; st_ExtraConfig := st_ExtraConfig s; st_ExtraVolumes := st_ExtraVolumes s;
     st_ExtraVolumeMounts := st_ExtraVolumeMounts s; st_ExtraInitContainers := st_ExtraInitContainers s;
     st_ExtraContainers := st_ExtraContainers s; st_Env := []; st_EnvFrom := [];
     st_SecurityContext := st_SecurityContext s; st_ContainerSecurityContext := st_ContainerSecurityContext s;
     st_TerminationGracePeriodSeconds := st_TerminationGracePeriodSeconds s; st_ServiceAccount := st_ServiceAccount s;
     st_UpdateStrategy := st_UpdateStrategy s |}.
Definition with_pods (master workers : PodSettings) (a : ManagerSpec) : ManagerSpec :=
  {| ma_Master := master; ma_Workers := workers; ma_WorkerReplicas := ma_WorkerReplicas a; ma_Image := ma_Image a;
     ma_AntiAffinity := ma_AntiAffinity a; ma_Config := ma_Config a |}.

(** Security contexts of the master, and security contexts and the environment
    of the workers, have no effect.  A resource without them has the same
    StatefulSets; but its hash inputs are different ones, so that a change of such a
    setting is announced and rolled out. *)
Theorem settings_without_effect (a : ManagerSpec) me mon h rules decoders :
  let b := with_pods (without_security (ma_Master a)) (without_env (without_security (ma_Workers a))) a in
  master_statefulset clusterDomain me mon (Some b) h rules decoders =
    master_statefulset clusterDomain me mon (Some a) h rules decoders /\
  worker_statefulset clusterDomain me (Some b) h rules decoders =
    worker_statefulset clusterDomain me (Some a) h rules decoders /\
  (master_spec_input me mon (Some b) = master_spec_input me mon (Some a) <->
   st_SecurityContext (ma_Master a) = None /\ st_ContainerSecurityContext (ma_Master a) = None) /\
  (worker_spec_input me (Some b) = worker_spec_input me (Some a) <->
   st_SecurityContext (ma_Workers a) = None /\ st_ContainerSecurityContext (ma_Workers a) = None /\
   st_Env (ma_Workers a) = [] /\ st_EnvFrom (ma_Workers a) = []).
Proof.
  intros b. split_and!; [reflexivity..| |]; split.
  - intros E. split; symmetry; [apply (f_equal si_SecurityContext E)|apply (f_equal si_ContainerSecurityContext E)].
  - intros [E1 E2]. unfold master_spec_input, manager_spec_input. cbn. by rewrite E1, E2.
  - intros E. split_and!; symmetry; [apply (f_equal si_SecurityContext E)|apply (f_equal si_ContainerSecurityContext E)|
      apply (f_equal si_Env E)|apply (f_equal si_EnvFrom E)].
  - intros (E1 & E2 & E3 & E4). unfold worker_spec_input, manager_spec_input. cbn. by rewrite E1, E2, E3, E4.
Qed.
End WithoutEffect.

(** ** Scaling *)

Section Scaling.
Context (clusterDomain : string) {Q : Quantities}.

Definition with_replicas (n : Z) (s : PodSettings) : PodSettings :=
  {| st_Replicas := n; st_Resources := st_Resources s; st_StorageSize := st_StorageSize s;
     st_StorageClass := st_StorageClass s; st_Image := st_Image s; st_NodeSelector := st_NodeSelector s;
     st_Tolerations := st_Tolerations s; st_Affinity := st_Affinity s; st_AntiAffinity := st_AntiAffinity s;
     st_TopologySpreadConstraints := st_TopologySpreadConstraints s; st_Annotations := st_Annotations s;
     st_PodAnnotations := st_PodAnnotations s; st_ExtraConfig := st_ExtraConfig s; st_ExtraVolumes := st_ExtraVolumes s;
     st_ExtraVolumeMounts := st_ExtraVolumeMounts s; st_ExtraInitContainers := st_ExtraInitContainers s;
     st_ExtraContainers := st_ExtraContainers s; st_Env := st_Env s; st_EnvFrom := st_EnvFrom s;
     st_SecurityContext := st_SecurityContext s; st_ContainerSecurityContext := st_ContainerSecurityContext s;
     st_TerminationGracePeriodSeconds := st_TerminationGracePeriodSeconds s; st_ServiceAccount := st_ServiceAccount s;
     st_UpdateStrategy := st_UpdateStrategy s |}.
Definition scaled_indexer (n : Z) (x : IndexerSpec) : IndexerSpec :=
  {| xs_Pods := with_replicas n (xs_Pods x); xs_JavaOpts := xs_JavaOpts x; xs_RepositoryPlugins := xs_RepositoryPlugins x |}.
Definition scaled_workers (n : Z) (a : ManagerSpec) : ManagerSpec :=
  {| ma_Master := ma_Master a; ma_Workers := ma_Workers a; ma_WorkerReplicas := Some n; ma_Image := ma_Image a;
     ma_AntiAffinity := ma_AntiAffinity a; ma_Config := ma_Config a |}.
Definition scaled_dashboard (n : Z) (d : DashboardSpec) : DashboardSpec :=
  {| ds_Pods := with_replicas n (ds_Pods d); ds_EnableSSL := ds_EnableSSL d |}.

Lemma Join_longer sep a l x l' :
  (0 < String.length sep)%nat -> (String.length (Join sep (a :: l)) < String.length (Join sep ((a :: l) ++ x :: l')))%nat.
Proof.
  intros Hs. revert a. induction l as [|b l IH]; intros a.
  - cbn [Join app]. rewrite !append_length. lia.
  - specialize (IH b). cbn [app] in *.
    change (Join sep (a :: b :: l)) with (a +:+ sep +:+ Join sep (b :: l)).
    change (Join sep (a :: b :: l ++ x :: l')) with (a +:+ sep +:+ Join sep (b :: l ++ x :: l')).
    rewrite !append_length. lia.
Qed.

Lemma master_nodes_longer name n n' :
  0 < n < n' -> (String.length (buildInitialMasterNodes name n) < String.length (buildInitialMasterNodes name n'))%nat.
Proof.
  intros H. unfold buildInitialMasterNodes.
  replace (seq 0 (Z.to_nat n')) with (seq 0 (Z.to_nat n) ++ seq (Z.to_nat n) (Z.to_nat n' - Z.to_nat n)).
  2: { rewrite <- seq_app. f_equal. lia. }
  rewrite map_app. destruct (Z.to_nat n) as [|k] eqn:E; [lia|].
  destruct (Z.to_nat n' - S k)%nat as [|k'] eqn:E'; [lia|]. cbn [seq map]. apply Join_longer. cbn. lia.
Qed.
Lemma master_nodes_inj name n n' :
  0 < n -> 0 < n' -> buildInitialMasterNodes name n = buildInitialMasterNodes name n' -> n = n'.
Proof.
  intros H H' E. destruct (Z.lt_trichotomy n n') as [L|[L|L]]; [|done|];
    [pose proof (master_nodes_longer name n n')|pose proof (master_nodes_longer name n' n)]; rewrite E in *; lia.
Qed.

Definition main_env (o : outcome StatefulSetObject) : list EnvVar :=
  match template_of o with
  | None => []
  | Some t =>
      match po_Containers (te_Spec t) with
      | [] => []
      | c :: _ => co_Env c
      end
  end.
Lemma indexer_main_env mapping vm me mon x h :
  is_quantity (or_default (st_StorageSize (xs_Pods x)) "10Gi") = true ->
  main_env (indexer_statefulset mapping vm me mon (Some x) h) =
    indexer_env IndexerStatefulSetBuilder (indexer_builder_of me (Some x) h) (indexer_java_opts (Some x)).
Proof.
  intros Hq. unfold indexer_statefulset, BuildIndexer, stateful_set.
  cbn [bu_StorageSize indexer_builder_of]. unfold indexer_settings. cbn [fmap option_fmap option_map default from_option id].
  by rewrite Hq.
Qed.

(** To scale the indexer is to restart it.  With another number of replicas the
    template of the indexer's pods is another one, since every pod is told the names of
    the initial cluster managers; the templates of the workers and of the dashboard
    do not depend on the number. *)
Theorem scaling_changes_indexer_pods mapping vm me mon x n a d h rules decoders :
  0 < st_Replicas (xs_Pods x) -> 0 < n -> n <> st_Replicas (xs_Pods x) ->
  is_quantity (or_default (st_StorageSize (xs_Pods x)) "10Gi") = true ->
  template_of (indexer_statefulset mapping vm me mon (Some (scaled_indexer n x)) h) <>
    template_of (indexer_statefulset mapping vm me mon (Some x) h) /\
  template_of (worker_statefulset clusterDomain me (Some (scaled_workers n a)) h rules decoders) =
    template_of (worker_statefulset clusterDomain me (Some a) h rules decoders) /\
  do_Template (dashboard_deployment clusterDomain me (Some (scaled_dashboard n d)) h) =
    do_Template (dashboard_deployment clusterDomain me (Some d) h).
Proof.
  intros Hr Hn Hne Hq. split_and!.
  - intros E. assert (Hi : main_env (indexer_statefulset mapping vm me mon (Some (scaled_indexer n x)) h) =
      main_env (indexer_statefulset mapping vm me mon (Some x) h)) by (unfold main_env; by rewrite E).
    rewrite !indexer_main_env in Hi by done. unfold indexer_env in Hi. cbn in Hi.
    injection Hi as Hi. unfold indexer_replicas in Hi. cbn in Hi.
    rewrite (bool_decide_true (0 < n)), (bool_decide_true (0 < st_Replicas (xs_Pods x))) in Hi by done.
    by apply master_nodes_inj in Hi.
  - unfold worker_statefulset, BuildWorker, BuildManager, stateful_set. cbn [bu_StorageSize worker_builder manager_pods].
    cbn [template_of]. by destruct (is_quantity (or_default (st_StorageSize (ma_Workers a)) "10Gi")) eqn:Eq; cbn in *; rewrite Eq.
  - reflexivity.
Qed.
End Scaling.

(** ** Witnesses *)

Definition quiet_hashes (specHash : string) : hashes := plain_hashes "certs" "conf" specHash.
Definition quiet_template (h : hashes) : PodTemplate string :=
  {| pt_Annotations := built_pod_annotations None h; pt_SecurityContext := ""; pt_Tolerations := ""; pt_Affinity := "";
     pt_RuleMounts := []; pt_DecoderMounts := []; pt_Rest := "" |}.
Lemma quiet_carries h :
  h_Rule h = "" -> h_Decoder h = "" -> carries_all h (built_annotations None h) (pt_Annotations (quiet_template h)).
Proof.
  intros Hr Hd. split; [apply built_carries|]. cbn. unfold built_pod_annotations, set_pod_hash. rewrite Hr, Hd. cbn.
  by repeat case_bool_decide.
Qed.
Definition same_text (a b : string) : bool := bool_decide (a = b).
Definition s3_plugin (keys : gmap string string) : RepositoryPluginConfig :=
  {| rp_Name := "repository-s3"; rp_ClientName := "default";
     rp_CredentialsSecret := Some {| rpc_Name := "minio"; rpc_Keys := keys |} |}.
Definition demo_indexer (keys : gmap string string) : IndexerSpec :=
  {| xs_Pods := fast_settings; xs_JavaOpts := ""; xs_RepositoryPlugins := [s3_plugin keys] |}.
Definition demo_dashboard : DashboardSpec := {| ds_Pods := fast_settings; ds_EnableSSL := true |}.


Lemma worker_secret_change_missed_witness :
  let h := quiet_hashes "x" in
  worker_statefulset (Q := every_size) "cluster.local" (demo_meta "a") (Some (demo_manager "old")) h [] [] <>
    worker_statefulset (Q := every_size) "cluster.local" (demo_meta "a") (Some (demo_manager "new")) h [] [].
Proof.
  intros h.
  apply (worker_secret_change_missed "cluster.local" (Q := every_size) (demo_manager "old") (demo_manager "new")
    ("old", "password") ("new", "password") (demo_meta "a") h (built_annotations None h) [] [] same_text
    (quiet_template h) (quiet_template h)).
  - by vm_compute.
  - by eexists.
  - by eexists.
  - reflexivity.
  - reflexivity.
  - discriminate.
  - by split; constructor.
  - reflexivity.
  - by apply quiet_carries.
  - reflexivity.
  - reflexivity.
Defined.

(** The user corrects the name of a key in the secret. *)
Lemma plugin_keys_change_missed_witness :
  let h := quiet_hashes "x" in
  let keys : gmap string string := {["access-key" := "user"]} in
  template_of (indexer_statefulset (Q := every_size) [] 262144 (demo_meta "a") None (Some (demo_indexer ∅)) h) <>
    template_of (indexer_statefulset (Q := every_size) [] 262144 (demo_meta "a") None
      (Some (with_plugins [s3_plugin keys] (demo_indexer ∅))) h).
Proof.
  intros h keys.
  apply (plugin_keys_change_missed (Q := every_size) [] 262144 (demo_meta "a") None (demo_indexer ∅) [s3_plugin keys] h
    (built_annotations None h) same_text (quiet_template h) (quiet_template h)).
  - reflexivity.
  - by vm_compute.
  - reflexivity.
  - by apply quiet_carries.
  - reflexivity.
  - reflexivity.
Defined.

Lemma scaling_changes_indexer_pods_witness :
  let h := quiet_hashes "x" in
  template_of (indexer_statefulset (Q := every_size) [] 262144 (demo_meta "a") None
      (Some (scaled_indexer 4 (demo_indexer ∅))) h) <>
    template_of (indexer_statefulset (Q := every_size) [] 262144 (demo_meta "a") None (Some (demo_indexer ∅)) h).
Proof.
  intros h.
  apply (scaling_changes_indexer_pods "cluster.local" (Q := every_size) [] 262144 (demo_meta "a") None (demo_indexer ∅) 4
    (demo_manager "old") demo_dashboard h [] []).
  - reflexivity.
  - reflexivity.
  - discriminate.
  - reflexivity.
Defined.
