(* ===== verification/ContentChecks.v ===== *)
(** * Checks of custom rules and decoders

    [internal/wazuh/validation/rule_validator.go] and [decoder_validator.go]: the
    names, the XML texts, and the identifiers that are found in the texts with
    regular expressions.  The XML parser is a parameter. *)
From Stdlib Require Import Ascii.
From S2P Require Import Prelude GoStrings Kube Maintenance.
Local Open Scope string_scope.
Local Open Scope list_scope.
Local Open Scope go_scope.

(** ** The regular expressions

    [<TAG[^>]+NAME\s*=\s*["'](VALUE+)["']], with [VALUE] a class of characters
    without quotes, as a function: the engine prefers the leftmost match and,
    among those, the longest run for [[^>]+]; the rest can match in one way only. *)

Definition is_space (c : ascii) : bool := bool_decide (nat_of_ascii c ∈ [9; 10; 12; 13; 32]%nat).
Definition is_quote (c : ascii) : bool := bool_decide (nat_of_ascii c ∈ [34; 39]%nat).
Definition is_digit (c : ascii) : bool := bool_decide (is_Some (digit_value c)).
Definition not_quote (c : ascii) : bool := negb (is_quote c).

(** The longest prefix in a class, and the rest. *)
Fixpoint span (p : ascii -> bool) (s : string) : string * string :=
  match s with
  | "" => ("", "")
  | String c s' => if p c then let '(v, rest) := span p s' in (String c v, rest) else ("", s)
  end.
Definition strip_char (p : ascii -> bool) (s : string) : option string :=
  match s with
  | "" => None
  | String c s' => if p c then Some s' else None
  end.

(** [NAME\s*=\s*["'](VALUE+)["']] at the start: the value and what comes after. *)
Definition attribute (name : string) (value : ascii -> bool) (s : string) : option (string * string) :=
  s ← strip_prefix name s;
  s ← strip_char (Ascii.eqb "=") (span is_space s).2;
  s ← strip_char is_quote (span is_space s).2;
  let '(v, rest) := span value s in
  if bool_decide (v = "") then None else rest ← strip_char is_quote rest; Some (v, rest).

(** [[^>]+] before it *)
Fixpoint in_tag (m : string -> option (string * string)) (s : string) : option (string * string) :=
  match s with
  | "" => None
  | String c s' =>
      if Ascii.eqb c ">" then None
      else match in_tag m s' with
           | Some r => Some r
           | None => m s'
           end
  end.
Definition element (tag name : string) (value : ascii -> bool) (s : string) : option (string * string) :=
  s ← strip_prefix ("<" +:+ tag) s; in_tag (attribute name value) s.

(** [FindAllStringSubmatch]: the search goes on after each match. *)
Fixpoint find_all (m : string -> option (string * string)) (skip : nat) (s : string) : list string :=
  match s with
  | "" => []
  | String c s' =>
      match skip with
      | S skip => find_all m skip s'
      | O => match m s with
             | Some (v, rest) => v :: find_all m (String.length s' - String.length rest) s'
             | None => find_all m 0 s'
             end
      end
  end.

Definition ruleIDRegex (content : string) : list string := find_all (element "rule" "id" is_digit) 0 content.
Definition decoderNameRegex (content : string) : list string := find_all (element "decoder" "name" not_quote) 0 content.

(** [^[a-zA-Z0-9_-]+$] *)
Definition name_char (c : ascii) : bool :=
  let n := nat_of_ascii c in
  (97 <=? n)%nat && (n <=? 122)%nat || (65 <=? n)%nat && (n <=? 90)%nat || (48 <=? n)%nat && (n <=? 57)%nat ||
  bool_decide (n ∈ [95; 45]%nat).
Fixpoint all_chars (p : ascii -> bool) (s : string) : bool :=
  match s with
  | "" => true
  | String c s' => p c && all_chars p s'
  end.
Definition validName (s : string) : bool := negb (bool_decide (s = "")) && all_chars name_char s.

(** ** Results *)

Record ValidationResult := { vr_Valid : bool; vr_Errors : list string }.
Definition note (errors : list string) (r : ValidationResult) : ValidationResult :=
  match errors with
  | [] => r
  | _ => {| vr_Valid := false; vr_Errors := vr_Errors r ++ errors |}
  end.
Definition as_errors (prefix : string) (r : result unit) : list string :=
  match r with
  | Ok _ => []
  | Err e => [prefix +:+ e]
  end.
Definition FormatValidationErrors (errors : list string) : string := Join "; " errors.

(** [encoding/xml]: reading a [group] element with its rules, or an element [root]. *)
Class Xml := {
  unmarshal_group : string -> result unit;
  unmarshal_root : string -> result unit
}.

(** A name used as that of a file. *)
Definition validate_name (kind name : string) : result unit :=
  if bool_decide (name = "") then Err (kind +:+ " name cannot be empty")
  else if negb (validName name) then
    Err (kind +:+ " name '" +:+ name +:+
         "' contains invalid characters (only alphanumeric, underscores, and hyphens allowed)")
  else if (64 <? String.length name)%nat then
    Err (kind +:+ " name '" +:+ name +:+ "' is too long (max 64 characters)")
  else Ok tt.

(** Another resource, as the search for duplicates sees it. *)
Record Other := { ot_Name : string; ot_ClusterRef : string; ot_Content : string }.
Definition duplicates {A} `{EqDecision A} (extract : string -> list A) (say : A -> string -> string)
    (self clusterRef content : string) (others : list Other) : list string :=
  concat (map (fun existing =>
    if bool_decide (ot_Name existing = self) then []
    else if negb (bool_decide (ot_ClusterRef existing = clusterRef)) then []
    else concat (map (fun current =>
           omap (fun id => if bool_decide (current = id) then Some (say current (ot_Name existing)) else None)
             (extract (ot_Content existing))) (extract content))) others).

Section Validators.
Context `{X : Xml}.

(** ** Rules *)

Definition rule_validateXMLSyntax (content : string) : result unit :=
  if bool_decide (content = "") then Err "rule content cannot be empty"
  else if negb (HasPrefix (TrimSpace content) "<") then
    Err "content does not appear to be XML (must start with '<')"
  else
    let parsed :=
      match unmarshal_group content with
      | Ok _ => Ok tt
      | Err e => match unmarshal_root ("<root>" +:+ content +:+ "</root>") with
                 | Ok _ => Ok tt
                 | Err _ => Err (errorf "failed to parse XML" e)
                 end
      end in
    match parsed with
    | Err e => Err e
    | Ok _ =>
        if negb (Contains content "<rule") && negb (Contains content "<group") then
          Err "content must contain at least one <rule> or <group> element"
        else Ok tt
    end.

Definition custom_range (id : Z) : bool := bool_decide (100000 <= id) && bool_decide (id <= 999999).

Definition validateRuleIDs (content : string) (specRuleID : Z) : list string :=
  omap (fun idStr =>
    match Atoi idStr with
    | Err _ => Some ("invalid rule ID format: " +:+ idStr)
    | Ok id => if custom_range id then None
               else Some ("rule ID " +:+ pretty id +:+ " is outside custom range (100000-999999)")
    end) (ruleIDRegex content) ++
  (if negb (bool_decide (specRuleID = 0)) && negb (custom_range specRuleID) then
     ["spec.ruleID " +:+ pretty specRuleID +:+ " is outside custom range (100000-999999)"]
   else []).

Definition validateRuleName (name : string) : result unit := validate_name "rule" name.

Definition extractRuleIDs (content : string) : list Z :=
  omap (fun idStr => match Atoi idStr with Ok id => Some id | Err _ => None end) (ruleIDRegex content).

(** [Validate]; [others] is what the list of the namespace holds, or nothing. *)
Definition validate_rule (name clusterRef ruleName rules : string) (ruleID : Z) (others : option (list Other))
    : ValidationResult :=
  let r := note (as_errors "invalid XML syntax: " (rule_validateXMLSyntax rules)) {| vr_Valid := true; vr_Errors := [] |} in
  let r := note (validateRuleIDs rules ruleID) r in
  let r := note (as_errors "" (validateRuleName ruleName)) r in
  note (match others with
        | None => []
        | Some others =>
            duplicates extractRuleIDs
              (fun id other => "rule ID " +:+ pretty id +:+ " already exists in WazuhRule '" +:+ other +:+ "'")
              name clusterRef rules others
        end) r.

(** ** Decoders *)

Definition decoder_validateXMLSyntax (content : string) : result unit :=
  if bool_decide (content = "") then Err "decoder content cannot be empty"
  else if negb (HasPrefix (TrimSpace content) "<") then
    Err "content does not appear to be XML (must start with '<')"
  else
    match unmarshal_root ("<root>" +:+ content +:+ "</root>") with
    | Err e => Err (errorf "failed to parse XML" e)
    | Ok _ =>
        if negb (Contains content "<decoder") then Err "content must contain at least one <decoder> element"
        else Ok tt
    end.

Definition validateDecoderName (name : string) : result unit := validate_name "decoder" name.

Definition validateDecoderNamesInXML (content : string) : list string :=
  omap (fun name => if validName name then None
                    else Some ("decoder name '" +:+ name +:+ "' in XML contains invalid characters"))
    (decoderNameRegex content).

Definition extractDecoderNames (content : string) : list string := decoderNameRegex content.

Definition validate_decoder (name clusterRef decoderName decoders : string) (others : option (list Other))
    : ValidationResult :=
  let r := note (as_errors "invalid XML syntax: " (decoder_validateXMLSyntax decoders)) {| vr_Valid := true; vr_Errors := [] |} in
  let r := note (as_errors "" (validateDecoderName decoderName)) r in
  let r := note (validateDecoderNamesInXML decoders) r in
  note (match others with
        | None => []
        | Some others =>
            duplicates extractDecoderNames
              (fun n other => "decoder name '" +:+ n +:+ "' already exists in WazuhDecoder '" +:+ other +:+ "'")
              name clusterRef decoders others
        end) r.
End Validators.

(** ** The patterns *)

Lemma strip_prefix_app_inj (p s t : string) : p +:+ s = p +:+ t -> s = t.
Proof. intros H. pose proof (strip_prefix_app p s) as E. rewrite H, strip_prefix_app in E. by simplify_eq. Qed.

(** stdpp keeps [String.append] folded. *)
Ltac simpl_append := repeat (rewrite append_cons in * || change ("" +:+ ?x) with x in *); cbn in *.

Section Pattern.
Context (tag name : string) (value : ascii -> bool).
Context (unquoted : forall c, value c = true -> is_quote c = false).

(** [NAME\s*=\s*["'](VALUE+)["']] as a language *)
Definition attribute_matches (s v rest : string) : Prop :=
  exists w1 w2 q1 q2, s = name +:+ w1 +:+ String "=" (w2 +:+ String q1 (v +:+ String q2 rest)) /\
    all_chars is_space w1 = true /\ all_chars is_space w2 = true /\ is_quote q1 = true /\ is_quote q2 = true /\
    v <> "" /\ all_chars value v = true.
(** The whole pattern, with what [[^>]+] stands for. *)
Definition pattern_matches (s run v rest : string) : Prop :=
  exists s', s = ("<" +:+ tag) +:+ run +:+ s' /\ run <> "" /\ free_of ">" run = true /\ attribute_matches s' v rest.

Lemma span_out p s :
  s = (span p s).1 +:+ (span p s).2 /\ all_chars p (span p s).1 = true /\
  match (span p s).2 with String c _ => p c = false | "" => True end.
Proof.
  induction s as [|c s (E & Hv & Hr)]; cbn [span]; [done|].
  destruct (p c) eqn:Ep; [|done]. destruct (span p s) as [v rest]. cbn [fst snd] in *.
  rewrite append_cons. cbn. by rewrite <- E, Ep.
Qed.
Lemma span_app p v rest : all_chars p v = true -> match rest with String c _ => p c = false | "" => True end ->
  span p (v +:+ rest) = (v, rest).
Proof.
  intros Hv Hr. induction v as [|c v IH]; simpl_append.
  - destruct rest as [|c rest]; cbn; [done|by rewrite Hr].
  - apply andb_true_iff in Hv as [-> Hv]. by rewrite IH.
Qed.

Lemma strip_char_Some p s r : strip_char p s = Some r <-> exists c, s = String c r /\ p c = true.
Proof.
  destruct s as [|c s]; cbn; [naive_solver|]. destruct (p c) eqn:E; split.
  - intros. simplify_eq. eauto.
  - intros (c' & ? & ?). by simplify_eq.
  - done.
  - intros (c' & ? & ?). simplify_eq. congruence.
Qed.

Lemma attribute_iff s v rest : attribute name value s = Some (v, rest) <-> attribute_matches s v rest.
Proof.
  unfold attribute. split.
  - destruct (strip_prefix name s) as [s1|] eqn:E1; [|done]. cbn. apply strip_prefix_Some in E1 as ->.
    destruct (span_out is_space s1) as (E2 & Hw1 & _). destruct (span is_space s1) as [w1 s2]. cbn in *. subst s1.
    destruct (strip_char (Ascii.eqb "=") s2) as [s3|] eqn:E3; [|done]. cbn.
    apply strip_char_Some in E3 as (c & -> & Hc). apply Ascii.eqb_eq in Hc as <-.
    destruct (span_out is_space s3) as (E4 & Hw2 & _). destruct (span is_space s3) as [w2 s4]. cbn in *. subst s3.
    destruct (strip_char is_quote s4) as [s5|] eqn:E5; [|done]. cbn. apply strip_char_Some in E5 as (q1 & -> & Hq1).
    destruct (span_out value s5) as (E6 & Hv & _). destruct (span value s5) as [v' s6]. cbn in *. subst s5.
    case_bool_decide; [done|].
    destruct (strip_char is_quote s6) as [s7|] eqn:E7; [|done]. cbn. apply strip_char_Some in E7 as (q2 & -> & Hq2).
    intros. simplify_eq. by exists w1, w2, q1, q2.
  - intros (w1 & w2 & q1 & q2 & -> & Hw1 & Hw2 & Hq1 & Hq2 & Hv & Hall). rewrite strip_prefix_app. cbn [mbind option_bind].
    rewrite span_app by done. cbn. rewrite span_app; [|done|].
    2: { revert Hq1. clear. destruct q1 as [[] [] [] [] [] [] [] []]; by vm_compute. }
    cbn. rewrite Hq1. cbn. rewrite span_app; [|done|destruct (value q2) eqn:E; [pose proof (unquoted _ E); congruence|done]].
    rewrite bool_decide_eq_false_2 by done. cbn. by rewrite Hq2.
Qed.

Lemma in_tag_None m s :
  in_tag m s = None <-> forall run s', s = run +:+ s' -> run <> "" -> free_of ">" run = true -> m s' = None.
Proof.
  induction s as [|c s IH]; cbn [in_tag].
  - split; [|done]. intros _ run s' E. by destruct run.
  - destruct (Ascii.eqb_spec c ">") as [->|Hc].
    + split; [|done]. intros _ run s' E Hne Hf. destruct run as [|c run]; [done|]. by injection E as <- ->.
    + destruct (in_tag m s) as [r|] eqn:Et.
      * split; [done|]. intros H. apply IH. intros run s' -> Hne Hf.
        apply (H (String c run)); [done|done|]. cbn. by rewrite bool_decide_false, Hf.
      * split.
        -- intros Hm run s' E Hne Hf. destruct run as [|c' run]; [done|]. injection E as <- ->.
           cbn in Hf. apply andb_true_iff in Hf as [_ Hf]. destruct run as [|c2 run]; [done|]. by eapply IH.
        -- intros H. apply (H (String c "")); [done|done|]. cbn. by rewrite bool_decide_false.
Qed.

Lemma in_tag_Some m s r : in_tag m s = Some r ->
  exists run s', s = run +:+ s' /\ run <> "" /\ free_of ">" run = true /\ m s' = Some r /\
    forall longer s'', s = longer +:+ s'' -> free_of ">" longer = true ->
      (String.length run < String.length longer)%nat -> m s'' = None.
Proof.
  revert r. induction s as [|c s IH]; intros r; cbn [in_tag]; [done|]. destruct (Ascii.eqb_spec c ">") as [|Hc]; [done|].
  destruct (in_tag m s) as [r'|] eqn:Et; intros H.
  - simplify_eq. destruct (IH _ eq_refl) as (run & s' & -> & Hne & Hf & Hm & Hmax).
    exists (String c run), s'. split_and!; [done|done|cbn; by rewrite bool_decide_false, Hf|done|].
    intros longer s'' E Hl Hlen. destruct longer as [|c' longer]; cbn in *; [lia|]. injection E as <- E.
    apply andb_true_iff in Hl as [_ Hl]. eapply Hmax; [done|done|lia].
  - exists (String c ""), s. split_and!; [done|done|cbn; by rewrite bool_decide_false|done|].
    intros longer s'' E Hl Hlen. destruct longer as [|c' longer]; cbn in *; [lia|]. injection E as <- ->.
    apply andb_true_iff in Hl as [_ Hl]. rewrite in_tag_None in Et. destruct longer as [|c2 longer]; [cbn in *; lia|].
    by eapply Et.
Qed.

(** the function is the regular expression.  Where the search for an
    attribute answers at a position, the pattern matches there, with that value and
    that rest, and no match has a longer run before the name of the attribute;
    where it does not answer, the pattern does not match. *)
Theorem attribute_search s :
  match element tag name value s with
  | Some (v, rest) =>
      exists run, pattern_matches s run v rest /\
        forall longer v' rest', pattern_matches s longer v' rest' -> (String.length longer <= String.length run)%nat
  | None => forall run v rest, ~ pattern_matches s run v rest
  end.
Proof.
  unfold element, pattern_matches. destruct (strip_prefix ("<" +:+ tag) s) as [s1|] eqn:E1; cbn [mbind option_bind].
  - apply strip_prefix_Some in E1 as ->. destruct (in_tag _ s1) as [[v rest]|] eqn:E2.
    + apply in_tag_Some in E2 as (run & s' & -> & Hne & Hf & Hm & Hmax). exists run. split.
      * exists s'. apply attribute_iff in Hm. done.
      * intros longer v' rest' (s'' & E & _ & Hl & Hm'). apply strip_prefix_app_inj in E.
        destruct (le_lt_dec (String.length longer) (String.length run)); [done|].
        apply attribute_iff in Hm'. rewrite (Hmax longer s'') in Hm' by done. done.
    + intros run v rest (s' & E & Hne & Hf & Hm). apply strip_prefix_app_inj in E.
      apply attribute_iff in Hm. rewrite in_tag_None in E2. by rewrite (E2 run s') in Hm.
  - intros run v rest (s' & -> & _). by rewrite strip_prefix_app in E1.
Qed.
End Pattern.

(** ** The identifiers of a text *)

Lemma find_all_skip m pre s : find_all m (String.length pre) (pre +:+ s) = find_all m 0 s.
Proof. induction pre as [|c pre IH]; simpl_append; [done|exact IH]. Qed.

(** A word without [c] that is not a prefix of [t] is none of [t] and what starts
    with [c] either. *)
Lemma strip_prefix_stop c p t s r :
  free_of c p = true -> match s with String a _ => a = c | "" => True end ->
  strip_prefix p (t +:+ s) = Some r -> HasPrefix t p = true.
Proof.
  revert t. induction p as [|a p IH]; intros t Hp Hs E; [by destruct t|].
  cbn [free_of] in Hp. apply andb_true_iff in Hp as [Ha Hp]. destruct t as [|b t]; simpl_append.
  - destruct s as [|a' s]; [done|]. subst a'. cbn in E. destruct (decide (a = c)) as [->|]; [|done].
    by rewrite bool_decide_true in Ha.
  - destruct (decide (a = b)) as [->|]; [|done]. rewrite bool_decide_true by done. cbn. by eapply IH.
Qed.

Lemma Contains_cons c t sub : Contains (String c t) sub = HasPrefix (String c t) sub || Contains t sub.
Proof. done. Qed.
Lemma Contains_silent c t sub : Contains (String c t) sub = false -> HasPrefix (String c t) sub = false /\ Contains t sub = false.
Proof. rewrite Contains_cons. by intros ?%orb_false_iff. Qed.

Lemma find_all_match m c s pre v rest :
  m (String c s) = Some (v, rest) -> s = pre +:+ rest -> find_all m 0 (String c s) = v :: find_all m 0 rest.
Proof.
  intros Hm ->. cbn [find_all]. rewrite Hm, append_length. f_equal.
  replace (String.length pre + String.length rest - String.length rest)%nat with (String.length pre) by lia.
  apply find_all_skip.
Qed.

Lemma strip_prefix_cons a b p s :
  strip_prefix (String a p) (String b s) = if decide (a = b) then strip_prefix p s else None.
Proof. done. Qed.
Lemma HasPrefix_cons a b p s : HasPrefix (String b s) (String a p) = bool_decide (a = b) && HasPrefix s p.
Proof. done. Qed.

(** A text that does not open a rule is passed over. *)
Lemma find_all_silent text s :
  Contains text "<rule" = false -> match s with String a _ => a = "<"%char | "" => True end ->
  find_all (element "rule" "id" is_digit) 0 (text +:+ s) = find_all (element "rule" "id" is_digit) 0 s.
Proof.
  intros Ht Hs. induction text as [|c text IH]; [done|]. rewrite append_cons. cbn [find_all].
  apply Contains_silent in Ht as [Hp Ht]. unfold element at 1.
  destruct (strip_prefix ("<" +:+ "rule") (String c (text +:+ s))) as [r|] eqn:E; [|cbn; by apply IH].
  exfalso. change ("<" +:+ "rule") with (String "<" "rule") in E. rewrite strip_prefix_cons in E.
  destruct (decide ("<"%char = c)) as [<-|]; [|done].
  apply (strip_prefix_stop "<") in E; [|done|done].
  rewrite HasPrefix_cons, bool_decide_true in Hp by done. cbn [andb] in Hp. congruence.
Qed.

(** The attributes after the identifier. *)
Definition quote : ascii := ascii_of_nat 34.
Definition rule_tag (id : Z) (attributes : string) : string :=
  "<rule id=" +:+ String quote (pretty id +:+ String quote (attributes +:+ ">")).
Definition quiet_attributes (a : string) : bool := free_of ">" a && free_of "<" a && negb (Contains a "id").

(** A text: pieces before the opening tags of the rules, and the rest. *)
Definition rules_text (rules : list (string * Z * string)) (rest : string) : string :=
  foldr (fun '(before, id, attributes) tail => before +:+ rule_tag id attributes +:+ tail) rest rules.

Lemma attribute_id_in value t s :
  HasPrefix t "id" = false -> match s with String a _ => a = ">"%char | "" => True end ->
  attribute "id" value (t +:+ s) = None.
Proof.
  intros Hp Hs. unfold attribute. destruct (strip_prefix "id" (t +:+ s)) as [r|] eqn:E; [|done].
  apply (strip_prefix_stop ">") in E; [congruence|done|done].
Qed.

Lemma in_tag_silent value t s :
  Contains t "id" = false -> in_tag (attribute "id" value) (t +:+ String ">" s) = None.
Proof.
  intros Ht. induction t as [|c t IH]; [done|]. apply Contains_silent in Ht as [_ Ht]. rewrite append_cons. cbn [in_tag].
  rewrite IH by done. destruct (Ascii.eqb c ">"); [done|]. apply attribute_id_in; [|done].
  destruct t as [|c2 t]; [done|]. by apply Contains_silent in Ht as [? _].
Qed.

(** Characters that cannot start the name. *)
Lemma Contains_skip c p w t :
  free_of c w = true -> Contains (w +:+ t) (String c p) = Contains t (String c p).
Proof.
  induction w as [|a w IH]; [done|]. cbn [free_of]. intros [Hc Hw]%andb_true_iff.
  rewrite append_cons, Contains_cons, HasPrefix_cons, IH by done.
  replace (bool_decide (c = a)) with false; [done|].
  symmetry. apply bool_decide_eq_false_2. intros <-. by rewrite bool_decide_true in Hc.
Qed.

Lemma is_digit_not_quote c : is_digit c = true -> is_quote c = false.
Proof. destruct c as [[] [] [] [] [] [] [] []]; by vm_compute. Qed.
Lemma all_digits_chars s : all_digits s = true -> all_chars is_digit s = true.
Proof.
  induction s as [|c s IH]; [done|]. cbn. unfold is_digit at 1. destruct (digit_value c) eqn:E; [|done].
  rewrite bool_decide_eq_true_2 by done. done.
Qed.

Lemma pretty_digits id : 0 <= id -> all_digits (pretty id) = true.
Proof. intros. rewrite pretty_Z_nonneg by done. apply pretty_N_digits. Qed.
Lemma free_of_cons c a s : free_of c (String a s) = negb (bool_decide (a = c)) && free_of c s.
Proof. done. Qed.

Lemma rule_tag_read id a s :
  0 <= id -> quiet_attributes a = true ->
  element "rule" "id" is_digit (rule_tag id a +:+ s) = Some (pretty id, a +:+ String ">" s).
Proof.
  intros Hid [_ Ha2%negb_true_iff]%andb_true_iff. pose proof (pretty_digits id Hid) as Hd.
  set (y := (String "d" (String "=" (String quote (pretty id +:+ String quote ""))) +:+ a)).
  assert (E : rule_tag id a +:+ s = ("<" +:+ "rule") +:+ String " " (String "i" (y +:+ String ">" s))).
  { unfold rule_tag, y. repeat (rewrite append_assoc || simpl_append). done. }
  assert (Hy : Contains y "id" = false).
  { unfold y. rewrite (Contains_skip "i"); [done|].
    rewrite !free_of_cons, free_of_app, (all_digits_free "i") by done. done. }
  unfold element. rewrite E, strip_prefix_app. cbn [mbind option_bind in_tag].
  rewrite in_tag_silent by done. rewrite attribute_id_in; [|by destruct y as [|c y']; [|apply Contains_silent in Hy as [? _]]|done].
  change (Ascii.eqb " " ">") with false. change (Ascii.eqb "i" ">") with false. cbn [negb].
  apply attribute_iff; [exact is_digit_not_quote|]. exists "", "", quote, quote. split_and!; try done.
  - unfold y. repeat (rewrite append_assoc || simpl_append). done.
  - intros H. pose proof (pretty_N_nonempty (Z.to_N id)). by rewrite <- pretty_Z_nonneg in *.
  - by apply all_digits_chars.
Qed.

Lemma rule_tag_shape id a s :
  rule_tag id a +:+ s = String "<" (("rule id=" +:+ String quote (pretty id +:+ String quote "")) +:+ (a +:+ String ">" s)).
Proof. unfold rule_tag. repeat (rewrite append_assoc || simpl_append). done. Qed.

Lemma find_all_rules rules rest :
  Forall (fun '(before, id, attributes) =>
    Contains before "<rule" = false /\ 0 <= id /\ int64 id /\ quiet_attributes attributes = true) rules ->
  Contains rest "<rule" = false -> forall w, free_of "<" w = true ->
  find_all (element "rule" "id" is_digit) 0 (w +:+ rules_text rules rest) = map (fun r => pretty r.1.2) rules.
Proof.
  intros Hl Hrest. induction Hl as [|[[before id] a] l (Hb & Hid & _ & Ha) _ IH]; intros w Hw; cbn [rules_text foldr map fst snd].
  - rewrite <- (append_nil_r (w +:+ rest)), find_all_silent; [done| |done]. by rewrite (Contains_skip "<").
  - fold (rules_text l rest). rewrite <- append_assoc.
    rewrite find_all_silent; [|by rewrite (Contains_skip "<")|done].
    pose proof (rule_tag_read id a (rules_text l rest) Hid Ha) as Er. rewrite rule_tag_shape in *.
    erewrite find_all_match; [|exact Er|done].
    unfold quiet_attributes in Ha. apply andb_true_iff in Ha as [[_ Ha]%andb_true_iff _]. f_equal.
    replace (a +:+ String ">" (rules_text l rest)) with ((a +:+ ">") +:+ rules_text l rest) by by rewrite append_assoc.
    apply IH. rewrite free_of_app, Ha. done.
Qed.

(** identifiers are read back.  From a text with rules, whatever is between
    them as long as it opens none, and whatever their other attributes as long as
    the letters "id" are not in them, the identifiers are extracted as they were
    written, in order. *)
Theorem rule_ids_read_back rules rest :
  Forall (fun '(before, id, attributes) =>
    Contains before "<rule" = false /\ 0 <= id /\ int64 id /\ quiet_attributes attributes = true) rules ->
  Contains rest "<rule" = false ->
  extractRuleIDs (rules_text rules rest) = map (fun r => r.1.2) rules.
Proof.
  intros Hl Hrest. unfold extractRuleIDs, ruleIDRegex.
  rewrite (find_all_rules rules rest Hl Hrest "" eq_refl : find_all _ 0 (rules_text rules rest) = _).
  induction Hl as [|[[before id] a] l (_ & _ & Hi & _) _ IH]; [done|].
  cbn [map omap list_omap fst snd]. rewrite Atoi_pretty by done. by f_equal.
Qed.

(** ** The verdict *)

Lemma note_valid errors r : vr_Valid (note errors r) = true <-> errors = [] /\ vr_Valid r = true.
Proof. destruct errors; cbn; naive_solver. Qed.
Lemma note_errors errors r : vr_Errors (note errors r) = vr_Errors r ++ errors.
Proof. destruct errors; cbn; [by rewrite app_nil_r|done]. Qed.
Lemma as_errors_nil prefix r : as_errors prefix r = [] <-> r = Ok tt.
Proof. destruct r as [[]|e]; naive_solver. Qed.
Lemma omap_nil {A B} (f : A -> option B) l : omap f l = [] <-> Forall (fun a => f a = None) l.
Proof.
  induction l as [|a l IH]; cbn; [done|]. rewrite Forall_cons. destruct (f a) eqn:E; [naive_solver|].
  by rewrite <- IH; split; [intros ->|intros [_ ?]].
Qed.
Lemma concat_map_nil {A B} (f : A -> list B) l : concat (map f l) = [] <-> Forall (fun a => f a = []) l.
Proof.
  induction l as [|a l IH]; cbn; [done|]. rewrite Forall_cons, <- IH. split; [by intros ?%app_nil|by intros [-> ->]].
Qed.

(** A name that can be that of a file and a key of a ConfigMap. *)
Definition file_name (n : string) : Prop :=
  n <> "" /\ all_chars name_char n = true /\ (String.length n <= 64)%nat.
Lemma validate_name_iff kind n : validate_name kind n = Ok tt <-> file_name n.
Proof.
  unfold validate_name, validName, file_name. case_bool_decide; [naive_solver|]. cbn [negb andb].
  destruct (all_chars name_char n); cbn [negb]; [|naive_solver].
  destruct (Nat.ltb_spec 64 (String.length n)); split; [done|lia|intros _|done]. split_and!; [done..|lia].
Qed.

(** No other resource of the cluster has an identifier of this one. *)
Definition no_duplicate {A} (extract : string -> list A) (name clusterRef content : string) (others : option (list Other))
    : Prop :=
  forall l o id, others = Some l -> o ∈ l -> ot_Name o <> name -> ot_ClusterRef o = clusterRef ->
    id ∈ extract content -> id ∉ extract (ot_Content o).

Lemma duplicates_nil {A} `{EqDecision A} (extract : string -> list A) say name clusterRef content others :
  match others with None => [] | Some others => duplicates extract say name clusterRef content others end = [] <->
  no_duplicate extract name clusterRef content others.
Proof.
  unfold no_duplicate. destruct others as [l|]; [|naive_solver]. unfold duplicates. rewrite concat_map_nil, Forall_forall.
  split.
  - intros H l' o id [= <-] Ho Hn Hc Hid Hin. specialize (H o Ho). rewrite !bool_decide_false, bool_decide_true in H by done.
    cbn in H. rewrite concat_map_nil, Forall_forall in H. specialize (H id Hid).
    rewrite omap_nil, Forall_forall in H. specialize (H id Hin). cbn in H. by rewrite bool_decide_true in H.
  - intros H o Ho. case_bool_decide as Hn; [done|]. case_bool_decide as Hc; [|done]. cbn.
    apply concat_map_nil, Forall_forall. intros id Hid. apply omap_nil, Forall_forall. intros id' Hin.
    case_bool_decide; [|done]. subst id'. exfalso. by eapply H.
Qed.

Lemma ids_none rules ruleID :
  validateRuleIDs rules ruleID = [] <->
  Forall (fun s => exists id, Atoi s = Ok id /\ custom_range id = true) (ruleIDRegex rules) /\
  (ruleID = 0 \/ custom_range ruleID = true).
Proof.
  unfold validateRuleIDs. rewrite app_nil, omap_nil. f_equiv.
  - apply Forall_proper; [|done]. intros s. destruct (Atoi s) as [id|e].
    + destruct (custom_range id) eqn:E; split; intros H; [by exists id|done|done|].
      destruct H as (id' & [= <-] & H). congruence.
    + split; [done|]. by intros (? & ? & _).
  - case_bool_decide; cbn [negb andb]; [tauto|]. destruct (custom_range ruleID); split; intros H0; [by right|done|done|].
    by destruct H0.
Qed.

Section Verdict.
Context `{X : Xml}.

Lemma custom_range_iff id : custom_range id = true <-> 100000 <= id <= 999999.
Proof. unfold custom_range. by rewrite andb_true_iff, !bool_decide_eq_true. Qed.

Lemma validate_rule_valid name clusterRef fileName content ruleID others :
  vr_Valid (validate_rule name clusterRef fileName content ruleID others) = true <->
     rule_validateXMLSyntax content = Ok tt /\
     Forall (fun s => exists id, Atoi s = Ok id /\ 100000 <= id <= 999999) (ruleIDRegex content) /\
     (ruleID = 0 \/ 100000 <= ruleID <= 999999) /\ file_name fileName /\
     no_duplicate extractRuleIDs name clusterRef content others.
Proof.
  unfold validate_rule. cbv zeta. rewrite !note_valid, !as_errors_nil, duplicates_nil, ids_none.
  unfold validateRuleName. rewrite validate_name_iff. setoid_rewrite custom_range_iff. cbn. tauto.
Qed.

(** what is accepted.  A rule is valid exactly if its text passes for XML with
    a rule or a group, each identifier found in it is a number between 100000 and
    999999, and so is the one of the resource if it is set, its name can be that of
    a file, and no other resource that was listed for the cluster has one of its
    identifiers.  A decoder is valid exactly if the corresponding conditions hold, on the
    names found in its text.  A resource that is not valid has an error to show. *)
Theorem validation_verdict name clusterRef fileName content ruleID others :
  (vr_Valid (validate_rule name clusterRef fileName content ruleID others) = true <->
     rule_validateXMLSyntax content = Ok tt /\
     Forall (fun s => exists id, Atoi s = Ok id /\ 100000 <= id <= 999999) (ruleIDRegex content) /\
     (ruleID = 0 \/ 100000 <= ruleID <= 999999) /\ file_name fileName /\
     no_duplicate extractRuleIDs name clusterRef content others) /\
  (vr_Valid (validate_decoder name clusterRef fileName content others) = true <->
     decoder_validateXMLSyntax content = Ok tt /\ file_name fileName /\
     Forall (fun n => n <> "" /\ all_chars name_char n = true) (decoderNameRegex content) /\
     no_duplicate extractDecoderNames name clusterRef content others) /\
  (vr_Valid (validate_rule name clusterRef fileName content ruleID others) = false <->
     vr_Errors (validate_rule name clusterRef fileName content ruleID others) <> []) /\
  (vr_Valid (validate_decoder name clusterRef fileName content others) = false <->
     vr_Errors (validate_decoder name clusterRef fileName content others) <> []).
Proof.
  assert (Hv : forall r, (vr_Valid r = true <-> vr_Errors r = []) -> forall e, vr_Valid (note e r) = true <-> vr_Errors (note e r) = []).
  { intros r Hr e. rewrite note_valid, note_errors, app_nil. tauto. }
  assert (Hf : forall r, (vr_Valid r = true <-> vr_Errors r = []) -> vr_Valid r = false <-> vr_Errors r <> []).
  { intros r Hr. rewrite <- Hr. by destruct (vr_Valid r). }
  split_and!.
  - apply validate_rule_valid.
  - unfold validate_decoder. cbv zeta. rewrite !note_valid, !as_errors_nil, duplicates_nil.
    unfold validateDecoderName, validateDecoderNamesInXML. rewrite validate_name_iff, omap_nil.
    assert (Forall (fun a => (if validName a then None else Some ("decoder name '" +:+ a +:+ "' in XML contains invalid characters")) = None)
              (decoderNameRegex content) <-> Forall (fun n => n <> "" /\ all_chars name_char n = true) (decoderNameRegex content)) as ->.
    { apply Forall_proper; [|done]. intros n. unfold validName. case_bool_decide; cbn [negb andb]; [naive_solver|].
      destruct (all_chars name_char n); naive_solver. }
    cbn. tauto.
  - apply Hf. unfold validate_rule. cbv zeta. do 4 apply Hv. done.
  - apply Hf. unfold validate_decoder. cbv zeta. do 4 apply Hv. done.
Qed.
End Verdict.

(** ** Witnesses *)
Section Witnesses.

Lemma attribute_search_witness :
  (forall c, is_digit c = true -> is_quote c = false) /\
  match element "rule" "id" is_digit (rule_tag 100001 "" +:+ "x") with
  | Some (v, rest) =>
      exists run, pattern_matches "rule" "id" is_digit (rule_tag 100001 "" +:+ "x") run v rest /\
        forall longer v' rest', pattern_matches "rule" "id" is_digit (rule_tag 100001 "" +:+ "x") longer v' rest' ->
          (String.length longer <= String.length run)%nat
  | None => False
  end.
Proof.
  split; [exact is_digit_not_quote|].
  pose proof (attribute_search "rule" "id" is_digit is_digit_not_quote (rule_tag 100001 "" +:+ "x")) as H.
  rewrite rule_tag_read in * by done. exact H.
Defined.

Definition two_rules : list (string * Z * string) :=
  [("<group name='local'>", 100001, " level='3'"); ("<description>a</description></rule>", 100002, "")].
Lemma rule_ids_read_back_witness :
  extractRuleIDs (rules_text two_rules "</rule></group>") = [100001; 100002].
Proof.
  apply (rule_ids_read_back two_rules "</rule></group>"); [|reflexivity].
  unfold two_rules. repeat (apply Forall_cons_2; [split_and!; try reflexivity; unfold int64; try lia|]).
  apply Forall_nil_2.
Defined.
End Witnesses.
