(* ===== verification/Contents.v ===== *)
(** * WazuhRule and WazuhDecoder resources

    [internal/wazuh/reconciler/rule_reconciler.go], [decoder_reconciler.go] and
    [controllers/wazuhrule_controller.go], [wazuhdecoder_controller.go].  The two
    reconcilers are the same but for texts, the checks and the way the status
    is written: one model, for a kind of content, and the two kinds.  The
    collection of the resources for a cluster is in [Workload]. *)
From Stdlib Require Import Ascii.
From S2P Require Import Prelude GoStrings Kube Cluster DrainState ClientFactory ScaleDown ClusterStatus Workload.
From S2P Require Import RestAPI OSResources SnapshotAPI Snapshots BackupJobs Backups ContentChecks.
Local Open Scope string_scope.
Local Open Scope list_scope.
Local Open Scope go_scope.

(** ** The resources

    The fields that no code of the operator reads (descriptions, levels, groups,
    priorities, the overwrite flag) are left out. *)

Record WazuhRuleSpec := {
  ru_ClusterRef : WazuhClusterReference;
  ru_RuleName : string;
  ru_Rules : string;
  ru_TargetNodes : string;
  ru_RuleID : Z
}.
Record WazuhDecoderSpec := {
  dc_ClusterRef : WazuhClusterReference;
  dc_DecoderName : string;
  dc_Decoders : string;
  dc_TargetNodes : string
}.
Record ConfigMapReference := { cmr_Name : string; cmr_Namespace : string }.
(** [WazuhRuleStatus], and [WazuhDecoderStatus] with the same fields *)
Record ContentStatus := {
  cts_Phase : string;
  cts_Conditions : list Condition;
  cts_AppliedToNodes : list string;
  cts_ConfigMapRef : option ConfigMapReference;
  cts_LastAppliedTime : option Z;
  cts_ObservedGeneration : Z;
  cts_Message : string;
  cts_ValidationErrors : list string
}.
Definition RulePhasePending : string := "Pending".
Definition RulePhaseApplied : string := "Applied".
Definition RulePhaseFailed : string := "Failed".
Definition ConditionTypeContentReady : string := "Ready".
Definition ConditionTypeConfigMapCreated : string := "ConfigMapCreated".
Definition ConditionTypeValidated : string := "Validated".

Abbreviation content Spec := (custom Spec ContentStatus).

(** A ConfigMap; its owner is left out. *)
Record ConfigMap := { cm_Meta : Named; cm_Data : gmap string string }.
#[export] Instance ConfigMap_owned : Owned ConfigMap := {|
  owned_meta := cm_Meta;
  refresh o e := {| cm_Meta := with_labels (nm_Labels (cm_Meta o)) (cm_Meta e); cm_Data := cm_Data o |}
|}.

(** The list of a namespace. *)
Class ContentLister (W Spec : Type) := list_content : string -> API W (list (content Spec)).

(** What a resource is for the reconciler of the managers. *)
Class ContentSpec (Spec : Type) := {
  content_cluster : Spec -> WazuhClusterReference;
  content_name : Spec -> string;
  content_text : Spec -> string;
  content_nodes : Spec -> string
}.
#[export] Instance rule_content : ContentSpec WazuhRuleSpec := {|
  content_cluster := ru_ClusterRef; content_name := ru_RuleName; content_text := ru_Rules; content_nodes := ru_TargetNodes
|}.
#[export] Instance decoder_content : ContentSpec WazuhDecoderSpec := {|
  content_cluster := dc_ClusterRef; content_name := dc_DecoderName; content_text := dc_Decoders;
  content_nodes := dc_TargetNodes
|}.
Definition other_of {Spec} `{!ContentSpec Spec} (o : content Spec) : Other :=
  {| ot_Name := cu_Name o; ot_ClusterRef := cref_Name (content_cluster (cu_Spec o));
     ot_Content := content_text (cu_Spec o) |}.
Definition custom_content {Spec} `{!ContentSpec Spec} (o : content Spec) : CustomContent :=
  {| cc_Name := cu_Name o; cc_ClusterRef := cref_Name (content_cluster (cu_Spec o));
     cc_Applied := bool_decide (cts_Phase (cu_Status o) = RulePhaseApplied);
     cc_ConfigMapRef := cmr_Name <$> cts_ConfigMapRef (cu_Status o);
     cc_FileStem := content_name (cu_Spec o); cc_Content := content_text (cu_Spec o) |}.

(** The client [Workload] collects with, over the same server. *)
Definition api_map {W A B} (f : A -> B) (m : API W A) : API W B := fun w =>
  let '(r, w') := m w in (match r with Found a => Found (f a) | Failed e => Failed e end, w').
Definition content_client {W} `{!ContentLister W WazuhRuleSpec, !ContentLister W WazuhDecoderSpec} : ContentClient W := {|
  list_rules ns := api_map (map custom_content) (list_content (Spec := WazuhRuleSpec) ns);
  list_decoders ns := api_map (map custom_content) (list_content (Spec := WazuhDecoderSpec) ns)
|}.

(** ** The status *)

Section Status.
Context {CH : ConditionHelper}.

Definition setCondition (now generation : Z) (type status reason message : string) (l : list Condition) : list Condition :=
  SetStatusCondition now l
    {| cn_Type := type; cn_Status := status; cn_Reason := reason; cn_Message := message;
       cn_LastTransitionTime := now; cn_ObservedGeneration := generation |}.

(** A status with another phase and other conditions and errors. *)
Definition judged (phase : string) (conditions : list Condition -> list Condition) (errors : list string)
    (s : ContentStatus) : ContentStatus :=
  {| cts_Phase := phase; cts_Conditions := conditions (cts_Conditions s); cts_AppliedToNodes := cts_AppliedToNodes s;
     cts_ConfigMapRef := cts_ConfigMapRef s; cts_LastAppliedTime := cts_LastAppliedTime s;
     cts_ObservedGeneration := cts_ObservedGeneration s; cts_Message := cts_Message s;
     cts_ValidationErrors := errors |}.

Definition initialised (s : ContentStatus) : ContentStatus :=
  if bool_decide (cts_Phase s = "") then judged RulePhasePending id (cts_ValidationErrors s) s else s.
Definition rejected (Kind : string) (now generation : Z) (errors : list string) : ContentStatus -> ContentStatus :=
  judged RulePhaseFailed (fun l =>
    setCondition now generation ConditionTypeContentReady "False" "ValidationFailed" (Kind +:+ " validation failed")
      (setCondition now generation ConditionTypeValidated "False" "ValidationFailed" (FormatValidationErrors errors) l))
    errors.
Definition accepted (Kind : string) (now generation : Z) (s : ContentStatus) : ContentStatus :=
  judged (cts_Phase s)
    (setCondition now generation ConditionTypeValidated "True" "ValidationPassed" (Kind +:+ " content is valid")) [] s.
Definition cluster_missing (key : string) (now generation : Z) (s : ContentStatus) : ContentStatus :=
  judged RulePhasePending
    (setCondition now generation ConditionTypeContentReady "False" "ClusterNotFound"
       ("Referenced WazuhCluster " +:+ key +:+ " not found"))
    (cts_ValidationErrors s) s.
Definition map_failed (kind : string) (now generation : Z) (e : error) (s : ContentStatus) : ContentStatus :=
  judged RulePhaseFailed (fun l =>
    setCondition now generation ConditionTypeContentReady "False" "ConfigMapFailed"
      ("Failed to create " +:+ kind +:+ " ConfigMap")
      (setCondition now generation ConditionTypeConfigMapCreated "False" "ConfigMapFailed"
         (errorf "Failed to create ConfigMap" e) l))
    (cts_ValidationErrors s) s.
Definition applied (Kind : string) (now generation : Z) (configMap namespace : string) (nodes : list string)
    (s : ContentStatus) : ContentStatus :=
  {| cts_Phase := RulePhaseApplied;
     cts_Conditions :=
       setCondition now generation ConditionTypeContentReady "True" (Kind +:+ "Applied")
         (Kind +:+ " applied to " +:+ pretty (Z.of_nat (length nodes)) +:+ " node(s)")
         (setCondition now generation ConditionTypeConfigMapCreated "True" "ConfigMapCreated"
            ("ConfigMap " +:+ configMap +:+ " created successfully") (cts_Conditions s));
     cts_AppliedToNodes := nodes;
     cts_ConfigMapRef := Some {| cmr_Name := configMap; cmr_Namespace := namespace |};
     cts_LastAppliedTime := Some now; cts_ObservedGeneration := generation; cts_Message := cts_Message s;
     cts_ValidationErrors := cts_ValidationErrors s |}.
End Status.

(** [determineAppliedNodes] *)
Definition worker_count (cluster : WazuhCluster) : Z :=
  match wc_SpecManager cluster with
  | Some m => default 0 (mg_WorkersReplicas m)
  | None => 0
  end.
Definition worker_names (clusterName : string) (n : Z) : list string :=
  map (fun i => clusterName +:+ "-manager-worker-" +:+ pretty (Z.of_nat i)) (seq 0 (Z.to_nat n)).
Definition determineAppliedNodes (targetNodes : string) (cluster : WazuhCluster) : list string :=
  let target := if bool_decide (targetNodes = "") then "all" else targetNodes in
  let master := wc_Name cluster +:+ "-manager-master-0" in
  let workers := worker_names (wc_Name cluster) (worker_count cluster) in
  if bool_decide (target = "master") then [master]
  else if bool_decide (target = "workers") then workers
  else if bool_decide (target = "all") then master :: workers
  else [].

(** ** The reconciler *)

Section Reconciler.
Context {W Spec : Type} `{!ClusterClient W} {CH : ConditionHelper} `{!OwnedClient W ConfigMap}.
Context `{!ContentSpec Spec, !CustomClient W Spec ContentStatus, !ContentLister W Spec}.

(** A kind: its word, small and capital, its checks, and how its status is
    written. *)
Record ContentKind := {
  ck_kind : string;
  ck_Kind : string;
  ck_plural : string;
  ck_validate : content Spec -> option (list Other) -> ValidationResult;
  ck_updateStatus : @OIO W Spec ContentStatus unit
}.
Variable K : ContentKind.

Definition content_config_map (o : content Spec) : ConfigMap :=
  {| cm_Meta := {| nm_Name := cu_Name o +:+ "-" +:+ ck_kind K; nm_Namespace := cu_Namespace o;
                   nm_Labels := {["app.kubernetes.io/name" := "wazuh-" +:+ ck_kind K;
                                  "app.kubernetes.io/instance" := cu_Name o;
                                  "app.kubernetes.io/managed-by" := "wazuh-operator";
                                  "app.kubernetes.io/component" := ck_kind K;
                                  "wazuh.com/cluster" := cref_Name (content_cluster (cu_Spec o))]} |};
     cm_Data := {[content_name (cu_Spec o) +:+ ".xml" := content_text (cu_Spec o)]} |}.

(** The validator's own list; an error is as good as an empty one. *)
Definition validate_content (o : content Spec) : IO W ValidationResult :=
  got <- io_outcome (list_content (cu_Namespace o)) ;;
  io_ret (ck_validate K o (match got with Found l => Some (map other_of l) | Failed _ => None end)).

Definition modify_content (f : Z -> ContentStatus -> ContentStatus) : @OIO W Spec ContentStatus unit :=
  modify_object (fun o => set_custom_status (f (om_Generation (cu_Meta o)) (cu_Status o)) o).

(** [ListRulesForCluster], for the count that is reported as a metric. *)
Definition content_of_cluster (clusterName namespace : string) : IO W (list (content Spec)) :=
  items <- io_wrap ("failed to list " +:+ ck_plural K) (io_api (list_content namespace)) ;;
  io_ret (List.filter (fun o => bool_decide (cref_Name (content_cluster (cu_Spec o)) = clusterName)) items).

Definition reconcile_content (now : Z) : @OIO W Spec ContentStatus unit :=
  modify_status initialised ;;;
  s <- io_get ;;
  let o := s.1 in
  v <- ask (validate_content o) ;;
  if negb (vr_Valid v) then
    modify_content (fun g => rejected (ck_Kind K) now g (vr_Errors v)) ;;; ck_updateStatus K
  else
    modify_content (accepted (ck_Kind K) now) ;;;
    let ref := content_cluster (cu_Spec o) in
    let namespace := ref_namespace ref (cu_Namespace o) in
    let key := namespace +:+ "/" +:+ cref_Name ref in
    cluster <- ask (cluster_named namespace (cref_Name ref)) ;;
    match cluster with
    | Failed e =>
        if IsNotFound e then modify_content (cluster_missing key now) ;;; ck_updateStatus K
        else io_err (errorf ("failed to get referenced WazuhCluster " +:+ key) (api_message e))
    | Found cluster =>
        let configMap := content_config_map o in
        try written <- ask (createOrUpdate configMap) ;;
        match written with
        | Err e =>
            modify_content (fun g => map_failed (ck_kind K) now g e) ;;;
            io_err (errorf ("failed to reconcile " +:+ ck_kind K +:+ " configmap") e)
        | Ok _ =>
            let nodes := determineAppliedNodes (content_nodes (cu_Spec o)) cluster in
            modify_content (fun g => applied (ck_Kind K) now g (nm_Name (cm_Meta configMap)) (cu_Namespace o) nodes) ;;;
            io_wrap ("failed to update " +:+ ck_kind K +:+ " status") (ck_updateStatus K) ;;;
            try _ <- ask (content_of_cluster (cref_Name ref) namespace) ;;
            io_ret tt
        end
    end.

(** The controller: whether it is to be run again. *)
Definition content_finalizer : string := "wazuh" +:+ ck_kind K +:+ ".resources.wazuh.com/finalizer".
Definition handle_content (now : Z) : @OIO W Spec ContentStatus bool :=
  s <- io_get ;;
  if om_Deleting (cu_Meta s.1) then
    (if object_has_finalizer content_finalizer s.1
     then modify_object (drop_finalizer content_finalizer) ;;; update_object else io_ret tt) ;;;
    io_ret false
  else if negb (object_has_finalizer content_finalizer s.1) then
    modify_object (object_finalizers (om_Finalizers (cu_Meta s.1) ++ [content_finalizer])) ;;; update_object ;;;
    io_ret true
  else reconcile_content now ;;; io_ret false.
Definition ContentReconciler (now : Z) (namespace name : string) : @FIO W bool :=
  got <- io_world (io_outcome (get_custom (Spec := Spec) (Status := ContentStatus) namespace name)) ;;
  match got with
  | Failed e => if IsNotFound e then io_ret false else io_err (api_message e)
  | Found o => fun s => let '(r, (_, s')) := handle_content now (o, s) in (r, s')
  end.

(** [findRulesForCluster]: the resources to look at when a cluster changes. *)
Definition find_for_cluster (cluster : WazuhCluster) : IO W (list (string * string)) :=
  got <- io_outcome (list_content (wc_Namespace cluster)) ;;
  match got with
  | Failed _ => io_ret []
  | Found l =>
      io_ret (omap (fun o : content Spec =>
        let ref := content_cluster (cu_Spec o) in
        if bool_decide (cref_Name ref = wc_Name cluster) &&
           bool_decide (ref_namespace ref (cu_Namespace o) = wc_Namespace cluster)
        then Some (cu_Namespace o, cu_Name o) else None) l)
  end.
End Reconciler.
Arguments ContentKind W Spec : clear implicits.

(** ** The two kinds *)
Section Kinds.
Context {W : Type} `{X : Xml} (cancelled : nat -> option error).
Context `{!CustomClient W WazuhRuleSpec ContentStatus, !CustomClient W WazuhDecoderSpec ContentStatus}.

Definition rule_kind : ContentKind W WazuhRuleSpec := {|
  ck_kind := "rule"; ck_Kind := "Rule"; ck_plural := "WazuhRules";
  ck_validate o := validate_rule (cu_Name o) (cref_Name (ru_ClusterRef (cu_Spec o))) (ru_RuleName (cu_Spec o))
                     (ru_Rules (cu_Spec o)) (ru_RuleID (cu_Spec o));
  ck_updateStatus := put_status
|}.

(** The status goes to the object as it is now, again after a conflict. *)
Definition latest_status (o : content WazuhDecoderSpec) : API W ContentStatus :=
  RetryOnConflict cancelled (fun w =>
    match get_custom (cu_Namespace o) (cu_Name o) w with
    | (Failed e, w) => (Failed e, w)
    | (Found latest, w) => api_map cu_Status (update_custom_status (set_custom_status (cu_Status o) latest)) w
    end).
Definition decoder_updateStatus : @OIO W WazuhDecoderSpec ContentStatus unit :=
  s <- io_get ;; st <- ask (io_api (latest_status s.1)) ;; modify_status (fun _ => st).
Definition decoder_kind : ContentKind W WazuhDecoderSpec := {|
  ck_kind := "decoder"; ck_Kind := "Decoder"; ck_plural := "WazuhDecoders";
  ck_validate o := validate_decoder (cu_Name o) (cref_Name (dc_ClusterRef (cu_Spec o))) (dc_DecoderName (cu_Spec o))
                     (dc_Decoders (cu_Spec o));
  ck_updateStatus := decoder_updateStatus
|}.
End Kinds.

(** ** Laws and lemmas *)

(** What is asked of a kind: the object keeps the status it is given, and its
    specification; the status has no part in the checks. *)
Class LawfulKind {W Spec} (K : ContentKind W Spec) : Prop := {
  writes_status : forall o f w, exists r o' w', ck_updateStatus K (o, (f, w)) = (r, (o', (f, w'))) /\
    same_custom o o' /\ cu_Status o' = cu_Status o;
  checks_content : forall o o' l, cu_Name o' = cu_Name o -> cu_Spec o' = cu_Spec o ->
    ck_validate K o' l = ck_validate K o l
}.

Section Kind_laws.
Context {W : Type} `{X : Xml} (cancelled : nat -> option error).
Context `{!CustomClient W WazuhRuleSpec ContentStatus, !CustomClient W WazuhDecoderSpec ContentStatus}.
Context {ER : StatusEcho W WazuhRuleSpec ContentStatus} {ED : StatusEcho W WazuhDecoderSpec ContentStatus}.

#[export] Instance rule_lawful : LawfulKind rule_kind.
Proof.
  split.
  - intros o f w. destruct (put_status_run o f w) as (r & o' & w' & E & Hs & Hst & _). by exists r, o', w'.
  - intros o o' l Hn Hs. cbn. by rewrite Hn, Hs.
Qed.

Lemma latest_status_found o w st w' : latest_status cancelled o w = (Found st, w') -> st = cu_Status o.
Proof.
  intros H. apply RetryOnConflict_spec in H as (n & wn & _ & _ & H). revert H.
  destruct (get_custom _ _ wn) as [[latest|e] w1]; [|done]. unfold api_map.
  destruct (update_custom_status _ w1) as [[o'|e] w2] eqn:E; [|done]. intros [= <- <-].
  apply status_echo in E as (_ & _ & _ & ->). done.
Qed.
#[export] Instance decoder_lawful : LawfulKind (decoder_kind cancelled).
Proof.
  split; [|intros o o' l Hn Hs; cbn; by rewrite Hn, Hs].
  intros o f w. cbn [ck_updateStatus decoder_kind]. unfold decoder_updateStatus. erewrite io_bind_run by reflexivity.
  cbn [fst]. unfold io_bind at 1. rewrite ask_run. unfold io_api.
  destruct (latest_status cancelled o w) as [[st|e] w1] eqn:E; cbn [fst snd].
  - apply latest_status_found in E as ->. eexists _, _, _. split; [reflexivity|]. done.
  - eexists _, _, _. split; [reflexivity|]. done.
Qed.
End Kind_laws.

Section Reconciled.
Context {W Spec : Type} `{!ClusterClient W} {CH : ConditionHelper} `{!OwnedClient W ConfigMap}.
Context `{!ContentSpec Spec, !CustomClient W Spec ContentStatus, !ContentLister W Spec}.
Context (K : ContentKind W Spec) {HK : LawfulKind K}.

Definition content_ref_namespace (o : content Spec) : string :=
  ref_namespace (content_cluster (cu_Spec o)) (cu_Namespace o).
Definition its_cluster (o : content Spec) : API W WazuhCluster :=
  get_cluster (content_ref_namespace o) (cref_Name (content_cluster (cu_Spec o))).

(** A write of the status, and nothing else. *)
Definition wrote_status (w w' : W) : Prop :=
  exists o f r o', ck_updateStatus K (o, (f, w)) = (r, (o', (f, w'))).

(** The ways of a reconcile. *)
Inductive content_way (o : content Spec) (w : W) : result unit -> ContentStatus -> W -> Prop :=
| way_rejected v w1 r st w' : validate_content K o w = (Ok v, w1) -> vr_Valid v = false ->
    wrote_status w1 w' -> cts_Phase st = RulePhaseFailed -> cts_ValidationErrors st = vr_Errors v -> content_way o w r st w'
| way_no_cluster v w1 m w2 r st w' : validate_content K o w = (Ok v, w1) -> vr_Valid v = true ->
    its_cluster o w1 = (Failed (NotFound m), w2) -> wrote_status w2 w' ->
    cts_Phase st = RulePhasePending -> cts_ValidationErrors st = [] -> content_way o w r st w'
| way_cluster_error v w1 e w2 m st : validate_content K o w = (Ok v, w1) -> vr_Valid v = true ->
    its_cluster o w1 = (Failed e, w2) -> IsNotFound e = false -> content_way o w (Err m) st w2
| way_map_failed v w1 c w2 e w3 m st : validate_content K o w = (Ok v, w1) -> vr_Valid v = true ->
    its_cluster o w1 = (Found c, w2) -> createOrUpdate (content_config_map K o) w2 = (Err e, w3) ->
    content_way o w (Err m) st w3
| way_applied v w1 c w2 w3 r st w' : validate_content K o w = (Ok v, w1) -> vr_Valid v = true ->
    its_cluster o w1 = (Found c, w2) -> createOrUpdate (content_config_map K o) w2 = (Ok tt, w3) ->
    cts_Phase st = RulePhaseApplied -> cts_ValidationErrors st = [] ->
    cts_AppliedToNodes st = determineAppliedNodes (content_nodes (cu_Spec o)) c ->
    cts_ConfigMapRef st = Some {| cmr_Name := cu_Name o +:+ "-" +:+ ck_kind K; cmr_Namespace := cu_Namespace o |} ->
    content_way o w r st w'.

Lemma validate_content_status st (o : content Spec) w :
  validate_content K (set_custom_status st o) w = validate_content K o w.
Proof.
  unfold validate_content, io_bind, io_outcome. change (cu_Namespace (set_custom_status st o)) with (cu_Namespace o).
  destruct (list_content _ w) as [r w']. unfold io_ret. by rewrite (checks_content o).
Qed.

Lemma modify_then f g (o : content Spec) s (m : @OIO W Spec ContentStatus unit) :
  io_bind (modify_content f) (fun _ => m) (o, (g, s)) =
  m (set_custom_status (f (om_Generation (cu_Meta o)) (cu_Status o)) o, (g, s)).
Proof. done. Qed.

Lemma reconcile_content_way now (o : content Spec) f w r o' s' :
  reconcile_content K now (o, (f, w)) = (r, (o', s')) -> same_custom o o' /\ content_way o w r (cu_Status o') s'.2.
Proof.
  unfold reconcile_content. erewrite io_bind_run by reflexivity. erewrite io_bind_run by reflexivity.
  cbv zeta. cbn [fst]. set (o1 := set_custom_status (initialised (cu_Status o)) o).
  assert (Hv1 : validate_content K o1 w = validate_content K o w) by by apply validate_content_status.
  unfold io_bind at 1. rewrite ask_run, Hv1.
  destruct (validate_content K o w) as [[v|e] w1] eqn:Ev; cbn [fst snd].
  2: { unfold validate_content, io_bind, io_outcome in Ev. by destruct (list_content _ w) as [[?|?] ?]. }
  destruct (vr_Valid v) eqn:Hv; cbn [negb]; rewrite modify_then.
  2: { set (o2 := set_custom_status _ o1). destruct (writes_status o2 f w1) as (r2 & o3 & w3 & E & Hs & Hc). rewrite E.
       intros. simplify_eq. split; [exact Hs|]. eapply way_rejected; [done|done|by eexists _, _, _, _|by rewrite Hc|by rewrite Hc]. }
  set (o2 := set_custom_status _ o1). cbv zeta. unfold io_bind at 1. rewrite ask_run.
  change (cluster_named _ _ w1) with (io_outcome (its_cluster o) w1). unfold io_outcome.
  destruct (its_cluster o w1) as [[c|e] w2] eqn:Ec; cbn [fst snd].
  2: { destruct (IsNotFound e) eqn:Ee.
       - destruct e; try done. rewrite modify_then. set (o3 := set_custom_status _ o2).
         destruct (writes_status o3 f w2) as (r2 & o4 & w4 & E & Hs & Hc). rewrite E. intros. simplify_eq.
         split; [exact Hs|]. eapply way_no_cluster; [done|done|done|by eexists _, _, _, _|by rewrite Hc|by rewrite Hc].
       - intros [= <- <- <-]. split; [done|]. by eapply way_cluster_error. }
  unfold io_try at 1. rewrite ask_run. change (content_config_map K o1) with (content_config_map K o).
  destruct (createOrUpdate (content_config_map K o) w2) as [[[]|e] w3] eqn:Em; cbn [fst snd].
  2: { rewrite modify_then. intros [= <- <- <-]. split; [done|]. by eapply way_map_failed. }
  rewrite modify_then. set (o3 := set_custom_status _ o2).
  destruct (writes_status o3 f w3) as (r2 & o4 & w4 & E & Hs & Hc). unfold io_bind, io_wrap. rewrite E.
  assert (Happ : forall r w5, content_way o w r (cu_Status o4) w5).
  { intros r5 w5. eapply way_applied; rewrite ?Hc; done. }
  destruct r2 as [[]|e]; cbn [wrapf]; [|intros; simplify_eq; by split].
  unfold io_try. rewrite ask_run. destruct (content_of_cluster _ _ _ w4) as [[l|e] w5]; cbn [fst snd];
    intros [= <- <- <-]; by split.
Qed.


(** *** What is mounted *)

Lemma infos_failed (l : list CustomContent) : Forall (fun c => cc_Applied c = false) l -> infos l = [].
Proof. intros H. apply omap_nil. eapply Forall_impl; [exact H|]. intros c Hc. cbn. by rewrite Hc. Qed.
Lemma infos_app (l k : list CustomContent) : infos (l ++ k) = infos l ++ infos k.
Proof. unfold infos. by rewrite omap_app. Qed.
Lemma failed_not_applied (o : content Spec) :
  cts_Phase (cu_Status o) = RulePhaseFailed -> cc_Applied (custom_content o) = false.
Proof. intros H. apply bool_decide_eq_false_2. by rewrite H. Qed.

(** The server lists what is in the namespace. *)
Definition lists_namespace : Prop :=
  forall ns w l w', list_content ns w = (Found l, w') -> Forall (fun o : content Spec => cu_Namespace o = ns) l.

(** a resource outside the namespace of its cluster is never mounted.  It may
    be Applied, with the nodes it is said to be on; its ConfigMap is in its own
    namespace, neither the collection for the cluster's managers nor the search for
    the resources to look at again when a cluster changes, for any cluster it
    could mean, ever sees an object of that namespace. *)
Theorem foreign_content_not_mounted now (o : content Spec) f w o' s' :
  lists_namespace -> content_ref_namespace o <> cu_Namespace o ->
  reconcile_content K now (o, (f, w)) = (Ok tt, (o', s')) -> cts_Phase (cu_Status o') = RulePhaseApplied ->
  (exists ref, cts_ConfigMapRef (cu_Status o') = Some ref /\ cmr_Namespace ref = cu_Namespace o) /\
  forall c x x', wc_Namespace c = content_ref_namespace o ->
    (forall found, find_for_cluster (Spec := Spec) c x = (Ok found, x') -> forall n, (cu_Namespace o, n) ∉ found) /\
    (forall l, list_content (wc_Namespace c) x = (Found l, x') -> forall p, p ∈ l -> cu_Namespace p <> cu_Namespace o).
Proof.
  intros Hl Hns H Hp. apply reconcile_content_way in H as [_ Hway].
  assert (Hseen : forall c x x', wc_Namespace c = content_ref_namespace o ->
    forall l, list_content (wc_Namespace c) x = (Found l, x') -> forall p : content Spec, p ∈ l -> cu_Namespace p <> cu_Namespace o).
  { intros c x x' Hc l E p Hin E2. apply Hl in E. rewrite Forall_forall in E. apply E in Hin. congruence. }
  inversion Hway; subst; unfold RulePhaseFailed, RulePhasePending, RulePhaseApplied in *; try congruence.
  split; [eexists; split; [done|done]|]. intros c0 x x' Hc. split; [|by eapply Hseen].
  intros found E n Hin. unfold find_for_cluster, io_bind, io_outcome in E.
  destruct (list_content (wc_Namespace c0) x) as [[l|e] x1] eqn:El; [|unfold io_ret in E; simplify_eq; by apply elem_of_nil in Hin].
  unfold io_ret in E. simplify_eq. apply list_elem_of_omap in Hin as (p & Hp' & Hq).
  case_match; [|done]. simplify_eq. by eapply Hseen.
Qed.
End Reconciled.

(** *** Duplicates *)
Section Duplicates.
Context {W : Type} `{X : Xml} `{!ClusterClient W} {CH : ConditionHelper} `{!OwnedClient W ConfigMap}.
Context `{!CustomClient W WazuhRuleSpec ContentStatus, !ContentLister W WazuhRuleSpec}.
Context {ER : StatusEcho W WazuhRuleSpec ContentStatus}.

(** Two rules of a namespace for the same cluster with a common identifier. *)
Definition conflicting (a b : content WazuhRuleSpec) : Prop :=
  cu_Name b <> cu_Name a /\
  cref_Name (ru_ClusterRef (cu_Spec b)) = cref_Name (ru_ClusterRef (cu_Spec a)) /\
  exists id, id ∈ extractRuleIDs (ru_Rules (cu_Spec a)) /\ id ∈ extractRuleIDs (ru_Rules (cu_Spec b)).
Lemma conflicting_sym a b : conflicting a b -> conflicting b a.
Proof. intros (Hn & Hc & id & ? & ?). split_and!; [congruence|done|by exists id]. Qed.

Lemma conflict_fails now (a b : content WazuhRuleSpec) l f w r o' s' w1 :
  conflicting a b -> list_content (cu_Namespace a) w = (Found l, w1) -> b ∈ l ->
  reconcile_content rule_kind now (a, (f, w)) = (r, (o', s')) -> cts_Phase (cu_Status o') = RulePhaseFailed.
Proof.
  intros (Hn & Hc & id & Ha & Hb) Hl Hin H.
  assert (Hv : forall v w2, validate_content rule_kind a w = (Ok v, w2) -> vr_Valid v = false).
  { unfold validate_content, io_bind, io_outcome, io_ret. rewrite Hl. intros v w2 [= <- <-].
    destruct (vr_Valid _) eqn:E; [|done]. apply validate_rule_valid in E as (_ & _ & _ & _ & Hd).
    exfalso. eapply (Hd (map other_of l) (other_of b) id); [done|by apply list_elem_of_fmap_2|done..]. }
  apply reconcile_content_way in H as [_ Hway]; [|exact _].
  destruct Hway as [| v w2 ? ? ? ? ? Hv1 Hv2|v ? ? ? ? ? Hv1 Hv2|v ? ? ? ? ? ? ? Hv1 Hv2|v ? ? ? ? ? ? ? Hv1 Hv2]; [done|..];
    apply Hv in Hv1; congruence.
Qed.

End Duplicates.

(** ** A small server *)
Module SimContents.
Definition world : Type := list (content WazuhRuleSpec) * list ConfigMap.

#[global] Instance xml : Xml := {| unmarshal_group _ := Ok tt; unmarshal_root _ := Ok tt |}.
#[global] Instance conditions : ConditionHelper := fun _ l c => c :: l.
#[global] Instance clusters : ClusterClient world := {
  get_cluster ns n w := (if bool_decide (n = "a") then Found (Sites.cluster "a" None) else Failed (NotFound n), w);
  update_cluster_status c w := (Found tt, w)
}.
Definition replace (o : content WazuhRuleSpec) (w : world) : world :=
  (map (fun p => if bool_decide (cu_Name p = cu_Name o) then o else p) w.1, w.2).
#[global] Instance rules : CustomClient world WazuhRuleSpec ContentStatus := {
  get_custom ns n w := (match find (fun o => bool_decide (cu_Name o = n)) w.1 with
                        | Some o => Found o | None => Failed (NotFound n) end, w);
  update_custom o w := (Found o, replace o w);
  update_custom_status o w := (Found o, replace o w)
}.
#[global] Instance rules_echo : StatusEcho world WazuhRuleSpec ContentStatus.
Proof. intros o w o' w' H. cbn in H. by simplify_eq. Qed.
#[global] Instance lister : ContentLister world WazuhRuleSpec := fun ns w =>
  (Found (List.filter (fun o => bool_decide (cu_Namespace o = ns)) w.1), w).
#[global] Instance maps : OwnedClient world ConfigMap := {
  get_owned ns n w := (match find (fun m => bool_decide (nm_Name (cm_Meta m) = n)) w.2 with
                       | Some m => Found m | None => Failed (NotFound n) end, w);
  create_owned m w := (Found tt, (w.1, m :: w.2));
  update_owned m w := (Found tt, w)
}.

Definition fresh : ContentStatus :=
  {| cts_Phase := ""; cts_Conditions := []; cts_AppliedToNodes := []; cts_ConfigMapRef := None;
     cts_LastAppliedTime := None; cts_ObservedGeneration := 0; cts_Message := ""; cts_ValidationErrors := [] |}.
Definition rule (ns name ref_ns : string) (id : Z) : content WazuhRuleSpec :=
  {| cu_Name := name; cu_Namespace := ns;
     cu_Meta := {| om_Generation := 1; om_Deleting := false; om_Finalizers := [] |};
     cu_Spec := {| ru_ClusterRef := {| cref_Name := "a"; cref_Namespace := ref_ns |}; ru_RuleName := name;
                   ru_Rules := rules_text [("<group name='local'>", id, "")] "</rule></group>"; ru_TargetNodes := "";
                   ru_RuleID := 0 |};
     cu_Status := fresh |}.
Definition first : content WazuhRuleSpec := rule "ns" "first" "" 100001.
Definition second : content WazuhRuleSpec := rule "ns" "second" "" 100001.
Definition foreign : content WazuhRuleSpec := rule "team" "foreign" "ns" 100002.

Definition run (o : content WazuhRuleSpec) (w : world) :=
  reconcile_content (rule_kind (W := world)) 7 (o, (∅, w)).
Definition after (o : content WazuhRuleSpec) (w : world) : content WazuhRuleSpec := (run o w).2.1.

(** A rule of its own is applied; two resources with the same file name are, too. *)
Example first_applied :
  (run first ([first], [])).1 = Ok tt /\ cts_Phase (cu_Status (after first ([first], []))) = RulePhaseApplied.
Proof. by vm_compute. Qed.
Example same_file_accepted :
  let other := set_custom_meta (cu_Meta first)
    {| cu_Name := "copy"; cu_Namespace := "ns"; cu_Meta := cu_Meta first;
       cu_Spec := {| ru_ClusterRef := ru_ClusterRef (cu_Spec first); ru_RuleName := "first";
                     ru_Rules := ru_Rules (cu_Spec foreign); ru_TargetNodes := ""; ru_RuleID := 0 |};
       cu_Status := fresh |} in
  map (fun o => cts_Phase (cu_Status (after o ([first; other], [])))) [first; other] = ["Applied"; "Applied"] /\
  map ci_FileName (infos (map (fun o => custom_content (after o ([first; other], []))) [first; other])) =
    ["first.xml"; "first.xml"].
Proof. by vm_compute. Qed.
End SimContents.

Section Witnesses.
Import SimContents.


Lemma foreign_content_not_mounted_witness :
  cts_Phase (cu_Status (after foreign ([foreign], []))) = RulePhaseApplied /\
  exists ref, cts_ConfigMapRef (cu_Status (after foreign ([foreign], []))) = Some ref /\ cmr_Namespace ref = "team".
Proof.
  split; [by vm_compute|].
  refine (proj1 (foreign_content_not_mounted (rule_kind (W := world)) 7 foreign ∅ ([foreign], [])
    (after foreign ([foreign], [])) (run foreign ([foreign], [])).2.2 _ _ _ _)).
  - intros ns w l w' [= <- <-]. apply List.Forall_forall. intros o [_ H]%List.filter_In. by apply bool_decide_eq_true in H.
  - done.
  - by vm_compute.
  - by vm_compute.
Defined.

End Witnesses.
